(* ===== verification/_CoqProject ===== *)
-Q . S2P
Prelude.v
PyText.v
PyIp.v
IpSpace.v
Float64.v
Json.v
Sha256.v
SplitMerge.v
SplitAnalysis.v
SplitManager.v
WarpFetcher.v
FeedStore.v
FeedService.v
FeedSafety.v
FeedDecisions.v
FeedRefresh.v
FeedFindings.v
IpAllocator.v
TextLines.v
AwgConfig.v
AwgLayout.v
AwgRemoval.v
AwgRefine.v
AwgMarkers.v
AwgPeers.v
AwgAtomic.v
AwgScenarios.v
Triples.v
VpnKeys.v
BackendHealth.v
AwgService.v
KeyRows.v
AwgAccess.v
AwgStartup.v
AwgServiceRuns.v
IsoTime.v
WarpHealth.v
WarpManager.v
WarpSafety.v
WarpConfig.v
TrafficStats.v
TrafficSafety.v
BotDb.v
Accounts.v
AccountSafety.v
BlockSafety.v
RequestSafety.v
Hysteria.v
HysteriaAccess.v
HysteriaIssue.v
HysteriaStore.v
TrialAccess.v
TrialSafety.v
KeyExpiry.v
ExpirySafety.v
ProxyRows.v
DanteUsers.v
Socks5.v
ProxySafety.v
ProxyStartup.v
ProxyIssue.v
ProxyBlock.v
ProxyBeside.v
MtProxy.v
MtProto.v
MtProxySafety.v
MtProxyProcess.v
MtProtoSafety.v
MtProtoAccess.v
ProxyServices.v
MtProtoProcess.v
MtProtoStartup.v
MtProtoIssue.v
MtProtoService.v
ProxyTogether.v
BotScenarios.v
ExpiryScenarios.v
ProxyScenarios.v
MtScenarios.v
