(* ===== verification/Prelude.v ===== *)
(** * vpnbot: a verification development

    vpnbot is a Telegram bot that administers a VPN server. It keeps users with
    roles; it issues them keys for several protocols and accesses to proxies (a row
    in its database, and a peer, a system user or an authentication answer in what
    serves it); it ends them when they expire, when they are revoked or when the
    user is blocked; and it routes a list of IPv4 prefixes through a WARP tunnel.
    Definitions keep the names of the source; a definition's comment says what it
    models when the name does not.

    ** The parts and how they interact

    The foundations.

    - [Prelude]: results, the state-and-exception monad [M], hint databases, lemmas on
      lists. [Triples] is the Hoare logic over [M].
    - [PyText], [PyIp], [IpSpace], [Float64], [Json], [Sha256], [IsoTime],
      [TextLines]: the parts of Python's [str], [ipaddress], [float], [json],
      [hashlib] and [datetime] the program uses. [PyIp] is executable; [IpSpace]
      gives its operations their meaning as sets of addresses.

    The WARP split list. [services/warp_split_feeds.py] runs a cycle on a
    schedule, and carries out the admin's decisions. It downloads the feeds, stores
    what they publish, merges the stored prefixes with the hand-typed ones and the
    exclusions, asks whether the outcome is a safe change of what is routed, and
    applies it, or queues it for the admin.

    - [SplitMerge]: [warp/split_merge.py]; its specification is [wanted], the
      addresses to be routed. [SplitAnalysis]: [warp/split_analysis.py].
    - [SplitManager]: [warp/split_manager.py]; the state is the list file, the
      last endpoint seen and the messages sent.
    - [WarpFetcher]: [adapters/warp_feed_fetcher.py]; the state is the cache.
    - [FeedStore]: the tables of [repositories/warp_split_sources.py], the codecs
      of [warp/feed_state.py], the constraints of [db/schema.sql].
    - [FeedService]: [services/warp_split_feeds.py], over a world made of the
      states above; the theorems about it are in [FeedSafety] (the unattended
      cycle), [FeedDecisions] (the admin's operations), [FeedRefresh] (feeds that
      fail, and the plan) and [FeedFindings] (runs that depart from a comment).

    The WARP tunnel. [warp/manager.py] brings the interface and its routes up and
    down and lets the monitor of [warp/health.py] take the routes away from a dead
    tunnel.

    - [WarpHealth]: [warp/health.py], a probe with its callbacks. [WarpManager]:
      [warp/manager.py], [warp/state.py] and [repositories/warp_settings.py].
      [WarpSafety] has the theorems. [WarpConfig]: [warp/config_validator.py] and
      [warp/proxy_egress.py], the check of the configuration an admin uploads.

    The AWG keys. [services/awg.py] keeps a key's row in the key table and its peer
    in the server's configuration file and in the running interface together, gives
    each key an address of the pool, and refuses changes while the backend is
    degraded. Each peer block the bot writes stands between two marker lines with the
    key's id; everything else in the file belongs to the operator.

    - [IpAllocator]: [adapters/ip_allocator.py]. [BackendHealth]:
      [services/backend_health.py]. [VpnKeys]: the statements on [vpn_keys] and on the
      traffic archive of [repositories/vpn_keys.py].
    - [AwgConfig]: the pure functions of [adapters/awg_config.py] and the checks of
      [adapters/validation.py]. [AwgLayout], [AwgRemoval], [AwgRefine], [AwgMarkers]:
      what these functions do to a parsed configuration.
    - [AwgPeers]: the adapter's operations on the file and the runtime, in the
      direct and in the helper mode; [AwgAtomic] has its theorems and
      [AwgScenarios] a simulated interface.
    - [AwgService]: [services/awg.py]. [KeyRows] says what the table's statements keep,
      [AwgAccess] and [AwgStartup] have the theorems, [AwgServiceRuns] the simulated
      server.

    The users. [services/users.py] decides who may do what, changes roles, and blocks:
    the role first, then every key and every proxy access by the revokers that
    [bot/app.py] hands it. What a revoker promises is the class [ModestRevokers] of
    [AccountSafety], and what it leaves alone the class [Bystanders] of [ProxyBlock],
    against which the block is proved; the Hysteria2 service and those of both proxies
    have their instances.

    - [BotDb]: the tables of the users, the requests, the proxy accesses and the audit,
      their statements ([repositories/users.py], [repositories/access_requests.py],
      [repositories/trial_requests.py], [repositories/audit_log.py]) and
      transactions. Its world [bot_world] holds the key table of [VpnKeys] too, and a
      part of its own for each service that needs one.
    - [Accounts]: [services/users.py], [services/access_approval.py] and
      [services/notes.py]. [AccountSafety], [BlockSafety] and [RequestSafety] have the
      theorems, [BotScenarios] the small worlds they are applied to.

    Hysteria2, trials and expiry. Nothing is applied for a Hysteria2 key: the server
    asks [hy2_auth] at every handshake, which reads the key table through a connection
    of its own. A trial is a key that a superadmin grants once per quota; the expiry
    job revokes keys and sends reminders. Both reach the protocols through an interface
    ([TrialServices] of [TrialSafety], [ExpiryRevokers] of [ExpirySafety]).

    - [Hysteria]: [services/hysteria.py], [hy2_auth/store.py], [hy2_auth/server.py].
      [HysteriaAccess], [HysteriaIssue] and [HysteriaStore] have the theorems, the
      last about the connection.
    - [TrialAccess]: [services/trial_access.py], with [TrialSafety]. [KeyExpiry]:
      [services/key_expiry.py], with [ExpirySafety] and [ExpiryScenarios].

    The SOCKS5 accesses. [services/socks5.py] keeps a row and a system user with a
    password together; revoking locks the user, deleting removes it.

    - [ProxyRows]: the statements of [repositories/proxy_accesses.py]. [DanteUsers]:
      [adapters/dante_users.py], in the direct and in the helper mode; what the
      programs are relied upon for is the class [LinuxTools]. [Socks5]:
      [services/socks5.py].
    - [ProxySafety] has the invariant and what each operation does to it,
      [ProxyStartup] the pass at start-up, [ProxyIssue] what is handed out,
      [ProxyBlock] sequences of operations and the block, [ProxyScenarios] a host.

    The MTProto accesses. [services/mtproto.py] gives each access a secret of its own
    (the managed mode), or all of them the same one (the static mode, where an access is
    a row only). The proxy is a process started with the secrets of a document of the
    bot's ([deploy/run-mtproxy-managed]), which is written anew, with a restart, a backup
    and a rollback, at each change. The host [mt_host] holds the files and the secrets the
    process was started with, if it runs; a restart reads the document.

    - [MtProxy]: [adapters/mtproxy.py], in the direct and in the helper mode. What the
      helper is relied upon for, as to the files, is the class [MtHelper]; what a restart
      and a port that listens mean is [MtService]; and [MtRecovers] is the host on which no
      failure leaves an old process beside a new document. [MtProto]:
      [services/mtproto.py].
    - [MtProxySafety] says what the adapter does to the document, [MtProxyProcess] what it
      does to the process, [MtProtoSafety] has the invariant, [MtProtoAccess] what each
      operation does to it, [MtProtoProcess] that the operations of both services leave the
      process in step, [MtProtoIssue] what is handed out, [MtProtoStartup] the pass at
      start-up, [MtProtoService] sequences of operations; [MtScenarios] is a host with both
      proxies.
    - The two services write the same table of accesses. [ProxyBeside] and its class
      [Beside] say what the operations of one leave alone of what the other's promise is
      about, [ProxyServices] applies it to both, and [ProxyTogether] has the theorems
      about operations of both in any order, and about the block with both revokers.

    The traffic statistics. [TrafficStats]: [services/traffic_stats.py] and
    [repositories/traffic_stats.py]; [TrafficSafety] has the theorems.

    ** What the theorems show

    - Justification: an unattended run writes only after it has judged what the tables
      gave, with a clean verdict or after the confirmations the mode asks for; what it
      writes is what the tables give at the moment of the write, which another operation
      may have changed since ([FeedFindings]); an approval writes
      what was shown or nothing ([FeedSafety], [FeedDecisions]). A helper of the WARP
      module is called for a reason, and the latch is the verdict of the probes alone
      ([WarpSafety]).
    - No access without a row: whichever statement, tool or file operation fails,
      each peer of the bot in the AWG configuration, each system user of the bot's who
      can log in, and each secret of the MTProto proxy's document belongs to a row that
      says access may exist, and so does each secret the proxy runs with, where no failure
      leaves an old process; a key or an access that is handed out works ([AwgAccess],
      [ProxyTogether], [ProxyIssue], [MtProtoIssue]), and a secret that is revoked is
      served no more ([MtProtoService]). The
      Hysteria2 endpoint lets in a token exactly when an active key carries it
      ([HysteriaAccess]).
    - Authority: a role changes only by an operation whose actor may change it; an
      approval is made whole or not at all; the tables stay well formed over any
      sequence of operations ([AccountSafety], [RequestSafety]).
    - A block takes effect: the user is refused at once, the passes end, and what
      outlives them is reported ([BlockSafety]); together with the services, a token, a
      login or a secret that still works is another user's or is reported
      ([HysteriaIssue], [ProxyTogether]).
    - Once: a quota gives one trial, a lead time one reminder ([TrialSafety],
      [ExpirySafety]); the totals of a key are the sum of its hours and never exceed
      what the backend counted ([TrafficSafety]).
    - Feeds that fail: a refresh returns, and takes nothing off the list
      ([FeedRefresh], [WarpFetcher]).
    - Meaning in addresses: the merge, the operations on hand-typed ranges and
      exclusions, the analysis of a change, the guards, [collapse] and the counts
      of a report are characterised by the set of addresses they stand for
      ([SplitMerge], [SplitAnalysis], [SplitManager], [FeedDecisions]).
    - All or nothing: applying a list, adding a peer and removing a peer leave the
      old file or the new one; the errors are characterised ([SplitManager],
      [AwgAtomic]). A failing change of the MTProto secrets that reports its rollback has
      put the files back ([MtProxySafety]).
    - Validation: a WARP configuration is accepted exactly when it has the sections,
      the fields and the ranges that are required and no hook ([WarpConfig]).
    - Refinement: the plan of a run is the specification of the merge applied to
      the stored state; a configuration the bot maintains is a base text and a
      list of peers, on which adding and removing are appending and filtering
      ([FeedRefresh], [AwgRefine], [AwgLayout], [AwgRemoval]).
    - The tables of the feeds: their constraints hold after any sequence of
      operations, and the failure streak counts what it says ([FeedStore]); the
      baseline and the journal follow the list ([FeedSafety]).
    - Start-up: the passes that finish what a crash left half done end, and settle what
      they do not report ([AwgStartup], [ProxyStartup]); the one of MTProto leaves the
      document with the fingerprints of exactly the active rows, and the proxy with no
      others ([MtProtoStartup]).
    - Defects, where a comment of the code says otherwise or the code cannot mean it:
      [AwgMarkers.only_first_marker_is_read],
      [AwgAtomic.cut_reports_refuse_new_peers], [AwgLayout.zone_injects_a_peer],
      [FeedSafety.raised_run_leaves_no_row], [WarpSafety.failed_restore_is_final],
      [HysteriaStore.unopened_swap_strands_the_store],
      [HysteriaStore.missing_file_is_still_read],
      [SplitAnalysis.empty_parse_is_held_without_baseline] and
      [WarpConfig.hook_behind_another_blank_is_accepted] are proved in general;
      [AwgScenarios], [FeedFindings], [BotScenarios], [ExpiryScenarios],
      [ProxyScenarios] and [MtScenarios] show further ones on concrete runs.

    ** Conventions

    - A method is a function from a state to an outcome and a state: what was
      changed before an exception stays changed. Exceptions are inductive types
      with the classes the code tells apart.
    - What lies outside the process is an oracle: a function of a tick that
      advances with each use (clocks, tools, network, the disk's failures, the
      statements' failures, whatever else writes the file meanwhile), so a
      theorem that quantifies over the environment covers every schedule of
      answers. A theorem that needs a tool to do what it documents says so in a
      named hypothesis or class, with a concrete environment for which it holds.
    - A statement of a table either has its effect or fails without one; a
      commit that fails after its write has reached the disk is not modelled.
      Removing a temporary file is taken not to raise.
    - Operations are modelled as the locks of the program serialise them: one
      after another. What happens between two of them is the oracle's choice. A cycle of
      the feeds holds no lock but for the write: at each of its pauses [others] of its
      environment may change the world as the other operations would.
    - An operation that has begun comes to an end; the bot being killed in the middle of
      one is not modelled, save that the passes at start-up are proved from any state that
      the invariants allow.
    - [access_is_accounted] and [created_key_is_live] of [AwgAccess] are about the direct
      mode, on a file that only the bot changes, with tools that leave the file alone
      and generated keys that are not in the operator's part of the file.
    - The audit trail is best effort in the code: [AwgService] leaves it out except where
      failing to write it raises, the files over [BotDb] write its rows. Redaction of
      the tools' output concerns only the text of errors and is left out.
    - A service takes its own part of the world by [Part], and a theorem about the
      composition is stated over a world that has the parts of both.

    ** Bounds and fuel

    Recursion that Python does by a loop is structural wherever the code consumes
    a list. The loops that are not: [remove_loop] and [parse_peer_loop] walk the
    lines of a text with the number of lines as fuel, and consume at least one
    per turn. The batches of [startup_reconcile], of [reconcile_socks5_state], of
    [managed_accesses_by_statuses], of the traffic passes, and the passes of a block
    ([key_turns], [proxy_turns]) have one turn more than the table has rows;
    [AwgStartup.startup_reconcile_ends],
    [ProxyStartup.startup_pass_settles], [MtProtoSafety.mt_managed_run],
    [TrafficSafety.traffic_passes_end] and
    [BlockSafety.block_ends] show this to be enough, by an outcome that is never
    [Unfinished]. [address_exclude] of [PyIp] goes down prefix lengths, of which there
    are 32, and [collapse_addresses] has two turns per network it is given
    ([IpSpace.exclude_loop_spec] and [IpSpace.collapse_merge_spec] show that these
    are enough); the decoder of [Json] has the length of the text. A label is tried
    5 times, a SOCKS5 login 10 times and an MTProto secret 20 times, as in the code, which raises then.
    Addresses are [Z] below 2^32; percentages are computed in binary64, where the
    operands are shown small enough for the comparison to be exact.

    ** Not modelled, and why

    - Of the AWG service: the drift check that follows the start-up pass, the text
      of the key card and the compressed link (a text for the client application).
      Of the split list: the texts of messages and the loop that sleeps between
      runs. Of the users: listing, searching and the recipients of announcements. Of
      the key table: the statements of the other protocols and the statistics.
    - The other keys: Xray (a JSON configuration in place of the text, with clients of
      its own), the bundles of keys and their subscription server, relays.
    - Of the MTProto proxy: the polling of the listening port, the modes of the files and
      the old backups, the staging of the helper's files, the patterns that redact a
      secret in the text of an error. Of the WARP tunnel: the privileged helpers and the
      parsing of the interface's reports. Of both proxies: the lists and counters of
      [services/proxy.py].
    - Aggregation in SQL: the dashboard, online clients, anomaly detection, the counts
      for the superadmin.
    - Announcements, maintenance, server status, off-site backups, health checks,
      protocol modules and their removal: periodic jobs made of external calls.
    - The Telegram interface, the translations and the formatters: texts and
      dispatch. The privileged helpers, deployment and systemd: programs outside
      the process. The database's driver and one-time migrations. *)

From Stdlib Require Export ZArith Lia.
From stdpp Require Export base list gmap sets sorting numbers.
#[global] Open Scope Z_scope.

(** ** Results and the state-and-exception monad

    A Python function that raises is a [result]; a method of an object whose
    attributes it changes, and which may raise, is an [M]: the state reached is
    kept when an exception propagates, as it is in Python. *)

Inductive result (E A : Type) : Type :=
  | Ok (a : A)
  | Err (e : E).
Arguments Ok {E A} a.
Arguments Err {E A} e.

Definition is_ok {E A} (r : result E A) : bool :=
  match r with Ok _ => true | Err _ => false end.

Definition result_bind {E A B} (m : result E A) (k : A -> result E B) : result E B :=
  match m with Ok a => k a | Err e => Err e end.

(** [for x in l: f(x)] where [f] may raise: the first exception wins. *)
Fixpoint iter_result {E A} (f : A -> result E unit) (l : list A) : result E unit :=
  match l with
  | [] => Ok tt
  | x :: l' => match f x with Ok _ => iter_result f l' | Err e => Err e end
  end.

Definition M (S E A : Type) : Type := S -> result E A * S.

Definition ret {S E A} (a : A) : M S E A := fun s => (Ok a, s).
Definition raise {S E A} (e : E) : M S E A := fun s => (Err e, s).
Definition bind {S E A B} (m : M S E A) (k : A -> M S E B) : M S E B :=
  fun s => match m s with
           | (Ok a, s') => k a s'
           | (Err e, s') => (Err e, s')
           end.
Definition get {S E} : M S E S := fun s => (Ok s, s).
Definition gets {S E A} (f : S -> A) : M S E A := fun s => (Ok (f s), s).
Definition modify {S E} (f : S -> S) : M S E unit := fun s => (Ok tt, f s).
Definition lift {S E A} (r : result E A) : M S E A := fun s => (r, s).
(** [try: m except E as e: h(e)]; a handler that re-raises is [raise]. *)
Definition catch {S E A} (m : M S E A) (h : E -> M S E A) : M S E A :=
  fun s => match m s with
           | (Ok a, s') => (Ok a, s')
           | (Err e, s') => h e s'
           end.

Declare Scope py_scope.
Delimit Scope py_scope with py.
Notation "'let!' x ':=' m 'in' k" := (bind m (fun x => k))
  (at level 10, x pattern, m at level 100, k at level 200) : py_scope.
Notation "m ';;!' k" := (bind m (fun _ => k))
  (at level 100, k at level 200, right associativity) : py_scope.
#[global] Open Scope py_scope.

(** [for x in l: f(x)] in the monad, and the list comprehension. *)
Fixpoint mfor {S E A} (f : A -> M S E unit) (l : list A) : M S E unit :=
  match l with
  | [] => ret tt
  | x :: l' => f x ;;! mfor f l'
  end.

Fixpoint mmap {S E A B} (f : A -> M S E B) (l : list A) : M S E (list B) :=
  match l with
  | [] => ret []
  | x :: l' => let! y := f x in let! ys := mmap f l' in ret (y :: ys)
  end.

(** ** Automation *)

Create HintDb pydb discriminated.
#[export] Hint Constructors Forall NoDup : pydb.

(** Turn the boolean tests of the code into propositions. *)
Ltac bool_prop :=
  repeat match goal with
  | H : _ && _ = true |- _ => apply andb_true_iff in H as [? ?]
  | H : _ || _ = false |- _ => apply orb_false_iff in H as [? ?]
  | H : negb _ = true |- _ => apply negb_true_iff in H
  | H : negb _ = false |- _ => apply negb_false_iff in H
  | H : (_ <=? _) = true |- _ => apply Z.leb_le in H
  | H : (_ <=? _) = false |- _ => apply Z.leb_gt in H
  | H : (_ <? _) = true |- _ => apply Z.ltb_lt in H
  | H : (_ <? _) = false |- _ => apply Z.ltb_ge in H
  | H : (_ =? _) = true |- _ => apply Z.eqb_eq in H
  | H : (_ =? _) = false |- _ => apply Z.eqb_neq in H
  | H : bool_decide _ = true |- _ => apply bool_decide_eq_true in H
  | H : bool_decide _ = false |- _ => apply bool_decide_eq_false in H
  end.

(** Case analysis on every [match]/[if] scrutinee of the goal. *)
Ltac split_cases :=
  repeat match goal with
  | |- context [match ?x with _ => _ end] => destruct x eqn:?
  end.

(** ** Shared list lemmas *)

Lemma iter_result_ok {E A} (f : A -> result E unit) (l : list A) :
  iter_result f l = Ok tt <-> Forall (fun x => f x = Ok tt) l.
Proof.
  induction l as [|x l IH]; simpl; [split; auto with pydb|].
  rewrite Forall_cons_iff, <- IH.
  destruct (f x) as [[]|e]; intuition congruence.
Qed.

Lemma iter_result_err {E A} (f : A -> result E unit) (l : list A) e :
  iter_result f l = Err e -> exists x, x ∈ l /\ f x = Err e.
Proof.
  induction l as [|x l IH]; simpl; [discriminate|].
  destruct (f x) as [[]|e'] eqn:Hf; intros H.
  - destruct (IH H) as (y & Hy & Hfy). exists y. split; [by right|done].
  - exists x. split; [by left|congruence].
Qed.

Lemma Forall_filter {A} (P Q : A -> Prop) `{!forall x, Decision (P x)} (l : list A) :
  Forall Q l -> Forall Q (filter P l).
Proof.
  induction 1 as [|x l Hx Hl IH]; [constructor|].
  rewrite filter_cons. case_decide; [by constructor|done].
Qed.

Lemma Forall_elem {A} (P : A -> Prop) (l : list A) : Forall P l <-> forall x, x ∈ l -> P x.
Proof. rewrite Forall_forall. by setoid_rewrite <- list_elem_of_In. Qed.

Lemma filter_sublist {A} (f : A -> bool) (l : list A) : List.filter f l `sublist_of` l.
Proof. induction l as [|x l IH]; simpl; [constructor|]. destruct (f x); by constructor. Qed.

(** What a batch of rows in the order of their ids is to the rest. *)
Lemma map_sublist {A B} (f : A -> B) l1 l2 : l1 `sublist_of` l2 -> map f l1 `sublist_of` map f l2.
Proof. induction 1; cbn; by constructor. Qed.
Lemma last_in {A} (l : list A) : forall x d, List.last (x :: l) d ∈ x :: l.
Proof.
  induction l as [|y l IH]; intros x d; [by left|]. change (List.last (x :: y :: l) d) with (List.last (y :: l) d).
  right. apply IH.
Qed.
Lemma filter_sublist_mono {A} (f : A -> bool) l1 l2 : l1 `sublist_of` l2 -> List.filter f l1 `sublist_of` List.filter f l2.
Proof. induction 1 as [|x l1 l2 _ IH|x l1 l2 _ IH]; cbn; [done| |]; destruct (f x); try done; by constructor. Qed.
Lemma ahead_next last next ids : last < next -> next ∈ ids ->
  (length (List.filter (fun id => (next <? id)%Z) ids) < length (List.filter (fun id => (last <? id)%Z) ids))%nat.
Proof.
  intros Hlt. induction ids as [|id ids IH]; [by intros ?%elem_of_nil|]. intros [<-|Hin]%elem_of_cons; cbn.
  - assert (length (List.filter (fun id => (next <? id)%Z) ids) <= length (List.filter (fun id => (last <? id)%Z) ids))%nat.
    { clear IH. induction ids as [|id ids IH]; [done|]. cbn.
      destruct (Z.ltb_spec next id), (Z.ltb_spec last id); cbn; lia. }
    rewrite Z.ltb_irrefl. destruct (Z.ltb_spec last next); cbn; lia.
  - specialize (IH Hin). destruct (Z.ltb_spec next id), (Z.ltb_spec last id); cbn; lia.
Qed.
Lemma sorted_sublist (l1 l2 : list Z) : l1 `sublist_of` l2 -> StronglySorted Z.lt l2 -> StronglySorted Z.lt l1.
Proof.
  induction 1 as [|x l1 l2 Hl IH|x l1 l2 Hl IH]; intros Hs; [done| |]; apply StronglySorted_inv in Hs as [Hs Hx]; [|auto].
  constructor; [auto|]. rewrite Forall_elem in *. intros y Hy. apply Hx. eapply elem_of_sublist; eauto.
Qed.
Lemma sorted_distinct (l : list Z) : StronglySorted Z.lt l -> NoDup l.
Proof.
  induction 1 as [|x l Hl IH Hx]; constructor; [|done]. intros Hin. rewrite Forall_elem in Hx.
  specialize (Hx x Hin). lia.
Qed.
Lemma filter_none {A} (p : A -> bool) l : (forall a, a ∈ l -> p a = false) -> List.filter p l = [].
Proof. induction l as [|a l IH]; intros H; [done|]. cbn. rewrite (H a) by (by left). apply IH. intros b Hb. apply H. by right. Qed.
Lemma filter_all {A} (p : A -> bool) l : (forall a, a ∈ l -> p a = true) -> List.filter p l = l.
Proof. induction l as [|a l IH]; intros H; [done|]. cbn. rewrite (H a) by (by left). f_equal. apply IH. intros b Hb. apply H. by right. Qed.
Lemma filter_twice {A} (p q : A -> bool) l : List.filter p (List.filter q l) = List.filter (fun a => q a && p a) l.
Proof. induction l as [|a l IH]; [done|]. cbn. destruct (q a); cbn; [destruct (p a); by rewrite IH|exact IH]. Qed.
Lemma sorted_last (l : list Z) d x : StronglySorted Z.lt l -> x ∈ l -> x <= List.last l d.
Proof.
  induction 1 as [|y l Hl IH Hy]; [by intros ?%elem_of_nil|]. intros [->|Hx]%elem_of_cons.
  - destruct l as [|z l]; [cbn; lia|]. pose proof (last_in l z d) as Hin. rewrite Forall_elem in Hy.
    specialize (Hy _ Hin). change (List.last (y :: z :: l) d) with (List.last (z :: l) d). lia.
  - destruct l as [|z l]; [by apply elem_of_nil in Hx|]. by apply IH.
Qed.

(** ** Running a part of the state

    [Part S T] says that a [T] is stored inside an [S]: what the code of one
    component promises the code that contains it. *)

Class Part (S T : Type) := {
  part_get : S -> T;
  part_set : T -> S -> S;
  part_get_set t s : part_get (part_set t s) = t;
  part_set_get s : part_set (part_get s) s = s;
  part_set_set t t' s : part_set t (part_set t' s) = part_set t s }.

(** Two parts of one state: what is stored in the first is not seen in the second. *)
Class Apart (S A B : Type) `{Part S A} `{Part S B} : Prop := apart_get (a : A) (s : S) : (part_get (part_set a s) : B) = part_get s.

(** Run a component's method on its part; its exceptions become the caller's. *)
Definition embed {S T E E' A} `{Part S T} (inj : E -> E') (m : M T E A) : M S E' A :=
  fun s => match m (part_get s) with
           | (Ok a, t) => (Ok a, part_set t s)
           | (Err e, t) => (Err (inj e), part_set t s)
           end.

(** [try: m except ...]: the outcome as a value, the state kept. *)
Definition attempt {S E A} (m : M S E A) : M S E (result E A) :=
  fun s => let '(r, s') := m s in (Ok r, s').

(** ** What a method may change

    [keeps R m]: whatever [m] does, normally or by raising, the state it leaves is
    [R]-related to the one it started from. *)

Definition keeps {S E A} (R : S -> S -> Prop) (m : M S E A) : Prop := forall s, R s (m s).2.

Section Keeps.
Context {S E : Type} (R : S -> S -> Prop) `{!PreOrder R}.

Lemma keeps_ret {A} (a : A) : keeps (E := E) R (ret a).
Proof. intros s. reflexivity. Qed.
Lemma keeps_raise {A} (e : E) : keeps (A := A) R (raise e).
Proof. intros s. reflexivity. Qed.
Lemma keeps_gets {A} (f : S -> A) : keeps (E := E) R (gets f).
Proof. intros s. reflexivity. Qed.
Lemma keeps_lift {A} (r : result E A) : keeps R (lift r).
Proof. intros s. reflexivity. Qed.
Lemma keeps_modify (f : S -> S) : (forall s, R s (f s)) -> keeps (E := E) R (modify f).
Proof. intros H s. apply H. Qed.
Lemma keeps_bind {A B} (m : M S E A) (k : A -> M S E B) :
  keeps R m -> (forall a, keeps R (k a)) -> keeps R (bind m k).
Proof.
  intros Hm Hk s. specialize (Hm s). unfold bind. destruct (m s) as [[a|e] s'] eqn:Em; simpl in *; [|done].
  etransitivity; [exact Hm|apply Hk].
Qed.
Lemma keeps_catch {A} (m : M S E A) (h : E -> M S E A) :
  keeps R m -> (forall e, keeps R (h e)) -> keeps R (catch m h).
Proof.
  intros Hm Hh s. specialize (Hm s). unfold catch. destruct (m s) as [[a|e] s'] eqn:Em; simpl in *; [done|].
  etransitivity; [exact Hm|apply Hh].
Qed.
Lemma keeps_attempt {A} (m : M S E A) : keeps R m -> keeps R (attempt m).
Proof. intros Hm s. specialize (Hm s). unfold attempt. by destruct (m s). Qed.
Lemma keeps_mfor {A} (f : A -> M S E unit) (l : list A) : (forall a, keeps R (f a)) -> keeps R (mfor f l).
Proof.
  intros Hf. induction l as [|a l IH]; simpl; [apply keeps_ret|]. by apply keeps_bind.
Qed.
Lemma keeps_mmap {A B} (f : A -> M S E B) (l : list A) : (forall a, keeps R (f a)) -> keeps R (mmap f l).
Proof.
  intros Hf. induction l as [|a l IH]; simpl; [apply keeps_ret|].
  apply keeps_bind; [done|intros b]. apply keeps_bind; [done|intros bs]. apply keeps_ret.
Qed.
Lemma keeps_embed {T E' A} `{Part S T} (inj : E' -> E) (m : M T E' A) :
  (forall s, R s (part_set (m (part_get s)).2 s)) -> keeps R (embed inj m).
Proof. intros Hm s. specialize (Hm s). unfold embed. by destruct (m (part_get s)) as [[]]. Qed.
End Keeps.

Create HintDb keeps discriminated.
(** Walk through a method's body; the leaves are solved from the database. *)
Ltac keeps_step :=
  match goal with
  | |- forall _, _ => intro
  | |- PreOrder _ => typeclasses eauto
  | |- keeps _ (bind _ _) => apply keeps_bind
  | |- keeps _ (ret _) => apply keeps_ret
  | |- keeps _ (raise _) => apply keeps_raise
  | |- keeps _ (lift _) => apply keeps_lift
  | |- keeps _ (gets _) => apply keeps_gets
  | |- keeps _ (catch _ _) => apply keeps_catch
  | |- keeps _ (attempt _) => apply keeps_attempt
  | |- keeps _ (mfor _ _) => apply keeps_mfor
  | |- keeps _ (mmap _ _) => apply keeps_mmap
  | |- keeps _ (match ?x with _ => _ end) => destruct x
  | |- keeps _ (let '_ := ?x in _) => destruct x
  | |- keeps _ (let _ := _ in _) => cbv zeta
  end.
Ltac keeps_tac := repeat (solve [eauto 3 with keeps nocore] || keeps_step).

(** A bind that has run: its first half returned, or it raised. *)
Lemma bind_inv {S E A B} (m : M S E A) (k : A -> M S E B) s r s' :
  bind m k s = (r, s') ->
  (exists a s1, m s = (Ok a, s1) /\ k a s1 = (r, s')) \/ (exists e, m s = (Err e, s') /\ r = Err e).
Proof.
  unfold bind. destruct (m s) as [[a|e] s1]; [eauto|]. intros [= <- <-]. eauto.
Qed.

(** The run of a method whose result is known. *)
Lemma run_fst {A B} (p : A * B) a : p.1 = a -> p = (a, p.2).
Proof. by destruct p; intros <-. Defined.

Lemma keeps_run {S E A} (R : S -> S -> Prop) (m : M S E A) s r s' :
  keeps R m -> m s = (r, s') -> R s s'.
Proof. intros Hm E0. specialize (Hm s). by rewrite E0 in Hm. Qed.

(** ** Methods that cannot raise *)

Definition never_raises {S E A} (m : M S E A) : Prop := forall s, is_ok (m s).1 = true.

Lemma nr_ret {S E A} (a : A) : never_raises (S := S) (E := E) (ret a).
Proof. done. Qed.
Lemma nr_gets {S E A} (f : S -> A) : never_raises (E := E) (gets f).
Proof. done. Qed.
Lemma nr_modify {S E} (f : S -> S) : never_raises (E := E) (modify f).
Proof. done. Qed.
Lemma nr_attempt {S E A} (m : M S E A) : never_raises (attempt m).
Proof. intros s. unfold attempt. by destruct (m s). Qed.
Lemma nr_bind {S E A B} (m : M S E A) (k : A -> M S E B) :
  never_raises m -> (forall a, never_raises (k a)) -> never_raises (bind m k).
Proof.
  intros Hm Hk s. specialize (Hm s). unfold bind. destruct (m s) as [[a|e] s1]; [apply Hk|done].
Qed.
Lemma nr_mfor {S E A} (f : A -> M S E unit) l : (forall a, never_raises (f a)) -> never_raises (mfor f l).
Proof. intros Hf. induction l; simpl; [apply nr_ret|by apply nr_bind]. Qed.
Lemma nr_mmap {S E A B} (f : A -> M S E B) l : (forall a, never_raises (f a)) -> never_raises (mmap f l).
Proof.
  intros Hf. induction l; simpl; [apply nr_ret|]. apply nr_bind; [done|intros b].
  apply nr_bind; [done|intros bs]. apply nr_ret.
Qed.
Lemma nr_embed {S T E' E A} `{Part S T} (inj : E' -> E) (m : M T E' A) :
  never_raises m -> never_raises (embed inj m).
Proof. intros Hm s. specialize (Hm (part_get s)). unfold embed. by destruct (m (part_get s)) as [[]]. Qed.
Lemma nr_err {S E A} (m : M S E A) s e s' : never_raises m -> m s = (Err e, s') -> False.
Proof. intros Hm H. specialize (Hm s). by rewrite H in Hm. Qed.

Create HintDb total discriminated.
Ltac total_step :=
  match goal with
  | |- forall _, _ => intro
  | |- never_raises (bind _ _) => apply nr_bind
  | |- never_raises (ret _) => apply nr_ret
  | |- never_raises (gets _) => apply nr_gets
  | |- never_raises (modify _) => apply nr_modify
  | |- never_raises (attempt _) => apply nr_attempt
  | |- never_raises (mfor _ _) => apply nr_mfor
  | |- never_raises (mmap _ _) => apply nr_mmap
  | |- never_raises (embed _ _) => apply nr_embed
  | |- never_raises (match ?x with _ => _ end) => destruct x
  | |- never_raises (let _ := _ in _) => cbv zeta
  end.
Ltac total_tac := repeat (solve [eauto 3 with total nocore] || total_step).
