(* ===== verification/PyText.v ===== *)
(** * Python text

    A [str] is the sequence of its Unicode code points. The operations below are
    the methods of [str] the program calls, each written out for the arguments it
    is called with. *)

From S2P Require Export Prelude.
From Stdlib Require Import Ascii String.
From stdpp Require Export strings.
#[local] Open Scope Z_scope.

Abbreviation str := (list N) (only parsing).

(** ** Literals: the UTF-8 bytes of a source literal, decoded *)

Fixpoint utf8_decode (bs : list N) : str :=
  match bs with
  | [] => []
  | b :: r =>
      if (b <? 128)%N then b :: utf8_decode r
      else match r with
           | [] => []
           | c1 :: r1 =>
               if (b <? 224)%N then ((b - 192) * 64 + (c1 - 128))%N :: utf8_decode r1
               else match r1 with
                    | [] => []
                    | c2 :: r2 =>
                        if (b <? 240)%N
                        then ((b - 224) * 4096 + (c1 - 128) * 64 + (c2 - 128))%N :: utf8_decode r2
                        else match r2 with
                             | [] => []
                             | c3 :: r3 =>
                                 ((b - 240) * 262144 + (c1 - 128) * 4096
                                  + (c2 - 128) * 64 + (c3 - 128))%N :: utf8_decode r3
                             end
                    end
           end
  end.

Definition py (s : string) : str :=
  utf8_decode (map N_of_ascii (list_ascii_of_string s)).
Arguments py s%_string.

(** [str.encode('utf-8')] *)
Definition utf8_encode1 (c : N) : list N :=
  (if c <? 128 then [c]
   else if c <? 2048 then [192 + c / 64; 128 + c mod 64]
   else if c <? 65536 then [224 + c / 4096; 128 + (c / 64) mod 64; 128 + c mod 64]
   else [240 + c / 262144; 128 + (c / 4096) mod 64; 128 + (c / 64) mod 64; 128 + c mod 64])%N.
Definition utf8_encode (s : str) : list N := s ≫= utf8_encode1.

(** [bytes.decode('utf-8')], strict: no overlong form, no surrogate, nothing past
    [U+10FFFF]; [None] is [UnicodeDecodeError]. *)
Definition cont (b : N) : option N := if ((128 <=? b) && (b <? 192))%N then Some (b - 128)%N else None.
Fixpoint utf8_strict (bs : list N) : option str :=
  match bs with
  | [] => Some []
  | b :: r =>
      if (b <? 128)%N then s ← utf8_strict r; Some (b :: s)
      else match r with
      | [] => None
      | c1 :: r1 =>
          if ((194 <=? b) && (b <? 224))%N then
            x ← cont c1; s ← utf8_strict r1; Some (((b - 192) * 64 + x)%N :: s)
          else match r1 with
          | [] => None
          | c2 :: r2 =>
              if ((224 <=? b) && (b <? 240))%N then
                x ← cont c1; y ← cont c2;
                let u := ((b - 224) * 4096 + x * 64 + y)%N in
                if ((u <? 2048) || ((55296 <=? u) && (u <=? 57343)))%N then None
                else s ← utf8_strict r2; Some (u :: s)
              else match r2 with
              | [] => None
              | c3 :: r3 =>
                  if ((240 <=? b) && (b <? 245))%N then
                    x ← cont c1; y ← cont c2; z ← cont c3;
                    let u := ((b - 240) * 262144 + x * 4096 + y * 64 + z)%N in
                    if ((u <? 65536) || (1114111 <? u))%N then None
                    else s ← utf8_strict r3; Some (u :: s)
                  else None
              end
          end
      end
  end.

(** ** Characters *)

Definition SLASH : N := 47.
Definition DOT : N := 46.
Definition COLON : N := 58.
Definition HASH : N := 35.
Definition SEMI : N := 59.
Definition COMMA : N := 44.
Definition EQUALS : N := 61.
Definition NEWLINE : N := 10.

(** [str.isspace] of one character. *)
Definition is_space (c : N) : bool :=
  (((9 <=? c) && (c <=? 13)) || ((28 <=? c) && (c <=? 32)) || (c =? 133) || (c =? 160)
   || (c =? 5760) || ((8192 <=? c) && (c <=? 8202)) || (c =? 8232) || (c =? 8233)
   || (c =? 8239) || (c =? 8287) || (c =? 12288))%N.

(** The line boundaries of [str.splitlines]. *)
Definition is_linebreak (c : N) : bool :=
  (((10 <=? c) && (c <=? 13)) || ((28 <=? c) && (c <=? 30)) || (c =? 133)
   || (c =? 8232) || (c =? 8233))%N.

Definition is_digit (c : N) : bool := ((48 <=? c) && (c <=? 57))%N.
Definition is_lower (c : N) : bool := ((97 <=? c) && (c <=? 122))%N.
Definition digit_val (c : N) : Z := Z.of_N c - 48.

(** ** Methods *)

Fixpoint lstrip (s : str) : str :=
  match s with
  | [] => []
  | c :: r => if is_space c then lstrip r else s
  end.
Definition rstrip (s : str) : str := rev (lstrip (rev s)).
Definition strip (s : str) : str := rstrip (lstrip s).

(** [s.split(c)] for a one-character separator. *)
Fixpoint split_char (c : N) (s : str) : list str :=
  match s with
  | [] => [[]]
  | x :: r =>
      if (x =? c)%N then [] :: split_char c r
      else match split_char c r with
           | [] => [[x]]
           | w :: ws => (x :: w) :: ws
           end
  end.

(** [s.partition(c)] as (before, after), [None] when [c] does not occur;
    [before] is also [s.split(c, 1)[0]]. *)
Fixpoint partition_char (c : N) (s : str) : str * option str :=
  match s with
  | [] => ([], None)
  | x :: r =>
      if (x =? c)%N then ([], Some r)
      else let '(b, a) := partition_char c r in (x :: b, a)
  end.
Definition before_char (c : N) (s : str) : str := (partition_char c s).1.

(** [s.split(c, 1)[1]], for an [s] that holds [c]. *)
Definition after_char (c : N) (s : str) : str :=
  match partition_char c s with (_, Some r) => r | (_, None) => [] end.

(** [s.rsplit(c, 1)[0]] *)
Definition before_last_char (c : N) (s : str) : str :=
  match partition_char c (rev s) with
  | (_, Some b) => rev b
  | (_, None) => s
  end.

(** [s.splitlines()]: a trailing line break opens no further line. *)
Fixpoint splitlines_aux (cur : str) (s : str) : list str :=
  match s with
  | [] => match cur with [] => [] | _ => [rev cur] end
  | c :: r =>
      if is_linebreak c then
        match r with
        | d :: r' => if ((c =? 13) && (d =? 10))%N
                     then rev cur :: splitlines_aux [] r'
                     else rev cur :: splitlines_aux [] r
        | [] => [rev cur]
        end
      else splitlines_aux (c :: cur) r
  end.
Definition splitlines (s : str) : list str := splitlines_aux [] s.

(** [s.split()]: the words between runs of whitespace. *)
Fixpoint split_ws_aux (cur : str) (s : str) : list str :=
  match s with
  | [] => match cur with [] => [] | _ => [rev cur] end
  | c :: r =>
      if is_space c
      then match cur with [] => split_ws_aux [] r | _ => rev cur :: split_ws_aux [] r end
      else split_ws_aux (c :: cur) r
  end.
Definition split_ws (s : str) : list str := split_ws_aux [] s.

(** [sep.join(l)] *)
Fixpoint str_join (sep : str) (l : list str) : str :=
  match l with
  | [] => []
  | [x] => x
  | x :: l' => x ++ sep ++ str_join sep l'
  end.

Fixpoint startswith (p s : str) : bool :=
  match p, s with
  | [], _ => true
  | a :: p', b :: s' => (a =? b)%N && startswith p' s'
  | _ :: _, [] => false
  end.

Definition endswith (p s : str) : bool := startswith (rev p) (rev s).
Definition has_char (c : N) (s : str) : bool := existsb (N.eqb c) s.
(** [s.replace(old, new)], for an [old] that is not empty: the occurrences are found from the left and do
    not overlap; [skip] characters belong to the last one found. *)
Fixpoint replace_from (old new : str) (skip : nat) (s : str) : str :=
  match s with
  | [] => []
  | c :: r =>
      match skip with
      | S k => replace_from old new k r
      | O => if startswith old s then new ++ replace_from old new (length old - 1) r
             else c :: replace_from old new O r
      end
  end.

(** [s.strip(chars)] *)
Fixpoint lstrip_chars (chars s : str) : str :=
  match s with
  | [] => []
  | c :: r => if has_char c chars then lstrip_chars chars r else s
  end.
Definition strip_chars (chars s : str) : str :=
  rev (lstrip_chars chars (rev (lstrip_chars chars s))).

(** ** Comparison: [str.__lt__] is lexicographic by code point *)

Fixpoint str_leb (a b : str) : bool :=
  match a, b with
  | [], _ => true
  | _ :: _, [] => false
  | x :: a', y :: b' => (x <? y)%N || ((x =? y)%N && str_leb a' b')
  end.
Definition str_le (a b : str) : Prop := str_leb a b = true.
#[export] Instance str_le_dec : RelDecision str_le.
Proof. intros a b. unfold str_le. apply _. Defined.

#[export] Instance str_le_trans : Transitive str_le.
Proof.
  unfold str_le. intros a. induction a as [|x a IH]; intros [|y b] [|z c]; simpl; try done.
  rewrite !orb_true_iff, !andb_true_iff, !N.ltb_lt, !N.eqb_eq.
  intros [?|[-> ?]] [?|[-> ?]]; [left; lia|by left|by left|right; split; [done|by eapply IH]].
Qed.
#[export] Instance str_le_total : Total str_le.
Proof.
  unfold str_le. intros a. induction a as [|x a IH]; intros [|y b]; simpl; auto.
  destruct (N.ltb_spec x y); [by left|].
  destruct (N.ltb_spec y x); [by right|].
  assert (x = y) as -> by lia. rewrite N.eqb_refl. simpl. apply IH.
Qed.
#[export] Instance str_le_antisymm : AntiSymm (=) str_le.
Proof.
  unfold str_le. intros a. induction a as [|x a IH]; intros [|y b]; simpl; try done.
  rewrite !orb_true_iff, !andb_true_iff, !N.ltb_lt, !N.eqb_eq.
  intros [?|[-> ?]] [?|[? ?]]; try lia. f_equal. by apply IH.
Qed.

(** [sorted(l)] for a list of strings, and [sorted(set(l))]. *)
Definition sorted_strs (l : list str) : list str := merge_sort str_le l.
Definition sorted_set (l : list str) : list str := sorted_strs (remove_dups l).

(** ** Decimal integers *)

(** The decimal digits of a non-negative integer, least significant first. *)
Fixpoint digits_rev (fuel : nat) (n : Z) : str :=
  match fuel with
  | O => []
  | S fuel' =>
      Z.to_N (48 + n mod 10) :: (if n <? 10 then [] else digits_rev fuel' (n / 10))
  end.
(** [str(n)]: [log2 n + 1] bits never need more digits than bits. *)
Definition show_Z (n : Z) : str :=
  if n <? 0 then 45%N :: rev (digits_rev (S (Z.to_nat (Z.log2 (- n)))) (- n))
  else rev (digits_rev (S (Z.to_nat (Z.log2 n))) n).
Definition show_nat (n : nat) : str := show_Z (Z.of_nat n).

(** [s.isascii() and s.isdigit()] *)
Definition all_digits (s : str) : bool :=
  match s with [] => false | _ => forallb is_digit s end.
(** [int(s)] for such an [s]. *)
Definition int_of_digits (s : str) : Z :=
  fold_left (fun acc c => 10 * acc + digit_val c) s 0.
(** [int(s)] for text whose digits are ASCII: an optional sign, single underscores
    between digits, surrounding blanks, at most 4300 digits; [None] is [ValueError]. *)
Definition int_body (s : str) : option Z :=
  let parts := split_char 95 s in
  if forallb all_digits parts && (Z.of_nat (length (concat parts)) <=? 4300)
  then Some (int_of_digits (concat parts)) else None.
Definition int_of_str (s : str) : option Z :=
  match strip s with
  | 45%N :: r => option_map Z.opp (int_body r)
  | 43%N :: r => int_body r
  | r => int_body r
  end.

(** ** Lemmas *)

Lemma split_char_nonempty c s : split_char c s <> [].
Proof. destruct s as [|x s]; simpl; [done|]. by repeat case_match. Qed.

Lemma split_char_none c s : c ∉ s -> split_char c s = [s].
Proof.
  induction s as [|x s IH]; intros H; simpl; [done|].
  apply not_elem_of_cons in H as [Hne Hs].
  destruct (N.eqb_spec x c) as [->|_]; [done|]. by rewrite (IH Hs).
Qed.

Lemma split_char_app c s r :
  c ∉ s -> split_char c (s ++ c :: r) = s :: split_char c r.
Proof.
  induction s as [|x s IH]; intros H; simpl.
  - by rewrite N.eqb_refl.
  - apply not_elem_of_cons in H as [Hne Hs].
    destruct (N.eqb_spec x c) as [->|_]; [done|]. by rewrite (IH Hs).
Qed.

Lemma before_char_none c s : c ∉ s -> before_char c s = s.
Proof.
  unfold before_char. induction s as [|x s IH]; intros H; simpl; [done|].
  apply not_elem_of_cons in H as [Hne Hs].
  destruct (N.eqb_spec x c) as [->|_]; [done|].
  specialize (IH Hs). destruct (partition_char c s). simpl in *. by rewrite IH.
Qed.

Lemma lstrip_nonspace s : Forall (fun c => is_space c = false) s -> lstrip s = s.
Proof. destruct s; simpl; [done|]. intros H. inversion H; subst. by case_match; congruence. Qed.

Lemma strip_nonspace s : Forall (fun c => is_space c = false) s -> strip s = s.
Proof.
  intros H. unfold strip, rstrip. rewrite (lstrip_nonspace s H).
  rewrite lstrip_nonspace; [apply rev_involutive|]. by apply Forall_rev.
Qed.

Lemma splitlines_aux_line cur s r :
  Forall (fun c => is_linebreak c = false) s ->
  splitlines_aux cur (s ++ 10%N :: r) = rev (rev s ++ cur) :: splitlines_aux [] r.
Proof.
  revert cur. induction s as [|x s IH]; intros cur H; simpl.
  - by destruct r.
  - inversion H; subst. rewrite H2, IH by done.
    by rewrite <- !app_assoc.
Qed.

(** A text of newline-terminated lines splits back into its lines. *)
Lemma splitlines_lines l :
  Forall (Forall (fun c => is_linebreak c = false)) l ->
  splitlines (l ≫= (fun x => x ++ [10%N])) = l.
Proof.
  unfold splitlines. induction l as [|x l IH]; intros H; [done|].
  inversion H; subst. csimpl. rewrite <- app_assoc. simpl.
  rewrite splitlines_aux_line by done.
  rewrite app_nil_r, rev_involutive. by rewrite IH.
Qed.

Lemma join_lines l :
  l <> [] -> str_join [10%N] l ++ [10%N] = l ≫= (fun x => x ++ [10%N]).
Proof.
  induction l as [|x l IH]; [done|]. intros _.
  destruct l as [|y l]; [by csimpl; rewrite app_nil_r|].
  change (str_join [10%N] (x :: y :: l)) with (x ++ [10%N] ++ str_join [10%N] (y :: l)).
  change ((x :: y :: l) ≫= (fun x => x ++ [10%N]))
    with ((x ++ [10%N]) ++ ((y :: l) ≫= (fun x => x ++ [10%N]))).
  rewrite <- IH by done. by rewrite <- !app_assoc.
Qed.

Lemma str_join_cons sep x y l : str_join sep (x :: y :: l) = x ++ sep ++ str_join sep (y :: l).
Proof. done. Qed.
(** [c.join(words).split(c) == words], for words without [c]. *)
Lemma str_join_split c words : words <> [] -> Forall (fun w => c ∉ w) words ->
  split_char c (str_join [c] words) = words.
Proof.
  intros Hn H. induction H as [|w ws Hw Hws IH]; [done|]. destruct ws as [|x ws]; [by apply split_char_none|].
  change (str_join [c] (w :: x :: ws)) with (w ++ c :: str_join [c] (x :: ws)).
  rewrite split_char_app by done. by rewrite IH.
Qed.

Lemma partition_char_app c s r : c ∉ s -> partition_char c (s ++ c :: r) = (s, Some r).
Proof.
  induction s as [|x s IH]; intros Hc; cbn; [by rewrite N.eqb_refl|]. apply not_elem_of_cons in Hc as [Hx Hc].
  rewrite (proj2 (N.eqb_neq x c)) by congruence. by rewrite IH.
Qed.
Lemma partition_char_inv c s b r : partition_char c s = (b, Some r) -> s = b ++ c :: r /\ c ∉ b.
Proof.
  revert b. induction s as [|x s IH]; intros b; cbn; [done|]. destruct (N.eqb_spec x c) as [->|Hne].
  - intros [= <- <-]. split; [done|apply not_elem_of_nil].
  - destruct (partition_char c s) as [b' o] eqn:E. intros [= <- ->]. destruct (IH b' eq_refl) as [-> Hb].
    split; [done|]. apply not_elem_of_cons. split; [congruence|done].
Qed.

Lemma sorted_set_elem x l : x ∈ sorted_set l <-> x ∈ l.
Proof.
  unfold sorted_set, sorted_strs.
  rewrite merge_sort_Permutation. apply elem_of_remove_dups.
Qed.

(** [sorted(set(l))] depends only on the members of [l]. *)
Lemma sorted_set_ext l1 l2 :
  (forall x, x ∈ l1 <-> x ∈ l2) -> sorted_set l1 = sorted_set l2.
Proof.
  intros H. apply (Sorted_unique str_le).
  - apply Sorted_merge_sort; apply _.
  - apply Sorted_merge_sort; apply _.
  - unfold sorted_set, sorted_strs. rewrite !merge_sort_Permutation.
    apply NoDup_Permutation; [apply NoDup_remove_dups..|].
    intros x. rewrite !elem_of_remove_dups. apply H.
Qed.

Lemma sorted_set_nil l : sorted_set l = [] <-> l = [].
Proof.
  split; [|by intros ->]. intros H. destruct l as [|x l]; [done|].
  assert (x ∈ sorted_set (x :: l)) as Hx by (apply sorted_set_elem; by left).
  rewrite H in Hx. by apply not_elem_of_nil in Hx.
Qed.

Example py_ascii : py "a/b" = [97%N; 47%N; 98%N].
Proof. reflexivity. Qed.
Example show_255 : show_Z 255 = py "255".
Proof. reflexivity. Qed.
Example show_0 : show_Z 0 = py "0".
Proof. reflexivity. Qed.
Example splitlines_ex : splitlines (py "ab
cd") = [py "ab"; py "cd"].
Proof. reflexivity. Qed.
