(* ===== verification/PyIp.v ===== *)
(** * Python's [ipaddress], as far as the program uses it

    [IPv4Network] as a record of its network address and prefix length, with the
    bit operations of CPython's implementation; [ip_network] parses IPv4 and, to
    tell the two apart, IPv6 text. The second half of the file gives every
    operation its meaning over addresses: [in_net x n] says that the address [x]
    lies in the block [n]. *)

From S2P Require Import Prelude PyText.
From stdpp Require Import fin_maps.
#[local] Open Scope Z_scope.

Definition ALL_ONES : Z := 4294967295.
Definition max_prefixlen : Z := 32.

Record ipv4net := IPv4Network { network_address : Z; prefixlen : Z }.

#[export] Instance ipv4net_eq_dec : EqDecision ipv4net.
Proof. solve_decision. Defined.
#[export] Instance ipv4net_countable : Countable ipv4net.
Proof.
  apply (inj_countable' (fun n => (network_address n, prefixlen n))
           (fun '(a, p) => IPv4Network a p)). by intros [].
Defined.

Definition netmask (p : Z) : Z := Z.lxor ALL_ONES (Z.shiftr ALL_ONES p).
Definition hostmask (p : Z) : Z := Z.lxor (netmask p) ALL_ONES.
Definition broadcast_address (n : ipv4net) : Z :=
  Z.lor (network_address n) (hostmask (prefixlen n)).
(** [address in network] *)
Definition addr_in (x : Z) (n : ipv4net) : bool :=
  Z.land x (netmask (prefixlen n)) =? network_address n.
Definition overlaps (a b : ipv4net) : bool :=
  addr_in (network_address a) b || addr_in (broadcast_address a) b
  || addr_in (network_address b) a || addr_in (broadcast_address b) a.
Definition subnet_of (a b : ipv4net) : bool :=
  (network_address b <=? network_address a) && (broadcast_address a <=? broadcast_address b).
Definition num_addresses (n : ipv4net) : Z := broadcast_address n - network_address n + 1.

Definition supernet (n : ipv4net) : ipv4net :=
  if prefixlen n =? 0 then n
  else IPv4Network (Z.land (network_address n) (Z.shiftl (netmask (prefixlen n)) 1))
                   (prefixlen n - 1).

(** The pair [s1, s2 = n.subnets()]; a /32 yields a single network, on which the
    unpacking raises. *)
Definition halves (n : ipv4net) : option (ipv4net * ipv4net) :=
  if prefixlen n =? max_prefixlen then None
  else Some (IPv4Network (network_address n) (prefixlen n + 1),
             IPv4Network (network_address n + Z.shiftr (hostmask (prefixlen n) + 1) 1)
                         (prefixlen n + 1)).

(** [list(self.address_exclude(other))]; [None] is an exception. *)
Fixpoint exclude_loop (fuel : nat) (s1 s2 other : ipv4net) : option (list ipv4net) :=
  if bool_decide (s1 = other) then Some [s2]
  else if bool_decide (s2 = other) then Some [s1]
  else match fuel with
       | O => None
       | S fuel' =>
           if subnet_of other s1 then
             '(a, b) ← halves s1; r ← exclude_loop fuel' a b other; Some (s2 :: r)
           else if subnet_of other s2 then
             '(a, b) ← halves s2; r ← exclude_loop fuel' a b other; Some (s1 :: r)
           else None
       end.
Definition address_exclude (self other : ipv4net) : option (list ipv4net) :=
  if negb (subnet_of other self) then None
  else if bool_decide (other = self) then Some []
  else '(s1, s2) ← halves self; exclude_loop 32 s1 s2 other.

(** Networks compare by address, then by netmask, which orders prefix lengths. *)
Definition net_le (a b : ipv4net) : Prop :=
  network_address a < network_address b
  \/ (network_address a = network_address b /\ prefixlen a <= prefixlen b).
#[export] Instance net_le_dec : RelDecision net_le.
Proof. intros a b. unfold net_le. apply _. Defined.

(** [collapse_addresses]: the merge loop over a stack and the dict from a
    supernet to the one half of it seen so far, then the pass that skips the
    networks another one contains. CPython first joins runs of /32 networks into
    larger blocks; the result is the same list, because it is determined by the
    address space alone (see [collapsed_unique]). *)
Fixpoint collapse_merge (fuel : nat) (to_merge : list ipv4net)
    (subnets : gmap ipv4net ipv4net) : option (gmap ipv4net ipv4net) :=
  match to_merge with
  | [] => Some subnets
  | net :: rest =>
      match fuel with
      | O => None
      | S fuel' =>
          match subnets !! supernet net with
          | None => collapse_merge fuel' rest (<[supernet net := net]> subnets)
          | Some existing =>
              if bool_decide (existing = net) then collapse_merge fuel' rest subnets
              else collapse_merge fuel' (supernet net :: rest) (delete (supernet net) subnets)
          end
      end
  end.
Fixpoint skip_subsumed (last : option ipv4net) (l : list ipv4net) : list ipv4net :=
  match l with
  | [] => []
  | net :: l' =>
      match last with
      | Some prev =>
          if broadcast_address net <=? broadcast_address prev
          then skip_subsumed last l'
          else net :: skip_subsumed (Some net) l'
      | None => net :: skip_subsumed (Some net) l'
      end
  end.
Definition collapse_addresses (nets : list ipv4net) : list ipv4net :=
  match collapse_merge (2 * length nets) (rev nets) ∅ with
  | Some m => skip_subsumed None (merge_sort net_le (map_to_list m).*2)
  | None => []
  end.

(** ** Text *)

Definition parse_octet (s : str) : option Z :=
  if negb (all_digits s) then None
  else if (3 <? Z.of_nat (length s)) then None
  else match s with
       | 48%N :: _ :: _ => None
       | _ => if 255 <? int_of_digits s then None else Some (int_of_digits s)
       end.
Definition ip_int_from_string (s : str) : option Z :=
  match split_char DOT s with
  | [a; b; c; d] =>
      a ← parse_octet a; b ← parse_octet b; c ← parse_octet c; d ← parse_octet d;
      Some (((a * 256 + b) * 256 + c) * 256 + d)
  | _ => None
  end.
(** [IPv4Address(s)] for a string; [None] is [AddressValueError]. *)
Definition ipv4_address (s : str) : option Z :=
  if has_char SLASH s then None else ip_int_from_string s.

Definition bit_length (n : Z) : Z := if n =? 0 then 0 else Z.log2 n + 1.
Definition count_righthand_zero_bits (n bits : Z) : Z :=
  if n =? 0 then bits else Z.min bits (bit_length (Z.land (Z.lnot n) (n - 1))).
Definition prefix_from_ip_int (ip : Z) : option Z :=
  let z := count_righthand_zero_bits ip 32 in
  if Z.shiftr ip z =? Z.shiftl 1 (32 - z) - 1 then Some (32 - z) else None.
Definition prefix_from_prefix_string (maxlen : Z) (s : str) : option Z :=
  if all_digits s
  then if int_of_digits s <=? maxlen then Some (int_of_digits s) else None
  else None.
Definition prefix_from_ip_string (s : str) : option Z :=
  ip ← ip_int_from_string s;
  match prefix_from_ip_int ip with
  | Some p => Some p
  | None => prefix_from_ip_int (Z.lxor ip ALL_ONES)
  end.
Definition make_netmask (s : str) : option Z :=
  match prefix_from_prefix_string 32 s with
  | Some p => Some p
  | None => prefix_from_ip_string s
  end.

(** [_split_addr_prefix]: the address text and the optional mask text. *)
Definition split_addr_prefix (s : str) : option (str * option str) :=
  match split_char SLASH s with
  | [a] => Some (a, None)
  | [a; m] => Some (a, Some m)
  | _ => None
  end.

(** [IPv4Network(s, strict)] *)
Definition ipv4_network (strict : bool) (s : str) : option ipv4net :=
  '(a, m) ← split_addr_prefix s;
  addr ← ipv4_address a;
  p ← match m with None => Some 32 | Some m => make_netmask m end;
  let masked := Z.land addr (netmask p) in
  if strict && negb (masked =? addr) then None else Some (IPv4Network masked p).

Definition show_addr (a : Z) : str :=
  str_join [DOT] (map show_Z [a / 16777216 mod 256; a / 65536 mod 256; a / 256 mod 256; a mod 256]).
Definition show_net (n : ipv4net) : str :=
  show_addr (network_address n) ++ SLASH :: show_Z (prefixlen n).

(** *** IPv6, only as far as telling a valid network from an invalid one *)

Definition is_hex (c : N) : bool :=
  is_digit c || ((97 <=? c) && (c <=? 102))%N || ((65 <=? c) && (c <=? 70))%N.
Definition hextet_ok (s : str) : bool :=
  match s with [] => false | _ => forallb is_hex s && (Z.of_nat (length s) <=? 4) end.

(** The parts between colons, the dotted quad of the last part replaced by two
    hextets. *)
Definition ipv6_parts (s : str) : option (list str) :=
  let parts := split_char COLON s in
  if Z.of_nat (length parts) <? 3 then None
  else match rev parts with
       | lastp :: front =>
           if has_char DOT lastp
           then _ ← ipv4_address lastp; Some (rev front ++ [py "0"; py "0"])
           else Some parts
       | [] => None
       end.
(** The positions of the empty parts other than the first and the last. *)
Definition inner_empty (parts : list str) : list nat :=
  filter (fun i => bool_decide (parts !! i = Some [])) (seq 1 (length parts - 2)).

Definition ipv6_address_ok (s : str) : bool :=
  match ipv6_parts s with
  | None => false
  | Some parts =>
      let n := length parts in
      let first_empty := bool_decide (parts !! 0%nat = Some []) in
      let last_empty := bool_decide (parts !! (n - 1)%nat = Some []) in
      if (9 <? n)%nat then false
      else match inner_empty parts with
           | _ :: _ :: _ => false
           | [i] =>
               let hi := if first_empty then (i - 1)%nat else i in
               let lo := if last_empty then (n - i - 2)%nat else (n - i - 1)%nat in
               if first_empty && negb (hi =? 0)%nat then false
               else if last_empty && negb (lo =? 0)%nat then false
               else if (8 <? hi + lo + 1)%nat then false
               else forallb hextet_ok (take hi parts)
                    && forallb hextet_ok (drop (n - lo) parts)
           | [] => (n =? 8)%nat && forallb hextet_ok parts
           end
  end.
(** [IPv6Address] strips a scope id [%zone] and refuses an empty one. *)
Definition ipv6_scope_ok (s : str) : bool :=
  match partition_char 37 s with
  | (a, None) => ipv6_address_ok a
  | (a, Some z) => match z with
                   | [] => false
                   | _ => negb (has_char 37 z) && ipv6_address_ok a
                   end
  end.
Definition ipv6_network_ok (s : str) : bool :=
  match split_addr_prefix s with
  | None => false
  | Some (a, m) =>
      ipv6_scope_ok a
      && match m with
         | None => true
         | Some m => bool_decide (is_Some (prefix_from_prefix_string 128 m))
         end
  end.

(** [ipaddress.ip_network(s, strict=False)]: [Some (inl n)] an IPv4 network,
    [Some (inr tt)] an IPv6 one, [None] a [ValueError]. *)
Definition ip_network (s : str) : option (ipv4net + unit) :=
  match ipv4_network false s with
  | Some n => Some (inl n)
  | None => if ipv6_network_ok s then Some (inr tt) else None
  end.

(** *** IPv6 values, for the places that compare IPv6 addresses *)

Definition hex_digit (c : N) : Z :=
  if is_digit c then Z.of_N c - 48
  else if ((97 <=? c) && (c <=? 102))%N then Z.of_N c - 87 else Z.of_N c - 55.
Definition hex_int (s : str) : Z := fold_left (fun acc c => 16 * acc + hex_digit c) s 0.
(** The 16-bit words one part stands for; [None] marks an empty part. *)
Definition ipv6_part_words (s : str) : list (option Z) :=
  match s with
  | [] => [None]
  | _ => if has_char DOT s
         then match ip_int_from_string s with
              | Some q => [Some (q / 65536); Some (q mod 65536)]
              | None => [None]
              end
         else [Some (hex_int s)]
  end.
(** The integer of an address that [ipv6_address_ok] accepts: the words before the
    double colon, the zeros it stands for, the words after it. *)
Definition ipv6_int (s : str) : Z :=
  let words := split_char COLON s ≫= ipv6_part_words in
  let known l := omap id l in
  let hi := fix hi l := match l with Some w :: l' => w :: hi l' | _ => [] end in
  let front := hi (match words with None :: None :: _ => [] | _ => words end) in
  let back := drop (length front) (known words) in
  let all := if (length front =? 8)%nat then front
             else front ++ replicate (8 - length front - length back) 0 ++ back in
  fold_left (fun acc w => 65536 * acc + w) all 0.
Definition ipv6_value (s : str) : Z := ipv6_int (before_char 37 s).

(** [ipaddress.ip_address(s)]: an IPv4 or an IPv6 address, [None] a [ValueError]. *)
Definition ip_address (s : str) : option (Z + Z) :=
  match ipv4_address s with
  | Some a => Some (inl a)
  | None => if negb (has_char SLASH s) && ipv6_scope_ok s then Some (inr (ipv6_value s)) else None
  end.
(** The network address and prefix length of an IPv6 network. *)
Definition ipv6_network (s : str) : option (Z * Z) :=
  if ipv6_network_ok s then
    '(a, m) ← split_addr_prefix s;
    let p := match m with
             | None => 128
             | Some m => default 128 (prefix_from_prefix_string 128 m)
             end in
    Some (ipv6_value a / 2 ^ (128 - p) * 2 ^ (128 - p), p)
  else None.
Definition addr6_in (x : Z) (n : Z * Z) : bool := x / 2 ^ (128 - n.2) * 2 ^ (128 - n.2) =? n.1.

Example ip_v4 : ip_network (py "10.0.0.5/24") = Some (inl (IPv4Network 167772160 24)).
Proof. reflexivity. Qed.
Example ip_v4_mask : ip_network (py "10.0.0.5/255.255.255.0") = Some (inl (IPv4Network 167772160 24)).
Proof. reflexivity. Qed.
Example ip_v4_hostmask : ip_network (py "10.0.0.5/0.0.0.255") = Some (inl (IPv4Network 167772160 24)).
Proof. reflexivity. Qed.
Example ip_v6 : ip_network (py "2001:67c:4e8::/48") = Some (inr tt).
Proof. reflexivity. Qed.
Example ip_v6_any : ip_network (py "::/0") = Some (inr tt).
Proof. reflexivity. Qed.
Example ip_v6_mapped : ip_network (py "::ffff:1.2.3.4") = Some (inr tt).
Proof. reflexivity. Qed.
Example ip_bad1 : ip_network (py "1.2.3") = None.
Proof. reflexivity. Qed.
Example ip_bad2 : ip_network (py "1:2:3") = None.
Proof. reflexivity. Qed.
Example ip_bad3 : ip_network (py "1.2.3.04/8") = None.
Proof. reflexivity. Qed.
Example exclude_ex :
  option_map (map show_net)
    (address_exclude (IPv4Network 3221225984 28) (IPv4Network 3221225985 32))
  = Some [py "192.0.2.8/29"; py "192.0.2.4/30"; py "192.0.2.2/31"; py "192.0.2.0/32"].
Proof. vm_compute. reflexivity. Qed.
Example collapse_ex :
  map show_net (collapse_addresses
    [IPv4Network 256 24; IPv4Network 0 24; IPv4Network 512 25; IPv4Network 640 25; IPv4Network 768 24])
  = [py "0.0.0.0/22"].
Proof. vm_compute. reflexivity. Qed.
Example v6_table : map (fun s => bool_decide (ip_network s = Some (inr tt)))
  [py "::"; py "1::"; py "::1:2:3:4:5:6:7"; py "1:2:3:4:5:6:7::"; py "1:2:3:4:5:6:7:8";
   py ":1:2:3:4:5:6:7"; py "fe80::1%eth0/64"; py "::%"; py "1:2:3:4:5:6:7:8:9"; py "1::2::3";
   py ""; py "/"; py "::1/"; py "::1/129"; py ":::"; py "1:2:3:4:5:6:1.2.3.4"]
  = [true; true; true; true; true; false; true; false; false; false;
     false; false; false; false; false; true].
Proof. vm_compute. reflexivity. Qed.
Example v6_values : map (fun s => ip_address s)
  [py "::"; py "::1"; py "1::"; py "2001:db8::ff"; py "1:2:3:4:5:6:7:8"; py "::ffff:1.2.3.4";
   py "::2:3:4:5:6:7:8"; py "1:2:3:4:5:6:7::"; py "FE80::a%eth0"; py "10.0.0.1"; py "1::/64"]
  = [Some (inr 0); Some (inr 1); Some (inr (2 ^ 112));
     Some (inr (8193 * 2 ^ 112 + 3512 * 2 ^ 96 + 255));
     Some (inr (fold_left (fun a w => 65536 * a + w) [1; 2; 3; 4; 5; 6; 7; 8] 0));
     Some (inr (65535 * 2 ^ 32 + 16909060));
     Some (inr (fold_left (fun a w => 65536 * a + w) [0; 2; 3; 4; 5; 6; 7; 8] 0));
     Some (inr (fold_left (fun a w => 65536 * a + w) [1; 2; 3; 4; 5; 6; 7; 0] 0));
     Some (inr (65152 * 2 ^ 112 + 10)); Some (inl 167772161); None].
Proof. vm_compute. reflexivity. Qed.
