(* ===== verification/IpSpace.v ===== *)
(** * What the network operations mean over addresses

    Every operation of [PyIp] is given its meaning as a statement about the
    addresses it covers: the bit masks as powers of two, [overlaps] and
    [subnet_of] as intersection and inclusion, [address_exclude] as difference,
    [collapse_addresses] as the canonical list of an address set. *)

From S2P Require Import Prelude PyText PyIp.
From Stdlib Require Import ZifyBool.
From stdpp Require Import fin_maps.
#[local] Open Scope Z_scope.

Definition size (n : ipv4net) : Z := 2 ^ (32 - prefixlen n).
Definition wf_net (n : ipv4net) : Prop :=
  0 <= prefixlen n <= 32 /\ 0 <= network_address n < 2 ^ 32
  /\ network_address n mod size n = 0.
Definition in_net (x : Z) (n : ipv4net) : Prop :=
  network_address n <= x < network_address n + size n.
(** The address set of a list of networks. *)
Definition covers (l : list ipv4net) (x : Z) : Prop := exists n, n ∈ l /\ in_net x n.

#[export] Instance wf_net_dec n : Decision (wf_net n).
Proof. unfold wf_net. apply _. Defined.

(** Two lists describe the same address space. *)
Definition same_addrs (l1 l2 : list ipv4net) : Prop := forall x, covers l1 x <-> covers l2 x.
#[export] Instance same_addrs_equiv : Equivalence same_addrs.
Proof.
  split; unfold same_addrs; [done|by intros ? ? ? ?|].
  intros l1 l2 l3 H1 H2 x. by rewrite (H1 x).
Qed.

(** ** Powers of two and masks *)

Lemma Z_range_all (P : Z -> Prop) (n : nat) :
  Forall P (map Z.of_nat (seq 0 n)) -> forall p, 0 <= p < Z.of_nat n -> P p.
Proof.
  intros H p Hp. rewrite Forall_forall in H. apply H.
  apply list_elem_of_In, in_map_iff. exists (Z.to_nat p). split; [lia|].
  apply in_seq. lia.
Qed.

Lemma Z_range_allb (f : Z -> bool) (n : nat) :
  forallb f (map Z.of_nat (seq 0 n)) = true -> forall p, 0 <= p < Z.of_nat n -> f p = true.
Proof.
  intros H. apply Z_range_all. apply Forall_forall. intros x Hx.
  apply list_elem_of_In in Hx. rewrite forallb_forall in H. auto.
Qed.

Lemma hostmask_ones p : 0 <= p <= 32 -> hostmask p = 2 ^ (32 - p) - 1.
Proof.
  intros H. revert p H.
  enough (forall p, 0 <= p < Z.of_nat 33 -> hostmask p = 2 ^ (32 - p) - 1) as G
    by (intros; apply G; lia).
  apply Z_range_all. repeat constructor.
Qed.

Lemma size_pos n : wf_net n -> 0 < size n.
Proof. intros (?&?&?). unfold size. apply Z.pow_pos_nonneg; lia. Qed.

Lemma ALL_ONES_ones : ALL_ONES = Z.ones 32.
Proof. reflexivity. Qed.

Lemma testbit_netmask p i : 0 <= p <= 32 -> 0 <= i ->
  Z.testbit (netmask p) i = (i <? 32) && negb (i <? 32 - p).
Proof.
  intros Hp Hi. unfold netmask. rewrite ALL_ONES_ones, Z.lxor_spec, Z.shiftr_spec by lia.
  rewrite !Z.testbit_ones_nonneg by lia.
  destruct (Z.ltb_spec i 32), (Z.ltb_spec i (32 - p)), (Z.ltb_spec (i + p) 32); simpl; lia.
Qed.

Lemma testbit_high x i : 0 <= x < 2 ^ 32 -> 32 <= i -> Z.testbit x i = false.
Proof.
  intros Hx Hi. rewrite <- (Z.mod_small x (2 ^ 32)) by lia.
  apply Z.mod_pow2_bits_high. lia.
Qed.

Lemma land_netmask x p : 0 <= x < 2 ^ 32 -> 0 <= p <= 32 ->
  Z.land x (netmask p) = x - x mod 2 ^ (32 - p).
Proof.
  intros Hx Hp.
  assert (Z.land x (netmask p) = Z.ldiff x (Z.ones (32 - p))) as ->.
  { apply Z.bits_inj'. intros i Hi.
    rewrite Z.land_spec, Z.ldiff_spec, testbit_netmask, Z.testbit_ones_nonneg by lia.
    destruct (Z.ltb_spec i 32); [done|]. by rewrite (testbit_high x i) by lia. }
  rewrite Z.ldiff_ones_r, Z.shiftl_mul_pow2, Z.shiftr_div_pow2 by lia.
  pose proof (Z.div_mod x (2 ^ (32 - p))) as E. nia.
Qed.

Lemma land_netmask_shift x p : 0 <= x < 2 ^ 32 -> 1 <= p <= 32 ->
  Z.land x (Z.shiftl (netmask p) 1) = x - x mod 2 ^ (33 - p).
Proof.
  intros Hx Hp. replace (33 - p) with (32 - (p - 1)) by lia.
  rewrite <- land_netmask by lia.
  apply Z.bits_inj'. intros i Hi. rewrite !Z.land_spec.
  destruct (Z.ltb_spec i 32); [|by rewrite (testbit_high x i) by lia].
  f_equal. rewrite Z.shiftl_spec by lia.
  destruct (Z.eqb_spec i 0) as [->|Hi0].
  - rewrite Z.testbit_neg_r, testbit_netmask by lia. simpl.
    destruct (Z.ltb_spec 0 (32 - (p - 1))); [done|lia].
  - rewrite !testbit_netmask by lia.
    destruct (Z.ltb_spec i 32), (Z.ltb_spec (i - 1) 32), (Z.ltb_spec (i - 1) (32 - p)),
      (Z.ltb_spec i (32 - (p - 1))); simpl; lia.
Qed.

Lemma broadcast_wf n : wf_net n -> broadcast_address n = network_address n + size n - 1.
Proof.
  intros (Hp & Ha & Hm). unfold broadcast_address, size in *. rewrite hostmask_ones by lia.
  replace (2 ^ (32 - prefixlen n) - 1) with (Z.ones (32 - prefixlen n))
    by (rewrite Z.ones_equiv; lia).
  assert (Z.land (network_address n) (Z.ones (32 - prefixlen n)) = 0) as H0
    by (rewrite Z.land_ones by lia; done).
  rewrite <- Z.lxor_lor, <- Z.add_nocarry_lxor by done.
  rewrite Z.ones_equiv. lia.
Qed.

Lemma num_addresses_wf n : wf_net n -> num_addresses n = size n.
Proof. intros H. unfold num_addresses. rewrite (broadcast_wf n H). lia. Qed.

(** ** Blocks nest or are disjoint *)

(** A network is one block of the grid of its size. *)
Lemma in_net_div n x : wf_net n -> in_net x n <-> x / size n = network_address n / size n.
Proof.
  intros Hn. pose proof (size_pos n Hn) as Hs. destruct Hn as (_ & _ & Hm).
  unfold in_net.
  pose proof (Z.div_mod x (size n) ltac:(lia)). pose proof (Z.mod_pos_bound x (size n) Hs).
  pose proof (Z.div_mod (network_address n) (size n) ltac:(lia)).
  split; intros; nia.
Qed.

Lemma size_divides a b : wf_net a -> wf_net b -> prefixlen a <= prefixlen b ->
  exists k, 0 < k /\ size a = size b * k.
Proof.
  intros (?&?&?) (?&?&?) Hle. exists (2 ^ (prefixlen b - prefixlen a)).
  unfold size. split; [apply Z.pow_pos_nonneg; lia|].
  rewrite <- Z.pow_add_r by lia. f_equal. lia.
Qed.

(** A block that shares one address with a block at least as large lies in it. *)
Lemma laminar a b x y : wf_net a -> wf_net b -> prefixlen a <= prefixlen b ->
  in_net x a -> in_net x b -> in_net y b -> in_net y a.
Proof.
  intros Ha Hb Hle Hxa Hxb Hyb.
  destruct (size_divides a b Ha Hb Hle) as (k & Hk & Hs).
  rewrite in_net_div in * by done. rewrite Hs in *.
  pose proof (size_pos b Hb).
  rewrite <- Z.div_div in Hxa |- * by lia. congruence.
Qed.

Lemma in_net_first n : wf_net n -> in_net (network_address n) n.
Proof. intros H. pose proof (size_pos n H). unfold in_net. lia. Qed.
Lemma in_net_last n : wf_net n -> in_net (broadcast_address n) n.
Proof. intros H. rewrite (broadcast_wf n H). pose proof (size_pos n H). unfold in_net. lia. Qed.

Lemma in_net_range n x : wf_net n -> in_net x n -> 0 <= x < 2 ^ 32.
Proof.
  intros Hn Hx. pose proof (size_pos n Hn) as Hs. destruct Hn as ((H0 & Hp) & Ha & Hm).
  unfold in_net in Hx. split; [lia|].
  assert (exists k, 2 ^ 32 = size n * k) as (k & Hk).
  { exists (2 ^ prefixlen n). unfold size. rewrite <- Z.pow_add_r by lia. f_equal. lia. }
  pose proof (Z.div_mod (network_address n) (size n) ltac:(lia)) as E.
  rewrite Hm, Z.add_0_r in E. set (q := network_address n / size n) in *.
  assert (q < k) by (apply (Z.mul_lt_mono_pos_l (size n)); lia).
  assert (size n * (q + 1) <= size n * k) by (apply Z.mul_le_mono_nonneg_l; lia).
  lia.
Qed.

Lemma same_block a b : wf_net a -> wf_net b ->
  (forall x, in_net x a <-> in_net x b) -> a = b.
Proof.
  intros Ha Hb H.
  pose proof (in_net_first a Ha) as F1. apply H in F1.
  pose proof (in_net_first b Hb) as F2. apply H in F2.
  pose proof (in_net_last a Ha) as L1. apply H in L1.
  pose proof (in_net_last b Hb) as L2. apply H in L2.
  rewrite broadcast_wf in L1, L2 by done. unfold in_net in *.
  assert (size a = size b) as Hs by lia.
  assert (network_address a = network_address b) by lia.
  destruct a as [a p], b as [b q], Ha as (?&_&_), Hb as (?&_&_); unfold size in Hs; simpl in *.
  f_equal; [done|]. apply Z.pow_inj_r in Hs; lia.
Qed.

(** ** The tests *)

Lemma addr_in_spec x n : wf_net n -> 0 <= x < 2 ^ 32 -> addr_in x n = true <-> in_net x n.
Proof.
  intros Hn Hx. unfold addr_in. rewrite Z.eqb_eq.
  rewrite land_netmask by (destruct Hn; done). fold (size n).
  rewrite in_net_div by done.
  pose proof (size_pos n Hn) as Hs. destruct Hn as (_ & _ & Hm).
  pose proof (Z.div_mod x (size n) ltac:(lia)).
  pose proof (Z.div_mod (network_address n) (size n) ltac:(lia)) as E.
  rewrite Hm, Z.add_0_r in E.
  split; intros Heq; [|rewrite Heq in *; lia].
  apply (Z.mul_reg_l _ _ (size n)); lia.
Qed.

Lemma in_net_addr_in x n : wf_net n -> in_net x n -> addr_in x n = true.
Proof. intros Hn Hx. apply addr_in_spec; eauto using in_net_range. Qed.

Lemma overlaps_spec a b : wf_net a -> wf_net b ->
  overlaps a b = true <-> exists x, in_net x a /\ in_net x b.
Proof.
  intros Ha Hb.
  pose proof (in_net_first a Ha) as Fa. pose proof (in_net_first b Hb) as Fb.
  pose proof (in_net_last a Ha) as La. pose proof (in_net_last b Hb) as Lb.
  unfold overlaps. rewrite !orb_true_iff.
  rewrite !addr_in_spec by eauto using in_net_range. split.
  - intros [[[?|?]|?]|?]; eauto.
  - intros (x & Hxa & Hxb). destruct (Z.le_ge_cases (prefixlen a) (prefixlen b)).
    + left; right. by apply (laminar a b x).
    + do 3 left. by apply (laminar b a x).
Qed.

Lemma overlaps_false a b x : wf_net a -> wf_net b ->
  overlaps a b = false -> in_net x a -> in_net x b -> False.
Proof.
  intros Ha Hb Ho Hxa Hxb. assert (overlaps a b = true) by (apply overlaps_spec; eauto).
  congruence.
Qed.

Lemma overlaps_sym a b : overlaps a b = overlaps b a.
Proof.
  unfold overlaps.
  destruct (addr_in (network_address a) b), (addr_in (broadcast_address a) b),
    (addr_in (network_address b) a), (addr_in (broadcast_address b) a); done.
Qed.

Lemma subnet_of_spec a b : wf_net a -> wf_net b ->
  subnet_of a b = true <-> forall x, in_net x a -> in_net x b.
Proof.
  intros Ha Hb. unfold subnet_of. rewrite andb_true_iff, !Z.leb_le.
  pose proof (in_net_first a Ha) as Fa. pose proof (in_net_last a Ha) as La.
  split.
  - rewrite !broadcast_wf by done. unfold in_net. intros. lia.
  - intros H. apply H in Fa, La. rewrite !broadcast_wf in * by done. unfold in_net in *. lia.
Qed.

Lemma subnet_of_refl a : subnet_of a a = true.
Proof. unfold subnet_of. rewrite !Z.leb_refl. done. Qed.

(** Overlapping blocks are nested, one way or the other. *)
Lemma overlap_nested a b : wf_net a -> wf_net b -> overlaps a b = true ->
  subnet_of a b = true \/ subnet_of b a = true.
Proof.
  intros Ha Hb Ho. apply overlaps_spec in Ho as (x & Hxa & Hxb); [|done..].
  destruct (Z.le_ge_cases (prefixlen a) (prefixlen b)); [right|left];
    apply subnet_of_spec; try done; intros y Hy; [apply (laminar a b x)|apply (laminar b a x)]; done.
Qed.

Lemma nested_prefixlen a b : wf_net a -> wf_net b -> subnet_of a b = true ->
  prefixlen b <= prefixlen a.
Proof.
  intros Ha Hb Hs.
  destruct (Z.le_gt_cases (prefixlen b) (prefixlen a)) as [|Hgt]; [done|exfalso].
  rewrite subnet_of_spec in Hs by done.
  pose proof (in_net_first a Ha) as F. pose proof (in_net_last a Ha) as L.
  apply Hs in F, L. rewrite broadcast_wf in L by done. unfold in_net in *.
  assert (size b < size a).
  { unfold size. destruct Ha as (?&_&_), Hb as (?&_&_). apply Z.pow_lt_mono_r; lia. }
  lia.
Qed.

Lemma subnet_of_antisym a b : wf_net a -> wf_net b ->
  subnet_of a b = true -> subnet_of b a = true -> a = b.
Proof.
  intros Ha Hb H1 H2. rewrite subnet_of_spec in H1, H2 by done.
  apply same_block; [done..|]. intros x. split; auto.
Qed.

(** ** Supernets and halves *)

Lemma supernet_eq n : wf_net n -> 0 < prefixlen n ->
  supernet n = IPv4Network (network_address n - network_address n mod (2 * size n)) (prefixlen n - 1).
Proof.
  intros (Hp & Ha & Hm) H0. unfold supernet, size.
  destruct (Z.eqb_spec (prefixlen n) 0); [lia|].
  rewrite land_netmask_shift by lia. f_equal. f_equal. f_equal.
  rewrite <- Z.pow_succ_r by lia. f_equal. lia.
Qed.

Lemma supernet_0 n : prefixlen n = 0 -> supernet n = n.
Proof. intros H. unfold supernet. by rewrite H. Qed.

Lemma supernet_size n : wf_net n -> 0 < prefixlen n -> size (supernet n) = 2 * size n.
Proof.
  intros Hn H0. rewrite supernet_eq by done. destruct Hn as (?&_&_).
  unfold size; simpl. rewrite <- Z.pow_succ_r by lia. f_equal. lia.
Qed.

Lemma supernet_wf n : wf_net n -> wf_net (supernet n).
Proof.
  intros Hn. destruct (Z.eqb_spec (prefixlen n) 0) as [H0|H0]; [by rewrite supernet_0|].
  pose proof (size_pos n Hn) as Hs. pose proof (proj1 Hn).
  assert (0 < prefixlen n) as Hp by lia. clear H0.
  unfold wf_net. rewrite supernet_size by done.
  rewrite supernet_eq by done; simpl.
  pose proof (Z.div_mod (network_address n) (2 * size n) ltac:(lia)).
  pose proof (Z.mod_pos_bound (network_address n) (2 * size n) ltac:(lia)).
  pose proof (proj1 (proj2 Hn)).
  assert (0 <= network_address n / (2 * size n)) by (apply Z.div_pos; lia).
  split_and!; [lia|lia|nia|lia|].
  replace (network_address n - network_address n mod (2 * size n))
    with (network_address n / (2 * size n) * (2 * size n)) by lia.
  by apply Z.mod_mul; lia.
Qed.

Lemma supernet_contains n x : wf_net n -> in_net x n -> in_net x (supernet n).
Proof.
  intros Hn Hx. destruct (Z.eqb_spec (prefixlen n) 0) as [H0|H0]; [by rewrite supernet_0|].
  pose proof (size_pos n Hn) as Hs. pose proof Hn as (? & ? & Hm).
  unfold in_net in *. rewrite supernet_size by (done || lia).
  rewrite supernet_eq by (done || lia); simpl.
  pose proof (Z.mod_pos_bound (network_address n) (2 * size n) ltac:(lia)).
  pose proof (Z.div_mod (network_address n) (2 * size n) ltac:(lia)) as E.
  pose proof (Z.div_mod (network_address n) (size n) ltac:(lia)) as E2.
  rewrite Hm, Z.add_0_r in E2.
  set (q := network_address n / (2 * size n)) in *.
  set (r := network_address n mod (2 * size n)) in *.
  assert (r = 0 \/ r = size n) as [->| ->]; [|lia|lia].
  assert (r = size n * (network_address n / size n - 2 * q)) as Hr by nia.
  set (k := network_address n / size n - 2 * q) in *.
  assert (k = 0 \/ k = 1) as [->| ->] by nia; lia.
Qed.

(** Two different networks with one supernet fill it. *)
Lemma siblings_fill a b x : wf_net a -> wf_net b -> a <> b -> supernet a = supernet b ->
  in_net x a \/ in_net x b <-> in_net x (supernet a).
Proof.
  intros Ha Hb Hne Hs. split.
  { intros [H|H]; [by apply supernet_contains|rewrite Hs; by apply supernet_contains]. }
  intros Hx.
  destruct (Z.eqb_spec (prefixlen a) 0) as [A0|A0]; [rewrite supernet_0 in Hx by done; by left|].
  destruct (Z.eqb_spec (prefixlen b) 0) as [B0|B0].
  { rewrite Hs, supernet_0 in Hx by done; by right. }
  pose proof (proj1 Ha). pose proof (proj1 Hb).
  pose proof (size_pos a Ha) as Hsz.
  assert (prefixlen a = prefixlen b) as Hpl.
  { rewrite (supernet_eq a), (supernet_eq b) in Hs by (done || lia). injection Hs. lia. }
  assert (size a = size b) as Hsab by (unfold size; by rewrite Hpl).
  pose proof (in_net_first a Ha) as Fa. apply supernet_contains in Fa; [|done].
  pose proof (in_net_first b Hb) as Fb. apply supernet_contains in Fb; [|done].
  rewrite <- Hs in Fb.
  assert (network_address a <> network_address b).
  { intros E. apply Hne. destruct a, b; simpl in *; congruence. }
  unfold in_net in *. rewrite supernet_size in * by (done || lia).
  set (S := network_address (supernet a)) in *.
  assert (exists i, S = size a * i) as (i & Hi).
  { pose proof (supernet_wf a Ha) as (_ & _ & Hm). rewrite supernet_size in Hm by (done || lia).
    fold S in Hm. pose proof (Z.div_mod S (2 * size a) ltac:(lia)) as E.
    exists (2 * (S / (2 * size a))). lia. }
  pose proof (proj2 (proj2 Ha)) as Hma. pose proof (proj2 (proj2 Hb)) as Hmb.
  rewrite <- Hsab in Hmb |- *.
  pose proof (Z.div_mod (network_address a) (size a) ltac:(lia)) as Ea.
  pose proof (Z.div_mod (network_address b) (size a) ltac:(lia)) as Eb.
  rewrite Hma in Ea. rewrite Hmb in Eb.
  set (qa := network_address a / size a) in *. set (qb := network_address b / size a) in *.
  assert (i <= qa <= i + 1) by nia. assert (i <= qb <= i + 1) by nia.
  assert (qa <> qb) by nia.
  assert ((qa = i /\ qb = i + 1) \/ (qa = i + 1 /\ qb = i)) as [[E1 E2]|[E1 E2]] by lia; nia.
Qed.

Lemma halves_spec n : wf_net n -> prefixlen n < 32 ->
  exists a b, halves n = Some (a, b) /\ wf_net a /\ wf_net b
    /\ prefixlen a = prefixlen n + 1 /\ prefixlen b = prefixlen n + 1
    /\ (forall x, in_net x n <-> in_net x a \/ in_net x b)
    /\ (forall x, in_net x a -> in_net x b -> False).
Proof.
  intros Hn Hlt. unfold halves, max_prefixlen.
  destruct (Z.eqb_spec (prefixlen n) 32); [lia|].
  pose proof Hn as (Hp & Ha & Hm). pose proof (size_pos n Hn) as Hs.
  rewrite hostmask_ones by lia. fold (size n). rewrite Z.sub_add.
  rewrite Z.shiftr_div_pow2 by lia. change (2 ^ 1) with 2.
  assert (size n = 2 * 2 ^ (32 - (prefixlen n + 1))) as Hsz.
  { unfold size. rewrite <- Z.pow_succ_r by lia. f_equal. lia. }
  set (h := 2 ^ (32 - (prefixlen n + 1))) in *.
  assert (0 < h) by lia.
  assert (size n / 2 = h) as -> by (rewrite Hsz, Z.mul_comm, Z.div_mul; lia).
  assert (network_address n mod h = 0) as Hmh.
  { pose proof (Z.div_mod (network_address n) (size n) ltac:(lia)) as E.
    rewrite E, Hm, Z.add_0_r, Hsz.
    replace (2 * h * (network_address n / (2 * h)))
      with (2 * (network_address n / (2 * h)) * h) by lia.
    apply Z.mod_mul. lia. }
  pose proof (in_net_range n _ Hn (in_net_last n Hn)) as Hl.
  rewrite broadcast_wf in Hl by done.
  eexists _, _. split; [done|].
  unfold wf_net, in_net, size; simpl. fold h. fold (size n).
  assert ((network_address n + h) mod h = 0)
    by (by rewrite Z.add_mod, Hmh, Z.mod_same by lia).
  split_and!; try lia; intros x; lia.
Qed.

Lemma subnet_of_in a b x : wf_net a -> wf_net b -> subnet_of a b = true -> in_net x a -> in_net x b.
Proof. intros Ha Hb. rewrite subnet_of_spec by done. auto. Qed.

(** A block inside the union of two disjoint blocks of one size lies in one of them. *)
Lemma subnet_of_either s1 s2 o : wf_net s1 -> wf_net s2 -> wf_net o ->
  (forall x, in_net x o -> in_net x s1 \/ in_net x s2) ->
  prefixlen s1 <= prefixlen o -> prefixlen s2 <= prefixlen o ->
  subnet_of o s1 = true \/ subnet_of o s2 = true.
Proof.
  intros H1 H2 Ho Hin Hp1 Hp2.
  pose proof (in_net_first o Ho) as F.
  destruct (Hin _ F); [left|right]; apply subnet_of_spec; try done;
    intros y Hy; eapply laminar; eauto.
Qed.

Lemma covers_cons n l x : covers (n :: l) x <-> in_net x n \/ covers l x.
Proof.
  unfold covers. setoid_rewrite elem_of_cons. split.
  - intros (m & [->|?] & ?); eauto.
  - intros [?|(m & ? & ?)]; eauto.
Qed.
Lemma covers_nil x : covers [] x <-> False.
Proof. split; [|done]. intros (n & Hn & _). by apply not_elem_of_nil in Hn. Qed.
Lemma covers_app l1 l2 x : covers (l1 ++ l2) x <-> covers l1 x \/ covers l2 x.
Proof.
  unfold covers. setoid_rewrite elem_of_app. split.
  - intros (n & [?|?] & ?); eauto.
  - intros [(n & ? & ?)|(n & ? & ?)]; eauto.
Qed.
Lemma covers_mono l1 l2 x : (forall n, n ∈ l1 -> n ∈ l2) -> covers l1 x -> covers l2 x.
Proof. intros H (n & Hn & Hx). exists n. auto. Qed.
Lemma covers_perm l1 l2 x : l1 ≡ₚ l2 -> covers l1 x <-> covers l2 x.
Proof. intros H. split; apply covers_mono; intros n Hn; by rewrite ?H, <- ?H in *. Qed.
Lemma covers_bind {A} (f : A -> list ipv4net) l x :
  covers (l ≫= f) x <-> exists a, a ∈ l /\ covers (f a) x.
Proof.
  induction l as [|a l IH]; csimpl.
  - rewrite covers_nil. split; [done|]. intros (a & Ha & _). by apply not_elem_of_nil in Ha.
  - rewrite covers_app, IH. setoid_rewrite elem_of_cons. split.
    + intros [?|(b & ? & ?)]; eauto.
    + intros (b & [->|?] & ?); eauto.
Qed.

(** A block inside another one of the same length is that block. *)
Lemma subnet_of_same o s : wf_net o -> wf_net s -> subnet_of o s = true ->
  prefixlen o <= prefixlen s -> o = s.
Proof.
  intros Ho Hs Hsub Hle. apply subnet_of_antisym; try done.
  apply subnet_of_spec; [done..|]. intros x Hx.
  apply (laminar o s (network_address o)); try done; [by apply in_net_first|].
  apply (subnet_of_in o s); try done. by apply in_net_first.
Qed.

(** One side of an exclusion is kept whole, the other one is split further. *)
Lemma exclude_join (s t o : ipv4net) (l : list ipv4net) (a b : ipv4net) :
  wf_net s -> wf_net o -> subnet_of o s = true ->
  (forall x, in_net x s -> in_net x t -> False) ->
  (forall x, in_net x s <-> in_net x a \/ in_net x b) ->
  (forall x, covers l x <-> (in_net x a \/ in_net x b) /\ ~ in_net x o) ->
  forall x, covers (t :: l) x <-> (in_net x s \/ in_net x t) /\ ~ in_net x o.
Proof.
  intros Hs Ho Hsub Hdis Hab Hl x. rewrite covers_cons, Hl, <- Hab.
  split; [|tauto]. intros [Ht|?]; [|tauto]. split; [by right|].
  intros Hxo. apply (Hdis x); [|done]. by apply (subnet_of_in o s).
Qed.

Lemma exclude_loop_spec fuel s1 s2 o :
  wf_net s1 -> wf_net s2 -> wf_net o -> prefixlen s1 = prefixlen s2 ->
  (forall x, in_net x s1 -> in_net x s2 -> False) ->
  subnet_of o s1 = true \/ subnet_of o s2 = true ->
  prefixlen o - prefixlen s1 <= Z.of_nat fuel ->
  exists l, exclude_loop fuel s1 s2 o = Some l /\ Forall wf_net l
    /\ forall x, covers l x <-> (in_net x s1 \/ in_net x s2) /\ ~ in_net x o.
Proof.
  revert s1 s2. induction fuel as [|fuel IH]; intros s1 s2 H1 H2 Ho Hpl Hdis Hsub Hfuel; simpl;
    (destruct (bool_decide_reflect (s1 = o)) as [->|N1];
     [exists [s2]; split_and!; [done|auto|];
      intros x; rewrite covers_cons, covers_nil; specialize (Hdis x); tauto|]);
    (destruct (bool_decide_reflect (s2 = o)) as [->|N2];
     [exists [s1]; split_and!; [done|auto|];
      intros x; rewrite covers_cons, covers_nil; specialize (Hdis x); tauto|]).
  - exfalso. destruct Hsub as [Hsub|Hsub]; apply subnet_of_same in Hsub; congruence || lia || done.
  - assert (forall s, s <> o -> wf_net s -> subnet_of o s = true -> prefixlen s < 32) as Hlt.
    { intros s Hne Hs Hos. destruct (Z.lt_ge_cases (prefixlen s) 32); [done|].
      pose proof (proj1 Ho). pose proof (proj1 Hs).
      exfalso. apply Hne. symmetry. apply subnet_of_same; [done..|lia]. }
    assert (forall s t, wf_net s -> s <> o -> prefixlen s = prefixlen s1 -> subnet_of o s = true ->
              (forall x, in_net x s -> in_net x t -> False) ->
              exists a b r, halves s = Some (a, b) /\ exclude_loop fuel a b o = Some r
                /\ Forall wf_net r
                /\ forall x, covers (t :: r) x <-> (in_net x s \/ in_net x t) /\ ~ in_net x o)
      as Hstep.
    { intros s t Hs Hne Hps Hos Hd.
      destruct (halves_spec s Hs (Hlt s Hne Hs Hos)) as (a & b & Hh & Ha & Hb & Hpa & Hpb & Hab & Hdab).
      assert (prefixlen s < prefixlen o).
      { destruct (Z.lt_ge_cases (prefixlen s) (prefixlen o)); [done|].
        exfalso. apply Hne. symmetry. apply subnet_of_same; done. }
      destruct (IH a b Ha Hb Ho ltac:(lia) Hdab) as (r & Hr & Hw & Hc).
      { apply subnet_of_either; try done; [|lia..]. intros x Hx. apply Hab. by apply (subnet_of_in o s). }
      { lia. }
      exists a, b, r. split_and!; try done. by eapply exclude_join. }
    destruct (subnet_of o s1) eqn:E1; [|destruct Hsub as [|Hsub]; [done|rewrite Hsub]].
    + destruct (Hstep s1 s2 H1 N1 eq_refl E1 Hdis) as (a & b & r & -> & Hr & Hw & Hc).
      simpl. rewrite Hr. simpl. eexists. split_and!; [done|by constructor|done].
    + destruct (Hstep s2 s1 H2 N2 (eq_sym Hpl) Hsub ltac:(intros x ??; by apply (Hdis x))) as (a & b & r & -> & Hr & Hw & Hc).
      simpl. rewrite Hr. simpl. eexists. split_and!; [done|by constructor|].
      intros x. rewrite Hc. tauto.
Qed.

#[local] Arguments exclude_loop : simpl never.

(** [address_exclude] succeeds on a subnet and covers exactly the difference. *)
Lemma address_exclude_spec n o : wf_net n -> wf_net o -> subnet_of o n = true ->
  exists l, address_exclude n o = Some l /\ Forall wf_net l
    /\ forall x, covers l x <-> in_net x n /\ ~ in_net x o.
Proof.
  intros Hn Ho Hs. unfold address_exclude. rewrite Hs; simpl.
  destruct (bool_decide_reflect (o = n)) as [->|Hne].
  { exists []. split_and!; [done|auto|]. intros x. rewrite covers_nil. tauto. }
  assert (prefixlen n < prefixlen o).
  { destruct (Z.lt_ge_cases (prefixlen n) (prefixlen o)); [done|].
    exfalso. apply Hne. apply subnet_of_same; done. }
  pose proof (proj1 Ho). pose proof (proj1 Hn).
  destruct (halves_spec n Hn ltac:(lia)) as (a & b & Hh & Ha & Hb & Hpa & Hpb & Hab & Hdab).
  rewrite Hh; simpl.
  destruct (exclude_loop_spec 32 a b o Ha Hb Ho ltac:(lia) Hdab) as (l & Hl & Hw & Hc).
  { apply subnet_of_either; try done; [|lia..]. intros x Hx. apply Hab. by apply (subnet_of_in o n). }
  { lia. }
  exists l. split_and!; try done. intros x. by rewrite Hc, Hab.
Qed.

(** ** The canonical list of an address set *)

Definition before (a b : ipv4net) : Prop := network_address a + size a <= network_address b.
(** Sorted, pairwise disjoint, and no two entries are the halves of one block. *)
Record collapsed (l : list ipv4net) : Prop := Collapsed {
  collapsed_wf : Forall wf_net l;
  collapsed_sorted : StronglySorted before l;
  collapsed_siblings : forall a b, a ∈ l -> b ∈ l -> supernet a = supernet b -> a = b }.

Lemma before_disjoint a b x : before a b -> in_net x a -> in_net x b -> False.
Proof. unfold before, in_net. lia. Qed.

Lemma StronglySorted_elem (R : ipv4net -> ipv4net -> Prop) l a b :
  StronglySorted R l -> a ∈ l -> b ∈ l -> a = b \/ R a b \/ R b a.
Proof.
  induction 1 as [|c l Hl IH Hc]; intros Ha Hb; [by apply not_elem_of_nil in Ha|].
  rewrite Forall_forall in Hc. rewrite elem_of_cons in Ha, Hb.
  destruct Ha as [->|Ha], Hb as [->|Hb]; auto.
Qed.

(** Two entries of a collapsed list that share an address are one entry. *)
Lemma collapsed_disjoint l a b x :
  collapsed l -> a ∈ l -> b ∈ l -> in_net x a -> in_net x b -> a = b.
Proof.
  intros Hl Ha Hb Hxa Hxb.
  destruct (StronglySorted_elem _ l a b (collapsed_sorted l Hl) Ha Hb) as [?|[H|H]]; [done|..];
    exfalso; eauto using before_disjoint.
Qed.

Lemma collapsed_wf_elem l n : collapsed l -> n ∈ l -> wf_net n.
Proof. intros Hl Hn. pose proof (collapsed_wf l Hl) as H. rewrite Forall_forall in H. auto. Qed.

(** Every block inside the address set lies inside one entry. *)
Lemma collapsed_maximal l b :
  collapsed l -> wf_net b -> (forall x, in_net x b -> covers l x) ->
  exists n, n ∈ l /\ subnet_of b n = true.
Proof.
  intros Hl. revert b.
  enough (forall k b, prefixlen b = 32 - Z.of_nat k -> wf_net b ->
            (forall x, in_net x b -> covers l x) -> exists n, n ∈ l /\ subnet_of b n = true) as H.
  { intros b Hb. apply (H (Z.to_nat (32 - prefixlen b))); [|done]. destruct Hb as (?&_). lia. }
  induction k as [|k IH]; intros b Hpl Hb Hcov.
  - destruct (Hcov _ (in_net_first b Hb)) as (n & Hn & Hx). exists n. split; [done|].
    pose proof (collapsed_wf_elem l n Hl Hn) as Hwn.
    apply subnet_of_spec; [done..|]. intros y Hy.
    pose proof (proj1 Hwn). apply (laminar n b (network_address b)); try done; [lia|].
    by apply in_net_first.
  - destruct (halves_spec b Hb ltac:(lia)) as (h1 & h2 & _ & H1 & H2 & Hp1 & Hp2 & Hin & Hdis).
    destruct (IH h1 ltac:(lia) H1) as (n1 & Hn1 & Hs1); [intros; apply Hcov, Hin; auto|].
    destruct (IH h2 ltac:(lia) H2) as (n2 & Hn2 & Hs2); [intros; apply Hcov, Hin; auto|].
    pose proof (collapsed_wf_elem l n1 Hl Hn1) as Hw1.
    pose proof (collapsed_wf_elem l n2 Hl Hn2) as Hw2.
    assert (forall h n, wf_net h -> wf_net n -> prefixlen h = prefixlen b + 1 ->
              (forall x, in_net x h -> in_net x b) -> subnet_of h n = true ->
              h = n \/ subnet_of b n = true) as Hgrow.
    { intros h n Hh Hw Hph Hhb Hs.
      destruct (Z.le_gt_cases (prefixlen n) (prefixlen b)).
      - right. apply subnet_of_spec; [done..|]. intros y Hy.
        apply (laminar n b (network_address h)); try done;
          [apply (subnet_of_in h n)|apply Hhb]; auto using in_net_first.
      - left. apply subnet_of_same; try done. lia. }
    destruct (Hgrow h1 n1) as [<-|]; eauto; [intros; apply Hin; auto|].
    destruct (Hgrow h2 n2) as [<-|]; eauto; [intros; apply Hin; auto|].
    exfalso. assert (h1 = h2) as E.
    { apply (collapsed_siblings l Hl); try done.
      destruct (in_net_first b Hb) as [? ?].
      pose proof (in_net_first h1 H1) as F1. pose proof (in_net_first h2 H2) as F2.
      assert (forall h, wf_net h -> prefixlen h = prefixlen b + 1 ->
                (forall x, in_net x h -> in_net x b) -> supernet h = b) as Hsup.
      { intros h Hh Hph Hhb. symmetry. pose proof (proj1 Hb).
        apply subnet_of_same; [done|by apply supernet_wf| |rewrite supernet_eq by (done || lia); simpl; lia].
        apply subnet_of_spec; [done|by apply supernet_wf|]. intros y Hy.
        apply (laminar (supernet h) b (network_address h));
          [by apply supernet_wf|done|rewrite supernet_eq by (done || lia); simpl; lia|..|done].
        - apply supernet_contains; [done|by apply in_net_first].
        - apply Hhb. by apply in_net_first. }
      rewrite (Hsup h1), (Hsup h2); auto; intros; apply Hin; auto. }
    subst h2. apply (Hdis (network_address h1)); by apply in_net_first.
Qed.

#[export] Instance net_le_antisymm : AntiSymm (=) net_le.
Proof. intros [a p] [b q]; unfold net_le; simpl; intros ? ?. f_equal; lia. Qed.
#[export] Instance net_le_trans : Transitive net_le.
Proof. intros [] [] []; unfold net_le; simpl; lia. Qed.
#[export] Instance net_le_total : Total net_le.
Proof. intros [] []; unfold net_le; simpl; lia. Qed.

Lemma collapsed_net_le l : collapsed l -> StronglySorted net_le l.
Proof.
  intros [Hw Hs _]. induction Hs as [|a l Hs IH Ha]; constructor.
  - inversion Hw; subst. by apply IH.
  - inversion Hw; subst. rewrite Forall_forall in *. intros b Hb.
    pose proof (size_pos a ltac:(done)). specialize (Ha b Hb). unfold before, net_le in *. lia.
Qed.

Lemma collapsed_NoDup l : collapsed l -> NoDup l.
Proof.
  intros [Hw Hs _]. induction Hs as [|a l Hs IH Ha]; constructor.
  - intros Hin. inversion Hw; subst. rewrite Forall_forall in Ha. specialize (Ha a Hin).
    pose proof (size_pos a ltac:(done)). unfold before in Ha. lia.
  - inversion Hw; subst. by apply IH.
Qed.

(** The collapsed list of an address set is unique. *)
Lemma collapsed_unique l1 l2 : collapsed l1 -> collapsed l2 -> same_addrs l1 l2 -> l1 = l2.
Proof.
  intros H1 H2 Hsame.
  assert (forall l1 l2, collapsed l1 -> collapsed l2 -> same_addrs l1 l2 ->
            forall n, n ∈ l1 -> n ∈ l2) as Hincl.
  { clear. intros l1 l2 H1 H2 Hsame n Hn.
    pose proof (collapsed_wf_elem l1 n H1 Hn) as Hw.
    destruct (collapsed_maximal l2 n H2 Hw) as (m & Hm & Hnm).
    { intros x Hx. apply Hsame. by exists n. }
    pose proof (collapsed_wf_elem l2 m H2 Hm) as Hwm.
    destruct (collapsed_maximal l1 m H1 Hwm) as (k & Hk & Hmk).
    { intros x Hx. apply Hsame. by exists m. }
    pose proof (collapsed_wf_elem l1 k H1 Hk) as Hwk.
    assert (n = k) as <-.
    { apply (collapsed_disjoint l1 n k (network_address n)); try done; [by apply in_net_first|].
      apply (subnet_of_in m k); try done. apply (subnet_of_in n m); try done. by apply in_net_first. }
    by rewrite (subnet_of_antisym n m). }
  apply (StronglySorted_unique net_le); [by apply collapsed_net_le..|].
  apply NoDup_Permutation; [by apply collapsed_NoDup..|].
  intros n. split; apply Hincl; done.
Qed.

Lemma collapsed_nil : collapsed [].
Proof. split; [constructor..|]. intros a b Ha. by apply not_elem_of_nil in Ha. Qed.

(** ** [collapse_addresses] computes it *)

(** The dict of the merge loop maps each supernet to one of its halves. *)
Definition merge_inv (m : gmap ipv4net ipv4net) : Prop :=
  forall k v, m !! k = Some v -> wf_net v /\ k = supernet v.
Definition map_covers (m : gmap ipv4net ipv4net) (x : Z) : Prop :=
  exists k v, m !! k = Some v /\ in_net x v.

Lemma map_covers_insert m k v x : m !! k = None ->
  map_covers (<[k := v]> m) x <-> in_net x v \/ map_covers m x.
Proof.
  intros Hk. unfold map_covers. split.
  - intros (k' & v' & Hl & Hx). destruct (decide (k = k')) as [<-|Hne]; simplify_map_eq; eauto.
  - intros [Hx|(k' & v' & Hl & Hx)]; [exists k, v|exists k', v']; split; try done;
      [by simplify_map_eq|]. destruct (decide (k = k')) as [<-|]; by simplify_map_eq.
Qed.

Lemma map_covers_delete m k v x : m !! k = Some v ->
  map_covers m x <-> in_net x v \/ map_covers (delete k m) x.
Proof.
  intros Hk. rewrite <- (map_covers_insert (delete k m) k v) by (by simplify_map_eq).
  rewrite insert_delete_eq. by rewrite insert_id.
Qed.

Lemma collapse_merge_spec fuel stack m :
  Forall wf_net stack -> merge_inv m -> (2 * length stack + base.size m <= fuel)%nat ->
  exists m', collapse_merge fuel stack m = Some m' /\ merge_inv m'
    /\ forall x, map_covers m' x <-> covers stack x \/ map_covers m x.
Proof.
  revert stack m. induction fuel as [|fuel IH]; intros [|n rest] m Hw Hm Hf; simpl in *; try lia.
  1-2: exists m; split_and!; try done; intros x; rewrite covers_nil; tauto.
  inversion Hw as [|? ? Hn Hrest]; subst.
  destruct (m !! supernet n) as [e|] eqn:Hl.
  - destruct (Hm _ _ Hl) as [Hwe Hse].
    destruct (bool_decide_reflect (e = n)) as [->|Hne].
    + destruct (IH rest m Hrest Hm ltac:(lia)) as (m' & He & Hi & Hc).
      exists m'. split_and!; try done. intros x. rewrite Hc, covers_cons.
      split; [tauto|]. intros [[?|?]|?]; auto. right. by exists (supernet n), n.
    + assert (S (base.size (delete (supernet n) m)) = base.size m) as Hsz.
      { rewrite map_size_delete_Some by (by exists e). 
        assert (base.size m <> 0%nat); [|lia].
        rewrite map_size_ne_0_lookup. by exists (supernet n), e. }
      destruct (IH (supernet n :: rest) (delete (supernet n) m)) as (m' & He & Hi & Hc).
      * constructor; [by apply supernet_wf|done].
      * intros k v Hk. apply Hm. by apply lookup_delete_Some in Hk as [_ Hk].
      * simpl. lia.
      * exists m'. split_and!; try done. intros x.
        rewrite Hc, covers_cons, (covers_cons n), (map_covers_delete m _ _ x Hl).
        rewrite <- (siblings_fill n e x); try done; tauto.
  - destruct (IH rest (<[supernet n := n]> m) Hrest) as (m' & He & Hi & Hc).
    + intros k v. rewrite lookup_insert_Some. intros [[<- <-]|[_ Hk]]; [done|by apply Hm].
    + rewrite map_size_insert_None by done. lia.
    + exists m'. split_and!; try done. intros x. rewrite Hc, map_covers_insert, covers_cons by done.
      tauto.
Qed.

Lemma skip_subsumed_sub last l n : n ∈ skip_subsumed last l -> n ∈ l.
Proof.
  revert last. induction l as [|a l IH]; intros last; simpl; [done|].
  intros Hn. apply elem_of_cons. destruct last as [p|]; [case_match|].
  - right. by apply (IH (Some p)).
  - apply elem_of_cons in Hn as [?|Hn]; [by left|right; by apply (IH (Some a))].
  - apply elem_of_cons in Hn as [?|Hn]; [by left|right; by apply (IH (Some a))].
Qed.

(** What the pass drops is covered by the entry before it. *)
Lemma skip_subsumed_covers last l x :
  Forall wf_net l -> match last with Some p => wf_net p | None => True end ->
  StronglySorted net_le (match last with Some p => p :: l | None => l end) ->
  covers (match last with Some p => p :: skip_subsumed last l | None => skip_subsumed last l end) x
  <-> covers (match last with Some p => p :: l | None => l end) x.
Proof.
  revert last. induction l as [|a l IH]; intros last Hw Hp Hs; [by destruct last|].
  inversion Hw as [|? ? Ha Hl]; subst. destruct last as [p|]; simpl.
  - destruct (Z.leb_spec (broadcast_address a) (broadcast_address p)) as [Hb|Hb].
    + inversion Hs as [|? ? Hs1 Hpa]; subst. inversion Hs1 as [|? ? Hs2 Ha2]; subst.
      inversion Hpa as [|? ? Hpa1 Hpl]; subst.
      rewrite (IH (Some p)) by (done || by constructor).
      rewrite !covers_cons. split; [tauto|]. intros [?|[Hx|?]]; auto. left.
      apply (subnet_of_in a p); try done. unfold subnet_of. rewrite andb_true_iff, !Z.leb_le.
      unfold net_le in Hpa1. lia.
    + inversion Hs as [|? ? Hs1 Hpa]; subst.
      rewrite covers_cons, (IH (Some a)) by done. by rewrite !covers_cons.
  - by rewrite (IH (Some a)).
Qed.

(** What the pass keeps is sorted and disjoint. *)
Lemma skip_subsumed_sorted last l :
  Forall wf_net l -> match last with Some p => wf_net p | None => True end ->
  StronglySorted net_le (match last with Some p => p :: l | None => l end) ->
  StronglySorted before
    (match last with Some p => p :: skip_subsumed last l | None => skip_subsumed last l end).
Proof.
  revert last. induction l as [|a l IH]; intros last Hw Hp Hs.
  { destruct last; simpl; repeat constructor. }
  inversion Hw as [|? ? Ha Hl]; subst. destruct last as [p|]; simpl; [|by apply (IH (Some a))].
  inversion Hs as [|? ? Hs1 Hpa]; subst. inversion Hpa as [|? ? Hpa1 Hpl]; subst.
  inversion Hs1 as [|? ? Hs2 Ha2]; subst.
  destruct (Z.leb_spec (broadcast_address a) (broadcast_address p)) as [Hb|Hb].
  - apply (IH (Some p)); try done. by constructor.
  - specialize (IH (Some a) Hl Ha Hs1). simpl in IH. constructor; [done|].
    inversion IH as [|? ? _ Hall]; subst.
    assert (before p a) as Hba.
    { unfold before. rewrite !broadcast_wf in Hb by done. unfold net_le in Hpa1.
      destruct (Z.le_gt_cases (network_address p + size p) (network_address a)) as [|Hov]; [done|].
      exfalso. pose proof (size_pos a Ha).
      assert (in_net (network_address a) p) by (unfold in_net; lia).
      destruct (Z.le_ge_cases (prefixlen p) (prefixlen a)).
      - assert (in_net (broadcast_address a) p) as G.
        { apply (laminar p a (network_address a)); auto using in_net_first, in_net_last. }
        rewrite broadcast_wf in G by done. unfold in_net in G. lia.
      - assert (in_net (network_address p) a) as G.
        { apply (laminar a p (network_address a)); auto using in_net_first. }
        unfold in_net in G. assert (network_address p = network_address a) as E by lia.
        assert (size p = size a); [|lia].
        unfold size. f_equal. lia. }
    constructor; [done|]. rewrite Forall_forall in *. intros b Hb'. specialize (Hall b Hb').
    pose proof (size_pos a Ha). unfold before in *. lia.
Qed.

Lemma collapse_addresses_spec ns : Forall wf_net ns ->
  collapsed (collapse_addresses ns) /\ same_addrs (collapse_addresses ns) ns.
Proof.
  intros Hw. unfold collapse_addresses.
  destruct (collapse_merge_spec (2 * length ns) (rev ns) ∅) as (m & -> & Hi & Hc).
  { by apply Forall_rev. }
  { intros k v. by rewrite lookup_empty. }
  { rewrite length_rev, map_size_empty. lia. }
  set (l := merge_sort net_le (map_to_list m).*2).
  assert (forall v, v ∈ l <-> m !! supernet v = Some v) as Hl.
  { intros v. unfold l. rewrite merge_sort_Permutation, list_elem_of_fmap. split.
    - intros ([k w] & -> & Hkw). apply elem_of_map_to_list in Hkw.
      destruct (Hi _ _ Hkw) as [_ ->]. done.
    - intros Hv. exists (supernet v, v). split; [done|]. by apply elem_of_map_to_list. }
  assert (Forall wf_net l) as Hwl.
  { rewrite Forall_forall. intros v Hv. apply Hl in Hv. by apply Hi in Hv as [? _]. }
  assert (StronglySorted net_le l) as Hsl.
  { apply (StronglySorted_merge_sort net_le). }
  split.
  - split.
    + rewrite Forall_forall in *. intros n Hn. apply Hwl. by eapply skip_subsumed_sub.
    + by apply (skip_subsumed_sorted None).
    + intros a b Ha Hb Hab. apply skip_subsumed_sub in Ha, Hb. apply Hl in Ha, Hb. congruence.
  - intros x. rewrite (skip_subsumed_covers None) by done.
    transitivity (map_covers m x).
    + unfold covers, map_covers. split.
      * intros (v & Hv & Hx). apply Hl in Hv. eauto.
      * intros (k & v & Hkv & Hx). destruct (Hi _ _ Hkv) as [_ ->].
        exists v. split; [by apply Hl|done].
    + rewrite Hc. assert (map_covers ∅ x <-> False) as ->.
      { split; [|done]. intros (k & v & Hkv & _). by rewrite lookup_empty in Hkv. }
      rewrite (covers_perm (rev ns) ns) by (symmetry; apply Permutation_rev). tauto.
Qed.

Lemma sort_collapsed l : collapsed l -> merge_sort net_le l = l.
Proof.
  intros Hl. apply (StronglySorted_unique net_le).
  - apply (StronglySorted_merge_sort net_le).
  - by apply collapsed_net_le.
  - apply merge_sort_Permutation.
Qed.

(** ** Counting addresses *)

Definition address_count (l : list ipv4net) : Z := foldr (fun n acc => num_addresses n + acc) 0 l.

Lemma address_count_app l1 l2 : address_count (l1 ++ l2) = address_count l1 + address_count l2.
Proof. induction l1 as [|n l1 IH]; simpl; [done|]. rewrite IH. lia. Qed.

(** The address set as a finite set, and the count of a disjoint list as its
    cardinality. *)
Definition net_addrs (n : ipv4net) : list Z := seqZ (network_address n) (size n).
Definition addr_set (l : list ipv4net) : gset Z := list_to_set (l ≫= net_addrs).

Lemma elem_of_addr_set l x : x ∈ addr_set l <-> covers l x.
Proof.
  unfold addr_set, covers, net_addrs. rewrite elem_of_list_to_set, list_elem_of_bind.
  split; intros (n & H1 & H2); exists n.
  - apply elem_of_seqZ in H1. done.
  - split; [|done]. by apply elem_of_seqZ.
Qed.

Lemma addr_set_size l : Forall wf_net l -> StronglySorted before l ->
  Z.of_nat (base.size (addr_set l)) = address_count l.
Proof.
  intros Hw Hs. unfold addr_set. rewrite size_list_to_set.
  - clear Hs. induction Hw as [|n l Hn Hw IH]; [done|]. csimpl. rewrite length_app, Nat2Z.inj_add, IH.
    unfold net_addrs. rewrite length_seqZ, num_addresses_wf by done. pose proof (size_pos n Hn). lia.
  - induction Hs as [|n l Hs IH Hn]; [constructor|]. inversion Hw; subst. csimpl.
    apply NoDup_app. split_and!; [apply NoDup_seqZ| |by apply IH].
    intros x Hx Hxl. apply elem_of_seqZ in Hx. apply list_elem_of_bind in Hxl as (m & Hxm & Hm).
    apply elem_of_seqZ in Hxm. rewrite Forall_forall in Hn. specialize (Hn m Hm).
    unfold before in Hn. lia.
Qed.

Lemma collapsed_size l : collapsed l -> Z.of_nat (base.size (addr_set l)) = address_count l.
Proof. intros [Hw Hs _]. by apply addr_set_size. Qed.

(** A collapsed list inside another one has no more addresses, and as many only
    if the two cover the same addresses. *)
Lemma address_count_le l1 l2 : collapsed l1 -> collapsed l2 ->
  (forall x, covers l1 x -> covers l2 x) -> address_count l1 <= address_count l2.
Proof.
  intros H1 H2 Hsub. rewrite <- !collapsed_size by done.
  apply Nat2Z.inj_le, subseteq_size. intros x. rewrite !elem_of_addr_set. auto.
Qed.
Lemma address_count_eq l1 l2 : collapsed l1 -> collapsed l2 ->
  (forall x, covers l1 x -> covers l2 x) -> address_count l1 = address_count l2 -> same_addrs l1 l2.
Proof.
  intros H1 H2 Hsub. rewrite <- !collapsed_size by done. intros Heq.
  assert (addr_set l1 = addr_set l2) as E.
  { apply set_subseteq_size_eq; [|lia]. intros x. rewrite !elem_of_addr_set. auto. }
  intros x. rewrite <- !elem_of_addr_set. by rewrite E.
Qed.

(** ** Text *)

Definition net_char (c : N) : bool := is_digit c || (c =? DOT)%N || (c =? SLASH)%N.

Lemma net_char_not_space c : net_char c = true -> is_space c = false.
Proof. unfold net_char, is_digit, is_space, DOT, SLASH. lia. Qed.
Lemma net_char_not_break c : net_char c = true -> is_linebreak c = false.
Proof. unfold net_char, is_digit, is_linebreak, DOT, SLASH. lia. Qed.
Lemma net_char_not_hash c : net_char c = true -> c <> HASH.
Proof. unfold net_char, is_digit, HASH, DOT, SLASH. lia. Qed.

Definition octet_text_ok (k : Z) : bool :=
  bool_decide (parse_octet (show_Z k) = Some k) && forallb is_digit (show_Z k).
Definition plen_text_ok (p : Z) : bool :=
  bool_decide (make_netmask (show_Z p) = Some p) && forallb is_digit (show_Z p).

Lemma octet_text k : 0 <= k < 256 ->
  parse_octet (show_Z k) = Some k /\ forallb is_digit (show_Z k) = true.
Proof.
  intros Hk. assert (octet_text_ok k = true) as H.
  { apply (Z_range_allb octet_text_ok 256); [vm_compute; reflexivity|lia]. }
  apply andb_true_iff in H as [H ?]. by apply bool_decide_eq_true in H.
Qed.

Lemma plen_text p : 0 <= p <= 32 ->
  make_netmask (show_Z p) = Some p /\ forallb is_digit (show_Z p) = true.
Proof.
  intros Hp. assert (plen_text_ok p = true) as H.
  { apply (Z_range_allb plen_text_ok 33); [vm_compute; reflexivity|lia]. }
  apply andb_true_iff in H as [H ?]. by apply bool_decide_eq_true in H.
Qed.

Lemma digits_no c s : is_digit c = false -> forallb is_digit s = true -> c ∉ s.
Proof.
  intros Hc Hs Hin. rewrite forallb_forall in Hs. apply list_elem_of_In in Hin.
  specialize (Hs c Hin). congruence.
Qed.

Lemma has_char_no c s : c ∉ s -> has_char c s = false.
Proof.
  unfold has_char. induction s as [|x s IH]; simpl; [done|]. rewrite not_elem_of_cons.
  intros [Hne Hs]. rewrite IH by done. destruct (N.eqb_spec c x); done.
Qed.

Lemma octets_of_addr a : 0 <= a < 2 ^ 32 ->
  (((a / 16777216 mod 256) * 256 + a / 65536 mod 256) * 256 + a / 256 mod 256) * 256 + a mod 256 = a.
Proof.
  intros Ha. change (2 ^ 32) with 4294967296 in Ha.
  rewrite (Z.mod_small (a / 16777216)) by (split; [apply Z.div_pos|apply Z.div_lt_upper_bound]; lia).
  pose proof (Z.div_mod a 256 ltac:(lia)).
  pose proof (Z.div_mod (a / 256) 256 ltac:(lia)) as E1.
  pose proof (Z.div_mod (a / 65536) 256 ltac:(lia)) as E2.
  rewrite Z.div_div in E1 by lia. rewrite Z.div_div in E2 by lia.
  change (256 * 256) with 65536 in E1. change (65536 * 256) with 16777216 in E2. lia.
Qed.

Definition octet (a d : Z) : Z := a / d mod 256.

Lemma octet_range a d : 0 <= octet a d < 256.
Proof. apply Z.mod_pos_bound. lia. Qed.

Lemma octet_no c a d : is_digit c = false -> c ∉ show_Z (octet a d).
Proof. intros Hc. apply digits_no; [done|]. apply octet_text, octet_range. Qed.

Lemma show_addr_eq a : show_addr a =
  show_Z (octet a 16777216) ++ DOT :: show_Z (octet a 65536) ++ DOT :: show_Z (octet a 256)
  ++ DOT :: show_Z (octet a 1).
Proof. unfold show_addr, octet. simpl. by rewrite Z.div_1_r. Qed.

Lemma ip_int_from_show a : 0 <= a < 2 ^ 32 -> ip_int_from_string (show_addr a) = Some a.
Proof.
  intros Ha. rewrite show_addr_eq. unfold ip_int_from_string.
  rewrite !split_char_app, split_char_none by (by apply octet_no).
  rewrite !(proj1 (octet_text _ (octet_range _ _))); simpl.
  f_equal. unfold octet. rewrite Z.div_1_r. by apply octets_of_addr.
Qed.

Lemma show_addr_no c a : is_digit c = false -> c <> DOT -> c ∉ show_addr a.
Proof.
  intros Hc Hd. rewrite show_addr_eq.
  repeat (rewrite elem_of_app || rewrite elem_of_cons).
  intros [H|[H|[H|[H|[H|[H|H]]]]]]; try done; by apply octet_no in H.
Qed.

(** Printing a network and parsing it back gives the network. *)
Lemma ipv4_network_show strict n : wf_net n -> ipv4_network strict (show_net n) = Some n.
Proof.
  intros Hn. pose proof Hn as (Hp & Ha & Hm). unfold ipv4_network, show_net, split_addr_prefix.
  destruct (plen_text (prefixlen n) Hp) as [Hpl Hdig].
  rewrite split_char_app, split_char_none; [| |by apply show_addr_no]; [|by apply digits_no]. simpl.
  unfold ipv4_address. rewrite has_char_no by (by apply show_addr_no).
  rewrite ip_int_from_show by done. simpl. rewrite Hpl. simpl.
  rewrite land_netmask by lia. fold (size n). rewrite Hm, Z.sub_0_r, Z.eqb_refl.
  destruct n, strict; done.
Qed.

Lemma ip_network_show n : wf_net n -> ip_network (show_net n) = Some (inl n).
Proof. intros Hn. unfold ip_network. by rewrite ipv4_network_show. Qed.

Lemma show_net_inj a b : wf_net a -> wf_net b -> show_net a = show_net b -> a = b.
Proof.
  intros Ha Hb H. pose proof (ip_network_show a Ha) as E. rewrite H, (ip_network_show b Hb) in E.
  by injection E.
Qed.

Lemma show_net_chars n : wf_net n -> Forall (fun c => net_char c = true) (show_net n).
Proof.
  intros (Hp & _ & _). apply Forall_forall. intros c Hc. unfold net_char.
  destruct (is_digit c) eqn:Hd; [done|]. simpl.
  destruct (N.eqb_spec c DOT) as [->|Hdot]; [done|]. simpl. apply N.eqb_eq.
  unfold show_net in Hc. apply elem_of_app in Hc as [Hc|Hc]; [by apply show_addr_no in Hc|].
  apply elem_of_cons in Hc as [->|Hc]; [done|]. exfalso. revert Hc. apply digits_no; [done|].
  by apply plen_text.
Qed.

Lemma show_net_has_slash n : SLASH ∈ show_net n.
Proof. unfold show_net. rewrite elem_of_app, elem_of_cons. auto. Qed.

(** *** What the parser accepts is a well-formed network *)

Lemma int_of_digits_aux s acc : 0 <= acc -> forallb is_digit s = true ->
  0 <= fold_left (fun acc c => 10 * acc + digit_val c) s acc.
Proof.
  revert acc. induction s as [|c s IH]; intros acc Hacc Hs; simpl in *; [done|].
  apply andb_true_iff in Hs as [Hc Hs]. apply IH; [|done].
  unfold is_digit, digit_val in *. lia.
Qed.

Lemma parse_octet_range s k : parse_octet s = Some k -> 0 <= k < 256.
Proof.
  unfold parse_octet. destruct (all_digits s) eqn:Hd; simpl; [|done].
  assert (0 <= int_of_digits s).
  { apply int_of_digits_aux; [done|]. by destruct s. }
  intros H0. repeat case_match; simplify_eq; lia.
Qed.

Lemma bind_Some {A B} (f : A -> option B) (m : option A) b :
  m ≫= f = Some b -> exists a, m = Some a /\ f a = Some b.
Proof. destruct m; simpl; [eauto|done]. Qed.

Lemma ip_int_from_string_range s a : ip_int_from_string s = Some a -> 0 <= a < 2 ^ 32.
Proof.
  unfold ip_int_from_string. change (2 ^ 32) with 4294967296.
  destruct (split_char DOT s) as [|s1 [|s2 [|s3 [|s4 [|]]]]]; try done.
  intros (o1 & H1 & (o2 & H2 & (o3 & H3 & (o4 & H4 & H)%bind_Some)%bind_Some)%bind_Some)%bind_Some.
  apply parse_octet_range in H1, H2, H3, H4. simplify_eq. lia.
Qed.

Lemma ipv4_address_range s a : ipv4_address s = Some a -> 0 <= a < 2 ^ 32.
Proof. unfold ipv4_address. case_match; [done|]. apply ip_int_from_string_range. Qed.

Lemma prefix_from_ip_int_range ip p : prefix_from_ip_int ip = Some p -> 0 <= p <= 32.
Proof.
  unfold prefix_from_ip_int. intros H. case_match; [|done]. simplify_eq.
  assert (0 <= count_righthand_zero_bits ip 32 <= 32); [|lia].
  unfold count_righthand_zero_bits. case_match; [lia|].
  unfold bit_length. case_match; [lia|].
  pose proof (Z.log2_nonneg (Z.land (Z.lnot ip) (ip - 1))). lia.
Qed.

Lemma prefix_from_prefix_string_range m s p : prefix_from_prefix_string m s = Some p -> 0 <= p <= m.
Proof.
  unfold prefix_from_prefix_string. destruct (all_digits s) eqn:Hd; [|done].
  destruct (Z.leb_spec (int_of_digits s) m); [|done]. intros [= <-]. split; [|done].
  apply int_of_digits_aux; [done|]. by destruct s.
Qed.

Lemma make_netmask_range s p : make_netmask s = Some p -> 0 <= p <= 32.
Proof.
  unfold make_netmask. case_match eqn:E; [intros [= <-]; by eapply prefix_from_prefix_string_range|].
  unfold prefix_from_ip_string. intros (ip & _ & H)%bind_Some.
  case_match eqn:E2; [simplify_eq|]; by eapply prefix_from_ip_int_range.
Qed.

Lemma masked_wf a p : 0 <= a < 2 ^ 32 -> 0 <= p <= 32 -> wf_net (IPv4Network (Z.land a (netmask p)) p).
Proof.
  intros Ha Hp. unfold wf_net, size; simpl. rewrite land_netmask by done.
  assert (0 < 2 ^ (32 - p)) as Hs by (apply Z.pow_pos_nonneg; lia).
  pose proof (Z.mod_pos_bound a _ Hs). pose proof (Z.mod_le a _ ltac:(lia) Hs).
  split_and!; try lia.
  pose proof (Z.div_mod a (2 ^ (32 - p)) ltac:(lia)) as E.
  replace (a - a mod 2 ^ (32 - p)) with (a / 2 ^ (32 - p) * 2 ^ (32 - p)) by lia.
  apply Z.mod_mul. lia.
Qed.

Lemma ipv4_network_wf strict s n : ipv4_network strict s = Some n -> wf_net n.
Proof.
  unfold ipv4_network. intros ([a m] & _ & (x & Hx & (p & Hp & H)%bind_Some)%bind_Some)%bind_Some.
  assert (0 <= p <= 32).
  { destruct m; [by eapply make_netmask_range|]. injection Hp. lia. }
  case_match; [done|]. simplify_eq. apply masked_wf; [by eapply ipv4_address_range|done].
Qed.

Lemma ip_network_wf s n : ip_network s = Some (inl n) -> wf_net n.
Proof.
  unfold ip_network. destruct (ipv4_network false s) eqn:E; [intros [= <-]|by case_match].
  by eapply ipv4_network_wf.
Qed.

Lemma ipv4_ip_network s n : ipv4_network false s = Some n -> ip_network s = Some (inl n).
Proof. unfold ip_network. by intros ->. Qed.
