(* ===== verification/Float64.v ===== *)
(** * IEEE double precision, as Python's [float]

    The operations the program applies to percentages, on the standard library's
    executable specification of binary64, and the theorem that makes them usable
    in proofs: on the operands that occur here (address counts and integer
    thresholds) the float comparison agrees with exact arithmetic. *)

From S2P Require Import Prelude.
From Stdlib Require Import SpecFloat.
#[local] Open Scope Z_scope.

Definition float : Type := spec_float.
Definition fzero : float := S754_zero false.
(** [float(n)], the conversion an [int] operand undergoes. *)
Definition float_of_int (n : Z) : float := binary_normalize 53 1024 n 0 false.
Definition fmul : float -> float -> float := SFmul 53 1024.
Definition fdiv : float -> float -> float := SFdiv 53 1024.
Definition fltb : float -> float -> bool := SFltb.
(** [max(0.0, x)]: the first argument unless the second is greater. *)
Definition fmax0 (x : float) : float := if fltb fzero x then x else fzero.
(** [x > n] for an [int] [n]: Python compares the two numbers exactly. *)
Definition float_gt_int (x : float) (n : Z) : bool :=
  match x with
  | S754_nan => false
  | S754_infinity s => negb s
  | S754_zero _ => n <? 0
  | S754_finite s m e =>
      let v := if s then Z.neg m else Z.pos m in
      if 0 <=? e then n <? v * 2 ^ e else n * 2 ^ (- e) <? v
  end.

(** [100.0 * part / whole] *)
Definition percent (part whole : Z) : float :=
  fdiv (fmul (float_of_int 100) (float_of_int part)) (float_of_int whole).

Example percent_ex : float_gt_int (percent 21 100) 20 = true.
Proof. vm_compute. reflexivity. Qed.
Example percent_ex2 : float_gt_int (percent 20 100) 20 = false.
Proof. vm_compute. reflexivity. Qed.
Example percent_ex3 : float_gt_int (percent 858993460 4294967296) 20 = true.
Proof. vm_compute. reflexivity. Qed.

(** ** Representations of the integers below [2^53] *)

Lemma digits2_log2 p : Z.pos (digits2_pos p) = Z.log2 (Z.pos p) + 1.
Proof.
  induction p as [p IH|p IH|]; simpl digits2_pos; [..|done]; rewrite Pos2Z.inj_succ, IH.
  - rewrite (Pos2Z.inj_xI p), Z.log2_succ_double by lia. lia.
  - rewrite (Pos2Z.inj_xO p), Z.log2_double by lia. lia.
Qed.

Lemma Zdigits2_log2 m : 0 < m -> Zdigits2 m = Z.log2 m + 1.
Proof. destruct m; [lia|intros _; apply digits2_log2|lia]. Qed.

Lemma fexp_normal e : -1021 <= e -> fexp 53 1024 e = e - 53.
Proof. unfold fexp, emin. lia. Qed.

Definition exact_rec (m : Z) : shr_record := {| shr_m := m; shr_r := false; shr_s := false |}.

Lemma shr_1_double m : 0 <= m -> shr_1 (exact_rec (m * 2)) = exact_rec m.
Proof. intros H. rewrite Z.mul_comm. by destruct m; simpl. Qed.

Lemma iter_pos_exact p m : 0 <= m -> iter_pos shr_1 p (exact_rec (m * 2 ^ Z.pos p)) = exact_rec m.
Proof.
  revert m. induction p as [p IH|p IH|]; intros m Hm; cbn [iter_pos].
  - replace (m * 2 ^ Z.pos p~1) with (m * 2 ^ Z.pos p * 2 ^ Z.pos p * 2).
    2:{ rewrite (Pos2Z.inj_xI p), <- Z.add_diag, !Z.pow_add_r, Z.pow_1_r by lia. ring. }
    rewrite shr_1_double, IH by (apply Z.mul_nonneg_nonneg; lia). by apply IH.
  - rewrite (Pos2Z.inj_xO p), <- Z.add_diag, Z.pow_add_r, Z.mul_assoc by lia.
    rewrite IH by (apply Z.mul_nonneg_nonneg; lia). by apply IH.
  - rewrite Z.pow_1_r. by apply shr_1_double.
Qed.

Lemma log2_53 m : 2 ^ 52 <= m < 2 ^ 53 -> Z.log2 m = 52.
Proof. intros H. apply Z.log2_unique; lia. Qed.

(** Shifting a mantissa whose low bits are zero to 53 digits is exact. *)
Lemma shr_fexp_exact m k e : 2 ^ 52 <= m < 2 ^ 53 -> 0 <= k -> -1000 <= e ->
  shr_fexp 53 1024 (m * 2 ^ k) e loc_Exact = (exact_rec m, e + k).
Proof.
  intros Hm Hk He. unfold shr_fexp. assert (0 < m * 2 ^ k) by (apply Z.mul_pos_pos; lia).
  rewrite Zdigits2_log2, Z.log2_mul_pow2, log2_53 by lia.
  rewrite fexp_normal by lia. replace (k + 52 + 1 + e - 53 - e) with k by lia.
  change (shr_record_of_loc (m * 2 ^ k) loc_Exact) with (exact_rec (m * 2 ^ k)).
  destruct k as [|k|k]; [|cbn [shr]|lia].
  - rewrite Z.mul_1_r. simpl. f_equal. lia.
  - by rewrite iter_pos_exact by lia.
Qed.

(** The last step of rounding: the rounded mantissa is normalised again. *)
Definition renormalise (s : bool) (m e : Z) : float :=
  let '(mrs, e') := shr_fexp 53 1024 m e loc_Exact in
  match shr_m mrs with
  | Z0 => S754_zero s
  | Zpos m => if Z.leb e' (1024 - 53) then S754_finite s m e' else S754_infinity s
  | _ => S754_nan
  end.

Lemma renormalise_exact s m k e : 2 ^ 52 <= m < 2 ^ 53 -> 0 <= k -> -1000 <= e -> e + k <= 971 ->
  renormalise s (m * 2 ^ k) e = S754_finite s (Z.to_pos m) (e + k).
Proof.
  intros Hm Hk He Hek. unfold renormalise. rewrite shr_fexp_exact by done. simpl shr_m.
  destruct m as [|m|m]; [lia| |lia]. by rewrite (proj2 (Z.leb_le (e + k) (1024 - 53))) by lia.
Qed.

Lemma round_exact s m k e : 2 ^ 52 <= m < 2 ^ 53 -> 0 <= k -> -1000 <= e -> e + k <= 971 ->
  binary_round_aux 53 1024 s (m * 2 ^ k) e loc_Exact = S754_finite s (Z.to_pos m) (e + k).
Proof.
  intros Hm Hk He Hek. unfold binary_round_aux. rewrite shr_fexp_exact by done.
  pose proof (renormalise_exact s m 0 (e + k)) as R. rewrite Z.mul_1_r in R.
  rewrite (Z.add_comm _ 0) in R. apply R; lia.
Qed.

(** The 53-digit representation of [0 < n < 2^53]. *)
Definition nd (n : Z) : Z := Z.log2 n + 1.
Definition canon (n : Z) : float := S754_finite false (Z.to_pos (n * 2 ^ (53 - nd n))) (nd n - 53).

Lemma nd_bounds n : 0 < n < 2 ^ 53 -> 1 <= nd n <= 53.
Proof.
  intros H. unfold nd. pose proof (Z.log2_nonneg n).
  assert (Z.log2 n < 53) by (apply Z.log2_lt_pow2; lia). lia.
Qed.

Lemma canon_mantissa n : 0 < n < 2 ^ 53 -> 2 ^ 52 <= n * 2 ^ (53 - nd n) < 2 ^ 53.
Proof.
  intros H. pose proof (nd_bounds n H) as Hd. unfold nd in *.
  destruct (Z.log2_spec n) as [H1 H2]; [lia|].
  replace (2 ^ 52) with (2 ^ Z.log2 n * 2 ^ (53 - (Z.log2 n + 1))) by (rewrite <- Z.pow_add_r by lia; f_equal; lia).
  replace (2 ^ 53) with (2 ^ Z.succ (Z.log2 n) * 2 ^ (53 - (Z.log2 n + 1))) by (rewrite <- Z.pow_add_r by lia; f_equal; lia).
  split; [apply Z.mul_le_mono_nonneg_r|apply Z.mul_lt_mono_pos_r]; lia.
Qed.

Lemma canon_intro s n k e : 0 < n < 2 ^ 53 -> k = nd n - 53 - e -> 0 <= k -> -1000 <= e ->
  binary_round_aux 53 1024 s (n * 2 ^ (53 - nd n) * 2 ^ k) e loc_Exact
  = S754_finite s (Z.to_pos (n * 2 ^ (53 - nd n))) (nd n - 53).
Proof.
  intros Hn Hk Hk0 He. pose proof (nd_bounds n Hn).
  rewrite round_exact by (lia || by apply canon_mantissa). f_equal. lia.
Qed.

Lemma Pos_iter_xO p d : Z.pos (Pos.iter xO p d) = Z.pos p * 2 ^ Z.pos d.
Proof.
  induction d using Pos.peano_ind; [simpl; lia|].
  rewrite Pos.iter_succ, Pos2Z.inj_xO, IHd, Pos2Z.inj_succ, Z.pow_succ_r by lia. lia.
Qed.

Lemma float_of_int_canon n : 0 < n < 2 ^ 53 -> float_of_int n = canon n.
Proof.
  intros Hn. pose proof (nd_bounds n Hn) as Hd. unfold float_of_int, canon.
  destruct n as [|p|p]; [lia| |lia]. cbn [binary_normalize]. unfold binary_round.
  rewrite digits2_log2. fold (nd (Z.pos p)). rewrite fexp_normal, Z.add_0_r by lia.
  assert (exists q, shl_align p 0 (nd (Z.pos p) - 53) = (q, nd (Z.pos p) - 53)
            /\ Z.pos q = Z.pos p * 2 ^ (53 - nd (Z.pos p))) as (q & -> & ->).
  { unfold shl_align. destruct (nd (Z.pos p) - 53 - 0) as [|d|d] eqn:E; [..|lia|].
    - exists p. split; [f_equal; lia|]. replace (53 - nd (Z.pos p)) with 0 by lia. lia.
    - eexists. split; [reflexivity|]. rewrite Pos_iter_xO. do 2 f_equal. lia. }
  rewrite <- (canon_intro false (Z.pos p) 0) with (e := nd (Z.pos p) - 53) by lia.
  by rewrite Z.mul_1_r.
Qed.

Lemma log2_mul_range a b : 0 < a -> 0 < b -> Z.log2 a + Z.log2 b <= Z.log2 (a * b).
Proof. intros. apply Z.log2_mul_below; lia. Qed.

Lemma fmul_canon a b : 0 < a < 2 ^ 53 -> 0 < b < 2 ^ 53 -> a * b < 2 ^ 53 ->
  fmul (canon a) (canon b) = canon (a * b).
Proof.
  intros Ha Hb Hab. assert (0 < a * b) as Hp by (apply Z.mul_pos_pos; lia).
  pose proof (nd_bounds a Ha). pose proof (nd_bounds b Hb). pose proof (nd_bounds (a * b)).
  pose proof (canon_mantissa a Ha). pose proof (canon_mantissa b Hb).
  pose proof (log2_mul_range a b). unfold fmul, canon, SFmul. cbn [xorb].
  rewrite Pos2Z.inj_mul, !Z2Pos.id by lia.
  rewrite <- (canon_intro false (a * b) (nd (a * b) - 53 - (nd a - 53 + (nd b - 53)))
                (nd a - 53 + (nd b - 53))); unfold nd in *; [|lia..].
  f_equal.
  replace (a * 2 ^ (53 - (Z.log2 a + 1)) * (b * 2 ^ (53 - (Z.log2 b + 1))))
    with (a * b * (2 ^ (53 - (Z.log2 a + 1)) * 2 ^ (53 - (Z.log2 b + 1)))) by ring.
  rewrite <- (Z.mul_assoc (a * b)), <- !Z.pow_add_r by lia. do 2 f_equal. lia.
Qed.

(** ** Division *)

(** A positive float read at the fixed scale [2^-200]; every float met here is a
    multiple of it. *)
Definition scaled (m : positive) (e : Z) : Z := Z.pos m * 2 ^ (e + 200).

Lemma float_gt_int_scaled m e n : -200 <= e ->
  float_gt_int (S754_finite false m e) n = (n * 2 ^ 200 <? scaled m e).
Proof.
  intros He. unfold float_gt_int, scaled. destruct (Z.leb_spec 0 e).
  - rewrite Z.pow_add_r, Z.mul_assoc by lia. apply eq_true_iff_eq. rewrite !Z.ltb_lt.
    rewrite <- Z.mul_lt_mono_pos_r by lia. done.
  - replace (2 ^ 200) with (2 ^ (- e) * 2 ^ (e + 200)) by (rewrite <- Z.pow_add_r by lia; f_equal; lia).
    rewrite Z.mul_assoc. apply eq_true_iff_eq. rewrite !Z.ltb_lt.
    rewrite <- Z.mul_lt_mono_pos_r by lia. done.
Qed.

Lemma binary_round_aux_eq s m e l :
  binary_round_aux 53 1024 s m e l
  = let '(mrs, e') := shr_fexp 53 1024 m e l in
    renormalise s (round_nearest_even (shr_m mrs) (loc_of_shr_record mrs)) e'.
Proof. unfold binary_round_aux, renormalise. by destruct (shr_fexp 53 1024 m e l). Qed.

Lemma shr_fexp_shift m e l : 0 < m -> 0 <= Z.log2 m + 1 + e + 1000 ->
  shr_fexp 53 1024 m e l = shr (shr_record_of_loc m l) e (Z.log2 m - 52).
Proof.
  intros Hm He. unfold shr_fexp. rewrite Zdigits2_log2, fexp_normal by lia. f_equal. lia.
Qed.

(** Rounding a quotient [q] with location [l]: the 53-digit truncation [u], and
    either it or its successor, the truncation itself when nothing is lost. *)
Lemma round_53 l q e : 2 ^ 52 <= q < 2 ^ 53 -> -200 <= e <= 900 ->
  exists m e', binary_round_aux 53 1024 false q e l = S754_finite false m e' /\ -200 <= e'
    /\ (scaled m e' = q * 2 ^ (e + 200)
        \/ l <> loc_Exact /\ scaled m e' = (q + 1) * 2 ^ (e + 200)).
Proof.
  intros Hq He. rewrite binary_round_aux_eq, shr_fexp_shift, log2_53 by (rewrite ?log2_53; lia).
  change (shr _ e (52 - 52)) with (shr_record_of_loc q l, e). cbv beta iota.
  assert (exists r, round_nearest_even (shr_m (shr_record_of_loc q l))
             (loc_of_shr_record (shr_record_of_loc q l)) = r
           /\ (r = q \/ l <> loc_Exact /\ r = q + 1)) as (r & -> & Hr).
  { eexists. split; [reflexivity|]. destruct l as [|[| |]]; simpl; try case_match;
      first [by left|by right]. }
  assert (exists m e', renormalise false r e = S754_finite false m e' /\ -200 <= e'
            /\ scaled m e' = r * 2 ^ (e + 200)) as (m & e' & -> & He' & Hs).
  { destruct (Z.eq_dec r (2 ^ 53)) as [->|].
    - exists (Z.to_pos (2 ^ 52)), (e + 1). change (2 ^ 53) with (2 ^ 52 * 2 ^ 1).
      rewrite (renormalise_exact false (2 ^ 52) 1) by lia. split_and!; [done|lia|].
      unfold scaled. rewrite Z2Pos.id by lia. replace (e + 1 + 200) with (1 + (e + 200)) by lia.
      rewrite (Z.pow_add_r 2 1) by lia. ring.
    - exists (Z.to_pos r), (e + 0). pose proof (renormalise_exact false r 0 e) as R.
      rewrite Z.mul_1_r in R. rewrite R by lia. split_and!; [done|lia|].
      unfold scaled. rewrite Z2Pos.id by lia. do 2 f_equal. lia. }
  exists m, e'. split_and!; [done..|]. rewrite Hs. destruct Hr as [->|[? ->]]; auto.
Qed.

Lemma round_54 l q e : 2 ^ 53 <= q < 2 ^ 54 -> -200 <= e <= 900 ->
  exists l', binary_round_aux 53 1024 false q e l = binary_round_aux 53 1024 false (q / 2) (e + 1) l'
    /\ (l' <> loc_Exact -> l <> loc_Exact \/ q <> q / 2 * 2).
Proof.
  intros Hq He. assert (Z.log2 q = 53) as Hlq by (apply Z.log2_unique; lia).
  pose proof (Z.div_mod q 2). pose proof (Z.mod_pos_bound q 2).
  assert (2 ^ 52 <= q / 2 < 2 ^ 53) as Hq2 by lia.
  exists (loc_of_shr_record (shr_1 (shr_record_of_loc q l))).
  rewrite !binary_round_aux_eq, !shr_fexp_shift, Hlq, (log2_53 (q / 2)) by (rewrite ?Hlq, ?log2_53; lia).
  change (shr ?x e (53 - 52)) with (shr_1 x, e + 1).
  change (shr ?x (e + 1) (52 - 52)) with (x, e + 1). cbv beta iota.
  destruct q as [|p|p]; [lia| |lia].
  destruct p as [p|p|]; [..|lia].
  - replace (Z.pos p~1 / 2) with (Z.pos p) in * by (rewrite (Pos2Z.inj_xI p); lia).
    split; [by destruct l as [|[| |]]|]. intros _. right. lia.
  - replace (Z.pos p~0 / 2) with (Z.pos p) in * by (rewrite (Pos2Z.inj_xO p); lia).
    split; [by destruct l as [|[| |]]|]. intros Hl. left. by intros ->.
Qed.

Lemma new_location_exact m r : new_location m r <> loc_Exact -> r <> 0.
Proof.
  unfold new_location, new_location_even, new_location_odd.
  destruct (Z.eqb_spec r 0) as [->|]; [|done]. by destruct (Z.even m).
Qed.

(** Rounding any quotient of 53 or 54 digits. *)
Lemma round_quotient l q e : 2 ^ 52 <= q < 2 ^ 54 -> -200 <= e <= 800 ->
  exists m e' u E, binary_round_aux 53 1024 false q e l = S754_finite false m e' /\ -200 <= e'
    /\ 2 ^ 52 <= u < 2 ^ 53 /\ e <= E
    /\ u * 2 ^ (E - e) <= q /\ q + 1 <= (u + 1) * 2 ^ (E - e)
    /\ (scaled m e' = u * 2 ^ (E + 200)
        \/ (l <> loc_Exact \/ q <> u * 2 ^ (E - e)) /\ scaled m e' = (u + 1) * 2 ^ (E + 200)).
Proof.
  intros Hq He. destruct (Z.lt_ge_cases q (2 ^ 53)).
  - destruct (round_53 l q e) as (m & e' & Hr & He' & Hs); [lia..|].
    exists m, e', q, e. rewrite Z.sub_diag, !Z.mul_1_r. split_and!; try done; try lia.
    destruct Hs as [|[? ?]]; auto.
  - pose proof (Z.div_mod q 2). pose proof (Z.mod_pos_bound q 2).
    destruct (round_54 l q e) as (l' & -> & Hl); [lia..|].
    destruct (round_53 l' (q / 2) (e + 1)) as (m & e' & Hr & He' & Hs); [lia..|].
    exists m, e', (q / 2), (e + 1). replace (e + 1 - e) with 1 by lia. rewrite Z.pow_1_r.
    split_and!; try done; try lia. destruct Hs as [|[? ?]]; auto.
Qed.

Lemma fdiv_canon a b : 0 < a < 2 ^ 53 -> 0 < b < 2 ^ 53 ->
  exists m e', fdiv (canon a) (canon b) = S754_finite false m e' /\ -200 <= e'
    /\ exists u E, 2 ^ 52 <= u < 2 ^ 53 /\ -200 <= E
       /\ u * 2 ^ (E + 200) * b <= a * 2 ^ 200 < (u + 1) * 2 ^ (E + 200) * b
       /\ (scaled m e' = u * 2 ^ (E + 200)
           \/ a * 2 ^ 200 <> u * 2 ^ (E + 200) * b /\ scaled m e' = (u + 1) * 2 ^ (E + 200)).
Proof.
  intros Ha Hb. pose proof (canon_mantissa a Ha) as Hma. pose proof (canon_mantissa b Hb) as Hmb.
  pose proof (nd_bounds a Ha) as Hda. pose proof (nd_bounds b Hb) as Hdb.
  unfold fdiv, canon, SFdiv, SFdiv_core_binary. cbn [xorb]. rewrite !Z2Pos.id by lia.
  set (A := a * 2 ^ (53 - nd a)) in *. set (B := b * 2 ^ (53 - nd b)) in *.
  rewrite !Zdigits2_log2, !log2_53 by lia.
  set (e := nd a - nd b - 53).
  replace (Z.min _ _) with e by (unfold e; rewrite fexp_normal; lia).
  replace (nd a - 53 - (nd b - 53) - e) with 53 by (unfold e; lia).
  cbv iota. rewrite Z.shiftl_mul_pow2 by lia.
  pose proof (Z_div_mod (A * 2 ^ 53) B) as Hdm. destruct (Z.div_eucl (A * 2 ^ 53) B) as [q r].
  destruct Hdm as [Hqr Hr]; [lia|].
  assert (2 ^ 52 <= q < 2 ^ 54) as Hq by nia.
  destruct (round_quotient (new_location B r) q e) as (m & e' & u & E & -> & He' & Hu & HE & H1 & H2 & H3);
    [lia|unfold e; lia|].
  exists m, e'. split_and!; [done..|]. exists u, E.
  set (F := 2 ^ (nd a + 94)). set (P := 2 ^ (E - e)) in *.
  assert (0 < F) by (apply Z.pow_pos_nonneg; lia).
  assert (a * 2 ^ 200 = A * 2 ^ 53 * F) as ->.
  { unfold A, F. rewrite <- !Z.mul_assoc, <- !Z.pow_add_r by lia. do 2 f_equal. lia. }
  assert (forall v, v * 2 ^ (E + 200) * b = v * P * B * F) as HP.
  { intros v. unfold B, F, P. replace (v * 2 ^ (E - e) * (b * 2 ^ (53 - nd b)) * 2 ^ (nd a + 94))
      with (v * b * (2 ^ (E - e) * 2 ^ (53 - nd b) * 2 ^ (nd a + 94))) by ring.
    rewrite <- !Z.pow_add_r by lia. rewrite <- Z.mul_assoc, (Z.mul_comm _ b), Z.mul_assoc.
    do 2 f_equal. unfold e. lia. }
  rewrite !HP, Hqr.
  assert (u * P * B <= B * q + r) as Hlo by (pose proof (Z.mul_le_mono_nonneg_r (u * P) q B); lia).
  assert (B * q + r < (u + 1) * P * B) as Hhi
    by (pose proof (Z.mul_le_mono_nonneg_r (q + 1) ((u + 1) * P) B); lia).
  clear HP. split_and!; [lia..|unfold e in HE; lia|by apply Z.mul_le_mono_nonneg_r; lia
    |by apply Z.mul_lt_mono_pos_r|].
  destruct H3 as [|[Hne ?]]; [by left|right]. split; [|done]. intros Heq.
  apply Z.mul_cancel_r in Heq; [|lia].
  assert (r = B * (u * P - q)) as Hrw by lia.
  assert (r = 0) as Hr0 by (pose proof (Z.mul_nonneg_nonpos B (u * P - q)); lia).
  assert (q = u * P) as Hq0 by (rewrite Hr0 in Hrw; symmetry in Hrw; apply Z.mul_eq_0 in Hrw; lia).
  destruct Hne as [Hl%new_location_exact|]; done.
Qed.

(** ** The comparison is exact *)

Lemma quotient_compare a b u k t v :
  0 < b < k -> 0 <= t -> u * b <= a * k < (u + 1) * b ->
  v = u \/ a * k <> u * b /\ v = u + 1 -> t * k < v <-> t * b < a.
Proof.
  intros Hb Ht Hu Hv. split; intros Hlt.
  - apply (Z.mul_lt_mono_pos_r k); [lia|].
    assert (t * k * b <= u * b) by (apply Z.mul_le_mono_nonneg_r; lia).
    destruct Hv as [->|[Hne _]]; [|lia].
    assert (t * k * b < u * b) by (apply Z.mul_lt_mono_pos_r; lia). lia.
  - assert ((t * b + 1) * k <= a * k) by (apply Z.mul_le_mono_nonneg_r; lia).
    assert (t * k < u) by (apply (Z.mul_lt_mono_pos_r b); lia).
    destruct Hv as [->|[_ ->]]; lia.
Qed.

(** A quotient of two positive integers below [2^53], the divisor at most
    [2^32], compares with an integer below [2^20] as the exact fraction does:
    distinct fractions are further apart than the rounding can move them. *)
Lemma fdiv_gt_int a b t : 0 < a < 2 ^ 53 -> 0 < b <= 2 ^ 32 -> 0 <= t < 2 ^ 20 ->
  float_gt_int (fdiv (canon a) (canon b)) t = (t * b <? a).
Proof.
  intros Ha Hb Ht. destruct (fdiv_canon a b) as (m & e & -> & He & u & E & Hu & HE & [H1 H2] & Hs); [lia..|].
  rewrite float_gt_int_scaled by lia. apply eq_true_iff_eq. rewrite !Z.ltb_lt.
  set (W := 2 ^ (E + 200)) in *. assert (0 < W) by (apply Z.pow_pos_nonneg; lia).
  destruct (Z.le_gt_cases E (-33)) as [HE33|HE33].
  - assert (W * 2 ^ 32 < 2 ^ 200) as HW.
    { unfold W. rewrite <- Z.pow_add_r by lia. apply Z.pow_lt_mono_r; lia. }
    assert (exists k, 2 ^ 200 = k * W) as [k Hk].
    { exists (2 ^ (- E)). unfold W. rewrite <- Z.pow_add_r by lia. f_equal. lia. }
    rewrite Hk in *. assert (2 ^ 32 < k) as Hkb by (apply (Z.mul_lt_mono_pos_r W); lia).
    assert (u * b <= a * k) as H1' by (apply (Z.mul_le_mono_pos_r _ _ W); lia).
    assert (a * k < (u + 1) * b) as H2' by (apply (Z.mul_lt_mono_pos_r W); lia).
    rewrite (Z.mul_assoc t). destruct Hs as [->|[Hne ->]]; rewrite <- Z.mul_lt_mono_pos_r by lia;
      apply (quotient_compare a b u k t); try lia.
    right. split; [|done]. intros Heq. apply Hne. rewrite Z.mul_assoc, Heq. ring.
  - assert (2 ^ 20 * 2 ^ 200 <= 2 ^ 52 * W) as HW.
    { unfold W. rewrite <- !Z.pow_add_r by lia. apply Z.pow_le_mono_r; lia. }
    assert (2 ^ 52 * W <= u * W) by (apply Z.mul_le_mono_nonneg_r; lia).
    assert (t * 2 ^ 200 < 2 ^ 20 * 2 ^ 200) by (apply Z.mul_lt_mono_pos_r; lia).
    assert (t * 2 ^ 200 < scaled m e) by (destruct Hs as [->|[_ ->]]; lia).
    split; [intros _|done]. apply (Z.mul_lt_mono_pos_r (2 ^ 200)); [lia|].
    assert (t * 2 ^ 200 * b < u * W * b) by (apply Z.mul_lt_mono_pos_r; lia). lia.
Qed.

(** Not greater than zero: what a negative numerator gives. *)
Definition nonpos (x : float) : bool :=
  match x with
  | S754_zero _ | S754_nan | S754_infinity true | S754_finite true _ _ => true
  | _ => false
  end.

Lemma nonpos_max0 x : nonpos x = true -> fmax0 x = fzero.
Proof. by destruct x as [| [|] | |[|]]. Qed.

Lemma nonpos_gt_int x n : nonpos x = true -> 0 <= n -> float_gt_int x n = false.
Proof.
  intros Hx Hn. destruct x as [s|[|]| |[|] m e]; try done; simpl; [by apply Z.ltb_ge|].
  case_match; apply Z.ltb_ge.
  - pose proof (Z.pow_pos_nonneg 2 e). nia.
  - pose proof (Z.pow_nonneg 2 (- e)). nia.
Qed.

Lemma round_aux_nonpos m e l : 0 <= m -> nonpos (binary_round_aux 53 1024 true m e l) = true.
Proof.
  intros _. unfold binary_round_aux. destruct (shr_fexp 53 1024 m e l) as [r e1].
  destruct (shr_fexp 53 1024 _ e1 loc_Exact) as [r' e2].
  destruct (shr_m r'); [done| |done]. by case_match.
Qed.

Lemma float_of_int_nonpos n : n <= 0 -> nonpos (float_of_int n) = true.
Proof.
  intros Hn. unfold float_of_int. destruct n as [|p|p]; [done|lia|].
  cbn [binary_normalize]. unfold binary_round. case_match. by apply round_aux_nonpos.
Qed.

Lemma fmul_nonpos a x : 0 < a < 2 ^ 53 -> nonpos x = true -> nonpos (fmul (canon a) x) = true.
Proof.
  intros Ha Hx. unfold fmul, canon. destruct x as [s|[|]| |[|] m e]; try done.
  cbn [SFmul xorb]. by apply round_aux_nonpos.
Qed.

Lemma fdiv_nonpos b x : 0 < b < 2 ^ 53 -> nonpos x = true -> nonpos (fdiv x (canon b)) = true.
Proof.
  intros Hb Hx. unfold fdiv, canon. destruct x as [s|[|]| |[|] m e]; try done.
  cbn [SFdiv xorb]. destruct (SFdiv_core_binary _ _ _ _ _ _) as [[q e1] l].
  unfold binary_round_aux. destruct (shr_fexp 53 1024 q e1 l) as [r e2].
  destruct (shr_fexp 53 1024 _ e2 loc_Exact) as [r' e3].
  destruct (shr_m r'); [done| |done]. by case_match.
Qed.

(** [100.0 * part / whole > t] in floating point is [100 * part > t * whole]. *)
Lemma percent_gt_int part whole t : part <= 2 ^ 32 -> 0 < whole <= 2 ^ 32 -> 0 <= t < 2 ^ 20 ->
  float_gt_int (percent part whole) t = (t * whole <? 100 * part).
Proof.
  intros Hp Hw Ht. unfold percent. rewrite (float_of_int_canon 100), (float_of_int_canon whole) by lia.
  destruct (Z.le_gt_cases part 0) as [Hneg|Hpos].
  - rewrite nonpos_gt_int; [|apply fdiv_nonpos; [lia|apply fmul_nonpos, float_of_int_nonpos; lia]|lia].
    symmetry. apply Z.ltb_ge. pose proof (Z.mul_nonneg_nonneg t whole). lia.
  - rewrite float_of_int_canon, fmul_canon by lia. by apply fdiv_gt_int; lia.
Qed.

Lemma fmax0_gt_int x t : 0 <= t -> float_gt_int (fmax0 x) t = float_gt_int x t.
Proof.
  intros Ht. unfold fmax0. destruct (fltb fzero x) eqn:E; [done|].
  assert (nonpos x = true) as Hx by (destruct x as [?|[|]| |[|] ? ?]; done).
  rewrite (nonpos_gt_int x t) by done. simpl. apply Z.ltb_ge. done.
Qed.
