(* ===== verification/Json.v ===== *)
(** * Decoding JSON text

    [json.loads] of the standard library on a [str]: the value type, and the
    decoder by recursive descent. A number keeps its literal; an object is a
    dict, so a repeated key keeps its first position and its last value. *)

From S2P Require Import Prelude PyText.
#[local] Open Scope Z_scope.

#[warnings="-register-all"]
Inductive json : Type :=
  | JNull
  | JBool (b : bool)
  | JNum (literal : str)
  | JStr (s : str)
  | JArr (items : list json)
  | JObj (members : list (str * json)).

(** [d[k] = v] on a dict kept as a list of its items in insertion order. *)
Fixpoint dict_set {V} (k : str) (v : V) (d : list (str * V)) : list (str * V) :=
  match d with
  | [] => [(k, v)]
  | (k', v') :: d' => if bool_decide (k = k') then (k', v) :: d' else (k', v') :: dict_set k v d'
  end.
(** [d.get(k)] *)
Fixpoint dict_get {V} (k : str) (d : list (str * V)) : option V :=
  match d with
  | [] => None
  | (k', v) :: d' => if bool_decide (k = k') then Some v else dict_get k d'
  end.

Definition json_ws (c : N) : bool := (c =? 32)%N || (c =? 9)%N || (c =? 10)%N || (c =? 13)%N.
Fixpoint skip_ws (s : str) : str :=
  match s with
  | c :: r => if json_ws c then skip_ws r else s
  | [] => []
  end.

Definition hex_val (c : N) : option N :=
  (if is_digit c then Some (c - 48)
   else if (97 <=? c) && (c <=? 102) then Some (c - 87)
   else if (65 <=? c) && (c <=? 70) then Some (c - 55)
   else None)%N.
Definition hex4 (s : str) : option (N * str) :=
  match s with
  | a :: b :: c :: d :: r =>
      a ← hex_val a; b ← hex_val b; c ← hex_val c; d ← hex_val d;
      Some ((((a * 16 + b) * 16 + c) * 16 + d)%N, r)
  | _ => None
  end.

(** The rest of a string literal after its opening quote. *)
Fixpoint json_string (fuel : nat) (acc : str) (s : str) : option (str * str) :=
  match fuel with
  | O => None
  | S fuel' =>
      match s with
      | [] => None
      | 34%N :: r => Some (rev acc, r)
      | 92%N :: e :: r =>
          match e with
          | 34%N | 92%N | 47%N => json_string fuel' (e :: acc) r
          | 98%N => json_string fuel' (8%N :: acc) r
          | 102%N => json_string fuel' (12%N :: acc) r
          | 110%N => json_string fuel' (10%N :: acc) r
          | 114%N => json_string fuel' (13%N :: acc) r
          | 116%N => json_string fuel' (9%N :: acc) r
          | 117%N =>
              '(u, r1) ← hex4 r;
              if ((55296 <=? u) && (u <=? 56319))%N then
                match r1 with
                | 92%N :: 117%N :: r2 =>
                    '(v, r3) ← hex4 r2;
                    if ((56320 <=? v) && (v <=? 57343))%N
                    then json_string fuel' ((65536 + (u - 55296) * 1024 + (v - 56320))%N :: acc) r3
                    else json_string fuel' (u :: acc) r1
                | _ => json_string fuel' (u :: acc) r1
                end
              else json_string fuel' (u :: acc) r1
          | _ => None
          end
      | c :: r => if (c <? 32)%N || (c =? 92)%N then None else json_string fuel' (c :: acc) r
      end
  end.

Fixpoint span_digits (s : str) : str * str :=
  match s with
  | c :: r => if is_digit c then let '(d, t) := span_digits r in (c :: d, t) else ([], s)
  | [] => ([], [])
  end.

(** A number literal; the integer part has no leading zero and an integer has
    at most 4300 digits. *)
Definition json_number (s : str) : option (json * str) :=
  let '(sign, r) := match s with 45%N :: r => ([45%N], r) | _ => ([], s) end in
  let '(int, r1) := match r with
                    | 48%N :: t => ([48%N], t)
                    | _ => span_digits r
                    end in
  match int with
  | [] => None
  | _ =>
      let '(frac, r2) := match r1 with
                         | 46%N :: t => match span_digits t with
                                        | ([], _) => ([], r1)
                                        | (d, t') => (46%N :: d, t')
                                        end
                         | _ => ([], r1)
                         end in
      let '(exp, r3) :=
        match r2 with
        | e :: t =>
            if (e =? 101)%N || (e =? 69)%N then
              let '(es, t1) := match t with
                               | 43%N :: t1 => ([43%N], t1)
                               | 45%N :: t1 => ([45%N], t1)
                               | _ => ([], t)
                               end in
              match span_digits t1 with
              | ([], _) => ([], r2)
              | (d, t') => (e :: es ++ d, t')
              end
            else ([], r2)
        | [] => ([], r2)
        end in
      if (match frac, exp with [], [] => true | _, _ => false end)
         && (4300 <? Z.of_nat (length int))
      then None
      else Some (JNum (sign ++ int ++ frac ++ exp), r3)
  end.

Fixpoint json_value (fuel : nat) (s : str) : option (json * str) :=
  match fuel with
  | O => None
  | S fuel' =>
      let items := (fix items (k : nat) (acc : list json) (s : str) : option (json * str) :=
        match k with
        | O => None
        | S k' =>
            '(v, r) ← json_value fuel' (skip_ws s);
            match skip_ws r with
            | 44%N :: r' => items k' (v :: acc) r'
            | 93%N :: r' => Some (JArr (rev (v :: acc)), r')
            | _ => None
            end
        end) in
      let members := (fix members (k : nat) (acc : list (str * json)) (s : str)
                        : option (json * str) :=
        match k with
        | O => None
        | S k' =>
            match skip_ws s with
            | 34%N :: r =>
                '(key, r1) ← json_string (S (length r)) [] r;
                match skip_ws r1 with
                | 58%N :: r2 =>
                    '(v, r3) ← json_value fuel' (skip_ws r2);
                    match skip_ws r3 with
                    | 44%N :: r4 => members k' (dict_set key v acc) r4
                    | 125%N :: r4 => Some (JObj (dict_set key v acc), r4)
                    | _ => None
                    end
                | _ => None
                end
            | _ => None
            end
        end) in
      match s with
      | 34%N :: r => '(t, r') ← json_string (S (length r)) [] r; Some (JStr t, r')
      | 123%N :: r =>
          match skip_ws r with
          | 125%N :: r' => Some (JObj [], r')
          | r' => members (S (length r')) [] r'
          end
      | 91%N :: r =>
          match skip_ws r with
          | 93%N :: r' => Some (JArr [], r')
          | r' => items (S (length r')) [] r'
          end
      | _ =>
          if startswith (py "null") s then Some (JNull, drop 4 s)
          else if startswith (py "true") s then Some (JBool true, drop 4 s)
          else if startswith (py "false") s then Some (JBool false, drop 5 s)
          else if startswith (py "NaN") s then Some (JNum (py "NaN"), drop 3 s)
          else if startswith (py "Infinity") s then Some (JNum (py "Infinity"), drop 8 s)
          else if startswith (py "-Infinity") s then Some (JNum (py "-Infinity"), drop 9 s)
          else json_number s
      end
  end.

(** [json.loads(s)]; [None] is [JSONDecodeError], a [ValueError]. *)
Definition json_loads (s : str) : option json :=
  '(v, r) ← json_value (S (length s)) (skip_ws s);
  match skip_ws r with [] => Some v | _ => None end.

Lemma dict_get_set {V} k k' (v : V) d :
  dict_get k' (dict_set k v d) = if bool_decide (k' = k) then Some v else dict_get k' d.
Proof.
  induction d as [|[k1 v1] d IH]; simpl; [done|].
  destruct (bool_decide_reflect (k = k1)) as [->|Hne]; simpl;
    [by repeat case_bool_decide|].
  rewrite IH. by repeat case_bool_decide; simplify_eq.
Qed.

Example json_ex1 :
  json_loads [123; 34; 97; 34; 58; 91; 49; 44; 32; 116; 114; 117; 101; 93; 125]%N
  = Some (JObj [(py "a", JArr [JNum (py "1"); JBool true])]).
Proof. vm_compute. reflexivity. Qed.
Example json_ex2 : json_loads (py "[1, -0.5e3, null,]") = None.
Proof. vm_compute. reflexivity. Qed.
Example json_ex3 : json_loads (py " [-0.5e3 , null] ") = Some (JArr [JNum (py "-0.5e3"); JNull]).
Proof. vm_compute. reflexivity. Qed.
Example json_ex4 : json_loads (py "[01]") = None.
Proof. vm_compute. reflexivity. Qed.
