(* ===== verification/Sha256.v ===== *)
(** * SHA-256

    [hashlib.sha256(data).hexdigest()], executable, over the bytes of the data
    as [N] values. *)

From S2P Require Import Prelude PyText.
#[local] Open Scope N_scope.

Definition w32 (x : N) : N := x mod 4294967296.
Definition rotr (n x : N) : N := N.lor (N.shiftr x n) (w32 (N.shiftl x (32 - n))).

(** The constants of the standard, from their definition: the first 32 bits of
    the fractional parts of the cube roots (and, for the initial state, of the
    square roots) of the first primes. *)
Fixpoint icbrt (bits : nat) (root n : N) : N :=
  match bits with
  | O => root
  | S b =>
      let try := root + 2 ^ N.of_nat b in
      icbrt b (if try * try * try <=? n then try else root) n
  end.
Definition is_prime (n : N) : bool :=
  forallb (fun d => negb (n mod N.of_nat d =? 0)) (seq 2 (N.to_nat n - 2)).
Definition primes : list N :=
  Eval vm_compute in List.filter is_prime (map N.of_nat (seq 2 310)).
Definition K256 : list N := Eval vm_compute in map (fun p => w32 (icbrt 35 0 (p * 2 ^ 96))) primes.
Definition roots8 : list N := Eval vm_compute in map (fun p => w32 (N.sqrt (p * 2 ^ 64))) (take 8 primes).

Record sha_state := Sha { sa : N; sb : N; sc : N; sd : N; se : N; sf : N; sg : N; sh : N }.
Definition sha_of (ws : list N) : sha_state :=
  match ws with
  | [a; b; c; d; e; f; g; h] => Sha a b c d e f g h
  | _ => Sha 0 0 0 0 0 0 0 0
  end.
Definition sha_init : sha_state := sha_of roots8.

Definition round (s : sha_state) (kw : N * N) : sha_state :=
  let '(k, w) := kw in
  let S1 := N.lxor (N.lxor (rotr 6 (se s)) (rotr 11 (se s))) (rotr 25 (se s)) in
  let ch := N.lxor (N.land (se s) (sf s)) (N.land (N.lxor (se s) 4294967295) (sg s)) in
  let t1 := sh s + S1 + ch + k + w in
  let S0 := N.lxor (N.lxor (rotr 2 (sa s)) (rotr 13 (sa s))) (rotr 22 (sa s)) in
  let maj := N.lxor (N.lxor (N.land (sa s) (sb s)) (N.land (sa s) (sc s))) (N.land (sb s) (sc s)) in
  Sha (w32 (t1 + S0 + maj)) (sa s) (sb s) (sc s) (w32 (sd s + t1)) (se s) (sf s) (sg s).

(** The message schedule, extended from the front of the reversed word list. *)
Fixpoint schedule (n : nat) (ws : list N) : list N :=
  match n with
  | O => rev ws
  | S n' =>
      let w2 := nth 1 ws 0 in let w7 := nth 6 ws 0 in
      let w15 := nth 14 ws 0 in let w16 := nth 15 ws 0 in
      let s0 := N.lxor (N.lxor (rotr 7 w15) (rotr 18 w15)) (N.shiftr w15 3) in
      let s1 := N.lxor (N.lxor (rotr 17 w2) (rotr 19 w2)) (N.shiftr w2 10) in
      schedule n' (w32 (w16 + s0 + w7 + s1) :: ws)
  end.

Fixpoint words (bs : list N) : list N :=
  match bs with
  | a :: b :: c :: d :: r => (((a * 256 + b) * 256 + c) * 256 + d) :: words r
  | _ => []
  end.

Definition compress (s : sha_state) (block : list N) : sha_state :=
  let r := fold_left round (combine K256 (schedule 48 (rev (words block)))) s in
  Sha (w32 (sa s + sa r)) (w32 (sb s + sb r)) (w32 (sc s + sc r)) (w32 (sd s + sd r))
      (w32 (se s + se r)) (w32 (sf s + sf r)) (w32 (sg s + sg r)) (w32 (sh s + sh r)).

Fixpoint blocks (n : nat) (bs : list N) (s : sha_state) : sha_state :=
  match n with
  | O => s
  | S n' => match bs with [] => s | _ => blocks n' (drop 64 bs) (compress s (take 64 bs)) end
  end.

Fixpoint be_bytes (n : nat) (x : N) : list N :=
  match n with O => [] | S n' => be_bytes n' (x / 256) ++ [x mod 256] end.

Definition pad (bs : list N) : list N :=
  let n := length bs in
  bs ++ 128 :: repeat 0 ((119 - n mod 64) mod 64)%nat ++ be_bytes 8 (8 * N.of_nat n).

Definition sha256 (bs : list N) : list N :=
  let p := pad bs in
  let s := blocks (S (length p / 64)%nat) p sha_init in
  [sa s; sb s; sc s; sd s; se s; sf s; sg s; sh s] ≫= be_bytes 4.

Definition hex_digit (n : N) : N := if n <? 10 then 48 + n else 87 + n.
Definition hexdigest (bytes : list N) : str := bytes ≫= (fun b => [hex_digit (b / 16); hex_digit (b mod 16)]).

(** [hashlib.sha256(s.encode('utf-8')).hexdigest()] *)
Definition sha256_hex (s : str) : str := hexdigest (sha256 (utf8_encode s)).

Example sha256_abc : sha256_hex (py "abc")
  = py "ba7816bf8f01cfea414140de5dae2223b00361a396177a9cb410ff61f20015ad".
Proof. vm_compute. reflexivity. Qed.
Example sha256_empty : sha256_hex []
  = py "e3b0c44298fc1c149afbf4c8996fb92427ae41e4649b934ca495991b7852b855".
Proof. vm_compute. reflexivity. Qed.
Example sha256_two_blocks : sha256_hex (py "abcdbcdecdefdefgefghfghighijhijkijkljklmklmnlmnomnopnopq")
  = py "248d6a61d20638b8e5c026930c3e6039a33ce45964ff2167f6ecedd419db06c1".
Proof. vm_compute. reflexivity. Qed.

(** A digest has as many digits as it should. *)
Lemma be_bytes_length n : forall x, length (be_bytes n x) = n.
Proof. induction n as [|n IH]; intros x; [done|]. cbn. rewrite length_app, IH. cbn. lia. Qed.
Lemma hexdigest_length l : length (hexdigest l) = (2 * length l)%nat.
Proof. induction l as [|b l IH]; [done|]. unfold hexdigest in *. csimpl. rewrite IH. lia. Qed.
Lemma sha256_hex_length s : length (sha256_hex s) = 64%nat.
Proof.
  unfold sha256_hex. rewrite hexdigest_length. unfold sha256. cbn [mbind list_bind]. rewrite !length_app, !be_bytes_length. done.
Qed.
