(* ===== verification/SplitMerge.v ===== *)
(** * The split list computed from its sources ([warp/split_merge.py])

    Parsing of a feed, the set arithmetic over IPv4 blocks and the merge of the
    hand-typed prefixes, the feeds and the exclusions into the routed list. The
    abstract specification at the end of the file, [wanted], says which addresses
    the list must cover; [merge_split_list] is shown to compute it. *)

From S2P Require Import Prelude PyText PyIp IpSpace Json.
From stdpp Require Import fin_maps.
#[local] Open Scope Z_scope.

Definition MANUAL_ORIGIN : str := py "manual".
Definition LIST_SCOPE : str := py "list".
Definition FEED_KINDS : list str := [py "cidr_text"; py "google_json"].
Definition FEED_MODES : list str := [py "add"; py "subtract"].
Definition COMMENT_CHARS : list N := [HASH; SEMI].

(** [FeedParseError] by its cause; [EmptyFeed] is its subclass [EmptyFeedError]. *)
Inductive feed_parse_error :=
  | InvalidJson
  | NotAnObject
  | NoPrefixesArray
  | UnsupportedKind (kind : str)
  | EmptyFeed (kind : str) (ipv6 unparseable : Z).
Definition is_empty_feed_error (e : feed_parse_error) : bool :=
  match e with EmptyFeed _ _ _ => true | _ => false end.

Record parsed_feed := ParsedFeed {
  pf_networks : list ipv4net;
  pf_ipv6_skipped : Z;
  pf_invalid_lines : list str }.

Record source_contribution := SourceContribution {
  sc_slug : str;
  sc_mode : str;
  sc_networks : list ipv4net;
  sc_scope_slug : option str }.

Record merge_report := MergeReport {
  mr_prefixes : list str;
  n_before_subtract : Z;
  n_after_subtract : Z;
  addresses_before : Z;
  addresses_after : Z;
  per_origin : gmap str Z;
  per_origin_addresses : gmap str Z;
  per_source_prefixes : gmap str Z;
  per_source_addresses : gmap str Z }.

Definition n_after_collapse (r : merge_report) : Z := Z.of_nat (length (mr_prefixes r)).
Definition prefixes_before (r : merge_report) : Z := n_before_subtract r.
Definition prefixes_after (r : merge_report) : Z := n_after_collapse r.
Definition addresses_removed (r : merge_report) : Z := addresses_before r - addresses_after r.
Definition prefixes_added_by_subtraction (r : merge_report) : Z :=
  n_after_collapse r - n_before_subtract r.
Definition subtraction_applied (r : merge_report) : bool := 0 <? addresses_removed r.

(** ** Set arithmetic *)

Definition sort_networks (networks : list ipv4net) : list ipv4net := merge_sort net_le networks.
Definition collapse (networks : list ipv4net) : list ipv4net :=
  sort_networks (collapse_addresses networks).

(** The inner loop of [subtract_networks]: one hole punched out of every entry.
    [None] is the [ValueError] of [address_exclude]. *)
Fixpoint punch_hole (hole : ipv4net) (current : list ipv4net) : option (list ipv4net) :=
  match current with
  | [] => Some []
  | net :: rest =>
      if negb (overlaps net hole) then
        remaining ← punch_hole hole rest; Some (net :: remaining)
      else if subnet_of net hole then punch_hole hole rest
      else pieces ← address_exclude net hole;
           remaining ← punch_hole hole rest; Some (pieces ++ remaining)
  end.
Fixpoint subtract_loop (holes current : list ipv4net) : option (list ipv4net) :=
  match holes with
  | [] => Some current
  | hole :: holes' =>
      match current with
      | [] => Some current
      | _ => remaining ← punch_hole hole current; subtract_loop holes' remaining
      end
  end.
Definition subtract_networks (base minus : list ipv4net) : option (list ipv4net) :=
  subtract_loop (collapse minus) base.

(** ** Parsers *)

Fixpoint strip_comments (markers : list N) (line : str) : str :=
  match markers with
  | [] => line
  | marker :: rest => strip_comments rest (strip (before_char marker line))
  end.

Definition finish_parse (networks : list ipv4net) (ipv6 : Z) (invalid : list str) (kind : str)
    : result feed_parse_error parsed_feed :=
  match networks with
  | [] => Err (EmptyFeed kind ipv6 (Z.of_nat (length invalid)))
  | _ => Ok (ParsedFeed (sort_networks networks) ipv6 invalid)
  end.

(** The accumulators of the two parsing loops: the networks and the invalid
    entries in the order they were met, and the count of IPv6 entries. *)
Record parse_acc := ParseAcc {
  pa_networks : list ipv4net; pa_ipv6 : Z; pa_invalid : list str }.
Definition add_network (n : ipv4net) (a : parse_acc) : parse_acc :=
  ParseAcc (n :: pa_networks a) (pa_ipv6 a) (pa_invalid a).
Definition add_ipv6 (a : parse_acc) : parse_acc :=
  ParseAcc (pa_networks a) (pa_ipv6 a + 1) (pa_invalid a).
Definition add_invalid (line : str) (a : parse_acc) : parse_acc :=
  ParseAcc (pa_networks a) (pa_ipv6 a) (take 64 line :: pa_invalid a).

Fixpoint cidr_lines (lines : list str) : parse_acc :=
  match lines with
  | [] => ParseAcc [] 0 []
  | raw :: lines' =>
      match strip_comments COMMENT_CHARS (strip raw) with
      | [] => cidr_lines lines'
      | line =>
          match ip_network line with
          | None => add_invalid line (cidr_lines lines')
          | Some (inr _) => add_ipv6 (cidr_lines lines')
          | Some (inl n) => add_network n (cidr_lines lines')
          end
      end
  end.

Definition parse_cidr_text (payload : str) : result feed_parse_error parsed_feed :=
  let a := cidr_lines (splitlines payload) in
  finish_parse (pa_networks a) (pa_ipv6 a) (pa_invalid a) (py "cidr_text").

(** The keys [ipv4Prefix] and [ipv6Prefix] of an entry, [None] standing for both
    an absent key and a null value, as [dict.get] makes them. *)
Definition get_not_none (k : str) (d : list (str * json)) : option json :=
  match dict_get k d with
  | Some JNull => None
  | o => o
  end.

Section GoogleJson.
(** [str(v)] of a decoded JSON value, used only for the text of an invalid
    entry. *)
Context (str_of_json : json -> str).

Fixpoint google_entries (entries : list json) : parse_acc :=
  match entries with
  | [] => ParseAcc [] 0 []
  | JObj entry :: entries' =>
      match get_not_none (py "ipv4Prefix") entry with
      | None =>
          match get_not_none (py "ipv6Prefix") entry with
          | Some _ => add_ipv6 (google_entries entries')
          | None => google_entries entries'
          end
      | Some (JStr value) =>
          match ip_network value with
          | Some (inl n) => add_network n (google_entries entries')
          | _ => add_invalid value (google_entries entries')
          end
      | Some value => add_invalid (str_of_json value) (google_entries entries')
      end
  | entry :: entries' => add_invalid (str_of_json entry) (google_entries entries')
  end.

Definition parse_google_json (payload : str) : result feed_parse_error parsed_feed :=
  match json_loads payload with
  | None => Err InvalidJson
  | Some (JObj document) =>
      match dict_get (py "prefixes") document with
      | Some (JArr entries) =>
          let a := google_entries entries in
          finish_parse (pa_networks a) (pa_ipv6 a) (pa_invalid a) (py "google_json")
      | _ => Err NoPrefixesArray
      end
  | Some _ => Err NotAnObject
  end.

Definition parse_feed (kind payload : str) : result feed_parse_error parsed_feed :=
  if bool_decide (kind = py "cidr_text") then parse_cidr_text payload
  else if bool_decide (kind = py "google_json") then parse_google_json payload
  else Err (UnsupportedKind kind).
End GoogleJson.

(** ** The merge *)

Definition is_add (s : source_contribution) : bool := bool_decide (sc_mode s = py "add").
Definition is_subtract (s : source_contribution) : bool := bool_decide (sc_mode s = py "subtract").
Definition scoped_sources (sources : list source_contribution) : list source_contribution :=
  filter (fun s => is_subtract s && bool_decide (is_Some (sc_scope_slug s))) sources.
Definition global_sources (sources : list source_contribution) : list source_contribution :=
  filter (fun s => is_subtract s && bool_decide (sc_scope_slug s = None)) sources.

(** [buckets]: the hand-typed set, and one bucket per add source. *)
Fixpoint fill_buckets (sources : list source_contribution) (b : gmap str (list ipv4net))
    : gmap str (list ipv4net) :=
  match sources with
  | [] => b
  | s :: rest =>
      fill_buckets rest (if is_add s then <[sc_slug s := collapse (sc_networks s)]> b else b)
  end.
Definition bucket_nets (b : gmap str (list ipv4net)) : list ipv4net := (map_to_list b).*2 ≫= id.

Fixpoint apply_scoped (scoped : list source_contribution) (b : gmap str (list ipv4net))
    : option (gmap str (list ipv4net)) :=
  match scoped with
  | [] => Some b
  | s :: rest =>
      match sc_scope_slug s with
      | None => apply_scoped rest b
      | Some target =>
          match b !! target with
          | None => apply_scoped rest b
          | Some nets =>
              nets' ← subtract_networks nets (sc_networks s);
              apply_scoped rest (<[target := nets']> b)
          end
      end
  end.
Fixpoint apply_globals (globals : list source_contribution) (merged : list ipv4net)
    : option (list ipv4net) :=
  match globals with
  | [] => Some merged
  | s :: rest => merged' ← subtract_networks merged (sc_networks s); apply_globals rest merged'
  end.

Fixpoint source_metric (f : list ipv4net -> Z) (sources : list source_contribution)
    (m : gmap str Z) : gmap str Z :=
  match sources with
  | [] => m
  | s :: rest => source_metric f rest (<[sc_slug s := f (collapse (sc_networks s))]> m)
  end.
Definition count (l : list ipv4net) : Z := Z.of_nat (length l).

Definition merge_split_list (manual : list ipv4net) (sources : list source_contribution)
    (exclusions : list ipv4net) : option merge_report :=
  let manual_collapsed := collapse manual in
  let buckets := fill_buckets sources {[ MANUAL_ORIGIN := manual_collapsed ]} in
  let union_before := collapse (bucket_nets buckets) in
  buckets ← apply_scoped (scoped_sources sources) buckets;
  merged ← apply_globals (global_sources sources) (collapse (bucket_nets buckets));
  merged ← match exclusions with [] => Some merged | _ => subtract_networks merged exclusions end;
  let final := collapse merged in
  let nonempty := filter (fun kv => kv.2 <> []) buckets in
  Some {|
    mr_prefixes := map show_net final;
    n_before_subtract := count union_before;
    n_after_subtract := count merged;
    addresses_before := address_count union_before;
    addresses_after := address_count final;
    per_origin := count <$> nonempty;
    per_origin_addresses := address_count <$> nonempty;
    per_source_prefixes :=
      <[MANUAL_ORIGIN := count manual_collapsed]> (source_metric count sources ∅);
    per_source_addresses :=
      <[MANUAL_ORIGIN := address_count manual_collapsed]> (source_metric address_count sources ∅) |}.

(** ** Origins of a routed prefix *)

(** [IPv4Network(item)] for every item; [None] when one of them raises. *)
Definition parse_all (items : list str) : option (list ipv4net) := mapM (ipv4_network true) items.

Fixpoint parsed_contributions (contributions : list (str * list str))
    : option (list (str * list ipv4net)) :=
  match contributions with
  | [] => Some []
  | (origin, items) :: rest =>
      match items with
      | [] => parsed_contributions rest
      | _ => nets ← parse_all items;
             rest' ← parsed_contributions rest; Some ((origin, collapse nets) :: rest')
      end
  end.
Definition owners_of (parsed : list (str * list ipv4net)) (net : ipv4net) : list str :=
  map fst (List.filter (fun '(_, nets) => existsb (fun c => overlaps c net) nets) parsed).

(** [contributions] is a dict, as the list of its items. *)
Definition resolve_origins (prefixes : list str) (contributions : list (str * list str))
    : option (gmap str (list str)) :=
  parsed ← parsed_contributions contributions;
  Some (fold_left (fun resolved prefix =>
          <[prefix := match ipv4_network true prefix with
                      | None => []
                      | Some net => sorted_strs (owners_of parsed net)
                      end]> resolved) prefixes ∅).

(** ** Validation of a new source; the error is the message of the [ValueError] *)

Definition slug_first (c : N) : bool := is_lower c || is_digit c.
Definition slug_char (c : N) : bool := slug_first c || (c =? 45)%N.
(** The pattern [[a-z0-9][a-z0-9-]{1,39}] matched against the whole text. *)
Definition slug_re (slug : str) : bool :=
  match slug with
  | [] => false
  | c :: r => slug_first c && forallb slug_char r
              && (1 <=? Z.of_nat (length r)) && (Z.of_nat (length r) <=? 39)
  end.

Definition validate_slug (slug : str) : result str unit :=
  if negb (slug_re slug) then
    Err (py "slug may contain only lowercase letters, digits and '-', must start with a letter or digit, and must be 2-40 characters long")
  else if bool_decide (slug = MANUAL_ORIGIN) then
    Err (py "'manual' is reserved for hand-typed prefixes")
  else if bool_decide (slug = LIST_SCOPE) then
    Err (py "'list' is reserved for the merged list itself")
  else Ok tt.

Inductive relation_error :=
  | UnknownMode (mode : str)
  | ScopeOnAdd
  | SelfSubtract (slug : str)
  | UnknownScope (scope : str)
  | ChainedSubtract (scope : str).

Definition validate_source_relations (slug mode : str) (scope_slug : option str)
    (existing_modes : gmap str str) : result relation_error unit :=
  if negb (bool_decide (mode ∈ FEED_MODES)) then Err (UnknownMode mode)
  else if bool_decide (mode = py "add") then
    match scope_slug with Some _ => Err ScopeOnAdd | None => Ok tt end
  else match scope_slug with
       | None => Ok tt
       | Some scope =>
           if bool_decide (scope = slug) then Err (SelfSubtract slug)
           else match existing_modes !! scope with
                | None => Err (UnknownScope scope)
                | Some target_mode =>
                    if bool_decide (target_mode = py "subtract") then Err (ChainedSubtract scope)
                    else Ok tt
                end
       end.

(** ** Lemmas: collapsing and subtracting *)

Lemma collapse_spec ns : Forall wf_net ns -> collapsed (collapse ns) /\ same_addrs (collapse ns) ns.
Proof.
  intros Hw. destruct (collapse_addresses_spec ns Hw) as [Hc Hs].
  unfold collapse, sort_networks. by rewrite sort_collapsed.
Qed.

Lemma collapse_wf ns : Forall wf_net ns -> Forall wf_net (collapse ns).
Proof. intros Hw. apply collapsed_wf. by apply collapse_spec. Qed.

Lemma collapse_covers ns x : Forall wf_net ns -> covers (collapse ns) x <-> covers ns x.
Proof. intros Hw. by apply collapse_spec. Qed.

(** Collapsing forgets everything but the address set. *)
Lemma collapse_ext l1 l2 : Forall wf_net l1 -> Forall wf_net l2 -> same_addrs l1 l2 ->
  collapse l1 = collapse l2.
Proof.
  intros H1 H2 Hs. destruct (collapse_spec l1 H1) as [C1 S1], (collapse_spec l2 H2) as [C2 S2].
  apply collapsed_unique; [done..|]. by rewrite S1, S2.
Qed.

Lemma collapse_id l : collapsed l -> collapse l = l.
Proof.
  intros Hl. destruct (collapse_spec l (collapsed_wf l Hl)) as [C S]. by apply collapsed_unique.
Qed.

Lemma punch_hole_spec hole current : wf_net hole -> Forall wf_net current ->
  exists r, punch_hole hole current = Some r /\ Forall wf_net r
    /\ forall x, covers r x <-> covers current x /\ ~ in_net x hole.
Proof.
  intros Hh. induction 1 as [|n rest Hn Hrest IH]; simpl.
  { exists []. split_and!; [done|constructor|]. intros x. rewrite covers_nil. tauto. }
  destruct IH as (r & Hr & Hwr & Hcr). rewrite Hr.
  destruct (overlaps n hole) eqn:Ho; simpl.
  - destruct (subnet_of n hole) eqn:Hs.
    + exists r. split_and!; try done. intros x. rewrite Hcr, covers_cons.
      pose proof (subnet_of_in n hole x Hn Hh Hs). tauto.
    + destruct (overlap_nested n hole Hn Hh Ho) as [|Hs2]; [congruence|].
      destruct (address_exclude_spec n hole Hn Hh Hs2) as (pieces & -> & Hwp & Hcp). simpl.
      exists (pieces ++ r). split_and!; [done|by apply Forall_app|].
      intros x. rewrite covers_app, Hcp, Hcr, covers_cons. tauto.
  - exists (n :: r). split_and!; [done|by constructor|]. intros x.
    rewrite !covers_cons, Hcr. pose proof (overlaps_false n hole x Hn Hh Ho). tauto.
Qed.

Lemma subtract_loop_spec holes current : Forall wf_net holes -> Forall wf_net current ->
  exists r, subtract_loop holes current = Some r /\ Forall wf_net r
    /\ forall x, covers r x <-> covers current x /\ ~ covers holes x.
Proof.
  intros Hh. revert current. induction Hh as [|h holes Hwh Hh IH]; intros current Hc; simpl.
  { exists current. split_and!; try done. intros x. rewrite covers_nil. tauto. }
  destruct current as [|n rest] eqn:E; [|rewrite <- E in *; clear E].
  { exists []. split_and!; try done. intros x. rewrite covers_nil. tauto. }
  destruct (punch_hole_spec h current Hwh Hc) as (r & -> & Hwr & Hcr). simpl.
  destruct (IH r Hwr) as (r' & -> & Hwr' & Hcr'). exists r'. split_and!; try done.
  intros x. rewrite Hcr', Hcr, covers_cons. tauto.
Qed.

Lemma subtract_networks_spec base minus : Forall wf_net base -> Forall wf_net minus ->
  exists r, subtract_networks base minus = Some r /\ Forall wf_net r
    /\ forall x, covers r x <-> covers base x /\ ~ covers minus x.
Proof.
  intros Hb Hm. destruct (subtract_loop_spec (collapse minus) base (collapse_wf minus Hm) Hb)
    as (r & Hr & Hw & Hc).
  exists r. split_and!; try done. intros x. by rewrite Hc, collapse_covers.
Qed.

(** ** Lemmas: the buckets *)

Definition buckets_wf (b : gmap str (list ipv4net)) : Prop :=
  forall k l, b !! k = Some l -> Forall wf_net l.

Lemma bucket_nets_covers b x : covers (bucket_nets b) x <-> exists k l, b !! k = Some l /\ covers l x.
Proof.
  unfold bucket_nets. rewrite covers_bind. setoid_rewrite list_elem_of_fmap. split.
  - intros (l & ([k l'] & -> & Hkl) & Hx). apply elem_of_map_to_list in Hkl. eauto.
  - intros (k & l & Hkl & Hx). exists l. split; [|done]. exists (k, l).
    split; [done|]. by apply elem_of_map_to_list.
Qed.

Lemma bucket_nets_wf b : buckets_wf b -> Forall wf_net (bucket_nets b).
Proof.
  intros Hb. apply Forall_forall. intros n Hn. unfold bucket_nets in Hn.
  apply list_elem_of_bind in Hn as (l & Hn & Hl). apply list_elem_of_fmap in Hl as ([k l'] & -> & Hkl).
  apply elem_of_map_to_list in Hkl. specialize (Hb _ _ Hkl). rewrite Forall_forall in Hb. auto.
Qed.

Lemma buckets_wf_insert b k l : buckets_wf b -> Forall wf_net l -> buckets_wf (<[k := l]> b).
Proof. intros Hb Hl k' l'. rewrite lookup_insert_Some. intros [[_ <-]|[_ H]]; eauto. Qed.

Definition sources_wf (sources : list source_contribution) : Prop :=
  Forall (fun s => Forall wf_net (sc_networks s)) sources.

Lemma sources_wf_elem sources s : sources_wf sources -> s ∈ sources -> Forall wf_net (sc_networks s).
Proof. unfold sources_wf. rewrite Forall_forall. auto. Qed.

Lemma fill_buckets_wf sources b : sources_wf sources -> buckets_wf b -> buckets_wf (fill_buckets sources b).
Proof.
  intros Hs. revert b. induction Hs as [|s rest Hws Hs IH]; intros b Hb; simpl; [done|].
  apply IH. case_match; [|done]. apply buckets_wf_insert; [done|by apply collapse_wf].
Qed.

(** A slug no add source carries keeps its bucket. *)
Lemma fill_buckets_other sources b k :
  (forall s, s ∈ sources -> is_add s = true -> sc_slug s <> k) -> fill_buckets sources b !! k = b !! k.
Proof.
  revert b. induction sources as [|s rest IH]; intros b H; simpl; [done|].
  rewrite IH by (intros; apply H; [by right|done]).
  destruct (is_add s) eqn:E; [|done]. apply lookup_insert_ne, H; [by left|done].
Qed.

Lemma fill_buckets_add sources b s :
  NoDup (map sc_slug sources) -> s ∈ sources -> is_add s = true ->
  fill_buckets sources b !! sc_slug s = Some (collapse (sc_networks s)).
Proof.
  revert b. induction sources as [|s' rest IH]; intros b Hnd Hin Hadd; simpl in *;
    [by apply not_elem_of_nil in Hin|].
  apply NoDup_cons in Hnd as [Hnotin Hnd].
  apply elem_of_cons in Hin as [->|Hin]; [|by apply IH].
  rewrite Hadd. rewrite fill_buckets_other; [apply lookup_insert_eq|].
  intros s Hs _ Heq. apply Hnotin. rewrite <- Heq. apply list_elem_of_In, in_map.
  by apply list_elem_of_In.
Qed.

Lemma fill_buckets_inv sources b k l :
  fill_buckets sources b !! k = Some l ->
  b !! k = Some l \/ exists s, s ∈ sources /\ is_add s = true /\ sc_slug s = k
                               /\ l = collapse (sc_networks s).
Proof.
  revert b. induction sources as [|s rest IH]; intros b H; simpl in *; [by left|].
  destruct (IH _ H) as [Hb|(s' & Hs' & Ha & Hk & Hl)].
  - destruct (is_add s) eqn:E; [|by left].
    apply lookup_insert_Some in Hb as [[<- <-]|[_ Hb]]; [|by left].
    right. exists s. split_and!; try done. by left.
  - right. exists s'. split_and!; try done. by right.
Qed.

(** The address [x] is carved out of the bucket [k] by one of the sources. *)
Definition carved (scoped : list source_contribution) (k : str) (x : Z) : Prop :=
  exists s, s ∈ scoped /\ sc_scope_slug s = Some k /\ covers (sc_networks s) x.

Lemma carved_cons s rest k x :
  carved (s :: rest) k x <-> (sc_scope_slug s = Some k /\ covers (sc_networks s) x) \/ carved rest k x.
Proof.
  unfold carved. setoid_rewrite elem_of_cons. split.
  - intros (s' & [->|?] & ? & ?); eauto.
  - intros [[? ?]|(s' & ? & ? & ?)]; eauto 6.
Qed.

(** Carving keeps the keys, and takes from each bucket what is scoped to it. *)
Lemma apply_scoped_spec scoped b : sources_wf scoped -> buckets_wf b ->
  exists b', apply_scoped scoped b = Some b' /\ buckets_wf b'
    /\ forall k, match b !! k, b' !! k with
                 | Some l, Some l' => forall x, covers l' x <-> covers l x /\ ~ carved scoped k x
                 | None, None => True
                 | _, _ => False
                 end.
Proof.
  intros Hs. revert b. induction Hs as [|s rest Hws Hs IH]; intros b Hb; simpl.
  { exists b. split_and!; try done. intros k. destruct (b !! k) as [l|] eqn:E; [|done]. intros x.
    split; [intros ?; split; [done|intros (s & Hin & _); by apply not_elem_of_nil in Hin]|tauto]. }
  destruct (sc_scope_slug s) as [t|] eqn:Hsc; cycle 1.
  { destruct (IH b Hb) as (b' & Hap & Hwb & Hk). exists b'. split_and!; try done. intros k.
    specialize (Hk k). destruct (b !! k), (b' !! k); try done.
    intros x. rewrite Hk, carved_cons, Hsc. split; [|tauto].
    intros [? ?]; split; [done|]. intros [[? _]|?]; done. }
  destruct (b !! t) as [nets|] eqn:Hbt; cycle 1.
  { destruct (IH b Hb) as (b' & Hap & Hwb & Hk). exists b'. split_and!; try done. intros k.
    specialize (Hk k). destruct (b !! k) eqn:E, (b' !! k); try done.
    intros x. rewrite Hk, carved_cons, Hsc.
    assert (t <> k) by congruence. split; [|tauto].
    intros [? ?]; split; [done|]. intros [[[= ->] _]|?]; done. }
  destruct (subtract_networks_spec nets (sc_networks s) (Hb _ _ Hbt) Hws) as (n' & -> & Hwn & Hcn).
  simpl. destruct (IH (<[t := n']> b)) as (b' & Hap & Hwb & Hk); [by apply buckets_wf_insert|].
  exists b'. split_and!; try done. intros k. specialize (Hk k).
  destruct (decide (t = k)) as [<-|Hne].
  - rewrite lookup_insert_eq in Hk. rewrite Hbt. destruct (b' !! t); [|done].
    intros x. rewrite Hk, Hcn, carved_cons, Hsc. tauto.
  - rewrite lookup_insert_ne in Hk by done. destruct (b !! k), (b' !! k); try done.
    intros x. rewrite Hk, carved_cons, Hsc. split; [|tauto].
    intros [? ?]; split; [done|]. intros [[[= ->] _]|?]; done.
Qed.

Lemma apply_globals_spec globals merged : sources_wf globals -> Forall wf_net merged ->
  exists r, apply_globals globals merged = Some r /\ Forall wf_net r
    /\ forall x, covers r x <-> covers merged x /\ ~ exists s, s ∈ globals /\ covers (sc_networks s) x.
Proof.
  intros Hg. revert merged. induction Hg as [|s rest Hws Hg IH]; intros merged Hm; simpl.
  { exists merged. split_and!; try done. intros x.
    split; [intros ?; split; [done|intros (s & Hin & _); by apply not_elem_of_nil in Hin]|tauto]. }
  destruct (subtract_networks_spec merged (sc_networks s) Hm Hws) as (m' & -> & Hwm & Hcm). simpl.
  destruct (IH m' Hwm) as (r & -> & Hwr & Hcr). exists r. split_and!; try done.
  intros x. rewrite Hcr, Hcm. setoid_rewrite elem_of_cons. split.
  - intros [[? ?] Hn]. split; [done|]. intros (s' & [->|?] & ?); [done|]. apply Hn. eauto.
  - intros [? Hn]. split_and!; [done|intros ?; apply Hn; eauto|].
    intros (s' & ? & ?). apply Hn. eauto.
Qed.

(** ** The specification of the merge *)

(** What the database guarantees of the sources: slugs are unique, and the
    reserved one names no source. *)
Record sources_ok (sources : list source_contribution) : Prop := SourcesOk {
  so_wf : sources_wf sources;
  so_nodup : NoDup (map sc_slug sources);
  so_reserved : MANUAL_ORIGIN ∉ map sc_slug sources }.

(** The addresses the routed list must cover: what the operator typed or an add
    source published, unless a subtraction scoped to that contribution carves it
    out, minus every global subtraction, minus the exclusions. *)
Definition contributed (manual : list ipv4net) (sources : list source_contribution) (x : Z) : Prop :=
  (covers manual x /\ ~ carved (scoped_sources sources) MANUAL_ORIGIN x)
  \/ exists a, a ∈ sources /\ is_add a = true /\ covers (sc_networks a) x
               /\ ~ carved (scoped_sources sources) (sc_slug a) x.
Definition wanted (manual : list ipv4net) (sources : list source_contribution)
    (exclusions : list ipv4net) (x : Z) : Prop :=
  contributed manual sources x
  /\ ~ (exists s, s ∈ global_sources sources /\ covers (sc_networks s) x)
  /\ ~ covers exclusions x.
(** The union before any subtraction. *)
Definition published (manual : list ipv4net) (sources : list source_contribution) (x : Z) : Prop :=
  covers manual x \/ exists a, a ∈ sources /\ is_add a = true /\ covers (sc_networks a) x.

Lemma wanted_published manual sources exclusions x :
  wanted manual sources exclusions x -> published manual sources x.
Proof. intros [[[? _]|(a & ? & ? & ? & _)] _]; [by left|right; eauto]. Qed.

Definition init_buckets (manual : list ipv4net) (sources : list source_contribution)
    : gmap str (list ipv4net) :=
  fill_buckets sources {[ MANUAL_ORIGIN := collapse manual ]}.

Lemma init_buckets_wf manual sources : Forall wf_net manual -> sources_ok sources ->
  buckets_wf (init_buckets manual sources).
Proof.
  intros Hm Hs. apply fill_buckets_wf; [by apply so_wf|].
  intros k l [<- <-]%lookup_singleton_Some. by apply collapse_wf.
Qed.

Lemma init_buckets_manual manual sources : sources_ok sources ->
  init_buckets manual sources !! MANUAL_ORIGIN = Some (collapse manual).
Proof.
  intros Hs. unfold init_buckets. rewrite fill_buckets_other; [apply lookup_singleton_eq|].
  intros s Hin _ Heq. apply (so_reserved _ Hs). rewrite <- Heq.
  apply list_elem_of_In, in_map. by apply list_elem_of_In.
Qed.

(** A bucket is the hand-typed set or the contribution of one add source. *)
Lemma init_buckets_cases manual sources k l : sources_ok sources ->
  init_buckets manual sources !! k = Some l ->
  (k = MANUAL_ORIGIN /\ l = collapse manual)
  \/ exists s, s ∈ sources /\ is_add s = true /\ k = sc_slug s /\ l = collapse (sc_networks s).
Proof.
  intros Hs H. apply fill_buckets_inv in H as [H|(s & ? & ? & ? & ?)].
  - apply lookup_singleton_Some in H as [<- <-]. by left.
  - right. exists s. by rewrite <- H1.
Qed.

Lemma init_buckets_published manual sources x : Forall wf_net manual -> sources_ok sources ->
  covers (bucket_nets (init_buckets manual sources)) x <-> published manual sources x.
Proof.
  intros Hm Hs. rewrite bucket_nets_covers. split.
  - intros (k & l & Hkl & Hx).
    apply init_buckets_cases in Hkl as [[-> ->]|(s & Hin & Ha & -> & ->)]; [..|done].
    + left. by rewrite collapse_covers in Hx.
    + right. exists s. rewrite collapse_covers in Hx; [done|].
      by apply (sources_wf_elem sources), Hin; apply so_wf.
  - intros [Hx|(s & Hin & Ha & Hx)].
    + exists MANUAL_ORIGIN, (collapse manual). rewrite collapse_covers by done.
      split; [by apply init_buckets_manual|done].
    + exists (sc_slug s), (collapse (sc_networks s)).
      rewrite collapse_covers by (by apply (sources_wf_elem sources), Hin; apply so_wf).
      split; [|done]. apply fill_buckets_add; [by apply so_nodup|done..].
Qed.

(** The union of the carved buckets is what the specification calls contributed. *)
Lemma carved_buckets_covers manual sources b' x : Forall wf_net manual -> sources_ok sources ->
  (forall k, match init_buckets manual sources !! k, b' !! k with
             | Some l, Some l' =>
                 forall x, covers l' x <-> covers l x /\ ~ carved (scoped_sources sources) k x
             | None, None => True
             | _, _ => False
             end) ->
  covers (bucket_nets b') x <-> contributed manual sources x.
Proof.
  intros Hm Hs Hk. rewrite bucket_nets_covers. unfold contributed. split.
  - intros (k & l' & Hkl & Hx). specialize (Hk k). rewrite Hkl in Hk.
    destruct (init_buckets manual sources !! k) as [l|] eqn:E; [|done].
    apply Hk in Hx as [Hx Hn].
    apply init_buckets_cases in E as [[-> ->]|(s & Hin & Ha & -> & ->)]; [..|done].
    + left. by rewrite collapse_covers in Hx.
    + right. exists s. rewrite collapse_covers in Hx; [done|].
      by apply (sources_wf_elem sources), Hin; apply so_wf.
  - intros [[Hx Hn]|(s & Hin & Ha & Hx & Hn)].
    + specialize (Hk MANUAL_ORIGIN). rewrite init_buckets_manual in Hk by done.
      destruct (b' !! MANUAL_ORIGIN) as [l'|] eqn:E; [|done].
      exists MANUAL_ORIGIN, l'. split; [done|]. apply Hk. by rewrite collapse_covers.
    + specialize (Hk (sc_slug s)). unfold init_buckets in Hk.
      rewrite (fill_buckets_add sources _ s) in Hk by (done || by apply so_nodup).
      destruct (b' !! sc_slug s) as [l'|] eqn:E; [|done].
      exists (sc_slug s), l'. split; [done|]. apply Hk.
      by rewrite collapse_covers by (by apply (sources_wf_elem sources), Hin; apply so_wf).
Qed.

Lemma filter_sources_wf (P : source_contribution -> Prop) `{!forall s, Decision (P s)} sources :
  sources_wf sources -> sources_wf (filter P sources).
Proof. apply Forall_filter. Qed.

(** The merge always succeeds; its list is the collapsed list of the wanted
    addresses, and the two address counts are taken over collapsed lists. *)
Lemma merge_split_list_spec manual sources exclusions :
  Forall wf_net manual -> sources_ok sources -> Forall wf_net exclusions ->
  exists r final unioned,
    merge_split_list manual sources exclusions = Some r
    /\ mr_prefixes r = map show_net final /\ collapsed final
    /\ (forall x, covers final x <-> wanted manual sources exclusions x)
    /\ collapsed unioned /\ (forall x, covers unioned x <-> published manual sources x)
    /\ addresses_before r = address_count unioned /\ addresses_after r = address_count final
    /\ n_before_subtract r = count unioned.
Proof.
  intros Hm Hs He. pose proof (so_wf _ Hs) as Hsw.
  pose proof (init_buckets_wf manual sources Hm Hs) as Hbw.
  unfold merge_split_list. fold (init_buckets manual sources).
  destruct (apply_scoped_spec (scoped_sources sources) (init_buckets manual sources))
    as (b' & -> & Hbw' & Hk); [by apply filter_sources_wf|done|]. simpl.
  pose proof (bucket_nets_wf b' Hbw') as Hnw.
  destruct (apply_globals_spec (global_sources sources) (collapse (bucket_nets b')))
    as (m1 & -> & Hw1 & Hc1); [by apply filter_sources_wf|by apply collapse_wf|]. simpl.
  assert (exists m2, match exclusions with [] => Some m1 | _ => subtract_networks m1 exclusions end
            = Some m2 /\ Forall wf_net m2
            /\ forall x, covers m2 x <-> covers m1 x /\ ~ covers exclusions x) as (m2 & -> & Hw2 & Hc2).
  { destruct exclusions as [|e es]; [|by apply subtract_networks_spec].
    exists m1. split_and!; try done. intros x. rewrite covers_nil. tauto. }
  simpl. pose proof (bucket_nets_wf _ Hbw) as Hbn.
  eexists _, (collapse m2), (collapse (bucket_nets (init_buckets manual sources))).
  split_and!; try done; try (by apply collapse_spec).
  - intros x. rewrite collapse_covers, Hc2, Hc1, collapse_covers by done.
    rewrite (carved_buckets_covers manual sources b' x Hm Hs Hk). unfold wanted. tauto.
  - intros x. rewrite collapse_covers by done. by apply init_buckets_published.
Qed.

(** A concrete configuration for the witnesses: a hand-typed /24, an add source
    of two adjacent /25, a subtract source scoped to it and an exclusion. *)
Definition demo_manual : list ipv4net := [IPv4Network 167772160 24].
Definition demo_sources : list source_contribution :=
  [SourceContribution (py "goog") (py "add") [IPv4Network 134744064 25; IPv4Network 134744192 25] None;
   SourceContribution (py "cloud") (py "subtract") [IPv4Network 134744072 29] (Some (py "goog"))].
Definition demo_exclusions : list ipv4net := [IPv4Network 167772416 24].

Lemma demo_manual_wf : Forall wf_net demo_manual.
Proof. apply (bool_decide_unpack _). vm_compute. exact I. Defined.
Lemma demo_exclusions_wf : Forall wf_net demo_exclusions.
Proof. apply (bool_decide_unpack _). vm_compute. exact I. Defined.
Lemma demo_sources_ok : sources_ok demo_sources.
Proof.
  split; [repeat constructor; apply (bool_decide_unpack _); vm_compute; exact I|..];
    apply (bool_decide_unpack _); vm_compute; exact I.
Defined.

(** ** Properties *)

(** C17 The merge implements its specification: for well-formed inputs with unique
    slugs it always produces a report (no [address_exclude] ever raises), and
    the prefixes it lists, read back as blocks, are the sorted, disjoint,
    sibling-free list covering exactly the wanted addresses: what the operator
    typed or a feed contributed, less its scoped subtractions, less the global
    ones, less the exclusions. *)
Theorem merge_refines_wanted (manual : list ipv4net) (sources : list source_contribution)
    (exclusions : list ipv4net) :
  Forall wf_net manual -> sources_ok sources -> Forall wf_net exclusions ->
  exists r final, merge_split_list manual sources exclusions = Some r
    /\ mr_prefixes r = map show_net final /\ collapsed final
    /\ forall x, covers final x <-> wanted manual sources exclusions x.
Proof.
  intros Hm Hs He.
  destruct (merge_split_list_spec manual sources exclusions Hm Hs He)
    as (r & final & _ & Hr & Hp & Hc & Hx & _).
  by exists r, final.
Qed.

Lemma merge_refines_wanted_witness :
  exists r final, merge_split_list demo_manual demo_sources demo_exclusions = Some r
    /\ mr_prefixes r = map show_net final /\ collapsed final
    /\ forall x, covers final x <-> wanted demo_manual demo_sources demo_exclusions x.
Proof.
  apply (merge_refines_wanted demo_manual demo_sources demo_exclusions);
    [exact demo_manual_wf|exact demo_sources_ok|exact demo_exclusions_wf].
Defined.

(** The list depends on the wanted addresses alone: two configurations that
    want the same addresses (sources in another order, a block written as its
    two halves, an exclusion instead of a global subtract source) produce the
    same text, entry by entry. *)
Theorem merge_canonical m1 s1 e1 m2 s2 e2 r1 r2 :
  Forall wf_net m1 -> sources_ok s1 -> Forall wf_net e1 ->
  Forall wf_net m2 -> sources_ok s2 -> Forall wf_net e2 ->
  merge_split_list m1 s1 e1 = Some r1 -> merge_split_list m2 s2 e2 = Some r2 ->
  (forall x, wanted m1 s1 e1 x <-> wanted m2 s2 e2 x) -> mr_prefixes r1 = mr_prefixes r2.
Proof.
  intros Hm1 Hs1 He1 Hm2 Hs2 He2 Hr1 Hr2 Heq.
  destruct (merge_split_list_spec m1 s1 e1) as (r & f1 & _ & Hr & Hp1 & Hc1 & Hx1 & _); [done..|].
  destruct (merge_split_list_spec m2 s2 e2) as (r' & f2 & _ & Hr' & Hp2 & Hc2 & Hx2 & _); [done..|].
  simplify_eq. rewrite Hp1, Hp2. f_equal. apply collapsed_unique; [done..|].
  intros x. by rewrite Hx1, Hx2.
Qed.

Lemma merge_canonical_witness :
  exists r1 r2,
    merge_split_list [IPv4Network 167772160 24] [] [] = Some r1
    /\ merge_split_list [IPv4Network 167772288 25; IPv4Network 167772160 25] [] [] = Some r2
    /\ mr_prefixes r1 = mr_prefixes r2.
Proof.
  eexists _, _. split; [vm_compute; reflexivity|]. split; [vm_compute; reflexivity|].
  apply (merge_canonical [IPv4Network 167772160 24] [] []
           [IPv4Network 167772288 25; IPv4Network 167772160 25] [] []);
    try (apply (bool_decide_unpack _); vm_compute; exact I);
    try (split; [constructor|..]; apply (bool_decide_unpack _); vm_compute; exact I);
    try (vm_compute; reflexivity).
  intros x. unfold wanted, contributed. rewrite !covers_cons, !covers_nil.
  unfold in_net, IpSpace.size; cbn [network_address prefixlen]. change (2 ^ (32 - 24)) with 256. change (2 ^ (32 - 25)) with 128.
  split; intros ([[? Hc]|(a & Ha & _)] & H1 & H2); try (by apply not_elem_of_nil in Ha);
    (split_and!; [left; split; [lia|exact Hc]|exact H1|exact H2]).
Defined.

(** The numbers of the report mean what they say: [addresses_before] and
    [addresses_after] are the cardinalities of the published and of the wanted
    address sets, subtraction never adds an address, and
    [subtraction_applied] is false exactly when nothing published was removed. *)
Theorem merge_address_counts manual sources exclusions r :
  Forall wf_net manual -> sources_ok sources -> Forall wf_net exclusions ->
  merge_split_list manual sources exclusions = Some r ->
  (exists P W : gset Z,
     (forall x, x ∈ P <-> published manual sources x)
     /\ (forall x, x ∈ W <-> wanted manual sources exclusions x)
     /\ addresses_before r = Z.of_nat (base.size P)
     /\ addresses_after r = Z.of_nat (base.size W))
  /\ 0 <= addresses_removed r
  /\ (subtraction_applied r = false
      <-> forall x, published manual sources x -> wanted manual sources exclusions x).
Proof.
  intros Hm Hs He Hr.
  destruct (merge_split_list_spec manual sources exclusions Hm Hs He)
    as (r' & f & u & Hr' & _ & Hf & Hxf & Hu & Hxu & Hb & Ha & _).
  rewrite Hr in Hr'. injection Hr' as <-.
  assert (forall x, covers f x -> covers u x) as Hsub.
  { intros x. rewrite Hxf, Hxu. apply wanted_published. }
  pose proof (address_count_le f u Hf Hu Hsub) as Hle.
  split_and!.
  - exists (addr_set u), (addr_set f). rewrite !collapsed_size by done.
    split_and!; try done; intros x; rewrite elem_of_addr_set; auto.
  - unfold addresses_removed. lia.
  - unfold subtraction_applied, addresses_removed. rewrite Z.ltb_ge, Hb, Ha. split.
    + intros Hge x Hx. apply Hxf. apply (address_count_eq f u Hf Hu Hsub); [lia|]. by apply Hxu.
    + intros H. enough (address_count u <= address_count f) by lia.
      apply address_count_le; [done..|]. intros x. rewrite Hxf, Hxu. apply H.
Qed.

Lemma merge_address_counts_witness :
  exists r, merge_split_list demo_manual demo_sources demo_exclusions = Some r
    /\ addresses_before r = 512 /\ addresses_after r = 504 /\ 0 <= addresses_removed r.
Proof.
  eexists. split; [vm_compute; reflexivity|]. split; [vm_compute; reflexivity|].
  split; [vm_compute; reflexivity|].
  eapply (merge_address_counts demo_manual demo_sources demo_exclusions);
    [exact demo_manual_wf|exact demo_sources_ok|exact demo_exclusions_wf|vm_compute; reflexivity].
Defined.

(** [collapse] returns exactly the maximal CIDR blocks of the address set: a
    network is in the result when all its addresses are covered by the input
    and no larger block around it is. *)
Theorem collapse_maximal_blocks (ns : list ipv4net) (n : ipv4net) : Forall wf_net ns ->
  n ∈ collapse ns <->
  wf_net n /\ (forall x, in_net x n -> covers ns x)
  /\ (prefixlen n = 0 \/ ~ forall x, in_net x (supernet n) -> covers ns x).
Proof.
  intros Hw. destruct (collapse_spec ns Hw) as [Hc Hs]. split.
  - intros Hn. pose proof (collapsed_wf_elem _ _ Hc Hn) as Hwn. split_and!; [done|..].
    { intros x Hx. apply Hs. by exists n. }
    destruct (Z.eqb_spec (prefixlen n) 0) as [|H0]; [by left|right]. intros Hall.
    pose proof (proj1 Hwn).
    destruct (collapsed_maximal _ (supernet n) Hc (supernet_wf n Hwn)) as (m & Hm & Hnm).
    { intros x Hx. by apply Hs, Hall. }
    pose proof (collapsed_wf_elem _ _ Hc Hm) as Hwm.
    assert (n = m) as <-.
    { apply (collapsed_disjoint _ n m (network_address n) Hc Hn Hm); [by apply in_net_first|].
      apply (subnet_of_in (supernet n) m); [by apply supernet_wf|done..|].
      apply supernet_contains; [done|by apply in_net_first]. }
    pose proof (nested_prefixlen _ _ (supernet_wf n Hwn) Hwn Hnm) as Hle.
    rewrite supernet_eq in Hle by (done || lia). simpl in Hle. lia.
  - intros (Hwn & Hcov & Hmax).
    destruct (collapsed_maximal _ n Hc Hwn) as (m & Hm & Hnm); [intros x Hx; by apply Hs, Hcov|].
    pose proof (collapsed_wf_elem _ _ Hc Hm) as Hwm.
    destruct (Z.le_gt_cases (prefixlen n) (prefixlen m)) as [Hle|Hgt].
    { by rewrite (subnet_of_same n m Hwn Hwm Hnm Hle). }
    exfalso. pose proof (proj1 Hwm). destruct Hmax as [H0|Hmax]; [lia|]. apply Hmax.
    intros x Hx. apply Hs. exists m. split; [done|].
    apply (laminar m (supernet n) (network_address n));
      [done|by apply supernet_wf|rewrite supernet_eq by (done || lia); simpl; lia|..|done].
    + apply (subnet_of_in n m); try done. by apply in_net_first.
    + apply supernet_contains; [done|by apply in_net_first].
Qed.

Lemma collapse_maximal_blocks_witness :
  IPv4Network 167772160 24 ∈ collapse [IPv4Network 167772288 25; IPv4Network 167772160 25].
Proof.
  apply (collapse_maximal_blocks [IPv4Network 167772288 25; IPv4Network 167772160 25]).
  { apply (bool_decide_unpack _). vm_compute. exact I. }
  split; [apply (bool_decide_unpack _); vm_compute; exact I|]. split.
  - intros x. rewrite !covers_cons, covers_nil. unfold in_net, IpSpace.size; cbn [network_address prefixlen].
    change (2 ^ (32 - 24)) with 256. change (2 ^ (32 - 25)) with 128. lia.
  - right. intros H.
    assert (in_net 167772416 (supernet (IPv4Network 167772160 24))) as Hin
      by (split; [discriminate|reflexivity]).
    apply H in Hin. rewrite !covers_cons, covers_nil in Hin.
    destruct Hin as [[_ Hlt]|[[_ Hlt]|[]]]; vm_compute in Hlt; discriminate.
Defined.
