(* ===== verification/SplitAnalysis.v ===== *)
(** * Is a change of the split list safe to apply? ([warp/split_analysis.py])

    Coverage measurement, the content hash of a list and the ratchet analysis of
    a candidate against what is applied now and against the stored baselines. *)

From S2P Require Import Prelude PyText PyIp IpSpace Float64 Sha256 SplitMerge.
#[local] Open Scope Z_scope.

(** The [HOLD_*] codes. *)
Inductive hold_code :=
  | HOLD_SHRINK_ADD
  | HOLD_SHRINK_SUBTRACT
  | HOLD_GROWTH
  | HOLD_EMPTY_SOURCE
  | HOLD_STALE_SOURCE
  | HOLD_STREAK
  | HOLD_REVIEW_MODE.
#[export] Instance hold_code_eq_dec : EqDecision hold_code.
Proof. solve_decision. Defined.

Definition hold_code_str (c : hold_code) : str :=
  match c with
  | HOLD_SHRINK_ADD => py "shrink-add"
  | HOLD_SHRINK_SUBTRACT => py "shrink-subtract"
  | HOLD_GROWTH => py "growth"
  | HOLD_EMPTY_SOURCE => py "empty-source"
  | HOLD_STALE_SOURCE => py "stale-source"
  | HOLD_STREAK => py "streak"
  | HOLD_REVIEW_MODE => py "review-mode"
  end.

Record thresholds := Thresholds {
  max_shrink_pct : Z;
  max_growth_pct : Z;
  stale_after_sec : Z }.
Definition DEFAULT_THRESHOLDS : thresholds := Thresholds 20 50 259200.

Record coverage := Coverage {
  cov_prefixes : Z;
  cov_addresses : Z }.
#[export] Instance coverage_eq_dec : EqDecision coverage.
Proof. solve_decision. Defined.
Definition cov_empty (c : coverage) : bool := cov_prefixes c =? 0.

Record source_state := SourceState {
  ss_slug : str;
  ss_mode : str;
  ss_coverage : coverage;
  ss_age_sec : option Z;
  ss_empty_parse : bool }.

Record hold := Hold {
  h_code : hold_code;
  h_slug : option str;
  h_pct : float;
  h_before : Z;
  h_after : Z }.
Definition hold_key (h : hold) : str :=
  match h_slug h with
  | None => hold_code_str (h_code h)
  | Some slug => hold_code_str (h_code h) ++ [COLON] ++ slug
  end.

Record source_change := SourceChange {
  ch_slug : str;
  ch_mode : str;
  ch_before : option coverage;
  ch_after : coverage;
  ch_age_sec : option Z;
  ch_stale : bool }.

Definition shrink_pct (c : source_change) : float :=
  match ch_before c with
  | None => fzero
  | Some before =>
      if cov_addresses before <=? 0 then fzero
      else
        let lost := cov_addresses before - cov_addresses (ch_after c) in
        fmax0 (percent lost (cov_addresses before))
  end.
Definition growth_pct (c : source_change) : float :=
  match ch_before c with
  | None => fzero
  | Some before =>
      if cov_addresses before <=? 0 then fzero
      else
        let gained := cov_addresses (ch_after c) - cov_addresses before in
        fmax0 (percent gained (cov_addresses before))
  end.

Record change_analysis := ChangeAnalysis {
  ca_prefixes_before : Z;
  ca_prefixes_after : Z;
  ca_addresses_before : Z;
  ca_addresses_after : Z;
  ca_list_hash : str;
  ca_added : list str;
  ca_removed : list str;
  ca_sources : list source_change;
  ca_holds : list hold;
  ca_baseline_addresses : option Z;
  ca_baseline_prefixes : option Z;
  same_space : bool }.

Definition identical (a : change_analysis) : bool :=
  match ca_added a, ca_removed a with [], [] => true | _, _ => false end.
Definition pure_aggregation (a : change_analysis) : bool := negb (identical a) && same_space a.
Definition suspicious (a : change_analysis) : bool :=
  match ca_holds a with [] => false | _ => true end.
Definition delta_prefixes (a : change_analysis) : Z := ca_prefixes_after a - ca_prefixes_before a.
Definition delta_addresses (a : change_analysis) : Z := ca_addresses_after a - ca_addresses_before a.
Definition hold_keys (a : change_analysis) : list str := map hold_key (ca_holds a).

(** ** Measuring a prefix list *)

Definition ipv4_of (item : str) : option ipv4net :=
  match ip_network item with
  | Some (inl net) => Some net
  | _ => None
  end.
(** The networks of the entries that are IPv4, the others ignored. *)
Definition parsed_networks (prefixes : list str) : list ipv4net := omap ipv4_of prefixes.
Definition collapsed_networks (prefixes : list str) : list ipv4net :=
  collapse (parsed_networks prefixes).

Definition coverage_of_nets (merged : list ipv4net) : coverage :=
  Coverage (count merged) (address_count merged).
Definition coverage_of (prefixes : list str) : coverage :=
  coverage_of_nets (collapsed_networks prefixes).

Definition list_text (prefixes : list str) : str := str_join [NEWLINE] (sorted_set prefixes).
Definition list_hash (prefixes : list str) : str := sha256_hex (utf8_encode (list_text prefixes)).

(** [sorted(set(a) - set(b))] *)
Definition sorted_difference (a b : list str) : list str :=
  sorted_set (List.filter (fun x => negb (bool_decide (x ∈ b))) a).

(** ** The analysis *)

Definition is_stale (t : thresholds) (source : source_state) (baseline : option coverage) : bool :=
  match ss_age_sec source with
  | None => true
  | Some age => stale_after_sec t <? age
  end && match baseline with Some _ => true | None => false end.

Definition change_of (t : thresholds) (source : source_state) (baseline : option coverage)
    : source_change :=
  SourceChange (ss_slug source) (ss_mode source) baseline (ss_coverage source)
    (ss_age_sec source) (is_stale t source baseline).

Definition baseline_addresses (baseline : option coverage) : Z :=
  match baseline with None => 0 | Some b => cov_addresses b end.

(** The holds one source adds, in the order they are appended. *)
Definition source_holds (t : thresholds) (source : source_state) (baseline : option coverage)
    : list hold :=
  let change := change_of t source baseline in
  (if ss_empty_parse source
      || (cov_empty (ss_coverage source) && match baseline with Some _ => true | None => false end)
   then [Hold HOLD_EMPTY_SOURCE (Some (ss_slug source)) fzero
           (baseline_addresses baseline) (cov_addresses (ss_coverage source))]
   else if float_gt_int (shrink_pct change) (max_shrink_pct t)
   then [Hold (if bool_decide (ss_mode source = py "subtract")
               then HOLD_SHRINK_SUBTRACT else HOLD_SHRINK_ADD)
           (Some (ss_slug source)) (shrink_pct change)
           (baseline_addresses baseline) (cov_addresses (ss_coverage source))]
   else [])
  ++ (if is_stale t source baseline
      then [Hold HOLD_STALE_SOURCE (Some (ss_slug source)) fzero
              (match ss_age_sec source with None => -1 | Some age => age end)
              (stale_after_sec t)]
      else []).

Definition growth_holds (t : thresholds) (list_baseline : option coverage) (after : coverage)
    : list hold :=
  match list_baseline with
  | None => []
  | Some b =>
      if 0 <? cov_addresses b then
        let growth := percent (cov_addresses after - cov_addresses b) (cov_addresses b) in
        if float_gt_int growth (max_growth_pct t)
        then [Hold HOLD_GROWTH None growth (cov_addresses b) (cov_addresses after)]
        else []
      else []
  end.

Definition analyse_change (current candidate : list str) (sources : list source_state)
    (baselines : gmap str coverage) (t : thresholds) (list_baseline_key : str) : change_analysis :=
  let before_nets := collapsed_networks current in
  let after_nets := collapsed_networks candidate in
  let before := coverage_of_nets before_nets in
  let after := coverage_of_nets after_nets in
  let list_baseline := baselines !! list_baseline_key in
  {| ca_prefixes_before := Z.of_nat (length current);
     ca_prefixes_after := Z.of_nat (length candidate);
     ca_addresses_before := cov_addresses before;
     ca_addresses_after := cov_addresses after;
     ca_list_hash := list_hash candidate;
     ca_added := sorted_difference candidate current;
     ca_removed := sorted_difference current candidate;
     ca_sources := map (fun s => change_of t s (baselines !! ss_slug s)) sources;
     ca_holds := (sources ≫= fun s => source_holds t s (baselines !! ss_slug s))
                 ++ growth_holds t list_baseline after;
     ca_baseline_addresses := cov_addresses <$> list_baseline;
     ca_baseline_prefixes := cov_prefixes <$> list_baseline;
     same_space := bool_decide (before_nets = after_nets) |}.

Definition with_hold (a : change_analysis) (h : hold) : change_analysis :=
  {| ca_prefixes_before := ca_prefixes_before a;
     ca_prefixes_after := ca_prefixes_after a;
     ca_addresses_before := ca_addresses_before a;
     ca_addresses_after := ca_addresses_after a;
     ca_list_hash := ca_list_hash a;
     ca_added := ca_added a;
     ca_removed := ca_removed a;
     ca_sources := ca_sources a;
     ca_holds := ca_holds a ++ [h];
     ca_baseline_addresses := ca_baseline_addresses a;
     ca_baseline_prefixes := ca_baseline_prefixes a;
     same_space := same_space a |}.

(** ** Lemmas: address sets of a prefix list *)

Lemma parsed_networks_wf prefixes : Forall wf_net (parsed_networks prefixes).
Proof.
  apply Forall_elem. intros n Hn. apply list_elem_of_omap in Hn as (x & _ & Hx).
  unfold ipv4_of in Hx. destruct (ip_network x) as [[m|]|] eqn:E; simplify_eq.
  by eapply ip_network_wf.
Qed.

Lemma elem_of_parsed n prefixes :
  n ∈ parsed_networks prefixes <-> exists x, x ∈ prefixes /\ ipv4_of x = Some n.
Proof. apply list_elem_of_omap. Qed.

(** The addresses a prefix list stands for. *)
Definition routes (prefixes : list str) (x : Z) : Prop := covers (parsed_networks prefixes) x.

Lemma routes_ext l1 l2 x : (forall e, e ∈ l1 <-> e ∈ l2) -> routes l1 x <-> routes l2 x.
Proof.
  intros H. unfold routes. split; apply covers_mono; intros n; rewrite !elem_of_parsed;
    intros (e & He & Hn); exists e; split; try done; by apply H.
Qed.

Lemma collapsed_networks_spec prefixes :
  collapsed (collapsed_networks prefixes)
  /\ forall x, covers (collapsed_networks prefixes) x <-> routes prefixes x.
Proof. apply collapse_spec, parsed_networks_wf. Qed.

Lemma collapsed_networks_eq l1 l2 :
  collapsed_networks l1 = collapsed_networks l2 <-> forall x, routes l1 x <-> routes l2 x.
Proof.
  destruct (collapsed_networks_spec l1) as [C1 H1], (collapsed_networks_spec l2) as [C2 H2]. split.
  - intros E x. by rewrite <- H1, <- H2, E.
  - intros E. apply collapsed_unique; [done..|]. intros x. by rewrite H1, H2.
Qed.

(** Rendered networks are parsed back. *)
Lemma parsed_networks_show nets : Forall wf_net nets -> parsed_networks (map show_net nets) = nets.
Proof.
  induction 1 as [|n nets Hn Hnets IH]; [done|]. simpl. unfold parsed_networks in *. simpl.
  unfold ipv4_of at 1. rewrite ip_network_show by done. by rewrite IH.
Qed.

Lemma coverage_of_card prefixes :
  exists A : gset Z, (forall x, x ∈ A <-> routes prefixes x)
    /\ address_count (collapsed_networks prefixes) = Z.of_nat (base.size A).
Proof.
  destruct (collapsed_networks_spec prefixes) as [C H].
  exists (addr_set (collapsed_networks prefixes)). rewrite collapsed_size by done.
  split; [|done]. intros x. by rewrite elem_of_addr_set.
Qed.

Lemma whole_space_collapsed : collapsed [IPv4Network 0 0].
Proof.
  assert (wf_net (IPv4Network 0 0)) by (apply (bool_decide_unpack _); vm_compute; exact I).
  split; [by repeat constructor|by repeat constructor|].
  intros a b Ha Hb. apply list_elem_of_singleton in Ha, Hb. by subst.
Qed.

Lemma address_count_bound l : collapsed l -> 0 <= address_count l <= 2 ^ 32.
Proof.
  intros Hl. change (2 ^ 32) with (address_count [IPv4Network 0 0]). split.
  - change 0 with (address_count []).
    apply address_count_le; [apply collapsed_nil|done|]. intros x. by rewrite covers_nil.
  - apply address_count_le; [done|apply whole_space_collapsed|].
    intros x (n & Hn & Hx). exists (IPv4Network 0 0). split; [by left|].
    pose proof (in_net_range n x (collapsed_wf_elem _ _ Hl Hn) Hx). unfold in_net, size; simpl. lia.
Qed.

Lemma sorted_difference_nil a b : sorted_difference a b = [] <-> forall x, x ∈ a -> x ∈ b.
Proof.
  unfold sorted_difference. rewrite sorted_set_nil. split.
  - intros H x Hx. destruct (decide (x ∈ b)) as [|Hn]; [done|exfalso].
    assert (x ∈ List.filter (fun x => negb (bool_decide (x ∈ b))) a) as Hf.
    { apply list_elem_of_In, filter_In. rewrite <- list_elem_of_In.
      split; [done|]. by rewrite bool_decide_false. }
    rewrite H in Hf. by apply not_elem_of_nil in Hf.
  - intros H. induction a as [|y a IH]; [done|]. simpl.
    rewrite bool_decide_true by (apply H; by left). apply IH. intros x Hx. apply H. by right.
Qed.

Lemma identical_spec a : identical a = true <-> ca_added a = [] /\ ca_removed a = [].
Proof. unfold identical. destruct (ca_added a), (ca_removed a); naive_solver. Qed.

(** ** Lemmas: the thresholds in exact arithmetic *)

Record thresholds_ok (t : thresholds) : Prop := ThresholdsOk {
  to_shrink : 0 <= max_shrink_pct t < 2 ^ 20;
  to_growth : 0 <= max_growth_pct t < 2 ^ 20 }.
(** A stored baseline counts addresses of the IPv4 space. *)
Definition baseline_ok (b : coverage) : Prop := cov_addresses b <= 2 ^ 32.

Definition shrunk (t : thresholds) (b : coverage) (after : coverage) : Prop :=
  0 < cov_addresses b
  /\ max_shrink_pct t * cov_addresses b < 100 * (cov_addresses b - cov_addresses after).
Definition grown (t : thresholds) (b : coverage) (after : coverage) : Prop :=
  0 < cov_addresses b
  /\ max_growth_pct t * cov_addresses b < 100 * (cov_addresses after - cov_addresses b).

Lemma shrink_exceeds t s b : thresholds_ok t -> baseline_ok b -> 0 <= cov_addresses (ss_coverage s) ->
  float_gt_int (shrink_pct (change_of t s (Some b))) (max_shrink_pct t) = true
  <-> shrunk t b (ss_coverage s).
Proof.
  intros [Ht _] Hb Ha. unfold baseline_ok in Hb. unfold shrink_pct, shrunk. simpl.
  destruct (Z.leb_spec (cov_addresses b) 0) as [H0|H0].
  - simpl. rewrite Z.ltb_lt. lia.
  - rewrite fmax0_gt_int, percent_gt_int, Z.ltb_lt by lia. tauto.
Qed.

Lemma growth_exceeds t b after : thresholds_ok t -> baseline_ok b -> cov_addresses after <= 2 ^ 32 ->
  growth_holds t (Some b) after <> [] <-> grown t b after.
Proof.
  intros [_ Ht] Hb Ha. unfold baseline_ok in Hb. unfold growth_holds, grown.
  destruct (Z.ltb_spec 0 (cov_addresses b)) as [H0|H0]; [|by split; [intros H|lia]].
  rewrite percent_gt_int by lia. case_match; bool_prop; [by split|split; [done|lia]].
Qed.

(** What makes a source unsuspicious. *)
Definition source_quiet (t : thresholds) (s : source_state) (baseline : option coverage) : Prop :=
  ss_empty_parse s = false
  /\ forall b, baseline = Some b ->
       cov_prefixes (ss_coverage s) <> 0 /\ ~ shrunk t b (ss_coverage s)
       /\ exists age, ss_age_sec s = Some age /\ age <= stale_after_sec t.

Lemma is_stale_spec t s b : is_stale t s (Some b) = false
  <-> exists age, ss_age_sec s = Some age /\ age <= stale_after_sec t.
Proof.
  unfold is_stale. rewrite andb_true_r. destruct (ss_age_sec s) as [age|].
  - rewrite Z.ltb_ge. naive_solver.
  - naive_solver.
Qed.

Lemma is_stale_none t s : is_stale t s None = false.
Proof. unfold is_stale. by rewrite andb_false_r. Qed.

Lemma source_holds_nil t s baseline : thresholds_ok t -> 0 <= cov_addresses (ss_coverage s) ->
  (forall b, baseline = Some b -> baseline_ok b) ->
  source_holds t s baseline = [] <-> source_quiet t s baseline.
Proof.
  intros Ht Ha Hb. unfold source_holds, source_quiet, cov_empty.
  rewrite app_nil. destruct (ss_empty_parse s); simpl; [split; [by intros []|by intros []]|].
  destruct baseline as [b|].
  2:{ rewrite is_stale_none. replace (float_gt_int _ _) with false
        by (symmetry; apply Z.ltb_ge, (to_shrink _ Ht)).
      destruct (_ =? _); naive_solver. }
  pose proof (shrink_exceeds t s b Ht (Hb b eq_refl) Ha) as Hs.
  pose proof (is_stale_spec t s b) as Hst. rewrite andb_true_r.
  destruct (Z.eqb_spec (cov_prefixes (ss_coverage s)) 0);
    destruct (float_gt_int _ _); destruct (is_stale t s (Some b)); naive_solver.
Qed.

Lemma bind_nil {A B} (f : A -> list B) (l : list A) : (l ≫= f) = [] <-> Forall (fun x => f x = []) l.
Proof.
  induction l as [|x l IH]; csimpl; [by split|]. rewrite app_nil, IH, Forall_cons_iff. done.
Qed.

Lemma growth_holds_nil t (baseline : option coverage) after :
  thresholds_ok t -> (forall b, baseline = Some b -> baseline_ok b) -> cov_addresses after <= 2 ^ 32 ->
  growth_holds t baseline after = [] <-> forall b, baseline = Some b -> ~ grown t b after.
Proof.
  intros Ht Hb Ha. destruct baseline as [b|]; [|by split].
  pose proof (growth_exceeds t b after Ht (Hb b eq_refl) Ha) as H. split.
  - intros E b' [= <-] Hg. by apply H in Hg.
  - intros Hg. destruct (growth_holds t (Some b) after) as [|h l] eqn:E; [done|].
    exfalso. by apply (Hg b eq_refl), H.
Qed.

(** A hold of [source_holds] of one of the two shrink codes. *)
Definition shrink_code (mode : str) : hold_code :=
  if bool_decide (mode = py "subtract") then HOLD_SHRINK_SUBTRACT else HOLD_SHRINK_ADD.

Lemma source_holds_shrink t s baseline h : thresholds_ok t -> 0 <= cov_addresses (ss_coverage s) ->
  (forall b, baseline = Some b -> baseline_ok b) ->
  h ∈ source_holds t s baseline -> h_code h = HOLD_SHRINK_ADD \/ h_code h = HOLD_SHRINK_SUBTRACT ->
  exists b, baseline = Some b /\ shrunk t b (ss_coverage s)
    /\ ss_empty_parse s = false /\ cov_prefixes (ss_coverage s) <> 0
    /\ h_code h = shrink_code (ss_mode s) /\ h_slug h = Some (ss_slug s)
    /\ h_before h = cov_addresses b /\ h_after h = cov_addresses (ss_coverage s).
Proof.
  intros Ht Ha Hb Hin Hc. unfold source_holds in Hin. apply elem_of_app in Hin as [Hin|Hin].
  - destruct (ss_empty_parse s) eqn:Hep; simpl in Hin;
      [apply list_elem_of_singleton in Hin; subst; by destruct Hc|].
    destruct baseline as [b|]; cycle 1.
    { rewrite andb_false_r in Hin. destruct (float_gt_int _ _) eqn:E;
        [|by apply not_elem_of_nil in Hin].
      apply Z.ltb_lt in E. pose proof (to_shrink _ Ht). lia. }
    rewrite andb_true_r in Hin. unfold cov_empty in Hin.
    destruct (Z.eqb_spec (cov_prefixes (ss_coverage s)) 0);
      [apply list_elem_of_singleton in Hin; subst; by destruct Hc|].
    destruct (float_gt_int _ _) eqn:E; [|by apply not_elem_of_nil in Hin].
    apply shrink_exceeds in E; [|done|auto|done].
    apply list_elem_of_singleton in Hin. subst. exists b. by split_and!.
  - destruct (is_stale _ _ _); [|by apply not_elem_of_nil in Hin].
    apply list_elem_of_singleton in Hin. subst. by destruct Hc.
Qed.

Lemma shrunk_held t s b : thresholds_ok t -> 0 <= cov_addresses (ss_coverage s) -> baseline_ok b ->
  shrunk t b (ss_coverage s) -> ss_empty_parse s = false -> cov_prefixes (ss_coverage s) <> 0 ->
  exists h, h ∈ source_holds t s (Some b) /\ h_code h = shrink_code (ss_mode s)
    /\ h_slug h = Some (ss_slug s).
Proof.
  intros Ht Ha Hb Hs Hep Hne. unfold source_holds, cov_empty. rewrite Hep, andb_true_r. simpl.
  destruct (Z.eqb_spec (cov_prefixes (ss_coverage s)) 0); [done|].
  rewrite (proj2 (shrink_exceeds t s b Ht Hb Ha) Hs). eexists.
  split; [apply elem_of_app; left; by left|done].
Qed.

Lemma growth_holds_code t baseline after h : h ∈ growth_holds t baseline after -> h_code h = HOLD_GROWTH.
Proof.
  unfold growth_holds. repeat case_match; try (intros Hin; by apply not_elem_of_nil in Hin).
  intros Hin. apply list_elem_of_singleton in Hin. by subst.
Qed.

(** ** Lemmas: the hashed text determines the set of routes *)

(** Entries as they are written: no line break, and not empty. *)
Definition route_text (x : str) : Prop := NEWLINE ∉ x /\ x <> [].

Lemma list_text_nil l : Forall route_text l -> list_text l = [] -> l = [].
Proof.
  intros Hl H. apply sorted_set_nil. unfold list_text in H.
  destruct (sorted_set l) as [|x r] eqn:E; [done|]. exfalso.
  assert (x <> []) as Hx.
  { rewrite Forall_elem in Hl. apply (Hl x). apply sorted_set_elem. rewrite E. by left. }
  destruct r; simpl in H; [done|]. by destruct x.
Qed.

Lemma list_text_inj l1 l2 : Forall route_text l1 -> Forall route_text l2 ->
  list_text l1 = list_text l2 -> forall x, x ∈ l1 <-> x ∈ l2.
Proof.
  intros H1 H2 E.
  assert (forall l, Forall route_text l -> Forall (fun x => NEWLINE ∉ x) (sorted_set l)) as Hs.
  { intros l Hl. apply Forall_elem. intros y Hy. rewrite sorted_set_elem in Hy.
    rewrite Forall_elem in Hl. exact (proj1 (Hl y Hy)). }
  destruct (decide (l1 = [])) as [->|N1].
  { symmetry in E. by rewrite (list_text_nil l2 H2 E). }
  destruct (decide (l2 = [])) as [->|N2]; [by rewrite (list_text_nil l1 H1 E) in N1|].
  intros x. rewrite <- (sorted_set_elem x l1), <- (sorted_set_elem x l2).
  rewrite <- (str_join_split NEWLINE (sorted_set l1)), <- (str_join_split NEWLINE (sorted_set l2));
    [unfold list_text in E; by rewrite E|..]; try (by rewrite sorted_set_nil); by apply Hs.
Qed.

Lemma show_net_route_text n : wf_net n -> route_text (show_net n).
Proof.
  intros Hw. split.
  - intros Hin. pose proof (show_net_chars n Hw) as Hc. rewrite Forall_elem in Hc.
    apply Hc in Hin. vm_compute in Hin. discriminate.
  - intros E. pose proof (show_net_has_slash n) as H. rewrite E in H. by apply not_elem_of_nil in H.
Qed.

(** ** Properties *)

(** [analyse_change] compares address sets, never entry counts: [same_space]
    holds exactly when the two lists route the same addresses, the reported
    address counts are the cardinalities of the two routed sets (so
    [delta_addresses] is their difference), and an identical list is never
    reported as a change of the space. *)
Theorem analyse_change_space (current candidate : list str) (sources : list source_state)
    (baselines : gmap str coverage) (t : thresholds) (key : str) :
  let a := analyse_change current candidate sources baselines t key in
  (same_space a = true <-> forall x, routes current x <-> routes candidate x)
  /\ (exists B A : gset Z,
        (forall x, x ∈ B <-> routes current x) /\ (forall x, x ∈ A <-> routes candidate x)
        /\ ca_addresses_before a = Z.of_nat (base.size B)
        /\ ca_addresses_after a = Z.of_nat (base.size A)
        /\ delta_addresses a = Z.of_nat (base.size A) - Z.of_nat (base.size B))
  /\ (identical a = true <-> forall e, e ∈ current <-> e ∈ candidate)
  /\ (identical a = true -> same_space a = true)
  /\ (pure_aggregation a = true -> delta_addresses a = 0).
Proof.
  intros a. destruct (coverage_of_card current) as (B & HB & EB).
  destruct (coverage_of_card candidate) as (A & HA & EA).
  assert (same_space a = true <-> forall x, routes current x <-> routes candidate x) as Hsame.
  { unfold a; simpl. rewrite bool_decide_eq_true. apply collapsed_networks_eq. }
  assert (identical a = true <-> forall e, e ∈ current <-> e ∈ candidate) as Hid.
  { rewrite identical_spec. unfold a; simpl. rewrite !sorted_difference_nil. naive_solver. }
  split_and!; [done|exists B, A; unfold delta_addresses, a; simpl; by rewrite EB, EA|done|..].
  - rewrite Hid, Hsame. intros H x. by apply routes_ext.
  - unfold pure_aggregation. rewrite andb_true_iff, Hsame. intros [_ H].
    unfold delta_addresses, a; simpl. rewrite EB, EA.
    replace A with B; [lia|]. apply set_eq. intros x. by rewrite HB, HA.
Qed.

(** C27 The verdict is exact, and it measures against the stored baselines: with
    thresholds in the configured range, a candidate is unsuspicious exactly when
    every source published something this run and, against its own baseline,
    still has prefixes, has lost no more than [max_shrink_pct] percent of its
    addresses and was fetched recently enough, and the list has not grown by more
    than [max_growth_pct] percent. The percentages are computed in floating
    point, the statement is in exact integers. A source with no baseline is held
    for an empty parse, although the docstring says it is never held, and for
    nothing else. *)
Theorem unattended_verdict (current candidate : list str) (sources : list source_state)
    (baselines : gmap str coverage) (t : thresholds) (key : str) :
  thresholds_ok t -> map_Forall (fun _ b => baseline_ok b) baselines ->
  Forall (fun s => 0 <= cov_addresses (ss_coverage s)) sources ->
  let a := analyse_change current candidate sources baselines t key in
  suspicious a = false <->
  (forall s, s ∈ sources -> source_quiet t s (baselines !! ss_slug s))
  /\ (forall b, baselines !! key = Some b -> ~ grown t b (coverage_of candidate)).
Proof.
  intros Ht Hb Hs a.
  assert (suspicious a = false <-> ca_holds a = []) as ->
    by (unfold suspicious; destruct (ca_holds a); naive_solver).
  unfold a; simpl. rewrite app_nil, bind_nil, growth_holds_nil.
  - rewrite Forall_elem. rewrite Forall_elem in Hs. apply and_iff_compat_r.
    split; intros H s Hin; (apply source_holds_nil; [done|by apply Hs|by intros b; apply Hb|by apply H])
      || (apply (source_holds_nil t s); [done|by apply Hs|by intros b; apply Hb|by apply H]).
  - done.
  - intros b. apply Hb.
  - destruct (collapsed_networks_spec candidate) as [C _]. by apply address_count_bound.
Qed.

Definition demo_baselines : gmap str coverage :=
  <[py "goog" := Coverage 1 256]> (<[LIST_SCOPE := Coverage 1 256]> ∅).
Definition demo_state (after : Z) : source_state :=
  SourceState (py "goog") (py "add") (Coverage 1 after) (Some 60) false.
Lemma demo_baselines_ok : map_Forall (fun _ b => baseline_ok b) demo_baselines.
Proof. apply (bool_decide_unpack _). vm_compute. exact I. Defined.
Lemma default_thresholds_ok : thresholds_ok DEFAULT_THRESHOLDS.
Proof. split; vm_compute; (split; [discriminate|reflexivity]). Defined.

Lemma unattended_verdict_witness :
  suspicious (analyse_change [py "8.8.8.0/24"] [py "8.8.8.0/25"] [demo_state 205]
                demo_baselines DEFAULT_THRESHOLDS LIST_SCOPE) = false
  /\ suspicious (analyse_change [py "8.8.8.0/24"] [py "8.8.8.0/25"] [demo_state 204]
                demo_baselines DEFAULT_THRESHOLDS LIST_SCOPE) <> false.
Proof.
  split; [vm_compute; reflexivity|].
  rewrite (unattended_verdict [py "8.8.8.0/24"] [py "8.8.8.0/25"] [demo_state 204]
             demo_baselines DEFAULT_THRESHOLDS LIST_SCOPE default_thresholds_ok demo_baselines_ok);
    [|repeat constructor; vm_compute; discriminate].
  intros [H _]. destruct (H (demo_state 204) ltac:(by left)) as (_ & Hq).
  destruct (Hq (Coverage 1 256) eq_refl) as (_ & Hn & _). apply Hn. vm_compute.
  split; reflexivity.
Defined.

(** A source that published nothing is held, also when it has no baseline: the docstring
    of [analyse_change] says that a source with no baseline is never held. *)
Theorem empty_parse_is_held_without_baseline (current candidate : list str) (sources : list source_state)
    (baselines : gmap str coverage) (t : thresholds) (key : str) s :
  s ∈ sources -> baselines !! ss_slug s = None -> ss_empty_parse s = true ->
  exists h, h ∈ ca_holds (analyse_change current candidate sources baselines t key)
    /\ h_code h = HOLD_EMPTY_SOURCE /\ h_slug h = Some (ss_slug s).
Proof.
  intros Hin Hb He. exists (Hold HOLD_EMPTY_SOURCE (Some (ss_slug s)) fzero 0 (cov_addresses (ss_coverage s))).
  split; [|done]. simpl. apply elem_of_app. left. apply list_elem_of_bind. exists s. split; [|done].
  unfold source_holds. rewrite He, Hb. cbn [orb]. apply elem_of_app. left. by left.
Qed.
Lemma empty_parse_is_held_without_baseline_witness :
  exists h, h ∈ ca_holds (analyse_change [py "8.8.8.0/24"] [py "8.8.8.0/24"]
      [SourceState (py "new") (py "add") (Coverage 0 0) None true] ∅ DEFAULT_THRESHOLDS LIST_SCOPE)
    /\ h_code h = HOLD_EMPTY_SOURCE.
Proof.
  destruct (empty_parse_is_held_without_baseline [py "8.8.8.0/24"] [py "8.8.8.0/24"]
    [SourceState (py "new") (py "add") (Coverage 0 0) None true] ∅ DEFAULT_THRESHOLDS LIST_SCOPE
    (SourceState (py "new") (py "add") (Coverage 0 0) None true) ltac:(by left) eq_refl eq_refl) as (h & H1 & H2 & _).
  exists h. split; [exact H1|exact H2].
Defined.

(** Both directions of a shrinking operand are held, each under its own code:
    a shrink hold with code [c] for [slug] is raised exactly when a source of
    that slug, still non-empty, lost more than the threshold against its
    baseline and [c] is the code of its mode, [shrink-subtract] for a
    subtrahend (whose loss grows the routed list), [shrink-add] otherwise. *)
Theorem shrink_holds (current candidate : list str) (sources : list source_state)
    (baselines : gmap str coverage) (t : thresholds) (key : str) (c : hold_code) (slug : str) :
  thresholds_ok t -> map_Forall (fun _ b => baseline_ok b) baselines ->
  Forall (fun s => 0 <= cov_addresses (ss_coverage s)) sources ->
  c = HOLD_SHRINK_ADD \/ c = HOLD_SHRINK_SUBTRACT ->
  (exists h, h ∈ ca_holds (analyse_change current candidate sources baselines t key)
     /\ h_code h = c /\ h_slug h = Some slug)
  <-> exists s b, s ∈ sources /\ ss_slug s = slug /\ baselines !! slug = Some b
        /\ ss_empty_parse s = false /\ cov_prefixes (ss_coverage s) <> 0
        /\ shrunk t b (ss_coverage s) /\ c = shrink_code (ss_mode s).
Proof.
  intros Ht Hb Hs Hc. rewrite Forall_elem in Hs. simpl. split.
  - intros (h & [Hin|Hin]%elem_of_app & Hhc & Hsl).
    + apply list_elem_of_bind in Hin as (s & Hin & Hse).
      destruct (source_holds_shrink t s (baselines !! ss_slug s) h) as (b & Hbl & ? & ? & ? & ? & Hsl' & _);
        [done|by apply Hs|by intros b; apply Hb|done|by subst c|].
      rewrite Hsl in Hsl'. injection Hsl' as ->. exists s, b. split_and!; try done. congruence.
    + apply growth_holds_code in Hin. subst c. rewrite Hin in Hc. by destruct Hc.
  - intros (s & b & Hin & <- & Hbl & Hep & Hne & Hsh & ->).
    destruct (shrunk_held t s b) as (h & Hh & Hcode & Hslug); try done;
      [by apply Hs|by eapply Hb|].
    exists h. split; [|done]. apply elem_of_app. left. apply list_elem_of_bind. exists s.
    by rewrite Hbl.
Qed.

Lemma shrink_holds_witness :
  exists h, h ∈ ca_holds (analyse_change [] [] [SourceState (py "goog") (py "subtract") (Coverage 1 128) (Some 1) false]
                            demo_baselines DEFAULT_THRESHOLDS LIST_SCOPE)
    /\ h_code h = HOLD_SHRINK_SUBTRACT /\ h_slug h = Some (py "goog").
Proof.
  apply (shrink_holds [] [] [SourceState (py "goog") (py "subtract") (Coverage 1 128) (Some 1) false]
           demo_baselines DEFAULT_THRESHOLDS LIST_SCOPE HOLD_SHRINK_SUBTRACT (py "goog")
           default_thresholds_ok demo_baselines_ok).
  - repeat constructor. vm_compute. discriminate.
  - by right.
  - eexists _, (Coverage 1 256). split; [by left|]. split_and!; try reflexivity; vm_compute; first [discriminate|split; reflexivity].
Defined.

(** The hash identifies the set of routes: it does not depend on the order or
    the repetition of the entries, and on lists of written routes the text that
    is hashed is the same only for the same set, so two different route sets
    share a hash only through a SHA-256 collision. *)
Theorem list_hash_identifies_routes :
  (forall l1 l2, (forall e, e ∈ l1 <-> e ∈ l2) -> list_hash l1 = list_hash l2)
  /\ (forall n1 n2, Forall wf_net n1 -> Forall wf_net n2 ->
       list_text (map show_net n1) = list_text (map show_net n2)
       <-> forall n, n ∈ n1 <-> n ∈ n2).
Proof.
  split; [intros l1 l2 H; unfold list_hash, list_text; by rewrite (sorted_set_ext l1 l2 H)|].
  assert (forall ns, Forall wf_net ns -> Forall route_text (map show_net ns)) as Hrt.
  { intros ns H. apply Forall_elem. rewrite Forall_elem in H. intros x Hx. apply list_elem_of_fmap in Hx as (n & -> & Hn).
    by apply show_net_route_text, H. }
  assert (forall n ns, wf_net n -> Forall wf_net ns -> show_net n ∈ map show_net ns -> n ∈ ns) as Hinj.
  { intros n ns Hn Hns Hin. apply list_elem_of_fmap in Hin as (m & E & Hm). rewrite Forall_elem in Hns.
    by rewrite (show_net_inj n m Hn (Hns m Hm) E). }
  intros n1 n2 H1 H2. split.
  - intros E. pose proof (list_text_inj _ _ (Hrt _ H1) (Hrt _ H2) E) as Hx.
    pose proof H1 as H1'. pose proof H2 as H2'. rewrite Forall_elem in H1', H2'.
    intros n; split; intros Hn; (apply Hinj; [by auto|done|]); apply Hx, list_elem_of_fmap; eauto.
  - intros H. unfold list_text. f_equal. apply sorted_set_ext. intros x.
    rewrite !list_elem_of_fmap. naive_solver.
Qed.
