(* ===== verification/SplitManager.v ===== *)
(** * The split list on disk ([warp/split_manager.py])

    Reading, validating and writing the routed list. The list file, the
    remembered endpoint and the messages sent are the state; the privileged
    helpers, [/proc/net/route] and the interface ioctls are oracles consulted at
    successive ticks. A candidate is written whole or not at all. *)

From S2P Require Import Prelude PyText PyIp IpSpace SplitMerge SplitAnalysis.
#[local] Open Scope Z_scope.

(** ** Static guards *)

Definition LOOPBACK : ipv4net := IPv4Network 2130706432 8.
Definition LINK_LOCAL : ipv4net := IPv4Network 2851995648 16.
Definition MULTICAST : ipv4net := IPv4Network 3758096384 4.
Definition WARP_TUNNEL : ipv4net := IPv4Network 2886729728 12.
Definition STATIC_GUARDS : list (ipv4net * str) :=
  [(LOOPBACK, py "loopback (127.0.0.0/8)");
   (LINK_LOCAL, py "link-local (169.254.0.0/16)");
   (MULTICAST, py "multicast (224.0.0.0/4)");
   (WARP_TUNNEL, py "WARP tunnel range (172.16.0.0/12) — would break the tunnel")].

(** ** Errors *)

(** [WarpSplitError] by its cause; [CapExceeded] is the subclass
    [WarpSplitCapExceeded]. The last two are exceptions of another class that
    pass through. *)
Inductive split_error :=
  | EmptyList
  | CapExceeded (count limit : Z)
  | InvalidCidr (token : str)
  | NotIPv4 (token : str)
  | DefaultRoute (token : str)
  | TooShort (token : str) (min_prefixlen : Z)
  | OverlapsGuard (token : str) (guard : ipv4net) (reason : str)
  | HelperFailed (rc : Z) (detail : str)
  | StateFailed (verb : str) (rc : Z) (detail : str)
  | NothingToReapply
  | WouldEmpty
  | RunnerRaised (text : str)
  | OverflowInGateway.

(** ** Data *)

Record split_status := SplitStatus {
  st_tunnel_up : bool;
  st_intended_state : str;
  st_n_list : Z;
  st_n_table : option Z;
  st_in_sync : bool }.

(** The note of a [CidrResult], by its message. *)
Inductive cidr_note :=
  | NoNote
  | NoMask
  | NoteInvalid
  | NoteIPv4Only
  | NoteHostBits (canonical : str)
  | NoteDefaultRoute
  | NoteTooShort
  | NoteOverlaps (guard : ipv4net) (reason : str).

Record cidr_result := CidrResult {
  cr_raw : str;
  cr_canonical : str;
  cr_status : str;
  cr_note : cidr_note }.

Record apply_outcome := ApplyOutcome {
  ao_count : Z;
  ao_added : list str;
  ao_removed : list str;
  ao_unchanged : bool;
  ao_actor : option Z }.
Definition ao_changed (o : apply_outcome) : bool := negb (ao_unchanged o).
Definition delta_text (o : apply_outcome) : str :=
  py "+" ++ show_nat (length (ao_added o)) ++ py "/-" ++ show_nat (length (ao_removed o)).

Record split_guards := SplitGuards {
  sg_networks : list (ipv4net * str);
  sg_endpoint_known : bool }.

(** [ShellResult]; a runner that raises is [None] with its text. *)
Record shell_result := ShellResult { rc : Z; stdout : str; stderr : str }.
Definition proc : Type := shell_result + str.

(** The constructor's configuration. *)
Record split_config := SplitConfig {
  awg_network : ipv4net;
  max_prefixes : Z;
  min_prefixlen : Z;
  has_on_alert : bool;
  has_on_applied : bool }.

(** What the manager does to the outside, in order. *)
Inductive host_event :=
  | HelperRun (input : str)
  | AlertText (text : str)
  | OnApplied (outcome : apply_outcome).

Record host := Host {
  list_file : option str;          (* None: no file *)
  endpoint_ip : option Z;          (* self._endpoint_ip *)
  tick : nat;                      (* external calls made so far *)
  events : list host_event }.      (* newest first *)

(** The oracles, indexed by the tick at which they are consulted. The apply
    helper also says whether its atomic rename took place. *)
Class SplitEnv := {
  apply_helper : nat -> str -> proc * bool;
  status_helper : nat -> proc;
  state_helper : nat -> str -> proc;
  proc_net_route : nat -> option str;
  iface_network : nat -> str -> option ipv4net;
  iface_flags : nat -> option str;
  marker_exists : nat -> bool }.

Definition HM (A : Type) : Type := M host split_error A.

(** Consult an oracle: the tick moves on. *)
Definition consult {A} (oracle : nat -> A) : HM A :=
  fun h => (Ok (oracle (tick h)), Host (list_file h) (endpoint_ip h) (S (tick h)) (events h)).
Definition log_event (e : host_event) : HM unit :=
  modify (fun h => Host (list_file h) (endpoint_ip h) (tick h) (e :: events h)).
Definition set_endpoint (ip : Z) : HM unit :=
  modify (fun h => Host (list_file h) (Some ip) (tick h) (events h)).
Definition set_file (text : str) : HM unit :=
  modify (fun h => Host (Some text) (endpoint_ip h) (tick h) (events h)).

(** ** Reading the list *)

(** One line of the file; comments, blanks, IPv6 and junk give nothing. *)
Definition list_line (raw : str) : option ipv4net :=
  match strip (before_char HASH raw) with
  | [] => None
  | line => ipv4_of line
  end.
Definition read_nets (text : str) : list ipv4net := omap list_line (splitlines text).
Definition read_list_of (file : option str) : list str :=
  match file with
  | None => []
  | Some text => map show_net (sort_networks (read_nets text))
  end.
Definition read_list : HM (list str) := gets (fun h => read_list_of (list_file h)).
Definition read_list_text : HM (option str) := gets list_file.

Definition render_list (cidr_list : list str) : str := str_join [NEWLINE] cidr_list ++ [NEWLINE].

(** ** Facts about the host *)

(** [_parse_endpoint] *)
Fixpoint parse_endpoint_lines (lines : list str) : option Z :=
  match lines with
  | [] => None
  | raw :: lines' =>
      let line := strip raw in
      if startswith (py "endpoint:") line then
        ipv4_address (strip (before_last_char COLON (strip (after_char COLON line))))
      else parse_endpoint_lines lines'
  end.
Definition parse_endpoint (out : str) : option Z := parse_endpoint_lines (splitlines out).

(** [int(s, 16)]: blanks around, a sign, a [0x] prefix and single underscores
    between digits are accepted; [None] is [ValueError]. *)
Definition hex_digit (c : N) : option Z :=
  if is_digit c then Some (Z.of_N c - 48)
  else if ((97 <=? c) && (c <=? 102))%N then Some (Z.of_N c - 87)
  else if ((65 <=? c) && (c <=? 70))%N then Some (Z.of_N c - 55)
  else None.
Fixpoint hex_digits (sep_ok : bool) (acc : Z) (s : str) : option Z :=
  match s with
  | [] => if sep_ok then Some acc else None
  | c :: r =>
      if (c =? 95)%N then
        match r with [] => None | _ => if sep_ok then hex_digits false acc r else None end
      else d ← hex_digit c; hex_digits true (16 * acc + d) r
  end.
Definition hex_magnitude (s : str) : option Z :=
  match s with
  | 48%N :: x :: r =>
      if ((x =? 120) || (x =? 88))%N
      then match r with [] => None | _ => hex_digits true 0 r end
      else hex_digits false 0 s
  | _ => hex_digits false 0 s
  end.
Definition hex_int (s : str) : option Z :=
  match strip s with
  | 45%N :: r => Z.opp <$> hex_magnitude r
  | 43%N :: r => hex_magnitude r
  | r => hex_magnitude r
  end.
(** The four bytes of a word, least significant first, read big-endian. *)
Definition little_endian (v : Z) : Z :=
  Z.shiftl (Z.land v 255) 24 + Z.shiftl (Z.land (Z.shiftr v 8) 255) 16
  + Z.shiftl (Z.land (Z.shiftr v 16) 255) 8 + Z.land (Z.shiftr v 24) 255.

Definition ZEROS : str := py "00000000".
Fixpoint gateway_lines (lines : list str) : result split_error (option Z) :=
  match lines with
  | [] => Ok None
  | line :: lines' =>
      match split_ws line with
      | _ :: destination :: gateway :: _ :: _ :: _ :: _ :: mask :: _ =>
          if negb (bool_decide (destination = ZEROS)) || negb (bool_decide (mask = ZEROS))
          then gateway_lines lines'
          else match hex_int gateway with
               | None => Ok None
               | Some v =>
                   if (v <? 0) || (2 ^ 32 <=? v) then Err OverflowInGateway
                   else let address := little_endian v in
                        Ok (if address =? 0 then None else Some address)
               end
      | _ => gateway_lines lines'
      end
  end.
Definition default_gateway (route : option str) : result split_error (option Z) :=
  match route with
  | None => Ok None
  | Some text => gateway_lines (drop 1 (splitlines text))
  end.

Fixpoint route_iface_lines (lines : list str) : option str :=
  match lines with
  | [] => None
  | line :: lines' =>
      match split_ws line with
      | iface :: destination :: _ :: _ :: _ :: _ :: _ :: mask :: _ =>
          if bool_decide (destination = ZEROS) && bool_decide (mask = ZEROS)
          then Some iface else route_iface_lines lines'
      | _ => route_iface_lines lines'
      end
  end.
Definition default_route_iface (route : option str) : option str :=
  match route with
  | None => None
  | Some text => route_iface_lines (drop 1 (splitlines text))
  end.

Definition iface_up (flags : option str) : bool :=
  match flags with
  | None => false
  | Some text => match hex_int text with Some v => Z.testbit v 0 | None => false end
  end.

(** [_parse_state_status]: the last value of a repeated key wins. *)
Definition parse_state_status (out : str) : gmap str str :=
  fold_left (fun facts raw =>
    let line := strip raw in
    match partition_char EQUALS line with
    | (key, Some value) => <[strip key := strip value]> facts
    | (_, None) => facts
    end) (splitlines out) ∅.

Definition parse_ipv4_network (value default : str) : option ipv4net :=
  match ip_network value with
  | Some (inl net) => Some net
  | _ => ipv4_network true default
  end.

(** [re.split(r"[\s,]+", text)] without the empty pieces. *)
Definition parse_cidr_tokens (text : str) : list str :=
  split_ws (map (fun c => if (c =? COMMA)%N then 32%N else c) text).

(** ** One token typed by the operator *)

Definition reject (r : cidr_result) (note : cidr_note) : cidr_result :=
  CidrResult (cr_raw r) (cr_canonical r) (py "rejected") note.
Definition DEFAULT_ROUTE : ipv4net := IPv4Network 0 0.

Fixpoint first_overlap (guards : list (ipv4net * str)) (net : ipv4net) : option (ipv4net * str) :=
  match guards with
  | [] => None
  | (guard_net, reason) :: rest =>
      if negb (bool_decide (show_net guard_net = show_net DEFAULT_ROUTE)) && overlaps net guard_net
      then Some (guard_net, reason) else first_overlap rest net
  end.

Definition validate_add (token : str) (current seen : list str) (guards : list (ipv4net * str))
    (min_len : Z) : cidr_result :=
  let r := CidrResult token [] [] NoNote in
  if negb (has_char SLASH token) then reject r NoMask
  else match ip_network token with
  | None => reject r NoteInvalid
  | Some (inr _) => reject r NoteIPv4Only
  | Some (inl net) =>
      let canonical := show_net net in
      let note := if bool_decide (canonical = token) then NoNote else NoteHostBits canonical in
      let r := CidrResult token canonical [] note in
      if bool_decide (canonical = show_net DEFAULT_ROUTE) then reject r NoteDefaultRoute
      else if prefixlen net <? min_len then reject r NoteTooShort
      else match first_overlap guards net with
      | Some (guard_net, reason) => reject r (NoteOverlaps guard_net reason)
      | None =>
          if bool_decide (canonical ∈ current) || bool_decide (canonical ∈ seen)
          then CidrResult token canonical (py "dup") note
          else CidrResult token canonical (py "added") note
      end
  end.

Definition not_found (r : cidr_result) (note : cidr_note) : cidr_result :=
  CidrResult (cr_raw r) (cr_canonical r) (py "not_found") note.
Definition validate_del (token : str) (current : list str) : cidr_result :=
  let r := CidrResult token [] [] NoNote in
  if negb (has_char SLASH token) then not_found r NoMask
  else match ip_network token with
  | None => not_found r NoteInvalid
  | Some (inr _) => not_found r NoteIPv4Only
  | Some (inl net) =>
      let canonical := show_net net in
      if bool_decide (canonical ∈ current) then CidrResult token canonical (py "removed") NoNote
      else CidrResult token canonical (py "not_found") NoNote
  end.

Definition is_added (r : cidr_result) : bool := bool_decide (cr_status r = py "added").
Definition is_removed (r : cidr_result) : bool := bool_decide (cr_status r = py "removed").

(** The loop of [process_add_tokens]; [seen] and [accepted] grow together. *)
Fixpoint add_tokens (tokens : list str) (current accepted : list str)
    (guards : list (ipv4net * str)) (min_len : Z) : list cidr_result * list str :=
  match tokens with
  | [] => ([], accepted)
  | raw :: rest =>
      match strip raw with
      | [] => add_tokens rest current accepted guards min_len
      | token =>
          let r := validate_add token current accepted guards min_len in
          let accepted' := if is_added r then accepted ++ [cr_canonical r] else accepted in
          let '(results, final) := add_tokens rest current accepted' guards min_len in
          (r :: results, final)
      end
  end.

Definition del_results (tokens : list str) (current : list str) : list cidr_result :=
  omap (fun raw => match strip raw with
                   | [] => None
                   | token => Some (validate_del token current)
                   end) tokens.
Definition process_del_tokens (tokens : list str) (current : list str)
    : result split_error (list cidr_result * list str) :=
  let results := del_results tokens current in
  let to_remove := map cr_canonical (List.filter is_removed results) in
  let remaining := List.filter (fun c => negb (bool_decide (c ∈ to_remove))) current in
  match to_remove, remaining with
  | _ :: _, [] => Err WouldEmpty
  | _, _ => Ok (results, remaining)
  end.

(** ** The manager *)

Section Manager.
Context {Env : SplitEnv} (cfg : split_config).

Definition wan_network : HM (option (ipv4net * str)) :=
  let! route := consult proc_net_route in
  let iface := match default_route_iface route with Some i => i | None => py "eth0" end in
  let! net := consult (fun t => iface_network t iface) in
  ret (match net with None => None | Some n => Some (n, iface) end).

Definition gateway_reason (gateway : Z) : str :=
  py "default gateway (" ++ show_addr gateway ++ py ") — would break the host's uplink".
Definition endpoint_reason (ip : Z) : str :=
  py "WARP endpoint (" ++ show_addr ip ++ py ") — would create a routing loop".
Definition host_net (ip : Z) : ipv4net := IPv4Network ip 32.

Definition build_guards : HM split_guards :=
  let base := STATIC_GUARDS
    ++ [(awg_network cfg, py "AWG client subnet (" ++ show_net (awg_network cfg) ++ py ")")] in
  let! wan := wan_network in
  let base := base ++ match wan with
    | None => []
    | Some (net, iface) =>
        [(net, py "server " ++ iface ++ py " network (" ++ show_net net ++ py ") — would break SSH")]
    end in
  let! route := consult proc_net_route in
  let! gateway := lift (default_gateway route) in
  let base := base ++ match gateway with
    | None => []
    | Some g => [(host_net g, gateway_reason g)]
    end in
  let! endpoint := gets endpoint_ip in
  ret (match endpoint with
       | None => SplitGuards base false
       | Some ip => SplitGuards (base ++ [(host_net ip, endpoint_reason ip)]) true
       end).

Definition refresh_endpoint : HM (option Z) :=
  let! r := consult status_helper in
  match r with
  | inr _ => gets endpoint_ip
  | inl res =>
      if negb (rc res =? 0) then gets endpoint_ip
      else match parse_endpoint (stdout res) with
           | Some ip => set_endpoint ip ;;! gets endpoint_ip
           | None => gets endpoint_ip
           end
  end.

(** The checks of one entry of a candidate, in their order. *)
Fixpoint check_overlaps (token : str) (net : ipv4net) (guards : list (ipv4net * str))
    : result split_error unit :=
  match guards with
  | [] => Ok tt
  | (guard_net, reason) :: rest =>
      if overlaps net guard_net then Err (OverlapsGuard token guard_net reason)
      else check_overlaps token net rest
  end.
Definition check_entry (guards : list (ipv4net * str)) (raw : str) : result split_error unit :=
  match strip raw with
  | [] => Ok tt
  | token =>
      match ip_network token with
      | None => Err (InvalidCidr token)
      | Some (inr _) => Err (NotIPv4 token)
      | Some (inl net) =>
          if prefixlen net =? 0 then Err (DefaultRoute token)
          else if prefixlen net <? min_prefixlen cfg then Err (TooShort token (min_prefixlen cfg))
          else check_overlaps token net guards
      end
  end.
Definition check_candidate (cidr_list : list str) : HM unit :=
  let! _ := refresh_endpoint in
  let! guards := build_guards in
  let n := Z.of_nat (length cidr_list) in
  if max_prefixes cfg <? n then raise (CapExceeded n (max_prefixes cfg))
  else lift (iter_result (check_entry (sg_networks guards)) cidr_list).

Definition alert (text : str) : HM unit :=
  if has_on_alert cfg then log_event (AlertText text) else ret tt.

(** Run the apply helper: what it writes is its input with exactly one final
    line break ([scripts/vpn-bot-warp-split-apply]). *)
Fixpoint strip_newlines (s : str) : str :=
  match s with
  | [] => []
  | c :: r => if (c =? NEWLINE)%N then strip_newlines r else s
  end.
Definition normalised (input : str) : str := rev (strip_newlines (rev input)) ++ [NEWLINE].
Definition run_apply (input : str) : HM proc :=
  log_event (HelperRun input) ;;!
  let! r := consult (fun t => apply_helper t input) in
  (if r.2 then set_file (normalised input) else ret tt) ;;!
  ret r.1.

Definition first_text (a b : str) : str :=
  match a, b with
  | _ :: _, _ => a
  | [], _ :: _ => b
  | [], [] => py "no output"
  end.
Definition detail_of (r : shell_result) : str :=
  take 256 (strip (first_text (stderr r) (stdout r))).

Definition restore_previous (previous : option str) (detail : str) : HM unit :=
  let nothing := alert (py "WARP split apply failed and there is no previous list to restore: " ++ detail) in
  match previous with
  | None => nothing
  | Some text =>
      match strip text with
      | [] => nothing
      | _ =>
          let! restore := run_apply text in
          match restore with
          | inr exc => alert (py "WARP split rollback itself failed (" ++ exc ++ py ") after: " ++ detail)
          | inl r =>
              if negb (rc r =? 0) then
                alert (py "WARP split apply failed AND the rollback failed (rc=" ++ show_Z (rc r)
                       ++ py ") — the routed list may be inconsistent. Original failure: " ++ detail)
              else alert (py "WARP split apply failed, previous list restored. Reason: " ++ detail)
          end
      end
  end.

Definition apply_locked (cidr_list : list str) (force : bool) (actor : option Z) : HM apply_outcome :=
  match cidr_list with
  | [] => raise EmptyList
  | _ =>
      let! previous := read_list_text in
      let! previous_entries := read_list in
      check_candidate cidr_list ;;!
      let content := render_list cidr_list in
      if negb force && bool_decide (previous = Some content) then
        ret (ApplyOutcome (Z.of_nat (length cidr_list)) [] [] true actor)
      else
        let! r := run_apply content in
        match r with
        | inr exc => raise (RunnerRaised exc)
        | inl res =>
            if negb (rc res =? 0) then
              let detail := detail_of res in
              restore_previous previous detail ;;! raise (HelperFailed (rc res) detail)
            else
              let outcome := ApplyOutcome (Z.of_nat (length cidr_list))
                               (sorted_difference cidr_list previous_entries)
                               (sorted_difference previous_entries cidr_list) false actor in
              (if has_on_applied cfg then log_event (OnApplied outcome) else ret tt) ;;!
              ret outcome
        end
  end.

Definition apply_list (cidr_list : list str) (actor : option Z) : HM apply_outcome :=
  apply_locked cidr_list false actor.
Definition reapply : HM apply_outcome :=
  let! current := read_list in
  match current with
  | [] => raise NothingToReapply
  | _ => apply_locked current true None
  end.

Definition process_add_tokens (tokens current : list str) : HM (list cidr_result * list str) :=
  let! guards := build_guards in
  ret (add_tokens tokens current [] (sg_networks guards) (min_prefixlen cfg)).

(** [enable], [disable] and [restart_routes] *)
Definition run_state (verb : str) : HM unit :=
  let! r := consult (fun t => state_helper t verb) in
  match r with
  | inr exc => raise (RunnerRaised exc)
  | inl res =>
      if negb (rc res =? 0) then raise (StateFailed verb (rc res) (detail_of res)) else ret tt
  end.
Definition enable : HM unit := run_state (py "on").
Definition disable : HM unit := run_state (py "off").
Definition restart_routes : HM unit := run_state (py "restart").

Definition status : HM split_status :=
  let! off := consult marker_exists in
  let! current := read_list in
  let n_list := Z.of_nat (length current) in
  let! r := consult (fun t => state_helper t (py "status")) in
  let! facts := match r with
    | inl res =>
        if rc res =? 0 then
          let facts := parse_state_status (stdout res) in
          ret (bool_decide (facts !! py "tunnel_up" = Some (py "1")),
               raw ← facts !! py "n_table"; int_of_str raw)
        else let! flags := consult iface_flags in ret (iface_up flags, None)
    | inr _ => let! flags := consult iface_flags in ret (iface_up flags, None)
    end in
  let '(tunnel_up, n_table) := facts in
  let in_sync := match n_table with
    | None => true
    | Some n => if off then n =? 0 else n =? n_list
    end in
  ret (SplitStatus tunnel_up (if off then py "off" else py "on") n_list n_table in_sync).
End Manager.

(** ** Lemmas: the file format *)

Lemma read_line_show n : wf_net n -> list_line (show_net n) = Some n.
Proof.
  intros Hw. pose proof (show_net_chars n Hw) as Hc.
  unfold list_line. rewrite before_char_none.
  2:{ intros Hin. rewrite Forall_elem in Hc. by apply (net_char_not_hash _ (Hc _ Hin)). }
  rewrite strip_nonspace by (eapply Forall_impl; [exact Hc|apply net_char_not_space]).
  destruct (show_net n) eqn:E.
  { pose proof (show_net_has_slash n) as H. rewrite E in H. by apply not_elem_of_nil in H. }
  rewrite <- E. unfold ipv4_of. by rewrite ip_network_show.
Qed.

Lemma render_lines l : l <> [] -> render_list l = l ≫= (fun x => x ++ [NEWLINE]).
Proof. apply join_lines. Qed.

Lemma read_nets_render nets : Forall wf_net nets -> read_nets (render_list (map show_net nets)) = nets.
Proof.
  intros Hw. destruct nets as [|n0 nets0] eqn:E0; [done|rewrite <- E0 in *].
  unfold read_nets. rewrite render_lines by (by rewrite E0). rewrite splitlines_lines.
  - clear E0. induction Hw as [|n nets Hn Hw IH]; [done|]. cbn [map].
    change (omap list_line (show_net n :: map show_net nets))
      with (match list_line (show_net n) with
            | Some m => m :: omap list_line (map show_net nets)
            | None => omap list_line (map show_net nets)
            end).
    by rewrite read_line_show, IH.
  - apply Forall_elem. intros s Hs. apply list_elem_of_fmap in Hs as (n & -> & Hn).
    rewrite Forall_elem in Hw. eapply Forall_impl; [apply show_net_chars, Hw, Hn|].
    apply net_char_not_break.
Qed.

Lemma read_list_render nets : Forall wf_net nets ->
  read_list_of (Some (render_list (map show_net nets))) = map show_net (sort_networks nets).
Proof. intros Hw. simpl. by rewrite read_nets_render. Qed.

(** What is rendered ends in exactly one line break, so the helper writes it as
    it is. *)
Lemma normalised_line s c : c <> NEWLINE -> normalised ((s ++ [c]) ++ [NEWLINE]) = (s ++ [c]) ++ [NEWLINE].
Proof.
  intros Hc. unfold normalised. rewrite !rev_app_distr. simpl.
  destruct (N.eqb_spec c NEWLINE) as [|_]; [done|]. simpl. by rewrite rev_involutive.
Qed.

(** An entry that can be written: one non-empty line. *)
Definition entry_text (x : str) : Prop := NEWLINE ∉ x /\ x <> [].

Lemma normalised_render l : l <> [] -> Forall entry_text l -> normalised (render_list l) = render_list l.
Proof.
  intros Hne Hl. unfold render_list.
  assert (exists s c, str_join [NEWLINE] l = s ++ [c] /\ c <> NEWLINE) as (s & c & -> & Hc).
  2:{ by apply normalised_line. }
  induction l as [|x l IH]; [done|]. apply Forall_cons_iff in Hl as [[Hx Hxe] Hl].
  destruct l as [|y l].
  - simpl. destruct (exists_last Hxe) as (s & c & ->). exists s, c. split; [done|].
    intros ->. apply Hx. apply elem_of_app. right. by left.
  - destruct IH as (s & c & E & Hc); [done..|]. rewrite str_join_cons, E.
    exists (x ++ [NEWLINE] ++ s), c. split; [by rewrite <- !app_assoc|done].
Qed.

(** ** Lemmas: what the host tells *)

Lemma little_endian_range v : 0 <= little_endian v < 2 ^ 32.
Proof.
  assert (forall a, 0 <= Z.land a 255 < 256) as H.
  { intros a. change 255 with (Z.ones 8). rewrite Z.land_ones by lia. apply Z.mod_pos_bound. lia. }
  unfold little_endian. rewrite !Z.shiftl_mul_pow2 by lia.
  pose proof (H v). pose proof (H (Z.shiftr v 8)). pose proof (H (Z.shiftr v 16)).
  pose proof (H (Z.shiftr v 24)). lia.
Qed.

Lemma host_net_wf ip : 0 <= ip < 2 ^ 32 -> wf_net (host_net ip).
Proof. intros H. unfold wf_net, size, host_net; simpl. split_and!; try lia. by rewrite Z.mod_1_r. Qed.

Lemma in_host_net x ip : in_net x (host_net ip) <-> x = ip.
Proof. unfold in_net, size, host_net; simpl. lia. Qed.

Lemma default_gateway_range route ip : default_gateway route = Ok (Some ip) -> 0 <= ip < 2 ^ 32.
Proof.
  unfold default_gateway. destruct route as [text|]; [|done].
  induction (drop 1 (splitlines text)) as [|line lines IH]; simpl; [done|].
  repeat (case_match; try done). intros [= <-]. apply little_endian_range.
Qed.

Lemma parse_endpoint_range out ip : parse_endpoint out = Some ip -> 0 <= ip < 2 ^ 32.
Proof.
  unfold parse_endpoint. induction (splitlines out) as [|raw lines IH]; simpl; [done|].
  case_match; [apply ipv4_address_range|done].
Qed.

Lemma static_guards_wf : Forall (fun g => wf_net g.1) STATIC_GUARDS.
Proof. apply (bool_decide_unpack _). vm_compute. exact I. Qed.

Section ManagerLemmas.
Context {Env : SplitEnv} (cfg : split_config).

(** The endpoint after a probe: a failed or empty answer keeps the old one. *)
Definition probed (r : proc) (old : option Z) : option Z :=
  match r with
  | inr _ => old
  | inl res =>
      if negb (rc res =? 0) then old
      else match parse_endpoint (stdout res) with Some ip => Some ip | None => old end
  end.

Lemma refresh_endpoint_eq h :
  let e := probed (status_helper (tick h)) (endpoint_ip h) in
  refresh_endpoint h = (Ok e, Host (list_file h) e (S (tick h)) (events h)).
Proof.
  unfold refresh_endpoint, bind, consult, gets, set_endpoint, modify, probed. simpl.
  destruct (status_helper (tick h)) as [res|]; simpl; [|done].
  destruct (rc res =? 0); simpl; [|done]. by destruct (parse_endpoint (stdout res)).
Qed.

(** The guard networks assembled at tick [t]. *)
Definition live_networks (t : nat) (gateway endpoint : option Z) : list (ipv4net * str) :=
  STATIC_GUARDS
  ++ [(awg_network cfg, py "AWG client subnet (" ++ show_net (awg_network cfg) ++ py ")")]
  ++ (let iface := match default_route_iface (proc_net_route t) with Some i => i | None => py "eth0" end in
      match iface_network (S t) iface with
      | None => []
      | Some net =>
          [(net, py "server " ++ iface ++ py " network (" ++ show_net net ++ py ") — would break SSH")]
      end)
  ++ match gateway with None => [] | Some g => [(host_net g, gateway_reason g)] end
  ++ match endpoint with None => [] | Some ip => [(host_net ip, endpoint_reason ip)] end.

Definition live_guards (t : nat) (endpoint : option Z) : result split_error split_guards :=
  match default_gateway (proc_net_route (S (S t))) with
  | Err e => Err e
  | Ok gateway =>
      Ok (SplitGuards (live_networks t gateway endpoint)
            (match endpoint with None => false | Some _ => true end))
  end.

Lemma build_guards_eq h :
  build_guards cfg h
  = (live_guards (tick h) (endpoint_ip h),
     Host (list_file h) (endpoint_ip h) (S (S (S (tick h)))) (events h)).
Proof.
  unfold build_guards, wan_network, live_guards, live_networks, bind, consult, gets, lift, ret.
  cbn [tick list_file endpoint_ip events].
  destruct (iface_network (S (tick h)) _);
    (destruct (default_gateway (proc_net_route (S (S (tick h))))) as [[g|]|e]; [..|done]);
    by destruct (endpoint_ip h).
Qed.

(** The verdict on a candidate, and what asking for it changes. *)
Definition verdict (cidr_list : list str) (h : host) : result split_error unit :=
  let e := probed (status_helper (tick h)) (endpoint_ip h) in
  result_bind (live_guards (S (tick h)) e) (fun guards =>
    let n := Z.of_nat (length cidr_list) in
    if max_prefixes cfg <? n then Err (CapExceeded n (max_prefixes cfg))
    else iter_result (check_entry cfg (sg_networks guards)) cidr_list).
Definition checked_host (h : host) : host :=
  Host (list_file h) (probed (status_helper (tick h)) (endpoint_ip h))
    (S (S (S (S (tick h))))) (events h).

Lemma check_candidate_eq l h : check_candidate cfg l h = (verdict l h, checked_host h).
Proof.
  unfold check_candidate, bind at 1. rewrite refresh_endpoint_eq. unfold bind.
  rewrite build_guards_eq. unfold verdict, checked_host. simpl.
  destruct (live_guards _ _) as [g|e]; simpl; [|done].
  unfold lift, raise. by case_match.
Qed.

(** ** Lemmas: one entry against the guards *)

Lemma check_overlaps_ok token net guards :
  check_overlaps token net guards = Ok tt <-> forall g, g ∈ guards -> overlaps net g.1 = false.
Proof.
  induction guards as [|[g reason] rest IH]; simpl.
  - split; [intros _ g Hg; by apply not_elem_of_nil in Hg|done].
  - destruct (overlaps net g) eqn:E.
    + split; [done|]. intros H.
      pose proof (H (g, reason) ltac:(by left)) as Hg. simpl in Hg. congruence.
    + rewrite IH. setoid_rewrite elem_of_cons. split; [|by auto].
      intros H g' [->|Hg']; auto.
Qed.

Definition entry_ok (guards : list (ipv4net * str)) (raw : str) : Prop :=
  strip raw = [] \/ exists net, ip_network (strip raw) = Some (inl net) /\ prefixlen net <> 0
    /\ min_prefixlen cfg <= prefixlen net /\ forall g, g ∈ guards -> overlaps net g.1 = false.

Lemma check_entry_ok guards raw : check_entry cfg guards raw = Ok tt <-> entry_ok guards raw.
Proof.
  unfold check_entry, entry_ok. destruct (strip raw) as [|c token] eqn:E; [by split; [left|]|].
  destruct (ip_network (c :: token)) as [[net|]|] eqn:En; [..|naive_solver|naive_solver].
  split.
  - intros H. right. exists net. destruct (Z.eqb_spec (prefixlen net) 0); [done|].
    destruct (Z.ltb_spec (prefixlen net) (min_prefixlen cfg)); [done|].
    by rewrite check_overlaps_ok in H.
  - intros [?|(net' & [= <-] & H0 & Hm & Hg)]; [done|].
    rewrite (proj2 (Z.eqb_neq _ _) H0), (proj2 (Z.ltb_ge _ _) Hm). by rewrite check_overlaps_ok.
Qed.

Lemma verdict_ok l h :
  verdict l h = Ok tt <->
  exists guards, live_guards (S (tick h)) (probed (status_helper (tick h)) (endpoint_ip h)) = Ok guards
    /\ Z.of_nat (length l) <= max_prefixes cfg
    /\ forall raw, raw ∈ l -> entry_ok (sg_networks guards) raw.
Proof.
  unfold verdict. destruct (live_guards _ _) as [g|e]; simpl; [|naive_solver].
  destruct (Z.ltb_spec (max_prefixes cfg) (Z.of_nat (length l))) as [Hn|Hn].
  - split; [done|]. intros (g' & [= <-] & H & _). lia.
  - rewrite iter_result_ok, Forall_elem. setoid_rewrite check_entry_ok. naive_solver.
Qed.
End ManagerLemmas.

(** ** The guards in terms of addresses *)

Section Guarded.
Context {Env : SplitEnv} (cfg : split_config).

(** What [_iface_network] returns is an [IPv4Network] built with
    [strict=False]; so is the configured client network. *)
Record networks_ok : Prop := NetworksOk {
  no_awg : wf_net (awg_network cfg);
  no_iface : forall t iface net, iface_network t iface = Some net -> wf_net net }.
Definition host_ok (h : host) : Prop := forall ip, endpoint_ip h = Some ip -> 0 <= ip < 2 ^ 32.

(** The addresses no entry may contain: the static ranges, the client network,
    the network of the default-route interface, the gateway, the endpoint. *)
Definition guarded (t : nat) (endpoint : option Z) (x : Z) : Prop :=
  covers (map fst STATIC_GUARDS) x
  \/ in_net x (awg_network cfg)
  \/ (exists net,
        iface_network (S t) (match default_route_iface (proc_net_route t) with
                             | Some i => i | None => py "eth0" end) = Some net
        /\ in_net x net)
  \/ default_gateway (proc_net_route (S (S t))) = Ok (Some x)
  \/ endpoint = Some x.

Lemma live_networks_guarded t gateway endpoint x :
  default_gateway (proc_net_route (S (S t))) = Ok gateway ->
  (exists g, g ∈ live_networks cfg t gateway endpoint /\ in_net x g.1) <-> guarded t endpoint x.
Proof.
  intros Hg. unfold live_networks, guarded.
  set (iface := match default_route_iface (proc_net_route t) with Some i => i | None => py "eth0" end).
  setoid_rewrite elem_of_app. setoid_rewrite elem_of_app. setoid_rewrite elem_of_app.
  setoid_rewrite elem_of_app. setoid_rewrite list_elem_of_singleton. cbv zeta.
  assert (covers (map fst STATIC_GUARDS) x <-> exists g, g ∈ STATIC_GUARDS /\ in_net x g.1) as ->.
  { unfold covers. setoid_rewrite list_elem_of_fmap. naive_solver. }
  assert ((default_gateway (proc_net_route (S (S t))) = Ok (Some x)) <-> gateway = Some x) as ->
    by (rewrite Hg; naive_solver).
  assert (forall (o : option Z) (f : Z -> str),
    (exists g, g ∈ match o with None => [] | Some ip => [(host_net ip, f ip)] end /\ in_net x g.1)
    <-> o = Some x) as Ho.
  { intros o f. destruct o as [ip|].
    - setoid_rewrite list_elem_of_singleton. split.
      + intros (g & -> & Hx). apply in_host_net in Hx. by subst.
      + intros [= ->]. eexists. split; [done|]. by apply in_host_net.
    - split; [intros (g & Hin & _); by apply not_elem_of_nil in Hin|done]. }
  rewrite <- (Ho gateway gateway_reason), <- (Ho endpoint endpoint_reason).
  destruct (iface_network (S t) iface) as [net|].
  - setoid_rewrite list_elem_of_singleton. naive_solver.
  - split.
    + intros (g & [?|[?|[Hin|[?|?]]]] & ?); [..|by apply not_elem_of_nil in Hin| |]; naive_solver.
    + naive_solver.
Qed.

Lemma live_networks_wf t gateway endpoint : networks_ok ->
  default_gateway (proc_net_route (S (S t))) = Ok gateway ->
  (forall ip, endpoint = Some ip -> 0 <= ip < 2 ^ 32) ->
  Forall (fun g => wf_net g.1) (live_networks cfg t gateway endpoint).
Proof.
  intros [Ha Hi] Hg He. unfold live_networks. rewrite !Forall_app. split_and!.
  - apply static_guards_wf.
  - constructor; [exact Ha|constructor].
  - simpl. destruct (iface_network _ _) as [net|] eqn:E; [|constructor].
    constructor; [by eapply Hi|constructor].
  - destruct gateway as [g|]; [|constructor]. apply default_gateway_range in Hg.
    constructor; [by apply host_net_wf|constructor].
  - destruct endpoint as [ip|]; [|constructor]. constructor; [by apply host_net_wf, He|constructor].
Qed.

Lemma probed_range r old ip : (forall ip, old = Some ip -> 0 <= ip < 2 ^ 32) ->
  probed r old = Some ip -> 0 <= ip < 2 ^ 32.
Proof.
  intros Ho. unfold probed. destruct r as [res|]; [|apply Ho].
  destruct (negb _); [apply Ho|]. destruct (parse_endpoint (stdout res)) eqn:E; [|apply Ho].
  intros [= <-]. by eapply parse_endpoint_range.
Qed.

(** An entry is clear of a well-formed guard list when none of its addresses
    is guarded. *)
Lemma no_overlap_addresses (guards : list (ipv4net * str)) net :
  wf_net net -> Forall (fun g => wf_net g.1) guards ->
  (forall g, g ∈ guards -> overlaps net g.1 = false)
  <-> forall x, in_net x net -> ~ exists g, g ∈ guards /\ in_net x g.1.
Proof.
  intros Hn Hg. rewrite Forall_elem in Hg. split.
  - intros H x Hx (g & Hin & Hxg). by eapply (overlaps_false net g.1 x); eauto.
  - intros H g Hin. destruct (overlaps net g.1) eqn:E; [|done]. exfalso.
    apply overlaps_spec in E as (x & Hx & Hxg); [|done|by apply Hg]. apply (H x Hx). by exists g.
Qed.
End Guarded.

(** ** Lemmas: the apply *)

Section ApplyLemmas.
Context {Env : SplitEnv} (cfg : split_config).

(** Events after a run: those before, with new ones in front. *)
Definition emit (es : list host_event) (h : host) : list host_event := es ++ events h.

Lemma run_apply_eq input h :
  run_apply input h
  = let r := apply_helper (tick h) input in
    (Ok r.1, Host (if r.2 then Some (normalised input) else list_file h) (endpoint_ip h)
               (S (tick h)) (HelperRun input :: events h)).
Proof.
  unfold run_apply, log_event, bind, modify, consult, set_file, ret. simpl.
  by destruct (apply_helper (tick h) input) as [p [|]].
Qed.

(** The state after a first apply attempt with the given content. *)
Definition attempted (content : str) (h : host) : host :=
  let r := apply_helper (tick h) content in
  Host (if r.2 then Some (normalised content) else list_file h) (endpoint_ip h)
    (S (tick h)) (HelperRun content :: events h).

Lemma run_apply_attempted input h :
  run_apply input h = (Ok (apply_helper (tick h) input).1, attempted input h).
Proof. by rewrite run_apply_eq. Qed.

Definition alerted (text : str) (h : host) : host :=
  Host (list_file h) (endpoint_ip h) (tick h)
    ((if has_on_alert cfg then [AlertText text] else []) ++ events h).
Lemma alert_eq text h : alert cfg text h = (Ok tt, alerted text h).
Proof. unfold alert, alerted. destruct (has_on_alert cfg); [done|]. by destruct h. Qed.

(** The rollback never raises. It re-applies the previous text when there is
    one worth re-applying, and says what became of it. *)
Definition worth_restoring (previous : option str) : option str :=
  match previous with
  | Some text => match strip text with [] => None | _ => Some text end
  | None => None
  end.
Definition rolled_back (previous : option str) (h h' : host) : Prop :=
  exists note, h' = alerted note (match worth_restoring previous with
                                  | Some text => attempted text h
                                  | None => h
                                  end).
Lemma restore_previous_spec previous detail h :
  exists h', restore_previous cfg previous detail h = (Ok tt, h') /\ rolled_back previous h h'.
Proof.
  unfold restore_previous, rolled_back, worth_restoring.
  destruct previous as [text|]; [|rewrite alert_eq; eauto].
  destruct (strip text); [rewrite alert_eq; eauto|].
  unfold bind. rewrite run_apply_attempted.
  destruct (apply_helper (tick h) text).1 as [r|exc]; [|rewrite alert_eq; eauto].
  destruct (negb (rc r =? 0)); rewrite alert_eq; eauto.
Qed.

(** Every way an apply can end. *)
Inductive apply_result (l : list str) (force : bool) (actor : option Z) (h : host)
    : result split_error apply_outcome -> host -> Prop :=
  | apply_empty : l = [] -> apply_result l force actor h (Err EmptyList) h
  | apply_refused e : l <> [] -> verdict cfg l h = Err e ->
      apply_result l force actor h (Err e) (checked_host h)
  | apply_unchanged : l <> [] -> verdict cfg l h = Ok tt -> force = false ->
      list_file h = Some (render_list l) ->
      apply_result l force actor h
        (Ok (ApplyOutcome (Z.of_nat (length l)) [] [] true actor)) (checked_host h)
  | apply_raised exc : l <> [] -> verdict cfg l h = Ok tt ->
      (apply_helper (tick (checked_host h)) (render_list l)).1 = inr exc ->
      apply_result l force actor h (Err (RunnerRaised exc)) (attempted (render_list l) (checked_host h))
  | apply_failed res h' : l <> [] -> verdict cfg l h = Ok tt ->
      (apply_helper (tick (checked_host h)) (render_list l)).1 = inl res -> rc res <> 0 ->
      rolled_back (list_file h) (attempted (render_list l) (checked_host h)) h' ->
      apply_result l force actor h (Err (HelperFailed (rc res) (detail_of res))) h'
  | apply_done res outcome h' : l <> [] -> verdict cfg l h = Ok tt ->
      (apply_helper (tick (checked_host h)) (render_list l)).1 = inl res -> rc res = 0 ->
      outcome = ApplyOutcome (Z.of_nat (length l))
                  (sorted_difference l (read_list_of (list_file h)))
                  (sorted_difference (read_list_of (list_file h)) l) false actor ->
      list_file h' = list_file (attempted (render_list l) (checked_host h)) ->
      endpoint_ip h' = endpoint_ip (checked_host h) ->
      events h' = (if has_on_applied cfg then [OnApplied outcome] else [])
                  ++ HelperRun (render_list l) :: events h ->
      apply_result l force actor h (Ok outcome) h'.

Lemma apply_locked_result l force actor h :
  apply_result l force actor h (apply_locked cfg l force actor h).1 (apply_locked cfg l force actor h).2.
Proof.
  destruct (decide (l = [])) as [->|Hne]; [by apply apply_empty|].
  assert (apply_locked cfg l force actor h
    = match verdict cfg l h with
      | Err e => (Err e, checked_host h)
      | Ok _ =>
          if negb force && bool_decide (list_file h = Some (render_list l))
          then (Ok (ApplyOutcome (Z.of_nat (length l)) [] [] true actor), checked_host h)
          else match (apply_helper (tick (checked_host h)) (render_list l)).1 with
               | inr exc => (Err (RunnerRaised exc), attempted (render_list l) (checked_host h))
               | inl res =>
                   if negb (rc res =? 0)
                   then (restore_previous cfg (list_file h) (detail_of res) ;;!
                         raise (HelperFailed (rc res) (detail_of res)))
                        (attempted (render_list l) (checked_host h))
                   else
                     let outcome := ApplyOutcome (Z.of_nat (length l))
                       (sorted_difference l (read_list_of (list_file h)))
                       (sorted_difference (read_list_of (list_file h)) l) false actor in
                     ((if has_on_applied cfg then log_event (OnApplied outcome) else ret tt) ;;!
                      ret outcome) (attempted (render_list l) (checked_host h))
               end
      end) as ->.
  { unfold apply_locked. destruct l as [|x l]; [done|]. generalize (x :: l). clear. intros L.
    unfold bind at 1 2 3, read_list_text, read_list, gets. rewrite check_candidate_eq.
    destruct (verdict cfg L h) as [[]|e]; [|done].
    destruct (negb force && bool_decide (list_file h = Some (render_list L))); [done|].
    unfold bind at 1. rewrite run_apply_attempted.
    destruct (apply_helper (tick (checked_host h)) (render_list L)).1 as [res|]; [|done].
    by destruct (negb (rc res =? 0)). }
  destruct (verdict cfg l h) as [[]|e] eqn:Hv; [|by apply apply_refused].
  destruct (negb force && bool_decide (list_file h = Some (render_list l))) eqn:Hs.
  { bool_prop. by apply apply_unchanged. }
  clear Hs. destruct (apply_helper (tick (checked_host h)) (render_list l)).1 as [res|exc] eqn:Hr;
    [|by apply apply_raised].
  destruct (Z.eqb_spec (rc res) 0) as [H0|H0]; simpl.
  - unfold bind, log_event, modify, ret.
    destruct (has_on_applied cfg) eqn:Ha; simpl; (eapply apply_done; [done|done|exact Hr|done|..]);
      rewrite ?Ha; done.
  - destruct (restore_previous_spec (list_file h) (detail_of res)
                (attempted (render_list l) (checked_host h))) as (h' & E & Hb).
    unfold bind, raise. rewrite E. by eapply apply_failed.
Qed.
End ApplyLemmas.

(** ** Lemmas: the written text *)

Lemma list_line_nil : list_line [] = None.
Proof. done. Qed.

(** A final line break opens no entry. *)
Lemma read_trailing_newline_aux n s cur : (length s <= n)%nat ->
  omap list_line (splitlines_aux cur (s ++ [NEWLINE])) = omap list_line (splitlines_aux cur s).
Proof.
  revert s cur. induction n as [|n IH]; intros s cur Hn.
  { destruct s; [|simpl in Hn; lia]. by destruct cur. }
  destruct s as [|c r]; [by destruct cur|]. simpl in Hn. simpl.
  destruct (is_linebreak c); [|apply IH; lia].
  destruct r as [|d r']; simpl.
  - destruct (c =? 13)%N; simpl; done.
  - destruct ((c =? 13) && (d =? 10))%N; simpl.
    + destruct (list_line (rev cur)); [f_equal|]; apply IH; simpl in Hn; lia.
    + pose proof (IH (d :: r') [] ltac:(simpl in *; lia)) as E. simpl in E.
      destruct (list_line (rev cur)); [f_equal|]; apply E.
Qed.

Lemma read_trailing_newline s : read_nets (s ++ [NEWLINE]) = read_nets s.
Proof. by apply (read_trailing_newline_aux (length s)). Qed.

Lemma strip_newlines_read s : read_nets (rev (strip_newlines (rev s))) = read_nets s.
Proof.
  induction s as [|c s IH] using rev_ind; [done|]. rewrite rev_app_distr. simpl.
  destruct (N.eqb_spec c NEWLINE) as [->|_]; [by rewrite IH, read_trailing_newline|].
  simpl. by rewrite rev_involutive.
Qed.

(** What the helper writes reads back as what it was given. *)
Lemma read_normalised text : read_list_of (Some (normalised text)) = read_list_of (Some text).
Proof. unfold read_list_of, normalised. by rewrite read_trailing_newline, strip_newlines_read. Qed.

Lemma show_entries nets : Forall wf_net nets -> Forall entry_text (map show_net nets).
Proof.
  intros Hw. apply Forall_elem. intros x Hx. apply list_elem_of_fmap in Hx as (n & -> & Hn).
  rewrite Forall_elem in Hw. by apply show_net_route_text, Hw.
Qed.

Lemma strip_shown nets : Forall wf_net nets -> map strip (map show_net nets) = map show_net nets.
Proof.
  induction 1 as [|n nets Hn Hw IH]; [done|]. simpl. rewrite IH, strip_nonspace; [done|].
  eapply Forall_impl; [by apply show_net_chars|apply net_char_not_space].
Qed.

Section ManagerProperties.
Context {Env : SplitEnv} (cfg : split_config).

(** The contract of the apply helper: exit status 0 means the rename was made. *)
Definition helper_contract : Prop :=
  forall t input res w, apply_helper t input = (inl res, w) -> rc res = 0 -> w = true.

Lemma attempted_file content h res : helper_contract ->
  (apply_helper (tick h) content).1 = inl res -> rc res = 0 ->
  list_file (attempted content h) = Some (normalised content).
Proof.
  intros Hc Hr H0. unfold attempted. destruct (apply_helper (tick h) content) as [p w] eqn:E.
  simpl in *. subst p. by rewrite (Hc _ _ _ _ E H0).
Qed.

Lemma attempted_cases content h :
  list_file (attempted content h) = list_file h
  \/ list_file (attempted content h) = Some (normalised content).
Proof. unfold attempted. simpl. destruct (apply_helper _ _).2; auto. Qed.

Lemma rolled_back_cases previous h h' : rolled_back cfg previous h h' ->
  list_file h' = list_file h
  \/ exists text, previous = Some text /\ list_file h' = Some (normalised text).
Proof.
  intros (note & ->). change (list_file (alerted cfg note ?h)) with (list_file h).
  unfold worth_restoring. destruct previous as [text|]; [|by left].
  destruct (strip text); [by left|].
  destruct (attempted_cases text h) as [Hx|Hx]; [by left|right; by exists text].
Qed.

(** A refusal is never mistaken for a failure of the helper. *)
Lemma check_overlaps_err token net guards e :
  check_overlaps token net guards = Err e -> exists g reason, e = OverlapsGuard token g reason.
Proof.
  induction guards as [|[g reason] rest IH]; simpl; [done|].
  case_match; [intros [= <-]; eauto|apply IH].
Qed.
Lemma gateway_lines_err lines e : gateway_lines lines = Err e -> e = OverflowInGateway.
Proof.
  induction lines as [|line lines IH]; simpl; [done|]. repeat (case_match; try done). by intros [= <-].
Qed.
Lemma verdict_not_helper l h code detail : verdict cfg l h <> Err (HelperFailed code detail).
Proof.
  unfold verdict, live_guards. destruct (default_gateway _) as [gw|e] eqn:Eg; simpl.
  - case_match; [done|]. intros Hi. apply iter_result_err in Hi as (raw & _ & Hraw).
    unfold check_entry in Hraw. repeat (case_match; try done).
    by apply check_overlaps_err in Hraw as (? & ? & ?).
  - intros [= ->]. unfold default_gateway in Eg. case_match; [|done]. by apply gateway_lines_err in Eg.
Qed.

(** The operations of the manager, as steps of the host. *)
Inductive manager_step : host -> host -> Prop :=
  | step_apply l force actor h : manager_step h (apply_locked cfg l force actor h).2
  | step_reapply h : manager_step h (reapply cfg h).2
  | step_check l h : manager_step h (check_candidate cfg l h).2
  | step_probe h : manager_step h (refresh_endpoint h).2
  | step_tokens tokens current h : manager_step h (process_add_tokens cfg tokens current h).2
  | step_state verb h : manager_step h (run_state verb h).2
  | step_status h : manager_step h (status h).2.

Lemma probed_some r ip : is_Some (probed r (Some ip)).
Proof.
  unfold probed. destruct r as [res|]; [|by eexists]. destruct (negb _); [by eexists|].
  destruct (parse_endpoint _); by eexists.
Qed.

Lemma apply_locked_endpoint l force actor h :
  endpoint_ip (apply_locked cfg l force actor h).2 = endpoint_ip h
  \/ endpoint_ip (apply_locked cfg l force actor h).2 = endpoint_ip (checked_host h).
Proof.
  destruct (apply_locked_result cfg l force actor h); auto.
  destruct H3 as (note & ->). right. unfold alerted. simpl. by destruct (worth_restoring _).
Qed.

Lemma status_endpoint h : endpoint_ip (status h).2 = endpoint_ip h.
Proof.
  unfold status, bind, consult, gets, ret. simpl.
  destruct (state_helper _ _) as [res|]; simpl; [|done]. by destruct (rc res =? 0).
Qed.

Lemma step_keeps_endpoint h h' : manager_step h h' -> is_Some (endpoint_ip h) -> is_Some (endpoint_ip h').
Proof.
  intros Hs [ip Hip].
  assert (is_Some (endpoint_ip (checked_host h))) as Hch by (simpl; rewrite Hip; apply probed_some).
  destruct Hs; simpl.
  - destruct (apply_locked_endpoint l force actor h) as [-> | ->]; [by eexists|done].
  - unfold reapply, read_list, gets, bind. destruct (read_list_of (list_file h)) as [|x l]; [by eexists|].
    destruct (apply_locked_endpoint (x :: l) true None h) as [-> | ->]; [by eexists|done].
  - by rewrite check_candidate_eq.
  - rewrite refresh_endpoint_eq. simpl. rewrite Hip. apply probed_some.
  - unfold process_add_tokens, bind. rewrite build_guards_eq.
    destruct (live_guards _ _ _); simpl; by eexists.
  - unfold run_state, bind, consult. destruct (state_helper _ _) as [res|]; simpl; [|by eexists].
    destruct (negb _); by eexists.
  - rewrite status_endpoint. by eexists.
Qed.

Lemma steps_keep_endpoint h h' :
  rtc manager_step h h' -> is_Some (endpoint_ip h) -> is_Some (endpoint_ip h').
Proof. induction 1 as [|h h1 h' Hs _ IH]; [done|]. intros H. by apply IH, (step_keeps_endpoint h). Qed.

(** A candidate that passed routes no guarded address. *)
Lemma verdict_clear l h : networks_ok cfg -> host_ok h -> verdict cfg l h = Ok tt ->
  forall x, routes (map strip l) x ->
  ~ guarded cfg (S (tick h)) (endpoint_ip (checked_host h)) x.
Proof.
  intros Hn Hh Hv x (net & Hnet & Hx) Hg.
  apply verdict_ok in Hv as (guards & Hgs & _ & He).
  apply elem_of_parsed in Hnet as (token & Htok & Hip). apply list_elem_of_fmap in Htok as (raw & -> & Hraw).
  unfold ipv4_of in Hip. destruct (ip_network (strip raw)) as [[m|]|] eqn:Em; simplify_eq.
  destruct (He raw Hraw) as [Hs|(net' & Hn' & _ & _ & Hov)]; [by rewrite Hs in Em|]. simplify_eq.
  unfold live_guards in Hgs. destruct (default_gateway _) as [gw|] eqn:Egw; [|done]. simplify_eq.
  simpl in Hov, Hg. rewrite no_overlap_addresses in Hov; [|by eapply ip_network_wf|].
  - apply (Hov x Hx). by apply live_networks_guarded.
  - apply live_networks_wf; [done..|]. intros ip. by apply probed_range.
Qed.
(** What the file can be after an apply, whatever its outcome. *)
Lemma apply_locked_file (l : list str) force actor h r h' : apply_locked cfg l force actor h = (r, h') ->
  list_file h' = list_file h
  \/ (verdict cfg l h = Ok tt /\ list_file h' = Some (normalised (render_list l)))
  \/ (exists previous, list_file h = Some previous /\ list_file h' = Some (normalised previous)).
Proof.
  intros E. pose proof (apply_locked_result cfg l force actor h) as R. rewrite E in R. simpl in R.
  pose proof (attempted_cases (render_list l) (checked_host h)) as Ha.
  change (list_file (checked_host h)) with (list_file h) in Ha.
  inversion R as [|e Hne Hv|Hne Hv Hforce Hsame|exc Hne Hv Hr|res h2 Hne Hv Hr H0 Hb
    |res o h2 Hne Hv Hr H0 Ho Hlf Hep Hev]; subst; auto.
  - destruct Ha as [->|Hx]; auto.
  - apply rolled_back_cases in Hb as [->|(text & Ht & Hb)]; [destruct Ha as [->|Hx]; auto|].
    right; right. by exists text.
  - rewrite Hlf. destruct Ha as [->|Hx]; auto.
Qed.

(** What is on disk after a successful apply. *)
Lemma apply_locked_written (nets : list ipv4net) force actor h o h' :
  helper_contract -> Forall wf_net nets ->
  apply_locked cfg (map show_net nets) force actor h = (Ok o, h') ->
  verdict cfg (map show_net nets) h = Ok tt
  /\ list_file h' = Some (render_list (map show_net nets))
  /\ endpoint_ip h' = endpoint_ip (checked_host h)
  /\ (ao_unchanged o = true -> h' = checked_host h)
  /\ (ao_unchanged o = false -> HelperRun (render_list (map show_net nets)) ∈ events h').
Proof.
  intros Hc Hw E. pose proof (apply_locked_result cfg (map show_net nets) force actor h) as R.
  rewrite E in R. simpl in R.
  inversion R as [| |Hne Hv Hforce Hsame| | |res outcome h2 Hne Hv Hr H0 Ho Hlf Hep Hev]; subst.
  - by split_and!.
  - split_and!; [done| |done|done|].
    + rewrite Hlf, (attempted_file _ _ _ Hc Hr H0).
      by rewrite normalised_render by (done || by apply show_entries).
    + intros _. rewrite Hev. apply elem_of_app. right. by left.
Qed.
End ManagerProperties.

(** ** Properties *)

Section Theorems.
Context {Env : SplitEnv} (cfg : split_config).

(** The guards decide exactly by address: a candidate passes
    [check_candidate] if and only if the gateway could be read, the list is
    within the cap and every non-blank entry is an IPv4 network of at least the
    minimal prefix length (and not the default route) none of whose addresses is
    loopback, link-local, multicast, tunnel, client network, WAN network, the
    gateway or the endpoint known after this run's probe. *)
Theorem check_candidate_exact (l : list str) (h : host) :
  networks_ok cfg -> host_ok h ->
  (check_candidate cfg l h).1 = Ok tt <->
  is_ok (default_gateway (proc_net_route (S (S (S (tick h)))))) = true
  /\ Z.of_nat (length l) <= max_prefixes cfg
  /\ forall raw, raw ∈ l -> strip raw <> [] ->
       exists net, ip_network (strip raw) = Some (inl net)
         /\ 0 < prefixlen net /\ min_prefixlen cfg <= prefixlen net
         /\ forall x, in_net x net ->
              ~ guarded cfg (S (tick h)) (endpoint_ip (check_candidate cfg l h).2) x.
Proof.
  intros Hn Hh. rewrite check_candidate_eq. simpl fst. simpl snd. rewrite verdict_ok.
  unfold live_guards. set (e := probed (status_helper (tick h)) (endpoint_ip h)).
  change (endpoint_ip (checked_host h)) with e.
  destruct (default_gateway _) as [gw|] eqn:Egw; simpl; [|naive_solver].
  assert (Forall (fun g => wf_net g.1) (live_networks cfg (S (tick h)) gw e)) as Hwf.
  { apply live_networks_wf; [done..|]. intros ip. by apply probed_range. }
  assert (forall net, wf_net net ->
    (forall g, g ∈ live_networks cfg (S (tick h)) gw e -> overlaps net g.1 = false)
    <-> forall x, in_net x net -> ~ guarded cfg (S (tick h)) e x) as Hg.
  { intros net Hnet. rewrite no_overlap_addresses by done.
    by setoid_rewrite live_networks_guarded. }
  assert (forall raw, entry_ok cfg (live_networks cfg (S (tick h)) gw e) raw <->
    (strip raw <> [] -> exists net, ip_network (strip raw) = Some (inl net)
         /\ 0 < prefixlen net /\ min_prefixlen cfg <= prefixlen net
         /\ forall x, in_net x net -> ~ guarded cfg (S (tick h)) e x)) as He.
  { intros raw. unfold entry_ok. split.
    - intros [?|(net & Hp & H0 & Hm & Ho)] Hne; [done|]. pose proof (ip_network_wf _ _ Hp) as Hw.
      exists net. rewrite <- Hg by done. pose proof (proj1 Hw). split_and!; (done || lia).
    - intros H. destruct (decide (strip raw = [])) as [|Hne]; [by left|right].
      destruct (H Hne) as (net & Hp & H0 & Hm & Ho). exists net.
      rewrite <- Hg in Ho by (by eapply ip_network_wf). split_and!; (done || lia). }
  setoid_rewrite <- He. split.
  - intros (g & [= <-] & Hlen & Hall). by split_and!.
  - intros (_ & Hlen & Hall). eexists. by split_and!.
Qed.

(** A successful apply leaves exactly the candidate on disk: given the helper
    contract (exit status 0 means the rename was made), the file is the rendered
    candidate and reads back as it, every guard passed, none of its addresses is
    guarded, and the helper was left alone when the file already held those
    bytes. *)
Theorem apply_writes_candidate (nets : list ipv4net) force actor h o h' :
  helper_contract -> networks_ok cfg -> host_ok h -> Forall wf_net nets ->
  apply_locked cfg (map show_net nets) force actor h = (Ok o, h') ->
  list_file h' = Some (render_list (map show_net nets))
  /\ read_list_of (list_file h') = map show_net (sort_networks nets)
  /\ Z.of_nat (length nets) <= max_prefixes cfg
  /\ (forall x, covers nets x -> ~ guarded cfg (S (tick h)) (endpoint_ip h') x)
  /\ (ao_unchanged o = true -> h' = checked_host h)
  /\ (ao_unchanged o = false -> HelperRun (render_list (map show_net nets)) ∈ events h').
Proof.
  intros Hc Hn Hh Hw E. destruct (apply_locked_written cfg nets force actor h o h' Hc Hw E) as (Hv & Hf & Hep & Hu1 & Hu2).
  rewrite Hf, read_list_render, Hep by done. split_and!; try done.
  - apply verdict_ok in Hv as (? & _ & Hlen & _). by rewrite length_map in Hlen.
  - intros x Hx. apply (verdict_clear cfg _ h Hn Hh Hv). unfold routes.
    by rewrite strip_shown, parsed_networks_show.
Qed.

(** C28 Nothing partial is ever written: whatever happens (a refusal, a failing or
    raising helper, a failing rollback), the file afterwards is the file before,
    or the whole candidate that passed every guard, or the previous text put
    back; and an apply that was refused has run no helper and sent nothing. *)
Theorem apply_all_or_nothing (l : list str) force actor h r h' :
  apply_locked cfg l force actor h = (r, h') ->
  (list_file h' = list_file h
   \/ (verdict cfg l h = Ok tt /\ list_file h' = Some (normalised (render_list l)))
   \/ (exists previous, list_file h = Some previous /\ list_file h' = Some (normalised previous)))
  /\ (verdict cfg l h <> Ok tt \/ l = [] -> list_file h' = list_file h /\ events h' = events h).
Proof.
  intros E. split; [by eapply apply_locked_file|].
  pose proof (apply_locked_result cfg l force actor h) as R. rewrite E in R. simpl in R.
  intros Hbad. inversion R; subst; try done; destruct Hbad as [Hbad| ->]; done.
Qed.

(** The rollback restores the routed list: when the helper reports a failure
    (before or after its rename) and the second run of the helper, on the
    previous text, exits 0, the list read from the file is the one from before
    the apply; and an alert has been sent whenever there is someone to send it
    to. *)
Theorem apply_failure_rolls_back (l : list str) force actor h code detail h' res previous c :
  helper_contract ->
  apply_locked cfg l force actor h = (Err (HelperFailed code detail), h') ->
  list_file h = Some previous -> c ∈ strip previous ->
  (apply_helper (S (tick (checked_host h))) previous).1 = inl res -> rc res = 0 ->
  read_list_of (list_file h') = read_list_of (list_file h)
  /\ (has_on_alert cfg = true -> exists text, AlertText text ∈ events h').
Proof.
  intros Hc E Hp Hs Hr H0. pose proof (apply_locked_result cfg l force actor h) as R.
  rewrite E in R. simpl in R. inversion R as [|e Hne Hv He| | |res' h2 Hne Hv Hr' H0' (note & ->)|]; subst.
  - by apply verdict_not_helper in Hv.
  - rewrite Hp. unfold worth_restoring. destruct (strip previous) as [|c0 s0] eqn:Es;
      [by apply not_elem_of_nil in Hs|]. split.
    + unfold alerted. cbn [list_file].
      pose proof (attempted_file previous (attempted (render_list l) (checked_host h)) res Hc Hr H0) as Hf.
      rewrite Hf. apply read_normalised.
    + intros Ha. exists note. unfold alerted. rewrite Ha. by left.
Qed.

(** The loop guard never lapses: once an endpoint has been seen, whatever
    operations follow and whatever the probes answer (including not at all), an
    endpoint stays known, and no list that contains it can be applied. *)
Theorem endpoint_guard_persists (h h' : host) (ip : Z) (nets : list ipv4net) force actor o h'' :
  networks_ok cfg -> helper_contract -> host_ok h' -> endpoint_ip h = Some ip ->
  rtc (manager_step cfg) h h' -> Forall wf_net nets ->
  apply_locked cfg (map show_net nets) force actor h' = (Ok o, h'') ->
  exists ip', endpoint_ip h'' = Some ip' /\ ~ covers nets ip'.
Proof.
  intros Hn Hc Hh Hip Hsteps Hw E.
  assert (is_Some (endpoint_ip h'')) as [ip' Hip'].
  { apply (steps_keep_endpoint cfg h); [|by rewrite Hip; eexists].
    eapply rtc_r; [exact Hsteps|].
    pose proof (step_apply cfg (map show_net nets) force actor h') as Hst. by rewrite E in Hst. }
  exists ip'. split; [done|]. intros Hcov.
  pose proof (apply_locked_result cfg (map show_net nets) force actor h') as R. rewrite E in R. simpl in R.
  assert (verdict cfg (map show_net nets) h' = Ok tt /\ endpoint_ip h'' = endpoint_ip (checked_host h'))
    as [Hv Hep] by (inversion R; subst; done).
  apply (verdict_clear cfg _ h' Hn Hh Hv ip').
  - unfold routes. by rewrite strip_shown, parsed_networks_show.
  - unfold guarded. right; right; right; right. by rewrite <- Hep.
Qed.
End Theorems.

(** ** A concrete host for the witnesses *)

Definition demo_route : str :=
  py "Iface	Destination	Gateway	Flags	RefCnt	Use	Metric	Mask
eth0	00000000	0101A8C0	0003	0	0	0	00000000	0	0	0
".
(** Helpers that succeed, and a helper whose first run writes and then fails. *)
Definition demo_env : SplitEnv := {|
  apply_helper := fun _ _ => (inl (ShellResult 0 [] []), true);
  status_helper := fun _ => inl (ShellResult 0 (py "  endpoint: 162.159.195.1:2408") []);
  state_helper := fun _ _ => inl (ShellResult 0 [] []);
  proc_net_route := fun _ => Some demo_route;
  iface_network := fun _ _ => Some (IPv4Network 3232235776 24);
  iface_flags := fun _ => None;
  marker_exists := fun _ => false |}.
Definition failing_env : SplitEnv := {|
  apply_helper := fun t _ =>
    (inl (ShellResult (if (t =? 4)%nat then 1 else 0) [] (py "restart failed")), true);
  status_helper := fun _ => inl (ShellResult 1 [] []);
  state_helper := fun _ _ => inl (ShellResult 0 [] []);
  proc_net_route := fun _ => Some demo_route;
  iface_network := fun _ _ => None;
  iface_flags := fun _ => None;
  marker_exists := fun _ => false |}.
Definition demo_cfg : split_config := SplitConfig (IPv4Network 167772160 24) 1500 8 true true.
Definition demo_nets : list ipv4net := [IPv4Network 134744064 24; IPv4Network 2509967360 20].
Definition demo_host : host := Host (Some (py "8.8.4.0/24
")) (Some 2728380161) 0 [].

Lemma demo_nets_wf : Forall wf_net demo_nets.
Proof. apply (bool_decide_unpack _). vm_compute. exact I. Defined.
Lemma demo_env_networks : @networks_ok demo_env demo_cfg.
Proof.
  split; [apply (bool_decide_unpack _); vm_compute; exact I|].
  intros t iface net [= <-]. apply (bool_decide_unpack _). vm_compute. exact I.
Defined.
Lemma failing_env_networks : @networks_ok failing_env demo_cfg.
Proof. split; [apply (bool_decide_unpack _); vm_compute; exact I|done]. Defined.
Lemma demo_host_ok : host_ok demo_host.
Proof. intros ip [= <-]. split; [discriminate|reflexivity]. Defined.
Lemma demo_contract : @helper_contract demo_env.
Proof. intros t input res w [= <- <-] _. reflexivity. Defined.
Lemma failing_contract : @helper_contract failing_env.
Proof. intros t input res w [= <- <-] _. reflexivity. Defined.

Lemma check_candidate_exact_witness :
  (@check_candidate demo_env demo_cfg (map show_net demo_nets) demo_host).1 = Ok tt
  /\ is_ok (default_gateway (@proc_net_route demo_env 3)) = true.
Proof.
  split; [vm_compute; reflexivity|].
  apply (@check_candidate_exact demo_env demo_cfg (map show_net demo_nets) demo_host
           demo_env_networks demo_host_ok). vm_compute. reflexivity.
Defined.

Lemma apply_writes_candidate_witness :
  exists o h', @apply_locked demo_env demo_cfg (map show_net demo_nets) false None demo_host = (Ok o, h')
    /\ ao_unchanged o = false /\ list_file h' = Some (render_list (map show_net demo_nets)).
Proof.
  eexists _, _. split; [vm_compute; reflexivity|]. split; [reflexivity|].
  eapply (@apply_writes_candidate demo_env demo_cfg demo_nets false None demo_host);
    [exact demo_contract|exact demo_env_networks|exact demo_host_ok|exact demo_nets_wf|vm_compute; reflexivity].
Defined.

Lemma apply_all_or_nothing_witness :
  exists r h', @apply_locked demo_env demo_cfg [py "162.159.195.0/24"] false None demo_host = (Err r, h')
    /\ list_file h' = list_file demo_host /\ events h' = [].
Proof.
  eexists _, _. split; [vm_compute; reflexivity|].
  eapply (@apply_all_or_nothing demo_env demo_cfg [py "162.159.195.0/24"] false None demo_host);
    [vm_compute; reflexivity|left; vm_compute; discriminate].
Defined.

Lemma apply_failure_rolls_back_witness :
  exists h', @apply_locked failing_env demo_cfg (map show_net demo_nets) false None demo_host
             = (Err (HelperFailed 1 (py "restart failed")), h')
    /\ read_list_of (list_file h') = [py "8.8.4.0/24"].
Proof.
  eexists. split; [vm_compute; reflexivity|].
  change [py "8.8.4.0/24"] with (read_list_of (list_file demo_host)).
  eapply (@apply_failure_rolls_back failing_env demo_cfg (map show_net demo_nets) false None demo_host
            1 (py "restart failed") _ (ShellResult 0 [] (py "restart failed")) (py "8.8.4.0/24
") 56%N); [exact failing_contract|vm_compute; reflexivity|reflexivity|left|reflexivity|reflexivity].
Defined.

Lemma endpoint_guard_persists_witness :
  exists o h'', @apply_locked failing_env demo_cfg (map show_net demo_nets) true None
                  (@run_state failing_env (py "on") demo_host).2 = (Ok o, h'')
    /\ exists ip', endpoint_ip h'' = Some ip' /\ ~ covers demo_nets ip'.
Proof.
  eexists _, _. split; [vm_compute; reflexivity|].
  eapply (@endpoint_guard_persists failing_env demo_cfg demo_host
            (@run_state failing_env (py "on") demo_host).2 2728380161 demo_nets true None);
    [exact failing_env_networks|exact failing_contract|exact demo_host_ok|reflexivity
    |apply rtc_once, step_state|exact demo_nets_wf|vm_compute; reflexivity].
Defined.

(** The list survives the disk: what the merge lists is written by the helper
    byte for byte as it was rendered and read back as the same entries in the
    same order, so the byte-identity test and the comparisons of the feed service
    see no difference where there is none. *)
Theorem merged_list_round_trip manual sources exclusions r :
  Forall wf_net manual -> sources_ok sources -> Forall wf_net exclusions ->
  merge_split_list manual sources exclusions = Some r -> mr_prefixes r <> [] ->
  read_list_of (Some (normalised (render_list (mr_prefixes r)))) = mr_prefixes r
  /\ normalised (render_list (mr_prefixes r)) = render_list (mr_prefixes r).
Proof.
  intros Hm Hs He Hr Hne.
  destruct (merge_split_list_spec manual sources exclusions Hm Hs He)
    as (r' & final & _ & Hr' & Hp & Hc & _).
  rewrite Hr in Hr'. injection Hr' as <-. rewrite Hp in *.
  pose proof (collapsed_wf _ Hc) as Hw.
  rewrite normalised_render by (done || by apply show_entries).
  split; [|done]. rewrite read_list_render by done. unfold sort_networks. by rewrite sort_collapsed.
Qed.

Lemma merged_list_round_trip_witness :
  exists r, merge_split_list demo_manual demo_sources demo_exclusions = Some r
    /\ read_list_of (Some (normalised (render_list (mr_prefixes r)))) = mr_prefixes r.
Proof.
  eexists. split; [vm_compute; reflexivity|].
  eapply (merged_list_round_trip demo_manual demo_sources demo_exclusions);
    [exact demo_manual_wf|exact demo_sources_ok|exact demo_exclusions_wf|vm_compute; reflexivity|discriminate].
Defined.

(** ** Lemmas: the tokens of the operator *)

Lemma first_overlap_none guards net :
  first_overlap guards net = None <->
  forall g, g ∈ guards -> show_net g.1 <> show_net DEFAULT_ROUTE -> overlaps net g.1 = false.
Proof.
  induction guards as [|[g reason] rest IH]; simpl.
  - split; [intros _ g Hg; by apply not_elem_of_nil in Hg|done].
  - destruct (bool_decide_reflect (show_net g = show_net DEFAULT_ROUTE)) as [E|E]; simpl.
    + rewrite IH. setoid_rewrite elem_of_cons. split; [intros H g' [->|Hg']|]; naive_solver.
    + destruct (overlaps net g) eqn:Ho.
      * split; [done|]. intros H. pose proof (H (g, reason) ltac:(by left) E) as Hg. simpl in Hg. congruence.
      * rewrite IH. setoid_rewrite elem_of_cons. split; [intros H g' [->|Hg']|]; naive_solver.
Qed.

(** The text of an accepted token. *)
Definition acceptable (current : list str) (guards : list (ipv4net * str)) (min_len : Z) (c : str) : Prop :=
  c ∉ current /\ exists net, wf_net net /\ c = show_net net /\ 0 < prefixlen net /\ min_len <= prefixlen net
    /\ forall g, g ∈ guards -> show_net g.1 <> show_net DEFAULT_ROUTE -> overlaps net g.1 = false.

Lemma validate_add_added token current seen guards min_len :
  is_added (validate_add token current seen guards min_len) = true ->
  acceptable current guards min_len (cr_canonical (validate_add token current seen guards min_len))
  /\ cr_canonical (validate_add token current seen guards min_len) ∉ seen
  /\ exists net, ip_network token = Some (inl net)
       /\ cr_canonical (validate_add token current seen guards min_len) = show_net net.
Proof.
  unfold is_added, validate_add. destruct (negb (has_char SLASH token)); [discriminate|].
  destruct (ip_network token) as [[net|]|] eqn:En; [|discriminate|discriminate].
  destruct (bool_decide_reflect (show_net net = show_net DEFAULT_ROUTE)) as [|Hd]; [discriminate|].
  destruct (Z.ltb_spec (prefixlen net) min_len) as [|Hm]; [discriminate|].
  destruct (first_overlap guards net) as [[g reason]|] eqn:Ho; [discriminate|].
  destruct (bool_decide (show_net net ∈ current) || bool_decide (show_net net ∈ seen)) eqn:Hs; [discriminate|].
  intros _. simpl. bool_prop. pose proof (ip_network_wf _ _ En) as Hw. rewrite first_overlap_none in Ho.
  split_and!; [|done|by exists net]. split; [done|]. exists net. split_and!; try done.
  destruct (Z.eq_dec (prefixlen net) 0) as [E|]; [|pose proof (proj1 Hw); lia]. exfalso. apply Hd. f_equal.
  destruct net as [a p]. simpl in E. subst p. unfold DEFAULT_ROUTE. f_equal.
  destruct Hw as (_ & Ha & Hmod). simpl in Ha, Hmod. unfold size in Hmod. simpl in Hmod.
  rewrite Z.mod_small in Hmod; lia.
Qed.

Lemma add_tokens_spec tokens current accepted guards min_len results final :
  add_tokens tokens current accepted guards min_len = (results, final) ->
  final = accepted ++ map cr_canonical (List.filter is_added results)
  /\ (NoDup accepted -> NoDup final)
  /\ map cr_raw results = List.filter (fun t => match t with [] => false | _ => true end) (map strip tokens)
  /\ forall c, c ∈ final -> c ∈ accepted \/ acceptable current guards min_len c.
Proof.
  revert accepted results final. induction tokens as [|raw rest IH]; intros accepted results final; simpl.
  { intros [= <- <-]. rewrite app_nil_r. by split_and!; auto. }
  destruct (strip raw) as [|c token] eqn:Es; [apply IH|].
  set (r := validate_add (c :: token) current accepted guards min_len).
  destruct (add_tokens rest current _ guards min_len) as [rs f] eqn:E. intros [= <- <-].
  specialize (IH _ _ _ E) as (Hf & Hnd & Hraw & Hacc). cbn [map List.filter].
  assert (cr_raw r = c :: token) as -> by (unfold r, validate_add; repeat case_match; done).
  rewrite Hraw. destruct (is_added r) eqn:Ha; cbn [map].
  - destruct (validate_add_added _ _ _ _ _ Ha) as (Hok & Hns & _). fold r in Hok, Hns.
    split_and!; [by rewrite Hf, <- app_assoc| |done|].
    + intros Hn. apply Hnd, NoDup_app. split_and!; [done| |apply NoDup_singleton].
      intros x Hx Hin. apply list_elem_of_singleton in Hin as ->. done.
    + intros x Hx. destruct (Hacc x Hx) as [Hin|?]; [|by right].
      apply elem_of_app in Hin as [?|Hin]; [by left|].
      apply list_elem_of_singleton in Hin as ->. by right.
  - by split_and!.
Qed.

(** Every token the operator types is answered, and what is accepted is sound:
    the report has one result per non-blank token in their order; the accepted
    list is the canonical texts of the results marked added, without repetition;
    and each of them is a new, well-formed network within the length limits that
    overlaps no guard network (the text of the default route apart, which the
    length limits already exclude). *)
Theorem process_add_tokens_sound {Env : SplitEnv} cfg tokens current h results accepted h' :
  process_add_tokens cfg tokens current h = (Ok (results, accepted), h') ->
  map cr_raw results = List.filter (fun t => match t with [] => false | _ => true end) (map strip tokens)
  /\ accepted = map cr_canonical (List.filter is_added results) /\ NoDup accepted
  /\ exists gateway, default_gateway (proc_net_route (S (S (tick h)))) = Ok gateway
     /\ forall c, c ∈ accepted ->
          acceptable current (live_networks cfg (tick h) gateway (endpoint_ip h)) (min_prefixlen cfg) c.
Proof.
  unfold process_add_tokens, bind. rewrite build_guards_eq. unfold live_guards.
  destruct (default_gateway _) as [gw|] eqn:Eg; [|discriminate].
  intros [= E _]. apply add_tokens_spec in E as (Hf & Hnd & Hraw & Hacc).
  split_and!; [done|done|by apply Hnd; constructor|]. exists gw. split; [done|].
  intros c Hc. destruct (Hacc c Hc) as [Hin|?]; [by apply not_elem_of_nil in Hin|done].
Qed.

Lemma process_add_tokens_sound_witness :
  exists results h', @process_add_tokens demo_env demo_cfg
      [py "8.8.8.7/24"; py " 8.8.8.0/24 "; py "0.0.0.0/0"; py "192.168.1.0/25"; py "9.9.9.9"; py "::1/64"]
      [] demo_host = (Ok (results, [py "8.8.8.0/24"]), h')
    /\ map cr_status results
       = [py "added"; py "dup"; py "rejected"; py "rejected"; py "rejected"; py "rejected"]
    /\ NoDup [py "8.8.8.0/24"].
Proof.
  eexists _, _. split; [vm_compute; reflexivity|]. split; [vm_compute; reflexivity|].
  eapply (@process_add_tokens_sound demo_env demo_cfg
      [py "8.8.8.7/24"; py " 8.8.8.0/24 "; py "0.0.0.0/0"; py "192.168.1.0/25"; py "9.9.9.9"; py "::1/64"]
      [] demo_host). vm_compute. reflexivity.
Defined.

Lemma del_results_removed tokens current c :
  c ∈ map cr_canonical (List.filter is_removed (del_results tokens current)) <->
  exists raw net, raw ∈ tokens /\ has_char SLASH (strip raw) = true
    /\ ip_network (strip raw) = Some (inl net) /\ c = show_net net /\ c ∈ current.
Proof.
  rewrite list_elem_of_fmap. setoid_rewrite list_elem_of_In. setoid_rewrite filter_In.
  setoid_rewrite <- list_elem_of_In. unfold del_results. setoid_rewrite list_elem_of_omap. split.
  - intros (r & -> & (raw & Hin & Hr) & Hrem). exists raw. destruct (strip raw) as [|k token]; [done|].
    injection Hr as <-. revert Hrem. unfold validate_del.
    destruct (has_char SLASH (k :: token)) eqn:Hsl; simpl; [|discriminate].
    destruct (ip_network (k :: token)) as [[net|]|] eqn:En; [|discriminate|discriminate].
    destruct (bool_decide_reflect (show_net net ∈ current)); [|discriminate]. intros _. by exists net.
  - intros (raw & net & Hin & Hsl & Hp & -> & Hc). exists (validate_del (strip raw) current).
    assert (validate_del (strip raw) current = CidrResult (strip raw) (show_net net) (py "removed") NoNote) as E.
    { unfold validate_del. rewrite Hsl, Hp. simpl. by rewrite bool_decide_true. }
    rewrite E. split_and!; [done| |done]. exists raw. split; [done|].
    destruct (strip raw) eqn:Es; [discriminate|]. by rewrite E.
Qed.

(** A deletion keeps exactly the other entries, in their order, and is refused
    exactly when it removes something and nothing would be left. *)
Theorem process_del_tokens_spec tokens current :
  let gone c := exists raw net, raw ∈ tokens /\ has_char SLASH (strip raw) = true
    /\ ip_network (strip raw) = Some (inl net) /\ c = show_net net in
  match process_del_tokens tokens current with
  | Ok (results, remaining) =>
      remaining `sublist_of` current /\ (forall c, c ∈ remaining <-> c ∈ current /\ ~ gone c)
      /\ (current <> [] -> remaining <> [])
  | Err e => e = WouldEmpty /\ current <> [] /\ forall c, c ∈ current -> gone c
  end.
Proof.
  intros gone. unfold process_del_tokens.
  set (rem := map cr_canonical (List.filter is_removed (del_results tokens current))).
  assert (forall c, c ∈ current -> c ∈ rem <-> gone c) as Hrem.
  { intros c Hc. unfold rem. rewrite del_results_removed. unfold gone. naive_solver. }
  set (left := List.filter (fun c => negb (bool_decide (c ∈ rem))) current).
  assert (forall c, c ∈ left <-> c ∈ current /\ ~ gone c) as Hleft.
  { intros c. unfold left. rewrite list_elem_of_In, filter_In, <- list_elem_of_In, negb_true_iff, bool_decide_eq_false.
    split; (intros [Hc Hn]; split; [done|]); by rewrite Hrem in * by done. }
  assert (left `sublist_of` current) as Hsub.
  { apply filter_sublist. }
  destruct rem as [|r rem'] eqn:Er.
  - split_and!; [done..|]. intros Hne. destruct current as [|c l]; [done|].
    intros E. assert (c ∈ left) as Hc; [|rewrite E in Hc; by apply not_elem_of_nil in Hc].
    apply Hleft. split; [by left|]. rewrite <- (Hrem c) by (by left). apply not_elem_of_nil.
  - destruct left as [|x l] eqn:El; [|by split_and!].
    split_and!; [done| |].
    + intros ->. pose proof (del_results_removed tokens [] r) as [Hr _]. destruct Hr as (? & ? & _ & _ & _ & _ & Hn).
      * fold rem. rewrite Er. by left.
      * by apply not_elem_of_nil in Hn.
    + intros c Hc. destruct (decide (c ∈ r :: rem')) as [Hin|Hn]; [by apply Hrem|].
      exfalso. rewrite Hrem in Hn by done.
      assert (c ∈ @nil str) as H by (by apply Hleft). by apply not_elem_of_nil in H.
Qed.
