(* ===== verification/WarpFetcher.v ===== *)
(** * Downloading a feed ([adapters/warp_feed_fetcher.py])

    The conditional GET with its disk cache. The HTTP client and the file system
    are oracles consulted at successive ticks; the cache directory is the state. *)

From S2P Require Import Prelude PyText.
#[local] Open Scope Z_scope.

(** [FeedFetchError] by its message. *)
Inductive fetch_error := FetchError (message : str).

Record feed_payload := FeedPayload {
  fp_text : str;
  fp_etag : option str;
  fp_last_modified : option str;
  fp_status : str }.

(** How the client can fail while connecting or while streaming the body. *)
Inductive http_failure := HttpTimeout | HttpClientError (text : str).
Record http_response := HttpResponse {
  hr_status : Z;
  hr_content_length : option str;
  hr_etag : option str;
  hr_last_modified : option str;
  hr_chunks : list (list N);
  hr_broken : option http_failure }.

Record fetcher_config := FetcherConfig {
  fc_timeout_text : str;           (* f"{self._timeout:g}" *)
  fc_max_bytes : Z }.

Class FetchEnv := {
  http_get : nat -> str -> list (str * str) -> http_response + http_failure;
  cache_readable : nat -> bool;    (* no OSError when the file is there *)
  cache_writable : nat -> bool;    (* no OSError while replacing it *)
  repr : str -> str;               (* the built-in repr of a str *)
  decode_error : list N -> str }.  (* the text of UnicodeDecodeError *)

Record fetcher := Fetcher {
  cache_files : gmap str str;      (* slug -> cached body *)
  f_tick : nat }.
Definition FM (A : Type) : Type := M fetcher fetch_error A.
Definition f_consult {A} (oracle : nat -> A) : FM A :=
  fun f => (Ok (oracle (f_tick f)), Fetcher (cache_files f) (S (f_tick f))).
Definition fail_with {A} (message : str) : FM A := raise (FetchError message).

Definition ALLOWED_SCHEMES : list str := [py "http://"; py "https://"].

Section Fetch.
Context {Env : FetchEnv} (cfg : fetcher_config).

(** [cache_path]: the name is joined onto a directory, so it must be one segment. *)
Definition cache_path (slug : str) : result fetch_error str :=
  if has_char SLASH slug || has_char 92%N slug
     || bool_decide (slug ∈ [[]; py "."; py ".."])
  then Err (FetchError (py "refusing to use " ++ repr slug ++ py " as a cache file name"))
  else Ok slug.

Definition read_cache (slug : str) : FM (option str) :=
  match cache_path slug with
  | Err _ => ret None
  | Ok name =>
      let! readable := f_consult cache_readable in
      gets (fun f => if readable : bool then cache_files f !! name else None)
  end.

Definition write_cache (slug text : str) : FM unit :=
  let! name := lift (cache_path slug) in
  let! writable := f_consult cache_writable in
  if writable : bool then modify (fun f => Fetcher (<[name := text]> (cache_files f)) (f_tick f))
  else ret tt.

Definition raise_failure {A} (e : http_failure) : FM A :=
  match e with
  | HttpTimeout => fail_with (py "timed out after " ++ fc_timeout_text cfg ++ py "s")
  | HttpClientError text => fail_with (py "transport error: " ++ text)
  end.

(** The streaming loop: [total] bytes read so far. *)
Fixpoint read_chunks (chunks : list (list N)) (total : Z) (acc : list N) : FM (list N) :=
  match chunks with
  | [] => ret acc
  | chunk :: rest =>
      let total := total + Z.of_nat (length chunk) in
      if fc_max_bytes cfg <? total
      then fail_with (py "response exceeded the " ++ show_Z (fc_max_bytes cfg) ++ py " byte limit")
      else read_chunks rest total (acc ++ chunk)
  end.
Definition check_declared (r : http_response) : FM unit :=
  match hr_content_length r with
  | None => ret tt
  | Some text =>
      match int_of_str text with
      | None => ret tt
      | Some declared =>
          if fc_max_bytes cfg <? declared
          then fail_with (py "response declares " ++ text ++ py " bytes, over the "
                          ++ show_Z (fc_max_bytes cfg) ++ py " limit")
          else ret tt
      end
  end.
Definition read_capped (r : http_response) : FM (list N) :=
  check_declared r ;;!
  let! raw := read_chunks (hr_chunks r) 0 [] in
  match hr_broken r with
  | Some e => raise_failure e
  | None => ret raw
  end.

Definition truthy (s : option str) : option str :=
  match s with Some (_ :: _) => s | _ => None end.
Definition conditional_headers (cached etag last_modified : option str) : list (str * str) :=
  match cached with
  | None => []
  | Some _ =>
      match truthy etag with Some v => [(py "If-None-Match", v)] | None => [] end
      ++ match truthy last_modified with Some v => [(py "If-Modified-Since", v)] | None => [] end
  end.

Definition fetch (slug url : str) (etag last_modified : option str) : FM feed_payload :=
  if negb (existsb (fun scheme => startswith scheme url) ALLOWED_SCHEMES)
  then fail_with (py "unsupported URL scheme in " ++ repr url ++ py " (http/https only)")
  else
    let! cached := read_cache slug in
    let! answer := f_consult (fun t => http_get t url (conditional_headers cached etag last_modified)) in
    match answer with
    | inr e => raise_failure e
    | inl r =>
        if hr_status r =? 304 then
          match cached with
          | None => fail_with (py "server answered 304 but no cached body exists")
          | Some text => ret (FeedPayload text etag last_modified (py "not-modified"))
          end
        else if negb (hr_status r =? 200) then fail_with (py "HTTP " ++ show_Z (hr_status r))
        else
          let! raw := read_capped r in
          match utf8_strict raw with
          | None => fail_with (py "body is not valid UTF-8: " ++ decode_error raw)
          | Some text =>
              match strip text with
              | [] => fail_with (py "empty response body")
              | _ =>
                  write_cache slug text ;;!
                  ret (FeedPayload text (hr_etag r) (hr_last_modified r) (py "ok"))
              end
          end
    end.
End Fetch.

(** ** Lemmas *)

Section FetchLemmas.
Context {Env : FetchEnv} (cfg : fetcher_config).

Lemma read_chunks_spec chunks total acc f r f' :
  read_chunks cfg chunks total acc f = (r, f') ->
  f' = f /\ (forall raw, r = Ok raw -> raw = acc ++ concat chunks
             /\ (chunks <> [] -> total + Z.of_nat (length (concat chunks)) <= fc_max_bytes cfg)).
Proof.
  revert total acc. induction chunks as [|c rest IH]; intros total acc; simpl.
  { intros [= <- <-]. split; [done|]. intros raw [= <-]. by rewrite app_nil_r. }
  destruct (Z.ltb_spec (fc_max_bytes cfg) (total + Z.of_nat (length c))) as [H|H].
  { intros [= <- <-]. by split. }
  intros E. destruct (IH _ _ E) as [-> Hr]. split; [done|]. intros raw ->.
  destruct (Hr raw eq_refl) as [-> Hlen]. rewrite app_assoc. split; [done|]. intros _.
  rewrite length_app. destruct rest as [|c' rest]; [simpl; lia|]. specialize (Hlen ltac:(done)). lia.
Qed.

Lemma read_capped_spec resp f r f' : read_capped cfg resp f = (r, f') ->
  f' = f /\ (forall raw, r = Ok raw -> raw = concat (hr_chunks resp) /\ hr_broken resp = None
             /\ (hr_chunks resp <> [] -> Z.of_nat (length raw) <= fc_max_bytes cfg)).
Proof.
  unfold read_capped. unfold bind at 1.
  assert ((exists e, check_declared cfg resp f = (Err e, f)) \/ check_declared cfg resp f = (Ok tt, f))
    as [[e ->] | ->] by (unfold check_declared; repeat case_match; unfold fail_with, raise, ret; eauto).
  { intros [= <- <-]. by split. }
  unfold bind. destruct (read_chunks cfg (hr_chunks resp) 0 [] f) as [[raw|e] f1] eqn:E;
    destruct (read_chunks_spec _ _ _ _ _ _ E) as [-> Hr]; [|intros [= <- <-]; by split].
  destruct (Hr raw eq_refl) as [-> Hlen].
  destruct (hr_broken resp) as [b|] eqn:Hb; [destruct b; intros [= <- <-]; by split|].
  intros [= <- <-]. split; [done|]. intros raw' [= <-]. by split_and!.
Qed.

Lemma cache_path_ok slug name : cache_path slug = Ok name -> name = slug.
Proof. unfold cache_path. case_match; [done|]. by intros [= <-]. Qed.

Lemma write_cache_spec slug text f r f' : write_cache slug text f = (r, f') ->
  (r = Ok tt /\ (cache_files f' = cache_files f \/ cache_files f' = <[slug := text]> (cache_files f)))
  \/ (exists e, r = Err e) /\ f' = f.
Proof.
  unfold write_cache, lift, bind, f_consult, modify, ret.
  destruct (cache_path slug) as [name|e] eqn:Ep; [apply cache_path_ok in Ep as ->|].
  - destruct (cache_writable (f_tick f)); intros [= <- <-]; simpl; auto.
  - intros [= <- <-]. eauto.
Qed.

Lemma read_cache_spec slug f r f' : read_cache slug f = (r, f') ->
  cache_files f' = cache_files f /\ exists c, r = Ok c /\ (c = None \/ c = cache_files f !! slug).
Proof.
  unfold read_cache, bind, f_consult, gets, ret.
  destruct (cache_path slug) as [name|e] eqn:Ep; [apply cache_path_ok in Ep as ->|].
  - destruct (cache_readable (f_tick f)); intros [= <- <-]; split; eauto.
  - intros [= <- <-]. eauto.
Qed.

Lemma fetch_status slug url etag lm f p f' : fetch cfg slug url etag lm f = (Ok p, f') ->
  fp_status p = py "ok" \/ fp_status p = py "not-modified".
Proof.
  unfold fetch. destruct (negb _); [done|]. intros H.
  apply bind_inv in H as [(cached & f1 & _ & H)|(e & _ & [=])].
  apply bind_inv in H as [([resp|e] & f2 & _ & H)|(e' & _ & [=])]; [|by destruct e].
  destruct (hr_status resp =? 304).
  { destruct cached; [|done]. injection H as <- _. by right. }
  destruct (negb _); [done|]. apply bind_inv in H as [(raw & f3 & _ & H)|(e & _ & [=])].
  destruct (utf8_strict raw) as [text|]; [|done]. destruct (strip text); [done|].
  apply bind_inv in H as [(u & f4 & _ & H)|(e & _ & [=])]. injection H as <- _. by left.
Qed.

(** A bad fetch never costs the last good body: whatever the network answers,
    the cache of every other slug is untouched, and the slug's own cached body is
    either what it was or the body just returned with status [ok]; a
    downloaded body is not blank, it is the whole concatenation of the streamed
    chunks, decoded, within the byte limit and not cut by a broken stream; and a
    304 is answered with the cached body and the validators it was asked with, or
    it is an error. *)
Theorem fetch_preserves_cache slug url etag lm f r f' :
  fetch cfg slug url etag lm f = (r, f') ->
  (cache_files f' = cache_files f
   \/ exists p, r = Ok p /\ fp_status p = py "ok" /\ cache_files f' = <[slug := fp_text p]> (cache_files f))
  /\ forall p, r = Ok p ->
       (fp_status p = py "not-modified" /\ cache_files f !! slug = Some (fp_text p)
        /\ fp_etag p = etag /\ fp_last_modified p = lm)
       \/ (fp_status p = py "ok" /\ strip (fp_text p) <> []
           /\ exists resp headers t, http_get t url headers = inl resp /\ hr_status resp = 200
              /\ hr_broken resp = None /\ utf8_strict (concat (hr_chunks resp)) = Some (fp_text p)
              /\ (hr_chunks resp <> [] -> Z.of_nat (length (concat (hr_chunks resp))) <= fc_max_bytes cfg)
              /\ fp_etag p = hr_etag resp /\ fp_last_modified p = hr_last_modified resp).
Proof.
  unfold fetch. destruct (negb _); [intros [= <- <-]; split; [by left|done]|].
  unfold bind at 1. destruct (read_cache slug f) as [rc f1] eqn:Ec.
  apply read_cache_spec in Ec as (Hf1 & cached & -> & Hc). unfold bind at 1, f_consult.
  destruct (http_get (f_tick f1) url _) as [resp|e] eqn:Eh; cycle 1.
  { destruct e; intros [= <- <-]; (split; [by left|done]). }
  destruct (Z.eqb_spec (hr_status resp) 304).
  { destruct cached as [text|]; intros [= <- <-]; (split; [by left|]); [|done].
    intros p [= <-]. left. simpl. destruct Hc as [|Hc]; [done|]. by split_and!. }
  destruct (Z.eqb_spec (hr_status resp) 200) as [H200|]; simpl; cycle 1.
  { intros [= <- <-]. split; [by left|done]. }
  unfold bind at 1. destruct (read_capped cfg resp _) as [rr f2] eqn:Er.
  apply read_capped_spec in Er as [-> Hraw]. destruct rr as [raw|e]; cycle 1.
  { intros [= <- <-]. split; [by left|done]. }
  destruct (Hraw raw eq_refl) as (-> & Hb & Hlen).
  destruct (utf8_strict _) as [text|] eqn:Hu; cycle 1.
  { intros [= <- <-]. split; [by left|done]. }
  destruct (strip text) as [|c0 s0] eqn:Hs; [intros [= <- <-]; split; [by left|done]|].
  unfold bind. destruct (write_cache slug text _) as [rw f3] eqn:Ew.
  apply write_cache_spec in Ew as [[-> Hf3]|[[e ->] ->]]; cycle 1.
  { intros [= <- <-]. split; [by left|done]. }
  simpl in Hf3. intros [= <- <-]. split.
  - destruct Hf3 as [->| ->]; [by left|right]. eexists. split_and!; [done..|]. simpl. by rewrite Hf1.
  - intros p [= <-]. right. simpl. split_and!; [done|by rewrite Hs|].
    exists resp. eauto 12.
Qed.
End FetchLemmas.

Definition demo_fetch_env : FetchEnv := {|
  http_get := fun _ _ _ => inl (HttpResponse 200 None (Some (py "v2")) None
                                  [utf8_encode (py "91.108.4.0/22"); [10%N]] None);
  cache_readable := fun _ => true; cache_writable := fun _ => true;
  repr := fun s => s; decode_error := fun _ => [] |}.

Lemma fetch_preserves_cache_witness :
  exists p f', @fetch demo_fetch_env (FetcherConfig (py "20") 100) (py "telegram-cidr")
                 (py "https://core.telegram.org/resources/cidr.txt") None None (Fetcher ∅ 0) = (Ok p, f')
    /\ strip (fp_text p) <> [].
Proof.
  exists (FeedPayload (py "91.108.4.0/22
") (Some (py "v2")) None (py "ok")), (Fetcher {[ py "telegram-cidr" := py "91.108.4.0/22
" ]} 3).
  assert (@fetch demo_fetch_env (FetcherConfig (py "20") 100) (py "telegram-cidr")
            (py "https://core.telegram.org/resources/cidr.txt") None None (Fetcher ∅ 0)
          = (Ok (FeedPayload (py "91.108.4.0/22
") (Some (py "v2")) None (py "ok")), Fetcher {[ py "telegram-cidr" := py "91.108.4.0/22
" ]} 3)) as E by (vm_compute; reflexivity).
  split; [exact E|].
  destruct (@fetch_preserves_cache demo_fetch_env _ _ _ _ _ _ _ _ E) as [_ H].
  destruct (H _ eq_refl) as [[Hs _]|[_ [Hne _]]]; [discriminate Hs|exact Hne].
Defined.
