(* ===== verification/FeedStore.v ===== *)
(** * The stored state of the feeds
      ([warp/feed_state.py], [repositories/warp_split_sources.py])

    The six tables and the two statements on the meta table, as a record of
    tables; every repository method is a function on it. The insertion stamps of
    the prefix and exclusion rows are left out: nothing reads them. JSON columns
    hold the values they encode. *)

From S2P Require Import Prelude PyText PyIp SplitMerge Float64 SplitAnalysis.
From stdpp Require Import fin_maps.
#[local] Open Scope Z_scope.

(** ** Rows *)

Record split_source := SplitSource {
  src_id : Z;
  src_slug : str;
  src_title : str;
  src_url : str;
  src_kind : str;
  src_mode : str;
  src_scope_slug : option str;
  src_enabled : bool;
  src_include_in_list : bool;
  src_refresh_interval_sec : Z;
  src_last_attempt_ts : Z;
  src_last_success_ts : Z;
  src_last_etag : option str;
  src_last_modified : option str;
  src_last_status : option str;
  src_prefix_count : Z;
  src_last_error : option str;
  src_fail_streak : Z }.
#[export] Instance split_source_eq_dec : EqDecision split_source.
Proof. solve_decision. Defined.

Definition src_is_subtract (s : split_source) : bool := bool_decide (src_mode s = py "subtract").
Definition contributes_to_list (s : split_source) : bool :=
  src_enabled s && negb (src_is_subtract s) && src_include_in_list s.
Definition has_succeeded (s : split_source) : bool := 0 <? src_last_success_ts s.

Record deltas := Deltas {
  d_prefixes_before : Z; d_prefixes_after : Z; d_addresses_before : Z; d_addresses_after : Z;
  d_pure_aggregation : bool;
  d_added : list str; d_removed : list str; d_added_total : Z; d_removed_total : Z;
  d_holds : list (hold_code * option str * float * Z * Z);
  d_sources : list (str * str * option Z * Z * option Z * Z * bool) }.

Record pending_row := PendingRow {
  pr_ts : Z; pr_list_hash : str; pr_list_text : str; pr_reason : str; pr_deltas : deltas }.
(** [PendingCandidate], what [pending] reads back. *)
Record pending_candidate := PendingCandidate {
  pc_ts : Z; pc_list_hash : str; pc_prefixes : list str; pc_reason : str; pc_deltas : deltas }.
Definition reason_codes (c : pending_candidate) : list str :=
  List.filter (fun code => match code with [] => false | _ => true end) (split_char COMMA (pc_reason c)).

(** One element of [sources_json]; the measured counts are there when the source
    took part in the analysis. *)
Record run_source := RunSource {
  rs_slug : str; rs_status : str; rs_prefixes : Z; rs_error : str;
  rs_measured : option (Z * Z * Z) }.
Record run_metrics := RunMetrics {
  rm_detail : str;
  rm_counts : option (Z * Z * Z * Z * bool * Z * Z) }.
Record split_run := SplitRun {
  run_ts : Z; run_mode : str; run_decision : str; run_reason : str; run_list_hash : str;
  run_sources : list run_source; run_metrics_of : run_metrics }.

Record baseline_row := BaselineRow {
  b_coverage : coverage; b_list_hash : option str; b_applied_ts : Z }.

(** The tables. Sources are kept in the order of their ids, runs newest first. *)
Record feed_db := FeedDb {
  t_sources : list split_source;
  t_next_id : Z;
  t_prefixes : gset (str * str);
  t_exclusions : gset str;
  t_baseline : gmap str baseline_row;
  t_pending : option pending_row;
  t_runs : list split_run;
  t_meta : gmap str str }.

Definition with_sources (f : list split_source -> list split_source) (d : feed_db) : feed_db :=
  FeedDb (f (t_sources d)) (t_next_id d) (t_prefixes d) (t_exclusions d) (t_baseline d)
    (t_pending d) (t_runs d) (t_meta d).
Definition with_prefixes (f : gset (str * str) -> gset (str * str)) (d : feed_db) : feed_db :=
  FeedDb (t_sources d) (t_next_id d) (f (t_prefixes d)) (t_exclusions d) (t_baseline d)
    (t_pending d) (t_runs d) (t_meta d).
Definition with_exclusions (f : gset str -> gset str) (d : feed_db) : feed_db :=
  FeedDb (t_sources d) (t_next_id d) (t_prefixes d) (f (t_exclusions d)) (t_baseline d)
    (t_pending d) (t_runs d) (t_meta d).
Definition with_baseline (b : gmap str baseline_row) (d : feed_db) : feed_db :=
  FeedDb (t_sources d) (t_next_id d) (t_prefixes d) (t_exclusions d) b
    (t_pending d) (t_runs d) (t_meta d).
Definition with_pending (p : option pending_row) (d : feed_db) : feed_db :=
  FeedDb (t_sources d) (t_next_id d) (t_prefixes d) (t_exclusions d) (t_baseline d)
    p (t_runs d) (t_meta d).
Definition with_runs (r : list split_run) (d : feed_db) : feed_db :=
  FeedDb (t_sources d) (t_next_id d) (t_prefixes d) (t_exclusions d) (t_baseline d)
    (t_pending d) r (t_meta d).

(** ** Meta *)

Definition get_meta (d : feed_db) (key : str) : option str := t_meta d !! key.
Definition set_meta (key value : str) (d : feed_db) : feed_db :=
  FeedDb (t_sources d) (t_next_id d) (t_prefixes d) (t_exclusions d) (t_baseline d)
    (t_pending d) (t_runs d) (<[key := value]> (t_meta d)).

(** ** Sources *)

Definition list_sources (d : feed_db) : list split_source := t_sources d.
Definition get_source (d : feed_db) (slug : str) : option split_source :=
  List.find (fun s => bool_decide (src_slug s = slug)) (t_sources d).

(** The constraints of the table; a violation is [IntegrityError]. *)
Definition source_row_ok (d : feed_db) (slug kind mode : str) (scope : option str) : bool :=
  bool_decide (get_source d slug = None)
  && bool_decide (kind ∈ FEED_KINDS) && bool_decide (mode ∈ FEED_MODES)
  && (bool_decide (mode = py "subtract") || bool_decide (scope = None))
  && match scope with None => true | Some t => negb (bool_decide (t = slug)) end.

Definition add_source (slug title url kind mode : str) (scope_slug : option str)
    (enabled include_in_list : bool) (refresh_interval_sec : Z) (d : feed_db) : result unit feed_db :=
  if source_row_ok d slug kind mode scope_slug then
    Ok (FeedDb (t_sources d ++ [SplitSource (t_next_id d) slug title url kind mode scope_slug
                                  enabled include_in_list refresh_interval_sec
                                  0 0 None None None 0 None 0])
          (t_next_id d + 1) (t_prefixes d) (t_exclusions d) (t_baseline d)
          (t_pending d) (t_runs d) (t_meta d))
  else Err tt.

(** [UPDATE ... WHERE slug = ?] *)
Definition update_source (slug : str) (f : split_source -> split_source) : feed_db -> feed_db :=
  with_sources (map (fun s => if bool_decide (src_slug s = slug) then f s else s)).

Definition set_enabled_row (enabled : bool) (s : split_source) : split_source :=
  SplitSource (src_id s) (src_slug s) (src_title s) (src_url s) (src_kind s) (src_mode s)
    (src_scope_slug s) enabled (src_include_in_list s) (src_refresh_interval_sec s)
    (src_last_attempt_ts s) (src_last_success_ts s) (src_last_etag s) (src_last_modified s)
    (src_last_status s) (src_prefix_count s) (src_last_error s) (src_fail_streak s).
Definition attempt_row (now : Z) (s : split_source) : split_source :=
  SplitSource (src_id s) (src_slug s) (src_title s) (src_url s) (src_kind s) (src_mode s)
    (src_scope_slug s) (src_enabled s) (src_include_in_list s) (src_refresh_interval_sec s)
    now (src_last_success_ts s) (src_last_etag s) (src_last_modified s)
    (src_last_status s) (src_prefix_count s) (src_last_error s) (src_fail_streak s).
Definition success_row (status : str) (prefix_count : Z) (etag last_modified : option str) (now : Z)
    (s : split_source) : split_source :=
  SplitSource (src_id s) (src_slug s) (src_title s) (src_url s) (src_kind s) (src_mode s)
    (src_scope_slug s) (src_enabled s) (src_include_in_list s) (src_refresh_interval_sec s)
    now now etag last_modified (Some status) prefix_count None 0.
Definition failure_row (status error : str) (now : Z) (s : split_source) : split_source :=
  SplitSource (src_id s) (src_slug s) (src_title s) (src_url s) (src_kind s) (src_mode s)
    (src_scope_slug s) (src_enabled s) (src_include_in_list s) (src_refresh_interval_sec s)
    now (src_last_success_ts s) (src_last_etag s) (src_last_modified s)
    (Some status) (src_prefix_count s) (Some (take 512 error)) (src_fail_streak s + 1).
Definition orphan_row (deleted : str) (s : split_source) : split_source :=
  SplitSource (src_id s) (src_slug s) (src_title s) (src_url s) (src_kind s) (src_mode s)
    None false (src_include_in_list s) (src_refresh_interval_sec s)
    (src_last_attempt_ts s) (src_last_success_ts s) (src_last_etag s) (src_last_modified s)
    (Some (py "disabled")) (src_prefix_count s)
    (Some (py "scope source '" ++ deleted ++ py "' was deleted — re-enable deliberately"))
    (src_fail_streak s).

Definition set_enabled (slug : str) (enabled : bool) : feed_db -> feed_db :=
  update_source slug (set_enabled_row enabled).
Definition record_attempt (slug : str) (now : Z) : feed_db -> feed_db :=
  update_source slug (attempt_row now).
Definition record_success (slug status : str) (prefix_count : Z) (etag last_modified : option str)
    (now : Z) : feed_db -> feed_db :=
  update_source slug (success_row status prefix_count etag last_modified now).
Definition record_failure (slug status error : str) (now : Z) : feed_db -> feed_db :=
  update_source slug (failure_row status error now).

Definition delete_source (slug : str) (d : feed_db) : feed_db :=
  let dependents := map src_slug
    (List.filter (fun s => bool_decide (src_scope_slug s = Some slug)) (t_sources d)) in
  let d := with_sources (List.filter (fun s => negb (bool_decide (src_slug s = slug)))) d in
  let d := with_prefixes (filter (fun row => row.1 <> slug)) d in
  fold_left (fun d dependent => update_source dependent (orphan_row slug) d) dependents d.

(** ** Prefixes *)

(** [SELECT prefix ... WHERE origin = ? ORDER BY prefix] *)
Definition prefixes_for (d : feed_db) (origin : str) : list str :=
  sorted_strs (map snd (List.filter (fun row => bool_decide (row.1 = origin)) (elements (t_prefixes d)))).
(** The dict of every origin that has rows. *)
Definition all_prefixes (d : feed_db) : gmap str (list str) :=
  set_to_map (fun origin => (origin, prefixes_for d origin)) (set_map fst (t_prefixes d) : gset str).

Definition insert_rows (origin : str) (prefixes : list str) (rows : gset (str * str)) : gset (str * str) :=
  rows ∪ list_to_set (map (fun p => (origin, p)) prefixes).
Definition replace_prefixes (origin : str) (prefixes : list str) : feed_db -> feed_db :=
  with_prefixes (fun rows => insert_rows origin prefixes (filter (fun row => row.1 <> origin) rows)).
Definition manual_prefixes (d : feed_db) : list str := prefixes_for d MANUAL_ORIGIN.
Definition set_manual_prefixes (prefixes : list str) : feed_db -> feed_db :=
  replace_prefixes MANUAL_ORIGIN prefixes.
Definition add_manual_prefixes (prefixes : list str) : feed_db -> feed_db :=
  with_prefixes (insert_rows MANUAL_ORIGIN prefixes).
Definition remove_manual_prefixes (prefixes : list str) : feed_db -> feed_db :=
  with_prefixes (fun rows => rows ∖ list_to_set (map (fun p => (MANUAL_ORIGIN, p)) prefixes)).

(** ** Exclusions *)

Definition exclusions (d : feed_db) : list str := sorted_strs (elements (t_exclusions d)).
Definition add_exclusion (prefix : str) : feed_db -> feed_db := with_exclusions (union {[ prefix ]}).
Definition remove_exclusion (prefix : str) : feed_db -> feed_db :=
  with_exclusions (fun e => e ∖ {[ prefix ]}).

(** ** Baseline *)

Definition baselines (d : feed_db) : gmap str coverage := b_coverage <$> t_baseline d.
Definition baseline_list_hash (d : feed_db) : option str := t_baseline d !! LIST_SCOPE ≫= b_list_hash.
Definition set_baselines (coverages : gmap str coverage) (list_hash : option str) (now : Z)
    : feed_db -> feed_db :=
  with_baseline (map_imap (fun scope c =>
    Some (BaselineRow c (if bool_decide (scope = LIST_SCOPE) then list_hash else None) now)) coverages).

(** ** The pending candidate *)

Definition pending (d : feed_db) : option pending_candidate :=
  match t_pending d with
  | None => None
  | Some r => Some (PendingCandidate (pr_ts r) (pr_list_hash r) (split_ws (pr_list_text r))
                      (pr_reason r) (pr_deltas r))
  end.
Definition set_pending (list_hash : str) (prefixes : list str) (reason : str) (ds : deltas) (now : Z)
    : feed_db -> feed_db :=
  with_pending (Some (PendingRow now list_hash (str_join [NEWLINE] prefixes) reason ds)).
Definition clear_pending : feed_db -> feed_db := with_pending None.

(** ** The run journal *)

Definition RUNS_KEPT : nat := 200.
Definition record_run (run : split_run) (d : feed_db) : feed_db :=
  with_runs (take RUNS_KEPT (run :: t_runs d)) d.
Definition recent_runs (d : feed_db) (limit : nat) : list split_run := take limit (t_runs d).
Definition count_runs (d : feed_db) : Z := Z.of_nat (length (t_runs d)).

(** ** Managing the sources ([services/warp_split_feeds.py]: [add_source]) *)

Inductive source_error :=
  | BadSlug (message : str)
  | DuplicateSlug (slug : str)
  | BadRelation (e : relation_error)
  | ConstraintFailed.

Definition existing_modes (d : feed_db) : gmap str str :=
  list_to_map (map (fun s => (src_slug s, src_mode s)) (list_sources d)).

Definition add_source_checked (slug title url kind mode : str) (scope_slug : option str) (d : feed_db)
    : result source_error feed_db :=
  match validate_slug slug with
  | Err message => Err (BadSlug message)
  | Ok _ =>
      match get_source d slug with
      | Some _ => Err (DuplicateSlug slug)
      | None =>
          match validate_source_relations slug mode scope_slug (existing_modes d) with
          | Err e => Err (BadRelation e)
          | Ok _ =>
              match add_source slug title url kind mode scope_slug false
                      (bool_decide (mode = py "add")) 21600 d with
              | Ok d' => Ok d'
              | Err _ => Err ConstraintFailed
              end
          end
      end
  end.

(** The tables as [db/schema.sql] creates them. *)
Definition seed (id : Z) (slug title url kind mode : str) (scope : option str) (enabled include : bool)
    : split_source :=
  SplitSource id slug title url kind mode scope enabled include 21600 0 0 None None None 0 None 0.
Definition seeded_db : feed_db :=
  FeedDb
    [seed 1 (py "telegram-cidr") (py "Telegram") (py "https://core.telegram.org/resources/cidr.txt")
       (py "cidr_text") (py "add") None true true;
     seed 2 (py "google-goog") (py "Google (all announced ranges)")
       (py "https://www.gstatic.com/ipranges/goog.json") (py "google_json") (py "add") None false true;
     seed 3 (py "google-cloud") (py "Google Cloud (GCP customer ranges)")
       (py "https://www.gstatic.com/ipranges/cloud.json") (py "google_json") (py "subtract")
       (Some (py "google-goog")) false false]
    4 ∅ ∅ ∅ None [] ∅.

(** Everything the program does to the tables. *)
Inductive store_step : feed_db -> feed_db -> Prop :=
  | do_add slug title url kind mode scope d d' :
      add_source_checked slug title url kind mode scope d = Ok d' -> store_step d d'
  | do_delete slug d : store_step d (delete_source slug d)
  | do_enable slug enabled d : store_step d (set_enabled slug enabled d)
  | do_attempt slug now d : store_step d (record_attempt slug now d)
  | do_success slug status n etag lm now d :
      store_step d (record_success slug status n etag lm now d)
  | do_failure slug status error now d : store_step d (record_failure slug status error now d)
  | do_replace origin prefixes d : store_step d (replace_prefixes origin prefixes d)
  | do_add_manual prefixes d : store_step d (add_manual_prefixes prefixes d)
  | do_remove_manual prefixes d : store_step d (remove_manual_prefixes prefixes d)
  | do_exclude p d : store_step d (add_exclusion p d)
  | do_unexclude p d : store_step d (remove_exclusion p d)
  | do_baselines c h now d : store_step d (set_baselines c h now d)
  | do_pending h p r ds now d : store_step d (set_pending h p r ds now d)
  | do_clear d : store_step d (clear_pending d)
  | do_run r d : store_step d (record_run r d)
  | do_meta k v d : store_step d (set_meta k v d).

(** ** Lemmas *)

(** *** What the reads depend on *)

Lemma elem_prefixes_for d origin p : p ∈ prefixes_for d origin <-> (origin, p) ∈ t_prefixes d.
Proof.
  unfold prefixes_for, sorted_strs. rewrite merge_sort_Permutation, list_elem_of_fmap. split.
  - intros ([o q] & -> & H). apply list_elem_of_In, filter_In in H as [H Ho].
    apply bool_decide_eq_true in Ho. simpl in Ho. subst o. apply elem_of_elements. by apply list_elem_of_In.
  - intros H. exists (origin, p). split; [done|]. apply list_elem_of_In, filter_In. split; [|by case_bool_decide].
    by apply list_elem_of_In, elem_of_elements.
Qed.

Lemma lookup_all_prefixes d origin :
  all_prefixes d !! origin = match prefixes_for d origin with [] => None | l => Some l end.
Proof.
  assert (forall l, all_prefixes d !! origin = Some l <->
    l = prefixes_for d origin /\ exists p, (origin, p) ∈ t_prefixes d) as Hm.
  { intros l. unfold all_prefixes. rewrite lookup_set_to_map by done. split.
    - intros (o & Ho & [= -> <-]). apply elem_of_map in Ho as ([o p] & -> & Ho). eauto.
    - intros (-> & p & Hp). exists origin. split; [|done]. apply elem_of_map. by exists (origin, p). }
  destruct (prefixes_for d origin) as [|p l] eqn:E.
  - destruct (all_prefixes d !! origin) as [l|]; [|done]. exfalso.
    destruct (proj1 (Hm l) eq_refl) as (_ & p & Hp). apply elem_prefixes_for in Hp. rewrite E in Hp.
    by apply not_elem_of_nil in Hp.
  - apply Hm. split; [done|]. exists p. apply elem_prefixes_for. rewrite E. by left.
Qed.

Lemma all_prefixes_frame d d' : t_prefixes d' = t_prefixes d -> all_prefixes d' = all_prefixes d.
Proof. intros H. apply map_eq. intros i. rewrite !lookup_all_prefixes. unfold prefixes_for. by rewrite H. Qed.
Lemma exclusions_frame d d' : t_exclusions d' = t_exclusions d -> exclusions d' = exclusions d.
Proof. unfold exclusions. by intros ->. Qed.

(** *** Source rows *)

Lemma mode_ne : py "add" <> py "subtract".
Proof. by apply (bool_decide_unpack _). Qed.

Lemma update_source_lookup slug f d :
  (forall s, src_slug (f s) = src_slug s) ->
  get_source (update_source slug f d) slug = f <$> get_source d slug.
Proof.
  intros Hf. unfold get_source, update_source. simpl. induction (t_sources d) as [|s l IH]; [done|]. simpl.
  destruct (bool_decide_reflect (src_slug s = slug)) as [E|E].
  - by rewrite Hf, bool_decide_true.
  - by rewrite bool_decide_false, IH.
Qed.

Lemma update_source_other slug slug' f d :
  (forall s, src_slug (f s) = src_slug s) -> slug' <> slug ->
  get_source (update_source slug f d) slug' = get_source d slug'.
Proof.
  intros Hf Hne. unfold get_source, update_source. simpl. induction (t_sources d) as [|s l IH]; [done|]. simpl.
  destruct (bool_decide_reflect (src_slug s = slug)) as [<-|E].
  - rewrite Hf, bool_decide_false by done. apply IH.
  - by rewrite IH.
Qed.

Lemma get_source_Some d slug s : get_source d slug = Some s -> s ∈ t_sources d /\ src_slug s = slug.
Proof.
  unfold get_source. intros H. apply find_some in H as [Hin Hs]. bool_prop.
  split; [by apply list_elem_of_In|done].
Qed.

Lemma get_source_None d slug : get_source d slug = None <-> forall s, s ∈ t_sources d -> src_slug s <> slug.
Proof.
  unfold get_source. split.
  - intros H s Hs. apply list_elem_of_In in Hs. by apply (find_none _ _ H), bool_decide_eq_false in Hs.
  - intros H. destruct (List.find _ _) as [s|] eqn:E; [|done]. apply find_some in E as [Hin Hs].
    bool_prop. exfalso. apply (H s); [by apply list_elem_of_In|done].
Qed.

(** The rows obey the constraints, and every scope names a source of mode [add]. *)
Record store_ok (d : feed_db) : Prop := StoreOk {
  ok_slugs : NoDup (map src_slug (t_sources d));
  ok_ids : StronglySorted Z.lt (map src_id (t_sources d))
           /\ Forall (fun s => src_id s < t_next_id d) (t_sources d);
  ok_names : Forall (fun s => is_ok (validate_slug (src_slug s)) = true) (t_sources d);
  ok_enums : Forall (fun s => src_kind s ∈ FEED_KINDS /\ src_mode s ∈ FEED_MODES) (t_sources d);
  ok_scopes : forall s t, s ∈ t_sources d -> src_scope_slug s = Some t ->
      src_mode s = py "subtract" /\ exists s', s' ∈ t_sources d /\ src_slug s' = t /\ src_mode s' = py "add";
  ok_runs : (length (t_runs d) <= RUNS_KEPT)%nat }.

(** An update that keeps the identity columns keeps the invariant. *)
Definition keeps_identity (f : split_source -> split_source) : Prop :=
  forall s, src_id (f s) = src_id s /\ src_slug (f s) = src_slug s /\ src_kind (f s) = src_kind s
    /\ src_mode (f s) = src_mode s
    /\ (src_scope_slug (f s) = src_scope_slug s \/ src_scope_slug (f s) = None).

Lemma map_update {A} (g : split_source -> A) slug f (l : list split_source) :
  (forall s, g (f s) = g s) ->
  map g (map (fun s => if bool_decide (src_slug s = slug) then f s else s) l) = map g l.
Proof. intros Hg. rewrite map_map. apply map_ext. intros s. by destruct (bool_decide _). Qed.

Lemma elem_of_updated slug f d s :
  s ∈ t_sources (update_source slug f d) ->
  exists s0, s0 ∈ t_sources d /\ (s = s0 \/ s = f s0).
Proof.
  unfold update_source. simpl. intros Hs. apply list_elem_of_fmap in Hs as (s0 & -> & Hs0).
  exists s0. split; [done|]. destruct (bool_decide _); auto.
Qed.

Lemma updated_elem slug f d s0 : s0 ∈ t_sources d ->
  exists s, s ∈ t_sources (update_source slug f d) /\ (s = s0 \/ s = f s0).
Proof.
  intros Hs. eexists. split; [apply list_elem_of_fmap; by exists s0|]. destruct (bool_decide _); auto.
Qed.

Lemma update_source_ok slug f d : keeps_identity f -> store_ok d -> store_ok (update_source slug f d).
Proof.
  intros Hf [H1 [H2 H3] H4 H5 H6 H7].
  assert (forall (P : split_source -> Prop), (forall s, P s -> P (f s)) ->
            Forall P (t_sources d) -> Forall P (t_sources (update_source slug f d))) as HP.
  { intros P Hp Hall. apply Forall_elem. intros s Hs. rewrite Forall_elem in Hall.
    apply elem_of_updated in Hs as (s0 & Hs0 & [->| ->]); auto. }
  split; simpl.
  - rewrite map_update; [done|]. intros s. apply Hf.
  - rewrite map_update by (intros s; apply Hf). split; [done|].
    apply (HP (fun s => src_id s < t_next_id d)); [|done]. intros s. by destruct (Hf s) as (-> & _).
  - apply (HP (fun s => is_ok (validate_slug (src_slug s)) = true)); [|done].
    intros s. by destruct (Hf s) as (_ & -> & _).
  - apply (HP (fun s => src_kind s ∈ FEED_KINDS /\ src_mode s ∈ FEED_MODES)); [|done].
    intros s. by destruct (Hf s) as (_ & _ & -> & -> & _).
  - intros s t Hs Ht. apply elem_of_updated in Hs as (s0 & Hs0 & Hcase).
    destruct (Hf s0) as (_ & _ & _ & Hm & Hsc).
    assert (src_scope_slug s0 = Some t /\ src_mode s = src_mode s0) as [Ht0 ->].
    { destruct Hcase as [->| ->]; [done|]. by destruct Hsc as [Hsc|Hsc]; rewrite Hsc in Ht. }
    destruct (H6 s0 t Hs0 Ht0) as (Hmode & s' & Hs' & Hsl & Hadd). split; [done|].
    destruct (updated_elem slug f d s' Hs') as (s1 & Hs1 & Hc). exists s1. split; [done|].
    destruct (Hf s') as (_ & E1 & _ & E2 & _). destruct Hc as [->| ->]; [done|by rewrite E1, E2].
  - done.
Qed.

Lemma slug_inj d s1 s2 : NoDup (map src_slug (t_sources d)) ->
  s1 ∈ t_sources d -> s2 ∈ t_sources d -> src_slug s1 = src_slug s2 -> s1 = s2.
Proof.
  intros Hnd. induction (t_sources d) as [|s l IH]; [by intros ?%not_elem_of_nil|].
  simpl in Hnd. apply NoDup_cons in Hnd as [Hni Hnd].
  assert (forall s', s' ∈ l -> src_slug s' ∈ map src_slug l) as Hm.
  { intros s' Hs'. apply list_elem_of_fmap. by exists s'. }
  intros [->|H1]%elem_of_cons [->|H2]%elem_of_cons E; [done|..].
  - exfalso. apply Hni. rewrite E. by apply Hm.
  - exfalso. apply Hni. rewrite <- E. by apply Hm.
  - by apply IH.
Qed.

Lemma fold_updates f xs d : (forall s, src_slug (f s) = src_slug s) -> NoDup xs ->
  fold_left (fun d x => update_source x f d) xs d
  = with_sources (map (fun s => if bool_decide (src_slug s ∈ xs) then f s else s)) d.
Proof.
  intros Hf Hnd. revert d. induction Hnd as [|x xs Hx Hnd IH]; intros d; simpl.
  - destruct d as [l ? ? ? ? ? ? ?]. unfold with_sources. simpl. f_equal. symmetry.
    induction l as [|s l IH]; [done|]. simpl. by rewrite IH.
  - rewrite IH. unfold update_source, with_sources; simpl. f_equal. rewrite map_map. apply map_ext.
    intros s. destruct (bool_decide_reflect (src_slug s = x)) as [E|E].
    + rewrite Hf, E, (bool_decide_false _ Hx), bool_decide_true by (by left). done.
    + apply f_equal with (f := fun b : bool => if b then f s else s).
      apply bool_decide_ext. rewrite elem_of_cons. tauto.
Qed.

Lemma filter_map_NoDup {A B} (g : A -> B) (p : A -> bool) l : NoDup (map g l) -> NoDup (map g (List.filter p l)).
Proof.
  induction l as [|x l IH]; simpl; [done|]. intros [Hx Hnd]%NoDup_cons.
  destruct (p x); simpl; [|by apply IH]. apply NoDup_cons. split; [|by apply IH].
  intros Hin. apply Hx. apply list_elem_of_fmap in Hin as (y & -> & Hy).
  apply list_elem_of_fmap. exists y. split; [done|].
  apply list_elem_of_In in Hy. apply filter_In in Hy as [Hy _]. by apply list_elem_of_In.
Qed.

Lemma delete_source_eq slug d : NoDup (map src_slug (t_sources d)) ->
  t_sources (delete_source slug d)
  = map (fun s => if bool_decide (src_scope_slug s = Some slug) then orphan_row slug s else s)
      (List.filter (fun s => negb (bool_decide (src_slug s = slug))) (t_sources d)).
Proof.
  intros Hnd. unfold delete_source. rewrite fold_updates; [|done|by apply filter_map_NoDup].
  simpl. apply map_ext_in. intros s Hs. apply filter_In in Hs as [Hs _]. apply list_elem_of_In in Hs.
  apply f_equal with (f := fun b : bool => if b then _ else s). apply bool_decide_ext.
  rewrite list_elem_of_fmap. setoid_rewrite list_elem_of_In. setoid_rewrite filter_In.
  setoid_rewrite <- list_elem_of_In. split.
  - intros (s' & Hsl & Hs' & Hsc). bool_prop. by rewrite (slug_inj d s s').
  - intros Hsc. exists s. split_and!; [done..|]. by rewrite bool_decide_true.
Qed.

Lemma delete_source_tables slug d :
  t_prefixes (delete_source slug d) = filter (fun row => row.1 <> slug) (t_prefixes d)
  /\ t_next_id (delete_source slug d) = t_next_id d /\ t_runs (delete_source slug d) = t_runs d
  /\ t_exclusions (delete_source slug d) = t_exclusions d.
Proof.
  unfold delete_source. set (deps := map src_slug _).
  assert (forall d', t_prefixes (fold_left (fun d x => update_source x (orphan_row slug) d) deps d') = t_prefixes d'
    /\ t_next_id (fold_left (fun d x => update_source x (orphan_row slug) d) deps d') = t_next_id d'
    /\ t_runs (fold_left (fun d x => update_source x (orphan_row slug) d) deps d') = t_runs d'
    /\ t_exclusions (fold_left (fun d x => update_source x (orphan_row slug) d) deps d') = t_exclusions d') as H.
  { induction deps as [|x xs IH]; intros d'; [done|]. simpl. by destruct (IH (update_source x (orphan_row slug) d')). }
  destruct (H (with_prefixes (filter (fun row => row.1 <> slug))
    (with_sources (List.filter (fun s => negb (bool_decide (src_slug s = slug)))) d))) as (-> & -> & -> & ->).
  done.
Qed.

Lemma elem_of_deleted slug d s : NoDup (map src_slug (t_sources d)) ->
  s ∈ t_sources (delete_source slug d) <->
  exists s0, s0 ∈ t_sources d /\ src_slug s0 <> slug
    /\ s = if bool_decide (src_scope_slug s0 = Some slug) then orphan_row slug s0 else s0.
Proof.
  intros Hnd. rewrite delete_source_eq by done. rewrite list_elem_of_fmap.
  setoid_rewrite list_elem_of_In. setoid_rewrite filter_In. setoid_rewrite <- list_elem_of_In.
  setoid_rewrite negb_true_iff. setoid_rewrite bool_decide_eq_false. naive_solver.
Qed.

Lemma sorted_filter {A} (R : A -> A -> Prop) (g : split_source -> A) p l :
  StronglySorted R (map g l) -> StronglySorted R (map g (List.filter p l)).
Proof.
  induction l as [|x l IH]; simpl; [done|]. intros [Hs Hall]%StronglySorted_inv.
  destruct (p x); simpl; [|by apply IH]. constructor; [by apply IH|].
  rewrite Forall_elem in *. intros y Hy. apply Hall.
  apply list_elem_of_fmap in Hy as (z & -> & Hz). apply list_elem_of_fmap. exists z. split; [done|].
  apply list_elem_of_In in Hz. apply filter_In in Hz as [Hz _]. by apply list_elem_of_In.
Qed.

Lemma delete_source_ok slug d : store_ok d -> store_ok (delete_source slug d).
Proof.
  intros [H1 [H2 H3] H4 H5 H6 H7]. pose proof (elem_of_deleted slug d) as Hel.
  destruct (delete_source_tables slug d) as (_ & Hn & Hr & _).
  assert (forall (g : split_source -> Prop), (forall s, g s -> g (orphan_row slug s)) ->
    Forall g (t_sources d) -> Forall g (t_sources (delete_source slug d))) as HF.
  { intros g Hg Hall. rewrite Forall_elem in *. intros s Hs. apply Hel in Hs as (s0 & Hs0 & _ & ->); [|done].
    case_bool_decide; auto. }
  split.
  - rewrite delete_source_eq, map_map by done. erewrite map_ext; [by apply filter_map_NoDup|].
    intros s. by case_bool_decide.
  - rewrite Hn. split; [|by apply HF].
    rewrite delete_source_eq, map_map by done. erewrite map_ext; [by apply sorted_filter|].
    intros s. by case_bool_decide.
  - by apply HF.
  - by apply HF.
  - intros s t Hs Ht. apply Hel in Hs as (s0 & Hs0 & Hne & ->); [|done].
    case_bool_decide as Hsc; [done|].
    destruct (H6 s0 t Hs0 Ht) as (Hm & s' & Hs' & <- & Hadd). split; [done|].
    exists s'. split_and!; try done. apply Hel; [done|]. exists s'. split_and!; [done|congruence|].
    rewrite bool_decide_false; [done|]. intros Hsc'. destruct (H6 s' slug Hs' Hsc') as [Hm' _].
    rewrite Hadd in Hm'. by apply mode_ne in Hm'.
  - by rewrite Hr.
Qed.

Lemma add_source_checked_ok slug title url kind mode scope d d' :
  store_ok d -> add_source_checked slug title url kind mode scope d = Ok d' -> store_ok d'.
Proof.
  intros [H1 [H2 H3] H4 H5 H6 H7] H. unfold add_source_checked in H.
  destruct (validate_slug slug) as [[]|] eqn:Hv; [|done].
  destruct (get_source d slug) eqn:Hg; [done|].
  destruct (validate_source_relations slug mode scope (existing_modes d)) as [[]|] eqn:Hrel; [|done].
  unfold add_source in H. destruct (source_row_ok d slug kind mode scope) eqn:Hrow; [|done]. simplify_eq.
  rewrite get_source_None in Hg. unfold source_row_ok in Hrow. bool_prop.
  split; simpl.
  - rewrite map_app. apply NoDup_app. split_and!; [done| |apply NoDup_singleton].
    intros x Hx Hin. apply list_elem_of_singleton in Hin as ->.
    apply list_elem_of_fmap in Hx as (s & E & Hs). by apply (Hg s).
  - rewrite map_app. split.
    + simpl. rewrite Forall_elem in H3. clear -H2 H3.
      induction (t_sources d) as [|s l IH]; simpl; [by repeat constructor|].
      simpl in H2. apply StronglySorted_inv in H2 as [Hs Hall]. constructor.
      * apply IH; [done|]. intros x Hx. apply H3. by right.
      * apply Forall_app. split; [done|]. constructor; [|constructor]. apply H3. by left.
    + apply Forall_app. split; [|constructor; [simpl; lia|constructor]].
      eapply Forall_impl; [exact H3|]. simpl. lia.
  - apply Forall_app. split; [done|]. constructor; [by simpl; rewrite Hv|constructor].
  - apply Forall_app. split; [done|]. by constructor.
  - intros s t [Hs|Hs]%elem_of_app Ht.
    + destruct (H6 s t Hs Ht) as (Hm & s' & Hs' & ? & ?). split; [done|]. exists s'.
      split_and!; try done. apply elem_of_app. by left.
    + apply list_elem_of_singleton in Hs as ->. simpl in Ht. subst scope. simpl.
      unfold validate_source_relations in Hrel.
      destruct (bool_decide_reflect (mode ∈ FEED_MODES)); [|done]. simpl in Hrel.
      destruct (bool_decide_reflect (mode = py "add")) as [|Hadd]; [done|].
      destruct (bool_decide_reflect (t = slug)); [done|].
      destruct (existing_modes d !! t) as [m|] eqn:Hm; [|done].
      destruct (bool_decide_reflect (m = py "subtract")) as [|Hsub]; [done|].
      apply elem_of_list_to_map_2, list_elem_of_fmap in Hm as (s' & [= -> ->] & Hs').
      rewrite Forall_elem in H5. destruct (H5 s' Hs') as [_ Hmode].
      assert (forall x, x ∈ FEED_MODES -> x = py "add" \/ x = py "subtract") as HM.
      { intros x. unfold FEED_MODES. set_solver. }
      split; [destruct (HM mode); done|]. exists s'. split_and!; [apply elem_of_app; by left|done|].
      destruct (HM _ Hmode); done.
  - done.
Qed.

Lemma store_step_ok d d' : store_step d d' -> store_ok d -> store_ok d'.
Proof.
  intros Hs Hok. destruct Hs;
    try (by apply update_source_ok; [intros s; simpl; auto 10|done]);
    try (by eapply add_source_checked_ok); try (by apply delete_source_ok);
    destruct Hok as [H1 H2 H3 H4 H5 H6]; split; try done.
  unfold record_run, with_runs. cbn [t_runs]. rewrite length_take. lia.
Qed.

Lemma seeded_db_ok : store_ok seeded_db.
Proof.
  split; simpl.
  - apply (bool_decide_unpack _). vm_compute. exact I.
  - split; repeat constructor; simpl; lia.
  - repeat constructor.
  - apply (bool_decide_unpack _). vm_compute. exact I.
  - intros s t Hs Ht. rewrite !elem_of_cons in Hs.
    destruct Hs as [->|[->|[->|Hs%not_elem_of_nil]]]; [done|done| |done]. injection Ht as <-.
    split; [done|]. eexists. split; [right; left|done].
  - lia.
Qed.

(** One outcome of one fetch of the source. *)
Inductive fetch_event :=
  | Attempted (now : Z)
  | Succeeded (status : str) (prefix_count : Z) (etag last_modified : option str) (now : Z)
  | Failed (status error : str) (now : Z).
Definition record_fetch (slug : str) (d : feed_db) (e : fetch_event) : feed_db :=
  match e with
  | Attempted now => record_attempt slug now d
  | Succeeded status n etag lm now => record_success slug status n etag lm now d
  | Failed status error now => record_failure slug status error now d
  end.
Definition is_success (e : fetch_event) : bool :=
  match e with Succeeded _ _ _ _ _ => true | _ => false end.
Definition is_failure (e : fetch_event) : bool := match e with Failed _ _ _ => true | _ => false end.
Definition failures (es : list fetch_event) : Z := Z.of_nat (length (List.filter is_failure es)).

Lemma record_fetch_row slug d e : exists f, (forall s, src_slug (f s) = src_slug s)
  /\ record_fetch slug d e = update_source slug f d
  /\ forall s, match e with
     | Attempted now => f s = attempt_row now s
     | Succeeded status n etag lm now => f s = success_row status n etag lm now s
     | Failed status error now => f s = failure_row status error now s
     end.
Proof. destruct e; eexists; (split; [|split; [reflexivity|]]); done. Qed.

Lemma fetch_no_success slug es d s :
  forallb (fun e => negb (is_success e)) es = true -> get_source d slug = Some s ->
  exists s', get_source (fold_left (record_fetch slug) es d) slug = Some s'
    /\ src_fail_streak s' = src_fail_streak s + failures es
    /\ src_last_success_ts s' = src_last_success_ts s /\ src_last_etag s' = src_last_etag s
    /\ src_last_modified s' = src_last_modified s /\ src_prefix_count s' = src_prefix_count s
    /\ src_enabled s' = src_enabled s.
Proof.
  revert d s. induction es as [|e es IH]; intros d s Hns Hg; simpl in *.
  { exists s. unfold failures. simpl. split_and!; (done || lia). }
  bool_prop. destruct (record_fetch_row slug d e) as (f & Hf & -> & Hrow).
  destruct (IH (update_source slug f d) (f s)) as (s' & Hg' & H1 & H2 & H3 & H4 & H5 & H6);
    [done|by rewrite update_source_lookup, Hg|].
  exists s'. specialize (Hrow s). unfold failures in *. simpl.
  destruct e; simpl in *; try done; rewrite Hrow in *; simpl in *; split_and!; (done || lia).
Qed.

Lemma fetch_keeps_source slug es d s : get_source d slug = Some s ->
  exists s', get_source (fold_left (record_fetch slug) es d) slug = Some s'.
Proof.
  revert d s. induction es as [|e es IH]; intros d s Hg; simpl; [eauto|].
  destruct (record_fetch_row slug d e) as (f & Hf & -> & _).
  eapply IH. by rewrite update_source_lookup, Hg.
Qed.

Lemma fetch_other slug slug' es d : slug' <> slug ->
  get_source (fold_left (record_fetch slug) es d) slug' = get_source d slug'.
Proof.
  intros Hne. revert d. induction es as [|e es IH]; intros d; simpl; [done|].
  destruct (record_fetch_row slug d e) as (f & Hf & -> & _). by rewrite IH, update_source_other.
Qed.

(** ** Properties *)

(** Whatever sequence of operations the program performs on the tables created
    by the schema, the source rows keep their constraints: slugs are unique,
    valid file names and none of the reserved ones; kinds and modes are known;
    every scope belongs to a subtract source and names an existing add source, so
    there are no dangling, circular or chained subtractions; and the journal never
    exceeds 200 rows. *)
Theorem store_invariant (d : feed_db) : rtc store_step seeded_db d ->
  store_ok d /\ (forall s, s ∈ t_sources d -> src_slug s <> MANUAL_ORIGIN /\ src_slug s <> LIST_SCOPE)
  /\ forall s t u, s ∈ t_sources d -> src_scope_slug s = Some t ->
       u ∈ t_sources d -> src_slug u = t -> src_scope_slug u = None.
Proof.
  intros Hr. assert (store_ok d) as Hok.
  { apply rtc_nsteps in Hr as [n Hr]. revert Hr. generalize seeded_db_ok. generalize seeded_db. revert d.
    induction n as [|n IH]; intros d d0 H0 Hr; inversion Hr; subst; [done|]. eapply IH; [|done].
    by eapply store_step_ok. }
  split_and!; [done|..].
  - intros s Hs. pose proof (ok_names d Hok) as Hn. rewrite Forall_elem in Hn. specialize (Hn s Hs).
    unfold validate_slug in Hn. destruct (negb (slug_re (src_slug s))); [done|].
    destruct (bool_decide_reflect (src_slug s = MANUAL_ORIGIN)); [done|].
    by destruct (bool_decide_reflect (src_slug s = LIST_SCOPE)).
  - intros s t u Hs Ht Hu Hsl. destruct (ok_scopes d Hok s t Hs Ht) as (_ & s' & Hs' & Hsl' & Hadd).
    rewrite (slug_inj d u s' (ok_slugs d Hok) Hu Hs') by congruence.
    destruct (src_scope_slug s') as [v|] eqn:Hv; [|done].
    destruct (ok_scopes d Hok s' v Hs' Hv) as (Hm & _). rewrite Hadd in Hm. by apply mode_ne in Hm.
Qed.

Lemma store_invariant_witness :
  exists d, add_source_checked (py "my-feed") (py "Mine") (py "https://x") (py "cidr_text")
              (py "subtract") (Some (py "telegram-cidr")) seeded_db = Ok d
    /\ store_ok (delete_source (py "google-goog") d).
Proof.
  eexists. split; [vm_compute; reflexivity|].
  apply (store_invariant (delete_source (py "google-goog") _)).
  eapply rtc_l; [eapply (do_add (py "my-feed") (py "Mine") (py "https://x") (py "cidr_text")
              (py "subtract") (Some (py "telegram-cidr"))); vm_compute; reflexivity|].
  apply rtc_once, do_delete.
Defined.

(** The failure streak counts consecutive failures and a failure keeps the last
    good state: after any history of fetches of a source, [fail_streak] is the
    number of failures since the last success, while the success stamp, the
    validators and the prefix count are those of that success, however many
    attempts have failed since; no other source is touched. *)
Theorem fail_streak_counts_consecutive (slug : str) (d : feed_db) (before after : list fetch_event)
    status n etag lm now :
  is_Some (get_source d slug) -> forallb (fun e => negb (is_success e)) after = true ->
  let d' := fold_left (record_fetch slug) (before ++ Succeeded status n etag lm now :: after) d in
  (exists s, get_source d' slug = Some s /\ src_fail_streak s = failures after
     /\ src_last_success_ts s = now /\ src_last_etag s = etag /\ src_last_modified s = lm
     /\ src_prefix_count s = n)
  /\ forall other, other <> slug -> get_source d' other = get_source d other.
Proof.
  intros [s0 Hs0] Hns d'. split; [|intros other Hne; by apply fetch_other].
  unfold d'. rewrite fold_left_app. cbn [fold_left].
  destruct (fetch_keeps_source slug before d s0 Hs0) as (s1 & Hs1).
  destruct (fetch_no_success slug after
              (record_fetch slug (fold_left (record_fetch slug) before d) (Succeeded status n etag lm now))
              (success_row status n etag lm now s1)) as (s & Hs & H1 & H2 & H3 & H4 & H5 & _); [done| |].
  - simpl. unfold record_success. by rewrite update_source_lookup, Hs1.
  - exists s. split_and!; try done.
Qed.

Lemma fail_streak_counts_consecutive_witness :
  exists s, get_source (fold_left (record_fetch (py "telegram-cidr"))
      [Failed (py "error") (py "timeout") 10; Succeeded (py "ok") 8 None None 20;
       Attempted 30; Failed (py "error") (py "HTTP 500") 30; Failed (py "empty") (py "no prefix") 40] seeded_db)
      (py "telegram-cidr") = Some s
    /\ src_fail_streak s = 2 /\ src_last_success_ts s = 20.
Proof.
  destruct (fail_streak_counts_consecutive (py "telegram-cidr") seeded_db
              [Failed (py "error") (py "timeout") 10]
              [Attempted 30; Failed (py "error") (py "HTTP 500") 30; Failed (py "empty") (py "no prefix") 40]
              (py "ok") 8 None None 20) as [(s & Hs & H1 & H2 & _) _];
    [vm_compute; by eexists|reflexivity|].
  exists s. split_and!; [exact Hs|exact H1|exact H2].
Defined.
