(* ===== verification/FeedService.v ===== *)
(** * The feed service ([services/warp_split_feeds.py])

    The unattended cycle and the admin's operations on the split list, over a
    world made of the host of the manager, the tables, the fetcher's cache, the
    messages sent and the in-memory cooldown ledger. Clocks are oracles. What it
    promises is proved in [FeedSafety], [FeedDecisions] and [FeedRefresh]. *)

From S2P Require Import Prelude PyText PyIp IpSpace Float64 Json SplitMerge SplitAnalysis SplitManager WarpFetcher FeedStore.
From Stdlib Require Import SpecFloat.
#[local] Open Scope Z_scope.

(** ** Configuration and errors *)

Definition MODE_OFF : str := py "off".
Definition MODE_REVIEW : str := py "review".
Definition MODE_AUTO : str := py "auto".
Definition SERVICE_MODES : list str := [MODE_OFF; MODE_REVIEW; MODE_AUTO].

Definition DECISION_APPLIED : str := py "applied".
Definition DECISION_QUEUED : str := py "queued".
Definition DECISION_NOCHANGE : str := py "nochange".
Definition DECISION_REJECTED : str := py "rejected".
Definition DECISION_FAILED : str := py "failed".

Definition ADOPTED_META_KEY : str := py "warp_split_manual_adopted".
Definition STREAK_HASH_KEY : str := py "warp_split_streak_hash".
Definition STREAK_COUNT_KEY : str := py "warp_split_streak_count".

(** Every exception that crosses the service: the manager's, the [WarpFeedError]s
    by cause, and a [ValueError] of [ipaddress]. *)
Inductive svc_error :=
  | SplitErr (e : split_error)
  | NoCache (slug : str)
  | CapCause (pairs : list (str * str)) (count limit : Z)
  | NothingPending
  | StaleCandidate (under_lock : bool)
  | SourceErr (e : source_error)
  | ValueErr.
Definition is_feed_error (e : svc_error) : bool :=
  match e with
  | NoCache _ | CapCause _ _ _ | NothingPending | StaleCandidate _ => true
  | SourceErr ConstraintFailed => false
  | SourceErr _ => true
  | SplitErr _ | ValueErr => false
  end.
Definition is_split_error (e : svc_error) : bool :=
  is_feed_error e || match e with
                     | SplitErr (RunnerRaised _) | SplitErr OverflowInGateway => false
                     | SplitErr _ => true
                     | _ => false
                     end.

Record service_config := ServiceConfig {
  sv_mode : str;
  sv_thresholds : thresholds;
  sv_confirm_streak : Z;
  sv_alert_cooldown_sec : Z;
  sv_fail_streak_alert : Z;
  sv_has_notify : bool;
  sv_has_notify_card : bool;
  sv_manager : split_config;
  sv_fetcher : fetcher_config }.
(** The clamping of the constructor. *)
Definition init_config (mode : str) (t : thresholds) (confirm_streak alert_cooldown_sec fail_streak_alert : Z)
    (has_notify has_notify_card : bool) (manager : split_config) (f : fetcher_config) : service_config :=
  ServiceConfig (if bool_decide (mode ∈ SERVICE_MODES) then mode else MODE_REVIEW) t
    (Z.max 1 confirm_streak) (Z.max 0 alert_cooldown_sec) (Z.max 1 fail_streak_alert)
    has_notify has_notify_card manager f.

(** ** Results *)

Record source_refresh := SourceRefresh {
  sr_slug : str; sr_status : str; sr_prefix_count : Z; sr_error : option str }.
Definition sr_ok (r : source_refresh) : bool :=
  negb (bool_decide (sr_status r ∈ [py "error"; py "empty"])).
Definition sr_empty_parse (r : source_refresh) : bool := bool_decide (sr_status r = py "empty").

Record merge_plan := MergePlan {
  mp_prefixes : list str;
  mp_report : merge_report;
  mp_current : list str;
  mp_subtract_pairs : list (str * str) }.
Definition mp_added (p : merge_plan) : list str := sorted_difference (mp_prefixes p) (mp_current p).
Definition mp_removed (p : merge_plan) : list str := sorted_difference (mp_current p) (mp_prefixes p).
Definition mp_identical (p : merge_plan) : bool := bool_decide (mp_prefixes p = mp_current p).
Definition delta_pct (p : merge_plan) : float :=
  let base := Z.of_nat (length (mp_current p)) in
  if base =? 0 then match mp_prefixes p with [] => fzero | _ => float_of_int 100 end
  else percent (Z.of_nat (length (mp_added p)) + Z.of_nat (length (mp_removed p))) base.

Record cycle_result := CycleResult {
  cy_mode : str; cy_decision : str; cy_reason : str; cy_sources : list source_refresh;
  cy_analysis : option change_analysis; cy_outcome : option apply_outcome;
  cy_detail : str; cy_streak : Z }.
Definition cy_queued (c : cycle_result) : bool := bool_decide (cy_decision c = DECISION_QUEUED).
Definition cy_applied (c : cycle_result) : bool := bool_decide (cy_decision c = DECISION_APPLIED).

(** A message handed to a notification sink, by its template. *)
Inductive message :=
  | Plain (text : str)
  | GuardRejected (detail : str)
  | FailStreakMsg (slug : str) (count : Z) (error : str)
  | StaleMsg (slug : str) (days : Z)
  | AppliedMsg (a : change_analysis) (o : apply_outcome) (approved : bool)
  | CardMsg (a : change_analysis).

Record refresh_result := RefreshResult {
  rr_sources : list source_refresh; rr_plan : option merge_plan; rr_outcome : option apply_outcome;
  rr_blocked_reason : option str; rr_alerts : list str }.
Definition rr_applied (r : refresh_result) : bool :=
  match rr_outcome r with Some o => ao_changed o | None => false end.

(** ** The world *)

Record world := World {
  w_host : host;
  w_db : feed_db;
  w_fetcher : fetcher;
  w_alerted_at : gmap str Z;
  w_sent : list (bool * message);     (* (card sink?, message), newest first *)
  w_tick : nat }.
Definition WM (A : Type) : Type := M world svc_error A.

#[export] Instance world_host : Part world host.
Proof.
  refine {| part_get := w_host;
            part_set h w := World h (w_db w) (w_fetcher w) (w_alerted_at w) (w_sent w) (w_tick w) |};
    [done|by intros []|done].
Defined.
#[export] Instance world_db : Part world feed_db.
Proof.
  refine {| part_get := w_db;
            part_set d w := World (w_host w) d (w_fetcher w) (w_alerted_at w) (w_sent w) (w_tick w) |};
    [done|by intros []|done].
Defined.
#[export] Instance world_fetcher : Part world fetcher.
Proof.
  refine {| part_get := w_fetcher;
            part_set f w := World (w_host w) (w_db w) f (w_alerted_at w) (w_sent w) (w_tick w) |};
    [done|by intros []|done].
Defined.

Class ServiceEnv := {
  clock : nat -> Z;                     (* self._clock() *)
  wall_clock : nat -> Z;                (* int(time.time()) in the repository *)
  json_str : json -> str;               (* str() of a decoded JSON value *)
  value_error_text : str -> str;        (* the text of ipaddress's ValueError *)
  others : world -> world }.            (* the other tasks, while a run awaits *)

Definition tell {A} (oracle : nat -> A) : WM A :=
  fun w => (Ok (oracle (w_tick w)),
            World (w_host w) (w_db w) (w_fetcher w) (w_alerted_at w) (w_sent w) (S (w_tick w))).
Definition on_host {A} (m : HM A) : WM A := embed SplitErr m.
Definition query {A} (f : feed_db -> A) : WM A := gets (fun w => f (w_db w)).
Definition store (f : feed_db -> feed_db) : WM unit :=
  modify (fun w => World (w_host w) (f (w_db w)) (w_fetcher w) (w_alerted_at w) (w_sent w) (w_tick w)).
(** What the other tasks do between two awaited calls of a run (admins editing
    the tables, applies from another chat, other writers of the file): anything. *)
Definition paused `{ServiceEnv} (w : world) : world :=
  let v := others w in World (w_host v) (w_db v) (w_fetcher v) (w_alerted_at v) (w_sent v) (S (w_tick w)).
Definition pause `{ServiceEnv} : WM unit := modify paused.
Definition stamp_alert (key : str) (now : Z) : WM unit :=
  modify (fun w => World (w_host w) (w_db w) (w_fetcher w) (<[key := now]> (w_alerted_at w))
                     (w_sent w) (w_tick w)).
Definition send (card : bool) (m : message) : WM unit :=
  modify (fun w => World (w_host w) (w_db w) (w_fetcher w) (w_alerted_at w)
                     ((card, m) :: w_sent w) (w_tick w)).

(** ** Texts *)

Section Texts.
Context {Env : ServiceEnv} {Fetch : FetchEnv}.

Definition feed_error_text (payload : str) (e : feed_parse_error) : str :=
  match e with
  | InvalidJson => py "invalid JSON: " ++ value_error_text payload
  | NotAnObject => py "expected a JSON object at the top level"
  | NoPrefixesArray => py "missing or non-list 'prefixes' array"
  | UnsupportedKind kind => py "unsupported feed kind " ++ repr kind
  | EmptyFeed kind ipv6 unparseable =>
      kind ++ py ": no usable IPv4 prefixes (" ++ show_Z ipv6 ++ py " IPv6 skipped, "
      ++ show_Z unparseable ++ py " unparseable) — treated as a failed fetch, not as an empty list"
  end.

Definition split_error_text (e : split_error) : str :=
  match e with
  | EmptyList => py "refusing to write empty list (would blackhole traffic)"
  | CapExceeded count limit =>
      show_Z count ++ py " prefixes exceeds the limit of " ++ show_Z limit
      ++ py " (WARP_SPLIT_MAX_PREFIXES) — nothing was applied"
  | InvalidCidr token => token ++ py ": invalid CIDR (" ++ value_error_text token ++ py ")"
  | NotIPv4 token => token ++ py ": only IPv4 is supported"
  | DefaultRoute token =>
      token ++ py ": default route rejected — use the WARP module toggle for full-tunnel"
  | TooShort token min_len =>
      token ++ py ": prefix shorter than /" ++ show_Z min_len
      ++ py " (WARP_SPLIT_MIN_PREFIXLEN) — refusing to route that much of the internet"
  | OverlapsGuard token guard reason =>
      token ++ py ": overlaps " ++ show_net guard ++ py " (" ++ reason ++ py ")"
  | HelperFailed code detail => py "apply helper failed (rc=" ++ show_Z code ++ py "): " ++ detail
  | StateFailed verb code detail =>
      py "state helper '" ++ verb ++ py "' failed (rc=" ++ show_Z code ++ py "): " ++ detail
  | NothingToReapply => py "list is empty — nothing to re-apply"
  | WouldEmpty => py "удаление опустошит список — отказано. Для full-tunnel: выключи split (systemctl disable vpn-bot-warp-split). Для all-direct: оставь хотя бы один sentinel-префикс."
  | RunnerRaised text => text
  | OverflowInGateway => py "int too big to convert"
  end.

Definition cap_message (pairs : list (str * str)) (count limit : Z) : str :=
  match pairs with
  | _ :: _ =>
      py "after subtracting "
      ++ str_join (py ", ") (map (fun '(base, minus) => base ++ py "-" ++ minus) pairs)
      ++ py " the list came to " ++ show_Z count ++ py " prefixes (limit " ++ show_Z limit ++ py ")"
  | [] =>
      py "the merged list came to " ++ show_Z count ++ py " prefixes (limit " ++ show_Z limit ++ py ")"
  end
  ++ py ". Nothing was applied. Either raise WARP_SPLIT_MAX_PREFIXES, or turn the subtraction off and take the base source whole.".

Definition relation_error_text (e : relation_error) : str :=
  match e with
  | UnknownMode mode => py "unknown mode " ++ repr mode ++ py " (expected 'add' or 'subtract')"
  | ScopeOnAdd => py "scope is only meaningful for a subtract source"
  | SelfSubtract slug => py "source '" ++ slug ++ py "' cannot subtract from itself"
  | UnknownScope scope => py "unknown scope source '" ++ scope ++ py "'"
  | ChainedSubtract scope =>
      py "'" ++ scope ++ py "' is itself a subtract source — chained subtraction is not supported; scope onto an add source or drop the scope"
  end.
Definition source_error_text (e : source_error) : str :=
  match e with
  | BadSlug message => message
  | DuplicateSlug slug => py "a source with slug '" ++ slug ++ py "' already exists"
  | BadRelation e => relation_error_text e
  | ConstraintFailed => py "constraint failed"
  end.

Definition error_text (e : svc_error) : str :=
  match e with
  | SplitErr e => split_error_text e
  | NoCache slug =>
      py "source '" ++ slug ++ py "' is enabled but has never produced a usable prefix set (no cache) — the list was left unchanged rather than applied without it"
  | CapCause pairs count limit => cap_message pairs count limit
  | NothingPending => py "there is no change waiting for approval"
  | StaleCandidate false =>
      py "the merge no longer produces the list this card described — nothing was applied; refresh the sources and decide again"
  | StaleCandidate true =>
      py "the merge changed while the approval was being applied — nothing was written; refresh the sources and decide again"
  | SourceErr e => source_error_text e
  | ValueErr => py "value error"
  end.
End Texts.

(** [round(x, 2)] *)
Definition round_half_even (num den : Z) : Z :=
  let q := num / den in
  let r := num mod den in
  if (2 * r <? den) || ((2 * r =? den) && Z.even q) then q else q + 1.
Definition round2 (x : float) : float :=
  match x with
  | S754_finite s m e =>
      if 0 <=? e then x
      else let k := round_half_even (100 * Z.pos m) (2 ^ (- e)) in
           if k =? 0 then S754_zero s
           else fdiv (float_of_int (if s then - k else k)) (float_of_int 100)
  | _ => x
  end.

Definition CARD_STORE_SAMPLE : nat := 50.
Definition deltas_payload (a : change_analysis) : deltas :=
  {| d_prefixes_before := ca_prefixes_before a; d_prefixes_after := ca_prefixes_after a;
     d_addresses_before := ca_addresses_before a; d_addresses_after := ca_addresses_after a;
     d_pure_aggregation := pure_aggregation a;
     d_added := take CARD_STORE_SAMPLE (ca_added a);
     d_removed := take CARD_STORE_SAMPLE (ca_removed a);
     d_added_total := Z.of_nat (length (ca_added a));
     d_removed_total := Z.of_nat (length (ca_removed a));
     d_holds := map (fun h => (h_code h, h_slug h, round2 (h_pct h), h_before h, h_after h)) (ca_holds a);
     d_sources := map (fun c =>
       (ch_slug c, ch_mode c, cov_prefixes <$> ch_before c, cov_prefixes (ch_after c),
        cov_addresses <$> ch_before c, cov_addresses (ch_after c), ch_stale c)) (ca_sources a) |}.

(** ** Manual rows without some ranges *)

(** [ipaddress.IPv4Network(raw, strict=False)] of every item. *)
Definition parse_loose (items : list str) : option (list ipv4net) := mapM (ipv4_network false) items.

(** The inner loop of [_manual_rows_without]: what is left of the parts outside
    one target. *)
Fixpoint cut_parts (target : ipv4net) (parts : list ipv4net) : option (list ipv4net) :=
  match parts with
  | [] => Some []
  | part :: rest =>
      if subnet_of part target then cut_parts target rest
      else if subnet_of target part then
        pieces ← address_exclude part target; rest' ← cut_parts target rest; Some (pieces ++ rest')
      else rest' ← cut_parts target rest; Some (part :: rest')
  end.
Fixpoint cut_targets (targets parts : list ipv4net) : option (list ipv4net) :=
  match targets with
  | [] => Some parts
  | target :: rest => parts' ← cut_parts target parts; cut_targets rest parts'
  end.
Fixpoint rows_without (manual : list str) (targets : list ipv4net) : option (list str * list str) :=
  match manual with
  | [] => Some ([], [])
  | raw :: rest =>
      net ← ipv4_network false raw;
      if negb (existsb (overlaps net) targets) then rows_without rest targets
      else
        left ← cut_targets targets [net];
        '(drop, add) ← rows_without rest targets;
        Some (raw :: drop, map show_net (merge_sort net_le left) ++ add)
  end.
Definition manual_rows_without (manual ranges : list str) : option (list str * list str) :=
  targets ← parse_loose ranges; rows_without manual targets.
Definition or_value_error {A} (o : option A) : result svc_error A :=
  match o with Some a => Ok a | None => Err ValueErr end.

(** ** The service *)

Section Service.
Context {Host : SplitEnv} {Fetch : FetchEnv} {Env : ServiceEnv} (cfg : service_config).

Definition ensure_manual_adopted : WM unit :=
  let! adopted := query (fun d => get_meta d ADOPTED_META_KEY) in
  if bool_decide (adopted = Some (py "1")) then ret tt
  else
    let! existing := on_host read_list in
    match existing with
    | [] => ret tt
    | _ => store (set_manual_prefixes existing)
    end ;;!
    store (set_meta ADOPTED_META_KEY (py "1")).

(** The contributions of the enabled sources, and the subtraction pairs. *)
Fixpoint gather (sources : list split_source) (stored : gmap str (list str))
    : result svc_error (list source_contribution * list (str * str)) :=
  match sources with
  | [] => Ok ([], [])
  | s :: rest =>
      if negb (src_enabled s) then gather rest stored
      else if bool_decide (src_mode s = py "add") && negb (src_include_in_list s) then gather rest stored
      else
        match stored !! src_slug s with
        | None | Some [] => Err (NoCache (src_slug s))
        | Some prefixes =>
            result_bind (gather rest stored) (fun '(contributions, pairs) =>
              Ok (SourceContribution (src_slug s) (src_mode s) (parsed_networks prefixes) (src_scope_slug s)
                    :: contributions,
                  (if bool_decide (src_mode s = py "subtract")
                   then [(match src_scope_slug s with Some (_ :: _ as t) => t | _ => py "all" end, src_slug s)]
                   else []) ++ pairs))
        end
  end.

Definition build_plan_with (manual_override : option (list str)) : WM merge_plan :=
  let! sources := query list_sources in
  let! stored := query all_prefixes in
  let manual := parsed_networks (match manual_override with
                                 | None => default [] (stored !! MANUAL_ORIGIN)
                                 | Some m => m
                                 end) in
  let! excluded := query exclusions in
  let! gathered := lift (gather sources stored) in
  let '(contributions, pairs) := gathered in
  let! report := lift (or_value_error (merge_split_list manual contributions (parsed_networks excluded))) in
  let! current := on_host read_list in
  ret (MergePlan (mr_prefixes report) report current pairs).
Definition build_plan : WM merge_plan := build_plan_with None.

(** [except WarpSplitCapExceeded as exc: raise WarpFeedError(cap_message)] *)
Definition explain_cap {A} (plan : merge_plan) (m : WM A) : WM A :=
  catch m (fun e => match e with
                    | SplitErr (CapExceeded count limit) => raise (CapCause (mp_subtract_pairs plan) count limit)
                    | _ => raise e
                    end).

Definition preview : WM merge_plan :=
  let! plan := build_plan in
  explain_cap plan (on_host (check_candidate (sv_manager cfg) (mp_prefixes plan))) ;;!
  ret plan.

(** [apply_computed]: the computation and the write, both under the list lock. *)
Definition apply_computed (compute : WM (list str)) (force : bool) (actor : option Z) : WM apply_outcome :=
  let! prefixes := compute in
  on_host (apply_locked (sv_manager cfg) prefixes force actor).
Definition recompute_for_apply : WM (list str) := let! plan := build_plan in ret (mp_prefixes plan).

(** ** Refreshing *)

Definition refresh_one (source : split_source) : WM source_refresh :=
  let! now := tell wall_clock in
  store (record_attempt (src_slug source) now) ;;!
  let! fetched := (fun w =>
    let '(r, f) := fetch (sv_fetcher cfg) (src_slug source) (src_url source)
                     (src_last_etag source) (src_last_modified source) (w_fetcher w) in
    (Ok r, part_set f w)) in
  let failed status error :=
    let! now := tell wall_clock in
    store (record_failure (src_slug source) status error now) ;;!
    ret (SourceRefresh (src_slug source) status 0 (Some error)) in
  match fetched with
  | Err (FetchError text) => failed (py "error") text
  | Ok payload =>
      match parse_feed json_str (src_kind source) (fp_text payload) with
      | Err e => failed (if is_empty_feed_error e then py "empty" else py "error")
                        (feed_error_text (fp_text payload) e)
      | Ok parsed =>
          let prefixes := map show_net (pf_networks parsed) in
          store (replace_prefixes (src_slug source) prefixes) ;;!
          let! now := tell wall_clock in
          store (record_success (src_slug source) (fp_status payload) (Z.of_nat (length prefixes))
                   (fp_etag payload) (fp_last_modified payload) now) ;;!
          ret (SourceRefresh (src_slug source) (fp_status payload) (Z.of_nat (length prefixes)) None)
      end
  end.

Definition refresh_sources (slugs : option (list str)) : WM (list source_refresh) :=
  let! sources := query list_sources in
  mmap refresh_one
    (List.filter (fun s => src_enabled s && match slugs with
                                           | None => true
                                           | Some l => bool_decide (src_slug s ∈ l)
                                           end) sources).

(** ** Baseline *)

Definition capture_baseline : WM unit :=
  let! current := on_host read_list in
  match current with
  | [] => ret tt
  | _ =>
      let! stored := query all_prefixes in
      let coverages := (coverage_of <$> stored) ∪ {[ LIST_SCOPE := coverage_of current ]} in
      let! now := tell clock in
      store (set_baselines coverages (Some (list_hash current)) now)
  end.
Definition after_apply : WM unit := capture_baseline.

Definition reconcile_baseline : WM unit :=
  let! current := on_host read_list in
  match current with
  | [] => ret tt
  | _ =>
      let! stored_hash := query baseline_list_hash in
      if bool_decide (stored_hash = Some (list_hash current)) then ret tt else capture_baseline
  end.

Definition apply_plan (plan : merge_plan) (actor : option Z) : WM apply_outcome :=
  let! outcome := explain_cap plan (apply_computed recompute_for_apply false actor) in
  after_apply ;;!
  ret outcome.

(** [_apply_and_record], which nothing calls. *)
Definition apply_and_record (actor : option Z) : WM apply_outcome :=
  let! outcome := apply_computed recompute_for_apply false actor in
  after_apply ;;!
  ret outcome.

(** ** Alerts *)

Definition send_alerts (alerts : list str) : WM unit :=
  if sv_has_notify cfg then mfor (fun text => send false (Plain text)) alerts else ret tt.

Definition deliver_alert (card : bool) (m : message) : WM unit :=
  if card && sv_has_notify_card cfg then send true m
  else if sv_has_notify cfg then send false m else ret tt.
Definition alert_msg (key : str) (m : message) (cooldown card : bool) : WM unit :=
  let! now := tell clock in
  let! last := gets (fun w => w_alerted_at w !! key) in
  if cooldown && (0 <? sv_alert_cooldown_sec cfg)
     && match last with Some l => now - l <? sv_alert_cooldown_sec cfg | None => false end
  then ret tt
  else stamp_alert key now ;;! deliver_alert card m.

Definition alert_source_failures (refreshed : list source_refresh) : WM unit :=
  let! sources := query list_sources in
  let! now := tell clock in
  mfor (fun item =>
    match List.find (fun s => bool_decide (src_slug s = sr_slug item)) sources with
    | None => ret tt
    | Some source =>
        (if negb (sr_ok item) && (sv_fail_streak_alert cfg <=? src_fail_streak source)
         then alert_msg (py "fail-streak:" ++ sr_slug item)
                (FailStreakMsg (sr_slug item) (src_fail_streak source)
                   (take 200 (default [] (sr_error item)))) true false
         else ret tt) ;;!
        (if 0 <? src_last_success_ts source then
           let age := now - src_last_success_ts source in
           if stale_after_sec (sv_thresholds cfg) <? age
           then alert_msg (py "stale:" ++ sr_slug item) (StaleMsg (sr_slug item) (age / 86400)) true false
           else ret tt
         else ret tt)
    end) refreshed.

(** ** Refresh on demand *)

Definition alerts_of (refreshed : list source_refresh) : list str :=
  omap (fun item => if sr_ok item then None
                    else Some (py "WARP split feed '" ++ sr_slug item ++ py "' failed: "
                               ++ match sr_error item with Some e => e | None => py "None" end)) refreshed.

Definition refresh (slugs : option (list str)) (apply : bool) (actor : option Z) : WM refresh_result :=
  ensure_manual_adopted ;;!
  let! refreshed := refresh_sources slugs in
  let alerts := alerts_of refreshed in
  let! planned := attempt build_plan in
  match planned with
  | Err e =>
      if is_feed_error e then
        let alerts := alerts ++ [error_text e] in
        send_alerts alerts ;;!
        ret (RefreshResult refreshed None None (Some (error_text e)) alerts)
      else raise e
  | Ok plan =>
      if negb apply then
        send_alerts alerts ;;! ret (RefreshResult refreshed (Some plan) None None alerts)
      else
        let! applied := attempt (apply_plan plan actor) in
        match applied with
        | Err e =>
            if is_feed_error e then
              let alerts := alerts ++ [error_text e] in
              send_alerts alerts ;;!
              ret (RefreshResult refreshed (Some plan) None (Some (error_text e)) alerts)
            else raise e
        | Ok outcome =>
            send_alerts alerts ;;!
            ret (RefreshResult refreshed (Some plan) (Some outcome) None alerts)
        end
  end.

(** ** The journal *)

Definition run_row (item : source_refresh) (analysis : option change_analysis) : run_source :=
  let measured := match analysis with
    | None => None
    | Some a => List.find (fun c => bool_decide (ch_slug c = sr_slug item)) (rev (ca_sources a))
    end in
  RunSource (sr_slug item) (sr_status item) (sr_prefix_count item) (take 200 (default [] (sr_error item)))
    (match measured with
     | None => None
     | Some c => Some (cov_addresses (ch_after c),
                       match ch_before c with None => 0 | Some b => cov_addresses b end,
                       match ch_before c with None => 0 | Some b => cov_prefixes b end)
     end).
Definition run_metrics_for (result : cycle_result) : run_metrics :=
  RunMetrics (take 300 (cy_detail result))
    (match cy_analysis result with
     | None => None
     | Some a => Some (ca_prefixes_before a, ca_prefixes_after a, ca_addresses_before a, ca_addresses_after a,
                       pure_aggregation a, Z.of_nat (length (ca_added a)), Z.of_nat (length (ca_removed a)))
     end).
Definition record (result : cycle_result) (hash_override : option str) : WM cycle_result :=
  let! now := tell clock in
  let hash := match hash_override with
    | Some h => h
    | None => match cy_analysis result with None => [] | Some a => ca_list_hash a end
    end in
  store (record_run (SplitRun now (cy_mode result) (cy_decision result) (cy_reason result) hash
                       (map (fun item => run_row item (cy_analysis result)) (cy_sources result))
                       (run_metrics_for result))) ;;!
  ret result.

(** ** Analysis *)

Definition source_states (sources : list split_source) (report : merge_report) (now : Z)
    (refreshed : list source_refresh) : list source_state :=
  omap (fun s =>
    if negb (src_enabled s) then None
    else
      let outcome := List.find (fun r => bool_decide (sr_slug r = src_slug s)) (rev refreshed) in
      Some (SourceState (src_slug s) (src_mode s)
              (Coverage (default 0 (per_source_prefixes report !! src_slug s))
                        (default 0 (per_source_addresses report !! src_slug s)))
              (if src_last_success_ts s <=? 0 then None else Some (now - src_last_success_ts s))
              (match outcome with Some r => sr_empty_parse r | None => false end))) sources.
Definition analyse (plan : merge_plan) (refreshed : list source_refresh) : WM change_analysis :=
  let! sources := query list_sources in
  let! now := tell clock in
  let! base := query baselines in
  ret (analyse_change (mp_current plan) (mp_prefixes plan)
         (source_states sources (mp_report plan) now refreshed) base (sv_thresholds cfg) LIST_SCOPE).

(** ** The approval queue *)

Definition result_of (decision reason : str) (refreshed : list source_refresh)
    (analysis : option change_analysis) : cycle_result :=
  CycleResult (sv_mode cfg) decision reason refreshed analysis None [] 0.

Definition queue (refreshed : list source_refresh) (analysis : change_analysis) (plan : merge_plan)
    : WM cycle_result :=
  let! waiting := query pending in
  let already_queued := match waiting with
    | Some p => bool_decide (pc_list_hash p = ca_list_hash analysis)
    | None => false
    end in
  let reason := str_join [COMMA] (hold_keys analysis) in
  let! now := tell clock in
  store (set_pending (ca_list_hash analysis) (mp_prefixes plan) reason (deltas_payload analysis) now) ;;!
  (if already_queued then ret tt
   else alert_msg (py "queued:" ++ take 12 (ca_list_hash analysis)) (CardMsg analysis) false true) ;;!
  record (result_of DECISION_QUEUED reason refreshed (Some analysis)) None.

Definition forget_pending : WM unit :=
  let! waiting := query pending in
  match waiting with None => ret tt | Some _ => store clear_pending end.

Definition reject_candidate (refreshed : list source_refresh) (analysis : change_analysis) (detail : str)
    : WM cycle_result :=
  alert_msg (py "rejected:" ++ take 12 (ca_list_hash analysis)) (GuardRejected detail) true false ;;!
  record (CycleResult (sv_mode cfg) DECISION_REJECTED (py "guard") refreshed (Some analysis) None detail 0) None.

(** ** The confirmation streak *)

Definition bump_streak (candidate_hash : str) : WM Z :=
  let! previous := query (fun d => get_meta d STREAK_HASH_KEY) in
  let! raw := query (fun d => get_meta d STREAK_COUNT_KEY) in
  let seen := match raw with
    | None | Some [] => 0
    | Some text => default 0 (int_of_str text)
    end in
  let count := if bool_decide (previous = Some candidate_hash) then seen + 1 else 1 in
  store (set_meta STREAK_HASH_KEY candidate_hash) ;;!
  store (set_meta STREAK_COUNT_KEY (show_Z count)) ;;!
  ret count.
Definition reset_streak : WM unit :=
  store (set_meta STREAK_HASH_KEY []) ;;! store (set_meta STREAK_COUNT_KEY (py "0")).

(** ** One scheduled run *)

(** The calls that [run_cycle] awaits are steps, and the other tasks act between
    them; [apply_plan], which plans anew and writes under the manager's lock, is one. *)

(** The end of a run that may apply. *)
Definition apply_unattended (refreshed : list source_refresh) (analysis : change_analysis)
    (plan : merge_plan) : WM cycle_result :=
  let! applied := attempt (apply_plan plan None) in
  match applied with
  | Err e => if is_feed_error e then pause ;;! reject_candidate refreshed analysis (error_text e) else raise e
  | Ok outcome =>
      pause ;;! reset_streak ;;!
      pause ;;! forget_pending ;;!
      pause ;;!
      (if ao_changed outcome
       then alert_msg (py "applied:" ++ take 12 (ca_list_hash analysis)) (AppliedMsg analysis outcome false) false false
       else ret tt) ;;!
      pause ;;!
      record (CycleResult (sv_mode cfg) (if ao_changed outcome then DECISION_APPLIED else DECISION_NOCHANGE)
                (if ao_changed outcome then py "auto-applied" else py "identical")
                refreshed (Some analysis) (Some outcome) [] 0) None
  end.

(** Review or auto, once the guards have let the candidate through. *)
Definition decide_candidate (refreshed : list source_refresh) (analysis : change_analysis)
    (plan : merge_plan) : WM cycle_result :=
  if bool_decide (sv_mode cfg = MODE_REVIEW) then
    queue refreshed (with_hold analysis (Hold HOLD_REVIEW_MODE None fzero 0 0)) plan
  else if suspicious analysis then queue refreshed analysis plan
  else if pure_aggregation analysis then apply_unattended refreshed analysis plan
  else
    let! streak := bump_streak (ca_list_hash analysis) in
    pause ;;!
    if streak <? sv_confirm_streak cfg then
      record (CycleResult (sv_mode cfg) DECISION_NOCHANGE
                (hold_code_str HOLD_STREAK ++ [COLON] ++ show_Z streak ++ [SLASH] ++ show_Z (sv_confirm_streak cfg))
                refreshed (Some analysis) None [] streak) None
    else apply_unattended refreshed analysis plan.

(** The candidate, computed and analysed. *)
Definition judge_plan (refreshed : list source_refresh) (plan : merge_plan) : WM cycle_result :=
  let! analysis := analyse plan refreshed in
  pause ;;!
  if identical analysis then
    forget_pending ;;!
    pause ;;!
    record (result_of DECISION_NOCHANGE (py "identical") refreshed (Some analysis)) None
  else
    let! checked := attempt (on_host (check_candidate (sv_manager cfg) (mp_prefixes plan))) in
    pause ;;!
    match checked with
    | Err (SplitErr (CapExceeded count limit)) =>
        reject_candidate refreshed analysis (cap_message (mp_subtract_pairs plan) count limit)
    | Err e =>
        if is_split_error e then reject_candidate refreshed analysis (error_text e) else raise e
    | Ok _ => decide_candidate refreshed analysis plan
    end.

Definition run_cycle : WM cycle_result :=
  if bool_decide (sv_mode cfg = MODE_OFF) then
    ret (CycleResult (sv_mode cfg) DECISION_NOCHANGE (py "mode-off") [] None None [] 0)
  else
    ensure_manual_adopted ;;! pause ;;!
    reconcile_baseline ;;! pause ;;!
    let! refreshed := refresh_sources None in
    pause ;;!
    alert_source_failures refreshed ;;! pause ;;!
    let! planned := attempt build_plan in
    pause ;;!
    match planned with
    | Err e =>
        if is_feed_error e then
          alert_msg (py "merge:" ++ take 80 (error_text e)) (Plain (error_text e)) true false ;;! pause ;;!
          record (CycleResult (sv_mode cfg) DECISION_FAILED (py "merge-failed") refreshed None None (error_text e) 0) None
        else raise e
    | Ok plan => judge_plan refreshed plan
    end.

(** ** The admin's decision *)

Definition compute_expected (expected : str) : WM (list str) :=
  let! plan := build_plan in
  if bool_decide (list_hash (mp_prefixes plan) = expected) then ret (mp_prefixes plan)
  else raise (StaleCandidate true).

Definition apply_pending (actor : option Z) : WM apply_outcome :=
  let! waiting := query pending in
  match waiting with
  | None => raise NothingPending
  | Some p =>
      let! plan := build_plan in
      if negb (bool_decide (list_hash (mp_prefixes plan) = pc_list_hash p)) then raise (StaleCandidate false)
      else
        let expected := pc_list_hash p in
        let! outcome := explain_cap plan (apply_computed (compute_expected expected) false actor) in
        let! analysis := analyse plan [] in
        after_apply ;;!
        store clear_pending ;;!
        reset_streak ;;!
        (if ao_changed outcome
         then alert_msg (py "applied:" ++ take 12 expected) (AppliedMsg analysis outcome true) false false
         else ret tt) ;;!
        record (CycleResult (sv_mode cfg) (if ao_changed outcome then DECISION_APPLIED else DECISION_NOCHANGE)
                  (py "approved") [] (Some analysis) (Some outcome) [] 0) None ;;!
        ret outcome
  end.

Definition reject_pending : WM unit :=
  let! waiting := query pending in
  store clear_pending ;;!
  record (CycleResult (sv_mode cfg) DECISION_REJECTED (py "declined") [] None None
            (match waiting with None => [] | Some p => pc_reason p end) 0)
    (Some (match waiting with None => [] | Some p => pc_list_hash p end)) ;;!
  ret tt.

(** ** Hand-typed prefixes and exclusions *)

Definition add_manual (tokens : list str) (actor : option Z)
    : WM (list cidr_result * option apply_outcome) :=
  ensure_manual_adopted ;;!
  on_host refresh_endpoint ;;!
  let! manual := query manual_prefixes in
  let! listed := on_host read_list in
  let! processed := on_host (process_add_tokens (sv_manager cfg) tokens (manual ++ listed)) in
  let '(results, accepted) := processed in
  match accepted with
  | [] => ret (results, None)
  | _ =>
      store (add_manual_prefixes accepted) ;;!
      let! outcome := apply_computed recompute_for_apply false actor in
      ret (results, Some outcome)
  end.

Definition remove_manual_many (prefixes : list str) (actor : option Z) : WM apply_outcome :=
  ensure_manual_adopted ;;!
  let! manual := query manual_prefixes in
  let! changes := lift (or_value_error (manual_rows_without manual prefixes)) in
  let '(drop, add) := changes in
  store (remove_manual_prefixes drop) ;;!
  store (add_manual_prefixes add) ;;!
  apply_computed recompute_for_apply false actor.
Definition remove_manual (prefix : str) (actor : option Z) : WM apply_outcome :=
  remove_manual_many [prefix] actor.

Definition feed_origins (prefix : str) : WM (list str) :=
  let! target := lift (or_value_error (ipv4_network false prefix)) in
  let! manual := query manual_prefixes in
  let! changes := lift (or_value_error (manual_rows_without manual [prefix])) in
  let '(drop, add) := changes in
  let without := List.filter (fun item => negb (bool_decide (item ∈ drop))) manual ++ add in
  let! plan := build_plan_with (Some without) in
  let! routed := lift (or_value_error (parse_all (mp_prefixes plan))) in
  if negb (existsb (fun net => overlaps net target) routed) then ret []
  else
    let! sources := query list_sources in
    let live := map src_slug (List.filter contributes_to_list sources) in
    let! stored := query all_prefixes in
    let contributions := List.filter (fun row => bool_decide (row.1 ∈ live)) (map_to_list stored) in
    let! resolved := lift (or_value_error (resolve_origins [prefix] contributions)) in
    match sorted_strs (default [] (resolved !! prefix)) with
    | [] => ret [py "feed"]
    | owners => ret owners
    end.

Definition exclude_prefix (prefix : str) (actor : option Z) : WM apply_outcome :=
  ensure_manual_adopted ;;!
  store (add_exclusion prefix) ;;!
  store (remove_manual_prefixes [prefix]) ;;!
  apply_computed recompute_for_apply false actor.
Definition unexclude_prefix (prefix : str) (actor : option Z) : WM apply_outcome :=
  store (remove_exclusion prefix) ;;!
  apply_computed recompute_for_apply false actor.

Definition migrate_manual_into_feeds (actor : option Z) : WM (Z * apply_outcome) :=
  ensure_manual_adopted ;;!
  let! stored := query all_prefixes in
  let! sources := query list_sources in
  let covered := List.filter contributes_to_list sources ≫= fun s =>
    parsed_networks (default [] (stored !! src_slug s)) in
  let manual := default [] (stored !! MANUAL_ORIGIN) in
  let! redundant := match covered with
    | [] => ret []
    | _ =>
        let! nets := lift (or_value_error (parse_all manual)) in
        ret (map fst (List.filter (fun row => existsb (subnet_of row.2) covered) (combine manual nets)))
    end in
  match redundant with
  | [] => ret tt
  | _ => store (remove_manual_prefixes redundant)
  end ;;!
  let! outcome := apply_computed recompute_for_apply false actor in
  ret (Z.of_nat (length redundant), outcome).
End Service.

(** ** Lemmas: what each method leaves alone *)

(** The disk and the outside are as they were: no helper run, no alert, no file. *)
Definition quiet (h h' : host) : Prop := list_file h' = list_file h /\ events h' = events h.
#[export] Instance quiet_preorder : PreOrder quiet.
Proof. split; [by split|]. intros h1 h2 h3 [H1 H2] [H3 H4]. split; congruence. Qed.

(** The frame of the steps that prepare a decision: nothing written to disk, no
    pending candidate, streak or journal row touched. *)
Record undecided (w w' : world) : Prop := Undecided {
  u_quiet : quiet (w_host w) (w_host w');
  u_hash : get_meta (w_db w') STREAK_HASH_KEY = get_meta (w_db w) STREAK_HASH_KEY;
  u_count : get_meta (w_db w') STREAK_COUNT_KEY = get_meta (w_db w) STREAK_COUNT_KEY;
  u_pending : t_pending (w_db w') = t_pending (w_db w);
  u_runs : t_runs (w_db w') = t_runs (w_db w) }.
#[export] Instance undecided_preorder : PreOrder undecided.
Proof.
  split; [by split|]. intros w1 w2 w3 [] []. split; try congruence. by etransitivity.
Qed.

(** The disk alone. *)
Definition same_disk (w w' : world) : Prop := quiet (w_host w) (w_host w').
#[export] Instance same_disk_preorder : PreOrder same_disk.
Proof. split; [by split|]. intros w1 w2 w3. unfold same_disk. by intros; etransitivity. Qed.

Lemma undecided_same_disk w w' : undecided w w' -> same_disk w w'.
Proof. by intros []. Qed.

(** Changes of the tables that keep the frame. *)
Definition db_frame (f : feed_db -> feed_db) : Prop := forall d,
  get_meta (f d) STREAK_HASH_KEY = get_meta d STREAK_HASH_KEY
  /\ get_meta (f d) STREAK_COUNT_KEY = get_meta d STREAK_COUNT_KEY
  /\ t_pending (f d) = t_pending d /\ t_runs (f d) = t_runs d.

Lemma keeps_undecided_store f : db_frame f -> keeps undecided (store f).
Proof.
  intros Hf w. destruct (Hf (w_db w)) as (H1 & H2 & H3 & H4). unfold store, modify.
  split; [reflexivity|exact H1|exact H2|exact H3|exact H4].
Qed.
Lemma keeps_disk_store f : keeps same_disk (store f).
Proof. intros w. unfold same_disk, store, modify. simpl. reflexivity. Qed.
Lemma keeps_undecided_tell {A} (o : nat -> A) : keeps undecided (tell o).
Proof. intros w. by split. Qed.
Lemma keeps_undecided_query {A} (f : feed_db -> A) : keeps undecided (query f).
Proof. intros w. by split. Qed.
Lemma keeps_undecided_send c m : keeps undecided (send c m).
Proof. intros w. by split. Qed.
Lemma keeps_undecided_stamp k n : keeps undecided (stamp_alert k n).
Proof. intros w. by split. Qed.
Lemma keeps_undecided_host {A} (m : HM A) : keeps quiet m -> keeps undecided (on_host m).
Proof. intros Hm. apply keeps_embed. intros w. split; [apply (Hm (w_host w))|done..]. Qed.
Lemma keeps_quiet_read : keeps quiet read_list.
Proof. intros h. by split. Qed.
Lemma keeps_weaken {S E A} (R1 R2 : S -> S -> Prop) (m : M S E A) :
  (forall s s', R1 s s' -> R2 s s') -> keeps R1 m -> keeps R2 m.
Proof. intros H Hm s. apply H, Hm. Qed.
Lemma keeps_disk {A} (m : WM A) : keeps undecided m -> keeps same_disk m.
Proof. apply keeps_weaken, undecided_same_disk. Qed.

Lemma db_frame_update slug f : db_frame (update_source slug f).
Proof. intros d. by split_and!. Qed.
Lemma db_frame_replace o l : db_frame (replace_prefixes o l).
Proof. intros d. by split_and!. Qed.
Lemma db_frame_baselines c h n : db_frame (set_baselines c h n).
Proof. intros d. by split_and!. Qed.
Lemma db_frame_adopted v : db_frame (set_meta ADOPTED_META_KEY v).
Proof.
  intros d. unfold get_meta, set_meta. simpl. split_and!; try done;
    (rewrite lookup_insert_ne; [done|]; apply (bool_decide_unpack _); vm_compute; exact I).
Qed.

#[export] Hint Resolve keeps_undecided_store keeps_disk_store keeps_undecided_tell keeps_undecided_query
  keeps_undecided_send keeps_undecided_stamp keeps_undecided_host keeps_quiet_read keeps_disk
  db_frame_update db_frame_replace db_frame_baselines db_frame_adopted : keeps.

Section Frames.
Context {Host : SplitEnv} {Fetch : FetchEnv} {Env : ServiceEnv} (cfg : service_config).

Lemma keeps_quiet_check l : keeps quiet (check_candidate (sv_manager cfg) l).
Proof. intros h. by rewrite check_candidate_eq. Qed.
Lemma keeps_quiet_probe : keeps quiet refresh_endpoint.
Proof. intros h. by rewrite refresh_endpoint_eq. Qed.
Hint Resolve keeps_quiet_check keeps_quiet_probe : keeps.

Lemma keeps_adopted : keeps undecided ensure_manual_adopted.
Proof. unfold ensure_manual_adopted. keeps_tac. Qed.
Lemma keeps_build_plan o : keeps undecided (build_plan_with o).
Proof. unfold build_plan_with. keeps_tac. Qed.
Lemma keeps_capture : keeps undecided capture_baseline.
Proof. unfold capture_baseline. keeps_tac. Qed.
Hint Resolve keeps_adopted keeps_build_plan keeps_capture : keeps.
Lemma keeps_reconcile : keeps undecided reconcile_baseline.
Proof. unfold reconcile_baseline. keeps_tac. Qed.
Lemma keeps_fetch s : keeps undecided (fun w =>
    let '(r, f) := fetch (sv_fetcher cfg) (src_slug s) (src_url s) (src_last_etag s)
                     (src_last_modified s) (w_fetcher w) in
    (Ok (E := svc_error) r, part_set f w)).
Proof. intros w. destruct (fetch _ _ _ _ _ _) as [r f]. by split. Qed.
Hint Resolve keeps_reconcile keeps_fetch : keeps.
Lemma keeps_refresh_one s : keeps undecided (refresh_one cfg s).
Proof. unfold refresh_one, record_attempt, record_failure, record_success. keeps_tac. Qed.
Hint Resolve keeps_refresh_one : keeps.
Lemma keeps_refresh_sources o : keeps undecided (refresh_sources cfg o).
Proof. unfold refresh_sources. keeps_tac. Qed.
Lemma keeps_alert_msg k m c d : keeps undecided (alert_msg cfg k m c d).
Proof. unfold alert_msg, deliver_alert. keeps_tac. Qed.
Hint Resolve keeps_refresh_sources keeps_alert_msg : keeps.
Lemma keeps_source_failures l : keeps undecided (alert_source_failures cfg l).
Proof. unfold alert_source_failures. keeps_tac. Qed.
Lemma keeps_analyse p l : keeps undecided (analyse cfg p l).
Proof. unfold analyse. keeps_tac. Qed.
Hint Resolve keeps_source_failures keeps_analyse : keeps.
Lemma keeps_record r h : keeps same_disk (record r h).
Proof. unfold record. keeps_tac. Qed.
Hint Resolve keeps_record : keeps.
Lemma keeps_queue l a p : keeps same_disk (queue cfg l a p).
Proof. unfold queue. keeps_tac. Qed.
Lemma keeps_reject l a d : keeps same_disk (reject_candidate cfg l a d).
Proof. unfold reject_candidate. keeps_tac. Qed.
Lemma keeps_forget : keeps same_disk forget_pending.
Proof. unfold forget_pending. keeps_tac. Qed.
Lemma keeps_bump h : keeps same_disk (bump_streak h).
Proof. unfold bump_streak. keeps_tac. Qed.
End Frames.
#[export] Hint Resolve keeps_quiet_check keeps_quiet_probe keeps_adopted keeps_build_plan keeps_capture
  keeps_reconcile keeps_fetch keeps_refresh_one keeps_refresh_sources keeps_alert_msg
  keeps_source_failures keeps_analyse keeps_record keeps_queue keeps_reject keeps_forget keeps_bump : keeps.

(** ** Lemmas: a run among others *)

(** Steps that keep a frame, and whatever the others do in between. *)
Definition around `{ServiceEnv} (R : relation world) : relation world := rtc (fun w w' => R w w' \/ w' = paused w).
#[export] Instance around_preorder `{ServiceEnv} R : PreOrder (around R).
Proof. unfold around. apply _. Qed.
Lemma around_one `{ServiceEnv} (R : relation world) w w' : R w w' -> around R w w'.
Proof. intros H1. apply rtc_once. by left. Qed.
Lemma around_paused `{ServiceEnv} R w : around R w (paused w).
Proof. apply rtc_once. by right. Qed.
Lemma around_weaken `{ServiceEnv} (R1 R2 : relation world) w w' : (forall v v', R1 v v' -> R2 v v') -> around R1 w w' -> around R2 w w'.
Proof. intros HR. apply rtc_subrel. intros v v' [H1| ->]; [left; by apply HR|by right]. Qed.
(** With nobody else at work, the frame is kept. *)
Lemma around_alone `{ServiceEnv} (R : relation world) `{!PreOrder R} w w' :
  (forall v, R v (paused v)) -> around R w w' -> R w w'.
Proof. intros Hp. induction 1 as [|w1 w2 w3 [H1| ->] _ IH]; [reflexivity|by etransitivity|]. etransitivity; [apply Hp|done]. Qed.
Lemma keeps_around `{ServiceEnv} R {A} (m : WM A) : keeps R m -> keeps (around R) m.
Proof. intros Hm w. apply around_one, Hm. Qed.
Lemma keeps_pause `{ServiceEnv} R : keeps (around R) pause.
Proof. intros w. apply around_paused. Qed.
#[export] Hint Resolve keeps_around keeps_pause : keeps.

(** ** Lemmas: what cannot raise *)

Lemma nr_tell {A} (o : nat -> A) : never_raises (tell o).
Proof. done. Qed.
Lemma nr_query {A} (f : feed_db -> A) : never_raises (query f).
Proof. done. Qed.
Lemma nr_store f : never_raises (store f).
Proof. done. Qed.
Lemma nr_send c m : never_raises (send c m).
Proof. done. Qed.
Lemma nr_stamp k n : never_raises (stamp_alert k n).
Proof. done. Qed.
Lemma nr_pause `{ServiceEnv} : never_raises pause.
Proof. done. Qed.
Lemma nr_read : never_raises (on_host read_list).
Proof. by apply nr_embed. Qed.
#[export] Hint Resolve nr_tell nr_query nr_store nr_send nr_stamp nr_read nr_pause : total.

Section Total.
Context {Host : SplitEnv} {Fetch : FetchEnv} {Env : ServiceEnv} (cfg : service_config).

Lemma nr_fetch s : never_raises (fun w =>
    let '(r, f) := fetch (sv_fetcher cfg) (src_slug s) (src_url s) (src_last_etag s)
                     (src_last_modified s) (w_fetcher w) in
    (Ok (E := svc_error) r, part_set f w)).
Proof. intros w. by destruct (fetch _ _ _ _ _ _). Qed.
Lemma nr_capture : never_raises capture_baseline.
Proof. unfold capture_baseline. total_tac. Qed.
Lemma nr_adopted : never_raises ensure_manual_adopted.
Proof. unfold ensure_manual_adopted. total_tac. Qed.
Lemma nr_alert k m c d : never_raises (alert_msg cfg k m c d).
Proof. unfold alert_msg, deliver_alert. total_tac. Qed.
Lemma nr_record r h : never_raises (record r h).
Proof. unfold record. total_tac. Qed.
Lemma nr_analyse p l : never_raises (analyse cfg p l).
Proof. unfold analyse. total_tac. Qed.
Hint Resolve nr_fetch nr_capture nr_adopted nr_alert nr_record nr_analyse : total.
Lemma nr_reset : never_raises reset_streak.
Proof. unfold reset_streak. total_tac. Qed.
Lemma nr_reconcile : never_raises reconcile_baseline.
Proof. unfold reconcile_baseline. total_tac. Qed.
Lemma nr_failures l : never_raises (alert_source_failures cfg l).
Proof. unfold alert_source_failures. total_tac. Qed.
Lemma nr_refresh_one s : never_raises (refresh_one cfg s).
Proof. unfold refresh_one. total_tac. Qed.
Hint Resolve nr_refresh_one : total.
Lemma nr_refresh_sources o : never_raises (refresh_sources cfg o).
Proof. unfold refresh_sources. total_tac. Qed.
End Total.
#[export] Hint Resolve nr_fetch nr_capture nr_adopted nr_alert nr_record nr_analyse nr_reset nr_reconcile
  nr_failures nr_refresh_one nr_refresh_sources : total.

(** ** Lemmas: the unattended run *)

(** The sighting count a candidate would reach with this run. *)
Definition stored_streak (d : feed_db) : Z :=
  match get_meta d STREAK_COUNT_KEY with
  | None | Some [] => 0
  | Some text => default 0 (int_of_str text)
  end.
Definition streak_seen (d : feed_db) (candidate_hash : str) : Z :=
  if bool_decide (get_meta d STREAK_HASH_KEY = Some candidate_hash) then stored_streak d + 1 else 1.

Section Unattended.
Context {Host : SplitEnv} {Fetch : FetchEnv} {Env : ServiceEnv} (cfg : service_config).

Lemma streak_seen_frame w w' h : undecided w w' -> streak_seen (w_db w') h = streak_seen (w_db w) h.
Proof. intros [_ H1 H2 _ _]. unfold streak_seen, stored_streak. by rewrite H1, H2. Qed.

Lemma bump_streak_eq h w :
  bump_streak h w
  = (Ok (streak_seen (w_db w) h),
     World (w_host w)
       (set_meta STREAK_COUNT_KEY (show_Z (streak_seen (w_db w) h)) (set_meta STREAK_HASH_KEY h (w_db w)))
       (w_fetcher w) (w_alerted_at w) (w_sent w) (w_tick w)).
Proof. reflexivity. Qed.

(** The plan as a function of the tables and the file: nothing is changed. *)
Definition plan_of (manual_override : option (list str)) (d : feed_db) (file : option str)
    : result svc_error merge_plan :=
  result_bind (gather (t_sources d) (all_prefixes d)) (fun '(contributions, pairs) =>
    result_bind (or_value_error (merge_split_list
        (parsed_networks (match manual_override with
                          | None => default [] (all_prefixes d !! MANUAL_ORIGIN)
                          | Some m => m
                          end)) contributions (parsed_networks (exclusions d)))) (fun report =>
      Ok (MergePlan (mr_prefixes report) report (read_list_of file) pairs))).

Lemma build_plan_eq o w : build_plan_with o w = (plan_of o (w_db w) (list_file (w_host w)), w).
Proof.
  unfold build_plan_with, plan_of, bind, query, gets, lift, on_host, embed, read_list, list_sources. simpl.
  destruct (gather _ _) as [[c pairs]|]; simpl; [|done].
  destruct (or_value_error _); simpl; [|done]. by destruct w.
Qed.

Definition analysis_at (w1 : world) (now : Z) (refreshed : list source_refresh) (plan : merge_plan)
    : change_analysis :=
  analyse_change (mp_current plan) (mp_prefixes plan)
    (source_states (t_sources (w_db w1)) (mp_report plan) now refreshed) (baselines (w_db w1))
    (sv_thresholds cfg) LIST_SCOPE.

Lemma analyse_eq plan refreshed w :
  analyse cfg plan refreshed w
  = (Ok (analysis_at w (clock (w_tick w)) refreshed plan),
     World (w_host w) (w_db w) (w_fetcher w) (w_alerted_at w) (w_sent w) (S (w_tick w))).
Proof. reflexivity. Qed.

(** The guards, run from the service. *)
Lemma check_on_host l w : on_host (check_candidate (sv_manager cfg) l) w
  = (match verdict (sv_manager cfg) l (w_host w) with Ok a => Ok a | Err e => Err (SplitErr e) end,
     part_set (checked_host (w_host w)) w).
Proof.
  unfold on_host, embed. simpl. rewrite check_candidate_eq. by destruct (verdict _ _ _).
Qed.

(** A candidate that reaches the write in a run: nothing holds it, and it is a
    pure re-cut or has been seen often enough. *)
Definition justified (d : feed_db) (a : change_analysis) : Prop :=
  identical a = false /\ ca_holds a = []
  /\ (same_space a = true \/ sv_confirm_streak cfg <= streak_seen d (ca_list_hash a)).

(** What a plan is read from. *)
Record same_inputs (w w' : world) : Prop := SameInputs {
  si_sources : t_sources (w_db w') = t_sources (w_db w);
  si_prefixes : t_prefixes (w_db w') = t_prefixes (w_db w);
  si_exclusions : t_exclusions (w_db w') = t_exclusions (w_db w);
  si_file : list_file (w_host w') = list_file (w_host w) }.

#[local] Instance same_inputs_preorder : PreOrder same_inputs.
Proof. split; [by split|]. intros w1 w2 w3 [] []. split; congruence. Qed.
(** What a run does to the world between planning and counting the sighting, and
    between that and the apply: nothing a plan is read from. *)
Definition weighing (w w' : world) : Prop := undecided w w' /\ same_inputs w w'.
Definition counting (w w' : world) : Prop := same_disk w w' /\ same_inputs w w'.
Lemma weighing_disk w w' : around weighing w w' -> around same_disk w w'.
Proof. apply around_weaken. intros v v' [H _]. by apply undecided_same_disk. Qed.
Lemma counting_disk w w' : around counting w w' -> around same_disk w w'.
Proof. apply around_weaken. by intros v v' []. Qed.

Lemma build_plan_inputs o w w' : same_inputs w w' -> (build_plan_with o w').1 = (build_plan_with o w).1.
Proof.
  intros [H1 H2 H3 H4]. rewrite !build_plan_eq. unfold plan_of. cbn [fst].
  by rewrite H1, H4, (all_prefixes_frame _ _ H2), (exclusions_frame _ _ H3).
Qed.

(** The list was written by one call of the manager, with these entries. *)
Definition written (entries : list str) (actor : option Z) (w w' : world) : Prop :=
  exists h, quiet (w_host w) h
    /\ quiet (apply_locked (sv_manager cfg) entries false actor h).2 (w_host w').

Lemma apply_computed_eq compute actor w :
  apply_computed cfg compute false actor w
  = match compute w with
    | (Ok l, w1) => on_host (apply_locked (sv_manager cfg) l false actor) w1
    | (Err e, w1) => (Err e, w1)
    end.
Proof. unfold apply_computed, bind. by destruct (compute w) as [[]]. Qed.

Lemma recompute_eq w : recompute_for_apply w
  = match (build_plan w).1 with Ok p => (Ok (mp_prefixes p), w) | Err e => (Err e, w) end.
Proof. unfold recompute_for_apply, bind, build_plan. rewrite build_plan_eq. by destruct (plan_of _ _ _). Qed.

(** An apply of the plan: the recomputed entries go to the manager, then the
    baseline moves. *)
Lemma apply_plan_written plan actor w r w' : apply_plan cfg plan actor w = (r, w') ->
  match (build_plan w).1 with
  | Ok p => written (mp_prefixes p) actor w w'
  | Err e => same_disk w w'
  end.
Proof.
  intros H. unfold apply_plan in H.
  assert (forall o w1, explain_cap plan (apply_computed cfg recompute_for_apply false actor) w = (o, w1) ->
    w1 = match (build_plan w).1 with
         | Ok p => (on_host (apply_locked (sv_manager cfg) (mp_prefixes p) false actor) w).2
         | Err _ => w
         end) as Ha.
  { intros o w1. unfold explain_cap, catch. rewrite apply_computed_eq, recompute_eq.
    destruct (build_plan w).1 as [p|e]; [|by destruct e as [[]| | | | | |]; intros [= _ <-]].
    destruct (on_host _ w) as [[a|e] w2]; [by intros [= _ <-]|].
    destruct e as [[]| | | | | |]; by intros [= _ <-]. }
  assert (forall w1, w1 = match (build_plan w).1 with
         | Ok p => (on_host (apply_locked (sv_manager cfg) (mp_prefixes p) false actor) w).2
         | Err _ => w
         end -> same_disk w1 w' -> match (build_plan w).1 with
         | Ok p => written (mp_prefixes p) actor w w'
         | Err e => same_disk w w'
         end) as Hb.
  { intros w1 ->. destruct (build_plan w).1 as [p|]; [|done]. intros Hs. exists (w_host w).
    split; [done|]. etransitivity; [|exact Hs]. unfold on_host, embed.
    by destruct (apply_locked _ _ _ _ _) as [[]]. }
  apply bind_inv in H as [(o & w1 & E1 & H)|(e & E1 & ->)].
  - eapply Hb; [by eapply Ha|]. apply (keeps_run same_disk) in H; [done|].
    apply keeps_disk. unfold after_apply. keeps_tac.
  - eapply Hb; [by eapply Ha|reflexivity].
Qed.

(** The plan of the moment is written, and nothing else by this run. *)
Definition writes_current (w w' : world) : Prop := exists current w1,
  build_plan w = (Ok current, w) /\ written (mp_prefixes current) None w w1 /\ around same_disk w1 w'.
Lemma build_plan_same w : build_plan w = ((build_plan w).1, w).
Proof. unfold build_plan. by rewrite build_plan_eq. Qed.

Lemma apply_unattended_disk refreshed a plan w :
  around same_disk w (apply_unattended cfg refreshed a plan w).2 \/ writes_current w (apply_unattended cfg refreshed a plan w).2.
Proof.
  unfold apply_unattended. match goal with |- context [bind _ ?k w] => set (rest := k) end.
  unfold bind, attempt. destruct (apply_plan cfg plan None w) as [r w1] eqn:E1. apply apply_plan_written in E1.
  assert (keeps (around same_disk) (rest r)) as Hm; unfold rest in *; clear rest.
  { destruct r as [o|e]; [unfold reset_streak, forget_pending; keeps_tac|].
    destruct (is_feed_error e); [|apply keeps_raise; apply _]. apply keeps_bind; [apply _|apply keeps_pause|intros _].
    apply keeps_around, keeps_reject. }
  specialize (Hm w1). destruct (build_plan w).1 as [p|e] eqn:Ep.
  - right. exists p, w1. split; [|done]. by rewrite build_plan_same, Ep.
  - left. etransitivity; [by apply around_one|done].
Qed.

(** The run's apply: when the sighting is counted the candidate is justified, and
    the plan of a later moment is written. *)
Definition applies (a : change_analysis) (w w' : world) : Prop :=
  sv_mode cfg <> MODE_REVIEW /\ exists w1, justified (w_db w) a /\ around counting w w1 /\ writes_current w1 w'.
Lemma decide_candidate_disk refreshed a plan w : identical a = false ->
  around same_disk w (decide_candidate cfg refreshed a plan w).2 \/ applies a w (decide_candidate cfg refreshed a plan w).2.
Proof.
  intros Hid. unfold decide_candidate.
  destruct (bool_decide_reflect (sv_mode cfg = MODE_REVIEW)); [left; apply around_one; by apply keeps_queue|].
  destruct (suspicious a) eqn:Hs; [left; apply around_one; by apply keeps_queue|].
  assert (ca_holds a = []) as Hh by (unfold suspicious in Hs; by destruct (ca_holds a)).
  destruct (pure_aggregation a) eqn:Hp.
  { destruct (apply_unattended_disk refreshed a plan w) as [Hd|Hw]; [by left|right]. split; [done|]. exists w.
    unfold pure_aggregation in Hp. bool_prop. unfold justified. split_and!; [done|done|by left|done|done]. }
  destruct (bind (bump_streak _) _ w) as [r w'] eqn:E. cbn [snd]. unfold bind at 1 in E. rewrite bump_streak_eq in E.
  set (w1 := World _ _ _ _ _ _) in E. unfold bind, pause, modify in E.
  assert (around counting w (paused w1)) as Hc.
  { etransitivity; [|apply around_paused]. apply around_one. split; [done|by split]. }
  destruct (Z.ltb_spec (streak_seen (w_db w) (ca_list_hash a)) (sv_confirm_streak cfg)).
  - left. etransitivity; [by apply counting_disk|]. apply around_one. eapply keeps_run; [|exact E]. apply keeps_record.
  - destruct (apply_unattended_disk refreshed a plan (paused w1)) as [Hd|Hw]; rewrite E in *.
    + left. etransitivity; [by apply counting_disk|done].
    + right. split; [done|]. exists (paused w1). unfold justified. split_and!; [done|done|by right|done|done].
Qed.

(** A judged plan. *)
Definition ticked (w : world) : world :=
  World (w_host w) (w_db w) (w_fetcher w) (w_alerted_at w) (w_sent w) (S (w_tick w)).
Lemma weighing_ticked w : weighing w (ticked w).
Proof. split; by split. Qed.
Lemma judge_plan_disk refreshed plan w : let a := analysis_at w (clock (w_tick w)) refreshed plan in
  around same_disk w (judge_plan cfg refreshed plan w).2
  \/ exists w1, around weighing w w1 /\ applies a w1 (judge_plan cfg refreshed plan w).2.
Proof.
  intros a. destruct (judge_plan cfg refreshed plan w) as [r w'] eqn:E. cbn [snd].
  unfold judge_plan in E. unfold bind at 1 in E. rewrite analyse_eq in E. fold a in E. fold (ticked w) in E.
  unfold bind at 1, pause at 1, modify in E.
  assert (around weighing w (paused (ticked w))) as H1.
  { etransitivity; [|apply around_paused]. apply around_one, weighing_ticked. }
  set (w1 := paused (ticked w)) in *. clearbody w1. destruct (identical a) eqn:Hid.
  { left. etransitivity; [by apply weighing_disk|]. eapply keeps_run; [|exact E].
    apply keeps_bind; [apply _|apply keeps_around, keeps_forget|intros _]. keeps_tac. }
  unfold bind at 1, attempt in E. rewrite check_on_host in E. set (w2 := part_set _ w1) in E.
  assert (around weighing w (paused w2)) as H2.
  { etransitivity; [exact H1|]. etransitivity; [|apply around_paused]. apply around_one. split; [by split|by split]. }
  assert (around same_disk w (paused w2)) as Hw by by apply weighing_disk.
  clearbody w2. assert (forall d, reject_candidate cfg refreshed a d (paused w2) = (r, w') -> around same_disk w w') as Hr.
  { intros d Ed. etransitivity; [exact Hw|]. apply around_one. eapply keeps_run; [|exact Ed]. apply keeps_reject. }
  destruct (verdict _ _ _) as [v|e]; unfold bind, pause, modify in E.
  - destruct (decide_candidate_disk refreshed a plan (paused w2) Hid) as [Hd|Ha]; rewrite E in *.
    + left. etransitivity; [exact Hw|done].
    + right. by exists (paused w2).
  - left. destruct e; cbn [is_split_error is_feed_error orb] in E; first [exact (Hr _ E)|injection E as _ <-; exact Hw].
Qed.

(** The steps of a run up to the plan. *)
Lemma undecided_around_disk w w' : around undecided w w' -> around same_disk w w'.
Proof. apply around_weaken. intros ? ?. apply undecided_same_disk. Qed.
Lemma undecided_step {A} (m : WM A) w v x v' : keeps (around undecided) m -> around undecided w v -> m v = (x, v') -> around undecided w v'.
Proof. intros Hm Hv E. etransitivity; [exact Hv|]. exact (keeps_run _ _ _ _ _ Hm E). Qed.
Ltac prepare Hw H quit :=
  match type of H with bind ?m _ _ = _ =>
    let a := fresh "a" in let v := fresh "v" in let E := fresh "E" in let e := fresh "e" in
    assert (keeps (around undecided) m) as E by keeps_tac;
    apply bind_inv in H as [(a & v & H' & H)|(e & H' & ->)];
      apply (undecided_step _ _ _ _ _ E Hw) in H'; clear E; [clear Hw; rename H' into Hw|left; by apply quit]
  end.
(** The sources as a run fetched them, and a later world to plan from. *)
Definition fetched (refreshed : list source_refresh) (w w' : world) : Prop := exists w0 w1,
  around undecided w w0 /\ refresh_sources cfg None w0 = (Ok refreshed, w1) /\ around undecided w1 w'.
Lemma fetched_undecided refreshed w w' : fetched refreshed w w' -> around undecided w w'.
Proof.
  intros (w0 & w1 & H0 & E & H1). etransitivity; [|exact H1].
  exact (undecided_step _ _ _ _ _ (keeps_around _ _ (keeps_refresh_sources cfg None)) H0 E).
Qed.
Lemma run_cycle_prepared w r w' : run_cycle cfg w = (r, w') -> sv_mode cfg <> MODE_OFF ->
  around same_disk w w'
  \/ exists refreshed w1 plan, fetched refreshed w w1 /\ build_plan w1 = (Ok plan, w1)
       /\ judge_plan cfg refreshed plan (paused w1) = (r, w').
Proof.
  intros H Hoff. unfold run_cycle in H. rewrite bool_decide_false in H by done.
  assert (around undecided w w) as Hw by done.
  do 4 prepare Hw H undecided_around_disk.
  apply bind_inv in H as [(refreshed & v3 & E3 & H)|(e & E3 & ->)]; cycle 1.
  { left. apply undecided_around_disk. exact (undecided_step _ _ _ _ _ (keeps_around _ _ (keeps_refresh_sources cfg None)) Hw E3). }
  assert (forall v, around undecided v3 v -> fetched refreshed w v) as Hf by (intros u Hu; by eexists _, v3).
  assert (around undecided w v3) as Hw3 by exact (undecided_step _ _ _ _ _ (keeps_around _ _ (keeps_refresh_sources cfg None)) Hw E3).
  assert (around undecided v3 v3) as Hw' by done. clear E3 Hw.
  assert (forall v, around undecided v3 v -> around same_disk w v) as Hd.
  { intros u Hu. apply undecided_around_disk. by etransitivity. }
  do 3 prepare Hw' H Hd.
  unfold bind at 1, attempt in H. rewrite build_plan_same in H. destruct (build_plan _).1 as [plan|e] eqn:Ep.
  - right. unfold bind at 1, pause at 1, modify in H. eexists refreshed, _, plan. split; [by apply Hf|].
    split; [by rewrite build_plan_same, Ep|exact H].
  - left. apply Hd in Hw'. etransitivity; [exact Hw'|]. eapply (keeps_run (around same_disk)); [|exact H].
    apply keeps_bind; [apply _|apply keeps_pause|intros _]. destruct (is_feed_error e); [|apply keeps_raise; apply _].
    keeps_tac.
Qed.
End Unattended.

(** ** Lemmas: the plan *)

(** The stored state a plan is computed from. *)
Definition manual_of (d : feed_db) : list ipv4net := parsed_networks (default [] (all_prefixes d !! MANUAL_ORIGIN)).
Definition excluded_of (d : feed_db) : list ipv4net := parsed_networks (exclusions d).

(** The sources that take part, and what each contributes. *)
Definition selected (s : split_source) : bool :=
  src_enabled s && negb (bool_decide (src_mode s = py "add") && negb (src_include_in_list s)).
Definition contribution_of (stored : gmap str (list str)) (s : split_source) : source_contribution :=
  SourceContribution (src_slug s) (src_mode s) (parsed_networks (default [] (stored !! src_slug s)))
    (src_scope_slug s).
Definition contributions_of (d : feed_db) : list source_contribution :=
  map (contribution_of (all_prefixes d)) (List.filter selected (t_sources d)).

Lemma gather_eq sources stored cs ps : gather sources stored = Ok (cs, ps) ->
  cs = map (contribution_of stored) (List.filter selected sources)
  /\ forall s, s ∈ sources -> selected s = true -> default [] (stored !! src_slug s) <> [].
Proof.
  revert cs ps. induction sources as [|s rest IH]; intros cs ps; simpl.
  { intros [= <- <-]. split; [done|]. by intros ? ?%not_elem_of_nil. }
  assert (selected s = false -> gather rest stored = Ok (cs, ps) ->
    cs = map (contribution_of stored) (if selected s then s :: List.filter selected rest else List.filter selected rest)
    /\ forall s0, s0 ∈ s :: rest -> selected s0 = true -> default [] (stored !! src_slug s0) <> []) as Hskip.
  { intros Hs Hg. destruct (IH _ _ Hg) as [Hc Hn]. rewrite Hs. split; [done|].
    intros s0 [->|Hs0]%elem_of_cons Hsel; [congruence|by apply Hn]. }
  unfold selected at 1 in Hskip.
  destruct (src_enabled s) eqn:He; simpl in *; [|by apply Hskip].
  destruct (bool_decide (src_mode s = py "add") && negb (src_include_in_list s)) eqn:Hi; simpl in *;
    [by apply Hskip|]. clear Hskip.
  destruct (stored !! src_slug s) as [[|x prefixes]|] eqn:Hst; [done| |done].
  destruct (gather rest stored) as [[c p]|] eqn:Hg; simpl; [|done]. intros [= <- <-].
  destruct (IH _ _ eq_refl) as [-> Hn]. unfold selected at 2. rewrite He, Hi. simpl. split.
  - unfold contribution_of at 2. by rewrite Hst.
  - intros s0 [->|Hs0]%elem_of_cons Hsel; [by rewrite Hst|by apply Hn].
Qed.

Lemma contributions_ok d : store_ok d -> sources_ok (contributions_of d).
Proof.
  intros Hok. unfold contributions_of. split.
  - apply Forall_elem. intros c Hc. apply list_elem_of_fmap in Hc as (s & -> & _). apply parsed_networks_wf.
  - rewrite map_map. apply filter_map_NoDup, Hok.
  - rewrite map_map. intros Hin. apply list_elem_of_fmap in Hin as (s & E & Hs). simpl in E.
    apply list_elem_of_In, filter_In in Hs as [Hs _]. apply list_elem_of_In in Hs.
    pose proof (ok_names d Hok) as Hn. rewrite Forall_elem in Hn. specialize (Hn s Hs).
    unfold validate_slug in Hn. rewrite <- E in Hn. vm_compute in Hn. discriminate.
Qed.

(** What a plan is: the canonical list of the wanted addresses, from a world it
    leaves as it is. *)
Lemma plan_of_spec o d file p : store_ok d -> plan_of o d file = Ok p ->
  let manual := match o with Some m => parsed_networks m | None => manual_of d end in
  (exists final, mp_prefixes p = map show_net final /\ collapsed final
     /\ forall x, covers final x <-> wanted manual (contributions_of d) (excluded_of d) x)
  /\ mp_current p = read_list_of file
  /\ (forall s, s ∈ t_sources d -> selected s = true -> default [] (all_prefixes d !! src_slug s) <> []).
Proof.
  intros Hok H manual. unfold plan_of in H.
  destruct (gather (t_sources d) (all_prefixes d)) as [[c pairs]|] eqn:Hg; [|done].
  apply gather_eq in Hg as [-> Hne]. cbn [result_bind] in H.
  destruct (merge_split_list_spec manual (contributions_of d) (excluded_of d))
    as (r & final & _ & Hm & Hp & Hc & Hx & _);
    [unfold manual; destruct o; apply parsed_networks_wf|by apply contributions_ok|apply parsed_networks_wf|].
  assert (merge_split_list (parsed_networks (match o with None => default [] (all_prefixes d !! MANUAL_ORIGIN)
            | Some m => m end)) (map (contribution_of (all_prefixes d)) (List.filter selected (t_sources d)))
            (parsed_networks (exclusions d)) = Some r) as Hm'
    by (rewrite <- Hm; unfold manual, manual_of; by destruct o).
  rewrite Hm' in H. injection H as <-. split_and!; [|done|done]. by exists final.
Qed.

(** A plan is refused for one reason only, a selected source without a cache. *)
Lemma gather_total sources stored :
  (exists cs ps, gather sources stored = Ok (cs, ps))
  \/ exists s, s ∈ sources /\ selected s = true /\ default [] (stored !! src_slug s) = []
       /\ gather sources stored = Err (NoCache (src_slug s)).
Proof.
  induction sources as [|s rest IH]; simpl; [eauto|].
  assert ((exists cs ps, gather rest stored = Ok (cs, ps))
    \/ exists s0, s0 ∈ s :: rest /\ selected s0 = true /\ default [] (stored !! src_slug s0) = []
       /\ gather rest stored = Err (NoCache (src_slug s0))) as IH'
    by (destruct IH as [?|(s0 & ? & ? & ? & ?)]; [by left|right; exists s0; split; [by right|done]]).
  destruct (negb (src_enabled s)) eqn:He; [done|].
  destruct (bool_decide (src_mode s = py "add") && negb (src_include_in_list s)) eqn:Hi; [done|].
  assert (selected s = true) as Hsel by (unfold selected; bool_prop; by rewrite He, Hi).
  destruct (stored !! src_slug s) as [[|x prefixes]|] eqn:Hst.
  - right. exists s. rewrite Hst. split_and!; [by left|done..].
  - destruct IH' as [(cs & ps & ->)|(s0 & H1 & H2 & H3 & ->)]; simpl; [eauto|right; eauto 8].
  - right. exists s. rewrite Hst. split_and!; [by left|done..].
Qed.

(** ** Lemmas: journaling *)

Definition same_runs (w w' : world) : Prop := t_runs (w_db w') = t_runs (w_db w).
#[export] Instance same_runs_preorder : PreOrder same_runs.
Proof. split; [by intros w|]. intros w1 w2 w3 H1 H2. unfold same_runs in *. congruence. Qed.

Lemma keeps_runs_undecided {A} (m : WM A) : keeps undecided m -> keeps same_runs m.
Proof. apply keeps_weaken. by intros w w' []. Qed.
Lemma keeps_runs_host {A} (m : HM A) : keeps same_runs (on_host m).
Proof. intros w. unfold on_host, embed. by destruct (m (part_get w)) as [[]]. Qed.
Lemma keeps_runs_meta k v : keeps same_runs (store (set_meta k v)).
Proof. intros w. reflexivity. Qed.
Lemma keeps_runs_pending h p r ds n : keeps same_runs (store (set_pending h p r ds n)).
Proof. intros w. reflexivity. Qed.
Lemma keeps_runs_clear : keeps same_runs (store clear_pending).
Proof. intros w. reflexivity. Qed.
#[export] Hint Resolve keeps_runs_undecided keeps_runs_host keeps_runs_meta keeps_runs_pending
  keeps_runs_clear : keeps.

(** A run whose result is in the journal as its newest row. *)
Definition journaled (result : cycle_result) (d d' : feed_db) : Prop :=
  exists row, run_mode row = cy_mode result /\ run_decision row = cy_decision result
    /\ run_reason row = cy_reason result /\ map rs_slug (run_sources row) = map sr_slug (cy_sources result)
    /\ (forall a, cy_analysis result = Some a -> run_list_hash row = ca_list_hash a)
    /\ t_runs d' = take RUNS_KEPT (row :: t_runs d).
Definition journals `{ServiceEnv} (m : WM cycle_result) : Prop := forall w result w',
  m w = (Ok result, w') -> exists v, around same_runs w v /\ journaled result (w_db v) (w_db w').

Lemma journals_bind `{ServiceEnv} {A} (m : WM A) (k : A -> WM cycle_result) :
  keeps (around same_runs) m -> (forall a, journals (k a)) -> journals (bind m k).
Proof.
  intros Hm Hk w result w' H1. apply bind_inv in H1 as [(a & w1 & E1 & H1)|(e & _ & [=])].
  apply (keeps_run (around same_runs)) in E1; [|done]. destruct (Hk a w1 result w' H1) as (v & Hv & Hj).
  exists v. split; [by etransitivity|done].
Qed.
