(* ===== verification/FeedSafety.v ===== *)
(** * What the unattended cycle promises

    The theorems about [run_cycle] of [FeedService]: what a scheduled run may
    write and why, and what the journal and the baseline record of it. The first
    section is a concrete world, the instance the theorems are applied to. *)

From S2P Require Import Prelude PyText PyIp IpSpace Float64 Json SplitMerge SplitAnalysis SplitManager WarpFetcher FeedStore FeedService.
#[local] Open Scope Z_scope.

(** ** A concrete world *)

Definition demo_service_env : ServiceEnv := {|
  clock := fun t => 1000000 + Z.of_nat t; wall_clock := fun t => 1000000 + Z.of_nat t;
  json_str := fun _ => []; value_error_text := fun s => s; others := fun w => w |}.
Definition demo_world : world := World demo_host seeded_db (Fetcher ∅ 0) ∅ [] 0.
Definition demo_service (mode : str) (streak : Z) : service_config :=
  init_config mode (Thresholds 20 1000 259200) streak 3600 3 true true demo_cfg (FetcherConfig (py "20") 1000).
(** A run of the demo service, with helpers that succeed. *)
Definition demo_run (mode : str) (streak : Z) (w : world) : result svc_error cycle_result * world :=
  @run_cycle demo_env demo_fetch_env demo_service_env (demo_service mode streak) w.

(** ** What a run may write *)

Section Unattended.
Context {Host : SplitEnv} {Fetch : FetchEnv} {Env : ServiceEnv} (cfg : service_config).

(** C1 An unattended run changes the list only when the change is justified, whatever
    admins and other tasks do between its steps (to the tables, the file and the rest, any
    number of times: [others]). Whatever it does to the disk itself (runs the helper,
    writes the file, sends a message of the manager), it does in a mode other than off
    and review, in one apply, after this: from the sources as it fetched them and the
    tables and the list on disk of one moment, it planned a list; the analysis of that plan found a change
    and no hold; and the change either routes the same addresses or has been seen,
    counting this run, at least [confirm_streak] times. What the apply writes is the plan of
    its own moment, recomputed under the manager's lock: it is the plan that was
    analysed unless others have changed the tables or the file in between, which the
    run itself does not. *)
Theorem unattended_change_is_justified (w : world) r w' :
  run_cycle cfg w = (r, w') ->
  around same_disk w w'
  \/ (sv_mode cfg <> MODE_OFF /\ sv_mode cfg <> MODE_REVIEW
      /\ exists refreshed plan w1 w2 w3 w4 current w5,
           fetched cfg refreshed w w1 /\ build_plan w1 = (Ok plan, w1)
           /\ mp_current plan = read_list_of (list_file (w_host w1))
           /\ around weighing w1 w2 /\ around weighing w2 w3
           /\ justified cfg (w_db w3) (analysis_at cfg w2 (clock (w_tick w2)) refreshed plan)
           /\ around counting w3 w4 /\ build_plan w4 = (Ok current, w4)
           /\ (same_inputs w1 w4 -> current = plan)
           /\ written cfg (mp_prefixes current) None w4 w5
           /\ around same_disk w5 w').
Proof.
  intros H. destruct (decide (sv_mode cfg = MODE_OFF)) as [Hoff|Hoff].
  { left. unfold run_cycle in H. rewrite bool_decide_true in H by done. by injection H as _ <-. }
  apply run_cycle_prepared in H as [H|(refreshed & w1 & plan & Hf & Hp & H)]; [by left| |done].
  destruct (judge_plan_disk cfg refreshed plan (paused w1)) as [Hd|(w3 & H3 & Hm & w4 & Hj & H4 & current & w5 & Hc & Hw & H5)];
    rewrite H in *; cbn [snd] in *.
  - left. etransitivity; [by eapply undecided_around_disk, fetched_undecided|].
    etransitivity; [apply around_paused|exact Hd].
  - right. split; [done|]. split; [done|]. exists refreshed, plan, w1, (paused w1), w3, w4, current, w5.
    split_and!; try done.
    + pose proof Hp as Hq. unfold build_plan in Hq. rewrite build_plan_eq in Hq. injection Hq as Hq. unfold plan_of in Hq.
      destruct (gather _ _) as [[]|]; [|done]. simpl in Hq. destruct (or_value_error _); [|done]. by injection Hq as <-.
    + apply around_paused.
    + intros Hs. apply (build_plan_inputs None) in Hs. unfold build_plan in *. rewrite Hc, Hp in Hs. by injection Hs.
Qed.
End Unattended.

(** An admin adds a prefix of their own while the run is at work. *)
Definition busy_service_env : ServiceEnv := {|
  clock := @clock demo_service_env; wall_clock := @wall_clock demo_service_env;
  json_str := fun _ => []; value_error_text := fun s => s;
  others := fun w => World (w_host w) (add_manual_prefixes [py "9.9.9.0/24"] (w_db w)) (w_fetcher w) (w_alerted_at w) (w_sent w) (w_tick w) |}.
Definition busy_run : result svc_error cycle_result * world :=
  @run_cycle demo_env demo_fetch_env busy_service_env (demo_service MODE_AUTO 1) demo_world.
Lemma unattended_change_is_justified_witness :
  list_file (w_host busy_run.2) <> list_file demo_host
  /\ exists current w4 w5, @written demo_env (demo_service MODE_AUTO 1) (mp_prefixes current) None w4 w5.
Proof.
  assert (list_file (w_host busy_run.2) <> list_file demo_host) as Hne by (vm_compute; discriminate).
  split; [exact Hne|].
  destruct (@unattended_change_is_justified demo_env demo_fetch_env busy_service_env (demo_service MODE_AUTO 1)
              demo_world busy_run.1 busy_run.2)
    as [Hf|(_ & _ & _ & _ & _ & _ & _ & w4 & current & w5 & _ & _ & _ & _ & _ & _ & _ & _ & _ & Hw & _)].
  - unfold busy_run. apply surjective_pairing.
  - destruct Hne. apply (@around_alone busy_service_env same_disk _ demo_world) in Hf; [apply Hf|]. intros v. split; reflexivity.
  - exists current, w4, w5. exact Hw.
Defined.

(** ** What the journal records *)

Section Journal.
Context {Host : SplitEnv} {Fetch : FetchEnv} {Env : ServiceEnv} (cfg : service_config).

Lemma journals_record result : journals (record result None).
Proof.
  intros w res w' H. injection H as <- <-. exists w. split; [done|]. eexists. split_and!; cycle -1; [reflexivity..| |].
  - cbn [run_sources]. rewrite map_map. by apply map_ext.
  - by intros a ->.
Qed.
Lemma journals_raise e : journals (raise e).
Proof. by intros w res w'. Qed.
Lemma keeps_runs_apply plan actor : keeps same_runs (apply_plan cfg plan actor).
Proof. unfold apply_plan, explain_cap, apply_computed, recompute_for_apply, build_plan, after_apply. keeps_tac. Qed.
Lemma keeps_runs_bump h : keeps same_runs (bump_streak h).
Proof. unfold bump_streak. keeps_tac. Qed.
Lemma keeps_runs_forget : keeps same_runs forget_pending.
Proof. unfold forget_pending. keeps_tac. Qed.
Lemma keeps_runs_reset : keeps same_runs reset_streak.
Proof. unfold reset_streak. keeps_tac. Qed.
Hint Resolve keeps_runs_apply keeps_runs_bump keeps_runs_forget keeps_runs_reset : keeps.

Create HintDb journals discriminated.
Hint Resolve journals_record journals_raise : journals.
Ltac journals_tac := repeat match goal with
  | |- journals (bind _ _) => apply journals_bind; [solve [keeps_tac]|intro]
  | |- journals (match ?x with _ => _ end) => destruct x
  | |- journals (let _ := _ in _) => cbv zeta
  | _ => solve [eauto 2 with journals nocore]
  end.

Lemma journals_queue refreshed a plan : journals (queue cfg refreshed a plan).
Proof. unfold queue. journals_tac. Qed.
Lemma journals_reject refreshed a detail : journals (reject_candidate cfg refreshed a detail).
Proof. unfold reject_candidate. journals_tac. Qed.
Hint Resolve journals_queue journals_reject : journals.
Lemma journals_apply refreshed a plan : journals (apply_unattended cfg refreshed a plan).
Proof. unfold apply_unattended. journals_tac. Qed.
Hint Resolve journals_apply : journals.
Lemma journals_decide refreshed a plan : journals (decide_candidate cfg refreshed a plan).
Proof. unfold decide_candidate. journals_tac. Qed.
Hint Resolve journals_decide : journals.
Lemma journals_judge refreshed plan : journals (judge_plan cfg refreshed plan).
Proof. unfold judge_plan. journals_tac. Qed.
Hint Resolve journals_judge : journals.

(** Every unattended run that returns is in the journal: outside off mode, a
    run that returns a result has put exactly one row at the head of the
    journal as it was then, with the mode, the decision, the reason and one entry per source
    fetched, and with the hash of the analysed candidate; the older rows, to which
    only others can have added meanwhile, follow, and at most [RUNS_KEPT] are kept. *)
Theorem returned_run_is_journaled (w : world) result w' :
  sv_mode cfg <> MODE_OFF -> run_cycle cfg w = (Ok result, w') ->
  (exists v, around same_runs w v /\ journaled result (w_db v) (w_db w')) /\ (length (t_runs (w_db w')) <= RUNS_KEPT)%nat.
Proof.
  intros Hoff H. assert (exists v, around same_runs w v /\ journaled result (w_db v) (w_db w')) as Hj.
  { assert (journals (run_cycle cfg)) as Hr; [|by eapply Hr].
    unfold run_cycle, build_plan. rewrite bool_decide_false by done. journals_tac. }
  split; [done|]. destruct Hj as (v & _ & row & _ & _ & _ & _ & _ & ->). rewrite length_take. lia.
Qed.

(** A method that, when it raises, has written no row. *)
Definition silent (m : WM cycle_result) : Prop := forall w e w', m w = (Err e, w') -> around same_runs w w'.
Lemma silent_bind {A} (m : WM A) (k : A -> WM cycle_result) :
  keeps (around same_runs) m -> (forall a, silent (k a)) -> silent (bind m k).
Proof.
  intros Hm Hk w e w' H. apply bind_inv in H as [(a & w1 & E1 & H)|(e' & E1 & _)].
  - etransitivity; [exact (keeps_run _ _ _ _ _ Hm E1)|]. by eapply Hk.
  - exact (keeps_run _ _ _ _ _ Hm E1).
Qed.
Lemma silent_total m : never_raises m -> silent m.
Proof. intros Hm w e w' H. by destruct (nr_err _ _ _ _ Hm H). Qed.
Lemma silent_raise e : silent (raise e).
Proof. by intros w e' w' [= _ <-]. Qed.
Lemma silent_record r h : silent (record r h).
Proof. apply silent_total. total_tac. Qed.
Hint Resolve silent_raise silent_record : journals.
Ltac silent_tac := repeat match goal with
  | |- silent (bind _ _) => apply silent_bind; [solve [keeps_tac]|intro]
  | |- silent (match ?x with _ => _ end) => destruct x
  | |- silent (let _ := _ in _) => cbv zeta
  | _ => solve [eauto 2 with journals nocore]
  end.

(** A run that raises leaves no row: whenever [run_cycle] raises (a failing or
    raising apply helper, a gateway the kernel reports out of range), the
    journal is what it was before the run, others apart, so a run is journaled exactly when
    it returns. *)
Theorem raised_run_leaves_no_row (w : world) e w' : run_cycle cfg w = (Err e, w') -> around same_runs w w'.
Proof.
  revert w e w'. change (silent (run_cycle cfg)).
  unfold run_cycle, build_plan. case_bool_decide; [by apply silent_total, nr_ret|].
  do 8 (apply silent_bind; [solve [keeps_tac]|intro]). apply silent_bind; [solve [keeps_tac]|intros [plan|e1]]; cycle 1.
  { silent_tac. }
  apply silent_bind; [solve [keeps_tac]|intros _].
  unfold judge_plan. apply silent_bind; [solve [keeps_tac]|intros an]. apply silent_bind; [solve [keeps_tac]|intros _].
  destruct (identical an); [silent_tac|]. apply silent_bind; [solve [keeps_tac]|].
  assert (forall l an d, silent (reject_candidate cfg l an d)) as Hrej by (intros; unfold reject_candidate; silent_tac).
  assert (forall l an p, silent (apply_unattended cfg l an p)) as Happ.
  { intros. unfold apply_unattended. silent_tac; apply Hrej. }
  assert (forall l an p, silent (queue cfg l an p)) as Hq by (intros; unfold queue; silent_tac).
  intros checked. apply silent_bind; [solve [keeps_tac]|intros _]. destruct checked as [?|e1].
  - unfold decide_candidate. silent_tac; (apply Hq || apply Happ).
  - repeat case_match; (apply Hrej || apply silent_raise).
Qed.
End Journal.

(** A host whose apply helper always fails. *)
Definition refusing_env : SplitEnv := {|
  apply_helper := fun _ _ => (inl (ShellResult 1 [] (py "restart failed")), false);
  status_helper := fun _ => inl (ShellResult 1 [] []);
  state_helper := fun _ _ => inl (ShellResult 0 [] []);
  proc_net_route := fun _ => Some demo_route;
  iface_network := fun _ _ => None;
  iface_flags := fun _ => None;
  marker_exists := fun _ => false |}.
Definition refused_run : result svc_error cycle_result * world :=
  @run_cycle refusing_env demo_fetch_env demo_service_env (demo_service MODE_AUTO 1) demo_world.
Lemma raised_run_leaves_no_row_witness :
  refused_run.1 = Err (SplitErr (HelperFailed 1 (py "restart failed"))) /\ t_runs (w_db refused_run.2) = [].
Proof.
  assert (refused_run.1 = Err (SplitErr (HelperFailed 1 (py "restart failed")))) as E by (vm_compute; reflexivity).
  split; [exact E|].
  pose proof (@raised_run_leaves_no_row refusing_env demo_fetch_env demo_service_env (demo_service MODE_AUTO 1)
           demo_world _ _ (run_fst _ _ E)) as H.
  apply (@around_alone demo_service_env same_runs _ demo_world) in H; [exact H|]. intros v. reflexivity.
Defined.

Lemma returned_run_is_journaled_witness :
  exists result, (demo_run MODE_AUTO 1 demo_world).1 = Ok result
    /\ exists v, @around demo_service_env same_runs demo_world v /\ journaled result (w_db v) (w_db (demo_run MODE_AUTO 1 demo_world).2).
Proof.
  eexists. split; [vm_compute; reflexivity|].
  eapply (@returned_run_is_journaled demo_env demo_fetch_env demo_service_env (demo_service MODE_AUTO 1) demo_world);
    [vm_compute; discriminate|vm_compute; reflexivity].
Defined.

(** ** What the baseline describes *)

(** The stored list hash is that of the list on disk, when there is one. *)
Definition tracks (w : world) : Prop :=
  read_list_of (list_file (w_host w)) <> [] ->
  baseline_list_hash (w_db w) = Some (list_hash (read_list_of (list_file (w_host w)))).
(** Neither the baseline nor the file moves. *)
Definition same_base (w w' : world) : Prop :=
  t_baseline (w_db w') = t_baseline (w_db w) /\ list_file (w_host w') = list_file (w_host w).
#[export] Instance same_base_preorder : PreOrder same_base.
Proof. split; [by split|]. intros w1 w2 w3 [] []. split; congruence. Qed.
Lemma tracks_same_base w w' : same_base w w' -> tracks w -> tracks w'.
Proof. intros [H1 H2]. unfold tracks, baseline_list_hash. by rewrite H1, H2. Qed.

Definition base_frame (f : feed_db -> feed_db) : Prop := forall d, t_baseline (f d) = t_baseline d.
Lemma keeps_base_store f : base_frame f -> keeps same_base (store f).
Proof. intros Hf w. split; [apply Hf|done]. Qed.
Lemma keeps_base_tell {A} (o : nat -> A) : keeps same_base (tell o).
Proof. intros w. by split. Qed.
Lemma keeps_base_send c m : keeps same_base (send c m).
Proof. intros w. by split. Qed.
Lemma keeps_base_stamp k n : keeps same_base (stamp_alert k n).
Proof. intros w. by split. Qed.
Lemma keeps_base_query {A} (f : feed_db -> A) : keeps same_base (query f).
Proof. intros w. by split. Qed.
Lemma keeps_base_host {A} (m : HM A) : keeps quiet m -> keeps same_base (on_host m).
Proof. intros Hm. apply keeps_embed. intros w. split; [done|apply (Hm (w_host w))]. Qed.
Lemma base_frame_update slug f : base_frame (update_source slug f).
Proof. done. Qed.
Lemma base_frame_replace o l : base_frame (replace_prefixes o l).
Proof. done. Qed.
Lemma base_frame_meta k v : base_frame (set_meta k v).
Proof. done. Qed.
Lemma base_frame_pending h p r ds n : base_frame (set_pending h p r ds n).
Proof. done. Qed.
Lemma base_frame_clear : base_frame clear_pending.
Proof. done. Qed.
Lemma base_frame_run r : base_frame (record_run r).
Proof. done. Qed.
#[export] Hint Resolve keeps_base_store keeps_base_tell keeps_base_send keeps_base_stamp keeps_base_query
  keeps_base_host base_frame_update base_frame_replace base_frame_meta base_frame_pending base_frame_clear
  base_frame_run : keeps.

Section Baseline.
Context {Host : SplitEnv} {Fetch : FetchEnv} {Env : ServiceEnv} (cfg : service_config).

Lemma capture_tracks w r w' : capture_baseline w = (r, w') -> tracks w'.
Proof.
  unfold capture_baseline, bind, on_host, embed, read_list, gets. simpl. intros H.
  destruct (read_list_of (list_file (w_host w))) as [|p l] eqn:Ef.
  { injection H as _ <-. unfold tracks. simpl. by rewrite Ef. }
  unfold query, gets, tell, store, modify in H. injection H as _ <-. intros _. simpl. rewrite Ef.
  unfold baseline_list_hash, set_baselines. simpl. rewrite map_lookup_imap.
  assert (is_Some (((coverage_of <$> all_prefixes (w_db w))
                    ∪ {[LIST_SCOPE := coverage_of (p :: l)]}) !! LIST_SCOPE)) as [c ->].
  { apply lookup_union_is_Some. right. by rewrite lookup_singleton_eq. }
  by rewrite (bool_decide_true (LIST_SCOPE = LIST_SCOPE)).
Qed.
Lemma reconcile_tracks w r w' : reconcile_baseline w = (r, w') -> tracks w'.
Proof.
  unfold reconcile_baseline, bind, on_host, embed, read_list, query, gets. simpl.
  destruct (read_list_of (list_file (w_host w))) as [|p l] eqn:Ef.
  { intros [= _ <-]. unfold tracks. simpl. by rewrite Ef. }
  case_bool_decide as Hh; [|by destruct w; apply capture_tracks].
  intros [= _ <-]. intros _. simpl. by rewrite Ef.
Qed.

Lemma keeps_base_alert k m c d : keeps same_base (alert_msg cfg k m c d).
Proof. unfold alert_msg, deliver_alert. keeps_tac. Qed.
Lemma keeps_base_fetch s : keeps same_base (fun w =>
    let '(r, f) := fetch (sv_fetcher cfg) (src_slug s) (src_url s) (src_last_etag s)
                     (src_last_modified s) (w_fetcher w) in
    (Ok (E := svc_error) r, part_set f w)).
Proof. intros w. destruct (fetch _ _ _ _ _ _) as [r f]. by split. Qed.
Hint Resolve keeps_base_alert keeps_base_fetch : keeps.
Lemma keeps_base_refresh o : keeps same_base (refresh_sources cfg o).
Proof. unfold refresh_sources, refresh_one, record_attempt, record_failure, record_success. keeps_tac. Qed.
Lemma keeps_base_failures l : keeps same_base (alert_source_failures cfg l).
Proof. unfold alert_source_failures. keeps_tac. Qed.
Lemma keeps_base_plan o : keeps same_base (build_plan_with o).
Proof. unfold build_plan_with. keeps_tac. Qed.
Lemma keeps_base_record r h : keeps same_base (record r h).
Proof. unfold record. keeps_tac. Qed.
Hint Resolve keeps_base_refresh keeps_base_failures keeps_base_plan keeps_base_record : keeps.
Lemma keeps_base_queue l a p : keeps same_base (queue cfg l a p).
Proof. unfold queue. keeps_tac. Qed.
Lemma keeps_base_reject l a d : keeps same_base (reject_candidate cfg l a d).
Proof. unfold reject_candidate. keeps_tac. Qed.
Lemma keeps_base_forget : keeps same_base forget_pending.
Proof. unfold forget_pending. keeps_tac. Qed.
Lemma keeps_base_reset : keeps same_base reset_streak.
Proof. unfold reset_streak. keeps_tac. Qed.
Lemma keeps_base_bump h : keeps same_base (bump_streak h).
Proof. unfold bump_streak. keeps_tac. Qed.
Hint Resolve keeps_base_queue keeps_base_reject keeps_base_forget keeps_base_reset keeps_base_bump : keeps.

(** A method that, when it returns, has kept the baseline on the list. *)
Definition stays {A} (m : WM A) : Prop := forall w a w', tracks w -> m w = (Ok a, w') -> tracks w'.
Lemma stays_base {A} (m : WM A) : keeps same_base m -> stays m.
Proof. intros Hm w a w' Ht H. apply (keeps_run same_base) in H; [|done]. by eapply tracks_same_base. Qed.
Lemma stays_bind {A B} (m : WM A) (k : A -> WM B) : stays m -> (forall a, stays (k a)) -> stays (bind m k).
Proof.
  intros Hm Hk w b w' Ht H. apply bind_inv in H as [(a & w1 & E1 & H)|(e & _ & [=])]. eapply Hk; [|done].
  by eapply Hm.
Qed.

(** An apply that fails with a feed error has not touched the file. *)
Lemma explained_failure plan compute actor w e w' : keeps same_base compute ->
  explain_cap plan (apply_computed cfg compute false actor) w = (Err e, w') ->
  is_feed_error e = true -> same_base w w'.
Proof.
  intros Hk. unfold explain_cap, catch. rewrite apply_computed_eq.
  destruct (compute w) as [[l|e1] w1] eqn:Ec; (apply (keeps_run same_base) in Ec; [|done]); cycle 1.
  { destruct e1 as [[]| | | | | |]; by intros [= <- <-]. }
  unfold on_host, embed. pose proof (apply_locked_result (sv_manager cfg) l false actor (part_get w1)) as R.
  destruct (apply_locked _ _ _ _ _) as [[o|e1] h]; [done|].
  assert (forall f, same_base w1 (part_set f w1) <-> list_file f = list_file (w_host w1)) as Hf.
  { intros f. split; [by intros []|by split]. }
  assert ((exists code d, e1 = HelperFailed code d) \/ (exists x, e1 = RunnerRaised x)
          \/ list_file h = list_file (w_host w1)) as Hcases.
  { simpl in R. inversion R; subst; solve [right; right; reflexivity | right; left; eauto | left; eauto]. }
  destruct Hcases as [(code & d & ->)|[(x & ->)|Hh]]; [by intros [= <- <-]|by intros [= <- <-]|].
  apply Hf in Hh. destruct e1; intros [= <- <-] He; by etransitivity.
Qed.

(** The others keep the baseline on the list, in each of their steps as a whole. *)
Context (others_track : forall w, tracks w -> tracks (paused w)).
Lemma stays_pause : stays pause.
Proof using others_track. intros w a w' Ht [= _ <-]. by apply others_track. Qed.
Ltac stays_tac := repeat match goal with
  | |- stays (bind pause _) => apply stays_bind; [apply stays_pause|intro]
  | |- stays (bind _ _) => apply stays_bind; [stays_tac|intro]
  | |- stays (match ?x with _ => _ end) => destruct x
  | |- _ => apply stays_base; solve [keeps_tac]
  end.

Lemma apply_unattended_stays l a plan : stays (apply_unattended cfg l a plan).
Proof using others_track.
  intros w res w' Ht H. unfold apply_unattended in H. unfold bind at 1, attempt in H.
  destruct (apply_plan cfg plan None w) as [[o|e] w1] eqn:E1.
  - assert (tracks w1) as Ht1.
    { unfold apply_plan in E1. apply bind_inv in E1 as [(o1 & w2 & _ & E1)|(e & _ & [=])].
      apply bind_inv in E1 as [(u & w3 & E1 & E2)|(e & _ & [=])]. injection E2 as _ <-. by apply capture_tracks in E1. }
    revert H. match goal with |- ?m w1 = _ -> _ => assert (stays m) as Hs; [stays_tac|by eauto] end.
  - destruct (is_feed_error e) eqn:He; [|done].
    assert (same_base w w1) as Hb.
    { unfold apply_plan in E1. apply bind_inv in E1 as [(o1 & w2 & _ & E1)|(e1 & E1 & [= <-])].
      - exfalso. apply bind_inv in E1 as [(u & w3 & _ & [=])|(e1 & E1 & [= <-])].
        unfold after_apply, capture_baseline, bind, on_host, embed in E1. simpl in E1.
        by destruct (read_list_of _).
      - eapply explained_failure; [|done..]. unfold recompute_for_apply, build_plan. keeps_tac. }
    apply (tracks_same_base w w1) in Ht; [|done]. revert H.
    match goal with |- ?m w1 = _ -> _ => assert (stays m) as Hs; [stays_tac|by eauto] end.
Qed.

(** The baseline follows the list on disk: after a run that returns, outside
    off mode, the stored list hash is the hash of the list now on disk, whether
    the run applied, queued, rejected or changed nothing, and whatever had been
    written behind the service's back before it; with no readable list
    there is nothing to follow. Whoever acts during the run is to keep that too. *)
Theorem baseline_follows_the_list (w : world) result w' :
  sv_mode cfg <> MODE_OFF -> run_cycle cfg w = (Ok result, w') ->
  read_list_of (list_file (w_host w')) <> [] ->
  baseline_list_hash (w_db w') = Some (list_hash (read_list_of (list_file (w_host w')))).
Proof using others_track.
  intros Hoff H. change (tracks w'). unfold run_cycle in H. rewrite bool_decide_false in H by done.
  apply bind_inv in H as [(u & w1 & _ & H)|(e & _ & [=])]. apply bind_inv in H as [(u1 & w2 & _ & H)|(e & _ & [=])].
  apply bind_inv in H as [(u2 & w3 & E2 & H)|(e & _ & [=])]. apply reconcile_tracks in E2.
  revert E2 H. match goal with |- _ -> ?m w3 = _ -> _ => assert (stays m) as Hs; [|by eauto] end.
  assert (forall l a p, stays (decide_candidate cfg l a p)) as Hdecide.
  { intros. unfold decide_candidate. stays_tac; apply apply_unattended_stays. }
  assert (forall l p, stays (judge_plan cfg l p)) as Hjudge.
  { intros. unfold judge_plan, analyse. stays_tac; apply Hdecide. }
  unfold build_plan. stays_tac. apply Hjudge.
Qed.
End Baseline.
#[export] Hint Resolve keeps_base_alert keeps_base_refresh keeps_base_failures keeps_base_plan keeps_base_record
  keeps_base_queue keeps_base_reject keeps_base_forget keeps_base_reset keeps_base_bump : keeps.

Lemma baseline_follows_the_list_witness :
  exists h, baseline_list_hash (w_db demo_world) = None
    /\ baseline_list_hash (w_db (demo_run MODE_AUTO 1 demo_world).2) = Some h
    /\ h <> list_hash (read_list_of (list_file demo_host)).
Proof.
  eexists. split; [reflexivity|]. split.
  - eapply (@baseline_follows_the_list demo_env demo_fetch_env demo_service_env (demo_service MODE_AUTO 1) (fun _ H => H) demo_world);
      [vm_compute; discriminate|vm_compute; reflexivity|vm_compute; discriminate].
  - vm_compute. discriminate.
Defined.
