(* ===== verification/FeedDecisions.v ===== *)
(** * What the admin's operations promise

    The theorems about an approval and about the operations on the
    hand-typed list and the exclusions of [FeedService], in terms of the list
    that ends up on disk. *)

From S2P Require Import Prelude PyText PyIp IpSpace Float64 Json SplitMerge SplitAnalysis SplitManager WarpFetcher FeedStore FeedService FeedSafety.
#[local] Open Scope Z_scope.

(** ** Lemmas: an apply seen from the service *)

Section Applying.
Context {Host : SplitEnv} {Fetch : FetchEnv} {Env : ServiceEnv} (cfg : service_config).

Lemma recompute_apply_eq actor w :
  apply_computed cfg recompute_for_apply false actor w
  = match plan_of None (w_db w) (list_file (w_host w)) with
    | Ok p => on_host (apply_locked (sv_manager cfg) (mp_prefixes p) false actor) w
    | Err e => (Err e, w)
    end.
Proof.
  rewrite apply_computed_eq, recompute_eq. unfold build_plan. rewrite build_plan_eq. cbn [fst].
  by destruct (plan_of _ _ _).
Qed.

(** A successful apply of the merge leaves on disk exactly what the tables want,
    and nothing in the tables is touched. *)
Lemma recompute_apply_spec actor w o w' : helper_contract -> store_ok (w_db w) ->
  apply_computed cfg recompute_for_apply false actor w = (Ok o, w') ->
  w_db w' = w_db w
  /\ exists p final, plan_of None (w_db w) (list_file (w_host w)) = Ok p
       /\ mp_prefixes p = map show_net final
       /\ list_file (w_host w') = Some (render_list (mp_prefixes p))
       /\ read_nets (default [] (list_file (w_host w'))) = final
       /\ collapsed final
       /\ forall x, covers final x
            <-> wanted (manual_of (w_db w)) (contributions_of (w_db w)) (excluded_of (w_db w)) x.
Proof.
  intros Hc Hok. rewrite recompute_apply_eq. destruct (plan_of _ _ _) as [p|e] eqn:Hp; [|done].
  destruct (plan_of_spec None _ _ _ Hok Hp) as ((final & Hf & Hcol & Hx) & _).
  assert (Forall wf_net final) as Hwf by apply Hcol.
  unfold on_host, embed. rewrite Hf. intros H.
  destruct (apply_locked _ _ _ _ _) as [[o1|e] h] eqn:Ha; [|done]. injection H as -> <-.
  apply apply_locked_written in Ha as (_ & Hfile & _); [|done..]. split; [done|].
  exists p, final. rewrite Hf. cbn. rewrite Hfile. split_and!; [done|done|done| |done|done].
  by apply read_nets_render.
Qed.
End Applying.

(** ** Approving a waiting candidate *)

Section Approval.
Context {Host : SplitEnv} {Fetch : FetchEnv} {Env : ServiceEnv} (cfg : service_config).

(** The steps of an approval after the write. *)
Definition settle (plan : merge_plan) (expected : str) (outcome : apply_outcome) : WM apply_outcome :=
  let! analysis := analyse cfg plan [] in
  after_apply ;;!
  store clear_pending ;;!
  reset_streak ;;!
  (if ao_changed outcome
   then alert_msg cfg (py "applied:" ++ take 12 expected) (AppliedMsg analysis outcome true) false false
   else ret tt) ;;!
  record (CycleResult (sv_mode cfg) (if ao_changed outcome then DECISION_APPLIED else DECISION_NOCHANGE)
            (py "approved") [] (Some analysis) (Some outcome) [] 0) None ;;!
  ret outcome.

Lemma settle_total plan expected outcome : never_raises (settle plan expected outcome).
Proof. unfold settle, after_apply. total_tac. Qed.

(** What settling leaves: the queue and the streak are empty, the baseline is on
    the list, the file is untouched, and the journal has its row. *)
Lemma settle_spec plan expected outcome w o w' : settle plan expected outcome w = (Ok o, w') ->
  o = outcome /\ t_pending (w_db w') = None
  /\ get_meta (w_db w') STREAK_HASH_KEY = Some [] /\ get_meta (w_db w') STREAK_COUNT_KEY = Some (py "0")
  /\ list_file (w_host w') = list_file (w_host w) /\ tracks w'
  /\ exists row, t_runs (w_db w') = take RUNS_KEPT (row :: t_runs (w_db w))
       /\ run_reason row = py "approved" /\ run_list_hash row = list_hash (mp_prefixes plan).
Proof.
  intros H. unfold settle in H. unfold bind at 1 in H. rewrite analyse_eq in H.
  set (a := analysis_at _ _ _ _ _) in H. set (w1 := World _ _ _ _ _ _) in H.
  apply bind_inv in H as [(u & w2 & E2 & H)|(e & _ & [=])]. unfold after_apply in E2.
  pose proof (capture_tracks _ _ _ E2) as Ht.
  assert (undecided w1 w2) as Hu2 by (eapply keeps_run; [apply keeps_capture|exact E2]).
  set (w3 := World (w_host w2)
    (set_meta STREAK_COUNT_KEY (py "0") (set_meta STREAK_HASH_KEY [] (clear_pending (w_db w2))))
    (w_fetcher w2) (w_alerted_at w2) (w_sent w2) (w_tick w2)).
  assert (tracks w3) as Ht3 by done.
  apply bind_inv in H as [(u4 & w4 & E4 & H)|(e & _ & [=])]. injection E4 as _ <-.
  apply bind_inv in H as [(u5 & w5 & E5 & H)|(e & _ & [=])]. injection E5 as _ <-. fold w3 in H.
  apply bind_inv in H as [(u6 & w6 & E6 & H)|(e & _ & [=])].
  match type of E6 with ?m w3 = _ => assert (keeps undecided m /\ keeps same_base m) as [K1 K2]
    by (split; keeps_tac) end.
  pose proof (keeps_run _ _ _ _ _ K1 E6) as [Hq6 Hh6 Hc6 Hp6 Hr6].
  pose proof (keeps_run _ _ _ _ _ K2 E6) as Hb6.
  apply bind_inv in H as [(u7 & w7 & E7 & H)|(e & _ & [=])]. injection H as -> <-. injection E7 as _ <-.
  destruct Hu2 as [[Hf2 _] _ _ _ Hr2]. simpl in Hf2, Hr2. split_and!.
  - done.
  - change (t_pending (w_db w6) = None). by rewrite Hp6.
  - change (get_meta (w_db w6) STREAK_HASH_KEY = Some []). rewrite Hh6. unfold get_meta, set_meta. simpl.
    rewrite lookup_insert_ne, lookup_insert_eq; [done|]. by apply (bool_decide_unpack _).
  - change (get_meta (w_db w6) STREAK_COUNT_KEY = Some (py "0")). rewrite Hc6. apply lookup_insert_eq.
  - change (list_file (w_host w6) = list_file (w_host w)). by rewrite (proj1 Hq6).
  - change (tracks w6). by eapply tracks_same_base.
  - eexists. cbn. rewrite Hr6. simpl. rewrite Hr2. split_and!; [reflexivity..|]. reflexivity.
Qed.
(** An approval, branch by branch. *)
Lemma apply_pending_eq actor w :
  apply_pending cfg actor w =
  match pending (w_db w) with
  | None => (Err NothingPending, w)
  | Some p =>
      match plan_of None (w_db w) (list_file (w_host w)) with
      | Err e => (Err e, w)
      | Ok plan =>
          if negb (bool_decide (list_hash (mp_prefixes plan) = pc_list_hash p)) then (Err (StaleCandidate false), w)
          else bind (explain_cap plan (apply_computed cfg (compute_expected (pc_list_hash p)) false actor))
                 (settle plan (pc_list_hash p)) w
      end
  end.
Proof.
  unfold apply_pending, bind at 1, query, gets. destruct (pending (w_db w)) as [p|]; [|done].
  unfold bind at 1, build_plan. rewrite build_plan_eq. destruct (plan_of _ _ _) as [plan|e]; [|done].
  by destruct (negb _).
Qed.

Lemma compute_expected_eq expected w plan : plan_of None (w_db w) (list_file (w_host w)) = Ok plan ->
  list_hash (mp_prefixes plan) = expected -> compute_expected expected w = (Ok (mp_prefixes plan), w).
Proof.
  intros Hp Hh. unfold compute_expected, bind, build_plan. rewrite build_plan_eq, Hp.
  by rewrite bool_decide_true.
Qed.

(** C3 An approval applies what was shown or nothing: when it returns, the
    merge recomputed at that moment has the hash stored with the
    candidate, the file on disk is that merge, the queue and the streak are
    empty, the baseline is on the new list and the journal's newest row says
    so; when it raises, the tables are untouched (the candidate is still
    waiting) and, unless the helper itself failed, so is the file; and a
    candidate the world has moved past, or no candidate, is refused without any
    effect at all. *)
Theorem approval_applies_what_was_shown actor (w : world) r w' :
  helper_contract -> store_ok (w_db w) -> apply_pending cfg actor w = (r, w') ->
  match r with
  | Ok o => exists p plan row,
      pending (w_db w) = Some p /\ plan_of None (w_db w) (list_file (w_host w)) = Ok plan
      /\ list_hash (mp_prefixes plan) = pc_list_hash p
      /\ list_file (w_host w') = Some (render_list (mp_prefixes plan))
      /\ t_pending (w_db w') = None /\ get_meta (w_db w') STREAK_HASH_KEY = Some [] /\ tracks w'
      /\ t_runs (w_db w') = take RUNS_KEPT (row :: t_runs (w_db w))
      /\ run_reason row = py "approved" /\ run_list_hash row = pc_list_hash p
  | Err e => w_db w' = w_db w
      /\ (is_feed_error e = true -> list_file (w_host w') = list_file (w_host w))
      /\ (pending (w_db w) = None \/ (exists p plan, pending (w_db w) = Some p
            /\ plan_of None (w_db w) (list_file (w_host w)) = Ok plan
            /\ list_hash (mp_prefixes plan) <> pc_list_hash p) -> w' = w)
  end.
Proof.
  intros Hc Hok. rewrite apply_pending_eq.
  destruct (pending (w_db w)) as [p|] eqn:Hpend; [|by intros [= <- <-]].
  destruct (plan_of None (w_db w) _) as [plan|e] eqn:Hplan; [|by intros [= <- <-]].
  case_bool_decide as Hhash; simpl; cycle 1.
  { intros [= <- <-]. done. }
  intros H. assert (compute_expected (pc_list_hash p) w = (Ok (mp_prefixes plan), w)) as Hcomp
    by by apply compute_expected_eq.
  destruct (plan_of_spec None _ _ _ Hok Hplan) as ((final & Hf & Hcol & _) & _).
  apply bind_inv in H as [(o & w1 & E1 & H)|(e & E1 & ->)].
  - destruct r as [o'|e]; [|exfalso; by eapply nr_err; [apply settle_total|]].
    apply settle_spec in H as (_ & H1 & H2 & H3 & H4 & H5 & row & H6 & H7 & H8).
    assert (w_db w1 = w_db w /\ list_file (w_host w1) = Some (render_list (mp_prefixes plan))) as [Hdb Hfile].
    { revert E1. unfold explain_cap, catch. rewrite apply_computed_eq, Hcomp. unfold on_host, embed.
      destruct (apply_locked _ _ _ _ _) as [[a|e] h] eqn:Ha; [|by destruct e; intros [=]].
      intros [= <- <-]. split; [done|]. rewrite Hf in *.
      by apply apply_locked_written in Ha as (_ & Hfile & _); [..|apply Hcol]. }
    rewrite Hdb in H6. rewrite Hfile in H4. rewrite Hhash in H8. exists p, plan, row. by split_and!.
  - pose proof (explained_failure cfg plan (compute_expected (pc_list_hash p)) actor w e w') as Hq.
    split_and!.
    + revert E1. unfold explain_cap, catch. rewrite apply_computed_eq, Hcomp. unfold on_host, embed.
      destruct (apply_locked _ _ _ _ _) as [[a|e1] h]; [done|]. by destruct e1; intros [= _ <-].
    + intros He. apply Hq; [|done..]. unfold compute_expected, build_plan. keeps_tac.
    + intros [?|(p0 & plan0 & [= <-] & [= <-] & Hn)]; done.
Qed.
End Approval.


(** ** Lemmas: cutting ranges out of the manual rows *)

Lemma cut_parts_spec target parts : wf_net target -> Forall wf_net parts ->
  exists l, cut_parts target parts = Some l /\ Forall wf_net l
    /\ forall x, covers l x <-> covers parts x /\ ~ in_net x target.
Proof.
  intros Ht. induction 1 as [|part rest Hp _ IH]; simpl.
  { exists []. split_and!; [done|constructor|]. intros x. rewrite !covers_nil. naive_solver. }
  destruct IH as (l & -> & Hwl & Hl). destruct (subnet_of part target) eqn:E1.
  { exists l. split_and!; [done|done|]. intros x. rewrite Hl, covers_cons.
    pose proof (subnet_of_in part target x Hp Ht E1). naive_solver. }
  destruct (subnet_of target part) eqn:E2.
  - destruct (address_exclude_spec part target Hp Ht E2) as (pieces & -> & Hwp & Hpieces). simpl.
    exists (pieces ++ l). split_and!; [done|by apply Forall_app|]. intros x.
    rewrite covers_app, Hpieces, Hl, covers_cons. naive_solver.
  - exists (part :: l). split_and!; [done|by constructor|]. intros x. rewrite !covers_cons, Hl.
    assert (overlaps part target = false) as Ho.
    { destruct (overlaps part target) eqn:Ho; [|done].
      apply overlap_nested in Ho as [Ho|Ho]; [congruence|congruence|done|done]. }
    pose proof (overlaps_false part target x Hp Ht Ho). naive_solver.
Qed.

Lemma cut_targets_spec targets parts : Forall wf_net targets -> Forall wf_net parts ->
  exists l, cut_targets targets parts = Some l /\ Forall wf_net l
    /\ forall x, covers l x <-> covers parts x /\ ~ covers targets x.
Proof.
  intros Ht. revert parts. induction Ht as [|t targets Ht _ IH]; intros parts Hp; simpl.
  { exists parts. split_and!; [done|done|]. intros x. rewrite covers_nil. naive_solver. }
  destruct (cut_parts_spec t parts Ht Hp) as (l1 & -> & Hw1 & H1). simpl.
  destruct (IH l1 Hw1) as (l & -> & Hw & Hl). exists l. split_and!; [done|done|].
  intros x. rewrite Hl, H1, covers_cons. naive_solver.
Qed.

Lemma routes_cons e l x : routes (e :: l) x <-> (exists n, ipv4_of e = Some n /\ in_net x n) \/ routes l x.
Proof.
  unfold routes, parsed_networks. simpl. destruct (ipv4_of e) as [n|].
  - rewrite covers_cons. naive_solver.
  - naive_solver.
Qed.
Lemma routes_elem l x : routes l x <-> exists e n, e ∈ l /\ ipv4_of e = Some n /\ in_net x n.
Proof.
  unfold routes, covers. setoid_rewrite elem_of_parsed. naive_solver.
Qed.
Lemma parse_loose_spec items nets : parse_loose items = Some nets ->
  Forall wf_net nets /\ forall x, covers nets x <-> routes items x.
Proof.
  unfold parse_loose. rewrite mapM_Some. induction 1 as [|s n items nets Hn _ [Hw IH]].
  { split; [constructor|done]. }
  split; [constructor; [by eapply ipv4_network_wf|done]|]. intros x. rewrite covers_cons, routes_cons, IH.
  unfold ipv4_of. rewrite (ipv4_ip_network _ _ Hn). naive_solver.
Qed.

(** What the rows dropped and added amount to. *)
Lemma rows_without_spec manual targets drop add : Forall wf_net targets ->
  rows_without manual targets = Some (drop, add) ->
  (forall raw, raw ∈ drop -> raw ∈ manual
     /\ exists n, ipv4_network false raw = Some n /\ existsb (overlaps n) targets = true)
  /\ (forall raw, raw ∈ manual -> raw ∉ drop ->
        exists n, ipv4_network false raw = Some n /\ existsb (overlaps n) targets = false)
  /\ (exists nets, add = map show_net nets /\ Forall wf_net nets)
  /\ forall x, routes add x <-> routes drop x /\ ~ covers targets x.
Proof.
  intros Ht. revert drop add. induction manual as [|raw rest IH]; intros drop add; simpl.
  { intros [= <- <-]. split_and!; [by intros ? ?%not_elem_of_nil..|by exists []|].
    intros x. unfold routes. simpl. rewrite !covers_nil. naive_solver. }
  destruct (ipv4_network false raw) as [net|] eqn:En; simpl; [|done].
  pose proof (ipv4_network_wf _ _ _ En) as Hw.
  destruct (existsb (overlaps net) targets) eqn:Eo; simpl; cycle 1.
  { intros H. destruct (IH _ _ H) as (H1 & H2 & H3 & H4). split_and!; [|..|done|done].
    - intros r Hr. destruct (H1 r Hr). split; [by right|done].
    - intros r [->|Hr]%elem_of_cons Hn; [by exists net|by apply H2]. }
  assert (Forall wf_net [net]) as Hs by by apply Forall_singleton.
  destruct (cut_targets_spec targets [net] Ht Hs) as (left & -> & Hwl & Hl). simpl.
  destruct (rows_without rest targets) as [[drop' add']|]; [|done]. simpl. intros [= <- <-].
  destruct (IH _ _ eq_refl) as (H1 & H2 & (nets & -> & Hwn) & H4). split_and!.
  - intros r [->|Hr]%elem_of_cons; [split; [by left|by exists net]|]. destruct (H1 r Hr). split; [by right|done].
  - intros r [->|Hr]%elem_of_cons Hn; [destruct Hn; by left|]. apply H2; [done|]. set_solver.
  - exists (merge_sort net_le left ++ nets). rewrite map_app. split; [done|]. apply Forall_app. split; [|done].
    by rewrite merge_sort_Permutation.
  - intros x. rewrite routes_cons. unfold ipv4_of. rewrite (ipv4_ip_network _ _ En).
    rewrite <- map_app. unfold routes at 1. rewrite parsed_networks_show by
      (apply Forall_app; split; [by rewrite merge_sort_Permutation|done]).
    rewrite covers_app, (covers_perm _ left) by apply merge_sort_Permutation.
    specialize (H4 x). unfold routes at 1 in H4. rewrite parsed_networks_show in H4 by done.
    rewrite Hl, H4, covers_cons, covers_nil. naive_solver.
Qed.

(** The manual addresses after the rows have been dropped and added. *)
Lemma manual_rows_without_spec manual ranges drop add :
  manual_rows_without manual ranges = Some (drop, add) ->
  (exists nets, add = map show_net nets /\ Forall wf_net nets)
  /\ forall x, routes (List.filter (fun item => negb (bool_decide (item ∈ drop))) manual ++ add) x
       <-> routes manual x /\ ~ routes ranges x.
Proof.
  unfold manual_rows_without. destruct (parse_loose ranges) as [targets|] eqn:Et; simpl; [|done].
  apply parse_loose_spec in Et as [Hwt Ht]. intros H.
  destruct (rows_without_spec _ _ _ _ Hwt H) as (H1 & H2 & H3 & H4). split; [done|]. intros x.
  unfold routes at 1, parsed_networks. rewrite omap_app, covers_app.
  fold (parsed_networks add) (parsed_networks (List.filter (fun item => negb (bool_decide (item ∈ drop))) manual)).
  fold (routes add x) (routes (List.filter (fun item => negb (bool_decide (item ∈ drop))) manual) x).
  rewrite H4, Ht. rewrite !routes_elem. split.
  - intros [(e & n & He & Hn & Hx)|[(e & n & He & Hn & Hx) Hnot]].
    + apply list_elem_of_In, filter_In in He as [He Hd]. bool_prop. apply list_elem_of_In in He.
      split; [by exists e, n|]. intros Hr.
      assert (covers targets x) as (t & Htt & Hxt) by (apply Ht, routes_elem; exact Hr).
      destruct (H2 e He Hd) as (n' & Hn' & Ho). unfold ipv4_of in Hn.
      rewrite (ipv4_ip_network _ _ Hn') in Hn. injection Hn as ->.
      assert (overlaps n t = false) as Hno.
      { destruct (overlaps n t) eqn:E; [|done]. rewrite <- Ho. symmetry. apply existsb_exists.
        exists t. split; [by apply list_elem_of_In|done]. }
      rewrite Forall_elem in Hwt.
      by apply (overlaps_false n t x (ipv4_network_wf _ _ _ Hn') (Hwt t Htt) Hno).
    + split; [|exact Hnot]. exists e, n. by destruct (H1 e He).
  - intros [(e & n & He & Hn & Hx) Hnot]. destruct (decide (e ∈ drop)) as [Hd|Hd].
    + right. split; [by exists e, n|exact Hnot].
    + left. exists e, n. split_and!; [|done|done]. apply list_elem_of_In, filter_In.
      split; [by apply list_elem_of_In|]. by rewrite bool_decide_false.
Qed.

(** ** Lemmas: the tables after a change of the manual rows *)

Lemma all_prefixes_default d origin : default [] (all_prefixes d !! origin) = prefixes_for d origin.
Proof. rewrite lookup_all_prefixes. by destruct (prefixes_for d origin). Qed.

(** Operations on the manual rows leave the sources' contributions alone. *)
Definition manual_only (d d' : feed_db) : Prop :=
  t_sources d' = t_sources d /\ t_exclusions d' = t_exclusions d
  /\ forall o p, o <> MANUAL_ORIGIN -> (o, p) ∈ t_prefixes d' <-> (o, p) ∈ t_prefixes d.
Lemma prefixes_for_NoDup d o : NoDup (prefixes_for d o).
Proof.
  unfold prefixes_for, sorted_strs. rewrite merge_sort_Permutation.
  assert (forall l : list (str * str), NoDup l ->
    NoDup (map snd (List.filter (fun row => bool_decide (row.1 = o)) l))) as Hl; [|apply Hl, NoDup_elements].
  induction 1 as [|[o1 p1] l Hn _ IH]; simpl; [constructor|]. case_bool_decide as E; [|done]. subst o1. simpl.
  constructor; [|done]. intros ([o2 p2] & E & H)%list_elem_of_fmap. simpl in E. subst p2.
  apply list_elem_of_In, filter_In in H as [H Ho]. bool_prop. simpl in Ho. subst o2.
  by apply Hn, list_elem_of_In.
Qed.
Lemma prefixes_for_ext d d' o : (forall p, (o, p) ∈ t_prefixes d' <-> (o, p) ∈ t_prefixes d) ->
  prefixes_for d' o = prefixes_for d o.
Proof.
  intros H. apply (StronglySorted_unique str_le).
  1,2: unfold prefixes_for, sorted_strs; apply (StronglySorted_merge_sort str_le).
  apply NoDup_Permutation; [apply prefixes_for_NoDup..|]. intros p. rewrite !elem_prefixes_for. apply H.
Qed.
Lemma manual_only_contributions d d' : store_ok d -> manual_only d d' ->
  contributions_of d' = contributions_of d /\ excluded_of d' = excluded_of d.
Proof.
  intros Hok (Hs & He & Hp). unfold excluded_of. rewrite (exclusions_frame d d') by done. split; [|done].
  unfold contributions_of. rewrite Hs. apply map_ext_in. intros s Hin. apply filter_In in Hin as [Hin _].
  unfold contribution_of. rewrite !all_prefixes_default. do 2 f_equal. apply prefixes_for_ext.
  intros p. apply Hp. intros E. pose proof (ok_names d Hok) as Hn. rewrite Forall_elem in Hn.
  specialize (Hn s ltac:(by apply list_elem_of_In)). rewrite E in Hn. by vm_compute in Hn.
Qed.
Lemma manual_of_routes d x : covers (manual_of d) x <-> routes (manual_prefixes d) x.
Proof. unfold manual_of, routes. by rewrite all_prefixes_default. Qed.

Lemma elem_insert_rows o ps rows o' p :
  (o', p) ∈ insert_rows o ps rows <-> (o', p) ∈ rows \/ (o' = o /\ p ∈ ps).
Proof.
  unfold insert_rows. rewrite elem_of_union, elem_of_list_to_set, list_elem_of_fmap. naive_solver.
Qed.
Lemma elem_removed_rows (ps : list str) (rows : gset (str * str)) (o' p : str) :
  (o', p) ∈ rows ∖ list_to_set (map (fun p => (MANUAL_ORIGIN, p)) ps)
  <-> (o', p) ∈ rows /\ ~ (o' = MANUAL_ORIGIN /\ p ∈ ps).
Proof. rewrite elem_of_difference, elem_of_list_to_set, list_elem_of_fmap. naive_solver. Qed.

Lemma add_manual_spec ps d :
  manual_only d (add_manual_prefixes ps d)
  /\ forall p, p ∈ manual_prefixes (add_manual_prefixes ps d) <-> p ∈ manual_prefixes d \/ p ∈ ps.
Proof.
  unfold manual_only, add_manual_prefixes, manual_prefixes. split_and!; [done|done| |].
  - intros o p Hne. simpl. rewrite elem_insert_rows. naive_solver.
  - intros p. rewrite !elem_prefixes_for. simpl. rewrite elem_insert_rows. naive_solver.
Qed.
Lemma remove_manual_spec ps d :
  manual_only d (remove_manual_prefixes ps d)
  /\ forall p, p ∈ manual_prefixes (remove_manual_prefixes ps d) <-> p ∈ manual_prefixes d /\ p ∉ ps.
Proof.
  unfold manual_only, remove_manual_prefixes, manual_prefixes. split_and!; [done|done| |].
  - intros o p Hne. simpl. rewrite elem_removed_rows. naive_solver.
  - intros p. rewrite !elem_prefixes_for. simpl. rewrite elem_removed_rows. naive_solver.
Qed.

Lemma adopted_noop w : get_meta (w_db w) ADOPTED_META_KEY = Some (py "1") -> ensure_manual_adopted w = (Ok tt, w).
Proof.
  intros H. unfold ensure_manual_adopted, bind, query, gets. by rewrite bool_decide_true.
Qed.

Lemma carved_wanted m1 m2 s e1 e2 x : (covers m1 x <-> covers m2 x) -> (covers e1 x <-> covers e2 x) ->
  wanted m1 s e1 x <-> wanted m2 s e2 x.
Proof. intros Hm He. unfold wanted, contributed. by rewrite Hm, He. Qed.

Lemma excluded_of_routes d x : covers (excluded_of d) x <-> routes (exclusions d) x.
Proof. done. Qed.
Lemma routes_singleton_or l l' p x : (forall e, e ∈ l' <-> e = p \/ e ∈ l) ->
  routes l' x <-> routes [p] x \/ routes l x.
Proof.
  intros H. rewrite !routes_elem. setoid_rewrite H. setoid_rewrite list_elem_of_singleton. naive_solver.
Qed.

Lemma or_value_inv {A} (o : option A) (w : world) a w1 :
  lift (or_value_error o) w = (Ok a, w1) -> o = Some a /\ w1 = w.
Proof. unfold lift. destruct o; by intros [= -> ->]. Qed.

Section Edits.
Context {Host : SplitEnv} {Fetch : FetchEnv} {Env : ServiceEnv} (cfg : service_config).

(** Removing hand-typed ranges removes exactly those addresses from the manual
    set: rows inside a range go, rows around it are re-cut, the others stay, so
    the manual addresses afterwards are the old ones outside the ranges; the
    sources' contributions and the exclusions are untouched; and the list on disk
    is the canonical list of what the tables then want, so an address of the
    range stays routed only if a feed still publishes it. *)
Theorem manual_removal_exact ranges actor (w : world) o w' :
  helper_contract -> store_ok (w_db w) -> get_meta (w_db w) ADOPTED_META_KEY = Some (py "1") ->
  remove_manual_many cfg ranges actor w = (Ok o, w') ->
  (forall x, covers (manual_of (w_db w')) x <-> covers (manual_of (w_db w)) x /\ ~ routes ranges x)
  /\ exists final, list_file (w_host w') = Some (render_list (map show_net final)) /\ collapsed final
     /\ forall x, covers final x
          <-> wanted (manual_of (w_db w')) (contributions_of (w_db w)) (excluded_of (w_db w)) x.
Proof.
  intros Hc Hok Had H. unfold remove_manual_many in H. unfold bind at 1 in H. rewrite adopted_noop in H by done.
  apply bind_inv in H as [(manual & w1 & E1 & H)|(e & _ & [=])]. injection E1 as <- <-.
  apply bind_inv in H as [(changes & w1 & E1 & H)|(e & _ & [=])].
  apply or_value_inv in E1 as [E1 ->]. destruct changes as [drop add].
  apply bind_inv in H as [(u & w1 & E2 & H)|(e & _ & [=])]. injection E2 as _ <-.
  apply bind_inv in H as [(u2 & w2 & E2 & H)|(e & _ & [=])]. injection E2 as _ <-. simpl in H.
  set (d1 := remove_manual_prefixes drop (w_db w)) in H. set (d2 := add_manual_prefixes add d1) in H.
  destruct (manual_rows_without_spec _ _ _ _ E1) as [_ Hx].
  destruct (remove_manual_spec drop (w_db w)) as [M1 R1]. destruct (add_manual_spec add d1) as [M2 R2].
  fold d1 in M1, R1. fold d2 in M2, R2.
  assert (store_ok d1) as Hok1 by (eapply store_step_ok; [apply do_remove_manual|done]).
  assert (store_ok d2) as Hok2 by (eapply store_step_ok; [apply do_add_manual|done]).
  destruct (manual_only_contributions _ _ Hok M1) as [C1 X1], (manual_only_contributions _ _ Hok1 M2) as [C2 X2].
  apply recompute_apply_spec in H as (Hdb & p & final & _ & Hp & Hf & _ & Hcol & Hw); [|done|done].
  simpl in Hdb, Hw. rewrite Hdb. rewrite C2, X2, C1, X1 in Hw. split.
  - intros x. rewrite !manual_of_routes. rewrite <- Hx. apply routes_ext. intros e.
    rewrite R2, R1, elem_of_app. apply or_iff_compat_r.
    rewrite (list_elem_of_In (List.filter _ _)), filter_In, <- list_elem_of_In, negb_true_iff, bool_decide_eq_false.
    done.
  - exists final. rewrite Hf, Hp. by split_and!.
Qed.

(** An exclusion takes its addresses off the list, whatever the feeds publish,
    and nothing else: after [exclude_prefix] the list on disk covers exactly
    the addresses that were wanted before and are outside the prefix. *)
Theorem exclusion_exact prefix actor (w : world) o w' :
  helper_contract -> store_ok (w_db w) -> get_meta (w_db w) ADOPTED_META_KEY = Some (py "1") ->
  exclude_prefix cfg prefix actor w = (Ok o, w') ->
  prefix ∈ exclusions (w_db w')
  /\ exists final, list_file (w_host w') = Some (render_list (map show_net final)) /\ collapsed final
     /\ forall x, covers final x
          <-> wanted (manual_of (w_db w)) (contributions_of (w_db w)) (excluded_of (w_db w)) x
              /\ ~ routes [prefix] x.
Proof.
  intros Hc Hok Had H. unfold exclude_prefix in H. unfold bind at 1 in H. rewrite adopted_noop in H by done.
  apply bind_inv in H as [(u & w1 & E2 & H)|(e & _ & [=])]. injection E2 as _ <-.
  apply bind_inv in H as [(u2 & w2 & E2 & H)|(e & _ & [=])]. injection E2 as _ <-. simpl in H.
  set (d1 := add_exclusion prefix (w_db w)) in H. set (d2 := remove_manual_prefixes [prefix] d1) in H.
  destruct (remove_manual_spec [prefix] d1) as [M2 R2]. fold d2 in M2, R2.
  assert (store_ok d1) as Hok1 by (eapply store_step_ok; [apply do_exclude|done]).
  assert (store_ok d2) as Hok2 by (eapply store_step_ok; [apply do_remove_manual|done]).
  destruct (manual_only_contributions _ _ Hok1 M2) as [C2 X2].
  apply recompute_apply_spec in H as (Hdb & p & final & _ & Hp & Hf & _ & Hcol & Hw); [|done|done].
  simpl in Hdb, Hw. rewrite C2, X2 in Hw. change (contributions_of d1) with (contributions_of (w_db w)) in Hw.
  assert (forall e, e ∈ exclusions d1 <-> e = prefix \/ e ∈ exclusions (w_db w)) as He.
  { intros e. unfold exclusions, sorted_strs. rewrite !merge_sort_Permutation, !elem_of_elements.
    unfold d1. simpl. set_solver. }
  split.
  - rewrite Hdb. change (exclusions d2) with (exclusions d1). apply He. by left.
  - exists final. rewrite Hf, Hp. split_and!; [done|done|]. intros x. rewrite Hw.
    assert (covers (excluded_of d1) x <-> routes [prefix] x \/ covers (excluded_of (w_db w)) x) as Hex
      by by apply routes_singleton_or.
    assert (covers (manual_of (w_db w)) x <-> covers (manual_of d2) x \/ (prefix ∈ manual_prefixes d1 /\ routes [prefix] x)) as Hm.
    { rewrite !manual_of_routes, !routes_elem. change (manual_prefixes (w_db w)) with (manual_prefixes d1).
      setoid_rewrite R2. setoid_rewrite list_elem_of_singleton. split.
      - intros (e & n & H1 & H2 & H3). destruct (decide (e = prefix)) as [->|]; [right; eauto 6|left; eauto 8].
      - intros [(e & n & [H1 _] & H2 & H3)|[H0 (e & n & -> & H2 & H3)]]; eauto. }
    unfold wanted, contributed. rewrite Hex. naive_solver.
Qed.
End Edits.

(** ** A concrete world for the witnesses *)

(** The schema's tables after one refresh of Telegram and two hand-typed rows. *)
Definition demo_db : feed_db :=
  replace_prefixes (py "telegram-cidr") [py "91.108.4.0/22"]
    (add_manual_prefixes [py "8.8.4.0/24"; py "9.9.8.0/23"]
      (set_meta ADOPTED_META_KEY (py "1") seeded_db)).
Definition edited_world : world := World demo_host demo_db (Fetcher ∅ 0) ∅ [] 0.
Lemma demo_db_ok : store_ok demo_db.
Proof.
  eapply store_step_ok; [apply do_replace|].
  eapply store_step_ok; [apply do_add_manual|]. eapply store_step_ok; [apply do_meta|]. exact seeded_db_ok.
Defined.
(** The same with a candidate waiting for approval. *)
Definition demo_list : list str := [py "8.8.4.0/24"; py "9.9.8.0/23"; py "91.108.4.0/22"].
Definition demo_hash : str := Eval vm_compute in list_hash demo_list.
Definition no_deltas : deltas := Deltas 0 0 0 0 false [] [] 0 0 [] [].
Definition waiting_world : world :=
  World demo_host (set_pending demo_hash demo_list (py "growth") no_deltas 5 demo_db) (Fetcher ∅ 0) ∅ [] 0.
Lemma waiting_db_ok : store_ok (w_db waiting_world).
Proof. eapply store_step_ok; [apply do_pending|exact demo_db_ok]. Defined.

Definition demo_approve : result svc_error apply_outcome * world :=
  @apply_pending demo_env demo_service_env (demo_service MODE_REVIEW 1) (Some 7) waiting_world.
Lemma approval_applies_what_was_shown_witness :
  exists o, demo_approve.1 = Ok o /\ t_pending (w_db demo_approve.2) = None.
Proof.
  eexists. split; [vm_compute; reflexivity|].
  eassert (demo_approve.1 = Ok _) as E by (vm_compute; reflexivity).
  destruct (@approval_applies_what_was_shown demo_env demo_service_env (demo_service MODE_REVIEW 1) (Some 7)
              waiting_world (Ok _) demo_approve.2 demo_contract waiting_db_ok (run_fst _ _ E))
    as (p & plan & row & Hp & _ & _ & _ & Hn & _).
  exact Hn.
Defined.

Definition demo_removal : result svc_error apply_outcome * world :=
  @remove_manual_many demo_env (demo_service MODE_REVIEW 1) [py "9.9.9.0/24"] (Some 7) edited_world.
Lemma manual_removal_exact_witness :
  is_ok demo_removal.1 = true
  /\ read_list_of (list_file (w_host demo_removal.2)) = [py "8.8.4.0/24"; py "9.9.8.0/24"; py "91.108.4.0/22"]
  /\ ~ covers (manual_of (w_db demo_removal.2)) 151587082.
Proof.
  split; [vm_compute; reflexivity|]. split; [vm_compute; reflexivity|].
  eassert (demo_removal.1 = Ok _) as E by (vm_compute; reflexivity).
  destruct (@manual_removal_exact demo_env (demo_service MODE_REVIEW 1) [py "9.9.9.0/24"] (Some 7) edited_world
              _ _ demo_contract demo_db_ok ltac:(vm_compute; reflexivity) (run_fst _ _ E)) as [Hx _].
  intros Hc. apply Hx in Hc as [_ Hc]. apply Hc. exists (IPv4Network 151587072 24).
  split; [by left|]. vm_compute. split; [discriminate|reflexivity].
Defined.

Definition demo_exclusion : result svc_error apply_outcome * world :=
  @exclude_prefix demo_env (demo_service MODE_REVIEW 1) (py "91.108.6.0/23") (Some 7) edited_world.
Lemma exclusion_exact_witness :
  is_ok demo_exclusion.1 = true
  /\ read_list_of (list_file (w_host demo_exclusion.2)) = [py "8.8.4.0/24"; py "9.9.8.0/23"; py "91.108.4.0/23"]
  /\ py "91.108.6.0/23" ∈ exclusions (w_db demo_exclusion.2).
Proof.
  split; [vm_compute; reflexivity|]. split; [vm_compute; reflexivity|].
  eassert (demo_exclusion.1 = Ok _) as E by (vm_compute; reflexivity).
  apply (@exclusion_exact demo_env (demo_service MODE_REVIEW 1) (py "91.108.6.0/23") (Some 7) edited_world
           _ _ demo_contract demo_db_ok ltac:(vm_compute; reflexivity) (run_fst _ _ E)).
Defined.
