(* ===== verification/FeedRefresh.v ===== *)
(** * What refreshing the feeds promises

    The theorems about [refresh_sources] and [build_plan] of [FeedService]: a
    refresh always returns, a feed that fails leaves what the plan is computed
    from as it was, and a plan is exactly the merge of the stored state. *)

From S2P Require Import Prelude PyText PyIp IpSpace Float64 Json SplitMerge SplitAnalysis SplitManager WarpFetcher FeedStore FeedService FeedSafety FeedDecisions.
#[local] Open Scope Z_scope.

(** ** Lemmas: one source *)

Lemma finish_parse_ok nets ipv6 invalid kind p :
  finish_parse nets ipv6 invalid kind = Ok p -> pf_networks p <> [].
Proof.
  unfold finish_parse. destruct nets as [|n nets]; [done|]. intros [= <-] H. simpl in H.
  assert (n ∈ sort_networks (n :: nets)) as Hn.
  { unfold sort_networks. rewrite merge_sort_Permutation. by left. }
  rewrite H in Hn. by apply not_elem_of_nil in Hn.
Qed.
Lemma parse_feed_ok `{ServiceEnv} kind payload p : parse_feed json_str kind payload = Ok p -> pf_networks p <> [].
Proof.
  unfold parse_feed, parse_cidr_text, parse_google_json. intros Hp.
  repeat case_match; try done; by eapply finish_parse_ok.
Qed.

(** What the plan reads of a source row. *)
Definition plan_key (s : split_source) : str * str * bool * bool * option str :=
  (src_slug s, src_mode s, src_enabled s, src_include_in_list s, src_scope_slug s).
Definition same_keys (d d' : feed_db) : Prop :=
  map plan_key (t_sources d') = map plan_key (t_sources d) /\ t_exclusions d' = t_exclusions d.
#[export] Instance same_keys_preorder : PreOrder same_keys.
Proof. split; [by split|]. intros d1 d2 d3 [] []. split; congruence. Qed.

Lemma gather_keys l1 l2 stored : map plan_key l1 = map plan_key l2 -> gather l1 stored = gather l2 stored.
Proof.
  revert l2. induction l1 as [|s l1 IH]; intros [|s2 l2]; simpl; try done.
  unfold plan_key. intros [= H1 H2 H3 H4 H5 H]. rewrite (IH _ H). by rewrite H1, H2, H3, H4, H5.
Qed.
Lemma plan_of_frame o d d' file : same_keys d d' -> (forall origin, prefixes_for d' origin = prefixes_for d origin) ->
  plan_of o d' file = plan_of o d file.
Proof.
  intros [Hk He] Hp. assert (all_prefixes d' = all_prefixes d) as Ha.
  { apply map_eq. intros i. by rewrite !lookup_all_prefixes, Hp. }
  unfold plan_of. by rewrite (gather_keys _ _ _ Hk), Ha, (exclusions_frame _ _ He).
Qed.

Lemma replace_keys d d' o l : same_keys d d' -> same_keys d (replace_prefixes o l d').
Proof. by intros []. Qed.
Lemma update_keys slug f d d' : same_keys d d' -> (forall s, plan_key (f s) = plan_key s) ->
  same_keys d (update_source slug f d').
Proof.
  intros H Hf. etransitivity; [exact H|]. split; [|done]. simpl. rewrite map_map. apply map_ext. intros s. case_bool_decide; [apply Hf|done].
Qed.

Section Refreshing.
Context {Host : SplitEnv} {Fetch : FetchEnv} {Env : ServiceEnv} (cfg : service_config).

(** What one fetch does to the tables the plan reads. *)
Definition refreshed_one (slug : str) (item : source_refresh) (w w' : world) : Prop :=
  sr_slug item = slug /\ same_keys (w_db w) (w_db w') /\ undecided w w'
  /\ ((sr_ok item = false /\ t_prefixes (w_db w') = t_prefixes (w_db w))
      \/ (sr_ok item = true /\ exists nets, nets <> []
          /\ t_prefixes (w_db w')
             = insert_rows slug (map show_net nets) (filter (fun row => row.1 <> slug) (t_prefixes (w_db w))))).

Lemma refresh_one_spec s w : exists item w',
  refresh_one cfg s w = (Ok item, w') /\ refreshed_one (src_slug s) item w w'.
Proof.
  pose proof (keeps_refresh_one cfg s w) as Hu. pose proof (nr_refresh_one cfg s w) as Hn.
  destruct (refresh_one cfg s w) as [[item|e] w'] eqn:E; [|done]. simpl in Hu. clear Hn.
  exists item, w'. split; [done|]. revert E. unfold refresh_one, bind, tell, store, modify. simpl.
  destruct (fetch _ _ _ _ _ _) as [[p|[text]] f'] eqn:Ef.
  - apply fetch_status in Ef. destruct (parse_feed json_str (src_kind s) (fp_text p)) as [parsed|e] eqn:Ep.
    + intros [= <- <-]. apply parse_feed_ok in Ep. split_and!; [done| |done|].
      * apply update_keys; [apply replace_keys, update_keys; [reflexivity|]|]; done.
      * right. split.
        { unfold sr_ok. simpl. destruct Ef as [->| ->]; by apply (bool_decide_unpack _). }
        by exists (pf_networks parsed).
    + intros [= <- <-]. split_and!; [done| |done|].
      * apply update_keys; [apply update_keys; [reflexivity|]|]; done.
      * left. split; [|done]. unfold sr_ok. simpl. by destruct (is_empty_feed_error e).
  - intros [= <- <-]. split_and!; [done| |done|].
    + apply update_keys; [apply update_keys; [reflexivity|]|]; done.
    + by left.
Qed.

Lemma refreshed_one_other slug item w w' origin : refreshed_one slug item w w' -> origin <> slug ->
  prefixes_for (w_db w') origin = prefixes_for (w_db w) origin.
Proof.
  intros (_ & _ & _ & [[_ Hp]|(_ & nets & _ & Hp)]) Hne; apply prefixes_for_ext; intros p; rewrite Hp; [done|].
  rewrite elem_insert_rows, elem_of_filter. naive_solver.
Qed.

(** What a refresh of a list of sources does. *)
Lemma refresh_all_spec sources w : NoDup (map src_slug sources) -> exists items w',
  mmap (refresh_one cfg) sources w = (Ok items, w') /\ map sr_slug items = map src_slug sources
  /\ same_keys (w_db w) (w_db w') /\ undecided w w'
  /\ (forall origin, (forall i, i ∈ items -> sr_slug i = origin -> sr_ok i = false) ->
        prefixes_for (w_db w') origin = prefixes_for (w_db w) origin)
  /\ (forall i, i ∈ items -> sr_ok i = true -> exists nets, nets <> []
        /\ forall p, p ∈ prefixes_for (w_db w') (sr_slug i) <-> p ∈ map show_net nets).
Proof.
  revert w. induction sources as [|s rest IH]; intros w Hnd; simpl.
  { exists [], w. split_and!; [done..|]. by intros i ?%not_elem_of_nil. }
  inversion Hnd as [|x l Hnin Hnd']; subst x l.
  destruct (refresh_one_spec s w) as (item & w1 & E1 & H1). destruct (IH w1 Hnd') as (items & w2 & E2 & Hm & Hk & Hu & Hf & Hs).
  exists (item :: items), w2. unfold bind, ret. rewrite E1, E2.
  pose proof H1 as (Hslug & Hk1 & Hu1 & Hp1).
  split_and!; [done|simpl; by rewrite Hm, Hslug|by etransitivity|by etransitivity|..].
  - intros origin Ho. rewrite Hf by (intros i Hi; apply Ho; by right).
    destruct (decide (origin = src_slug s)) as [->|Hne]; [|by eapply refreshed_one_other].
    destruct Hp1 as [[_ Hp]|(Hok & _)].
    + apply prefixes_for_ext. intros p. by rewrite Hp.
    + rewrite (Ho item) in Hok by (done || by left). done.
  - intros i [->|Hi]%elem_of_cons Hok; [|by apply Hs].
    destruct Hp1 as [[Hno _]|(_ & nets & Hne & Hp)]; [congruence|]. exists nets. split; [done|].
    rewrite Hf, Hslug.
    + intros p. rewrite elem_prefixes_for, Hp, elem_insert_rows, elem_of_filter. naive_solver.
    + intros j Hj Hjs. exfalso. apply Hnin. rewrite <- Hm, <- Hslug, <- Hjs. apply list_elem_of_fmap. by exists j.
Qed.
(** C15 A refresh always returns, and a broken feed can never shorten the list:
    whatever the network answers, [refresh_sources] returns one outcome per
    fetched source and does nothing to the disk; an origin changes its stored
    prefixes only if it was fetched with success, and then to a non-empty set; the
    hand-typed rows never change; and when every fetch failed, the merge computed
    afterwards is the merge computed before. *)
Theorem broken_feed_keeps_the_list slugs (w : world) : store_ok (w_db w) ->
  exists items w', refresh_sources cfg slugs w = (Ok items, w') /\ same_disk w w'
    /\ NoDup (map sr_slug items)
    /\ (forall origin, (forall i, i ∈ items -> sr_slug i = origin -> sr_ok i = false) ->
          prefixes_for (w_db w') origin = prefixes_for (w_db w) origin)
    /\ (forall i, i ∈ items -> sr_ok i = true -> exists nets, nets <> []
          /\ forall p, p ∈ prefixes_for (w_db w') (sr_slug i) <-> p ∈ map show_net nets)
    /\ manual_prefixes (w_db w') = manual_prefixes (w_db w)
    /\ (forallb (fun i => negb (sr_ok i)) items = true -> (build_plan w').1 = (build_plan w).1).
Proof.
  intros Hok. unfold refresh_sources, bind, query, gets, list_sources.
  set (asked := List.filter _ (t_sources (w_db w))).
  assert (NoDup (map src_slug asked)) as Hnd by apply filter_map_NoDup, Hok.
  destruct (refresh_all_spec asked w Hnd) as (items & w' & -> & Hm & Hk & Hu & Hf & Hs).
  exists items, w'. split_and!; [done|by apply undecided_same_disk|by rewrite Hm|done|done|..].
  - apply Hf. intros i Hi E. exfalso.
    assert (MANUAL_ORIGIN ∈ map src_slug asked) as Hin
      by (rewrite <- Hm, <- E; apply list_elem_of_fmap; by exists i).
    apply list_elem_of_fmap in Hin as (s & Es & Hs'). apply list_elem_of_In, filter_In in Hs' as [Hs' _].
    pose proof (ok_names _ Hok) as Hn. rewrite Forall_elem in Hn. specialize (Hn s ltac:(by apply list_elem_of_In)).
    rewrite <- Es in Hn. by vm_compute in Hn.
  - intros Hall. unfold build_plan. rewrite !build_plan_eq. cbn [fst].
    destruct Hu as [[Hfile _] _ _ _ _]. rewrite Hfile. apply plan_of_frame; [done|]. intros origin. apply Hf.
    intros i Hi _. rewrite forallb_forall in Hall. apply negb_true_iff, Hall. by apply list_elem_of_In.
Qed.

(** C16 The plan is the specification applied to the stored state: it is computed
    exactly when every enabled source that takes part has stored prefixes, and
    then its entries are the canonical list of the wanted addresses (manual and
    add sources, minus the scoped and the global subtractions, minus the
    exclusions); otherwise it is refused naming such a source; either way
    nothing is changed. *)
Theorem plan_refines_stored_state (w : world) : store_ok (w_db w) ->
  (build_plan w).2 = w
  /\ (is_ok (build_plan w).1 = true
      <-> forall s, s ∈ t_sources (w_db w) -> selected s = true -> prefixes_for (w_db w) (src_slug s) <> [])
  /\ match (build_plan w).1 with
     | Ok p => exists final, mp_prefixes p = map show_net final /\ collapsed final
         /\ mp_current p = read_list_of (list_file (w_host w))
         /\ forall x, covers final x
              <-> wanted (manual_of (w_db w)) (contributions_of (w_db w)) (excluded_of (w_db w)) x
     | Err e => exists s, s ∈ t_sources (w_db w) /\ selected s = true
         /\ prefixes_for (w_db w) (src_slug s) = [] /\ e = NoCache (src_slug s)
     end.
Proof.
  intros Hok. unfold build_plan. rewrite build_plan_eq. cbn [fst snd]. split; [done|].
  destruct (plan_of None (w_db w) (list_file (w_host w))) as [p|e] eqn:Hp.
  - destruct (plan_of_spec None _ _ _ Hok Hp) as ((final & Hf & Hcol & Hx) & Hcur & Hall). split.
    + split; [|done]. intros _ s Hs Hsel. rewrite <- all_prefixes_default. by apply Hall.
    + exists final. by split_and!.
  - assert (exists s, s ∈ t_sources (w_db w) /\ selected s = true
         /\ prefixes_for (w_db w) (src_slug s) = [] /\ e = NoCache (src_slug s)) as (s & H1 & H2 & H3 & ->).
    { unfold plan_of in Hp. destruct (gather_total (t_sources (w_db w)) (all_prefixes (w_db w)))
        as [(cs & ps & Hg)|(s & H1 & H2 & H3 & Hg)]; rewrite Hg in Hp; simpl in Hp.
      - exfalso. apply gather_eq in Hg as [-> _].
        destruct (merge_split_list_spec (manual_of (w_db w)) (contributions_of (w_db w)) (excluded_of (w_db w)))
          as (r & final & _ & Hm & _); [apply parsed_networks_wf|by apply contributions_ok|apply parsed_networks_wf|].
        unfold manual_of, contributions_of, excluded_of in Hm. by rewrite Hm in Hp.
      - injection Hp as <-. rewrite all_prefixes_default in H3. by exists s. }
    split; [|by exists s]. split; [done|]. intros Hall. by destruct (Hall s H1 H2).
Qed.
End Refreshing.

(** A fetcher whose every request times out. *)
Definition broken_fetch_env : FetchEnv := {|
  http_get := fun _ _ _ => inr HttpTimeout; cache_readable := fun _ => true; cache_writable := fun _ => true;
  repr := fun s => s; decode_error := fun _ => [] |}.
Lemma broken_feed_keeps_the_list_witness :
  exists items w', @refresh_sources broken_fetch_env demo_service_env (demo_service MODE_AUTO 1) None edited_world
                   = (Ok items, w')
    /\ forallb (fun i => negb (sr_ok i)) items = true /\ (build_plan w').1 = (build_plan edited_world).1.
Proof.
  destruct (@broken_feed_keeps_the_list broken_fetch_env demo_service_env (demo_service MODE_AUTO 1) None
              edited_world demo_db_ok) as (items & w' & E & _ & _ & _ & _ & _ & H).
  exists items, w'. split; [exact E|].
  assert (match @refresh_sources broken_fetch_env demo_service_env (demo_service MODE_AUTO 1) None edited_world with
          | (Ok l, _) => forallb (fun i => negb (sr_ok i)) l | (Err _, _) => false end = true) as Hall
    by (vm_compute; reflexivity).
  rewrite E in Hall. split; [exact Hall|exact (H Hall)].
Defined.

Lemma plan_refines_stored_state_witness :
  is_ok (build_plan edited_world).1 = true
  /\ forall s, s ∈ t_sources demo_db -> selected s = true -> prefixes_for demo_db (src_slug s) <> [].
Proof.
  split; [vm_compute; reflexivity|].
  destruct (plan_refines_stored_state edited_world demo_db_ok) as (_ & [H _] & _).
  exact (H ltac:(vm_compute; reflexivity)).
Defined.
