(* ===== verification/FeedFindings.v ===== *)
(** * Where the feed service departs from its documentation

    Concrete runs of [FeedService] that show a behaviour its comments do not
    describe: confirmation sightings need not be consecutive runs, and a list that was
    never analysed can be applied unattended. (That a run
    whose apply helper fails leaves no journal row is [raised_run_leaves_no_row]
    of [FeedSafety].) *)

From S2P Require Import Prelude PyText PyIp IpSpace Float64 Json SplitMerge SplitAnalysis SplitManager WarpFetcher FeedStore FeedService FeedSafety.
#[local] Open Scope Z_scope.

(** ** Sightings that are not in a row *)

(** A feed that publishes an implausible list between two plausible ones. *)
Definition wobbly_fetch_env : FetchEnv := {|
  http_get := fun t _ _ => inl (HttpResponse 200 None None None
    [utf8_encode (if (t =? 4)%nat then py "12.0.0.0/8" else py "91.108.4.0/22"); [10%N]] None);
  cache_readable := fun _ => true; cache_writable := fun _ => true;
  repr := fun s => s; decode_error := fun _ => [] |}.
Definition wobbly_run (w : world) : result svc_error cycle_result * world :=
  @run_cycle demo_env wobbly_fetch_env demo_service_env (demo_service MODE_AUTO 2) w.
Definition decision_of (p : result svc_error cycle_result * world) : option (str * str) :=
  match p.1 with Ok c => Some (cy_decision c, cy_reason c) | Err _ => None end.
Definition after_first : world := (wobbly_run demo_world).2.
Definition after_second : world := (wobbly_run after_first).2.

(** With two confirmations required, the second run sees another candidate (and
    queues it), and the third run still applies the first one. *)
Lemma streak_survives_another_candidate :
  decision_of (wobbly_run demo_world) = Some (DECISION_NOCHANGE, py "streak:1/2")
  /\ decision_of (wobbly_run after_first) = Some (DECISION_QUEUED, py "growth")
  /\ decision_of (wobbly_run after_second) = Some (DECISION_APPLIED, py "auto-applied").
Proof. split_and!; vm_compute; reflexivity. Qed.

(** ** A list that was not analysed *)

(** Once the run has planned, a preview of an admin ([refresh] without [apply]) stores
    what a feed publishes by then. *)
Definition preview_env : ServiceEnv := {|
  clock := @clock demo_service_env; wall_clock := @wall_clock demo_service_env;
  json_str := fun _ => []; value_error_text := fun s => s;
  others := fun w => if (10 <=? w_tick w)%nat
    then World (w_host w) (replace_prefixes (py "telegram-cidr") [py "12.0.0.0/8"] (w_db w))
           (w_fetcher w) (w_alerted_at w) (w_sent w) (w_tick w)
    else w |}.
Definition raced_run : result svc_error cycle_result * world :=
  @run_cycle demo_env demo_fetch_env preview_env (demo_service MODE_AUTO 1) demo_world.
Definition analysed_addition (p : result svc_error cycle_result * world) : list str :=
  match p.1 with Ok (CycleResult _ _ _ _ (Some a) _ _ _) => ca_added a | _ => [] end.

(** The list that is held for its growth when it is analysed is applied, on the
    analysis of another. *)
Lemma unanalysed_list_is_applied :
  decision_of (wobbly_run after_first) = Some (DECISION_QUEUED, py "growth")
  /\ decision_of raced_run = Some (DECISION_APPLIED, py "auto-applied")
  /\ py "12.0.0.0/8" ∉ analysed_addition raced_run /\ analysed_addition raced_run <> []
  /\ py "12.0.0.0/8" ∈ read_list_of (list_file (w_host raced_run.2)).
Proof.
  assert (bool_decide (py "12.0.0.0/8" ∈ analysed_addition raced_run) = false) as H1 by (vm_compute; reflexivity).
  assert (bool_decide (py "12.0.0.0/8" ∈ read_list_of (list_file (w_host raced_run.2))) = true) as H2 by (vm_compute; reflexivity).
  apply bool_decide_eq_false in H1. apply bool_decide_eq_true in H2.
  split; [vm_compute; reflexivity|]. split; [vm_compute; reflexivity|]. split; [exact H1|]. split; [vm_compute; discriminate|exact H2].
Qed.
