(* ===== verification/IpAllocator.v ===== *)
(** * The client-address allocator

    [adapters/ip_allocator.py]: an allocator is a pool and the server's address in
    it; [next_free_ip] reads what the key table and the server configuration
    already use and returns the first free host address. The two readers are
    arguments: the rows' addresses ([VpnKeys.get_occupied_awg_ips]) and the
    outcome of reading the peers' [AllowedIPs] ([AwgConfig.list_peer_allowed_ips]). *)

From S2P Require Import Prelude PyText PyIp IpSpace.
From Stdlib Require Import ZifyBool.
#[local] Open Scope Z_scope.

(** [AwgIpAllocationError], one constructor per message. *)
Inductive alloc_error :=
  | BadPoolValues | PoolNotIPv4 | ServerOutsidePool | ServerReserved
  | BadOccupied (value : str) | BadPeerNetwork | PeersUnreadable | PoolExhausted.

(** An exception of the peer source, as the two [except] clauses tell them apart. *)
Inductive peer_source_error := SourceValueError | SourceError.

Record ip_allocator := IpAllocator { network : ipv4net; server_address : Z }.

(** [IpAllocator.__init__] *)
Definition init (pool server : str) : result alloc_error ip_allocator :=
  match ip_network pool, ip_address (before_char SLASH server) with
  | Some (inl n), Some (inl a) =>
      if negb (addr_in a n) then Err ServerOutsidePool
      else if (a =? network_address n) || (a =? broadcast_address n) then Err ServerReserved
      else Ok (IpAllocator n a)
  | Some _, Some _ => Err PoolNotIPv4
  | _, _ => Err BadPoolValues
  end.

(** The set of addresses the key rows hold. *)
Fixpoint read_occupied (values : list str) : result alloc_error (list (Z + Z)) :=
  match values with
  | [] => Ok []
  | value :: rest =>
      let text := strip (before_char SLASH value) in
      match text with
      | [] => read_occupied rest
      | _ => match ip_address text with
             | None => Err (BadOccupied value)
             | Some a => result_bind (read_occupied rest) (fun l => Ok (a :: l))
             end
      end
  end.

(** The peers' networks that overlap the pool. *)
Fixpoint read_networks (pool : ipv4net) (values : list str) : result alloc_error (list ipv4net) :=
  match values with
  | [] => Ok []
  | [] :: rest => read_networks pool rest
  | value :: rest =>
      match ip_network value with
      | None => Err BadPeerNetwork
      | Some (inr _) => read_networks pool rest
      | Some (inl n) =>
          result_bind (read_networks pool rest)
            (fun l => Ok (if overlaps n pool then n :: l else l))
      end
  end.

Definition peer_networks (pool : ipv4net) (peers : option (result peer_source_error (list str)))
    : result alloc_error (list ipv4net) :=
  match peers with
  | None => Ok []
  | Some (Err SourceValueError) => Err BadPeerNetwork
  | Some (Err SourceError) => Err PeersUnreadable
  | Some (Ok values) => read_networks pool values
  end.

(** [network.hosts()]: a first address and how many follow it. *)
Definition hosts (n : ipv4net) : Z * Z :=
  if prefixlen n =? 32 then (network_address n, 1)
  else if prefixlen n =? 31 then (network_address n, 2)
  else (network_address n + 1, broadcast_address n - network_address n - 1).

Definition usable (server : Z) (occupied : list (Z + Z)) (nets : list ipv4net) (x : Z) : bool :=
  negb (x =? server) && negb (bool_decide (inl x ∈ occupied)) && negb (existsb (addr_in x) nets).

(** The scan: [n] addresses from [x] on. *)
Fixpoint scan (ok : Z -> bool) (n : nat) (x : Z) : option Z :=
  match n with
  | O => None
  | S n' => if ok x then Some x else scan ok n' (x + 1)
  end.

(** [IpAllocator.next_free_ip] *)
Definition next_free_ip (self : ip_allocator) (values : list str)
    (peers : option (result peer_source_error (list str))) : result alloc_error str :=
  result_bind (read_occupied values) (fun occupied =>
  result_bind (peer_networks (network self) peers) (fun nets =>
  let '(first, count) := hosts (network self) in
  match scan (usable (server_address self) occupied nets) (Z.to_nat count) first with
  | Some x => Ok (show_addr x)
  | None => Err PoolExhausted
  end)).

(** ** Lemmas *)

(** A constructed allocator has a well-formed pool of at least four addresses and a
    server address strictly inside it. *)
Definition wf_allocator (self : ip_allocator) : Prop :=
  wf_net (network self)
  /\ network_address (network self) < server_address self < broadcast_address (network self).

Lemma init_wf pool server self : init pool server = Ok self -> wf_allocator self.
Proof.
  unfold init, ip_address. intros H.
  destruct (ip_network pool) as [[n|]|] eqn:En; try done.
  - apply ip_network_wf in En. destruct (ipv4_address _) as [a|] eqn:Ea.
    + apply ipv4_address_range in Ea. destruct (addr_in a n) eqn:Hin; simpl in H; [|done].
      destruct (_ || _) eqn:Hr in H; [done|]. simplify_eq. split; [done|]. simpl.
      apply addr_in_spec in Hin; [|done..]. pose proof (broadcast_wf n En).
      unfold in_net in Hin. lia.
    + by repeat case_match.
  - by repeat case_match.
Qed.

Lemma wf_hosts self : wf_allocator self ->
  hosts (network self) = (network_address (network self) + 1, size (network self) - 2)
  /\ 4 <= size (network self).
Proof.
  intros [Hn Hs]. pose proof (broadcast_wf _ Hn) as Hb. pose proof (size_pos _ Hn) as Hp.
  destruct Hn as (Hl & _). unfold hosts.
  assert (prefixlen (network self) <= 30) as Hlen.
  { destruct (Z.leb_spec (prefixlen (network self)) 30) as [|Hgt]; [done|].
    assert (prefixlen (network self) = 31 \/ prefixlen (network self) = 32) as [E|E] by lia;
      unfold size in *; rewrite E in *; lia. }
  destruct (Z.eqb_spec (prefixlen (network self)) 32), (Z.eqb_spec (prefixlen (network self)) 31);
    try lia.
  split; [rewrite Hb; f_equal; lia|].
  unfold size. change 4 with (2 ^ 2). apply Z.pow_le_mono_r; lia.
Qed.

Lemma scan_spec ok n x :
  match scan ok n x with
  | Some y => x <= y < x + Z.of_nat n /\ ok y = true /\ forall z, x <= z < y -> ok z = false
  | None => forall z, x <= z < x + Z.of_nat n -> ok z = false
  end.
Proof.
  revert x. induction n as [|n IH]; intros x; simpl; [lia|].
  destruct (ok x) eqn:Ex; [repeat split; [lia..|done|lia]|].
  specialize (IH (x + 1)). destruct (scan ok n (x + 1)) as [y|].
  - destruct IH as (Hy & Hok & Hl). repeat split; [lia..|done|]. intros z Hz.
    destruct (Z.eqb_spec z x) as [->|]; [done|]. apply Hl. lia.
  - intros z Hz. destruct (Z.eqb_spec z x) as [->|]; [done|]. apply IH. lia.
Qed.

(** What a row holds the address [x]: its text before the slash, trimmed, is [x]. *)
Definition holds (x : Z) (value : str) : Prop :=
  ip_address (strip (before_char SLASH value)) = Some (inl x).

Lemma ip_address_nil : ip_address [] = None.
Proof. reflexivity. Qed.

Lemma read_occupied_spec values l x : read_occupied values = Ok l ->
  inl x ∈ l <-> exists value, value ∈ values /\ holds x value.
Proof.
  revert l. induction values as [|v vs IH]; intros l; simpl.
  - intros [= <-]. split; [by intros ?%elem_of_nil|]. by intros (? & ?%elem_of_nil & _).
  - assert (forall P : Prop, (exists value, value ∈ v :: vs /\ holds x value)
      <-> holds x v \/ exists value, value ∈ vs /\ holds x value) as Hc.
    { intros _. setoid_rewrite elem_of_cons. naive_solver. }
    rewrite (Hc True). unfold holds at 1.
    destruct (strip (before_char SLASH v)) as [|c t] eqn:Et.
    + intros H. rewrite ip_address_nil, (IH l H). naive_solver.
    + destruct (ip_address (c :: t)) as [a|]; [|done].
      destruct (read_occupied vs) as [l'|]; [|done]. simpl. intros [= <-].
      rewrite elem_of_cons, (IH l' eq_refl). naive_solver.
Qed.

Lemma read_networks_spec pool values l x : wf_net pool -> in_net x pool ->
  read_networks pool values = Ok l ->
  existsb (addr_in x) l = true
  <-> exists value n, value ∈ values /\ ip_network value = Some (inl n) /\ in_net x n.
Proof.
  intros Hp Hx. pose proof (in_net_range _ _ Hp Hx) as Hr. revert l.
  induction values as [|v vs IH]; intros l; simpl.
  - intros [= <-]. split; [done|]. by intros (? & ? & ?%elem_of_nil & _).
  - setoid_rewrite elem_of_cons. destruct v as [|c t].
    + intros H. rewrite (IH l H). split; [naive_solver|].
      intros (v & n & [-> | Hv] & Hn & Hi); [|naive_solver]. done.
    + destruct (ip_network (c :: t)) as [[n|]|] eqn:En; [| |done].
      * pose proof (ip_network_wf _ _ En) as Hn.
        destruct (read_networks pool vs) as [l'|]; [|done]. simpl. intros [= <-].
        assert (existsb (addr_in x) (if overlaps n pool then n :: l' else l') = true
                <-> in_net x n \/ existsb (addr_in x) l' = true) as ->.
        { destruct (overlaps n pool) eqn:Ho; simpl.
          - by rewrite orb_true_iff, (addr_in_spec x n Hn Hr).
          - split; [by right|intros [Hi|?]; [|done]].
            exfalso. by apply (overlaps_false n pool x Hn Hp Ho). }
        rewrite (IH l' eq_refl). split.
        -- intros [?|(v & m & ? & ? & ?)]; [exists (c :: t), n; auto|exists v, m; auto].
        -- intros (v & m & [->|?] & ? & ?); [left; congruence|right; eauto].
      * intros H. rewrite (IH l H). split; [naive_solver|].
        intros (v & n & [-> | Hv] & Hn & Hi); [|naive_solver]. congruence.
Qed.

Lemma read_occupied_err values e : read_occupied values = Err e ->
  exists value, value ∈ values /\ e = BadOccupied value
    /\ strip (before_char SLASH value) <> [] /\ ip_address (strip (before_char SLASH value)) = None.
Proof.
  induction values as [|v vs IH]; simpl; [done|]. setoid_rewrite elem_of_cons.
  destruct (strip (before_char SLASH v)) as [|c t] eqn:Et; [naive_solver|].
  destruct (ip_address (c :: t)) as [a|] eqn:Ea.
  - destruct (read_occupied vs) as [l|e']; [done|]. simpl. intros [= ->].
    destruct (IH eq_refl) as (v' & ? & ?). eauto.
  - intros [= <-]. exists v. rewrite Et. auto.
Qed.

Lemma read_networks_err pool values e : read_networks pool values = Err e ->
  e = BadPeerNetwork /\ exists value, value ∈ values /\ value <> [] /\ ip_network value = None.
Proof.
  induction values as [|v vs IH]; simpl; [done|]. setoid_rewrite elem_of_cons.
  destruct v as [|c t]; [naive_solver|].
  destruct (ip_network (c :: t)) as [[n|]|] eqn:En; [| naive_solver |].
  - destruct (read_networks pool vs) as [l|e']; [done|]. simpl. intros [= ->].
    destruct (IH eq_refl) as (? & v' & ? & ?). eauto.
  - intros [= <-]. split; [done|]. exists (c :: t). auto.
Qed.

(** An address the pool may still hand out: a host of the pool that is not the
    server, that no key row holds and no peer's network contains. *)
Definition free (self : ip_allocator) (values texts : list str) (x : Z) : Prop :=
  in_net x (network self)
  /\ x <> network_address (network self) /\ x <> broadcast_address (network self)
  /\ x <> server_address self
  /\ (forall value, value ∈ values -> ~ holds x value)
  /\ (forall text n, text ∈ texts -> ip_network text = Some (inl n) -> ~ in_net x n).

Lemma usable_free self values texts occupied nets x : wf_allocator self ->
  read_occupied values = Ok occupied -> read_networks (network self) texts = Ok nets ->
  network_address (network self) < x < broadcast_address (network self) ->
  usable (server_address self) occupied nets x = true <-> free self values texts x.
Proof.
  intros [Hn _] Ho Hr Hx. pose proof (broadcast_wf _ Hn) as Hb.
  assert (in_net x (network self)) as Hin by (unfold in_net; lia).
  unfold usable. rewrite !andb_true_iff, !negb_true_iff, bool_decide_eq_false, Z.eqb_neq.
  rewrite <- (not_true_iff_false (existsb _ _)).
  rewrite (read_occupied_spec _ _ x Ho), (read_networks_spec _ _ _ x Hn Hin Hr).
  unfold free. split.
  - intros ((? & ?) & ?). repeat split; try lia; try done; naive_solver.
  - intros (_ & _ & _ & ? & ? & ?). repeat split; naive_solver.
Qed.

(** An allocated address is the text of an IPv4 address. *)
Lemma next_free_ip_text self values peers s : wf_allocator self ->
  next_free_ip self values peers = Ok s -> is_Some (ipv4_address s).
Proof.
  intros Hwf. pose proof Hwf as [Hn _]. pose proof (broadcast_wf _ Hn) as Hb. destruct (wf_hosts self Hwf) as [Hh Hs].
  unfold next_free_ip. destruct (read_occupied values) as [occ|]; [|done]. cbn [result_bind].
  destruct (peer_networks _ peers) as [nets|]; [|done]. cbn [result_bind]. rewrite Hh.
  pose proof (scan_spec (usable (server_address self) occ nets) (Z.to_nat (size (network self) - 2))
    (network_address (network self) + 1)) as Hsc. rewrite Z2Nat.id in Hsc by lia.
  destruct (scan _ _ _) as [x|]; [|done]. intros [= <-]. destruct Hsc as (Hx & _). exists x.
  unfold ipv4_address. rewrite has_char_no by by apply show_addr_no. apply ip_int_from_show.
  apply (in_net_range (network self)); [done|]. unfold in_net. lia.
Qed.

(** what an allocation returns, on every branch. Over the addresses of all
    the rows and all the peers it is given: a returned address is the text of the
    least free host of the pool; the pool is reported exhausted only when no host
    is free; and the two other errors each name an input that does not parse. No
    other error is possible, so an address that is free is always found. *)
Theorem next_free_ip_exact pool server self values texts :
  init pool server = Ok self ->
  match next_free_ip self values (Some (Ok texts)) with
  | Ok s => exists x, s = show_addr x /\ free self values texts x
                      /\ forall y, free self values texts y -> x <= y
  | Err PoolExhausted => forall y, ~ free self values texts y
  | Err (BadOccupied value) =>
      value ∈ values /\ strip (before_char SLASH value) <> []
      /\ ip_address (strip (before_char SLASH value)) = None
  | Err BadPeerNetwork => exists text, text ∈ texts /\ text <> [] /\ ip_network text = None
  | Err _ => False
  end.
Proof.
  intros Hi%init_wf. pose proof Hi as [Hn _]. pose proof (broadcast_wf _ Hn) as Hb.
  destruct (wf_hosts self Hi) as [Hh Hs]. unfold next_free_ip, peer_networks.
  destruct (read_occupied values) as [occ|e] eqn:Ho; simpl;
    [|apply read_occupied_err in Ho as (v & ? & -> & ? & ?); done].
  destruct (read_networks (network self) texts) as [nets|e] eqn:Hr; simpl;
    [|apply read_networks_err in Hr as (-> & ?); done].
  rewrite Hh. set (ok := usable _ _ _).
  assert (forall y, free self values texts y ->
    network_address (network self) < y < broadcast_address (network self)) as Hin
    by (unfold free, in_net; intros y; lia).
  assert (forall y, network_address (network self) < y < broadcast_address (network self) ->
    ok y = true <-> free self values texts y) as Hu by (intros; by apply usable_free).
  pose proof (scan_spec ok (Z.to_nat (size (network self) - 2)) (network_address (network self) + 1)) as Hsc.
  rewrite Z2Nat.id in Hsc by lia.
  destruct (scan ok _ _) as [x|].
  - destruct Hsc as (Hx & Hok & Hl). exists x. split; [done|]. split; [apply Hu; [lia|done]|].
    intros y Hy. pose proof (Hin y Hy). apply Hu in Hy; [|done].
    destruct (Z.leb_spec x y) as [|Hlt]; [done|]. rewrite Hl in Hy; [done|lia].
  - intros y Hy. pose proof (Hin y Hy). apply Hu in Hy; [|done]. rewrite Hsc in Hy; [done|lia].
Qed.

(** ** Examples *)

Definition demo_alloc : ip_allocator := IpAllocator (IPv4Network 168296448 29) 168296449.

Example demo_init : init (py "10.8.0.0/29") (py "10.8.0.1/24") = Ok demo_alloc.
Proof. vm_compute. reflexivity. Qed.
Example reserved_server : init (py "10.8.0.0/31") (py "10.8.0.1") = Err ServerReserved.
Proof. vm_compute. reflexivity. Qed.
Example demo_next :
  next_free_ip demo_alloc [py "10.8.0.2"; py " 10.8.0.3/32"; py "2001:db8::1"; py ""]
    (Some (Ok [py "10.8.0.4/31"; py "fd00::/8"]))
  = Ok (py "10.8.0.6").
Proof. vm_compute. reflexivity. Qed.
Example demo_full :
  next_free_ip demo_alloc [py "10.8.0.2"] (Some (Ok [py "10.8.0.0/24"])) = Err PoolExhausted.
Proof. vm_compute. reflexivity. Qed.

Lemma next_free_ip_exact_witness :
  exists x, py "10.8.0.6" = show_addr x
    /\ free demo_alloc [py "10.8.0.2"; py "10.8.0.3/32"] [py "10.8.0.4/31"] x.
Proof.
  pose proof (next_free_ip_exact (py "10.8.0.0/29") (py "10.8.0.1/24") demo_alloc
    [py "10.8.0.2"; py "10.8.0.3/32"] [py "10.8.0.4/31"] eq_refl) as H.
  replace (next_free_ip _ _ _) with (Ok (E := alloc_error) (py "10.8.0.6")) in H
    by (vm_compute; reflexivity).
  destruct H as (x & Hx & Hf & _). exists x. by split.
Defined.
