(* ===== verification/TextLines.v ===== *)
(** * Lines, blanks and decimal numbers

    Facts about the text operations of [PyText] the configuration files need: a
    text's lines up to blank ones, what trimming does to them, and that the decimal
    text of an integer reads back as that integer. *)

From S2P Require Import Prelude PyText.
From Stdlib Require Import ZifyBool.
#[local] Open Scope Z_scope.

Abbreviation clean := (Forall (fun c => is_linebreak c = false)) (only parsing).
Abbreviation solid := (Forall (fun c => is_space c = false)) (only parsing).

Lemma linebreak_space c : is_linebreak c = true -> is_space c = true.
Proof. unfold is_linebreak, is_space. lia. Qed.
Lemma solid_clean s : solid s -> clean s.
Proof.
  intros H. apply (Forall_impl _ _ _ H). intros c Hc. destruct (is_linebreak c) eqn:E; [|done].
  by rewrite (linebreak_space c E) in Hc.
Qed.

(** ** Trimming *)

Lemma lstrip_app x y : lstrip (x ++ y) = match lstrip x with [] => lstrip y | z => z ++ y end.
Proof. induction x as [|c x IH]; simpl; [done|]. by destruct (is_space c). Qed.

Lemma rstrip_snoc_space x c : is_space c = true -> rstrip (x ++ [c]) = rstrip x.
Proof. intros H. unfold rstrip. rewrite rev_app_distr. simpl. by rewrite H. Qed.

Lemma rstrip_snoc_solid x c : is_space c = false -> rstrip (x ++ [c]) = x ++ [c].
Proof. intros H. unfold rstrip. rewrite rev_app_distr. simpl. rewrite H. simpl. by rewrite rev_involutive. Qed.

Lemma strip_snoc_space x c : is_space c = true -> strip (x ++ [c]) = strip x.
Proof.
  intros H. unfold strip. rewrite lstrip_app. destruct (lstrip x) as [|d z] eqn:E.
  - simpl. by rewrite H.
  - by rewrite rstrip_snoc_space.
Qed.

Lemma lstrip_twice s : lstrip (lstrip s) = lstrip s.
Proof. induction s as [|c s IH]; [done|]. cbn. destruct (is_space c) eqn:E; [done|]. cbn. by rewrite E. Qed.
Lemma lstrip_head s c t : lstrip s = c :: t -> is_space c = false.
Proof. induction s as [|a s IH]; [done|]. cbn. destruct (is_space a) eqn:E; [done|]. by intros [= -> _]. Qed.
Lemma strip_strip s : strip (strip s) = strip s.
Proof.
  unfold strip. destruct (lstrip s) as [|c t] eqn:E; [done|]. apply lstrip_head in E.
  assert (exists t', rstrip (c :: t) = c :: t') as [t' Et].
  { unfold rstrip. cbn [rev]. rewrite lstrip_app. cbn. rewrite E.
    destruct (lstrip (rev t)) as [|x z]; [by exists []|]. exists (rev (x :: z)).
    exact (rev_unit (x :: z) c). }
  rewrite Et. cbn [lstrip]. rewrite E, <- Et. unfold rstrip. by rewrite rev_involutive, lstrip_twice.
Qed.
Lemma rstrip_decompose s : exists w, s = rstrip s ++ w /\ Forall (fun c => is_space c = true) w.
Proof.
  unfold rstrip. assert (forall t, exists w, t = w ++ lstrip t /\ Forall (fun c => is_space c = true) w) as H.
  { induction t as [|c t (w & IH & Hw)]; simpl; [by exists []|].
    destruct (is_space c) eqn:E; [|by exists []]. exists (c :: w). simpl. split; [congruence|by constructor]. }
  destruct (H (rev s)) as (w & Hs & Hw). exists (rev w). split; [|by apply Forall_rev].
  rewrite <- rev_app_distr, <- Hs. by rewrite rev_involutive.
Qed.

(** A text with solid ends is its own trimming. *)
Lemma strip_ends a m b : is_space a = false -> is_space b = false ->
  strip (a :: m ++ [b]) = a :: m ++ [b].
Proof.
  intros Ha Hb. unfold strip. cbn [lstrip]. rewrite Ha.
  change (a :: m ++ [b]) with ((a :: m) ++ [b]). by apply rstrip_snoc_solid.
Qed.

Lemma strip_suffix a m v : is_space a = false -> v <> [] -> solid v -> strip (a :: m ++ v) = a :: m ++ v.
Proof.
  intros Ha Hv Hs. destruct v as [|b v _] using rev_ind; [done|].
  rewrite app_assoc. apply strip_ends; [done|].
  apply Forall_app in Hs as [_ Hs]. by inversion Hs.
Qed.

(** ** Fields: cutting at every line break *)

Fixpoint fields (s : str) : list str :=
  match s with
  | [] => [[]]
  | c :: r => if is_linebreak c then [] :: fields r
              else match fields r with w :: ws => (c :: w) :: ws | [] => [[c]] end
  end.
(** What is on the lines: each trimmed, the blank ones dropped. *)
Definition content (lines : list str) : list str := filter (fun l => l <> []) (map strip lines).

Lemma fields_nonempty s : fields s <> [].
Proof. destruct s; simpl; [done|]. by repeat case_match. Qed.

Lemma content_app l1 l2 : content (l1 ++ l2) = content l1 ++ content l2.
Proof. unfold content. by rewrite map_app, filter_app. Qed.
Lemma content_cons_blank l ls : strip l = [] -> content (l :: ls) = content ls.
Proof. intros H. unfold content. simpl. by rewrite H, filter_cons_False by (intros Hne; by apply Hne). Qed.
Lemma content_cons l ls : strip l <> [] -> content (l :: ls) = strip l :: content ls.
Proof. intros H. unfold content. simpl. by rewrite filter_cons_True. Qed.

Definition prepend (x : str) (ls : list str) : list str :=
  match ls with w :: ws => (x ++ w) :: ws | [] => [x] end.

Lemma splitlines_aux_content n cur s : (length s <= n)%nat ->
  content (splitlines_aux cur s) = content (prepend (rev cur) (fields s)).
Proof.
  revert cur s. induction n as [|n IH]; intros cur s Hn.
  - destruct s; [|simpl in Hn; lia]. cbn. rewrite app_nil_r. by destruct cur; cbn.
  - destruct s as [|c r]; [cbn; rewrite app_nil_r; by destruct cur; cbn|]. simpl in Hn.
    assert (forall r', (length r' <= n)%nat -> content (splitlines_aux [] r') = content (fields r')) as H0.
    { intros r' Hr'. rewrite IH by done. simpl. pose proof (fields_nonempty r'). by destruct (fields r'). }
    cbn [splitlines_aux fields]. destruct (is_linebreak c) eqn:Ec.
    + cbn [prepend]. rewrite app_nil_r. destruct r as [|d r'].
      * cbn [fields]. change [rev cur; []] with ([rev cur] ++ [[]]). rewrite content_app. by rewrite app_nil_r.
      * destruct ((c =? 13)%N && (d =? 10)%N) eqn:Ed.
        -- assert (is_linebreak d = true) as Hd by (unfold is_linebreak; lia).
           cbn [fields]. rewrite Hd.
           change (rev cur :: splitlines_aux [] r') with ([rev cur] ++ splitlines_aux [] r').
           change (rev cur :: [] :: fields r') with ([rev cur] ++ [[]] ++ fields r').
           rewrite !content_app, H0 by (simpl in Hn; lia). done.
        -- change (rev cur :: splitlines_aux [] (d :: r')) with ([rev cur] ++ splitlines_aux [] (d :: r')).
           change (rev cur :: fields (d :: r')) with ([rev cur] ++ fields (d :: r')).
           rewrite !content_app, H0 by (simpl in *; lia). done.
    + rewrite IH by lia. simpl. pose proof (fields_nonempty r).
      destruct (fields r); [done|]. simpl. by rewrite <- app_assoc.
Qed.

Lemma content_splitlines s : content (splitlines s) = content (fields s).
Proof.
  unfold splitlines. rewrite (splitlines_aux_content (length s)) by done. simpl.
  pose proof (fields_nonempty s). by destruct (fields s).
Qed.

Lemma fields_break a c r : is_linebreak c = true -> fields (a ++ c :: r) = fields a ++ fields r.
Proof.
  intros Hc. induction a as [|x a IH]; simpl; [by rewrite Hc|].
  destruct (is_linebreak x); [by rewrite IH|]. rewrite IH.
  pose proof (fields_nonempty a). by destruct (fields a).
Qed.

Lemma fields_snoc a c : is_linebreak c = false ->
  exists ls l, fields a = ls ++ [l] /\ fields (a ++ [c]) = ls ++ [l ++ [c]].
Proof.
  intros Hc. induction a as [|x a (ls & l & E1 & E2)]; simpl.
  - rewrite Hc. by exists [], [].
  - destruct (is_linebreak x).
    + exists ([] :: ls), l. by rewrite E1, E2.
    + rewrite E1, E2. destruct ls as [|w ws]; [by exists [], (x :: l)|by exists ((x :: w) :: ws), l].
Qed.

Lemma content_app_spaces a w : Forall (fun c => is_space c = true) w ->
  content (fields (a ++ w)) = content (fields a).
Proof.
  intros Hw. revert a. induction Hw as [|c w Hc Hw IH]; intros a; [by rewrite app_nil_r|].
  change (c :: w) with ([c] ++ w). rewrite app_assoc, IH. clear IH.
  destruct (is_linebreak c) eqn:Eb.
  - rewrite fields_break by done. rewrite content_app. by rewrite app_nil_r.
  - destruct (fields_snoc a c Eb) as (ls & l & -> & ->). rewrite !content_app. f_equal.
    unfold content. simpl. by rewrite strip_snoc_space.
Qed.

Lemma content_rstrip s : content (fields (rstrip s)) = content (fields s).
Proof. destruct (rstrip_decompose s) as (w & E & Hw). rewrite E at 2. by rewrite content_app_spaces. Qed.

Lemma fields_clean s : clean s -> fields s = [s].
Proof. induction 1 as [|c s Hc _ IH]; simpl; [done|]. by rewrite Hc, IH. Qed.

Lemma fields_join l : l <> [] -> Forall clean l -> fields (str_join [NEWLINE] l) = l.
Proof.
  intros Hl Hc. induction Hc as [|x l Hx Hc IH]; [done|].
  destruct l as [|y l]; [by apply fields_clean|].
  change (str_join [NEWLINE] (x :: y :: l)) with (x ++ NEWLINE :: str_join [NEWLINE] (y :: l)).
  rewrite fields_break, IH by done. by rewrite fields_clean.
Qed.

Lemma content_lines_join l : Forall clean l -> content (fields (str_join [NEWLINE] l)) = content l.
Proof. intros Hl. destruct l as [|x l]; [done|]. by rewrite fields_join. Qed.

Lemma splitlines_aux_clean n cur s : (length s <= n)%nat -> clean cur -> Forall clean (splitlines_aux cur s).
Proof.
  revert cur s. induction n as [|n IH]; intros cur s Hn Hc.
  - destruct s; [|simpl in Hn; lia]. simpl. destruct cur; [constructor|]. constructor; [|constructor]. by apply Forall_rev.
  - assert (clean (rev cur)) as Hr by by apply Forall_rev.
    destruct s as [|c r]; simpl in *; [by destruct cur; repeat constructor|].
    destruct (is_linebreak c) eqn:Ec; [|apply IH; [lia|by constructor]].
    destruct r as [|d r']; [by repeat constructor|].
    destruct (_ && _); constructor; try done; apply IH; simpl in *; try lia; constructor.
Qed.
(** No line of a text holds a line break. *)
Lemma splitlines_clean s : Forall clean (splitlines s).
Proof. by apply (splitlines_aux_clean (length s)). Qed.

(** ** Decimal numbers *)

Lemma digits_rev_digits fuel n : Forall (fun c => is_digit c = true) (digits_rev fuel n).
Proof.
  revert n. induction fuel as [|f IH]; intros n; simpl; [constructor|]. constructor.
  - unfold is_digit. pose proof (Z.mod_pos_bound n 10). lia.
  - destruct (n <? 10); [constructor|apply IH].
Qed.
Lemma digits_rev_length fuel n : (length (digits_rev fuel n) <= fuel)%nat.
Proof. revert n. induction fuel as [|f IH]; intros n; simpl; [lia|]. specialize (IH (n / 10)). destruct (n <? 10); simpl; lia. Qed.

Lemma int_of_digits_snoc s c : int_of_digits (s ++ [c]) = 10 * int_of_digits s + digit_val c.
Proof. unfold int_of_digits. by rewrite fold_left_app. Qed.

Lemma digits_rev_int fuel n : 0 <= n < 2 ^ Z.of_nat fuel -> int_of_digits (rev (digits_rev fuel n)) = n.
Proof.
  revert n. induction fuel as [|f IH]; intros n Hn.
  { change (2 ^ Z.of_nat 0) with 1 in Hn. change (0 = n). lia. }
  rewrite Nat2Z.inj_succ, Z.pow_succ_r in Hn by lia.
  pose proof (Z.mod_pos_bound n 10). cbn [digits_rev rev]. rewrite int_of_digits_snoc. unfold digit_val.
  rewrite Z2N.id by lia. destruct (Z.ltb_spec n 10).
  - rewrite Z.mod_small by lia. simpl. unfold int_of_digits. simpl. lia.
  - rewrite IH; [pose proof (Z.div_mod n 10); lia|]. split; [apply Z.div_pos; lia|].
    apply Z.div_lt_upper_bound; lia.
Qed.

Lemma show_fuel n : 0 <= n -> n < 2 ^ Z.of_nat (S (Z.to_nat (Z.log2 n))).
Proof.
  intros Hn. rewrite Nat2Z.inj_succ, Z2Nat.id by apply Z.log2_nonneg.
  destruct (Z.eqb_spec n 0) as [->|]; [done|]. apply Z.log2_spec. lia.
Qed.

Lemma rev_nonempty {A} (l : list A) : l <> [] -> rev l <> [].
Proof. intros H E. apply H. rewrite <- (rev_involutive l), E. done. Qed.

Lemma show_Z_digits n : 0 <= n ->
  show_Z n <> [] /\ Forall (fun c => is_digit c = true) (show_Z n) /\ int_of_digits (show_Z n) = n.
Proof.
  intros Hn. unfold show_Z. destruct (Z.ltb_spec n 0); [lia|]. repeat split.
  - by apply rev_nonempty.
  - apply Forall_rev, digits_rev_digits.
  - apply digits_rev_int. split; [done|by apply show_fuel].
Qed.

Lemma show_Z_neg n : n < 0 -> show_Z n = 45%N :: show_Z (- n).
Proof.
  intros Hn. unfold show_Z. destruct (Z.ltb_spec n 0); [|lia]. by destruct (Z.ltb_spec (- n) 0); [lia|].
Qed.

Lemma show_Z_inj a b : show_Z a = show_Z b -> a = b.
Proof.
  intros H. assert (forall n, 0 <= n -> forall s, show_Z n <> 45%N :: s) as Hneg.
  { intros n Hn s E. destruct (show_Z_digits n Hn) as (_ & Hd & _). rewrite E in Hd. by inversion Hd. }
  assert (forall n, 0 <= n -> int_of_digits (show_Z n) = n) as Hint by (intros; by apply show_Z_digits).
  destruct (Z.ltb_spec a 0) as [Ha|Ha], (Z.ltb_spec b 0) as [Hb|Hb].
  - rewrite (show_Z_neg a), (show_Z_neg b) in H by done. apply (f_equal tail) in H. cbn [tail] in H.
    pose proof (Hint (- a) ltac:(lia)) as E1. rewrite H, Hint in E1 by lia. lia.
  - rewrite (show_Z_neg a) in H by done. symmetry in H. by apply Hneg in H.
  - rewrite (show_Z_neg b) in H by done. by apply Hneg in H.
  - by rewrite <- (Hint a), <- (Hint b), H.
Qed.

Lemma digit_solid c : is_digit c = true -> is_space c = false.
Proof. unfold is_digit, is_space. lia. Qed.

Lemma show_Z_solid n : solid (show_Z n) /\ show_Z n <> [].
Proof.
  assert (forall n, 0 <= n -> solid (show_Z n) /\ show_Z n <> []) as H.
  { intros m Hm. destruct (show_Z_digits m Hm) as (? & Hd & _). split; [|done].
    exact (Forall_impl _ _ _ Hd digit_solid). }
  destruct (Z.ltb_spec n 0); [|by apply H]. rewrite show_Z_neg by done. split; [|done].
  constructor; [done|]. apply H. lia.
Qed.

(** [int(str(n)) == n] for a number of machine size. *)
Lemma int_of_show n : 0 <= n < 2 ^ 64 -> int_of_str (show_Z n) = Some n.
Proof.
  intros [Hn Hlt]. destruct (show_Z_digits n Hn) as (Hne & Hd & Hi). destruct (show_Z_solid n) as [Hs _].
  assert (length (show_Z n) <= 64)%nat as Hlen.
  { unfold show_Z. destruct (Z.ltb_spec n 0); [lia|]. rewrite length_rev.
    etransitivity; [apply digits_rev_length|].
    assert (Z.log2 n < 64); [|lia]. destruct (Z.eqb_spec n 0) as [->|]; [done|]. apply Z.log2_lt_pow2; lia. }
  unfold int_of_str. rewrite strip_nonspace by done.
  assert (int_body (show_Z n) = Some n) as Hb.
  { unfold int_body. rewrite split_char_none.
    - simpl. rewrite app_nil_r, Hi. replace (all_digits (show_Z n)) with true.
      + destruct (Z.leb_spec (Z.of_nat (length (show_Z n))) 4300); [done|lia].
      + unfold all_digits. destruct (show_Z n); [done|]. symmetry. apply forallb_forall.
        intros c Hc. rewrite Forall_forall in Hd. by apply Hd, list_elem_of_In.
    - intros Hin. rewrite Forall_forall in Hd. by apply Hd in Hin. }
  destruct (show_Z n) as [|c s]; [done|]. inversion Hd as [|? ? Hc]; subst.
  destruct c as [|p]; [exact Hb|].
  repeat (exact Hb || discriminate Hc || destruct p as [p|p|]).
Qed.
