(* ===== verification/AwgConfig.v ===== *)
(** * The AmneziaWG server configuration as text

    The pure half of [adapters/awg_config.py] and [adapters/validation.py]: how the
    configuration file is parsed into sections, how the bot's own peer blocks are
    written, found and cut out, and how the runtime's reports are read. What the
    adapter does to the file and the interface with them is in [AwgPeers]. *)

From S2P Require Import Prelude PyText PyIp Json.
#[local] Open Scope Z_scope.

(** [AwgConfigError] and its subclasses, one constructor per message. *)
Inductive awg_error :=
  | BadCharacters (field : str) | NotAnIp (field : str) | OptionLike (field : str) | BadLabel
  | UnknownSection (name : str) | BeforeFirstSection | NoInterface | DuplicateKey (section key : str)
  | NoEndMarker (key_id : Z) | BadInteger (value : str)
  | PeerAlreadyExists | ConfigMissing | ConfigChanged | StripRefused | NoQuickTool | InvalidInterface
  | ApplyError (message : str) | RollbackFailed (primary : awg_error) (steps : list str)
  | OsFailure.

(** ** [adapters/validation.py] *)

Definition has_control_or_space (value : str) : bool :=
  existsb (fun c => is_space c || (c <? 32)%N || (c =? 127)%N) value.
Definition is_empty (s : str) : bool := match s with [] => true | _ => false end.
Definition reject_option_like (value field : str) : result awg_error unit :=
  if is_empty value || startswith (py "-") value || existsb is_space value
  then Err (OptionLike field) else Ok tt.
Definition validate_wireguard_key (value field : str) : result awg_error unit :=
  if is_empty value || startswith (py "-") value || has_control_or_space value
  then Err (BadCharacters field) else Ok tt.
Definition validate_ip (value field : str) : result awg_error unit :=
  match ip_address value with Some _ => Ok tt | None => Err (NotAnIp field) end.

(** ** Sections *)

Abbreviation dict := (list (list N * list N)) (only parsing).
Record awg_section := AwgSection { sec_name : str; sec_lines : list str; sec_options : dict }.

Definition CRITICAL_PEER_KEYS : list str := [py "PublicKey"; py "AllowedIPs"; py "PresharedKey"].
Definition CRITICAL_INTERFACE_KEYS : list str :=
  map py ["PrivateKey"; "Address"; "ListenPort"; "Jc"; "Jmin"; "Jmax"; "S1"; "S2"; "S3"; "S4";
          "H1"; "H2"; "H3"; "H4"; "I1"; "I2"; "I3"; "I4"; "I5"]%string.
Definition CLIENT_INTERFACE_KEYS : list str :=
  map py ["DNS"; "MTU"; "Jc"; "Jmin"; "Jmax"; "S1"; "S2"; "S3"; "S4";
          "H1"; "H2"; "H3"; "H4"; "I1"; "I2"; "I3"; "I4"; "I5"]%string.

(** [line.startswith("[") and line.endswith("]")] *)
Definition is_header (line : str) : bool := startswith (py "[") line && endswith (py "]") line.
(** [line[1:-1].strip()] *)
Definition header_name (line : str) : str := strip (removelast (tail line)).
(** [not line or line.startswith("#") or "=" not in line] *)
Definition no_option (line : str) : bool :=
  is_empty line || startswith (py "#") line || negb (has_char EQUALS line).
Definition split_option (line : str) : str * str :=
  (strip (before_char EQUALS line), strip (after_char EQUALS line)).

Definition in_strs (s : str) (l : list str) : bool := bool_decide (s ∈ l).
Definition reject_duplicate_critical_key (name : str) (options : dict) (key : str)
    : result awg_error unit :=
  let critical := if bool_decide (name = py "Interface")
                  then CRITICAL_INTERFACE_KEYS else CRITICAL_PEER_KEYS in
  if in_strs key critical && bool_decide (is_Some (dict_get key options))
  then Err (DuplicateKey name key) else Ok tt.

(** One line of [_parse_sections]; the sections so far, the current one first. *)
Definition parse_line (sections : list awg_section) (raw : str)
    : result awg_error (list awg_section) :=
  let line := strip raw in
  if is_header line then
    let name := header_name line in
    if in_strs name [py "Interface"; py "Peer"]
    then Ok (AwgSection name [raw] [] :: sections) else Err (UnknownSection name)
  else match sections with
       | [] => if negb (is_empty line) && negb (startswith (py "#") line)
               then Err BeforeFirstSection else Ok []
       | AwgSection name lines options :: rest =>
           if no_option line then Ok (AwgSection name (lines ++ [raw]) options :: rest)
           else
             let '(key, value) := split_option line in
             result_bind (reject_duplicate_critical_key name options key) (fun _ =>
             Ok (AwgSection name (lines ++ [raw]) (dict_set key value options) :: rest))
       end.
Fixpoint parse_lines (sections : list awg_section) (lines : list str)
    : result awg_error (list awg_section) :=
  match lines with
  | [] => Ok sections
  | raw :: rest => result_bind (parse_line sections raw) (fun s => parse_lines s rest)
  end.
Definition is_interface (s : awg_section) : bool := bool_decide (sec_name s = py "Interface").
Definition is_peer (s : awg_section) : bool := bool_decide (sec_name s = py "Peer").
Definition parse_sections (text : str) : result awg_error (list awg_section) :=
  result_bind (parse_lines [] (splitlines text)) (fun sections =>
  if existsb is_interface sections then Ok (rev sections) else Err NoInterface).

(** ** Peers of a parsed configuration *)

(** [_allowed_ips_contains]: an address and a network of one version. *)
Definition network_contains (candidate : Z + Z) (value : str) : bool :=
  match ipv4_network false value with
  | Some n => match candidate with inl a => addr_in a n | inr _ => false end
  | None => match ipv6_network value, candidate with
            | Some n, inr a => addr6_in a n
            | _, _ => false
            end
  end.
Definition allowed_ips_contains (allowed_ips client_ip : str) : bool :=
  match ip_address client_ip with
  | None => false
  | Some candidate =>
      existsb (fun part => let value := strip part in
                           negb (is_empty value) && network_contains candidate value)
              (split_char COMMA allowed_ips)
  end.

(** A keyword argument that is [None] or empty is not searched for. *)
Definition given (s : option str) : option str :=
  match s with Some [] => None | _ => s end.
Definition peer_matches (public_key client_ip : option str) (s : awg_section) : bool :=
  match given public_key with
  | Some pk => bool_decide (dict_get (py "PublicKey") (sec_options s) = Some pk)
  | None => false
  end
  || match given client_ip with
     | Some ip => allowed_ips_contains (default [] (dict_get (py "AllowedIPs") (sec_options s))) ip
     | None => false
     end.
Fixpoint find_peer_in (sections : list awg_section) (public_key client_ip : option str) : option dict :=
  match sections with
  | [] => None
  | s :: rest =>
      if is_peer s && peer_matches public_key client_ip s then Some (sec_options s)
      else find_peer_in rest public_key client_ip
  end.
Definition find_peer (text : str) (public_key client_ip : option str) : result awg_error (option dict) :=
  result_bind (parse_sections text) (fun sections => Ok (find_peer_in sections public_key client_ip)).

(** [list_peer_allowed_ips] *)
Definition section_allowed_ips (s : awg_section) : list str :=
  if is_peer s
  then filter (fun v => v <> []) (map strip (split_char COMMA
         (default [] (dict_get (py "AllowedIPs") (sec_options s)))))
  else [].
Definition list_peer_allowed_ips (text : str) : result awg_error (list str) :=
  result_bind (parse_sections text) (fun sections => Ok (sections ≫= section_allowed_ips)).

Record awg_server_config := AwgServerConfig {
  listen_port : option Z; server_public_key : option str; interface_options : dict; address : option str }.
Definition parse_int (value : option str) : result awg_error (option Z) :=
  match value with
  | None | Some [] => Ok None
  | Some v => match int_of_str v with Some n => Ok (Some n) | None => Err (BadInteger v) end
  end.
Definition read_server_config (text : str) : result awg_error awg_server_config :=
  result_bind (parse_sections text) (fun sections =>
  match List.find is_interface sections with
  | None => Err NoInterface
  | Some interface =>
      let options := sec_options interface in
      result_bind (parse_int (dict_get (py "ListenPort") options)) (fun port =>
      Ok (AwgServerConfig port (dict_get (py "PublicKey") options)
            (List.filter (fun '(k, _) => in_strs k CLIENT_INTERFACE_KEYS) options)
            (dict_get (py "Address") options)))
  end).

(** ** The bot's own blocks *)

Definition start_prefix : str := py "# vpn-bot peer start key_id=".
Definition start_marker (key_id : Z) : str := start_prefix ++ show_Z key_id ++ [32%N].
Definition end_marker (key_id : Z) : str := py "# vpn-bot peer end key_id=" ++ show_Z key_id.

Definition validate_label (label : str) : result awg_error unit :=
  if has_control_or_space label then Err BadLabel else Ok tt.

(** The lines of [_peer_block] before they are joined. *)
Definition peer_block_lines (key_id owner_user_id : Z) (public_key : str) (preshared_key : option str)
    (client_ip : str) (label : option str) : list str :=
  [start_marker key_id ++ py "owner=" ++ show_Z owner_user_id
     ++ match given label with Some l => py " label=" ++ l | None => [] end;
   py "[Peer]"; py "PublicKey = " ++ public_key]
  ++ match given preshared_key with Some psk => [py "PresharedKey = " ++ psk] | None => [] end
  ++ [py "AllowedIPs = " ++ client_ip ++ py "/32"; end_marker key_id; []].
Definition peer_block (key_id owner_user_id : Z) (public_key : str) (preshared_key : option str)
    (client_ip : str) (label : option str) : result awg_error str :=
  result_bind (match given label with Some l => validate_label l | None => Ok tt end) (fun _ =>
  Ok (str_join [NEWLINE] (peer_block_lines key_id owner_user_id public_key preshared_key client_ip label))).

(** [original.rstrip() + "\n\n" + block] *)
Definition append_block (original block : str) : str := rstrip original ++ [NEWLINE; NEWLINE] ++ block.

Definition managed_block_exists (text : str) (key_id : Z) : bool :=
  existsb (startswith (start_marker key_id)) (splitlines text).

(** The position of the first element that satisfies [p]. *)
Fixpoint index_of (p : str -> bool) (l : list str) : option nat :=
  match l with
  | [] => None
  | x :: l' => if p x then Some O else option_map S (index_of p l')
  end.
Definition is_start (key_id : Z) (line : str) : bool := startswith (start_marker key_id) (strip line).
Definition is_end (key_id : Z) (line : str) : bool := bool_decide (strip line = end_marker key_id).
(** The loop the two functions below share: the first start marker, and after it
    the first end marker. *)
Definition find_block (key_id : Z) (lines : list str) : option (nat * option nat) :=
  match index_of (is_start key_id) lines with
  | None => None
  | Some i => Some (i, option_map (fun d => S i + d)%nat (index_of (is_end key_id) (drop (S i) lines)))
  end.

(** ["\n".join(lines).rstrip() + "\n"] *)
Definition join_trimmed (lines : list str) : str := rstrip (str_join [NEWLINE] lines) ++ [NEWLINE].

Definition remove_managed_block (text : str) (key_id : Z) : result awg_error str :=
  let lines := splitlines text in
  match find_block key_id lines with
  | None => Ok text
  | Some (_, None) => Err (NoEndMarker key_id)
  | Some (i, Some j) => Ok (join_trimmed (take i lines ++ drop (S j) lines))
  end.
Definition managed_block_lines (text : str) (key_id : Z) : option (list str) :=
  let lines := splitlines text in
  match find_block key_id lines with
  | Some (i, Some j) => Some (drop i (take (S j) lines))
  | _ => None
  end.
Fixpoint first_public_key (lines : list str) : option str :=
  match lines with
  | [] => None
  | raw :: rest =>
      let line := strip raw in
      if no_option line then first_public_key rest
      else let '(key, value) := split_option line in
           if bool_decide (key = py "PublicKey") && negb (is_empty value)
           then Some value else first_public_key rest
  end.
Definition find_managed_peer_public_key (text : str) (key_id : Z) : option str :=
  match managed_block_lines text key_id with
  | Some block => first_public_key block
  | None => None
  end.

(** ** Walking the [Peer] sections line by line *)

Definition is_peer_line (line : str) : bool := bool_decide (strip line = py "[Peer]").
(** The lines up to the next section header, and the rest. *)
Fixpoint body_lines (lines : list str) : list str * list str :=
  match lines with
  | [] => ([], [])
  | line :: rest =>
      if is_header (strip line) then ([], lines)
      else let '(b, r) := body_lines rest in (line :: b, r)
  end.
(** [self._parse_sections("\n".join(["[Interface]", *block]))[-1]] *)
Definition parse_block (block : list str) : result awg_error awg_section :=
  result_bind (parse_sections (str_join [NEWLINE] (py "[Interface]" :: block))) (fun sections =>
  match List.last sections (AwgSection [] [] []) with s => Ok s end).

(** The two [while] loops below run over the lines that are left; each turn
    consumes at least one. *)
Fixpoint remove_loop (fuel : nat) (public_key : str) (lines : list str)
    : result awg_error (list str * bool) :=
  match fuel, lines with
  | _, [] | O, _ => Ok ([], false)
  | S fuel', line :: rest =>
      if negb (is_peer_line line) then
        result_bind (remove_loop fuel' public_key rest) (fun '(kept, removed) =>
        Ok (line :: kept, removed))
      else
        let '(body, rest') := body_lines rest in
        result_bind (parse_block (line :: body)) (fun section =>
        let hit := bool_decide (dict_get (py "PublicKey") (sec_options section) = Some public_key) in
        result_bind (remove_loop fuel' public_key rest') (fun '(kept, removed) =>
        Ok (if hit then kept else (line :: body) ++ kept, hit || removed)))
  end.
Definition remove_peer_section_by_identity (text public_key : str) : result awg_error str :=
  let lines := splitlines text in
  result_bind (remove_loop (length lines) public_key lines) (fun '(kept, removed) =>
  Ok (if removed : bool then join_trimmed kept else text)).

(** [_managed_start_marker]; the empty dict is [[]]. *)
Fixpoint marker_labels (parts : list str) (marker : dict) : dict :=
  match parts with
  | [] => marker
  | part :: rest =>
      if startswith (py "label=") part then
        let label := strip (after_char EQUALS part) in
        marker_labels rest (if is_empty label then marker else dict_set (py "_managed_label") label marker)
      else marker_labels rest marker
  end.
Definition managed_start_marker (line : str) : dict :=
  if negb (startswith start_prefix line) then []
  else match split_ws (drop (length start_prefix) line) with
       | [] => []
       | first :: others =>
           match int_of_str first with
           | None => []
           | Some key_id => marker_labels others [(py "_managed_key_id", show_Z key_id)]
           end
       end.
(** [peer.update(marker)] *)
Definition dict_update (d marker : dict) : dict := fold_left (fun d '(k, v) => dict_set k v d) marker d.

Fixpoint parse_peer_loop (fuel : nat) (pending : dict) (lines : list str)
    : result awg_error (list dict) :=
  match fuel, lines with
  | _, [] | O, _ => Ok []
  | S fuel', line :: rest =>
      let stripped := strip line in
      match managed_start_marker stripped with
      | (_ :: _) as marker => parse_peer_loop fuel' marker rest
      | [] =>
          if bool_decide (stripped = py "[Peer]") then
            let '(body, rest') := body_lines rest in
            result_bind (parse_block (line :: body)) (fun section =>
            result_bind (parse_peer_loop fuel' [] rest') (fun peers =>
            Ok (dict_update (sec_options section) pending :: peers)))
          else parse_peer_loop fuel'
                 (if negb (is_empty stripped) && negb (startswith (py "#") stripped)
                  then [] else pending) rest
      end
  end.
(** [_parse_peer_blocks] *)
Definition parse_peer_blocks (text : str) : result awg_error (list dict) :=
  let lines := splitlines text in parse_peer_loop (length lines) [] lines.

(** ** The new text of an operation

    What [add_peer] and [remove_peer] compute from the text they have read, in the
    direct flow and in the helper's alike. *)

(** [None]: the key's block is there already. *)
Definition added_text (original : str) (key_id owner_user_id : Z) (public_key : str)
    (preshared_key : option str) (client_ip : str) (label : option str) : result awg_error (option str) :=
  result_bind (parse_sections original) (fun sections =>
  if managed_block_exists original key_id then Ok None
  else match find_peer_in sections (Some public_key) (Some client_ip) with
       | Some _ => Err PeerAlreadyExists
       | None =>
           result_bind (peer_block key_id owner_user_id public_key preshared_key client_ip label) (fun block =>
           Ok (Some (append_block original block)))
       end).
Definition removed_text (original : str) (key_id : Z) (public_key : option str) : result awg_error str :=
  result_bind (remove_managed_block original key_id) (fun updated =>
  match given public_key with
  | Some pk => if bool_decide (updated = original) then remove_peer_section_by_identity original pk
               else Ok updated
  | None => Ok updated
  end).

(** ** Runtime reports *)

Definition verify_output (stdout public_key : str) : bool :=
  existsb (fun line => bool_decide (strip line = py "peer: " ++ public_key)) (splitlines stdout).

(** [_parse_runtime_peers]; the peers so far, the current one first. *)
Definition runtime_line (peers : list dict) (raw : str) : list dict :=
  let line := strip raw in
  if is_empty line then peers
  else if startswith (py "peer: ") line
  then [(py "PublicKey", strip (drop 6 line))] :: peers
  else match peers with
       | [] => []
       | current :: rest =>
           if negb (has_char COLON line) then peers
           else let key := strip (before_char COLON line) in
                let value := strip (after_char COLON line) in
                if bool_decide (key = py "allowed ips")
                then dict_set (py "AllowedIPs") value current :: rest
                else if bool_decide (key = py "endpoint")
                then dict_set (py "Endpoint") value current :: rest
                else peers
       end.
Definition parse_runtime_peers (text : str) : list dict :=
  rev (fold_left runtime_line (splitlines text) []).

(** [list_peer_endpoints], from the runtime's peers. *)
Definition peer_endpoint (acc : dict) (peer : dict) : dict :=
  match given (dict_get (py "PublicKey") peer), given (dict_get (py "Endpoint") peer) with
  | Some pub, Some endpoint =>
      let ip := strip_chars (py "[]") (before_last_char COLON endpoint) in
      if is_empty ip then acc else dict_set pub ip acc
  | _, _ => acc
  end.
Definition list_peer_endpoints (peers : list dict) : dict := fold_left peer_endpoint peers [].

(** [parse_transfer_output] *)
Definition transfer_line (acc : list (str * (Z * Z))) (raw : str) : list (str * (Z * Z)) :=
  match split_ws (strip raw) with
  | [public_key; received; sent] =>
      match int_of_str received, int_of_str sent with
      | Some r, Some s => dict_set public_key (r, s) acc
      | _, _ => acc
      end
  | _ => acc
  end.
Definition parse_transfer_output (text : str) : list (str * (Z * Z)) :=
  fold_left transfer_line (splitlines text) [].

(** ** Examples *)

Definition demo_text : str := py "[Interface]
Address = 10.8.0.1/24
ListenPort = 51820
PrivateKey = c2VydmVy
Jc = 4
".
Definition demo_block1 : str :=
  str_join [NEWLINE] (peer_block_lines 7 100 (py "AAA=") (Some (py "PSK=")) (py "10.8.0.2") (Some (py "awg_aB3dE"))).
Definition demo_block2 : str :=
  str_join [NEWLINE] (peer_block_lines 8 200 (py "BBB=") None (py "10.8.0.3") (Some (py "awg_zZ9yY"))).
Definition demo_two : str := append_block (append_block demo_text demo_block1) demo_block2.

Example demo_two_text : demo_two = py "[Interface]
Address = 10.8.0.1/24
ListenPort = 51820
PrivateKey = c2VydmVy
Jc = 4

# vpn-bot peer start key_id=7 owner=100 label=awg_aB3dE
[Peer]
PublicKey = AAA=
PresharedKey = PSK=
AllowedIPs = 10.8.0.2/32
# vpn-bot peer end key_id=7

# vpn-bot peer start key_id=8 owner=200 label=awg_zZ9yY
[Peer]
PublicKey = BBB=
AllowedIPs = 10.8.0.3/32
# vpn-bot peer end key_id=8
".
Proof. vm_compute. reflexivity. Qed.
Example demo_remove : remove_managed_block demo_two 8 = Ok (append_block demo_text demo_block1).
Proof. vm_compute. reflexivity. Qed.
Example demo_ips : list_peer_allowed_ips demo_two = Ok [py "10.8.0.2/32"; py "10.8.0.3/32"].
Proof. vm_compute. reflexivity. Qed.
Example demo_managed_key : find_managed_peer_public_key demo_two 8 = Some (py "BBB=").
Proof. vm_compute. reflexivity. Qed.
Example demo_find_ip : find_peer demo_two None (Some (py "10.8.0.3"))
  = Ok (Some [(py "PublicKey", py "BBB="); (py "AllowedIPs", py "10.8.0.3/32")]).
Proof. vm_compute. reflexivity. Qed.
(** The second block's marker is swallowed by the first block's section. *)
Example demo_markers : parse_peer_blocks demo_two
  = Ok [[(py "PublicKey", py "AAA="); (py "PresharedKey", py "PSK="); (py "AllowedIPs", py "10.8.0.2/32");
         (py "_managed_key_id", py "7"); (py "_managed_label", py "awg_aB3dE")];
        [(py "PublicKey", py "BBB="); (py "AllowedIPs", py "10.8.0.3/32")]].
Proof. vm_compute. reflexivity. Qed.
Example demo_runtime : list_peer_endpoints (parse_runtime_peers (py "interface: awg0
  listening port: 51820

peer: AAA=
  endpoint: 203.0.113.5:40000
  allowed ips: 10.8.0.2/32

peer: BBB=
  endpoint: [2001:db8::5]:40000
"))
  = [(py "AAA=", py "203.0.113.5"); (py "BBB=", py "2001:db8::5")].
Proof. vm_compute. reflexivity. Qed.
Example demo_transfer : parse_transfer_output (py "AAA= 10 1_000
junk
BBB= x 1
")
  = [(py "AAA=", (10, 1000))].
Proof. vm_compute. reflexivity. Qed.
