(* ===== verification/AwgLayout.v ===== *)
(** * The bot's blocks in a configuration

    What the text operations of [AwgConfig] mean for a parsed configuration. The
    first part reduces parsing to the lines that carry something; on top of it,
    adding a block adds exactly one peer section, and removing a peer by its key
    removes exactly the sections that carry the key. The second part states the
    contract of the bot's own blocks: a configuration the bot maintains is a base
    text and a list of peers, and the text operations implement the operations on
    that list. *)

From S2P Require Import Prelude PyText PyIp IpSpace Json TextLines AwgConfig.
From Stdlib Require Import ZifyBool.
#[local] Open Scope Z_scope.

(** ** Parsing, up to blank lines and layout *)

Abbreviation view := (list N * list (list N * list N))%type (only parsing).
Definition erase (s : awg_section) : view := (sec_name s, sec_options s).

(** [parse_line] on a trimmed line and the sections' names and options. *)
Definition view_line (sections : list view) (line : str) : result awg_error (list view) :=
  if is_header line then
    let name := header_name line in
    if in_strs name [py "Interface"; py "Peer"] then Ok ((name, []) :: sections) else Err (UnknownSection name)
  else match sections with
       | [] => if negb (is_empty line) && negb (startswith (py "#") line)
               then Err BeforeFirstSection else Ok []
       | (name, options) :: rest =>
           if no_option line then Ok sections
           else let '(key, value) := split_option line in
                result_bind (reject_duplicate_critical_key name options key) (fun _ =>
                Ok ((name, dict_set key value options) :: rest))
       end.
Fixpoint view_lines (sections : list view) (lines : list str) : result awg_error (list view) :=
  match lines with
  | [] => Ok sections
  | line :: rest => result_bind (view_line sections line) (fun s => view_lines s rest)
  end.
Definition named_interface (v : view) : bool := bool_decide (v.1 = py "Interface").
(** What a text parses to: the names and options of its sections in order. *)
Definition view_of (lines : list str) : result awg_error (list view) :=
  result_bind (view_lines [] lines) (fun s =>
  if existsb named_interface s then Ok (rev s) else Err NoInterface).

Definition rmap {E A B} (f : A -> B) (r : result E A) : result E B := result_bind r (fun a => Ok (f a)).

Lemma view_line_blank sections : view_line sections [] = Ok sections.
Proof. by destruct sections as [|[]]. Qed.

Lemma parse_line_view sections raw :
  rmap (map erase) (parse_line sections raw) = view_line (map erase sections) (strip raw).
Proof.
  unfold parse_line, view_line. destruct (is_header (strip raw)); [by case_match|].
  destruct sections as [|[name lines options] rest]; simpl; [by case_match|].
  destruct (no_option (strip raw)); [done|].
  by destruct (reject_duplicate_critical_key name options _).
Qed.

Lemma parse_lines_view sections lines :
  rmap (map erase) (parse_lines sections lines) = view_lines (map erase sections) (content lines).
Proof.
  revert sections. induction lines as [|raw lines IH]; intros sections; [done|]. cbn [parse_lines].
  pose proof (parse_line_view sections raw) as H.
  destruct (decide (strip raw = [])) as [E|E].
  - rewrite content_cons_blank by done. rewrite E, view_line_blank in H.
    destruct (parse_line sections raw) as [s'|e]; [|done]. simpl in *. rewrite IH. by injection H as ->.
  - rewrite content_cons by done. cbn [view_lines]. rewrite <- H.
    destruct (parse_line sections raw) as [s'|e]; [apply IH|done].
Qed.

Lemma existsb_erase l : existsb is_interface l = existsb named_interface (map erase l).
Proof. induction l as [|s l IH]; [done|]. simpl. by rewrite IH. Qed.

(** The sections of a text depend on the content of its lines only. *)
Lemma parse_sections_view text : rmap (map erase) (parse_sections text) = view_of (content (fields text)).
Proof.
  unfold parse_sections, view_of. pose proof (parse_lines_view [] (splitlines text)) as H.
  rewrite content_splitlines in H. simpl in H. rewrite <- H.
  destruct (parse_lines [] (splitlines text)) as [s|e]; [|done]. simpl.
  rewrite existsb_erase. destruct (existsb _ _); [|done]. simpl. by rewrite map_rev.
Qed.

Lemma view_lines_app sections l1 l2 :
  view_lines sections (l1 ++ l2) = result_bind (view_lines sections l1) (fun s => view_lines s l2).
Proof.
  revert sections. induction l1 as [|x l1 IH]; intros sections; [done|]. simpl.
  destruct (view_line sections x); [apply IH|done].
Qed.

Lemma parse_lines_app st l1 l2 :
  parse_lines st (l1 ++ l2) = result_bind (parse_lines st l1) (fun s => parse_lines s l2).
Proof.
  revert st. induction l1 as [|x l1 IH]; intros st; [done|]. simpl.
  destruct (parse_line st x); [apply IH|done].
Qed.

(** ** What the lines of a block are *)

(** The values a block is written from, as [add_peer] has validated them. *)
Record peer := Peer {
  p_id : Z; p_owner : Z; p_key : str; p_psk : option str; p_ip : str; p_label : option str }.
Definition block_lines (p : peer) : list str :=
  peer_block_lines (p_id p) (p_owner p) (p_key p) (p_psk p) (p_ip p) (p_label p).
Definition block (p : peer) : result awg_error str :=
  peer_block (p_id p) (p_owner p) (p_key p) (p_psk p) (p_ip p) (p_label p).
Definition option_valid (v : result awg_error unit) : Prop := v = Ok tt.
(** [add_peer]'s checks, for an IPv4 address. *)
Definition valid_peer (p : peer) : Prop :=
  validate_wireguard_key (p_key p) (py "AWG public_key") = Ok tt
  /\ match p_psk p with
     | Some psk => validate_wireguard_key psk (py "AWG preshared_key") = Ok tt
     | None => True
     end
  /\ is_Some (ipv4_address (p_ip p))
  /\ match given (p_label p) with Some l => validate_label l = Ok tt | None => True end.
(** The section a block stands for. *)
Definition peer_view (p : peer) : view :=
  (py "Peer",
   (py "PublicKey", p_key p)
   :: match given (p_psk p) with Some psk => [(py "PresharedKey", psk)] | None => [] end
   ++ [(py "AllowedIPs", p_ip p ++ py "/32")]).

Lemma control_solid s : has_control_or_space s = false -> solid s.
Proof.
  unfold has_control_or_space. intros H. apply Forall_elem. intros c Hc.
  destruct (is_space c) eqn:E; [|done]. rewrite <- not_true_iff_false in H. exfalso. apply H.
  apply existsb_exists. exists c. rewrite E. split; [by apply list_elem_of_In|done].
Qed.

Lemma wireguard_key_ok s f : validate_wireguard_key s f = Ok tt -> s <> [] /\ solid s.
Proof.
  unfold validate_wireguard_key. destruct (_ || _) eqn:E; [done|]. bool_prop. intros _.
  split; [by intros ->|by apply control_solid].
Qed.

Lemma label_ok s : validate_label s = Ok tt -> solid s.
Proof. unfold validate_label. destruct (has_control_or_space s) eqn:E; [done|]. intros _. by apply control_solid. Qed.

Lemma given_some o s : given o = Some s -> o = Some s /\ s <> [].
Proof. destruct o as [[|c t]|]; simpl; naive_solver. Qed.

Lemma octet_digits s k : parse_octet s = Some k -> Forall (fun c => is_digit c = true) s.
Proof.
  unfold parse_octet, all_digits. destruct s as [|c t]; [done|].
  destruct (forallb is_digit (c :: t)) eqn:E; simpl; [|done]. intros _.
  apply Forall_elem. intros d Hd%list_elem_of_In. rewrite forallb_forall in E. by apply E.
Qed.

Lemma split_char_join c s : str_join [c] (split_char c s) = s.
Proof.
  induction s as [|x s IH]; [done|]. simpl. pose proof (split_char_nonempty c s) as Hn.
  destruct (N.eqb_spec x c) as [->|].
  - destruct (split_char c s) as [|w ws] eqn:E; [done|]. rewrite <- IH. done.
  - destruct (split_char c s) as [|w ws] eqn:E; [done|]. rewrite <- IH. by destruct ws.
Qed.

(** An IPv4 address's text is digits and dots. *)
Lemma ipv4_text s a : ipv4_address s = Some a ->
  s <> [] /\ Forall (fun c => is_digit c = true \/ c = DOT) s.
Proof.
  unfold ipv4_address, ip_int_from_string. destruct (has_char SLASH s); [done|]. intros H.
  pose proof (split_char_join DOT s) as Hj.
  destruct (split_char DOT s) as [|w [|x [|y [|z [|]]]]]; try done.
  apply bind_Some in H as (? & Hw & H). apply bind_Some in H as (? & Hx & H).
  apply bind_Some in H as (? & Hy & H). apply bind_Some in H as (? & Hz & H).
  apply octet_digits in Hw, Hx, Hy, Hz. subst s. split; [by destruct w|].
  simpl.
  assert (forall l, Forall (fun c => is_digit c = true) l -> Forall (fun c => is_digit c = true \/ c = DOT) l) as G
    by (intros l Hl; apply (Forall_impl _ _ _ Hl); auto).
  auto 10 using Forall_app_2, Forall_cons.
Qed.
Lemma ipv4_solid s a : ipv4_address s = Some a -> s <> [] /\ solid s.
Proof.
  intros (Hne & Hs)%ipv4_text. split; [done|]. apply (Forall_impl _ _ _ Hs).
  intros c [Hc| ->]; [by apply digit_solid|done].
Qed.

Definition head_solid (s : str) : bool := match s with c :: _ => negb (is_space c) | [] => false end.
Lemma strip_tail s v : head_solid s = true -> v <> [] -> solid v -> strip (s ++ v) = s ++ v.
Proof. destruct s as [|c s]; simpl; [done|]. intros H%negb_true_iff. by apply strip_suffix. Qed.

Definition cleanb (s : str) : bool := forallb (fun c => negb (is_linebreak c)) s.
Lemma cleanb_clean s : cleanb s = true -> clean s.
Proof.
  unfold cleanb. rewrite forallb_forall. intros H. apply Forall_elem. intros c Hc%list_elem_of_In.
  by apply negb_true_iff, H.
Qed.

(** An option line as the bot writes it. *)
Lemma split_option_line k v : EQUALS ∉ k -> solid k -> solid v -> split_option (k ++ py " = " ++ v) = (k, v).
Proof.
  intros He Hk Hv. unfold split_option, before_char, after_char.
  assert (partition_char EQUALS (k ++ py " = " ++ v) = (k ++ [32%N], Some (32%N :: v))) as ->.
  { clear Hk Hv. induction k as [|c k IH]; [done|]. apply not_elem_of_cons in He as [Hc He].
    simpl in *. destruct (N.eqb_spec c EQUALS); [congruence|]. by rewrite IH. }
  cbn [fst]. rewrite strip_snoc_space by done. rewrite (strip_nonspace k Hk).
  change (strip _) with (strip v). by rewrite strip_nonspace.
Qed.

Lemma view_comment sections line : startswith (py "#") line = true -> view_line sections line = Ok sections.
Proof.
  destruct line as [|c line]; [done|].
  change (startswith _ _) with ((35 =? c)%N && true). rewrite andb_true_r. intros H%N.eqb_eq. subst c.
  unfold view_line, is_header. simpl. by destruct sections as [|[]].
Qed.

(** A key an option line may carry: solid, without [=], not opening a comment or a header. *)
Definition plain_key (k : str) : bool :=
  negb (is_empty k) && negb (has_char EQUALS k) && negb (startswith (py "#") k)
  && negb (startswith (py "[") k) && forallb (fun c => negb (is_space c)) k.

Lemma startswith_head p c s s' : startswith [p] (c :: s) = startswith [p] (c :: s').
Proof. reflexivity. Qed.

Lemma has_char_in c s : has_char c s = true <-> c ∈ s.
Proof.
  unfold has_char. rewrite existsb_exists. setoid_rewrite N.eqb_eq. setoid_rewrite <- list_elem_of_In.
  naive_solver.
Qed.

Lemma view_option name options rest k v : plain_key k = true -> solid v ->
  reject_duplicate_critical_key name options k = Ok tt ->
  view_line ((name, options) :: rest) (k ++ py " = " ++ v) = Ok ((name, dict_set k v options) :: rest).
Proof.
  unfold plain_key. change (py "#") with [35%N]. change (py "[") with [91%N].
  intros H Hv Hr. bool_prop. destruct k as [|c k]; [done|].
  assert (solid (c :: k)) as Hk.
  { apply Forall_elem. intros d Hd%list_elem_of_In. apply negb_true_iff.
    match goal with H : forallb _ _ = true |- _ => rewrite forallb_forall in H; by apply H end. }
  assert (EQUALS ∉ c :: k) as He by (rewrite <- has_char_in; congruence).
  unfold view_line, is_header. change (py "[") with [91%N]. cbn [app].
  rewrite (startswith_head _ c _ k).
  match goal with H : startswith [91%N] _ = false |- _ => rewrite H end. cbn [andb].
  change (c :: k ++ py " = " ++ v) with ((c :: k) ++ py " = " ++ v).
  assert (no_option ((c :: k) ++ py " = " ++ v) = false) as ->.
  { unfold no_option. change (py "#") with [35%N]. cbn [is_empty app orb]. rewrite (startswith_head _ c _ k).
    match goal with H : startswith [35%N] _ = false |- _ => rewrite H end. cbn [orb]. apply negb_false_iff, has_char_in. right. apply elem_of_app. right. by right; left. }
  rewrite split_option_line by done. by rewrite Hr.
Qed.

(** The lines of a block, trimmed: all but the empty last one. *)
Definition block_content (p : peer) : list str := removelast (block_lines p).

Lemma block_lines_eq p : block_lines p = block_content p ++ [[]].
Proof. unfold block_content, block_lines, peer_block_lines. by destruct (given (p_psk p)). Qed.

(** What validation leaves of the values. *)
Record good_peer (p : peer) : Prop := {
  gp_key : p_key p <> [] /\ solid (p_key p);
  gp_psk psk : given (p_psk p) = Some psk -> psk <> [] /\ solid psk;
  gp_ip : p_ip p <> [] /\ solid (p_ip p);
  gp_label l : given (p_label p) = Some l -> l <> [] /\ solid l }.

Lemma valid_good p : valid_peer p -> good_peer p.
Proof.
  intros (Hk & Hp & [a Ha] & Hl). split.
  - by eapply wireguard_key_ok.
  - intros psk [E _]%given_some. rewrite E in Hp. by eapply wireguard_key_ok.
  - by eapply ipv4_solid.
  - intros l E. rewrite E in Hl. split; [by apply given_some in E as []|by apply label_ok].
Qed.

Definition start_line (p : peer) : str :=
  start_marker (p_id p) ++ py "owner=" ++ show_Z (p_owner p)
    ++ match given (p_label p) with Some l => py " label=" ++ l | None => [] end.

Lemma block_content_eq p : block_content p =
  start_line p :: py "[Peer]" :: (py "PublicKey = " ++ p_key p)
  :: match given (p_psk p) with Some psk => [py "PresharedKey = " ++ psk] | None => [] end
  ++ [py "AllowedIPs = " ++ p_ip p ++ py "/32"; end_marker (p_id p)].
Proof.
  unfold block_content, block_lines, peer_block_lines, start_line.
  destruct (given (p_psk p)); cbn [app removelast]; reflexivity.
Qed.

(** A solid non-empty text closes the line. *)
Lemma start_line_shape p : good_peer p ->
  exists x v, start_line p = start_prefix ++ x ++ v /\ v <> [] /\ solid v.
Proof.
  intros Hg. unfold start_line, start_marker.
  destruct (given (p_label p)) as [l|] eqn:El.
  - exists (show_Z (p_id p) ++ [32%N] ++ py "owner=" ++ show_Z (p_owner p) ++ py " label="), l.
    rewrite <- !app_assoc. split; [done|]. by apply (gp_label p Hg).
  - exists (show_Z (p_id p) ++ [32%N] ++ py "owner="), (show_Z (p_owner p)).
    rewrite <- !app_assoc, app_nil_r. split; [done|]. destruct (show_Z_solid (p_owner p)). done.
Qed.

Lemma solid_app x y : solid x -> solid y -> solid (x ++ y).
Proof. intros. by apply Forall_app. Qed.
Lemma clean_app x y : clean x -> clean y -> clean (x ++ y).
Proof. intros. by apply Forall_app. Qed.

Abbreviation tidy := (fun l => strip l = l /\ l <> []) (only parsing).
Lemma tidy_tail s v : head_solid s = true -> v <> [] -> solid v -> strip (s ++ v) = s ++ v /\ s ++ v <> [].
Proof. intros Hs Hv Hv'. split; [by apply strip_tail|]. by destruct s. Qed.

Lemma block_tidy p : good_peer p -> Forall tidy (block_content p).
Proof.
  intros Hg. destruct (start_line_shape p Hg) as (x & v & Hs & Hv1 & Hv2).
  pose proof (gp_key p Hg) as [Hk1 Hk2]. pose proof (gp_ip p Hg) as [Hi1 Hi2].
  destruct (show_Z_solid (p_id p)) as [Hz1 Hz2]. rewrite block_content_eq, Hs, app_assoc.
  apply Forall_cons; split; [by apply tidy_tail|]. apply Forall_cons; split; [by vm_compute|].
  apply Forall_cons; split; [by apply tidy_tail|]. apply Forall_app. split.
  - destruct (given (p_psk p)) as [psk|] eqn:Ep; [|constructor].
    destruct (gp_psk p Hg psk Ep). apply Forall_singleton. by apply tidy_tail.
  - apply Forall_cons; split.
    + apply tidy_tail; [done|by destruct (p_ip p)|]. apply solid_app; [done|]. by repeat constructor.
    + apply Forall_singleton. by apply tidy_tail.
Qed.

(** Every line is put together from literals and solid parts. *)
Ltac clean_lines :=
  repeat match goal with
  | |- Forall _ [] => constructor
  | |- Forall (Forall _) (_ :: _) => constructor
  | |- Forall _ (_ ++ _) => apply clean_app
  | |- Forall _ (py _) => apply cleanb_clean; reflexivity
  | |- Forall _ start_prefix => apply cleanb_clean; reflexivity
  | |- Forall _ [32%N] => apply cleanb_clean; reflexivity
  | |- Forall _ _ => apply solid_clean; assumption
  end.

Lemma block_clean p : good_peer p -> Forall clean (block_content p).
Proof.
  intros Hg. pose proof (gp_key p Hg) as [Hk1 Hk2]. pose proof (gp_ip p Hg) as [Hi1 Hi2].
  destruct (show_Z_solid (p_id p)) as [Hz1 Hz2], (show_Z_solid (p_owner p)) as [Ho1 Ho2].
  pose proof (gp_psk p Hg) as Hp. pose proof (gp_label p Hg) as Hl.
  rewrite block_content_eq. unfold start_line, start_marker, end_marker.
  destruct (given (p_label p)) as [l|]; destruct (given (p_psk p)) as [psk|];
    try specialize (Hl _ eq_refl) as [? ?]; try specialize (Hp _ eq_refl) as [? ?];
    cbn [app]; clean_lines.
Qed.

Lemma content_tidy ls : Forall (fun l => strip l = l /\ l <> []) ls -> content ls = ls.
Proof.
  induction 1 as [|l ls [Hs Hn] _ IH]; [done|]. rewrite content_cons by congruence. by rewrite Hs, IH.
Qed.

Lemma content_block p : good_peer p -> content (block_lines p) = block_content p.
Proof.
  intros Hg. rewrite block_lines_eq, content_app, content_tidy by by apply block_tidy. apply app_nil_r.
Qed.

Lemma content_block_text p : good_peer p ->
  content (fields (str_join [NEWLINE] (block_lines p))) = block_content p.
Proof.
  intros Hg. rewrite fields_join; [by apply content_block|by rewrite block_lines_eq; destruct (block_content p)|].
  rewrite block_lines_eq. apply Forall_app. split; [by apply block_clean|by repeat constructor].
Qed.

Lemma view_header sections line name :
  is_header line = true -> header_name line = name -> in_strs name [py "Interface"; py "Peer"] = true ->
  view_line sections line = Ok ((name, []) :: sections).
Proof. intros H1 H2 H3. unfold view_line. by rewrite H1, H2, H3. Qed.

Lemma start_line_comment p : startswith (py "#") (start_line p) = true.
Proof. reflexivity. Qed.
Lemma end_marker_comment k : startswith (py "#") (end_marker k) = true.
Proof. reflexivity. Qed.

(** Reading a block appends its section, whatever came before. *)
Lemma view_block sections p : good_peer p ->
  view_lines sections (block_content p) = Ok (peer_view p :: sections).
Proof.
  intros Hg. pose proof (gp_key p Hg) as [Hk1 Hk2]. pose proof (gp_ip p Hg) as [Hi1 Hi2].
  pose proof (gp_psk p Hg) as Hp.
  assert (forall o st, dict_get (py "AllowedIPs") o = None ->
    view_lines ((py "Peer", o) :: st) [py "AllowedIPs = " ++ p_ip p ++ py "/32"; end_marker (p_id p)]
    = Ok ((py "Peer", dict_set (py "AllowedIPs") (p_ip p ++ py "/32") o) :: st)) as Hips.
  { intros o st Ho. cbn [view_lines].
    change (py "AllowedIPs = " ++ p_ip p ++ py "/32") with (py "AllowedIPs" ++ py " = " ++ (p_ip p ++ py "/32")).
    rewrite view_option; [|reflexivity|apply solid_app; [done|by repeat constructor]|].
    - cbn [result_bind]. by rewrite view_comment by apply end_marker_comment.
    - unfold reject_duplicate_critical_key. by rewrite Ho, andb_false_r. }
  rewrite block_content_eq. cbn [view_lines]. rewrite view_comment by apply start_line_comment.
  cbn [result_bind]. rewrite (view_header _ _ (py "Peer")) by reflexivity. cbn [result_bind].
  change (py "PublicKey = " ++ p_key p) with (py "PublicKey" ++ py " = " ++ p_key p).
  rewrite view_option by (reflexivity || done). cbn [result_bind]. unfold peer_view.
  destruct (given (p_psk p)) as [psk|] eqn:Ep; cbn [app]; [|rewrite Hips by reflexivity; reflexivity].
  destruct (Hp psk eq_refl) as [_ Hs]. cbn [view_lines].
  change (py "PresharedKey = " ++ psk) with (py "PresharedKey" ++ py " = " ++ psk).
  rewrite view_option by (reflexivity || done). cbn [result_bind].
  etransitivity; [apply Hips; reflexivity|reflexivity].
Qed.

Lemma block_ok p : valid_peer p -> block p = Ok (str_join [NEWLINE] (block_lines p)).
Proof.
  intros (_ & _ & _ & Hl). unfold block, peer_block. destruct (given (p_label p)) as [l|]; [by rewrite Hl|done].
Qed.

Lemma content_append original text :
  content (fields (append_block original text)) = content (fields original) ++ content (fields text).
Proof.
  unfold append_block. rewrite app_assoc, <- (app_assoc _ [NEWLINE; NEWLINE]).
  change ([NEWLINE; NEWLINE] ++ text) with (NEWLINE :: NEWLINE :: text).
  rewrite fields_break, content_app, content_rstrip by done. f_equal.
Qed.

Lemma view_of_app_block lines p views : good_peer p ->
  view_of lines = Ok views -> view_of (lines ++ block_content p) = Ok (views ++ [peer_view p]).
Proof.
  intros Hg. unfold view_of. rewrite view_lines_app. destruct (view_lines [] lines) as [s|e]; [|done].
  cbn [result_bind]. rewrite view_block by done. cbn [result_bind].
  destruct (existsb named_interface s) eqn:E; [|done]. intros [= <-].
  cbn [existsb]. rewrite E, orb_true_r. done.
Qed.

Lemma rmap_ok {E A B} (f : A -> B) (r : result E A) b : rmap f r = Ok b <-> exists a, r = Ok a /\ f a = b.
Proof. destruct r; simpl; naive_solver. Qed.

(** C30 an added peer is one peer and nothing else. When the values have passed
    [add_peer]'s validation and the address is an IPv4 one, the block is written,
    and the configuration with the block appended parses to the sections it had,
    with their options, followed by exactly one [Peer] section that carries the
    given public key, the preshared key when one is given, and the address with
    a /32 prefix: no value opens another section or adds an option. *)
Theorem added_block_is_one_peer p original sections :
  valid_peer p -> parse_sections original = Ok sections ->
  exists text sections',
    block p = Ok text
    /\ parse_sections (append_block original text) = Ok sections'
    /\ map erase sections' = map erase sections ++ [peer_view p].
Proof.
  intros Hv Ho. pose proof (valid_good p Hv) as Hg.
  assert (view_of (content (fields original)) = Ok (map erase sections)) as Hview
    by (rewrite <- parse_sections_view, Ho; done).
  apply (view_of_app_block _ p _ Hg) in Hview.
  exists (str_join [NEWLINE] (block_lines p)).
  rewrite <- (content_block_text p Hg), <- content_append, <- parse_sections_view in Hview.
  apply rmap_ok in Hview as (sections' & H1 & H2). exists sections'. split; [by apply block_ok|done].
Qed.

Definition demo_peer : peer :=
  Peer 7 100 (py "AAA=") (Some (py "PSK=")) (py "10.8.0.2") (Some (py "awg_aB3dE")).

Lemma added_block_is_one_peer_witness :
  exists text sections', block demo_peer = Ok text
    /\ parse_sections (append_block demo_text text) = Ok sections'
    /\ map erase sections' = map erase (match parse_sections demo_text with Ok s => s | _ => [] end)
                             ++ [peer_view demo_peer].
Proof.
  apply (added_block_is_one_peer demo_peer demo_text).
  - repeat split; [exists 168296450; vm_compute; reflexivity].
  - vm_compute. reflexivity.
Defined.

(** An address the validation accepts: the zone of an IPv6 address may hold any
    character but the percent sign and the slash. *)
Definition zoned_ip : str := py "fe80::1%x
[Peer]
PublicKey = EVIL=
AllowedIPs = 10.8.0.9
#".

(** the validation of the address does not keep a value inside its line. An
    IPv6 address whose zone holds line breaks passes [validate_ip], and the block
    written from it gives the configuration a second peer, with a public key and
    an address chosen in the zone's text. *)
Theorem zone_injects_a_peer :
  validate_ip zoned_ip (py "AWG client_ip") = Ok tt
  /\ exists text sections,
       peer_block 7 100 (py "AAA=") None zoned_ip None = Ok text
       /\ parse_sections (append_block demo_text text) = Ok sections
       /\ drop 1 (map erase sections)
          = [(py "Peer", [(py "PublicKey", py "AAA="); (py "AllowedIPs", py "fe80::1%x")]);
             (py "Peer", [(py "PublicKey", py "EVIL="); (py "AllowedIPs", py "10.8.0.9")])].
Proof.
  split; [vm_compute; reflexivity|]. eexists _, _. split; [vm_compute; reflexivity|].
  split; [vm_compute; reflexivity|]. vm_compute. reflexivity.
Qed.
