(* ===== verification/AwgRemoval.v ===== *)
(** * Removing a peer by its public key

    [_remove_peer_section_by_identity] walks the lines of a configuration that need
    not have been written by the bot. The file proves what it does to the parsed
    configuration, and what its walk does to the bot's own markers. *)

From S2P Require Import Prelude PyText Json TextLines AwgConfig AwgLayout.
#[local] Open Scope Z_scope.

(** ** The body of a section *)

Lemma body_lines_spec lines : forall b r, body_lines lines = (b, r) ->
  lines = b ++ r /\ Forall (fun l => is_header (strip l) = false) b
  /\ (r = [] \/ exists h r', r = h :: r' /\ is_header (strip h) = true).
Proof.
  induction lines as [|l lines IH]; intros b r; simpl; [intros [= <- <-]; auto|].
  destruct (is_header (strip l)) eqn:E.
  { intros H. injection H as <- <-. split; [done|]. split; [constructor|]. right. eauto. }
  destruct (body_lines lines) as [b' r'] eqn:Eb. intros [= <- <-].
  destruct (IH b' r' eq_refl) as (-> & ? & ?). repeat split; auto.
Qed.

(** A line of a body changes the current section only, and in the same way
    whatever sections come before it. *)
Lemma parse_line_body st s raw st' : is_header (strip raw) = false ->
  parse_line (s :: st) raw = Ok st' ->
  exists s', st' = s' :: st /\ sec_name s' = sec_name s /\ hd [] (sec_lines s' ++ [[]]) = hd [] (sec_lines s ++ [raw])
             /\ forall st2, parse_line (s :: st2) raw = Ok (s' :: st2).
Proof.
  unfold parse_line. intros ->. destruct s as [name lines options].
  assert (hd [] ((lines ++ [raw]) ++ [[]]) = hd [] (lines ++ [raw])) as Hl by by destruct lines.
  destruct (no_option (strip raw)).
  - intros [= <-]. exists (AwgSection name (lines ++ [raw]) options). auto.
  - destruct (split_option (strip raw)) as [key value].
    destruct (reject_duplicate_critical_key name options key) as [[]|]; [|done].
    intros [= <-]. exists (AwgSection name (lines ++ [raw]) (dict_set key value options)). auto.
Qed.

Lemma parse_lines_body b : forall st s st', Forall (fun l => is_header (strip l) = false) b ->
  sec_lines s <> [] -> parse_lines (s :: st) b = Ok st' ->
  exists s', st' = s' :: st /\ sec_name s' = sec_name s /\ sec_lines s' <> []
             /\ hd [] (sec_lines s') = hd [] (sec_lines s)
             /\ forall st2, parse_lines (s :: st2) b = Ok (s' :: st2).
Proof.
  induction b as [|raw b IH]; intros st s st' Hb Hne H; [injection H as <-; eauto 10|].
  apply Forall_cons in Hb as [Hr Hb]. cbn [parse_lines] in H.
  destruct (parse_line (s :: st) raw) as [st1|] eqn:E; [|done]. cbn [result_bind] in H.
  destruct (parse_line_body _ _ _ _ Hr E) as (s1 & -> & Hn & Hh & Hall).
  assert (sec_lines s1 <> [] /\ hd [] (sec_lines s1) = hd [] (sec_lines s)) as [Hne1 Hh1].
  { clear - Hall Hne Hr. specialize (Hall []). unfold parse_line in Hall. rewrite Hr in Hall.
    destruct s as [name lines options].
    destruct (no_option _); [|destruct (split_option _), (reject_duplicate_critical_key _ _ _); [|done]];
      cbn [result_bind] in Hall; injection Hall as <-; simpl in *; by destruct lines. }
  destruct (IH st s1 st' Hb Hne1 H) as (s' & -> & Hn' & Hne' & Hh' & Hall').
  exists s'. repeat split; try congruence. intros st2. cbn [parse_lines]. rewrite Hall. apply Hall'.
Qed.

Lemma content_join_trimmed l : Forall clean l -> content (fields (join_trimmed l)) = content l.
Proof.
  intros Hl. unfold join_trimmed. rewrite fields_break, content_app, content_rstrip, content_lines_join by done.
  apply app_nil_r.
Qed.

Definition interface_section : awg_section := AwgSection (py "Interface") [py "[Interface]"] [].

(** A [Peer] line opens a section. *)
Definition opened (line : str) : awg_section := AwgSection (py "Peer") [line] [].
Lemma opened_lines line : sec_lines (opened line) <> [].
Proof. done. Qed.
Lemma parse_peer_line st line : is_peer_line line = true -> parse_line st line = Ok (opened line :: st).
Proof. unfold is_peer_line, parse_line. intros ->%bool_decide_eq_true. reflexivity. Qed.

(** Parsing a block on its own finds the options the configuration's own parse
    gives its section. *)
Lemma parse_block_spec line body st s :
  is_peer_line line = true -> clean line -> Forall clean body ->
  Forall (fun l => is_header (strip l) = false) body ->
  parse_lines (opened line :: st) body = Ok (s :: st) ->
  exists sec, parse_block (line :: body) = Ok sec /\ sec_options sec = sec_options s.
Proof.
  intros Hl Hcl Hcb Hb H. destruct (parse_lines_body _ _ _ _ Hb (opened_lines line) H) as (s' & [= <-] & Hn & _ & _ & Hall).
  assert (view_of (content (py "[Interface]" :: line :: body))
    = Ok [(py "Interface", []); erase s]) as Hv.
  { unfold view_of. rewrite content_cons by (vm_compute; discriminate). cbn [view_lines].
    rewrite (view_header _ _ (py "Interface")) by reflexivity. cbn [result_bind].
    change [(py "Interface", [])] with (map erase [interface_section]).
    rewrite <- parse_lines_view. cbn [parse_lines]. rewrite parse_peer_line by done. cbn [result_bind].
    rewrite Hall. cbn [rmap result_bind map existsb].
    change (named_interface (erase interface_section)) with true. cbn [orb]. rewrite orb_true_r. reflexivity. }
  rewrite <- content_lines_join in Hv by (constructor; [by apply cleanb_clean|by constructor]).
  rewrite <- parse_sections_view in Hv. apply rmap_ok in Hv as (secs & Hp & He).
  unfold parse_block. rewrite Hp. cbn [result_bind].
  destruct secs as [|i [|sec [|]]]; try done. exists sec. split; [done|].
  unfold erase in He. simpl in He. by injection He.
Qed.

(** ** What the walk keeps *)

Section Removal.
Variable public_key : str.

(** The sections the walk takes out: opened by a line that is exactly [Peer] in
    brackets, and carrying the key. *)
Definition taken (s : awg_section) : bool :=
  is_peer_line (hd [] (sec_lines s))
  && bool_decide (dict_get (py "PublicKey") (sec_options s) = Some public_key).
Definition kept_sections (l : list awg_section) : list awg_section := List.filter (fun s => negb (taken s)) l.

(** The section the next line would extend cannot become a taken one: it was not
    opened by a [Peer] line, or a header comes first. *)
Definition settled (st : list awg_section) (lines : list str) : Prop :=
  match lines with
  | [] => True
  | h :: _ => is_header (strip h) = true
              \/ match st with [] => True | s :: _ => is_peer_line (hd [] (sec_lines s)) = false end
  end.
Definition formed (s : awg_section) : Prop :=
  sec_lines s <> [] /\ (is_peer_line (hd [] (sec_lines s)) = true -> sec_name s = py "Peer").

Lemma not_taken s : is_peer_line (hd [] (sec_lines s)) = false -> negb (taken s) = true.
Proof. unfold taken. by intros ->. Qed.

Lemma peer_line_header line : is_peer_line line = true -> is_header (strip line) = true.
Proof. unfold is_peer_line. by intros ->%bool_decide_eq_true. Qed.

(** One line outside the walked sections: it does to the kept sections what it
    does to all of them. *)
Lemma parse_line_kept st line st1 : is_peer_line line = false -> Forall formed st ->
  settled st [line] -> parse_line st line = Ok st1 ->
  view_line (map erase (kept_sections st)) (strip line) = Ok (map erase (kept_sections st1))
  /\ Forall formed st1
  /\ match st1 with [] => True | s :: _ => is_peer_line (hd [] (sec_lines s)) = false end.
Proof.
  intros Hp Hf Hs H. pose proof (parse_line_view st line) as Hv. rewrite H in Hv. cbn in Hv.
  unfold parse_line in H. destruct (is_header (strip line)) eqn:Eh.
  - destruct (in_strs _ _) eqn:Ei in H; [|done]. injection H as <-.
    unfold kept_sections. cbn [List.filter]. rewrite not_taken by done. cbn [map].
    repeat split; [|constructor; [|done]|done].
    + unfold view_line. by rewrite Eh, Ei.
    + split; [done|]. cbn. congruence.
  - destruct Hs as [Hs|Hs]; [congruence|].
    destruct st as [|[name lines options] rest].
    { destruct (_ && _) eqn:E in H; [done|]. injection H as <-. by repeat split. }
    apply Forall_cons in Hf as [[Hne Hn] Hf]. cbn in Hs, Hne, Hn.
    assert (hd [] (lines ++ [line]) = hd [] lines) as Hh by by destruct lines.
    assert (forall o, negb (taken (AwgSection name (lines ++ [line]) o)) = true) as Hk
      by (intros o; apply not_taken; cbn; congruence).
    assert (forall o, Forall formed (AwgSection name (lines ++ [line]) o :: rest)) as Hf'.
    { intros o. constructor; [|done]. split; cbn; [by destruct lines|]. rewrite Hh. congruence. }
    unfold kept_sections. cbn [List.filter]. rewrite not_taken by done. cbn [map].
    unfold view_line in *. rewrite Eh in *. destruct (no_option (strip line)).
    + injection H as <-. cbn [List.filter]. rewrite Hk. repeat split; [by apply Hf'|cbn; congruence].
    + destruct (split_option (strip line)) as [key value]. cbn [map erase sec_name sec_options] in *.
      destruct (reject_duplicate_critical_key name options key) as [[]|]; [|done].
      injection H as <-. cbn [List.filter]. rewrite Hk. repeat split; [by apply Hf'|cbn; congruence].
Qed.

Lemma remove_loop_spec fuel : forall lines st st', (length lines <= fuel)%nat ->
  Forall clean lines -> Forall formed st -> settled st lines -> parse_lines st lines = Ok st' ->
  exists kept removed,
    remove_loop fuel public_key lines = Ok (kept, removed)
    /\ Forall clean kept /\ (removed = false -> kept = lines) /\ Forall formed st'
    /\ view_lines (map erase (kept_sections st)) (content kept) = Ok (map erase (kept_sections st')).
Proof.
  induction fuel as [|fuel IH]; intros lines st st' Hlen Hc Hf Hs H.
  - destruct lines; [|simpl in Hlen; lia]. injection H as <-. exists [], false. repeat split; auto.
  - destruct lines as [|line rest]; [injection H as <-; exists [], false; repeat split; auto|].
    simpl in Hlen. apply Forall_cons in Hc as [Hcl Hc]. cbn [remove_loop parse_lines] in *.
    destruct (is_peer_line line) eqn:Ep; cbn [negb].
    + rewrite parse_peer_line in H by done. cbn [result_bind] in H.
      destruct (body_lines rest) as [body rest'] eqn:Eb.
      destruct (body_lines_spec _ _ _ Eb) as (-> & Hb & Hr). apply Forall_app in Hc as [Hcb Hcr].
      rewrite parse_lines_app in H. destruct (parse_lines (opened line :: st) body) as [st1|] eqn:E1; [|done].
      cbn [result_bind] in H.
      destruct (parse_lines_body _ _ _ _ Hb (opened_lines line) E1) as (s & -> & Hsn & Hsne & Hsh & _).
      destruct (parse_block_spec line body st s Ep Hcl Hcb Hb E1) as (sec & Hpb & Hso).
      rewrite Hpb. cbn [result_bind]. rewrite Hso.
      destruct (IH rest' (s :: st) st') as (kept & removed & Hk & Hck & Hrm & Hf' & Hv); [| | | |done|].
      * rewrite length_app in Hlen. lia.
      * done.
      * constructor; [|done]. split; [done|]. by rewrite Hsn.
      * destruct Hr as [->|(h & r' & -> & Hh)]; [done|by left].
      * rewrite Hk. cbn [result_bind]. eexists _, _. split; [reflexivity|].
        set (hit := bool_decide _). assert (taken s = hit) as Ht
          by (unfold taken; rewrite Hsh; cbn; by rewrite Ep).
        unfold kept_sections in Hv. cbn [List.filter] in Hv. rewrite Ht in Hv.
        destruct hit; cbn [negb orb] in *; [repeat split; auto; done|].
        repeat split; auto.
        -- constructor; [done|]. by apply Forall_app.
        -- intros ->. simpl. by rewrite Hrm.
        -- rewrite content_app, view_lines_app.
           pose proof (parse_lines_view (kept_sections st) (line :: body)) as Hpv.
           cbn [parse_lines] in Hpv. rewrite parse_peer_line in Hpv by done. cbn [result_bind] in Hpv.
           destruct (parse_lines_body _ _ _ _ Hb (opened_lines line) E1) as (s2 & [= <-] & _ & _ & _ & Hall).
           rewrite Hall in Hpv. cbn [rmap result_bind] in Hpv. rewrite <- Hpv. exact Hv.
    + destruct (parse_line st line) as [st1|] eqn:E1; [|done]. cbn [result_bind] in H.
      destruct (parse_line_kept st line st1 Ep Hf) as (Hv1 & Hf1 & Hs1); [|done|].
      { destruct Hs as [|Hs]; [by left|by right]. }
      destruct (IH rest st1 st') as (kept & removed & Hk & Hck & Hrm & Hf' & Hv); try done; [lia| |].
      { destruct rest; [done|]. by right. }
      rewrite Hk. cbn [result_bind]. exists (line :: kept), removed. repeat split; auto.
      * intros E. f_equal. by apply Hrm.
      * destruct (decide (strip line = [])) as [El|El].
        -- rewrite content_cons_blank by done. rewrite El, view_line_blank in Hv1. injection Hv1 as ->. done.
        -- rewrite content_cons by done. cbn [view_lines]. rewrite Hv1. done.
Qed.

Lemma parse_line_taken st line st1 : is_peer_line line = false -> settled st [line] ->
  Forall formed st -> parse_line st line = Ok st1 -> existsb taken st1 = existsb taken st.
Proof.
  intros Hp Hs Hf H. unfold parse_line in H. destruct (is_header (strip line)) eqn:Eh.
  - destruct (in_strs _ _) in H; [|done]. injection H as <-. cbn [existsb].
    pose proof (not_taken (AwgSection (header_name (strip line)) [line] []) Hp) as Hn%negb_true_iff. by rewrite Hn.
  - destruct Hs as [Hs|Hs]; [congruence|]. destruct st as [|[name lines options] rest].
    { destruct (_ && _) in H; [done|]. by injection H as <-. }
    apply Forall_cons in Hf as [[Hne _] _]. cbn in Hs, Hne.
    assert (forall l o, hd [] l = hd [] lines -> taken (AwgSection name l o) = false) as Hk.
    { intros l o E. apply negb_true_iff, not_taken. cbn. congruence. }
    assert (hd [] (lines ++ [line]) = hd [] lines) as Hh by by destruct lines.
    destruct (no_option _); [|destruct (split_option _), (reject_duplicate_critical_key _ _ _); [|done]];
      injection H as <-; cbn [existsb]; by rewrite !Hk.
Qed.

(** The walk removes something exactly when it has met a section with the key. *)
Lemma remove_loop_removed fuel : forall lines st st', (length lines <= fuel)%nat ->
  Forall clean lines -> Forall formed st -> settled st lines -> parse_lines st lines = Ok st' ->
  exists kept removed, remove_loop fuel public_key lines = Ok (kept, removed)
    /\ existsb taken st' = removed || existsb taken st.
Proof.
  induction fuel as [|fuel IH]; intros lines st st' Hlen Hc Hf Hs H.
  - destruct lines; [|simpl in Hlen; lia]. injection H as <-. by exists [], false.
  - destruct lines as [|line rest]; [injection H as <-; by exists [], false|].
    simpl in Hlen. apply Forall_cons in Hc as [Hcl Hc]. cbn [remove_loop parse_lines] in *.
    destruct (is_peer_line line) eqn:Ep; cbn [negb].
    + rewrite parse_peer_line in H by done. cbn [result_bind] in H.
      destruct (body_lines rest) as [body rest'] eqn:Eb.
      destruct (body_lines_spec _ _ _ Eb) as (-> & Hb & Hr). apply Forall_app in Hc as [Hcb Hcr].
      rewrite parse_lines_app in H. destruct (parse_lines (opened line :: st) body) as [st1|] eqn:E1; [|done].
      cbn [result_bind] in H.
      destruct (parse_lines_body _ _ _ _ Hb (opened_lines line) E1) as (s & -> & Hsn & Hsne & Hsh & _).
      destruct (parse_block_spec line body st s Ep Hcl Hcb Hb E1) as (sec & Hpb & Hso).
      rewrite Hpb. cbn [result_bind]. rewrite Hso.
      destruct (IH rest' (s :: st) st') as (kept & removed & Hk & He); [| | | |done|].
      * rewrite length_app in Hlen. lia.
      * done.
      * constructor; [|done]. split; [done|]. by rewrite Hsn.
      * destruct Hr as [->|(h & r' & -> & Hh)]; [done|by left].
      * rewrite Hk. cbn [result_bind]. eexists _, _. split; [reflexivity|]. rewrite He. cbn [existsb].
        assert (taken s = bool_decide (dict_get (py "PublicKey") (sec_options s) = Some public_key)) as <-
          by (unfold taken; rewrite Hsh; cbn; by rewrite Ep).
        by destruct (taken s), removed.
    + destruct (parse_line st line) as [st1|] eqn:E1; [|done]. cbn [result_bind] in H.
      assert (settled st [line]) as Hs' by (destruct Hs as [Hs|Hs]; [by left|by right]).
      destruct (parse_line_kept st line st1 Ep Hf Hs' E1) as (_ & Hf1 & Hs1).
      destruct (IH rest st1 st') as (kept & removed & Hk & He); try done; [lia|by destruct rest; [|right]|].
      rewrite Hk. cbn [result_bind]. exists (line :: kept), removed. split; [done|].
      by rewrite He, (parse_line_taken st line).
Qed.

Lemma kept_interface l : Forall formed l -> existsb is_interface (kept_sections l) = existsb is_interface l.
Proof.
  unfold kept_sections. induction 1 as [|s l [_ Hn] _ IH]; [done|]. cbn [List.filter existsb].
  destruct (taken s) eqn:Et; cbn [negb existsb]; [|by rewrite IH].
  rewrite IH. unfold taken in Et. bool_prop. unfold is_interface at 2. rewrite Hn by done. done.
Qed.

(** A configuration without a section that carries the key comes back as it was. *)
Lemma identity_removal_miss text sections : parse_sections text = Ok sections ->
  existsb taken sections = false -> remove_peer_section_by_identity text public_key = Ok text.
Proof.
  intros H Ht. unfold parse_sections in H.
  destruct (parse_lines [] (splitlines text)) as [st|] eqn:E; [|done]. cbn [result_bind] in H.
  destruct (existsb is_interface st); [|done]. injection H as <-.
  destruct (remove_loop_removed (length (splitlines text)) (splitlines text) [] st)
    as (kept & removed & Hk & He); try done.
  { apply splitlines_clean. } { by destruct (splitlines text); [|right]. }
  unfold remove_peer_section_by_identity. rewrite Hk. cbn [result_bind].
  assert (existsb taken st = false) as E2.
  { apply not_true_iff_false. intros (s & Hs & Hts)%existsb_exists. apply not_true_iff_false in Ht. apply Ht.
    apply existsb_exists. exists s. by rewrite <- in_rev. }
  rewrite E2, orb_false_r in He. by rewrite <- He.
Qed.
End Removal.

(** removing a peer by its key removes that peer and nothing else. On every
    configuration that parses, [_remove_peer_section_by_identity] succeeds, and its
    result parses to the sections of the original, with their options and in their
    order, without those that were opened by a [Peer] line and carry the key. A
    configuration without such a section comes back as it was. *)
Theorem identity_removal_exact text public_key sections :
  parse_sections text = Ok sections ->
  exists text' sections',
    remove_peer_section_by_identity text public_key = Ok text'
    /\ parse_sections text' = Ok sections'
    /\ map erase sections' = map erase (kept_sections public_key sections)
    /\ (existsb (taken public_key) sections = false -> map erase sections' = map erase sections).
Proof.
  intros H. unfold parse_sections in H.
  destruct (parse_lines [] (splitlines text)) as [st|] eqn:E; [|done]. cbn [result_bind] in H.
  destruct (existsb is_interface st) eqn:Ei; [|done]. injection H as <-.
  destruct (remove_loop_spec public_key (length (splitlines text)) (splitlines text) [] st)
    as (kept & removed & Hk & Hck & Hr & Hf & Hv); try done.
  { apply splitlines_clean. } { by destruct (splitlines text); [|right]. }
  unfold remove_peer_section_by_identity. rewrite Hk. cbn [result_bind]. eexists. 
  assert (forall l, existsb (taken public_key) l = false -> kept_sections public_key l = l) as Hid.
  { induction l as [|s l IH]; [done|]. cbn. intros [-> ?]%orb_false_iff. cbn. f_equal. by apply IH. }
  assert (content (fields (if removed then join_trimmed kept else text)) = content kept) as Hc.
  { destruct removed; [by apply content_join_trimmed|]. rewrite Hr by done. by rewrite content_splitlines. }
  assert (rmap (map erase) (parse_sections (if removed then join_trimmed kept else text))
          = Ok (map erase (kept_sections public_key (rev st)))) as Hp.
  { rewrite parse_sections_view, Hc. unfold view_of. change [] with (map erase (kept_sections public_key [])).
    rewrite Hv. cbn [result_bind]. rewrite <- existsb_erase, kept_interface, Ei by done.
    unfold kept_sections. by rewrite <- map_rev, filter_rev. }
  apply rmap_ok in Hp as (sections' & Hp & He). exists sections'. repeat split; try done.
  intros Hn. by rewrite He, Hid.
Qed.

Lemma identity_removal_exact_witness :
  exists text' sections',
    remove_peer_section_by_identity demo_two (py "BBB=") = Ok text'
    /\ parse_sections text' = Ok sections'
    /\ length sections' = 2%nat.
Proof.
  destruct (parse_sections demo_two) as [secs|e] eqn:E; [|vm_compute in E; discriminate].
  destruct (identity_removal_exact demo_two (py "BBB=") secs E) as (text' & sections' & H1 & H2 & H3 & _).
  exists text', sections'. repeat split; [done..|].
  apply (f_equal (@length _)) in H3. rewrite !length_map in H3. rewrite H3.
  assert (E' := E). vm_compute in E'. injection E' as <-. vm_compute. reflexivity.
Defined.
