(* ===== verification/AwgRefine.v ===== *)
(** * A maintained configuration is a list of peers

    The contract of the bot's blocks in a configuration file: a base text the bot
    did not write, followed by the blocks of a list of peers. Adding and removing
    on the text are appending to and filtering that list. *)

From S2P Require Import Prelude PyText Json TextLines AwgConfig AwgLayout.
#[local] Open Scope Z_scope.

(** A text written line by line. *)
Definition text_of (lines : list str) : str := lines ≫= (fun l => l ++ [NEWLINE]).
(** The last line ends in a character that is no blank: trimming changes nothing. *)
Definition tight (lines : list str) : Prop :=
  exists front x c, lines = front ++ [x ++ [c]] /\ is_space c = false.

Lemma text_of_app a b : text_of (a ++ b) = text_of a ++ text_of b.
Proof. apply bind_app. Qed.

Lemma splitlines_text lines : Forall clean lines -> splitlines (text_of lines) = lines.
Proof. apply splitlines_lines. Qed.

Lemma tight_app a b : tight b -> tight (a ++ b).
Proof. intros (f & x & c & -> & H). exists (a ++ f), x, c. by rewrite app_assoc. Qed.

Lemma tight_nonempty l : tight l -> l <> [].
Proof. intros (f & x & c & -> & _). by destruct f. Qed.

Lemma join_snoc l x : l <> [] -> str_join [NEWLINE] (l ++ [x]) = text_of l ++ x.
Proof.
  induction l as [|y l IH]; [done|]. intros _. destruct l as [|z l]; [by cbn; rewrite app_nil_r, <- app_assoc|].
  change (str_join [NEWLINE] ((y :: z :: l) ++ [x])) with (y ++ [NEWLINE] ++ str_join [NEWLINE] ((z :: l) ++ [x])).
  rewrite IH by done. unfold text_of. cbn. by rewrite <- !app_assoc.
Qed.

Lemma join_text l : l <> [] -> str_join [NEWLINE] l ++ [NEWLINE] = text_of l.
Proof. apply join_lines. Qed.

Lemma rstrip_join_tight l : tight l -> rstrip (str_join [NEWLINE] l) = str_join [NEWLINE] l.
Proof.
  intros (f & x & c & -> & Hc). destruct f as [|y f]; [by apply rstrip_snoc_solid|].
  rewrite join_snoc by done. rewrite app_assoc. by apply rstrip_snoc_solid.
Qed.

Lemma rstrip_text l : tight l -> rstrip (text_of l) = str_join [NEWLINE] l.
Proof.
  intros Hl. rewrite <- join_text by by apply tight_nonempty.
  rewrite rstrip_snoc_space by done. by apply rstrip_join_tight.
Qed.

Lemma join_blanks l n : l <> [] -> str_join [NEWLINE] (l ++ replicate n []) = str_join [NEWLINE] l ++ replicate n NEWLINE.
Proof.
  intros Hl. induction n as [|n IH]; [by rewrite !app_nil_r|].
  rewrite replicate_S_end, app_assoc, join_snoc by by destruct l.
  rewrite <- join_text by by destruct l. rewrite IH, app_nil_r, <- app_assoc. by rewrite <- replicate_S_end.
Qed.

(** Blank lines at the end are trimmed away. *)
Lemma join_trimmed_blanks l n : tight l -> join_trimmed (l ++ replicate n []) = text_of l.
Proof.
  intros Hl. pose proof (tight_nonempty l Hl) as Hn. unfold join_trimmed. rewrite join_blanks by done.
  assert (rstrip (str_join [NEWLINE] l ++ replicate n NEWLINE) = str_join [NEWLINE] l) as ->.
  { induction n as [|n IH]; [rewrite app_nil_r; by apply rstrip_join_tight|].
    rewrite replicate_S_end, app_assoc. by rewrite rstrip_snoc_space. }
  by apply join_text.
Qed.

(** ** Markers *)

Lemma startswith_app a x y : startswith (a ++ x) (a ++ y) = startswith x y.
Proof. induction a as [|c a IH]; [done|]. simpl. by rewrite N.eqb_refl. Qed.

Lemma startswith_refl a y : startswith a (a ++ y) = true.
Proof. rewrite <- (app_nil_r a) at 1. by rewrite startswith_app. Qed.

Lemma startswith_delim x y (d : N) r : d ∉ x -> d ∉ y ->
  startswith (x ++ [d]) (y ++ d :: r) = bool_decide (x = y).
Proof.
  revert y. induction x as [|a x IH]; intros [|b y] Hx Hy; simpl.
  - by rewrite N.eqb_refl.
  - apply not_elem_of_cons in Hy as [Hne _]. by destruct (N.eqb_spec d b).
  - apply not_elem_of_cons in Hx as [Hne _]. by destruct (N.eqb_spec a d).
  - apply not_elem_of_cons in Hx as [_ Hx]. apply not_elem_of_cons in Hy as [_ Hy].
    rewrite IH by done. destruct (N.eqb_spec a b) as [->|]; repeat case_bool_decide; naive_solver.
Qed.

Lemma show_no_space n : 32%N ∉ show_Z n.
Proof. destruct (show_Z_solid n) as [Hs _]. intros Hin. rewrite Forall_elem in Hs. by apply Hs in Hin. Qed.

Lemma is_start_line k p : good_peer p -> is_start k (start_line p) = bool_decide (k = p_id p).
Proof.
  intros Hg. unfold is_start.
  assert (strip (start_line p) = start_line p) as ->.
  { destruct (start_line_shape p Hg) as (x & v & -> & Hv & Hs). rewrite app_assoc. by apply strip_tail. }
  unfold start_line, start_marker. rewrite <- !app_assoc, startswith_app.
  change ([32%N] ++ ?r) with (32%N :: r). cbn [app]. rewrite startswith_delim by apply show_no_space.
  apply bool_decide_ext. split; [apply show_Z_inj|by intros ->].
Qed.

Lemma end_marker_tidy k : strip (end_marker k) = end_marker k.
Proof. destruct (show_Z_solid k). by apply strip_tail. Qed.
Lemma end_marker_inj a b : end_marker a = end_marker b -> a = b.
Proof. unfold end_marker. intros H%app_inv_head. by apply show_Z_inj. Qed.

(** The lines of a block between its two markers: neither kind. *)
Definition block_body (p : peer) : list str :=
  py "[Peer]" :: (py "PublicKey = " ++ p_key p)
  :: match given (p_psk p) with Some psk => [py "PresharedKey = " ++ psk] | None => [] end
  ++ [py "AllowedIPs = " ++ p_ip p ++ py "/32"].
Lemma block_content_split p : block_content p = start_line p :: block_body p ++ [end_marker (p_id p)].
Proof.
  rewrite block_content_eq. unfold block_body. cbn [app]. rewrite <- app_assoc. reflexivity.
Qed.

Lemma block_body_tidy p : good_peer p -> Forall tidy (block_body p).
Proof.
  intros Hg. pose proof (block_tidy p Hg) as H. rewrite block_content_split in H.
  apply Forall_cons in H as [_ H]. by apply Forall_app in H as [H _].
Qed.

Lemma block_body_heads p : Forall (fun l => startswith (py "#") l = false) (block_body p).
Proof.
  unfold block_body. constructor; [reflexivity|]. constructor; [reflexivity|].
  destruct (given (p_psk p)); cbn [app]; repeat (constructor; [reflexivity|]); constructor.
Qed.

Lemma startswith_trans a b s : startswith a b = true -> startswith b s = true -> startswith a s = true.
Proof.
  revert b s. induction a as [|x a IH]; intros [|y b] [|z s]; simpl; try done.
  intros [->%N.eqb_eq ?]%andb_true_iff [->%N.eqb_eq ?]%andb_true_iff. rewrite N.eqb_refl. simpl. eauto.
Qed.

(** A line that is no comment is no marker. *)
Lemma no_comment_no_marker k l : startswith (py "#") (strip l) = false ->
  is_start k l = false /\ is_end k l = false.
Proof.
  intros H. split.
  - unfold is_start. apply not_true_iff_false. intros Hs.
    rewrite (startswith_trans (py "#") (start_marker k)) in H; done.
  - unfold is_end. apply bool_decide_eq_false. intros E. by rewrite E in H.
Qed.

Lemma body_no_marker k p : good_peer p ->
  Forall (fun l => is_start k l = false /\ is_end k l = false) (block_body p).
Proof.
  intros Hg. pose proof (block_body_tidy p Hg) as Ht. pose proof (block_body_heads p) as Hh.
  apply Forall_elem. intros l Hl. rewrite Forall_elem in Ht, Hh.
  apply no_comment_no_marker. destruct (Ht l Hl) as [-> _]. by apply Hh.
Qed.

Lemma start_not_end k p : good_peer p -> is_end k (start_line p) = false.
Proof.
  intros Hg. unfold is_end. apply bool_decide_eq_false.
  destruct (start_line_shape p Hg) as (x & v & -> & Hv & Hs). rewrite app_assoc, strip_tail by done.
  rewrite <- app_assoc. unfold end_marker, start_prefix.
  intros E. apply (f_equal (take 16)) in E. vm_compute in E. discriminate.
Qed.
Lemma end_not_start k j : is_start k (end_marker j) = false.
Proof. unfold is_start. rewrite end_marker_tidy. reflexivity. Qed.
Lemma is_end_marker k j : is_end k (end_marker j) = bool_decide (k = j).
Proof.
  unfold is_end. rewrite end_marker_tidy. apply bool_decide_ext.
  split; [by intros ?%end_marker_inj|by intros ->].
Qed.
Lemma blank_no_marker k : is_start k [] = false /\ is_end k [] = false.
Proof. by apply no_comment_no_marker. Qed.

Lemma is_start_prefix k l : is_start k l = true -> startswith start_prefix (strip l) = true.
Proof.
  unfold is_start. apply startswith_trans. unfold start_marker. apply startswith_refl.
Qed.

(** The same markers on lines that are not trimmed. *)
Lemma start_line_starts k p : startswith (start_marker k) (start_line p) = bool_decide (k = p_id p).
Proof.
  unfold start_line, start_marker. rewrite <- !app_assoc, startswith_app.
  change ([32%N] ++ ?r) with (32%N :: r). rewrite startswith_delim by apply show_no_space.
  apply bool_decide_ext. split; [apply show_Z_inj|by intros ->].
Qed.
Lemma end_marker_starts k j : startswith (start_marker k) (end_marker j) = false.
Proof. reflexivity. Qed.
Lemma marker_comment k l : startswith (start_marker k) l = true -> startswith (py "#") l = true.
Proof. by apply startswith_trans. Qed.
Lemma marker_start_prefix k l : startswith (start_marker k) l = true -> startswith start_prefix l = true.
Proof. apply startswith_trans. unfold start_marker. apply startswith_refl. Qed.

Lemma first_key_block p : good_peer p -> first_public_key (block_content p) = Some (p_key p).
Proof.
  intros Hg. pose proof (gp_key p Hg) as [Hk1 Hk2]. pose proof (block_tidy p Hg) as Ht.
  rewrite block_content_eq in *. apply Forall_cons in Ht as [[Hs _] Ht].
  apply Forall_cons in Ht as [_ Ht]. apply Forall_cons in Ht as [[Hp _] _].
  cbn [first_public_key]. rewrite Hs.
  assert (no_option (start_line p) = true) as -> by (unfold no_option; rewrite start_line_comment; by rewrite orb_true_r).
  assert (no_option (strip (py "[Peer]")) = true) as -> by reflexivity.
  rewrite Hp. assert (no_option (py "PublicKey = " ++ p_key p) = false) as -> by reflexivity.
  change (py "PublicKey = " ++ p_key p) with (py "PublicKey" ++ py " = " ++ p_key p).
  rewrite split_option_line; [|apply (bool_decide_unpack _); vm_compute; exact I|by repeat constructor|done].
  rewrite bool_decide_eq_true_2 by done. by destruct (p_key p).
Qed.

Lemma block_tight p : tight (block_content p).
Proof.
  rewrite block_content_split. destruct (show_Z_solid (p_id p)) as [Hs Hn]. unfold end_marker.
  destruct (show_Z (p_id p)) as [|c v _] using rev_ind; [done|].
  exists (start_line p :: block_body p), (py "# vpn-bot peer end key_id=" ++ v), c.
  split; [by rewrite <- app_assoc|]. apply Forall_app in Hs as [_ Hs]. by inversion Hs.
Qed.

#[local] Opaque start_line end_marker block_body block_content is_start is_end.

Lemma bool_decide_cons (k a : Z) l : bool_decide (k = a) || bool_decide (k ∈ l) = bool_decide (k ∈ a :: l).
Proof. rewrite (bool_decide_ext (k ∈ a :: l) (k = a \/ k ∈ l)) by apply elem_of_cons. by rewrite bool_decide_or. Qed.


Lemma filter_Forall {A} (P : A -> Prop) f l : Forall P l -> Forall P (List.filter f l).
Proof. induction 1 as [|x l Hx _ IH]; simpl; [done|]. destruct (f x); auto with pydb. Qed.

(** ** Finding a block *)

Lemma index_of_skip f a b : Forall (fun l => f l = false) a ->
  index_of f (a ++ b) = option_map (Nat.add (length a)) (index_of f b).
Proof.
  induction 1 as [|x a Hx _ IH]; simpl; [by destruct (index_of f b)|].
  rewrite Hx, IH. by destruct (index_of f b).
Qed.
Lemma index_of_none f a : Forall (fun l => f l = false) a -> index_of f a = None.
Proof. intros H. rewrite <- (app_nil_r a), index_of_skip by done. done. Qed.

Lemma index_of_hit f x l : f x = true -> index_of f (x :: l) = Some O.
Proof. simpl. by intros ->. Qed.
Lemma drop_next (a : list str) x l : drop (S (length a)) (a ++ x :: l) = l.
Proof. induction a as [|y a IH]; [done|apply IH]. Qed.

Lemma find_block_at k pre x body y post :
  Forall (fun l => is_start k l = false) pre -> is_start k x = true ->
  Forall (fun l => is_end k l = false) body -> is_end k y = true ->
  find_block k (pre ++ (x :: body ++ [y]) ++ post)
  = Some (length pre, Some (length pre + S (length body))%nat).
Proof.
  intros Hp Hx Hb Hy. unfold find_block.
  change ((x :: body ++ [y]) ++ post) with (x :: ((body ++ [y]) ++ post)).
  rewrite index_of_skip, index_of_hit by done. cbn [option_map]. rewrite Nat.add_0_r, drop_next, <- app_assoc.
  rewrite index_of_skip by done. change ([y] ++ post) with (y :: post). rewrite index_of_hit by done.
  cbn [option_map]. do 3 f_equal. lia.
Qed.

Lemma find_block_hit p pre post : good_peer p -> Forall (fun l => is_start (p_id p) l = false) pre ->
  find_block (p_id p) (pre ++ block_content p ++ post)
  = Some (length pre, Some (length pre + S (length (block_body p)))%nat).
Proof.
  intros Hg Hp. rewrite block_content_split. apply find_block_at; [done| | |].
  - rewrite is_start_line by done. by apply bool_decide_eq_true_2.
  - apply (Forall_impl _ _ _ (body_no_marker (p_id p) p Hg)). by intros ? [].
  - rewrite is_end_marker. by apply bool_decide_eq_true_2.
Qed.

Lemma find_block_miss k lines : Forall (fun l => is_start k l = false) lines -> find_block k lines = None.
Proof. intros H. unfold find_block. by rewrite index_of_none. Qed.

Lemma length_block p : length (block_content p) = S (S (length (block_body p))).
Proof. rewrite block_content_split. simpl. rewrite length_app. simpl. lia. Qed.

Lemma take_skip_block p pre post :
  take (length pre) (pre ++ block_content p ++ post)
  ++ drop (S (length pre + S (length (block_body p)))) (pre ++ block_content p ++ post) = pre ++ post.
Proof.
  rewrite take_app_length. f_equal. rewrite app_assoc, drop_app_ge by (rewrite length_app, length_block; lia).
  rewrite length_app, length_block.
  replace (S (length pre + S (length (block_body p))) - (length pre + S (S (length (block_body p)))))%nat with 0%nat by lia.
  done.
Qed.

Lemma slice_block p pre post :
  drop (length pre) (take (S (length pre + S (length (block_body p)))) (pre ++ block_content p ++ post))
  = block_content p.
Proof.
  rewrite app_assoc, take_app_le by (rewrite length_app, length_block; lia).
  rewrite take_ge by (rewrite length_app, length_block; lia). by rewrite drop_app_length.
Qed.

(** ** Maintained configurations *)

Section Maintained.
(** The base: the lines before the first block, what they parse to. *)
Variables (base : list str) (base_views : list view).
Hypothesis base_clean : Forall clean base.
Hypothesis base_tight : tight base.
Hypothesis base_unmarked :
  Forall (fun l => startswith start_prefix l = false /\ startswith start_prefix (strip l) = false) base.
Hypothesis base_parses : view_of (content base) = Ok base_views.

(** The blocks of a list of peers, each after some blank lines. *)
Definition lay (items : list (nat * peer)) : list str :=
  items ≫= (fun '(n, p) => replicate n [] ++ block_content p).
Definition maintained (peers : list peer) (text : str) : Prop :=
  exists items, map snd items = peers /\ text = text_of (base ++ lay items).

Lemma lay_app a b : lay (a ++ b) = lay a ++ lay b.
Proof. apply bind_app. Qed.
Lemma lay_cons n p items : lay ((n, p) :: items) = replicate n [] ++ block_content p ++ lay items.
Proof. unfold lay. cbn. by rewrite <- app_assoc. Qed.

Lemma lay_clean items : Forall good_peer (map snd items) -> Forall clean (lay items).
Proof.
  induction items as [|[n p] items IH]; cbn [map]; intros H; [constructor|].
  apply Forall_cons in H as [Hp H]. rewrite lay_cons. apply Forall_app. split; [|apply Forall_app; split].
  - apply Forall_replicate. constructor.
  - by apply block_clean.
  - by apply IH.
Qed.

Lemma lay_snoc_tight items : tight (base ++ lay items).
Proof using base_tight.
  destruct items as [|[n p] items _] using rev_ind; [by rewrite app_nil_r|].
  rewrite lay_app, lay_cons, app_nil_r. do 3 apply tight_app. apply block_tight.
Qed.

Lemma lines_clean items : Forall good_peer (map snd items) -> Forall clean (base ++ lay items).
Proof using base_clean. intros H. apply Forall_app. split; [done|by apply lay_clean]. Qed.

(** No marker of another key in the blocks. *)
Lemma lay_no_start k items : Forall good_peer (map snd items) -> k ∉ map p_id (map snd items) ->
  Forall (fun l => is_start k l = false) (lay items).
Proof.
  induction items as [|[n p] items IH]; cbn [map]; intros H Hk; [constructor|].
  apply Forall_cons in H as [Hp H]. apply not_elem_of_cons in Hk as [Hkp Hk]. cbn [snd] in *.
  rewrite lay_cons. apply Forall_app. split; [apply Forall_replicate, blank_no_marker|].
  apply Forall_app. split; [|by apply IH].
  rewrite block_content_split. constructor; [by rewrite is_start_line, bool_decide_eq_false_2|].
  apply Forall_app. split; [|constructor; [apply end_not_start|constructor]].
  apply (Forall_impl _ _ _ (body_no_marker k p Hp)). by intros ? [].
Qed.

Lemma base_no_start k : Forall (fun l => is_start k l = false) base.
Proof using base_unmarked.
  apply (Forall_impl _ _ _ base_unmarked). intros l [_ Hl]. apply not_true_iff_false.
  intros Hs%is_start_prefix. congruence.
Qed.

Lemma elem_split (peers : list peer) (items : list (nat * peer)) k : map snd items = peers ->
  k ∈ map p_id peers -> exists i1 n p i2, items = i1 ++ (n, p) :: i2 /\ p_id p = k /\ k ∉ map p_id (map snd i1).
Proof.
  revert peers. induction items as [|[n p] items IH]; intros peers <- Hk; [by apply elem_of_nil in Hk|].
  destruct (decide (p_id p = k)) as [E|E].
  - exists [], n, p, items. split; [done|]. split; [done|]. apply not_elem_of_nil.
  - cbn [map snd] in Hk. apply elem_of_cons in Hk as [->|Hk]; [done|].
    destruct (IH _ eq_refl Hk) as (i1 & m & q & i2 & -> & Hq & Hn). exists ((n, p) :: i1), m, q, i2.
    split; [done|]. split; [done|]. cbn [map snd]. apply not_elem_of_cons. auto.
Qed.

(** The block of a listed key, in its place. *)
Lemma block_found k items : Forall good_peer (map snd items) -> k ∈ map p_id (map snd items) ->
  exists i1 n p i2, items = i1 ++ (n, p) :: i2 /\ p_id p = k /\ k ∉ map p_id (map snd i1) /\ good_peer p
    /\ base ++ lay items = (base ++ lay i1 ++ replicate n []) ++ block_content p ++ lay i2
    /\ Forall (fun l => is_start k l = false) (base ++ lay i1 ++ replicate n []).
Proof using base_unmarked.
  intros Hg Hk. destruct (elem_split _ items k eq_refl Hk) as (i1 & n & p & i2 & -> & Hp & Hn).
  rewrite map_app in Hg. apply Forall_app in Hg as [Hg1 Hg2]. apply Forall_cons in Hg2 as [Hgp _].
  exists i1, n, p, i2. do 4 (split; [done|]). split.
  - rewrite lay_app, lay_cons. by rewrite <- !app_assoc.
  - apply Forall_app. split; [apply base_no_start|]. apply Forall_app.
    split; [by apply lay_no_start|]. apply Forall_replicate, blank_no_marker.
Qed.

(** ** The operations on the text *)

Lemma maintained_nil : maintained [] (text_of base).
Proof. exists []. by rewrite app_nil_r. Qed.

Lemma lay_snoc items n p : lay (items ++ [(n, p)]) = lay items ++ replicate n [] ++ block_content p.
Proof. by rewrite lay_app, lay_cons, app_nil_r. Qed.

Lemma block_text p : str_join [NEWLINE] (block_lines p) = text_of (block_content p).
Proof.
  rewrite block_lines_eq, join_snoc, app_nil_r; [done|]. apply tight_nonempty, block_tight.
Qed.

Lemma append_maintained peers text p : maintained peers text ->
  maintained (peers ++ [p]) (append_block text (str_join [NEWLINE] (block_lines p))).
Proof using base_tight.
  intros (items & <- & ->). exists (items ++ [(1%nat, p)]). rewrite map_app. split; [done|].
  pose proof (lay_snoc_tight items) as Ht. unfold append_block. rewrite rstrip_text, block_text by done.
  rewrite lay_snoc, (app_assoc base), text_of_app, <- (join_text (base ++ lay items)) by by apply tight_nonempty.
  rewrite text_of_app, <- !app_assoc. change (text_of (replicate 1 [])) with [NEWLINE].
  by rewrite (app_assoc [NEWLINE] [NEWLINE]).
Qed.

Lemma replicate_lay n i : exists items, map snd items = map snd i /\
  (replicate n [] ++ lay i = lay items \/ i = [] /\ items = []).
Proof.
  destruct i as [|[m q] i]; [exists []; auto|]. exists ((n + m, q)%nat :: i). split; [done|left].
  by rewrite !lay_cons, replicate_add, <- app_assoc.
Qed.

Lemma remove_hit k peers text : Forall good_peer peers -> NoDup (map p_id peers) ->
  k ∈ map p_id peers -> maintained peers text ->
  exists text', remove_managed_block text k = Ok text'
    /\ maintained (List.filter (fun p => negb (p_id p =? k)) peers) text'.
Proof using base_clean base_tight base_unmarked.
  intros Hg Hnd Hk (items & <- & ->).
  destruct (block_found k items Hg Hk) as (i1 & n & p & i2 & -> & <- & Hn & Hgp & Hl & Hs).
  unfold remove_managed_block. rewrite splitlines_text by by apply lines_clean.
  rewrite Hl, find_block_hit, take_skip_block by done. eexists. split; [reflexivity|].
  assert (List.filter (fun q => negb (p_id q =? p_id p)) (map snd (i1 ++ (n, p) :: i2)) = map snd (i1 ++ i2)) as ->.
  { rewrite !map_app in Hnd |- *. cbn [map snd] in Hnd |- *.
    apply NoDup_app in Hnd as (_ & _ & [Hp2 _]%NoDup_cons).
    rewrite List.filter_app. cbn [List.filter]. rewrite Z.eqb_refl. cbn [negb].
    rewrite !filter_all; [done|..]; intros q Hq; apply negb_true_iff, Z.eqb_neq; intros E.
    - apply Hp2. rewrite <- E. by apply list_elem_of_fmap_2.
    - apply Hn. rewrite <- E. by apply list_elem_of_fmap_2. }
  destruct i2 as [|[m q] i2].
  - rewrite app_nil_r. exists i1. split; [done|]. cbn [lay]. rewrite app_nil_r, app_assoc.
    apply join_trimmed_blanks, lay_snoc_tight.
  - exists (i1 ++ (n + m, q)%nat :: i2). split; [by rewrite !map_app|].
    rewrite <- (join_trimmed_blanks _ 0) by apply lay_snoc_tight. rewrite app_nil_r.
    rewrite lay_app, !lay_cons, replicate_add, <- !app_assoc. done.
Qed.

Lemma remove_miss k peers text : Forall good_peer peers -> k ∉ map p_id peers -> maintained peers text ->
  remove_managed_block text k = Ok text.
Proof using base_clean base_unmarked.
  intros Hg Hk (items & <- & ->). unfold remove_managed_block. rewrite splitlines_text by by apply lines_clean.
  rewrite find_block_miss; [done|]. apply Forall_app. split; [apply base_no_start|by apply lay_no_start].
Qed.

(** ** What a maintained configuration says *)

Lemma content_blanks n : content (replicate n []) = [].
Proof. induction n as [|n IH]; [done|]. cbn [replicate]. by rewrite content_cons_blank. Qed.

Lemma content_lay items : Forall good_peer (map snd items) ->
  content (lay items) = map snd items ≫= block_content.
Proof.
  induction items as [|[n p] items IH]; cbn [map]; intros H; [done|].
  apply Forall_cons in H as [Hp H]. rewrite lay_cons, !content_app, content_blanks, IH by done.
  cbn [app snd]. rewrite content_tidy by by apply block_tidy. done.
Qed.

Lemma view_blocks peers : forall lines views, Forall good_peer peers -> view_of lines = Ok views ->
  view_of (lines ++ (peers ≫= block_content)) = Ok (views ++ map peer_view peers).
Proof.
  induction peers as [|p peers IH]; intros lines views Hg Hv; [cbn; by rewrite !app_nil_r|].
  apply Forall_cons in Hg as [Hp Hg]. cbn [map]. change ((p :: peers) ≫= block_content)
    with (block_content p ++ (peers ≫= block_content)).
  rewrite app_assoc, (IH _ (views ++ [peer_view p])); [by rewrite <- app_assoc|done|].
  by apply view_of_app_block.
Qed.

Lemma maintained_view peers text : Forall good_peer peers -> maintained peers text ->
  rmap (map erase) (parse_sections text) = Ok (base_views ++ map peer_view peers).
Proof using base_clean base_parses.
  intros Hg (items & <- & ->).
  rewrite parse_sections_view, <- content_splitlines, splitlines_text by by apply lines_clean.
  rewrite content_app, content_lay by done. by apply view_blocks.
Qed.

Lemma existsb_app_f {A} (f : A -> bool) a b : existsb f (a ++ b) = existsb f a || existsb f b.
Proof. induction a as [|x a IH]; simpl; [done|]. by rewrite IH, orb_assoc. Qed.
Lemma existsb_none {A} (f : A -> bool) l : Forall (fun x => f x = false) l -> existsb f l = false.
Proof. induction 1 as [|x l Hx _ IH]; simpl; [done|]. by rewrite Hx. Qed.

Lemma maintained_exists peers text k : Forall good_peer peers -> maintained peers text ->
  managed_block_exists text k = bool_decide (k ∈ map p_id peers).
Proof using base_clean base_unmarked.
  intros Hg (items & <- & ->). unfold managed_block_exists. rewrite splitlines_text by by apply lines_clean.
  rewrite existsb_app_f, (existsb_none _ base).
  2: { apply (Forall_impl _ _ _ base_unmarked). intros l [Hl _]. apply not_true_iff_false.
       intros H%marker_start_prefix. congruence. }
  cbn [orb]. induction items as [|[n p] items IH]; [done|].
  cbn [map snd] in *. apply Forall_cons in Hg as [Hp Hg].
  rewrite lay_cons, block_content_split, !existsb_app_f, (existsb_none _ (replicate n [])) by by apply Forall_replicate.
  cbn [existsb app]. rewrite start_line_starts, existsb_app_f, IH by done.
  rewrite (existsb_none _ (block_body p)).
  2: { apply (Forall_impl _ _ _ (block_body_heads p)). intros l Hl. apply not_true_iff_false.
       intros H%marker_comment. congruence. }
  cbn [existsb orb]. rewrite end_marker_starts. cbn [orb]. rewrite orb_false_r.
  apply bool_decide_cons.
Qed.

Lemma maintained_key peers text p : Forall good_peer peers -> NoDup (map p_id peers) ->
  p ∈ peers -> maintained peers text -> find_managed_peer_public_key text (p_id p) = Some (p_key p).
Proof using base_clean base_unmarked.
  intros Hg Hnd Hp (items & <- & ->). assert (p_id p ∈ map p_id (map snd items)) as Hk by by apply list_elem_of_fmap_2.
  destruct (block_found (p_id p) items Hg Hk) as (i1 & n & q & i2 & -> & Hq & Hn & Hgq & Hl & Hs).
  assert (q = p) as ->.
  { rewrite !map_app in *. cbn [map snd] in *. apply NoDup_app in Hnd as (_ & _ & [Hp2 _]%NoDup_cons).
    apply elem_of_app in Hp as [Hp|Hp]; [by apply (list_elem_of_fmap_2 p_id) in Hp|].
    apply elem_of_cons in Hp as [->|Hp]; [done|].
    apply (list_elem_of_fmap_2 p_id) in Hp. rewrite <- Hq in Hp. done. }
  unfold find_managed_peer_public_key, managed_block_lines. rewrite splitlines_text by by apply lines_clean.
  rewrite Hl, find_block_hit, slice_block by done. by apply first_key_block.
Qed.

(** ** Sequences of operations *)

(** What an operation leaves in the file: its new text, or the old one when it
    changes nothing or raises. *)
Inductive config_cmd := CAdd (p : peer) | CRemove (key_id : Z) (public_key : option str).
Definition run_cmd (text : str) (c : config_cmd) : str :=
  match c with
  | CAdd p => match added_text text (p_id p) (p_owner p) (p_key p) (p_psk p) (p_ip p) (p_label p) with
              | Ok (Some text') => text'
              | _ => text
              end
  | CRemove key_id public_key =>
      match removed_text text key_id public_key with Ok text' => text' | Err _ => text end
  end.

(** A peer the configuration has already: a section with its key, or with an
    [AllowedIPs] that contains its address. *)
Definition clashes (p : peer) (v : view) : bool :=
  bool_decide (v.1 = py "Peer")
  && peer_matches (Some (p_key p)) (Some (p_ip p)) (AwgSection v.1 [] v.2).
(** The same operations on the list. *)
Definition spec_cmd (peers : list peer) (c : config_cmd) : list peer :=
  match c with
  | CAdd p => if bool_decide (p_id p ∈ map p_id peers)
                 || existsb (clashes p) (base_views ++ map peer_view peers)
              then peers else peers ++ [p]
  | CRemove key_id _ => List.filter (fun p => negb (p_id p =? key_id)) peers
  end.
(** The operations the list describes: an added peer has passed validation; a
    removed key is listed, or no public key is given to fall back on. *)
Definition described (peers : list peer) (c : config_cmd) : Prop :=
  match c with
  | CAdd p => valid_peer p
  | CRemove key_id public_key => key_id ∈ map p_id peers \/ given public_key = None
  end.

Lemma find_clash p sections :
  bool_decide (find_peer_in sections (Some (p_key p)) (Some (p_ip p)) = None)
  = negb (existsb (clashes p) (map erase sections)).
Proof.
  induction sections as [|s sections IH]; [done|]. cbn [find_peer_in map existsb].
  assert (clashes p (erase s) = is_peer s && peer_matches (Some (p_key p)) (Some (p_ip p)) s) as -> by done.
  by destruct (is_peer s && _).
Qed.

Lemma run_add peers text p : Forall good_peer peers -> maintained peers text -> valid_peer p ->
  maintained (spec_cmd peers (CAdd p)) (run_cmd text (CAdd p)).
Proof using base_clean base_parses base_tight base_unmarked.
  intros Hg Hm Hp. cbn [run_cmd spec_cmd]. unfold added_text.
  pose proof (maintained_view peers text Hg Hm) as Hv. apply rmap_ok in Hv as (sections & -> & Hv).
  cbn [result_bind]. rewrite (maintained_exists peers) by done.
  destruct (bool_decide (p_id p ∈ map p_id peers)); [done|]. cbn [orb].
  pose proof (find_clash p sections) as Hc. rewrite Hv in Hc.
  destruct (find_peer_in _ _ _) as [d|]; destruct (existsb _ _); try done.
  change (peer_block _ _ _ _ _ _) with (block p). rewrite block_ok by done. cbn [result_bind].
  by apply append_maintained.
Qed.

Lemma run_remove peers text k pk : Forall good_peer peers -> NoDup (map p_id peers) -> maintained peers text ->
  described peers (CRemove k pk) -> maintained (spec_cmd peers (CRemove k pk)) (run_cmd text (CRemove k pk)).
Proof using base_clean base_parses base_tight base_unmarked.
  intros Hg Hnd Hm Hd. cbn [run_cmd spec_cmd described] in *. unfold removed_text.
  destruct (decide (k ∈ map p_id peers)) as [Hk|Hk].
  - destruct (remove_hit k peers text Hg Hnd Hk Hm) as (text' & -> & Hm'). cbn [result_bind].
    assert (text' <> text) as Hne.
    { intros ->. assert (Forall good_peer (List.filter (fun p => negb (p_id p =? k)) peers)) as Hg'
        by by apply filter_Forall.
      pose proof (maintained_exists _ _ k Hg Hm) as E1. pose proof (maintained_exists _ _ k Hg' Hm') as E2.
      rewrite E1, bool_decide_eq_true_2 in E2 by done. symmetry in E2. bool_prop.
      apply list_elem_of_fmap in E2 as (q & -> & Hq%list_elem_of_In%filter_In). destruct Hq as [_ Hq].
      by rewrite Z.eqb_refl in Hq. }
    destruct (given pk); [|done]. by rewrite bool_decide_eq_false_2.
  - destruct Hd as [|Hd]; [done|]. rewrite (remove_miss k peers), Hd by done. cbn [result_bind].
    rewrite filter_all; [done|]. intros q Hq. apply negb_true_iff, Z.eqb_neq. intros <-. apply Hk.
    by apply list_elem_of_fmap_2.
Qed.

Definition good_list (peers : list peer) : Prop := Forall good_peer peers /\ NoDup (map p_id peers).

Lemma filter_NoDup_map f (peers : list peer) : NoDup (map p_id peers) -> NoDup (map p_id (List.filter f peers)).
Proof.
  induction peers as [|p peers IH]; cbn [map List.filter]; [done|]. intros [Hp Hn]%NoDup_cons.
  destruct (f p); [|by apply IH]. cbn [map]. apply NoDup_cons. split; [|by apply IH].
  intros (q & E & Hq%list_elem_of_In)%list_elem_of_fmap. apply filter_In in Hq as [Hq _].
  apply Hp. rewrite E. by apply list_elem_of_fmap_2, list_elem_of_In.
Qed.

Lemma spec_good peers c : good_list peers -> described peers c -> good_list (spec_cmd peers c).
Proof.
  intros [Hg Hn]. destruct c as [p|k pk]; cbn [spec_cmd described].
  - intros Hp%valid_good. destruct (bool_decide _) eqn:E; [done|]. bool_prop. cbn [orb].
    destruct (existsb _ _); [done|]. split; [apply Forall_app; auto|].
    rewrite map_app. apply NoDup_app. split; [done|]. split; [|apply NoDup_singleton].
    intros x Hx Hy. apply list_elem_of_singleton in Hy. by subst x.
  - intros _. split; [by apply filter_Forall|by apply filter_NoDup_map].
Qed.

Fixpoint all_described (peers : list peer) (cs : list config_cmd) : Prop :=
  match cs with
  | [] => True
  | c :: cs' => described peers c /\ all_described (spec_cmd peers c) cs'
  end.

Lemma run_cmds_maintained cs : forall peers text, good_list peers -> maintained peers text ->
  all_described peers cs ->
  good_list (fold_left spec_cmd cs peers) /\ maintained (fold_left spec_cmd cs peers) (fold_left run_cmd cs text).
Proof using base_clean base_parses base_tight base_unmarked.
  induction cs as [|c cs IH]; intros peers text Hgl Hm; [done|]. cbn [all_described fold_left].
  intros [Hc Hcs]. pose proof (spec_good peers c Hgl Hc) as Hgl'. destruct Hgl as [Hg Hn].
  apply IH; [done| |done]. destruct c as [p|k pk]; [by apply run_add|by apply run_remove].
Qed.

(** C29 the configuration file implements a list of peers. Start from any base
    text the bot has not marked and run any sequence of adds of validated peers and
    removals of listed keys, each as [add_peer] and [remove_peer] compute its text.
    At the end the file parses to the base's own sections, unchanged, followed by
    one section per peer of the list the same operations give (an add is refused
    when the key is listed, or when a section has its public key or an [AllowedIPs]
    that contains its address; a removal drops the key's entry and no other); the
    bot's block is there exactly for the listed keys, and the public key read back
    from each block is that peer's. *)
Theorem config_refines_peer_list cs peers :
  all_described [] cs -> peers = fold_left spec_cmd cs [] ->
  let text := fold_left run_cmd cs (text_of base) in
  rmap (map erase) (parse_sections text) = Ok (base_views ++ map peer_view peers)
  /\ NoDup (map p_id peers)
  /\ (forall k, managed_block_exists text k = bool_decide (k ∈ map p_id peers))
  /\ (forall p, p ∈ peers -> find_managed_peer_public_key text (p_id p) = Some (p_key p)).
Proof using base_clean base_parses base_tight base_unmarked.
  intros Hd -> text. destruct (run_cmds_maintained cs [] (text_of base)) as [[Hg Hn] Hm];
    [split; constructor|exact maintained_nil|exact Hd|].
  split; [by apply maintained_view|]. split; [exact Hn|]. split.
  - intros k. by apply maintained_exists.
  - intros p Hp. by eapply maintained_key.
Qed.
End Maintained.

(** ** Examples *)

Definition demo_base : list str := splitlines demo_text.
Definition demo_peer2 : peer := Peer 8 200 (py "BBB=") None (py "10.8.0.3") (Some (py "awg_zZ9yY")).
Definition demo_cmds : list config_cmd :=
  [CAdd demo_peer; CAdd demo_peer2; CAdd demo_peer; CRemove 7 (Some (py "AAA="))].

Lemma demo_base_ok :
  Forall clean demo_base /\ tight demo_base
  /\ Forall (fun l => startswith start_prefix l = false /\ startswith start_prefix (strip l) = false) demo_base.
Proof.
  split; [apply splitlines_clean|]. split.
  - exists (take 4 demo_base), (py "Jc = "), 52%N. by vm_compute.
  - assert (forallb (fun l => negb (startswith start_prefix l || startswith start_prefix (strip l))) demo_base = true)
      as H by (vm_compute; reflexivity).
    rewrite forallb_forall in H. apply Forall_elem. intros l Hl%list_elem_of_In%H. by bool_prop.
Qed.

Lemma config_refines_peer_list_witness :
  rmap (map erase) (parse_sections (fold_left run_cmd demo_cmds (text_of demo_base)))
  = Ok ([(py "Interface", [(py "Address", py "10.8.0.1/24"); (py "ListenPort", py "51820");
                           (py "PrivateKey", py "c2VydmVy"); (py "Jc", py "4")])]
        ++ [peer_view demo_peer2]).
Proof.
  destruct demo_base_ok as (H1 & H2 & H3).
  apply (config_refines_peer_list demo_base _ H1 H2 H3) with (cs := demo_cmds) (peers := [demo_peer2]).
  - vm_compute. reflexivity.
  - split; [|split; [|split; [|split; [|exact I]]]].
    + repeat split; [exists 168296450; vm_compute; reflexivity].
    + repeat split; [exists 168296451; vm_compute; reflexivity].
    + repeat split; [exists 168296450; vm_compute; reflexivity].
    + left. apply (bool_decide_unpack _). vm_compute. exact I.
  - vm_compute. reflexivity.
Defined.
