(* ===== verification/AwgMarkers.v ===== *)
(** * Reading the bot's markers back

    [_parse_peer_blocks] gives each peer of the configuration the key id and label
    of the marker line before it. The file determines what it reads from a
    configuration the bot maintains. *)

From S2P Require Import Prelude PyText Json TextLines AwgConfig AwgLayout AwgRefine.
#[local] Open Scope Z_scope.

(** ** The marker line *)

(** What the marker of a peer says. *)
Definition marker_of (p : peer) : dict :=
  (py "_managed_key_id", show_Z (p_id p))
  :: match given (p_label p) with Some l => [(py "_managed_label", l)] | None => [] end.

Lemma split_ws_aux_solid w : forall cur r, solid w -> split_ws_aux cur (w ++ r) = split_ws_aux (rev w ++ cur) r.
Proof.
  induction w as [|c w IH]; intros cur r Hw; [done|]. apply Forall_cons in Hw as [Hc Hw].
  cbn [app split_ws_aux rev]. rewrite Hc, IH, <- app_assoc by done. done.
Qed.
Lemma split_ws_word w r : solid w -> w <> [] -> split_ws (w ++ 32%N :: r) = w :: split_ws r.
Proof.
  intros Hw Hn. unfold split_ws. rewrite split_ws_aux_solid, app_nil_r by done. cbn [split_ws_aux].
  change (is_space 32) with true. cbn. pose proof (rev_nonempty w Hn) as Hr. pose proof (rev_involutive w) as E.
  destruct (rev w); [done|]. by rewrite E.
Qed.
Lemma split_ws_last w : solid w -> w <> [] -> split_ws w = [w].
Proof.
  intros Hw Hn. rewrite <- (app_nil_r w) at 1. unfold split_ws. rewrite split_ws_aux_solid, app_nil_r by done.
  cbn. pose proof (rev_nonempty w Hn) as Hr. pose proof (rev_involutive w) as E.
  destruct (rev w); [done|]. by rewrite E.
Qed.

Lemma marker_start_line p : good_peer p -> 0 <= p_id p < 2 ^ 64 ->
  managed_start_marker (start_line p) = marker_of p.
Proof.
  intros Hg Hid. destruct (show_Z_solid (p_id p)) as [Hz1 Hz2]. destruct (show_Z_solid (p_owner p)) as [Ho1 Ho2].
  unfold managed_start_marker, start_line, start_marker, marker_of. rewrite <- !app_assoc.
  rewrite startswith_refl, drop_app_length. cbn [negb app]. rewrite split_ws_word, int_of_show by done.
  assert (solid (py "owner=" ++ show_Z (p_owner p))) as How by (apply solid_app; [by repeat constructor|done]).
  pose proof (gp_label p Hg) as Hl. destruct (given (p_label p)) as [l|].
  - destruct (Hl l eq_refl) as [Hl1 Hl2].
    change (py " label=" ++ l) with (32%N :: (py "label=" ++ l)). rewrite app_assoc, split_ws_word by done.
    rewrite split_ws_last; [|apply solid_app; [by repeat constructor|done]|done].
    cbn [marker_labels]. change (startswith (py "label=") (py "owner=" ++ show_Z (p_owner p))) with false.
    rewrite startswith_refl. cbv iota. change (after_char EQUALS (py "label=" ++ l)) with l.
    rewrite strip_nonspace by done. destruct l; [done|]. reflexivity.
  - rewrite app_nil_r, split_ws_last by done. reflexivity.
Qed.

(** ** Bodies *)

Lemma body_lines_stop a h r : Forall (fun l => is_header (strip l) = false) a -> is_header (strip h) = true ->
  body_lines (a ++ h :: r) = (a, h :: r).
Proof.
  intros Ha Hh. induction Ha as [|l a Hl _ IH]; cbn [app body_lines]; [by rewrite Hh|]. by rewrite Hl, IH.
Qed.
Lemma body_lines_all a : Forall (fun l => is_header (strip l) = false) a -> body_lines a = (a, []).
Proof. induction 1 as [|l a Hl _ IH]; cbn [body_lines]; [done|]. by rewrite Hl, IH. Qed.

Lemma comment_no_header l : startswith (py "#") l = true -> is_header l = false.
Proof.
  destruct l as [|c l]; [done|]. change (startswith (py "#") (c :: l)) with ((35 =? c)%N && true).
  rewrite andb_true_r. intros H%N.eqb_eq. subst c. reflexivity.
Qed.
Lemma blank_no_header : is_header (strip []) = false.
Proof. reflexivity. Qed.

(** The body of a block after its [Peer] line. *)
Definition block_rest (p : peer) : list str := tail (block_body p) ++ [end_marker (p_id p)].
Lemma body_eq p : block_body p = py "[Peer]" :: tail (block_body p).
Proof. reflexivity. Qed.

Lemma rest_no_header p : good_peer p -> Forall (fun l => is_header (strip l) = false) (block_rest p).
Proof.
  intros Hg. pose proof (block_body_tidy p Hg) as Ht. unfold block_rest. apply Forall_app. split.
  - rewrite body_eq in Ht. apply Forall_cons in Ht as [_ Ht]. revert Ht. unfold block_body. cbn [tail].
    intros [[H1 _] Ht]%Forall_cons. constructor; [by rewrite H1|].
    destruct (given (p_psk p)) as [psk|]; cbn [app] in *.
    + apply Forall_cons in Ht as [[H2 _] [[H3 _] _]%Forall_cons].
      constructor; [by rewrite H2|]. constructor; [by rewrite H3|constructor].
    + apply Forall_cons in Ht as [[H3 _] _]. constructor; [by rewrite H3|constructor].
  - constructor; [|constructor]. rewrite end_marker_tidy. apply comment_no_header, end_marker_comment.
Qed.

Lemma start_line_tidy p : good_peer p -> strip (start_line p) = start_line p.
Proof.
  intros Hg. pose proof (block_tidy p Hg) as H. rewrite block_content_split in H. by apply Forall_cons in H as [[? _] _].
Qed.

Lemma view_comments ls st : Forall (fun l => startswith (py "#") l = true) ls -> view_lines st ls = Ok st.
Proof. induction 1 as [|l ls Hl _ IH]; [done|]. cbn [view_lines]. by rewrite view_comment. Qed.

(** A block's own lines with any comments after them. *)
Lemma parse_block_comments p extra : good_peer p -> Forall clean extra ->
  Forall (fun l => startswith (py "#") l = true) (content extra) ->
  exists sec, parse_block (py "[Peer]" :: block_rest p ++ extra) = Ok sec /\ sec_options sec = (peer_view p).2.
Proof.
  intros Hg Hc He. pose proof (block_clean p Hg) as Hbc. pose proof (block_tidy p Hg) as Hbt.
  pose proof (fun st => view_block st p Hg) as Hv. rewrite block_content_split in Hbc, Hbt, Hv.
  apply Forall_cons in Hbc as [_ Hbc]. apply Forall_cons in Hbt as [_ Hbt].
  assert (forall st, view_lines st (block_body p ++ [end_marker (p_id p)]) = Ok (peer_view p :: st)) as Hb.
  { intros st. rewrite <- (Hv st). cbn [view_lines]. by rewrite view_comment by apply start_line_comment. }
  assert (view_of (content (py "[Interface]" :: (block_body p ++ [end_marker (p_id p)]) ++ extra))
    = Ok [(py "Interface", []); peer_view p]) as Hview.
  { rewrite content_cons, content_app, content_tidy by (done || (vm_compute; discriminate)).
    unfold view_of. cbn [view_lines]. rewrite (view_header _ _ (py "Interface")) by reflexivity.
    cbn [result_bind]. rewrite view_lines_app, Hb. cbn [result_bind]. rewrite view_comments by done.
    reflexivity. }
  assert (Forall clean (py "[Interface]" :: (block_body p ++ [end_marker (p_id p)]) ++ extra)) as Hcl.
  { constructor; [by apply cleanb_clean|]. by apply Forall_app. }
  rewrite <- content_lines_join in Hview by done.
  rewrite <- parse_sections_view in Hview. apply rmap_ok in Hview as (secs & Hp & Hs).
  unfold parse_block, block_rest. rewrite body_eq in Hp. cbn [app] in Hp. rewrite Hp. cbn [result_bind].
  destruct secs as [|i [|sec [|]]]; try done. exists sec. split; [done|]. unfold erase in Hs. simpl in Hs.
  by injection Hs.
Qed.

(** ** The walk *)

Lemma lay_block n p items :
  lay ((n, p) :: items) = (replicate n [] ++ [start_line p]) ++ py "[Peer]" :: (block_rest p ++ lay items).
Proof.
  rewrite lay_cons, block_content_split, body_eq. unfold block_rest.
  rewrite <- !app_assoc. cbn [app]. rewrite <- ?app_assoc. reflexivity.
Qed.

#[local] Opaque start_line end_marker block_body block_content block_rest.

Definition marked_ids (peers : list peer) : Prop := Forall (fun p => 0 <= p_id p < 2 ^ 64) peers.

Lemma loop_peer_line fuel pending line rest : is_peer_line line = true ->
  parse_peer_loop (S fuel) pending (line :: rest)
  = let '(body, rest') := body_lines rest in
    result_bind (parse_block (line :: body)) (fun section =>
    result_bind (parse_peer_loop fuel [] rest') (fun peers =>
    Ok (dict_update (sec_options section) pending :: peers))).
Proof.
  unfold is_peer_line. intros H%bool_decide_eq_true. cbn [parse_peer_loop]. rewrite H. reflexivity.
Qed.
Lemma peer_line : is_peer_line (py "[Peer]") = true.
Proof. reflexivity. Qed.

(** From a [Peer] line of a block on: the block's peer gets the pending marker,
    every later one gets none. *)
Lemma loop_at_peer items : forall fuel p pending, Forall good_peer (p :: map snd items) ->
  (length (py "[Peer]" :: block_rest p ++ lay items) <= fuel)%nat ->
  parse_peer_loop fuel pending (py "[Peer]" :: block_rest p ++ lay items)
  = Ok (dict_update (peer_view p).2 pending :: map (fun q => (peer_view q).2) (map snd items)).
Proof.
  induction items as [|[n q] items IH]; intros fuel p pending Hg Hf;
    (destruct fuel as [|fuel]; [simpl in Hf; lia|]); cbn [map snd] in *;
    apply Forall_cons in Hg as [Hp Hg]; rewrite loop_peer_line by apply peer_line.
  - destruct (parse_block_comments p [] Hp) as (sec & Hb & Ho); [constructor|constructor|].
    rewrite app_nil_r in *. rewrite body_lines_all, Hb by by apply rest_no_header. cbn [result_bind]. rewrite Ho.
    by destruct fuel.
  - pose proof Hg as [Hq _]%Forall_cons.
    rewrite lay_block, app_assoc in *. rewrite body_lines_stop; [|apply Forall_app; split|done].
    2: by apply rest_no_header.
    2: { apply Forall_app. split; [apply Forall_replicate, blank_no_header|]. apply Forall_singleton.
         rewrite start_line_tidy by done. apply comment_no_header, start_line_comment. }
    destruct (parse_block_comments p (replicate n [] ++ [start_line q]) Hp) as (sec & Hb & Ho).
    + apply Forall_app. split; [apply Forall_replicate; constructor|]. apply Forall_singleton.
      pose proof (block_clean q Hq) as Hc. rewrite block_content_split in Hc. by apply Forall_cons in Hc as [? _].
    + rewrite content_app, content_blanks. cbn [app].
      rewrite content_tidy; [by apply Forall_singleton, start_line_comment|].
      apply Forall_singleton. split; [by apply start_line_tidy|].
      intros E. pose proof (start_line_comment q) as H. by rewrite E in H.
    + rewrite Hb. cbn [result_bind]. rewrite Ho, IH; [reflexivity|done|].
      cbn [length] in *. rewrite length_app in Hf. cbn [length] in Hf. lia.
Qed.

Lemma loop_skip fuel pending line rest : managed_start_marker (strip line) = [] -> is_peer_line line = false ->
  parse_peer_loop (S fuel) pending (line :: rest)
  = parse_peer_loop fuel (if negb (is_empty (strip line)) && negb (startswith (py "#") (strip line))
                          then [] else pending) rest.
Proof. intros H1 H2%bool_decide_eq_false. cbn [parse_peer_loop]. rewrite H1, bool_decide_eq_false_2; done. Qed.

Lemma loop_blanks n : forall fuel lines, (length (replicate n [] ++ lines) <= fuel)%nat ->
  exists fuel', (length lines <= fuel')%nat
    /\ parse_peer_loop fuel [] (replicate n [] ++ lines) = parse_peer_loop fuel' [] lines.
Proof.
  induction n as [|n IH]; intros fuel lines Hf; [by exists fuel|]. cbn [replicate app length] in *.
  destruct fuel as [|fuel]; [lia|]. destruct (IH fuel lines) as (f' & ? & E); [lia|].
  exists f'. split; [done|]. rewrite loop_skip by done. exact E.
Qed.

Lemma loop_marker fuel pending p rest : good_peer p -> 0 <= p_id p < 2 ^ 64 ->
  parse_peer_loop (S fuel) pending (start_line p :: rest) = parse_peer_loop fuel (marker_of p) rest.
Proof.
  intros Hg Hid. cbn [parse_peer_loop]. rewrite start_line_tidy, marker_start_line by done. reflexivity.
Qed.

Lemma loop_blocks n p items fuel : Forall good_peer (map snd ((n, p) :: items)) -> 0 <= p_id p < 2 ^ 64 ->
  (length (lay ((n, p) :: items)) <= fuel)%nat ->
  parse_peer_loop fuel [] (lay ((n, p) :: items))
  = Ok (dict_update (peer_view p).2 (marker_of p) :: map (fun q => (peer_view q).2) (map snd items)).
Proof.
  intros Hg Hid Hf. pose proof Hg as [Hp _]%Forall_cons. rewrite lay_block in *.
  rewrite <- app_assoc in *. cbn [app] in *.
  destruct (loop_blanks n fuel _ Hf) as (f1 & Hf1 & ->). destruct f1 as [|f1]; [simpl in Hf1; lia|].
  rewrite loop_marker by done. apply loop_at_peer; [done|]. cbn [length] in *. lia.
Qed.

Section Markers.
Variables (base : list str) (base_views : list view).
Hypothesis base_clean : Forall clean base.
Hypothesis base_tight : tight base.
Hypothesis base_unmarked :
  Forall (fun l => startswith start_prefix l = false /\ startswith start_prefix (strip l) = false) base.
(** The base has no peers of its own. *)
Hypothesis base_no_peer : Forall (fun l => is_peer_line l = false) base.

Lemma loop_base : forall lines rest fuel, Forall (fun l => startswith start_prefix (strip l) = false) lines ->
  Forall (fun l => is_peer_line l = false) lines -> (length (lines ++ rest) <= fuel)%nat ->
  exists fuel', (length rest <= fuel')%nat
    /\ parse_peer_loop fuel [] (lines ++ rest) = parse_peer_loop fuel' [] rest.
Proof.
  induction lines as [|l lines IH]; intros rest fuel Hs Hp Hf; [by exists fuel|].
  apply Forall_cons in Hs as [Hs1 Hs], Hp as [Hp1 Hp]. cbn [app length] in *.
  destruct fuel as [|fuel]; [lia|]. destruct (IH rest fuel Hs Hp) as (f' & ? & E); [lia|].
  exists f'. split; [done|]. rewrite loop_skip; [|by unfold managed_start_marker; rewrite Hs1|done].
  by destruct (_ && _).
Qed.

(** what [list_config_peers] reads back from a configuration the bot
    maintains. It lists every peer with the options of its block, but the key id
    and the label of the marker line reach the first peer only: the walk over a
    peer's section runs to the next section header, over the marker line of the
    block that follows, so no other peer is ever marked as the bot's own. *)
Theorem only_first_marker_is_read peers text :
  Forall good_peer peers -> marked_ids peers -> maintained base peers text ->
  parse_peer_blocks text
  = Ok match peers with
       | [] => []
       | p :: rest => dict_update (peer_view p).2 (marker_of p) :: map (fun q => (peer_view q).2) rest
       end.
Proof using base_clean base_unmarked base_no_peer.
  intros Hg Hid (items & <- & ->). unfold parse_peer_blocks. rewrite splitlines_text by by apply lines_clean.
  destruct (loop_base base (lay items) (length (base ++ lay items))) as (fuel & Hf & ->); [|done..|].
  { apply (Forall_impl _ _ _ base_unmarked). by intros ? []. }
  destruct items as [|[n p] items]; [by destruct fuel|].
  apply loop_blocks; [done| |done]. by apply Forall_cons in Hid as [? _].
Qed.
End Markers.

Lemma demo_base_no_peer : Forall (fun l => is_peer_line l = false) demo_base.
Proof.
  assert (forallb (fun l => negb (is_peer_line l)) demo_base = true) as H by (vm_compute; reflexivity).
  rewrite forallb_forall in H. apply Forall_elem. intros l Hl%list_elem_of_In%H. by apply negb_true_iff.
Qed.

Lemma only_first_marker_is_read_witness :
  parse_peer_blocks (text_of (demo_base ++ lay [(1%nat, demo_peer); (1%nat, demo_peer2)]))
  = Ok [(peer_view demo_peer).2 ++ [(py "_managed_key_id", py "7"); (py "_managed_label", py "awg_aB3dE")];
        [(py "PublicKey", py "BBB="); (py "AllowedIPs", py "10.8.0.3/32")]].
Proof.
  destruct demo_base_ok as (H1 & H2 & H3).
  rewrite (only_first_marker_is_read demo_base H1 H3 demo_base_no_peer [demo_peer; demo_peer2]).
  - vm_compute. reflexivity.
  - constructor; [|constructor; [|constructor]]; apply valid_good; repeat split; eexists; vm_compute; reflexivity.
  - by repeat constructor.
  - by exists [(1%nat, demo_peer); (1%nat, demo_peer2)].
Defined.
