(* ===== verification/AwgPeers.v ===== *)
(** * Adding and removing peers of the running interface

    The stateful half of [adapters/awg_config.py]: the configuration file and the
    interface's runtime change together, or the change is taken back. The awg and
    wg tools, the privileged helper, the disk's failures and whatever else touches
    the file meanwhile are one environment the definitions consult; the runtime is
    a type of the environment's own. Errors carry the cause, not the redacted text
    of the tool's output, and removing a temporary file is taken not to raise. *)

From S2P Require Import Prelude PyText Json TextLines AwgConfig.
#[local] Open Scope Z_scope.

(** ** [adapters/shell_runner.py] *)

(** What a command has done: its exit code and its output before the runner cuts
    it. The tools' output is ASCII, one byte per character. *)
Record tool_result := ToolResult { returncode : Z; stdout : str; stderr : str }.
Definition shell_ok (r : tool_result) : bool := returncode r =? 0.

(** [_read_stream_limited] keeps [limit] bytes, [_compact_text] trims and marks the cut. *)
Definition compact (limit : Z) (raw : str) : str :=
  let text := strip (take (Z.to_nat limit) raw) in
  if (Z.of_nat (length raw) <=? limit) && (Z.of_nat (length text) <=? limit) then text
  else take (Z.to_nat limit) text ++ py "...[truncated]".
Definition runner_limit : Z := 4096.
Definition MACHINE_OUTPUT_LIMIT : Z := 1048576.
Definition runner_result (limit : Z) (r : tool_result) : tool_result :=
  ToolResult (returncode r) (compact limit (stdout r)) (compact limit (stderr r)).

(** [_is_command_missing] *)
Definition is_command_missing (r : tool_result) : bool :=
  (returncode r =? 127) && bool_decide (stderr r = py "command not found").

(** ** The environment *)

Inductive binary := Awg | Wg | AwgQuick | WgQuick | Helper.
Inductive tool_call :=
  | CShow | CTransfer
  | CSetPeer (public_key : str) (preshared_key : option str) (client_ip : str)
  | CUnsetPeer (public_key : str)
  | CStrip (text : str) | CSyncConf (text : str)
  | CStatus | CApply (text : str) | CShowPeers
  | CGenKey | CPubKey (private_key : str) | CGenPsk.

(** What lies outside the process: the file, its modification stamp, the runtime. *)
Record outside (R : Type) := Outside { o_config : option str; o_stamp : Z; o_runtime : R }.
Arguments Outside {R}. Arguments o_config {R}. Arguments o_stamp {R}. Arguments o_runtime {R}.

Record awg_env (R : Type) := AwgEnv {
  tool : nat -> binary -> tool_call -> outside R -> tool_result * outside R;
  disk_ok : nat -> bool;
  others : nat -> outside R -> outside R;
  digest : str -> str }.
Arguments tool {R}. Arguments disk_ok {R}. Arguments others {R}. Arguments digest {R}.

Record awg_settings := AwgSettings { interface : str; using_helper : bool }.

(** The adapter at work: the world outside, how often it has been consulted, the
    backup file of the running operation and its two local flags. *)
Record awg_world (R : Type) := AwgWorld {
  w_out : outside R; w_tick : nat; w_backup : str; w_wrote : bool; w_runtime : bool }.
Arguments AwgWorld {R}. Arguments w_out {R}. Arguments w_tick {R}. Arguments w_backup {R}.
Arguments w_wrote {R}. Arguments w_runtime {R}.

(** [AwgConfigAdapter.__init__] *)
Definition init_adapter (is_symlink : bool) (interface : str) (using_helper : bool)
    : result awg_error awg_settings :=
  if is_symlink then Err InvalidInterface
  else result_bind (reject_option_like interface (py "AWG interface")) (fun _ =>
       Ok (AwgSettings interface using_helper)).

(** The names of the rollback's steps. *)
Definition restore_step : str := py "restore config".
Definition cleanup_step : str := py "runtime cleanup".
Definition sync_step : str := py "runtime sync".

Section Adapter.
Context {R : Type} (env : awg_env R) (cfg : awg_settings).
Abbreviation AM := (M (awg_world R) awg_error) (only parsing).

(** ** Primitives: each is one point at which others may act *)

Definition step : AM nat := fun w =>
  (Ok (w_tick w),
   AwgWorld (others env (w_tick w) (w_out w)) (S (w_tick w)) (w_backup w) (w_wrote w) (w_runtime w)).
Definition set_out (o : outside R) : AM unit := modify (fun w =>
  AwgWorld o (w_tick w) (w_backup w) (w_wrote w) (w_runtime w)).
Definition set_backup (text : str) : AM unit := modify (fun w =>
  AwgWorld (w_out w) (w_tick w) text (w_wrote w) (w_runtime w)).
Definition set_flags (wrote runtime : bool) : AM unit := modify (fun w =>
  AwgWorld (w_out w) (w_tick w) (w_backup w) wrote runtime).

(** A file operation that may fail. *)
Definition disk : AM unit :=
  let! t := step in if disk_ok env t then ret tt else raise OsFailure.
Definition shell_run (b : binary) (c : tool_call) (limit : Z) : AM tool_result :=
  let! t := step in
  let! w := get in
  let '(r, o) := tool env t b c (w_out w) in
  set_out o ;;! ret (runner_result limit r).

Definition config_text : AM str :=
  let! w := get in
  match o_config (w_out w) with Some text => ret text | None => raise ConfigMissing end.
Definition read_text : AM str := disk ;;! config_text.
Definition write_config (text : str) : AM unit :=
  disk ;;!
  let! w := get in
  set_out (Outside (Some text) (o_stamp (w_out w) + 1) (o_runtime (w_out w))).

Definition snapshot : Type := Z * Z * str.
Definition take_snapshot (w : awg_world R) (text : str) : snapshot :=
  (o_stamp (w_out w), Z.of_nat (length (utf8_encode text)), digest env text).
Definition snapshot_config : AM snapshot :=
  disk ;;!
  let! text := config_text in
  let! w := get in ret (take_snapshot w text).
Definition assert_config_unchanged (s : snapshot) : AM unit :=
  let! now := snapshot_config in
  if bool_decide (now = s) then ret tt else raise ConfigChanged.

(** [BackupAdapter.create_backup] and [restore]. *)
Definition create_backup : AM unit :=
  disk ;;! let! text := config_text in set_backup text.
Definition restore_backup : AM unit :=
  let! w := get in write_config (w_backup w).

(** ** The tools *)

Definition run_awg_or_wg (c : tool_call) : AM tool_result :=
  let! r := shell_run Awg c runner_limit in
  if is_command_missing r then shell_run Wg c runner_limit else ret r.
Definition quick_strip (text : str) : AM tool_result :=
  let! r := shell_run AwgQuick (CStrip text) runner_limit in
  if is_command_missing r then
    let! r2 := shell_run WgQuick (CStrip text) runner_limit in
    if is_command_missing r2 then raise NoQuickTool else ret r2
  else ret r.

Definition iface_char (c : N) : bool :=
  is_digit c || is_lower c || ((65 <=? c) && (c <=? 90))%N || has_char c (py "_=+.-").
(** [^[a-zA-Z0-9_=+.-]{1,15}$]; [$] also matches before a final line feed. *)
Definition validation_stem_ok (name : str) : bool :=
  let body := match rev name with 10%N :: r => rev r | _ => name end in
  (1 <=? length body)%nat && (length body <=? 15)%nat && forallb iface_char body.

Definition ensure_interface_active : AM unit :=
  let! r := (if using_helper cfg then shell_run Helper CStatus 2048 else run_awg_or_wg CShow) in
  if shell_ok r then ret tt else raise (ApplyError (py "interface inactive")).
Definition show_report : AM tool_result :=
  if using_helper cfg then shell_run Helper CShowPeers MACHINE_OUTPUT_LIMIT else run_awg_or_wg CShow.
Definition verify_runtime_peer (public_key : str) : AM bool :=
  let! r := show_report in
  ret (shell_ok r && verify_output (stdout r) public_key).
Definition list_runtime_peers : AM (list dict) :=
  let! r := show_report in
  if shell_ok r then ret (parse_runtime_peers (stdout r)) else raise (ApplyError (py "no runtime peers")).
Definition list_transfer : AM (list (str * (Z * Z))) :=
  if using_helper cfg then
    let! r := shell_run Helper CTransfer MACHINE_OUTPUT_LIMIT in
    if shell_ok r then ret (parse_transfer_output (stdout r)) else raise (ApplyError (py "no transfer"))
  else
    let! r := shell_run Awg CTransfer MACHINE_OUTPUT_LIMIT in
    let! r := (if shell_ok r then ret r else shell_run Wg CTransfer MACHINE_OUTPUT_LIMIT) in
    if shell_ok r then ret (parse_transfer_output (stdout r)) else raise (ApplyError (py "no transfer")).

(** The first line of what a key tool prints. *)
Definition first_line_of (r : tool_result) : str := strip (hd [] (splitlines (stdout r))).
Definition first_output_line (c : tool_call) (what : str) : AM str :=
  let! r := run_awg_or_wg c in
  if negb (shell_ok r) || is_empty (stdout r) then raise (ApplyError what)
  else ret (first_line_of r).
Definition generate_private_key : AM str := first_output_line CGenKey (py "no private key").
Definition generate_public_key (private_key : str) : AM str :=
  first_output_line (CPubKey private_key) (py "no public key").
Definition generate_preshared_key : AM str := first_output_line CGenPsk (py "no preshared key").

(** The preshared key goes through a private file next to the configuration. *)
Definition add_peer_runtime (public_key : str) (preshared_key : option str) (client_ip : str) : AM bool :=
  (match given preshared_key with Some _ => disk | None => ret tt end) ;;!
  let! r := run_awg_or_wg (CSetPeer public_key (given preshared_key) client_ip) in
  ret (shell_ok r).
Definition remove_peer_runtime (public_key : str) : AM bool :=
  let! r := run_awg_or_wg (CUnsetPeer public_key) in ret (shell_ok r).

Definition validate_candidate_config (text : str) : AM unit :=
  let! _ := lift (parse_sections text) in
  disk ;;!
  (if validation_stem_ok (interface cfg) then ret tt else raise InvalidInterface) ;;!
  disk ;;!
  let! r := quick_strip text in
  if shell_ok r then ret tt else raise StripRefused.

(** [_sync_runtime_from_config]; every [AwgConfigError] inside becomes one message. *)
Definition sync_runtime : AM unit :=
  catch
    (let! text := config_text in
     let! stripped := quick_strip text in
     (if shell_ok stripped then ret tt else raise (ApplyError (py "strip"))) ;;!
     disk ;;!
     let! r := run_awg_or_wg (CSyncConf (stdout stripped)) in
     if shell_ok r then ret tt else raise (ApplyError (py "syncconf")))
    (fun e => match e with
              | OsFailure => raise OsFailure
              | _ => raise (ApplyError (py "restored config"))
              end).

Definition apply_via_helper (text : str) : AM unit :=
  let! _ := lift (parse_sections text) in
  disk ;;!
  let! r := shell_run Helper (CApply text) 2048 in
  if shell_ok r then ret tt else raise (ApplyError (py "helper apply")).

(** ** Adding a peer *)

(** [_raise_with_rollback_summary] *)
Definition raise_with_rollback_summary (primary : awg_error) (rollback_errors : list str) : AM unit :=
  match rollback_errors with
  | [] => raise primary
  | _ => raise (RollbackFailed primary rollback_errors)
  end.
(** [try: m except Exception: errors.append(name)] *)
Definition or_note {A} (m : AM A) (name : str) (errors : list str) : AM (list str) :=
  let! r := attempt m in
  ret (match r with Ok _ => errors | Err _ => errors ++ [name] end).

Definition rollback_add_peer (public_key : str) : AM (list str) :=
  let! w := get in
  let! errors := (if w_wrote w then or_note (restore_backup) restore_step [] else ret []) in
  if w_runtime w then or_note (remove_peer_runtime public_key) cleanup_step errors
  else ret errors.

Definition mark_wrote : AM unit := let! w := get in set_flags true (w_runtime w).
Definition mark_runtime : AM unit := let! w := get in set_flags (w_wrote w) true.
Definition require (b : bool) (e : awg_error) : AM unit := if b then ret tt else raise e.

(** The body of [add_peer]'s [try]. *)
Definition add_peer_body (s : snapshot) (p_id p_owner : Z) (public_key : str) (preshared_key : option str)
    (client_ip : str) (label : option str) : AM unit :=
  let! original := read_text in
  assert_config_unchanged s ;;!
  let! updated := lift (added_text original p_id p_owner public_key preshared_key client_ip label) in
  match updated with
  | None =>
      let! present := verify_runtime_peer public_key in
      if present : bool then ret tt
      else
        mark_runtime ;;!
        let! applied := add_peer_runtime public_key preshared_key client_ip in
        require applied (ApplyError (py "in config, not applied"))
  | Some text =>
      validate_candidate_config text ;;!
      assert_config_unchanged s ;;!
      write_config text ;;!
      mark_wrote ;;!
      mark_runtime ;;!
      let! applied := add_peer_runtime public_key preshared_key client_ip in
      require applied (ApplyError (py "not applied")) ;;!
      let! present := verify_runtime_peer public_key in
      require present (ApplyError (py "applied, not found"))
  end.

Definition add_peer_direct (p_id p_owner : Z) (public_key : str) (preshared_key : option str)
    (client_ip : str) (label : option str) : AM unit :=
  disk ;;!
  ensure_interface_active ;;!
  let! s := snapshot_config in
  create_backup ;;!
  set_flags false false ;;!
  catch (add_peer_body s p_id p_owner public_key preshared_key client_ip label)
    (fun exc => let! errors := rollback_add_peer public_key in raise_with_rollback_summary exc errors).

Definition add_peer_via_helper (p_id p_owner : Z) (public_key : str) (preshared_key : option str)
    (client_ip : str) (label : option str) : AM unit :=
  disk ;;!
  let! s := snapshot_config in
  let! original := read_text in
  assert_config_unchanged s ;;!
  let! updated := lift (added_text original p_id p_owner public_key preshared_key client_ip label) in
  match updated with
  | None => apply_via_helper original
  | Some text =>
      let! _ := lift (parse_sections text) in
      assert_config_unchanged s ;;!
      apply_via_helper text
  end.

Definition validate_peer (public_key : str) (preshared_key : option str) (client_ip : str)
    : result awg_error unit :=
  result_bind (validate_wireguard_key public_key (py "AWG public_key")) (fun _ =>
  result_bind (match preshared_key with
               | Some psk => validate_wireguard_key psk (py "AWG preshared_key")
               | None => Ok tt
               end) (fun _ =>
  validate_ip client_ip (py "AWG client_ip"))).
Definition add_peer (p_id p_owner : Z) (public_key : str) (preshared_key : option str)
    (client_ip : str) (label : option str) : AM unit :=
  let! _ := lift (validate_peer public_key preshared_key client_ip) in
  if using_helper cfg then add_peer_via_helper p_id p_owner public_key preshared_key client_ip label
  else add_peer_direct p_id p_owner public_key preshared_key client_ip label.

(** ** Removing a peer *)

Definition rollback_remove_peer : AM (list str) :=
  let! w := get in
  let! errors := (if w_wrote w then or_note (restore_backup) restore_step [] else ret []) in
  if w_runtime w then or_note (sync_runtime) sync_step errors else ret errors.

(** The steps on a public key; [None] and the empty key skip them. *)
Definition remove_from_runtime (public_key : option str) : AM unit :=
  (match given public_key with
   | Some pk =>
       let! removed := remove_peer_runtime pk in
       require removed (ApplyError (py "not removed"))
   | None => ret tt
   end) ;;!
  (let! w := get in
   set_flags (w_wrote w) (match public_key with Some _ => true | None => false end)) ;;!
  match given public_key with
  | None => ret tt
  | Some pk =>
      let! present := verify_runtime_peer pk in
      require (negb present) (ApplyError (py "removed, still in runtime")) ;;!
      let! text := read_text in
      let! found := lift (find_peer text (Some pk) None) in
      match found with
      | None => ret tt
      | Some _ => raise (ApplyError (py "removed, still in config"))
      end
  end.

Definition remove_peer_body (s : snapshot) (key_id : Z) (public_key : option str) : AM unit :=
  let! original := read_text in
  assert_config_unchanged s ;;!
  let! updated := lift (removed_text original key_id public_key) in
  (if bool_decide (updated = original) then ret tt
   else
     validate_candidate_config updated ;;!
     assert_config_unchanged s ;;!
     write_config updated ;;!
     mark_wrote) ;;!
  remove_from_runtime public_key.

Definition remove_peer_direct (key_id : Z) (public_key : option str) : AM unit :=
  disk ;;!
  ensure_interface_active ;;!
  let! s := snapshot_config in
  create_backup ;;!
  set_flags false false ;;!
  catch (remove_peer_body s key_id public_key)
    (fun exc => let! errors := rollback_remove_peer in raise_with_rollback_summary exc errors).

Definition remove_peer_via_helper (key_id : Z) (public_key : option str) : AM unit :=
  disk ;;!
  let! s := snapshot_config in
  let! original := read_text in
  assert_config_unchanged s ;;!
  let! updated := lift (removed_text original key_id public_key) in
  if bool_decide (updated = original) && bool_decide (public_key = None) then ret tt
  else
    let! _ := lift (parse_sections updated) in
    assert_config_unchanged s ;;!
    apply_via_helper updated ;;!
    match given public_key with
    | None => ret tt
    | Some pk =>
        let! present := verify_runtime_peer pk in
        require (negb present) (ApplyError (py "removed, still in runtime"))
    end.

Definition remove_peer (key_id : Z) (public_key : option str) : AM unit :=
  let! _ := lift (match public_key with
                  | Some pk => validate_wireguard_key pk (py "AWG public_key")
                  | None => Ok tt
                  end) in
  if using_helper cfg then remove_peer_via_helper key_id public_key
  else remove_peer_direct key_id public_key.

(** ** The runtime alone *)

Definition sync_runtime_from_config : AM unit :=
  disk ;;!
  if using_helper cfg then let! text := read_text in apply_via_helper text
  else
    ensure_interface_active ;;!
    let! text := read_text in
    validate_candidate_config text ;;!
    sync_runtime.

Definition remove_runtime_peer (public_key : str) : AM unit :=
  let! _ := lift (validate_wireguard_key public_key (py "AWG public_key")) in
  disk ;;!
  (if using_helper cfg then let! text := read_text in apply_via_helper text
   else
     ensure_interface_active ;;!
     let! removed := remove_peer_runtime public_key in
     require removed (ApplyError (py "not removed"))) ;;!
  let! present := verify_runtime_peer public_key in
  require (negb present) (ApplyError (py "removed, still in runtime")).
End Adapter.
