(* ===== verification/AwgAtomic.v ===== *)
(** * A peer operation is done or undone

    What [add_peer] and [remove_peer] leave in the configuration file in the direct
    mode, whatever the tools answer and whichever file operation fails. *)

From S2P Require Import Prelude PyText Json TextLines AwgConfig AwgLayout AwgPeers.
#[local] Open Scope Z_scope.

#[local] Opaque py.

Section Atomic.
Context {R : Type} (env : awg_env R) (cfg : awg_settings).
(** Nobody else writes the file meanwhile, and the tools of the direct mode only
    act on the interface. *)
Hypothesis quiet : forall t o, others env t o = o.
Hypothesis tools_leave_file : forall t b c o, o_config (tool env t b c o).2 = o_config o.

Abbreviation file w := (o_config (w_out w)) (only parsing).

(** The file, the backup and the flag are as they were; time has passed. *)
Definition same_file (w w' : awg_world R) : Prop :=
  file w' = file w /\ w_backup w' = w_backup w /\ w_wrote w' = w_wrote w /\ (w_tick w <= w_tick w')%nat.
#[export] Instance same_file_pre : PreOrder same_file.
Proof.
  split; [by intros w|]. intros a b c (? & ? & ? & ?) (? & ? & ? & ?). unfold same_file. repeat split; try congruence. lia.
Qed.

Lemma keeps_step : keeps same_file (step env).
Proof using quiet. intros w. unfold step, same_file. cbn. rewrite quiet. auto with lia. Qed.
#[local] Hint Resolve keeps_step : keeps.
Lemma keeps_get_world : keeps same_file (get (S := awg_world R) (E := awg_error)).
Proof. intros w. reflexivity. Qed.
#[local] Hint Resolve keeps_get_world : keeps.
Lemma keeps_awg_disk : keeps same_file (disk env).
Proof using quiet. unfold disk. keeps_tac. Qed.
#[local] Hint Resolve keeps_awg_disk : keeps.
Lemma keeps_shell b c limit : keeps same_file (shell_run env b c limit).
Proof using quiet tools_leave_file.
  intros w. unfold shell_run, step, bind, get, set_out, modify, ret. cbn. rewrite quiet.
  pose proof (tools_leave_file (w_tick w) b c (w_out w)) as H.
  destruct (tool env (w_tick w) b c (w_out w)) as [r o]. cbn in *. unfold same_file. cbn. auto with lia.
Qed.
#[local] Hint Resolve keeps_shell : keeps.
Lemma keeps_config_text : keeps same_file (config_text (R := R)).
Proof. unfold config_text. keeps_tac. Qed.
#[local] Hint Resolve keeps_config_text : keeps.
Lemma keeps_read_text : keeps same_file (read_text env).
Proof using quiet. unfold read_text. keeps_tac. Qed.
Lemma keeps_snapshot : keeps same_file (snapshot_config env).
Proof using quiet. unfold snapshot_config. keeps_tac. Qed.
#[local] Hint Resolve keeps_read_text keeps_snapshot : keeps.
Lemma keeps_assert s : keeps same_file (assert_config_unchanged env s).
Proof using quiet. unfold assert_config_unchanged. keeps_tac. Qed.
Lemma keeps_awg c : keeps same_file (run_awg_or_wg env c).
Proof using quiet tools_leave_file. unfold run_awg_or_wg. keeps_tac. Qed.
Lemma keeps_quick text : keeps same_file (quick_strip env text).
Proof using quiet tools_leave_file. unfold quick_strip. keeps_tac. Qed.
#[local] Hint Resolve keeps_assert keeps_awg keeps_quick : keeps.
Lemma keeps_active : keeps same_file (ensure_interface_active env cfg).
Proof using quiet tools_leave_file. unfold ensure_interface_active. keeps_tac. Qed.
Lemma keeps_verify pk : keeps same_file (verify_runtime_peer env cfg pk).
Proof using quiet tools_leave_file. unfold verify_runtime_peer, show_report. keeps_tac. Qed.
Lemma keeps_add_runtime pk psk ip : keeps same_file (add_peer_runtime env pk psk ip).
Proof using quiet tools_leave_file. unfold add_peer_runtime. keeps_tac. Qed.
Lemma keeps_remove_runtime pk : keeps same_file (remove_peer_runtime env pk).
Proof using quiet tools_leave_file. unfold remove_peer_runtime. keeps_tac. Qed.
Lemma keeps_validate text : keeps same_file (validate_candidate_config env cfg text).
Proof using quiet tools_leave_file. unfold validate_candidate_config. keeps_tac. Qed.
Lemma keeps_sync : keeps same_file (sync_runtime env).
Proof using quiet tools_leave_file. unfold sync_runtime. keeps_tac. Qed.
Lemma keeps_require b e : keeps same_file (require (R := R) b e).
Proof. unfold require. keeps_tac. Qed.
#[local] Hint Resolve keeps_active keeps_verify keeps_add_runtime keeps_remove_runtime keeps_validate
  keeps_sync keeps_require : keeps.
Lemma keeps_mark_runtime : keeps same_file (mark_runtime (R := R)).
Proof. intros w. unfold same_file. cbn. auto. Qed.
Lemma keeps_or_note {A} (m : M (awg_world R) awg_error A) name errors :
  keeps same_file m -> keeps same_file (or_note m name errors).
Proof. intros Hm. unfold or_note. keeps_tac. Qed.
#[local] Hint Resolve keeps_mark_runtime : keeps.

(** A report taken between two moments, as the adapter sees it, lists the peer. *)
Definition reported (pk : str) (w w' : awg_world R) : Prop :=
  exists t b o, (w_tick w <= t < w_tick w')%nat
    /\ let r := runner_result runner_limit (tool env t b CShow o).1 in
       shell_ok r = true /\ verify_output (stdout r) pk = true.

Lemma shell_run_inv b c limit w r w' : shell_run env b c limit w = (Ok r, w') ->
  exists o, r = runner_result limit (tool env (w_tick w) b c o).1 /\ w_tick w' = S (w_tick w).
Proof using quiet.
  unfold shell_run, step, bind, get, set_out, modify, ret. cbn. rewrite quiet. intros H.
  exists (w_out w). destruct (tool env (w_tick w) b c (w_out w)) as [r0 o]. by injection H as <- <-.
Qed.

Lemma verify_reported pk w w' : using_helper cfg = false ->
  verify_runtime_peer env cfg pk w = (Ok true, w') -> reported pk w w'.
Proof using quiet tools_leave_file.
  unfold verify_runtime_peer, show_report, run_awg_or_wg. intros -> H.
  apply bind_inv in H as [(r & w1 & H1 & H2)|(? & _ & [=])].
  injection H2 as H2 ->. apply andb_true_iff in H2 as [Hok Hv].
  apply bind_inv in H1 as [(r1 & w2 & H1 & H2)|(? & _ & [=])].
  pose proof (shell_run_inv _ _ _ _ _ _ H1) as (o & E1 & Ht).
  destruct (is_command_missing r1).
  - apply shell_run_inv in H2 as (o2 & -> & Ht2). exists (w_tick w2), Wg, o2. split; [lia|done].
  - injection H2 as <- <-. exists (w_tick w), Awg, o. subst r1. split; [lia|done].
Qed.

(** ** Writing and restoring *)

Lemma write_config_spec text w : exists w', 
  (write_config env text w = (Ok tt, w') /\ file w' = Some text \/
   write_config env text w = (Err OsFailure, w') /\ file w' = file w)
  /\ w_backup w' = w_backup w /\ w_wrote w' = w_wrote w /\ (w_tick w <= w_tick w')%nat.
Proof using quiet.
  unfold write_config, disk, step, bind, get, set_out, modify. cbn. destruct (disk_ok env (w_tick w)); cbn.
  - eexists. split; [left; split; reflexivity|]. cbn. auto with lia.
  - eexists. split; [right; split; [reflexivity|cbn; by rewrite quiet]|]. cbn. auto with lia.
Qed.

Lemma rollback_restores {A} (m : M (awg_world R) awg_error A) name w original :
  keeps same_file m -> w_backup w = original -> (w_wrote w = false -> file w = Some original) ->
  exists errors w',
    (let! w0 := get in
     let! errors := (if w_wrote w0 then or_note (restore_backup env) restore_step [] else ret []) in
     if w_runtime w0 then or_note m name errors else ret errors) w = (Ok errors, w')
    /\ (file w' = Some original \/ restore_step ∈ errors).
Proof using quiet.
  intros Hm Hb Hf. unfold bind at 1. cbn [get].
  assert (exists errors w1,
    (if w_wrote w then or_note (restore_backup env) restore_step [] else ret []) w = (Ok errors, w1)
    /\ (file w1 = Some original \/ restore_step ∈ errors)) as (errors & w1 & E1 & H1).
  { destruct (w_wrote w) eqn:Ew; [|exists [], w; split; [done|left; auto]].
    unfold or_note, restore_backup, attempt, bind at 1 2, get. cbn.
    destruct (write_config_spec (w_backup w) w) as (w1 & [[-> Hw]|[-> Hw]] & _); cbn.
    - exists [], w1. split; [done|left]. by rewrite Hw, Hb.
    - exists [restore_step], w1. split; [done|right; by left]. }
  unfold bind at 1. rewrite E1. destruct (w_runtime w); [|by exists errors, w1].
  pose proof (keeps_or_note m name errors Hm w1) as Hk. unfold or_note, attempt, bind, ret in *.
  destruct (m w1) as [[a|e] w2]; cbn in *; destruct Hk as (Hk & _).
  - exists errors, w2. rewrite Hk. done.
  - exists (errors ++ [name]), w2. rewrite Hk. split; [done|]. destruct H1; [by left|right].
    apply elem_of_app. by left.
Qed.

(** The backup holds the original, and so does the file until the flag says it has
    been written. *)
Definition safe (original : str) (w : awg_world R) : Prop :=
  w_backup w = original /\ (w_wrote w = false -> file w = Some original).
Definition stays_safe (original : str) (w w' : awg_world R) : Prop := safe original w -> safe original w'.
#[export] Instance stays_safe_pre original : PreOrder (stays_safe original).
Proof. split; [by intros w H|]. intros a b c H1 H2 H. by apply H2, H1. Qed.

Lemma same_file_safe {A} original (m : M (awg_world R) awg_error A) :
  keeps same_file m -> keeps (stays_safe original) m.
Proof. intros Hm w [Hb Hf]. destruct (Hm w) as (H1 & H2 & H3 & _). split; [congruence|]. rewrite H1, H3. done. Qed.

Lemma safe_write {A} original text (k : M (awg_world R) awg_error A) :
  keeps (stays_safe original) k ->
  keeps (stays_safe original) (write_config env text ;;! mark_wrote ;;! k).
Proof using quiet.
  intros Hk w [Hb Hf]. unfold bind at 1. destruct (write_config_spec text w) as (w1 & [[-> Hw]|[-> Hw]] & H2 & H3 & _); cbn.
  - apply Hk. split; cbn; [congruence|done].
  - split; [congruence|]. rewrite Hw, H3. done.
Qed.

Lemma add_body_safe original s p_id p_owner pk psk ip label :
  keeps (stays_safe original) (add_peer_body env cfg s p_id p_owner pk psk ip label).
Proof using quiet tools_leave_file.
  unfold add_peer_body. apply keeps_bind; [typeclasses eauto|by apply same_file_safe, keeps_read_text|intros text].
  apply keeps_bind; [typeclasses eauto|by apply same_file_safe, keeps_assert|intros _].
  apply keeps_bind; [typeclasses eauto|apply same_file_safe, keeps_lift; typeclasses eauto|intros [updated|]].
  - apply keeps_bind; [typeclasses eauto|by apply same_file_safe, keeps_validate|intros _].
    apply keeps_bind; [typeclasses eauto|by apply same_file_safe, keeps_assert|intros _].
    apply safe_write, same_file_safe. keeps_tac.
  - apply same_file_safe. keeps_tac.
Qed.

Lemma remove_body_safe original s key_id pk :
  keeps (stays_safe original) (remove_peer_body env cfg s key_id pk).
Proof using quiet tools_leave_file.
  unfold remove_peer_body. apply keeps_bind; [typeclasses eauto|by apply same_file_safe, keeps_read_text|intros text].
  apply keeps_bind; [typeclasses eauto|by apply same_file_safe, keeps_assert|intros _].
  apply keeps_bind; [typeclasses eauto|apply same_file_safe, keeps_lift; typeclasses eauto|intros updated].
  apply keeps_bind; [typeclasses eauto| |intros _].
  - destruct (bool_decide _); [apply keeps_ret; typeclasses eauto|].
    apply keeps_bind; [typeclasses eauto|by apply same_file_safe, keeps_validate|intros _].
    apply keeps_bind; [typeclasses eauto|by apply same_file_safe, keeps_assert|intros _].
    change (write_config env updated ;;! mark_wrote) with (write_config env updated ;;! (fun w => mark_wrote w)).
    intros w Hw. pose proof (safe_write original updated (ret tt) (keeps_ret _ tt) w Hw) as H.
    unfold bind in *. destruct (write_config env updated w) as [[]]; exact H.
  - unfold remove_from_runtime. apply keeps_bind; [typeclasses eauto|apply same_file_safe; keeps_tac|intros _].
    apply keeps_bind; [typeclasses eauto| |intros _; apply same_file_safe; keeps_tac].
    intros w [Hb Hf]. split; done.
Qed.

(** The error of an operation that could not put the file back says so. *)
Definition restore_reported (e : awg_error) : Prop :=
  exists primary steps, e = RollbackFailed primary steps /\ restore_step ∈ steps.

Lemma guarded_spec original (body : M (awg_world R) awg_error unit) (rollback : M (awg_world R) awg_error (list str)) w r w' :
  keeps (stays_safe original) body -> safe original w ->
  (forall w1, safe original w1 -> exists errors w2, rollback w1 = (Ok errors, w2)
     /\ (file w2 = Some original \/ restore_step ∈ errors)) ->
  catch body (fun exc => let! errors := rollback in raise_with_rollback_summary exc errors) w = (r, w') ->
  match r with
  | Ok _ => body w = (Ok tt, w')
  | Err e => file w' = Some original \/ restore_reported e
  end.
Proof.
  intros Hb Hs Hr. specialize (Hb w Hs). unfold catch. destruct (body w) as [[[]|exc] w1]; [by intros [= <- <-]|].
  cbn in Hb. destruct (Hr w1 Hb) as (errors & w2 & E & Hor). unfold bind. rewrite E.
  destruct errors as [|e es]; cbn; intros [= <- <-].
  - left. destruct Hor as [|H]; [done|by apply elem_of_nil in H].
  - destruct Hor as [|H]; [by left|right]. exists exc, (e :: es). done.
Qed.

(** The steps before the guarded part: they leave the file and fill the backup. *)
Lemma prologue_spec {A} (k : snapshot -> M (awg_world R) awg_error A) w r w' :
  (disk env ;;! ensure_interface_active env cfg ;;!
   let! s := snapshot_config env in create_backup env ;;! set_flags false false ;;! k s) w = (r, w') ->
  (exists e, r = Err e /\ file w' = file w)
  \/ exists s w1 original, k s w1 = (r, w') /\ file w = Some original /\ file w1 = file w
       /\ safe original w1 /\ (w_tick w <= w_tick w1)%nat.
Proof using quiet tools_leave_file.
  intros H. apply bind_inv in H as [(? & w1 & H1 & H)|(e & H1 & ->)].
  2: { left. exists e. split; [done|]. by apply (keeps_run _ _ _ _ _ keeps_awg_disk) in H1 as [? _]. }
  apply (keeps_run _ _ _ _ _ keeps_awg_disk) in H1.
  apply bind_inv in H as [(? & w2 & H2 & H)|(e & H2 & ->)];
    apply (keeps_run _ _ _ _ _ keeps_active) in H2; assert (H12 := transitivity H1 H2); clear H1 H2.
  2: { left. exists e. by destruct H12. }
  apply bind_inv in H as [(s & w3 & H3 & H)|(e & H3 & ->)];
    apply (keeps_run _ _ _ _ _ keeps_snapshot) in H3; assert (H13 := transitivity H12 H3); clear H12 H3.
  2: { left. exists e. by destruct H13. }
  unfold create_backup in H. apply bind_inv in H as [(? & w4 & H4 & H)|(e & H4 & ->)].
  - apply bind_inv in H4 as [(? & w5 & H5 & H4)|(? & _ & [=])].
    apply (keeps_run _ _ _ _ _ keeps_awg_disk) in H5. assert (H15 := transitivity H13 H5). clear H13 H5.
    destruct H15 as (Hf & _ & _ & Ht).
    unfold config_text, bind, get in H4. cbn in H4. destruct (file w5) as [original|] eqn:E5; [|done].
    cbn in H4. injection H4 as <- <-. right. unfold bind, set_flags, modify in H. cbn in H.
    exists s, (AwgWorld (w_out w5) (w_tick w5) original false false), original.
    split; [exact H|]. cbn. repeat split; try done; congruence.
  - left. exists e. split; [done|].
    apply bind_inv in H4 as [(? & w5 & H5 & H4)|(? & H5 & _)];
      apply (keeps_run _ _ _ _ _ keeps_awg_disk) in H5; assert (H15 := transitivity H13 H5);
      destruct H15 as (Hf & _); [|done].
    rewrite <- Hf. unfold config_text, bind, get in H4. cbn in H4.
    destruct (file w5) eqn:E5; [done|]. cbn in H4. injection H4 as _ <-. done.
Qed.

(** ** What a returning operation has done *)

Lemma read_text_inv w text w1 : read_text env w = (Ok text, w1) -> file w = Some text /\ same_file w w1.
Proof using quiet.
  intros H. pose proof (keeps_run _ _ _ _ _ keeps_read_text H) as Hk. split; [|done].
  unfold read_text in H. apply bind_inv in H as [(? & w2 & H1 & H)|(? & _ & [=])].
  apply (keeps_run _ _ _ _ _ keeps_awg_disk) in H1 as [<- _].
  unfold config_text, bind, get in H. cbn in H. destruct (file w2) eqn:E; [|done]. cbn in H. by injection H as -> <-.
Qed.

Lemma require_inv b e (w : awg_world R) u w1 : require b e w = (Ok u, w1) -> b = true /\ w1 = w.
Proof. unfold require. destruct b; [by intros [= _ <-]|done]. Qed.

Lemma lift_inv {A} (x : result awg_error A) (w : awg_world R) a w1 : lift x w = (Ok a, w1) -> x = Ok a /\ w1 = w.
Proof. unfold lift. by intros [= -> ->]. Qed.

Lemma add_body_ok original s p_id p_owner pk psk ip label w w' : using_helper cfg = false -> file w = Some original ->
  add_peer_body env cfg s p_id p_owner pk psk ip label w = (Ok tt, w') ->
  exists updated, added_text original p_id p_owner pk psk ip label = Ok updated
    /\ file w' = Some (default original updated) /\ (is_Some updated -> reported pk w w').
Proof using quiet tools_leave_file.
  intros Hm Hf H. unfold add_peer_body in H.
  apply bind_inv in H as [(text & w1 & H1 & H)|(? & _ & [=])].
  apply read_text_inv in H1 as [E S1]. assert (text = original) as -> by congruence. clear E.
  apply bind_inv in H as [(? & w2 & H2 & H)|(? & _ & [=])].
  apply (keeps_run _ _ _ _ _ (keeps_assert s)) in H2. assert (S2 := transitivity S1 H2). clear S1 H2.
  apply bind_inv in H as [(updated & w3 & H3 & H)|(? & _ & [=])]. apply lift_inv in H3 as [E ->].
  exists updated. split; [exact E|]. destruct updated as [text|].
  - apply bind_inv in H as [(? & w4 & H4 & H)|(? & _ & [=])].
    apply (keeps_run _ _ _ _ _ (keeps_validate text)) in H4. assert (S4 := transitivity S2 H4). clear S2 H4.
    apply bind_inv in H as [(? & w5 & H5 & H)|(? & _ & [=])].
    apply (keeps_run _ _ _ _ _ (keeps_assert s)) in H5. assert (S5 := transitivity S4 H5). clear S4 H5.
    apply bind_inv in H as [(? & w6 & H6 & H)|(? & _ & [=])].
    destruct (write_config_spec text w5) as (w6' & [[E6 F6]|[E6 F6]] & _ & _ & T6); rewrite E6 in H6; [|done].
    injection H6 as _ <-.
    apply bind_inv in H as [(? & w7 & H7 & H)|(? & _ & [=])]. injection H7 as _ <-.
    apply bind_inv in H as [(? & w8 & H8 & H)|(? & _ & [=])]. injection H8 as _ <-.
    apply bind_inv in H as [(applied & w9 & H9 & H)|(? & _ & [=])].
    apply (keeps_run _ _ _ _ _ (keeps_add_runtime pk psk ip)) in H9 as (F9 & _ & _ & T9). cbn in F9, T9.
    apply bind_inv in H as [(? & w10 & H10 & H)|(? & _ & [=])]. apply require_inv in H10 as [_ ->].
    apply bind_inv in H as [(present & w11 & H11 & H)|(? & _ & [=])]. apply require_inv in H as [-> ->].
    pose proof (keeps_run _ _ _ _ _ (keeps_verify pk) H11) as (F11 & _ & _ & T11).
    apply verify_reported in H11 as (t & b & o & Ht & H11); [|exact Hm]. destruct S5 as (_ & _ & _ & T5).
    split; [cbn; congruence|]. intros _. exists t, b, o. split; [lia|exact H11].
  - split; [|by intros [? [=]]]. cbn.
    apply bind_inv in H as [(present & w4 & H4 & H)|(? & _ & [=])].
    apply (keeps_run _ _ _ _ _ (keeps_verify pk)) in H4. assert (S4 := transitivity S2 H4).
    destruct present; [injection H as <-; destruct S4; congruence|].
    apply bind_inv in H as [(? & w5 & H5 & H)|(? & _ & [=])]. apply (keeps_run _ _ _ _ _ keeps_mark_runtime) in H5.
    apply bind_inv in H as [(applied & w6 & H6 & H)|(? & _ & [=])].
    apply (keeps_run _ _ _ _ _ (keeps_add_runtime pk psk ip)) in H6. apply require_inv in H as [_ ->].
    destruct S4, H5, H6. congruence.
Qed.

Lemma remove_body_ok original s key_id pk w w' : file w = Some original ->
  remove_peer_body env cfg s key_id pk w = (Ok tt, w') ->
  exists updated, removed_text original key_id pk = Ok updated /\ file w' = Some updated
    /\ (forall k, given pk = Some k -> find_peer updated (Some k) None = Ok None).
Proof using quiet tools_leave_file.
  intros Hf H. unfold remove_peer_body in H.
  apply bind_inv in H as [(text & w1 & H1 & H)|(? & _ & [=])].
  apply read_text_inv in H1 as [E S1]. assert (text = original) as -> by congruence. clear E.
  apply bind_inv in H as [(? & w2 & H2 & H)|(? & _ & [=])].
  apply (keeps_run _ _ _ _ _ (keeps_assert s)) in H2. assert (S2 := transitivity S1 H2). clear S1 H2.
  apply bind_inv in H as [(updated & w3 & H3 & H)|(? & _ & [=])]. apply lift_inv in H3 as [E ->].
  exists updated. split; [exact E|].
  apply bind_inv in H as [(? & w4 & H4 & H)|(? & _ & [=])].
  assert (file w4 = Some updated) as F4.
  { destruct (bool_decide_reflect (updated = original)) as [->|Hne].
    - injection H4 as _ <-. destruct S2. congruence.
    - apply bind_inv in H4 as [(? & w5 & _ & H4)|(? & _ & [=])].
      apply bind_inv in H4 as [(? & w6 & _ & H4)|(? & _ & [=])].
      apply bind_inv in H4 as [(? & w7 & H7 & H4)|(? & _ & [=])].
      destruct (write_config_spec updated w6) as (w7' & [[E7 F7]|[E7 F7]] & _); rewrite E7 in H7; [|done].
      injection H7 as _ <-. injection H4 as _ <-. exact F7. }
  unfold remove_from_runtime in H.
  apply bind_inv in H as [(? & w5 & H5 & H)|(? & _ & [=])].
  assert (same_file w4 w5) as (F5 & _).
  { revert H5. apply keeps_run. keeps_tac. }
  apply bind_inv in H as [(? & w6 & H6 & H)|(? & _ & [=])]. injection H6 as _ <-.
  destruct (given pk) as [k|] eqn:Ek; [|injection H as <-; cbn; split; [congruence|done]].
  apply bind_inv in H as [(present & w7 & H7 & H)|(? & _ & [=])].
  apply (keeps_run _ _ _ _ _ (keeps_verify k)) in H7 as (F7 & _). cbn in F7.
  apply bind_inv in H as [(? & w8 & H8 & H)|(? & _ & [=])]. apply require_inv in H8 as [_ ->].
  apply bind_inv in H as [(text & w9 & H9 & H)|(? & _ & [=])]. apply read_text_inv in H9 as [E9 (F9 & _)].
  apply bind_inv in H as [(found & w10 & H10 & H)|(? & _ & [=])]. apply lift_inv in H10 as [E10 ->].
  destruct found; [done|]. injection H as <-. split; [congruence|]. intros k' [= <-].
  rewrite <- E10. do 2 f_equal. congruence.
Qed.

(** What a call of [add_peer] in the direct mode comes to. *)
Definition add_spec p_id p_owner pk psk ip label w (r : result awg_error unit) w' : Prop :=
  match r with
  | Ok _ => exists original updated,
      file w = Some original /\ added_text original p_id p_owner pk psk ip label = Ok updated
      /\ file w' = Some (default original updated) /\ (is_Some updated -> reported pk w w')
  | Err e => file w' = file w \/ restore_reported e
  end.

Lemma add_peer_spec p_id p_owner pk psk ip label w (r : result awg_error unit) w' :
  using_helper cfg = false ->
  add_peer env cfg p_id p_owner pk psk ip label w = (r, w') ->
  add_spec p_id p_owner pk psk ip label w r w'.
Proof using quiet tools_leave_file.
  unfold add_spec. intros Hm H. unfold add_peer in H. rewrite Hm in H.
  apply bind_inv in H as [(? & w0 & H0 & H)|(e & H0 & ->)]; [|injection H0 as _ <-; by left].
  apply lift_inv in H0 as [_ ->]. unfold add_peer_direct in H.
  apply prologue_spec in H as [(e & -> & Hf)|(s & w1 & original & H & Hf & Hf1 & Hs & Ht)]; [by left|].
  apply (guarded_spec original) in H; [|apply add_body_safe|exact Hs|].
  - destruct r as [[]|e]; [|by rewrite Hf].
    apply (add_body_ok original) in H as (updated & E & F & Hr); [|exact Hm|congruence].
    exists original, updated. repeat split; try done. intros Hu.
    destruct (Hr Hu) as (t & b & o & Ht' & Hrep). exists t, b, o. split; [lia|exact Hrep].
  - intros w2 [Hb Hw]. exact (rollback_restores _ cleanup_step w2 original (keeps_remove_runtime pk) Hb Hw).
Qed.

(** ** Which texts the file can hold

    Returning or raising, an operation leaves the text it has read or the one it
    has computed from it: nothing else is ever written. *)

Definition within (original : str) (G : str -> Prop) (w : awg_world R) : Prop :=
  w_backup w = original /\ (file w = Some original \/ exists u, G u /\ file w = Some u).
Definition stays_within (original : str) (G : str -> Prop) (w w' : awg_world R) : Prop :=
  within original G w -> within original G w'.
#[export] Instance stays_within_pre original G : PreOrder (stays_within original G).
Proof. split; [by intros w H|]. intros a b c H1 H2 H. by apply H2, H1. Qed.

Lemma same_file_within original G w w' : same_file w w' -> stays_within original G w w'.
Proof. intros (H1 & H2 & _) [Hb Hf]. split; [congruence|]. by rewrite H1. Qed.
Lemma keeps_within {A} original G (m : M (awg_world R) awg_error A) :
  keeps same_file m -> keeps (stays_within original G) m.
Proof. intros Hm w. apply same_file_within, Hm. Qed.
Lemma within_write original (G : str -> Prop) text : G text \/ text = original ->
  keeps (stays_within original G) (write_config env text).
Proof using quiet.
  intros Hg w [Hb Hf]. destruct (write_config_spec text w) as (w1 & [[-> Hw]|[-> Hw]] & H2 & _); split; cbn.
  - congruence.
  - destruct Hg as [Hg| ->]; [right; by exists text|by left].
  - congruence.
  - by rewrite Hw.
Qed.
Lemma within_restore original G : keeps (stays_within original G) (restore_backup env).
Proof using quiet.
  intros w Hw. unfold restore_backup, bind, get. apply within_write; [|done]. right. by destruct Hw.
Qed.
Lemma within_flags original G a b : keeps (stays_within original G) (set_flags (R := R) a b).
Proof. intros w H. exact H. Qed.
Lemma within_get original G : keeps (stays_within original G) (get (S := awg_world R) (E := awg_error)).
Proof. intros w H. exact H. Qed.

Lemma within_mark original G : keeps (stays_within original G) (mark_wrote (R := R)).
Proof. intros w H. exact H. Qed.
(** A straight run of steps that only write [G]'s texts. *)
Ltac within_tac :=
  repeat first
    [ apply within_write; by left | apply within_restore | apply within_mark | apply within_flags | apply within_get
    | solve [apply keeps_within; keeps_tac]
    | apply keeps_bind; [typeclasses eauto| |intros ?]
    | apply keeps_attempt | apply keeps_ret; typeclasses eauto ].

(** The guarded part of both operations: what is read is what is there; then
    [rest] works on the computed text, and a failure is rolled back. *)
Lemma guarded_within {B} original G s (compute : str -> result awg_error B) rest rollback w r w' :
  (forall b, compute original = Ok b -> keeps (stays_within original G) (rest original b)) ->
  keeps (stays_within original G) rollback ->
  file w = Some original -> w_backup w = original ->
  catch (let! text := read_text env in assert_config_unchanged env s ;;!
         let! b := lift (compute text) in rest text b)
    (fun exc => let! errors := rollback in raise_with_rollback_summary exc errors) w = (r, w') ->
  within original G w'.
Proof using quiet.
  intros Hrest Hback Hf Hb. assert (within original G w) as Hw by (split; [done|by left]). unfold catch.
  set (body := bind _ _). assert (within original G (body w).2) as Hbody.
  { subst body. destruct (bind (read_text env) _ w) as [r1 w1] eqn:E. cbn. revert E.
    intros [(text & w2 & H1 & E)|(e & H1 & _)]%bind_inv.
    2: { apply (keeps_run _ _ _ _ _ keeps_read_text) in H1. by apply (same_file_within _ _ _ _ H1). }
    apply read_text_inv in H1 as [E1 S1]. assert (text = original) as -> by congruence.
    apply bind_inv in E as [([] & w3 & H2 & E)|(e & H2 & _)];
      apply (keeps_run _ _ _ _ _ (keeps_assert s)) in H2; assert (S2 := transitivity S1 H2);
      apply (same_file_within _ _ _ _ S2) in Hw; [|done].
    apply bind_inv in E as [(b & w4 & H3 & E)|(e & H3 & _)]; [|by injection H3 as _ <-].
    apply lift_inv in H3 as [Eb ->]. by apply (keeps_run _ _ _ _ _ (Hrest b Eb) E). }
  destruct (body w) as [[a|e] w1]; cbn in Hbody; [by intros [= _ <-]|].
  intros H. apply bind_inv in H as [(errors & w2 & H1 & H)|(e' & H1 & _)];
    apply (keeps_run _ _ _ _ _ Hback) in H1; [|by apply H1].
  destruct errors; cbn in H; injection H as _ <-; by apply H1.
Qed.

Lemma add_peer_leaves p_id p_owner pk psk ip label w (r : result awg_error unit) w' :
  using_helper cfg = false ->
  add_peer env cfg p_id p_owner pk psk ip label w = (r, w') ->
  file w' = file w \/ exists original updated, file w = Some original
    /\ validate_peer pk psk ip = Ok tt
    /\ added_text original p_id p_owner pk psk ip label = Ok (Some updated) /\ file w' = Some updated.
Proof using quiet tools_leave_file.
  intros Hm H. unfold add_peer in H. rewrite Hm in H.
  apply bind_inv in H as [([] & w0 & H0 & H)|(e & H0 & ->)]; [|injection H0 as _ <-; by left].
  apply lift_inv in H0 as [Hv ->]. unfold add_peer_direct in H.
  apply prologue_spec in H as [(e & -> & Hf)|(s & w1 & original & H & Hf & Hf1 & [Hb _] & _)]; [by left|].
  unfold add_peer_body in H.
  apply (guarded_within original (fun u => added_text original p_id p_owner pk psk ip label = Ok (Some u)))
    in H as [_ [H|(u & Hu & H)]]; [left; congruence|right; by exists original, u| | |congruence|done].
  - intros [u|] Hu; within_tac.
  - unfold rollback_add_peer, or_note. within_tac. destruct (w_wrote _); within_tac.
Qed.

Lemma add_peer_validates p_id p_owner pk psk ip label w u w' :
  add_peer env cfg p_id p_owner pk psk ip label w = (Ok u, w') -> validate_peer pk psk ip = Ok tt.
Proof.
  unfold add_peer. intros [([] & w0 & H0 & _)|(? & _ & [=])]%bind_inv. by apply lift_inv in H0 as [H0 _].
Qed.

Lemma remove_peer_leaves key_id pk w (r : result awg_error unit) w' :
  using_helper cfg = false ->
  remove_peer env cfg key_id pk w = (r, w') ->
  file w' = file w \/ exists original updated, file w = Some original
    /\ removed_text original key_id pk = Ok updated /\ file w' = Some updated.
Proof using quiet tools_leave_file.
  intros Hm H. unfold remove_peer in H. rewrite Hm in H.
  apply bind_inv in H as [([] & w0 & H0 & H)|(e & H0 & ->)]; [|injection H0 as _ <-; by left].
  apply lift_inv in H0 as [_ ->]. unfold remove_peer_direct in H.
  apply prologue_spec in H as [(e & -> & Hf)|(s & w1 & original & H & Hf & Hf1 & [Hb _] & _)]; [by left|].
  unfold remove_peer_body in H.
  apply (guarded_within original (fun u => removed_text original key_id pk = Ok u))
    in H as [_ [H|(u & Hu & H)]]; [left; congruence|right; by exists original, u| | |congruence|done].
  - intros u Hu. unfold remove_from_runtime. within_tac. destruct (bool_decide _); within_tac.
  - unfold rollback_remove_peer, or_note. within_tac. destruct (w_wrote _); within_tac.
Qed.

(** C35 Adding a peer is done or undone, in the direct mode, when nobody else writes the
    file during the call and the tools leave it alone. If it returns, the file holds the
    text computed from the one read: with the peer's block appended, and then a report
    of the running interface taken during the call lists the peer; or unchanged, when
    the key's block was there. If it raises, whatever file operation or tool has
    failed, the file is the one before the call, unless the error itself says that
    restoring it failed. *)
Theorem add_peer_all_or_nothing p_id p_owner pk psk ip label w r w' :
  using_helper cfg = false ->
  add_peer env cfg p_id p_owner pk psk ip label w = (r, w') ->
  match r with
  | Ok _ => exists original updated,
      file w = Some original /\ added_text original p_id p_owner pk psk ip label = Ok updated
      /\ file w' = Some (default original updated) /\ (is_Some updated -> reported pk w w')
  | Err e => file w' = file w \/ restore_reported e
  end.
Proof using quiet tools_leave_file. apply add_peer_spec. Qed.

(** the check after an addition reads what the runner leaves of the report,
    4096 characters in the direct mode. If the new peer's line lies beyond them in
    every report, so that no cut report lists it, the addition of a key whose block
    is not there cannot succeed, whatever the full report says: it raises, and the
    file is the one before the call unless the error says restoring it failed. *)
Theorem cut_reports_refuse_new_peers p_id p_owner pk psk ip label w original :
  using_helper cfg = false ->
  file w = Some original -> managed_block_exists original p_id = false ->
  (forall t b o, verify_output (compact runner_limit (stdout (tool env t b CShow o).1)) pk = false) ->
  exists e w', add_peer env cfg p_id p_owner pk psk ip label w = (Err e, w')
    /\ (file w' = file w \/ restore_reported e).
Proof using quiet tools_leave_file.
  intros Hm Hf Hnb Hcut. destruct (add_peer env cfg p_id p_owner pk psk ip label w) as [r w'] eqn:E.
  apply add_peer_spec in E; [|exact Hm]. destruct r as [[]|e]; [|by exists e, w'].
  destruct E as (original' & updated & Hf' & Ha & _ & Hr). assert (original' = original) as -> by congruence.
  unfold added_text in Ha. destruct (parse_sections original); [|done]. cbn [result_bind] in Ha.
  rewrite Hnb in Ha. destruct (find_peer_in _ _ _); [done|].
  destruct (peer_block _ _ _ _ _ _); [|done]. cbn [result_bind] in Ha. injection Ha as <-.
  destruct Hr as (t & b & o & _ & _ & Hv); [done|]. specialize (Hcut t b o). unfold runner_result in Hv. cbn [stdout] in Hv. congruence.
Qed.

(** What a call of [remove_peer] in the direct mode comes to. *)
Definition remove_spec key_id pk (w : awg_world R) (r : result awg_error unit) (w' : awg_world R) : Prop :=
  match r with
  | Ok _ => exists original updated,
      file w = Some original /\ removed_text original key_id pk = Ok updated /\ file w' = Some updated
      /\ (forall k, given pk = Some k -> find_peer updated (Some k) None = Ok None)
  | Err e => file w' = file w \/ restore_reported e
  end.
Lemma remove_peer_spec key_id pk w (r : result awg_error unit) w' :
  using_helper cfg = false ->
  remove_peer env cfg key_id pk w = (r, w') -> remove_spec key_id pk w r w'.
Proof using quiet tools_leave_file.
  unfold remove_spec. intros Hm H. unfold remove_peer in H. rewrite Hm in H.
  apply bind_inv in H as [(? & w0 & H0 & H)|(e & H0 & ->)]; [|injection H0 as _ <-; by left].
  apply lift_inv in H0 as [_ ->]. unfold remove_peer_direct in H.
  apply prologue_spec in H as [(e & -> & Hf)|(s & w1 & original & H & Hf & Hf1 & Hs & Ht)]; [by left|].
  apply (guarded_spec original) in H; [|apply remove_body_safe|exact Hs|].
  - destruct r as [[]|e]; [|by rewrite Hf].
    apply (remove_body_ok original) in H as (updated & E & F & Hr); [|congruence].
    by exists original, updated.
  - intros w2 [Hb Hw]. exact (rollback_restores _ sync_step w2 original keeps_sync Hb Hw).
Qed.

(** C36 Removing a peer is done or undone, in the direct mode, when nobody else writes
    the file during the call and the tools leave it alone. If it returns, the file holds
    the text computed from the one read, and no peer section of it carries the public
    key. If it raises, the file is the one before the call, unless the error itself says
    that restoring it failed. *)
Theorem remove_peer_all_or_nothing key_id pk w r w' :
  using_helper cfg = false ->
  remove_peer env cfg key_id pk w = (r, w') ->
  match r with
  | Ok _ => exists original updated,
      file w = Some original /\ removed_text original key_id pk = Ok updated /\ file w' = Some updated
      /\ (forall k, given pk = Some k -> find_peer updated (Some k) None = Ok None)
  | Err e => file w' = file w \/ restore_reported e
  end.
Proof using quiet tools_leave_file. apply remove_peer_spec. Qed.
End Atomic.
