(* ===== verification/AwgScenarios.v ===== *)
(** * The adapter on a simulated interface

    An environment in which every tool is installed and does what it documents, as
    a concrete instance of the theorems of [AwgAtomic] and as the stage of two runs
    that show what the adapter's checks miss. *)

From S2P Require Import Prelude PyText Json TextLines AwgConfig AwgLayout AwgPeers AwgAtomic.
#[local] Open Scope Z_scope.

(** The runtime: its peers, public key and address. *)
Abbreviation peers := (list (list N * list N)) (only parsing).

(** The report of [awg show]. *)
Definition peer_report (p : str * str) : str :=
  py "
peer: " ++ p.1 ++ py "
  endpoint: 203.0.113.77:51820
  allowed ips: " ++ p.2 ++ py "
  latest handshake: 1 minute, 12 seconds ago
  transfer: 1.25 MiB received, 9.75 MiB sent
".
Definition report (rt : peers) : str := py "interface: awg0
  listening port: 51820
" ++ (rt ≫= peer_report).

Definition config_peers (text : str) : peers :=
  match parse_sections text with
  | Ok sections => map (fun s => (default [] (dict_get (py "PublicKey") (sec_options s)),
                                  default [] (dict_get (py "AllowedIPs") (sec_options s))))
                       (List.filter is_peer sections)
  | Err _ => []
  end.
Definition done_with (out : str) : tool_result := ToolResult 0 out [].
Definition failed : tool_result := ToolResult 1 [] (py "failed").
Definition missing : tool_result := ToolResult 127 [] (py "command not found").
Definition set_runtime (o : outside peers) (rt : peers) : outside peers :=
  Outside (o_config o) (o_stamp o) rt.

(** Every tool of the direct mode. *)
Definition sim_tool (t : nat) (b : binary) (c : tool_call) (o : outside peers)
    : tool_result * outside peers :=
  match b, c with
  | Awg, CShow => (done_with (report (o_runtime o)), o)
  | Awg, CSetPeer pk _ ip => (done_with [], set_runtime o (o_runtime o ++ [(pk, ip ++ py "/32")]))
  | Awg, CUnsetPeer pk =>
      (done_with [], set_runtime o (List.filter (fun p => negb (bool_decide (p.1 = pk))) (o_runtime o)))
  | AwgQuick, CStrip text => (done_with text, o)
  | Awg, CSyncConf text => (done_with [], set_runtime o (config_peers text))
  | _, _ => (missing, o)
  end.
Definition sim_env : awg_env peers :=
  AwgEnv peers sim_tool (fun _ => true) (fun _ o => o) (fun text => text).
Definition sim_cfg : awg_settings := AwgSettings (py "awg0") false.
Definition start (config : str) : awg_world peers :=
  AwgWorld (Outside (Some config) 0 (config_peers config)) 0 [] false false.

Lemma sim_leaves_file t b c o : o_config (sim_tool t b c o).2 = o_config o.
Proof. by destruct b, c. Qed.

Definition sim_add (p : peer) (w : awg_world peers) : result awg_error unit * awg_world peers :=
  add_peer sim_env sim_cfg (p_id p) (p_owner p) (p_key p) (p_psk p) (p_ip p) (p_label p) w.

Example sim_add_works :
  let '(r, w) := sim_add demo_peer (start demo_text) in
  r = Ok tt /\ o_config (w_out w) = Some (append_block demo_text demo_block1)
  /\ o_runtime (w_out w) = [(py "AAA=", py "10.8.0.2/32")].
Proof. vm_compute. auto. Qed.

(** The same interface, but every command that sets or removes a peer fails. *)
Definition stuck_tool (t : nat) (b : binary) (c : tool_call) (o : outside peers)
    : tool_result * outside peers :=
  match b, c with
  | Awg, CSetPeer _ _ _ | Awg, CUnsetPeer _ => (failed, o)
  | _, _ => sim_tool t b c o
  end.
Definition stuck_env : awg_env peers :=
  AwgEnv peers stuck_tool (fun _ => true) (fun _ o => o) (fun text => text).

Lemma add_peer_all_or_nothing_witness :
  exists e w', add_peer stuck_env sim_cfg 7 100 (py "AAA=") None (py "10.8.0.2") None (start demo_text) = (Err e, w')
    /\ o_config (w_out w') = Some demo_text.
Proof.
  set (m := add_peer stuck_env sim_cfg 7 100 (py "AAA=") None (py "10.8.0.2") None (start demo_text)).
  assert (m.1 = Err (ApplyError (py "not applied"))) as E by (vm_compute; reflexivity).
  exists (ApplyError (py "not applied")), m.2.
  assert (m = (Err (ApplyError (py "not applied")), m.2)) as E2 by by apply run_fst.
  split; [exact E2|].
  destruct (add_peer_all_or_nothing stuck_env sim_cfg (fun _ _ => eq_refl)
    ltac:(intros t b c o; destruct b, c; reflexivity) 7 100 (py "AAA=") None (py "10.8.0.2") None
    (start demo_text) _ _ eq_refl E2) as [H|(primary & steps & [=] & _)].
  exact H.
Defined.

Lemma remove_peer_all_or_nothing_witness :
  exists e w', remove_peer stuck_env sim_cfg 7 (Some (py "AAA="))
      (start (append_block demo_text demo_block1)) = (Err e, w')
    /\ o_config (w_out w') = Some (append_block demo_text demo_block1).
Proof.
  set (m := remove_peer stuck_env sim_cfg 7 (Some (py "AAA=")) (start (append_block demo_text demo_block1))).
  assert (m.1 = Err (ApplyError (py "not removed"))) as E by (vm_compute; reflexivity).
  exists (ApplyError (py "not removed")), m.2.
  assert (m = (Err (ApplyError (py "not removed")), m.2)) as E2 by by apply run_fst.
  split; [exact E2|].
  destruct (remove_peer_all_or_nothing stuck_env sim_cfg (fun _ _ => eq_refl)
    ltac:(intros t b c o; destruct b, c; reflexivity) 7 (Some (py "AAA="))
    (start (append_block demo_text demo_block1)) _ _ eq_refl E2) as [H|(primary & steps & [=] & _)].
  exact H.
Defined.

(** ** A long report *)

(** The interface of a server whose other peers fill the first part of the report. *)
Definition long_front (n : nat) : str := replicate n 46%N.
Definition long_tool (n : nat) (t : nat) (b : binary) (c : tool_call) (o : outside peers)
    : tool_result * outside peers :=
  match b, c with
  | _, CShow => (done_with (long_front n ++ NEWLINE :: report (o_runtime o)), o)
  | _, _ => sim_tool t b c o
  end.
Definition long_env (n : nat) : awg_env peers :=
  AwgEnv peers (long_tool n) (fun _ => true) (fun _ o => o) (fun text => text).

Lemma splitlines_aux_clean_text s : forall cur, Forall (fun c => is_linebreak c = false) s -> s <> [] \/ cur <> [] ->
  splitlines_aux cur s = [rev cur ++ s].
Proof.
  induction s as [|c s IH]; intros cur Hs Hn; cbn [splitlines_aux].
  - destruct cur; [by destruct Hn|]. by rewrite app_nil_r.
  - apply Forall_cons in Hs as [Hc Hs]. rewrite Hc, IH; [|done|by right]. cbn [rev]. by rewrite <- app_assoc.
Qed.

(** A cut report: the dots of the front and the mark of the cut. *)
Lemma compact_long n rest pk : runner_limit < Z.of_nat n ->
  verify_output (compact runner_limit (long_front n ++ rest)) pk = false.
Proof.
  intros Hn. set (m := Z.to_nat runner_limit). assert (0 < m < n)%nat as Hm by (subst m; unfold runner_limit in *; lia).
  assert (take m (long_front n ++ rest) = replicate m 46%N) as Ht.
  { unfold long_front. rewrite take_app_le by (rewrite length_replicate; lia).
    rewrite take_replicate. f_equal. lia. }
  assert (Forall (fun c => is_space c = false) (replicate m 46%N)) as Hs by by apply Forall_replicate.
  unfold compact. fold m. rewrite Ht, strip_nonspace by done.
  replace (Z.of_nat (length (long_front n ++ rest)) <=? runner_limit) with false
    by (symmetry; apply Z.leb_gt; unfold long_front; rewrite length_app, length_replicate; lia).
  cbn [andb]. rewrite take_ge by (rewrite length_replicate; lia).
  assert (Forall (fun c => is_space c = false) (replicate m 46%N ++ py "...[truncated]")) as Hs2.
  { apply Forall_app. split; [done|]. by repeat constructor. }
  unfold verify_output, splitlines. rewrite splitlines_aux_clean_text; [|by apply solid_clean|].
  2: { left. by destruct m; [lia|]. }
  cbn [rev app existsb]. rewrite strip_nonspace by done. rewrite orb_false_r.
  apply bool_decide_eq_false. destruct m; [lia|]. discriminate.
Qed.

Lemma cut_reports_refuse_new_peers_witness :
  exists e w', add_peer (long_env 5000) sim_cfg 7 100 (py "AAA=") None (py "10.8.0.2") None (start demo_text) = (Err e, w')
    /\ (o_config (w_out w') = Some demo_text \/ restore_reported e).
Proof.
  apply (cut_reports_refuse_new_peers (long_env 5000) sim_cfg (fun _ _ => eq_refl)
    ltac:(intros t b c o; destruct b, c; reflexivity) 7 100 (py "AAA=") None (py "10.8.0.2") None
    (start demo_text) demo_text eq_refl eq_refl).
  - vm_compute. reflexivity.
  - intros t b o. destruct b; exact (compact_long 5000 _ (py "AAA=") eq_refl).
Defined.

(** ** A rollback that fails silently *)

(** Peers can be added, but reports and removals fail. *)
Definition mute_tool (t : nat) (b : binary) (c : tool_call) (o : outside peers)
    : tool_result * outside peers :=
  match b, c with
  | Awg, CUnsetPeer _ => (failed, o)
  | Awg, CShow => if (8 <=? t)%nat then (failed, o) else sim_tool t b c o
  | _, _ => sim_tool t b c o
  end.
Definition mute_env : awg_env peers :=
  AwgEnv peers mute_tool (fun _ => true) (fun _ o => o) (fun text => text).

(** The rollback of an addition counts exceptions only, and a tool that exits with
    an error raises none: the peer stays on the interface and the error raised does
    not say that a step of the rollback has failed. *)
Lemma silent_rollback_leaves_peer :
  let '(r, w) := add_peer mute_env sim_cfg 7 100 (py "AAA=") None (py "10.8.0.2") None (start demo_text) in
  r = Err (ApplyError (py "applied, not found"))
  /\ o_config (w_out w) = Some demo_text
  /\ o_runtime (w_out w) = [(py "AAA=", py "10.8.0.2/32")].
Proof. vm_compute. auto. Qed.
