(* ===== verification/Triples.v ===== *)
(** * Hoare triples for methods

    [triple P m Q X]: run from a state that satisfies [P], a method that returns
    [a] leaves a state that satisfies [Q a], and one that raises leaves a state
    that satisfies [X]. One rule per construct of the monad of [Prelude]. *)

From S2P Require Import Prelude.

Definition triple {S E A} (P : S -> Prop) (m : M S E A) (Q : A -> S -> Prop) (X : S -> Prop) : Prop :=
  forall s, P s -> match m s with (Ok a, s') => Q a s' | (Err _, s') => X s' end.

Section Rules.
Context {S E : Type}.
Implicit Types (P X : S -> Prop).

Lemma triple_ret {A} P X (a : A) (Q : A -> S -> Prop) : (forall s, P s -> Q a s) -> triple (E := E) P (ret a) Q X.
Proof. intros H s. apply H. Qed.
Lemma triple_raise {A} P X (e : E) (Q : A -> S -> Prop) : (forall s, P s -> X s) -> triple P (raise e) Q X.
Proof. intros H s. apply H. Qed.
Lemma triple_lift {A} P X (r : result E A) (Q : A -> S -> Prop) :
  (forall s, P s -> match r with Ok a => Q a s | Err _ => X s end) -> triple P (lift r) Q X.
Proof. intros H s Hs. specialize (H s Hs). unfold lift. by destruct r. Qed.
Lemma triple_get P X (Q : S -> S -> Prop) : (forall s, P s -> Q s s) -> triple (E := E) P get Q X.
Proof. intros H s. apply H. Qed.
Lemma triple_modify P X (f : S -> S) (Q : unit -> S -> Prop) :
  (forall s, P s -> Q tt (f s)) -> triple (E := E) P (modify f) Q X.
Proof. intros H s. apply H. Qed.

Lemma triple_bind {A B} P X (m : M S E A) (k : A -> M S E B) R Q :
  triple P m R X -> (forall a, triple (R a) (k a) Q X) -> triple P (bind m k) Q X.
Proof.
  intros Hm Hk s Hs. specialize (Hm s Hs). unfold bind.
  destruct (m s) as [[a|e] s1]; [by apply Hk|done].
Qed.
Lemma triple_catch {A} P X Y (m : M S E A) (h : E -> M S E A) Q :
  triple P m Q Y -> (forall e, triple Y (h e) Q X) -> triple P (catch m h) Q X.
Proof.
  intros Hm Hh s Hs. specialize (Hm s Hs). unfold catch.
  destruct (m s) as [[a|e] s1]; [done|by apply Hh].
Qed.
Lemma triple_attempt {A} P X Y (m : M S E A) (Q : A -> S -> Prop) :
  triple P m Q Y ->
  triple P (attempt m) (fun r s => match r with Ok a => Q a s | Err _ => Y s end) X.
Proof. intros Hm s Hs. specialize (Hm s Hs). unfold attempt. by destruct (m s) as [[a|e] s1]. Qed.

Lemma triple_weaken {A} P P' X X' (m : M S E A) Q Q' :
  triple P' m Q' X' -> (forall s, P s -> P' s) -> (forall a s, Q' a s -> Q a s) -> (forall s, X' s -> X s) ->
  triple P m Q X.
Proof.
  intros Hm HP HQ HX s Hs. specialize (Hm s (HP s Hs)). destruct (m s) as [[a|e] s1]; auto.
Qed.
Lemma triple_pre {A} P P' X (m : M S E A) Q :
  triple P' m Q X -> (forall s, P s -> P' s) -> triple P m Q X.
Proof. intros Hm HP. by eapply triple_weaken. Qed.
(** A method that only changes what [P] does not look at. *)
Lemma triple_keeps {A} (R : S -> S -> Prop) P X (m : M S E A) :
  keeps R m -> (forall s s', R s s' -> P s -> P s') -> (forall s, P s -> X s) ->
  triple P m (fun _ => P) X.
Proof.
  intros Hm HP HX s Hs. specialize (Hm s). destruct (m s) as [[a|e] s1]; cbn in Hm; eauto.
Qed.
(** One that, besides, cannot raise. *)
Lemma triple_total {A} (R : S -> S -> Prop) P X (m : M S E A) :
  never_raises m -> keeps R m -> (forall s s', R s s' -> P s -> P s') -> triple P m (fun _ => P) X.
Proof.
  intros Hn Hk HP s Hs. specialize (Hn s). specialize (Hk s). destruct (m s) as [[a|e] s1]; [|done]. by eapply HP.
Qed.
(** What is known of a result, wherever it is returned. *)
Lemma triple_result {A} (G : A -> Prop) P X (m : M S E A) Q :
  triple P m Q X -> (forall s a s', m s = (Ok a, s') -> G a) ->
  triple P m (fun a s => G a /\ Q a s) X.
Proof.
  intros Hm HG s Hs. specialize (Hm s Hs). destruct (m s) as [[a|e] s1] eqn:Em; [|done]. eauto.
Qed.
Lemma triple_pure {A} (F : Prop) P X (m : M S E A) Q :
  (F -> triple P m Q X) -> triple (fun s => F /\ P s) m Q X.
Proof. intros H s [HF Hs]. by apply H. Qed.
Lemma triple_fact {A} (F : Prop) P X (m : M S E A) Q :
  (F -> triple P m Q X) -> triple (fun s => P s /\ F) m Q X.
Proof. intros H s [Hs HF]. by apply H. Qed.

Lemma triple_ext {A} P X (m m' : M S E A) Q : (forall s, m s = m' s) -> triple P m' Q X -> triple P m Q X.
Proof. intros He Hm s Hs. rewrite He. by apply Hm. Qed.
(** A method of a part of the state, step by step. *)
Lemma embed_bind {T E' A B} `{Part S T} (inj : E' -> E) (m : M T E' A) (k : A -> M T E' B) s :
  embed inj (bind m k) s = bind (embed inj m) (fun a => embed inj (k a)) s.
Proof.
  unfold embed, bind. destruct (m (part_get s)) as [[a|e] t]; [|done].
  rewrite part_get_set. destruct (k a t) as [[b|e] t']; by rewrite part_set_set.
Qed.
(** What a run of a method with a triple says. *)
Lemma triple_run {A} P X (m : M S E A) Q s r s' : triple P m Q X -> P s -> m s = (r, s') ->
  match r with Ok a => Q a s' | Err _ => X s' end.
Proof. intros Hm Hs E0. specialize (Hm s Hs). by rewrite E0 in Hm. Qed.
End Rules.
