(* ===== verification/VpnKeys.v ===== *)
(** * The key table

    [repositories/vpn_keys.py]: the rows of [vpn_keys] in id order, the traffic
    counters kept for them and the archive of deleted keys' traffic. Every
    statement may fail; what it did is then rolled back. The columns of other
    protocols (uuid, transport, relay and the like) are not part of the rows. *)

From S2P Require Import Prelude PyText Json.
#[local] Open Scope Z_scope.

(** ** [models/enums.py], [models/dto.py] *)

Inductive key_type := XRAY | AWG | HYSTERIA2.
Inductive key_status :=
  | PENDING_APPLY | ACTIVE | APPLY_FAILED | PENDING_REVOKE | REVOKED
  | PENDING_DELETE | DELETE_FAILED | DELETED | FAILED.
#[export] Instance key_type_eq_dec : EqDecision key_type.
Proof. solve_decision. Defined.
#[export] Instance key_status_eq_dec : EqDecision key_status.
Proof. solve_decision. Defined.

(** The values the services put in [payload]. *)
Inductive pvalue := PNull | PText (s : str) | PNumber (n : Z).
Abbreviation payload := (list (list N * pvalue)) (only parsing).
(** [payload.get(key)] when it is a text that is not empty. *)
Definition payload_text (key : str) (pl : payload) : option str :=
  match dict_get key pl with Some (PText ((_ :: _) as s)) => Some s | _ => None end.
Record vpn_key := VpnKey {
  k_id : Z; k_owner : Z; k_username : option str; k_type : key_type; k_status : key_status;
  k_note : option str; k_label : option str; k_public_key : option str; k_client_ip : option str;
  k_payload : payload; k_public_payload : payload;
  k_created_at : str; k_updated_at : str; k_revoked_at : option str; k_expires_at : option str;
  k_deleted_at : option str; k_created_by : Z; k_revoked_by : option Z; k_deleted_by : option Z }.

Definition set_key_status (s : key_status) (now : str) (k : vpn_key) : vpn_key :=
  VpnKey (k_id k) (k_owner k) (k_username k) (k_type k) s (k_note k) (k_label k) (k_public_key k)
    (k_client_ip k) (k_payload k) (k_public_payload k) (k_created_at k) now (k_revoked_at k)
    (k_expires_at k) (k_deleted_at k) (k_created_by k) (k_revoked_by k) (k_deleted_by k).

(** [RuntimeError], [ConcurrentModificationError], [InvalidTransition], and the
    database's own exceptions. *)
Inductive key_error := DbFailure | KeyMissing | ConcurrentModification | KeyTransition.

Record traffic := Traffic { downloaded_bytes : Z; uploaded_bytes : Z }.
Record archived := Archived {
  a_key : Z; a_owner : Z; a_type : key_type; a_traffic : traffic; a_deleted_at : str }.

(** [kt_seq]: the AUTOINCREMENT high-water mark; [kt_ok] tells which statements
    fail, [kt_tick] how many have run. *)
Record key_table := KeyTable {
  kt_rows : list vpn_key; kt_seq : Z; kt_traffic : list (Z * traffic);
  kt_archive : list archived; kt_ok : nat -> bool; kt_tick : nat }.
Abbreviation KM := (M key_table key_error) (only parsing).

Definition with_rows (rows : list vpn_key) (t : key_table) : key_table :=
  KeyTable rows (kt_seq t) (kt_traffic t) (kt_archive t) (kt_ok t) (kt_tick t).
(** One statement, with its commit. *)
Definition statement : KM unit := fun t =>
  (if kt_ok t (kt_tick t) then Ok tt else Err DbFailure,
   KeyTable (kt_rows t) (kt_seq t) (kt_traffic t) (kt_archive t) (kt_ok t) (S (kt_tick t))).

Definition has_id (id : Z) (k : vpn_key) : bool := k_id k =? id.
Definition status_in (l : list key_status) (k : vpn_key) : bool := bool_decide (k_status k ∈ l).
(** The statuses whose rows hold their client address. *)
Definition reserved_statuses : list key_status :=
  [PENDING_APPLY; ACTIVE; APPLY_FAILED; PENDING_REVOKE; PENDING_DELETE; DELETE_FAILED].
Definition occupied_ip (k : vpn_key) : list str :=
  if bool_decide (k_type k = AWG) && status_in reserved_statuses k
  then match k_client_ip k with Some ip => [ip] | None => [] end else [].
(** The unique indexes [idx_vpn_keys_email_label], [idx_vpn_keys_public_key] and
    [idx_vpn_keys_client_ip_reserved] of [db/database.py]. *)
Definition indexes_ok (rows : list vpn_key) : bool :=
  bool_decide (NoDup (omap k_label rows)) && bool_decide (NoDup (omap k_public_key rows))
  && bool_decide (NoDup (rows ≫= occupied_ip)).
(** A write that an index refuses is an [IntegrityError]. *)
Definition store_rows (rows : list vpn_key) : KM unit :=
  if indexes_ok rows then modify (with_rows rows) else raise DbFailure.

(** [UPDATE vpn_keys SET f WHERE p], and its [rowcount]. *)
Definition update_rows (p : vpn_key -> bool) (f : vpn_key -> vpn_key) : KM nat :=
  statement ;;!
  let! t := get in
  store_rows (map (fun k => if p k then f k else k) (kt_rows t)) ;;!
  ret (length (List.filter p (kt_rows t))).
(** [SELECT * FROM vpn_keys WHERE p LIMIT 1] *)
Definition find_row (p : vpn_key -> bool) : KM (option vpn_key) :=
  statement ;;! gets (fun t => List.find p (kt_rows t)).

Definition get_by_id (id : Z) : KM (option vpn_key) := find_row (has_id id).
Definition find_by_public_key (pk : str) : KM (option vpn_key) :=
  find_row (fun k => bool_decide (k_public_key k = Some pk)).
Definition find_by_email_label (label : str) : KM (option vpn_key) :=
  find_row (fun k => bool_decide (k_label k = Some label)).
Definition find_by_client_ip (ip : str) : KM (option vpn_key) :=
  find_row (fun k => bool_decide (k_client_ip k = Some ip)).

(** [create_pending], for a key without a relay; the inserted row is read back. *)
Definition create_pending (owner : Z) (username : option str) (type : key_type) (note : option str)
    (pl public_pl : payload) (created_by : Z) (now : str) (label public_key client_ip expires_at : option str)
    : KM vpn_key :=
  statement ;;!
  let! t := get in
  let id := kt_seq t + 1 in
  let row := VpnKey id owner username type PENDING_APPLY note label public_key client_ip pl public_pl
               now now None expires_at None created_by None None in
  store_rows (kt_rows t ++ [row]) ;;!
  modify (fun t => KeyTable (kt_rows t) id (kt_traffic t) (kt_archive t) (kt_ok t) (kt_tick t)) ;;!
  let! found := get_by_id id in
  match found with Some k => ret k | None => raise KeyMissing end.

(** [mark_active]: a key in another status is left alone, with a warning. *)
Definition mark_active (id : Z) (now : str) (pl public_pl : option payload) : KM unit :=
  let! current := get_by_id id in
  match current with
  | None => raise KeyMissing
  | Some _ =>
      let! _ := update_rows (fun k => has_id id k && status_in [PENDING_APPLY; APPLY_FAILED] k)
        (fun k => VpnKey (k_id k) (k_owner k) (k_username k) (k_type k) ACTIVE (k_note k) (k_label k)
                    (k_public_key k) (k_client_ip k) (default (k_payload k) pl)
                    (default (k_public_payload k) public_pl) (k_created_at k) now (k_revoked_at k)
                    (k_expires_at k) (k_deleted_at k) (k_created_by k) (k_revoked_by k) (k_deleted_by k)) in
      ret tt
  end.
Definition set_status (id : Z) (status : key_status) (now : str) (allowed_from : list key_status) : KM unit :=
  match allowed_from with
  | [] => let! _ := update_rows (has_id id) (set_key_status status now) in ret tt
  | _ => let! n := update_rows (fun k => has_id id k && status_in allowed_from k) (set_key_status status now) in
         if (n =? 0)%nat then raise ConcurrentModification else ret tt
  end.
Definition coalesce {A} (a : option A) (b : A) : option A := Some (default b a).
(** [mark_revoked]: the address is given back. *)
Definition mark_revoked (id actor : Z) (now : str) : KM unit :=
  let! n := update_rows (fun k => has_id id k && negb (status_in [REVOKED; DELETED] k))
    (fun k => VpnKey (k_id k) (k_owner k) (k_username k) (k_type k) REVOKED (k_note k) (k_label k)
                (k_public_key k) None (k_payload k) (k_public_payload k) (k_created_at k) now
                (coalesce (k_revoked_at k) now) (k_expires_at k) (k_deleted_at k) (k_created_by k)
                (coalesce (k_revoked_by k) actor) (k_deleted_by k)) in
  if (n =? 1)%nat then ret tt else raise KeyTransition.
Definition mark_deleted (id actor : Z) (now : str) : KM unit :=
  let! n := update_rows (fun k => has_id id k && negb (status_in [DELETED] k))
    (fun k => VpnKey (k_id k) (k_owner k) (k_username k) (k_type k) DELETED (k_note k) (k_label k)
                (k_public_key k) (k_client_ip k) (k_payload k) (k_public_payload k) (k_created_at k) now
                (k_revoked_at k) (k_expires_at k) (coalesce (k_deleted_at k) now) (k_created_by k)
                (k_revoked_by k) (coalesce (k_deleted_by k) actor)) in
  if (n =? 1)%nat then ret tt else raise KeyTransition.

(** [hard_delete_with_stats]: three statements in one transaction. *)
Definition hard_delete_with_stats (id : Z) (now : str) : KM unit :=
  statement ;;! statement ;;! statement ;;!
  modify (fun t =>
    KeyTable (List.filter (fun k => negb (has_id id k)) (kt_rows t)) (kt_seq t)
      (List.filter (fun '(i, _) => negb (i =? id)) (kt_traffic t))
      (kt_archive t
        ++ (List.filter (fun '(i, _) => i =? id) (kt_traffic t) ≫= fun '(_, tr) =>
            map (fun k => Archived id (k_owner k) (k_type k) tr now) (List.filter (has_id id) (kt_rows t))))
      (kt_ok t) (kt_tick t)).

Definition update_note (id : Z) (note : option str) (now : str) : KM unit :=
  let! _ := update_rows (has_id id)
    (fun k => VpnKey (k_id k) (k_owner k) (k_username k) (k_type k) (k_status k) note (k_label k)
                (k_public_key k) (k_client_ip k) (k_payload k) (k_public_payload k) (k_created_at k) now
                (k_revoked_at k) (k_expires_at k) (k_deleted_at k) (k_created_by k) (k_revoked_by k)
                (k_deleted_by k)) in
  ret tt.
Definition update_payload (id : Z) (pl public_pl : payload) (now : str) : KM unit :=
  let! _ := update_rows (has_id id)
    (fun k => VpnKey (k_id k) (k_owner k) (k_username k) (k_type k) (k_status k) (k_note k) (k_label k)
                (k_public_key k) (k_client_ip k) pl public_pl (k_created_at k) now
                (k_revoked_at k) (k_expires_at k) (k_deleted_at k) (k_created_by k) (k_revoked_by k)
                (k_deleted_by k)) in
  ret tt.

Definition get_occupied_awg_ips : KM (list str) :=
  statement ;;! gets (fun t => kt_rows t ≫= occupied_ip).

Definition clamp_limit (limit : Z) : nat := Z.to_nat (Z.max 0 (Z.min limit 500)).
Definition clamp_offset (offset : Z) : nat := Z.to_nat (Z.max 0 offset).
Definition list_by_type_statuses (type : key_type) (statuses : list key_status) (limit offset : Z)
    (after_id : option Z) : KM (list vpn_key) :=
  match statuses with
  | [] => ret []
  | _ =>
      statement ;;!
      gets (fun t => take (clamp_limit limit) (drop (clamp_offset offset)
        (List.filter (fun k => bool_decide (k_type k = type) && status_in statuses k
                               && match after_id with Some a => a <? k_id k | None => true end)
           (kt_rows t))))
  end.
