(* ===== verification/BackendHealth.v ===== *)
(** * Degraded and removed backends

    [services/backend_health.py]: which backends take no changes for now, and the
    gate every operation that changes one goes through. *)

From S2P Require Import Prelude PyText VpnKeys.
#[local] Open Scope Z_scope.

(** [VpnKeyType | ProxyAccessType] *)
Inductive backend := Vpn (type : key_type) | Socks5 | MtProto.
#[export] Instance backend_eq_dec : EqDecision backend.
Proof. solve_decision. Defined.

Record backend_health := BackendHealth {
  degraded : list (backend * str); uninstalled : list backend; skipped_revocations : Z }.
Definition healthy : backend_health := BackendHealth [] [] 0.

(** The two ways the gate refuses. *)
Inductive health_error := Uninstalled (b : backend) | Degraded (b : backend) (reason : str).

Definition drop_degraded (b : backend) (l : list (backend * str)) : list (backend * str) :=
  List.filter (fun p => negb (bool_decide (p.1 = b))) l.
Definition is_uninstalled (b : backend) (h : backend_health) : bool := bool_decide (b ∈ uninstalled h).
Definition degraded_reason (b : backend) (h : backend_health) : option str :=
  option_map snd (List.find (fun p => bool_decide (p.1 = b)) (degraded h)).

Definition mark_degraded (b : backend) (reason : str) (h : backend_health) : backend_health :=
  if is_uninstalled b h then h
  else BackendHealth ((b, reason) :: drop_degraded b (degraded h)) (uninstalled h) (skipped_revocations h).
Definition mark_uninstalled (b : backend) (h : backend_health) : backend_health :=
  BackendHealth (drop_degraded b (degraded h))
    (if is_uninstalled b h then uninstalled h else b :: uninstalled h) (skipped_revocations h).
Definition mark_healthy (b : backend) (h : backend_health) : backend_health :=
  BackendHealth (drop_degraded b (degraded h)) (uninstalled h) (skipped_revocations h).
Definition record_skipped_revocation (h : backend_health) : backend_health :=
  BackendHealth (degraded h) (uninstalled h) (skipped_revocations h + 1).

Definition require_mutation_allowed (b : backend) (h : backend_health) : result health_error unit :=
  if is_uninstalled b h then Err (Uninstalled b)
  else match degraded_reason b h with
       | Some reason => Err (Degraded b reason)
       | None => Ok tt
       end.

(** [snapshot], without the labels. *)
Record health_status := HealthStatus {
  h_backend : backend; h_degraded : bool; h_reason : option str; h_uninstalled : bool }.
Definition BACKENDS : list backend := [Vpn XRAY; Vpn AWG; Vpn HYSTERIA2; Socks5; MtProto].
Definition snapshot (h : backend_health) : list health_status :=
  map (fun b => HealthStatus b (bool_decide (is_Some (degraded_reason b h))) (degraded_reason b h)
                  (is_uninstalled b h)) BACKENDS.
