(* ===== verification/AwgService.v ===== *)
(** * The AWG key service

    [services/awg.py]: a key's row in the key table and its peer in the
    configuration and the runtime are created, revoked and deleted together. The
    service works on the key table ([VpnKeys]), the adapter ([AwgPeers]) and the
    health of the backends ([BackendHealth]); users, the module switch, the clock
    and the label generator are oracles, consulted in order. The audit is best
    effort and leaves no trace here, except where a failure to write it raises. *)

From S2P Require Import Prelude PyText PyIp Json TextLines IpAllocator AwgConfig AwgPeers VpnKeys BackendHealth.
#[local] Open Scope Z_scope.

(** ** [models/enums.py], [models/access.py], [models/dto.py] *)

Inductive user_role := SUPERADMIN | MODERATOR | APPROVED_USER | PENDING_USER | BLOCKED_USER.
#[export] Instance user_role_eq_dec : EqDecision user_role.
Proof. solve_decision. Defined.
Record user := User { u_role : user_role; u_blocked_at : option str }.
Definition is_blocked_user (u : user) : bool :=
  if bool_decide (u_role u = SUPERADMIN) then false
  else bool_decide (u_role u = BLOCKED_USER) || bool_decide (is_Some (u_blocked_at u)).

(** ** Errors: [AccessDenied], [NotFound], [InvalidOperation], [SettingsError],
    [ValueError], and what comes from below *)

Inductive service_error :=
  | UserNotFound | KeyNotFound
  | AccessBlocked | AccessNotApproved | InsufficientRights
  | CreateForOther | GuestAdminOnly | IssueToBlocked | OwnerNoAccess | ForeignKeyManage | NoteOwnOnly
  | ProtocolUnavailable | NotAwgKey | RevokeActiveOnly | ConfigActiveOnly
  | NoUniqueKeypair | NoUniqueLabel | NoPublicKey
  | BadNetworkSettings | NotIPv4Settings | ServerOutside | ServerReservedAddress
  | BadConfigAddress | NoConfigIPv4 | AddressMismatch | NoServerKey | NoEndpointPort
  | CorruptPayload | NotReady | BadNote | UserLookupFailed | AuditFailed
  | HealthError (e : health_error) | KeyError (e : key_error) | AwgError (e : awg_error) | AllocError (e : alloc_error).

(** ** Settings *)

Record awg_service_settings := AwgServiceSettings {
  awg_network : str; awg_server_address : str; awg_endpoint_host : str; awg_endpoint_port : Z;
  awg_server_public_key : str; awg_client_dns : str; awg_mtu : option Z; awg_allowed_ips : str;
  awg_persistent_keepalive : Z; awg_use_preshared_key : bool }.

(** [Settings.validate_awg_ready] *)
Definition validate_awg_ready (s : awg_service_settings) : result service_error unit :=
  if is_empty (awg_endpoint_host s) || is_empty (awg_server_public_key s)
     || negb ((1 <=? awg_endpoint_port s) && (awg_endpoint_port s <=? 65535))
  then Err NotReady else Ok tt.
Definition ensure_ipv4_network (s : awg_service_settings) : result service_error unit :=
  match ip_network (awg_network s), ip_address (before_char SLASH (awg_server_address s)) with
  | Some (inl n), Some (inl a) =>
      if negb (addr_in a n) then Err ServerOutside
      else if (a =? network_address n) || (a =? broadcast_address n) then Err ServerReservedAddress
      else Ok tt
  | Some _, Some _ => Err NotIPv4Settings
  | _, _ => Err BadNetworkSettings
  end.

(** [ipaddress.ip_interface]: the address of the text, whatever its version. *)
Definition ip_interface (value : str) : option (Z + unit) :=
  match split_addr_prefix value with
  | None => None
  | Some (addr, _) =>
      match ip_network value, ipv4_address addr with
      | Some (inl _), Some a => Some (inl a)
      | Some (inr _), _ => Some (inr tt)
      | _, _ => None
      end
  end.
(** The IPv4 addresses of the configuration's own [Address]. *)
Fixpoint config_addresses (parts : list str) : result service_error (list Z) :=
  match parts with
  | [] => Ok []
  | part :: rest =>
      let value := strip part in
      if is_empty value then config_addresses rest
      else match ip_interface value with
           | None => Err BadConfigAddress
           | Some i => result_bind (config_addresses rest) (fun l =>
                       Ok (match i with inl a => a :: l | inr _ => l end))
           end
  end.
Definition ensure_server_address_matches_config (s : awg_service_settings) (raw_address : option str)
    : result service_error unit :=
  match given raw_address with
  | None => Ok tt
  | Some raw =>
      match ip_address (before_char SLASH (awg_server_address s)) with
      | None => Err BadNetworkSettings
      | Some expected =>
          result_bind (config_addresses (split_char COMMA raw)) (fun addresses =>
          match addresses with
          | [] => Err NoConfigIPv4
          | _ => if bool_decide (expected ∈ map inl addresses) then Ok tt else Err AddressMismatch
          end)
      end
  end.
Definition server_public_key_of (s : awg_service_settings) (config_public_key : option str)
    : result service_error str :=
  if negb (is_empty (awg_server_public_key s)) then Ok (awg_server_public_key s)
  else match given config_public_key with Some k => Ok k | None => Err NoServerKey end.
Definition endpoint_port (s : awg_service_settings) (config_listen_port : option Z) : result service_error Z :=
  if negb (awg_endpoint_port s =? 0) then Ok (awg_endpoint_port s)
  else match config_listen_port with
       | Some p => if p =? 0 then Err NoEndpointPort else Ok p
       | None => Err NoEndpointPort
       end.

(** [services/notes.py normalize_note] *)
Definition MAX_NOTE_LENGTH : nat := 256.
Definition normalize_note (note : option str) : result service_error (option str) :=
  match note with
  | None => Ok None
  | Some raw =>
      let value := strip raw in
      if in_strs value [[]; py "-"] then Ok None
      else if has_char 10 value || has_char 13 value then Err BadNote
      else if (MAX_NOTE_LENGTH <? length value)%nat then Err BadNote
      else Ok (Some value)
  end.

(** ** The keys *)

Definition AWG_ACCESS_MAY_EXIST_STATUSES : list key_status :=
  [ACTIVE; PENDING_APPLY; APPLY_FAILED; PENDING_REVOKE; PENDING_DELETE; DELETE_FAILED].
Definition AWG_STARTUP_RECONCILE_STATUSES : list key_status :=
  [PENDING_APPLY; APPLY_FAILED; PENDING_REVOKE; PENDING_DELETE; DELETE_FAILED].

Definition PUBLIC_KEY : str := py "public_key".
Definition CLIENT_IP : str := py "client_ip".
(** [_stored_awg_public_key] *)
Definition stored_awg_public_key (k : vpn_key) : str :=
  strip (match payload_text PUBLIC_KEY (k_payload k) with
         | Some s => s
         | None => default [] (k_public_key k)
         end).

(** [base64.b64decode(_, validate=True)] gives 32 bytes: 43 characters of the
    alphabet and one [=]. *)
Definition is_base64 (c : N) : bool :=
  is_digit c || is_lower c || ((65 <=? c) && (c <=? 90))%N || has_char c (py "+/").
Definition decodes_to_32_bytes (s : str) : bool :=
  (length s =? 44)%nat && forallb is_base64 (take 43 s) && bool_decide (drop 43 s = [EQUALS]).
(** The placeholders the code also refuses do not decode to 32 bytes either. *)
Definition required_private_key (k : vpn_key) : result service_error str :=
  match payload_text (py "private_key") (k_payload k) with
  | Some s => if decodes_to_32_bytes s then Ok s else Err CorruptPayload
  | None => Err CorruptPayload
  end.
Definition required_client_ip (k : vpn_key) : result service_error str :=
  let client_ip := strip (match payload_text CLIENT_IP (k_payload k) with
                          | Some s => s
                          | None => default [] (k_client_ip k)
                          end) in
  match ip_address client_ip with Some (inl _) => Ok client_ip | _ => Err CorruptPayload end.

(** ** The service's world and its oracles *)

Record service_world (R : Type) := ServiceWorld {
  sw_keys : key_table; sw_awg : awg_world R; sw_health : backend_health; sw_tick : nat }.
Arguments ServiceWorld {R}. Arguments sw_keys {R}. Arguments sw_awg {R}.
Arguments sw_health {R}. Arguments sw_tick {R}.

(** What the service asks the other services, at the moment it asks. *)
Record service_env (R : Type) := ServiceEnv {
  se_awg : awg_env R;
  user_at : nat -> Z -> result unit (option user);
  module_enabled : nat -> result service_error bool;
  key_name : nat -> str;
  now_at : nat -> str;
  audit_ok : nat -> bool }.
Arguments se_awg {R}. Arguments user_at {R}. Arguments module_enabled {R}. Arguments key_name {R}.
Arguments now_at {R}. Arguments audit_ok {R}.
Record awg_service_config := ServiceConfig {
  sc_settings : awg_service_settings; sc_adapter : awg_settings; sc_allocator : ip_allocator }.

#[export] Program Instance part_keys R : Part (service_world R) key_table := {|
  part_get := sw_keys;
  part_set := fun k w => ServiceWorld k (sw_awg w) (sw_health w) (sw_tick w) |}.
Solve Obligations with (by intros; try destruct s).
#[export] Program Instance part_awg R : Part (service_world R) (awg_world R) := {|
  part_get := sw_awg;
  part_set := fun a w => ServiceWorld (sw_keys w) a (sw_health w) (sw_tick w) |}.
Solve Obligations with (by intros; try destruct s).

Section Service.
Context {R : Type} (env : service_env R) (cfg : awg_service_config).
Abbreviation SM := (M (service_world R) service_error) (only parsing).

Definition on_keys {A} (m : M key_table key_error A) : SM A := embed KeyError m.
Definition on_awg {A} (m : M (awg_world R) awg_error A) : SM A := embed AwgError m.
Definition moment : SM nat := fun w =>
  (Ok (sw_tick w), ServiceWorld (sw_keys w) (sw_awg w) (sw_health w) (S (sw_tick w))).
Definition clock_now : SM str := let! t := moment in ret (now_at env t).
Definition set_health (f : backend_health -> backend_health) : SM unit := modify (fun w =>
  ServiceWorld (sw_keys w) (sw_awg w) (f (sw_health w)) (sw_tick w)).
Definition require_awg_allowed : SM unit :=
  let! w := get in
  match require_mutation_allowed (Vpn AWG) (sw_health w) with
  | Ok _ => ret tt
  | Err e => raise (HealthError e)
  end.
(** [self.audit.write], where its failure is the operation's. *)
Definition audit_write : SM unit :=
  let! t := moment in if audit_ok env t then ret tt else raise AuditFailed.

(** ** [services/users.py] *)

Definition get_user (id : Z) : SM user :=
  let! t := moment in
  match user_at env t id with
  | Ok (Some u) => ret u
  | Ok None => raise UserNotFound
  | Err _ => raise UserLookupFailed
  end.
Definition require_approved_or_admin (actor : Z) : SM user :=
  let! u := get_user actor in
  if bool_decide (u_role u ∈ [SUPERADMIN; MODERATOR]) then ret u
  else if is_blocked_user u then raise AccessBlocked
  else if bool_decide (u_role u = APPROVED_USER) then ret u else raise AccessNotApproved.
Definition require_superadmin (actor : Z) : SM user :=
  let! u := get_user actor in
  if bool_decide (u_role u = SUPERADMIN) then ret u else raise InsufficientRights.

Definition ensure_can_create (actor owner : Z) (allow_pending_owner : bool) : SM unit :=
  let! a := require_approved_or_admin actor in
  if negb (bool_decide (u_role a = SUPERADMIN)) && negb (actor =? owner) then raise CreateForOther
  else if allow_pending_owner then
    if negb (bool_decide (u_role a = SUPERADMIN)) then raise GuestAdminOnly
    else
      let! o := get_user owner in
      if is_blocked_user o then raise IssueToBlocked else ret tt
  else
    let! o := require_approved_or_admin owner in
    if bool_decide (u_role o ∈ [SUPERADMIN; APPROVED_USER]) then ret tt else raise OwnerNoAccess.

(** ** Finding the key *)

Definition get_key (id : Z) : SM vpn_key :=
  let! found := on_keys (get_by_id id) in
  match found with Some k => ret k | None => raise KeyNotFound end.
Definition get_awg_key_for_manage (actor id : Z) : SM vpn_key :=
  let! a := require_approved_or_admin actor in
  let! k := get_key id in
  if negb (bool_decide (k_type k = AWG)) then raise NotAwgKey
  else if negb (bool_decide (u_role a = SUPERADMIN)) && negb (k_owner k =? actor) then raise ForeignKeyManage
  else ret k.

(** [range(n)] attempts. *)
Fixpoint generate_unique_keypair (n : nat) : SM (str * str) :=
  match n with
  | O => raise NoUniqueKeypair
  | S n' =>
      let! private_key := on_awg (generate_private_key (se_awg env)) in
      let! public_key := on_awg (generate_public_key (se_awg env) private_key) in
      let! taken := on_keys (find_by_public_key public_key) in
      match taken with
      | None => ret (private_key, public_key)
      | Some _ => generate_unique_keypair n'
      end
  end.
Fixpoint generate_unique_label (n : nat) : SM str :=
  match n with
  | O => raise NoUniqueLabel
  | S n' =>
      let! t := moment in
      let! taken := on_keys (find_by_email_label (key_name env t)) in
      match taken with
      | None => ret (key_name env t)
      | Some _ => generate_unique_label n'
      end
  end.

(** [self.ip_allocator.next_free_ip()], with its two sources. *)
Definition list_allowed_ips : M (awg_world R) awg_error (list str) :=
  let! text := read_text (se_awg env) in lift (list_peer_allowed_ips text).
Definition allocate_ip : SM str :=
  let! values := on_keys get_occupied_awg_ips in
  let! peers := attempt (on_awg list_allowed_ips) in
  match next_free_ip (sc_allocator cfg) values
          (Some (match peers with Ok l => Ok l | Err _ => Err SourceError end)) with
  | Ok ip => ret ip
  | Err e => raise (AllocError e)
  end.

Definition managed_awg_public_key (id : Z) : M (awg_world R) awg_error str :=
  let! text := read_text (se_awg env) in
  ret (strip (default [] (find_managed_peer_public_key text id))).
Definition adapter_find_peer (public_key client_ip : option str) : M (awg_world R) awg_error (option dict) :=
  let! text := read_text (se_awg env) in lift (find_peer text public_key client_ip).
Definition adapter_read_server_config : M (awg_world R) awg_error awg_server_config :=
  let! text := read_text (se_awg env) in lift (read_server_config text).

(** [_remove_awg_access] *)
Definition remove_awg_access (k : vpn_key) : SM unit :=
  let! public_key :=
    (match given (Some (stored_awg_public_key k)) with
     | Some pk => ret pk
     | None => on_awg (managed_awg_public_key (k_id k))
     end) in
  if is_empty public_key then raise NoPublicKey
  else on_awg (remove_peer (se_awg env) (sc_adapter cfg) (k_id k) (Some public_key)).

(** ** What the client is given *)

Definition option_lines (options : dict) : list str :=
  options ≫= (fun '(option, value) =>
    if bool_decide (option = py "DNS") || is_empty (strip value) then [] else [option ++ py " = " ++ value]).
(** [int(str(key_mtu))] of the payload; a text that is no number raises. *)
Definition client_options (k : vpn_key) (options : dict) : result service_error dict :=
  let set n := Ok (dict_set (py "MTU") (show_Z n) options) in
  match dict_get (py "mtu") (k_payload k) with
  | Some (PNumber n) => set n
  | Some (PText s) => match int_of_str s with Some n => set n | None => Err CorruptPayload end
  | Some PNull | None =>
      match awg_mtu (sc_settings cfg) with Some n => set n | None => Ok options end
  end.
(** The server's key and port, and the key's own values, in the order they are checked. *)
Record client_values := ClientValues {
  cv_server_key : str; cv_port : Z; cv_private_key : str; cv_client_ip : str }.
Definition client_values_of (k : vpn_key) (server : awg_server_config) : result service_error client_values :=
  let s := sc_settings cfg in
  result_bind (ensure_server_address_matches_config s (address server)) (fun _ =>
  result_bind (server_public_key_of s (server_public_key server)) (fun server_key =>
  result_bind (endpoint_port s (listen_port server)) (fun port =>
  result_bind (required_private_key k) (fun private_key =>
  result_bind (required_client_ip k) (fun client_ip =>
  Ok (ClientValues server_key port private_key client_ip)))))).
Definition client_config_lines (k : vpn_key) (v : client_values) (options : dict) : list str :=
  let s := sc_settings cfg in
  [py "[Interface]"; py "PrivateKey = " ++ cv_private_key v; py "Address = " ++ cv_client_ip v ++ py "/32";
   py "DNS = " ++ awg_client_dns s]
  ++ option_lines options
  ++ [[]; py "[Peer]"; py "PublicKey = " ++ cv_server_key v]
  ++ match payload_text (py "preshared_key") (k_payload k) with
     | Some psk => [py "PresharedKey = " ++ psk]
     | None => []
     end
  ++ [py "AllowedIPs = " ++ awg_allowed_ips s;
      py "Endpoint = " ++ awg_endpoint_host s ++ COLON :: show_Z (cv_port v);
      py "PersistentKeepalive = " ++ show_Z (awg_persistent_keepalive s)].
(** [client_interface_options]: nothing when the file is gone. *)
Definition client_interface_options : M (awg_world R) awg_error dict :=
  let! w := get in
  match o_config (w_out w) with
  | None => ret []
  | Some _ => let! server := adapter_read_server_config in ret (interface_options server)
  end.
(** [_client_config] *)
Definition client_config (k : vpn_key) : SM str :=
  let! server := on_awg adapter_read_server_config in
  let! values := lift (client_values_of k server) in
  let! options := on_awg client_interface_options in
  let! options := lift (client_options k options) in
  ret (str_join [NEWLINE] (client_config_lines k values options)).

(** ** Creating a key *)

Definition opt_text (o : option str) : pvalue := match o with Some s => PText s | None => PNull end.
Definition key_payload (private_key public_key : str) (preshared_key : option str) (client_ip label : str)
    (mtu : option Z) : payload :=
  [(py "private_key", PText private_key); (PUBLIC_KEY, PText public_key);
   (py "preshared_key", opt_text preshared_key); (CLIENT_IP, PText client_ip);
   (py "email_label", PText label)]
  ++ match mtu with Some n => [(py "mtu", PNumber n)] | None => [] end.
Definition key_public_payload (public_key client_ip label : str) (port : Z) : payload :=
  [(PUBLIC_KEY, PText public_key); (CLIENT_IP, PText client_ip);
   (py "endpoint", PText (awg_endpoint_host (sc_settings cfg) ++ COLON :: show_Z port));
   (py "email_label", PText label)].

Definition COMPENSATION_FAILED : str := py "post-apply mark_active failed and compensation failed".
(** [_compensate_failed_create_after_apply] *)
Definition compensate_failed_create (id : Z) (public_key : str) : SM unit :=
  let! removed := attempt (on_awg (remove_peer (se_awg env) (sc_adapter cfg) id (Some public_key))) in
  match removed with
  | Err _ => set_health (mark_degraded (Vpn AWG) COMPENSATION_FAILED)
  | Ok _ =>
      let! now := clock_now in
      let! _ := attempt (on_keys (set_status id APPLY_FAILED now [])) in
      ret tt
  end.

Record new_key := NewKey {
  n_actor : Z; n_owner : Z; n_username : option str; n_note : option str; n_expires_at : option str;
  n_allow_pending_owner : bool; n_mtu : option Z }.

(** The part of [create_awg_key] that chooses the key's values and stores the row. *)
Definition store_new_key (req : new_key) (clean_note : option str) : SM (vpn_key * (str * option str * str * str)) :=
  let! server := on_awg adapter_read_server_config in
  lift (ensure_server_address_matches_config (sc_settings cfg) (address server)) ;;!
  let! _ := lift (server_public_key_of (sc_settings cfg) (server_public_key server)) in
  let! port := lift (endpoint_port (sc_settings cfg) (listen_port server)) in
  let! client_ip := allocate_ip in
  let! keypair := generate_unique_keypair 3 in
  let '(private_key, public_key) := keypair in
  let! label := generate_unique_label 5 in
  let! preshared_key :=
    (if awg_use_preshared_key (sc_settings cfg)
     then let! psk := on_awg (generate_preshared_key (se_awg env)) in ret (Some psk) else ret None) in
  let! now := clock_now in
  let! key := on_keys (create_pending (n_owner req) (n_username req) AWG clean_note
    (key_payload private_key public_key preshared_key client_ip label (n_mtu req))
    (key_public_payload public_key client_ip label port)
    (n_actor req) now (Some label) (Some public_key) (Some client_ip) (n_expires_at req)) in
  ret (key, (public_key, preshared_key, client_ip, label)).

(** The peer of a stored row; a failure marks the row. *)
Definition apply_new_key (req : new_key) (id : Z) (public_key : str) (preshared_key : option str)
    (client_ip label : str) : SM unit :=
  catch
    (ensure_can_create (n_actor req) (n_owner req) (n_allow_pending_owner req) ;;!
     on_awg (add_peer (se_awg env) (sc_adapter cfg) id (n_owner req) public_key preshared_key client_ip (Some label)))
    (fun exc =>
       let! now := clock_now in
       on_keys (set_status id APPLY_FAILED now []) ;;!
       raise exc).
Definition activate_new_key (id : Z) (public_key : str) (pl public_pl : payload) : SM unit :=
  catch
    (let! now := clock_now in on_keys (mark_active id now (Some pl) (Some public_pl)))
    (fun exc => compensate_failed_create id public_key ;;! raise exc).

Definition create_awg_key (req : new_key) : SM (vpn_key * str) :=
  require_awg_allowed ;;!
  let! t := moment in
  let! enabled := lift (module_enabled env t) in
  (if enabled : bool then ret tt else raise ProtocolUnavailable) ;;!
  lift (validate_awg_ready (sc_settings cfg)) ;;!
  lift (ensure_ipv4_network (sc_settings cfg)) ;;!
  let! clean_note := lift (normalize_note (n_note req)) in
  ensure_can_create (n_actor req) (n_owner req) (n_allow_pending_owner req) ;;!
  require_awg_allowed ;;!
  ensure_can_create (n_actor req) (n_owner req) (n_allow_pending_owner req) ;;!
  let! stored := store_new_key req clean_note in
  let '(key, (public_key, preshared_key, client_ip, label)) := stored in
  apply_new_key req (k_id key) public_key preshared_key client_ip label ;;!
  activate_new_key (k_id key) public_key (k_payload key) (k_public_payload key) ;;!
  let! active_key := get_key (k_id key) in
  let! text := client_config active_key in
  ret (active_key, text).

(** ** Revoking and deleting *)

(** The steps both revocations share: the row waits for the peer to go, and gets
    its status back when it does not. *)
Definition revoke_access (k : vpn_key) (revoked_by : Z) : SM vpn_key :=
  let! now := clock_now in
  on_keys (set_status (k_id k) PENDING_REVOKE now []) ;;!
  catch (remove_awg_access k)
    (fun exc =>
       let! now := clock_now in
       on_keys (set_status (k_id k) (k_status k) now []) ;;!
       raise exc) ;;!
  let! now := clock_now in
  on_keys (mark_revoked (k_id k) revoked_by now) ;;!
  get_key (k_id k).
Definition revoke_found (k : vpn_key) (revoked_by : Z) : SM vpn_key :=
  if status_in [REVOKED; DELETED] k then ret k
  else if negb (status_in AWG_ACCESS_MAY_EXIST_STATUSES k) then raise RevokeActiveOnly
  else revoke_access k revoked_by.
Definition revoke_awg_key (actor id : Z) : SM vpn_key :=
  require_awg_allowed ;;!
  require_awg_allowed ;;!
  let! k := get_awg_key_for_manage actor id in
  revoke_found k actor.
Definition revoke_awg_key_system (id : Z) (actor : option Z) : SM vpn_key :=
  require_awg_allowed ;;!
  require_awg_allowed ;;!
  let! k := get_key id in
  if negb (bool_decide (k_type k = AWG)) then raise NotAwgKey
  else revoke_found k (default (k_created_by k) actor).

Definition delete_awg_key (actor id : Z) : SM unit :=
  require_awg_allowed ;;!
  require_awg_allowed ;;!
  let! k := get_awg_key_for_manage actor id in
  let! now := clock_now in
  on_keys (set_status id PENDING_DELETE now []) ;;!
  catch (if status_in AWG_ACCESS_MAY_EXIST_STATUSES k then remove_awg_access k else ret tt)
    (fun exc =>
       let! now := clock_now in
       on_keys (set_status id DELETE_FAILED now []) ;;!
       raise exc) ;;!
  let! now := clock_now in
  on_keys (hard_delete_with_stats id now).

(** ** The other operations *)

Definition update_awg_note (actor id : Z) (note : option str) : SM vpn_key :=
  let! k := get_awg_key_for_manage actor id in
  if negb (k_owner k =? actor) then raise NoteOwnOnly
  else
    let! clean_note := lift (normalize_note note) in
    let! now := clock_now in
    on_keys (update_note (k_id k) clean_note now) ;;!
    get_key id.

Definition reconcile_key_status (actor id : Z) : SM vpn_key :=
  let! _ := require_superadmin actor in
  require_awg_allowed ;;!
  let! k := get_key id in
  if negb (bool_decide (k_type k = AWG)) then raise NotAwgKey
  else
    let! peer :=
      (match given (Some (stored_awg_public_key k)) with
       | Some pk => on_awg (adapter_find_peer (Some pk) None)
       | None => ret None
       end) in
    (match peer with
     | Some _ =>
         if status_in [PENDING_APPLY; APPLY_FAILED] k
         then let! now := clock_now in on_keys (mark_active (k_id k) now None None)
         else ret tt
     | None =>
         if status_in [PENDING_APPLY] k
         then let! now := clock_now in on_keys (set_status (k_id k) APPLY_FAILED now [])
         else ret tt
     end) ;;!
    audit_write ;;!
    get_key id.

(** [get_awg_client_config_plain]; reading changes nothing. *)
Definition ensure_client_payload_valid (k : vpn_key) : SM unit :=
  match required_private_key k, required_client_ip k with
  | Ok _, Ok _ => ret tt
  | Err e, _ | _, Err e => audit_write ;;! raise e
  end.
Definition get_awg_client_config_plain (actor id : Z) : SM str :=
  let! k := get_awg_key_for_manage actor id in
  if negb (status_in [ACTIVE] k) then raise ConfigActiveOnly
  else ensure_client_payload_valid k ;;! client_config k.

(** ** Start-up: finishing what a stop has interrupted *)

(** [_runtime_peer_present] *)
Definition runtime_peer_present (k : vpn_key) : SM bool :=
  match given (k_public_key k) with
  | None => ret false
  | Some pk => on_awg (verify_runtime_peer (se_awg env) (sc_adapter cfg) pk)
  end.
Definition fail_pending_apply (k : vpn_key) : SM unit :=
  if status_in [PENDING_APPLY] k
  then let! now := clock_now in on_keys (set_status (k_id k) APPLY_FAILED now [])
  else ret tt.
(** [a or b or c] on user ids, where 0 is false. *)
Definition first_actor (candidates : list (option Z)) (otherwise : Z) : Z :=
  hd otherwise (List.filter (fun n => negb (n =? 0)) (omap id candidates)).
(** [_startup_reconcile_key]; whether the key has changed. *)
Definition startup_reconcile_key (k : vpn_key) : SM bool :=
  match k_status k with
  | PENDING_APPLY | APPLY_FAILED =>
      let! peer := on_awg (adapter_find_peer (k_public_key k) (k_client_ip k)) in
      match peer with
      | Some _ =>
          let! now := clock_now in
          on_keys (mark_active (k_id k) now None None) ;;! ret true
      | None =>
          let! present := runtime_peer_present k in
          if present : bool then remove_awg_access k ;;! fail_pending_apply k ;;! ret true
          else if status_in [PENDING_APPLY] k then fail_pending_apply k ;;! ret true
          else ret false
      end
  | PENDING_REVOKE =>
      remove_awg_access k ;;!
      let! now := clock_now in
      on_keys (mark_revoked (k_id k)
        (first_actor [k_revoked_by k; k_deleted_by k] (k_created_by k)) now) ;;!
      ret true
  | PENDING_DELETE | DELETE_FAILED =>
      catch (remove_awg_access k)
        (fun exc =>
           let! now := clock_now in
           on_keys (set_status (k_id k) DELETE_FAILED now []) ;;!
           raise exc) ;;!
      let! now := clock_now in
      on_keys (hard_delete_with_stats (k_id k) now) ;;!
      ret true
  | _ => ret false
  end.

(** The keys of one batch; a key that cannot be finished is counted. *)
Record reconcile_summary := ReconcileSummary { checked : Z; recovered : Z; failed_keys : Z }.
Fixpoint reconcile_batch (keys : list vpn_key) (s : reconcile_summary) : SM reconcile_summary :=
  match keys with
  | [] => ret s
  | k :: rest =>
      let! outcome := attempt (startup_reconcile_key k) in
      reconcile_batch rest
        (match outcome with
         | Ok changed => ReconcileSummary (checked s + 1)
                           (if changed : bool then recovered s + 1 else recovered s) (failed_keys s)
         | Err _ => ReconcileSummary (checked s + 1) (recovered s) (failed_keys s + 1)
         end)
  end.
Definition BATCH : Z := 500.
(** The loop of [startup_reconcile]; every batch starts behind the one before. *)
Fixpoint reconcile_loop (fuel : nat) (last_id : Z) (s : reconcile_summary) : SM (option reconcile_summary) :=
  match fuel with
  | O => ret None
  | S fuel' =>
      let! keys := on_keys (list_by_type_statuses AWG AWG_STARTUP_RECONCILE_STATUSES BATCH 0 (Some last_id)) in
      match keys with
      | [] => ret (Some s)
      | _ =>
          let! s' := reconcile_batch keys s in
          reconcile_loop fuel' (List.last (map k_id keys) last_id) s'
      end
  end.
(** [startup_reconcile] up to the drift check. Every turn but the last leaves at
    least one row behind it, so the rows of the table bound the turns. *)
Definition startup_reconcile : SM (option reconcile_summary) := fun w =>
  reconcile_loop (S (length (kt_rows (sw_keys w)))) 0 (ReconcileSummary 0 0 0) w.
End Service.
