(* ===== verification/KeyRows.v ===== *)
(** * What the key table's statements keep

    The rows seen by the AWG service: unique ids below the sequence, the unique
    indexes, and a public key that is the same in the column and in the payload. A
    peer is accounted for by the row that carries its key, its address and a status
    in which access may exist. *)

From S2P Require Import Prelude PyText Json Triples AwgConfig AwgPeers AwgLayout AwgRefine VpnKeys AwgService.
#[local] Open Scope Z_scope.

#[local] Opaque py.

Lemma sublist_in {A} (l1 l2 : list A) x : l1 `sublist_of` l2 -> x ∈ l1 -> x ∈ l2.
Proof. intros Hs Hx. eapply elem_of_submseteq; [exact Hx|by apply sublist_submseteq]. Qed.

Section Rows.
(** The public keys the service may give out. *)
Variable free : str -> Prop.

Definition row_fits (k : vpn_key) : Prop :=
  k_type k = AWG -> exists pk, k_public_key k = Some pk /\ stored_awg_public_key k = pk /\ free pk.
Record rows_ok (rows : list vpn_key) (seq : Z) : Prop := {
  ro_ids : NoDup (map k_id rows);
  ro_seq : Forall (fun k => k_id k <= seq) rows;
  ro_indexes : indexes_ok rows = true;
  ro_fits : Forall row_fits rows }.

Definition may_exist (k : vpn_key) : Prop := k_status k ∈ AWG_ACCESS_MAY_EXIST_STATUSES.
Definition accounts (rows : list vpn_key) (p : peer) (k : vpn_key) : Prop :=
  k ∈ rows /\ k_id k = p_id p /\ k_type k = AWG /\ may_exist k
  /\ k_public_key k = Some (p_key p) /\ k_client_ip k = Some (p_ip p).
Definition accounted (rows : list vpn_key) (p : peer) : Prop := exists k, accounts rows p k.

(** Two rows of one key: what the service reads of it to take its peer away. *)
Definition same_key (k k' : vpn_key) : Prop :=
  k_id k' = k_id k /\ k_type k' = k_type k /\ k_public_key k' = k_public_key k /\ k_payload k' = k_payload k.
#[export] Instance same_key_pre : PreOrder same_key.
Proof. unfold same_key. split; [done|]. intros a b c (?&?&?&?) (?&?&?&?). repeat split; congruence. Qed.
Definition rowed (k : vpn_key) (rows : list vpn_key) : Prop := exists k', k' ∈ rows /\ same_key k k'.

Lemma same_key_stored k k' : same_key k k' -> stored_awg_public_key k' = stored_awg_public_key k.
Proof. intros (_ & _ & H1 & H2). unfold stored_awg_public_key. by rewrite H1, H2. Qed.
Lemma same_key_fits k k' : same_key k k' -> row_fits k -> row_fits k'.
Proof.
  intros Hs Hf Ht. pose proof (same_key_stored _ _ Hs) as E. destruct Hs as (_ & Hty & Hpk & _).
  rewrite Hty in Ht. destruct (Hf Ht) as (pk & ? & ? & ?). exists pk. rewrite Hpk, E. done.
Qed.

(** An [UPDATE]. *)
Definition updated (p : vpn_key -> bool) (f : vpn_key -> vpn_key) (rows : list vpn_key) : list vpn_key :=
  map (fun k => if p k then f k else k) rows.
Definition mild (p : vpn_key -> bool) (f : vpn_key -> vpn_key) (rows : list vpn_key) : Prop :=
  forall k, k ∈ rows -> p k = true -> same_key k (f k).

Lemma updated_row_elem p f rows k : mild p f rows -> k ∈ rows ->
  exists k', k' ∈ updated p f rows /\ same_key k k' /\ k' = if p k then f k else k.
Proof.
  intros Hm Hk. exists (if p k then f k else k). split; [by apply (list_elem_of_fmap_2 (fun k => if p k then f k else k))|].
  split; [|done]. destruct (p k) eqn:E; [by apply Hm|reflexivity].
Qed.
Lemma updated_inv p f rows k' : mild p f rows -> k' ∈ updated p f rows ->
  exists k, k ∈ rows /\ same_key k k' /\ k' = if p k then f k else k.
Proof.
  intros Hm (k & -> & Hk)%list_elem_of_fmap. exists k. split; [done|]. split; [|done].
  destruct (p k) eqn:E; [by apply Hm|reflexivity].
Qed.
Lemma updated_ids p f rows : mild p f rows -> map k_id (updated p f rows) = map k_id rows.
Proof.
  unfold updated, mild. induction rows as [|k rows IH]; intros Hm; [done|]. cbn. f_equal.
  - destruct (p k) eqn:E; [|done]. by destruct (Hm k (list_elem_of_here _ _) E).
  - apply IH. intros k' Hk'. apply Hm. by apply list_elem_of_further.
Qed.

Lemma updated_rows_ok p f rows seq : mild p f rows -> indexes_ok (updated p f rows) = true ->
  rows_ok rows seq -> rows_ok (updated p f rows) seq.
Proof.
  intros Hm Hi [H1 H2 _ H4]. split; [by rewrite updated_ids| |done|].
  - apply Forall_elem. intros k' (k & Hk & (-> & _) & _)%updated_inv; [|done].
    by apply (proj1 (Forall_elem _ _) H2).
  - apply Forall_elem. intros k' (k & Hk & Hs & _)%updated_inv; [|done].
    apply (same_key_fits k); [done|]. by apply (proj1 (Forall_elem _ _) H4).
Qed.

Lemma updated_rowed p f rows k : mild p f rows -> rowed k rows -> rowed k (updated p f rows).
Proof.
  intros Hm (k1 & Hk & Hs). destruct (updated_row_elem p f rows k1 Hm Hk) as (k2 & ? & ? & _).
  exists k2. split; [done|]. by transitivity k1.
Qed.

Lemma updated_accounted p f rows peer : mild p f rows ->
  (forall k, k ∈ rows -> p k = true -> k_id k = p_id peer -> may_exist k -> may_exist (f k) /\ k_client_ip (f k) = k_client_ip k) ->
  accounted rows peer -> accounted (updated p f rows) peer.
Proof.
  intros Hm Hf (k & Hk & Hid & Ht & Hs & Hpk & Hip).
  destruct (updated_row_elem p f rows k Hm Hk) as (k' & Hk' & (E1 & E2 & E3 & _) & E).
  exists k'. unfold accounts. rewrite E1, E2, E3. repeat split; try done.
  - destruct (p k) eqn:Ep; subst k'; [|done]. by apply (Hf k Hk Ep Hid Hs).
  - destruct (p k) eqn:Ep; subst k'; [|done]. destruct (Hf k Hk Ep Hid Hs) as [_ ->]. done.
Qed.

(** A row is determined by its id, and by its public key. *)
Lemma map_inj_elem {A B} (f : A -> B) l x y : NoDup (map f l) -> x ∈ l -> y ∈ l -> f x = f y -> x = y.
Proof.
  induction l as [|a l IH]; intros Hn Hx Hy E; [by apply elem_of_nil in Hx|].
  cbn in Hn. apply NoDup_cons in Hn as [Ha Hn]. apply elem_of_cons in Hx as [->|Hx], Hy as [->|Hy]; try done.
  - exfalso. apply Ha. rewrite E. by apply list_elem_of_fmap_2.
  - exfalso. apply Ha. rewrite <- E. by apply list_elem_of_fmap_2.
  - by apply IH.
Qed.
Lemma same_id rows seq k k' : rows_ok rows seq -> k ∈ rows -> k' ∈ rows -> k_id k = k_id k' -> k = k'.
Proof. intros [H _ _ _]. by apply map_inj_elem. Qed.
Lemma omap_inj_elem {A B} (f : A -> option B) l x y b : NoDup (omap f l) -> x ∈ l -> y ∈ l ->
  f x = Some b -> f y = Some b -> x = y.
Proof.
  induction l as [|a l IH]; intros Hn Hx Hy Ex Ey; [by apply elem_of_nil in Hx|].
  cbn in Hn. destruct (f a) as [c|] eqn:Ea.
  - apply NoDup_cons in Hn as [Hc Hn].
    apply elem_of_cons in Hx as [->|Hx], Hy as [->|Hy]; try done.
    + exfalso. apply Hc. apply list_elem_of_omap. exists y. split; congruence.
    + exfalso. apply Hc. apply list_elem_of_omap. exists x. split; congruence.
    + by apply IH.
  - apply elem_of_cons in Hx as [->|Hx]; [congruence|]. apply elem_of_cons in Hy as [->|Hy]; [congruence|]. by apply IH.
Qed.
Lemma indexes_inv rows : indexes_ok rows = true ->
  NoDup (omap k_label rows) /\ NoDup (omap k_public_key rows) /\ NoDup (rows ≫= occupied_ip).
Proof. unfold indexes_ok. intros H. bool_prop. done. Qed.
Lemma same_public_key rows seq k k' pk : rows_ok rows seq -> k ∈ rows -> k' ∈ rows ->
  k_public_key k = Some pk -> k_public_key k' = Some pk -> k = k'.
Proof. intros [_ _ Hi _]. apply indexes_inv in Hi as (_ & Hi & _). by apply omap_inj_elem. Qed.

Lemma may_exist_reserved k : may_exist k <-> status_in reserved_statuses k = true.
Proof.
  unfold may_exist, status_in. rewrite bool_decide_eq_true.
  unfold AWG_ACCESS_MAY_EXIST_STATUSES, reserved_statuses. set_solver.
Qed.
Lemma bind_inj_elem {A B} (f : A -> list B) l x y b : NoDup (l ≫= f) -> x ∈ l -> y ∈ l ->
  b ∈ f x -> b ∈ f y -> x = y.
Proof.
  induction l as [|a l IH]; intros Hn Hx Hy Ex Ey; [by apply elem_of_nil in Hx|].
  change ((a :: l) ≫= f) with (f a ++ (l ≫= f)) in Hn. apply NoDup_app in Hn as (_ & Hd & Hn).
  apply elem_of_cons in Hx as [->|Hx], Hy as [->|Hy]; try done.
  - exfalso. apply (Hd b Ex). apply list_elem_of_bind. eauto.
  - exfalso. apply (Hd b Ey). apply list_elem_of_bind. eauto.
  - by apply IH.
Qed.

(** Accounted peers have addresses of their own. *)
Lemma accounted_addresses rows seq peers : rows_ok rows seq -> NoDup (map p_id peers) ->
  Forall (accounted rows) peers -> NoDup (map p_ip peers).
Proof.
  intros Hr Hn Ha. pose proof (ro_indexes _ _ Hr) as (_ & _ & Hi)%indexes_inv.
  assert (forall p, accounted rows p -> exists k, k ∈ rows /\ k_id k = p_id p /\ p_ip p ∈ occupied_ip k) as Hk.
  { intros p (k & Hk & Hid & Ht & Hs%may_exist_reserved & _ & Hip). exists k. repeat split; try done.
    unfold occupied_ip. rewrite Ht, Hs, Hip. cbn. by left. }
  induction peers as [|p peers IH]; [constructor|]. cbn in *.
  apply NoDup_cons in Hn as [Hp Hn]. apply Forall_cons in Ha as [Hap Ha].
  apply NoDup_cons. split; [|by apply IH]. intros (q & E & Hq)%list_elem_of_fmap.
  destruct (Hk p Hap) as (k & Hkr & Hid & Hip).
  destruct (Hk q) as (k' & Hkr' & Hid' & Hip'); [by apply (proj1 (Forall_elem _ _) Ha)|].
  rewrite <- E in Hip'. assert (k = k') as -> by by eapply bind_inj_elem.
  apply Hp. rewrite <- Hid, Hid'. by apply list_elem_of_fmap_2.
Qed.

Lemma bind_filter_NoDup {A B} (g : A -> list B) f l : NoDup (l ≫= g) -> NoDup (List.filter f l ≫= g).
Proof.
  induction l as [|a l IH]; [done|]. change ((a :: l) ≫= g) with (g a ++ (l ≫= g)).
  intros (Ha & Hd & Hn)%NoDup_app. cbn [List.filter]. destruct (f a); [|by apply IH].
  change ((a :: List.filter f l) ≫= g) with (g a ++ (List.filter f l ≫= g)).
  apply NoDup_app. split; [done|]. split; [|by apply IH].
  intros b Hb (x & Hbx & [Hx _]%list_elem_of_In%filter_In)%list_elem_of_bind. apply (Hd b Hb).
  apply list_elem_of_bind. exists x. split; [done|by apply list_elem_of_In].
Qed.
Lemma omap_bind {A B} (g : A -> option B) l : omap g l = l ≫= (fun a => match g a with Some b => [b] | None => [] end).
Proof. induction l as [|a l IH]; [done|]. cbn. rewrite IH. by destruct (g a). Qed.
Lemma map_bind {A B} (g : A -> B) l : map g l = l ≫= (fun a => [g a]).
Proof. induction l as [|a l IH]; [done|]. cbn. by rewrite IH. Qed.

Lemma removed_rows_ok rows seq f : rows_ok rows seq -> rows_ok (List.filter f rows) seq.
Proof.
  intros [H1 H2 H3 H4]. split; [|by apply filter_Forall| |by apply filter_Forall].
  - rewrite map_bind in *. by apply bind_filter_NoDup.
  - apply indexes_inv in H3 as (Ha & Hb & Hc). rewrite !omap_bind in Ha, Hb. unfold indexes_ok.
    rewrite !omap_bind, !bool_decide_eq_true_2 by by apply bind_filter_NoDup. done.
Qed.
Lemma removed_accounted rows id p : p_id p <> id -> accounted rows p ->
  accounted (List.filter (fun k => negb (has_id id k)) rows) p.
Proof.
  intros Hp (k & Hk & Hid & H). exists k. split; [|done]. apply list_elem_of_In, filter_In.
  split; [by apply list_elem_of_In|]. unfold has_id. apply negb_true_iff, Z.eqb_neq. congruence.
Qed.

(** An inserted row. *)
Lemma inserted_rows_ok rows seq k : rows_ok rows seq -> k_id k = seq + 1 -> row_fits k ->
  indexes_ok (rows ++ [k]) = true -> rows_ok (rows ++ [k]) (seq + 1).
Proof.
  intros [H1 H2 _ H4] Hid Hf Hi. rewrite Forall_elem in H2. split; [|apply Forall_app; split|done|].
  - rewrite map_app. apply NoDup_app. split; [done|]. split; [|apply NoDup_singleton].
    intros x (r & -> & Hr)%list_elem_of_fmap E%list_elem_of_singleton. specialize (H2 r Hr). cbn in H2. lia.
  - apply Forall_elem. intros r Hr. specialize (H2 r Hr). cbn in *. lia.
  - constructor; [lia|constructor].
  - apply Forall_app. by repeat constructor.
Qed.
Lemma accounted_more rows rows' p : accounted rows p -> accounted (rows ++ rows') p.
Proof. intros (k & Hk & H). exists k. split; [|done]. apply elem_of_app. by left. Qed.
End Rows.
