(* ===== verification/AwgAccess.v ===== *)
(** * No access without a key

    The invariant of the AWG service ([AwgService]): whatever requests are served
    and whichever statement, tool or file operation fails, every peer the bot has
    in the configuration belongs to a row of the key table that says so. *)

From S2P Require Import Prelude PyText PyIp IpSpace Json TextLines Triples IpAllocator AwgConfig AwgLayout AwgRemoval AwgRefine AwgPeers AwgAtomic VpnKeys BackendHealth AwgService KeyRows.
#[local] Open Scope Z_scope.

#[local] Opaque py.

Section Access.
Context {R : Type} (env : service_env R) (cfg : awg_service_config).
(** The configuration's own part, and what it parses to. *)
Variables (base : list str) (base_views : list view).
Hypothesis base_clean : Forall clean base.
Hypothesis base_tight : tight base.
Hypothesis base_unmarked :
  Forall (fun l => startswith start_prefix l = false /\ startswith start_prefix (strip l) = false) base.
Hypothesis base_parses : view_of (content base) = Ok base_views.
(** The direct mode; nobody else writes the file; the tools act on the interface only. *)
Hypothesis direct : using_helper (sc_adapter cfg) = false.
Hypothesis quiet : forall t o, others (se_awg env) t o = o.
Hypothesis tools_leave_file : forall t b c o, o_config (tool (se_awg env) t b c o).2 = o_config o.
(** A generated key is not the key of a section of the configuration's own part. *)
Definition free (pk : str) : Prop :=
  forall v, v ∈ base_views -> dict_get (py "PublicKey") v.2 <> Some pk.
Hypothesis new_keys_are_free : forall t b private_key o,
  free (first_line_of (runner_result runner_limit (tool (se_awg env) t b (CPubKey private_key) o).1)).
Hypothesis pool_ok : wf_allocator (sc_allocator cfg).

Abbreviation text_in w := (o_config (w_out (sw_awg w))) (only parsing).
Abbreviation rows_in w := (kt_rows (sw_keys w)) (only parsing).
Abbreviation cond := (list peer -> list vpn_key -> Prop) (only parsing).

Definition without (id : Z) (peers : list peer) : list peer := List.filter (fun p => negb (p_id p =? id)) peers.

(** ** Steps that change neither the rows nor the file *)

Definition reads (w w' : service_world R) : Prop :=
  rows_in w' = rows_in w /\ kt_seq (sw_keys w') = kt_seq (sw_keys w) /\ text_in w' = text_in w.
#[export] Instance reads_pre : PreOrder reads.
Proof. split; [by intros w|]. intros a b c (?&?&?) (?&?&?). unfold reads. repeat split; congruence. Qed.

Lemma reads_keys {A} (m : M key_table key_error A) :
  (forall t, kt_rows (m t).2 = kt_rows t /\ kt_seq (m t).2 = kt_seq t) -> keeps reads (on_keys (R := R) m).
Proof. intros Hm. apply keeps_embed. intros w. destruct (Hm (sw_keys w)). done. Qed.
Lemma reads_awg {A} (m : M (awg_world R) awg_error A) : keeps same_file m -> keeps reads (on_awg m).
Proof. intros Hm. apply keeps_embed. intros w. destruct (Hm (sw_awg w)) as [H _]. done. Qed.

Lemma find_row_keeps p t : kt_rows (find_row p t).2 = kt_rows t /\ kt_seq (find_row p t).2 = kt_seq t.
Proof. unfold find_row, statement, bind, gets. cbn. by destruct (kt_ok t (kt_tick t)). Qed.
Lemma occupied_keeps t : kt_rows (get_occupied_awg_ips t).2 = kt_rows t /\ kt_seq (get_occupied_awg_ips t).2 = kt_seq t.
Proof. unfold get_occupied_awg_ips, statement, bind, gets. cbn. by destruct (kt_ok t (kt_tick t)). Qed.
Lemma reads_find p : keeps reads (on_keys (R := R) (find_row p)).
Proof. apply reads_keys, find_row_keeps. Qed.
Lemma reads_occupied : keeps reads (on_keys (R := R) get_occupied_awg_ips).
Proof. apply reads_keys, occupied_keeps. Qed.
Lemma reads_moment : keeps reads (moment (R := R)).
Proof. intros w. done. Qed.
Lemma reads_health f : keeps reads (set_health (R := R) f).
Proof. intros w. done. Qed.
Lemma reads_get : keeps reads (get (S := service_world R) (E := service_error)).
Proof. intros w. reflexivity. Qed.
#[local] Hint Resolve reads_find reads_occupied reads_moment reads_health reads_get : keeps.
Lemma reads_gate : keeps reads (require_awg_allowed (R := R)).
Proof. unfold require_awg_allowed. keeps_tac. Qed.
Lemma reads_now : keeps reads (clock_now env).
Proof. unfold clock_now. keeps_tac. Qed.
Lemma reads_audit : keeps reads (audit_write env).
Proof. unfold audit_write. keeps_tac. Qed.
Lemma reads_user id : keeps reads (get_user env id).
Proof. unfold get_user. keeps_tac. Qed.
#[local] Hint Resolve reads_gate reads_now reads_audit reads_user : keeps.
Lemma reads_approved id : keeps reads (require_approved_or_admin env id).
Proof. unfold require_approved_or_admin. keeps_tac. Qed.
Lemma reads_superadmin id : keeps reads (require_superadmin env id).
Proof. unfold require_superadmin. keeps_tac. Qed.
#[local] Hint Resolve reads_approved reads_superadmin : keeps.
Lemma reads_can_create a o b : keeps reads (ensure_can_create env a o b).
Proof. unfold ensure_can_create. keeps_tac. Qed.
Lemma reads_get_key id : keeps reads (get_key (R := R) id).
Proof. unfold get_key, get_by_id. keeps_tac. Qed.
#[local] Hint Resolve reads_can_create reads_get_key : keeps.
Lemma reads_for_manage a id : keeps reads (get_awg_key_for_manage env a id).
Proof. unfold get_awg_key_for_manage. keeps_tac. Qed.
#[local] Hint Resolve reads_for_manage : keeps.

#[local] Hint Resolve keeps_read_text keeps_shell keeps_awg keeps_verify keeps_get_world keeps_config_text : keeps.
Lemma reads_read_text {A} (k : str -> M (awg_world R) awg_error A) :
  (forall text, keeps same_file (k text)) -> keeps reads (on_awg (let! text := read_text (se_awg env) in k text)).
Proof using quiet. intros Hk. apply reads_awg. keeps_tac. Qed.
Lemma reads_tool c what : keeps reads (on_awg (first_output_line (se_awg env) c what)).
Proof using quiet tools_leave_file. apply reads_awg. unfold first_output_line. keeps_tac. Qed.
#[local] Hint Resolve reads_tool : keeps.
Lemma reads_private : keeps reads (on_awg (generate_private_key (se_awg env))).
Proof using quiet tools_leave_file. apply reads_tool. Qed.
Lemma reads_public k : keeps reads (on_awg (generate_public_key (se_awg env) k)).
Proof using quiet tools_leave_file. apply reads_tool. Qed.
Lemma reads_psk : keeps reads (on_awg (generate_preshared_key (se_awg env))).
Proof using quiet tools_leave_file. apply reads_tool. Qed.
Lemma reads_server : keeps reads (on_awg (adapter_read_server_config env)).
Proof using quiet. apply reads_read_text. intros ?. keeps_tac. Qed.
Lemma reads_find_peer a b : keeps reads (on_awg (adapter_find_peer env a b)).
Proof using quiet. apply reads_read_text. intros ?. keeps_tac. Qed.
Lemma reads_managed id : keeps reads (on_awg (managed_awg_public_key env id)).
Proof using quiet. apply reads_read_text. intros ?. keeps_tac. Qed.
Lemma reads_allowed : keeps reads (on_awg (list_allowed_ips env)).
Proof using quiet. apply reads_read_text. intros ?. keeps_tac. Qed.
Lemma reads_options : keeps reads (on_awg (client_interface_options env)).
Proof using quiet. apply reads_awg. unfold client_interface_options, adapter_read_server_config. keeps_tac. Qed.
#[local] Hint Resolve reads_private reads_public reads_psk reads_server reads_find_peer reads_managed
  reads_allowed reads_options : keeps.
Lemma reads_client_config k : keeps reads (client_config env cfg k).
Proof using quiet. unfold client_config. keeps_tac. Qed.
Lemma reads_allocate : keeps reads (allocate_ip env cfg).
Proof using quiet. unfold allocate_ip. keeps_tac. Qed.
Lemma reads_keypair n : keeps reads (generate_unique_keypair env n).
Proof using quiet tools_leave_file. induction n as [|n IH]; cbn [generate_unique_keypair]; unfold find_by_public_key; keeps_tac. Qed.
Lemma reads_label n : keeps reads (generate_unique_label env n).
Proof. induction n as [|n IH]; cbn [generate_unique_label]; unfold find_by_email_label; keeps_tac. Qed.
Lemma reads_runtime k : keeps reads (runtime_peer_present env cfg k).
Proof using quiet tools_leave_file.
  unfold runtime_peer_present. keeps_tac. apply reads_awg. keeps_tac.
Qed.
Lemma reads_payload k : keeps reads (ensure_client_payload_valid env k).
Proof. unfold ensure_client_payload_valid. keeps_tac. Qed.
#[local] Hint Resolve reads_client_config reads_allocate reads_keypair reads_label reads_runtime reads_payload : keeps.

Section Framed.
(** What else is known meanwhile ([Fr]): nothing an [UPDATE] that keeps the keys'
    identities touches, nor the end of a key whose id is [apart]. *)
Variables (Fr : list peer -> list vpn_key -> Prop) (apart : Z -> Prop).
Hypothesis Fr_updated : forall peers rows p f, mild p f rows -> Fr peers rows -> Fr peers (updated p f rows).
Hypothesis Fr_without : forall peers rows id, apart id -> Fr peers rows -> Fr (without id peers) rows.
Hypothesis Fr_deleted : forall peers rows id, apart id -> Fr peers rows ->
  Fr peers (List.filter (fun k => negb (has_id id k)) rows).

(** The file is maintained, the table is well formed, every peer has its row, and [C]. *)
Definition holds (C : list peer -> list vpn_key -> Prop) (w : service_world R) : Prop :=
  exists peers text, text_in w = Some text /\ maintained base peers text /\ good_list peers
    /\ rows_ok free (rows_in w) (kt_seq (sw_keys w)) /\ Forall (accounted (rows_in w)) peers
    /\ Fr peers (rows_in w) /\ C peers (rows_in w).
Definition any : list peer -> list vpn_key -> Prop := fun _ _ => True.

Lemma holds_weaken (C C' : cond) w : (forall peers rows, C peers rows -> C' peers rows) -> holds C w -> holds C' w.
Proof. intros H (peers & text & ? & ? & ? & ? & ? & ? & ?). exists peers, text. auto 10. Qed.
Lemma holds_any C w : holds C w -> holds any w.
Proof. by apply holds_weaken. Qed.
#[local] Hint Resolve holds_any : core.

Lemma reads_holds C w w' : reads w w' -> holds C w -> holds C w'.
Proof.
  intros (E1 & E2 & E3) (peers & text & H). exists peers, text. by rewrite E1, E2, E3.
Qed.
Lemma triple_reads {A} C (m : M (service_world R) service_error A) :
  keeps reads m -> triple (holds C) m (fun _ => holds C) (holds C).
Proof. intros Hm. eapply triple_keeps; [exact Hm| |done]. intros s s'. apply reads_holds. Qed.

(** ** Statements that change the rows *)

(** The rows of a table and its sequence after an [UPDATE] that may be refused. *)
Lemma update_rows_spec p f t :
  match update_rows p f t with
  | (Ok n, t') => kt_rows t' = updated p f (kt_rows t) /\ kt_seq t' = kt_seq t
                  /\ indexes_ok (updated p f (kt_rows t)) = true /\ n = length (List.filter p (kt_rows t))
  | (Err _, t') => kt_rows t' = kt_rows t /\ kt_seq t' = kt_seq t
  end.
Proof.
  unfold update_rows, statement, store_rows, bind, get, modify. destruct (kt_ok t (kt_tick t)); [|done].
  cbn. fold (updated p f (kt_rows t)). by destruct (indexes_ok _) eqn:E.
Qed.

(** An [UPDATE] that keeps the keys' identities and every accounting row's status
    and address. *)
Definition gentle (C : cond) p f : Prop := forall peers rows, C peers rows ->
  mild p f rows
  /\ forall k, k ∈ rows -> p k = true -> k_id k ∈ map p_id peers -> may_exist k ->
       may_exist (f k) /\ k_client_ip (f k) = k_client_ip k.

Lemma triple_update (C C' : cond) p f : gentle C p f ->
  (forall peers rows, NoDup (map k_id rows) -> C peers rows -> C' peers (updated p f rows)) ->
  triple (holds C) (on_keys (R := R) (update_rows p f)) (fun _ => holds C') (holds C).
Proof.
  intros Hg HC w (peers & text & Hf & Hm & Hl & Hr & Ha & Hfr & Hc). unfold on_keys, embed. cbn [part_get part_keys].
  pose proof (update_rows_spec p f (sw_keys w)) as H.
  destruct (update_rows p f (sw_keys w)) as [[n|e] t']; exists peers, text; cbn.
  - destruct H as (-> & -> & Hi & _). destruct (Hg _ _ Hc) as [Hmild Hmay].
    do 3 (split; [done|]). split; [by apply updated_rows_ok|]. split.
    + apply Forall_elem. intros q Hq. apply updated_accounted; [done| |by apply (proj1 (Forall_elem _ _) Ha)].
      intros k Hk Hp E Hme. apply (Hmay k Hk Hp); [|done]. rewrite E. by apply list_elem_of_fmap_2.
    + split; [by apply Fr_updated|]. apply HC; [|done]. apply Hr.
  - destruct H as (-> & ->). done.
Qed.

(** The row of a key is there; its peer may be in the file only if the key's
    status, as it was read, says so. *)
Definition managed (k : vpn_key) : cond := fun peers rows =>
  rowed k rows /\ (k_id k ∈ map p_id peers -> may_exist k).
Definition gone (k : vpn_key) : cond := fun peers rows => rowed k rows /\ k_id k ∉ map p_id peers.
(** Conditions that any mild [UPDATE] keeps. *)
Definition stable (C : cond) : Prop := forall peers rows p f, mild p f rows -> C peers rows -> C peers (updated p f rows).
Lemma stable_any : stable any.
Proof. done. Qed.
Lemma stable_managed k : stable (managed k).
Proof. intros peers rows p f Hm [Hr H]. split; [by apply updated_rowed|done]. Qed.
Lemma stable_gone k : stable (gone k).
Proof. intros peers rows p f Hm [Hr H]. split; [by apply updated_rowed|done]. Qed.
#[local] Hint Resolve stable_any stable_managed stable_gone : core.

Lemma triple_set_status (C : cond) id st now : stable C -> st ∈ AWG_ACCESS_MAY_EXIST_STATUSES ->
  triple (holds C) (on_keys (R := R) (set_status id st now [])) (fun _ => holds C) (holds C).
Proof.
  intros Hc Hst. assert (forall rows, mild (has_id id) (set_key_status st now) rows) as Hm
    by (intros rows k _ _; done).
  assert (triple (holds C) (on_keys (R := R) (update_rows (has_id id) (set_key_status st now)))
            (fun _ => holds C) (holds C)) as H.
  { apply triple_update; [|by intros; apply Hc]. intros peers rows _. split; [done|]. by intros k _ _ _ _. }
  eapply triple_ext; [intros w; apply embed_bind|]. eapply triple_bind; [exact H|]. intros n w Hw. exact Hw.
Qed.

Lemma holds_and (C : cond) (F : list peer -> list vpn_key -> Prop) w : holds C w ->
  (forall peers rows, NoDup (map k_id rows) -> C peers rows -> F peers rows) -> holds F w.
Proof.
  intros (peers & text & ? & ? & ? & Hr & ? & ? & ?) HF. exists peers, text. do 6 (split; [done|]). apply HF; [apply Hr|done].
Qed.

(** [mark_active] writes payloads: either none, or those of the row itself. *)
Lemma triple_mark_active (C C' : cond) id now pl ppl :
  (forall peers rows k, NoDup (map k_id rows) -> C peers rows -> k ∈ rows -> k_id k = id ->
     pl = None \/ pl = Some (k_payload k)) ->
  (forall peers rows p f, NoDup (map k_id rows) -> mild p f rows -> C peers rows ->
     p = (fun k => has_id id k && status_in [PENDING_APPLY; APPLY_FAILED] k) ->
     (forall k, k_type (f k) = k_type k /\ k_public_key (f k) = k_public_key k /\ k_client_ip (f k) = k_client_ip k
        /\ k_id (f k) = k_id k /\ k_status (f k) = ACTIVE) -> C' peers (updated p f rows)) ->
  triple (holds C) (on_keys (R := R) (mark_active id now pl ppl)) (fun _ => holds C') (holds C).
Proof.
  intros Hpl HC. unfold mark_active. set (p := fun k => has_id id k && _).
  set (f := fun k => VpnKey _ _ _ _ _ _ _ _ _ _ _ _ _ _ _ _ _ _ _).
  assert (forall peers rows, NoDup (map k_id rows) -> C peers rows -> mild p f rows) as Hm.
  { intros peers rows Hn Hc k Hk Hp. unfold p, has_id in Hp. bool_prop.
    repeat split. cbn. by destruct (Hpl peers rows k Hn Hc Hk) as [->| ->]. }
  eapply triple_ext; [intros w; apply embed_bind|].
  eapply triple_bind; [apply triple_reads, reads_find|]. intros [r|].
  2: { intros w Hw. exact Hw. }
  eapply triple_ext; [intros w; apply embed_bind|].
  eapply triple_bind; [|intros n w Hw; exact Hw].
  eapply triple_weaken; [apply (triple_update (fun peers rows => NoDup (map k_id rows) /\ C peers rows) C')| | |].
  - intros peers rows [Hn Hc]. split; [by eapply Hm|]. intros k _ _ _ _. split; [|done].
    unfold may_exist, f. cbn. by apply (bool_decide_unpack _).
  - intros peers rows _ [Hn Hc]. apply HC; try done. by eapply Hm.
  - intros w Hw. by apply (holds_and C).
  - done.
  - intros w. apply holds_weaken. by intros ? ? [].
Qed.

Lemma triple_mark_revoked k actor now :
  triple (holds (gone k)) (on_keys (R := R) (mark_revoked (k_id k) actor now)) (fun _ => holds any) (holds (gone k)).
Proof.
  unfold mark_revoked. set (p := fun r => has_id (k_id k) r && _).
  set (f := fun r => VpnKey _ _ _ _ _ _ _ _ _ _ _ _ _ _ _ _ _ _ _).
  assert (forall rows, mild p f rows) as Hm by (intros rows r _ _; done).
  eapply triple_ext; [intros w; apply embed_bind|].
  eapply triple_bind; [apply (triple_update (gone k) (gone k))|].
  - intros peers rows [_ Hg]. split; [done|]. intros r _ Hp E _. unfold p, has_id in Hp. bool_prop. congruence.
  - intros peers rows _ H. by apply stable_gone.
  - intros n. destruct (n =? 1)%nat; [intros w Hw; by eapply holds_any|intros w Hw; exact Hw].
Qed.

Lemma triple_note id note now :
  triple (holds any) (on_keys (R := R) (update_note id note now)) (fun _ => holds any) (holds any).
Proof.
  eapply triple_ext; [intros w; apply embed_bind|].
  eapply triple_bind; [apply (triple_update any any)|intros n w Hw; exact Hw]; [|done].
  intros peers rows _. split; [by intros r _ _|]. by intros r _ _ _ Hme.
Qed.

(** Once the peer is gone, so may be the row. *)
Lemma triple_hard_delete k now : apart (k_id k) ->
  triple (holds (gone k)) (on_keys (R := R) (hard_delete_with_stats (k_id k) now)) (fun _ => holds any) (holds any).
Proof.
  intros Hap w (peers & text & Hf & Hm & Hl & Hr & Ha & Hfr & _ & Hg). unfold on_keys, embed. cbn [part_get part_keys].
  unfold hard_delete_with_stats, statement, modify, bind. cbn.
  destruct (kt_ok (sw_keys w) (kt_tick (sw_keys w))); cbn; [|by exists peers, text].
  destruct (kt_ok (sw_keys w) (S _)); cbn; [|by exists peers, text].
  destruct (kt_ok (sw_keys w) (S _)); cbn; [|by exists peers, text].
  exists peers, text. cbn. do 3 (split; [done|]). split; [by apply removed_rows_ok|].
  split; [|split; [by apply Fr_deleted|done]].
  apply Forall_elem. intros q Hq. apply removed_accounted; [|by apply (proj1 (Forall_elem _ _) Ha)].
  intros E. apply Hg. rewrite <- E. by apply list_elem_of_fmap_2.
Qed.

(** ** Taking a peer away *)

Lemma without_id id peers : id ∉ map p_id (without id peers).
Proof.
  intros (p & -> & Hp%list_elem_of_In)%list_elem_of_fmap. apply filter_In in Hp as [_ Hp]. by rewrite Z.eqb_refl in Hp.
Qed.
Lemma without_miss id peers : id ∉ map p_id peers -> without id peers = peers.
Proof.
  intros Hid. apply filter_all. intros p Hp. apply negb_true_iff, Z.eqb_neq. intros <-. apply Hid. by apply list_elem_of_fmap_2.
Qed.

(** Nothing of the file carries the key of a row whose peer is not listed. *)
Lemma no_section_carries peers text rows seq k pk sections :
  good_list peers -> maintained base peers text -> rows_ok free rows seq -> Forall (accounted rows) peers ->
  rowed k rows -> k_type k = AWG -> stored_awg_public_key k = pk -> k_id k ∉ map p_id peers ->
  parse_sections text = Ok sections -> existsb (taken pk) sections = false.
Proof using base_clean base_parses.
  intros [Hg _] Hm Hr Ha (k' & Hk' & Hs) Ht Hpk Hid Hp.
  pose proof (maintained_view base base_views base_clean base_parses peers text Hg Hm) as Hv.
  rewrite Hp in Hv. cbn in Hv. assert (map erase sections = base_views ++ map peer_view peers) as Hv' by congruence.
  pose proof (proj1 (Forall_elem _ _) (ro_fits _ _ _ Hr) k' Hk') as Hfit.
  destruct Hs as (Eid & Ety & Epk & Epl). destruct Hfit as (pk' & Hpk' & Hst & Hfree); [congruence|].
  rewrite (same_key_stored k k') in Hst by done. assert (pk' = pk) as -> by congruence.
  apply not_true_iff_false. intros (s & Hsin%list_elem_of_In & Htk)%existsb_exists.
  unfold taken in Htk. bool_prop.
  assert (erase s ∈ map erase sections) as Hes by by apply list_elem_of_fmap_2.
  clear Hsin. rename Hes into Hsin. rewrite Hv' in Hsin. apply elem_of_app in Hsin as [Hb|Hb].
  - by apply (Hfree _ Hb).
  - apply list_elem_of_fmap in Hb as (p & Ep & Hpin). 
    assert (dict_get (py "PublicKey") (peer_view p).2 = Some (p_key p)) as E by reflexivity.
    rewrite <- Ep in E. cbn in E. assert (p_key p = pk) as E' by congruence.
    destruct (proj1 (Forall_elem _ _) Ha p Hpin) as (k2 & Hk2 & Hid2 & _ & _ & Hpk2 & _).
    assert (k2 = k') as -> by (eapply (same_public_key free); [exact Hr|done|done|exact Hpk2|congruence]).
    apply Hid. rewrite <- Eid, Hid2. by apply list_elem_of_fmap_2.
Qed.

Lemma removed_text_maintained peers text rows seq k pk u :
  good_list peers -> maintained base peers text -> rows_ok free rows seq -> Forall (accounted rows) peers ->
  rowed k rows -> k_type k = AWG -> stored_awg_public_key k = pk -> pk <> [] ->
  removed_text text (k_id k) (Some pk) = Ok u -> maintained base (without (k_id k) peers) u.
Proof using base_clean base_tight base_unmarked base_parses.
  intros Hl Hm Hr Ha Hk Ht Hpk Hne Hu. destruct (decide (k_id k ∈ map p_id peers)) as [Hid|Hid].
  - destruct Hl as [Hg Hn].
    pose proof (run_remove base base_views base_clean base_tight base_unmarked base_parses peers text
      (k_id k) (Some pk) Hg Hn Hm (or_introl Hid)) as H. cbn [run_cmd spec_cmd] in H. by rewrite Hu in H.
  - rewrite without_miss by done. unfold removed_text in Hu.
    rewrite (remove_miss base base_clean base_unmarked (k_id k) peers) in Hu by (try done; apply Hl).
    cbn [result_bind given] in Hu. destruct pk as [|c pk]; [done|]. rewrite bool_decide_eq_true_2 in Hu by done.
    pose proof (maintained_view base base_views base_clean base_parses peers text (proj1 Hl) Hm) as Hv.
    apply rmap_ok in Hv as (sections & Hp & _).
    rewrite (identity_removal_miss _ _ sections Hp) in Hu by by eapply no_section_carries. by injection Hu as <-.
Qed.

Lemma without_good id peers : good_list peers -> good_list (without id peers).
Proof. intros [Hg Hn]. split; [by apply filter_Forall|by apply filter_NoDup_map]. Qed.

Lemma triple_remove_peer k pk : apart (k_id k) -> k_type k = AWG -> stored_awg_public_key k = pk -> pk <> [] ->
  triple (holds (managed k)) (on_awg (remove_peer (se_awg env) (sc_adapter cfg) (k_id k) (Some pk)))
    (fun _ => holds (gone k)) (holds (managed k)).
Proof using base_clean base_tight base_unmarked base_parses direct quiet tools_leave_file Fr_updated Fr_without Fr_deleted.
  intros Hap Ht Hpk Hne w (peers & text & Hf & Hm & Hl & Hr & Ha & Hfr & Hk & Hme). unfold on_awg, embed. cbn [part_get part_awg].
  destruct (remove_peer _ _ _ _ (sw_awg w)) as [r w'] eqn:E.
  pose proof (remove_peer_spec (se_awg env) (sc_adapter cfg) quiet tools_leave_file _ _ _ _ _ direct E) as Hs.
  pose proof (remove_peer_leaves (se_awg env) (sc_adapter cfg) quiet tools_leave_file _ _ _ _ _ direct E) as Hleft.
  assert (forall u, removed_text text (k_id k) (Some pk) = Ok u -> o_config (w_out w') = Some u ->
    holds (gone k) (part_set w' w)) as Hdone.
  { intros u Hu Hfu. exists (without (k_id k) peers), u. cbn. split; [done|].
    split; [by eapply removed_text_maintained|]. split; [by apply without_good|]. split; [done|].
    split; [by apply filter_Forall|].
    split; [by apply Fr_without|]. split; [done|apply without_id]. }
  destruct r as [[]|e].
  - destruct Hs as (o & u & Ho & Hu & Hfu & _). assert (o = text) as -> by congruence. by eapply Hdone.
  - destruct Hleft as [Hfe|(o & u & Ho & Hu & Hfu)].
    + exists peers, text. cbn. rewrite Hfe. done.
    + assert (o = text) as -> by congruence.
      eapply (holds_weaken (gone k)); [|by eapply Hdone]. intros ps rows [H1 H2]. split; [done|]. by intros H3.
Qed.

(** A row without a public key has no peer, and nothing to recover its key from. *)
Lemma triple_managed_key k : k_type k = AWG -> stored_awg_public_key k = [] ->
  triple (holds (managed k)) (on_awg (managed_awg_public_key env (k_id k)))
    (fun pk w => pk = [] /\ holds (managed k) w) (holds (managed k)).
Proof using base_clean base_unmarked quiet.
  intros Ht Hpk w Hw. pose proof (triple_reads (managed k) _ (reads_managed (k_id k)) w Hw) as Hk.
  destruct (on_awg _ w) as [[pk|e] w'] eqn:E; [|done]. split; [|done].
  destruct Hw as (peers & text & Hf & Hm & Hl & Hr & Ha & _ & (k' & Hk' & Hs) & _).
  assert (k_id k ∉ map p_id peers) as Hid.
  { intros (p & Eid & Hp)%list_elem_of_fmap.
    destruct (proj1 (Forall_elem _ _) Ha p Hp) as (k2 & Hk2 & Hid2 & _ & _ & Hpk2 & _).
    assert (k2 = k') as -> by (eapply same_id; [exact Hr|done|done|]; destruct Hs as (-> & _); congruence).
    destruct (proj1 (Forall_elem _ _) (ro_fits _ _ _ Hr) k' Hk') as (pk' & Hpk' & Hst & _).
    { destruct Hs as (_ & -> & _). done. }
    rewrite (same_key_stored k k') in Hst by done.
    pose proof (proj1 (Forall_elem _ _) (proj1 Hl) p Hp) as [[Hne _] _ _ _]. congruence. }
  unfold on_awg, embed, managed_awg_public_key in E. cbn [part_get part_awg] in E.
  destruct (bind _ _ (sw_awg w)) as [r1 w1] eqn:E1.
  apply bind_inv in E1 as [(t & w2 & H1 & H2)|(e & _ & ->)]; [|done].
  apply (read_text_inv (se_awg env) quiet) in H1 as [H1 _]. assert (t = text) as -> by congruence.
  injection H2 as <- _. cbn in E. injection E as <- _.
  destruct Hm as (items & <- & ->). unfold find_managed_peer_public_key, managed_block_lines.
  rewrite splitlines_text by (apply lines_clean; [done|apply Hl]).
  rewrite find_block_miss; [reflexivity|]. apply Forall_app. split; [by apply base_no_start|].
  apply lay_no_start; [apply Hl|done].
Qed.

Lemma triple_remove_access k : apart (k_id k) -> k_type k = AWG ->
  triple (holds (managed k)) (remove_awg_access env cfg k) (fun _ => holds (gone k)) (holds (managed k)).
Proof using base_clean base_tight base_unmarked base_parses direct quiet tools_leave_file Fr_updated Fr_without Fr_deleted.
  intros Hap Ht. unfold remove_awg_access. destruct (stored_awg_public_key k) as [|c pk] eqn:Epk.
  - cbn [given]. eapply triple_bind; [by apply triple_managed_key|]. intros pk. apply triple_pure. intros ->.
    intros w Hw. exact Hw.
  - cbn [given]. intros w Hw. exact (triple_remove_peer k (c :: pk) Hap Ht Epk ltac:(done) w Hw).
Qed.

(** ** The operations *)

(** A row that has just been read. *)
Definition found (C : cond) (k : vpn_key) : cond := fun peers rows => C peers rows /\ k ∈ rows.
Lemma triple_get_key C id :
  triple (holds C) (get_key (R := R) id) (fun k w => k_id k = id /\ holds (found C k) w) (holds C).
Proof.
  intros w Hw. unfold get_key, on_keys, embed, get_by_id, find_row, statement, bind, gets.
  cbn. destruct (kt_ok (sw_keys w) (kt_tick (sw_keys w))); cbn; [|exact Hw].
  destruct (List.find _ _) as [k|] eqn:E; cbn; [|exact Hw].
  apply find_some in E as [Hin%list_elem_of_In Hid]. unfold has_id in Hid. bool_prop. split; [done|].
  destruct Hw as (peers & text & ? & ? & ? & ? & ? & ? & ?). by exists peers, text.
Qed.
Lemma found_managed C k w : holds (found C k) w -> holds (managed k) w.
Proof.
  intros (peers & text & ? & ? & ? & Hr & Ha & ? & _ & Hk). exists peers, text. do 6 (split; [done|]). split.
  - by exists k.
  - intros (p & Eid & Hp)%list_elem_of_fmap.
    destruct (proj1 (Forall_elem _ _) Ha p Hp) as (k2 & Hk2 & Hid2 & _ & Hme & _).
    assert (k2 = k) as -> by (eapply same_id; [exact Hr|done|done|congruence]). done.
Qed.
Lemma triple_find_key id :
  triple (holds any) (get_key (R := R) id) (fun k w => k_id k = id /\ holds (managed k) w) (holds any).
Proof.
  eapply triple_weaken; [apply (triple_get_key any)|done| |done]. intros k w [? H]. split; [done|]. by eapply found_managed.
Qed.
Lemma triple_for_manage actor id :
  triple (holds any) (get_awg_key_for_manage env actor id)
    (fun k w => (k_id k = id /\ k_type k = AWG) /\ holds (managed k) w) (holds any).
Proof.
  unfold get_awg_key_for_manage. eapply triple_bind; [apply triple_reads, reads_approved|]. intros a.
  eapply triple_bind; [apply triple_find_key|]. intros k. apply triple_pure. intros Hid.
  destruct (bool_decide_reflect (k_type k = AWG)) as [Ht|]; cbn [negb].
  - destruct (negb _ && negb _); [apply triple_raise; eauto|apply triple_ret; auto].
  - apply triple_raise. eauto.
Qed.

(** Leaving with the invariant only. *)
Definition ends {A} (C : cond) (m : M (service_world R) service_error A) : Prop :=
  triple (holds C) m (fun _ => holds any) (holds any).
Lemma ends_reads {A} C (m : M (service_world R) service_error A) : keeps reads m -> ends C m.
Proof. intros Hm. eapply triple_weaken; [by apply (triple_reads C)|done| |]; cbn; eauto. Qed.
Lemma ends_raise {A} C e : ends (A := A) C (raise e).
Proof. apply triple_raise. eauto. Qed.
Lemma ends_bind {A B} C (m : M (service_world R) service_error A) (k : A -> M (service_world R) service_error B) :
  triple (holds C) m (fun _ => holds C) (holds C) -> (forall a, ends C (k a)) -> ends C (bind m k).
Proof.
  intros Hm Hk. eapply triple_bind; [|exact Hk]. eapply triple_weaken; [exact Hm|done|done|]. eauto.
Qed.
Lemma ends_then {A B} C C' (m : M (service_world R) service_error A) (k : A -> M (service_world R) service_error B) :
  triple (holds C) m (fun _ => holds C') (holds C) -> (forall a, ends C' (k a)) -> ends C (bind m k).
Proof.
  intros Hm Hk. eapply triple_bind; [|exact Hk]. eapply triple_weaken; [exact Hm|done|done|]. eauto.
Qed.
(** A step that only reads comes first. *)
Lemma ends_read {A B} C (m : M (service_world R) service_error A) (k : A -> M (service_world R) service_error B) :
  keeps reads m -> (forall a, ends C (k a)) -> ends C (bind m k).
Proof. intros Hm. by apply ends_bind, triple_reads. Qed.
Lemma triple_read {A B} (C : cond) (m : M (service_world R) service_error A) (k : A -> M (service_world R) service_error B) Q X :
  keeps reads m -> (forall w, holds C w -> X w) -> (forall a, triple (holds C) (k a) Q X) ->
  triple (holds C) (bind m k) Q X.
Proof.
  intros Hm HX Hk. eapply triple_bind; [|exact Hk]. eapply triple_weaken; [by apply (triple_reads C)|done|done|exact HX].
Qed.

(** The handlers that give a row a status back and raise on. *)
Lemma triple_status_and_raise {A} (C : cond) id st (exc : service_error) Q : stable C ->
  st ∈ AWG_ACCESS_MAY_EXIST_STATUSES ->
  triple (holds C) (let! now := clock_now env in on_keys (set_status id st now []) ;;! raise (A := A) exc)
    Q (holds any).
Proof.
  intros Hc Hst. apply triple_read; [apply reads_now|eauto|]. intros now.
  eapply (triple_bind _ _ _ _ (fun _ => holds C)); [|intros _; apply triple_raise; eauto].
  eapply triple_weaken; [by apply (triple_set_status C)|done|done|eauto].
Qed.

Lemma revoke_access_ends k by_id : apart (k_id k) -> k_type k = AWG -> may_exist k -> ends (managed k) (revoke_access env cfg k by_id).
Proof using base_clean base_tight base_unmarked base_parses direct quiet tools_leave_file Fr_updated Fr_without Fr_deleted.
  intros Hap Ht Hme. unfold revoke_access. apply ends_read; [apply reads_now|]. intros now.
  apply ends_bind; [apply triple_set_status; [done|by apply (bool_decide_unpack _)]|intros _].
  eapply (triple_bind _ _ _ _ (fun _ => holds (gone k))).
  - eapply triple_catch; [by apply triple_remove_access|]. intros exc. by apply triple_status_and_raise.
  - intros _. apply (ends_read (gone k)); [apply reads_now|]. intros now'.
    eapply ends_then; [apply triple_mark_revoked|]. intros _. apply ends_reads, reads_get_key.
Qed.
Lemma revoke_found_ends k by_id : apart (k_id k) -> k_type k = AWG -> ends (managed k) (revoke_found env cfg k by_id).
Proof using base_clean base_tight base_unmarked base_parses direct quiet tools_leave_file Fr_updated Fr_without Fr_deleted.
  intros Hap Ht. unfold revoke_found. destruct (status_in [REVOKED; DELETED] k); [apply triple_ret; eauto|].
  destruct (status_in AWG_ACCESS_MAY_EXIST_STATUSES k) eqn:E; cbn [negb]; [|apply ends_raise].
  apply revoke_access_ends; [done|done|]. unfold status_in in E. by bool_prop.
Qed.
Lemma revoke_ends actor id : apart id -> ends any (revoke_awg_key env cfg actor id).
Proof using base_clean base_tight base_unmarked base_parses direct quiet tools_leave_file Fr_updated Fr_without Fr_deleted.
  intros Hap. unfold revoke_awg_key. do 2 (apply ends_read; [apply reads_gate|intros _]).
  eapply triple_bind; [apply triple_for_manage|]. intros k. apply triple_pure. intros [<- Ht]. by apply revoke_found_ends.
Qed.
Lemma revoke_system_ends id actor : apart id -> ends any (revoke_awg_key_system env cfg id actor).
Proof using base_clean base_tight base_unmarked base_parses direct quiet tools_leave_file Fr_updated Fr_without Fr_deleted.
  intros Hap. unfold revoke_awg_key_system. do 2 (apply ends_read; [apply reads_gate|intros _]).
  eapply triple_bind; [apply triple_find_key|]. intros k. apply triple_pure. intros <-.
  destruct (bool_decide_reflect (k_type k = AWG)); cbn [negb]; [by apply revoke_found_ends|apply ends_raise].
Qed.

Lemma delete_access_ends k id : apart (k_id k) -> k_id k = id -> k_type k = AWG -> ends (managed k)
  (catch (if status_in AWG_ACCESS_MAY_EXIST_STATUSES k then remove_awg_access env cfg k else ret tt)
    (fun exc => let! now := clock_now env in on_keys (set_status id DELETE_FAILED now []) ;;! raise exc) ;;!
   let! now := clock_now env in on_keys (hard_delete_with_stats id now)).
Proof using base_clean base_tight base_unmarked base_parses direct quiet tools_leave_file Fr_updated Fr_without Fr_deleted.
  intros Hap <- Ht. eapply (triple_bind _ _ _ _ (fun _ => holds (gone k))).
  - eapply (triple_catch (holds (managed k)) (holds any) (holds (managed k)) _ _ (fun _ => holds (gone k))).
    + destruct (status_in AWG_ACCESS_MAY_EXIST_STATUSES k) eqn:E; [by apply triple_remove_access|].
      apply triple_ret. intros w. apply holds_weaken. intros peers rows [Hr Hme]. split; [done|].
      unfold status_in in E. bool_prop. by intros Hin%Hme.
    + intros exc. by apply triple_status_and_raise; [|apply (bool_decide_unpack _)].
  - intros _. apply triple_read; [apply reads_now|eauto|]. intros now. by apply triple_hard_delete.
Qed.
Lemma delete_ends actor id : apart id -> ends any (delete_awg_key env cfg actor id).
Proof using base_clean base_tight base_unmarked base_parses direct quiet tools_leave_file Fr_updated Fr_without Fr_deleted.
  intros Hap. unfold delete_awg_key. do 2 (apply ends_read; [apply reads_gate|intros _]).
  eapply triple_bind; [apply triple_for_manage|]. intros k. apply triple_pure. intros [Hid Ht].
  apply ends_read; [apply reads_now|]. intros now.
  apply ends_bind; [apply triple_set_status; [done|by apply (bool_decide_unpack _)]|intros _].
  apply delete_access_ends; congruence.
Qed.

Lemma note_ends actor id note : ends any (update_awg_note env actor id note).
Proof.
  unfold update_awg_note. apply ends_read; [apply reads_for_manage|]. intros k.
  destruct (negb _); [apply ends_raise|]. apply ends_read; [keeps_tac|]. intros clean.
  apply ends_read; [apply reads_now|]. intros now. apply ends_bind; [apply triple_note|].
  intros _. apply ends_reads, reads_get_key.
Qed.

(** [mark_active] and [set_status] on a key that has been read: the invariant alone. *)
Lemma triple_activate (C : cond) id now : stable C ->
  triple (holds C) (on_keys (R := R) (mark_active id now None None)) (fun _ => holds C) (holds C).
Proof.
  intros Hc. apply triple_mark_active; [by left|]. intros peers rows p f _ Hm H _ _. by apply Hc.
Qed.
Lemma triple_fail_pending (C : cond) k : stable C ->
  triple (holds C) (fail_pending_apply env k) (fun _ => holds C) (holds C).
Proof.
  intros Hc. unfold fail_pending_apply. destruct (status_in _ k); [|by apply triple_ret].
  apply triple_read; [apply reads_now|done|]. intros now.
  apply triple_set_status; [done|by apply (bool_decide_unpack _)].
Qed.

Lemma reconcile_ends actor id : ends any (reconcile_key_status env actor id).
Proof using quiet Fr_updated.
  unfold reconcile_key_status. apply ends_read; [apply reads_superadmin|]. intros _.
  apply ends_read; [apply reads_gate|]. intros _. apply ends_read; [apply reads_get_key|]. intros k.
  destruct (negb _); [apply ends_raise|]. apply ends_read; [keeps_tac|]. intros peer.
  apply ends_bind; [|intros _; apply ends_reads; keeps_tac].
  destruct peer as [d|]; (destruct (status_in _ k); [|by apply triple_ret]);
    (apply triple_read; [apply reads_now|done|]; intros now).
  - by apply triple_activate.
  - apply triple_set_status; [done|by apply (bool_decide_unpack _)].
Qed.
Lemma config_ends actor id : ends any (get_awg_client_config_plain env cfg actor id).
Proof using quiet. apply ends_reads. unfold get_awg_client_config_plain. keeps_tac. Qed.

(** A key of the start-up batch is finished or left, with the invariant. *)
Lemma ends_answer C (b : bool) : ends C (ret b).
Proof. apply ends_reads, keeps_ret. typeclasses eauto. Qed.
Lemma recover_apply_ends k : apart (k_id k) -> k_type k = AWG -> ends (managed k)
  (let! peer := on_awg (adapter_find_peer env (k_public_key k) (k_client_ip k)) in
   match peer with
   | Some _ => let! now := clock_now env in on_keys (mark_active (k_id k) now None None) ;;! ret true
   | None =>
       let! present := runtime_peer_present env cfg k in
       if present : bool then remove_awg_access env cfg k ;;! fail_pending_apply env k ;;! ret true
       else if status_in [PENDING_APPLY] k then fail_pending_apply env k ;;! ret true
       else ret false
   end).
Proof using base_clean base_tight base_unmarked base_parses direct quiet tools_leave_file Fr_updated Fr_without Fr_deleted.
  intros Hap Ht. apply ends_read; [apply reads_find_peer|]. intros [d|].
  - apply ends_read; [apply reads_now|]. intros now.
    apply ends_bind; [by apply triple_activate|intros _; apply ends_answer].
  - apply ends_read; [apply reads_runtime|]. intros [].
    + eapply ends_then; [by apply triple_remove_access|]. intros _.
      apply ends_bind; [by apply triple_fail_pending|intros _; apply ends_answer].
    + destruct (status_in _ k); [|apply ends_answer].
      apply ends_bind; [by apply triple_fail_pending|intros _; apply ends_answer].
Qed.
Lemma finish_delete_ends k : apart (k_id k) -> k_type k = AWG -> ends (managed k)
  (catch (remove_awg_access env cfg k)
     (fun exc => let! now := clock_now env in on_keys (set_status (k_id k) DELETE_FAILED now []) ;;! raise exc) ;;!
   let! now := clock_now env in on_keys (hard_delete_with_stats (k_id k) now) ;;! ret true).
Proof using base_clean base_tight base_unmarked base_parses direct quiet tools_leave_file Fr_updated Fr_without Fr_deleted.
  intros Hap Ht. eapply (triple_bind _ _ _ _ (fun _ => holds (gone k))).
  - eapply triple_catch; [by apply triple_remove_access|]. intros exc.
    by apply triple_status_and_raise; [|apply (bool_decide_unpack _)].
  - intros _. apply triple_read; [apply reads_now|eauto|]. intros now.
    eapply triple_bind; [by apply triple_hard_delete|]. intros ?. apply ends_answer.
Qed.
Lemma reconcile_key_ends k : apart (k_id k) -> k_type k = AWG -> ends (managed k) (startup_reconcile_key env cfg k).
Proof using base_clean base_tight base_unmarked base_parses direct quiet tools_leave_file Fr_updated Fr_without Fr_deleted.
  intros Hap Ht. unfold startup_reconcile_key. destruct (k_status k); try apply ends_answer;
    try by apply recover_apply_ends.
  - eapply ends_then; [by apply triple_remove_access|]. intros _.
    apply ends_read; [apply reads_now|]. intros now.
    eapply ends_then; [apply triple_mark_revoked|]. intros _. apply ends_answer.
  - by apply finish_delete_ends.
  - by apply finish_delete_ends.
Qed.
End Framed.

(** ** Creating a key *)

Abbreviation inv := (holds any) (only parsing).
Definition whatever : Z -> Prop := fun _ => True.
Lemma any_updated peers rows p f : mild p f rows -> any peers rows -> any peers (updated p f rows).
Proof. done. Qed.
Lemma inv_any C w : holds any C w -> holds any any w.
Proof. apply holds_any. Qed.
#[local] Hint Resolve inv_any : core.

Lemma keypair_fresh n w priv pk w' : generate_unique_keypair env n w = (Ok (priv, pk), w') -> free pk /\ strip pk = pk.
Proof using quiet new_keys_are_free.
  revert w. induction n as [|n IH]; intros w; cbn [generate_unique_keypair]; [done|].
  intros [(k & w1 & _ & H)|(? & _ & [=])]%bind_inv.
  apply bind_inv in H as [(pk' & w2 & H2 & H)|(? & _ & [=])].
  apply bind_inv in H as [([r|] & w3 & H3 & H)|(? & _ & [=])]; [by eapply IH|]. injection H as _ <- _.
  unfold on_awg, embed, generate_public_key, first_output_line in H2. cbn [part_get part_awg] in H2.
  destruct (bind _ _ (sw_awg w1)) as [[r|] w4] eqn:E; [|done]. injection H2 as -> _.
  apply bind_inv in E as [(r & w5 & H5 & E)|(? & _ & [=])].
  destruct (negb _ || _); [done|]. injection E as <- _. split; [|apply strip_strip].
  unfold run_awg_or_wg in H5. apply bind_inv in H5 as [(r1 & w6 & H6 & H5)|(? & _ & [=])].
  destruct (is_command_missing r1).
  - apply (shell_run_inv (se_awg env) quiet) in H5 as (o & -> & _). apply new_keys_are_free.
  - injection H5 as <- _. apply (shell_run_inv (se_awg env) quiet) in H6 as (o & -> & _). apply new_keys_are_free.
Qed.
Lemma allocated_is_ipv4 w ip w' : allocate_ip env cfg w = (Ok ip, w') -> is_Some (ipv4_address ip).
Proof using pool_ok.
  unfold allocate_ip. intros [(v & w1 & _ & H)|(? & _ & [=])]%bind_inv.
  apply bind_inv in H as [(r & w2 & _ & H)|(? & _ & [=])].
  destruct (next_free_ip _ _ _) as [s|e] eqn:E; [|done]. injection H as <- _. by eapply next_free_ip_text.
Qed.

(** The row of a new key. *)
Definition fresh_row (id owner : Z) (username : option str) (note : option str) (pl ppl : payload) (by_id : Z)
    (now : str) (label pk ip : str) (expires : option str) : vpn_key :=
  VpnKey id owner username AWG PENDING_APPLY note (Some label) (Some pk) (Some ip) pl ppl now now None expires None
    by_id None None.
Lemma create_pending_spec owner username note pl ppl by_id now label pk ip expires t :
  rows_ok free (kt_rows t) (kt_seq t) ->
  let row := fresh_row (kt_seq t + 1) owner username note pl ppl by_id now label pk ip expires in
  match create_pending owner username AWG note pl ppl by_id now (Some label) (Some pk) (Some ip) expires t with
  | (Ok k, t') => k = row /\ kt_rows t' = kt_rows t ++ [row] /\ kt_seq t' = kt_seq t + 1
                  /\ indexes_ok (kt_rows t ++ [row]) = true
  | (Err _, t') => (kt_rows t' = kt_rows t /\ kt_seq t' = kt_seq t)
                  \/ kt_rows t' = kt_rows t ++ [row] /\ kt_seq t' = kt_seq t + 1
                     /\ indexes_ok (kt_rows t ++ [row]) = true
  end.
Proof.
  intros Hr row. unfold fresh_row in row. unfold create_pending, statement, store_rows, bind, get, modify, get_by_id, find_row, gets.
  destruct (kt_ok t (kt_tick t)); cbn; [|by left]. fold row. destruct (indexes_ok _) eqn:E; cbn; [|by left].
  unfold statement, bind, gets, modify, ret. cbn. destruct (kt_ok t (S (kt_tick t))); cbn; [|by right].
  fold row. assert (List.find (has_id (kt_seq t + 1)) (kt_rows t ++ [row]) = Some row) as ->; [|done].
  pose proof (ro_seq _ _ _ Hr) as Hs. clear E Hr. induction (kt_rows t) as [|r rows IH]; cbn.
  - unfold has_id. cbn. by rewrite Z.eqb_refl.
  - apply Forall_cons in Hs as [Hr Hs]. unfold has_id at 1. replace (k_id r =? _) with false; [by apply IH|].
    symmetry. apply Z.eqb_neq. lia.
Qed.

Definition stored (k : vpn_key) : cond := fun peers rows => k ∈ rows /\ k_id k ∉ map p_id peers.
Definition kept (k : vpn_key) : cond := fun _ rows => k ∈ rows.

Lemma triple_create_pending owner username note pl ppl by_id now label pk ip expires :
  (forall id, row_fits free (fresh_row id owner username note pl ppl by_id now label pk ip expires)) ->
  triple (inv any)
    (on_keys (R := R) (create_pending owner username AWG note pl ppl by_id now (Some label) (Some pk) (Some ip) expires))
    (fun k w => (exists id, k = fresh_row id owner username note pl ppl by_id now label pk ip expires) /\ inv (stored k) w)
    (inv any).
Proof.
  intros Hfit w (peers & text & Hf & Hm & Hl & Hr & Ha & _ & _). unfold on_keys, embed. cbn [part_get part_keys].
  pose proof (create_pending_spec owner username note pl ppl by_id now label pk ip expires (sw_keys w) Hr) as H.
  cbv zeta in H. set (row := fresh_row _ _ _ _ _ _ _ _ _ _ _ _) in H.
  assert (forall C w', text_in w' = text_in w -> rows_in w' = rows_in w ++ [row] ->
    kt_seq (sw_keys w') = kt_seq (sw_keys w) + 1 -> indexes_ok (rows_in w ++ [row]) = true ->
    C peers (rows_in w ++ [row]) -> inv C w') as Hnew.
  { intros C w' E1 E2 E3 Hi HC. exists peers, text. rewrite E1, E2, E3. do 3 (split; [done|]).
    split; [by apply inserted_rows_ok; [| |apply Hfit|]|]. split; [|done].
    apply Forall_elem. intros q Hq. apply accounted_more. by apply (proj1 (Forall_elem _ _) Ha). }
  destruct (create_pending _ _ _ _ _ _ _ _ _ _ _ _ _) as [[k|e] t'].
  - destruct H as (-> & E1 & E2 & Hi). split; [by eexists|]. apply Hnew; cbn; try done. split.
    + apply elem_of_app. right. by apply list_elem_of_singleton.
    + intros (p & E & Hp)%list_elem_of_fmap.
      destruct (proj1 (Forall_elem _ _) Ha p Hp) as (k & Hk & Hid & _).
      pose proof (proj1 (Forall_elem _ _) (ro_seq _ _ _ Hr) k Hk) as Hle. cbn in E, Hle. lia.
  - destruct H as [[E1 E2]|(E1 & E2 & Hi)]; [|by apply Hnew].
    exists peers, text. cbn. rewrite E1, E2. done.
Qed.

(** The values of a new key fit together. *)
Record new_values (k : vpn_key) (pk ip label : str) : Prop := {
  nv_type : k_type k = AWG; nv_status : k_status k = PENDING_APPLY;
  nv_key : k_public_key k = Some pk; nv_ip : k_client_ip k = Some ip;
  nv_stored : stored_awg_public_key k = pk; nv_ipv4 : is_Some (ipv4_address ip) }.

Lemma stored_new_payload private_key pk psk ip label mtu id owner username note ppl by_id now expires : strip pk = pk ->
  stored_awg_public_key (fresh_row id owner username note (key_payload private_key pk psk ip label mtu) ppl by_id now
    label pk ip expires) = pk.
Proof.
  intros Hs. unfold stored_awg_public_key, payload_text, fresh_row, key_payload. cbn [k_payload k_public_key].
  assert (dict_get PUBLIC_KEY ([(py "private_key", PText private_key); (PUBLIC_KEY, PText pk);
    (py "preshared_key", opt_text psk); (CLIENT_IP, PText ip); (py "email_label", PText label)]
    ++ match mtu with Some n => [(py "mtu", PNumber n)] | None => [] end) = Some (PText pk)) as ->.
  { cbn [app dict_get]. rewrite bool_decide_eq_false_2 by discriminate. by rewrite bool_decide_eq_true_2. }
  by destruct pk.
Qed.

Lemma triple_read_known {A B} (G : A -> Prop) (C : cond) (m : M (service_world R) service_error A)
    (k : A -> M (service_world R) service_error B) Q :
  keeps reads m -> (forall w a w', m w = (Ok a, w') -> G a) ->
  (forall a, G a -> triple (inv C) (k a) Q (inv any)) -> triple (inv C) (bind m k) Q (inv any).
Proof.
  intros Hm HG Hk. eapply (triple_bind _ _ _ _ (fun a w => G a /\ inv C w)).
  - apply triple_result; [|exact HG].
    eapply triple_weaken; [by apply (triple_reads any C)|done|done|eauto].
  - intros a. apply triple_pure, Hk.
Qed.

Lemma triple_store req note :
  triple (inv any) (store_new_key env cfg req note)
    (fun '(k, (pk, psk, ip, label)) w => new_values k pk ip label /\ k_owner k = n_owner req /\ inv (stored k) w) (inv any).
Proof using direct quiet tools_leave_file new_keys_are_free pool_ok.
  unfold store_new_key.
  do 4 (apply triple_read; [keeps_tac|eauto|intros ?]).
  apply (triple_read_known (fun ip => is_Some (ipv4_address ip))); [keeps_tac|exact allocated_is_ipv4|]. intros ip Hip.
  apply (triple_read_known (fun kp => free kp.2 /\ strip kp.2 = kp.2)); [keeps_tac| |].
  { intros w [priv pk] w' H. by eapply keypair_fresh. }
  intros [priv pk] [Hfree Hs]. cbn [snd] in *.
  apply triple_read; [keeps_tac|eauto|intros label]. apply triple_read; [keeps_tac|eauto|intros psk].
  apply triple_read; [keeps_tac|eauto|intros now].
  eapply triple_bind; [apply triple_create_pending|].
  - intros id _. exists pk. split; [done|]. split; [by apply stored_new_payload|done].
  - intros k. apply triple_ret. intros w [[id ->] Hw]. split; [|done]. split; try done. by apply stored_new_payload.
Qed.

(** ** Adding the peer of a new row *)

Definition peer_of (k : vpn_key) (pk : str) (psk : option str) (ip label : str) : peer :=
  Peer (k_id k) (k_owner k) pk psk ip (Some label).
Definition applied (k : vpn_key) (p : peer) : cond := fun peers rows => k ∈ rows /\ p ∈ peers.

Lemma added_text_label text id owner pk psk ip label u :
  added_text text id owner pk psk ip label = Ok (Some u) ->
  match given label with Some l => validate_label l = Ok tt | None => True end.
Proof.
  unfold added_text. destruct (parse_sections text); [|done]. cbn [result_bind].
  destruct (managed_block_exists _ _); [done|]. destruct (find_peer_in _ _ _); [done|].
  unfold peer_block. destruct (given label) as [l|]; [|done]. by destruct (validate_label l) as [[]|].
Qed.
Lemma added_valid k pk psk ip label text u : is_Some (ipv4_address ip) -> validate_peer pk psk ip = Ok tt ->
  added_text text (k_id k) (k_owner k) pk psk ip (Some label) = Ok (Some u) -> valid_peer (peer_of k pk psk ip label).
Proof.
  intros Hip Hv Hu. apply added_text_label in Hu. unfold validate_peer in Hv.
  destruct (validate_wireguard_key pk _) as [[]|] eqn:E1; [|done]. cbn [result_bind] in Hv.
  split; [done|]. split; [|done]. destruct psk as [psk|]; [|done].
  by destruct (validate_wireguard_key psk _) as [[]|] eqn:E2.
Qed.
Lemma new_accounted rows k pk psk ip label : new_values k pk ip label -> k ∈ rows ->
  accounted rows (peer_of k pk psk ip label).
Proof.
  intros Hnv Hk. exists k. destruct Hnv. repeat split; try done.
  unfold may_exist. rewrite nv_status0. by apply (bool_decide_unpack _).
Qed.

(** The appended peer is listed. *)
Lemma added_listed peers text p u : good_list peers -> maintained base peers text -> valid_peer p ->
  p_id p ∉ map p_id peers ->
  added_text text (p_id p) (p_owner p) (p_key p) (p_psk p) (p_ip p) (p_label p) = Ok (Some u) ->
  maintained base (peers ++ [p]) u /\ good_list (peers ++ [p]).
Proof using base_clean base_tight base_unmarked base_parses.
  intros Hl Hm Hp Hid Hu.
  pose proof (run_add base base_views base_clean base_tight base_unmarked base_parses peers text p (proj1 Hl) Hm Hp) as Hm'.
  pose proof (spec_good base_views peers (CAdd p) Hl Hp) as Hl'. cbn [run_cmd spec_cmd] in *. rewrite Hu in Hm'.
  rewrite bool_decide_eq_false_2 in * by done. cbn [orb] in *.
  pose proof (maintained_view base base_views base_clean base_parses peers text (proj1 Hl) Hm) as Hv.
  apply rmap_ok in Hv as (sections & Hps & Hv). unfold added_text in Hu. rewrite Hps in Hu. cbn [result_bind] in Hu.
  destruct (managed_block_exists _ _); [done|]. pose proof (find_clash p sections) as Hc. rewrite Hv in Hc.
  destruct (find_peer_in _ _ _); [done|]. destruct (existsb _ _); [done|]. done.
Qed.

Lemma triple_add k pk psk ip label : new_values k pk ip label ->
  triple (inv (stored k))
    (on_awg (add_peer (se_awg env) (sc_adapter cfg) (k_id k) (k_owner k) pk psk ip (Some label)))
    (fun _ => inv (applied k (peer_of k pk psk ip label))) (inv (kept k)).
Proof using base_clean base_tight base_unmarked base_parses direct quiet tools_leave_file.
  intros Hnv w (peers & text & Hf & Hm & Hl & Hr & Ha & _ & Hk & Hid). unfold on_awg, embed. cbn [part_get part_awg].
  destruct (add_peer _ _ _ _ _ _ _ _ (sw_awg w)) as [r w'] eqn:E.
  pose proof (add_peer_spec (se_awg env) (sc_adapter cfg) quiet tools_leave_file _ _ _ _ _ _ _ _ _ direct E) as Hs.
  pose proof (add_peer_leaves (se_awg env) (sc_adapter cfg) quiet tools_leave_file _ _ _ _ _ _ _ _ _ direct E) as Hleft.
  assert (forall u, validate_peer pk psk ip = Ok tt ->
    added_text text (k_id k) (k_owner k) pk psk ip (Some label) = Ok (Some u) -> o_config (w_out w') = Some u ->
    inv (applied k (peer_of k pk psk ip label)) (part_set w' w)) as Hdone.
  { intros u Hv Hu Hfu. pose proof (added_valid k pk psk ip label text u (nv_ipv4 _ _ _ _ Hnv) Hv Hu) as Hp.
    destruct (added_listed peers text (peer_of k pk psk ip label) u Hl Hm Hp Hid Hu) as [Hm' Hl'].
    exists (peers ++ [peer_of k pk psk ip label]), u. cbn. do 4 (split; [done|]). split.
    - apply Forall_app. split; [done|]. constructor; [by apply new_accounted|constructor].
    - split; [done|]. split; [done|]. apply elem_of_app. right. by apply list_elem_of_singleton. }
  destruct r as [[]|e].
  - destruct Hs as (o & u & Ho & Hu & Hfu & _). assert (o = text) as -> by congruence.
    destruct u as [u|]; [apply (Hdone u); [by eapply add_peer_validates|done|done]|]. exfalso.
    unfold added_text in Hu. destruct (parse_sections text); [|done]. cbn [result_bind] in Hu.
    rewrite (maintained_exists base base_clean base_unmarked peers) in Hu by (try done; apply Hl).
    rewrite bool_decide_eq_false_2 in Hu by done. destruct (find_peer_in _ _ _); [done|].
    by destruct (peer_block _ _ _ _ _ _).
  - destruct Hleft as [Hfe|(o & u & Ho & Hv & Hu & Hfu)].
    + exists peers, text. cbn. rewrite Hfe. done.
    + assert (o = text) as -> by congruence.
      eapply (holds_weaken any (applied k (peer_of k pk psk ip label))); [|by eapply Hdone]. by intros ps rows [? _].
Qed.

Lemma stored_kept k w : inv (stored k) w -> inv (kept k) w.
Proof. apply holds_weaken. by intros ? ? []. Qed.
Lemma kept_managed k w : may_exist k -> inv (kept k) w -> inv (managed k) w.
Proof. intros Hme. apply holds_weaken. intros peers rows Hk. split; [by exists k|done]. Qed.
Lemma pending_may_exist k : k_status k = PENDING_APPLY -> may_exist k.
Proof. unfold may_exist. intros ->. by apply (bool_decide_unpack _). Qed.

Lemma triple_apply req k pk psk ip label : new_values k pk ip label -> k_owner k = n_owner req ->
  triple (inv (stored k)) (apply_new_key env cfg req (k_id k) pk psk ip label)
    (fun _ => inv (applied k (peer_of k pk psk ip label))) (inv any).
Proof using base_clean base_tight base_unmarked base_parses direct quiet tools_leave_file.
  intros Hnv Ho. unfold apply_new_key. rewrite <- Ho. eapply (triple_catch _ _ (inv (managed k))).
  - apply triple_read; [apply reads_can_create| |].
    + intros w Hw%stored_kept. apply kept_managed; [|done]. apply pending_may_exist, (nv_status _ _ _ _ Hnv).
    + intros []. eapply triple_weaken; [by apply triple_add|done|done|].
      intros w. apply kept_managed. apply pending_may_exist, (nv_status _ _ _ _ Hnv).
  - intros exc. apply triple_status_and_raise; [done|apply stable_managed|by apply (bool_decide_unpack _)].
Qed.

(** An active key with its peer in the file. *)
Definition live (k : vpn_key) : cond := fun peers rows =>
  k ∈ rows /\ k_type k = AWG /\ k_status k = ACTIVE
  /\ exists p, p ∈ peers /\ p_id p = k_id k /\ k_public_key k = Some (p_key p) /\ k_client_ip k = Some (p_ip p).
Definition live_id (id : Z) : cond := fun peers rows => exists k, k_id k = id /\ live k peers rows.

Lemma applied_becomes_live k pk psk ip label peers rows p f : new_values k pk ip label ->
  (forall k', k_type (f k') = k_type k' /\ k_public_key (f k') = k_public_key k' /\ k_client_ip (f k') = k_client_ip k'
     /\ k_id (f k') = k_id k' /\ k_status (f k') = ACTIVE) -> p k = true ->
  applied k (peer_of k pk psk ip label) peers rows -> live_id (k_id k) peers (updated p f rows).
Proof.
  intros [Ht _ Hpk Hip _ _] Hf Hp [Hk Hpeer]. destruct (Hf k) as (E1 & E2 & E3 & E4 & E5).
  exists (f k). split; [done|]. split.
  - apply list_elem_of_fmap. exists k. by rewrite Hp.
  - rewrite E1, E5. do 2 (split; [done|]). exists (peer_of k pk psk ip label). rewrite E2, E3, E4. done.
Qed.

Lemma triple_compensate k pk psk ip label : new_values k pk ip label ->
  triple (inv (applied k (peer_of k pk psk ip label))) (compensate_failed_create env cfg (k_id k) pk)
    (fun _ => inv any) (inv any).
Proof using base_clean base_tight base_unmarked base_parses direct quiet tools_leave_file.
  intros Hnv. unfold compensate_failed_create.
  eapply (triple_bind _ _ _ _ (fun _ => inv any)).
  - apply (triple_pre _ (fun w => pk <> [] /\ inv (managed k) w)).
    + apply triple_pure. intros Hne. eapply triple_weaken; [eapply triple_attempt|done| |done].
      * apply (triple_remove_peer any whatever); try done; by destruct Hnv.
      * intros [[]|e] w; eauto.
    + intros w Hw. split.
      * destruct Hw as (peers & text & _ & _ & [Hg _] & _ & _ & _ & _ & Hp).
        by apply (gp_key _ (proj1 (Forall_elem _ _) Hg _ Hp)).
      * apply kept_managed; [apply pending_may_exist, (nv_status _ _ _ _ Hnv)|].
        revert Hw. apply holds_weaken. by intros ? ? [].
  - intros [[]|e]; [|apply ends_reads, reads_health].
    apply ends_read; [apply reads_now|]. intros now.
    eapply (triple_bind _ _ _ _ (fun _ => inv any)); [|intros r; apply triple_ret; eauto].
    eapply triple_weaken; [eapply triple_attempt, (triple_set_status any any_updated any)|done| |done].
    + apply stable_any.
    + by apply (bool_decide_unpack _).
    + intros [[]|e] w; eauto.
Qed.

Lemma triple_activate_new k pk psk ip label ppl : new_values k pk ip label ->
  triple (inv (applied k (peer_of k pk psk ip label))) (activate_new_key env cfg (k_id k) pk (k_payload k) ppl)
    (fun _ => inv (live_id (k_id k))) (inv any).
Proof using base_clean base_tight base_unmarked base_parses direct quiet tools_leave_file new_keys_are_free pool_ok.
  intros Hnv. unfold activate_new_key. eapply triple_catch.
  - apply (triple_read any _ _ _ _ (inv (applied k (peer_of k pk psk ip label)))); [apply reads_now|done|]. intros now.
    apply (triple_mark_active any any_updated).
    + intros peers rows k' Hn [Hk _] Hk' Hid. right. f_equal. f_equal. by eapply map_inj_elem.
    + intros peers rows p f _ _ Ha -> Hf. eapply applied_becomes_live; [exact Hnv|exact Hf| |exact Ha].
      unfold has_id, status_in. rewrite Z.eqb_refl, (nv_status _ _ _ _ Hnv). by rewrite bool_decide_eq_true_2 by set_solver.
  - intros exc. eapply triple_bind; [by apply triple_compensate|]. intros ?. apply triple_raise. eauto.
Qed.

(** A key that [create_awg_key] has returned is active, and its peer is in the file. *)
Lemma create_ends req :
  triple (inv any) (create_awg_key env cfg req) (fun '(k, _) => inv (live k)) (inv any).
Proof using base_clean base_tight base_unmarked base_parses direct quiet tools_leave_file new_keys_are_free pool_ok.
  unfold create_awg_key. do 10 (apply triple_read; [keeps_tac|eauto|intros ?]).
  eapply triple_bind; [apply triple_store|]. intros [k [[[pk psk] ip] label]].
  apply triple_pure. intros Hnv. apply triple_pure. intros Ho.
  eapply triple_bind; [by apply triple_apply|]. intros ?.
  eapply triple_bind; [by apply triple_activate_new|]. intros ?.
  eapply triple_bind; [eapply triple_weaken; [apply (triple_get_key any (live_id (k_id k)))|done|done|eauto]|].
  intros k'. apply triple_pure. intros Hid.
  apply triple_read; [keeps_tac|eauto|]. intros text. apply triple_ret. intros w Hw.
  apply (holds_and any _ (live k') w Hw). intros peers rows Hn [(k2 & Hid2 & H2) Hk'].
  assert (k2 = k') as ->; [|done]. eapply map_inj_elem; [exact Hn|apply H2|done|congruence].
Qed.
(** ** Start-up *)

(** The keys of a batch that are still to come. *)
Definition batch_of (keys : list vpn_key) : cond := fun peers rows => forall k, k ∈ keys -> managed k peers rows.
Definition not_of (keys : list vpn_key) : Z -> Prop := fun id => id ∉ map k_id keys.
Lemma batch_updated keys peers rows p f : mild p f rows -> batch_of keys peers rows -> batch_of keys peers (updated p f rows).
Proof. intros Hm H k Hk. by apply stable_managed, H. Qed.
Lemma batch_without keys peers rows id : not_of keys id -> batch_of keys peers rows -> batch_of keys (without id peers) rows.
Proof.
  intros _ H k Hk. destruct (H k Hk) as [H1 H2]. split; [done|]. intros (p & E & Hp)%list_elem_of_fmap. apply H2.
  rewrite E. apply list_elem_of_fmap_2. apply list_elem_of_In, filter_In in Hp as [Hp _]. by apply list_elem_of_In.
Qed.
Lemma batch_deleted keys peers rows id : not_of keys id -> batch_of keys peers rows ->
  batch_of keys peers (List.filter (fun k => negb (has_id id k)) rows).
Proof.
  intros Hid H k Hk. destruct (H k Hk) as [(k' & Hk' & Hs) H2]. split; [|done]. exists k'. split; [|done].
  apply list_elem_of_In, filter_In. split; [by apply list_elem_of_In|]. apply negb_true_iff. unfold has_id.
  apply Z.eqb_neq. destruct Hs as (-> & _). intros E. apply Hid. rewrite <- E. by apply list_elem_of_fmap_2.
Qed.
Lemma holds_frame (Fr Fr' C C' : cond) w : (forall peers rows, Fr peers rows -> C peers rows -> Fr' peers rows /\ C' peers rows) ->
  holds Fr C w -> holds Fr' C' w.
Proof.
  intros H (peers & text & ? & ? & ? & ? & ? & Hf & Hc). destruct (H _ _ Hf Hc). exists peers, text. auto 10.
Qed.

Lemma reconcile_batch_ends keys : forall s, NoDup (map k_id keys) -> Forall (fun k => k_type k = AWG) keys ->
  ends any (batch_of keys) (reconcile_batch env cfg keys s).
Proof using base_clean base_tight base_unmarked base_parses direct quiet tools_leave_file.
  induction keys as [|k keys IH]; intros s Hn Ht; cbn [reconcile_batch]; [apply triple_ret; eauto|].
  cbn in Hn. apply NoDup_cons in Hn as [Hk Hn]. apply Forall_cons in Ht as [Htk Ht].
  eapply (triple_bind _ _ _ _ (fun _ => inv (batch_of keys))); [|by intros o; apply IH].
  apply (triple_pre _ (holds (batch_of keys) (managed k))).
  - eapply triple_weaken.
    + eapply triple_attempt, (reconcile_key_ends (batch_of keys) (not_of keys)); try done.
      * apply batch_updated.
      * intros peers rows id. apply batch_without.
      * intros peers rows id. apply batch_deleted.
    + done.
    + intros [b|e] w; (apply holds_frame; by intros ? ? ? ?).
    + done.
  - intros w. apply holds_frame. intros peers rows _ H. split; [|apply H; by left]. intros k' Hk'. apply H. by right.
Qed.

Lemma triple_list last :
  triple (inv any) (on_keys (R := R) (list_by_type_statuses AWG AWG_STARTUP_RECONCILE_STATUSES BATCH 0 (Some last)))
    (fun keys w => (NoDup (map k_id keys) /\ Forall (fun k => k_type k = AWG) keys) /\ inv (batch_of keys) w) (inv any).
Proof.
  intros w Hw. unfold on_keys, embed, list_by_type_statuses, AWG_STARTUP_RECONCILE_STATUSES, statement, bind, gets. cbn -[take].
  destruct (kt_ok _ _); cbn -[take]; [|exact Hw].
  set (keys := take _ _). assert (keys `sublist_of` rows_in w) as Hsub.
  { unfold keys. etransitivity; [apply sublist_take|]. etransitivity; [apply sublist_drop|apply filter_sublist]. }
  assert (Forall (fun k => k_type k = AWG) keys) as Hty.
  { unfold keys. apply Forall_take, Forall_drop, Forall_elem. intros k [_ H]%list_elem_of_In%filter_In. by bool_prop. }
  clearbody keys. destruct Hw as (peers & text & Hf & Hm & Hl & Hr & Ha & _ & _). split.
  - split; [|done]. pose proof (ro_ids _ _ _ Hr) as Hn. revert Hn. clear - Hsub.
    induction Hsub as [|k l1 l2 Hs IH|k l1 l2 Hs IH]; cbn; [done| |]; intros [Hk Hn]%NoDup_cons; [|by apply IH].
    apply NoDup_cons. split; [|by apply IH]. intros (r & E & Hr)%list_elem_of_fmap. apply Hk. rewrite E.
    apply list_elem_of_fmap_2. by eapply sublist_in.
  - exists peers, text. do 6 (split; [done|]). intros k Hk.
    assert (k ∈ rows_in w) as Hkr by by eapply sublist_in. split; [by exists k|].
    intros (p & E & Hp)%list_elem_of_fmap. destruct (proj1 (Forall_elem _ _) Ha p Hp) as (k2 & Hk2 & Hid2 & _ & Hme & _).
    assert (k2 = k) as -> by (eapply same_id; [exact Hr|done|done|congruence]). done.
Qed.

Lemma reconcile_loop_ends fuel : forall last s, ends any any (reconcile_loop env cfg fuel last s).
Proof using base_clean base_tight base_unmarked base_parses direct quiet tools_leave_file.
  induction fuel as [|fuel IH]; intros last s; cbn [reconcile_loop]; [by apply triple_ret|].
  eapply triple_bind; [apply triple_list|]. intros keys. apply triple_pure. intros [Hn Ht].
  destruct keys as [|k keys]; [apply triple_ret; eauto|].
  eapply triple_bind; [by apply reconcile_batch_ends|]. intros s'. apply IH.
Qed.

(** ** Requests *)

(** A request, as a handler or a job makes it. *)
Inductive request :=
  | RCreate (req : new_key) | RRevoke (actor id : Z) | RRevokeSystem (id : Z) (actor : option Z)
  | RDelete (actor id : Z) | RNote (actor id : Z) (note : option str) | RReconcile (actor id : Z)
  | RConfig (actor id : Z) | RStartup.
(** The state after serving it, returned or raised. *)
Definition serve (w : service_world R) (r : request) : service_world R :=
  match r with
  | RCreate req => (create_awg_key env cfg req w).2
  | RRevoke actor id => (revoke_awg_key env cfg actor id w).2
  | RRevokeSystem id actor => (revoke_awg_key_system env cfg id actor w).2
  | RDelete actor id => (delete_awg_key env cfg actor id w).2
  | RNote actor id note => (update_awg_note env actor id note w).2
  | RReconcile actor id => (reconcile_key_status env actor id w).2
  | RConfig actor id => (get_awg_client_config_plain env cfg actor id w).2
  | RStartup => (startup_reconcile env cfg w).2
  end.

Lemma triple_state {A} (P X : service_world R -> Prop) (m : M (service_world R) service_error A) Q w :
  triple P m Q X -> (forall a s, Q a s -> X s) -> P w -> X (m w).2.
Proof. intros Hm HQ Hw. specialize (Hm w Hw). destruct (m w) as [[a|e] w']; cbn; eauto. Qed.

Lemma serve_ends w r : inv any w -> inv any (serve w r).
Proof using base_clean base_tight base_unmarked base_parses direct quiet tools_leave_file new_keys_are_free pool_ok.
  intros Hw. assert (forall A (m : M (service_world R) service_error A), ends any any m -> inv any (m w).2) as He.
  { intros A m Hm. eapply triple_state; [exact Hm|done|done]. }
  destruct r; cbn [serve]; apply He.
  - eapply triple_weaken; [apply create_ends|done| |done]. intros [k text] s. eauto.
  - by apply (revoke_ends any whatever).
  - by apply (revoke_system_ends any whatever).
  - by apply (delete_ends any whatever).
  - by apply (note_ends any any_updated).
  - by apply (reconcile_ends any any_updated).
  - by apply config_ends.
  - intros w0 Hw0. by apply reconcile_loop_ends.
Qed.
Lemma served_holds requests : forall w, inv any w -> inv any (fold_left serve requests w).
Proof using base_clean base_tight base_unmarked base_parses direct quiet tools_leave_file new_keys_are_free pool_ok.
  induction requests as [|r requests IH]; intros w Hw; [done|]. by apply IH, serve_ends.
Qed.

(** The server as it is set up: a configuration without blocks of the bot, and a
    key table without keys of this service. *)
Definition set_up (w : service_world R) : Prop :=
  text_in w = Some (text_of base) /\ NoDup (map k_id (rows_in w))
  /\ Forall (fun k => k_id k <= kt_seq (sw_keys w)) (rows_in w) /\ indexes_ok (rows_in w) = true
  /\ Forall (fun k => k_type k <> AWG) (rows_in w).
Lemma set_up_holds w : set_up w -> inv any w.
Proof.
  intros (Hf & Hn & Hs & Hi & Ht). exists [], (text_of base). split; [done|]. split; [apply maintained_nil|].
  split; [split; constructor|]. split; [|by repeat constructor]. split; try done.
  apply (Forall_impl _ _ _ Ht). intros k Hk E. by destruct Hk.
Qed.
(** What the invariant says of the file and the table. *)
Definition accounted_file (peers : list peer) (w : service_world R) : Prop := exists text,
  text_in w = Some text
  /\ rmap (map erase) (parse_sections text) = Ok (base_views ++ map peer_view peers)
  /\ NoDup (map p_id peers) /\ NoDup (map p_ip peers)
  /\ forall p, p ∈ peers -> exists k, k ∈ rows_in w /\ k_id k = p_id p /\ k_type k = AWG
       /\ k_status k ∈ AWG_ACCESS_MAY_EXIST_STATUSES
       /\ k_public_key k = Some (p_key p) /\ k_client_ip k = Some (p_ip p).
Lemma holds_says C w : inv C w -> exists peers, accounted_file peers w /\ C peers (rows_in w).
Proof using base_clean base_parses.
  intros (peers & text & Hf & Hm & [Hg Hn] & Hr & Ha & _ & HC). exists peers. split; [|done]. exists text.
  split; [done|]. split; [by apply (maintained_view base)|]. split; [done|].
  split; [by apply (accounted_addresses free _ _ _ Hr)|].
  intros p Hp. destruct (proj1 (Forall_elem _ _) Ha p Hp) as (k & H). exists k. exact H.
Qed.


(** C4 A key that [create_awg_key] returns is live, under the conditions of
    [access_is_accounted]: the direct mode, a file that only the bot writes, tools that
    leave it alone, generated keys that are not the operator's. In any state the service
    can then reach, if the call returns, the returned row is in the table as an active
    AWG key, and the file parses to the configuration's own sections and a list of
    peers one of which has the row's id, public key and address. *)
Theorem created_key_is_live w requests req k text w' : set_up w ->
  create_awg_key env cfg req (fold_left serve requests w) = (Ok (k, text), w') ->
  k ∈ kt_rows (sw_keys w') /\ k_type k = AWG /\ k_status k = ACTIVE
  /\ exists peers p file, o_config (w_out (sw_awg w')) = Some file
       /\ rmap (map erase) (parse_sections file) = Ok (base_views ++ map peer_view peers)
       /\ p ∈ peers /\ p_id p = k_id k /\ k_public_key k = Some (p_key p) /\ k_client_ip k = Some (p_ip p).
Proof using base_clean base_tight base_unmarked base_parses direct quiet tools_leave_file new_keys_are_free pool_ok.
  intros Hs H. apply (triple_run _ _ _ _ _ _ _ (create_ends req)) in H; [|by apply served_holds, set_up_holds].
  destruct (holds_says _ _ H) as (peers & (file & Hf & Hp & _) & Hk & Ht & Hst & p & Hpin & Hrest).
  do 3 (split; [done|]). by exists peers, p, file.
Qed.
End Access.
