(* ===== verification/AwgStartup.v ===== *)
(** * The start-up pass ends

    [AwgService.startup_reconcile] runs its loop with one turn more than the table
    has rows; that is always enough, whatever fails meanwhile. *)

From S2P Require Import Prelude PyText Json AwgConfig AwgPeers VpnKeys BackendHealth AwgService.
#[local] Open Scope Z_scope.

Section Startup.
Context {R : Type} (env : service_env R) (cfg : awg_service_config).
Abbreviation ids_in w := (map k_id (kt_rows (sw_keys w))) (only parsing).

(** Rows may go, none is added. *)
Definition shrinks (w w' : service_world R) : Prop := ids_in w' `sublist_of` ids_in w.
#[export] Instance shrinks_pre : PreOrder shrinks.
Proof. split; [by intros w; unfold shrinks|]. intros a b c H1 H2. unfold shrinks in *. by transitivity (ids_in b). Qed.

Lemma shrinks_keys {A} (m : M key_table key_error A) :
  (forall t, map k_id (kt_rows (m t).2) `sublist_of` map k_id (kt_rows t)) -> keeps shrinks (on_keys (R := R) m).
Proof. intros Hm. apply keeps_embed. intros w. apply Hm. Qed.
Lemma shrinks_awg {A} (m : M (awg_world R) awg_error A) : keeps shrinks (on_awg m).
Proof. apply keeps_embed. intros w. by unfold shrinks. Qed.
Lemma shrinks_now : keeps shrinks (clock_now env).
Proof. intros w. by unfold shrinks. Qed.
#[local] Hint Resolve shrinks_awg shrinks_now : keeps.

(** On the table: the same relation. *)
Definition fewer (t t' : key_table) : Prop := map k_id (kt_rows t') `sublist_of` map k_id (kt_rows t).
#[export] Instance fewer_pre : PreOrder fewer.
Proof. split; [by intros w; unfold fewer|]. intros a b c H1 H2. unfold fewer in *. by transitivity (map k_id (kt_rows b)). Qed.
Lemma fewer_statement : keeps fewer statement.
Proof. intros t. by unfold fewer. Qed.
#[local] Hint Resolve fewer_statement : keeps.
Lemma fewer_update p f : (forall k, k_id (f k) = k_id k) -> keeps fewer (update_rows p f).
Proof.
  intros Hf t. unfold update_rows, statement, store_rows, bind, get, modify, fewer.
  destruct (kt_ok t (kt_tick t)); [|done]. cbn. destruct (indexes_ok _); [|done]. cbn.
  induction (kt_rows t) as [|k rows IH]; [done|]. cbn. destruct (p k); rewrite ?Hf; by constructor.
Qed.
Lemma fewer_read p : keeps fewer (find_row p).
Proof. unfold find_row. keeps_tac. Qed.
Lemma fewer_raise {A} e : keeps fewer (raise (A := A) (E := key_error) e).
Proof. apply keeps_raise. typeclasses eauto. Qed.
#[local] Hint Resolve fewer_read : keeps.
Lemma fewer_set_status id st now : keeps fewer (set_status id st now []).
Proof. unfold set_status. apply keeps_bind; [typeclasses eauto|by apply fewer_update|]. intros ?. keeps_tac. Qed.
Lemma fewer_mark_active id now a b : keeps fewer (mark_active id now a b).
Proof.
  unfold mark_active, get_by_id. apply keeps_bind; [typeclasses eauto|apply fewer_read|]. intros [k|]; [|keeps_tac].
  apply keeps_bind; [typeclasses eauto|by apply fewer_update|]. intros ?. keeps_tac.
Qed.
Lemma fewer_mark_revoked id actor now : keeps fewer (mark_revoked id actor now).
Proof.
  unfold mark_revoked. apply keeps_bind; [typeclasses eauto|by apply fewer_update|]. intros n. keeps_tac.
Qed.
Lemma fewer_hard_delete id now : keeps fewer (hard_delete_with_stats id now).
Proof.
  unfold hard_delete_with_stats. keeps_tac. apply keeps_modify. intros t. unfold fewer. cbn.
  apply map_sublist, filter_sublist.
Qed.

Lemma shrinks_on {A} (m : M key_table key_error A) : keeps fewer m -> keeps shrinks (on_keys (R := R) m).
Proof. intros Hm. apply shrinks_keys. exact Hm. Qed.
Lemma shrinks_status id st now : keeps shrinks (on_keys (R := R) (set_status id st now [])).
Proof. apply shrinks_on, fewer_set_status. Qed.
Lemma shrinks_active id now a b : keeps shrinks (on_keys (R := R) (mark_active id now a b)).
Proof. apply shrinks_on, fewer_mark_active. Qed.
Lemma shrinks_revoked id actor now : keeps shrinks (on_keys (R := R) (mark_revoked id actor now)).
Proof. apply shrinks_on, fewer_mark_revoked. Qed.
Lemma shrinks_deleted id now : keeps shrinks (on_keys (R := R) (hard_delete_with_stats id now)).
Proof. apply shrinks_on, fewer_hard_delete. Qed.
#[local] Hint Resolve shrinks_status shrinks_active shrinks_revoked shrinks_deleted : keeps.
Lemma shrinks_remove k : keeps shrinks (remove_awg_access env cfg k).
Proof. unfold remove_awg_access. keeps_tac. Qed.
#[local] Hint Resolve shrinks_remove : keeps.
Lemma shrinks_key k : keeps shrinks (startup_reconcile_key env cfg k).
Proof. unfold startup_reconcile_key, runtime_peer_present, fail_pending_apply. keeps_tac. Qed.
#[local] Hint Resolve shrinks_key : keeps.
Lemma shrinks_batch keys : forall s, keeps shrinks (reconcile_batch env cfg keys s).
Proof. induction keys as [|k keys IH]; intros s; cbn [reconcile_batch]; keeps_tac. Qed.

(** ** The loop *)

(** The rows a batch can still come from. *)
Definition ahead (last : Z) (w : service_world R) : nat := length (List.filter (fun id => last <? id) (ids_in w)).

Lemma ahead_shrinks last w w' : shrinks w w' -> (ahead last w' <= ahead last w)%nat.
Proof. intros H. apply sublist_length, filter_sublist_mono, H. Qed.
(** What a batch is read from. *)
Lemma batch_read last (w : service_world R) keys w' :
  on_keys (list_by_type_statuses AWG AWG_STARTUP_RECONCILE_STATUSES BATCH 0 (Some last)) w = (Ok keys, w') ->
  ids_in w' = ids_in w /\ forall k, k ∈ keys -> k_id k ∈ ids_in w /\ last < k_id k.
Proof.
  unfold on_keys, embed, list_by_type_statuses, AWG_STARTUP_RECONCILE_STATUSES, statement, bind, gets. cbn -[take].
  destruct (kt_ok _ _); [|done]. intros [= <- <-]. split; [done|]. cbn [kt_rows]. intros k Hk.
  apply (elem_of_submseteq _ (List.filter (fun r => bool_decide (k_type r = AWG) && status_in AWG_STARTUP_RECONCILE_STATUSES r
     && (last <? k_id r)) (kt_rows (sw_keys w)))) in Hk.
  - apply list_elem_of_In, filter_In in Hk as [Hk H]. bool_prop. split; [|done].
    by apply list_elem_of_fmap_2, list_elem_of_In.
  - apply sublist_submseteq. etransitivity; [apply sublist_take|apply sublist_drop].
Qed.

Lemma loop_ends fuel : forall last s w r w', (ahead last w < fuel)%nat ->
  reconcile_loop env cfg fuel last s w = (r, w') -> r <> Ok None.
Proof.
  induction fuel as [|fuel IH]; intros last s w r w' Hf; [lia|]. cbn [reconcile_loop].
  intros [(keys & w1 & H1 & H)|(e & _ & ->)]%bind_inv; [|done].
  apply batch_read in H1 as [Eids Hk]. destruct keys as [|k keys]; [by injection H as <- _|].
  apply bind_inv in H as [(s' & w2 & H2 & H)|(e & _ & ->)]; [|done].
  eapply IH; [|exact H]. clear H.
  apply (keeps_run _ _ _ _ _ (shrinks_batch (k :: keys) s)) in H2. apply (ahead_shrinks (List.last (map k_id (k :: keys)) last)) in H2.
  eapply Nat.le_lt_trans; [exact H2|]. eapply Nat.lt_le_trans; [|apply Nat.lt_succ_r, Hf].
  unfold ahead. rewrite Eids.
  pose proof (last_in (map k_id keys) (k_id k) last) as Hin. change (k_id k :: map k_id keys) with (map k_id (k :: keys)) in Hin.
  apply list_elem_of_fmap in Hin as (k' & E & Hk'). rewrite E. destruct (Hk k' Hk'). by apply ahead_next.
Qed.

(** the start-up pass over unfinished keys ends. From any table and any file,
    whichever statement, tool or file operation fails and whatever the other
    processes do to the file meanwhile, the pass returns its summary or raises; it
    never runs out of the turns its model is given. *)
Theorem startup_reconcile_ends w :
  exists r w', startup_reconcile env cfg w = (r, w') /\ r <> Ok None.
Proof.
  destruct (startup_reconcile env cfg w) as [r w'] eqn:E. exists r, w'. split; [done|].
  unfold startup_reconcile in E. eapply loop_ends; [|exact E]. unfold ahead.
  apply Nat.lt_succ_r. etransitivity; [apply sublist_length, filter_sublist|]. by rewrite length_map.
Qed.
End Startup.
