(* ===== verification/AwgServiceRuns.v ===== *)
(** * The AWG service on a simulated server

    The interface of [AwgScenarios] with its key tools, one administrator, and a
    table without keys: the theorems of [AwgAccess] apply to it. *)

From S2P Require Import Prelude PyText PyIp IpSpace Json TextLines IpAllocator AwgConfig AwgLayout AwgRefine AwgPeers AwgScenarios VpnKeys BackendHealth AwgService KeyRows AwgAccess.
#[local] Open Scope Z_scope.

Definition sim_private : str := py "AAAAAAAAAAAAAAAAAAAAAAAAAAAAAAAAAAAAAAAAAAE=".
Definition keyed_tool (t : nat) (b : binary) (c : tool_call) (o : outside (list (str * str)))
    : tool_result * outside (list (str * str)) :=
  match b, c with
  | Awg, CGenKey => (done_with sim_private, o)
  | Awg, CPubKey _ => (done_with (py "AAA="), o)
  | _, _ => sim_tool t b c o
  end.
Definition keyed_env : awg_env (list (str * str)) :=
  AwgEnv _ keyed_tool (fun _ => true) (fun _ o => o) (fun text => text).
Definition admin_env : service_env (list (str * str)) :=
  ServiceEnv _ keyed_env (fun _ _ => Ok (Some (User SUPERADMIN None))) (fun _ => Ok true)
    (fun _ => py "awg_aB3dE") (fun _ => py "2026-01-01") (fun _ => true).
Definition sim_settings : awg_service_settings :=
  AwgServiceSettings (py "10.8.0.0/29") (py "10.8.0.1/24") (py "vpn.example") 51820 (py "SRV=") (py "1.1.1.1") None
    (py "0.0.0.0/0") 25 false.
Definition sim_service : awg_service_config := ServiceConfig sim_settings sim_cfg demo_alloc.
Definition fresh_server : service_world (list (str * str)) :=
  ServiceWorld (KeyTable [] 0 [] [] (fun _ => true) 0) (start demo_text) healthy 0.
Definition demo_request : new_key := NewKey 1 1 None (Some (py " note ")) None false None.

Lemma keyed_leaves_file t b c o : o_config (keyed_tool t b c o).2 = o_config o.
Proof. by destruct b, c. Qed.
Definition demo_views : list (list N * list (list N * list N)) :=
  [(py "Interface", [(py "Address", py "10.8.0.1/24"); (py "ListenPort", py "51820");
                     (py "PrivateKey", py "c2VydmVy"); (py "Jc", py "4")])].
Lemma demo_views_parse : view_of (content demo_base) = Ok demo_views.
Proof. vm_compute. reflexivity. Qed.
Lemma all_keys_free pk : free demo_views pk.
Proof.
  intros v Hv. apply list_elem_of_singleton in Hv as ->.
  assert (dict_get (py "PublicKey") (snd (hd ([], []) demo_views)) = None) as E by (vm_compute; reflexivity).
  change (dict_get (py "PublicKey") (snd (hd ([], []) demo_views)) <> Some pk). by rewrite E.
Qed.
Lemma demo_pool_ok : wf_allocator demo_alloc.
Proof. exact (init_wf _ _ _ demo_init). Qed.
Lemma fresh_is_set_up : set_up demo_base fresh_server.
Proof.
  split; [vm_compute; reflexivity|]. split; [constructor|]. split; [constructor|]. split; [vm_compute; reflexivity|constructor].
Qed.


(** The revocation of that run: the row says revoked, and the peer is gone. *)
Lemma created_then_revoked :
  let w := fold_left (serve admin_env sim_service) [RCreate demo_request; RRevoke 1 1] fresh_server in
  map k_status (kt_rows (sw_keys w)) = [REVOKED] /\ o_config (w_out (sw_awg w)) = Some demo_text.
Proof. vm_compute. auto. Qed.

Lemma created_key_is_live_witness :
  exists k text w', create_awg_key admin_env sim_service demo_request fresh_server = (Ok (k, text), w')
    /\ k ∈ kt_rows (sw_keys w') /\ k_status k = ACTIVE.
Proof.
  set (m := create_awg_key admin_env sim_service demo_request fresh_server).
  assert (is_ok m.1 = true) as E by (vm_compute; reflexivity).
  destruct m as [[[k text]|e] w'] eqn:Em; [|discriminate E]. exists k, text, w'. split; [reflexivity|].
  destruct demo_base_ok as (H1 & H2 & H3).
  destruct (created_key_is_live admin_env sim_service demo_base demo_views H1 H2 H3 demo_views_parse eq_refl
    (fun _ _ => eq_refl) keyed_leaves_file (fun _ _ _ _ => all_keys_free _) demo_pool_ok fresh_server
    [] demo_request k text w' fresh_is_set_up Em) as (Hk & _ & Hs & _).
  split; [exact Hk|exact Hs].
Defined.
