(* ===== verification/IsoTime.v ===== *)
(** * Timestamps

    Python's [datetime], as far as the program uses it: a reading of a wall clock,
    with or without an offset from UTC. Parsing and printing the ISO form are the
    standard library's ([datetime.fromisoformat], [datetime.isoformat]); the
    components are proved against the class below, which says what they rely on. *)

From S2P Require Import Prelude PyText.
#[local] Open Scope Z_scope.

(** The reading in microseconds since 1970-01-01T00:00 on the same clock, and
    the offset in microseconds when there is one. *)
Record datetime := DateTime { dt_wall : Z; dt_offset : option Z }.
#[export] Instance datetime_eq_dec : EqDecision datetime.
Proof. solve_decision. Defined.

(** [if d.tzinfo is None: d = d.replace(tzinfo=timezone.utc)] *)
Definition assume_utc (d : datetime) : datetime := DateTime (dt_wall d) (Some (default 0 (dt_offset d))).
(** The instant an aware reading denotes; comparison and subtraction go by it. *)
Definition instant (d : datetime) : Z := dt_wall d - default 0 (dt_offset d).

Definition MICROS : Z := 1000000.
Definition DAY_MICROS : Z := 86400 * MICROS.
(** [d + timedelta(days=n)] *)
Definition add_days (d : datetime) (n : Z) : datetime := DateTime (dt_wall d + n * DAY_MICROS) (dt_offset d).
(** The readings Python can hold: the years 1 to 9999, offsets of less than a day. *)
Definition representable (d : datetime) : Prop :=
  -62135596800 * MICROS <= dt_wall d < 253402300800 * MICROS
  /\ - DAY_MICROS < default 0 (dt_offset d) < DAY_MICROS.
(** [d.replace(microsecond=0)] *)
Definition whole_second (d : datetime) : datetime := DateTime (dt_wall d - dt_wall d mod MICROS) (dt_offset d).
(** [int(d.timestamp())] of an aware reading. *)
Definition unix_seconds (d : datetime) : Z := Z.quot (instant d) MICROS.

(** The two functions of the standard library, and what is documented of them: a
    reading printed is read back. *)
Class IsoText := {
  fromisoformat : str -> option datetime;
  isoformat : datetime -> str;
  fromisoformat_isoformat d : representable d -> fromisoformat (isoformat d) = Some d }.

Lemma instant_assume_utc d : instant (assume_utc d) = instant d.
Proof. by destruct d as [w [o|]]. Qed.
Lemma add_days_later d n : 0 < n -> instant d < instant (add_days d n).
Proof. unfold instant, add_days, DAY_MICROS, MICROS. cbn. lia. Qed.

(** An instance to run examples on: one character per number. *)
Definition char_of_Z (z : Z) : N := Z.to_N (if 0 <=? z then 2 * z else -2 * z - 1).
Definition Z_of_char (c : N) : Z :=
  let z := Z.of_N c in if Z.even z then z / 2 else - ((z + 1) / 2).
Lemma Z_of_char_of_Z z : Z_of_char (char_of_Z z) = z.
Proof.
  unfold Z_of_char, char_of_Z. destruct (Z.leb_spec 0 z); rewrite Z2N.id by lia.
  - rewrite Z.even_mul. cbn. rewrite Z.mul_comm. by apply Z.div_mul.
  - replace (-2 * z - 1) with (1 + 2 * (- z - 1)) by lia. rewrite Z.even_add_mul_2. cbn.
    replace (1 + 2 * (- z - 1) + 1) with (- z * 2) by lia. rewrite Z.div_mul by lia. lia.
Qed.
Definition plain_from (s : str) : option datetime :=
  match s with
  | [w] => Some (DateTime (Z_of_char w) None)
  | [w; o] => Some (DateTime (Z_of_char w) (Some (Z_of_char o)))
  | _ => None
  end.
Definition plain_to (d : datetime) : str :=
  char_of_Z (dt_wall d) :: match dt_offset d with Some o => [char_of_Z o] | None => [] end.
Definition plain_iso : IsoText.
Proof.
  refine {| fromisoformat := plain_from; isoformat := plain_to |}.
  intros [w [o|]] _; unfold plain_to, plain_from; cbn [dt_wall dt_offset]; by rewrite !Z_of_char_of_Z.
Defined.
