(* ===== verification/WarpHealth.v ===== *)
(** * The health monitor of the WARP tunnel ([warp/health.py])

    One probe of the monitor, with everything it calls: the latch that declares the
    tunnel down or recovered, the routes that follow it unless an observer or the
    kill-switch keeps them, the detector of a degraded tunnel and the detector of
    missing source rules. The callbacks act on a world of the caller's; the
    monitor's own attributes stand beside it. What the latch says is determined
    from the probes alone in [latch]. *)

From S2P Require Import Prelude PyText Float64.
From Stdlib Require Import SpecFloat.
#[local] Open Scope Z_scope.

(** ** [warp/constants.py] *)

Definition CHECK_INTERVAL : Z := 10.
Definition FAST_CHECK_INTERVAL : Z := 3.
Definition FAIL_WINDOW_SECONDS : Z := 60.
Definition RECOVER_WINDOW_SECONDS : Z := 60.
Definition HANDSHAKE_FRESH_SECONDS : Z := 180.
Definition DEGRADED_WINDOW_SECONDS : Z := 120.
Definition DEGRADED_MIN_SAMPLES : Z := 10.
(** The literals [0.5] and [0.2]. *)
Definition DEGRADED_LOSS_THRESHOLD : float := fdiv (float_of_int 1) (float_of_int 2).
Definition DEGRADED_CLEAR_THRESHOLD : float := fdiv (float_of_int 1) (float_of_int 5).

(** ** Instants: readings of a monotonic clock *)

Definition fsub : float -> float -> float := SFsub 53 1024.
Definition fleb : float -> float -> bool := SFleb.
(** [x >= n] for an [int] [n]: Python compares the two numbers exactly. *)
Definition float_ge_int (x : float) (n : Z) : bool :=
  match x with
  | S754_nan => false
  | S754_infinity s => negb s
  | S754_zero _ => n <=? 0
  | S754_finite s m e =>
      let v := if s then Z.neg m else Z.pos m in
      if 0 <=? e then n <=? v * 2 ^ e else n * 2 ^ (- e) <=? v
  end.

(** ** State *)

Record health_snapshot := HealthSnapshot {
  hs_tunnel_up : bool; hs_routes_active : bool; hs_fail_streak : Z; hs_success_streak : Z; hs_degraded : bool }.

(** The effective values of the constructor's arguments. *)
Record monitor_config := MonitorConfig {
  mc_interval : Z; mc_fast_interval : Z; mc_fail_window : Z; mc_recover_window : Z; mc_observer_mode : bool }.

Record monitor := Monitor {
  m_fail_streak : Z; m_success_streak : Z;
  m_fail_since : option float; m_success_since : option float; m_last_ok : option bool;
  m_healthy : bool; m_routes_active : bool;
  m_samples : list (float * bool); m_degraded : bool; m_source_rules_present : bool }.
Definition new_monitor (initial_routes_active : bool) : monitor :=
  Monitor 0 0 None None None initial_routes_active initial_routes_active [] false true.

Record callbacks (W E : Type) := Callbacks {
  cb_clock : M W E float;
  cb_ping : M W E bool;
  cb_activate_routes : M W E unit;
  cb_deactivate_routes : M W E unit;
  cb_on_update : health_snapshot -> M W E unit;
  cb_on_tunnel_down : option (M W E unit);
  cb_on_tunnel_recovered : option (M W E unit);
  cb_on_degraded : option (float -> M W E unit);
  cb_on_degraded_cleared : option (M W E unit);
  cb_check_source_rules : option (M W E (option bool));
  cb_on_routes_missing : option (M W E unit);
  cb_on_routes_restored : option (M W E unit);
  cb_kill_switch : M W E bool }.
Arguments cb_clock {W E}. Arguments cb_ping {W E}. Arguments cb_activate_routes {W E}.
Arguments cb_deactivate_routes {W E}. Arguments cb_on_update {W E}. Arguments cb_on_tunnel_down {W E}.
Arguments cb_on_tunnel_recovered {W E}. Arguments cb_on_degraded {W E}. Arguments cb_on_degraded_cleared {W E}.
Arguments cb_check_source_rules {W E}. Arguments cb_on_routes_missing {W E}.
Arguments cb_on_routes_restored {W E}. Arguments cb_kill_switch {W E}.

Section Check.
Context {W E : Type} (cfg : monitor_config) (cb : callbacks W E).
Abbreviation HM := (M (monitor * W) E) (only parsing).

(** A callback acts on the world, an attribute is the monitor's. *)
Definition outer {A} (m : M W E A) : HM A := fun s => let '(r, w) := m s.2 in (r, (s.1, w)).
Definition set_monitor (f : monitor -> monitor) : HM unit := modify (fun s => (f s.1, s.2)).
Definition self : HM monitor := gets fst.
(** [if f is not None: with suppress(Exception): await f()] *)
Definition notify (f : option (M W E unit)) : HM unit :=
  match f with
  | Some m => let! _ := attempt (outer m) in ret tt
  | None => ret tt
  end.

Definition set_healthy (b : bool) (m : monitor) : monitor :=
  Monitor (m_fail_streak m) (m_success_streak m) (m_fail_since m) (m_success_since m) (m_last_ok m) b
    (m_routes_active m) (m_samples m) (m_degraded m) (m_source_rules_present m).
Definition set_routes_active (b : bool) (m : monitor) : monitor :=
  Monitor (m_fail_streak m) (m_success_streak m) (m_fail_since m) (m_success_since m) (m_last_ok m)
    (m_healthy m) b (m_samples m) (m_degraded m) (m_source_rules_present m).
Definition set_samples (l : list (float * bool)) (m : monitor) : monitor :=
  Monitor (m_fail_streak m) (m_success_streak m) (m_fail_since m) (m_success_since m) (m_last_ok m)
    (m_healthy m) (m_routes_active m) l (m_degraded m) (m_source_rules_present m).
Definition set_degraded (b : bool) (m : monitor) : monitor :=
  Monitor (m_fail_streak m) (m_success_streak m) (m_fail_since m) (m_success_since m) (m_last_ok m)
    (m_healthy m) (m_routes_active m) (m_samples m) b (m_source_rules_present m).
Definition set_rules_present (b : bool) (m : monitor) : monitor :=
  Monitor (m_fail_streak m) (m_success_streak m) (m_fail_since m) (m_success_since m) (m_last_ok m)
    (m_healthy m) (m_routes_active m) (m_samples m) (m_degraded m) b.
(** The assignments of [check_once] for a probe that answered, and for one that did not. *)
Definition count_success (now : float) (m : monitor) : monitor :=
  Monitor 0 (m_success_streak m + 1) None (Some (default now (m_success_since m))) (Some true)
    (m_healthy m) (m_routes_active m) (m_samples m) (m_degraded m) (m_source_rules_present m).
Definition count_failure (now : float) (m : monitor) : monitor :=
  Monitor (m_fail_streak m + 1) 0 (Some (default now (m_fail_since m))) None (Some false)
    (m_healthy m) (m_routes_active m) (m_samples m) (m_degraded m) (m_source_rules_present m).

(** [_next_interval] *)
Definition next_interval (m : monitor) : Z :=
  if bool_decide (m_last_ok m = Some false) then mc_fast_interval cfg else mc_interval cfg.

Definition mark_recovered : HM unit :=
  set_monitor (set_healthy true) ;;!
  (if mc_observer_mode cfg then ret tt
   else outer (cb_activate_routes cb) ;;! set_monitor (set_routes_active true)) ;;!
  notify (cb_on_tunnel_recovered cb).

(** The routes of a tunnel that is down. *)
Definition pull_routes : HM unit :=
  if mc_observer_mode cfg then ret tt
  else
    let! kill_switch_on := outer (cb_kill_switch cb) in
    if kill_switch_on : bool then ret tt
    else outer (cb_deactivate_routes cb) ;;! set_monitor (set_routes_active false).
Definition mark_down : HM unit :=
  set_monitor (set_healthy false) ;;!
  pull_routes ;;!
  notify (cb_on_tunnel_down cb).

(** The samples that are not older than the window. *)
Fixpoint prune (window_start : float) (l : list (float * bool)) : list (float * bool) :=
  match l with
  | [] => []
  | (t, ok) :: l' => if fltb t window_start then prune window_start l' else (t, ok) :: l'
  end.
Definition failures (l : list (float * bool)) : Z := Z.of_nat (length (List.filter (fun p => negb p.2) l)).
Definition loss_of (l : list (float * bool)) : float :=
  fdiv (float_of_int (failures l)) (float_of_int (Z.of_nat (length l))).

(** [_evaluate_degraded] *)
Definition evaluate_degraded (now : float) (ok : bool) : HM unit :=
  set_monitor (fun m =>
    set_samples (prune (fsub now (float_of_int DEGRADED_WINDOW_SECONDS)) (m_samples m ++ [(now, ok)])) m) ;;!
  let! m := self in
  if Z.of_nat (length (m_samples m)) <? DEGRADED_MIN_SAMPLES then ret tt
  else
    let loss := loss_of (m_samples m) in
    if negb (m_degraded m) && m_healthy m && fleb DEGRADED_LOSS_THRESHOLD loss
    then set_monitor (set_degraded true) ;;!
         notify (option_map (fun f => f loss) (cb_on_degraded cb))
    else if m_degraded m && fltb loss DEGRADED_CLEAR_THRESHOLD
    then set_monitor (set_degraded false) ;;! notify (cb_on_degraded_cleared cb)
    else ret tt.

(** [_evaluate_source_rules] *)
Definition evaluate_source_rules : HM bool :=
  match cb_check_source_rules cb with
  | None => ret true
  | Some check =>
      let! present := outer check in
      let! m := self in
      match present with
      | None => ret (m_source_rules_present m)
      | Some true =>
          (if m_source_rules_present m then ret tt
           else set_monitor (set_rules_present true) ;;! notify (cb_on_routes_restored cb)) ;;!
          ret true
      | Some false =>
          (if m_source_rules_present m
           then set_monitor (set_rules_present false) ;;! notify (cb_on_routes_missing cb)
           else ret tt) ;;!
          ret false
      end
  end.

(** The latch: [now - since >= window], with the run that the probe belongs to. *)
Definition lasted (now : float) (since : option float) (window : Z) : bool :=
  match since with Some t => float_ge_int (fsub now t) window | None => false end.

(** What [check_once] does with the outcome of its probe. *)
Definition judge (now : float) (ok : bool) : HM unit :=
  if ok then
    set_monitor (count_success now) ;;!
    let! m := self in
    if negb (m_healthy m) && lasted now (m_success_since m) (mc_recover_window cfg)
    then mark_recovered else ret tt
  else
    set_monitor (count_failure now) ;;!
    let! m := self in
    if m_healthy m && lasted now (m_fail_since m) (mc_fail_window cfg)
    then mark_down else ret tt.
Definition check_once : HM health_snapshot :=
  let! now := outer (cb_clock cb) in
  let! ok := outer (cb_ping cb) in
  judge now ok ;;!
  evaluate_degraded now ok ;;!
  let! rules_present := evaluate_source_rules in
  let! m := self in
  let snapshot := HealthSnapshot ok (m_routes_active m && rules_present) (m_fail_streak m) (m_success_streak m)
                    (m_degraded m || negb rules_present) in
  outer (cb_on_update cb snapshot) ;;!
  ret snapshot.

(** One turn of [run], up to the sleep: no exception ends the loop. *)
Definition iteration : HM Z :=
  let! _ := attempt check_once in
  let! m := self in
  ret (next_interval m).

(** ** What the latch means

    The probes seen so far, the latest first. A run is a series of probes with the
    same outcome up to the latest; a probe is a verdict when its run has lasted for
    the window of its outcome. *)

Fixpoint run_since (ok : bool) (h : list (float * bool)) : option float :=
  match h with
  | [] => None
  | (t, o) :: h' => if eqb o ok then Some (default t (run_since ok h')) else None
  end.
Fixpoint run_length (ok : bool) (h : list (float * bool)) : Z :=
  match h with
  | [] => 0
  | (_, o) :: h' => if eqb o ok then run_length ok h' + 1 else 0
  end.
Definition verdict (h : list (float * bool)) : option bool :=
  match h with
  | [] => None
  | (now, ok) :: _ =>
      if lasted now (run_since ok h) (if ok : bool then mc_recover_window cfg else mc_fail_window cfg)
      then Some ok else None
  end.
(** The last verdict; without one, the state the monitor was started in. *)
Fixpoint latch (init : bool) (h : list (float * bool)) : bool :=
  match h with
  | [] => init
  | _ :: h' => default (latch init h') (verdict h)
  end.

(** A monitor at work: its checks, whatever they run into, with anything happening
    to the world around it in between. *)
Inductive watched (init : bool) : monitor -> W -> list (float * bool) -> Prop :=
  | watched_start w : watched init (new_monitor init) w []
  | watched_probe m w h now ok w1 w2 :
      watched init m w h -> cb_clock cb w = (Ok now, w1) -> cb_ping cb w1 = (Ok ok, w2) ->
      watched init (iteration (m, w)).2.1 (iteration (m, w)).2.2 ((now, ok) :: h)
  | watched_no_clock m w h e w1 :
      watched init m w h -> cb_clock cb w = (Err e, w1) ->
      watched init (iteration (m, w)).2.1 (iteration (m, w)).2.2 h
  | watched_no_probe m w h now w1 e w2 :
      watched init m w h -> cb_clock cb w = (Ok now, w1) -> cb_ping cb w1 = (Err e, w2) ->
      watched init (iteration (m, w)).2.1 (iteration (m, w)).2.2 h
  | watched_outside m w w' h : watched init m w h -> watched init m w' h.

(** *** The part of the monitor that decides *)

Definition core (m : monitor) : Z * Z * option float * option float * bool :=
  (m_fail_streak m, m_success_streak m, m_fail_since m, m_success_since m, m_healthy m).
Definition same_core (s s' : monitor * W) : Prop := core s.1 = core s'.1.
#[local] Instance same_core_preorder : PreOrder same_core.
Proof. split; [done|]. intros a b c H1 H2. unfold same_core in *. congruence. Qed.

Lemma core_outer {A} (m : M W E A) : keeps same_core (outer m).
Proof. intros s. unfold outer. by destruct (m s.2). Qed.
Lemma core_set f : (forall m, core (f m) = core m) -> keeps same_core (set_monitor f).
Proof. intros H. apply keeps_modify. intros s. unfold same_core. cbn. by rewrite H. Qed.
Hint Resolve core_outer : keeps.
Hint Extern 1 (keeps _ (set_monitor _)) => apply core_set; done : keeps.
Lemma core_notify f : keeps same_core (notify f).
Proof. unfold notify. destruct f; keeps_tac. Qed.
Hint Resolve core_notify : keeps.
Lemma core_self : keeps same_core self.
Proof. apply keeps_gets, _. Qed.
Hint Resolve core_self : keeps.
Lemma core_degraded now ok : keeps same_core (evaluate_degraded now ok).
Proof. unfold evaluate_degraded. keeps_tac. Qed.
Lemma core_rules : keeps same_core evaluate_source_rules.
Proof. unfold evaluate_source_rules. keeps_tac. Qed.
Hint Resolve core_degraded core_rules : keeps.

(** What a probe does to the core; the callbacks of a crossing may raise. *)
Definition healthy_after (now : float) (ok : bool) (m : monitor) : bool :=
  if ok then m_healthy m || lasted now (Some (default now (m_success_since m))) (mc_recover_window cfg)
  else m_healthy m && negb (lasted now (Some (default now (m_fail_since m))) (mc_fail_window cfg)).
Definition counted (now : float) (ok : bool) (m : monitor) : monitor :=
  set_healthy (healthy_after now ok m) (if ok then count_success now m else count_failure now m).

Lemma core_crossing b (rest : HM unit) m w : keeps same_core rest ->
  core ((set_monitor (set_healthy b) ;;! rest) (m, w)).2.1 = core (set_healthy b m).
Proof. intros H. exact (eq_sym (H (set_healthy b m, w))). Qed.
Lemma core_recovered m w : core (mark_recovered (m, w)).2.1 = core (set_healthy true m).
Proof. unfold mark_recovered. apply core_crossing. keeps_tac. Qed.
Lemma core_down m w : core (mark_down (m, w)).2.1 = core (set_healthy false m).
Proof. unfold mark_down, pull_routes. apply core_crossing. keeps_tac. Qed.

(** What follows a part of a method is all it adds. *)
Lemma keeps_tail {A B} (R : monitor * W -> monitor * W -> Prop) `{!PreOrder R} (m : HM A) (k : A -> HM B) s :
  (forall a, keeps R (k a)) -> R (m s).2 (bind m k s).2.
Proof. intros Hk. unfold bind. destruct (m s) as [[a|e] s1]; [exact (Hk a s1)|reflexivity]. Qed.

Lemma iteration_state s : (iteration s).2 = (check_once s).2.
Proof. unfold iteration, attempt, bind, self, gets. by destruct (check_once s). Qed.

(** A probe is judged, and the rest of the turn follows. *)
Lemma probe_run (R : monitor * W -> monitor * W -> Prop) `{!PreOrder R} m w now ok w1 w2 :
  cb_clock cb w = (Ok now, w1) -> cb_ping cb w1 = (Ok ok, w2) ->
  keeps R (evaluate_degraded now ok) -> keeps R evaluate_source_rules ->
  (forall s, keeps R (outer (cb_on_update cb s))) ->
  R (judge now ok (m, w2)).2 (iteration (m, w)).2.
Proof.
  intros Hc Hp Hd Hs Hu. rewrite iteration_state. unfold check_once.
  unfold bind at 1, outer at 1. cbn [fst snd]. rewrite Hc. cbn [fst snd].
  unfold bind at 1, outer at 1. cbn [fst snd]. rewrite Hp. cbn [fst snd].
  apply keeps_tail; [done|]. intros _.
  apply keeps_bind; [done..|intros _]. apply keeps_bind; [done..|intros b].
  apply keeps_bind; [done|by apply keeps_gets|intros m']. cbv zeta.
  apply keeps_bind; [done..|intros _]. by apply keeps_ret.
Qed.
Lemma judge_success now m w : judge now true (m, w)
  = if negb (m_healthy m) && lasted now (Some (default now (m_success_since m))) (mc_recover_window cfg)
    then mark_recovered (count_success now m, w) else (Ok tt, (count_success now m, w)).
Proof. unfold judge, bind, set_monitor, modify, self, gets. cbn [fst snd]. by destruct (_ && _). Qed.
Lemma judge_failure now m w : judge now false (m, w)
  = if m_healthy m && lasted now (Some (default now (m_fail_since m))) (mc_fail_window cfg)
    then mark_down (count_failure now m, w) else (Ok tt, (count_failure now m, w)).
Proof. unfold judge, bind, set_monitor, modify, self, gets. cbn [fst snd]. by destruct (_ && _). Qed.

Lemma core_probe m w now ok w1 w2 : cb_clock cb w = (Ok now, w1) -> cb_ping cb w1 = (Ok ok, w2) ->
  core (iteration (m, w)).2.1 = core (counted now ok m).
Proof.
  intros Hc Hp. rewrite <- (probe_run same_core m w now ok w1 w2 Hc Hp (core_degraded now ok) core_rules
    (fun s => core_outer _)).
  unfold counted, healthy_after. destruct ok.
  - rewrite judge_success. destruct (negb _ && _) eqn:Ec; [rewrite core_recovered|cbn [snd fst]].
    + apply andb_true_iff in Ec as [_ ->]. by rewrite orb_true_r.
    + unfold core. cbn. destruct (m_healthy m); [done|]. cbn in Ec |- *. by rewrite Ec.
  - rewrite judge_failure. destruct (m_healthy m && _) eqn:Ec; [rewrite core_down|cbn [snd fst]].
    + apply andb_true_iff in Ec as [_ ->]. by rewrite andb_false_r.
    + unfold core. cbn. destruct (m_healthy m); [|done]. cbn in Ec |- *. by rewrite Ec.
Qed.
Lemma core_no_clock m w e w1 : cb_clock cb w = (Err e, w1) -> (iteration (m, w)).2.1 = m.
Proof. intros Hc. unfold iteration, attempt, check_once, bind, outer. cbn [fst snd]. by rewrite Hc. Qed.
Lemma core_no_probe m w now w1 e w2 : cb_clock cb w = (Ok now, w1) -> cb_ping cb w1 = (Err e, w2) ->
  (iteration (m, w)).2.1 = m.
Proof.
  intros Hc Hp. unfold iteration, attempt, check_once, bind, outer. cbn [fst snd]. rewrite Hc. cbn [fst snd].
  by rewrite Hp.
Qed.

(** The core after a history. *)
Definition core_of (init : bool) (h : list (float * bool)) :=
  (run_length false h, run_length true h, run_since false h, run_since true h, latch init h).

Lemma core_of_cons init now ok h m : core m = core_of init h ->
  core (counted now ok m) = core_of init ((now, ok) :: h).
Proof.
  intros [= H1 H2 H3 H4 H5]. unfold core_of. cbn [run_length run_since latch verdict].
  unfold core, counted, healthy_after, set_healthy. rewrite H3, H4, H5.
  destruct ok; cbn; rewrite ?H1, ?H2, ?H3, ?H4; repeat f_equal; destruct (latch init h); cbn; by destruct (float_ge_int _ _).
Qed.

Lemma watched_core init m w h : watched init m w h -> core m = core_of init h.
Proof.
  induction 1 as [w|m w h now ok w1 w2 Hw IH Hc Hp|m w h e w1 Hw IH Hc|m w h now w1 e w2 Hw IH Hc Hp|m w w' h Hw IH].
  - done.
  - rewrite (core_probe m w now ok w1 w2 Hc Hp). by apply core_of_cons.
  - by rewrite (core_no_clock m w e w1 Hc).
  - by rewrite (core_no_probe m w now w1 e w2 Hc Hp).
  - done.
Qed.
End Check.


(** A clock reading minus itself is no positive duration. *)
Lemma fsub_finite_diag s m e : fsub (S754_finite s m e) (S754_finite s m e) = S754_zero false.
Proof.
  unfold fsub. cbn. rewrite Z.min_id. unfold shl_align. rewrite Z.sub_diag. cbn.
  destruct s; cbn; by rewrite ?Z.pos_sub_diag.
Qed.
Lemma lasted_now now n : 0 < n -> lasted now (Some now) n = false.
Proof.
  intros Hn. unfold lasted. destruct now as [[]|[]| |s m e]; try done; try by apply Z.leb_gt.
  rewrite fsub_finite_diag. by apply Z.leb_gt.
Qed.

(** A probe that differs from the one before it is no verdict. *)
Lemma opposite_probe_no_verdict cfg now ok t ok' h :
  0 < mc_fail_window cfg -> 0 < mc_recover_window cfg -> ok <> ok' ->
  verdict cfg ((now, ok) :: (t, ok') :: h) = None.
Proof.
  intros Hf Hr Hne. unfold verdict. cbn [run_since].
  rewrite eqb_reflx, (proj2 (eqb_false_iff ok' ok)) by congruence. cbn [default].
  destruct ok; by rewrite lasted_now.
Qed.
