(* ===== verification/WarpManager.v ===== *)
(** * The WARP module ([warp/manager.py])

    The manager brings the tunnel's interface and routes up and down through
    privileged helpers, keeps the settings row, and runs the health monitor of
    [WarpHealth] with callbacks of its own. The helpers, the probes, the clocks and
    the database's failures are oracles; every call of a helper that changes the
    interface, the routes or the configuration is recorded with its outcome. The
    texts of the alerts are left out, which alerts are sent is recorded. *)

From S2P Require Import Prelude PyText Float64 TextLines AwgConfig AwgPeers WarpHealth.
#[local] Open Scope Z_scope.

(** ** [warp/state.py], [repositories/warp_settings.py] *)

Record warp_state := WarpState {
  ws_enabled : bool; ws_config_path : str; ws_interface_name : str; ws_routes_count : Z;
  ws_config_installed : bool; ws_kill_switch : bool;
  ws_tunnel_up : bool; ws_routes_active : bool; ws_fail_streak : Z; ws_success_streak : Z;
  ws_last_handshake : Z; ws_last_check_ts : Z; ws_updated_at : Z }.
Definition config_present (s : warp_state) : bool := ws_config_installed s || (0 <? ws_routes_count s).

Definition set_enabled_row (b : bool) (now : Z) (s : warp_state) : warp_state :=
  WarpState b (ws_config_path s) (ws_interface_name s) (ws_routes_count s) (ws_config_installed s)
    (ws_kill_switch s) (ws_tunnel_up s) (ws_routes_active s) (ws_fail_streak s) (ws_success_streak s)
    (ws_last_handshake s) (ws_last_check_ts s) now.
Definition set_kill_switch_row (b : bool) (now : Z) (s : warp_state) : warp_state :=
  WarpState (ws_enabled s) (ws_config_path s) (ws_interface_name s) (ws_routes_count s) (ws_config_installed s)
    b (ws_tunnel_up s) (ws_routes_active s) (ws_fail_streak s) (ws_success_streak s)
    (ws_last_handshake s) (ws_last_check_ts s) now.
Definition update_config_row (path iface : str) (routes_count now : Z) (s : warp_state) : warp_state :=
  WarpState (ws_enabled s) path iface routes_count true
    (ws_kill_switch s) (ws_tunnel_up s) (ws_routes_active s) (ws_fail_streak s) (ws_success_streak s)
    (ws_last_handshake s) (ws_last_check_ts s) now.
Definition clear_config_row (now : Z) (s : warp_state) : warp_state :=
  WarpState (ws_enabled s) (ws_config_path s) (ws_interface_name s) 0 false
    (ws_kill_switch s) (ws_tunnel_up s) (ws_routes_active s) (ws_fail_streak s) (ws_success_streak s)
    (ws_last_handshake s) (ws_last_check_ts s) now.
Definition update_runtime_row (tunnel_up routes_active : bool) (fails successes handshake check_ts now : Z)
    (s : warp_state) : warp_state :=
  WarpState (ws_enabled s) (ws_config_path s) (ws_interface_name s) (ws_routes_count s) (ws_config_installed s)
    (ws_kill_switch s) tunnel_up routes_active fails successes handshake check_ts now.

(** ** State and oracles *)

(** The helpers' calls that change something, with [result.ok]. *)
Inductive helper_call :=
  | IfaceUp (ok : bool) | IfaceDown (ok : bool) | RoutesAdd (ok : bool) | RoutesDel (ok : bool)
  | InstallConfig (text : str) (ok : bool) | RemoveConfig (ok : bool).
Inductive warp_alert :=
  | AlertDown | AlertRecovered | AlertDegraded (loss : float) | AlertDegradedCleared
  | AlertRoutesMissing | AlertRoutesRestored.
(** What [last_error] holds, and what is raised. *)
Inductive warp_error :=
  | NoAwgQuick | NoConfig | InterfaceUpFailed | RoutesNotInstalled | InstallFailed | RemoveFailed
  | StagingFailed | WarpDbFailure | HelperRaised.

(** The monitor of a running module is kept beside the rest: it is what
    [WarpHealth] works on. *)
Record warp_world := WarpWorld {
  ww_row : warp_state; ww_running : bool; ww_kill_switch : bool; ww_last_error : option warp_error;
  ww_calls : list helper_call; ww_alerts : list warp_alert; ww_tick : nat }.
Abbreviation warp_module := (option monitor * warp_world)%type (only parsing).

(** A helper that cannot be run at all raises. *)
Record warp_env := WarpEnv {
  we_helper : nat -> result unit tool_result;
  we_icmp : nat -> bool;
  we_status : nat -> bool;                   (* [interface.status().ok] *)
  we_handshake : nat -> Z;                   (* [_safe_handshake] *)
  we_unix : nat -> Z;
  we_monotonic : nat -> float;
  we_awg_quick : nat -> bool;
  we_db : nat -> bool;
  we_staging : nat -> bool;
  we_routes_list : nat -> option str;        (* the text of [ROUTES_LIST] *)
  we_installed : str -> option Z;            (* [_INSTALLED_ROUTES_RE] *)
  we_rules : nat -> tool_result;             (* [ip -4 rule show] *)
  we_tunnel_address : nat -> option str }.   (* [read_tunnel_address] *)
Record warp_settings := WarpSettings {
  st_monitor : monitor_config; st_config_path : str; st_interface : str; st_client_subnet : str;
  st_has_bot : bool }.

Section Manager.
Context (env : warp_env) (cfg : warp_settings).
Abbreviation WM := (M warp_world warp_error) (only parsing).
Abbreviation observer := (mc_observer_mode (st_monitor cfg)) (only parsing).

Definition ask {A} (f : nat -> A) : WM A := fun w =>
  (Ok (f (ww_tick w)),
   WarpWorld (ww_row w) (ww_running w) (ww_kill_switch w) (ww_last_error w) (ww_calls w) (ww_alerts w) (S (ww_tick w))).
Definition set_row (f : warp_state -> warp_state) : WM unit := modify (fun w =>
  WarpWorld (f (ww_row w)) (ww_running w) (ww_kill_switch w) (ww_last_error w) (ww_calls w) (ww_alerts w) (ww_tick w)).
Definition set_running (b : bool) : WM unit := modify (fun w =>
  WarpWorld (ww_row w) b (ww_kill_switch w) (ww_last_error w) (ww_calls w) (ww_alerts w) (ww_tick w)).
Definition set_kill (b : bool) : WM unit := modify (fun w =>
  WarpWorld (ww_row w) (ww_running w) b (ww_last_error w) (ww_calls w) (ww_alerts w) (ww_tick w)).
Definition set_last_error (e : option warp_error) : WM unit := modify (fun w =>
  WarpWorld (ww_row w) (ww_running w) (ww_kill_switch w) e (ww_calls w) (ww_alerts w) (ww_tick w)).
Definition log_call (c : helper_call) : WM unit := modify (fun w =>
  WarpWorld (ww_row w) (ww_running w) (ww_kill_switch w) (ww_last_error w) (ww_calls w ++ [c]) (ww_alerts w) (ww_tick w)).
Definition log_alert (a : warp_alert) : WM unit := modify (fun w =>
  WarpWorld (ww_row w) (ww_running w) (ww_kill_switch w) (ww_last_error w) (ww_calls w) (ww_alerts w ++ [a]) (ww_tick w)).

(** [self._runner.run(helper, ...)] *)
Definition helper (c : bool -> helper_call) : WM tool_result :=
  let! r := ask (we_helper env) in
  match r with
  | Ok res => log_call (c (shell_ok res)) ;;! ret res
  | Err _ => raise HelperRaised
  end.
(** An [UPDATE] of the row with its commit, stamped with the time. *)
Definition db_update (f : Z -> warp_state -> warp_state) : WM unit :=
  let! now := ask (we_unix env) in
  let! ok := ask (we_db env) in
  if ok : bool then set_row (f now) else raise WarpDbFailure.
Definition db_get : WM warp_state :=
  let! ok := ask (we_db env) in
  if ok : bool then gets ww_row else raise WarpDbFailure.
Definition update_runtime (tunnel_up routes_active : bool) (fails successes handshake : Z) : WM unit :=
  let! check_ts := ask (we_unix env) in
  db_update (update_runtime_row tunnel_up routes_active fails successes handshake check_ts).

(** ** The monitor's callbacks *)

Definition warp_ping : WM bool :=
  let! answered := ask (we_icmp env) in
  if answered : bool then ret true
  else
    let! handshake := ask (we_handshake env) in
    let! now := ask (we_unix env) in
    ret ((0 <? handshake) && (now - handshake <=? HANDSHAKE_FRESH_SECONDS)).
(** A helper that fails is logged, and no more. *)
Definition activate_routes : WM unit := let! _ := helper RoutesAdd in ret tt.
Definition deactivate_routes : WM unit := let! _ := helper RoutesDel in ret tt.
Definition on_health_update (s : health_snapshot) : WM unit :=
  let! handshake := (if hs_tunnel_up s then ask (we_handshake env) else ret 0) in
  update_runtime (hs_tunnel_up s) (hs_routes_active s) (hs_fail_streak s) (hs_success_streak s) handshake.
(** [_broadcast_admins] *)
Definition broadcast (a : warp_alert) : WM unit := if st_has_bot cfg then log_alert a else ret tt.
(** [_rule_present]: a line with the words [from] and the source. *)
Definition rule_present (rules_output src : str) : bool :=
  existsb (fun line => let tokens := split_ws line in
             bool_decide (py "from" ∈ tokens) && bool_decide (src ∈ tokens)) (splitlines rules_output).
Definition check_source_rules : WM (option bool) :=
  let! result := ask (we_rules env) in
  if negb (returncode result =? 0) then ret None
  else
    let! tunnel_ip := ask (we_tunnel_address env) in
    let expected := st_client_subnet cfg ::
      match tunnel_ip with Some ((_ :: _) as ip) => [ip] | _ => [] end in
    ret (Some (forallb (rule_present (stdout result)) expected)).
Definition clock_reading : WM float := ask (we_monotonic env).

Definition legacy_callbacks : callbacks warp_world warp_error := Callbacks _ _
  clock_reading warp_ping activate_routes deactivate_routes on_health_update
  (Some (broadcast AlertDown)) (Some (broadcast AlertRecovered))
  (Some (fun loss => broadcast (AlertDegraded loss))) (Some (broadcast AlertDegradedCleared))
  None None None (gets ww_kill_switch).
Definition observer_callbacks : callbacks warp_world warp_error := Callbacks _ _
  clock_reading warp_ping (ret tt) (ret tt) on_health_update
  (Some (broadcast AlertDown)) (Some (broadcast AlertRecovered))
  (Some (fun loss => broadcast (AlertDegraded loss))) (Some (broadcast AlertDegradedCleared))
  (Some check_source_rules) (Some (broadcast AlertRoutesMissing)) (Some (broadcast AlertRoutesRestored))
  (gets ww_kill_switch).
Definition monitor_callbacks : callbacks warp_world warp_error :=
  if observer then observer_callbacks else legacy_callbacks.

(** ** Starting and stopping, with the lock held *)

Abbreviation MM := (M (option monitor * warp_world)%type warp_error) (only parsing).
Definition on_world {A} (m : M warp_world warp_error A) : MM A := fun s =>
  let '(r, w) := m s.2 in (r, (s.1, w)).
Definition set_monitor_slot (m : option monitor) : MM unit := modify (fun s => (m, s.2)).

Definition start_observer_locked : MM unit :=
  let! iface_up := on_world (ask (we_status env)) in
  let! handshake := on_world (ask (we_handshake env)) in
  on_world (set_last_error None) ;;!
  on_world (set_running true) ;;!
  on_world (update_runtime iface_up iface_up 0 0 handshake) ;;!
  set_monitor_slot (Some (new_monitor iface_up)).

Definition start_legacy_locked : MM unit :=
  let! _ := attempt (on_world (helper IfaceDown)) in
  let! up := on_world (helper IfaceUp) in
  if negb (shell_ok up)
  then on_world (set_last_error (Some InterfaceUpFailed)) ;;! raise InterfaceUpFailed
  else
    let! added := on_world (helper RoutesAdd) in
    on_world (set_last_error (if shell_ok added then None else Some RoutesNotInstalled)) ;;!
    on_world (set_running true) ;;!
    let! _ := on_world warp_ping in
    let! handshake := on_world (ask (we_handshake env)) in
    on_world (update_runtime true (shell_ok added) 0 0 handshake) ;;!
    set_monitor_slot (Some (new_monitor (shell_ok added))).

(** [_start_locked] *)
Definition start_locked : MM unit :=
  let! w := on_world get in
  if ww_running w then ret tt
  else
    let! available := on_world (ask (we_awg_quick env)) in
    if negb available then on_world (set_last_error (Some NoAwgQuick)) ;;! raise NoAwgQuick
    else
      let! state := on_world db_get in
      if negb (config_present state) then on_world (set_last_error (Some NoConfig)) ;;! raise NoConfig
      else
        on_world (set_kill (ws_kill_switch state)) ;;!
        if observer then start_observer_locked else start_legacy_locked.

(** [_stop_locked] *)
Definition stop_locked : MM unit :=
  set_monitor_slot None ;;!
  let! w := on_world get in
  (if observer then ret tt
   else if ww_running w then
     let! _ := on_world (helper RoutesDel) in
     let! _ := on_world (helper IfaceDown) in
     ret tt
   else ret tt) ;;!
  on_world (set_running false) ;;!
  on_world (update_runtime false false 0 0 0).

(** ** The operations *)

Definition enable_warp : MM unit := start_locked ;;! on_world (db_update (set_enabled_row true)).
Definition disable_warp : MM unit :=
  stop_locked ;;! on_world (db_update (set_enabled_row false)) ;;! on_world (set_last_error None).
Definition restart_warp : MM unit := stop_locked ;;! start_locked.
Definition set_kill_switch (b : bool) : MM unit :=
  on_world (db_update (set_kill_switch_row b)) ;;! on_world (set_kill b).

(** [_count_routes] *)
Definition listed_routes (text : str) : Z :=
  Z.of_nat (length (List.filter (fun line => negb (is_empty (strip line)) && negb (startswith [HASH] (strip line)))
                      (splitlines text))).
Definition count_routes (routes_list : option str) (output : str) : Z :=
  let count := listed_routes (default [] routes_list) in
  if negb (count =? 0) then count else default 0 (we_installed env output).
(** [_run_install] *)
Definition run_install (text : str) : WM Z :=
  let! staged := ask (we_staging env) in
  if negb staged then raise StagingFailed
  else
    let! result := helper (InstallConfig text) in
    if negb (shell_ok result)
    then set_last_error (Some InstallFailed) ;;! raise InstallFailed
    else
      let! routes_list := ask (we_routes_list env) in
      ret (count_routes routes_list (stdout result)).
(** [WarpError] is caught, other exceptions are not. *)
Definition is_warp_error (e : warp_error) : bool :=
  match e with StagingFailed | WarpDbFailure | HelperRaised => false | _ => true end.
Definition install_config (text : str) : MM Z :=
  let! w := on_world get in
  let was_running := ww_running w in
  (if was_running then stop_locked else ret tt) ;;!
  let! routes_count :=
    catch (on_world (run_install text))
      (fun e =>
         (if is_warp_error e && was_running then let! _ := attempt start_locked in ret tt else ret tt) ;;!
         raise e) in
  on_world (db_update (update_config_row (st_config_path cfg) (st_interface cfg) routes_count)) ;;!
  on_world (set_last_error None) ;;!
  (if was_running then start_locked else ret tt) ;;!
  ret routes_count.
Definition delete_config : MM unit :=
  stop_locked ;;!
  let! result := on_world (helper RemoveConfig) in
  if negb (shell_ok result)
  then on_world (set_last_error (Some RemoveFailed)) ;;! raise RemoveFailed
  else
    on_world (db_update (set_enabled_row false)) ;;!
    on_world (db_update clear_config_row) ;;!
    on_world (set_last_error None).

(** A turn of the monitor's loop, when there is a monitor. *)
Definition monitor_turn : MM unit := fun s =>
  match s.1 with
  | Some m =>
      let s' := (iteration (st_monitor cfg) monitor_callbacks (m, s.2)).2 in (Ok tt, (Some s'.1, s'.2))
  | None => (Ok tt, s)
  end.

(** What happens to the module, in any order. *)
Inductive warp_event :=
  | EStart | EStop | EEnable | EDisable | ERestart | EKillSwitch (b : bool)
  | EInstall (text : str) | EDelete | ETurn.
Definition warp_step (e : warp_event) : MM unit :=
  match e with
  | EStart => start_locked
  | EStop => stop_locked
  | EEnable => enable_warp
  | EDisable => disable_warp
  | ERestart => restart_warp
  | EKillSwitch b => set_kill_switch b
  | EInstall text => let! _ := install_config text in ret tt
  | EDelete => delete_config
  | ETurn => monitor_turn
  end.
Definition warp_run (events : list warp_event) (s : warp_module) : warp_module :=
  fold_left (fun s e => (warp_step e s).2) events s.
End Manager.
