(* ===== verification/WarpSafety.v ===== *)
(** * What the WARP module promises

    The latch is determined by the probes, the routes are pulled only by a stop or
    by a latch that goes down with the kill-switch off, and an observer touches
    neither interface nor routes. A restore of the routes that fails is final: the
    module goes on reporting them as active. *)

From S2P Require Import Prelude PyText Float64 Triples AwgPeers WarpHealth WarpManager.
#[local] Open Scope Z_scope.

(** ** The latch *)

(** C38 The latch says what the probes say: at any time, however the callbacks
    fail and whatever happens between the turns, the tunnel counts as up exactly
    when the last run of equal probes that lasted for its window was one of
    answers (before any such run, what the monitor was started with), the
    streaks are the lengths of the current run, and a probe that differs from the
    one before it never moves the latch. *)
Theorem latch_is_last_verdict {W E} (cfg : monitor_config) (cb : callbacks W E) (init : bool) m w h :
  watched cfg cb init m w h ->
  m_healthy m = latch cfg init h
  /\ m_fail_streak m = run_length false h /\ m_success_streak m = run_length true h
  /\ (0 < mc_fail_window cfg -> 0 < mc_recover_window cfg ->
      forall now ok t ok' h', h = (now, ok) :: (t, ok') :: h' -> ok <> ok' ->
        m_healthy m = latch cfg init ((t, ok') :: h')).
Proof.
  intros Hw. apply watched_core in Hw. injection Hw as Hf Hs _ _ Hh.
  split; [done|]. split; [done|]. split; [done|].
  intros H1 H2 now ok t ok' h' -> Hne. rewrite Hh. cbn [latch].
  by rewrite opposite_probe_no_verdict.
Qed.

(** ** Which helpers are called *)

Section Calls.
Context (env : warp_env) (cfg : warp_settings).
Abbreviation observer := (mc_observer_mode (st_monitor cfg)) (only parsing).

(** Every call made is a [P], and the kill-switch is left as it is. *)
Definition calls_only (P : helper_call -> Prop) (w w' : warp_world) : Prop :=
  exists new, ww_calls w' = ww_calls w ++ new /\ Forall P new.
#[local] Instance calls_only_preorder P : PreOrder (calls_only P).
Proof.
  split.
  - intros w. exists []. by rewrite app_nil_r.
  - intros a b c (l1 & E1 & H1) (l2 & E2 & H2). exists (l1 ++ l2).
    by rewrite E2, E1, <- app_assoc, Forall_app.
Qed.
Lemma calls_only_eq P w w' : ww_calls w' = ww_calls w -> calls_only P w w'.
Proof. intros E. exists []. by rewrite E, app_nil_r. Qed.
Hint Resolve calls_only_eq : core.
Lemma calls_only_weaken (P Q : helper_call -> Prop) w w' :
  (forall c, P c -> Q c) -> calls_only P w w' -> calls_only Q w w'.
Proof. intros H (l & E & Hl). exists l. split; [done|]. by apply (Forall_impl P). Qed.

Section Kept.
Context (P : helper_call -> Prop).
Abbreviation K := (calls_only P).
Lemma k_ask {A} (f : nat -> A) : keeps K (ask f).
Proof. intros w. by apply calls_only_eq. Qed.
Lemma k_row f : keeps K (set_row f).
Proof. by apply keeps_modify; intros; apply calls_only_eq. Qed.
Lemma k_running b : keeps K (set_running b).
Proof. by apply keeps_modify; intros; apply calls_only_eq. Qed.
Lemma k_kill b : keeps K (set_kill b).
Proof. by apply keeps_modify; intros; apply calls_only_eq. Qed.
Lemma k_error e : keeps K (set_last_error e).
Proof. by apply keeps_modify; intros; apply calls_only_eq. Qed.
Lemma k_alert a : keeps K (log_alert a).
Proof. by apply keeps_modify; intros; apply calls_only_eq. Qed.
Lemma k_get : keeps (E := warp_error) K get.
Proof. intros w. by apply calls_only_eq. Qed.
Hint Resolve k_ask k_row k_running k_kill k_error k_alert k_get : keeps.
Lemma k_helper c : (forall ok, P (c ok)) -> keeps K (helper env c).
Proof.
  intros Hc. unfold helper. apply keeps_bind; [apply _|apply k_ask|]. intros [r|e]; [|apply keeps_raise, _].
  apply keeps_bind; [apply _| |intros _; apply keeps_ret, _].
  apply keeps_modify. intros w. exists [c (shell_ok r)]. by repeat constructor.
Qed.
Lemma k_db_update f : keeps K (db_update env f).
Proof. unfold db_update. keeps_tac. Qed.
Lemma k_db_get : keeps K (db_get env).
Proof. unfold db_get. keeps_tac. Qed.
Hint Resolve k_db_update k_db_get : keeps.
Lemma k_runtime a b c d e : keeps K (update_runtime env a b c d e).
Proof. unfold update_runtime. keeps_tac. Qed.
Hint Resolve k_runtime : keeps.
Lemma k_ping : keeps K (warp_ping env).
Proof. unfold warp_ping. keeps_tac. Qed.
Lemma k_update s : keeps K (on_health_update env s).
Proof. unfold on_health_update. keeps_tac. Qed.
Lemma k_broadcast a : keeps K (broadcast cfg a).
Proof. unfold broadcast. keeps_tac. Qed.
Lemma k_rules : keeps K (check_source_rules env cfg).
Proof. unfold check_source_rules. keeps_tac. Qed.

(** The same for a state with a monitor beside the world. *)
Definition beside {T} (s s' : T * warp_world) : Prop := K s.2 s'.2.
#[local] Instance beside_preorder T : PreOrder (@beside T).
Proof. split; [intros s; unfold beside; reflexivity|]. intros a b c H1 H2. unfold beside in *. by etransitivity. Qed.
Lemma k_on_world {A} (m : M warp_world warp_error A) : keeps K m -> keeps beside (on_world m).
Proof. intros Hm s. specialize (Hm s.2). unfold on_world. by destruct (m s.2). Qed.
Lemma k_slot m : keeps beside (set_monitor_slot m).
Proof. intros s. by apply calls_only_eq. Qed.
Lemma k_outer {A} (m : M warp_world warp_error A) : keeps K m -> keeps beside (outer m).
Proof. intros Hm s. specialize (Hm s.2). unfold outer. by destruct (m s.2). Qed.
Lemma k_set_monitor f : keeps (E := warp_error) beside (set_monitor f).
Proof. intros s. by apply calls_only_eq. Qed.
Lemma k_self : keeps (E := warp_error) (@beside monitor) self.
Proof. intros s. by apply calls_only_eq. Qed.
End Kept.
Hint Resolve k_ask k_row k_running k_kill k_error k_alert k_get k_db_update k_db_get k_runtime k_ping k_update
  k_broadcast k_rules k_slot k_set_monitor k_self : keeps.
Hint Extern 2 (keeps (beside _) (on_world _)) => apply k_on_world : keeps.
#[local] Existing Instance beside_preorder.

(** *** A turn of the monitor *)

Definition quiet : helper_call -> Prop := fun _ => False.
Lemma k_notify (P : helper_call -> Prop) (f : option (M warp_world warp_error unit)) :
  (forall m, f = Some m -> keeps (calls_only P) m) -> keeps (@beside P monitor) (notify f).
Proof.
  intros Hf. unfold notify. destruct f as [m|]; [|apply keeps_ret, _].
  apply keeps_bind; [apply _| |intros _; apply keeps_ret, _]. apply keeps_attempt. apply k_outer. by apply Hf.
Qed.
(** The notices of both kinds of monitor are alerts. *)
Lemma k_notices (cb : callbacks warp_world warp_error) P :
  cb = legacy_callbacks env cfg \/ cb = observer_callbacks env cfg ->
  (forall f, f ∈ [cb_on_tunnel_down cb; cb_on_tunnel_recovered cb; cb_on_degraded_cleared cb;
                  cb_on_routes_missing cb; cb_on_routes_restored cb] ->
     forall m, f = Some m -> keeps (calls_only P) m)
  /\ (forall f loss, cb_on_degraded cb = Some f -> keeps (calls_only P) (f loss)).
Proof.
  assert (forall a, keeps (calls_only P) (broadcast cfg a)) as Hb by apply k_broadcast.
  intros [-> | ->]; (split;
    [intros f Hf m Hm; set_unfold in Hf; destruct_or! Hf; rewrite Hf in Hm; cbn in Hm;
       simplify_eq; apply Hb
    |intros f loss Hf; cbn in Hf; simplify_eq; apply Hb]).
Qed.
Lemma k_notice cb P f : cb = legacy_callbacks env cfg \/ cb = observer_callbacks env cfg ->
  f ∈ [cb_on_tunnel_down cb; cb_on_tunnel_recovered cb; cb_on_degraded_cleared cb;
       cb_on_routes_missing cb; cb_on_routes_restored cb] ->
  keeps (@beside P monitor) (notify f).
Proof. intros Hcb Hf. apply k_notify. intros m. by apply (proj1 (k_notices cb P Hcb)). Qed.

Lemma k_degraded cb P now ok : cb = legacy_callbacks env cfg \/ cb = observer_callbacks env cfg ->
  keeps (@beside P monitor) (evaluate_degraded cb now ok).
Proof.
  intros Hcb. assert (forall f loss, cb_on_degraded cb = Some f -> keeps (calls_only P) (f loss)) as Hd
    by apply (proj2 (k_notices cb P Hcb)).
  assert (keeps (@beside P monitor) (notify (cb_on_degraded_cleared cb))) as Hc
    by (apply (k_notice cb); [done|set_solver]).
  unfold evaluate_degraded. keeps_tac.
  apply k_notify. intros m. destruct (cb_on_degraded cb) as [f|] eqn:Ef; [|done]. intros [= <-]. by apply Hd.
Qed.
Lemma k_source_rules cb P : cb = legacy_callbacks env cfg \/ cb = observer_callbacks env cfg ->
  keeps (@beside P monitor) (evaluate_source_rules cb).
Proof.
  intros Hcb.
  assert (forall f, f ∈ [cb_on_routes_missing cb; cb_on_routes_restored cb] ->
    keeps (@beside P monitor) (notify f)) as Hn by (intros f Hf; apply (k_notice cb); [done|set_solver]).
  assert (forall check, cb_check_source_rules cb = Some check -> keeps (calls_only P) check) as Hk.
  { destruct Hcb as [-> | ->]; cbn; intros check; [done|]. intros [= <-]. apply k_rules. }
  unfold evaluate_source_rules. destruct (cb_check_source_rules cb) as [check|]; [|apply keeps_ret, _].
  apply keeps_bind; [apply _|apply k_outer; by apply Hk|]. keeps_tac; apply Hn; set_solver.
Qed.

Abbreviation cb := (monitor_callbacks env cfg).
Lemma callbacks_kind : cb = legacy_callbacks env cfg \/ cb = observer_callbacks env cfg.
Proof. unfold monitor_callbacks. destruct observer; auto. Qed.
Lemma update_callback : cb_on_update cb = on_health_update env.
Proof. unfold monitor_callbacks. by destruct observer. Qed.
Lemma probe_callbacks : cb_clock cb = clock_reading env /\ cb_ping cb = warp_ping env.
Proof. unfold monitor_callbacks. by destruct observer. Qed.

(** Looking at a clock or at the tunnel changes neither the switch nor the calls. *)
Definition looks (w w' : warp_world) : Prop :=
  ww_kill_switch w' = ww_kill_switch w /\ ww_calls w' = ww_calls w.
#[local] Instance looks_preorder : PreOrder looks.
Proof. split; [by intros w|]. intros a b c [H1 H2] [H3 H4]. split; congruence. Qed.
Lemma looks_ask {A} (f : nat -> A) : keeps looks (ask f).
Proof. by intros w. Qed.
Hint Resolve looks_ask : keeps.
Lemma looks_clock : keeps looks (clock_reading env).
Proof. apply looks_ask. Qed.
Lemma looks_ping : keeps looks (warp_ping env).
Proof. unfold warp_ping. keeps_tac. Qed.

Lemma k_judge_success now m w :
  calls_only (fun c => observer = false /\ m_healthy m = false /\ healthy_after (st_monitor cfg) now true m = true
                       /\ exists ok, c = RoutesAdd ok)
    w (judge (st_monitor cfg) cb now true (m, w)).2.2.
Proof.
  rewrite judge_success. destruct (negb _ && _) eqn:Ec; [|by apply calls_only_eq].
  apply andb_true_iff in Ec as [Eh El]. apply negb_true_iff in Eh. unfold healthy_after. rewrite Eh, El.
  assert (forall P, keeps (@beside P monitor) (notify (cb_on_tunnel_recovered cb))) as Hn
    by (intros P; apply (k_notice cb); [apply callbacks_kind|set_solver]).
  set (P := fun _ => _). assert (keeps (@beside P monitor) (mark_recovered (st_monitor cfg) cb)) as Hk.
  { unfold mark_recovered. destruct observer eqn:Eo; keeps_tac; try done. apply k_outer.
    unfold monitor_callbacks. rewrite Eo. cbn. unfold activate_routes.
    apply keeps_bind; [apply _|apply k_helper; subst P; cbn; eauto|intros; apply keeps_ret, _]. }
  exact (Hk (count_success now m, w)).
Qed.
Lemma k_judge_failure now m w :
  calls_only (fun c => observer = false /\ ww_kill_switch w = false /\ m_healthy m = true
                       /\ healthy_after (st_monitor cfg) now false m = false /\ exists ok, c = RoutesDel ok)
    w (judge (st_monitor cfg) cb now false (m, w)).2.2.
Proof.
  rewrite judge_failure. destruct (m_healthy m && _) eqn:Ec; [|by apply calls_only_eq].
  apply andb_true_iff in Ec as [Eh El]. unfold healthy_after. rewrite Eh, El.
  assert (forall P, keeps (@beside P monitor) (notify (cb_on_tunnel_down cb))) as Hn
    by (intros P; apply (k_notice cb); [apply callbacks_kind|set_solver]).
  set (P := fun _ => _). unfold mark_down.
  change (@beside P monitor (set_healthy false (count_failure now m), w)
    ((pull_routes (st_monitor cfg) cb ;;! notify (cb_on_tunnel_down cb)) (set_healthy false (count_failure now m), w)).2).
  unfold pull_routes. destruct observer eqn:Eo; [apply Hn|].
  assert (cb_kill_switch cb = gets ww_kill_switch) as -> by (unfold monitor_callbacks; by rewrite Eo).
  destruct (ww_kill_switch w) eqn:Ew.
  { unfold bind at 1 2, outer, gets. cbn [fst snd]. rewrite Ew. apply Hn. }
  match goal with |- beside _ ?s (bind ?m ?k ?s').2 => cut (keeps (@beside P monitor) (bind m k)) end; [by intros Hk; apply Hk|].
  keeps_tac. apply k_outer.
  unfold monitor_callbacks. rewrite Eo. cbn. unfold deactivate_routes.
  apply keeps_bind; [apply _|apply k_helper; subst P; naive_solver|intros; apply keeps_ret, _].
Qed.

(** Why a turn of the monitor called a helper. *)
Definition turn_reason (m m' : monitor) (w : warp_world) (c : helper_call) : Prop :=
  observer = false
  /\ match c with
     | RoutesAdd _ => m_healthy m = false /\ m_healthy m' = true
     | RoutesDel _ => ww_kill_switch w = false /\ m_healthy m = true /\ m_healthy m' = false
     | _ => False
     end.
Lemma looks_calls P w w' : looks w w' -> calls_only P w w'.
Proof. intros [_ E]. by apply calls_only_eq. Qed.

Lemma turn_calls m w : let s' := (iteration (st_monitor cfg) cb (m, w)).2 in
  calls_only (turn_reason m s'.1 w) w s'.2.
Proof.
  cbv zeta. destruct probe_callbacks as [Ec Ep].
  destruct (cb_clock cb w) as [[now|e] w1] eqn:Hc.
  2:{ rewrite (core_no_clock _ _ _ _ _ _ Hc). rewrite iteration_state. unfold check_once, bind, outer. cbn [fst snd].
      rewrite Hc. cbn [fst snd]. rewrite Ec in Hc. apply looks_calls. exact (keeps_run _ _ _ _ _ looks_clock Hc). }
  assert (looks w w1) as L1 by (rewrite Ec in Hc; exact (keeps_run _ _ _ _ _ looks_clock Hc)).
  destruct (cb_ping cb w1) as [[ok|e] w2] eqn:Hp.
  2:{ rewrite (core_no_probe _ _ _ _ _ _ _ _ Hc Hp). rewrite iteration_state. unfold check_once, bind, outer.
      cbn [fst snd]. rewrite Hc. cbn [fst snd]. rewrite Hp. cbn [fst snd]. apply looks_calls. etransitivity; [exact L1|].
      rewrite Ep in Hp. exact (keeps_run _ _ _ _ _ looks_ping Hp). }
  assert (looks w w2) as L2
    by (etransitivity; [exact L1|rewrite Ep in Hp; exact (keeps_run _ _ _ _ _ looks_ping Hp)]).
  pose proof (core_probe (st_monitor cfg) cb m w now ok w1 w2 Hc Hp) as Hcore.
  assert (m_healthy (iteration (st_monitor cfg) cb (m, w)).2.1 = healthy_after (st_monitor cfg) now ok m) as Hh
    by (injection Hcore as _ _ _ _ Hh; rewrite Hh; by destruct ok).
  pose proof (probe_run (st_monitor cfg) cb (@beside (turn_reason m (iteration (st_monitor cfg) cb (m, w)).2.1 w) monitor)
    m w now ok w1 w2 Hc Hp (k_degraded _ _ _ _ callbacks_kind) (k_source_rules _ _ callbacks_kind)
    ltac:(intros s; rewrite update_callback; apply k_outer, k_update)) as Ht.
  etransitivity; [apply looks_calls; exact L2|]. etransitivity; [|exact Ht].
  destruct L2 as [Ek _]. destruct ok.
  - eapply calls_only_weaken; [|apply k_judge_success]. intros c (H1 & H2 & H3 & ok & ->). split; [done|]. cbn. by rewrite Hh.
  - eapply calls_only_weaken; [|apply k_judge_failure]. intros c (H1 & H2 & H3 & H4 & ok & ->). split; [done|].
    cbn. rewrite Hh, <- Ek. done.
Qed.

(** *** The operations *)

Definition brings_up (c : helper_call) : Prop :=
  match c with IfaceUp _ | IfaceDown _ | RoutesAdd _ => True | _ => False end.
Definition takes_down (c : helper_call) : Prop :=
  match c with RoutesDel _ | IfaceDown _ => True | _ => False end.

Lemma keeps_post {T A B} P (m : M (T * warp_world) warp_error A) (k : A -> M (T * warp_world) warp_error B) s :
  calls_only P s.2 (m s).2.2 -> (forall a, keeps (@beside P T) (k a)) -> calls_only P s.2 (bind m k s).2.2.
Proof.
  intros Hm Hk. unfold bind. destruct (m s) as [[a|e] s1]; [|done]. etransitivity; [exact Hm|]. exact (Hk a s1).
Qed.
Lemma keeps_at {T A} P (m : M (T * warp_world) warp_error A) s : keeps (@beside P T) m -> calls_only P s.2 (m s).2.2.
Proof. intros Hm. apply Hm. Qed.

Ltac helper_tac P := apply k_on_world, k_helper; subst P; cbn; tauto.
Lemma start_calls s :
  calls_only (fun c => observer = false /\ ww_running s.2 = false /\ brings_up c) s.2 (start_locked env cfg s).2.2.
Proof.
  unfold start_locked. unfold bind at 1, on_world at 1, get. cbn [fst snd].
  destruct (ww_running s.2) eqn:Er; [by apply calls_only_eq|].
  set (P := fun _ => _). replace (s.1, s.2) with s by by destruct s. apply (keeps_at P). 
  unfold start_observer_locked, start_legacy_locked. keeps_tac; helper_tac P.
Qed.
Lemma stop_calls s :
  calls_only (fun c => observer = false /\ ww_running s.2 = true /\ takes_down c) s.2 (stop_locked env cfg s).2.2.
Proof.
  unfold stop_locked. unfold bind at 1, set_monitor_slot, modify. cbn [fst snd].
  unfold bind at 1, on_world at 1, get. cbn [fst snd].
  set (P := fun _ => _). change s.2 with (@None monitor, s.2).2 at 1. apply keeps_at.
  destruct observer eqn:Eo; [keeps_tac|]. destruct (ww_running s.2) eqn:Er; keeps_tac; helper_tac P.
Qed.
(** What a stop and then a start may call: the routes are pulled only when it was running. *)
Definition bounces (running : bool) (c : helper_call) : Prop :=
  observer = false /\ (brings_up c \/ running = true /\ takes_down c).
Lemma start_keeps running : keeps (beside (bounces running)) (start_locked env cfg).
Proof. intros s. eapply calls_only_weaken; [|apply start_calls]. unfold bounces. tauto. Qed.
Lemma stop_may s : calls_only (bounces (ww_running s.2)) s.2 (stop_locked env cfg s).2.2.
Proof. eapply calls_only_weaken; [|apply stop_calls]. unfold bounces. tauto. Qed.

(** Why an event called a helper. *)
Definition reason (e : warp_event) (s s' : option monitor * warp_world) (c : helper_call) : Prop :=
  match c with
  | InstallConfig text _ => e = EInstall text
  | RemoveConfig _ => e = EDelete
  | _ =>
      observer = false
      /\ match e with
         | EStart | EEnable => ww_running s.2 = false /\ brings_up c
         | EStop | EDisable | EDelete => ww_running s.2 = true /\ takes_down c
         | ERestart => bounces (ww_running s.2) c
         | EInstall _ => ww_running s.2 = true /\ (brings_up c \/ takes_down c)
         | EKillSwitch _ => False
         | ETurn => exists m m', s.1 = Some m /\ s'.1 = Some m' /\ turn_reason m m' s.2 c
         end
  end.

(** An installation stops and starts a running module, and leaves one at rest alone. *)
Definition installs (running : bool) (text : str) (c : helper_call) : Prop :=
  running = true /\ bounces true c \/ exists ok, c = InstallConfig text ok.
Lemma install_calls text s :
  calls_only (installs (ww_running s.2) text) s.2 (install_config env cfg text s).2.2.
Proof.
  unfold install_config, bind at 1, on_world at 1, get. cbn [fst snd]. replace (s.1, s.2) with s by by destruct s.
  destruct (ww_running s.2) eqn:Er; set (P := installs _ text);
    assert (keeps (calls_only P) (helper env (InstallConfig text))) as Hi by (apply k_helper; subst P; unfold installs; eauto).
  - assert (keeps (beside P) (start_locked env cfg)) as Hs.
    { intros s0. eapply calls_only_weaken; [|apply (start_keeps true)]. intros c Hc. left. by split. }
    apply keeps_post; [|intros u; unfold run_install; keeps_tac; apply k_on_world; keeps_tac].
    eapply calls_only_weaken; [|apply stop_may]. rewrite Er. intros c Hc. left. by split.
  - apply keeps_at. apply keeps_bind; [apply _|apply keeps_ret, _|intros _]. apply keeps_bind; [apply _| |intros n; keeps_tac].
    apply keeps_catch; [apply _|apply k_on_world; unfold run_install; keeps_tac|]. intros e. rewrite andb_false_r. keeps_tac.
Qed.

(** C18 Every helper call has a reason. Whatever the state, the helpers and the
    probes, an event calls the interface and route helpers only outside observer
    mode. It pulls the routes only when it is a stop, a restart, an installation or a
    deletion that finds the module running, or a turn of the monitor whose latch goes
    from up to down while the kill-switch is off. It restores them only when it is a
    start that finds the module at rest, a restart, an installation that finds it
    running, or a turn whose latch goes from down to up. The configuration is written
    and removed only by the events that say so. *)
Theorem calls_have_a_reason e s :
  calls_only (reason e s (warp_step env cfg e s).2) s.2 (warp_step env cfg e s).2.2.
Proof.
  destruct e as [| | | | |b|text| |]; cbn [warp_step].
  - eapply calls_only_weaken; [|apply start_calls]. intros [] H; cbn in *; tauto.
  - eapply calls_only_weaken; [|apply stop_calls]. intros [] H; cbn in *; tauto.
  - apply keeps_post; [|intros; apply k_on_world, k_db_update].
    eapply calls_only_weaken; [|apply start_calls]. intros [] H; cbn in *; tauto.
  - apply keeps_post; [|intros; keeps_tac].
    eapply calls_only_weaken; [|apply stop_calls]. intros [] H; cbn in *; tauto.
  - unfold restart_warp. eapply calls_only_weaken with (P := bounces (ww_running s.2)).
    { intros [] H; cbn; unfold bounces in *; cbn in *; tauto. }
    apply keeps_post; [apply stop_may|intros; apply start_keeps].
  - apply keeps_at. unfold set_kill_switch. keeps_tac.
  - apply keeps_post; [|intros; apply keeps_ret, _].
    eapply calls_only_weaken; [|apply (install_calls text)].
    intros c [(Hr & Ho & H)|[ok ->]]; [|done]. destruct c; cbn in *; tauto.
  - unfold delete_config. apply keeps_post.
    { eapply calls_only_weaken; [|apply stop_calls]. intros [] H; cbn in *; tauto. }
    intros _. set (P := reason _ _ _). assert (keeps (calls_only P) (helper env RemoveConfig)) as Hr
      by (apply k_helper; subst P; done).
    keeps_tac.
  - unfold monitor_turn. destruct s as [[m|] w]; cbn [fst snd]; [|by apply calls_only_eq].
    eapply calls_only_weaken; [|apply turn_calls]. intros c Hc.
    assert (observer = false) as Ho by apply Hc.
    assert (match c with InstallConfig _ _ | RemoveConfig _ => False | _ => True end) as Hk
      by (destruct Hc as [_ Hc]; by destruct c).
    destruct c; try done; (split; [done|]); eauto.
Qed.

(** ** A restore that fails *)

Definition same_routes (s s' : monitor * warp_world) : Prop := m_routes_active s'.1 = m_routes_active s.1.
#[local] Instance same_routes_preorder : PreOrder same_routes.
Proof. split; [done|]. intros a b c H1 H2. unfold same_routes in *. congruence. Qed.
Lemma routes_outer {A} (m : M warp_world warp_error A) : keeps same_routes (outer m).
Proof. intros s. unfold outer. by destruct (m s.2). Qed.
Hint Resolve routes_outer : keeps.
Lemma routes_set f : (forall m, m_routes_active (f m) = m_routes_active m) ->
  keeps (E := warp_error) same_routes (set_monitor f).
Proof. intros H. apply keeps_modify. intros s. apply H. Qed.
Hint Extern 1 (keeps same_routes (set_monitor _)) => apply routes_set; done : keeps.
Lemma routes_self : keeps (E := warp_error) same_routes self.
Proof. by intros s. Qed.
Lemma routes_notify (f : option (M warp_world warp_error unit)) : keeps same_routes (notify f).
Proof. unfold notify. destruct f; keeps_tac. Qed.
Hint Resolve routes_self routes_notify : keeps.
Lemma routes_degraded now ok : keeps same_routes (evaluate_degraded cb now ok).
Proof. unfold evaluate_degraded. keeps_tac. Qed.
Lemma routes_rules : keeps same_routes (evaluate_source_rules cb).
Proof. unfold evaluate_source_rules. keeps_tac. Qed.
Lemma nr_notify (f : option (M warp_world warp_error unit)) : never_raises (notify f).
Proof. unfold notify. total_tac. Qed.
Hint Resolve nr_notify : total.
Lemma nr_degraded now ok : never_raises (evaluate_degraded cb now ok).
Proof. unfold evaluate_degraded, set_monitor, self. total_tac. Qed.

(** The routes count as restored as soon as the helper has run. *)
Lemma recovered_legacy m w : observer = false ->
  ww_calls (mark_recovered (st_monitor cfg) cb (m, w)).2.2 = ww_calls w
  \/ m_routes_active (mark_recovered (st_monitor cfg) cb (m, w)).2.1 = true.
Proof.
  intros Ho. unfold mark_recovered. rewrite Ho.
  assert (cb_activate_routes cb = activate_routes env) as -> by (unfold monitor_callbacks; by rewrite Ho).
  unfold activate_routes, helper, bind, outer, set_monitor, modify, log_call, ask, ret, raise. cbn [fst snd ww_tick].
  destruct (we_helper env (ww_tick w)) as [res|e]; cbn [fst snd]; [right|by left].
  exact (routes_notify _ (set_routes_active true (set_healthy true m), _)).
Qed.
(** A turn that restores the routes, whatever the helper answers. *)
Lemma restored_routes m w ok : observer = false ->
  ww_calls (iteration (st_monitor cfg) cb (m, w)).2.2 = ww_calls w ++ [RoutesAdd ok] ->
  m_routes_active (iteration (st_monitor cfg) cb (m, w)).2.1 = true
  /\ m_healthy (iteration (st_monitor cfg) cb (m, w)).2.1 = true.
Proof.
  intros Ho Hcalls. pose proof (turn_calls m w) as (new & En & Hn). cbv zeta in En, Hn.
  rewrite En in Hcalls. apply app_inv_head in Hcalls as ->. apply Forall_singleton in Hn as [_ [Hm Hm']].
  split; [|done]. destruct probe_callbacks as [Ec Ep].
  destruct (cb_clock cb w) as [[now|e] w1] eqn:Hc;
    [|rewrite (core_no_clock _ _ _ _ _ _ Hc) in Hm'; congruence].
  destruct (cb_ping cb w1) as [[o|e] w2] eqn:Hp;
    [|rewrite (core_no_probe _ _ _ _ _ _ _ _ Hc Hp) in Hm'; congruence].
  pose proof (core_probe (st_monitor cfg) cb m w now o w1 w2 Hc Hp) as Hcore.
  assert (healthy_after (st_monitor cfg) now o m = true) as Hh.
  { injection Hcore as _ _ _ _ Hh. rewrite <- Hm', Hh. by destruct o. }
  unfold healthy_after in Hh. rewrite Hm in Hh. destruct o; [|done]. cbn [orb] in Hh.
  rewrite (probe_run (st_monitor cfg) cb same_routes m w now true w1 w2 Hc Hp (routes_degraded now true) routes_rules
    (fun s => routes_outer _)).
  rename Hh into Hl. rewrite judge_success, Hm, Hl. cbn [negb andb].
  pose proof (probe_run (st_monitor cfg) cb (@beside quiet monitor) m w now true w1 w2 Hc Hp
    (k_degraded _ _ _ _ callbacks_kind) (k_source_rules _ _ callbacks_kind)
    ltac:(intros s; rewrite update_callback; apply k_outer, k_update)) as (tl & Etl & Htl).
  assert (tl = []) as -> by (destruct tl; [done|by apply Forall_cons in Htl as [[] _]]). clear Htl.
  rewrite judge_success, Hm, Hl, En in Etl. cbn [negb andb] in Etl.
  assert (ww_calls w2 = ww_calls w) as Ew.
  { rewrite Ec in Hc. rewrite Ep in Hp. transitivity (ww_calls w1);
      [exact (proj2 (keeps_run _ _ _ _ _ looks_ping Hp))|exact (proj2 (keeps_run _ _ _ _ _ looks_clock Hc))]. }
  destruct (recovered_legacy (count_success now m) w2 Ho) as [E|E]; [|exact E].
  exfalso. rewrite app_nil_r, E, Ew in Etl. apply (f_equal length) in Etl. rewrite length_app in Etl. cbn in Etl. lia.
Qed.

(** A turn whose probe answers, of a monitor that is up: nothing is called, and the
    row says what the monitor believes of the routes. *)
Definition row_says_active (s : monitor * warp_world) : Prop := ws_routes_active (ww_row s.2) = true.
Lemma update_row snap w : (forall t, we_db env t = true) ->
  ws_routes_active (ww_row (on_health_update env snap w).2) = hs_routes_active snap
  /\ is_ok (on_health_update env snap w).1 = true.
Proof.
  intros Hdb. unfold on_health_update, update_runtime, db_update, bind, ask, set_row, modify, ret.
  destruct (hs_tunnel_up snap); cbn; rewrite Hdb; by cbn.
Qed.
Lemma probe_answers w : (forall t, we_icmp env t = true) ->
  exists now w1 w2, cb_clock cb w = (Ok now, w1) /\ cb_ping cb w1 = (Ok true, w2).
Proof.
  intros Hi. destruct probe_callbacks as [-> ->]. do 3 eexists. split; [reflexivity|].
  unfold warp_ping, bind, ask. cbn. by rewrite Hi.
Qed.
Lemma healthy_row m w now w1 w2 : observer = false -> (forall t, we_db env t = true) ->
  m_healthy m = true -> m_routes_active m = true -> cb_clock cb w = (Ok now, w1) -> cb_ping cb w1 = (Ok true, w2) ->
  row_says_active (iteration (st_monitor cfg) cb (m, w)).2.
Proof.
  intros Ho Hdb Hm Hr Hc Hp.
  assert (triple (fun s => m_routes_active s.1 = true)
      (evaluate_degraded cb now true ;;!
       let! rules_present := evaluate_source_rules cb in
       let! m := self in
       let snapshot := HealthSnapshot true (m_routes_active m && rules_present) (m_fail_streak m)
         (m_success_streak m) (m_degraded m || negb rules_present) in
       outer (cb_on_update cb snapshot) ;;! ret snapshot)
      (fun _ s => row_says_active s) (fun _ => False)) as Ht.
  { eapply triple_bind; [apply (triple_total same_routes);
      [apply nr_degraded|apply routes_degraded|unfold same_routes; congruence]|intros []].
    assert (evaluate_source_rules cb = ret true) as -> by (unfold monitor_callbacks; by rewrite Ho).
    intros s Hs. unfold bind, self, gets, ret, outer. cbn [fst snd]. rewrite update_callback.
    match goal with |- context [on_health_update env ?snap s.2] => destruct (update_row snap s.2 Hdb) as [H1 H2];
      destruct (on_health_update env snap s.2) as [[u|e] w'] end; [|done].
    unfold row_says_active. cbn [fst snd] in *. rewrite H1. cbn. by rewrite Hs. }
  specialize (Ht (count_success now m, w2) Hr). rewrite iteration_state.
  destruct (check_once (st_monitor cfg) cb (m, w)) as [r z] eqn:Ez. unfold check_once in Ez.
  unfold bind at 1, outer at 1 in Ez. cbn [fst snd] in Ez. rewrite Hc in Ez. cbn [fst snd] in Ez.
  unfold bind at 1, outer at 1 in Ez. cbn [fst snd] in Ez. rewrite Hp in Ez. cbn [fst snd] in Ez.
  unfold bind at 1 in Ez. rewrite judge_success, Hm in Ez. cbn [negb andb fst snd] in Ez.
  cbv zeta in Ht. rewrite Ez in Ht. destruct r; [exact Ht|done].
Qed.
Lemma healthy_turn m w : observer = false -> (forall t, we_icmp env t = true) ->
  m_healthy m = true -> m_routes_active m = true ->
  let s' := (iteration (st_monitor cfg) cb (m, w)).2 in
  ww_calls s'.2 = ww_calls w /\ m_healthy s'.1 = true /\ m_routes_active s'.1 = true
  /\ ((forall t, we_db env t = true) -> row_says_active s').
Proof.
  intros Ho Hi Hm Hr s'. destruct (probe_answers w Hi) as (now & w1 & w2 & Hc & Hp).
  assert (m_healthy s'.1 = true) as Hh.
  { pose proof (core_probe (st_monitor cfg) cb m w now true w1 w2 Hc Hp) as Hcore. injection Hcore as _ _ _ _ Hh.
    subst s'. rewrite Hh. unfold healthy_after. by rewrite Hm. }
  split; [|split; [done|split]].
  - pose proof (turn_calls m w) as (new & En & Hn). fold s' in En, Hn. rewrite En.
    destruct new as [|c new]; [by rewrite app_nil_r|]. apply Forall_cons in Hn as [[_ Hc'] _].
    destruct c; try done; destruct Hc' as [? ?]; intuition congruence.
  - pose proof (probe_run (st_monitor cfg) cb same_routes m w now true w1 w2 Hc Hp (routes_degraded now true) routes_rules
      (fun s => routes_outer _)) as Hs. unfold same_routes in Hs. rewrite judge_success, Hm in Hs. exact (eq_trans Hs Hr).
  - intros Hdb. by apply (healthy_row m w now w1 w2).
Qed.

(** C40 A restore of the routes that fails is final. Outside observer mode, when the
    latch recovers and the routes helper answers with an error, then as long as the
    probes answer no later turn calls the helper again, and after every one of them
    the monitor takes the routes for active; and where the writes of the settings row
    succeed, the stored row says so too. The comment of [_start_locked] counts on the
    monitor to retry: this is what becomes of its retry. *)
Theorem failed_restore_is_final m w m1 w1 n :
  observer = false -> (forall t, we_icmp env t = true) ->
  (warp_step env cfg ETurn (Some m, w)).2 = (Some m1, w1) -> ww_calls w1 = ww_calls w ++ [RoutesAdd false] ->
  exists m' w', warp_run env cfg (repeat ETurn (S n)) (Some m1, w1) = (Some m', w')
    /\ ww_calls w' = ww_calls w ++ [RoutesAdd false]
    /\ m_routes_active m' = true
    /\ ((forall t, we_db env t = true) -> ws_routes_active (ww_row w') = true).
Proof.
  intros Ho Hi H1 Hcalls. cbn in H1. injection H1 as <- <-.
  destruct (restored_routes m w false Ho Hcalls) as [Hr Hh].
  set (s := (iteration (st_monitor cfg) cb (m, w)).2) in *. rewrite <- Hcalls. clearbody s. clear Hcalls.
  assert (forall k m0 w0, m_healthy m0 = true -> m_routes_active m0 = true ->
    exists m' w', warp_run env cfg (repeat ETurn (S k)) (Some m0, w0) = (Some m', w')
      /\ ww_calls w' = ww_calls w0 /\ m_routes_active m' = true
      /\ ((forall t, we_db env t = true) -> ws_routes_active (ww_row w') = true)) as Hrun.
  { intros k. induction k as [|k IH]; intros m0 w0 Hm0 Hr0;
      pose proof (healthy_turn m0 w0 Ho Hi Hm0 Hr0) as (E1 & E2 & E3 & E4); cbv zeta in *.
    - cbn. eexists _, _. split; [reflexivity|]. done.
    - destruct (IH _ (iteration (st_monitor cfg) cb (m0, w0)).2.2 E2 E3) as (m' & w' & Er & Ec & Hrest).
      exists m', w'. rewrite Ec, E1. split; [|done]. rewrite <- Er. reflexivity. }
  by apply Hrun.
Qed.
End Calls.

(** ** A concrete module *)

Definition demo_warp_env (helper_rc : Z) : warp_env := WarpEnv
  (fun _ => Ok (ToolResult helper_rc [] [])) (fun _ => true) (fun _ => true) (fun _ => 0) (fun _ => 1700000000)
  (fun t => float_of_int (100 * Z.of_nat t)) (fun _ => true) (fun _ => true) (fun _ => true) (fun _ => None)
  (fun _ => None) (fun _ => ToolResult 0 [] []) (fun _ => None).
Definition demo_warp_settings : warp_settings :=
  WarpSettings (MonitorConfig CHECK_INTERVAL FAST_CHECK_INTERVAL FAIL_WINDOW_SECONDS RECOVER_WINDOW_SECONDS false)
    (py "/etc/amnezia/out-warp.conf") (py "out-warp") (py "10.8.0.0/24") true.
Definition demo_warp_world : warp_world :=
  WarpWorld (WarpState true [] [] 1 true false false false 0 0 0 0 0) true false None [] [] 1.
(** Down, and answering for a while. *)
Definition recovering : monitor :=
  Monitor 0 1 None (Some (float_of_int 0)) (Some true) false false [] false true.

Lemma latch_is_last_verdict_witness :
  let cb := legacy_callbacks (demo_warp_env 0) demo_warp_settings in
  let cfg := st_monitor demo_warp_settings in
  exists m w h, watched cfg cb false m w h /\ length h = 2%nat /\ m_healthy m = true /\ latch cfg false h = true.
Proof.
  intros cb cfg.
  pose proof (watched_start cfg cb false demo_warp_world) as W0.
  assert (exists m w h, watched cfg cb false m w h /\ length h = 2%nat /\ latch cfg false h = true) as (m & w & h & W & L & E).
  { eexists _, _, _. split.
    - eapply watched_probe; [eapply watched_probe; [exact W0|reflexivity..]|reflexivity..].
    - split; [reflexivity|vm_compute; reflexivity]. }
  exists m, w, h. split; [exact W|]. split; [exact L|]. split; [|exact E].
  destruct (latch_is_last_verdict cfg cb false m w h W) as [Hh _]. rewrite Hh. exact E.
Defined.

Lemma failed_restore_is_final_witness :
  let env := demo_warp_env 1 in
  exists m1 w1, (warp_step env demo_warp_settings ETurn (Some recovering, demo_warp_world)).2 = (Some m1, w1)
    /\ exists m' w', warp_run env demo_warp_settings (repeat ETurn 3) (Some m1, w1) = (Some m', w')
       /\ ww_calls w' = [RoutesAdd false] /\ ws_routes_active (ww_row w') = true.
Proof.
  intros env. set (s := (iteration (st_monitor demo_warp_settings) (monitor_callbacks env demo_warp_settings)
                           (recovering, demo_warp_world)).2).
  assert (ww_calls s.2 = [RoutesAdd false]) as Hc by (vm_compute; reflexivity).
  exists s.1, s.2. split; [reflexivity|].
  destruct (failed_restore_is_final env demo_warp_settings recovering demo_warp_world s.1 s.2 2 eq_refl
    (fun _ => eq_refl) eq_refl Hc) as (m' & w' & H1 & H2 & _ & H4).
  exists m', w'. split; [exact H1|]. split; [exact H2|exact (H4 (fun _ => eq_refl))].
Defined.
