(* ===== verification/WarpConfig.v ===== *)
(** * The configuration of the WARP tunnel
      ([warp/config_validator.py], [warp/proxy_egress.py])

    What an uploaded configuration must be like to be installed, and the address of
    the tunnel that is read from the installed one. The regular expressions of the
    source look at one line each; what they find is shown to be what a reader of
    sections and fields sees, for blanks that are spaces and tabs. The texts of the
    messages are left out, what they list is kept. *)

From S2P Require Import Prelude PyText PyIp AwgConfig.
#[local] Open Scope Z_scope.

(** ** Lines *)

(** [[ \t]] *)
Definition is_blank (c : N) : bool := (c =? 32)%N || (c =? 9)%N.
Fixpoint skip_blanks (s : str) : str := match s with c :: r => if is_blank c then skip_blanks r else s | [] => [] end.
(** The pattern [key] at the head of a text, up to [fold]; what follows it. *)
Fixpoint strip_key (fold : N -> N) (key s : str) : option str :=
  match key, s with
  | [], _ => Some s
  | k :: key', c :: s' => if (fold c =? k)%N then strip_key fold key' s' else None
  | _ :: _, [] => None
  end.
(** [^[ \t]*key[ \t]*=], on a line: what follows it. *)
Definition after_key (fold : N -> N) (key line : str) : option str :=
  match strip_key fold key (skip_blanks line) with
  | Some r => match skip_blanks r with c :: v => if (c =? EQUALS)%N then Some v else None | [] => None end
  | None => None
  end.
(** [re.IGNORECASE], for the letters of the patterns: the long s is an s, too. *)
Definition fold_case (c : N) : N :=
  if ((65 <=? c) && (c <=? 90))%N then (c + 32)%N else if (c =? 383)%N then 115%N else c.
Definition same (c : N) : N := c.
Definition lines (text : str) : list str := split_char NEWLINE text.
(** [^[ \t]*\[name\][ \t]*$] *)
Definition is_header (name line : str) : bool :=
  match strip_key same (91%N :: name ++ [93%N]) (skip_blanks line) with Some r => forallb is_blank r | None => false end.

(** ** [warp/config_validator.py] *)

Inductive warp_config_error :=
  | NoSection (name : str) | NoField (key : str) | PlainWireGuard (missing : list str) | HookDirective
  | NoAllowedIps | BadCidrs (tokens : list str).
Definition REQUIRED_FIELDS : list str := [py "PrivateKey"; py "PublicKey"; py "Endpoint"].
Definition AMNEZIA_MARKERS : list str := [py "Jc"; py "S1"; py "S2"].
Definition HOOKS : list str := [py "preup"; py "predown"; py "postup"; py "postdown"].
Definition ALLOWED_IPS : str := py "AllowedIPs".

Definition has_section (text name : str) : bool := existsb (is_header name) (lines text).
Definition field_value (text key : str) : option str := option_map strip (head (omap (after_key same key) (lines text))).
Definition has_field (text key : str) : bool := existsb (fun l => bool_decide (is_Some (after_key same key l))) (lines text).
Definition has_hook (text : str) : bool :=
  existsb (fun l => existsb (fun key => bool_decide (is_Some (after_key fold_case key l))) HOOKS) (lines text).
Definition tokens_of (value : str) : list str := List.filter (fun t => negb (is_empty t)) (map strip (split_char COMMA value)).
Definition extract_allowed_ips (text : str) : list str :=
  match field_value text ALLOWED_IPS with Some value => tokens_of value | None => [] end.
Definition cidr_ok (token : str) : bool := bool_decide (is_Some (ip_network token)).
Fixpoint require_all {A} (ok : A -> bool) (bad : A -> warp_config_error) (l : list A) : result warp_config_error unit :=
  match l with [] => Ok tt | a :: r => if ok a then require_all ok bad r else Err (bad a) end.
Definition validate_amnezia_config (text : str) : result warp_config_error (list str) :=
  match require_all (has_section text) NoSection [py "Interface"; py "Peer"] with
  | Err e => Err e
  | Ok _ =>
      match require_all (has_field text) NoField REQUIRED_FIELDS with
      | Err e => Err e
      | Ok _ =>
          match List.filter (fun m => negb (has_field text m)) AMNEZIA_MARKERS with
          | (_ :: _) as missing => Err (PlainWireGuard missing)
          | [] =>
              if has_hook text then Err HookDirective
              else
                match extract_allowed_ips text with
                | [] => Err NoAllowedIps
                | allowed_ips =>
                    match List.filter (fun t => negb (cidr_ok t)) allowed_ips with
                    | [] => Ok allowed_ips
                    | invalid => Err (BadCidrs invalid)
                    end
                end
          end
      end
  end.

(** ** [warp/proxy_egress.py] *)

(** [^[ \t]*Address[ \t]*=[ \t]*(.+?)[ \t]*$] with [re.IGNORECASE]: a line on which nothing
    follows the sign does not match. The tokens are stripped, so the blanks around the
    group do not matter. *)
Definition address_group (line : str) : option str :=
  match after_key fold_case (py "address") line with Some [] | None => None | Some v => Some v end.
Definition ipv4_of_token (token : str) : option str := option_map show_addr (ipv4_address (strip (before_char 47%N token))).
(** [None]: the file cannot be read. *)
Definition read_tunnel_address (content : option str) : option str :=
  content ≫= fun text => head (omap address_group (lines text)) ≫= fun group => head (omap ipv4_of_token (split_char COMMA group)).
Definition make_send_through_provider (enabled : bool) (content : option str) : option str :=
  if enabled then read_tunnel_address content else None.

(** ** Reading a configuration *)

(** A line as a field: the text before the sign without the blanks around it, and the
    text after it. *)
Definition trim (s : str) : str := rev (skip_blanks (rev (skip_blanks s))).
Definition entry_of (line : str) : option (str * str) :=
  match partition_char EQUALS line with (k, Some v) => Some (trim k, v) | (_, None) => None end.
Definition entries (text : str) : list (str * str) := omap entry_of (lines text).
Definition headers (text : str) : list str := map trim (lines text).
Definition lookup_entry (key : str) (l : list (str * str)) : option str := snd <$> List.find (fun e => bool_decide (e.1 = key)) l.

Lemma skip_blanks_split s : exists b, Forall (fun c => is_blank c = true) b /\ s = b ++ skip_blanks s.
Proof.
  induction s as [|c s [b [Hb Hs]]]; [by exists []|]. cbn. destruct (is_blank c) eqn:E; [|by exists []].
  exists (c :: b). split; [by constructor|]. cbn. by rewrite Hs at 1.
Qed.
Lemma skip_blanks_app b s : Forall (fun c => is_blank c = true) b -> skip_blanks (b ++ s) = skip_blanks s.
Proof. induction 1 as [|c b Hc Hb IH]; [done|]. cbn. by rewrite Hc. Qed.
Lemma skip_blanks_stop c s : is_blank c = false -> skip_blanks (c :: s) = c :: s.
Proof. intros H. cbn. by rewrite H. Qed.
Lemma skip_blanks_head s : match skip_blanks s with c :: _ => is_blank c = false | [] => True end.
Proof. induction s as [|c s IH]; [done|]. cbn. destruct (is_blank c) eqn:E; [done|]. exact E. Qed.
Lemma all_blank b : Forall (fun c => is_blank c = true) b -> skip_blanks b = [].
Proof. intros H. rewrite <- (app_nil_r b). by rewrite skip_blanks_app. Qed.
(** Blanks around a text that has none at its ends. *)
Definition solid (s : str) : Prop := Forall (fun c => is_blank c = false) s.
Lemma trim_around b1 s b2 : Forall (fun c => is_blank c = true) b1 -> Forall (fun c => is_blank c = true) b2 -> solid s ->
  trim (b1 ++ s ++ b2) = s.
Proof.
  intros H1 H2 Hs. unfold trim. rewrite skip_blanks_app by done. destruct s as [|c s].
  - cbn. by rewrite (all_blank b2).
  - inversion Hs; subst. change ((c :: s) ++ b2) with (c :: s ++ b2). rewrite skip_blanks_stop by done.
    change (c :: s ++ b2) with ((c :: s) ++ b2). rewrite rev_app_distr, skip_blanks_app by (by apply Forall_rev).
    destruct (rev (c :: s)) as [|d r] eqn:E; [by apply (f_equal (@length N)) in E; rewrite length_rev in E|].
    rewrite skip_blanks_stop; [by rewrite <- E, rev_involutive|].
    assert (d ∈ c :: s) as Hd by (rewrite <- (rev_involutive (c :: s)), E; apply list_elem_of_In; apply in_rev; rewrite rev_involutive; by left).
    unfold solid in Hs. rewrite Forall_elem in Hs. by apply Hs.
Qed.
Lemma trim_split s : exists b1 b2, Forall (fun c => is_blank c = true) b1 /\ Forall (fun c => is_blank c = true) b2 /\ s = b1 ++ trim s ++ b2.
Proof.
  destruct (skip_blanks_split s) as (b1 & H1 & Hs). destruct (skip_blanks_split (rev (skip_blanks s))) as (b2 & H2 & Hr).
  exists b1, (rev b2). split; [done|]. split; [by apply Forall_rev|]. unfold trim. rewrite <- rev_app_distr, <- Hr, rev_involutive. done.
Qed.
(** A pattern that is found where it stands: no blank and no sign is taken for one of its letters. *)
Definition plain_key (fold : N -> N) (key : str) : Prop :=
  key <> [] /\ forall c, fold c ∈ key -> is_blank c = false /\ c <> EQUALS.
Lemma strip_key_spec fold key : forall s r, strip_key fold key s = Some r <-> exists p, s = p ++ r /\ map fold p = key.
Proof.
  induction key as [|k key IH]; intros s r; cbn.
  - split; [intros [= ->]; by exists []|]. intros ([|c p] & -> & Hp); [done|discriminate Hp].
  - destruct s as [|c s]; [split; [done|]; intros ([|d p] & Hs & Hp); discriminate Hs || discriminate Hp|].
    destruct (N.eqb_spec (fold c) k) as [Hc|Hc].
    + rewrite IH. split.
      * intros (p & -> & <-). exists (c :: p). by cbn; rewrite Hc.
      * intros ([|d p] & Hs & Hp); [discriminate Hp|]. injection Hs as -> ->. injection Hp as _ Hp. eauto.
    + split; [done|]. intros ([|d p] & Hs & Hp); [discriminate Hp|]. injection Hs as -> ->. by injection Hp as ? _.
Qed.
Lemma plain_solid fold key p : plain_key fold key -> map fold p = key -> p <> [] /\ solid p /\ EQUALS ∉ p.
Proof.
  intros [Hn Hk] Hp. assert (forall c, c ∈ p -> is_blank c = false /\ c <> EQUALS) as H.
  { intros c Hc. apply Hk. rewrite <- Hp. by apply list_elem_of_fmap_2. }
  split; [by intros ->; rewrite <- Hp in Hn|]. split; [unfold solid; apply Forall_elem; intros c Hc; by apply H|]. intros Hc. by apply H in Hc as [_ ?].
Qed.
Lemma blanks_no_sign b : Forall (fun c => is_blank c = true) b -> EQUALS ∉ b.
Proof. intros Hb Hin. rewrite Forall_elem in Hb. by apply Hb in Hin. Qed.
(** What a pattern finds on a line is the field of that name. *)
Lemma after_key_entry fold key line v : plain_key fold key ->
  after_key fold key line = Some v <-> exists k, entry_of line = Some (k, v) /\ map fold k = key.
Proof.
  intros Hk. unfold after_key, entry_of. split.
  - destruct (strip_key fold key _) as [r|] eqn:E; [|done]. apply strip_key_spec in E as (p & Hs & Hp).
    destruct (plain_solid _ _ _ Hk Hp) as (_ & Hsolid & Hno).
    destruct (skip_blanks_split line) as (b & Hb & Hl). destruct (skip_blanks_split r) as (b2 & Hb2 & Hr).
    destruct (skip_blanks r) as [|c v'] eqn:Er; [done|]. destruct (N.eqb_spec c EQUALS) as [->|]; [|done]. intros [= ->].
    assert (line = (b ++ p ++ b2) ++ EQUALS :: v) as -> by (rewrite Hl, Hs, Hr, <- !app_assoc; done).
    rewrite partition_char_app; [exists p; by rewrite trim_around|].
    rewrite !elem_of_app. intros [H|[H|H]]; [exact (blanks_no_sign b Hb H)|done|exact (blanks_no_sign b2 Hb2 H)].
  - intros (k & E & Hm). destruct (plain_solid _ _ _ Hk Hm) as (Hn & Hsolid & Hno).
    destruct (partition_char EQUALS line) as [q [v'|]] eqn:Ep; [|done]. injection E as Hq ->. apply partition_char_inv in Ep as [-> _].
    destruct (trim_split q) as (b1 & b2 & H1 & H2 & H3). rewrite Hq in H3. rewrite H3, <- !app_assoc, skip_blanks_app by done.
    assert (skip_blanks (k ++ b2 ++ EQUALS :: v) = k ++ b2 ++ EQUALS :: v) as ->.
    { destruct k as [|c k]; [done|]. inversion Hsolid; subst. by apply skip_blanks_stop. }
    rewrite (proj2 (strip_key_spec fold key _ (b2 ++ EQUALS :: v))); [|by exists k]. by rewrite skip_blanks_app.
Qed.
Lemma after_key_eq fold key line : plain_key fold key -> after_key fold key line =
  match entry_of line with Some (k, v) => if bool_decide (map fold k = key) then Some v else None | None => None end.
Proof.
  intros Hk. destruct (after_key fold key line) as [v|] eqn:E.
  - apply after_key_entry in E as (k & -> & Hm); [|done]. by rewrite bool_decide_eq_true_2.
  - destruct (entry_of line) as [[k v]|] eqn:El; [|done]. case_bool_decide as Hm; [|done].
    assert (after_key fold key line = Some v) as H by (apply after_key_entry; eauto). congruence.
Qed.
Lemma plain_letters fold key : key <> [] -> forallb (fun c => negb (is_blank c) && negb (c =? EQUALS)%N) key = true ->
  (forall c, is_blank c = true \/ c = EQUALS -> fold c = c) -> plain_key fold key.
Proof.
  intros Hn Hl Hf. split; [done|]. intros c Hc. rewrite forallb_forall in Hl. apply list_elem_of_In, Hl in Hc. bool_prop.
  destruct (is_blank c) eqn:Eb; [rewrite (Hf c) in *; [congruence|by left..]|]. split; [done|]. intros ->.
  by rewrite (Hf EQUALS) in * by (by right).
Qed.
Lemma fold_case_blank c : is_blank c = true \/ c = EQUALS -> fold_case c = c.
Proof. unfold is_blank. intros [H| ->]; [|done]. apply orb_true_iff in H as [H|H]; apply N.eqb_eq in H as ->; done. Qed.
Ltac plain := apply plain_letters; [discriminate|vm_compute; reflexivity|apply fold_case_blank || done].

Lemma is_header_spec name line : solid name -> is_header name line = true <-> trim line = 91%N :: name ++ [93%N].
Proof.
  intros Hs. unfold is_header. set (key := 91%N :: name ++ [93%N]).
  assert (solid key) as Hk by (constructor; [done|]; apply Forall_app; split; [done|by constructor]). split.
  - destruct (strip_key same key (skip_blanks line)) as [r|] eqn:E; [|done]. apply strip_key_spec in E as (p & Hl & Hp). intros Hb.
    unfold same in Hp. rewrite map_id in Hp. subst p. destruct (skip_blanks_split line) as (b & H1 & ->). rewrite Hl.
    apply trim_around; [done| |done]. apply Forall_elem. intros c Hc%list_elem_of_In. by apply (proj1 (forallb_forall _ _) Hb).
  - intros E. destruct (trim_split line) as (b1 & b2 & H1 & H2 & ->). rewrite E, skip_blanks_app by done.
    change (key ++ b2) with (91%N :: (name ++ [93%N]) ++ b2). rewrite skip_blanks_stop by done.
    change (91%N :: (name ++ [93%N]) ++ b2) with (key ++ b2).
    rewrite (proj2 (strip_key_spec same key _ b2)); [|exists key; split; [done|apply map_id]].
    apply forallb_forall. intros c Hc%list_elem_of_In. rewrite Forall_elem in H2. by apply H2.
Qed.
Lemma has_section_spec text name : solid name -> has_section text name = true <-> 91%N :: name ++ [93%N] ∈ headers text.
Proof.
  intros Hs. unfold has_section, headers. rewrite existsb_exists, list_elem_of_fmap. split.
  - intros (l & Hl%list_elem_of_In & Hh%is_header_spec); [|done]. by exists l.
  - intros (l & Hh & Hl). exists l. split; [by apply list_elem_of_In|by apply is_header_spec].
Qed.
Lemma elem_entries k v text : (k, v) ∈ entries text <-> exists l, l ∈ lines text /\ entry_of l = Some (k, v).
Proof. unfold entries. apply list_elem_of_omap. Qed.
Lemma found_on_a_line fold key text : plain_key fold key ->
  existsb (fun l => bool_decide (is_Some (after_key fold key l))) (lines text) = true <-> exists k v, (k, v) ∈ entries text /\ map fold k = key.
Proof.
  intros Hk. rewrite existsb_exists. split.
  - intros (l & Hl%list_elem_of_In & Hs). bool_prop. destruct Hs as [v Hv]. apply after_key_entry in Hv as (k & He & Hm); [|done].
    exists k, v. split; [|done]. apply elem_entries. by exists l.
  - intros (k & v & (l & Hl & He)%elem_entries & Hm). exists l. split; [by apply list_elem_of_In|]. apply bool_decide_eq_true. exists v.
    apply after_key_entry; eauto.
Qed.
Lemma has_field_spec text key : plain_key same key -> has_field text key = true <-> exists v, (key, v) ∈ entries text.
Proof.
  intros Hk. unfold has_field. rewrite found_on_a_line by done. unfold same. split.
  - intros (k & v & H & Hm). rewrite map_id in Hm. subst k. by exists v.
  - intros [v H]. exists key, v. split; [done|apply map_id].
Qed.
Lemma has_hook_spec text : has_hook text = true <-> exists k v, (k, v) ∈ entries text /\ map fold_case k ∈ HOOKS.
Proof.
  unfold has_hook. rewrite existsb_exists. split.
  - intros (l & Hl & (key & Hin & Ha)%existsb_exists). assert (plain_key fold_case key) as Hk.
    { cbn in Hin. repeat destruct Hin as [<-|Hin]; [plain..|done]. }
    destruct (proj1 (found_on_a_line fold_case key text Hk)) as (k & v & He & Hm); [apply existsb_exists; by exists l|].
    exists k, v. split; [done|]. rewrite Hm. by apply list_elem_of_In.
  - intros (k & v & (l & Hl & He)%elem_entries & Hm). exists l. split; [by apply list_elem_of_In|]. apply existsb_exists.
    exists (map fold_case k). split; [by apply list_elem_of_In|]. assert (plain_key fold_case (map fold_case k)) as Hk.
    { apply list_elem_of_In in Hm. revert Hm. generalize (map fold_case k) as key. intros key Hm. cbn in Hm. repeat destruct Hm as [<-|Hm]; [plain..|done]. }
    apply bool_decide_eq_true. exists v. apply after_key_entry; eauto.
Qed.
Lemma field_value_spec text key : plain_key same key -> field_value text key = strip <$> lookup_entry key (entries text).
Proof.
  intros Hk. unfold field_value, lookup_entry, entries. induction (lines text) as [|l ls IH]; [done|]. csimpl.
  rewrite after_key_eq by done. destruct (entry_of l) as [[k v]|]; [|done]. rewrite (map_id k : map same k = k). cbn [List.find fst].
  by case_bool_decide.
Qed.
Lemma require_all_ok {A} (ok : A -> bool) bad l : require_all ok bad l = Ok tt <-> forall a, a ∈ l -> ok a = true.
Proof.
  induction l as [|a l IH]; cbn; [split; [intros _ a ?%elem_of_nil; done|done]|]. destruct (ok a) eqn:E.
  - rewrite IH. split; [intros H b [->|Hb]%elem_of_cons; auto|intros H b Hb; apply H; by right].
  - split; [done|]. intros H. specialize (H a ltac:(by left)). congruence.
Qed.
Lemma filter_nil {A} (p : A -> bool) l : List.filter (fun a => negb (p a)) l = [] <-> forall a, a ∈ l -> p a = true.
Proof.
  induction l as [|a l IH]; cbn; [split; [intros _ a ?%elem_of_nil; done|done]|]. destruct (p a) eqn:E; cbn.
  - rewrite IH. split; [intros H b [->|Hb]%elem_of_cons; auto|intros H b Hb; apply H; by right].
  - split; [done|]. intros H. specialize (H a ltac:(by left)). congruence.
Qed.

(** ** What is accepted *)

Definition well_formed (text : str) (ips : list str) : Prop :=
  (forall name, name ∈ [py "Interface"; py "Peer"] -> 91%N :: name ++ [93%N] ∈ headers text)
  /\ (forall key, key ∈ REQUIRED_FIELDS ++ AMNEZIA_MARKERS -> exists v, (key, v) ∈ entries text)
  /\ (forall k v, (k, v) ∈ entries text -> map fold_case k ∉ HOOKS)
  /\ (exists v, lookup_entry ALLOWED_IPS (entries text) = Some v /\ ips = tokens_of (strip v))
  /\ ips <> [] /\ Forall (fun t => is_Some (ip_network t)) ips.
Lemma sections_spec text :
  require_all (has_section text) NoSection [py "Interface"; py "Peer"] = Ok tt
  <-> forall name, name ∈ [py "Interface"; py "Peer"] -> 91%N :: name ++ [93%N] ∈ headers text.
Proof.
  rewrite require_all_ok. split; intros H name Hn; specialize (H name Hn);
    (assert (solid name) by (apply list_elem_of_In in Hn; cbn in Hn; repeat destruct Hn as [<-|Hn]; [repeat constructor..|done])); by apply has_section_spec.
Qed.
Lemma wanted_plain key : key ∈ REQUIRED_FIELDS ++ AMNEZIA_MARKERS -> plain_key same key.
Proof. intros H%list_elem_of_In. cbn in H. repeat destruct H as [<-|H]; [plain..|done]. Qed.
Lemma fields_spec text (l : list str) : (forall key, key ∈ l -> key ∈ REQUIRED_FIELDS ++ AMNEZIA_MARKERS) ->
  (forall key, key ∈ l -> has_field text key = true) <-> forall key, key ∈ l -> exists v, (key, v) ∈ entries text.
Proof. intros Hl. split; intros H key Hk; specialize (H key Hk); (apply has_field_spec; [by apply wanted_plain, Hl|done]). Qed.
Lemma extract_spec text : extract_allowed_ips text = match lookup_entry ALLOWED_IPS (entries text) with Some v => tokens_of (strip v) | None => [] end.
Proof. unfold extract_allowed_ips. rewrite field_value_spec by plain. by destruct (lookup_entry _ _). Qed.

Lemma validator_spec text ips : validate_amnezia_config text = Ok ips <-> well_formed text ips.
Proof.
  unfold validate_amnezia_config, well_formed. pose proof (sections_spec text) as Hs.
  destruct (require_all (has_section text) _ _) as [[]|e]; [|split; [done|intros (H & _); by apply Hs in H]].
  pose proof (fields_spec text REQUIRED_FIELDS ltac:(intros k Hk; apply elem_of_app; by left)) as Hr. rewrite <- (require_all_ok _ NoField) in Hr.
  destruct (require_all (has_field text) _ _) as [[]|e].
  2:{ split; [done|]. intros (_ & H & _). assert (Err (A := unit) e = Ok tt) as [=]. apply Hr. intros k Hk. apply H, elem_of_app. by left. }
  pose proof (fields_spec text AMNEZIA_MARKERS ltac:(intros k Hk; apply elem_of_app; by right)) as Hm. rewrite <- filter_nil in Hm.
  destruct (List.filter (fun m => negb (has_field text m)) _) as [|m ms].
  2:{ split; [done|]. intros (_ & H & _). assert (m :: ms = []) as [=]. apply Hm. intros k Hk. apply H, elem_of_app. by right. }
  destruct (has_hook text) eqn:Eh.
  { split; [done|]. intros (_ & _ & H & _). apply has_hook_spec in Eh as (k & v & He & Hh). by apply (H k v) in He. }
  assert (forall k v, (k, v) ∈ entries text -> map fold_case k ∉ HOOKS) as Hh.
  { intros k v He Hin. assert (has_hook text = true) as H by (apply has_hook_spec; eauto). congruence. }
  rewrite extract_spec. assert (forall key, key ∈ REQUIRED_FIELDS ++ AMNEZIA_MARKERS -> exists v, (key, v) ∈ entries text) as Hall.
  { intros key [Hk|Hk]%elem_of_app; [by apply Hr|by apply Hm]. }
  clear Hr Hm. destruct (lookup_entry _ _) as [v|]; [|by split; [done|intros (_ & _ & _ & (v & ? & _) & _)]].
  pose proof (filter_nil cidr_ok (tokens_of (strip v))) as Hc. destruct (tokens_of (strip v)) as [|t ts] eqn:Et.
  { split; [done|]. by intros (_ & _ & _ & (v' & [= <-] & ->) & Hn & _). }
  destruct (List.filter _ _) as [|b bs].
  - split; [intros [= <-]|by intros (_ & _ & _ & (v' & [= <-] & ->) & _); rewrite Et].
    split; [by apply Hs|]. split; [done|]. split; [done|]. split; [by exists v|]. split; [done|].
    apply Forall_elem. intros x Hx. by apply Hc in Hx; [apply bool_decide_eq_true in Hx|].
  - split; [done|]. intros (_ & _ & _ & (v' & [= <-] & ->) & _ & Hf). rewrite Et, Forall_elem in Hf.
    assert (b :: bs = []) as [=]. apply Hc. intros x Hx. by apply bool_decide_eq_true, Hf.
Qed.

(** C31 What the validator accepts. A configuration is accepted exactly when, read as sections
    and fields with blanks around a name ignored, it has both sections, every
    required field and every marker of AmneziaWG, no field that a script hook's name
    folds to, and a first [AllowedIPs] whose tokens are all networks; the tokens are
    what is returned, in their order and unchanged. *)
Theorem accepted_config_is_well_formed text ips : validate_amnezia_config text = Ok ips <-> well_formed text ips.
Proof. apply validator_spec. Qed.

(** ** What the validator does not see *)

Lemma elem_not_newline c s : is_space c = true -> c <> NEWLINE -> NEWLINE ∉ s -> NEWLINE ∉ c :: s.
Proof. intros _ H1 H2. apply not_elem_of_cons. split; [congruence|done]. Qed.
(** The line of a hook, behind a blank that is neither a space nor a tab. *)
Definition hidden_hook (blank : N) (command : str) : str := (blank :: py "PostUp") ++ EQUALS :: command.
Lemma hidden_entry blank command : is_space blank = true -> is_blank blank = false ->
  entry_of (hidden_hook blank command) = Some (blank :: py "PostUp", command).
Proof.
  intros Hs Hb. assert (EQUALS ∉ blank :: py "PostUp") as Hno.
  { apply not_elem_of_cons. split; [by intros <-|]. intros Hin%list_elem_of_In. vm_compute in Hin. repeat destruct Hin as [Hin|Hin]; done. }
  unfold entry_of, hidden_hook. rewrite partition_char_app by done. do 2 f_equal.
  assert (solid (blank :: py "PostUp")) as Hsolid by (constructor; [done|by repeat constructor]).
  pose proof (trim_around [] (blank :: py "PostUp") [] ltac:(constructor) ltac:(constructor) Hsolid) as H. by rewrite app_nil_r in H.
Qed.
Lemma hidden_not_hook blank : is_space blank = true -> map fold_case (blank :: py "PostUp") ∉ HOOKS.
Proof.
  intros Hs Hin. assert (fold_case blank = 112%N) as H.
  { apply list_elem_of_In in Hin. cbn -[fold_case] in Hin. repeat destruct Hin as [Hin|Hin]; try done; injection Hin; congruence. }
  unfold fold_case in H. destruct ((65 <=? blank) && (blank <=? 90))%N eqn:E1.
  - assert (blank = 80%N) as -> by lia. done.
  - destruct (blank =? 383)%N; [lia|]. by subst blank.
Qed.
Lemma lines_join ls : ls <> [] -> Forall (fun l => NEWLINE ∉ l) ls -> lines (str_join [NEWLINE] ls) = ls.
Proof. apply str_join_split. Qed.
(** A hook behind another blank is accepted. Put a line into an accepted configuration
    that sets [PostUp], with a form feed, a vertical tab, a carriage return or any
    other blank but a space and a tab before the name: whatever the command is, the
    configuration is accepted as before. *)
Theorem hook_behind_another_blank_is_accepted above below blank command ips :
  Forall (fun l => NEWLINE ∉ l) (above ++ below) -> above ++ below <> [] -> NEWLINE ∉ command ->
  is_space blank = true -> is_blank blank = false -> blank <> NEWLINE ->
  validate_amnezia_config (str_join [NEWLINE] (above ++ below)) = Ok ips ->
  validate_amnezia_config (str_join [NEWLINE] (above ++ hidden_hook blank command :: below)) = Ok ips.
Proof.
  intros Hl Hne Hc Hs Hb Hn. rewrite !validator_spec. unfold well_formed, headers, entries.
  assert (Forall (fun l => NEWLINE ∉ l) (above ++ hidden_hook blank command :: below)) as Hl'.
  { apply Forall_app in Hl as [H1 H2]. apply Forall_app. split; [done|]. constructor; [|done]. unfold hidden_hook. rewrite elem_of_app.
    intros [H|H]; [apply list_elem_of_In in H; cbn in H; destruct H as [H|H]; [congruence|]; repeat destruct H as [H|H]; done|]. by apply elem_of_cons in H as [H|H]. }
  rewrite (lines_join _ Hne Hl). rewrite (lines_join (above ++ _ :: below)) by (done || by destruct above).
  rewrite !map_app, !omap_app. csimpl. rewrite hidden_entry by done. set (h := (blank :: py "PostUp", command)).
  intros (H1 & H2 & H3 & (v & H4 & ->) & H5). split; [|split; [|split; [|split; [|exact H5]]]].
  - intros name Hname. apply H1 in Hname. set_solver.
  - intros key Hkey. destruct (H2 key Hkey) as [u Hu]. exists u. set_solver.
  - intros k u Hin. rewrite elem_of_app, elem_of_cons in Hin. destruct Hin as [Hin|[[= -> ->]|Hin]].
    + apply (H3 k u), elem_of_app. by left.
    + by apply hidden_not_hook.
    + apply (H3 k u), elem_of_app. by right.
  - exists v. split; [|done]. clear H1 H2 H3. revert H4. unfold lookup_entry. induction (omap entry_of above) as [|[k u] es IH]; csimpl.
    + rewrite bool_decide_eq_false_2; [done|]. intros E. injection E as E _. by subst blank.
    + case_bool_decide; [done|exact IH].
Qed.
Example a_hidden_hook : validate_amnezia_config (py "[Interface]
PrivateKey = k
Jc = 4
S1 = 5
S2 = 6
" ++ hidden_hook 12 (py " id") ++ py "
[Peer]
PublicKey = p
Endpoint = e:1
AllowedIPs = 10.0.0.0/8, ::/0
") = Ok [py "10.0.0.0/8"; py "::/0"].
Proof. vm_compute. reflexivity. Qed.

(** The tunnel's address is the first IPv4 address among the tokens of the first field that
    has the name, in any case, and a value. *)
Theorem tunnel_address_spec text : read_tunnel_address (Some text) =
  (snd <$> List.find (fun e => bool_decide (map fold_case e.1 = py "address" /\ e.2 <> [])) (entries text))
    ≫= fun value => head (omap ipv4_of_token (split_char COMMA value)).
Proof.
  unfold read_tunnel_address, entries. cbn [mbind option_bind]. induction (lines text) as [|l ls IH]; [done|]. csimpl.
  unfold address_group at 1. rewrite after_key_eq by plain. destruct (entry_of l) as [[k v]|]; [|exact IH]. csimpl.
  case_bool_decide as Hk; [|rewrite bool_decide_eq_false_2; [exact IH|by intros [? _]]].
  destruct v as [|c v]; [rewrite bool_decide_eq_false_2; [exact IH|by intros [_ ?]]|]. by rewrite bool_decide_eq_true_2.
Qed.
Example dual_stack : read_tunnel_address (Some (py "[Interface]
address = fd00::2/128, 172.16.0.2/32
")) = Some (py "172.16.0.2").
Proof. vm_compute. reflexivity. Qed.
