(* ===== verification/TrafficStats.v ===== *)
(** * Traffic statistics of the keys
      ([services/traffic_stats.py], [repositories/traffic_stats.py])

    The counters the backends report start again from zero when a backend restarts;
    the stored totals of a key do not. The two tables (the totals of a key and its
    hourly buckets) and the refresh that moves both; the three backends, the clock
    and the database's failures are oracles. *)

From S2P Require Import Prelude PyText Json IsoTime AwgConfig VpnKeys.
#[local] Open Scope Z_scope.

(** ** The tables *)

Record traffic_row := TrafficRow {
  tr_downloaded : Z; tr_uploaded : Z; tr_raw_downloaded : option Z; tr_raw_uploaded : option Z;
  tr_success_at : option str; tr_attempt_at : option str; tr_available : bool;
  tr_reason : option str; tr_source : option str }.
(** A bucket's key: the hour, the key's id, the protocol. *)
Abbreviation bucket := (Z * Z * str)%type (only parsing).
Record traffic_tables := TrafficTables {
  tt_stats : gmap Z traffic_row; tt_hourly : gmap bucket (Z * Z) }.

Definition TRAFFIC_HOURLY_RETENTION_DAYS : Z := 400.
Record hourly_delta := HourlyDelta { hd_protocol : str; hd_downloaded : Z; hd_uploaded : Z }.

(** The [INSERT ... ON CONFLICT DO UPDATE] on a bucket. *)
Definition add_bucket (b : bucket) (d u : Z) (h : gmap bucket (Z * Z)) : gmap bucket (Z * Z) :=
  <[b := match h !! b with Some (d0, u0) => (d0 + d, u0 + u) | None => (d, u) end]> h.
Definition success_row (d u : Z) (raw_d raw_u : option Z) (now source : str) : traffic_row :=
  TrafficRow (Z.max d 0) (Z.max u 0) (option_map (Z.max 0) raw_d) (option_map (Z.max 0) raw_u)
    (Some now) (Some now) true None (Some source).
Definition touched_row (now source : str) (old : option traffic_row) : traffic_row :=
  match old with
  | Some r => TrafficRow (tr_downloaded r) (tr_uploaded r) (tr_raw_downloaded r) (tr_raw_uploaded r)
                (tr_success_at r) (Some now) (tr_available r) (tr_reason r) (tr_source r)
  | None => TrafficRow 0 0 None None None (Some now) true None (Some source)
  end.
Definition unavailable_row (reason now source : str) (old : option traffic_row) : traffic_row :=
  match old with
  | Some r => TrafficRow (tr_downloaded r) (tr_uploaded r) (tr_raw_downloaded r) (tr_raw_uploaded r)
                (tr_success_at r) (Some now) false (Some (take 512 reason)) (Some source)
  | None => TrafficRow 0 0 None None None (Some now) false (Some (take 512 reason)) (Some source)
  end.

(** ** The world and its oracles *)

Record traffic_world := TrafficWorld {
  tw_keys : key_table; tw_tables : traffic_tables; tw_pruned_hour : option Z; tw_tick : nat }.
Inductive traffic_error := TrafficDbFailure | BadTimestamp | TrafficKeyError (e : key_error).

Record traffic_env := TrafficEnv {
  te_db : nat -> bool;
  te_now : nat -> str;
  te_awg : nat -> result unit (list (str * (Z * Z)));           (* [awg.list_transfer] *)
  te_xray : nat -> result unit (list (str * Z));                (* [xray.query_all] *)
  te_hysteria : option (nat -> result unit (list (str * (Z * Z)))) }.

#[export] Program Instance part_traffic_keys : Part traffic_world key_table := {|
  part_get := tw_keys;
  part_set := fun k w => TrafficWorld k (tw_tables w) (tw_pruned_hour w) (tw_tick w) |}.
Solve Obligations with (by intros; try destruct s).

Section Traffic.
Context `{iso : !IsoText} (env : traffic_env).
Abbreviation TM := (M traffic_world traffic_error) (only parsing).

Definition consult {A} (f : nat -> A) : TM A := fun w =>
  (Ok (f (tw_tick w)), TrafficWorld (tw_keys w) (tw_tables w) (tw_pruned_hour w) (S (tw_tick w))).
Definition set_tables (f : traffic_tables -> traffic_tables) : TM unit := modify (fun w =>
  TrafficWorld (tw_keys w) (f (tw_tables w)) (tw_pruned_hour w) (tw_tick w)).
Definition set_pruned_hour (h : option Z) : TM unit := modify (fun w =>
  TrafficWorld (tw_keys w) (tw_tables w) h (tw_tick w)).
Definition db_statement : TM unit :=
  let! ok := consult (te_db env) in if ok : bool then ret tt else raise TrafficDbFailure.
(** [async with db.transaction()]: the tables as they were when it raises. *)
Definition transaction {A} (m : TM A) : TM A := fun w =>
  match m w with
  | (Ok a, w') => (Ok a, w')
  | (Err e, w') => (Err e, TrafficWorld (tw_keys w') (tw_tables w) (tw_pruned_hour w') (tw_tick w'))
  end.

Definition hour_utc_from_iso (timestamp : str) : result traffic_error Z :=
  match fromisoformat timestamp with
  | Some d => Ok (unix_seconds (assume_utc d) / 3600)
  | None => Err BadTimestamp
  end.

(** ** [TrafficStatsRepository] *)

Definition set_stats (key_id : Z) (r : traffic_row) : TM unit :=
  set_tables (fun t => TrafficTables (<[key_id := r]> (tt_stats t)) (tt_hourly t)).
Definition get_by_key_id (key_id : Z) : TM (option traffic_row) :=
  db_statement ;;! gets (fun w => tt_stats (tw_tables w) !! key_id).
Definition list_by_key_ids (ids : list Z) : TM (gmap Z traffic_row) :=
  match ids with
  | [] => ret ∅
  | _ => db_statement ;;! gets (fun w => filter (fun p => p.1 ∈ ids) (tt_stats (tw_tables w)))
  end.

Definition upsert_success (key_id d u : Z) (raw_d raw_u : option Z) (now source : str) (hourly : option hourly_delta)
    : TM traffic_row :=
  db_statement ;;!
  set_stats key_id (success_row d u raw_d raw_u now source) ;;!
  (match hourly with
   | Some h =>
       if (0 <? hd_downloaded h) || (0 <? hd_uploaded h) then
         let! hour := lift (hour_utc_from_iso now) in
         db_statement ;;!
         set_tables (fun t => TrafficTables (tt_stats t)
           (add_bucket (hour, key_id, hd_protocol h) (Z.max (hd_downloaded h) 0) (Z.max (hd_uploaded h) 0) (tt_hourly t)))
       else ret tt
   | None => ret tt
   end) ;;!
  ret (success_row d u raw_d raw_u now source).
(** The last read finds the row just written. *)
Definition touch_attempt (key_id : Z) (now source : str) : TM traffic_row :=
  db_statement ;;!
  let! w := get in
  let r := touched_row now source (tt_stats (tw_tables w) !! key_id) in
  set_stats key_id r ;;! db_statement ;;! ret r.
Definition upsert_unavailable (key_id : Z) (reason now source : str) : TM traffic_row :=
  db_statement ;;!
  let! w := get in
  let r := unavailable_row reason now source (tt_stats (tw_tables w) !! key_id) in
  set_stats key_id r ;;! db_statement ;;! ret r.

Definition prune_hourly (current_hour retention_days : Z) : TM Z :=
  db_statement ;;!
  let! w := get in
  let gone := filter (fun p : bucket * (Z * Z) => p.1.1.1 <= current_hour - retention_days * 24) (tt_hourly (tw_tables w)) in
  set_tables (fun t => TrafficTables (tt_stats t)
    (filter (fun p : bucket * (Z * Z) => ~ p.1.1.1 <= current_hour - retention_days * 24) (tt_hourly t))) ;;!
  ret (Z.of_nat (base.size gone)).

(** ** [TrafficStatsService] *)

(** [_next_total]: a reading below the last one is a counter that started again. *)
Definition next_total (previous_total : Z) (previous_raw : option Z) (current_raw : Z) : Z :=
  let current := Z.max current_raw 0 in
  match previous_raw with
  | None => Z.max previous_total current
  | Some p => if current <? p then previous_total + current else previous_total + (current - p)
  end.
Definition next_total_for_direction (previous_total : Z) (previous_raw current_raw : option Z) : Z * option Z :=
  match current_raw with
  | None => (previous_total, previous_raw)
  | Some c => (next_total previous_total previous_raw c, Some (Z.max c 0))
  end.

(** [VpnKeyType.value] *)
Definition type_value (t : key_type) : str :=
  match t with XRAY => py "xray" | AWG => py "awg" | HYSTERIA2 => py "hysteria2" end.
Definition store_success (k : vpn_key) (previous : option traffic_row) (raw_d raw_u : option Z) (source now : str)
    : TM traffic_row :=
  let previous_d := match previous with Some r => tr_downloaded r | None => 0 end in
  let previous_u := match previous with Some r => tr_uploaded r | None => 0 end in
  let '(d, stored_d) := next_total_for_direction previous_d (previous ≫= tr_raw_downloaded) raw_d in
  let '(u, stored_u) := next_total_for_direction previous_u (previous ≫= tr_raw_uploaded) raw_u in
  upsert_success (k_id k) d u stored_d stored_u now source
    (Some (HourlyDelta (type_value (k_type k)) (d - previous_d) (u - previous_u))).

Definition PUBLIC_BACKEND_STATS_ERROR : str := py "Не удалось получить данные от backend".
(** [_load_awg_transfers] and its two siblings: the answers, or why there are none. *)
Definition load {A} (type : key_type) (query : option (nat -> result unit (list A))) (keys : list vpn_key)
    : TM (list A * option str) :=
  if negb (existsb (fun k => bool_decide (k_type k = type)) keys) then ret ([], None)
  else match query with
       | None => ret ([], Some PUBLIC_BACKEND_STATS_ERROR)
       | Some q =>
           let! answer := consult q in
           match answer with
           | Ok l => ret (l, None)
           | Err _ => ret ([], Some PUBLIC_BACKEND_STATS_ERROR)
           end
       end.

Definition AWG_SOURCE : str := py "awg/wg transfer".
Definition XRAY_SOURCE : str := py "xray statsquery".
Definition HYSTERIA_SOURCE : str := py "hysteria2 trafficStats".
Definition refresh_awg_key (k : vpn_key) (previous : option traffic_row) (transfers : list (str * (Z * Z)))
    (load_error : option str) : TM traffic_row :=
  let! now := consult (te_now env) in
  match given load_error, given (k_public_key k) with
  | Some e, _ => upsert_unavailable (k_id k) e now AWG_SOURCE
  | None, None =>
      upsert_unavailable (k_id k) (py "У AWG-ключа нет public key для сопоставления статистики") now AWG_SOURCE
  | None, Some pk =>
      match dict_get pk transfers with
      | None => upsert_unavailable (k_id k) (py "AWG peer не найден в выводе transfer") now AWG_SOURCE
      | Some (received, sent) => store_success k previous (Some sent) (Some received) AWG_SOURCE now
      end
  end.
Definition xray_counter (label : str) (direction : str) : str :=
  py "user>>>" ++ label ++ py ">>>traffic>>>" ++ direction.
Definition refresh_xray_key (k : vpn_key) (previous : option traffic_row) (raw_stats : list (str * Z))
    (load_error : option str) : TM traffic_row :=
  let! now := consult (te_now env) in
  match given load_error, given (k_label k) with
  | Some e, _ => upsert_unavailable (k_id k) e now XRAY_SOURCE
  | None, None =>
      upsert_unavailable (k_id k) (py "У Xray-ключа нет email/label для сопоставления статистики") now XRAY_SOURCE
  | None, Some label =>
      let raw_downloaded := dict_get (xray_counter label (py "downlink")) raw_stats in
      let raw_uploaded := dict_get (xray_counter label (py "uplink")) raw_stats in
      match raw_downloaded, raw_uploaded with
      | None, None => touch_attempt (k_id k) now XRAY_SOURCE
      | _, _ => store_success k previous raw_downloaded raw_uploaded XRAY_SOURCE now
      end
  end.
Definition refresh_hysteria_key (k : vpn_key) (previous : option traffic_row) (raw_stats : list (str * (Z * Z)))
    (load_error : option str) : TM traffic_row :=
  let! now := consult (te_now env) in
  match given load_error, given (k_label k) with
  | Some e, _ => upsert_unavailable (k_id k) e now HYSTERIA_SOURCE
  | None, None =>
      upsert_unavailable (k_id k) (py "У Hysteria2-ключа нет label для сопоставления статистики") now HYSTERIA_SOURCE
  | None, Some label =>
      match dict_get label raw_stats with
      | None => touch_attempt (k_id k) now HYSTERIA_SOURCE
      | Some (uploaded, downloaded) => store_success k previous (Some downloaded) (Some uploaded) HYSTERIA_SOURCE now
      end
  end.

(** What the three backends answered to one refresh. *)
Record backend_answers := BackendAnswers {
  ba_awg : list (str * (Z * Z)) * option str; ba_xray : list (str * Z) * option str;
  ba_hysteria : list (str * (Z * Z)) * option str }.
Definition refresh_key (answers : backend_answers) (current : gmap Z traffic_row) (k : vpn_key) : TM traffic_row :=
  let previous := current !! k_id k in
  match k_type k with
  | AWG => refresh_awg_key k previous (ba_awg answers).1 (ba_awg answers).2
  | XRAY => refresh_xray_key k previous (ba_xray answers).1 (ba_xray answers).2
  | HYSTERIA2 => refresh_hysteria_key k previous (ba_hysteria answers).1 (ba_hysteria answers).2
  end.
(** [refresh_views], without the owners it adds to the views. *)
Definition refresh_views (keys : list vpn_key) : TM (list (vpn_key * traffic_row)) :=
  let! awg := load AWG (Some (te_awg env)) keys in
  let! xray := load XRAY (Some (te_xray env)) keys in
  let! hysteria := load HYSTERIA2 (te_hysteria env) keys in
  let! current := list_by_key_ids (map k_id keys) in
  transaction (mmap (fun k =>
    let! r := refresh_key (BackendAnswers awg xray hysteria) current k in ret (k, r)) keys).

(** ** The background passes *)

Definition TRAFFIC_STATUSES : list key_status :=
  [ACTIVE; PENDING_REVOKE; APPLY_FAILED; PENDING_DELETE; DELETE_FAILED].
Definition key_batch (type : key_type) (after_id : option Z) : TM (list vpn_key) :=
  embed TrafficKeyError (list_by_type_statuses type TRAFFIC_STATUSES 200 0 after_id).
(** [refresh_all_awg]: batch by batch. Every batch but the last leaves a row behind. *)
Fixpoint refresh_awg_loop (fuel : nat) (after_id : option Z) : TM bool :=
  match fuel with
  | O => ret false
  | S fuel' =>
      let! batch := key_batch AWG after_id in
      match batch with
      | [] => ret true
      | _ => let! _ := refresh_views batch in refresh_awg_loop fuel' (Some (List.last (map k_id batch) 0))
      end
  end.
Definition refresh_all_awg : TM bool := fun w =>
  refresh_awg_loop (S (length (kt_rows (tw_keys w)))) None w.
(** [refresh_all_xray], [refresh_all_hysteria]: all the keys of the type at once. *)
Fixpoint collect_keys (fuel : nat) (type : key_type) (after_id : option Z) (keys : list vpn_key)
    : TM (option (list vpn_key)) :=
  match fuel with
  | O => ret None
  | S fuel' =>
      let! batch := key_batch type after_id in
      match batch with
      | [] => ret (Some keys)
      | _ => collect_keys fuel' type (Some (List.last (map k_id batch) 0)) (keys ++ batch)
      end
  end.
Definition refresh_all_of (type : key_type) : TM bool := fun w =>
  (let! collected := collect_keys (S (length (kt_rows (tw_keys w)))) type None [] in
   match collected with
   | None => ret false
   | Some [] => ret true
   | Some keys => let! _ := refresh_views keys in ret true
   end) w.
Definition refresh_all_xray : TM bool := refresh_all_of XRAY.
Definition refresh_all_hysteria : TM bool :=
  match te_hysteria env with None => ret true | Some _ => refresh_all_of HYSTERIA2 end.

(** [prune_hourly_history]: at most one pass per clock hour. *)
Definition prune_hourly_history : TM Z :=
  let! now := consult (te_now env) in
  let! current_hour := lift (hour_utc_from_iso now) in
  let! w := get in
  if bool_decide (tw_pruned_hour w = Some current_hour) then ret 0
  else
    set_pruned_hour (Some current_hour) ;;!
    catch (prune_hourly current_hour TRAFFIC_HOURLY_RETENTION_DAYS)
      (fun e => set_pruned_hour None ;;! raise e).
End Traffic.
