(* ===== verification/TrafficSafety.v ===== *)
(** * What the traffic statistics promise

    The totals of a key and its hourly buckets move together, never backwards, and
    never beyond what the backend's counter has counted. *)

From S2P Require Import Prelude PyText Json IsoTime AwgConfig VpnKeys AwgStartup TrafficStats.
#[local] Open Scope Z_scope.

(** ** Sums over the buckets of a key *)

Definition bucket_sum (f : Z * Z -> Z) (id : Z) (h : gmap (Z * Z * str) (Z * Z)) : Z :=
  map_fold (fun b v acc => (if bool_decide (b.1.2 = id) then f v else 0) + acc) 0 h.
(** The two directions: what a key has downloaded and uploaded. *)
Inductive direction := Down | Up.
Definition side (d : direction) (v : Z * Z) : Z := match d with Down => v.1 | Up => v.2 end.
Definition hourly_total (d : direction) (id : Z) (t : traffic_tables) : Z := bucket_sum (side d) id (tt_hourly t).
Definition row_total (d : direction) (r : traffic_row) : Z :=
  match d with Down => tr_downloaded r | Up => tr_uploaded r end.
Definition total (d : direction) (id : Z) (t : traffic_tables) : Z :=
  match tt_stats t !! id with Some r => row_total d r | None => 0 end.

Lemma bucket_sum_insert f id b v h : h !! b = None ->
  bucket_sum f id (<[b := v]> h) = (if bool_decide (b.1.2 = id) then f v else 0) + bucket_sum f id h.
Proof.
  intros Hb. unfold bucket_sum. rewrite map_fold_insert_L; [done| |done]. intros. lia.
Qed.
Lemma bucket_sum_delete f id b v h : h !! b = Some v ->
  bucket_sum f id h = (if bool_decide (b.1.2 = id) then f v else 0) + bucket_sum f id (delete b h).
Proof.
  intros Hb. rewrite <- (insert_delete_id h b v Hb) at 1. apply bucket_sum_insert, lookup_delete_eq.
Qed.
Lemma bucket_sum_add d id b x y h :
  bucket_sum (side d) id (add_bucket b x y h)
  = bucket_sum (side d) id h + (if bool_decide (b.1.2 = id) then side d (x, y) else 0).
Proof.
  unfold add_bucket. destruct (h !! b) as [[x0 y0]|] eqn:Hb.
  - rewrite (bucket_sum_delete (side d) id b (x0, y0) h Hb).
    rewrite <- insert_delete_eq, bucket_sum_insert by apply lookup_delete_eq.
    case_bool_decide; destruct d; cbn; lia.
  - rewrite bucket_sum_insert by done. lia.
Qed.
Lemma bucket_sum_nonneg (f : Z * Z -> Z) id h : map_Forall (fun _ v => 0 <= f v) h -> 0 <= bucket_sum f id h.
Proof.
  unfold bucket_sum. revert h. apply (map_fold_weak_ind (fun acc h => map_Forall (fun _ v => 0 <= f v) h -> 0 <= acc)); [done|].
  intros b v h acc Hb IH Hall. rewrite map_Forall_insert in Hall by done. destruct Hall as [Hv Hh].
  specialize (IH Hh). case_bool_decide; lia.
Qed.

(** ** One refresh *)

(** Totals are not negative, and they move by what the buckets gain, never backwards. *)
Definition nonneg (t : traffic_tables) : Prop :=
  (forall d id, 0 <= total d id t) /\ forall d, map_Forall (fun _ v => 0 <= side d v) (tt_hourly t).
Definition moves (t t' : traffic_tables) : Prop := nonneg t ->
  nonneg t' /\ forall d id, total d id t' - total d id t = hourly_total d id t' - hourly_total d id t
                          /\ total d id t <= total d id t'.
#[local] Instance moves_preorder : PreOrder moves.
Proof.
  split; [intros t Ht; split; [done|lia]|]. intros a b c H1 H2 Ha. destruct (H1 Ha) as [Hb Hab].
  destruct (H2 Hb) as [Hc Hbc]. split; [done|]. intros d id. destruct (Hab d id), (Hbc d id). lia.
Qed.
(** Only the row of one key is written. *)
Definition touches (id : Z) (t t' : traffic_tables) : Prop :=
  moves t t' /\ forall j, j <> id -> tt_stats t' !! j = tt_stats t !! j.

Lemma total_insert d id j r st h :
  total d j (TrafficTables (<[id := r]> st) h)
  = if bool_decide (id = j) then row_total d r else total d j (TrafficTables st h).
Proof.
  unfold total. cbn. case_bool_decide as E; [subst; by rewrite lookup_insert_eq|by rewrite lookup_insert_ne].
Qed.
Lemma touches_insert id r t : (forall d, row_total d r = total d id t) ->
  touches id t (TrafficTables (<[id := r]> (tt_stats t)) (tt_hourly t)).
Proof.
  intros Hr. assert (forall d j, total d j (TrafficTables (<[id := r]> (tt_stats t)) (tt_hourly t)) = total d j t) as E.
  { intros d j. rewrite total_insert. case_bool_decide; [subst; apply Hr|by destruct t]. }
  split; [|intros j Hj; cbn; by rewrite lookup_insert_ne].
  intros Hn. split; [split; [intros d j; rewrite E; apply Hn|apply Hn]|]. intros d j. rewrite E. unfold hourly_total. cbn. lia.
Qed.
Lemma touches_success id d u rd ru now source hour proto t :
  let down0 := total Down id t in let up0 := total Up id t in
  down0 <= d -> up0 <= u ->
  touches id t (TrafficTables (<[id := success_row d u rd ru now source]> (tt_stats t))
    (add_bucket (hour, id, proto) (Z.max (d - down0) 0) (Z.max (u - up0) 0) (tt_hourly t))).
Proof.
  intros down0 up0 Hd Hu. split; [|intros j Hj; cbn; by rewrite lookup_insert_ne].
  intros [Hn Hb]. pose proof (Hn Down id). pose proof (Hn Up id).
  assert (forall dir j, total dir j (TrafficTables (<[id := success_row d u rd ru now source]> (tt_stats t))
    (add_bucket (hour, id, proto) (Z.max (d - down0) 0) (Z.max (u - up0) 0) (tt_hourly t)))
    = total dir j t + (if bool_decide (id = j) then side dir (d - down0, u - up0) else 0)) as E.
  { intros dir j. rewrite total_insert. case_bool_decide as Ej; [subst j|unfold total; cbn; lia].
    subst down0 up0. destruct dir; cbn; lia. }
  split; [split|].
  - intros dir j. rewrite E. pose proof (Hn dir j). case_bool_decide; [destruct dir; cbn|]; lia.
  - intros dir. cbn [tt_hourly]. unfold add_bucket. apply map_Forall_insert_2; [|apply Hb].
    destruct (tt_hourly t !! _) as [[x y]|] eqn:Ex; [apply (Hb dir) in Ex|]; destruct dir; cbn in *; lia.
  - intros dir j. rewrite E. unfold hourly_total. cbn [tt_hourly]. rewrite bucket_sum_add. cbn [fst snd].
    case_bool_decide; [destruct dir; cbn|]; lia.
Qed.

Lemma next_total_mono p raw c : p <= next_total p raw c.
Proof. unfold next_total. destruct raw as [r|]; [destruct (Z.ltb_spec (Z.max c 0) r)|]; lia. Qed.
Lemma direction_mono p raw c : p <= (next_total_for_direction p raw c).1.
Proof. destruct c as [c|]; cbn; [apply next_total_mono|lia]. Qed.

Section Refresh.
Context `{iso : !IsoText} (env : traffic_env).

(** A statement leaves the tables alone, whether it fails or not. *)
Lemma db_statement_ok w u w' : db_statement env w = (Ok u, w') -> tw_tables w' = tw_tables w.
Proof. unfold db_statement, consult, bind, ret, raise. destruct (te_db _ _); [by intros [= _ <-]|done]. Qed.
Lemma consult_ok {A} (f : nat -> A) w a w' : consult f w = (Ok a, w') -> tw_tables w' = tw_tables w.
Proof. by intros [= _ <-]. Qed.

Lemma upsert_success_touches id d u rd ru now source proto w r w' :
  let down0 := total Down id (tw_tables w) in let up0 := total Up id (tw_tables w) in
  nonneg (tw_tables w) -> down0 <= d -> up0 <= u ->
  upsert_success env id d u rd ru now source (Some (HourlyDelta proto (d - down0) (u - up0))) w = (Ok r, w') ->
  touches id (tw_tables w) (tw_tables w').
Proof.
  intros down0 up0 Hn Hd Hu. unfold upsert_success. intros [([] & w1 & H1 & H2)|(e & _ & ?)]%bind_inv; [|done].
  apply db_statement_ok in H1. revert H2. unfold bind at 1, set_stats, set_tables, modify. cbn [hd_downloaded hd_uploaded hd_protocol].
  set (w2 := TrafficWorld _ _ _ _). intros [([] & w3 & H3 & H4)|(e & _ & ?)]%bind_inv; [|done].
  injection H4 as _ <-. destruct ((0 <? d - down0) || (0 <? u - up0)) eqn:Ed.
  - apply bind_inv in H3 as [(hour & w4 & H3 & H5)|(e & _ & ?)]; [|done].
    apply bind_inv in H5 as [([] & w5 & H5 & H6)|(e & _ & ?)]; [|done].
    unfold lift in H3. injection H3 as _ <-. apply db_statement_ok in H5. injection H6 as <-. cbn. rewrite H5. subst w2. cbn.
    rewrite H1. by apply touches_success.
  - injection H3 as <-. subst w2. cbn. rewrite H1. bool_prop. apply touches_insert.
    pose proof (proj1 Hn Down id). pose proof (proj1 Hn Up id). subst down0 up0. intros []; cbn; lia.
Qed.

Lemma store_success_touches k previous rd ru source now w r w' :
  nonneg (tw_tables w) -> previous = tt_stats (tw_tables w) !! k_id k ->
  store_success env k previous rd ru source now w = (Ok r, w') -> touches (k_id k) (tw_tables w) (tw_tables w').
Proof.
  intros Hn Hp. unfold store_success. set (p := match previous with Some r => tr_downloaded r | None => 0 end).
  set (q := match previous with Some r => tr_uploaded r | None => 0 end).
  assert (p = total Down (k_id k) (tw_tables w)) as Ep by (subst p; rewrite Hp; done).
  assert (q = total Up (k_id k) (tw_tables w)) as Eq by (subst q; rewrite Hp; done).
  pose proof (direction_mono p (previous ≫= tr_raw_downloaded) rd) as Hd.
  pose proof (direction_mono q (previous ≫= tr_raw_uploaded) ru) as Hu.
  destruct (next_total_for_direction p _ rd) as [d sd], (next_total_for_direction q _ ru) as [u su]. cbn in Hd, Hu.
  rewrite Ep in *. rewrite Eq in *. by apply upsert_success_touches.
Qed.
Lemma unavailable_touches id reason now source w r w' :
  upsert_unavailable env id reason now source w = (Ok r, w') -> touches id (tw_tables w) (tw_tables w').
Proof.
  unfold upsert_unavailable. intros [([] & w1 & H1 & H2)|(e & _ & ?)]%bind_inv; [|done].
  apply db_statement_ok in H1. unfold bind at 1, get in H2. cbv zeta in H2.
  unfold bind at 1, set_stats, set_tables, modify in H2.
  apply bind_inv in H2 as [([] & w3 & H3 & [= _ <-])|(e & _ & ?)]; [|done]. apply db_statement_ok in H3.
  rewrite H3. cbn. rewrite H1. apply touches_insert. unfold total, unavailable_row.
  by destruct (tt_stats (tw_tables w) !! id); intros [].
Qed.
Lemma touch_touches id now source w r w' :
  touch_attempt env id now source w = (Ok r, w') -> touches id (tw_tables w) (tw_tables w').
Proof.
  unfold touch_attempt. intros [([] & w1 & H1 & H2)|(e & _ & ?)]%bind_inv; [|done].
  apply db_statement_ok in H1. unfold bind at 1, get in H2. cbv zeta in H2.
  unfold bind at 1, set_stats, set_tables, modify in H2.
  apply bind_inv in H2 as [([] & w3 & H3 & [= _ <-])|(e & _ & ?)]; [|done]. apply db_statement_ok in H3.
  rewrite H3. cbn. rewrite H1. apply touches_insert. unfold total, touched_row.
  by destruct (tt_stats (tw_tables w) !! id); intros [].
Qed.

Lemma refresh_key_touches answers current k w r w' :
  nonneg (tw_tables w) -> current !! k_id k = tt_stats (tw_tables w) !! k_id k ->
  refresh_key env answers current k w = (Ok r, w') -> touches (k_id k) (tw_tables w) (tw_tables w').
Proof.
  intros Hn Hc. unfold refresh_key, refresh_awg_key, refresh_xray_key, refresh_hysteria_key.
  destruct (k_type k); intros [(now & w1 & H1 & H2)|(e & _ & ?)]%bind_inv; try done; apply consult_ok in H1;
    rewrite <- H1 in *;
    repeat match type of H2 with (match ?x with _ => _ end) _ = _ => destruct x end;
    eauto using unavailable_touches, touch_touches, store_success_touches.
Qed.

(** All the keys of a refresh: each finds the row it was read with. *)
Lemma refresh_keys_moves answers current keys : NoDup (map k_id keys) -> forall w r w',
  nonneg (tw_tables w) -> (forall k, k ∈ keys -> current !! k_id k = tt_stats (tw_tables w) !! k_id k) ->
  mmap (fun k => let! r := refresh_key env answers current k in ret (k, r)) keys w = (Ok r, w') ->
  moves (tw_tables w) (tw_tables w').
Proof.
  induction keys as [|k keys IH]; cbn; intros Hnd w r w' Hn Hc.
  { intros [= _ <-]. reflexivity. }
  apply NoDup_cons in Hnd as [Hk Hnd].
  intros [(kr & w1 & H1 & H2)|(e & _ & ?)]%bind_inv; [|done].
  apply bind_inv in H1 as [(row & w0 & H1 & [= _ <-])|(e & _ & ?)]; [|done].
  apply refresh_key_touches in H1 as [Hm Ho]; [|done|apply Hc; by left].
  apply bind_inv in H2 as [(rest & w2 & H2 & [= _ <-])|(e & _ & ?)]; [|done].
  etransitivity; [exact Hm|]. eapply IH; [done|by apply Hm| |exact H2].
  intros k' Hk'. rewrite (Hc k') by (by right). symmetry. apply Ho. intros E. apply Hk. rewrite <- E.
  by apply list_elem_of_fmap_2.
Qed.

Lemma load_tables {A} type (q : option (nat -> result unit (list A))) keys w r w' :
  load type q keys w = (Ok r, w') -> tw_tables w' = tw_tables w.
Proof.
  unfold load. destruct (negb _); [by intros [= _ <-]|]. destruct q as [q|]; [|by intros [= _ <-]].
  unfold bind, consult, ret. destruct (q _); intros [= _ <-]; reflexivity.
Qed.
Lemma load_never_raises {A} type (q : option (nat -> result unit (list A))) keys w e w' :
  load type q keys w = (Err e, w') -> False.
Proof.
  unfold load. destruct (negb _); [done|]. destruct q as [q|]; [|done]. unfold bind, consult, ret. by destruct (q _).
Qed.
Lemma list_tables ids w r w' : list_by_key_ids env ids w = (r, w') ->
  tw_tables w' = tw_tables w
  /\ forall m, r = Ok m -> forall id, id ∈ ids -> m !! id = tt_stats (tw_tables w) !! id.
Proof.
  unfold list_by_key_ids. destruct ids as [|i ids].
  { intros [= <- <-]. split; [done|]. by intros m _ id ?%elem_of_nil. }
  unfold db_statement, bind, consult, gets, ret, raise. destruct (te_db env (tw_tick w)).
  - intros [= <- <-]. split; [done|]. intros m [= <-] id Hid. cbn [tw_tables].
    destruct (tt_stats (tw_tables w) !! id) as [row|] eqn:E.
    + by apply map_lookup_filter_Some.
    + apply map_lookup_filter_None. by left.
  - intros [= <- <-]. split; [done|]. by intros.
Qed.

(** A refresh, whatever it ends in: the transaction takes back a part of one. *)
Lemma refresh_views_moves keys w r w' : NoDup (map k_id keys) ->
  refresh_views env keys w = (r, w') -> moves (tw_tables w) (tw_tables w').
Proof.
  intros Hnd. unfold refresh_views.
  intros [(awg & w1 & H1%load_tables & H0)|(e & []%load_never_raises & _)]%bind_inv.
  apply bind_inv in H0 as [(xray & w2 & H2%load_tables & H0)|(e & []%load_never_raises & _)].
  apply bind_inv in H0 as [(hy & w3 & H3%load_tables & H0)|(e & []%load_never_raises & _)].
  rewrite <- H1, <- H2, <- H3. clear H1 H2 H3.
  apply bind_inv in H0 as [(current & w4 & [H4 Hc]%list_tables & H0)|(e & [H4 _]%list_tables & _)];
    [|by rewrite H4]. rewrite <- H4.
  unfold transaction in H0. destruct (mmap _ keys w4) as [[l|e] w5] eqn:E5; injection H0 as _ <-; [|cbn; done].
  intros Hn. eapply refresh_keys_moves; [done|done| |exact E5|done].
  intros k Hk. rewrite H4. by apply Hc, list_elem_of_fmap_2.
Qed.

(** ** The background passes *)

(** Nothing here writes the key table. *)
Definition same_rows (w w' : traffic_world) : Prop := kt_rows (tw_keys w') = kt_rows (tw_keys w).
#[local] Instance same_rows_preorder : PreOrder same_rows.
Proof. split; [by intros w|]. intros a b c H1 H2. unfold same_rows in *. congruence. Qed.
Lemma rows_consult {A} (f : nat -> A) : keeps same_rows (consult f).
Proof. by intros w. Qed.
Lemma rows_tables f : keeps same_rows (set_tables f).
Proof. by intros w. Qed.
Lemma rows_get : keeps (E := traffic_error) same_rows get.
Proof. by intros w. Qed.
#[local] Hint Resolve rows_consult rows_tables rows_get : keeps.
Lemma rows_statement : keeps same_rows (db_statement env).
Proof. unfold db_statement. keeps_tac. Qed.
#[local] Hint Resolve rows_statement : keeps.
Lemma rows_refresh_key answers current k : keeps same_rows (refresh_key env answers current k).
Proof.
  unfold refresh_key, refresh_awg_key, refresh_xray_key, refresh_hysteria_key, store_success, upsert_success,
    upsert_unavailable, touch_attempt, set_stats. keeps_tac.
Qed.
#[local] Hint Resolve rows_refresh_key : keeps.
Lemma rows_transaction {A} (m : M traffic_world traffic_error A) : keeps same_rows m -> keeps same_rows (transaction m).
Proof. intros Hm w. specialize (Hm w). unfold transaction. by destruct (m w) as [[a|e] w']. Qed.
Lemma rows_load {A} type (q : option (nat -> result unit (list A))) keys : keeps same_rows (load type q keys).
Proof. unfold load. keeps_tac. Qed.
#[local] Hint Resolve rows_load : keeps.
Lemma rows_refresh_views keys : keeps same_rows (refresh_views env keys).
Proof. unfold refresh_views, list_by_key_ids. keeps_tac. apply rows_transaction. keeps_tac. Qed.

(** The ids the next batch can come from. *)
Definition ids_after (after_id : option Z) (w : traffic_world) : list Z :=
  List.filter (fun id => match after_id with Some a => a <? id | None => true end) (map k_id (kt_rows (tw_keys w))).
Lemma key_batch_read type after_id w batch w' : key_batch type after_id w = (Ok batch, w') ->
  tw_tables w' = tw_tables w /\ same_rows w w' /\ map k_id batch `sublist_of` ids_after after_id w.
Proof.
  unfold key_batch, embed, list_by_type_statuses, TRAFFIC_STATUSES, statement, bind, gets. cbn -[take].
  destruct (kt_ok _ _); [|done]. intros [= <- <-]. split; [done|]. split; [done|].
  etransitivity; [apply map_sublist; etransitivity; [apply sublist_take|apply sublist_drop]|].
  unfold ids_after. induction (kt_rows (tw_keys w)) as [|k rows IH]; [done|]. cbn -[status_in].
  destruct after_id as [a|]; [destruct (a <? k_id k)|]; rewrite ?andb_true_r, ?andb_false_r; try done;
    destruct (bool_decide (k_type k = type) && _); by constructor.
Qed.
Lemma ids_after_sublist after_id w : ids_after after_id w `sublist_of` map k_id (kt_rows (tw_keys w)).
Proof. apply filter_sublist. Qed.

Definition steady (w w' : traffic_world) : Prop := moves (tw_tables w) (tw_tables w').
#[local] Instance steady_preorder : PreOrder steady.
Proof. split; [intros w; unfold steady; reflexivity|]. intros a b c H1 H2. unfold steady in *. by etransitivity. Qed.

(** Rows in id order: what the batches rely on. *)
Definition in_id_order (w : traffic_world) : Prop := StronglySorted Z.lt (map k_id (kt_rows (tw_keys w))).
Lemma batch_distinct type after_id w batch w' : in_id_order w -> key_batch type after_id w = (Ok batch, w') ->
  NoDup (map k_id batch).
Proof.
  intros Hs Hb%key_batch_read. eapply sorted_distinct, sorted_sublist; [|exact Hs].
  etransitivity; [apply Hb|apply ids_after_sublist].
Qed.

(** A batch that is not empty leaves fewer ids to come. *)
Lemma batch_progress type after_id w k batch w1 w2 : key_batch type after_id w = (Ok (k :: batch), w1) ->
  same_rows w1 w2 ->
  (length (ids_after (Some (List.last (map k_id (k :: batch)) 0%Z)) w2) < length (ids_after after_id w))%nat.
Proof.
  intros (_ & Hr & Hsub)%key_batch_read Hr2. unfold ids_after at 1. rewrite Hr2, Hr.
  set (next := List.last _ 0).
  assert (next ∈ ids_after after_id w) as Hin.
  { eapply elem_of_sublist; [apply (last_in (map k_id batch) (k_id k) 0)|exact Hsub]. }
  unfold ids_after in *. destruct after_id as [a|].
  - apply list_elem_of_In, filter_In in Hin as [Hin Ha]. apply ahead_next; [by apply Z.ltb_lt|by apply list_elem_of_In].
  - clearbody next. clear - Hin. induction (map k_id (kt_rows (tw_keys w))) as [|i l IH]; [by apply elem_of_nil in Hin|].
    cbn in *. pose proof (sublist_length _ _ (filter_sublist (fun id => next <? id) l)) as Hle.
    assert (length l = length (List.filter (fun _ : Z => true) l)) as El by (clear; induction l; cbn; congruence).
    apply elem_of_cons in Hin as [<-|Hin]; [rewrite Z.ltb_irrefl; cbn; lia|].
    specialize (IH Hin). destruct (next <? i); cbn; lia.
Qed.

Lemma refresh_awg_loop_spec fuel : forall after_id w r w', in_id_order w ->
  refresh_awg_loop env fuel after_id w = (r, w') ->
  steady w w' /\ same_rows w w' /\ ((length (ids_after after_id w) < fuel)%nat -> r <> Ok false).
Proof.
  induction fuel as [|fuel IH]; intros after_id w r w' Hs; cbn [refresh_awg_loop].
  { intros [= <- <-]. split; [reflexivity|]. split; [done|lia]. }
  intros [(batch & w1 & H1 & H)|(e & H1 & ->)]%bind_inv.
  2:{ revert H1. unfold key_batch, embed. intros H1.
      assert (tw_tables w' = tw_tables w /\ same_rows w w') as [E1 E2].
      { unfold list_by_type_statuses, TRAFFIC_STATUSES, statement, bind, gets in H1. cbn in H1.
        destruct (kt_ok _ _); [done|]. by injection H1 as _ <-. }
      split; [unfold steady; by rewrite E1|]. split; [done|by intros]. }
  pose proof (batch_distinct _ _ _ _ _ Hs H1) as Hnd. pose proof H1 as (E1 & Hr & _)%key_batch_read.
  destruct batch as [|k batch].
  { injection H as <- <-. split; [unfold steady; by rewrite E1|]. split; [done|by intros]. }
  apply bind_inv in H as [(views & w2 & H2 & H)|(e & H2 & ->)].
  - pose proof (keeps_run _ _ _ _ _ (rows_refresh_views (k :: batch)) H2) as Hr2.
    apply refresh_views_moves in H2; [|done]. apply IH in H as (Hm & Hr3 & Hf);
      [|unfold in_id_order; rewrite Hr2, Hr; exact Hs].
    split; [unfold steady in *; rewrite <- E1; by etransitivity|]. split; [do 2 (etransitivity; [done|]); done|].
    intros Hlt. apply Hf. pose proof (batch_progress _ _ _ _ _ _ _ H1 Hr2). lia.
  - pose proof (keeps_run _ _ _ _ _ (rows_refresh_views (k :: batch)) H2) as Hr2.
    apply refresh_views_moves in H2; [|done].
    split; [unfold steady; by rewrite <- E1|]. split; [by etransitivity|by intros].
Qed.

Lemma collect_keys_spec fuel type : forall after_id keys w r w', in_id_order w ->
  StronglySorted Z.lt (map k_id keys) ->
  (forall k, k ∈ keys -> match after_id with Some a => k_id k <= a | None => False end) ->
  collect_keys fuel type after_id keys w = (r, w') ->
  tw_tables w' = tw_tables w /\ same_rows w w'
  /\ (forall l, r = Ok (Some l) -> NoDup (map k_id l))
  /\ ((length (ids_after after_id w) < fuel)%nat -> r <> Ok None).
Proof.
  induction fuel as [|fuel IH]; intros after_id keys w r w' Hs Hk Ha; cbn [collect_keys].
  { intros [= <- <-]. repeat split; [by intros|lia]. }
  intros [(batch & w1 & H1 & H)|(e & H1 & ->)]%bind_inv.
  2:{ revert H1. unfold key_batch, embed, list_by_type_statuses, TRAFFIC_STATUSES, statement, bind, gets. cbn.
      destruct (kt_ok _ _); [done|]. intros [= _ <-]. repeat split; by intros. }
  pose proof H1 as (E1 & Hr & Hsub)%key_batch_read. destruct batch as [|k batch].
  { injection H as <- <-. repeat split; [done|done| |by intros]. intros l [= <-]. by apply sorted_distinct. }
  assert (StronglySorted Z.lt (map k_id (k :: batch))) as Hb.
  { eapply sorted_sublist; [|exact Hs]. etransitivity; [exact Hsub|apply ids_after_sublist]. }
  apply IH in H as (E2 & Hr2 & Hd & Hf).
  - split; [congruence|]. split; [by etransitivity|]. split; [done|]. intros Hlt. apply Hf.
    pose proof (batch_progress _ _ _ _ _ _ _ H1 (reflexivity w1)). lia.
  - unfold in_id_order. by rewrite Hr.
  - rewrite map_app. apply StronglySorted_app_2; [|done|done].
    intros x y (kx & -> & Hx)%list_elem_of_fmap Hy. specialize (Ha kx Hx).
    eapply elem_of_sublist in Hy; [|exact Hsub]. unfold ids_after in Hy.
    apply list_elem_of_In, filter_In in Hy as [_ Hy]. destruct after_id as [a|]; [|done]. apply Z.ltb_lt in Hy. lia.
  - intros k' [Hk'|Hk']%elem_of_app.
    + specialize (Ha k' Hk'). destruct after_id as [a|]; [|done].
      assert (List.last (map k_id (k :: batch)) 0 ∈ ids_after (Some a) w) as Hin
        by (eapply elem_of_sublist; [apply (last_in (map k_id batch) (k_id k) 0)|exact Hsub]).
      unfold ids_after in Hin. apply list_elem_of_In, filter_In in Hin as [_ Hin]. apply Z.ltb_lt in Hin. lia.
    + apply sorted_last; [done|by apply list_elem_of_fmap_2].
Qed.

Lemma refresh_all_awg_spec w r w' : in_id_order w -> refresh_all_awg env w = (r, w') ->
  steady w w' /\ same_rows w w' /\ r <> Ok false.
Proof.
  intros Hs H1. apply refresh_awg_loop_spec in H1 as (Hm & Hr & Hf); [|done]. split; [done|]. split; [done|].
  apply Hf. unfold ids_after. apply Nat.lt_succ_r. etransitivity; [apply sublist_length, filter_sublist|].
  by rewrite length_map.
Qed.
Lemma refresh_all_of_spec type w r w' : in_id_order w -> refresh_all_of env type w = (r, w') ->
  steady w w' /\ same_rows w w' /\ r <> Ok false.
Proof.
  intros Hs. unfold refresh_all_of. intros H0.
  assert (forall c w1, collect_keys (S (length (kt_rows (tw_keys w)))) type None [] w = (c, w1) ->
    tw_tables w1 = tw_tables w /\ same_rows w w1 /\ (forall l, c = Ok (Some l) -> NoDup (map k_id l)) /\ c <> Ok None) as Hc.
  { intros c w1 H1. apply collect_keys_spec in H1 as (E1 & Hr & Hd & Hf); [|done|constructor|by intros k ?%elem_of_nil].
    split; [done|]. split; [done|]. split; [done|]. apply Hf. unfold ids_after. apply Nat.lt_succ_r.
    etransitivity; [apply sublist_length, filter_sublist|]. by rewrite length_map. }
  apply bind_inv in H0 as [(c & w1 & H1 & H2)|(e & H1 & ->)]; apply Hc in H1 as (E1 & Hr & Hd & Hf).
  2:{ split; [unfold steady; by rewrite E1|]. split; [done|by intros]. }
  destruct c as [[|k keys]|]; [| |done].
  - injection H2 as <- <-. split; [unfold steady; by rewrite E1|]. split; [done|by intros].
  - specialize (Hd _ eq_refl). apply bind_inv in H2 as [(views & w2 & H2 & [= <- <-])|(e & H2 & ->)].
    all: pose proof (keeps_run _ _ _ _ _ (rows_refresh_views (k :: keys)) H2) as Hr2;
      apply refresh_views_moves in H2; [|done]; split; [unfold steady; by rewrite <- E1|];
      split; [by etransitivity|by intros].
Qed.

(** The background passes over all keys end. From any table with its rows in id
    order, whichever statement or backend fails, the three passes return or
    raise; none runs out of the turns its model is given. *)
Theorem traffic_passes_end w : in_id_order w ->
  (refresh_all_awg env w).1 <> Ok false /\ (refresh_all_xray env w).1 <> Ok false
  /\ (refresh_all_hysteria env w).1 <> Ok false.
Proof.
  intros Hs. split; [|split].
  - destruct (refresh_all_awg env w) as [o w'] eqn:E. by apply refresh_all_awg_spec in E as (_ & _ & Hr).
  - destruct (refresh_all_xray env w) as [o w'] eqn:E. by apply refresh_all_of_spec in E as (_ & _ & Hr).
  - unfold refresh_all_hysteria. destruct (te_hysteria env); [|done].
    destruct (refresh_all_of env HYSTERIA2 w) as [o w'] eqn:E. by apply refresh_all_of_spec in E as (_ & _ & Hr).
Qed.

(** ** Everything the service does *)

Inductive traffic_op := ORefresh (keys : list vpn_key) | OAllAwg | OAllXray | OAllHysteria | OPrune.
Definition run_op (op : traffic_op) (w : traffic_world) : traffic_world :=
  match op with
  | ORefresh keys => (refresh_views env keys w).2
  | OAllAwg => (refresh_all_awg env w).2
  | OAllXray => (refresh_all_xray env w).2
  | OAllHysteria => (refresh_all_hysteria env w).2
  | OPrune => (prune_hourly_history env w).2
  end.
Definition run_ops (ops : list traffic_op) (w : traffic_world) : traffic_world := fold_left (fun w op => run_op op w) ops w.
Definition distinct_keys (op : traffic_op) : Prop :=
  match op with ORefresh keys => NoDup (map k_id keys) | _ => True end.

(** Pruning takes buckets and leaves the totals. *)
Lemma bucket_sum_filter (P : (Z * Z * str) * (Z * Z) -> Prop) `{!forall x, Decision (P x)} (f : Z * Z -> Z) id h :
  map_Forall (fun _ v => 0 <= f v) h -> bucket_sum f id (filter P h) <= bucket_sum f id h.
Proof.
  induction h as [|b v h Hb IH] using map_ind; intros Hf; [done|].
  rewrite map_Forall_insert in Hf by done. destruct Hf as [Hv Hf]. specialize (IH Hf).
  rewrite (bucket_sum_insert f id b v h Hb). destruct (decide (P (b, v))) as [HP|HP].
  - rewrite map_filter_insert_True by done. rewrite bucket_sum_insert; [lia|].
    apply map_lookup_filter_None. by left.
  - rewrite map_filter_insert_False by done. rewrite delete_id by done. case_bool_decide; lia.
Qed.
Definition pruned (t t' : traffic_tables) : Prop :=
  tt_stats t' = tt_stats t /\ (nonneg t -> nonneg t' /\ forall d id, hourly_total d id t' <= hourly_total d id t).
Lemma prune_spec w : pruned (tw_tables w) (tw_tables (prune_hourly_history env w).2)
  /\ same_rows w (prune_hourly_history env w).2.
Proof.
  assert (forall t, pruned t t) as Hrefl by (intros t; split; [done|]; intros Hn; split; [done|lia]).
  unfold prune_hourly_history, bind, consult, lift, get. cbn [fst snd].
  destruct (hour_utc_from_iso _) as [hour|e]; [|split; [apply Hrefl|done]]. cbn [tw_pruned_hour].
  case_bool_decide; [split; [apply Hrefl|done]|].
  unfold prune_hourly, catch, db_statement, bind, consult, get, set_pruned_hour, set_tables, modify, ret, raise.
  cbn [fst snd tw_tick tw_tables tw_keys tw_pruned_hour]. destruct (te_db _ _); cbn; [|split; [apply Hrefl|done]].
  split; [|done]. split; [done|]. intros [Hn Hb]. split; [split; [exact Hn|]|].
  - intros d. cbn. intros b v [Hv _]%map_lookup_filter_Some. by apply (Hb d) in Hv.
  - intros d id. unfold hourly_total. cbn. apply bucket_sum_filter, Hb.
Qed.

(** What a run may do to the tables: no total goes back, the totals grow by at least
    what the buckets gain, and by exactly that when nothing is pruned. *)
Definition accounted (exact_sums : Prop) (t t' : traffic_tables) : Prop := nonneg t -> nonneg t' /\ forall d id,
  total d id t <= total d id t'
  /\ hourly_total d id t' - hourly_total d id t <= total d id t' - total d id t
  /\ (exact_sums -> hourly_total d id t' - hourly_total d id t = total d id t' - total d id t).
Lemma accounted_trans (P Q : Prop) a b c : accounted P a b -> accounted Q b c -> accounted (P /\ Q) a c.
Proof.
  intros H1 H2 Ha. destruct (H1 Ha) as [Hb Hab]. destruct (H2 Hb) as [Hc Hbc]. split; [done|].
  intros d id. destruct (Hab d id) as (A1 & A2 & A3), (Hbc d id) as (B1 & B2 & B3).
  split; [lia|]. split; [lia|]. intros [HP HQ]. specialize (A3 HP). specialize (B3 HQ). lia.
Qed.
Lemma moves_accounted P t t' : moves t t' -> accounted P t t'.
Proof. intros H Ht. destruct (H Ht) as [Hn Hd]. split; [done|]. intros d id. destruct (Hd d id). lia. Qed.
Lemma op_accounted op w : distinct_keys op -> in_id_order w ->
  in_id_order (run_op op w) /\ accounted (op <> OPrune) (tw_tables w) (tw_tables (run_op op w)).
Proof.
  intros Hd Hs.
  assert (op = OPrune \/ (op <> OPrune /\ steady w (run_op op w) /\ same_rows w (run_op op w))) as [->|(Hne & Hm & Hr)].
  - destruct op as [keys| | | |]; [| | | |by left]; right; (split; [done|]); unfold run_op.
    + split; [|exact (rows_refresh_views keys w)]. eapply refresh_views_moves; [exact Hd|apply surjective_pairing].
    + destruct (refresh_all_awg_spec w _ _ Hs (surjective_pairing _)) as (? & ? & _). done.
    + destruct (refresh_all_of_spec XRAY w _ _ Hs (surjective_pairing _)) as (? & ? & _). done.
    + unfold refresh_all_hysteria. destruct (te_hysteria env); [|split; [unfold steady; reflexivity|done]].
      destruct (refresh_all_of_spec HYSTERIA2 w _ _ Hs (surjective_pairing _)) as (? & ? & _). done.
  - destruct (prune_spec w) as [[Es Hp] Hr]. cbn [run_op]. split; [unfold in_id_order; by rewrite Hr|].
    intros Hn. destruct (Hp Hn) as [Hn' Hle]. split; [done|]. intros d id. unfold total. rewrite Es.
    specialize (Hle d id). split; [lia|]. split; [lia|done].
  - split; [unfold in_id_order; by rewrite Hr|by apply moves_accounted].
Qed.
Lemma run_accounted ops : forall w, Forall distinct_keys ops -> in_id_order w ->
  in_id_order (run_ops ops w) /\ accounted (OPrune ∉ ops) (tw_tables w) (tw_tables (run_ops ops w)).
Proof.
  induction ops as [|op ops IH]; intros w Hops Hs.
  { split; [done|]. apply moves_accounted. reflexivity. }
  apply Forall_cons in Hops as [Hd Hops]. destruct (op_accounted op w Hd Hs) as [Hs1 H1].
  destruct (IH (run_op op w) Hops Hs1) as [Hs2 H2]. split; [done|]. intros Hn.
  destruct (accounted_trans _ _ _ _ _ H1 H2 Hn) as [Hn' Ht]. split; [done|]. intros d id.
  destruct (Ht d id) as (A1 & A2 & A3). split; [done|]. split; [done|].
  intros [Hne Hnin]%not_elem_of_cons. apply A3. split; [congruence|done].
Qed.
Lemma empty_totals d id : total d id (TrafficTables ∅ ∅) = 0 /\ hourly_total d id (TrafficTables ∅ ∅) = 0.
Proof. split; [unfold total; cbn; by rewrite lookup_empty|]. apply (map_fold_empty _ 0). Qed.
Lemma empty_nonneg : nonneg (TrafficTables ∅ ∅).
Proof. split; [intros d id; by rewrite (proj1 (empty_totals d id))|intros d; apply map_Forall_empty]. Qed.

(** C14 The lifetime totals are the sum of the hourly buckets. Starting from empty
    tables, whatever the backends answer (counters that restart, keys that are
    missing, backends that fail) and whichever statement fails, after any series
    of refreshes a key's downloaded and uploaded totals are the sums of its
    buckets; pruning only takes buckets away; and no total ever goes back. *)
Theorem totals_are_the_sum_of_the_hours ops w :
  tw_tables w = TrafficTables ∅ ∅ -> in_id_order w -> Forall distinct_keys ops ->
  let t := tw_tables (run_ops ops w) in
  forall d id,
    0 <= hourly_total d id t <= total d id t
    /\ (OPrune ∉ ops -> total d id t = hourly_total d id t)
    /\ (forall ops1 ops2, ops = ops1 ++ ops2 -> total d id (tw_tables (run_ops ops1 w)) <= total d id t).
Proof.
  intros E0 Hs Hops t d id. destruct (empty_totals d id) as [Z1 Z2].
  destruct (run_accounted ops w Hops Hs) as [_ Ha]. rewrite E0 in Ha.
  destruct (Ha empty_nonneg) as [[_ Hb] Ht]. fold t in Hb, Ht. destruct (Ht d id) as (H1 & H2 & H3).
  split; [split; [apply bucket_sum_nonneg, Hb|lia]|]. split; [intros Hp; specialize (H3 Hp); lia|].
  intros ops1 ops2 ->. apply Forall_app in Hops as [Ho1 Ho2].
  destruct (run_accounted ops1 w Ho1 Hs) as [Hs1 Ha1]. rewrite E0 in Ha1. destruct (Ha1 empty_nonneg) as [Hn1 _].
  destruct (run_accounted ops2 _ Ho2 Hs1) as [_ Ha2]. destruct (Ha2 Hn1) as [_ Ht2].
  subst t. unfold run_ops. rewrite fold_left_app. apply Ht2.
Qed.
End Refresh.

(** ** The counter behind a total *)

(** What happens to a backend's counter between two polls: bytes move, the backend
    restarts and counts from zero again, the service polls and reads it. *)
Inductive counter_event := Moved (n : N) | Restarted | Polled.
Record meter := Meter { m_counter : Z; m_moved : Z; m_total : Z; m_raw : option Z }.
Definition meter_step (m : meter) (e : counter_event) : meter :=
  match e with
  | Moved n => Meter (m_counter m + Z.of_N n) (m_moved m + Z.of_N n) (m_total m) (m_raw m)
  | Restarted => Meter 0 (m_moved m) (m_total m) (m_raw m)
  | Polled => let '(t, r) := next_total_for_direction (m_total m) (m_raw m) (Some (m_counter m)) in
              Meter (m_counter m) (m_moved m) t r
  end.
Definition metered (es : list counter_event) : meter := fold_left meter_step es (Meter 0 0 0 None).
(** The bytes no poll can see any more: those counted since the last poll when the
    backend restarts, and, when the counter has caught up with the last reading
    before the next poll, the ones below it. *)
Definition unseen (m : meter) : Z :=
  match m_raw m with
  | None => m_counter m
  | Some r => if m_counter m <? r then m_counter m else m_counter m - r
  end.
Definition sound_meter (m : meter) : Prop :=
  0 <= m_counter m /\ 0 <= m_total m /\ m_total m + unseen m <= m_moved m
  /\ match m_raw m with Some r => 0 <= r | None => m_total m = 0 end.
Lemma meter_step_sound m e : sound_meter m -> sound_meter (meter_step m e).
Proof.
  unfold sound_meter, unseen. destruct m as [c mv t r], e; cbn; intros (Hc & Ht & Hm & Hr); destruct r as [r|]; cbn;
    repeat match goal with |- context[?a <? ?b] => destruct (Z.ltb_spec a b) end;
    repeat match goal with H : context[?a <? ?b] |- _ => destruct (Z.ltb_spec a b) end; lia.
Qed.
Lemma metered_sound es : sound_meter (metered es).
Proof.
  unfold metered. assert (sound_meter (Meter 0 0 0 None)) as H by (unfold sound_meter, unseen; cbn; lia).
  revert H. generalize (Meter 0 0 0 None). induction es as [|e es IH]; intros m Hm; [done|]. by apply IH, meter_step_sound.
Qed.
(** While the backend runs, nothing is out of sight. *)
Definition exact_meter (m : meter) : Prop :=
  m_total m + unseen m = m_moved m /\ 0 <= m_counter m
  /\ match m_raw m with Some r => 0 <= r <= m_counter m | None => m_total m = 0 end.
Lemma meter_step_exact m e : e <> Restarted -> exact_meter m -> exact_meter (meter_step m e).
Proof.
  unfold exact_meter, unseen. destruct m as [c mv t r], e; cbn; intros Hne (Ht & Hc & Hr); [|done|]; destruct r as [r|]; cbn;
    repeat match goal with |- context[?a <? ?b] => destruct (Z.ltb_spec a b) end;
    repeat match goal with H : context[?a <? ?b] |- _ => destruct (Z.ltb_spec a b) end; lia.
Qed.
Lemma metered_exact es : Restarted ∉ es -> exact_meter (metered es).
Proof.
  unfold metered. assert (exact_meter (Meter 0 0 0 None)) as H by (unfold exact_meter, unseen; cbn; lia).
  revert H. generalize (Meter 0 0 0 None). induction es as [|e es IH]; intros m Hm Hes; [done|].
  apply not_elem_of_cons in Hes as [Hne Hes]. apply IH; [|done]. apply meter_step_exact; [congruence|done].
Qed.

(** A total never counts a byte twice. Whatever the order in which bytes move, the
    backend restarts and the service polls, the stored total lies between zero
    and the bytes that moved; what it is short of them is at least what the next
    poll will see; and as long as the backend has not restarted, a poll brings
    the total to exactly the bytes that moved. *)
Theorem totals_never_overcount es :
  let m := metered es in
  0 <= m_total m /\ 0 <= unseen m <= m_moved m - m_total m
  /\ (Restarted ∉ es -> m_total (meter_step m Polled) = m_moved m).
Proof.
  intros m. pose proof (metered_sound es) as (Hc & Ht & Hm & Hr). pose proof (metered_exact es) as He.
  fold m in Hc, Ht, Hm, Hr, He. clearbody m. unfold exact_meter, unseen in *. split; [done|]. split; [|intros Hes].
  - destruct (m_raw m) as [r|]; [destruct (Z.ltb_spec (m_counter m) r)|]; lia.
  - destruct (He Hes) as (E & _ & Hr'). clear He Hm. destruct m as [c mv t [r|]]; cbn in *;
    repeat match goal with |- context[?a <? ?b] => destruct (Z.ltb_spec a b) end;
    repeat match goal with H : context[?a <? ?b] |- _ => destruct (Z.ltb_spec a b) end; lia.
Qed.

(** ** A run *)

Definition example_key (id : Z) (pk : str) : vpn_key :=
  VpnKey id 7 None AWG ACTIVE None None (Some pk) None [] [] [] [] None None None 7 None None.
Definition example_world : traffic_world :=
  TrafficWorld (KeyTable [example_key 1 (py "a"); example_key 2 (py "b")] 2 [] [] (fun _ => true) 0)
    (TrafficTables ∅ ∅) None 0.
(** The backend restarts between the two passes. *)
Definition example_env : traffic_env :=
  TrafficEnv (fun _ => true) (fun _ => plain_to (DateTime 7200000000 None))
    (fun n => Ok (if (n <? 5)%nat then [(py "a", (10, 100)); (py "b", (1, 2))] else [(py "a", (4, 30)); (py "b", (5, 2))]))
    (fun _ => Err tt) None.
Definition example_ops : list traffic_op := [OAllAwg; OAllAwg].
Lemma example_in_order : in_id_order example_world.
Proof. repeat constructor; done. Qed.

Example totals_are_the_sum_of_the_hours_witness :
  let w := @run_ops plain_iso example_env example_ops example_world in
  total Down 1 (tw_tables w) = 130 /\ total Up 2 (tw_tables w) = 5
  /\ total Down 1 (tw_tables w) = hourly_total Down 1 (tw_tables w).
Proof.
  split; [vm_compute; reflexivity|]. split; [vm_compute; reflexivity|].
  apply (@totals_are_the_sum_of_the_hours plain_iso example_env example_ops example_world);
    [reflexivity|exact example_in_order|repeat constructor|].
  unfold example_ops. rewrite !not_elem_of_cons. split; [done|]. split; [done|]. apply not_elem_of_nil.
Defined.
Example traffic_passes_end_witness :
  (@refresh_all_awg plain_iso example_env example_world).1 = Ok true
  /\ (@refresh_all_awg plain_iso example_env example_world).1 <> Ok false.
Proof.
  split; [vm_compute; reflexivity|]. apply (@traffic_passes_end plain_iso example_env example_world). exact example_in_order.
Defined.
