(* ===== verification/BotDb.v ===== *)
(** * The bot's database
      ([repositories/users.py], [repositories/access_requests.py],
      [repositories/trial_requests.py], [repositories/audit_log.py])

    The tables of the accounts, their requests and the audit log, next to the key
    table of [VpnKeys]; every statement may fail, and a transaction takes back what
    its statements did when it raises. The rows of a table with an AUTOINCREMENT id
    are kept in id order with the sequence. What else the services touch (backends,
    files) is the parameter [X]. *)

From S2P Require Import Prelude PyText Json AwgConfig VpnKeys BackendHealth AwgService.
#[local] Open Scope Z_scope.

(** ** The rows *)

Record account := Account {
  ac_id : Z; ac_username : option str; ac_first_name : option str; ac_role : user_role;
  ac_blocked_at : option str; ac_note : option str; ac_language : option str;
  ac_expiry_notifications : bool; ac_trial_reset_at : option str;
  ac_created_at : str; ac_updated_at : str }.
(** What [is_blocked_user] and the role checks read. *)
Definition user_of (a : account) : user := User (ac_role a) (ac_blocked_at a).
Definition blocked (a : account) : bool := is_blocked_user (user_of a).

Inductive request_status := RequestPending | RequestApproved | RequestRejected.
#[export] Instance request_status_eq_dec : EqDecision request_status.
Proof. solve_decision. Defined.
Record access_request := AccessRequest {
  rq_id : Z; rq_user : Z; rq_username : option str; rq_status : request_status;
  rq_requested_at : str; rq_decided_by : option Z; rq_decided_at : option str }.
#[export] Instance access_request_eq_dec : EqDecision access_request.
Proof. solve_decision. Defined.
Record trial_request := TrialRequest {
  tq_id : Z; tq_user : Z; tq_type : key_type; tq_status : request_status; tq_key : option Z;
  tq_requested_at : str; tq_decided_by : option Z; tq_decided_at : option str }.

Inductive proxy_type := SOCKS5 | MTPROTO.
Inductive proxy_status :=
  | ProxyPendingApply | ProxyActive | ProxyApplyFailed | ProxyPendingRevoke | ProxyRevoked
  | ProxyRevokeFailed | ProxyInactive | ProxyPendingDelete | ProxyDeleteFailed | ProxyDeleted.
#[export] Instance proxy_type_eq_dec : EqDecision proxy_type.
Proof. solve_decision. Defined.
#[export] Instance proxy_status_eq_dec : EqDecision proxy_status.
Proof. solve_decision. Defined.
Record proxy_access := ProxyAccess {
  px_id : Z; px_owner : Z; px_username : option str; px_type : proxy_type; px_status : proxy_status;
  px_payload : payload; px_public_payload : payload; px_created_at : str; px_updated_at : str;
  px_last_shown_at : option str; px_revoked_at : option str; px_deleted_at : option str; px_created_by : Z;
  px_revoked_by : option Z; px_deleted_by : option Z; px_reason : option str; px_error : option str;
  px_fingerprint : option str; px_generation : Z; px_activated_at : option str; px_last_apply_at : option str }.

(** [AuditEntityType] with its id, which for the proxies as a whole is [None]. Of the details, [error_count] is read back. *)
Inductive audit_entity := OnUser (id : Z) | OnRequest (id : Z) | OnKey (id : Z) | OnProxy (id : Z) | OnProxies.
#[export] Instance audit_entity_eq_dec : EqDecision audit_entity.
Proof. solve_decision. Defined.
Record audit_row := AuditRow {
  au_id : Z; au_actor : option Z; au_action : str; au_entity : audit_entity; au_error_count : Z; au_at : str }.

Record serial (A : Type) := Serial { sr_rows : list A; sr_seq : Z }.
Arguments Serial {A}. Arguments sr_rows {A}. Arguments sr_seq {A}.
(** An [INSERT] and its [lastrowid]. *)
Definition append {A} (row : Z -> A) (t : serial A) : serial A :=
  Serial (sr_rows t ++ [row (sr_seq t + 1)]) (sr_seq t + 1).

Record bot_tables := BotTables {
  bt_users : gmap Z account; bt_requests : serial access_request; bt_trials : serial trial_request;
  bt_proxies : serial proxy_access; bt_audit : serial audit_row }.

(** [bw_cleared]: whose dialogue state has been cleared; [bw_kicked]: whose sessions
    the Hysteria2 server was told to end; [bw_told]: who was sent a message. *)
Record bot_world (X : Type) := BotWorld {
  bw_tables : bot_tables; bw_keys : key_table; bw_cleared : list Z; bw_kicked : list str;
  bw_told : list Z; bw_rest : X; bw_tick : nat }.
Arguments BotWorld {X}. Arguments bw_tables {X}. Arguments bw_keys {X}. Arguments bw_cleared {X}.
Arguments bw_kicked {X}. Arguments bw_told {X}. Arguments bw_rest {X}. Arguments bw_tick {X}.

#[export] Program Instance part_bot_keys X : Part (bot_world X) key_table := {|
  part_get := bw_keys;
  part_set := fun k w => BotWorld (bw_tables w) k (bw_cleared w) (bw_kicked w) (bw_told w) (bw_rest w) (bw_tick w) |}.
Solve Obligations with (by intros; try destruct s).

(** ** Errors *)

(** [AccessDenied], by its message. *)
Inductive denial :=
  | Insufficient | Blocked | NotApproved | ModeratorOnModerator | ForOther | GuestsBySuperadmin
  | ToBlocked | NoOwnerAccess | ProxyForOther | NoProxyOwnerAccess | ForeignKey | ForeignKeys | AlreadyDecided | TrialUsed | OwnNotesOnly.
(** [InvalidOperation], by its message. *)
Inductive refusal :=
  | UseBlockUser | AdminIdsRole | SuperadminRole | BlockedNeedsUnblock | RoleCannotApprove | RoleCannotReject
  | BlockAdminIds | BlockSuperadmin | ModuleOff | NotHysteria | RevokableOnly | ActiveOnly | NoFreeLabel
  | RelayOff | UserIsBlocked | BadLanguage | SocksOff | SocksNotConfigured | NotSocks | PrefixTooLong | NoFreeLogin
  | PortUnset | ApplyRedacted | MtOff | MtNotConfigured | MtUnwired | NotMtproto | MtBusy | MtMismatch | MtIncomplete
  | NoFreeSecret | MtApplyRedacted | MtRevokeRedacted.
Inductive missing := NoUser | NoRequest | NoKey | NoTrial | NoTrialOwner | NoProxy | NoSocks | NoMtproto.
(** [DanteUserError], with its subclass [DanteUserNotFoundError]; [NotStarted]: a
    command that could not be run at all. *)
Inductive dante_error :=
  | NotManaged | BadLogin | BadPassword | LoginTaken | DanteUserNotFound | ToolFailed (returncode : Z) | NotStarted.
(** [MtProxyError], with its subclasses, by its cause; [MtIo]: an [OSError]. *)
Inductive mt_error :=
  | NotInitialized | NotExecutable | BadDocument | BadSecret | ControlCharacters | RestartFailed | NotActive
  | NotListening | HelperFailed | HelperApplyFailed | ApplyFailed | RolledBack | RollbackFailed | MtIo.
(** [Unfinished] is no exception of the code: a loop's fuel has run out. *)
Inductive bot_error :=
  | DbFault | UniqueConflict | Concurrent | RowLost | BadTime | BadNoteText | SettingsMissing | NotWired
  | Denied (why : denial) | Refused (why : refusal) | Missing (what : missing)
  | Rows (e : key_error) | Service (e : service_error)
  | ProxyTransition | Dante (e : dante_error) | MtProxy (e : mt_error)
  | Unhealthy (e : health_error) | Unfinished.

(** [be_details_fit]: whether the details of an audit row, as JSON, stay within the
    32 KiB above which a placeholder without an error count is stored. *)
Record bot_env := BotEnv {
  be_db : nat -> bool; be_now : nat -> str; be_details_fit : nat -> bool; be_admin_ids : list Z }.

Section Db.
Context {X : Type} (env : bot_env).
Abbreviation BM := (M (bot_world X) bot_error) (only parsing).

Definition ask {A} (f : nat -> A) : BM A := fun w =>
  (Ok (f (bw_tick w)),
   BotWorld (bw_tables w) (bw_keys w) (bw_cleared w) (bw_kicked w) (bw_told w) (bw_rest w) (S (bw_tick w))).
Definition now : BM str := ask (be_now env).
Definition set_tables (f : bot_tables -> bot_tables) : BM unit := modify (fun w =>
  BotWorld (f (bw_tables w)) (bw_keys w) (bw_cleared w) (bw_kicked w) (bw_told w) (bw_rest w) (bw_tick w)).
Definition on_rows {A} (m : M key_table key_error A) : BM A := embed Rows m.
(** One statement, with its commit where no transaction is open. *)
Definition sql : BM unit :=
  let! ok := ask (be_db env) in if ok : bool then ret tt else raise DbFault.
Definition select {A} (f : bot_tables -> A) : BM A := sql ;;! gets (fun w => f (bw_tables w)).
Definition write (f : bot_tables -> bot_tables) : BM unit := sql ;;! set_tables f.

(** [async with db.transaction()], its COMMIT taken to succeed: what was stored when it began is back when it
    raises. One inside another joins it; no caller catches what an inner one raises. *)
Definition rolled_back (before after : key_table) : key_table :=
  KeyTable (kt_rows before) (kt_seq before) (kt_traffic before) (kt_archive before) (kt_ok after) (kt_tick after).
Definition transaction {A} (m : BM A) : BM A :=
  sql ;;!
  (fun w => match m w with
            | (Ok a, w') => (Ok a, w')
            | (Err e, w') =>
                (Err e, BotWorld (bw_tables w) (rolled_back (bw_keys w) (bw_keys w')) (bw_cleared w') (bw_kicked w')
                          (bw_told w') (bw_rest w') (bw_tick w'))
            end).

(** ** [UserRepository] *)

Definition set_users (f : gmap Z account -> gmap Z account) (t : bot_tables) : bot_tables :=
  BotTables (f (bt_users t)) (bt_requests t) (bt_trials t) (bt_proxies t) (bt_audit t).
Definition user_by_id (id : Z) : BM (option account) := select (fun t => bt_users t !! id).
(** [UPDATE users SET f WHERE telegram_user_id = ?]; an absent row is [NotFound]. *)
Definition update_user (id : Z) (f : account -> account) : BM unit :=
  let! found := select (fun t => bt_users t !! id) in
  match found with
  | None => raise (Missing NoUser)
  | Some a => set_tables (set_users (insert id (f a)))
  end.
Definition with_role (role : user_role) (now : str) (blocked_at : option str) (a : account) : account :=
  Account (ac_id a) (ac_username a) (ac_first_name a) role blocked_at (ac_note a) (ac_language a)
    (ac_expiry_notifications a) (ac_trial_reset_at a) (ac_created_at a) now.
Definition store_role (id : Z) (role : user_role) (now : str) (blocked_at : option str) : BM unit :=
  update_user id (with_role role now blocked_at).
Record profile := Profile { pf_id : Z; pf_username : option str; pf_first_name : option str }.
Definition new_account (id : Z) (username first_name : option str) (role : user_role) (now : str) : account :=
  Account id username first_name role None None None true None now now.
Definition with_profile (p : profile) (now : str) (a : account) : account :=
  Account (ac_id a) (pf_username p) (pf_first_name p) (ac_role a) (ac_blocked_at a) (ac_note a) (ac_language a)
    (ac_expiry_notifications a) (ac_trial_reset_at a) (ac_created_at a) now.
(** The row written is read back. *)
Definition upsert_profile (p : profile) (role : user_role) (now : str) : BM account :=
  write (set_users (fun us =>
    <[pf_id p := match us !! pf_id p with
                 | Some a => with_profile p now a
                 | None => new_account (pf_id p) (pf_username p) (pf_first_name p) role now
                 end]> us)) ;;!
  let! stored := user_by_id (pf_id p) in
  match stored with Some a => ret a | None => raise RowLost end.
(** [INSERT OR IGNORE] *)
Definition placeholder (now : str) (us : gmap Z account) (id : Z) : gmap Z account :=
  match us !! id with Some _ => us | None => <[id := new_account id None None SUPERADMIN now]> us end.
Definition create_admin_placeholders (ids : list Z) (now : str) : BM unit :=
  match ids with
  | [] => ret tt
  | _ => transaction (write (set_users (fun us => fold_left (placeholder now) ids us)))
  end.
Definition store_note (id : Z) (note : option str) (now : str) : BM unit :=
  update_user id (fun a => Account (ac_id a) (ac_username a) (ac_first_name a) (ac_role a) (ac_blocked_at a) note
    (ac_language a) (ac_expiry_notifications a) (ac_trial_reset_at a) (ac_created_at a) now).
Definition store_language (id : Z) (language : option str) (now : str) : BM unit :=
  update_user id (fun a => Account (ac_id a) (ac_username a) (ac_first_name a) (ac_role a) (ac_blocked_at a)
    (ac_note a) language (ac_expiry_notifications a) (ac_trial_reset_at a) (ac_created_at a) now).
Definition store_expiry_notifications (id : Z) (enabled : bool) (now : str) : BM unit :=
  update_user id (fun a => Account (ac_id a) (ac_username a) (ac_first_name a) (ac_role a) (ac_blocked_at a)
    (ac_note a) (ac_language a) enabled (ac_trial_reset_at a) (ac_created_at a) now).
(** An absent row is left absent, without an error. *)
Definition reset_trial_quota (id : Z) (now : str) : BM unit :=
  write (set_users (alter (fun a => Account (ac_id a) (ac_username a) (ac_first_name a) (ac_role a) (ac_blocked_at a)
    (ac_note a) (ac_language a) (ac_expiry_notifications a) (Some now) (ac_created_at a) now) id)).
Definition trial_quota_reset_at (id : Z) : BM (option str) :=
  select (fun t => bt_users t !! id ≫= ac_trial_reset_at).

(** ** [AccessRequestRepository] *)

Definition pending_of (user : Z) (r : access_request) : bool :=
  (rq_user r =? user) && bool_decide (rq_status r = RequestPending).
Definition set_requests (f : serial access_request -> serial access_request) (t : bot_tables) : bot_tables :=
  BotTables (bt_users t) (f (bt_requests t)) (bt_trials t) (bt_proxies t) (bt_audit t).
Definition request_by_id (id : Z) : BM (option access_request) :=
  select (fun t => List.find (fun r => rq_id r =? id) (sr_rows (bt_requests t))).
(** The unique index leaves one pending row at most: the order does not matter. *)
Definition pending_for_user (user : Z) : BM (option access_request) :=
  select (fun t => List.find (pending_of user) (sr_rows (bt_requests t))).
Definition create_request (user : Z) (username : option str) (now : str) : BM access_request :=
  sql ;;!
  let! w := get in
  if existsb (pending_of user) (sr_rows (bt_requests (bw_tables w))) then raise UniqueConflict
  else
    set_tables (set_requests (append (fun id => AccessRequest id user username RequestPending now None None))) ;;!
    let! r := request_by_id (sr_seq (bt_requests (bw_tables w)) + 1) in
    match r with Some r => ret r | None => raise RowLost end.
Definition create_pending_idempotent (user : Z) (username : option str) (now : str) : BM (access_request * bool) :=
  catch (let! r := create_request user username now in ret (r, true))
    (fun exc => match exc with
      | UniqueConflict =>
          let! pending := pending_for_user user in
          match pending with Some r => ret (r, false) | None => raise exc end
      | _ => raise exc
      end).
Definition decide_request (status : request_status) (actor : Z) (now : str) (r : access_request) : access_request :=
  AccessRequest (rq_id r) (rq_user r) (rq_username r) status (rq_requested_at r) (Some actor) (Some now).
Definition map_rows {A} (p : A -> bool) (f : A -> A) (t : serial A) : serial A :=
  Serial (map (fun r => if p r then f r else r) (sr_rows t)) (sr_seq t).
(** Whether a row was still pending. *)
Definition set_status_if_pending (id : Z) (status : request_status) (actor : Z) (now : str) : BM bool :=
  let p := fun r => (rq_id r =? id) && bool_decide (rq_status r = RequestPending) in
  let! n := select (fun t => length (List.filter p (sr_rows (bt_requests t)))) in
  set_tables (set_requests (map_rows p (decide_request status actor now))) ;;!
  ret (n =? 1)%nat.
Definition count_requests (status : request_status) : BM nat :=
  select (fun t => length (List.filter (fun r => bool_decide (rq_status r = status)) (sr_rows (bt_requests t)))).
(** [ORDER BY requested_at ASC] *)
Definition asked_le (a b : access_request) : Prop := str_le (rq_requested_at a) (rq_requested_at b).
#[local] Instance asked_le_dec : RelDecision asked_le.
Proof. intros a b. unfold asked_le, str_le. apply _. Defined.
Definition requests_by_status (status : request_status) (limit offset : Z) : BM (list access_request) :=
  select (fun t => take (clamp_limit limit) (drop (clamp_offset offset) (merge_sort asked_le
    (List.filter (fun r => bool_decide (rq_status r = status)) (sr_rows (bt_requests t)))))).

(** ** [TrialKeyRequestRepository] *)

Definition set_trials (f : serial trial_request -> serial trial_request) (t : bot_tables) : bot_tables :=
  BotTables (bt_users t) (bt_requests t) (f (bt_trials t)) (bt_proxies t) (bt_audit t).
Definition trial_pending (r : trial_request) : bool := bool_decide (tq_status r = RequestPending).
Definition trial_by_id (id : Z) : BM (option trial_request) :=
  select (fun t => List.find (fun r => tq_id r =? id) (sr_rows (bt_trials t))).
Definition create_trial (user : Z) (type : key_type) (requested_at : str) : BM trial_request :=
  sql ;;!
  let! w := get in
  if existsb (fun r => (tq_user r =? user) && trial_pending r) (sr_rows (bt_trials (bw_tables w)))
  then raise UniqueConflict
  else
    set_tables (set_trials (append (fun id =>
      TrialRequest id user type RequestPending None requested_at None None))) ;;!
    let! r := trial_by_id (sr_seq (bt_trials (bw_tables w)) + 1) in
    match r with Some r => ret r | None => raise RowLost end.
(** [requested_at > threshold], as texts. *)
Definition counts_since (user : Z) (threshold : str) (r : trial_request) : bool :=
  (tq_user r =? user) && negb (str_leb (tq_requested_at r) threshold)
  && negb (bool_decide (tq_status r = RequestRejected)).
Definition count_used_since_reset (user : Z) (reset_at : option str) : BM nat :=
  let threshold := match given reset_at with Some s => s | None => py "1970-01-01T00:00:00+00:00" end in
  select (fun t => length (List.filter (counts_since user threshold) (sr_rows (bt_trials t)))).
Definition decide_trial (status : request_status) (key : option Z) (actor : Z) (at_ : str) (r : trial_request)
    : trial_request :=
  TrialRequest (tq_id r) (tq_user r) (tq_type r) status key (tq_requested_at r) (Some actor) (Some at_).
Definition settle_trial (id : Z) (f : trial_request -> trial_request) : BM unit :=
  let p := fun r => (tq_id r =? id) && trial_pending r in
  let! n := select (fun t => length (List.filter p (sr_rows (bt_trials t)))) in
  set_tables (set_trials (map_rows p f)) ;;!
  if (n =? 0)%nat then raise Concurrent else ret tt.
Definition approve_trial (id key actor : Z) (at_ : str) : BM unit :=
  settle_trial id (decide_trial RequestApproved (Some key) actor at_).
Definition reject_trial (id actor : Z) (at_ : str) : BM unit :=
  settle_trial id (fun r => decide_trial RequestRejected (tq_key r) actor at_ r).
Definition count_pending_trials : BM nat :=
  select (fun t => length (List.filter trial_pending (sr_rows (bt_trials t)))).

(** ** [AuditLogRepository], [AuditService] *)

Definition set_audit (f : serial audit_row -> serial audit_row) (t : bot_tables) : bot_tables :=
  BotTables (bt_users t) (bt_requests t) (bt_trials t) (bt_proxies t) (f (bt_audit t)).
Definition audit (actor : option Z) (action : str) (entity : audit_entity) (error_count : Z) : BM unit :=
  let! t := now in
  let! fit := ask (be_details_fit env) in
  write (set_audit (append (fun id => AuditRow id actor action entity (if fit : bool then error_count else 0) t))).
Definition audit_best_effort (actor : option Z) (action : str) (entity : audit_entity) (error_count : Z) : BM unit :=
  let! _ := attempt (audit actor action entity error_count) in ret tt.
(** [ORDER BY created_at DESC, id DESC] *)
Definition newer (a b : audit_row) : Prop :=
  str_leb (au_at b) (au_at a) && (negb (bool_decide (au_at a = au_at b)) || (au_id b <=? au_id a)) = true.
#[local] Instance newer_dec : RelDecision newer.
Proof. intros a b. unfold newer. apply _. Defined.
Definition recent_for_entity (entity : audit_entity) (actions : list str) (limit : Z) : BM (list audit_row) :=
  select (fun t => take (Z.to_nat (Z.max 1 (Z.min limit 50))) (merge_sort newer
    (List.filter (fun r => bool_decide (au_entity r = entity) && in_strs (au_action r) actions)
       (sr_rows (bt_audit t))))).

(** ** Key and proxy rows of one owner *)

(** [ORDER BY created_at ASC]; rows of the same second come in id order. *)
Definition key_older (a b : vpn_key) : Prop :=
  str_leb (k_created_at a) (k_created_at b)
  && (negb (bool_decide (k_created_at a = k_created_at b)) || (k_id a <=? k_id b)) = true.
#[local] Instance key_older_dec : RelDecision key_older.
Proof. intros a b. unfold key_older. apply _. Defined.
Definition owned_in (owner : Z) (statuses : list key_status) (k : vpn_key) : bool :=
  (k_owner k =? owner) && status_in statuses k.
Definition keys_by_owner_statuses (owner : Z) (statuses : list key_status) (limit offset : Z) : BM (list vpn_key) :=
  match statuses with
  | [] => ret []
  | _ =>
      on_rows (statement ;;! gets (fun t => take (clamp_limit limit) (drop (clamp_offset offset)
        (merge_sort key_older (List.filter (owned_in owner statuses) (kt_rows t))))))
  end.
Definition count_by_owner_statuses (owner : Z) (statuses : list key_status) : BM nat :=
  match statuses with
  | [] => ret O
  | _ => on_rows (statement ;;! gets (fun t => length (List.filter (owned_in owner statuses) (kt_rows t))))
  end.
Definition proxy_older (a b : proxy_access) : Prop :=
  str_leb (px_updated_at a) (px_updated_at b)
  && (negb (bool_decide (px_updated_at a = px_updated_at b)) || (px_id a <=? px_id b)) = true.
#[local] Instance proxy_older_dec : RelDecision proxy_older.
Proof. intros a b. unfold proxy_older. apply _. Defined.
Definition proxy_owned_in (owner : Z) (statuses : list proxy_status) (a : proxy_access) : bool :=
  (px_owner a =? owner) && bool_decide (px_status a ∈ statuses).
Definition proxies_by_owner_statuses (owner : Z) (statuses : list proxy_status) (limit offset : Z)
    : BM (list proxy_access) :=
  match statuses with
  | [] => ret []
  | _ =>
      select (fun t => take (clamp_limit limit) (drop (clamp_offset offset)
        (merge_sort proxy_older (List.filter (proxy_owned_in owner statuses) (sr_rows (bt_proxies t))))))
  end.
End Db.
