(* ===== verification/Accounts.v ===== *)
(** * Users, roles and access requests
      ([services/users.py], [services/access_approval.py], [services/notes.py])

    Who may do what, how roles change, and how a user is blocked: the role first,
    then every key and every proxy access, by the revokers the other services hand
    in ([attach_key_management], [attach_proxy_access_management]). *)

From S2P Require Import Prelude PyText Json IsoTime AwgConfig VpnKeys BackendHealth AwgService BotDb.
#[local] Open Scope Z_scope.

(** ** [KeyOperationError], [BlockUserResult], [UnblockUserWarning] *)

Inductive failure := Unwired | NoRevoker | RevokeFailed (e : bot_error) | StuckInStatus.
Record op_error := OpError { oe_id : Z; oe_type : backend; oe_error : failure }.
Definition proxy_backend (t : proxy_type) : backend := match t with SOCKS5 => Socks5 | MTPROTO => MtProto end.
Record block_result := BlockResult {
  br_user : account; br_revoked_keys : list Z; br_errors : list op_error; br_revoked_proxies : list Z }.
Record unblock_warning := UnblockWarning {
  uw_user : account; uw_has_warning : bool; uw_active_or_problem : nat; uw_previous_errors : Z;
  uw_last_error_at : option str }.

Definition KEY_MAY_EXIST : list key_status :=
  [ACTIVE; PENDING_APPLY; APPLY_FAILED; PENDING_REVOKE; PENDING_DELETE; DELETE_FAILED].
Definition PROXY_MAY_EXIST : list proxy_status :=
  [ProxyActive; ProxyPendingApply; ProxyApplyFailed; ProxyPendingRevoke; ProxyRevokeFailed;
   ProxyPendingDelete; ProxyDeleteFailed].
Definition USER_BLOCKED : str := py "user_blocked".
Definition BLOCKED_WITH_ERRORS : str := py "user_blocked_with_revoke_errors".
Definition BLOCK_FAILED : str := py "user_block_failed".
Definition BLOCK_REVOKE_ERROR_ACTIONS : list str := [BLOCKED_WITH_ERRORS; BLOCK_FAILED].
Definition BLOCK_REVOKE_LOOKUP_ACTIONS : list str := USER_BLOCKED :: BLOCK_REVOKE_ERROR_ACTIONS.

(** How far a pass over the rows has come: what was revoked, what went wrong, and
    the ids that have had their turn. *)
Record progress := Progress {
  pg_revoked : list Z; pg_errors : list op_error; pg_succeeded : list Z; pg_failed : list Z }.
Definition seen (p : progress) (id : Z) : bool := bool_decide (id ∈ pg_succeeded p) || bool_decide (id ∈ pg_failed p).
Definition note_failure (id : Z) (b : backend) (f : failure) (p : progress) : progress :=
  Progress (pg_revoked p) (pg_errors p ++ [OpError id b f]) (pg_succeeded p) (id :: pg_failed p).
Definition note_success (id : Z) (p : progress) : progress :=
  Progress (pg_revoked p ++ [id]) (pg_errors p) (id :: pg_succeeded p) (pg_failed p).
Definition note_stuck {A} (id_of : A -> Z) (type_of : A -> backend) (rows : list A) (p : progress) : progress :=
  Progress (pg_revoked p)
    (pg_errors p ++ map (fun r => OpError (id_of r) (type_of r) StuckInStatus)
                      (List.filter (fun r => bool_decide (id_of r ∈ pg_succeeded p)) rows))
    (pg_succeeded p) (pg_failed p).

Section Accounts.
Context {X : Type} `{iso : !IsoText} (env : bot_env).
Abbreviation BM := (M (bot_world X) bot_error) (only parsing).

Definition is_admin_id (id : Z) : bool := existsb (Z.eqb id) (be_admin_ids env).
(** [clear_user_state] never raises: the dialogue is another component's. *)
Definition clear_user_state (id : Z) : BM unit := modify (fun w =>
  BotWorld (bw_tables w) (bw_keys w) (bw_cleared w ++ [id]) (bw_kicked w) (bw_told w) (bw_rest w) (bw_tick w)).

(** ** Roles *)

Definition get_user (id : Z) : BM account :=
  let! found := user_by_id env id in
  match found with Some a => ret a | None => raise (Missing NoUser) end.
Definition require_superadmin (actor : Z) : BM account :=
  let! a := get_user actor in
  if bool_decide (ac_role a = SUPERADMIN) then ret a else raise (Denied Insufficient).
Definition require_moderator_or_admin (actor : Z) : BM account :=
  let! a := get_user actor in
  if bool_decide (ac_role a ∈ [SUPERADMIN; MODERATOR]) then ret a else raise (Denied Insufficient).
Definition require_approved_or_admin (actor : Z) : BM account :=
  let! a := get_user actor in
  if bool_decide (ac_role a ∈ [SUPERADMIN; MODERATOR]) then ret a
  else if blocked a then raise (Denied Blocked)
  else if bool_decide (ac_role a = APPROVED_USER) then ret a else raise (Denied NotApproved).
Definition can_manage_owner (actor owner : Z) : BM bool :=
  let! a := get_user actor in
  ret (bool_decide (ac_role a = SUPERADMIN) || (actor =? owner)).

Definition bootstrap_admins : BM unit :=
  let! t := now env in create_admin_placeholders env (be_admin_ids env) t.
Definition ensure_user (p : profile) : BM account :=
  let! existing := user_by_id env (pf_id p) in
  let role := if is_admin_id (pf_id p) then SUPERADMIN
              else match existing with Some a => ac_role a | None => PENDING_USER end in
  let! t := now env in
  let! a := upsert_profile env p role t in
  if is_admin_id (pf_id p) && negb (bool_decide (ac_role a = SUPERADMIN)) then
    let! t := now env in
    store_role env (pf_id p) SUPERADMIN t None ;;!
    get_user (pf_id p)
  else ret a.

Definition set_language (actor : Z) (language : option str) : BM account :=
  let! _ := require_approved_or_admin actor in
  match language with
  | Some l => if in_strs l [py "ru"; py "en"] then ret tt else raise (Refused BadLanguage)
  | None => ret tt
  end ;;!
  let! t := now env in
  store_language env actor language t ;;!
  get_user actor.
Definition set_expiry_notifications (actor : Z) (enabled : bool) : BM account :=
  let! _ := require_approved_or_admin actor in
  let! t := now env in
  store_expiry_notifications env actor enabled t ;;!
  get_user actor.
(** [NotesService.update_user_note] *)
Definition update_user_note (actor target : Z) (note : option str) : BM unit :=
  let! _ := require_superadmin actor in
  let! found := user_by_id env target in
  match found with
  | None => raise (Missing NoUser)
  | Some _ =>
      match normalize_note note with
      | Err _ => raise BadNoteText
      | Ok clean =>
          let! t := now env in
          store_note env target clean t ;;!
          audit_best_effort env (Some actor) (py "user_note_updated") (OnUser target) 0
      end
  end.
(** [NotesService.update_key_note] *)
Definition update_key_note (actor id : Z) (note : option str) : BM unit :=
  let! _ := require_approved_or_admin actor in
  let! found := on_rows (get_by_id id) in
  match found with
  | None => raise (Missing NoKey)
  | Some k =>
      if negb (k_owner k =? actor) then raise (Denied OwnNotesOnly)
      else
        match normalize_note note with
        | Err _ => raise BadNoteText
        | Ok clean =>
            let! t := now env in
            on_rows (update_note id clean t) ;;!
            audit_best_effort env (Some actor) (py "note_updated") (OnKey id) 0
        end
  end.

Definition set_role (actor target : Z) (role : user_role) : BM unit :=
  let! _ := require_superadmin actor in
  if bool_decide (role = BLOCKED_USER) then raise (Refused UseBlockUser)
  else if is_admin_id target && negb (bool_decide (role = SUPERADMIN)) then raise (Refused AdminIdsRole)
  else
    let! current := get_user target in
    if bool_decide (ac_role current = SUPERADMIN) && negb (bool_decide (role = SUPERADMIN))
    then raise (Refused SuperadminRole)
    else
      let action := if bool_decide (role = APPROVED_USER) && blocked current
                    then py "user_unblocked" else py "user_role_changed" in
      transaction env (
        let! t := now env in
        store_role env target role t None ;;!
        audit env (Some actor) action (OnUser target) 0) ;;!
      if bool_decide (role ∈ [APPROVED_USER; PENDING_USER]) then clear_user_state target else ret tt.

(** ** Access requests *)

(** [_request_is_after_block] *)
Definition request_is_after_block (blocked_at : option str) (requested_at : str) : bool :=
  match given blocked_at with
  | None => false
  | Some at_ =>
      match fromisoformat at_, fromisoformat requested_at with
      | Some b, Some r => instant (assume_utc b) <? instant (assume_utc r)
      | _, _ => false
      end
  end.
Record approval := Approval { ap_user : account; ap_changed : bool; ap_after_block : bool }.
Definition approve_access_request_user (actor target : Z) (requested_at : str) : BM approval :=
  let! _ := require_moderator_or_admin actor in
  let! current := get_user target in
  if is_admin_id target || bool_decide (ac_role current = SUPERADMIN) then ret (Approval current false false)
  else
    let repeat_after_block := blocked current in
    if repeat_after_block && negb (request_is_after_block (ac_blocked_at current) requested_at)
    then raise (Refused BlockedNeedsUnblock)
    else if bool_decide (ac_role current = APPROVED_USER) && negb repeat_after_block
    then ret (Approval current false false)
    else if bool_decide (ac_role current = MODERATOR) then ret (Approval current false false)
    else if negb (bool_decide (ac_role current ∈ [PENDING_USER; APPROVED_USER; BLOCKED_USER]))
    then raise (Refused RoleCannotApprove)
    else
      let! t := now env in
      store_role env target APPROVED_USER t None ;;!
      clear_user_state target ;;!
      let! a := get_user target in
      ret (Approval a true repeat_after_block).
(** The user is never changed by a rejection. *)
Definition reject_access_request_user (actor target : Z) : BM (option account) :=
  let! _ := require_moderator_or_admin actor in
  let! found := user_by_id env target in
  match found with
  | None => ret None
  | Some a =>
      if bool_decide (ac_role a ∈ [SUPERADMIN; MODERATOR; APPROVED_USER]) || blocked a then ret (Some a)
      else if negb (bool_decide (ac_role a = PENDING_USER)) then raise (Refused RoleCannotReject)
      else ret (Some a)
  end.

(** [AccessApprovalService] *)
Record request_result := RequestResult {
  rr_user : account; rr_request : option access_request; rr_created : bool }.
Definition has_access (a : account) : bool :=
  bool_decide (ac_role a = SUPERADMIN)
  || (bool_decide (ac_role a ∈ [APPROVED_USER; MODERATOR]) && negb (blocked a)).
Definition create_or_get_request (p : profile) : BM request_result :=
  transaction env (
    let! a := ensure_user p in
    if has_access a then ret (RequestResult a None false)
    else
      let! pending := pending_for_user env (pf_id p) in
      match pending with
      | Some r => ret (RequestResult a (Some r) false)
      | None =>
          let! t := now env in
          let! created := create_pending_idempotent env (pf_id p) (pf_username p) t in
          let '(r, is_new) := created in
          (if is_new : bool then audit env (Some (pf_id p)) (py "access_requested") (OnRequest (rq_id r)) 0
           else ret tt) ;;!
          ret (RequestResult a (Some r) is_new)
      end).
Definition require_request (id : Z) : BM access_request :=
  let! found := request_by_id env id in
  match found with Some r => ret r | None => raise (Missing NoRequest) end.
Definition settle_request (actor id : Z) (status : request_status) (action : str) (effect : access_request -> BM unit)
    : BM (access_request * bool) :=
  let! _ := require_moderator_or_admin actor in
  transaction env (
    let! r := require_request id in
    let! t := now env in
    let! changed := set_status_if_pending env id status actor t in
    (if changed : bool then effect r ;;! audit env (Some actor) action (OnRequest id) 0 else ret tt) ;;!
    let! refreshed := require_request id in
    ret (refreshed, changed)).
Definition approve (actor id : Z) : BM (access_request * bool) :=
  settle_request actor id RequestApproved (py "access_approved")
    (fun r => let! _ := approve_access_request_user actor (rq_user r) (rq_requested_at r) in ret tt).
Definition reject (actor id : Z) : BM (access_request * bool) :=
  settle_request actor id RequestRejected (py "access_rejected")
    (fun r => let! _ := reject_access_request_user actor (rq_user r) in ret tt).
Definition count_pending (actor : Z) : BM nat :=
  let! _ := require_moderator_or_admin actor in count_requests env RequestPending.
Definition list_pending (actor limit offset : Z) : BM (list access_request) :=
  let! _ := require_moderator_or_admin actor in requests_by_status env RequestPending limit offset.
Definition get_request (actor id : Z) : BM access_request :=
  let! _ := require_moderator_or_admin actor in require_request id.
Definition check_access (actor : Z) : BM user_role :=
  let! a := get_user actor in
  if blocked a then raise (Refused UserIsBlocked) else ret (ac_role a).

(** ** Blocking *)

(** The loop of [_revoke_all_access_keys] and of [_revoke_all_proxy_accesses]: list
    the rows in which access may exist, try the ones that have not had their turn,
    and again. *)
Section RevokeAll.
Context {A : Type} (id_of : A -> Z) (type_of : A -> backend) (listing : BM (list A))
        (revoker : A -> option (BM unit)).
Fixpoint revoke_pending (pending : list A) (p : progress) : BM progress :=
  match pending with
  | [] => ret p
  | r :: rest =>
      match revoker r with
      | None => revoke_pending rest (note_failure (id_of r) (type_of r) NoRevoker p)
      | Some revoke =>
          let! outcome := attempt revoke in
          revoke_pending rest
            (match outcome with
             | Ok _ => note_success (id_of r) p
             | Err e => note_failure (id_of r) (type_of r) (RevokeFailed e) p
             end)
      end
  end.
Fixpoint revoke_all (fuel : nat) (p : progress) : BM progress :=
  match fuel with
  | O => raise Unfinished
  | S fuel' =>
      let! rows := listing in
      match rows with
      | [] => ret p
      | _ =>
          match List.filter (fun r => negb (seen p (id_of r))) rows with
          | [] => ret (note_stuck id_of type_of rows p)
          | pending => let! p' := revoke_pending pending p in revoke_all fuel' p'
          end
      end
  end.
End RevokeAll.

Context (key_revoker : key_type -> option (Z -> Z -> BM unit))
        (proxy_revoker : proxy_type -> option (Z -> Z -> BM unit)).
Definition revoke_all_access_keys (actor target : Z) (fuel : nat) (errors : list op_error) : BM progress :=
  revoke_all k_id (fun k => Vpn (k_type k))
    (keys_by_owner_statuses target KEY_MAY_EXIST 500 0)
    (fun k => option_map (fun revoke => revoke actor (k_id k)) (key_revoker (k_type k)))
    fuel (Progress [] errors [] []).
Definition revoke_all_proxy_accesses (actor target : Z) (fuel : nat) (errors : list op_error) : BM progress :=
  revoke_all px_id (fun a => proxy_backend (px_type a))
    (proxies_by_owner_statuses env target PROXY_MAY_EXIST 500 0)
    (fun a => option_map (fun revoke => revoke actor (px_id a)) (proxy_revoker (px_type a)))
    fuel (Progress [] errors [] []).
Definition keys_wired : bool := existsb (fun t => bool_decide (is_Some (key_revoker t))) [XRAY; AWG; HYSTERIA2].
Definition proxies_wired : bool := existsb (fun t => bool_decide (is_Some (proxy_revoker t))) [SOCKS5; MTPROTO].

(** One turn more than there are rows: each turn but the last takes a row that has
    not had one. *)
Definition key_turns : BM nat := gets (fun w => S (length (kt_rows (bw_keys w)))).
Definition proxy_turns : BM nat := gets (fun w => S (length (sr_rows (bt_proxies (bw_tables w))))).
Definition revoke_everything (actor target : Z) : BM (list Z * list op_error * list Z) :=
  let! keys :=
    (if keys_wired then let! n := key_turns in revoke_all_access_keys actor target n []
     else ret (Progress [] [OpError 0 (Vpn XRAY) Unwired] [] [])) in
  if proxies_wired then
    let! n := proxy_turns in
    let! proxies := revoke_all_proxy_accesses actor target n (pg_errors keys) in
    ret (pg_revoked keys, pg_errors proxies, pg_revoked proxies)
  else ret (pg_revoked keys, pg_errors keys, []).
Definition block_user (actor target : Z) (revoke_active_keys : bool) : BM block_result :=
  let! a := require_moderator_or_admin actor in
  if is_admin_id target then raise (Refused BlockAdminIds)
  else
    let! t := get_user target in
    if bool_decide (ac_role t = SUPERADMIN) then raise (Refused BlockSuperadmin)
    else if bool_decide (ac_role a = MODERATOR) && bool_decide (ac_role t = MODERATOR)
    then raise (Denied ModeratorOnModerator)
    else
      let! at_ := now env in
      store_role env target BLOCKED_USER at_ (Some at_) ;;!
      audit_best_effort env (Some actor) USER_BLOCKED (OnUser target) 0 ;;!
      clear_user_state target ;;!
      let! done := (if revoke_active_keys then revoke_everything actor target else ret ([], [], [])) in
      let '(keys, errors, proxies) := done in
      audit_best_effort env (Some actor) (match errors with [] => USER_BLOCKED | _ => BLOCKED_WITH_ERRORS end)
        (OnUser target) (Z.of_nat (length errors)) ;;!
      let! u := get_user target in
      ret (BlockResult u keys errors proxies).

Definition unblock_user (actor target : Z) : BM account :=
  let! _ := require_moderator_or_admin actor in
  if is_admin_id target then raise (Refused AdminIdsRole)
  else
    let! t := get_user target in
    if bool_decide (ac_role t = SUPERADMIN) then raise (Refused SuperadminRole)
    else
      transaction env (
        let! t := now env in
        store_role env target APPROVED_USER t None ;;!
        audit env (Some actor) (py "user_unblocked") (OnUser target) 0) ;;!
      clear_user_state target ;;!
      get_user target.

(** [_last_block_revoke_error]: the newest of the last five blocks that had errors. *)
Definition block_had_errors (r : audit_row) : bool :=
  in_strs (au_action r) BLOCK_REVOKE_ERROR_ACTIONS || (0 <? Z.max (au_error_count r) 0).
Definition last_block_revoke_error (target : Z) : BM (Z * option str) :=
  let! items := recent_for_entity env (OnUser target) BLOCK_REVOKE_LOOKUP_ACTIONS 5 in
  ret (match List.find block_had_errors items with
       | Some r => (Z.max (Z.max (au_error_count r) 0) 1, given (Some (au_at r)))
       | None => (0, None)
       end).
Definition inspect_unblock_risk (actor target : Z) : BM unblock_warning :=
  let! _ := require_moderator_or_admin actor in
  if is_admin_id target then raise (Refused AdminIdsRole)
  else
    let! t := get_user target in
    if bool_decide (ac_role t = SUPERADMIN) then raise (Refused SuperadminRole)
    else
      let! keys := count_by_owner_statuses target KEY_MAY_EXIST in
      let! proxies := proxies_by_owner_statuses env target (PROXY_MAY_EXIST ++ [ProxyInactive]) 500 0 in
      let! errors := last_block_revoke_error target in
      let active := (keys + length proxies)%nat in
      ret (UnblockWarning t (negb (errors.1 =? 0) || negb (active =? 0)%nat) active errors.1 errors.2).
End Accounts.
