(* ===== verification/AccountSafety.v ===== *)
(** * What the accounts promise

    Roles change only by those who may change them, whatever is asked and whichever
    statement fails; a decision is made whole or not at all; a block takes effect
    at once and accounts for every key and proxy access that outlives it. *)

From S2P Require Import Prelude PyText Json IsoTime AwgConfig VpnKeys BackendHealth AwgService BotDb Accounts.
#[local] Open Scope Z_scope.

(** ** Worlds *)

Section Worlds.
Context {X : Type}.
Implicit Types w : bot_world X.
Abbreviation BM := (M (bot_world X) bot_error) (only parsing).

Definition users_in w : gmap Z account := bt_users (bw_tables w).
Definition role_in w (id : Z) : option user_role := ac_role <$> users_in w !! id.

(** What a transaction may take back: a relation that only looks at the tables. *)
Definition about_tables (R : bot_world X -> bot_world X -> Prop) : Prop :=
  forall w w', bw_tables w' = bw_tables w -> kt_rows (bw_keys w') = kt_rows (bw_keys w) -> R w w'.

Context (env : bot_env).
Lemma ask_stores {A} (f : nat -> A) w : bw_tables (ask (X := X) f w).2 = bw_tables w /\ bw_keys (ask (X := X) f w).2 = bw_keys w.
Proof. done. Qed.
Lemma sql_run w r w' : sql env w = (r, w') -> bw_tables w' = bw_tables w /\ bw_keys w' = bw_keys w.
Proof. unfold sql, bind, ask, ret, raise. destruct (be_db _ _); intros [= _ <-]; done. Qed.
Lemma select_run {A} (f : bot_tables -> A) w r w' : select env f w = (r, w') ->
  bw_tables w' = bw_tables w /\ bw_keys w' = bw_keys w /\ forall a, r = Ok a -> a = f (bw_tables w).
Proof.
  unfold select. intros [([] & w1 & [H1 H2]%sql_run & H3)|(e & [H1 H2]%sql_run & ->)]%bind_inv.
  - injection H3 as <- <-. split; [done|]. split; [done|]. intros a [= <-]. by rewrite H1.
  - split; [done|]. split; [done|]. by intros.
Qed.

Section Keeping.
Context (R : bot_world X -> bot_world X -> Prop) `{!PreOrder R} (HR : about_tables R).
Lemma bot_keeps_ask {A} (f : nat -> A) : keeps R (ask (X := X) f).
Proof using HR. intros w. by apply HR. Qed.
Lemma bot_keeps_sql : keeps R (sql env).
Proof using HR. intros w. destruct (sql env w) as [r w'] eqn:E. apply sql_run in E as [H1 H2]. apply HR; cbn; congruence. Qed.
Lemma bot_keeps_now : keeps R (now env).
Proof using HR. apply bot_keeps_ask. Qed.
Lemma bot_keeps_select {A} (f : bot_tables -> A) : keeps R (select env f).
Proof using HR. intros w. destruct (select env f w) as [r w'] eqn:E. apply select_run in E as (H1 & H2 & _). apply HR; cbn; congruence. Qed.
Lemma bot_keeps_get : keeps R (get (S := bot_world X) (E := bot_error)).
Proof using HR. intros w. by apply HR. Qed.
Lemma bot_keeps_clear id : keeps R (clear_user_state (X := X) id).
Proof using HR. intros w. by apply HR. Qed.
Lemma bot_keeps_transaction {A} (m : BM A) : keeps R m -> keeps R (transaction env m).
Proof using PreOrder0 HR.
  intros Hm. unfold transaction. apply keeps_bind; [done|apply bot_keeps_sql|]. intros _ w. specialize (Hm w).
  destruct (m w) as [[a|e] w'] eqn:E; [done|]. by apply HR.
Qed.
Lemma bot_keeps_rows {A} (m : M key_table key_error A) :
  (forall t, kt_rows (m t).2 = kt_rows t) -> keeps R (on_rows (X := X) m).
Proof using HR. intros Hm. apply keeps_embed. intros w. apply HR; [done|]. cbn. apply Hm. Qed.
Lemma bot_keeps_audit actor action entity n :
  (forall f, keeps R (set_tables (X := X) (set_audit f))) -> keeps R (audit env actor action entity n).
Proof using PreOrder0 HR.
  intros Hs. unfold audit, write. apply keeps_bind; [done|apply bot_keeps_now|]. intros t.
  apply keeps_bind; [done|apply bot_keeps_ask|]. intros b. apply keeps_bind; [done|apply bot_keeps_sql|]. by intros.
Qed.
End Keeping.

(** ** Who may change a role *)

(** Nobody's standing changes. *)
Definition same_users w w' : Prop := users_in w' = users_in w.
#[export] Instance same_users_pre : PreOrder same_users.
Proof. split; [by intros w|]. intros a b c H1 H2. unfold same_users in *. congruence. Qed.
Lemma same_users_about : about_tables same_users.
Proof. intros w w' H _. unfold same_users, users_in. by rewrite H. Qed.
(** Roles stay, except that those that satisfy [Q] may become [role]. *)
Definition recast (Q : Z -> user_role -> Prop) (role : user_role) w w' : Prop := forall id,
  role_in w' id = role_in w id
  \/ exists r, role_in w id = Some r /\ Q id r /\ role_in w' id = Some role.
#[export] Instance recast_pre Q role : PreOrder (recast Q role).
Proof.
  split; [by left|]. intros a b c H1 H2 id. specialize (H1 id). specialize (H2 id).
  destruct H1 as [E1|(r & Er & HQ & E1)], H2 as [E2|(r2 & Er2 & HQ2 & E2)];
    [left; congruence|right; exists r2; split; [congruence|done]|right; exists r; split; [done|]; split; congruence..].
Qed.
Lemma recast_about Q role : about_tables (recast Q role).
Proof. intros w w' H _ id. left. unfold role_in, users_in. by rewrite H. Qed.
Lemma same_recast Q role w w' : same_users w w' -> recast Q role w w'.
Proof. intros H id. left. unfold role_in. by rewrite H. Qed.
Definition just (target : Z) : Z -> user_role -> Prop := fun id _ => id = target.
(** What the guards have established of the target. *)
Lemma recast_target Q target role w w1 w' : same_users w w1 -> (forall r, role_in w target = Some r -> Q target r) ->
  recast (just target) role w1 w' -> recast Q role w w'.
Proof.
  intros Hs HQ H id. unfold role_in in *. rewrite <- Hs in *.
  destruct (H id) as [E|(r & Er & Ht & E)]; [by left|]. unfold just in Ht. subst id. right. exists r. auto.
Qed.

Lemma user_by_id_run id w r w' : user_by_id env id w = (r, w') ->
  same_users w w' /\ bw_keys w' = bw_keys w /\ forall o, r = Ok o -> o = users_in w !! id.
Proof.
  intros (H1 & H2 & H3)%select_run. split; [unfold same_users, users_in; by rewrite H1|]. split; [done|]. exact H3.
Qed.
Lemma get_user_run id w r w' : get_user env id w = (r, w') ->
  same_users w w' /\ forall a, r = Ok a -> users_in w !! id = Some a.
Proof.
  unfold get_user. intros [(o & w1 & (H1 & _ & H2)%user_by_id_run & H3)|(e & (H1 & _)%user_by_id_run & ->)]%bind_inv.
  - specialize (H2 _ eq_refl). subst o. destruct (users_in w !! id); injection H3 as <- <-; split; try done; by intros ? [= <-].
  - split; [done|by intros].
Qed.
Lemma require_staff_run actor w r w' : require_moderator_or_admin env actor w = (r, w') ->
  same_users w w' /\ forall a, r = Ok a -> users_in w !! actor = Some a /\ ac_role a ∈ [SUPERADMIN; MODERATOR].
Proof.
  unfold require_moderator_or_admin. intros [(a & w1 & [H1 H2]%get_user_run & H3)|(e & [H1 _]%get_user_run & ->)]%bind_inv.
  - specialize (H2 _ eq_refl). revert H3. case_bool_decide; intros [= <- <-]; (split; [done|]); [|by intros].
    by intros ? [= <-].
  - split; [done|by intros].
Qed.
Lemma require_superadmin_run actor w r w' : require_superadmin env actor w = (r, w') ->
  same_users w w' /\ forall a, r = Ok a -> users_in w !! actor = Some a /\ ac_role a = SUPERADMIN.
Proof.
  unfold require_superadmin. intros [(a & w1 & [H1 H2]%get_user_run & H3)|(e & [H1 _]%get_user_run & ->)]%bind_inv.
  - specialize (H2 _ eq_refl). revert H3. case_bool_decide; intros [= <- <-]; (split; [done|]); [|by intros].
    by intros ? [= <-].
  - split; [done|by intros].
Qed.

(** An [UPDATE] of one account. *)
Lemma update_user_run id f w r w' : update_user env id f w = (r, w') ->
  (same_users w w' /\ is_ok r = false)
  \/ exists a, users_in w !! id = Some a /\ users_in w' = <[id := f a]> (users_in w) /\ r = Ok tt.
Proof.
  unfold update_user. intros [(o & w1 & (H1 & _ & H2)%select_run & H3)|(e & (H1 & _)%select_run & ->)]%bind_inv.
  - specialize (H2 _ eq_refl). subst o. unfold users_in. destruct (bt_users (bw_tables w) !! id) as [a|].
    + right. exists a. injection H3 as <- <-. cbn. by rewrite H1.
    + left. injection H3 as <- <-. split; [unfold same_users, users_in; by rewrite H1|done].
  - left. split; [unfold same_users, users_in; by rewrite H1|done].
Qed.
Lemma store_role_recast id role t at_ : keeps (recast (just id) role) (store_role env id role t at_).
Proof.
  intros w. destruct (store_role env id role t at_ w) as [r w'] eqn:E.
  apply update_user_run in E as [[H _]|(a & Ha & Hw & _)]; cbn; [by apply same_recast|]. intros j.
  unfold role_in. rewrite Hw. destruct (decide (j = id)) as [->|Hne].
  - right. rewrite Ha, lookup_insert_eq. by exists (ac_role a).
  - left. by rewrite lookup_insert_ne.
Qed.
(** One that leaves the role alone. *)
Definition same_roles w w' : Prop := forall id, role_in w' id = role_in w id.
#[export] Instance same_roles_pre : PreOrder same_roles.
Proof. split; [by intros w id|]. intros a b c H1 H2 id. by rewrite H2. Qed.
Lemma same_roles_about : about_tables same_roles.
Proof. intros w w' H _ id. unfold role_in, users_in. by rewrite H. Qed.
Lemma update_user_same_roles id f : (forall a, ac_role (f a) = ac_role a) -> keeps same_roles (update_user env id f).
Proof.
  intros Hf w. destruct (update_user env id f w) as [r w'] eqn:E.
  apply update_user_run in E as [[H _]|(a & Ha & Hw & _)]; cbn; intros j; unfold role_in; [by rewrite H|].
  rewrite Hw. destruct (decide (j = id)) as [->|Hne].
  - rewrite Ha, lookup_insert_eq. cbn. by rewrite Hf.
  - by rewrite lookup_insert_ne.
Qed.
Lemma audit_same_users actor action entity n : keeps same_users (audit env actor action entity n).
Proof. apply bot_keeps_audit; [apply _|apply same_users_about|]. by intros f w. Qed.
Lemma audit_recast Q role actor action entity n : keeps (recast Q role) (audit env actor action entity n).
Proof. intros w. apply same_recast, audit_same_users. Qed.
End Worlds.

(** What a service hands in as a revoker leaves the accounts and the requests alone, and
    gives nobody a new key or proxy access. *)
Definition ids_in {X} (w : bot_world X) : list Z := map k_id (kt_rows (bw_keys w)).
Definition proxy_ids_in {X} (w : bot_world X) : list Z := map px_id (sr_rows (bt_proxies (bw_tables w))).
Definition modest {X} (w w' : bot_world X) : Prop :=
  users_in w' = users_in w /\ bt_requests (bw_tables w') = bt_requests (bw_tables w)
  /\ ids_in w' ⊆ ids_in w /\ proxy_ids_in w' ⊆ proxy_ids_in w.
#[export] Instance modest_pre {X} : PreOrder (modest (X := X)).
Proof.
  split; [by intros w|]. intros a b c (H1 & H2 & H3 & H4) (K1 & K2 & K3 & K4). unfold modest.
  split; [congruence|]. split; [congruence|]. split; etransitivity; eauto.
Qed.
Class ModestRevokers {X} (key_revoker : key_type -> option (Z -> Z -> M (bot_world X) bot_error unit))
    (proxy_revoker : proxy_type -> option (Z -> Z -> M (bot_world X) bot_error unit)) : Prop := {
  key_revoker_modest t f actor id : key_revoker t = Some f -> keeps modest (f actor id);
  proxy_revoker_modest t f actor id : proxy_revoker t = Some f ->
    keeps (fun w w' => modest w w' /\ kt_rows (bw_keys w') = kt_rows (bw_keys w)) (f actor id) }.

(** ** Everything that is asked of the accounts *)

Inductive account_op :=
  | EnsureUser (p : profile) | BootstrapAdmins
  | SetLanguage (actor : Z) (language : option str) | SetExpiryNotifications (actor : Z) (enabled : bool)
  | UserNote (actor target : Z) (note : option str) | KeyNote (actor id : Z) (note : option str)
  | SetRole (actor target : Z) (role : user_role)
  | RequestAccess (p : profile) | Approve (actor id : Z) | Reject (actor id : Z)
  | BlockUser (actor target : Z) (revoke_keys : bool) | UnblockUser (actor target : Z).
Definition actor_of (op : account_op) : option Z :=
  match op with
  | EnsureUser _ | BootstrapAdmins | RequestAccess _ => None
  | SetLanguage a _ | SetExpiryNotifications a _ | UserNote a _ _ | KeyNote a _ _ | SetRole a _ _
  | Approve a _ | Reject a _ | BlockUser a _ _ | UnblockUser a _ => Some a
  end.

Section Ops.
Context {X : Type} `{iso : !IsoText} (env : bot_env).
Context (key_revoker : key_type -> option (Z -> Z -> M (bot_world X) bot_error unit))
        (proxy_revoker : proxy_type -> option (Z -> Z -> M (bot_world X) bot_error unit)).
Abbreviation BM := (M (bot_world X) bot_error) (only parsing).
Implicit Types w : bot_world X.

Definition discard {A} (m : BM A) : BM unit := let! _ := m in ret tt.
Definition perform (op : account_op) : BM unit :=
  match op with
  | EnsureUser p => discard (ensure_user env p)
  | BootstrapAdmins => bootstrap_admins env
  | SetLanguage a l => discard (set_language env a l)
  | SetExpiryNotifications a b => discard (set_expiry_notifications env a b)
  | UserNote a t n => update_user_note env a t n
  | KeyNote a id n => update_key_note env a id n
  | SetRole a t r => set_role env a t r
  | RequestAccess p => discard (create_or_get_request env p)
  | Approve a id => discard (approve env a id)
  | Reject a id => discard (reject env a id)
  | BlockUser a t b => discard (block_user env key_revoker proxy_revoker a t b)
  | UnblockUser a t => discard (unblock_user env a t)
  end.

(** Who may come to have the role [r]: a newcomer is [PENDING_USER]; the ids of the
    settings are superadmins, and nobody else changes them; the rest is done by
    superadmins, who do not touch one another, and by moderators, who approve
    and block, but block no moderator. *)
Definition authorised w (op : account_op) (id : Z) (after : option user_role) : Prop :=
  match role_in w id, after with
  | None, Some r => r = PENDING_USER \/ is_admin_id env id = true /\ r = SUPERADMIN
  | Some before, Some r =>
      before <> SUPERADMIN
      /\ (is_admin_id env id = true -> r = SUPERADMIN)
      /\ (is_admin_id env id = true \/ exists actor, actor_of op = Some actor /\
            match role_in w actor with
            | Some SUPERADMIN => True
            | Some MODERATOR => r = APPROVED_USER \/ r = BLOCKED_USER /\ before <> MODERATOR
            | _ => False
            end)
  | _, None => False
  end.
Definition lawful (op : account_op) w w' : Prop :=
  forall id, role_in w' id <> role_in w id -> authorised w op id (role_in w' id).
Lemma lawful_same op w w' : same_roles w w' -> lawful op w w'.
Proof. intros H id Hne. by destruct Hne. Qed.
Lemma lawful_recast op Q role w w' : recast Q role w w' ->
  (forall id r, role_in w id = Some r -> Q id r -> authorised w op id (Some role)) -> lawful op w w'.
Proof.
  intros H HQ id Hne. destruct (H id) as [E|(r & Er & Hq & E)]; [done|]. rewrite E. by eapply HQ.
Qed.

(** *** The operations that leave roles alone *)

#[local] Hint Extern 1 (PreOrder _) => typeclasses eauto : keeps.
#[local] Hint Resolve bot_keeps_ask bot_keeps_sql bot_keeps_now bot_keeps_select bot_keeps_get bot_keeps_clear
  same_users_about same_roles_about recast_about : keeps.
Lemma audit_same_roles actor action entity n : keeps same_roles (audit (X := X) env actor action entity n).
Proof. intros w id. unfold role_in. by rewrite (audit_same_users env actor action entity n w). Qed.
#[local] Hint Resolve audit_same_users audit_same_roles audit_recast store_role_recast : keeps.
Lemma user_by_id_same R `{!PreOrder R} id : about_tables R -> keeps R (user_by_id (X := X) env id).
Proof. intros HR. by apply bot_keeps_select. Qed.
#[local] Hint Resolve user_by_id_same : keeps.
Lemma get_user_same R `{!PreOrder R} id : about_tables R -> keeps R (get_user (X := X) env id).
Proof. intros HR. unfold get_user. keeps_tac. Qed.
#[local] Hint Resolve get_user_same : keeps.
Lemma best_effort_same R `{!PreOrder R} actor action entity n :
  keeps R (audit (X := X) env actor action entity n) -> keeps R (audit_best_effort env actor action entity n).
Proof. intros HR. unfold audit_best_effort. keeps_tac. Qed.
#[local] Hint Resolve best_effort_same : keeps.
Lemma approved_same R `{!PreOrder R} actor : about_tables R -> keeps R (require_approved_or_admin (X := X) env actor).
Proof. intros HR. unfold require_approved_or_admin. keeps_tac. Qed.
Lemma superadmin_same R `{!PreOrder R} actor : about_tables R -> keeps R (require_superadmin (X := X) env actor).
Proof. intros HR. unfold require_superadmin. keeps_tac. Qed.
Lemma staff_same R `{!PreOrder R} actor : about_tables R -> keeps R (require_moderator_or_admin (X := X) env actor).
Proof. intros HR. unfold require_moderator_or_admin. keeps_tac. Qed.
#[local] Hint Resolve approved_same superadmin_same staff_same : keeps.
Lemma key_note_same_rows id note t : keeps same_users (on_rows (X := X) (update_note id note t)).
Proof. apply keeps_embed. by intros w. Qed.
Lemma get_by_id_rows id t : kt_rows (get_by_id id t).2 = kt_rows t.
Proof. unfold get_by_id, find_row, statement, bind, gets. by destruct (kt_ok t (kt_tick t)). Qed.
Lemma get_by_id_same R `{!PreOrder R} id : about_tables R -> keeps R (on_rows (X := X) (get_by_id id)).
Proof. intros HR. apply bot_keeps_rows; [done|]. intros t. apply get_by_id_rows. Qed.
#[local] Hint Resolve get_by_id_same : keeps.
Lemma key_note_same_roles id note t : keeps same_roles (on_rows (X := X) (update_note id note t)).
Proof. apply keeps_embed. by intros w. Qed.
#[local] Hint Resolve key_note_same_roles : keeps.

Lemma plain_ops_same_roles op :
  match op with SetLanguage _ _ | SetExpiryNotifications _ _ | UserNote _ _ _ | KeyNote _ _ _ => True | _ => False end ->
  keeps same_roles (perform op).
Proof.
  destruct op; try done; intros _; cbn [perform]; unfold discard, set_language, set_expiry_notifications,
    update_user_note, update_key_note, store_language, store_expiry_notifications, store_note; keeps_tac;
    by apply update_user_same_roles.
Qed.
Lemma reject_same_roles actor target : keeps same_roles (reject_access_request_user (X := X) env actor target).
Proof. unfold reject_access_request_user. keeps_tac. Qed.

(** *** The operations that change one *)

Lemma same_users_lawful op w w' : same_users w w' -> lawful op w w'.
Proof. intros H. apply lawful_same. intros id. unfold role_in. by rewrite H. Qed.
(** The guards have passed: an actor of the staff, a target that is no superadmin. *)
Lemma guarded_lawful {A} op actor target a t c (m : BM A) w w1 r w' :
  m w1 = (r, w') -> keeps (recast (just target) c) m ->
  actor_of op = Some actor -> users_in w1 = users_in w ->
  users_in w !! actor = Some a -> users_in w !! target = Some t -> ac_role t <> SUPERADMIN \/ c = SUPERADMIN ->
  (is_admin_id env target = true -> c = SUPERADMIN) ->
  ac_role a = SUPERADMIN \/ ac_role a = MODERATOR /\ (c = APPROVED_USER \/ c = BLOCKED_USER /\ ac_role t <> MODERATOR) ->
  lawful op w w'.
Proof.
  intros E Hk Hop Hs Ha Ht Hne Hadm Hstaff. pose proof (keeps_run _ _ _ _ _ Hk E) as Hr. intros id Hid.
  destruct (Hr id) as [Es|(r0 & Er & Hj & Ec)]; [unfold role_in in *; by rewrite Es, Hs in Hid|].
  unfold just in Hj. subst id. unfold authorised. rewrite Ec in *. unfold role_in in *. rewrite Hs, Ht in *. cbn in *.
  injection Er as <-. split; [intros E1; by destruct Hne, Hid; congruence|]. split; [done|]. right. exists actor.
  split; [done|]. rewrite Ha. cbn. by destruct Hstaff as [->|[-> ?]].
Qed.
(** Peel a guard off a run. *)
Ltac peel E lem H :=
  let Hs := fresh "Hs" in
  apply bind_inv in E as [(? & ? & H%lem & E)|(? & H%lem & ->)]; destruct H as [Hs H]; unfold same_users in Hs;
  [specialize (H _ eq_refl)|];
  repeat match goal with
  | H1 : users_in ?v = users_in _, H2 : users_in _ = users_in ?v |- _ =>
      try rewrite H1 in H; rewrite H1 in H2; clear H1
  end;
  [|by apply same_users_lawful].
(** A refusal. *)
Ltac refused E := injection E as _ <-; by apply same_users_lawful.

Lemma set_role_lawful actor target role w : lawful (SetRole actor target role) w (perform (SetRole actor target role) w).2.
Proof.
  destruct (perform _ w) as [r w'] eqn:E. cbn in E |- *. unfold set_role in E.
  peel E @require_superadmin_run Ha. destruct Ha as [Ha Hsup].
  case_bool_decide as Hb; [refused E|].
  destruct (is_admin_id env target && _) eqn:Had; [refused E|].
  peel E @get_user_run Hc.
  destruct (bool_decide (ac_role _ = SUPERADMIN) && _) eqn:Hcs; [refused E|].
  eapply (guarded_lawful _ actor target _ _ role _ _ _ _ _ E); eauto.
  - keeps_tac. apply bot_keeps_transaction; [apply _|apply recast_about|]. keeps_tac.
  - apply andb_false_iff in Hcs as [?|?]; bool_prop; auto.
  - intros Hadm. rewrite Hadm in Had. cbn in Had. by bool_prop.
Qed.
Lemma discard_run {A} (m : BM A) w : (discard m w).2 = (m w).2.
Proof. unfold discard, bind, ret. by destruct (m w) as [[a|e] w']. Qed.
Lemma unblock_lawful actor target w : lawful (UnblockUser actor target) w (perform (UnblockUser actor target) w).2.
Proof.
  cbn [perform]. rewrite discard_run. destruct (unblock_user env actor target w) as [r w'] eqn:E. cbn. unfold unblock_user in E.
  peel E @require_staff_run Ha. destruct Ha as [Ha Hsup].
  destruct (is_admin_id env target) eqn:Had; [refused E|].
  peel E @get_user_run Hc. case_bool_decide as Hcs; [refused E|].
  eapply (guarded_lawful _ actor target _ _ APPROVED_USER _ _ _ _ _ E); eauto.
  - keeps_tac. apply bot_keeps_transaction; [apply _|apply recast_about|]. keeps_tac.
  - congruence.
  - set_solver.
Qed.

(** The roles an approval may change. *)
Definition approvable (id : Z) (r : user_role) : Prop :=
  is_admin_id env id = false /\ r <> SUPERADMIN /\ r <> MODERATOR.
Lemma approve_user_recast actor target at_ : keeps (recast approvable APPROVED_USER) (approve_access_request_user (X := X) env actor target at_).
Proof.
  intros w. destruct (approve_access_request_user env actor target at_ w) as [r w'] eqn:E. cbn.
  assert (forall w', users_in w' = users_in w -> recast approvable APPROVED_USER w w') as Hsame by (intros; by apply same_recast).
  unfold approve_access_request_user in E.
  apply bind_inv in E as [(a & w1 & [H1 _]%require_staff_run & E)|(e & [H1 _]%require_staff_run & ->)]; [|by apply Hsame].
  apply bind_inv in E as [(c & w2 & [H2 Hc]%get_user_run & E)|(e & [H2 _]%get_user_run & ->)];
    unfold same_users in *; rewrite H1 in *; [|by apply Hsame].
  specialize (Hc _ eq_refl).
  destruct (is_admin_id env target || _) eqn:Had; [injection E as _ <-; by apply Hsame|].
  destruct (blocked c && _); [injection E as _ <-; by apply Hsame|].
  destruct (bool_decide (ac_role c = APPROVED_USER) && _); [injection E as _ <-; by apply Hsame|].
  case_bool_decide as Hmod; [injection E as _ <-; by apply Hsame|].
  destruct (negb _); [injection E as _ <-; by apply Hsame|]. bool_prop.
  eapply (recast_target _ target _ _ w2); [done| |].
  - intros r0. unfold role_in. rewrite Hc. intros [= <-]. done.
  - eapply keeps_run; [|exact E]. keeps_tac.
Qed.
Lemma request_set_same R `{!PreOrder R} : about_tables R -> (forall f, keeps R (set_tables (X := X) (set_requests f))) ->
  forall id status actor t, keeps R (set_status_if_pending (X := X) env id status actor t).
Proof. intros HR Hf id status actor t. unfold set_status_if_pending. keeps_tac. Qed.
Lemma settle_keeps R `{!PreOrder R} actor id status action effect :
  about_tables R -> (forall f, keeps R (set_tables (X := X) (set_requests f))) ->
  (forall a b c d, keeps R (audit (X := X) env a b c d)) -> (forall r, keeps R (effect r)) ->
  keeps R (settle_request (X := X) env actor id status action effect).
Proof.
  intros HR Hf Ha He. unfold settle_request. keeps_tac. apply bot_keeps_transaction; [done..|].
  unfold require_request, request_by_id. keeps_tac. by apply request_set_same.
Qed.
Lemma approve_lawful actor id w : lawful (Approve actor id) w (perform (Approve actor id) w).2.
Proof.
  cbn [perform]. rewrite discard_run. destruct (approve env actor id w) as [r w'] eqn:E. cbn.
  assert (recast approvable APPROVED_USER w w') as Hr.
  { eapply keeps_run; [|exact E]. apply settle_keeps; [apply _|apply recast_about|by intros f v; apply same_recast|..].
    - intros. apply audit_recast.
    - intros q. keeps_tac. apply approve_user_recast. }
  unfold approve, settle_request in E. peel E @require_staff_run Ha. destruct Ha as [Ha Hst].
  apply (lawful_recast _ _ _ _ _ Hr). intros j before Hj (Hadm & Hne & Hnm). unfold authorised. rewrite Hj.
  split; [done|]. rewrite Hadm. split; [done|]. right. exists actor. split; [done|]. unfold role_in. rewrite Ha. cbn.
  apply elem_of_cons in Hst as [E1|E1%list_elem_of_singleton]; rewrite E1; [done|by left].
Qed.
Lemma reject_lawful actor id w : lawful (Reject actor id) w (perform (Reject actor id) w).2.
Proof.
  cbn [perform]. rewrite discard_run. apply lawful_same. unfold reject. apply settle_keeps; [apply _|apply same_roles_about| |..].
  - by intros f v j.
  - intros. apply audit_same_roles.
  - intros q. keeps_tac. apply reject_same_roles.
Qed.

(** Blocking: whatever the revokers do, it is not to the accounts. *)
Section Loop.
Context {A : Type} (id_of : A -> Z) (type_of : A -> backend) (listing : BM (list A)) (revoker : A -> option (BM unit)).
Context (R : bot_world X -> bot_world X -> Prop) `{!PreOrder R}
        (Hl : keeps R listing) (Hr : forall a m, revoker a = Some m -> keeps R m).
Lemma revoke_pending_keeps pending : forall p, keeps R (revoke_pending id_of type_of revoker pending p).
Proof using PreOrder0 Hr.
  induction pending as [|a rest IH]; intros p; cbn [revoke_pending]; [by apply keeps_ret|].
  destruct (revoker a) as [m|] eqn:E; [|apply IH]. apply keeps_bind; [done|by eapply keeps_attempt, Hr|]. intros o. apply IH.
Qed.
Lemma revoke_all_keeps fuel : forall p, keeps R (revoke_all id_of type_of listing revoker fuel p).
Proof using PreOrder0 Hl Hr.
  induction fuel as [|fuel IH]; intros p; cbn [revoke_all]; [by apply keeps_raise|].
  apply keeps_bind; [done|done|]. intros [|a rows]; [by apply keeps_ret|].
  destruct (List.filter _ _) as [|b rest]; [by apply keeps_ret|].
  apply keeps_bind; [done|apply revoke_pending_keeps|]. intros p'. apply IH.
Qed.
End Loop.
Lemma keys_listed_same R `{!PreOrder R} target statuses limit offset : about_tables R ->
  keeps R (keys_by_owner_statuses (X := X) target statuses limit offset).
Proof.
  intros HR. unfold keys_by_owner_statuses. keeps_tac. apply bot_keeps_rows; [done|]. intros t.
  unfold statement, bind, gets. by destruct (kt_ok t (kt_tick t)).
Qed.
Lemma proxies_listed_same R `{!PreOrder R} target statuses limit offset : about_tables R ->
  keeps R (proxies_by_owner_statuses (X := X) env target statuses limit offset).
Proof. intros HR. unfold proxies_by_owner_statuses. keeps_tac. Qed.
Lemma revoke_everything_keeps R `{!PreOrder R} actor target : about_tables R ->
  (forall t f a id, key_revoker t = Some f -> keeps R (f a id)) ->
  (forall t f a id, proxy_revoker t = Some f -> keeps R (f a id)) ->
  keeps R (revoke_everything env key_revoker proxy_revoker actor target).
Proof.
  intros HR Hk Hp. unfold revoke_everything, key_turns, proxy_turns, revoke_all_access_keys, revoke_all_proxy_accesses.
  keeps_tac; apply revoke_all_keeps; try done; eauto using keys_listed_same, proxies_listed_same;
    intros ? ? (f & Hf & ->)%fmap_Some; eauto.
Qed.
Context `{!ModestRevokers key_revoker proxy_revoker}.
Lemma revoke_everything_modest actor target : keeps modest (revoke_everything env key_revoker proxy_revoker actor target).
Proof.
  apply revoke_everything_keeps; [apply _| |intros t f a id H w; by eapply key_revoker_modest|].
  - intros w w' H1 H2. unfold modest, users_in, ids_in, proxy_ids_in. by rewrite H1, H2.
  - intros t f a id H w. by eapply (proxy_revoker_modest t f a id H).
Qed.
Lemma block_lawful actor target b w : lawful (BlockUser actor target b) w (perform (BlockUser actor target b) w).2.
Proof.
  cbn [perform]. rewrite discard_run. destruct (block_user _ _ _ actor target b w) as [r w'] eqn:E. cbn. unfold block_user in E.
  peel E @require_staff_run Ha. destruct Ha as [Ha Hst].
  destruct (is_admin_id env target) eqn:Had; [refused E|].
  peel E @get_user_run Hc. case_bool_decide as Hcs; [refused E|].
  destruct (bool_decide (ac_role _ = MODERATOR) && _) eqn:Hmm; [refused E|].
  eapply (guarded_lawful _ actor target _ _ BLOCKED_USER _ _ _ _ _ E); eauto; [| |].
  - keeps_tac. intros v. apply same_recast. by destruct (revoke_everything_modest actor target v).
  - congruence.
  - apply elem_of_cons in Hst as [Hm|Hm%list_elem_of_singleton]; [by left|right]. split; [done|]. right. split; [done|].
    by apply andb_false_iff in Hmm as [?|?]; bool_prop.
Qed.

(** Newcomers. *)
Definition enrolled (id0 : Z) w w' : Prop := forall id, role_in w' id = role_in w id
  \/ (id = id0 /\ if is_admin_id env id then role_in w id <> Some SUPERADMIN /\ role_in w' id = Some SUPERADMIN
                  else role_in w id = None /\ role_in w' id = Some PENDING_USER).
#[local] Instance enrolled_pre id0 : PreOrder (enrolled id0).
Proof.
  split; [by left|]. intros a b c H1 H2 id. specialize (H1 id). specialize (H2 id).
  destruct H1 as [E1|(E0 & E1)], H2 as [E2|(E0' & E2)]; [left; congruence|right; split; [done|]..];
    destruct (is_admin_id env id); intuition congruence.
Qed.
Lemma enrolled_about id0 : about_tables (enrolled id0).
Proof. intros w w' H _ id. left. unfold role_in, users_in. by rewrite H. Qed.
Lemma upsert_run p role t w r w' : upsert_profile env p role t w = (r, w') ->
  (same_users w w' /\ is_ok r = false)
  \/ users_in w' = <[pf_id p := match users_in w !! pf_id p with
                               | Some a => with_profile p t a
                               | None => new_account (pf_id p) (pf_username p) (pf_first_name p) role t
                               end]> (users_in w)
    /\ forall a, r = Ok a -> users_in w' !! pf_id p = Some a.
Proof.
  unfold upsert_profile. intros [([] & w1 & H & E)|(e & H & ->)]%bind_inv.
  - unfold write in H. apply bind_inv in H as [([] & w2 & [H2 _]%sql_run & H)|(e & _ & ?)]; [|done].
    injection H as H1. apply (f_equal users_in) in H1. unfold users_in in H1 at 1. cbn in H1. rewrite H2 in H1. symmetry in H1.
    right. apply bind_inv in E as [(o & w3 & (H3 & _ & Ho)%user_by_id_run & E)|(e & (H3 & _)%user_by_id_run & ->)].
    + specialize (Ho _ eq_refl). unfold same_users in H3.
      assert (w' = w3) as -> by (destruct o; by injection E as _ <-). split; [by rewrite H3|].
      intros a ->. rewrite H3, <- Ho. destruct o; [by injection E as ->|done].
    + split; [by rewrite H3|by intros].
  - left. split; [|done]. apply bind_inv in H as [(? & ? & _ & ?)|(e' & [H _]%sql_run & _)]; [done|].
    unfold same_users, users_in. by rewrite H.
Qed.
Lemma upsert_enrolled p w t w' :
  users_in w' = <[pf_id p := match users_in w !! pf_id p with
                             | Some a => with_profile p t a
                             | None => new_account (pf_id p) (pf_username p) (pf_first_name p)
                                 (if is_admin_id env (pf_id p) then SUPERADMIN else PENDING_USER) t
                             end]> (users_in w) -> enrolled (pf_id p) w w'.
Proof.
  intros H id. unfold role_in. rewrite H. destruct (decide (id = pf_id p)) as [->|Hne]; [|left; by rewrite lookup_insert_ne].
  rewrite lookup_insert_eq. destruct (users_in w !! pf_id p) as [a|]; [by left|]. right. split; [done|].
  by destruct (is_admin_id env (pf_id p)).
Qed.
Lemma ensure_user_enrolled p : keeps (enrolled (pf_id p)) (ensure_user (X := X) env p).
Proof.
  intros w. destruct (ensure_user env p w) as [r w'] eqn:E. cbn. unfold ensure_user in E.
  assert (forall w', users_in w' = users_in w -> enrolled (pf_id p) w w') as Hsame.
  { intros v H id. left. unfold role_in. by rewrite H. }
  apply bind_inv in E as [(o & w1 & (H1 & _ & Ho)%user_by_id_run & E)|(e & (H1 & _)%user_by_id_run & ->)]; [|by apply Hsame].
  specialize (Ho _ eq_refl). subst o. unfold same_users in H1.
  apply bind_inv in E as [(t & w2 & H2 & E)|(e & H2 & ->)]; [|done].
  assert (users_in w2 = users_in w) as Hw2 by (injection H2 as _ <-; exact H1). clear H1 H2.
  assert (forall x w3, upsert_profile env p (if is_admin_id env (pf_id p) then SUPERADMIN
            else match users_in w !! pf_id p with Some a => ac_role a | None => PENDING_USER end) t w2 = (x, w3) ->
          enrolled (pf_id p) w w3) as Hup.
  { intros x w3 H3. apply upsert_run in H3 as [[H3 _]|[H3 _]]; [apply Hsame; unfold same_users in H3; congruence|].
    rewrite Hw2 in H3. apply (upsert_enrolled _ _ t). rewrite H3. f_equal. destruct (users_in w !! pf_id p); [done|].
    by destruct (is_admin_id env (pf_id p)). }
  apply bind_inv in E as [(a & w3 & H3 & E)|(e & H3 & ->)]; apply Hup in H3; [|done].
  destruct (is_admin_id env (pf_id p) && _) eqn:Hadm; [|by injection E as _ <-]. bool_prop.
  etransitivity; [exact H3|]. eapply keeps_run; [|exact E].
  assert (forall t, keeps (enrolled (pf_id p)) (store_role (X := X) env (pf_id p) SUPERADMIN t None)) as Hs.
  { intros t1 v id. destruct (store_role_recast env (pf_id p) SUPERADMIN t1 None v id) as [Es|(r0 & Er & Hj & Es)]; [by left|].
    unfold just in Hj. subst id. destruct (decide (r0 = SUPERADMIN)) as [->|Hne]; [left; congruence|].
    right. split; [done|]. rewrite H. split; [rewrite Er; congruence|done]. }
  pose proof (enrolled_about (pf_id p)). keeps_tac.
Qed.
Lemma enrolled_lawful op id0 w w' : enrolled id0 w w' -> lawful op w w'.
Proof.
  intros H id Hne. destruct (H id) as [E|(-> & E)]; [done|]. unfold authorised.
  destruct (is_admin_id env id0); destruct E as [E1 ->]; [|rewrite E1; by left].
  destruct (role_in w id0) as [r|]; [|by right]. split; [congruence|]. split; [done|by left].
Qed.
Lemma create_request_keeps R `{!PreOrder R} user username t :
  about_tables R -> (forall f, keeps R (set_tables (X := X) (set_requests f))) ->
  keeps R (create_pending_idempotent (X := X) env user username t).
Proof. intros HR Hf. unfold create_pending_idempotent, create_request, request_by_id, pending_for_user. keeps_tac. Qed.
Lemma request_enrolled p : keeps (enrolled (pf_id p)) (create_or_get_request (X := X) env p).
Proof.
  pose proof (enrolled_about (pf_id p)) as HR. apply bot_keeps_transaction; [apply _|done|]. unfold pending_for_user.
  assert (forall f, keeps (enrolled (pf_id p)) (set_tables (X := X) (set_requests f))) as Hf by (intros f v; by left).
  pose proof (ensure_user_enrolled p). keeps_tac; [apply create_request_keeps; [apply _|done|done]|].
  apply bot_keeps_audit; [apply _|done|]. intros f v. by left.
Qed.
(** Placeholders are only put where there is nobody. *)
Definition seeded w w' : Prop := forall id, role_in w' id = role_in w id
  \/ is_admin_id env id = true /\ role_in w id = None /\ role_in w' id = Some SUPERADMIN.
#[local] Instance seeded_pre : PreOrder seeded.
Proof.
  split; [by left|]. intros a b c H1 H2 id. specialize (H1 id). specialize (H2 id). intuition congruence.
Qed.
Lemma seeded_about : about_tables seeded.
Proof. intros w w' H _ id. left. unfold role_in, users_in. by rewrite H. Qed.
Lemma placeholders_fold t ids : forall us id, (forall i, i ∈ ids -> is_admin_id env i = true) ->
  let us' := fold_left (placeholder t) ids us in
  (ac_role <$> us' !! id) = (ac_role <$> us !! id)
  \/ is_admin_id env id = true /\ us !! id = None /\ (ac_role <$> us' !! id) = Some SUPERADMIN.
Proof.
  induction ids as [|i ids IH]; intros us id Hids; [by left|]. cbn.
  assert (is_admin_id env i = true) as Hi by (apply Hids; by left).
  specialize (IH (placeholder t us i) id (fun j Hj => Hids j (list_elem_of_further _ _ _ Hj))). cbv zeta in IH.
  revert IH. generalize (fold_left (placeholder t) ids (placeholder t us i)). intros us'. unfold placeholder.
  destruct (us !! i) as [a|] eqn:E; [done|]. destruct (decide (id = i)) as [->|Hne].
  - rewrite lookup_insert_eq. intros [->|(_ & ? & _)]; [by right|done].
  - by rewrite lookup_insert_ne.
Qed.
Lemma bootstrap_lawful w : lawful BootstrapAdmins w (perform BootstrapAdmins w).2.
Proof.
  pose proof seeded_about as HR.
  assert (keeps seeded (perform BootstrapAdmins)) as Hk.
  { cbn [perform]. unfold bootstrap_admins, create_admin_placeholders. apply keeps_bind; [apply _|by apply bot_keeps_now|].
    intros t. destruct (be_admin_ids env) as [|i0 ids] eqn:Eids; [apply keeps_ret, _|]. rewrite <- Eids.
    apply bot_keeps_transaction; [apply _|done|]. unfold write. apply keeps_bind; [apply _|by apply bot_keeps_sql|].
    intros _ v id. unfold role_in, users_in. cbn.
    destruct (placeholders_fold t (be_admin_ids env) (bt_users (bw_tables v)) id) as [E|(E1 & E2 & E3)].
    - intros i Hi. apply existsb_exists. exists i. split; [by apply list_elem_of_In|apply Z.eqb_refl].
    - by left.
    - right. by rewrite E2. }
  intros id Hne. destruct (Hk w id) as [E|(E1 & E2 & E3)]; [done|]. rewrite E3. unfold authorised. rewrite E2. by right.
Qed.

(** C5 Roles change only by those who may change them. Whatever is asked of the accounts,
    by whom, in whatever state, and whichever statement, audit write or revoker
    fails: an account whose role has changed was changed by a superadmin, or by a
    moderator who approved or blocked someone that is neither a superadmin nor,
    when blocked, a moderator; or it is new and pending; or its id is one of the
    settings' and it has become a superadmin. Superadmins are never demoted or
    blocked, the ids of the settings by nobody. *)
Theorem roles_change_by_authority op w id :
  let w' := (perform op w).2 in
  role_in w' id <> role_in w id -> authorised w op id (role_in w' id).
Proof.
  cbv zeta. destruct op as [p| | | | | |a t ro|p|a i|a i|a t b|a t].
  - apply (enrolled_lawful _ (pf_id p)). cbn [perform]. rewrite discard_run. apply ensure_user_enrolled.
  - apply bootstrap_lawful.
  - apply lawful_same, plain_ops_same_roles; done.
  - apply lawful_same, plain_ops_same_roles; done.
  - apply lawful_same, plain_ops_same_roles; done.
  - apply lawful_same, plain_ops_same_roles; done.
  - apply set_role_lawful.
  - apply (enrolled_lawful _ (pf_id p)). cbn [perform]. rewrite discard_run. apply request_enrolled.
  - apply approve_lawful.
  - apply reject_lawful.
  - apply block_lawful.
  - apply unblock_lawful.
Qed.
End Ops.
