(* ===== verification/BlockSafety.v ===== *)
(** * What a block leaves behind

    [block_user] of [Accounts]: the user is refused everything at once; the passes
    over the keys and the proxy accesses end; what outlives them is reported. *)

From S2P Require Import Prelude PyText Json IsoTime AwgConfig VpnKeys BackendHealth AwgService BotDb Accounts AccountSafety.
#[local] Open Scope Z_scope.

(** ** The loop over the rows *)

(** An error of one family of backends, for a row's id. *)
Definition reported (fam : backend -> bool) (errors : list op_error) (id : Z) : Prop :=
  exists e, e ∈ errors /\ oe_id e = id /\ fam (oe_type e) = true.
Lemma reported_prefix fam l1 l2 id : l1 `prefix_of` l2 -> reported fam l1 id -> reported fam l2 id.
Proof. intros [l ->] (e & He & Hid). exists e. split; [apply elem_of_app; by left|done]. Qed.

Section Loop.
Context {X A : Type} (id_of : A -> Z) (type_of : A -> backend)
  (listing : M (bot_world X) bot_error (list A)) (revoker : A -> option (M (bot_world X) bot_error unit)).
Implicit Types w : bot_world X.
Context (fam : backend -> bool) (types_in : forall a, fam (type_of a) = true).

(** Every id that failed has its error. *)
Definition noted (p : progress) : Prop := forall id, id ∈ pg_failed p -> reported fam (pg_errors p) id.
Lemma noted_failure id b f p : fam b = true -> noted p -> noted (note_failure id b f p).
Proof.
  intros Hb H j [->|Hj]%elem_of_cons.
  - exists (OpError id b f). split; [|done]. apply elem_of_app. right. by left.
  - destruct (H j Hj) as (e & He & Hid). exists e. split; [|done]. apply elem_of_app. by left.
Qed.

(** What one turn adds: an outcome for every row of the turn, and nothing is lost. *)
Definition later (p p' : progress) : Prop :=
  pg_errors p `prefix_of` pg_errors p' /\ (forall id, seen p id = true -> seen p' id = true).
#[local] Instance later_pre : PreOrder later.
Proof.
  split; [by intros p; split|]. intros a b c [H1 H2] [K1 K2]. split; [by etransitivity|]. auto.
Qed.
Lemma seen_iff p id : seen p id = true <-> id ∈ pg_succeeded p \/ id ∈ pg_failed p.
Proof. unfold seen. by rewrite orb_true_iff, !bool_decide_eq_true. Qed.
Lemma later_failure id b f p : later p (note_failure id b f p) /\ seen (note_failure id b f p) id = true.
Proof.
  split; [split; [by eexists|]|]; [intros j|]; rewrite !seen_iff; cbn; [intros [?|?]|]; set_solver.
Qed.
Lemma later_success id p : later p (note_success id p) /\ seen (note_success id p) id = true.
Proof. split; [split; [done|]|]; [intros j|]; rewrite !seen_iff; cbn; [intros [?|?]|]; set_solver. Qed.
Lemma revoke_pending_spec pending : forall p w r w', noted p -> revoke_pending id_of type_of revoker pending p w = (r, w') ->
  exists p', r = Ok p' /\ noted p' /\ later p p' /\ forall a, a ∈ pending -> seen p' (id_of a) = true.
Proof.
  induction pending as [|a rest IH]; intros p w r w' Hp; cbn [revoke_pending].
  { intros [= <- <-]. exists p. split; [done|]. split; [done|]. split; [reflexivity|]. by intros a ?%elem_of_nil. }
  assert (forall q v, noted q -> later p q -> seen q (id_of a) = true ->
    revoke_pending id_of type_of revoker rest q v = (r, w') ->
    exists p', r = Ok p' /\ noted p' /\ later p p' /\ forall b, b ∈ a :: rest -> seen p' (id_of b) = true) as Hrest.
  { intros q v Hq Hl Hs E. destruct (IH q v r w' Hq E) as (p' & -> & Hn & Hl' & Hall). exists p'.
    split; [done|]. split; [done|]. split; [by etransitivity|]. intros b [->|Hb]%elem_of_cons; [by apply Hl'|by apply Hall]. }
  destruct (revoker a) as [m|].
  - intros [(o & v & H1 & E)|(e & H1 & _)]%bind_inv; [|unfold attempt in H1; by destruct (m w)].
    eapply (Hrest _ v); [| | |exact E].
    + destruct o; [exact Hp|by apply noted_failure; [apply types_in|]].
    + destruct o; [apply later_success|apply later_failure].
    + destruct o; [apply later_success|apply later_failure].
  - intros E. eapply Hrest; [apply noted_failure; [apply types_in|done]|apply later_failure|apply later_failure|exact E].
Qed.

(** When the loop ends, it has just listed the rows, and each has its error. *)
Lemma revoke_all_reports fuel : forall p w p' w', noted p -> revoke_all id_of type_of listing revoker fuel p w = (Ok p', w') ->
  pg_errors p `prefix_of` pg_errors p'
  /\ exists rows w0, listing w0 = (Ok rows, w') /\ forall a, a ∈ rows -> reported fam (pg_errors p') (id_of a).
Proof.
  induction fuel as [|fuel IH]; intros p w p' w' Hp; cbn [revoke_all]; [done|].
  intros [(rows & w1 & Hl & E)|(e & _ & ?)]%bind_inv; [|done]. destruct rows as [|a rows].
  { injection E as <- <-. split; [done|]. exists [], w. split; [done|]. by intros a ?%elem_of_nil. }
  destruct (List.filter _ (a :: rows)) as [|b pending] eqn:Ef.
  - injection E as <- <-. split; [by eexists|]. exists (a :: rows), w. split; [done|]. intros b Hb.
    assert (seen p (id_of b) = true) as Hs.
    { destruct (seen p (id_of b)) eqn:Hs; [done|]. assert (b ∈ @nil A) as []%elem_of_nil. rewrite <- Ef.
      apply list_elem_of_In, filter_In. split; [by apply list_elem_of_In|]. by rewrite Hs. }
    apply seen_iff in Hs as [Hs|Hs].
    + exists (OpError (id_of b) (type_of b) StuckInStatus). split; [|split; [done|apply types_in]]. apply elem_of_app. right.
      apply (list_elem_of_fmap_2 (fun r => OpError (id_of r) (type_of r) StuckInStatus)).
      apply list_elem_of_In, filter_In. split; [by apply list_elem_of_In|]. by apply bool_decide_eq_true.
    + by eapply reported_prefix; [by eexists|apply Hp].
  - apply bind_inv in E as [(q & w2 & Hq & E)|(e & Hq & ?)]; [|done].
    destruct (revoke_pending_spec _ _ _ _ _ Hp Hq) as (q' & [= <-] & Hn & [Hpre _] & _).
    destruct (IH _ _ _ _ Hn E) as [Hpre' Hlast]. split; [by etransitivity|done].
Qed.

(** Each turn but the last has a row that had none. *)
Definition unseen_ids (p : progress) (ids : list Z) : nat := length (List.filter (fun id => negb (seen p id)) ids).
Lemma unseen_le p p' ids : later p p' -> (unseen_ids p' ids <= unseen_ids p ids)%nat.
Proof.
  intros [_ H]. unfold unseen_ids. induction ids as [|i ids IH]; [done|]. cbn.
  destruct (seen p i) eqn:E; [rewrite (H _ E); cbn; lia|]. destruct (seen p' i); cbn; lia.
Qed.
Lemma unseen_lt p p' ids id : later p p' -> id ∈ ids -> seen p id = false -> seen p' id = true ->
  (unseen_ids p' ids < unseen_ids p ids)%nat.
Proof.
  intros Hl Hin Hf Ht. induction ids as [|i ids IH]; [by apply elem_of_nil in Hin|].
  pose proof (unseen_le p p' ids Hl) as Hle. unfold unseen_ids in *. cbn.
  apply elem_of_cons in Hin as [->|Hin]; [rewrite Hf, Ht; cbn; lia|]. specialize (IH Hin).
  destruct (seen p i) eqn:E; [rewrite (proj2 Hl _ E); cbn; lia|]. destruct (seen p' i); cbn; lia.
Qed.
Context (listed_in : bot_world X -> list Z) (listing_sound : forall w rows w', listing w = (Ok rows, w') ->
    listed_in w' ⊆ listed_in w /\ forall a, a ∈ rows -> id_of a ∈ listed_in w)
  (revoker_modest : forall a m, revoker a = Some m -> keeps (fun w w' => listed_in w' ⊆ listed_in w) m)
  (listing_ends : forall w, (listing w).1 <> Err Unfinished).
Lemma revoke_all_ends fuel : forall p w ids, listed_in w ⊆ ids -> (unseen_ids p ids < fuel)%nat -> noted p ->
  (revoke_all id_of type_of listing revoker fuel p w).1 <> Err Unfinished.
Proof using types_in listing_sound revoker_modest listing_ends.
  induction fuel as [|fuel IH]; intros p w ids Hids Hf Hp; [lia|]. cbn [revoke_all].
  destruct (bind listing _ w) as [r w'] eqn:E. cbn.
  apply bind_inv in E as [(rows & w1 & Hl & E)|(e & Hl & ->)].
  2:{ intros [= ->]. by apply (listing_ends w); rewrite Hl. }
  apply listing_sound in Hl as [Hsub Hin]. destruct rows as [|a rows]; [by injection E as <- _|].
  destruct (List.filter _ (a :: rows)) as [|b pending] eqn:Ef; [by injection E as <- _|].
  apply bind_inv in E as [(q & w2 & Hq & E)|(e & Hq & ?)].
  2:{ destruct (revoke_pending_spec _ _ _ _ _ Hp Hq) as (? & ? & _). done. }
  assert (listed_in w2 ⊆ ids) as Hids2.
  { transitivity (listed_in w1); [|set_solver].
    assert (PreOrder (fun w w' : bot_world X => listed_in w' ⊆ listed_in w)) as HP.
    { split; [by intros ?|]. intros x y z H1 H2. by etransitivity. }
    exact (keeps_run _ _ _ _ _ (revoke_pending_keeps id_of type_of revoker _ revoker_modest _ _) Hq). }
  destruct (revoke_pending_spec _ _ _ _ _ Hp Hq) as (q' & [= <-] & Hn & Hl2 & Hall).
  replace r with (revoke_all id_of type_of listing revoker fuel q w2).1 by by rewrite E.
  apply (IH q w2 ids Hids2); [|done].
  assert (b ∈ List.filter (fun r0 => negb (seen p (id_of r0))) (a :: rows)) as Hb by (rewrite Ef; by left).
  apply list_elem_of_In, filter_In in Hb as [Hb Hs]. apply negb_true_iff in Hs.
  enough (unseen_ids q ids < unseen_ids p ids)%nat by lia. apply (unseen_lt _ _ _ (id_of b)); [done| |done|].
  - apply Hids, Hin. by apply list_elem_of_In.
  - apply Hall. by left.
Qed.
End Loop.

(** ** Blocking *)

(** Only a loop without fuel raises [Unfinished]. *)
Definition finishes {X A} (m : M (bot_world X) bot_error A) : Prop := forall w, (m w).1 <> Err Unfinished.
Lemma finishes_bind {X A B} (m : M (bot_world X) bot_error A) (k : A -> M (bot_world X) bot_error B) :
  finishes m -> (forall a, finishes (k a)) -> finishes (bind m k).
Proof.
  intros Hm Hk w. specialize (Hm w). unfold bind. destruct (m w) as [[a|e] w'] eqn:E; [apply Hk|].
  intros [= ->]. by apply Hm.
Qed.
Lemma finishes_attempt {X A} (m : M (bot_world X) bot_error A) : finishes (attempt m).
Proof. intros w. unfold attempt. by destruct (m w). Qed.

Section Block.
Context {X : Type} `{iso : !IsoText} (env : bot_env).
Context (key_revoker : key_type -> option (Z -> Z -> M (bot_world X) bot_error unit))
        (proxy_revoker : proxy_type -> option (Z -> Z -> M (bot_world X) bot_error unit)).
Context `{!ModestRevokers key_revoker proxy_revoker}.
Implicit Types w : bot_world X.

Lemma finishes_sql : finishes (sql (X := X) env).
Proof. intros w. unfold sql, bind, ask, ret, raise. cbn. by destruct (be_db _ _). Qed.
Lemma finishes_select {A} (f : bot_tables -> A) : finishes (select (X := X) env f).
Proof. unfold select. apply finishes_bind; [apply finishes_sql|]. by intros _ w. Qed.
Lemma finishes_get_user id : finishes (get_user (X := X) env id).
Proof. unfold get_user. apply finishes_bind; [apply finishes_select|]. by intros [a|] w. Qed.
Lemma finishes_store_role id role t at_ : finishes (store_role (X := X) env id role t at_).
Proof. unfold store_role, update_user. apply finishes_bind; [apply finishes_select|]. by intros [a|] w. Qed.
Lemma finishes_best_effort a b c d : finishes (audit_best_effort (X := X) env a b c d).
Proof. unfold audit_best_effort. apply finishes_bind; [apply finishes_attempt|]. by intros _ w. Qed.

(** The rows a block has to see to. *)
Definition live_keys w (owner : Z) : list vpn_key := List.filter (owned_in owner KEY_MAY_EXIST) (kt_rows (bw_keys w)).
Definition live_proxies w (owner : Z) : list proxy_access :=
  List.filter (proxy_owned_in owner PROXY_MAY_EXIST) (sr_rows (bt_proxies (bw_tables w))).
Lemma keys_listed w target r w' : keys_by_owner_statuses (X := X) target KEY_MAY_EXIST 500 0 w = (r, w') ->
  bw_tables w' = bw_tables w /\ kt_rows (bw_keys w') = kt_rows (bw_keys w)
  /\ r <> Err Unfinished
  /\ forall rows, r = Ok rows -> (forall k, k ∈ rows -> k ∈ kt_rows (bw_keys w))
       /\ ((length (live_keys w target) <= 500)%nat -> forall k, k ∈ live_keys w target -> k ∈ rows).
Proof.
  unfold keys_by_owner_statuses, KEY_MAY_EXIST at 1, on_rows, embed, statement, bind, gets. cbn -[merge_sort take List.filter].
  destruct (kt_ok _ _); intros [= <- <-]; (split; [done|]; split; [done|]; split; [done|]); intros rows Hr; [|done].
  injection Hr as <-. unfold live_keys. split.
  - intros k Hk. apply elem_of_take in Hk as (i & Hk & _). apply list_elem_of_lookup_2 in Hk.
    rewrite merge_sort_Permutation in Hk. by apply list_elem_of_In, filter_In in Hk as [Hk%list_elem_of_In _].
  - intros Hlen k Hk. rewrite take_ge; by rewrite merge_sort_Permutation.
Qed.
Lemma proxies_listed w target r w' : proxies_by_owner_statuses env target PROXY_MAY_EXIST 500 0 w = (r, w') ->
  bw_tables w' = bw_tables w /\ kt_rows (bw_keys w') = kt_rows (bw_keys w)
  /\ r <> Err Unfinished
  /\ forall rows, r = Ok rows -> (forall a, a ∈ rows -> a ∈ sr_rows (bt_proxies (bw_tables w)))
       /\ ((length (live_proxies w target) <= 500)%nat -> forall a, a ∈ live_proxies w target -> a ∈ rows).
Proof.
  unfold proxies_by_owner_statuses, PROXY_MAY_EXIST at 1. intros H. pose proof H as (H1 & H2 & H3)%select_run.
  split; [done|]. split; [by rewrite H2|]. split.
  { intros ->. exact (finishes_select _ w (f_equal fst H)). }
  intros rows ->. specialize (H3 _ eq_refl). subst rows. change (Z.to_nat _) with 500%nat. split.
  - intros a Ha. apply elem_of_take in Ha as (i & Ha & _). apply list_elem_of_lookup_2 in Ha. cbn in Ha.
    rewrite merge_sort_Permutation in Ha. by apply list_elem_of_In, filter_In in Ha as [Ha%list_elem_of_In _].
  - intros Hlen a Ha. rewrite take_ge; [|rewrite drop_0]; by rewrite ?drop_0, merge_sort_Permutation.
Qed.

Definition is_vpn (b : backend) : bool := match b with Vpn _ => true | _ => false end.
Definition is_proxy (b : backend) : bool := negb (is_vpn b).
Lemma proxy_family t : is_proxy (proxy_backend t) = true.
Proof. by destruct t. Qed.
Lemma keys_modest actor k m :
  option_map (fun revoke => revoke actor (k_id k)) (key_revoker (k_type k)) = Some m -> keeps modest m.
Proof. intros (f & Hf & ->)%fmap_Some. by eapply key_revoker_modest. Qed.
Lemma proxies_modest actor a m :
  option_map (fun revoke => revoke actor (px_id a)) (proxy_revoker (px_type a)) = Some m ->
  keeps (fun w w' => modest w w' /\ kt_rows (bw_keys w') = kt_rows (bw_keys w)) m.
Proof. intros (f & Hf & ->)%fmap_Some. by eapply proxy_revoker_modest. Qed.

(** The passes end. *)
Lemma unseen_all errors ids : unseen_ids (Progress [] errors [] []) ids = length ids.
Proof.
  unfold unseen_ids. induction ids as [|i ids IH]; [done|]. cbn [List.filter].
  assert (seen (Progress [] errors [] []) i = false) as E.
  { unfold seen. cbn. apply orb_false_iff. split; apply bool_decide_eq_false, not_elem_of_nil. }
  rewrite E. cbn [negb length]. by rewrite IH.
Qed.
Lemma key_pass_ends actor target w errors :
  (revoke_all_access_keys key_revoker actor target (S (length (kt_rows (bw_keys w)))) errors w).1 <> Err Unfinished.
Proof.
  apply (revoke_all_ends k_id (fun k => Vpn (k_type k)) _ _ is_vpn (fun _ => eq_refl) ids_in) with (ids := ids_in w).
  - intros v rows v' (H1 & H2 & _ & H3)%keys_listed. destruct (H3 _ eq_refl) as [Hin _]. unfold ids_in. rewrite H2.
    split; [done|]. intros k Hk. by apply list_elem_of_fmap_2, Hin.
  - intros k m Hm v. by destruct (keys_modest _ _ _ Hm v) as (_ & _ & Hne & _).
  - intros v. destruct (keys_by_owner_statuses _ _ _ _ v) as [r v'] eqn:E. by apply keys_listed in E as (_ & _ & Hne & _).
  - done.
  - rewrite unseen_all. unfold ids_in. rewrite length_map. lia.
  - by intros id ?%elem_of_nil.
Qed.
Lemma proxy_pass_ends actor target w errors :
  (revoke_all_proxy_accesses env proxy_revoker actor target (S (length (sr_rows (bt_proxies (bw_tables w))))) errors w).1 <> Err Unfinished.
Proof.
  apply (revoke_all_ends px_id (fun a => proxy_backend (px_type a)) _ _ is_proxy (fun a => proxy_family (px_type a)) proxy_ids_in) with (ids := proxy_ids_in w).
  - intros v rows v' (H1 & H2 & _ & H3)%proxies_listed. destruct (H3 _ eq_refl) as [Hin _]. unfold proxy_ids_in. rewrite H1.
    split; [done|]. intros k Hk. by apply list_elem_of_fmap_2, Hin.
  - intros k m Hm v. by destruct (proxies_modest _ _ _ Hm v) as [(_ & _ & _ & H) _].
  - intros v. destruct (proxies_by_owner_statuses _ _ _ _ _ v) as [r v'] eqn:E. by apply proxies_listed in E as (_ & _ & Hne & _).
  - done.
  - rewrite unseen_all. unfold proxy_ids_in. rewrite length_map. lia.
  - by intros id ?%elem_of_nil.
Qed.

(** C39 A block ends. However the revokers behave towards the keys, as long as they give
    nobody new ones, [block_user] returns or raises an exception of the code: the
    passes over the keys and over the proxy accesses never run out of turns. *)
Theorem block_ends actor target b w : (block_user env key_revoker proxy_revoker actor target b w).1 <> Err Unfinished.
Proof.
  revert w. change (finishes (block_user env key_revoker proxy_revoker actor target b)). unfold block_user.
  apply finishes_bind; [unfold require_moderator_or_admin; apply finishes_bind; [apply finishes_get_user|]; intros a w; by case_bool_decide|].
  intros a. destruct (is_admin_id env target); [done|]. apply finishes_bind; [apply finishes_get_user|].
  intros t. case_bool_decide; [done|]. destruct (_ && _); [done|].
  apply finishes_bind; [done|]. intros at_. apply finishes_bind; [apply finishes_store_role|]. intros _.
  apply finishes_bind; [apply finishes_best_effort|]. intros _. apply finishes_bind; [done|]. intros _.
  apply finishes_bind.
  - destruct b; [|done]. unfold revoke_everything. apply finishes_bind.
    + destruct (keys_wired key_revoker); [|done]. intros w. apply key_pass_ends.
    + intros p. destruct (proxies_wired proxy_revoker); [|done]. intros w. unfold proxy_turns, bind, gets.
      pose proof (proxy_pass_ends actor target w (pg_errors p)) as Hend. revert Hend.
      destruct (revoke_all_proxy_accesses _ _ _ _ _ _ w) as [[q|e] w1]; [done|]. cbn. intros H1 [= ->]. by apply H1.
  - intros [[keys errors] proxies]. apply finishes_bind; [apply finishes_best_effort|]. intros _.
    apply finishes_bind; [apply finishes_get_user|]. done.
Qed.

(** What the two passes report. *)
Definition same_keys w w' : Prop := kt_rows (bw_keys w') = kt_rows (bw_keys w).
#[export] Instance same_keys_pre : PreOrder same_keys.
Proof. split; [by intros w|]. intros a b c H1 H2. unfold same_keys in *. congruence. Qed.
Lemma same_keys_about : about_tables same_keys.
Proof. by intros w w' _ H. Qed.
Lemma revoke_everything_reports actor target w ks es ps w' :
  revoke_everything env key_revoker proxy_revoker actor target w = (Ok (ks, es, ps), w') ->
  (keys_wired key_revoker = true -> (length (live_keys w' target) <= 500)%nat ->
     forall k, k ∈ live_keys w' target -> reported is_vpn es (k_id k))
  /\ (proxies_wired proxy_revoker = true -> (length (live_proxies w' target) <= 500)%nat ->
     forall a, a ∈ live_proxies w' target -> reported is_proxy es (px_id a)).
Proof.
  unfold revoke_everything. intros [(p & w1 & H1 & E)|(e & _ & ?)]%bind_inv; [|done].
  assert (keys_wired key_revoker = true -> (length (live_keys w1 target) <= 500)%nat ->
    forall k, k ∈ live_keys w1 target -> reported is_vpn (pg_errors p) (k_id k)) as Hk.
  { intros Hw Hlen k Hk. rewrite Hw in H1. unfold key_turns, bind, gets in H1.
    apply (revoke_all_reports k_id (fun k => Vpn (k_type k)) _ _ is_vpn (fun _ => eq_refl)) in H1 as (_ & rows & w0 & Hl & Hr); [|by intros id ?%elem_of_nil].
    apply keys_listed in Hl as (_ & H2 & _ & H3). destruct (H3 _ eq_refl) as [_ H4]. apply Hr.
    unfold live_keys in *. rewrite H2 in *. by apply H4. }
  destruct (proxies_wired proxy_revoker) eqn:Hpw.
  - unfold proxy_turns in E. apply bind_inv in E as [(n & w2 & H2 & E)|(e & H2 & ?)]; [|done]. injection H2 as <- <-.
    apply bind_inv in E as [(q & w2 & H2 & E)|(e & _ & ?)]; [|done]. injection E as <- <- <- <-.
    assert (same_keys w1 w2) as Hsk.
    { eapply keeps_run; [|exact H2]. apply revoke_all_keeps; [apply _|apply proxies_listed_same; [apply _|apply same_keys_about]|].
      intros a m Hm v. by apply (proxies_modest _ _ _ Hm v). }
    apply (revoke_all_reports px_id (fun a => proxy_backend (px_type a)) _ _ is_proxy (fun a => proxy_family (px_type a))) in H2 as (Hpre & rows & w0 & Hl & Hr);
      [|by intros id ?%elem_of_nil]. split.
    + intros Hw Hlen k Hin. unfold live_keys in *. rewrite Hsk in Hlen, Hin. by eapply reported_prefix; [exact Hpre|apply Hk].
    + intros _ Hlen a Ha. apply proxies_listed in Hl as (H3 & _ & _ & H4). destruct (H4 _ eq_refl) as [_ H5]. apply Hr.
      unfold live_proxies in *. rewrite H3 in *. by apply H5.
  - injection E as <- <- <- <-. done.
Qed.

(** The audit and the reads at the end of a block. *)
Definition aside w w' : Prop :=
  users_in w' = users_in w /\ same_keys w w' /\ bt_proxies (bw_tables w') = bt_proxies (bw_tables w).
#[local] Instance aside_pre : PreOrder aside.
Proof. split; [by intros w|]. intros a b c (?&?&?) (?&?&?). unfold aside, same_keys in *. repeat split; congruence. Qed.
Lemma aside_about : about_tables aside.
Proof. intros w w' H1 H2. unfold aside, users_in. by rewrite H1. Qed.
Lemma aside_audit a b c d : keeps aside (audit_best_effort (X := X) env a b c d).
Proof. apply best_effort_same; [apply _|]. apply bot_keeps_audit; [apply _|apply aside_about|]. by intros f w. Qed.
Lemma revoke_everything_users actor target : keeps same_users (revoke_everything env key_revoker proxy_revoker actor target).
Proof. intros w. by destruct (revoke_everything_modest env key_revoker proxy_revoker actor target w) as [H _]. Qed.
Lemma blocked_is_refused target a v : users_in v !! target = Some a -> ac_role a = BLOCKED_USER ->
  (require_approved_or_admin (X := X) env target v).1 ∈ [Err (Denied Blocked); Err DbFault].
Proof.
  intros Ha Hr. unfold require_approved_or_admin, get_user, user_by_id, select, sql, bind, ask, gets, ret, raise. cbn.
  destruct (be_db env _); cbn; [|set_solver]. unfold users_in in Ha. rewrite Ha. cbn. rewrite bool_decide_eq_false_2, Hr by (rewrite Hr; set_solver).
  unfold blocked, is_blocked_user, user_of. cbn. rewrite Hr. cbn. set_solver.
Qed.

(** The row of the user, and the report, when [block_user] has returned. *)
Lemma block_run actor target w res w' :
  block_user env key_revoker proxy_revoker actor target true w = (Ok res, w') ->
  (exists at_ c, users_in w' !! target = Some (with_role BLOCKED_USER at_ (Some at_) c))
  /\ (keys_wired key_revoker = true -> (length (live_keys w' target) <= 500)%nat ->
      forall k, k ∈ live_keys w' target -> reported is_vpn (br_errors res) (k_id k))
  /\ (proxies_wired proxy_revoker = true -> (length (live_proxies w' target) <= 500)%nat ->
      forall a, a ∈ live_proxies w' target -> reported is_proxy (br_errors res) (px_id a)).
Proof.
  unfold block_user. intros E.
  apply bind_inv in E as [(a & w1 & _ & E)|(? & _ & ?)]; [|done]. destruct (is_admin_id env target); [done|].
  apply bind_inv in E as [(t & w2 & _ & E)|(? & _ & ?)]; [|done]. case_bool_decide; [done|]. destruct (_ && _); [done|].
  apply bind_inv in E as [(at_ & w3 & _ & E)|(? & _ & ?)]; [|done].
  apply bind_inv in E as [([] & w4 & Hrole & E)|(? & _ & ?)]; [|done].
  apply update_user_run in Hrole as [[_ ?]|(c & Hc & Hw4 & _)]; [done|].
  apply bind_inv in E as [([] & w5 & H5 & E)|(? & _ & ?)]; [|done]. apply (keeps_run _ _ _ _ _ (aside_audit _ _ _ _)) in H5 as (H5 & _).
  apply bind_inv in E as [([] & w6 & H6 & E)|(? & _ & ?)]; [|done]. injection H6 as H6. apply (f_equal users_in) in H6.
  apply bind_inv in E as [([[ks es] ps] & w7 & H7 & E)|(? & _ & ?)]; [|done].
  pose proof (keeps_run _ _ _ _ _ (revoke_everything_users _ _) H7) as H7u. apply revoke_everything_reports in H7 as [Hk Hp].
  assert (aside w7 w' /\ br_errors res = es) as [(Hu & Hrows & Hpx) <-].
  { apply bind_inv in E as [([] & w8 & H8 & E)|(? & _ & ?)]; [|done]. apply (keeps_run _ _ _ _ _ (aside_audit _ _ _ _)) in H8.
    apply bind_inv in E as [(u & w9 & H9 & E)|(? & _ & ?)]; [|done]. injection E as <- <-. split; [|done].
    etransitivity; [exact H8|]. eapply keeps_run; [|exact H9]. apply get_user_same; [apply _|apply aside_about]. }
  assert (users_in w' !! target = Some (with_role BLOCKED_USER at_ (Some at_) c)) as Ha.
  { rewrite Hu, H7u, <- H6. change (users_in _) with (users_in w5). rewrite H5, Hw4. apply lookup_insert_eq. }
  split; [by exists at_, c|]. unfold live_keys, live_proxies. rewrite Hrows, Hpx. done.
Qed.

End Block.
