(* ===== verification/RequestSafety.v ===== *)
(** * Accounts and requests stay well formed

    The rows of [users] and [access_requests]: what every operation of [Accounts]
    keeps of them, and what a decision on a request does, on every branch. *)

From S2P Require Import Prelude PyText Json IsoTime AwgConfig VpnKeys BackendHealth AwgService BotDb Accounts AccountSafety.
#[local] Open Scope Z_scope.

(** An account is blocked by its role and by the time of the block, both or neither. *)
Definition account_ok (id : Z) (a : account) : Prop :=
  ac_id a = id /\ (ac_role a = BLOCKED_USER <-> is_Some (ac_blocked_at a)).
Definition accounts_ok (us : gmap Z account) : Prop := map_Forall account_ok us.
Definition is_pending (r : access_request) : bool := bool_decide (rq_status r = RequestPending).
(** One id, one row; at most one open request per user; an open one names nobody who
    decided it, a decided one does. *)
Record requests_ok (t : serial access_request) : Prop := {
  ok_ids : NoDup (map rq_id (sr_rows t));
  ok_seq : Forall (fun r => rq_id r <= sr_seq t) (sr_rows t);
  ok_one_open : NoDup (map rq_user (List.filter is_pending (sr_rows t)));
  ok_decided : Forall (fun r => is_pending r = true <-> rq_decided_by r = None) (sr_rows t) }.
Definition tables_ok (t : bot_tables) : Prop := accounts_ok (bt_users t) /\ requests_ok (bt_requests t).

Lemma blocked_by_role id a : account_ok id a -> ac_role a <> SUPERADMIN -> blocked a = bool_decide (ac_role a = BLOCKED_USER).
Proof.
  intros [_ H] Hne. unfold blocked, is_blocked_user, user_of. cbn. rewrite (bool_decide_eq_false_2 _ Hne).
  case_bool_decide as E; [done|]. cbn. apply bool_decide_eq_false. by rewrite <- H.
Qed.

(** ** The rows of the requests *)

Lemma append_request_ok user username at_ t : requests_ok t -> existsb (pending_of user) (sr_rows t) = false ->
  requests_ok (append (fun id => AccessRequest id user username RequestPending at_ None None) t).
Proof.
  intros [H1 H2 H3 H4] Hp. rewrite Forall_elem in H2. split; cbn [append sr_rows sr_seq].
  - rewrite map_app. apply NoDup_app. split; [done|]. split; [|apply NoDup_singleton].
    intros x (r & -> & Hr)%list_elem_of_fmap E%list_elem_of_singleton. specialize (H2 r Hr). cbn in *. lia.
  - apply Forall_app. split; [|repeat constructor; cbn; lia]. apply Forall_elem. intros r Hr. specialize (H2 r Hr). lia.
  - rewrite List.filter_app, map_app. apply NoDup_app. split; [done|]. split; [|apply NoDup_singleton].
    intros x (r & -> & [Hr Hpend]%list_elem_of_In%filter_In)%list_elem_of_fmap E%list_elem_of_singleton. cbn in E.
    apply not_true_iff_false in Hp. apply Hp, existsb_exists. exists r. split; [done|].
    unfold pending_of. unfold is_pending in Hpend. rewrite Hpend, E. by rewrite Z.eqb_refl.
  - apply Forall_app. split; [done|]. repeat constructor.
Qed.
Lemma filter_map_sublist {A B} (p : A -> bool) (f : A -> A) (g : A -> B) l :
  (forall a, g (f a) = g a) -> (forall a, p (f a) = true -> p a = true) ->
  map g (List.filter p (map f l)) `sublist_of` map g (List.filter p l).
Proof.
  intros Hg Hp. induction l as [|a l IH]; [done|]. cbn. destruct (p (f a)) eqn:E.
  - rewrite (Hp _ E). cbn. rewrite Hg. by constructor.
  - destruct (p a); [by constructor|done].
Qed.
Lemma decide_requests_ok id status actor at_ t : status <> RequestPending -> requests_ok t ->
  requests_ok (map_rows (fun r => (rq_id r =? id) && bool_decide (rq_status r = RequestPending))
    (decide_request status actor at_) t).
Proof.
  intros Hst [H1 H2 H3 H4]. set (p := fun r => _). set (f := fun r => if p r then decide_request status actor at_ r else r).
  assert (forall r, rq_id (f r) = rq_id r /\ rq_user (f r) = rq_user r) as Hf.
  { intros r. unfold f. by destruct (p r). }
  assert (forall r, is_pending (f r) = true -> f r = r) as Hpend.
  { intros r. unfold f. destruct (p r); [|done]. unfold is_pending, decide_request. cbn. by rewrite bool_decide_eq_true. }
  rewrite Forall_elem in H2, H4. split; unfold map_rows; cbn [sr_rows sr_seq]; fold f.
  - rewrite map_map. erewrite map_ext; [exact H1|]. intros r. apply Hf.
  - apply Forall_elem. intros r (r0 & -> & Hr)%list_elem_of_fmap. rewrite (proj1 (Hf r0)). by apply H2.
  - eapply sublist_NoDup; [exact H3|]. apply filter_map_sublist; [intros r; apply Hf|].
    intros r Hr. by rewrite <- (Hpend r Hr).
  - apply Forall_elem. intros r (r0 & -> & Hr)%list_elem_of_fmap. specialize (H4 r0 Hr). unfold f. destruct (p r0); [|done].
    unfold is_pending, decide_request. cbn. rewrite bool_decide_eq_true. split; [intros; congruence|done].
Qed.
(** Whatever is done, a decided request stays as it was decided. *)
Definition decided_stay (t t' : serial access_request) : Prop :=
  forall r, r ∈ sr_rows t -> is_pending r = false -> r ∈ sr_rows t'.
Lemma decided_stay_append f t : decided_stay t (append f t).
Proof. intros r Hr _. cbn. apply elem_of_app. by left. Qed.
Lemma decided_stay_decide id status actor at_ t :
  decided_stay t (map_rows (fun r => (rq_id r =? id) && bool_decide (rq_status r = RequestPending))
    (decide_request status actor at_) t).
Proof.
  intros r Hr Hp. unfold map_rows. cbn. apply list_elem_of_fmap. exists r. split; [|done].
  unfold is_pending in Hp. by rewrite Hp, andb_false_r.
Qed.

(** ** What every operation keeps *)

Section Keep.
Context {X : Type} `{iso : !IsoText} (env : bot_env).
Context (key_revoker : key_type -> option (Z -> Z -> M (bot_world X) bot_error unit))
        (proxy_revoker : proxy_type -> option (Z -> Z -> M (bot_world X) bot_error unit)).
Context `{!ModestRevokers key_revoker proxy_revoker}.
Implicit Types w : bot_world X.

Definition orderly w w' : Prop :=
  (tables_ok (bw_tables w) -> tables_ok (bw_tables w')) /\ decided_stay (bt_requests (bw_tables w)) (bt_requests (bw_tables w')).
#[local] Instance orderly_pre : PreOrder orderly.
Proof.
  split; [intros w; split; [done|by intros r]|]. intros a b c [H1 H2] [K1 K2]. split; [auto|].
  intros r Hr Hp. by apply K2; [apply H2|].
Qed.
Lemma orderly_about : about_tables orderly.
Proof. intros w w' H _. unfold orderly. rewrite H. split; [done|by intros r]. Qed.
Lemma orderly_users w w' : (accounts_ok (users_in w) -> accounts_ok (users_in w')) ->
  bt_requests (bw_tables w') = bt_requests (bw_tables w) -> orderly w w'.
Proof. intros H1 H2. unfold orderly, tables_ok. rewrite H2. split; [intros [? ?]; split; auto|by intros r]. Qed.
Lemma orderly_audit actor action entity n : keeps orderly (audit (X := X) env actor action entity n).
Proof. apply bot_keeps_audit; [apply _|apply orderly_about|]. intros f w. by apply orderly_users. Qed.
Lemma orderly_best_effort actor action entity n : keeps orderly (audit_best_effort (X := X) env actor action entity n).
Proof. apply best_effort_same; [apply _|apply orderly_audit]. Qed.
Lemma update_user_requests id f w r w' : update_user env id f w = (r, w') -> bt_requests (bw_tables w') = bt_requests (bw_tables w).
Proof.
  unfold update_user. intros [(o & w1 & (H1 & _ & H2)%select_run & H3)|(e & (H1 & _)%select_run & ->)]%bind_inv; [|by rewrite H1].
  destruct o; injection H3 as _ <-; cbn; by rewrite H1.
Qed.
Lemma orderly_update id f : (forall a, account_ok id a -> account_ok id (f a)) -> keeps orderly (update_user (X := X) env id f).
Proof.
  intros Hf w. destruct (update_user env id f w) as [r w'] eqn:E. cbn. apply orderly_users; [|by eapply update_user_requests].
  apply update_user_run in E as [[H _]|(a & Ha & Hw & _)]; [by rewrite H|]. rewrite Hw. intros Hok.
  apply map_Forall_insert_2; [|done]. by apply Hf, Hok.
Qed.
Lemma orderly_role id role t at_ : (role = BLOCKED_USER <-> is_Some at_) -> keeps orderly (store_role (X := X) env id role t at_).
Proof. intros H. apply orderly_update. intros a [Ha _]. split; [exact Ha|exact H]. Qed.
Lemma plain_role role : role <> BLOCKED_USER -> role = BLOCKED_USER <-> is_Some (@None str).
Proof. intros H. split; [done|]. by intros [? ?]. Qed.
#[local] Hint Extern 1 (PreOrder _) => typeclasses eauto : keeps.
#[local] Hint Resolve orderly_about bot_keeps_ask bot_keeps_sql bot_keeps_now bot_keeps_select bot_keeps_get bot_keeps_clear
  orderly_audit orderly_best_effort get_user_same user_by_id_same approved_same superadmin_same staff_same get_by_id_same : keeps.

Lemma orderly_rows {A} (m : M key_table key_error A) : keeps orderly (on_rows (X := X) m).
Proof. apply keeps_embed. intros w. apply orderly_users; done. Qed.
#[local] Hint Resolve orderly_rows : keeps.
Lemma new_account_ok id username first_name role t : role <> BLOCKED_USER -> account_ok id (new_account id username first_name role t).
Proof. intros H. split; [done|]. by apply plain_role. Qed.
Lemma orderly_ensure p : keeps orderly (ensure_user (X := X) env p).
Proof.
  intros w. destruct (ensure_user env p w) as [r w'] eqn:E. cbn. unfold ensure_user in E.
  apply bind_inv in E as [(o & w1 & H1 & E)|(e & H1 & ->)].
  2:{ apply (keeps_run _ _ _ _ _ (user_by_id_same env orderly (pf_id p) orderly_about)) in H1. exact H1. }
  pose proof (keeps_run _ _ _ _ _ (user_by_id_same env orderly (pf_id p) orderly_about) H1) as Hw1.
  apply user_by_id_run in H1 as (H1 & _ & Ho). specialize (Ho _ eq_refl). subst o. unfold same_users in H1. rewrite <- H1 in E.
  etransitivity; [exact Hw1|]. clear Hw1 H1 w. remember (users_in w1 !! pf_id p) as existing eqn:Hex.
  apply bind_inv in E as [(t & w2 & H2 & E)|(e & H2 & ->)]; [|done].
  assert (orderly w1 w2) as Hw2 by (apply (keeps_run _ _ _ _ _ (bot_keeps_now env orderly orderly_about) H2)).
  assert (users_in w2 = users_in w1) as Hu by (by injection H2 as _ <-). rewrite <- Hu in Hex.
  etransitivity; [exact Hw2|]. clear Hw2 H2 Hu w1.
  set (role := if is_admin_id env (pf_id p) then _ else _) in E.
  assert (forall x w3, upsert_profile env p role t w2 = (x, w3) -> orderly w2 w3) as Hup.
  { intros x w3 H3. assert (bt_requests (bw_tables w3) = bt_requests (bw_tables w2)) as Hreq.
    { unfold upsert_profile, write in H3. apply bind_inv in H3 as [([] & v & H & H3)|(e & H & ->)].
      - apply bind_inv in H as [([] & v1 & [Hv _]%sql_run & H)|(e & _ & ?)]; [|done]. injection H as <-.
        apply bind_inv in H3 as [(o & v2 & (H4 & _)%select_run & H3)|(e & (H4 & _)%select_run & ->)]; [|by rewrite H4; cbn; rewrite Hv].
        destruct o; injection H3 as _ <-; rewrite H4; cbn; by rewrite Hv.
      - apply bind_inv in H as [(? & ? & _ & ?)|(e' & [H _]%sql_run & _)]; [done|by rewrite H]. }
    apply orderly_users; [|done]. apply upsert_run in H3 as [[H3 _]|[H3 _]]; [by rewrite H3|]. rewrite H3. intros Hok.
    apply map_Forall_insert_2; [|done]. rewrite <- Hex. destruct existing as [a|]; [exact (Hok _ _ (eq_sym Hex))|].
    apply new_account_ok. subst role. by destruct (is_admin_id env (pf_id p)). }
  apply bind_inv in E as [(a & w3 & H3%Hup & E)|(e & H3%Hup & ->)]; [|done]. etransitivity; [exact H3|].
  eapply keeps_run; [|exact E]. keeps_tac. by apply orderly_role, plain_role.
Qed.
Lemma orderly_create user username t : keeps orderly (create_request (X := X) env user username t).
Proof.
  unfold create_request, request_by_id. apply keeps_bind; [apply _|apply bot_keeps_sql, orderly_about|]. intros [] w.
  unfold bind at 1, get. destruct (existsb _ _) eqn:Hp; [apply orderly_about; done|].
  unfold bind at 1, set_tables, modify. set (w1 := BotWorld _ _ _ _ _ _ _).
  assert (orderly w w1) as Hw1.
  { split; [|apply decided_stay_append]. intros [H1 H2]. split; [exact H1|]. by apply append_request_ok. }
  etransitivity; [exact Hw1|]. generalize w1.
  change (keeps orderly (let! r := select (X := X) env (fun t0 => List.find (fun r => rq_id r =? sr_seq (bt_requests (bw_tables w)) + 1) (sr_rows (bt_requests t0))) in
    match r with Some r => ret r | None => raise RowLost end)). keeps_tac.
Qed.
#[local] Hint Resolve orderly_ensure orderly_create : keeps.
Lemma orderly_request p : keeps orderly (create_or_get_request (X := X) env p).
Proof.
  apply bot_keeps_transaction; [apply _|apply orderly_about|]. unfold pending_for_user, create_pending_idempotent. keeps_tac.
Qed.
Lemma orderly_set_status id status actor t : status <> RequestPending ->
  keeps orderly (set_status_if_pending (X := X) env id status actor t).
Proof.
  intros Hst. unfold set_status_if_pending. keeps_tac. intros w. split; [|apply decided_stay_decide].
  intros [H1 H2]. split; [exact H1|]. by apply decide_requests_ok.
Qed.
Lemma orderly_settle actor id status action effect : status <> RequestPending ->
  (forall r, keeps orderly (effect r)) -> keeps orderly (settle_request (X := X) env actor id status action effect).
Proof.
  intros Hst He. unfold settle_request. keeps_tac. apply bot_keeps_transaction; [apply _|apply orderly_about|].
  unfold require_request, request_by_id. keeps_tac. by apply orderly_set_status.
Qed.
Lemma orderly_approve_user actor target at_ : keeps orderly (approve_access_request_user (X := X) env actor target at_).
Proof. unfold approve_access_request_user. keeps_tac. by apply orderly_role, plain_role. Qed.
Lemma placeholders_ok t l : forall us, accounts_ok us -> accounts_ok (fold_left (placeholder t) l us).
Proof.
  induction l as [|i l IH]; intros us Hok; [exact Hok|]. cbn. apply IH. unfold placeholder.
  destruct (us !! i); [done|]. apply map_Forall_insert_2; [|done]. by apply new_account_ok.
Qed.
Lemma orderly_placeholders ids t : keeps orderly (create_admin_placeholders (X := X) env ids t).
Proof.
  unfold create_admin_placeholders. destruct ids as [|i0 ids]; [apply keeps_ret, _|].
  apply bot_keeps_transaction; [apply _|apply orderly_about|]. unfold write. keeps_tac. intros w. apply orderly_users; [|done].
  apply placeholders_ok.
Qed.
Lemma orderly_everything actor target : keeps orderly (revoke_everything env key_revoker proxy_revoker actor target).
Proof.
  intros w. destruct (revoke_everything_modest env key_revoker proxy_revoker actor target w) as (H1 & H2 & _).
  apply orderly_users; [by rewrite H1|done].
Qed.
Lemma every_op_orderly op : keeps orderly (perform env key_revoker proxy_revoker op).
Proof.
  destruct op; cbn [perform]; unfold discard.
  1-2, 8: unfold bootstrap_admins; keeps_tac; auto using orderly_placeholders, orderly_request.
  1-4: unfold set_language, set_expiry_notifications, update_user_note, update_key_note, store_language,
      store_expiry_notifications, store_note; keeps_tac; apply orderly_update; by intros ? [? ?].
  - unfold set_role. apply keeps_bind; [apply _|apply superadmin_same; [apply _|apply orderly_about]|]. intros _.
    case_bool_decide; [by apply keeps_raise; apply _|].
    keeps_tac. apply bot_keeps_transaction; [apply _|apply orderly_about|]. keeps_tac. by apply orderly_role, plain_role.
  - unfold approve. keeps_tac. apply orderly_settle; [done|]. intros r. keeps_tac. apply orderly_approve_user.
  - unfold reject. keeps_tac. apply orderly_settle; [done|]. intros r. unfold reject_access_request_user. keeps_tac.
  - unfold block_user. keeps_tac; [by apply orderly_role|apply orderly_everything].
  - unfold unblock_user. keeps_tac. apply bot_keeps_transaction; [apply _|apply orderly_about|]. keeps_tac. by apply orderly_role, plain_role.
Qed.

(** C26 Accounts and requests stay well formed. Whatever is asked and whichever statement
    fails, every account stays filed under its own id and blocked either by role
    and time or by neither, request ids stay distinct, no user has two open
    requests, a decision names who made it, and a request once decided keeps its
    row for good. *)
Theorem tables_stay_well_formed ops w : tables_ok (bw_tables w) ->
  let w' := fold_left (fun w op => (perform env key_revoker proxy_revoker op w).2) ops w in
  tables_ok (bw_tables w')
  /\ forall r, r ∈ sr_rows (bt_requests (bw_tables w)) -> is_pending r = false -> r ∈ sr_rows (bt_requests (bw_tables w')).
Proof.
  intros Hok w'. assert (orderly w w') as [H1 H2]; [|split; [auto|done]]. subst w'. clear Hok. revert w.
  induction ops as [|op ops IH]; intros w; [reflexivity|]. cbn. etransitivity; [apply every_op_orderly|apply IH].
Qed.

(** ** What an approval does *)

(** The specification: nothing, access, or a refusal. *)
Definition grants (target : Z) (requested_at : str) (a : account) : option bool :=
  if is_admin_id env target then Some false
  else match ac_role a with
       | SUPERADMIN | MODERATOR | APPROVED_USER => Some false
       | PENDING_USER => Some true
       | BLOCKED_USER => if request_is_after_block (ac_blocked_at a) requested_at then Some true else None
       end.
Lemma role_update_run id role t at_ w r w' : store_role env id role t at_ w = (Ok r, w') ->
  exists a, users_in w !! id = Some a /\ users_in w' = <[id := with_role role t at_ a]> (users_in w)
            /\ bt_requests (bw_tables w') = bt_requests (bw_tables w).
Proof.
  intros H. pose proof (update_user_requests _ _ _ _ _ H) as Hr. apply update_user_run in H as [[_ ?]|(a & Ha & Hw & _)]; [done|eauto].
Qed.
(** Nothing but the tick moves. *)
Definition only_reads w w' : Prop := bw_tables w' = bw_tables w.
#[local] Instance only_reads_pre : PreOrder only_reads.
Proof. split; [by intros w|]. intros a b c H1 H2. unfold only_reads in *. congruence. Qed.
Lemma only_reads_about : about_tables only_reads.
Proof. by intros w w' H _. Qed.
Lemma staff_reads actor w r w' : require_moderator_or_admin env actor w = (r, w') -> bw_tables w' = bw_tables w.
Proof. intros H. exact (keeps_run _ _ _ _ _ (staff_same env only_reads actor only_reads_about) H). Qed.
Lemma get_user_reads id w r w' : get_user env id w = (r, w') -> bw_tables w' = bw_tables w.
Proof. intros H. exact (keeps_run _ _ _ _ _ (get_user_same env only_reads id only_reads_about) H). Qed.
Lemma approve_user_spec actor target at_ w ap w' : accounts_ok (users_in w) ->
  approve_access_request_user env actor target at_ w = (Ok ap, w') ->
  exists a g t, users_in w !! target = Some a /\ grants target at_ a = Some g
    /\ users_in w' = (if g then <[target := with_role APPROVED_USER t None a]> (users_in w) else users_in w)
    /\ bt_requests (bw_tables w') = bt_requests (bw_tables w).
Proof.
  intros Hok E. unfold approve_access_request_user in E.
  apply bind_inv in E as [(? & w1 & H1%staff_reads & E)|(? & _ & ?)]; [|done].
  apply bind_inv in E as [(a & w2 & H2 & E)|(? & _ & ?)]; [|done]. pose proof (get_user_reads _ _ _ _ H2) as H2r.
  apply get_user_run in H2 as [_ Ha]. specialize (Ha _ eq_refl). unfold users_in in Ha. rewrite H1 in Ha, H2r.
  assert (forall v (x : result bot_error approval), (x, v) = (Ok ap, w') -> bw_tables v = bw_tables w ->
    grants target at_ a = Some false -> exists a g t, users_in w !! target = Some a /\ grants target at_ a = Some g
    /\ users_in w' = (if g then <[target := with_role APPROVED_USER t None a]> (users_in w) else users_in w)
    /\ bt_requests (bw_tables w') = bt_requests (bw_tables w)) as Hsame.
  { intros v y [= _ <-] Hv Hg. exists a, false, []. unfold users_in. rewrite Hv. done. }
  pose proof (Hok _ _ Ha) as Haok.
  destruct (is_admin_id env target) eqn:Hadm; [eapply Hsame; [exact E|done|]; unfold grants; by rewrite Hadm|]. cbn [orb] in E.
  case_bool_decide as Hs; [eapply Hsame; [exact E|done|]; unfold grants; by rewrite Hadm, Hs|]. rewrite (blocked_by_role _ _ Haok Hs) in E.
  destruct (bool_decide (ac_role a = BLOCKED_USER) && _) eqn:Hblk; [done|].
  destruct (bool_decide (ac_role a = APPROVED_USER) && _) eqn:Happ.
  { eapply Hsame; [exact E|done|]. bool_prop. unfold grants. rewrite Hadm. assert (ac_role a = APPROVED_USER) as E1 by done. by rewrite E1. }
  destruct (bool_decide (ac_role a = MODERATOR)) eqn:Hm; bool_prop; [eapply Hsame; [exact E|done|]; unfold grants; by rewrite Hadm, Hm|].
  destruct (negb (bool_decide (ac_role a ∈ _))) eqn:Hin; [done|]. bool_prop.
  apply bind_inv in E as [(t & w3 & H3 & E)|(? & _ & ?)]; [|done].
  assert (bw_tables w3 = bw_tables w) as H3t by (injection H3 as _ <-; exact H2r).
  apply bind_inv in E as [(? & w4 & H4%role_update_run & E)|(? & _ & ?)]; [|done]. destruct H4 as (a' & Ha' & Hw4 & Hr4).
  apply bind_inv in E as [(? & w5 & H5 & E)|(? & _ & ?)]; [|done].
  assert (bw_tables w5 = bw_tables w4) as H5t by (by injection H5 as _ <-).
  apply bind_inv in E as [(? & w6 & H6%get_user_reads & E)|(? & _ & ?)]; [|done]. injection E as _ <-.
  assert (bw_tables w6 = bw_tables w4) as H6t by (by rewrite H6).
  unfold users_in in *. rewrite H3t in Ha', Hw4, Hr4. rewrite H6t. rewrite Ha in Ha'. injection Ha' as <-.
  exists a, true, t. split; [done|]. split; [|done]. unfold grants. rewrite Hadm.
  destruct (ac_role a) eqn:Hr; try done. rewrite bool_decide_eq_true_2 in Hblk by done. by destruct (request_is_after_block _ _).
Qed.

Lemma transaction_inv {A} (m : M (bot_world X) bot_error A) w r w' : transaction env m w = (r, w') ->
  match r with
  | Ok a => exists w1, bw_tables w1 = bw_tables w /\ bw_keys w1 = bw_keys w /\ m w1 = (Ok a, w')
  | Err _ => bw_tables w' = bw_tables w
  end.
Proof.
  unfold transaction. intros [([] & w1 & [H1 H2]%sql_run & E)|(e & [H1 _]%sql_run & ->)]%bind_inv; [|done].
  destruct (m w1) as [[a|e] w2] eqn:Em; injection E as <- <-; [by exists w1|]. by cbn.
Qed.
Lemma require_request_run id w r w' : require_request env id w = (r, w') ->
  bw_tables w' = bw_tables w /\ forall q, r = Ok q -> q ∈ sr_rows (bt_requests (bw_tables w)) /\ rq_id q = id.
Proof.
  unfold require_request, request_by_id. intros [(o & w1 & (H1 & _ & Ho)%select_run & E)|(e & (H1 & _)%select_run & ->)]%bind_inv; [|done].
  specialize (Ho _ eq_refl). destruct o as [q|]; injection E as <- <-; (split; [done|]); [|done].
  intros q0 [= <-]. symmetry in Ho. apply find_some in Ho as [Hin Hq]. apply Z.eqb_eq in Hq. by split; [apply list_elem_of_In|].
Qed.
Lemma unique_row t q q' : requests_ok t -> q ∈ sr_rows t -> q' ∈ sr_rows t -> rq_id q = rq_id q' -> q = q'.
Proof.
  intros [H _ _ _]. generalize dependent (sr_rows t). intros l. induction l as [|x l IH]; intros Hn Hq Hq' E; [by apply elem_of_nil in Hq|].
  cbn in Hn. apply NoDup_cons in Hn as [Hx Hn]. apply elem_of_cons in Hq as [->|Hq], Hq' as [->|Hq']; [done| | |by apply IH];
    exfalso; apply Hx; [rewrite E|rewrite <- E]; by apply list_elem_of_fmap_2.
Qed.
(** The row of an id, when the statement that decides it runs. *)
Lemma set_status_run id status actor t w b w' q : requests_ok (bt_requests (bw_tables w)) ->
  q ∈ sr_rows (bt_requests (bw_tables w)) -> rq_id q = id ->
  set_status_if_pending env id status actor t w = (Ok b, w') ->
  users_in w' = users_in w /\ b = is_pending q
  /\ (if b then decide_request status actor t q ∈ sr_rows (bt_requests (bw_tables w')) else bw_tables w' = bw_tables w).
Proof.
  intros Hok Hq Hid. unfold set_status_if_pending. set (p := fun r => (rq_id r =? id) && bool_decide (rq_status r = RequestPending)).
  intros [(n & w1 & (H1 & _ & Hn)%select_run & E)|(e & _ & ?)]%bind_inv; [|done]. specialize (Hn _ eq_refl).
  apply bind_inv in E as [([] & w2 & H2 & E)|(e & _ & ?)]; [|done]. injection H2 as H2. injection E as <- <-.
  apply (f_equal bw_tables) in H2. cbn in H2. rewrite H1 in H2. unfold users_in. rewrite <- H2. split; [done|].
  assert (forall r, r ∈ sr_rows (bt_requests (bw_tables w)) -> p r = bool_decide (r = q) && is_pending q) as Hp.
  { intros r Hr. unfold p. destruct (decide (r = q)) as [->|Hne]; [by rewrite Hid, Z.eqb_refl, (bool_decide_eq_true_2 (q = q))|].
    rewrite (bool_decide_eq_false_2 (r = q)) by done. apply andb_false_iff. left. apply Z.eqb_neq. intros E. apply Hne.
    apply (unique_row (bt_requests (bw_tables w))); [done..|congruence]. }
  assert (n = if is_pending q then 1 else 0)%nat as ->.
  { rewrite Hn. erewrite filter_ext_in; [|intros r Hr%list_elem_of_In; exact (Hp r Hr)]. clear Hn Hp H2.
    destruct Hok as [Hids _ _ _]. apply (NoDup_fmap_1 rq_id) in Hids. destruct (is_pending q).
    - revert Hids Hq. generalize (sr_rows (bt_requests (bw_tables w))). intros l. induction l as [|r l IH]; intros Hn Hq; [by apply elem_of_nil in Hq|].
      apply NoDup_cons in Hn as [Hr Hn]. cbn. case_bool_decide as E.
      + subst r. cbn. f_equal. clear IH Hq. induction l as [|r l IH]; [done|]. apply not_elem_of_cons in Hr as [Hne Hr].
        apply NoDup_cons in Hn as [_ Hn]. cbn. rewrite bool_decide_eq_false_2 by congruence. by apply IH.
      + apply IH; [done|]. apply elem_of_cons in Hq as [->|Hq]; [done|exact Hq].
    - generalize (sr_rows (bt_requests (bw_tables w))). intros l. clear. induction l as [|r l IH]; [done|]. cbn. by rewrite andb_false_r. }
  destruct (is_pending q) eqn:Hpend; cbn; (split; [done|]).
  - apply list_elem_of_fmap. exists q. split; [|done]. change (_ && _) with (p q). rewrite (Hp q Hq). by rewrite bool_decide_eq_true_2.
  - clear H2. destruct (bw_tables w) as [us [rows seq] tr px au]. unfold set_requests, map_rows. cbn in *. repeat f_equal.
    rewrite <- (map_id rows) at 2. apply map_ext_in. intros r Hr%list_elem_of_In. change (_ && _) with (p r).
    by rewrite (Hp r Hr), andb_false_r.
Qed.

Definition same_rows w w' : Prop := users_in w' = users_in w /\ bt_requests (bw_tables w') = bt_requests (bw_tables w).
#[local] Instance same_rows_pre : PreOrder same_rows.
Proof. split; [by intros w|]. intros a b c [? ?] [? ?]. unfold same_rows in *. split; congruence. Qed.
Lemma audit_aside actor action entity n : keeps same_rows (audit (X := X) env actor action entity n).
Proof.
  apply bot_keeps_audit; [apply _| |by intros f w]. intros w w' H _. unfold same_rows, users_in. by rewrite H.
Qed.

(** C13 An approval is made whole or not at all. When [approve] raises, no row of the
    accounts, requests or audit log has changed. When it says the request was no
    longer open, nothing has changed either. When it says it decided it, the row
    names the actor, and the user has got access exactly when they were waiting
    for it, or were blocked before they asked: the request of a user blocked
    later is refused. *)
Theorem approval_is_whole actor id w r w' : tables_ok (bw_tables w) -> approve env actor id w = (r, w') ->
  match r with
  | Err _ => bw_tables w' = bw_tables w
  | Ok (q', changed) => exists q, q ∈ sr_rows (bt_requests (bw_tables w)) /\ rq_id q = id /\ is_pending q = changed
      /\ if changed
         then (exists t, decide_request RequestApproved actor t q ∈ sr_rows (bt_requests (bw_tables w'))
                         /\ q' = decide_request RequestApproved actor t q)
              /\ exists a g t, users_in w !! rq_user q = Some a /\ grants (rq_user q) (rq_requested_at q) a = Some g
                 /\ users_in w' = (if g then <[rq_user q := with_role APPROVED_USER t None a]> (users_in w) else users_in w)
         else q' = q /\ bw_tables w' = bw_tables w
  end.
Proof.
  intros Hok E. unfold approve, settle_request in E.
  apply bind_inv in E as [(u & w1 & H1%staff_reads & E)|(e & H1%staff_reads & ->)]; [|done].
  apply transaction_inv in E. destruct r as [[q' changed]|e]; [|congruence].
  destruct E as (w2 & H2 & _ & E). rewrite H1 in H2. clear H1 w1.
  apply bind_inv in E as [(q & w3 & [H3 Hq]%require_request_run & E)|(? & _ & ?)]; [|done].
  destruct (Hq _ eq_refl) as [Hin Hid]. clear Hq. rewrite H2 in Hin, H3.
  apply bind_inv in E as [(t & w4 & H4 & E)|(? & _ & ?)]; [|done].
  assert (bw_tables w4 = bw_tables w) as H4t by (injection H4 as _ <-; exact H3). clear H4 H3 H2 w3 w2.
  apply bind_inv in E as [(ch & w5 & H5 & E)|(? & _ & ?)]; [|done]. rewrite <- H4t in Hin. pose proof Hok as [Hus Hreq].
  rewrite <- H4t in Hreq. pose proof (set_status_run _ _ _ _ _ _ _ _ Hreq Hin Hid H5) as (Hu5 & Hch & H5r).
  pose proof (keeps_run _ _ _ _ _ (orderly_set_status id RequestApproved actor t ltac:(done)) H5) as [H5ok _].
  rewrite H4t in H5ok, Hin. specialize (H5ok Hok). exists q. split; [done|]. split; [done|]. destruct ch.
  - apply bind_inv in E as [(? & w6 & H6 & E)|(? & _ & ?)]; [|done].
    apply bind_inv in H6 as [([] & w7 & H7 & H6)|(? & _ & ?)]; [|done].
    apply bind_inv in H7 as [(ap & w8 & H8 & H7)|(? & _ & ?)]; [|done]. injection H7 as ->.
    apply approve_user_spec in H8 as (a & g & t' & Ha & Hg & Hw7 & Hr7); [|apply H5ok].
    rewrite Hu5 in Ha, Hw7. unfold users_in in Ha, Hw7 at 2 3. rewrite H4t in Ha, Hw7.
    assert (users_in w6 = users_in w7 /\ bt_requests (bw_tables w6) = bt_requests (bw_tables w7)) as [Hu6 Hr6].
    { exact (keeps_run _ _ _ _ _ (audit_aside _ _ _ _) H6). }
    apply bind_inv in E as [(q2 & w9 & [H9 Hq2]%require_request_run & E)|(? & _ & ?)]; [|done]. injection E as -> <- <-.
    destruct (Hq2 _ eq_refl) as [Hin2 Hid2]. split; [done|]. unfold users_in. rewrite H9. split.
    + exists t. rewrite Hr6, Hr7. split; [done|]. rewrite Hr6, Hr7 in Hin2.
      eapply unique_row; [apply H5ok|done|done|]. by rewrite Hid2.
    + exists a, g, t'. split; [done|]. split; [done|]. unfold users_in in Hu6, Hw7. by rewrite Hu6, Hw7.
  - apply bind_inv in E as [([] & w6 & H6 & E)|(? & _ & ?)]; [|done]. injection H6 as <-.
    apply bind_inv in E as [(q2 & w9 & [H9 Hq2]%require_request_run & E)|(? & _ & ?)]; [|done]. injection E as -> <- <-.
    destruct (Hq2 _ eq_refl) as [Hin2 Hid2]. split; [done|]. rewrite H5r in Hin2. rewrite H9, H5r. split; [|done].
    eapply unique_row; [apply Hok| |done|congruence]. by rewrite <- H4t.
Qed.
End Keep.
