(* ===== verification/Hysteria.v ===== *)
(** * Hysteria2 keys and their authentication
      ([services/hysteria.py], [hy2_auth/store.py], [hy2_auth/server.py])

    There is nothing to apply: the Hysteria2 server asks [hy2_auth] at every
    handshake, and [hy2_auth] reads the key table. The service works on the
    database of [BotDb]; the authentication endpoint reads it through a connection
    of its own, which is the second half of this file. The keys are direct ones,
    without a relay; the text of the link is the formatter's. *)

From S2P Require Import Prelude PyText Json IsoTime AwgConfig VpnKeys BackendHealth AwgService BotDb Accounts.
#[local] Open Scope Z_scope.

Definition HYSTERIA2_REVOCABLE_STATUSES : list key_status := [ACTIVE; PENDING_APPLY; APPLY_FAILED].
Definition SECRET : str := py "secret".
Definition EMAIL_LABEL : str := py "email_label".

Record hysteria_settings := HysteriaSettings {
  hs_enabled : bool; hs_host : str; hs_sni : str; hs_port : Z; hs_stats : bool }.
(** [Settings.validate_hysteria2_ready] *)
Definition validate_hysteria2_ready (s : hysteria_settings) : bool :=
  negb (is_empty (hs_host s)) && negb (is_empty (hs_sni s)) && (1 <=? hs_port s) && (hs_port s <=? 65535).

(** The module switch, the generators and the Traffic Stats API, at each moment. *)
Record hysteria_env := HysteriaEnv {
  he_settings : hysteria_settings; he_module : nat -> result bot_error bool;
  he_label : nat -> str; he_secret : nat -> str; he_kick : nat -> bool }.

Section Hysteria.
Context {X : Type} `{iso : !IsoText} (env : bot_env) (henv : hysteria_env).
Abbreviation BM := (M (bot_world X) bot_error) (only parsing).

Definition ensure_module_enabled : BM unit :=
  if negb (hs_enabled (he_settings henv)) then raise (Refused ModuleOff)
  else
    let! answer := ask (he_module henv) in
    let! enabled := lift answer in
    if enabled : bool then ret tt else raise (Refused ModuleOff).
Definition ensure_can_create (actor owner : Z) (allow_pending_owner : bool) : BM unit :=
  let! a := require_approved_or_admin env actor in
  if negb (bool_decide (ac_role a = SUPERADMIN)) && negb (actor =? owner) then raise (Denied ForOther)
  else if allow_pending_owner then
    if negb (bool_decide (ac_role a = SUPERADMIN)) then raise (Denied GuestsBySuperadmin)
    else
      let! o := get_user env owner in
      if blocked o then raise (Denied ToBlocked) else ret tt
  else
    let! o := require_approved_or_admin env owner in
    if bool_decide (ac_role o ∈ [SUPERADMIN; APPROVED_USER]) then ret tt else raise (Denied NoOwnerAccess).

Definition get_key (id : Z) : BM vpn_key :=
  let! found := on_rows (get_by_id id) in
  match found with Some k => ret k | None => raise (Missing NoKey) end.
Definition get_key_for_manage (actor id : Z) : BM vpn_key :=
  let! a := require_approved_or_admin env actor in
  let! k := get_key id in
  if negb (bool_decide (k_type k = HYSTERIA2)) then raise (Refused NotHysteria)
  else if negb (bool_decide (ac_role a = SUPERADMIN)) && negb (k_owner k =? actor) then raise (Denied ForeignKey)
  else ret k.
(** [_kick_best_effort]: the request is sent; its outcome changes nothing. *)
Definition kick_best_effort (label : option str) : BM unit :=
  match given label with
  | Some l =>
      if hs_stats (he_settings henv) then
        let! sent := ask (he_kick henv) in
        if sent : bool then modify (fun w => BotWorld (bw_tables w) (bw_keys w) (bw_cleared w) (bw_kicked w ++ [l])
          (bw_told w) (bw_rest w) (bw_tick w)) else ret tt
      else ret tt
  | None => ret tt
  end.
(** [range(5)] attempts. *)
Fixpoint generate_unique_label (n : nat) : BM str :=
  match n with
  | O => raise (Refused NoFreeLabel)
  | S n' =>
      let! label := ask (he_label henv) in
      let! taken := on_rows (find_by_email_label label) in
      match taken with None => ret label | Some _ => generate_unique_label n' end
  end.

Definition hysteria_payload (secret label : str) : payload := [(SECRET, PText secret); (EMAIL_LABEL, PText label)].
Definition hysteria_public_payload (label : str) : payload := [(EMAIL_LABEL, PText label)].
(** The [try] around [mark_active]. *)
Definition activate (actor id : Z) (pl public_pl : payload) : BM unit :=
  catch (let! t := now env in on_rows (mark_active id t (Some pl) (Some public_pl)))
    (fun exc =>
       let! _ := attempt (let! t := now env in on_rows (set_status id APPLY_FAILED t [])) in
       audit_best_effort env (Some actor) (py "hysteria2_apply_failed") (OnKey id) 0 ;;!
       raise exc).
Record hysteria_request := HysteriaRequest {
  hr_actor : Z; hr_owner : Z; hr_username : option str; hr_note : option str;
  hr_expires_at : option str; hr_allow_pending_owner : bool }.
(** [issue], with the read-back it ends with apart. *)
Definition issue_with {A} (read_back : Z -> BM A) (req : hysteria_request) : BM A :=
  ensure_module_enabled ;;!
  (if validate_hysteria2_ready (he_settings henv) then ret tt else raise SettingsMissing) ;;!
  match normalize_note (hr_note req) with
  | Err _ => raise BadNoteText
  | Ok clean_note =>
      ensure_can_create (hr_actor req) (hr_owner req) (hr_allow_pending_owner req) ;;!
      ensure_can_create (hr_actor req) (hr_owner req) (hr_allow_pending_owner req) ;;!
      let! label := generate_unique_label 5 in
      let! secret := ask (he_secret henv) in
      let! t := now env in
      let! key := on_rows (create_pending (hr_owner req) (hr_username req) HYSTERIA2 clean_note
        (hysteria_payload secret label) (hysteria_public_payload label) (hr_actor req) t
        (Some label) None None (hr_expires_at req)) in
      activate (hr_actor req) (k_id key) (hysteria_payload secret label) (hysteria_public_payload label) ;;!
      audit_best_effort env (Some (hr_actor req)) (py "hysteria2_key_created") (OnKey (k_id key)) 0 ;;!
      read_back (k_id key)
  end.
Definition issue : hysteria_request -> BM vpn_key := issue_with get_key.

Definition revoke_found (actor : option Z) (revoked_by : Z) (action : str) (k : vpn_key) : BM vpn_key :=
  if status_in [REVOKED; DELETED] k then ret k
  else if negb (status_in HYSTERIA2_REVOCABLE_STATUSES k) then raise (Refused RevokableOnly)
  else
    let! t := now env in
    on_rows (mark_revoked (k_id k) revoked_by t) ;;!
    kick_best_effort (k_label k) ;;!
    audit_best_effort env actor action (OnKey (k_id k)) 0 ;;!
    get_key (k_id k).
Definition revoke (actor id : Z) : BM vpn_key :=
  let! k := get_key_for_manage actor id in
  revoke_found (Some actor) actor (py "hysteria2_key_revoked") k.
Definition revoke_hysteria2_key_system (id : Z) (actor : option Z) (action : str) : BM vpn_key :=
  let! k := get_key id in
  if negb (bool_decide (k_type k = HYSTERIA2)) then raise (Refused NotHysteria)
  else revoke_found actor (default (k_created_by k) actor) action k.
Definition delete_hysteria2_key (actor id : Z) : BM unit :=
  let! k := get_key_for_manage actor id in
  let! t := now env in
  on_rows (hard_delete_with_stats id t) ;;!
  kick_best_effort (k_label k) ;;!
  audit_best_effort env (Some actor) (py "hysteria2_key_hard_deleted") (OnKey id) 0.
(** [get_config]: the key whose link is shown. *)
Definition get_config (actor id : Z) : BM vpn_key :=
  let! k := get_key_for_manage actor id in
  if negb (status_in [ACTIVE] k) then raise (Refused ActiveOnly)
  else audit_best_effort env (Some actor) (py "hysteria2_config_shown") (OnKey id) 0 ;;! ret k.
(** [list_user_keys], newest first; [owner or actor]: 0 is nobody. *)
Definition key_newer (a b : vpn_key) : Prop := str_le (k_created_at b) (k_created_at a).
#[local] Instance key_newer_dec : RelDecision key_newer.
Proof. intros a b. unfold key_newer, str_le. apply _. Defined.
Definition list_by_owner_and_type (owner : Z) (type : key_type) (limit offset : Z) : BM (list vpn_key) :=
  on_rows (statement ;;! gets (fun t => take (clamp_limit limit) (drop (clamp_offset offset) (merge_sort key_newer
    (List.filter (fun k => (k_owner k =? owner) && bool_decide (k_type k = type) && negb (status_in [DELETED] k)) (kt_rows t)))))).
Definition list_user_keys (actor : Z) (owner : option Z) (limit offset : Z) : BM (list vpn_key) :=
  let! a := require_approved_or_admin env actor in
  let target := match owner with Some o => if o =? 0 then actor else o | None => actor end in
  if negb (bool_decide (ac_role a = SUPERADMIN)) && negb (target =? actor) then raise (Denied ForeignKeys)
  else list_by_owner_and_type target HYSTERIA2 limit offset.
End Hysteria.

(** ** [hy2_auth]: the keys as the endpoint reads them *)

(** [SELECT ... WHERE key_type = 'hysteria2' AND status = 'active'] *)
Definition active_hysteria2 (k : vpn_key) : bool := bool_decide (k_type k = HYSTERIA2) && status_in [ACTIVE] k.
(** The label and the secret of a row; one without them is skipped. *)
Definition row_secret (k : vpn_key) : option (str * str) :=
  match given (k_label k), payload_text SECRET (k_payload k) with
  | Some label, Some secret => Some (label, secret)
  | _, _ => None
  end.
Definition active_secrets (rows : list vpn_key) : list (str * str) := omap row_secret (List.filter active_hysteria2 rows).

(** [str.encode('utf-8')] refuses a lone surrogate. *)
Definition surrogate (c : N) : bool := ((55296 <=? c) && (c <=? 57343))%N.
Definition encoded (s : str) : option (list N) := if existsb surrogate s then None else Some (utf8_encode s).
(** [KeyStoreUnavailable]; [UnicodeEncodeError]. *)
Inductive auth_fault := StoreUnavailable | NotEncodable.
(** The loop of [match], with [hmac.compare_digest] on the bytes. *)
Fixpoint find_secret (incoming : list N) (secrets : list (str * str)) : result auth_fault (option str) :=
  match secrets with
  | [] => Ok None
  | (label, secret) :: rest =>
      match encoded secret with
      | None => Err NotEncodable
      | Some bytes => if bool_decide (bytes = incoming) then Ok (Some label) else find_secret incoming rest
      end
  end.
(** [ReadOnlyKeyStore.match], on what the live read gave. *)
Definition match_token (read : result auth_fault (list vpn_key)) (incoming : str) : result auth_fault (option str) :=
  if is_empty incoming then Ok None
  else match encoded incoming with
       | None => Err NotEncodable
       | Some bytes => result_bind read (fun rows => find_secret bytes (active_secrets rows))
       end.
(** [_auth_handler]: the reply, which is always sent with status 200. [None] is a body
    that is not JSON. *)
Inductive auth_reply := Accept (id : str) | Reject.
Definition incoming_of (body : option json) : option str :=
  match body with
  | Some (JObj members) => match dict_get (py "auth") members with Some (JStr ((_ :: _) as s)) => Some s | _ => None end
  | _ => None
  end.
Definition auth_handler (read : result auth_fault (list vpn_key)) (body : option json) : auth_reply :=
  match incoming_of body with
  | None => Reject
  | Some incoming =>
      match match_token read incoming with
      | Ok (Some label) => Accept label
      | Ok None | Err _ => Reject
      end
  end.

(** ** [hy2_auth]: the connection *)

(** The disk at each moment: the file at the path, when it can be looked at, and what
    a query gives over a connection to a file, which keeps the file it opened. *)
Record disk := Disk {
  d_stat : nat -> option Z; d_open : nat -> option Z; d_query : nat -> Z -> result unit (list vpn_key) }.
Record key_store := KeyStore { ks_conn : option Z; ks_file_id : option Z; ks_failures : Z; ks_tick : nat }.

Section Store.
Context (dk : disk).
Abbreviation AM := (M key_store auth_fault) (only parsing).
Definition look {A} (f : nat -> A) : AM A := fun s =>
  (Ok (f (ks_tick s)), KeyStore (ks_conn s) (ks_file_id s) (ks_failures s) (S (ks_tick s))).
Definition set_conn (c : option Z) : AM unit := modify (fun s => KeyStore c (ks_file_id s) (ks_failures s) (ks_tick s)).
Definition set_file_id (f : option Z) : AM unit := modify (fun s => KeyStore (ks_conn s) f (ks_failures s) (ks_tick s)).
Definition count_failure : AM unit := modify (fun s => KeyStore (ks_conn s) (ks_file_id s) (ks_failures s + 1) (ks_tick s)).
(** [_open]: first the connection, then the identity of the file at the path. *)
Definition open_store : AM unit :=
  let! opened := look (d_open dk) in
  match opened with
  | None => raise StoreUnavailable
  | Some file => set_conn (Some file) ;;! let! id := look (d_stat dk) in set_file_id id
  end.
Definition reopen_if_replaced : AM unit :=
  let! current := look (d_stat dk) in
  let! s := get in
  if bool_decide (current = None) || bool_decide (current = ks_file_id s) then ret tt
  else
    set_conn None ;;!
    catch open_store (fun exc => count_failure ;;! raise exc).
Definition read_active_rows : AM (list vpn_key) :=
  reopen_if_replaced ;;!
  let! s := get in
  match ks_conn s with
  | None => raise StoreUnavailable
  | Some file =>
      let! answer := look (fun n => d_query dk n file) in
      match answer with
      | Ok rows => ret rows
      | Err _ => count_failure ;;! raise StoreUnavailable
      end
  end.
(** A request; the table is read for a token that can be compared. *)
Definition authenticate (body : option json) : AM auth_reply :=
  match incoming_of body ≫= encoded with
  | None => ret Reject
  | Some _ => let! read := attempt read_active_rows in ret (auth_handler read body)
  end.
Definition healthcheck : AM bool :=
  let! outcome := attempt read_active_rows in ret (is_ok outcome).
End Store.
