(* ===== verification/HysteriaAccess.v ===== *)
(** * Who the Hysteria2 server lets in

    A token is accepted exactly when an active key carries it, at the moment it is
    presented; so a revocation, a deletion or a block is effective at once. *)

From S2P Require Import Prelude PyText Json IsoTime AwgConfig VpnKeys BackendHealth AwgService BotDb Accounts AccountSafety BlockSafety RequestSafety Hysteria.
#[local] Open Scope Z_scope.

(** ** Texts and their bytes *)

(** The code points a text may hold besides surrogates. *)
Definition code_point (c : N) : Prop := (c < 1114112)%N.
(** Decide the comparisons of a goal by arithmetic. *)
Ltac decide_N :=
  repeat match goal with
  | |- context [(?a <? ?b)%N] =>
      first [ replace (a <? b)%N with true by (symmetry; apply N.ltb_lt; lia)
            | replace (a <? b)%N with false by (symmetry; apply N.ltb_ge; lia) ]
  | |- context [(?a <=? ?b)%N] =>
      first [ replace (a <=? b)%N with true by (symmetry; apply N.leb_le; lia)
            | replace (a <=? b)%N with false by (symmetry; apply N.leb_gt; lia) ]
  end; cbn [andb orb].
Lemma cont_byte x : (x < 64)%N -> cont (128 + x) = Some x.
Proof. intros Hx. unfold cont. decide_N. f_equal. lia. Qed.
Lemma encode1_strict c r : code_point c -> surrogate c = false ->
  utf8_strict (utf8_encode1 c ++ r) = (s ← utf8_strict r; Some (c :: s)).
Proof.
  unfold code_point, surrogate. intros Hc Hs.
  assert (Hs' : (c < 55296 \/ 57343 < c)%N).
  { apply andb_false_iff in Hs as [Hs|Hs]; apply N.leb_gt in Hs; lia. }
  assert (forall n, (n mod 64 < 64)%N) as Hm by (intros; by apply N.mod_lt).
  pose proof (N.div_mod' c 64) as D1. pose proof (N.div_mod' (c / 64) 64) as D2. pose proof (N.div_mod' (c / 4096) 64) as D3.
  rewrite N.Div0.div_div in D2. change (64 * 64)%N with 4096%N in D2.
  rewrite N.Div0.div_div in D3. change (4096 * 64)%N with 262144%N in D3.
  pose proof (Hm c). pose proof (Hm (c / 64)%N). pose proof (Hm (c / 4096)%N). clear Hm Hs.
  unfold utf8_encode1. revert D1 D2 D3. generalize dependent (c / 64)%N. generalize dependent (c / 4096)%N. generalize (c / 262144)%N.
  intros q3 q2 H2 q1 H1 D1 D2 D3. revert H1 H2 D1 D2 D3.
  generalize dependent (c mod 64)%N. intros m1 Hm1.
  generalize (q1 mod 64)%N (q2 mod 64)%N. intros m2 m3 H1 H2 D1 D2 D3.
  destruct (N.ltb_spec c 128); [|destruct (N.ltb_spec c 2048); [|destruct (N.ltb_spec c 65536)]]; cbn [app utf8_strict]; decide_N; [done|..];
    rewrite ?cont_byte by lia; cbn [mbind option_bind]; rewrite ?cont_byte by lia; cbn [mbind option_bind];
    destruct Hs' as [Hs'|Hs']; decide_N;
    (destruct (utf8_strict r); cbn [mbind option_bind]; [do 2 f_equal; lia|done]).
Qed.
(** A text encoded is read back. *)
Lemma utf8_round_trip s : Forall code_point s -> existsb surrogate s = false -> utf8_strict (utf8_encode s) = Some s.
Proof.
  induction s as [|c s IH]; [done|]. intros [Hc Hs]%Forall_cons Hsur. cbn in Hsur. apply orb_false_iff in Hsur as [Hcs Hss].
  change (utf8_encode (c :: s)) with (utf8_encode1 c ++ utf8_encode s). by rewrite encode1_strict, (IH Hs Hss).
Qed.
Lemma encoded_inj s t bytes : Forall code_point s -> Forall code_point t ->
  encoded s = Some bytes -> encoded t = Some bytes -> s = t.
Proof.
  unfold encoded. intros Hs Ht. destruct (existsb surrogate s) eqn:Es; [done|]. destruct (existsb surrogate t) eqn:Et; [done|].
  intros [= <-] [= E]. apply (f_equal utf8_strict) in E. rewrite !utf8_round_trip in E by done. by injection E.
Qed.

(** ** The comparison *)

Lemma find_secret_sound bytes l label : find_secret bytes l = Ok (Some label) ->
  exists secret, (label, secret) ∈ l /\ encoded secret = Some bytes.
Proof.
  induction l as [|[lb sc] l IH]; cbn; [done|]. destruct (encoded sc) as [b|] eqn:E; [|done]. case_bool_decide as Hb.
  - intros [= <-]. exists sc. split; [by left|congruence].
  - intros (s & Hin & Hs)%IH. exists s. split; [by right|done].
Qed.
Lemma find_secret_complete bytes l label secret : Forall (fun p => is_Some (encoded p.2)) l ->
  (label, secret) ∈ l -> encoded secret = Some bytes -> exists label', find_secret bytes l = Ok (Some label').
Proof.
  induction 1 as [|[lb sc] l [b Hb] Hl IH]; [by intros ?%elem_of_nil|]. cbn in *. rewrite Hb. intros [E|Hin]%elem_of_cons Hs.
  - injection E as -> ->. rewrite Hs in Hb. injection Hb as ->. rewrite bool_decide_eq_true_2 by done. eauto.
  - case_bool_decide; eauto.
Qed.
Lemma active_secret_elem rows label secret : (label, secret) ∈ active_secrets rows <->
  exists k, k ∈ rows /\ active_hysteria2 k = true /\ row_secret k = Some (label, secret).
Proof.
  unfold active_secrets. rewrite list_elem_of_omap. split.
  - intros (k & [Hk Ha]%list_elem_of_In%filter_In & Hs). exists k. split; [by apply list_elem_of_In|done].
  - intros (k & Hk & Ha & Hs). exists k. split; [|done]. apply list_elem_of_In, filter_In. split; [by apply list_elem_of_In|done].
Qed.

(** A key that lets its token in. *)
Definition carries (token : str) (label : str) (k : vpn_key) : Prop :=
  k_type k = HYSTERIA2 /\ k_status k = ACTIVE /\ row_secret k = Some (label, token).
Lemma carries_active token label k : active_hysteria2 k = true /\ row_secret k = Some (label, token) <-> carries token label k.
Proof.
  unfold active_hysteria2, status_in, carries. rewrite andb_true_iff, !bool_decide_eq_true, list_elem_of_singleton. tauto.
Qed.
(** Secrets as the service makes them, or any text without surrogates. *)
Definition plain (s : str) : Prop := Forall code_point s /\ existsb surrogate s = false.
Definition plain_secrets (rows : list vpn_key) : Prop :=
  forall k label secret, k ∈ rows -> row_secret k = Some (label, secret) -> plain secret.
Definition texts_of (rows : list vpn_key) : Prop :=
  forall k label secret, k ∈ rows -> row_secret k = Some (label, secret) -> Forall code_point secret.

Lemma handler_sound rows body label token : texts_of rows -> incoming_of body = Some token -> Forall code_point token ->
  auth_handler (Ok rows) body = Accept label -> exists k, k ∈ rows /\ carries token label k.
Proof.
  intros Hrows Hin Ht. unfold auth_handler. rewrite Hin. unfold match_token. destruct (is_empty token); [done|].
  destruct (encoded token) as [bytes|] eqn:Eb; [|done]. cbn [result_bind].
  destruct (find_secret bytes (active_secrets rows)) as [[lb|]|] eqn:Ef; try done. intros [= <-].
  apply find_secret_sound in Ef as (secret & (k & Hk & Ha & Hs)%active_secret_elem & He). exists k. split; [done|].
  apply carries_active. split; [done|]. rewrite Hs. do 2 f_equal. eapply encoded_inj; [by eapply Hrows|done|done|done].
Qed.

Lemma handler_complete rows body label token k : plain_secrets rows -> incoming_of body = Some token -> k ∈ rows ->
  carries token label k -> exists label', auth_handler (Ok rows) body = Accept label'.
Proof.
  intros Hplain Hin Hk [Ha Hs]%carries_active. destruct (Hplain k label token Hk Hs) as [Hcp Hsur].
  assert (encoded token = Some (utf8_encode token)) as He by (unfold encoded; by rewrite Hsur).
  unfold auth_handler. rewrite Hin. unfold match_token. rewrite He.
  assert (is_empty token = false) as ->.
  { unfold incoming_of in Hin. destruct body as [[]|]; try done. destruct (dict_get _ _) as [[| | |[|]| |]|]; try done. by injection Hin as <-. }
  cbn [result_bind]. destruct (find_secret_complete (utf8_encode token) (active_secrets rows) label token) as [l' ->]; [| |done|by exists l'].
  + apply Forall_elem. intros [lb sc] (k' & Hk' & _ & Hs')%active_secret_elem. cbn.
    destruct (Hplain k' lb sc Hk' Hs') as [_ E]. unfold encoded. by rewrite E.
  + apply active_secret_elem. by exists k.
Qed.

(** C19 A token is let in exactly when an active key carries it. Against any table, the
    endpoint accepts a token only for an active Hysteria2 row whose secret is the
    token, character for character, and answers with that row's label; with
    secrets that have a UTF-8 form it accepts every such token; a read that fails,
    a body without a token and a token without a UTF-8 form are refused. *)
Theorem token_accepted_iff_active rows body : texts_of rows ->
  (forall s, incoming_of body = Some s -> Forall code_point s) ->
  (forall label, auth_handler (Ok rows) body = Accept label ->
     exists token k, incoming_of body = Some token /\ k ∈ rows /\ carries token label k)
  /\ (plain_secrets rows -> forall token label k, incoming_of body = Some token -> k ∈ rows -> carries token label k ->
     exists label', auth_handler (Ok rows) body = Accept label')
  /\ (forall e, auth_handler (Err e) body = Reject).
Proof.
  intros Hrows Hbody. split; [|split].
  - intros label Ha. destruct (incoming_of body) as [token|] eqn:Hin; [|by unfold auth_handler in Ha; rewrite Hin in Ha].
    destruct (handler_sound rows body label token Hrows Hin (Hbody _ eq_refl) Ha) as (k & Hk & Hc). by exists token, k.
  - intros Hplain token label k Hin Hk Hc. exact (handler_complete _ _ _ _ _ Hplain Hin Hk Hc).
  - intros e. unfold auth_handler. destruct (incoming_of body) as [s|]; [|done]. unfold match_token.
    destruct (is_empty s); [done|]. by destruct (encoded s).
Qed.

(** ** The service *)

Section Service.
Context {X : Type} `{iso : !IsoText} (env : bot_env) (henv : hysteria_env).
Implicit Types w : bot_world X.
Abbreviation rows_in w := (kt_rows (bw_keys w)) (only parsing).

Lemma statement_run t r t' : statement t = (r, t') -> kt_rows t' = kt_rows t /\ kt_seq t' = kt_seq t.
Proof. unfold statement. by intros [= _ <-]. Qed.
Lemma update_rows_run p f t r t' : update_rows p f t = (r, t') ->
  (kt_rows t' = kt_rows t /\ is_ok r = false)
  \/ kt_rows t' = map (fun k => if p k then f k else k) (kt_rows t) /\ r = Ok (length (List.filter p (kt_rows t))).
Proof.
  unfold update_rows. intros [([] & t1 & [H1 _]%statement_run & E)|(e & [H1 _]%statement_run & ->)]%bind_inv; [|by left].
  apply bind_inv in E as [(t2 & t3 & H2 & E)|(e & H2 & _)]; [|done]. injection H2 as <- <-.
  apply bind_inv in E as [([] & t4 & H4 & E)|(e & H4 & ->)]; unfold store_rows in H4.
  - destruct (indexes_ok _); [|done]. injection H4 as <-. injection E as <- <-. right. cbn. by rewrite H1.
  - destruct (indexes_ok _); [done|]. injection H4 as _ <-. by left.
Qed.
Lemma find_row_run p t r t' : find_row p t = (r, t') ->
  kt_rows t' = kt_rows t /\ kt_seq t' = kt_seq t /\ forall o, r = Ok o -> o = List.find p (kt_rows t).
Proof.
  unfold find_row. intros [([] & t1 & [H1 H2]%statement_run & E)|(e & [H1 H2]%statement_run & ->)]%bind_inv; [|done].
  injection E as <- <-. split; [done|]. split; [done|]. intros o [= <-]. by rewrite H1.
Qed.
(** A method of the key table, run in the bot. *)
Lemma on_rows_run {A} (m : M key_table key_error A) w r w' : on_rows (X := X) m w = (r, w') ->
  exists r0, m (bw_keys w) = (r0, bw_keys w') /\ bw_tables w' = bw_tables w
    /\ match r with Ok a => r0 = Ok a | Err _ => is_ok r0 = false end.
Proof.
  unfold on_rows, embed. cbn. destruct (m (bw_keys w)) as [[a|e] t]; intros [= <- <-]; eauto.
Qed.

(** Reading, and writing what no client looks at. *)
Definition calm w w' : Prop := rows_in w' = rows_in w /\ kt_seq (bw_keys w') = kt_seq (bw_keys w).
#[export] Instance calm_pre : PreOrder calm.
Proof. split; [by intros w|]. intros a b c [? ?] [? ?]. unfold calm. split; congruence. Qed.
Lemma calm_tables f : keeps calm (set_tables (X := X) f).
Proof. by intros w. Qed.
Lemma calm_ask {A} (f : nat -> A) : keeps calm (ask (X := X) f).
Proof. by intros w. Qed.
Lemma calm_sql : keeps calm (sql (X := X) env).
Proof. unfold sql. keeps_tac. apply calm_ask. Qed.
#[local] Hint Resolve calm_tables calm_ask calm_sql : keeps.
Lemma calm_select {A} (f : bot_tables -> A) : keeps calm (select (X := X) env f).
Proof. unfold select. keeps_tac. Qed.
Lemma calm_now : keeps calm (now (X := X) env).
Proof. apply calm_ask. Qed.
#[local] Hint Resolve calm_select calm_now : keeps.
Lemma calm_audit a b c d : keeps calm (audit_best_effort (X := X) env a b c d).
Proof. unfold audit_best_effort, audit, write. keeps_tac. Qed.
Lemma calm_find p : keeps calm (on_rows (X := X) (find_row p)).
Proof.
  apply keeps_embed. intros w. by destruct (find_row_run p (bw_keys w) _ _ (surjective_pairing _)) as (H1 & H2 & _).
Qed.
Lemma calm_kick label : keeps calm (kick_best_effort (X := X) henv label).
Proof. unfold kick_best_effort. keeps_tac. Qed.
#[local] Hint Resolve calm_audit calm_find calm_kick : keeps.
Lemma calm_get_key id : keeps calm (get_key (X := X) id).
Proof. unfold get_key, get_by_id. keeps_tac. Qed.
Lemma calm_get_user id : keeps calm (get_user (X := X) env id).
Proof. unfold get_user, user_by_id. keeps_tac. Qed.
#[local] Hint Resolve calm_get_key calm_get_user : keeps.
Lemma calm_approved id : keeps calm (require_approved_or_admin (X := X) env id).
Proof. unfold require_approved_or_admin. keeps_tac. Qed.
#[local] Hint Resolve calm_approved : keeps.
Lemma calm_manage a id : keeps calm (get_key_for_manage (X := X) env a id).
Proof. unfold get_key_for_manage. keeps_tac. Qed.
Lemma calm_can_create a o b : keeps calm (ensure_can_create (X := X) env a o b).
Proof. unfold ensure_can_create. keeps_tac. Qed.
Lemma calm_module : keeps calm (ensure_module_enabled (X := X) henv).
Proof. unfold ensure_module_enabled. keeps_tac. Qed.
Lemma calm_label n : keeps calm (generate_unique_label (X := X) henv n).
Proof. induction n as [|n IH]; cbn [generate_unique_label]; unfold find_by_email_label; keeps_tac. Qed.
#[local] Hint Resolve calm_manage calm_can_create calm_module calm_label : keeps.

(** The row of an id is not active. *)
Definition inactive (id : Z) (rows : list vpn_key) : Prop := forall k, k ∈ rows -> k_id k = id -> k_status k <> ACTIVE.
Lemma get_key_run id w r w' : get_key (X := X) id w = (r, w') ->
  calm w w' /\ forall k, r = Ok k -> k ∈ rows_in w /\ k_id k = id.
Proof.
  intros H. split; [exact (keeps_run _ _ _ _ _ (calm_get_key id) H)|]. intros k ->. unfold get_key in H.
  apply bind_inv in H as [(o & w1 & H1 & H)|(? & _ & ?)]; [|done]. apply on_rows_run in H1 as (r0 & H1 & _ & ->).
  apply find_row_run in H1 as (_ & _ & Ho). specialize (Ho _ eq_refl). destruct o as [k0|]; [|done]. injection H as -> _.
  symmetry in Ho. apply find_some in Ho as [Hin Hid]. split; [by apply list_elem_of_In|by apply Z.eqb_eq].
Qed.
Lemma only_row rows k k' : NoDup (map k_id rows) -> k ∈ rows -> k' ∈ rows -> k_id k = k_id k' -> k = k'.
Proof.
  induction rows as [|x l IH]; intros Hn Hq Hq' E; [by apply elem_of_nil in Hq|].
  cbn in Hn. apply NoDup_cons in Hn as [Hx Hn]. apply elem_of_cons in Hq as [->|Hq], Hq' as [->|Hq']; [done| | |by apply IH];
    exfalso; apply Hx; [rewrite E|rewrite <- E]; by apply list_elem_of_fmap_2.
Qed.
Lemma mark_revoked_run id by_ t w w' u : on_rows (X := X) (mark_revoked id by_ t) w = (Ok u, w') -> inactive id (rows_in w').
Proof.
  intros (r0 & H & _ & ->)%on_rows_run. unfold mark_revoked in H.
  apply bind_inv in H as [(n & t1 & H1 & H)|(? & _ & ?)]; [|done].
  assert (bw_keys w' = t1) as -> by (destruct (n =? 1)%nat; by injection H).
  apply update_rows_run in H1 as [[_ ?]|[H1 _]]; [done|]. rewrite H1.
  intros k (k0 & -> & Hk0)%list_elem_of_fmap. unfold has_id, status_in. destruct (k_id k0 =? id) eqn:Eid; cbn [andb].
  - case_bool_decide as Es; cbn [negb]; [intros _ E; rewrite E in Es; set_solver|done].
  - intros E. apply Z.eqb_neq in Eid. done.
Qed.
Lemma inactive_calm id w w' : calm w w' -> inactive id (rows_in w) -> inactive id (rows_in w').
Proof. intros [H _]. by rewrite H. Qed.
Lemma revoke_found_inactive actor by_ action k w r w' : NoDup (map k_id (rows_in w)) -> k ∈ rows_in w ->
  revoke_found (X := X) env henv actor by_ action k w = (Ok r, w') -> inactive (k_id k) (rows_in w').
Proof.
  intros Hn Hk. unfold revoke_found. destruct (status_in [REVOKED; DELETED] k) eqn:Es.
  - intros [= _ <-] k' Hk' Hid E. rewrite (only_row _ _ _ Hn Hk' Hk Hid) in E. unfold status_in in Es. rewrite E in Es.
    apply bool_decide_eq_true in Es. set_solver.
  - destruct (negb _); [done|]. intros [(t & w1 & H1 & E)|(? & _ & ?)]%bind_inv; [|done].
    apply bind_inv in E as [(u & w2 & H2%mark_revoked_run & E)|(? & _ & ?)]; [|done].
    eapply inactive_calm; [|exact H2]. eapply keeps_run; [|exact E]. keeps_tac.
Qed.

Inductive revocation := ByOwner (actor id : Z) | BySystem (id : Z) (actor : option Z) (action : str) | Deletion (actor id : Z).
Definition revoked_id (v : revocation) : Z := match v with ByOwner _ id | BySystem id _ _ | Deletion _ id => id end.
Definition run_revocation (v : revocation) : M (bot_world X) bot_error unit :=
  match v with
  | ByOwner actor id => let! _ := revoke env henv actor id in ret tt
  | BySystem id actor action => let! _ := revoke_hysteria2_key_system env henv id actor action in ret tt
  | Deletion actor id => delete_hysteria2_key env henv actor id
  end.
Lemma manage_run actor id w k w' : get_key_for_manage (X := X) env actor id w = (Ok k, w') ->
  calm w w' /\ k ∈ rows_in w /\ k_id k = id.
Proof.
  intros H. split; [exact (keeps_run _ _ _ _ _ (calm_manage actor id) H)|]. unfold get_key_for_manage in H.
  apply bind_inv in H as [(a & w1 & H1 & H)|(? & _ & ?)]; [|done].
  pose proof (keeps_run _ _ _ _ _ (calm_approved actor) H1) as [Hr _].
  apply bind_inv in H as [(k0 & w2 & [_ H2]%get_key_run & H)|(? & _ & ?)]; [|done].
  destruct (negb _); [done|]. destruct (negb _ && _); [done|]. injection H as -> _. rewrite <- Hr. by apply H2.
Qed.
Lemma revocation_inactive v w w' u : NoDup (map k_id (rows_in w)) -> run_revocation v w = (Ok u, w') ->
  inactive (revoked_id v) (rows_in w').
Proof.
  intros Hn. destruct v as [actor id|id actor action|actor id]; cbn [run_revocation revoked_id].
  - intros [(r & w1 & H & E)|(? & _ & ?)]%bind_inv; [|done]. injection E as _ <-. unfold revoke in H.
    apply bind_inv in H as [(k & w2 & ([Hc _] & Hk & <-)%manage_run & H)|(? & _ & ?)]; [|done].
    rewrite <- Hc in Hn, Hk. by eapply revoke_found_inactive.
  - intros [(r & w1 & H & E)|(? & _ & ?)]%bind_inv; [|done]. injection E as _ <-. unfold revoke_hysteria2_key_system in H.
    apply bind_inv in H as [(k & w2 & [[Hc _] Hk]%get_key_run & H)|(? & _ & ?)]; [|done]. destruct (Hk _ eq_refl) as [Hin <-].
    destruct (negb _); [done|]. rewrite <- Hc in Hn, Hin. by eapply revoke_found_inactive.
  - unfold delete_hysteria2_key. intros [(k & w2 & (_ & _ & _)%manage_run & E)|(? & _ & ?)]%bind_inv; [|done].
    apply bind_inv in E as [(t & w3 & _ & E)|(? & _ & ?)]; [|done].
    apply bind_inv in E as [(u1 & w4 & H4 & E)|(? & _ & ?)]; [|done].
    assert (inactive id (rows_in w4)) as Hi.
    { apply on_rows_run in H4 as (r0 & H4 & _ & ->). unfold hard_delete_with_stats in H4.
      do 3 (apply bind_inv in H4 as [(? & ? & _ & H4)|(? & _ & ?)]; [|done]). injection H4 as _ <-. cbn.
      intros k' [_ Hk']%list_elem_of_In%filter_In Hid. unfold has_id in Hk'. rewrite Hid, Z.eqb_refl in Hk'. done. }
    eapply inactive_calm; [|exact Hi]. eapply keeps_run; [|exact E]. keeps_tac.
Qed.

(** C20 A revocation is effective at the next handshake. Once the owner's, the system's or
    the deleting operation on a Hysteria2 key has returned, whatever became of the
    kick and of the audit, no token is let in as that key: the rows the endpoint
    reads at once afterwards accept for another key or refuse. *)
Theorem revocation_is_immediate v w w' u body label : NoDup (map k_id (rows_in w)) ->
  texts_of (rows_in w') -> (forall s, incoming_of body = Some s -> Forall code_point s) ->
  run_revocation v w = (Ok u, w') -> auth_handler (Ok (rows_in w')) body = Accept label ->
  exists token k, carries token label k /\ k ∈ rows_in w' /\ k_id k <> revoked_id v.
Proof.
  intros Hn Htexts Hbody Hrev Hacc. destruct (incoming_of body) as [token|] eqn:Hin; [|by unfold auth_handler in Hacc; rewrite Hin in Hacc].
  destruct (handler_sound _ body label token Htexts Hin (Hbody _ eq_refl) Hacc) as (k & Hk & Hc).
  exists token, k. split; [done|]. split; [done|]. intros E. apply revocation_inactive in Hrev; [|done].
  destruct Hc as (_ & Hst & _). by apply (Hrev k Hk E).
Qed.
End Service.
