(* ===== verification/HysteriaIssue.v ===== *)
(** * Issuing Hysteria2 keys

    What [issue] of [Hysteria] leaves in the key table, however it ends, and how it
    and a block of [Accounts] meet at the authentication endpoint. *)

From S2P Require Import Prelude PyText Json IsoTime AwgConfig VpnKeys BackendHealth AwgService BotDb Accounts AccountSafety BlockSafety RequestSafety Hysteria HysteriaAccess.
#[local] Open Scope Z_scope.

(** ** The statements of the key table *)

(** Every id is one the sequence has given. *)
Definition ids_given (t : key_table) : Prop := Forall (fun k => k_id k <= kt_seq t) (kt_rows t).
Lemma find_new l k : Forall (fun r => k_id r < k_id k) l -> List.find (has_id (k_id k)) (l ++ [k]) = Some k.
Proof.
  induction 1 as [|r l Hr Hl IH]; cbn; unfold has_id in *; [by rewrite Z.eqb_refl|].
  destruct (k_id r =? k_id k) eqn:E; [apply Z.eqb_eq in E; lia|done].
Qed.
Lemma update_new (p : vpn_key -> bool) f l k : Forall (fun r => p r = false) l ->
  map (fun r => if p r then f r else r) (l ++ [k]) = l ++ [if p k then f k else k].
Proof.
  intros Hl. rewrite map_app. f_equal. rewrite <- (map_id l) at 2. apply map_ext_in. intros r Hr%list_elem_of_In.
  rewrite Forall_elem in Hl. by rewrite (Hl r Hr).
Qed.
Lemma create_pending_run owner username type note pl public_pl by_ t label pk ip expires tb r tb' : ids_given tb ->
  create_pending owner username type note pl public_pl by_ t label pk ip expires tb = (r, tb') ->
  let k := VpnKey (kt_seq tb + 1) owner username type PENDING_APPLY note label pk ip pl public_pl t t None expires None by_ None None in
  kt_rows tb' = kt_rows tb ++ [k] /\ (forall k', r = Ok k' -> k' = k) \/ kt_rows tb' = kt_rows tb /\ is_ok r = false.
Proof.
  intros Hids. cbv zeta. unfold create_pending. intros [([] & t1 & [H1 H1s]%statement_run & E)|(e & [H1 H1s]%statement_run & ->)]%bind_inv; [|by right].
  apply bind_inv in E as [(t2 & t3 & H2 & E)|(e & H2 & _)]; [|done]. injection H2 as <- <-.
  rewrite H1, H1s in E. set (k := VpnKey _ _ _ _ _ _ _ _ _ _ _ _ _ _ _ _ _ _ _) in *.
  apply bind_inv in E as [([] & t4 & H4 & E)|(e & H4 & ->)]; unfold store_rows in H4.
  2:{ destruct (indexes_ok _); [done|]. injection H4 as _ <-. by right. }
  destruct (indexes_ok _); [|done]. injection H4 as <-.
  apply bind_inv in E as [([] & t5 & H5 & E)|(e & H5 & _)]; [|done]. injection H5 as <-.
  apply bind_inv in E as [(o & t6 & (H6 & _ & Ho)%find_row_run & E)|(e & (H6 & _)%find_row_run & ->)]; cbn in H6; left.
  - assert (List.find (has_id (kt_seq tb + 1)) (kt_rows tb ++ [k]) = Some k) as Hf.
    { apply (find_new (kt_rows tb) k). unfold ids_given in Hids. rewrite Forall_elem in Hids |- *. intros x Hx.
      specialize (Hids x Hx). cbn in *. lia. }
    specialize (Ho _ eq_refl). cbn in Ho. rewrite Hf in Ho. subst o. injection E as <- <-. split; [done|]. by intros k' [= <-].
  - split; [done|by intros].
Qed.
(** An [UPDATE] of the newest row. *)
Lemma update_newest p f l k tb r tb' : kt_rows tb = l ++ [k] -> Forall (fun r => p r = false) l ->
  update_rows p f tb = (r, tb') -> kt_rows tb' = l ++ [if p k then f k else k] \/ kt_rows tb' = l ++ [k] /\ is_ok r = false.
Proof.
  intros Hl Hp [[H ?]|[H _]]%update_rows_run; [right; by rewrite H|left; by rewrite H, Hl, update_new].
Qed.
Lemma other_ids l k (q : vpn_key -> bool) : Forall (fun r => k_id r < k_id k) l ->
  Forall (fun r => has_id (k_id k) r && q r = false) l.
Proof.
  intros H. eapply Forall_impl; [exact H|]. intros r Hr. unfold has_id. apply andb_false_iff. left. apply Z.eqb_neq. cbn in Hr. lia.
Qed.
Definition activated (t : str) (pl public_pl : payload) (k : vpn_key) : vpn_key :=
  VpnKey (k_id k) (k_owner k) (k_username k) (k_type k) ACTIVE (k_note k) (k_label k) (k_public_key k) (k_client_ip k)
    pl public_pl (k_created_at k) t (k_revoked_at k) (k_expires_at k) (k_deleted_at k) (k_created_by k) (k_revoked_by k)
    (k_deleted_by k).
Lemma mark_active_run l k t pl public_pl tb r tb' : kt_rows tb = l ++ [k] -> Forall (fun r => k_id r < k_id k) l ->
  k_status k = PENDING_APPLY -> mark_active (k_id k) t (Some pl) (Some public_pl) tb = (r, tb') ->
  kt_rows tb' = (if is_ok r then l ++ [activated t pl public_pl k] else l ++ [k]).
Proof.
  intros Hl Hids Hst. unfold mark_active. intros [(o & t1 & (H1 & _)%find_row_run & E)|(e & (H1 & _)%find_row_run & ->)]%bind_inv; [|by rewrite H1, Hl].
  rewrite Hl in H1. destruct o as [k0|]; [|injection E as <- <-; by rewrite H1].
  assert (status_in [PENDING_APPLY; APPLY_FAILED] k = true) as Hin by (unfold status_in; by rewrite Hst).
  apply bind_inv in E as [(n & t2 & H2 & E)|(e & H2 & ->)].
  - injection E as <- <-. destruct (update_newest _ _ l k _ _ _ H1 (other_ids l k _ Hids) H2) as [H|[_ ?]]; [|done].
    rewrite H. unfold has_id. by rewrite Z.eqb_refl, Hin.
  - destruct (update_newest _ _ l k _ _ _ H1 (other_ids l k _ Hids) H2) as [H|[H _]]; [|exact H].
    apply update_rows_run in H2 as [[H2 _]|[_ ?]]; [by rewrite H2|done].
Qed.
Lemma set_status_run' l k st t tb r tb' : kt_rows tb = l ++ [k] -> Forall (fun r => k_id r < k_id k) l ->
  set_status (k_id k) st t [] tb = (r, tb') -> kt_rows tb' = l ++ [set_key_status st t k] \/ kt_rows tb' = l ++ [k].
Proof.
  intros Hl Hids. unfold set_status.
  assert (Forall (fun r => has_id (k_id k) r = false) l) as Ho.
  { eapply Forall_impl; [apply (other_ids l k (fun _ => true) Hids)|]. intros x. cbn. by rewrite andb_true_r. }
  intros [(n & t1 & H1 & E)|(e & H1 & ->)]%bind_inv; [injection E as _ <-|];
    destruct (update_newest _ _ l k _ _ _ Hl Ho H1) as [H|[H _]]; rewrite H; unfold has_id; rewrite ?Z.eqb_refl; auto.
Qed.

(** ** Issuing *)

Section Issue.
Context {X : Type} `{iso : !IsoText} (env : bot_env) (henv : hysteria_env).
Implicit Types w : bot_world X.
Abbreviation rows_in w := (kt_rows (bw_keys w)) (only parsing).

Lemma approved_run id w r w' : require_approved_or_admin (X := X) env id w = (r, w') ->
  same_users w w' /\ forall a, r = Ok a -> users_in w !! id = Some a
    /\ (ac_role a ∈ [SUPERADMIN; MODERATOR] \/ ac_role a = APPROVED_USER /\ blocked a = false).
Proof.
  unfold require_approved_or_admin. intros [(a & w1 & [H1 H2]%get_user_run & E)|(e & [H1 _]%get_user_run & ->)]%bind_inv; [|done].
  specialize (H2 _ eq_refl). case_bool_decide as Hr; [injection E as <- <-; split; [done|]; intros ? [= <-]; auto|].
  destruct (blocked a) eqn:Hb; [by injection E as <- <-|]. case_bool_decide as Hp; injection E as <- <-; (split; [done|]); intros ? [= <-]; auto.
Qed.
(** Who may make a key for whom. *)
Definition may_issue (actor owner : Z) (allow_pending_owner : bool) w : Prop := exists a o,
  users_in w !! actor = Some a /\ users_in w !! owner = Some o
  /\ (ac_role a = SUPERADMIN \/ actor = owner /\ allow_pending_owner = false)
  /\ (ac_role o = SUPERADMIN \/ blocked o = false)
  /\ (allow_pending_owner = true \/ ac_role o ∈ [SUPERADMIN; APPROVED_USER]).
Lemma can_create_run actor owner b w w' u : ensure_can_create (X := X) env actor owner b w = (Ok u, w') -> may_issue actor owner b w.
Proof.
  unfold ensure_can_create. intros [(a & w1 & [H1 Ha]%approved_run & E)|(? & _ & ?)]%bind_inv; [|done].
  destruct (Ha _ eq_refl) as [Hua _]. destruct (negb (bool_decide _) && negb (actor =? owner)) eqn:Hself; [done|].
  assert (ac_role a = SUPERADMIN \/ actor = owner) as Hown.
  { apply andb_false_iff in Hself as [Hs|Hs]; apply negb_false_iff in Hs; [left; by apply bool_decide_eq_true in Hs|right; by apply Z.eqb_eq]. }
  destruct b.
  - destruct (bool_decide (ac_role a = SUPERADMIN)) eqn:Hr; [|done]. apply bool_decide_eq_true in Hr. cbn [negb] in E.
    apply bind_inv in E as [(o & w2 & [_ Ho]%get_user_run & E)|(? & _ & ?)]; [|done]. rewrite H1 in Ho. specialize (Ho _ eq_refl).
    destruct (blocked o) eqn:Hb; [done|]. exists a, o. auto 6.
  - apply bind_inv in E as [(o & w2 & [_ Ho]%approved_run & E)|(? & _ & ?)]; [|done]. rewrite H1 in Ho.
    destruct (Ho _ eq_refl) as [Huo Hro]. case_bool_decide as Hr; [|done]. exists a, o. split; [done|]. split; [done|].
    split; [destruct Hown; auto|]. split; [|by right]. destruct Hro as [Hm|[_ Hb]]; [|by right]. left.
    apply list_elem_of_In in Hm, Hr. cbn in Hm, Hr. intuition congruence.
Qed.
(** A label that no row has. *)
Definition unused (label : str) (rows : list vpn_key) : Prop := forall k, k ∈ rows -> k_label k <> Some label.
Lemma label_run n w label w' : generate_unique_label (X := X) henv n w = (Ok label, w') ->
  unused label (rows_in w) /\ exists i, label = he_label henv i.
Proof.
  revert w. induction n as [|n IH]; intros w; [done|]. cbn [generate_unique_label].
  intros [(lb & w1 & H1 & E)|(? & _ & ?)]%bind_inv; [|done]. injection H1 as <- <-.
  apply bind_inv in E as [(o & w2 & H2 & E)|(? & _ & ?)]; [|done].
  apply on_rows_run in H2 as (r0 & H2 & _ & ->). apply find_row_run in H2 as (Hr & _ & Ho). specialize (Ho _ eq_refl). cbn in Ho.
  destruct o as [k|]; [apply IH in E as [Hu ?]; split; [|done]; rewrite Hr in Hu; exact Hu|]. injection E as <- _. split; [|by eexists].
  intros k Hk%list_elem_of_In E. symmetry in Ho.
  pose proof (find_none _ _ Ho k Hk) as Hf. cbn in Hf. apply bool_decide_eq_false in Hf. by rewrite E in Hf.
Qed.

(** The row [issue] makes of a request, in whatever status. *)
Definition issued (req : hysteria_request) w (k : vpn_key) : Prop := exists label secret i j,
  label = he_label henv i /\ secret = he_secret henv j /\ unused label (rows_in w)
  /\ k_id k = kt_seq (bw_keys w) + 1 /\ k_owner k = hr_owner req /\ k_type k = HYSTERIA2
  /\ k_label k = Some label /\ k_payload k = hysteria_payload secret label
  /\ k_expires_at k = hr_expires_at req /\ k_created_by k = hr_actor req.
#[local] Hint Resolve calm_audit calm_get_key calm_can_create calm_module calm_label calm_now calm_ask : keeps.
(** [activate] on the newest row. *)
Lemma activate_run actor l k pl public_pl w r w' : rows_in w = l ++ [k] -> Forall (fun x => k_id x < k_id k) l ->
  k_status k = PENDING_APPLY -> activate (X := X) env actor (k_id k) pl public_pl w = (r, w') ->
  match r with
  | Ok _ => exists t, rows_in w' = l ++ [activated t pl public_pl k]
  | Err _ => rows_in w' = l ++ [k] \/ exists t, rows_in w' = l ++ [set_key_status APPLY_FAILED t k]
  end.
Proof.
  intros Hl Hids Hst. unfold activate, catch. destruct (bind (now env) _ w) as [[u|x] w1] eqn:E1.
  - intros [= <- <-]. apply bind_inv in E1 as [(t & w2 & H2 & E1)|(? & _ & ?)]; [|done].
    apply on_rows_run in E1 as (r0 & E1 & _ & ->). injection H2 as <- <-. exists (be_now env (bw_tick w)).
    by apply (mark_active_run l k _ _ _ _ _ _ Hl Hids Hst) in E1.
  - assert (rows_in w1 = l ++ [k]) as H1.
    { apply bind_inv in E1 as [(t & w2 & H2 & E1)|(? & H2 & _)]; [|done].
      apply on_rows_run in E1 as (r0 & E1 & _ & Hr). injection H2 as <- <-.
      apply (mark_active_run l k _ _ _ _ _ _ Hl Hids Hst) in E1. by rewrite Hr in E1. }
    clear E1. intros [(o & w2 & H2 & E)|(? & H2 & _)]%bind_inv; [|unfold attempt in H2; by destruct (bind _ _ w1)].
    apply bind_inv in E as [([] & w3 & H3%(keeps_run _ _ _ _ _ (calm_audit env _ _ _ _)) & E)|(? & H3 & ->)].
    2:{ apply bind_inv in H3 as [(? & ? & _ & ?)|(? & H3 & _)]; [done|]. unfold attempt in H3. by destruct (audit _ _ _ _ _ _). }
    injection E as <- <-. destruct H3 as [-> _]. unfold attempt in H2. destruct (bind _ _ w1) as [r2 w2'] eqn:E2. injection H2 as _ <-.
    apply bind_inv in E2 as [(t & w4 & H4 & E2)|(? & H4 & _)]; [|done]. apply on_rows_run in E2 as (r0 & E2 & _ & _). injection H4 as _ <-.
    apply (set_status_run' l k _ _ _ _ _ H1 Hids) in E2 as [?|?]; [right; by eexists|by left].
Qed.

(** All of [issue] but the read-back. *)
Definition issue_made (req : hysteria_request) : M (bot_world X) bot_error Z := issue_with env henv ret req.
Lemma issue_parts req w : issue env henv req w = bind (issue_made req) get_key w.
Proof. unfold issue_made, issue, issue_with, bind, ret, raise. repeat (case_match; simplify_eq; try done). Qed.

(** The row, on every branch. *)
Lemma issue_made_run req w r w' : ids_given (bw_keys w) -> issue_made req w = (r, w') ->
  match r with
  | Ok i => exists k, k_id k = i /\ rows_in w' = rows_in w ++ [k] /\ k_status k = ACTIVE /\ issued req w k
      /\ may_issue (hr_actor req) (hr_owner req) (hr_allow_pending_owner req) w
  | Err e => rows_in w' = rows_in w \/ exists k, rows_in w' = rows_in w ++ [k] /\ issued req w k
      /\ may_issue (hr_actor req) (hr_owner req) (hr_allow_pending_owner req) w /\ k_status k <> ACTIVE
  end.
Proof.
  intros Hids. unfold issue_made, issue_with.
  assert (forall A (m : M (bot_world X) bot_error A) v x v', keeps calm m -> calm w v -> m v = (x, v') -> calm w v') as Hcalm.
  { intros A m v x v' Hm Hv E. etransitivity; [exact Hv|]. exact (keeps_run _ _ _ _ _ Hm E). }
  intros [(? & w1 & H1 & E)|(? & H1 & ->)]%bind_inv; [|left; by apply (keeps_run _ _ _ _ _ (calm_module env henv)) in H1 as [? _]].
  assert (users_in w1 = users_in w) as Hu1.
  { enough (same_users w w1) by done. eapply keeps_run; [|exact H1]. unfold ensure_module_enabled.
    pose proof (fun A => @bot_keeps_ask X same_users same_users_about A). keeps_tac. }
  apply (Hcalm _ _ _ _ _ (calm_module env henv)) in H1; [|done].
  apply bind_inv in E as [([] & w2 & H2 & E)|(? & H2 & ->)]; [|left; destruct (validate_hysteria2_ready _); [done|]; injection H2 as _ <-; apply H1].
  destruct (validate_hysteria2_ready _); [|done]. injection H2 as <-.
  destruct (normalize_note _) as [note|]; [|injection E as <- <-; left; apply H1].
  apply bind_inv in E as [(? & w2 & H2 & E)|(? & H2 & ->)]; [|left; apply (Hcalm _ _ _ _ _ (calm_can_create env _ _ _) H1) in H2; apply H2].
  pose proof (can_create_run _ _ _ _ _ _ H2) as Hmay. unfold may_issue in Hmay. rewrite Hu1 in Hmay.
  apply (Hcalm _ _ _ _ _ (calm_can_create env _ _ _) H1) in H2. clear H1 Hu1 w1.
  apply bind_inv in E as [(? & w3 & H3 & E)|(? & H3 & ->)]; apply (Hcalm _ _ _ _ _ (calm_can_create env _ _ _) H2) in H3; [|left; apply H3].
  apply bind_inv in E as [(label & w4 & H4 & E)|(? & H4 & ->)]; [|left; apply (Hcalm _ _ _ _ _ (calm_label env henv _) H3) in H4; apply H4].
  pose proof (label_run _ _ _ _ H4) as [Hun [i Hi]]. rewrite (proj1 H3) in Hun.
  apply (Hcalm _ _ _ _ _ (calm_label env henv _) H3) in H4. clear H3 H2 w2 w3.
  apply bind_inv in E as [(secret & w5 & H5 & E)|(? & H5 & _)]; [|done].
  assert (secret = he_secret henv (bw_tick w4)) as Hsec by (by injection H5 as <- _). apply (Hcalm _ _ _ _ _ (calm_ask _) H4) in H5.
  apply bind_inv in E as [(t & w6 & H6 & E)|(? & H6 & _)]; [|done]. apply (Hcalm _ _ _ _ _ (calm_ask _) H5) in H6. clear H4 H5 w5.
  destruct H6 as [Hr6 Hs6].
  set (pl := hysteria_payload secret label) in *. set (ppl := hysteria_public_payload label) in *.
  assert (ids_given (bw_keys w6)) as Hids6 by (unfold ids_given; rewrite Hr6, Hs6; exact Hids).
  apply bind_inv in E as [(key & w7 & H7 & E)|(? & H7 & ->)]; apply on_rows_run in H7 as (r0 & H7 & _ & Hr0);
    apply create_pending_run in H7; [|done| |done]; rewrite Hr6, Hs6 in H7; cbv zeta in H7;
    set (k := VpnKey _ _ _ _ _ _ _ _ _ _ _ _ _ _ _ _ _ _ _) in H7.
  2:{ destruct H7 as [[H7 _]|[H7 _]]; [|by left]. right. exists k. split; [done|].
      split; [by exists label, secret, i, (bw_tick w4)|]. done. }
  destruct H7 as [[H7 Hk]|[_ ?]]; [|by rewrite Hr0 in *]. specialize (Hk _ Hr0). subst key.
  assert (Forall (fun r => k_id r < k_id k) (rows_in w)) as Hlt.
  { eapply Forall_impl; [exact Hids|]. intros r1 Hx. change (k_id r1 < kt_seq (bw_keys w) + 1). clear -Hx. cbn beta in Hx. lia. }
  assert (forall k', k_id k' = k_id k -> k_owner k' = k_owner k -> k_type k' = k_type k -> k_label k' = k_label k ->
    k_payload k' = k_payload k -> k_expires_at k' = k_expires_at k -> k_created_by k' = k_created_by k -> issued req w k') as Hiss.
  { intros k' E1 E2 E3 E4 E5 E6 E7. unfold issued. rewrite E1, E2, E3, E4, E5, E6, E7. by exists label, secret, i, (bw_tick w4). }
  apply bind_inv in E as [([] & w8 & H8 & E)|(e & H8 & ->)]; (apply (activate_run _ (rows_in w) k) in H8; [|done..]).
  2:{ right. destruct H8 as [H8|[t' H8]]; eexists; (split; [exact H8|]); (split; [by apply Hiss|]); done. }
  destruct H8 as [t' H8]. set (k1 := activated t' pl ppl k) in *.
  apply bind_inv in E as [([] & w9 & H9%(keeps_run _ _ _ _ _ (calm_audit env _ _ _ _)) & E)|(e & H9 & _)].
  2:{ apply bind_inv in H9 as [(? & ? & _ & ?)|(? & H9 & _)]; [done|]. unfold attempt in H9. by destruct (audit _ _ _ _ _ _). }
  destruct H9 as [H9 _]. rewrite H8 in H9. injection E as <- <-. exists k1. split; [done|]. split; [done|]. split; [done|].
  split; [by apply Hiss|done].
Qed.
Lemma issue_run req w r w' : ids_given (bw_keys w) -> issue (X := X) env henv req w = (r, w') ->
  match r with
  | Ok k => rows_in w' = rows_in w ++ [k] /\ k_status k = ACTIVE /\ issued req w k
      /\ may_issue (hr_actor req) (hr_owner req) (hr_allow_pending_owner req) w
  | Err e => rows_in w' = rows_in w \/ exists k, rows_in w' = rows_in w ++ [k] /\ issued req w k
      /\ may_issue (hr_actor req) (hr_owner req) (hr_allow_pending_owner req) w
      /\ (k_status k = ACTIVE -> exists v, issue_made req w = (Ok (k_id k), v) /\ get_key (k_id k) v = (Err e, w'))
  end.
Proof.
  intros Hids. rewrite issue_parts. intros [(i & v & H1 & E)|(e & H1 & ->)]%bind_inv; pose proof (issue_made_run _ _ _ _ Hids H1) as Hm.
  2:{ destruct Hm as [?|(k & ? & ? & ? & ?)]; [by left|]. right. exists k. by split_and!. }
  destruct Hm as (k & <- & Hv & Hst & Hi & Hm). pose proof (keeps_run _ _ _ _ _ (calm_get_key env _) E) as [Hw' _]. rewrite Hv in Hw'.
  destruct r as [k'|e]; [|right; exists k; split_and!; [done..|]; intros _; by exists v].
  assert (List.find (has_id (k_id k)) (rows_in w ++ [k]) = Some k) as Hf.
  { apply (find_new _ k). destruct Hi as (? & ? & ? & ? & _ & _ & _ & Hid & _). eapply Forall_impl; [exact Hids|]. intros k0 Hk0.
    cbn beta in *. lia. }
  unfold get_key in E. apply bind_inv in E as [(o & w10 & H10 & E)|(? & _ & ?)]; [|done].
  apply on_rows_run in H10 as (r1 & H10 & _ & ->). apply find_row_run in H10 as (_ & _ & Ho). specialize (Ho _ eq_refl).
  rewrite Hv, Hf in Ho. subst o. injection E as <- _. done.
Qed.

End Issue.

(** ** A block, at the endpoint *)

Section Endpoint.
Context {X : Type} `{iso : !IsoText} (env : bot_env) (henv : hysteria_env).
Abbreviation revoker_of_keys := (key_type -> option (Z -> Z -> M (bot_world X) bot_error unit)).
Implicit Types w : bot_world X.

(** What [attach_key_management] is given for the Hysteria2 keys, next to the revokers of
    the other protocols. *)
Definition hysteria_revoker (actor id : Z) : M (bot_world X) bot_error unit :=
  let! _ := revoke_hysteria2_key_system env henv id (Some actor) (py "hysteria2_key_revoked") in ret tt.
Definition with_hysteria (others : revoker_of_keys) : revoker_of_keys := fun t =>
  match t with HYSTERIA2 => Some hysteria_revoker | _ => others t end.

Lemma modest_about : about_tables (modest (X := X)).
Proof. intros w w' H1 H2. unfold modest, users_in, ids_in, proxy_ids_in. by rewrite H1, H2. Qed.
Lemma modest_rows {A} (m : M key_table key_error A) :
  (forall t, map k_id (kt_rows (m t).2) = map k_id (kt_rows t)) -> keeps modest (on_rows (X := X) m).
Proof.
  intros Hm. apply keeps_embed. intros w. unfold modest, ids_in, users_in, proxy_ids_in. cbn. rewrite Hm. done.
Qed.
Lemma update_rows_ids p f t : (forall k, k_id (f k) = k_id k) -> map k_id (kt_rows (update_rows p f t).2) = map k_id (kt_rows t).
Proof.
  intros Hf. destruct (update_rows p f t) as [r t'] eqn:E. cbn. apply update_rows_run in E as [[-> _]|[-> _]]; [done|].
  rewrite map_map. apply map_ext. intros k. by destruct (p k).
Qed.
Lemma mark_revoked_modest id by_ t : keeps modest (on_rows (X := X) (mark_revoked id by_ t)).
Proof.
  apply modest_rows. intros tb. unfold mark_revoked. destruct (bind _ _ tb) as [r tb'] eqn:E. cbn.
  apply bind_inv in E as [(n & t1 & H1 & E)|(e & H1 & _)]; pose proof (f_equal (fun x => map k_id (kt_rows x.2)) H1) as H2;
    cbn beta in H2; rewrite update_rows_ids in H2 by done; [|done]. cbn in H2. rewrite H2. by destruct (n =? 1)%nat; injection E as _ <-.
Qed.
Lemma hysteria_revoker_modest actor id : keeps modest (hysteria_revoker actor id).
Proof.
  pose proof modest_about as HR.
  assert (forall i, keeps modest (get_key (X := X) i)) as Hget by (intros i; unfold get_key; pose proof (get_by_id_same modest i HR); keeps_tac).
  assert (forall a b c d, keeps modest (audit_best_effort (X := X) env a b c d)) as Haud.
  { intros a b c d. apply best_effort_same; [apply _|]. apply bot_keeps_audit; [apply _|done|]. by intros f w. }
  assert (forall l, keeps modest (kick_best_effort (X := X) henv l)) as Hkick.
  { intros l. unfold kick_best_effort. pose proof (fun A => @bot_keeps_ask X modest HR A). keeps_tac. all: by intros w. }
  pose proof (bot_keeps_now env modest HR). pose proof mark_revoked_modest.
  unfold hysteria_revoker, revoke_hysteria2_key_system, revoke_found. keeps_tac.
Qed.
#[export] Instance with_hysteria_modest others proxies : ModestRevokers others proxies -> ModestRevokers (with_hysteria others) proxies.
Proof.
  intros [Hk Hp]. split; [|exact Hp]. intros t f actor id. destruct t; cbn; try apply Hk. intros [= <-]. apply hysteria_revoker_modest.
Qed.

(** C7 A blocked user's tokens stop working, or the block says which do not. After
    [block_user], asked to revoke, has returned, with the Hysteria2 service among the
    revokers and any others next to it that change no account and add no row, and when 500 keys of the
    user's at most are left in a status in which access may exist: a token the endpoint
    lets in belongs to a key of somebody else, or to one that the result of the block
    names among its errors. (Texts are sequences of code points.) *)
Theorem blocked_users_are_shut_out others proxies `{!ModestRevokers others proxies} actor target w res w' body label :
  block_user env (with_hysteria others) proxies actor target true w = (Ok res, w') ->
  (length (live_keys w' target) <= 500)%nat ->
  texts_of (kt_rows (bw_keys w')) -> (forall s, incoming_of body = Some s -> Forall code_point s) ->
  auth_handler (Ok (kt_rows (bw_keys w'))) body = Accept label ->
  exists token k, carries token label k /\ k ∈ kt_rows (bw_keys w')
    /\ (k_owner k <> target \/ reported is_vpn (br_errors res) (k_id k)).
Proof.
  intros Hblock Hlen Htexts Hbody Hacc.
  destruct (incoming_of body) as [token|] eqn:Hin; [|by unfold auth_handler in Hacc; rewrite Hin in Hacc].
  destruct (handler_sound _ body label token Htexts Hin (Hbody _ eq_refl) Hacc) as (k & Hk & Hc). exists token, k.
  split; [done|]. split; [done|]. destruct (decide (k_owner k = target)) as [Ho|]; [right|by left].
  apply (block_run env (with_hysteria others) proxies) in Hblock as (_ & Hrep & _). apply Hrep; [|done|]. { unfold keys_wired. cbn. by rewrite !orb_true_r. }
  unfold live_keys.
  apply list_elem_of_In, filter_In. split; [by apply list_elem_of_In|]. unfold owned_in, status_in.
  destruct Hc as (_ & -> & _). by rewrite Ho, Z.eqb_refl.
Qed.
End Endpoint.
