(* ===== verification/HysteriaStore.v ===== *)
(** * The connection the authentication endpoint reads through

    [ReadOnlyKeyStore] of [Hysteria]: which file a request is answered from, when the
    database is replaced, missing, or cannot be opened. *)

From S2P Require Import Prelude PyText Json AwgConfig VpnKeys Hysteria HysteriaAccess.

Section Store.
Context (dk : disk).

(** From a moment on, one file is at the path and can be opened. *)
Definition steady (f : Z) (n : nat) : Prop := forall i, (n <= i)%nat -> d_stat dk i = Some f /\ d_open dk i = Some f.
(** The store does not take the file for one it has open when it has not. *)
Definition pinned (f : Z) (s : key_store) : Prop := ks_file_id s = Some f -> ks_conn s = Some f.

Definition answer (i : nat) (f : Z) : result auth_fault (list vpn_key) :=
  match d_query dk i f with Ok rows => Ok rows | Err _ => Err StoreUnavailable end.

(** What a read comes to, on any disk: the answer of a query made now over some
    connection, or a failure. *)
Lemma read_run s r s' : read_active_rows dk s = (r, s') ->
  (ks_tick s <= ks_tick s')%nat
  /\ (r = Err StoreUnavailable
      \/ exists i f, (ks_tick s <= i < ks_tick s')%nat /\ ks_conn s' = Some f /\ r = answer i f).
Proof.
  unfold read_active_rows, reopen_if_replaced, open_store, look, set_conn, set_file_id, count_failure, modify, get, raise, ret, catch, bind, answer.
  cbn. destruct (bool_decide (d_stat dk _ = None) || _); cbn.
  - destruct (ks_conn s) as [f|]; cbn; [|intros [= <- <-]; cbn; split; [lia|by left]].
    destruct (d_query dk _ f) as [rows|] eqn:Eq; cbn; intros [= <- <-]; cbn; (split; [lia|]); [right|by left].
    exists (S (ks_tick s)), f. rewrite Eq. split; [lia|done].
  - destruct (d_open dk _) as [f|]; cbn; [|intros [= <- <-]; cbn; split; [lia|by left]].
    destruct (d_query dk _ f) as [rows|] eqn:Eq; cbn; intros [= <- <-]; cbn; (split; [lia|]); [right|by left].
    exists (S (S (S (ks_tick s)))), f. rewrite Eq. split; [lia|done].
Qed.
(** On a steady disk: over the file at the path. *)
Lemma read_steady s f r s' : steady f (ks_tick s) -> pinned f s -> read_active_rows dk s = (r, s') ->
  ks_conn s' = Some f /\ ks_file_id s' = Some f /\ (ks_tick s <= ks_tick s')%nat
  /\ exists i, (ks_tick s <= i)%nat /\ r = answer i f
     /\ ks_failures s' = (ks_failures s + (if is_ok r then 0 else 1))%Z.
Proof.
  intros Hd Hp. assert (forall i, (ks_tick s <= i)%nat -> d_stat dk i = Some f) as Hs by (intros; by apply Hd).
  assert (forall i, (ks_tick s <= i)%nat -> d_open dk i = Some f) as Ho by (intros; by apply Hd).
  unfold read_active_rows, reopen_if_replaced, open_store, look, set_conn, set_file_id, count_failure, modify, get, raise, ret, catch, bind, answer.
  cbn. rewrite (Hs (ks_tick s)), (bool_decide_eq_false_2 (Some f = None)) by done. cbn [orb].
  case_bool_decide as E; cbn.
  - rewrite (Hp (eq_sym E)). cbn. destruct (d_query dk (S (ks_tick s)) f) eqn:Eq; cbn; intros [= <- <-]; cbn; repeat (split; [done || lia|]);
      exists (S (ks_tick s)); rewrite Eq; repeat split; cbn; lia.
  - rewrite (Ho (S (ks_tick s))) by lia. cbn. rewrite (Hs (S (S (ks_tick s)))) by lia. cbn.
    destruct (d_query dk (S (S (S (ks_tick s)))) f) eqn:Eq; cbn; intros [= <- <-]; cbn; repeat (split; [done || lia|]);
      exists (S (S (S (ks_tick s)))); rewrite Eq; repeat split; cbn; lia.
Qed.

(** The endpoint answers from the file at the path, and fails closed. A request always
    gets a reply; one that is let in was let in by the rows of a query made while
    it was served. While one file stays at the path, the reply is the one its
    rows give, whatever was connected before: also after the file was replaced. *)
Theorem store_follows_the_file s body :
  (forall label s', authenticate dk body s = (Ok (Accept label), s') ->
     exists i f rows, (ks_tick s <= i < ks_tick s')%nat /\ d_query dk i f = Ok rows /\ auth_handler (Ok rows) body = Accept label)
  /\ is_ok (authenticate dk body s).1 = true
  /\ forall f, steady f (ks_tick s) -> pinned f s ->
     exists i reply s', authenticate dk body s = (Ok reply, s') /\ (ks_tick s <= i)%nat
       /\ reply = auth_handler (answer i f) body /\ pinned f s' /\ steady f (ks_tick s').
Proof.
  unfold authenticate. destruct (incoming_of body ≫= encoded) as [bytes|] eqn:Eb.
  - unfold bind, attempt, ret. destruct (read_active_rows dk s) as [r s1] eqn:Er. split; [|split; [done|]].
    + intros label s' [= Ha <-]. destruct (read_run _ _ _ Er) as [_ [->|(i & f & Hi & _ & ->)]].
      * exfalso. revert Ha. unfold auth_handler. destruct (incoming_of body); [|done]. unfold match_token.
        destruct (is_empty _); [done|]. by destruct (encoded _).
      * unfold answer in Ha. exists i, f. destruct (d_query dk i f) as [rows|]; [by exists rows|].
        exfalso. revert Ha. unfold auth_handler. destruct (incoming_of body); [|done]. unfold match_token.
        destruct (is_empty _); [done|]. by destruct (encoded _).
    + intros f Hd Hp. destruct (read_steady _ _ _ _ Hd Hp Er) as (Hc & Hf & Ht & i & Hi & -> & _).
      eexists i, _, s1. split; [done|]. split; [done|]. split; [done|]. split; [by intros _|]. intros j Hj. apply Hd. lia.
  - assert (forall read, auth_handler read body = Reject) as Hr.
    { intros read. unfold auth_handler. destruct (incoming_of body) as [t|]; [|done]. cbn in Eb. unfold match_token.
      destruct (is_empty t); [done|]. by rewrite Eb. }
    split; [done|]. split; [done|]. intros f Hd Hp. exists (ks_tick s), Reject, s. rewrite Hr. auto.
Qed.

(** ** When the file is gone, or cannot be opened *)

(** With no file at the path, the connection to the old one is still asked. *)
Lemma missing_file_is_still_read s f : ks_conn s = Some f -> d_stat dk (ks_tick s) = None ->
  (read_active_rows dk s).1 = answer (S (ks_tick s)) f.
Proof.
  intros Hc Hs. unfold read_active_rows, reopen_if_replaced, look, count_failure, modify, get, raise, ret, bind, answer. cbn.
  rewrite Hs, bool_decide_eq_true_2 by done. cbn. rewrite Hc. cbn. by destruct (d_query dk _ f).
Qed.

(** Request after request. *)
Fixpoint reads (n : nat) (s : key_store) : list bool :=
  match n with O => [] | S n' => let '(r, s') := read_active_rows dk s in is_ok r :: reads n' s' end.
Lemma stranded n : forall s f, ks_conn s = None -> ks_file_id s = Some f -> steady f (ks_tick s) ->
  reads n s = repeat false n.
Proof.
  induction n as [|n IH]; intros s f Hc Hf Hd; [done|]. cbn [reads repeat].
  assert (read_active_rows dk s = (Err StoreUnavailable, KeyStore None (Some f) (ks_failures s) (S (ks_tick s)))) as ->.
  { unfold read_active_rows, reopen_if_replaced, look, get, raise, ret, bind. cbn. rewrite (proj1 (Hd (ks_tick s) (le_n _))), Hf.
    rewrite (bool_decide_eq_true_2 (Some f = Some f)), orb_true_r by done. cbn. by rewrite Hc. }
  f_equal. by apply (IH _ f); [| |intros j Hj; apply Hd; cbn in Hj; lia].
Qed.
(** A new file that cannot be opened, and then the old one back: the store drops its
    connection, still takes the old file for the one it has, and no request is
    answered again, although the file can be opened and read. *)
Theorem unopened_swap_strands_the_store s f g n : ks_conn s = Some f -> ks_file_id s = Some f -> f <> g ->
  d_stat dk (ks_tick s) = Some g -> d_open dk (S (ks_tick s)) = None -> steady f (S (S (ks_tick s))) ->
  reads n s = repeat false n.
Proof.
  intros Hc Hf Hne Hs Ho Hd. destruct n as [|n]; [done|]. cbn [reads repeat].
  assert (read_active_rows dk s = (Err StoreUnavailable, KeyStore None (Some f) (ks_failures s + 1) (S (S (ks_tick s))))) as ->.
  { unfold read_active_rows, reopen_if_replaced, open_store, look, set_conn, count_failure, modify, get, raise, ret, catch, bind. cbn.
    rewrite Hs, Hf, !bool_decide_eq_false_2 by congruence. cbn. by rewrite Ho. }
  f_equal. by apply (stranded n _ f).
Qed.
End Store.
