(* ===== verification/TrialAccess.v ===== *)
(** * Trial access ([services/trial_access.py])

    A user asks for a trial key once per quota, a superadmin decides, and a key that
    lives seven days is made by the protocol's service. That service is a parameter:
    what it makes and how it takes it back ([issue] and
    [revoke_hysteria2_key_system] of [Hysteria], for one). *)

From S2P Require Import Prelude PyText IsoTime AwgConfig VpnKeys BackendHealth AwgService BotDb Accounts.
#[local] Open Scope Z_scope.

Definition TRIAL_DAYS : Z := 7.

(** What [create_xray_key], [issue] and [create_awg_key] are called with, besides the
    protocol: the owner may be pending. *)
Record grant := Grant { gr_actor : Z; gr_owner : profile; gr_expires_at : str }.
(** The services [self.xray], [self.awg], [self.hysteria]. *)
Record key_services (X : Type) := KeyServices {
  ks_create : key_type -> grant -> M (bot_world X) bot_error vpn_key;
  ks_revoke_system : key_type -> Z -> Z -> M (bot_world X) bot_error unit }.
Arguments ks_create {X}. Arguments ks_revoke_system {X}.

Section Trial.
Context {X : Type} `{iso : !IsoText} (env : bot_env) (services : key_services X).
(** [self.bot]: whether a message gets through, when there is a bot. *)
Context (bot : option (nat -> bool)).
Abbreviation BM := (M (bot_world X) bot_error) (only parsing).

Definition trial_expires_at (now : str) : result bot_error str :=
  match fromisoformat now with
  | None => Err BadTime
  | Some dt => Ok (isoformat (whole_second (add_days dt TRIAL_DAYS)))
  end.
(** [_require_superadmin] *)
Definition require_superadmin_row (actor : Z) : BM unit :=
  let! found := user_by_id env actor in
  match found with
  | Some a => if bool_decide (ac_role a = SUPERADMIN) then ret tt else raise (Denied Insufficient)
  | None => raise (Denied Insufficient)
  end.
(** [bot.send_message], its failure swallowed. *)
Definition send_quietly (user : Z) : BM unit :=
  match bot with
  | None => ret tt
  | Some sends =>
      let! sent := ask sends in
      if sent : bool then modify (fun w => BotWorld (bw_tables w) (bw_keys w) (bw_cleared w) (bw_kicked w)
        (bw_told w ++ [user]) (bw_rest w) (bw_tick w)) else ret tt
  end.

Definition can_request_trial (user : Z) : BM bool :=
  let! reset_at := trial_quota_reset_at env user in
  let! used := count_used_since_reset env user reset_at in
  ret (used =? 0)%nat.
Definition create_trial_request (user : Z) (type : key_type) : BM trial_request :=
  let! found := user_by_id env user in
  match found with
  | None => raise (Missing NoUser)
  | Some requester =>
      if blocked requester then raise (Denied Blocked)
      else
        let! req := transaction env (
          let! may := can_request_trial user in
          if negb may then raise (Denied TrialUsed)
          else let! t := now env in create_trial env user type t) in
        audit env (Some user) (py "trial_key_requested") (OnUser user) 0 ;;!
        ret req
  end.
Definition get_trial (id : Z) : BM trial_request :=
  let! found := trial_by_id env id in
  match found with Some q => ret q | None => raise (Missing NoTrial) end.
Definition count_pending_requests (actor : Z) : BM nat :=
  require_superadmin_row actor ;;! count_pending_trials env.

(** [_rollback_provisioned_trial_key] never raises. *)
Definition rollback_provisioned (type : key_type) (id actor : Z) : BM unit :=
  let! revoked := attempt (ks_revoke_system services type id actor) in
  match revoked with
  | Err _ => ret tt
  | Ok _ => audit_best_effort env (Some actor) (py "trial_key_approve_rolled_back") (OnKey id) 0
  end.
Definition approve_trial_request (actor id : Z) : BM vpn_key :=
  require_superadmin_row actor ;;!
  let! q := get_trial id in
  if negb (trial_pending q) then raise (Denied AlreadyDecided)
  else
    let! found := user_by_id env (tq_user q) in
    match found with
    | None => raise (Missing NoTrialOwner)
    | Some owner =>
        let! t := now env in
        let! expires_at := lift (trial_expires_at t) in
        let! key := ks_create services (tq_type q)
          (Grant actor (Profile (ac_id owner) (ac_username owner) (ac_first_name owner)) expires_at) in
        catch (approve_trial env id (k_id key) actor t)
          (fun exc => rollback_provisioned (tq_type q) (k_id key) actor ;;! raise exc) ;;!
        audit env (Some actor) (py "trial_key_approved") (OnKey (k_id key)) 0 ;;!
        send_quietly (ac_id owner) ;;!
        ret key
    end.
Definition reject_trial_request (actor id : Z) : BM unit :=
  require_superadmin_row actor ;;!
  let! q := get_trial id in
  if negb (trial_pending q) then raise (Denied AlreadyDecided)
  else
    let! t := now env in
    reject_trial env id actor t ;;!
    audit env (Some actor) (py "trial_key_rejected") (OnUser (tq_user q)) 0 ;;!
    send_quietly (tq_user q).
Definition admin_reset_trial_quota (actor target : Z) : BM unit :=
  require_superadmin_row actor ;;!
  let! t := now env in
  reset_trial_quota env target t ;;!
  audit env (Some actor) (py "trial_quota_reset") (OnUser target) 0.
End Trial.
