(* ===== verification/TrialSafety.v ===== *)
(** * Trials are given once

    [TrialAccess]: one trial per user and quota over any sequence of operations, and
    what a decision leaves behind on every branch, whichever statement fails. *)

From S2P Require Import Prelude PyText Json IsoTime AwgConfig VpnKeys BackendHealth AwgService BotDb Accounts AccountSafety BlockSafety RequestSafety Hysteria HysteriaAccess HysteriaIssue TrialAccess.
#[local] Open Scope Z_scope.

Section Trials.
Context {X : Type} `{iso : !IsoText} (env : bot_env).
Implicit Types w : bot_world X.
Abbreviation trials_in w := (bt_trials (bw_tables w)) (only parsing).

(** When a user's quota began, as the rows say it: at the last reset, or with the epoch. *)
Definition quota_from w (user : Z) : str :=
  match users_in w !! user ≫= ac_trial_reset_at with
  | Some (c :: s) => c :: s
  | _ => py "1970-01-01T00:00:00+00:00"
  end.
(** A trial that is asked for or was granted, by a text of the clock later than the one the
    quota began with. *)
Definition stands (q : trial_request) : Prop := tq_status q = RequestPending \/ tq_status q = RequestApproved.
Definition in_quota w (q : trial_request) : Prop := str_leb (tq_requested_at q) (quota_from w (tq_user q)) = false.
Record trials_ok w : Prop := {
  to_ids : NoDup (map tq_id (sr_rows (trials_in w)));
  to_seq : Forall (fun r => tq_id r <= sr_seq (trials_in w)) (sr_rows (trials_in w));
  to_one_open : NoDup (map tq_user (List.filter trial_pending (sr_rows (trials_in w))));
  to_times : Forall (fun r => str_le (tq_requested_at r) (be_now env (bw_tick w))) (sr_rows (trials_in w));
  to_one : forall q1 q2, q1 ∈ sr_rows (trials_in w) -> q2 ∈ sr_rows (trials_in w) -> tq_user q1 = tq_user q2 ->
    stands q1 -> stands q2 -> in_quota w q1 -> in_quota w q2 -> q1 = q2 }.

(** The same by the count that the code makes. *)
Definition used w (user : Z) : nat := length (List.filter (counts_since user (quota_from w user)) (sr_rows (trials_in w))).
Record counted_ok w : Prop := {
  co_ids : NoDup (map tq_id (sr_rows (trials_in w)));
  co_seq : Forall (fun r => tq_id r <= sr_seq (trials_in w)) (sr_rows (trials_in w));
  co_one_open : NoDup (map tq_user (List.filter trial_pending (sr_rows (trials_in w))));
  co_times : Forall (fun r => str_le (tq_requested_at r) (be_now env (bw_tick w))) (sr_rows (trials_in w));
  co_used : forall user, (used w user <= 1)%nat }.
Lemma counts_in_quota w q user : counts_since user (quota_from w user) q = true <-> tq_user q = user /\ stands q /\ in_quota w q.
Proof.
  unfold counts_since, in_quota, stands. rewrite !andb_true_iff, Z.eqb_eq, !negb_true_iff, bool_decide_eq_false.
  split; [intros [[-> H1] H2]|intros (<- & H2 & H1)]; split_and!; try done.
  - destruct (tq_status q); [by left|by right|by destruct H1].
  - by destruct H2 as [-> | ->].
Qed.
Lemma short_filter (p : trial_request -> bool) rows : NoDup rows ->
  (length (List.filter p rows) <= 1)%nat <-> (forall q1 q2, q1 ∈ rows -> q2 ∈ rows -> p q1 = true -> p q2 = true -> q1 = q2).
Proof.
  intros Hnd. assert (forall q, q ∈ List.filter p rows <-> q ∈ rows /\ p q = true) as Hin
    by (intros q; by rewrite !list_elem_of_In, filter_In).
  assert (NoDup (List.filter p rows)) as Hf.
  { clear Hin. induction Hnd as [|q l Hq Hl IH]; [constructor|]. cbn. destruct (p q); [|exact IH]. constructor; [|exact IH].
    intros H. apply Hq. apply list_elem_of_In in H. apply filter_In in H as [H _]. by apply list_elem_of_In. }
  split.
  - intros H q1 q2 H1 H2 P1 P2. pose proof (proj2 (Hin q1) (conj H1 P1)) as E1. pose proof (proj2 (Hin q2) (conj H2 P2)) as E2.
    destruct (List.filter p rows) as [|a [|b l]]; [by apply elem_of_nil in E1| |cbn in H; lia].
    apply list_elem_of_singleton in E1, E2. congruence.
  - intros H. destruct (List.filter p rows) as [|a [|b l]]; cbn; try lia. exfalso.
    apply NoDup_cons in Hf as [Hf _]. apply Hf. destruct (proj1 (Hin a) ltac:(by left)), (proj1 (Hin b) ltac:(by right; left)).
    rewrite (H a b) by done. by left.
Qed.
Lemma trials_counted w : trials_ok w <-> counted_ok w.
Proof.
  assert (forall rows : list trial_request, NoDup (map tq_id rows) -> NoDup rows) as Hrows by (intros rows; apply NoDup_fmap_1).
  split; intros [H1 H2 H3 H4 H5]; (split; [done..|]).
  - intros user. apply short_filter; [by apply Hrows|]. intros q1 q2 I1 I2 (E1 & S1 & Q1)%counts_in_quota (E2 & S2 & Q2)%counts_in_quota.
    apply H5; [done|done|congruence|done..].
  - intros q1 q2 I1 I2 E S1 S2 Q1 Q2. specialize (H5 (tq_user q1)). unfold used in H5. rewrite short_filter in H5 by by apply Hrows.
    apply H5; [done|done|by apply counts_in_quota|]. by rewrite E; apply counts_in_quota.
Qed.

(** The clock does not go back. *)
Context (clock : forall i j, (i <= j)%nat -> str_le (be_now env i) (be_now env j)).

(** Nothing about trials changes; or it stays in order. *)
Definition still w w' : Prop :=
  (bw_tick w <= bw_tick w')%nat /\ users_in w' = users_in w /\ trials_in w' = trials_in w.
#[export] Instance still_pre : PreOrder still.
Proof. split; [by intros w|]. intros a b c (?&?&?) (?&?&?). unfold still. split; [lia|]. split; congruence. Qed.
Definition fine w w' : Prop := (bw_tick w <= bw_tick w')%nat /\ (counted_ok w -> counted_ok w').
#[export] Instance fine_pre : PreOrder fine.
Proof. split; [by intros w|]. intros a b c (?&?) (?&?). unfold fine. split; [lia|auto]. Qed.
Lemma times_later w w' rows : (bw_tick w <= bw_tick w')%nat ->
  Forall (fun r => str_le (tq_requested_at r) (be_now env (bw_tick w))) rows ->
  Forall (fun r => str_le (tq_requested_at r) (be_now env (bw_tick w'))) rows.
Proof using clock. intros Ht H. eapply Forall_impl; [exact H|]. intros r Hr. cbn in Hr. etransitivity; [exact Hr|]. by apply clock. Qed.
Lemma still_fine w w' : still w w' -> fine w w'.
Proof using clock.
  intros (Ht & Hu & Hq). split; [done|]. intros [H1 H2 H3 H4 H5]. rewrite <- Hq in H1, H2, H3, H4.
  split; [done..|by eapply times_later|]. intros user. unfold used, quota_from. rewrite Hu, Hq. apply H5.
Qed.

Lemma still_ask {A} (f : nat -> A) : keeps still (ask (X := X) f).
Proof. intros w. unfold ask, still. cbn. auto. Qed.
Lemma still_audit_table f : keeps still (set_tables (X := X) (set_audit f)).
Proof. intros w. unfold still. cbn. auto. Qed.
#[local] Hint Resolve still_ask still_audit_table : keeps.
Lemma still_sql : keeps still (sql (X := X) env).
Proof. unfold sql. keeps_tac. Qed.
#[local] Hint Resolve still_sql : keeps.
Lemma still_select {A} (f : bot_tables -> A) : keeps still (select (X := X) env f).
Proof. unfold select. keeps_tac. Qed.
Lemma still_now : keeps still (now (X := X) env).
Proof. apply still_ask. Qed.
#[local] Hint Resolve still_select still_now : keeps.
Lemma still_audit a b c d : keeps still (audit (X := X) env a b c d).
Proof. unfold audit, write. keeps_tac. Qed.
#[local] Hint Resolve still_audit : keeps.
Lemma still_best_effort a b c d : keeps still (audit_best_effort (X := X) env a b c d).
Proof. unfold audit_best_effort. keeps_tac. Qed.
Lemma still_superadmin actor : keeps still (require_superadmin_row (X := X) env actor).
Proof. unfold require_superadmin_row, user_by_id. keeps_tac. Qed.
Lemma still_get_trial id : keeps still (get_trial (X := X) env id).
Proof. unfold get_trial, trial_by_id. keeps_tac. Qed.
Lemma still_send bot user : keeps still (send_quietly (X := X) bot user).
Proof. unfold send_quietly. keeps_tac. intros w. unfold still. cbn. auto. Qed.
Lemma still_user id : keeps still (user_by_id (X := X) env id).
Proof. apply still_select. Qed.
#[local] Hint Resolve still_best_effort still_superadmin still_get_trial still_send still_user : keeps.
Lemma keeps_fine {A} (m : M (bot_world X) bot_error A) : keeps still m -> keeps fine m.
Proof using clock. intros H w. by apply still_fine. Qed.

(** ** The statements *)

Lemma quota_given w user : quota_from w user = match given (users_in w !! user ≫= ac_trial_reset_at) with Some s => s | None => py "1970-01-01T00:00:00+00:00" end.
Proof. unfold quota_from. generalize (py "1970-01-01T00:00:00+00:00"). intros epoch. by destruct (users_in w !! user ≫= ac_trial_reset_at) as [[]|]. Qed.
Lemma can_request_run user w b w' : can_request_trial env user w = (Ok b, w') ->
  still w w' /\ b = (used w user =? 0)%nat.
Proof.
  intros H. split.
  { eapply keeps_run; [|exact H]. unfold can_request_trial, trial_quota_reset_at, count_used_since_reset. keeps_tac. }
  unfold can_request_trial in H. apply bind_inv in H as [(o & w1 & (H1 & _ & Ho)%select_run & H)|(? & _ & ?)]; [|done].
  apply bind_inv in H as [(n & w2 & (H2 & _ & Hn)%select_run & H)|(? & _ & ?)]; [|done]. injection H as <- _.
  specialize (Ho _ eq_refl). specialize (Hn _ eq_refl). subst o n. unfold used. rewrite quota_given. unfold users_in. rewrite H1. reflexivity.
Qed.
Lemma find_trial_run id w r w' : trial_by_id (X := X) env id w = (r, w') ->
  forall o, r = Ok o -> o = List.find (fun q => tq_id q =? id) (sr_rows (trials_in w)).
Proof. intros (_ & _ & H)%select_run. exact H. Qed.
Lemma create_trial_run user type t w q w' : create_trial env user type t w = (Ok q, w') ->
  existsb (fun r => (tq_user r =? user) && trial_pending r) (sr_rows (trials_in w)) = false
  /\ (bw_tick w <= bw_tick w')%nat
  /\ bw_tables w' = set_trials (append (fun id => TrialRequest id user type RequestPending None t None None)) (bw_tables w).
Proof.
  unfold create_trial. intros [([] & w1 & H1 & E)|(? & _ & ?)]%bind_inv; [|done].
  pose proof (keeps_run _ _ _ _ _ still_sql H1) as (Ht1 & _ & _). apply sql_run in H1 as [H1 _].
  apply bind_inv in E as [(w2 & w3 & H2 & E)|(? & _ & ?)]; [|done]. injection H2 as <- <-. rewrite H1 in E.
  destruct (existsb _ _) eqn:Ex; [done|]. split; [done|].
  apply bind_inv in E as [([] & w4 & H4 & E)|(? & _ & ?)]; [|done].
  apply bind_inv in E as [(o & w5 & H5 & E)|(? & _ & ?)]; [|done].
  pose proof (keeps_run _ _ _ _ _ (still_select _) H5) as (Ht5 & _ & _). apply select_run in H5 as (H5 & _ & _).
  destruct o; [|done]. injection E as _ <-. injection H4 as <-. cbn in Ht5, H5. rewrite H5, H1. split; [lia|done].
Qed.
Lemma requested_ok w w' user type t : counted_ok w -> used w user = 0%nat ->
  existsb (fun r => (tq_user r =? user) && trial_pending r) (sr_rows (trials_in w)) = false ->
  (bw_tick w <= bw_tick w')%nat -> str_le t (be_now env (bw_tick w')) ->
  bw_tables w' = set_trials (append (fun id => TrialRequest id user type RequestPending None t None None)) (bw_tables w) ->
  counted_ok w'.
Proof using clock.
  intros [H1 H2 H3 H4 H5] Hused Hnone Ht Hnow Hw.
  split; rewrite ?Hw; cbn [set_trials bt_trials append sr_rows sr_seq].
  - rewrite map_app. apply NoDup_app. split; [done|]. split; [|apply NoDup_singleton]. intros i (r & -> & Hr)%list_elem_of_fmap.
    rewrite Forall_elem in H2. specialize (H2 r Hr). cbn. intros E%list_elem_of_singleton. cbn in H2. lia.
  - apply Forall_app. split; [|repeat constructor; cbn; lia]. eapply Forall_impl; [exact H2|]. intros r Hr. cbn in Hr. lia.
  - rewrite List.filter_app, map_app. apply NoDup_app. split; [done|]. split; [|apply NoDup_singleton].
    intros u (r & -> & Hr)%list_elem_of_fmap. apply list_elem_of_In, filter_In in Hr as [Hr Hp]. cbn.
    intros E%list_elem_of_singleton. assert (existsb (fun r => (tq_user r =? user) && trial_pending r) (sr_rows (trials_in w)) = true) as Hc; [|congruence].
    apply existsb_exists. exists r. split; [done|]. by rewrite E, Z.eqb_refl.
  - apply Forall_app. split; [by eapply times_later|]. by repeat constructor.
  - intros u. specialize (H5 u). set (q := TrialRequest (sr_seq (trials_in w) + 1) user type RequestPending None t None None).
    assert (used w' u = length (List.filter (counts_since u (quota_from w u)) (sr_rows (trials_in w) ++ [q]))) as ->.
    { unfold used, quota_from, users_in. by rewrite Hw. }
    rewrite List.filter_app, length_app. unfold used in H5. cbn [List.filter]. destruct (Z.eq_dec user u) as [<-|Hne].
    + unfold used in Hused. rewrite Hused. destruct (counts_since _ _ q); cbn [length]; lia.
    + replace (counts_since u (quota_from w u) q) with false; [cbn [length]; lia|]. unfold counts_since.
      by rewrite (proj2 (Z.eqb_neq (tq_user q) u)) by done.
Qed.

(** What a settled row keeps. *)
Definition settles (f : trial_request -> trial_request) : Prop := forall q,
  tq_id (f q) = tq_id q /\ tq_user (f q) = tq_user q /\ tq_requested_at (f q) = tq_requested_at q /\ trial_pending (f q) = false.
Lemma settle_run id f w r w' : settle_trial (X := X) env id f w = (r, w') ->
  (bw_tick w <= bw_tick w')%nat /\ users_in w' = users_in w
  /\ (trials_in w' = trials_in w /\ is_ok r = false
      \/ trials_in w' = map_rows (fun q => (tq_id q =? id) && trial_pending q) f (trials_in w)
         /\ is_ok r = existsb (fun q => (tq_id q =? id) && trial_pending q) (sr_rows (trials_in w))).
Proof.
  set (p := fun q => (tq_id q =? id) && trial_pending q).
  unfold settle_trial. intros [(n & w1 & H1 & E)|(e & H1 & ->)]%bind_inv.
  2:{ pose proof (keeps_run _ _ _ _ _ (still_select _) H1) as (? & ? & ?). auto. }
  pose proof (keeps_run _ _ _ _ _ (still_select _) H1) as (Ht & Hu & Hq). apply select_run in H1 as (H1 & _ & Hn).
  specialize (Hn _ eq_refl). apply bind_inv in E as [([] & w2 & H2 & E)|(? & H2 & _)]; [|done]. injection H2 as <-.
  assert (is_ok r = existsb p (sr_rows (trials_in w))) as Hr.
  { assert (is_ok r = negb (n =? 0)%nat) as -> by (revert E; destruct (n =? 0)%nat; by intros [= <- _]).
    rewrite Hn. fold p. generalize (sr_rows (trials_in w)). intros l. induction l as [|q l IH]; [done|]. cbn. destruct (p q); [done|exact IH]. }
  assert (w' = BotWorld (set_trials (map_rows p f) (bw_tables w1)) (bw_keys w1) (bw_cleared w1) (bw_kicked w1) (bw_told w1) (bw_rest w1) (bw_tick w1)) as ->.
  { revert E. destruct (n =? 0)%nat; by intros [= _ <-]. }
  unfold users_in in *. cbn. split; [done|]. split; [done|]. right. by rewrite Hq.
Qed.
Lemma map_rows_users (p : trial_request -> bool) f t : settles f -> (forall q, p q = true -> trial_pending q = true) ->
  map tq_user (List.filter trial_pending (sr_rows (map_rows p f t))) `sublist_of` map tq_user (List.filter trial_pending (sr_rows t)).
Proof.
  intros Hf Hp. unfold map_rows. cbn. induction (sr_rows t) as [|q l IH]; [done|]. cbn. destruct (p q) eqn:Epq.
  - destruct (Hf q) as (_ & _ & _ & ->). rewrite (Hp _ Epq). cbn. by apply sublist_cons.
  - destruct (trial_pending q); cbn; [by apply sublist_skip|done].
Qed.
Lemma counts_settled (p : trial_request -> bool) f u t l : settles f -> (forall q, p q = true -> trial_pending q = true) ->
  (length (List.filter (counts_since u t) (map (fun q => if p q then f q else q) l)) <= length (List.filter (counts_since u t) l))%nat.
Proof.
  intros Hf Hp. induction l as [|q l IH]; [done|]. cbn. destruct (p q) eqn:Epq.
  - assert (counts_since u t (f q) = true -> counts_since u t q = true) as Hc.
    { destruct (Hf q) as (_ & Eu & Et & _). unfold counts_since. rewrite Eu, Et. specialize (Hp _ Epq). unfold trial_pending in Hp.
      apply bool_decide_eq_true in Hp. rewrite Hp. intros [H _]%andb_true_iff. rewrite H. done. }
    destruct (counts_since u t (f q)); [rewrite (Hc eq_refl)|destruct (counts_since u t q)]; cbn; lia.
  - destruct (counts_since u t q); cbn; lia.
Qed.
Lemma settled_fine id f w w' : settles f ->
  (bw_tick w <= bw_tick w')%nat -> users_in w' = users_in w ->
  trials_in w' = map_rows (fun q => (tq_id q =? id) && trial_pending q) f (trials_in w) -> fine w w'.
Proof using clock.
  intros Hf Ht Hu Hq. split; [done|]. set (p := fun q => (tq_id q =? id) && trial_pending q) in *.
  intros [H1 H2 H3 H4 H5].
  assert (forall A (g : trial_request -> A), (forall q, g (f q) = g q) -> map g (sr_rows (trials_in w')) = map g (sr_rows (trials_in w))) as Hmap.
  { intros A g Hg. rewrite Hq. cbn. rewrite map_map. apply map_ext. intros q. destruct (p q); [apply Hg|done]. }
  assert (forall (P : Z -> Prop), Forall (fun r => P (tq_id r)) (sr_rows (trials_in w)) -> Forall (fun r => P (tq_id r)) (sr_rows (trials_in w'))) as Hall.
  { intros P H. apply (Forall_map tq_id P). rewrite Hmap by (intros q; apply Hf). by apply Forall_map. }
  split.
  - rewrite Hmap; [done|]. intros q. apply Hf.
  - apply (Hall (fun i => i <= sr_seq (trials_in w'))). by rewrite Hq.
  - rewrite Hq. eapply sublist_NoDup; [|apply map_rows_users; [done|]; by intros q [_ ?]%andb_true_iff]. exact H3.
  - apply (Forall_map tq_requested_at (fun t => str_le t (be_now env (bw_tick w')))). rewrite Hmap by (intros q; apply Hf).
    apply (Forall_map tq_requested_at). by eapply times_later.
  - intros u. etransitivity; [|exact (H5 u)]. unfold used. assert (quota_from w' u = quota_from w u) as -> by (unfold quota_from; by rewrite Hu).
    rewrite Hq. cbn [map_rows sr_rows]. apply counts_settled; [done|]. by intros q [_ ?]%andb_true_iff.
Qed.

Lemma settle_fine id f : settles f -> keeps fine (settle_trial (X := X) env id f).
Proof using clock.
  intros Hf w. destruct (settle_trial env id f w) as [r w'] eqn:E. cbn. apply settle_run in E as (Ht & Hu & [[Hq _]|[Hq _]]).
  - by apply still_fine.
  - by eapply settled_fine.
Qed.
Lemma reset_fine target n w w' : (bw_tick w <= n <= bw_tick w')%nat ->
  users_in w' = alter (fun a => Account (ac_id a) (ac_username a) (ac_first_name a) (ac_role a) (ac_blocked_at a)
    (ac_note a) (ac_language a) (ac_expiry_notifications a) (Some (be_now env n)) (ac_created_at a) (be_now env n)) target (users_in w) ->
  trials_in w' = trials_in w -> fine w w'.
Proof using clock.
  intros Hn Hu Hq. split; [lia|]. intros [H1 H2 H3 H4 H5]. rewrite <- Hq in H1, H2, H3.
  split; [done..|rewrite Hq; eapply times_later; [|exact H4]; lia|]. intros u. unfold used. rewrite Hq.
  assert (quota_from w' u = quota_from w u \/ str_le (be_now env n) (quota_from w' u)) as [->|Hle]; [|by apply H5|].
  - unfold quota_from. rewrite Hu. destruct (decide (target = u)) as [<-|Hne]; [|left; by rewrite lookup_alter_ne].
    rewrite lookup_alter_eq. destruct (users_in w !! target) as [a|]; [|by left]. right. cbn -[str_le py].
    destruct (be_now env n) as [|c s]; [done|]. cbn -[str_le]. by destruct (str_le_total (c :: s) (c :: s)).
  - enough (List.filter (counts_since u (quota_from w' u)) (sr_rows (trials_in w)) = []) as -> by (cbn; lia).
    revert H4. generalize (sr_rows (trials_in w)). intros l. induction 1 as [|q l Hin H4 IH]; [done|].
    cbn [List.filter]. rewrite IH. cbn beta in Hin. replace (counts_since u (quota_from w' u) q) with false; [done|].
    symmetry. unfold counts_since. replace (str_leb (tq_requested_at q) (quota_from w' u)) with true.
    { by rewrite andb_false_r. }
    symmetry. change (str_le (tq_requested_at q) (quota_from w' u)). etransitivity; [exact Hin|].
    etransitivity; [|exact Hle]. apply clock. lia.
Qed.

Definition ticks w w' : Prop := (bw_tick w <= bw_tick w')%nat.
#[export] Instance ticks_pre : PreOrder ticks.
Proof. split; [by intros w; unfold ticks|]. intros a b c ??. unfold ticks in *. lia. Qed.
Lemma ticks_ask {A} (f : nat -> A) : keeps ticks (ask (X := X) f).
Proof. intros w. unfold ask, ticks. cbn. lia. Qed.
Lemma ticks_tables f : keeps ticks (set_tables (X := X) f).
Proof. by intros w; unfold ticks. Qed.
#[local] Hint Resolve ticks_ask ticks_tables : keeps.
Lemma ticks_request user type : keeps ticks (
  let! may := can_request_trial (X := X) env user in
  if negb may then raise (Denied TrialUsed) else let! t := now env in create_trial env user type t).
Proof.
  unfold can_request_trial, trial_quota_reset_at, count_used_since_reset, create_trial, trial_by_id, select, sql, now. keeps_tac.
  by intros v; unfold ticks.
Qed.
(** The check and the insertion. *)
Lemma request_fine user type : keeps fine (transaction env (
  let! may := can_request_trial (X := X) env user in
  if negb may then raise (Denied TrialUsed) else let! t := now env in create_trial env user type t)).
Proof using clock.
  intros w. unfold transaction. destruct (bind (sql env) _ w) as [r w'] eqn:E. cbn.
  apply bind_inv in E as [([] & w1 & H1 & E)|(e & H1 & _)]; pose proof (keeps_run _ _ _ _ _ still_sql H1) as Hs; [|by apply still_fine].
  destruct (bind _ _ w1) as [[q|e] w2] eqn:Eb.
  - injection E as <- <-. apply bind_inv in Eb as [(may & w3 & [H3 ->]%can_request_run & Eb)|(? & _ & ?)]; [|done].
    destruct (used w1 user =? 0)%nat eqn:Hused; [|done]. apply Nat.eqb_eq in Hused. cbn [negb] in Eb.
    apply bind_inv in Eb as [(t & w4 & H4 & Eb)|(? & _ & ?)]; [|done].
    pose proof (keeps_run _ _ _ _ _ still_now H4) as H4s. injection H4 as Ht _.
    assert (used w4 user = 0%nat) as Hused4.
    { rewrite <- Hused. destruct H3 as (_ & Hu3 & Hq3), H4s as (_ & Hu4 & Hq4). unfold used, quota_from. by rewrite Hu4, Hu3, Hq4, Hq3. }
    apply create_trial_run in Eb as (Hnone & Ht4 & Hw). split.
    { destruct Hs, H3, H4s. lia. }
    intros Hok. assert (still w w4) as Hs4 by (etransitivity; [exact Hs|]; by etransitivity). apply still_fine in Hs4 as [_ Hs4].
    eapply (requested_ok w4 w2 user type t); [by apply Hs4|done..| |exact Hw]. subst t. apply clock. destruct H4s. lia.
  - injection E as _ <-. apply still_fine. unfold still. cbn. pose proof (keeps_run _ _ _ _ _ (ticks_request user type) Eb) as Ht.
    destruct Hs as (? & ? & ?). unfold ticks in Ht. split; [lia|done].
Qed.
End Trials.

(** ** The services' promise *)

(** What the service of a protocol promises of a key for a trial: it is new, and as
    asked; the accounts and the trials are not the service's; a key taken back
    is not active. *)
Class TrialServices {X} (services : key_services X) : Prop := {
  create_still t g : keeps still (ks_create services t g);
  revoke_still t id actor : keeps still (ks_revoke_system services t id actor);
  create_row t g w k w' : ids_given (bw_keys w) -> NoDup (ids_in w) -> ks_create services t g w = (Ok k, w') ->
    k ∈ kt_rows (bw_keys w') /\ k_id k ∉ ids_in w /\ ids_in w' ⊆ k_id k :: ids_in w /\ NoDup (ids_in w')
    /\ k_owner k = pf_id (gr_owner g) /\ k_type k = t /\ k_expires_at k = Some (gr_expires_at g) /\ k_status k = ACTIVE;
  revoke_rows t id actor w : ids_in (ks_revoke_system services t id actor w).2 ⊆ ids_in w;
  revoke_row t id actor w u w' : NoDup (ids_in w) -> ks_revoke_system services t id actor w = (Ok u, w') ->
    inactive id (kt_rows (bw_keys w')) }.

Section Decisions.
Context {X : Type} `{iso : !IsoText} (env : bot_env) (services : key_services X) `{!TrialServices services}.
Context (bot : option (nat -> bool)).
Implicit Types w : bot_world X.
Abbreviation trials_in w := (bt_trials (bw_tables w)) (only parsing).
#[local] Hint Resolve still_ask still_audit_table still_sql still_select still_now still_audit still_best_effort
  still_superadmin still_get_trial still_send still_user create_still revoke_still : keeps.

Inductive trial_op := TRequest (user : Z) (type : key_type) | TApprove (actor id : Z) | TReject (actor id : Z) | TReset (actor target : Z).
Definition trial_perform (op : trial_op) : M (bot_world X) bot_error unit :=
  match op with
  | TRequest user type => let! _ := create_trial_request env user type in ret tt
  | TApprove actor id => let! _ := approve_trial_request env services bot actor id in ret tt
  | TReject actor id => reject_trial_request env bot actor id
  | TReset actor target => admin_reset_trial_quota env actor target
  end.
Lemma approves_settle key actor t : settles (decide_trial RequestApproved key actor t).
Proof. by intros q. Qed.
Lemma rejects_settle actor t : settles (fun q => decide_trial RequestRejected (tq_key q) actor t q).
Proof. by intros q. Qed.
Lemma still_rollback type id actor : keeps still (rollback_provisioned env services type id actor).
Proof. unfold rollback_provisioned. keeps_tac. Qed.
#[local] Hint Resolve still_rollback : keeps.

Section Clock.
Context (clock : forall i j, (i <= j)%nat -> str_le (be_now env i) (be_now env j)).
#[local] Hint Extern 2 (keeps (fine _) _) => (apply keeps_fine; [exact clock|]) : keeps.
Lemma reset_part target (rest : M (bot_world X) bot_error unit) : keeps (fine env) rest ->
  keeps (fine env) (let! t := now env in reset_trial_quota env target t ;;! rest).
Proof using clock.
  intros Hrest w. destruct (bind (now env) _ w) as [r w'] eqn:E. cbn.
  apply bind_inv in E as [(t & w1 & H1 & E)|(? & H1 & _)]; [|done]. pose proof (keeps_run _ _ _ _ _ (still_now env) H1) as Hs1.
  injection H1 as Ht H1.
  apply bind_inv in E as [([] & w2 & H2 & E)|(e & H2 & ->)]; unfold reset_trial_quota, write in H2.
  - etransitivity; [|exact (keeps_run _ _ _ _ _ Hrest E)]. apply bind_inv in H2 as [([] & w3 & H3 & H2)|(? & _ & ?)]; [|done].
    pose proof (keeps_run _ _ _ _ _ (still_sql env) H3) as Hs3. injection H2 as <-.
    destruct Hs1 as (Ht1 & Hu1 & Hq1), Hs3 as (Ht3 & Hu3 & Hq3). subst t. apply (reset_fine env clock target (bw_tick w)); cbn.
    + lia.
    + unfold users_in in *. cbn. by rewrite Hu3, Hu1.
    + by rewrite Hq3, Hq1.
  - apply still_fine; [done|]. etransitivity; [exact Hs1|].
    apply bind_inv in H2 as [([] & w3 & H3 & H2)|(? & H3 & _)]; [done|]. exact (keeps_run _ _ _ _ _ (still_sql env) H3).
Qed.
Lemma trial_perform_fine op : keeps (fine env) (trial_perform op).
Proof using All.
  destruct op; cbn [trial_perform].
  - unfold create_trial_request. keeps_tac. by apply request_fine.
  - unfold approve_trial_request, approve_trial. keeps_tac. apply settle_fine; [done|]. apply approves_settle.
  - unfold reject_trial_request, reject_trial. keeps_tac. apply settle_fine; [done|]. apply rejects_settle.
  - unfold admin_reset_trial_quota. apply keeps_bind; [apply _|keeps_tac|]. intros _. apply reset_part. keeps_tac.
Qed.

(** C22 A user has one trial per quota, counted in the clock's seconds. Over any sequence of
    requests, approvals, rejections and resets, by anybody and whichever statement or
    service fails: of the trials of a user that are open or were granted, at most one
    was asked for later than the user's last reset, or ever if there was none; one asked
    for at the very time of the reset does not count. Nobody has two requests open, and
    ids are distinct. The clock is not to go back. *)
Theorem one_trial_per_quota ops w : trials_ok env w ->
  trials_ok env (fold_left (fun w op => (trial_perform op w).2) ops w).
Proof using All.
  rewrite !trials_counted. revert w. induction ops as [|op ops IH]; intros w Hok; [done|]. cbn. apply IH. by apply (trial_perform_fine op w).
Qed.
End Clock.

(** ** One decision *)

#[local] Hint Resolve calm_tables calm_ask calm_sql calm_select calm_now calm_audit : keeps.
Lemma calm_audit_row a b c d : keeps calm (audit (X := X) env a b c d).
Proof. unfold audit, write. keeps_tac. Qed.
#[local] Hint Resolve calm_audit_row : keeps.
Lemma calm_send user : keeps calm (send_quietly (X := X) bot user).
Proof. unfold send_quietly. keeps_tac. by intros w. Qed.
Lemma calm_settle id f : keeps calm (settle_trial (X := X) env id f).
Proof. unfold settle_trial. keeps_tac. Qed.
#[local] Hint Resolve calm_send calm_settle : keeps.

Lemma superadmin_row_run actor w u w' : require_superadmin_row (X := X) env actor w = (Ok u, w') ->
  role_in w actor = Some SUPERADMIN.
Proof.
  unfold require_superadmin_row. intros [(o & w1 & (_ & _ & Ho)%select_run & E)|(? & _ & ?)]%bind_inv; [|done].
  specialize (Ho _ eq_refl). subst o. unfold role_in, users_in. destruct (bt_users _ !! actor) as [a|]; [|done].
  case_bool_decide as Hr; [|done]. cbn. by rewrite Hr.
Qed.
Lemma get_trial_run id w q w' : get_trial (X := X) env id w = (Ok q, w') ->
  q ∈ sr_rows (trials_in w) /\ tq_id q = id.
Proof.
  unfold get_trial. intros [(o & w1 & Ho & E)|(? & _ & ?)]%bind_inv; [|done]. pose proof (find_trial_run _ _ _ _ _ Ho _ eq_refl) as ->.
  destruct (List.find _ _) as [q0|] eqn:Ef; [|done]. injection E as <- _. apply find_some in Ef as [Hin Hq].
  split; [by apply list_elem_of_In|by apply Z.eqb_eq].
Qed.
Definition both w w' : Prop := still w w' /\ calm w w'.
Lemma both_run {A} (m : M (bot_world X) bot_error A) w r w' : keeps still m -> keeps calm m -> m w = (r, w') -> both w w'.
Proof. intros H1 H2 E. split; by eapply keeps_run. Qed.
Lemma both_trans w1 w2 w3 : both w1 w2 -> both w2 w3 -> both w1 w3.
Proof. intros [? ?] [? ?]. split; by etransitivity. Qed.

(** The key a trial is granted as. *)
Definition granted w (q : trial_request) (t : str) (k : vpn_key) : Prop :=
  k_id k ∉ ids_in w /\ k_owner k = tq_user q /\ k_type k = tq_type q /\ k_status k = ACTIVE
  /\ exists e, trial_expires_at t = Ok e /\ k_expires_at k = Some e.
(** How this run failed with the service: its call for the key raised; or the key was made,
    the request could not be marked, and the call to take the key back raised. *)
Definition asked_for w (actor id : Z) (q : trial_request) (g : grant) v : Prop :=
  both w v /\ q ∈ sr_rows (trials_in w) /\ tq_id q = id /\ gr_actor g = actor /\ pf_id (gr_owner g) = tq_user q.
Definition making_failed w actor id (r : result bot_error vpn_key) w' : Prop :=
  exists q g v x, asked_for w actor id q g v /\ ks_create services (tq_type q) g v = (Err x, w') /\ r = Err x.
Definition left_behind w actor id (k : vpn_key) (r : result bot_error vpn_key) w' : Prop :=
  exists q g v t v1 e v2 x, asked_for w actor id q g v /\ ks_create services (tq_type q) g v = (Ok k, v1)
    /\ approve_trial env id (k_id k) actor t v1 = (Err e, v2)
    /\ ks_revoke_system services (tq_type q) (k_id k) actor v2 = (Err x, w') /\ r = Err e.

(** The request is marked, or the key that was made for it is taken back. *)
Definition conclude (actor id : Z) (t : str) (q : trial_request) (owner : Z) (key : vpn_key) : M (bot_world X) bot_error vpn_key :=
  catch (approve_trial env id (k_id key) actor t)
    (fun exc => rollback_provisioned env services (tq_type q) (k_id key) actor ;;! raise exc) ;;!
  audit env (Some actor) (py "trial_key_approved") (OnKey (k_id key)) 0 ;;!
  send_quietly bot owner ;;!
  ret key.
Lemma rollback_run type id actor w r w' : NoDup (ids_in w) -> rollback_provisioned env services type id actor w = (r, w') ->
  trials_in w' = trials_in w /\ ids_in w' ⊆ ids_in w
  /\ ((exists x, ks_revoke_system services type id actor w = (Err x, w')) \/ inactive id (kt_rows (bw_keys w'))).
Proof using All.
  intros Hnd H. split; [by destruct (keeps_run _ _ _ _ _ (still_rollback type id actor) H) as (_ & _ & ?)|].
  unfold rollback_provisioned in H. apply bind_inv in H as [(o & w1 & H1 & E)|(x & H1 & _)].
  2:{ unfold attempt in H1. by destruct (ks_revoke_system _ _ _ _ _). }
  pose proof (revoke_rows type id actor w) as Hrows. unfold attempt in H1.
  destruct (ks_revoke_system services type id actor w) as [[u|x] w2] eqn:E1; injection H1 as <- <-.
  2:{ injection E as _ <-. split; [done|]. left. by eexists. }
  apply revoke_row in E1; [|done]. pose proof (keeps_run _ _ _ _ _ (calm_audit env _ _ _ _) E) as [Hk _].
  unfold inactive, ids_in in *. rewrite Hk. auto.
Qed.
Lemma conclude_run actor t q owner key w r w' : q ∈ sr_rows (trials_in w) -> trial_pending q = true -> NoDup (ids_in w) ->
  conclude actor (tq_id q) t q owner key w = (r, w') ->
  (decide_trial RequestApproved (Some (k_id key)) actor t q ∈ sr_rows (trials_in w') /\ kt_rows (bw_keys w') = kt_rows (bw_keys w)
     /\ (r = Ok key \/ is_ok r = false))
  \/ is_ok r = false /\ trials_in w' = trials_in w /\ ids_in w' ⊆ ids_in w
     /\ ((exists e v x, approve_trial env (tq_id q) (k_id key) actor t w = (Err e, v)
           /\ ks_revoke_system services (tq_type q) (k_id key) actor v = (Err x, w') /\ r = Err e)
         \/ inactive (k_id key) (kt_rows (bw_keys w'))).
Proof using All.
  intros Hin Hpend Hnd. unfold conclude. intros [([] & w1 & H1 & E)|(e & H1 & ->)]%bind_inv; unfold catch in H1;
    destruct (approve_trial env _ (k_id key) actor t w) as [r0 w2] eqn:E2; unfold approve_trial in E2;
    pose proof (keeps_run _ _ _ _ _ (calm_settle _ _) E2) as [Hk2 _]; pose proof E2 as (_ & _ & Hq2)%settle_run.
  - destruct r0 as [u|e]; [|apply bind_inv in H1 as [(? & ? & _ & ?)|(? & _ & ?)]; done]. injection H1 as _ <-.
    left. destruct Hq2 as [[_ ?]|[Hq2 _]]; [done|].
    assert (both w2 w') as [(_ & _ & Hq') [Hk' _]].
    { apply bind_inv in E as [([] & w3 & H3 & E)|(e & H3 & ->)]; pose proof (both_run _ _ _ _ (still_audit env _ _ _ _) (calm_audit_row _ _ _ _) H3) as Hb3; [|done].
      eapply both_trans; [exact Hb3|]. eapply both_run; [| |exact E]; keeps_tac. }
    rewrite Hk', Hk2, Hq', Hq2. split; [|split; [done|]].
    + apply list_elem_of_fmap. exists q. rewrite Z.eqb_refl, Hpend. done.
    + apply bind_inv in E as [([] & w3 & H3 & E)|(e & H3 & ->)]; [|by right].
      apply bind_inv in E as [(? & w4 & H4 & E)|(e & H4 & ->)]; [|by right]. injection E as <- _. by left.
  - right. split; [done|]. destruct r0 as [u|e0]; [done|]. destruct Hq2 as [[Hq2 _]|[_ Hq2]].
    2:{ exfalso. symmetry in Hq2. apply Bool.not_true_iff_false in Hq2. apply Hq2. apply existsb_exists. exists q.
        rewrite Z.eqb_refl, Hpend. split; [by apply list_elem_of_In|done]. }
    assert (exists o, rollback_provisioned env services (tq_type q) (k_id key) actor w2 = (o, w') /\ (is_ok o = true -> e = e0)) as (o & Ho & He).
    { apply bind_inv in H1 as [(o & w3 & H3 & E3)|(x & H3 & _)]; [injection E3 as -> <-|]; by eexists. }
    assert (ids_in w2 = ids_in w) as Hi2 by (unfold ids_in; by rewrite Hk2).
    assert (o = Ok tt) as ->.
    { unfold rollback_provisioned in Ho. apply bind_inv in Ho as [(a & w3 & _ & Ho)|(x & Ho & _)].
      - destruct a; [|by injection Ho as <- _]. unfold audit_best_effort in Ho. apply bind_inv in Ho as [(? & ? & _ & Ho)|(x & Ho & _)];
          [by injection Ho as <- _|]. unfold attempt in Ho. by destruct (audit _ _ _ _ _ _).
      - unfold attempt in Ho. by destruct (ks_revoke_system _ _ _ _ _). }
    specialize (He eq_refl) as ->. apply rollback_run in Ho as (Hq & Hids & Hf); [|by rewrite Hi2].
    rewrite Hq2 in Hq. rewrite Hi2 in Hids. split; [done|]. split; [done|]. destruct Hf as [[x Hx]|Hi]; [left|by right]. by exists e0, w2, x.
Qed.

(** C23 A trial is granted whole or not at all. A decision to approve either leaves the
    request approved, by a superadmin, for a new active key of its owner and its
    protocol that expires seven days after the decision, and this even when the
    audit row fails afterwards and the approval raises; or it raises, no request
    has changed, and every key that is active now was there before. To the last there
    are two exceptions, each a failure of the protocol's service in this very run: the
    approval ends with what the call for the key raised (what that call left is the
    service's matter); or the key was made, the request could not be marked, and the
    call to take the key back raised, which leaves that one key. The seven days and the
    superadmin are the code's; [docs/configuration.md] says otherwise. *)
Theorem trial_is_granted_whole actor id w r w' : NoDup (map tq_id (sr_rows (trials_in w))) -> accounts_ok (users_in w) ->
  ids_given (bw_keys w) -> NoDup (ids_in w) -> approve_trial_request env services bot actor id w = (r, w') ->
  (exists q k t, q ∈ sr_rows (trials_in w) /\ tq_id q = id /\ trial_pending q = true /\ role_in w actor = Some SUPERADMIN
     /\ granted w q t k /\ k ∈ kt_rows (bw_keys w')
     /\ decide_trial RequestApproved (Some (k_id k)) actor t q ∈ sr_rows (trials_in w')
     /\ (r = Ok k \/ is_ok r = false))
  \/ is_ok r = false /\ trials_in w' = trials_in w
     /\ (making_failed w actor id r w'
         \/ forall k, k ∈ kt_rows (bw_keys w') -> k_status k = ACTIVE ->
              k_id k ∈ ids_in w \/ exists made, left_behind w actor id made r w' /\ k_id made = k_id k).
Proof using All.
  intros Hids Hacc Hgiven Hnd. unfold approve_trial_request.
  assert (forall e v, both w v -> trials_in v = trials_in w /\ (making_failed w actor id (Err e) v
    \/ forall k, k ∈ kt_rows (bw_keys v) -> k_status k = ACTIVE ->
         k_id k ∈ ids_in w \/ exists made, left_behind w actor id made (Err e) v /\ k_id made = k_id k)) as Hquit.
  { intros e v [(_ & _ & Hq) [Hk _]]. split; [done|]. right. intros k Hin _. left. rewrite Hk in Hin. by apply list_elem_of_fmap_2. }
  intros [([] & w1 & H1 & E)|(e & H1 & ->)]%bind_inv;
    pose proof (both_run _ _ _ _ (still_superadmin env actor) ltac:(unfold require_superadmin_row, user_by_id; keeps_tac) H1) as Hb; [|by right; eauto].
  apply superadmin_row_run in H1 as Hsup. clear H1.
  apply bind_inv in E as [(q & w2 & H2 & E)|(e & H2 & ->)];
    pose proof (both_run _ _ _ _ (still_get_trial env id) ltac:(unfold get_trial, trial_by_id; keeps_tac) H2) as Hb2;
    pose proof (both_trans _ _ _ Hb Hb2) as Hb'; clear Hb2; [|by right; eauto].
  apply get_trial_run in H2 as [Hin Hid]. destruct Hb as [(_ & Hu1 & Hq1) _]. rewrite Hq1 in Hin. clear Hq1.
  destruct (trial_pending q) eqn:Hpend; [|injection E as <- <-; by right; eauto]. cbn [negb] in E.
  apply bind_inv in E as [(o & w3 & H3 & E)|(e & H3 & ->)];
    pose proof (both_run _ _ _ _ (still_user env (tq_user q)) ltac:(unfold user_by_id; keeps_tac) H3) as Hb3;
    pose proof (both_trans _ _ _ Hb' Hb3) as Hb; clear Hb3; [|by right; eauto].
  apply select_run in H3 as (_ & _ & Ho). specialize (Ho _ eq_refl). destruct Hb' as [(_ & Hu2 & _) _].
  change (bt_users _ !! _) with (users_in w2 !! tq_user q) in Ho. rewrite Hu2 in Ho. clear Hu1 Hu2 w1 w2.
  destruct o as [owner|]; [|injection E as <- <-; by right; eauto].
  assert (ac_id owner = tq_user q) as Hown by (symmetry in Ho; by destruct (Hacc _ _ Ho)).
  apply bind_inv in E as [(t & w4 & H4 & E)|(? & H4 & _)]; [|done].
  pose proof (both_trans _ _ _ Hb (both_run _ _ _ _ (still_now env) (calm_now env) H4)) as Hb4. clear Hb H4 w3.
  apply bind_inv in E as [(x & w5 & H5 & E)|(? & H5 & ->)]; unfold lift in H5; destruct (trial_expires_at t) as [y|] eqn:Et; try done;
    injection H5 as <- <-; [|by right; eauto].
  apply bind_inv in E as [(key & w6 & H6 & E)|(e & H6 & ->)].
  2:{ right. split; [done|]. pose proof (keeps_run _ _ _ _ _ (create_still _ _) H6) as (_ & _ & Hq). pose proof Hb4 as [(_ & _ & Hq4) _].
      split; [congruence|]. left. eexists q, _, w4, e. split; [|by split]. by split_and!. }
  pose proof (keeps_run _ _ _ _ _ (create_still _ _) H6) as Hs6. pose proof Hb4 as [Hs4 [Hk4 Hseq4]].
  pose proof H6 as Hmade. apply create_row in H6 as (Hkin & Hnew & Hsub & Hnd6 & Hko & Hkt & Hke & Hst); [|unfold ids_given; by rewrite Hk4, Hseq4|unfold ids_in; by rewrite Hk4].
  cbn in Hko, Hke.
  assert (ids_in w4 = ids_in w) as Hi4 by (unfold ids_in; by rewrite Hk4). rewrite Hi4 in Hnew, Hsub.
  assert (still w w6) as Hs by (by etransitivity). clear Hs4 Hs6 Hk4 Hseq4 Hi4.
  assert (granted w q t key) as Hgr.
  { split; [done|]. split; [congruence|]. split; [done|]. split; [done|]. eauto. }
  destruct Hs as (_ & _ & Hq6). rewrite <- Hid in E. change (conclude actor (tq_id q) t q (ac_id owner) key w6 = (r, w')) in E.
  apply conclude_run in E as [(Hd & Hk' & Hr)|(Hr & Hq' & Hsub' & Hf)]; [..|by rewrite Hq6|done|done].
  - left. exists q, key, t. rewrite Hk'. auto 9.
  - right. split; [done|]. split; [congruence|]. right. intros k Hk Hact.
    assert (k_id k ∈ k_id key :: ids_in w) as Hkid by (apply Hsub, Hsub'; by apply list_elem_of_fmap_2).
    apply elem_of_cons in Hkid as [Hkid|]; [|by left]. destruct Hf as [(e & v & x & Hf1 & Hf2 & ->)|Hi].
    + right. exists key. split; [|done]. rewrite Hid in Hf1. eexists q, _, w4, t, w6, e, v, x.
      split; [|by split_and!]. by split_and!.
    + by destruct (Hi k Hk Hkid).
Qed.
End Decisions.

(** ** The Hysteria2 service keeps the promise *)

Section HysteriaTrials.
Context {X : Type} `{iso : !IsoText} (env : bot_env) (henv : hysteria_env).
Implicit Types w : bot_world X.

Definition trial_key_request (g : grant) : hysteria_request :=
  HysteriaRequest (gr_actor g) (pf_id (gr_owner g)) (pf_username (gr_owner g)) None (Some (gr_expires_at g)) true.
(** The services of [TrialAccessService], the Hysteria2 one with its own methods. *)
Definition with_hysteria_trials (others : key_services X) : key_services X := KeyServices X
  (fun t g => match t with HYSTERIA2 => issue env henv (trial_key_request g) | _ => ks_create others t g end)
  (fun t id actor => match t with HYSTERIA2 => hysteria_revoker env henv actor id | _ => ks_revoke_system others t id actor end).

Lemma still_rows {A} (m : M key_table key_error A) : keeps still (on_rows (X := X) m).
Proof. apply keeps_embed. intros w. unfold still. cbn. auto. Qed.
#[local] Hint Resolve still_rows still_ask still_select still_now still_best_effort : keeps.
Lemma still_get_key id : keeps still (get_key (X := X) id).
Proof. unfold get_key. keeps_tac. Qed.
Lemma still_hysteria_user id : keeps still (get_user (X := X) env id).
Proof. unfold get_user, user_by_id. keeps_tac. Qed.
#[local] Hint Resolve still_get_key still_hysteria_user : keeps.
Lemma still_approved id : keeps still (require_approved_or_admin (X := X) env id).
Proof. unfold require_approved_or_admin. keeps_tac. Qed.
#[local] Hint Resolve still_approved : keeps.
Lemma still_label n : keeps still (generate_unique_label (X := X) henv n).
Proof. induction n as [|n IH]; cbn [generate_unique_label]; keeps_tac. Qed.
#[local] Hint Resolve still_label : keeps.
Lemma still_issue req : keeps still (issue (X := X) env henv req).
Proof. unfold issue, issue_with, ensure_module_enabled, ensure_can_create, activate. keeps_tac. Qed.
Lemma still_kick label : keeps still (kick_best_effort (X := X) henv label).
Proof. unfold kick_best_effort. keeps_tac. intros w. unfold still. cbn. auto. Qed.
#[local] Hint Resolve still_kick : keeps.
Lemma still_revoker actor id : keeps still (hysteria_revoker (X := X) env henv actor id).
Proof. unfold hysteria_revoker, revoke_hysteria2_key_system, revoke_found. keeps_tac. Qed.

#[export] Instance with_hysteria_trials_services others : TrialServices others -> TrialServices (with_hysteria_trials others).
Proof.
  intros [H1 H2 H3 H4 H5]. split.
  - intros [] g; cbn; [apply H1..|apply still_issue].
  - intros [] id actor; cbn; [apply H2..|apply still_revoker].
  - intros t g w k w' Hids Hnd. destruct t; cbn; [by apply H3..|].
    intros (Hw & Hst & (? & ? & ? & ? & _ & _ & _ & Hid & Ho & Ht & _ & _ & He & _) & _)%issue_run; [|done].
    assert (k_id k ∉ ids_in w) as Hnew.
    { intros (k0 & E & Hk0)%list_elem_of_fmap. unfold ids_given in Hids. rewrite Forall_elem in Hids. specialize (Hids k0 Hk0). lia. }
    unfold ids_in. rewrite Hw, map_app. cbn. split; [apply elem_of_app; right; by left|]. split; [done|].
    split; [intros i; set_solver|]. split; [|done]. apply NoDup_app. split; [done|]. split; [|apply NoDup_singleton].
    intros i Hi ->%list_elem_of_singleton. done.
  - intros [] id actor w; cbn; [apply H4..|]. by destruct (hysteria_revoker_modest env henv actor id w) as (_ & _ & ? & _).
  - intros [] id actor w u w'; cbn; [by apply H5..|]. intros Hnd H.
    apply (revocation_inactive env henv (BySystem id (Some actor) (py "hysteria2_key_revoked")) w w' u Hnd). exact H.
Qed.
End HysteriaTrials.
