(* ===== verification/KeyExpiry.v ===== *)
(** * Keys that expire ([services/key_expiry.py])

    Two passes of the background job: the keys whose time has passed are revoked,
    and the owners of those whose time comes are reminded, once per lead time. The
    lead times a key was reminded at are a text of the row
    ([expiry_notified_days]), kept here next to the key table. Which reminder was
    sent is recorded; its text is not modelled. *)

From S2P Require Import Prelude PyText IsoTime TextLines AwgConfig VpnKeys BackendHealth AwgService BotDb Accounts TrialAccess.
#[local] Open Scope Z_scope.

Definition COMMA : N := 44%N.

(** [es_notified]: the column, by the key's id; [es_sent]: the reminders that went out,
    by key and lead time; [es_health]: the counter of skipped revocations, if one was
    passed to the constructor ([bot/app.py] passes none). *)
Record expiry_state := ExpiryState {
  es_notified : gmap Z str; es_sent : list (Z * Z); es_health : option backend_health }.

(** [sub in s], which is what [LIKE '%' || sub || '%'] asks of digits and commas. *)
Fixpoint has_infix (sub s : str) : bool :=
  startswith sub s || match s with [] => false | _ :: r => has_infix sub r end.
(** The condition of [list_not_notified_expiring] on the column. *)
Definition noted_at (column : option str) (threshold : Z) : bool :=
  match column with
  | None => false
  | Some v => has_infix (COMMA :: show_Z threshold ++ [COMMA]) (COMMA :: v ++ [COMMA])
  end.
(** [mark_expiry_notified]: the thresholds of the column, and the column of some. *)
Definition thresholds_of (column : option str) : option (list Z) :=
  mapM int_of_str (List.filter (fun d => all_digits (strip d)) (split_char COMMA (default [] column))).
Definition column_of (thresholds : list Z) : str := str_join [COMMA] (map show_Z (merge_sort Z.le thresholds)).
Definition with_threshold (column : option str) (threshold : Z) : option str :=
  thresholds ← thresholds_of column; Some (column_of (remove_dups (threshold :: thresholds))).

(** [ORDER BY expires_at ASC] *)
Definition expires_le (a b : vpn_key) : Prop := str_le (default [] (k_expires_at a)) (default [] (k_expires_at b)).
#[export] Instance expires_le_dec : RelDecision expires_le.
Proof. intros a b. unfold expires_le. apply _. Defined.
Definition expired (now : str) (k : vpn_key) : bool :=
  status_in [ACTIVE] k && match k_expires_at k with Some e => str_leb e now | None => false end.
Definition expiring (now deadline : str) (k : vpn_key) : bool :=
  status_in [ACTIVE] k
  && match k_expires_at k with Some e => negb (str_leb e now) && str_leb e deadline | None => false end.

Section Expiry.
Context `{iso : !IsoText} (env : bot_env).
Abbreviation world := (bot_world expiry_state) (only parsing).
Abbreviation BM := (M (bot_world expiry_state) bot_error) (only parsing).
(** The services' system revokers; the configured lead times; the bot. *)
Context (revoke_system : key_type -> Z -> BM unit) (notify_days : list Z) (bot : option (nat -> bool)).

Definition set_rest (f : expiry_state -> expiry_state) : BM unit := modify (fun w =>
  BotWorld (bw_tables w) (bw_keys w) (bw_cleared w) (bw_kicked w) (bw_told w) (f (bw_rest w)) (bw_tick w)).
Definition list_expired_active (now : str) : BM (list vpn_key) :=
  on_rows (statement ;;! gets (fun t => take (clamp_limit 100) (merge_sort expires_le (List.filter (expired now) (kt_rows t))))).
Definition list_not_notified_expiring (now deadline : str) (threshold : Z) : BM (list vpn_key) :=
  on_rows statement ;;!
  gets (fun w => take (clamp_limit 200) (merge_sort expires_le
    (List.filter (fun k => expiring now deadline k && negb (noted_at (es_notified (bw_rest w) !! k_id k) threshold))
       (kt_rows (bw_keys w))))).
(** In a transaction; a column that cannot be read back is a [ValueError]. *)
Definition mark_expiry_notified (id threshold : Z) : BM unit :=
  transaction env (
    on_rows statement ;;!
    let! w := get in
    let column := match List.find (has_id id) (kt_rows (bw_keys w)) with
                  | Some _ => es_notified (bw_rest w) !! id
                  | None => None
                  end in
    match with_threshold column threshold with
    | None => raise BadTime
    | Some v =>
        on_rows statement ;;!
        set_rest (fun s => ExpiryState
          (match List.find (has_id id) (kt_rows (bw_keys w)) with Some _ => <[id := v]> (es_notified s) | None => es_notified s end)
          (es_sent s) (es_health s))
    end).

(** [_notify_owner_expired]: nothing is raised. *)
Definition notify_owner_expired (k : vpn_key) : BM unit :=
  match bot with
  | None => ret tt
  | Some _ => let! _ := attempt (let! _ := user_by_id env (k_owner k) in send_quietly bot (k_owner k)) in ret tt
  end.
(** With no [_backend_health], nothing is counted. *)
Definition record_skipped : BM unit :=
  set_rest (fun s => ExpiryState (es_notified s) (es_sent s) (record_skipped_revocation <$> es_health s)).
(** The body of the loop: whether the key was revoked. *)
Definition revoke_expired_key (k : vpn_key) : BM bool :=
  let! outcome := attempt (revoke_system (k_type k) (k_id k) ;;! notify_owner_expired k) in
  match outcome with Ok _ => ret true | Err _ => record_skipped ;;! ret false end.
Definition revoke_expired_keys : BM nat :=
  let! t := now env in
  let! keys := list_expired_active t in
  let! outcomes := mmap revoke_expired_key keys in
  ret (length (List.filter (fun b : bool => b) outcomes)).

(** [_add_days] *)
Definition add_days_text (t : str) (days : Z) : result bot_error str :=
  match fromisoformat t with
  | None => Err BadTime
  | Some d => Ok (isoformat (add_days (assume_utc d) days))
  end.
(** [bot.send_message], its failure raised. *)
Definition send_reminder (sends : nat -> bool) (k : vpn_key) (days : Z) : BM unit :=
  let! sent := ask sends in
  if sent : bool then set_rest (fun s => ExpiryState (es_notified s) (es_sent s ++ [(k_id k, days)]) (es_health s))
  else raise NotWired.
(** What the run carries from key to key. *)
Record reminder_run := ReminderRun {
  ru_notified : list Z; ru_owners : gmap Z (option account); ru_count : nat }.
Definition find_owner (run : reminder_run) (id : Z) : BM (option account * reminder_run) :=
  match ru_owners run !! id with
  | Some o => ret (o, run)
  | None => let! o := user_by_id env id in ret (o, ReminderRun (ru_notified run) (<[id := o]> (ru_owners run)) (ru_count run))
  end.
Definition remind (sends : nat -> bool) (days : Z) (run : reminder_run) (k : vpn_key) : BM reminder_run :=
  if bool_decide (k_id k ∈ ru_notified run) then mark_expiry_notified (k_id k) days ;;! ret run
  else
    let! found := find_owner run (k_owner k) in
    let '(owner, run) := found in
    if match owner with Some a => negb (ac_expiry_notifications a) | None => false end then ret run
    else
      let! outcome := attempt (send_reminder sends k days ;;! mark_expiry_notified (k_id k) days) in
      ret (match outcome with
           | Ok _ => ReminderRun (k_id k :: ru_notified run) (ru_owners run) (S (ru_count run))
           | Err _ => run
           end).
Fixpoint remind_each (sends : nat -> bool) (days : Z) (keys : list vpn_key) (run : reminder_run) : BM reminder_run :=
  match keys with
  | [] => ret run
  | k :: rest => let! run' := remind sends days run k in remind_each sends days rest run'
  end.
Fixpoint remind_all (sends : nat -> bool) (t : str) (all_days : list Z) (run : reminder_run) : BM reminder_run :=
  match all_days with
  | [] => ret run
  | days :: rest =>
      let! deadline := lift (add_days_text t days) in
      let! keys := list_not_notified_expiring t deadline days in
      let! run' := remind_each sends days keys run in
      remind_all sends t rest run'
  end.
Definition notify_expiring_keys : BM nat :=
  match notify_days, bot with
  | [], _ | _, None => ret O
  | _, Some sends =>
      let! t := now env in
      let! run := remind_all sends t (merge_sort Z.le notify_days) (ReminderRun [] ∅ 0) in
      ret (ru_count run)
  end.
End Expiry.
