(* ===== verification/ExpirySafety.v ===== *)
(** * What the expiry job promises

    The column of the lead times is a set of numbers, as a text; a key is reminded once
    per lead time, and once per run; an expired key outlives a pass only when the
    pass counts it as skipped, or did not get to it. *)

From S2P Require Import Prelude PyText IsoTime TextLines AwgConfig VpnKeys BackendHealth AwgService AwgRefine BotDb Accounts AccountSafety BlockSafety RequestSafety Hysteria HysteriaAccess HysteriaIssue TrialAccess KeyExpiry.
#[local] Open Scope Z_scope.

(** ** The column *)

Lemma infix_skip x w s : COMMA ∉ w -> has_infix (COMMA :: x) (w ++ s) = has_infix (COMMA :: x) s.
Proof.
  induction w as [|c w IH]; [done|]. intros [Hc Hw]%not_elem_of_cons. cbn [app has_infix startswith].
  destruct (N.eqb_spec COMMA c); [done|]. by apply IH.
Qed.
(** The words of a column, each between two commas. *)
Fixpoint between_commas (words : list str) : str :=
  match words with [] => [COMMA] | w :: ws => COMMA :: w ++ between_commas ws end.
Lemma between_commas_head words : exists r, between_commas words = COMMA :: r.
Proof. destruct words as [|w ws]; cbn; by eexists. Qed.
Lemma infix_words d words : COMMA ∉ d -> Forall (fun w => COMMA ∉ w) words ->
  has_infix (COMMA :: d ++ [COMMA]) (between_commas words) = bool_decide (d ∈ words).
Proof.
  intros Hd. induction 1 as [|w ws Hw Hws IH].
  - cbn. rewrite bool_decide_eq_false_2 by apply not_elem_of_nil. by destruct d.
  - cbn [between_commas has_infix]. destruct (between_commas_head ws) as [r Hr]. cbn [startswith]. rewrite N.eqb_refl. cbn [andb].
    rewrite infix_skip, IH by done. rewrite Hr, startswith_delim by done.
    apply eq_true_iff_eq. rewrite orb_true_iff, !bool_decide_eq_true, elem_of_cons. done.
Qed.
Lemma join_commas words : words <> [] -> COMMA :: str_join [COMMA] words ++ [COMMA] = between_commas words.
Proof.
  induction words as [|w ws IH]; [done|]. intros _. destruct ws as [|x ws]; [done|].
  cbn [str_join between_commas] in *. specialize (IH ltac:(done)). cbn [app] in IH. rewrite <- IH. cbn. by rewrite <- app_assoc.
Qed.
Definition lead_time (d : Z) : Prop := 0 <= d < 2 ^ 64.
Lemma show_no_comma d : 0 <= d -> COMMA ∉ show_Z d.
Proof.
  intros Hd Hin. destruct (show_Z_digits d Hd) as (_ & Hdig & _). rewrite Forall_elem in Hdig. by apply Hdig in Hin.
Qed.
Lemma shown_no_comma l : Forall lead_time l -> Forall (fun w => COMMA ∉ w) (map show_Z l).
Proof. intros H. apply Forall_map. eapply Forall_impl; [exact H|]. intros d [Hd _]. by apply show_no_comma. Qed.
Lemma show_all_digits d : 0 <= d -> all_digits (strip (show_Z d)) = true.
Proof.
  intros Hd. destruct (show_Z_digits d Hd) as (Hne & Hdig & _). destruct (show_Z_solid d) as [Hs _]. rewrite strip_nonspace by done.
  unfold all_digits. destruct (show_Z d) eqn:E; [done|]. rewrite <- E in *. apply forallb_forall. intros c Hc%list_elem_of_In.
  rewrite Forall_elem in Hdig. by apply Hdig.
Qed.
Lemma sorted_lead_times l : Forall lead_time l -> Forall lead_time (merge_sort Z.le l).
Proof. intros H. by rewrite merge_sort_Permutation. Qed.
Lemma column_thresholds l : Forall lead_time l -> thresholds_of (Some (column_of l)) = Some (merge_sort Z.le l).
Proof.
  intros H%sorted_lead_times. unfold thresholds_of, column_of. cbn [from_option id]. revert H. generalize (merge_sort Z.le l). clear l. intros l H.
  destruct l as [|x l]; [done|]. rewrite str_join_split; [|done|by apply shown_no_comma].
  generalize dependent (x :: l). clear x l. intros l H. induction H as [|d l [Hd Hlt] Hl IH]; [done|].
  cbn [map List.filter]. rewrite show_all_digits by done. cbn [mapM]. rewrite int_of_show by done. cbn. by rewrite IH.
Qed.

Lemma noted_column l d : Forall lead_time l -> lead_time d -> noted_at (Some (column_of l)) d = bool_decide (d ∈ l).
Proof.
  intros Hs%sorted_lead_times [Hd0 _]. cbn [noted_at]. unfold column_of.
  assert (forall x, x ∈ l <-> x ∈ merge_sort Z.le l) as Hin by (intros x; by rewrite merge_sort_Permutation).
  rewrite (bool_decide_ext (d ∈ l) (d ∈ merge_sort Z.le l)) by apply Hin. revert Hs. generalize (merge_sort Z.le l). intros s Hs.
  destruct s as [|y s].
  { cbn. rewrite bool_decide_eq_false_2 by apply not_elem_of_nil. destruct (show_Z_digits d Hd0) as (Hne & Hdig & _).
    destruct (show_Z d) as [|c t]; [done|]. cbn. inversion Hdig as [|? ? Hc ?]; subst. destruct (N.eqb_spec c COMMA) as [->|]; [done|].
    by destruct t. }
  rewrite join_commas by done. rewrite infix_words; [|by apply show_no_comma|by apply shown_no_comma].
  apply bool_decide_ext. split; [|apply list_elem_of_fmap_2]. by intros (x & <-%show_Z_inj & Hx)%list_elem_of_fmap.
Qed.
Lemma mark_column l d : Forall lead_time l -> lead_time d ->
  exists l', with_threshold (Some (column_of l)) d = Some (column_of l') /\ Forall lead_time l'
    /\ forall x, x ∈ l' <-> x = d \/ x ∈ l.
Proof.
  intros Hl Hd. unfold with_threshold. rewrite column_thresholds by done. eexists. split; [done|]. split.
  - apply Forall_elem. intros x Hx. rewrite elem_of_remove_dups in Hx. apply elem_of_cons in Hx as [->|Hx]; [done|].
    rewrite merge_sort_Permutation in Hx. rewrite Forall_elem in Hl. by apply Hl.
  - intros x. rewrite elem_of_remove_dups, elem_of_cons, merge_sort_Permutation. done.
Qed.

(** C37 The column of the lead times reads back what was written to it. Read with the
    query's pattern, a column written for some lead times holds just those, none
    taken for part of another; and noting one more adds it and loses none. *)
Theorem expiry_column_round_trip l d : Forall lead_time l -> lead_time d ->
  noted_at (Some (column_of l)) d = bool_decide (d ∈ l)
  /\ exists l', with_threshold (Some (column_of l)) d = Some (column_of l') /\ Forall lead_time l'
     /\ forall x, x ∈ l' <-> x = d \/ x ∈ l.
Proof. intros Hl Hd. split; [by apply noted_column|by apply mark_column]. Qed.

(** ** Reminders *)

#[local] Arguments with_threshold : simpl never.

Section Reminders.
Context `{iso : !IsoText} (env : bot_env) (notify_days : list Z) (bot : option (nat -> bool)).
Abbreviation world := (bot_world expiry_state) (only parsing).
Implicit Types w : world.
Abbreviation column w id := (es_notified (bw_rest w) !! id) (only parsing).
Abbreviation sent_in w := (es_sent (bw_rest w)) (only parsing).

Definition column_ok (c : option str) : Prop := c = None \/ exists l, Forall lead_time l /\ c = Some (column_of l).
(** Columns as the job writes them; each reminder that was sent is noted, and was sent
    once; no statement fails. *)
Record notices_ok w : Prop := {
  no_statements : forall n, kt_ok (bw_keys w) n = true;
  no_columns : forall id, column_ok (column w id);
  no_once : NoDup (sent_in w);
  no_noted : forall k d, (k, d) ∈ sent_in w -> lead_time d /\ noted_at (column w k) d = true }.
Context (db_ok : forall n, be_db env n = true) (days_ok : Forall lead_time notify_days).

Lemma with_threshold_grows c d : column_ok c -> lead_time d -> exists v, with_threshold c d = Some v /\ column_ok (Some v)
  /\ noted_at (Some v) d = true /\ forall x, lead_time x -> noted_at c x = true -> noted_at (Some v) x = true.
Proof.
  intros Hc Hd.
  assert (exists l, Forall lead_time l /\ with_threshold c d = with_threshold (Some (column_of l)) d
    /\ forall x, lead_time x -> noted_at c x = true -> x ∈ l) as (l & Hl & -> & Hx).
  { destruct Hc as [->|(l & Hl & ->)]; [exists []; split; [constructor|by split]|]. exists l. split; [done|]. split; [done|].
    intros x Hx. by rewrite noted_column, bool_decide_eq_true by done. }
  destruct (mark_column l d Hl Hd) as (l' & -> & Hl' & Hin). eexists. split; [done|]. split; [right; by exists l'|]. split.
  - rewrite noted_column, bool_decide_eq_true by done. apply Hin. by left.
  - intros x Hlx Hn. rewrite noted_column, bool_decide_eq_true by done. apply Hin. right. by apply Hx.
Qed.
(** A mark, when the row is there. *)
Lemma mark_run d w r w' k : (forall n, kt_ok (bw_keys w) n = true) -> column_ok (column w (k_id k)) -> lead_time d ->
  k ∈ kt_rows (bw_keys w) -> mark_expiry_notified env (k_id k) d w = (r, w') ->
  r = Ok tt /\ kt_rows (bw_keys w') = kt_rows (bw_keys w) /\ (forall n, kt_ok (bw_keys w') n = true)
  /\ sent_in w' = sent_in w /\ exists v, with_threshold (column w (k_id k)) d = Some v
  /\ es_notified (bw_rest w') = <[k_id k := v]> (es_notified (bw_rest w)).
Proof using db_ok.
  intros Hk Hc Hd Hin. destruct (with_threshold_grows _ d Hc Hd) as (v & Hv & _).
  destruct (List.find (has_id (k_id k)) (kt_rows (bw_keys w))) as [k0|] eqn:Ef.
  2:{ apply list_elem_of_In in Hin. pose proof (find_none _ _ Ef k Hin) as Hn. unfold has_id in Hn. by rewrite Z.eqb_refl in Hn. }
  unfold mark_expiry_notified, transaction, sql, ask, on_rows, embed, statement, bind, get, set_rest, modify. cbn. rewrite db_ok. cbn.
  rewrite Hk. cbn. rewrite Ef, Hv. cbn. rewrite Hk. cbn. intros [= <- <-]. cbn. split; [done|]. split; [done|]. split; [done|].
  split; [done|]. by exists v.
Qed.
(** After it, what was sent is noted, if only the mark was missing. *)
Lemma marked_ok id d w w' v : (forall k, column_ok (column w k)) -> lead_time d -> with_threshold (column w id) d = Some v ->
  es_notified (bw_rest w') = <[id := v]> (es_notified (bw_rest w)) -> (forall n, kt_ok (bw_keys w') n = true) ->
  NoDup (sent_in w') ->
  (forall k x, (k, x) ∈ sent_in w' -> (k, x) = (id, d) \/ lead_time x /\ noted_at (column w k) x = true) ->
  notices_ok w' /\ forall k x, lead_time x -> noted_at (column w k) x = true -> noted_at (column w' k) x = true.
Proof.
  intros Hc Hd Hv Hn' Hk' Hnd Hn. destruct (with_threshold_grows _ _ (Hc id) Hd) as (v' & Hv' & Hcv & Hnd' & Hgrow).
  rewrite Hv in Hv'. injection Hv' as <-.
  assert (forall k x, lead_time x -> noted_at (column w k) x = true -> noted_at (column w' k) x = true) as Hg.
  { intros k x Hx Hkx. rewrite Hn'. destruct (decide (id = k)) as [<-|]; [rewrite lookup_insert_eq; by apply Hgrow|by rewrite lookup_insert_ne]. }
  split; [|exact Hg]. split; [done| |done|].
  - intros k. rewrite Hn'. destruct (decide (id = k)) as [<-|]; [by rewrite lookup_insert_eq|by rewrite lookup_insert_ne].
  - intros k x [[= -> ->]|[Hx Hkx]]%Hn; [|split; [done|by apply Hg]]. split; [done|]. by rewrite Hn', lookup_insert_eq.
Qed.
(** A run so far, begun in [w0]. *)
Record run_ok w0 w (run : reminder_run) : Prop := {
  ro_rows : kt_rows (bw_keys w) = kt_rows (bw_keys w0);
  ro_new : exists new, sent_in w = sent_in w0 ++ new /\ NoDup (map fst new) /\ length new = ru_count run
    /\ forall k d, (k, d) ∈ new -> k ∈ ru_notified run /\ exists row, row ∈ kt_rows (bw_keys w0) /\ k_id row = k /\ k_status row = ACTIVE;
  ro_grow : forall k d, (k, d) ∈ sent_in w0 -> noted_at (column w k) d = true;
  ro_ok : notices_ok w }.
(** What a step leaves alone. *)
Definition beside w w' : Prop := kt_rows (bw_keys w') = kt_rows (bw_keys w) /\ (forall n, kt_ok (bw_keys w') n = kt_ok (bw_keys w) n)
  /\ bw_rest w' = bw_rest w.
Lemma beside_run w0 w w' run run' : beside w w' -> ru_notified run' = ru_notified run -> ru_count run' = ru_count run ->
  run_ok w0 w run -> run_ok w0 w' run'.
Proof.
  intros (Hr & Hk & Hs) Hn Hc [H1 H2 H3 [K1 K2 K3 K4]]. split; [congruence|by rewrite Hs, Hn, Hc|by rewrite Hs|].
  split; [intros n; by rewrite Hk|by rewrite Hs..].
Qed.
Lemma find_owner_run run id w r w' : find_owner env run id w = (r, w') ->
  beside w w' /\ exists o run', r = Ok (o, run') /\ ru_notified run' = ru_notified run /\ ru_count run' = ru_count run.
Proof using db_ok.
  unfold find_owner. destruct (ru_owners run !! id) as [o|]; [intros [= <- <-]; split; [done|by exists o, run]|].
  unfold user_by_id, select, sql, ask, bind, gets, ret. cbn. rewrite db_ok. cbn. intros [= <- <-]. split; [done|]. by eexists _, _.
Qed.
Lemma remind_ok sends days w0 w run k r w' : run_ok w0 w run -> lead_time days ->
  k ∈ kt_rows (bw_keys w0) -> k_status k = ACTIVE -> (k_id k, days) ∉ sent_in w0 ->
  remind env sends days run k w = (r, w') -> exists run', r = Ok run' /\ run_ok w0 w' run'.
Proof using db_ok.
  intros Hrun Hd Hk Hact Hfresh. unfold remind. pose proof Hrun as [H1 (new & Hs & Hnd & Hcount & Hnew) H3 H4].
  case_bool_decide as Hin.
  { rewrite <- H1 in Hk. intros [([] & w1 & H5 & E)|(e & H5 & _)]%bind_inv;
      apply (mark_run _ _ _ _ k (no_statements _ H4) (no_columns _ H4 _) Hd Hk) in H5 as (? & Hr & Hko & Hsent & v & Hv & Hn); [|done].
    injection E as <- <-. exists run. split; [done|].
    destruct (marked_ok (k_id k) days w w1 v (no_columns _ H4) Hd Hv Hn Hko) as [Hok Hg];
      [rewrite Hsent; apply H4|intros j x Hj; rewrite Hsent in Hj; right; by apply (no_noted _ H4)|].
    split; [congruence|exists new; by rewrite Hsent| |done]. intros j x Hjx. apply Hg; [|by apply H3].
    apply (no_noted _ H4 j x). rewrite Hs. apply elem_of_app. by left. }
  intros [([o run1] & w1 & [Hb (o' & run' & [= <- <-] & Hn1 & Hc1)]%find_owner_run & E)|(e & [_ (? & ? & ? & _)]%find_owner_run & _)]%bind_inv; [|done].
  pose proof (beside_run _ _ _ _ _ Hb Hn1 Hc1 Hrun) as Hrun1. clear Hrun H1 H3 H4 Hs Hcount Hnew Hb.
  destruct (match o with Some a => _ | None => false end); [injection E as <- <-; by exists run1|]. rewrite <- Hn1 in Hin. clear Hn1 Hc1.
  pose proof Hrun1 as [H1 (new1 & Hs & Hnd1 & Hcount & Hnew) H3 H4].
  apply bind_inv in E as [(out & w2 & H2 & E)|(e & H2 & _)]; [|unfold attempt in H2; by destruct (bind _ _ w1)].
  unfold attempt in H2. destruct (bind (send_reminder sends k days) _ w1) as [out' w2'] eqn:E2. injection H2 as <- <-.
  apply bind_inv in E2 as [([] & w3 & H5 & E2)|(e & H5 & ->)]; unfold send_reminder in H5;
    (apply bind_inv in H5 as [(b & w4 & H6 & H5)|(? & H6 & _)]; [|done]); injection H6 as _ <-; destruct b; try done.
  2:{ injection H5 as _ <-. injection E as <- <-. exists run1. split; [done|]. by apply (beside_run w0 w1 _ run1). }
  injection H5 as <-. set (w3 := BotWorld _ _ _ _ _ _ _) in E2.
  assert ((k_id k, days) ∉ sent_in w1) as Hnot.
  { rewrite Hs. intros [?|Hx]%elem_of_app; [done|]. by destruct (Hnew _ _ Hx). }
  assert (NoDup (sent_in w3)) as Hnd3.
  { cbn. apply NoDup_app. split; [apply H4|]. split; [|apply NoDup_singleton]. by intros x Hx ->%list_elem_of_singleton. }
  assert (k ∈ kt_rows (bw_keys w3)) as Hk3 by (cbn; by rewrite H1).
  apply (mark_run days w3 out' w2' k (no_statements _ H4) (no_columns _ H4 _) Hd Hk3) in E2 as (-> & Hr & Hko & Hsent & v & Hv & Hn).
  injection E as <- <-. destruct (marked_ok (k_id k) days w3 w2' v (no_columns _ H4) Hd Hv Hn Hko) as [Hok Hg].
  { by rewrite Hsent. }
  { intros j x. rewrite Hsent. cbn. intros [Hj|Hj%list_elem_of_singleton]%elem_of_app; [right; by apply (no_noted _ H4)|by left]. }
  eexists. split; [done|]. split; [rewrite Hr; exact H1| | |exact Hok].
  - exists (new1 ++ [(k_id k, days)]). rewrite Hsent. cbn. rewrite Hs, <- app_assoc. split; [done|]. rewrite map_app, length_app.
    split; [apply NoDup_app; split; [done|]; split; [|apply NoDup_singleton]|split; [cbn; lia|]].
    + intros x ([j y] & -> & Hp)%list_elem_of_fmap Hx%list_elem_of_singleton. cbn in Hx. subst j. by destruct (Hnew _ _ Hp).
    + intros j x [Hj|Hj%list_elem_of_singleton]%elem_of_app; [destruct (Hnew j x Hj); split; [by right|done]|].
      injection Hj as -> ->. split; [by left|]. by exists k.
  - intros j x Hjx. apply Hg; [|by apply H3]. apply (no_noted _ H4 j x). rewrite Hs. apply elem_of_app. by left.
Qed.
Lemma remind_each_ok sends days w0 keys : lead_time days ->
  (forall k, k ∈ keys -> k ∈ kt_rows (bw_keys w0) /\ k_status k = ACTIVE /\ (k_id k, days) ∉ sent_in w0) ->
  forall w run r w', run_ok w0 w run -> remind_each env sends days keys run w = (r, w') ->
  exists run', r = Ok run' /\ run_ok w0 w' run'.
Proof using db_ok.
  intros Hd. induction keys as [|k keys IH]; intros Hk w run r w' Hrun; cbn [remind_each]; [intros [= <- <-]; by exists run|].
  destruct (Hk k (list_elem_of_here _ _)) as (Hin & Hact & Hfresh).
  intros [(run1 & w1 & H1 & E)|(e & H1 & _)]%bind_inv; apply (remind_ok _ _ _ _ _ _ _ _ Hrun Hd Hin Hact Hfresh) in H1 as (run' & [= <-] & Hrun').
  eapply IH; [|exact Hrun'|exact E]. intros k' Hk'. apply Hk. by right.
Qed.
Lemma listed_run t deadline d w r w' : list_not_notified_expiring t deadline d w = (r, w') ->
  beside w w' /\ forall keys k, r = Ok keys -> k ∈ keys -> k ∈ kt_rows (bw_keys w) /\ k_status k = ACTIVE /\ noted_at (column w (k_id k)) d = false.
Proof.
  unfold list_not_notified_expiring, on_rows, embed, statement, bind, gets. cbn -[merge_sort take List.filter].
  destruct (kt_ok _ _); intros [= <- <-]; (split; [done|]); intros keys k; [|done]. intros [= <-] Hk.
  apply elem_of_take in Hk as (i & Hk & _). apply list_elem_of_lookup_2 in Hk. rewrite merge_sort_Permutation in Hk.
  apply list_elem_of_In, filter_In in Hk as [Hin [Hexp Hn]%andb_true_iff]. split; [by apply list_elem_of_In|].
  split; [|by apply negb_true_iff]. unfold expiring, status_in in Hexp. apply andb_true_iff in Hexp as [Hst _].
  apply bool_decide_eq_true in Hst. by apply list_elem_of_singleton.
Qed.
Lemma remind_all_ok sends t days : Forall lead_time days -> forall w0 w run r w', run_ok w0 w run ->
  remind_all env sends t days run w = (r, w') ->
  exists run', run_ok w0 w' run' /\ match r with Ok x => x = run' | Err _ => True end.
Proof using db_ok.
  induction 1 as [|d days Hd Hdays IH]; intros w0 w run r w' Hrun; cbn [remind_all]; [intros [= <- <-]; by exists run|].
  intros [(deadline & w1 & H1 & E)|(e & H1 & ->)]%bind_inv; unfold lift in H1; destruct (add_days_text t d); injection H1 as H1 <-; try done; [|by exists run].
  apply bind_inv in E as [(keys & w2 & [Hb Hl]%listed_run & E)|(e & [Hb _]%listed_run & ->)].
  2:{ exists run. split; [|done]. by apply (beside_run w0 w w' run run). }
  pose proof (beside_run w0 w w2 run run Hb eq_refl eq_refl Hrun) as Hrun2.
  apply bind_inv in E as [(run1 & w3 & H3 & E)|(e & H3 & ->)];
    apply (remind_each_ok sends d w0 keys Hd) with (run := run) in H3 as (run' & Hrun' & Hok); try done.
  - injection Hrun' as <-. eapply IH; [exact Hok|exact E].
  - intros k Hk. destruct (Hl keys k eq_refl Hk) as (Hin & Hact & Hn). destruct Hrun as [H4 _ H5 _]. rewrite <- H4.
    split; [done|]. split; [done|]. intros Hs. apply H5 in Hs. congruence.
  - intros k Hk. destruct (Hl keys k eq_refl Hk) as (Hin & Hact & Hn). destruct Hrun as [H4 _ H5 _]. rewrite <- H4.
    split; [done|]. split; [done|]. intros Hs. apply H5 in Hs. congruence.
Qed.

(** C24 A reminder goes out once. In one run no key is reminded twice, however many lead
    times it has crossed, and only active keys are; and over all the runs, whatever
    happened in between to the keys, no key is reminded twice at the same lead
    time: what a run sent is noted, so that it is not listed again. This as long
    as the database's statements succeed. *)
Theorem reminders_go_out_once w r w' : notices_ok w -> notify_expiring_keys env notify_days bot w = (r, w') ->
  notices_ok w' /\ exists new, sent_in w' = sent_in w ++ new /\ NoDup (map fst new)
    /\ (forall n, r = Ok n -> length new = n)
    /\ forall k d, (k, d) ∈ new -> (k, d) ∉ sent_in w
         /\ exists row, row ∈ kt_rows (bw_keys w) /\ k_id row = k /\ k_status row = ACTIVE.
Proof using db_ok days_ok.
  intros Hok. unfold notify_expiring_keys.
  assert (forall v run (n : result bot_error nat), run_ok w v run -> (forall m, n = Ok m -> m = ru_count run) ->
    notices_ok v /\ exists new, sent_in v = sent_in w ++ new /\ NoDup (map fst new) /\ (forall m, n = Ok m -> length new = m)
      /\ forall k d, (k, d) ∈ new -> (k, d) ∉ sent_in w /\ exists row, row ∈ kt_rows (bw_keys w) /\ k_id row = k /\ k_status row = ACTIVE) as Hdone.
  { intros v run n [_ (new & Hs & Hnd & Hc & Hnew) _ Hv] Hn. split; [done|]. exists new. split; [done|]. split; [done|].
    split; [intros m ->%Hn; done|]. intros k d Hkd. split; [|by apply (Hnew k d)]. pose proof (no_once _ Hv) as Hall. rewrite Hs in Hall.
    apply NoDup_app in Hall as (_ & Hdisj & _). intros Hold. by apply (Hdisj _ Hold). }
  assert (run_ok w w (ReminderRun [] ∅ 0)) as Hstart.
  { split; [done| |apply Hok|done]. exists []. rewrite app_nil_r. split; [done|]. split; [constructor|]. split; [done|]. by intros ?? ?%elem_of_nil. }
  destruct notify_days as [|d0 ds] eqn:Edays; [intros [= <- <-]; apply (Hdone w (ReminderRun [] ∅ 0)); [done|by intros m [= <-]]|].
  destruct bot as [sends|]; [|intros [= <- <-]; apply (Hdone w (ReminderRun [] ∅ 0)); [done|by intros m [= <-]]]. rewrite <- Edays in *.
  assert (Forall lead_time (merge_sort Z.le notify_days)) as Hdays by (by apply sorted_lead_times).
  intros [(t & w1 & H1 & E)|(e & H1 & _)]%bind_inv; [|done].
  assert (run_ok w w1 (ReminderRun [] ∅ 0)) as Hrun by (injection H1 as _ <-; by apply (beside_run w w _ (ReminderRun [] ∅ 0))).
  apply bind_inv in E as [(run & w2 & H2 & E)|(e & H2 & ->)]; apply (remind_all_ok sends t _ Hdays w _ _ _ _ Hrun) in H2 as (run' & Hrun' & Hr).
  - injection E as <- <-. subst run'. apply (Hdone w2 run); [done|]. by intros m [= <-].
  - by apply (Hdone w' run').
Qed.
End Reminders.

(** ** Revocations *)

(** What the services' system revokers promise the job: no row of a key becomes active,
    no key is added or split, a key revoked is not active; the job's own counters
    are not theirs. *)
Class ExpiryRevokers (revoke_system : key_type -> Z -> M (bot_world expiry_state) bot_error unit) : Prop := {
  revoker_keeps t id : keeps (fun w w' : bot_world expiry_state =>
    (forall k, k ∈ kt_rows (bw_keys w') -> k_status k = ACTIVE -> k ∈ kt_rows (bw_keys w))
    /\ ids_in w' = ids_in w /\ es_health (bw_rest w') = es_health (bw_rest w)) (revoke_system t id);
  revoker_revokes t id w u w' : NoDup (ids_in w) -> revoke_system t id w = (Ok u, w') -> inactive id (kt_rows (bw_keys w')) }.

Section Revocations.
Context `{iso : !IsoText} (env : bot_env) (bot : option (nat -> bool)).
Context (revoke_system : key_type -> Z -> M (bot_world expiry_state) bot_error unit) `{!ExpiryRevokers revoke_system}.
Abbreviation world := (bot_world expiry_state) (only parsing).
Implicit Types w : world.
Abbreviation rows_in w := (kt_rows (bw_keys w)) (only parsing).
Abbreviation health w := (es_health (bw_rest w)) (only parsing).
(** The counter, if there is one, after some revocations that failed. *)
Definition after_skips (n : nat) (h : option backend_health) : option backend_health := Nat.iter n record_skipped_revocation <$> h.
Lemma after_more_skips n m h : after_skips n (after_skips m h) = after_skips (n + m) h.
Proof. destruct h as [h|]; [|done]. unfold after_skips. cbn [fmap option_fmap option_map]. by rewrite Nat.iter_add. Qed.

Definition shrinks w w' : Prop :=
  (forall k, k ∈ rows_in w' -> k_status k = ACTIVE -> k ∈ rows_in w) /\ ids_in w' = ids_in w.
#[local] Instance shrinks_pre : PreOrder shrinks.
Proof. split; [by intros w|]. intros a b c [H1 H2] [H3 H4]. split; [auto|congruence]. Qed.
Definition same_health w w' : Prop := es_health (bw_rest w') = es_health (bw_rest w).
#[local] Instance same_health_pre : PreOrder same_health.
Proof. split; [by intros w|]. intros a b c ??. unfold same_health in *. congruence. Qed.
Definition shrunk w w' : Prop := shrinks w w' /\ same_health w w'.
#[local] Instance shrunk_pre : PreOrder shrunk.
Proof. split; [by intros w|]. intros a b c [? ?] [? ?]. split; by etransitivity. Qed.
Lemma shrunk_revoker t id : keeps shrunk (revoke_system t id).
Proof using All. intros w. destruct (revoker_keeps t id w) as (H1 & H2 & H3). done. Qed.
Lemma shrunk_expired k : keeps shrunk (notify_owner_expired env bot k).
Proof.
  assert (forall A (f : nat -> A), keeps shrunk (ask (X := expiry_state) f)) as Hask by by intros A f w.
  unfold notify_owner_expired, send_quietly, user_by_id, select, sql. keeps_tac; by intros w.
Qed.
(** One key's turn: revoked, or counted where it can be. *)
Lemma turn_run k w r w' : NoDup (ids_in w) -> revoke_expired_key env revoke_system bot k w = (r, w') ->
  shrinks w w' /\ exists b, r = Ok b /\ health w' = after_skips (if b then 0 else 1) (health w) /\ (b = true -> inactive (k_id k) (rows_in w')).
Proof using All.
  intros Hnd. unfold revoke_expired_key. intros [(out & w1 & H1 & E)|(e & H1 & _)]%bind_inv; [|unfold attempt in H1; by destruct (bind _ _ w)].
  unfold attempt in H1. destruct (bind (revoke_system (k_type k) (k_id k)) _ w) as [o w2] eqn:E1. injection H1 as <- <-.
  assert (keeps shrunk (revoke_system (k_type k) (k_id k) ;;! notify_owner_expired env bot k)) as Hkeep.
  { apply keeps_bind; [apply _|apply shrunk_revoker|]. intros _. apply shrunk_expired. }
  pose proof (keeps_run _ _ _ _ _ Hkeep E1) as [Hs Hh]. unfold same_health in Hh. destruct o as [u|e].
  - injection E as <- <-. split; [done|]. exists true. split; [done|]. split; [rewrite Hh; by destruct (health w)|]. intros _.
    apply bind_inv in E1 as [(u1 & w3 & H3 & E1)|(? & _ & ?)]; [|done].
    apply revoker_revokes in H3; [|done]. destruct (keeps_run _ _ _ _ _ (shrunk_expired k) E1) as [[Hr _] _].
    intros k' Hk' Hid Hact. by apply (H3 k' (Hr k' Hk' Hact)).
  - injection E as <- <-. split; [exact Hs|]. exists false. split; [done|]. split; [|done]. cbn. rewrite Hh. by destruct (health w).
Qed.
(** The keys' turns. *)
Definition revoked_among (keys : list vpn_key) (outcomes : list bool) : list Z :=
  map fst (List.filter snd (zip (map k_id keys) outcomes)).
Lemma turns_run keys : forall w r w', NoDup (ids_in w) -> mmap (revoke_expired_key env revoke_system bot) keys w = (r, w') ->
  shrinks w w' /\ exists outcomes, r = Ok outcomes /\ length outcomes = length keys
    /\ health w' = after_skips (length (List.filter negb outcomes)) (health w)
    /\ forall id, id ∈ revoked_among keys outcomes -> inactive id (rows_in w').
Proof using All.
  induction keys as [|k keys IH]; intros w r w' Hnd; cbn [mmap].
  { intros [= <- <-]. split; [done|]. exists []. split; [done|]. split; [done|]. split; [cbn; by destruct (health w)|]. by intros id ?%elem_of_nil. }
  intros [(b & w1 & H1 & E)|(e & H1 & _)]%bind_inv; apply turn_run in H1 as (Hs1 & b' & Hb & Hc1 & Hi1); try done. injection Hb as <-.
  assert (NoDup (ids_in w1)) as Hnd1 by (destruct Hs1 as [_ ->]; done).
  apply bind_inv in E as [(bs & w2 & H2 & E)|(e & H2 & _)]; apply (IH _ _ _ Hnd1) in H2 as (Hs2 & bs' & Hbs & Hl & Hc2 & Hi2); try done.
  injection Hbs as <-. injection E as <- <-. split; [by etransitivity|]. exists (b :: bs). split; [done|]. cbn [length]. split; [by rewrite Hl|].
  split; [rewrite Hc2, Hc1, after_more_skips; f_equal; destruct b; cbn; lia|]. intros id. unfold revoked_among. cbn. destruct b; cbn.
  - intros [->|Hid]%elem_of_cons; [|by apply Hi2]. intros k' Hk' Hid Hact. by apply (Hi1 eq_refl k' (proj1 Hs2 k' Hk' Hact)).
  - intros Hid. by apply Hi2.
Qed.

Lemma listed_expired_run t w r w' : list_expired_active t w = (r, w') ->
  rows_in w' = rows_in w /\ bw_rest w' = bw_rest w
  /\ forall keys, r = Ok keys -> keys = take 100 (merge_sort expires_le (List.filter (expired t) (rows_in w))).
Proof.
  unfold list_expired_active, on_rows, embed, statement, bind, gets. cbn -[merge_sort take List.filter].
  destruct (kt_ok _ _); intros [= <- <-]; (split; [done|]; split; [done|]); [|done]. by intros keys [= <-].
Qed.
Lemma revoked_sublist keys outcomes : revoked_among keys outcomes `sublist_of` map k_id keys.
Proof.
  revert outcomes. induction keys as [|k keys IH]; intros [|b bs]; unfold revoked_among; cbn; try done; [apply sublist_nil_l|].
  destruct b; cbn; [apply sublist_skip|apply sublist_cons]; apply IH.
Qed.
Lemma revoked_count keys outcomes : length outcomes = length keys ->
  length (revoked_among keys outcomes) = length (List.filter (fun b => b) outcomes)
  /\ (length (List.filter (fun b => b) outcomes) + length (List.filter negb outcomes) = length keys)%nat.
Proof.
  revert outcomes. induction keys as [|k keys IH]; intros [|b bs]; try done. intros [= Hl]. destruct (IH bs Hl) as [H1 H2].
  unfold revoked_among in *. destruct b; cbn; lia.
Qed.
Lemma filter_ids_nodup (p : vpn_key -> bool) rows : NoDup (map k_id rows) -> NoDup (map k_id (List.filter p rows)).
Proof.
  intros H. eapply sublist_NoDup; [exact H|]. clear H. induction rows as [|k rows IH]; [done|]. cbn.
  destruct (p k); cbn; [by apply sublist_skip|by apply sublist_cons].
Qed.
(** Nobody joins, and each that was revoked leaves. *)
Lemma expired_left t w w' keys revoked : NoDup (ids_in w) -> shrinks w w' ->
  keys = take 100 (merge_sort expires_le (List.filter (expired t) (rows_in w))) -> revoked `sublist_of` map k_id keys ->
  (forall id, id ∈ revoked -> inactive id (rows_in w')) ->
  (length (List.filter (expired t) (rows_in w')) + length revoked <= length (List.filter (expired t) (rows_in w)))%nat.
Proof.
  intros Hnd [Hin Hids] -> Hsub Hinact. set (before := List.filter (expired t) (rows_in w)) in *. set (after := List.filter (expired t) (rows_in w')).
  assert (map k_id (take 100 (merge_sort expires_le before)) ⊆+ map k_id before) as Hpage.
  { transitivity (map k_id (merge_sort expires_le before)).
    - apply sublist_submseteq, fmap_sublist, sublist_take.
    - by rewrite merge_sort_Permutation. }
  assert (NoDup (map k_id before)) as Hndb by by apply filter_ids_nodup.
  assert (revoked ⊆+ map k_id before) as Hrev by (etransitivity; [by apply sublist_submseteq|exact Hpage]).
  rewrite <- (length_map k_id after), <- (length_map k_id before), <- length_app. apply submseteq_length, NoDup_submseteq.
  - apply NoDup_app. split; [apply filter_ids_nodup; unfold ids_in in *; by rewrite Hids|]. split.
    + intros id (k & -> & Hk)%list_elem_of_fmap Hr. apply list_elem_of_In, filter_In in Hk as [Hk%list_elem_of_In He].
      unfold expired, status_in in He. apply andb_true_iff in He as [Hst _]. apply bool_decide_eq_true, list_elem_of_singleton in Hst.
      by apply (Hinact _ Hr k Hk).
    + eapply sublist_NoDup; [|etransitivity; [exact Hsub|apply fmap_sublist, sublist_take]].
      enough (NoDup (map k_id (merge_sort expires_le before))) as Hn by exact Hn. by rewrite merge_sort_Permutation.
  - intros id [(k & -> & Hk)%list_elem_of_fmap|Hr]%elem_of_app; [|by eapply elem_of_submseteq].
    apply list_elem_of_In, filter_In in Hk as [Hk%list_elem_of_In He]. apply list_elem_of_fmap_2, list_elem_of_In, filter_In. split; [|done].
    apply list_elem_of_In, Hin; [done|]. unfold expired, status_in in He. apply andb_true_iff in He as [Hst _].
    by apply bool_decide_eq_true, list_elem_of_singleton in Hst.
Qed.

(** C25 An expired key outlives a pass only when its revocation failed or its turn did not
    come. A pass that returns has taken in turn the active keys whose expiry is not
    after the clock's time at its start, those that expired first, 100 at most: as many
    of them as it returns were revoked and are active no more; the revocations of the
    others failed, and are counted if the service was given a counter (the bot gives it
    none). No key has become active or expired in their place; so when all that had
    expired were revoked, none is left. A pass that raises has changed no key and counted
    nothing. *)
Theorem expired_keys_are_accounted_for w r w' : NoDup (ids_in w) ->
  revoke_expired_keys env revoke_system bot w = (r, w') ->
  let t := be_now env (bw_tick w) in
  let before := List.filter (expired t) (rows_in w) in
  let page := take 100 (merge_sort expires_le before) in
  let after := List.filter (expired t) (rows_in w') in
  match r with
  | Ok n =>
      (exists revoked, revoked `sublist_of` map k_id page /\ length revoked = n
         /\ forall id, id ∈ revoked -> inactive id (rows_in w'))
      /\ (n <= length page)%nat /\ health w' = after_skips (length page - n) (health w)
      /\ (length after + n <= length before)%nat /\ (n = length before -> after = [])
  | Err _ => rows_in w' = rows_in w /\ health w' = health w
  end.
Proof using All.
  intros Hnd H t before page after. unfold revoke_expired_keys in H. apply bind_inv in H as [(t0 & w1 & H1 & E)|(e & H1 & _)]; [|done].
  assert (t0 = t /\ rows_in w1 = rows_in w /\ bw_rest w1 = bw_rest w) as (-> & Hr1 & Hb1) by by injection H1 as <- <-. clear H1.
  apply bind_inv in E as [(keys & w2 & (Hr2 & Hb2 & Hkeys)%listed_expired_run & E)|(e & (Hr2 & Hb2 & _)%listed_expired_run & ->)].
  2:{ by rewrite Hr2, Hb2, Hr1, Hb1. }
  specialize (Hkeys _ eq_refl). rewrite Hr1 in Hkeys. fold before in Hkeys. fold page in Hkeys.
  assert (NoDup (ids_in w2)) as Hnd2 by (unfold ids_in; rewrite Hr2, Hr1; exact Hnd).
  apply bind_inv in E as [(bs & w3 & H3 & E)|(e & H3 & _)]; apply (turns_run _ _ _ _ Hnd2) in H3 as (Hs & bs' & Hbs & Hl & Hc & Hi); try done.
  injection Hbs as <-. injection E as <- <-. destruct (revoked_count keys bs Hl) as [Hn Htotal].
  assert (shrinks w w3) as Hs'.
  { destruct Hs as [Ha Hb]. split; [intros k Hk Hact; specialize (Ha k Hk Hact); congruence|]. rewrite Hb. unfold ids_in. by rewrite Hr2, Hr1. }
  pose proof (expired_left t w w3 keys _ Hnd Hs' Hkeys (revoked_sublist keys bs) Hi) as Hleft. rewrite Hn in Hleft.
  rewrite Hb2, Hb1 in Hc. rewrite <- Hkeys.
  split; [exists (revoked_among keys bs); split; [apply revoked_sublist|by split]|]. split; [lia|]. split.
  { rewrite Hc. f_equal. lia. }
  split; [exact Hleft|]. intros Hall. apply length_zero_iff_nil. fold after before in Hleft. lia.
Qed.
End Revocations.

(** ** The Hysteria2 service keeps the promise *)

Section HysteriaExpiry.
Context `{iso : !IsoText} (env : bot_env) (henv : hysteria_env).
Abbreviation world := (bot_world expiry_state) (only parsing).
Implicit Types w : world.

(** [revoke_hysteria2_key_system], without an actor. *)
Definition expire_hysteria (id : Z) : M (bot_world expiry_state) bot_error unit :=
  let! _ := revoke_hysteria2_key_system env henv id None (py "hysteria2_key_revoked") in ret tt.
Definition with_hysteria_expiry (others : key_type -> Z -> M (bot_world expiry_state) bot_error unit) (t : key_type) (id : Z) :=
  match t with HYSTERIA2 => expire_hysteria id | _ => others t id end.

Definition retires w w' : Prop := (forall k, k ∈ kt_rows (bw_keys w') -> k_status k = ACTIVE -> k ∈ kt_rows (bw_keys w))
  /\ ids_in w' = ids_in w /\ es_health (bw_rest w') = es_health (bw_rest w).
#[local] Instance retires_pre : PreOrder retires.
Proof. split; [by intros w|]. intros a b c (H1&H2&H3) (K1&K2&K3). split; [auto|]. split; congruence. Qed.
Lemma retires_ask {A} (f : nat -> A) : keeps retires (ask (X := expiry_state) f).
Proof. by intros w. Qed.
Lemma retires_tables f : keeps retires (set_tables (X := expiry_state) f).
Proof. by intros w. Qed.
Lemma retires_find p : keeps retires (on_rows (X := expiry_state) (find_row p)).
Proof.
  apply keeps_embed. intros w. change (part_get w) with (bw_keys w). destruct (find_row p (bw_keys w)) as [r tb] eqn:E.
  apply find_row_run in E as (E & _ & _). unfold retires, ids_in. cbn. by rewrite E.
Qed.
Lemma retires_revoked id by_ t : keeps retires (on_rows (X := expiry_state) (mark_revoked id by_ t)).
Proof.
  apply keeps_embed. intros w. change (part_get w) with (bw_keys w).
  destruct (mark_revoked id by_ t (bw_keys w)) as [r tb] eqn:E. unfold retires, ids_in. cbn.
  unfold mark_revoked in E. apply bind_inv in E as [(n & t1 & H1 & E)|(e & H1 & _)]; apply update_rows_run in H1 as [[H1 _]|[H1 H2]]; try done.
  - assert (tb = t1) as -> by (revert E; destruct (n =? 1)%nat; by intros [= _ <-]). by rewrite H1.
  - assert (tb = t1) as -> by (revert E; destruct (n =? 1)%nat; by intros [= _ <-]). rewrite H1. split; [|split; [|done]].
    + intros k (k0 & -> & Hk0)%list_elem_of_fmap. destruct (_ && _); done.
    + rewrite map_map. apply map_ext. intros k. by destruct (_ && _).
  - by rewrite H1.
Qed.
#[local] Hint Resolve retires_ask retires_tables retires_find retires_revoked : keeps.
Lemma retires_expire id : keeps retires (expire_hysteria id).
Proof.
  unfold expire_hysteria, revoke_hysteria2_key_system, revoke_found, get_key, get_by_id, kick_best_effort, audit_best_effort, audit, write, sql, now.
  keeps_tac. all: by intros w.
Qed.
#[export] Instance with_hysteria_expiry_revokers others : ExpiryRevokers others -> ExpiryRevokers (with_hysteria_expiry others).
Proof.
  intros [H1 H2]. split.
  - intros [] id; cbn; [apply H1..|apply retires_expire].
  - intros [] id w u w'; cbn; [apply H2..|]. intros Hnd H.
    apply (revocation_inactive env henv (BySystem id None (py "hysteria2_key_revoked")) w w' u Hnd H).
Qed.
End HysteriaExpiry.
