(* ===== verification/ProxyRows.v ===== *)
(** * The table of proxy accesses

    [repositories/proxy_accesses.py]: the statements the proxy services use, over the
    rows that [BotDb] keeps. Payloads are values, as in the key table; a payload
    that is no longer JSON is not modelled, and neither are the statistics. *)

From S2P Require Import Prelude PyText Json AwgConfig VpnKeys BackendHealth AwgService BotDb.
#[local] Open Scope Z_scope.

Definition proxy_in (statuses : list proxy_status) (a : proxy_access) : bool := bool_decide (px_status a ∈ statuses).
Definition has_proxy_id (id : Z) (a : proxy_access) : bool := px_id a =? id.
(** [updated_at], [status], [error] and [reason] of a row; the error is cut at 512
    characters, and an empty one is none. *)
Definition cut_error (error : option str) : option str := option_map (take 512) (given error).
Definition or_else {A} (a b : option A) : option A := match a with Some _ => a | None => b end.
Definition with_proxy_status (s : proxy_status) (now : str) (error reason : option str) (a : proxy_access) : proxy_access :=
  ProxyAccess (px_id a) (px_owner a) (px_username a) (px_type a) s (px_payload a) (px_public_payload a)
    (px_created_at a) now (px_last_shown_at a) (px_revoked_at a) (px_deleted_at a) (px_created_by a)
    (px_revoked_by a) (px_deleted_by a) (or_else reason (px_reason a)) (cut_error error) (px_fingerprint a)
    (px_generation a) (px_activated_at a) (px_last_apply_at a).
Definition activated (now : str) (pl public_pl : option payload) (generation : option Z) (a : proxy_access) : proxy_access :=
  ProxyAccess (px_id a) (px_owner a) (px_username a) (px_type a) ProxyActive (default (px_payload a) pl)
    (default (px_public_payload a) public_pl) (px_created_at a) now (px_last_shown_at a) (px_revoked_at a)
    (px_deleted_at a) (px_created_by a) (px_revoked_by a) (px_deleted_by a) (px_reason a) None (px_fingerprint a)
    (default (px_generation a) generation) (coalesce (px_activated_at a) now) (Some now).
(** [mark_revoked] stamps the last application, [mark_inactive] does not. *)
Definition withdrawn (s : proxy_status) (stamp : bool) (actor : Z) (now : str) (reason : option str) (a : proxy_access)
    : proxy_access :=
  ProxyAccess (px_id a) (px_owner a) (px_username a) (px_type a) s (px_payload a) (px_public_payload a)
    (px_created_at a) now (px_last_shown_at a) (coalesce (px_revoked_at a) now) (px_deleted_at a) (px_created_by a)
    (coalesce (px_revoked_by a) actor) (px_deleted_by a) (or_else reason (px_reason a)) None (px_fingerprint a)
    (px_generation a) (px_activated_at a) (if stamp then Some now else px_last_apply_at a).
Definition erased (actor : Z) (now : str) (reason : option str) (a : proxy_access) : proxy_access :=
  ProxyAccess (px_id a) (px_owner a) (px_username a) (px_type a) ProxyDeleted (px_payload a) (px_public_payload a)
    (px_created_at a) now (px_last_shown_at a) (px_revoked_at a) (coalesce (px_deleted_at a) now) (px_created_by a)
    (px_revoked_by a) (coalesce (px_deleted_by a) actor) (or_else reason (px_reason a)) None (px_fingerprint a)
    (px_generation a) (px_activated_at a) (px_last_apply_at a).
Definition shown (now : str) (a : proxy_access) : proxy_access :=
  ProxyAccess (px_id a) (px_owner a) (px_username a) (px_type a) (px_status a) (px_payload a) (px_public_payload a)
    (px_created_at a) now (Some now) (px_revoked_at a) (px_deleted_at a) (px_created_by a)
    (px_revoked_by a) (px_deleted_by a) (px_reason a) (px_error a) (px_fingerprint a)
    (px_generation a) (px_activated_at a) (px_last_apply_at a).
Definition repaid (now : str) (pl public_pl : payload) (fingerprint : option str) (a : proxy_access) : proxy_access :=
  ProxyAccess (px_id a) (px_owner a) (px_username a) (px_type a) (px_status a) pl public_pl
    (px_created_at a) now (px_last_shown_at a) (px_revoked_at a) (px_deleted_at a) (px_created_by a)
    (px_revoked_by a) (px_deleted_by a) (px_reason a) (px_error a) (or_else fingerprint (px_fingerprint a))
    (px_generation a) (px_activated_at a) (px_last_apply_at a).
(** [json_extract(payload_json, '$.login') = ?] *)
Definition LOGIN : str := py "login".
Definition login_is (login : str) (a : proxy_access) : bool :=
  match dict_get LOGIN (px_payload a) with Some (PText s) => bool_decide (s = login) | _ => false end.
(** [ORDER BY created_at DESC]; among equals SQLite's order is not told, the model's is the
    order of the ids. *)
Definition proxy_newer (a b : proxy_access) : Prop := str_le (px_created_at b) (px_created_at a).
#[export] Instance proxy_newer_dec : RelDecision proxy_newer.
Proof. intros a b. unfold proxy_newer, str_le. apply _. Defined.
Definition proxy_first (a b : proxy_access) : Prop :=
  str_leb (px_created_at a) (px_created_at b)
  && (negb (bool_decide (px_created_at a = px_created_at b)) || (px_id a <=? px_id b)) = true.
#[export] Instance proxy_first_dec : RelDecision proxy_first.
Proof. intros a b. unfold proxy_first. apply _. Defined.

(** What the unique index [idx_proxy_accesses_one_live_per_user_type] demands of the rows. *)
Definition LIVE_STATUSES : list proxy_status := [ProxyPendingApply; ProxyActive; ProxyPendingRevoke].
Definition one_live (rows : list proxy_access) : Prop :=
  NoDup (map (fun a => (px_owner a, px_type a)) (List.filter (proxy_in LIVE_STATUSES) rows)).
#[export] Instance one_live_dec rows : Decision (one_live rows).
Proof. unfold one_live. apply _. Defined.

Section Rows.
Context {X : Type} (env : bot_env).
Abbreviation BM := (M (bot_world X) bot_error) (only parsing).

Definition set_proxies (f : serial proxy_access -> serial proxy_access) (t : bot_tables) : bot_tables :=
  BotTables (bt_users t) (bt_requests t) (bt_trials t) (f (bt_proxies t)) (bt_audit t).
Definition store_proxies (f : serial proxy_access -> serial proxy_access) : BM unit :=
  let! w := get in
  if bool_decide (one_live (sr_rows (f (bt_proxies (bw_tables w))))) then set_tables (set_proxies f) else raise UniqueConflict.
Definition select_proxies {A} (f : list proxy_access -> A) : BM A := select env (fun t => f (sr_rows (bt_proxies t))).
Definition update_proxies (p : proxy_access -> bool) (f : proxy_access -> proxy_access) : BM nat :=
  let! n := select_proxies (fun rows => length (List.filter p rows)) in
  store_proxies (map_rows p f) ;;! ret n.

Definition get_by_id (id : Z) : BM (option proxy_access) := select_proxies (List.find (has_proxy_id id)).
Definition create (owner : Z) (username : option str) (type : proxy_type) (status : proxy_status)
    (pl public_pl : payload) (created_by : Z) (now : str) (fingerprint : option str) (generation : Z) : BM proxy_access :=
  sql env ;;!
  let! w := get in
  store_proxies (append (fun id =>
    ProxyAccess id owner username type status pl public_pl now now None None None created_by None None None None
      fingerprint generation None None)) ;;!
  let! found := get_by_id (sr_seq (bt_proxies (bw_tables w)) + 1) in
  match found with Some a => ret a | None => raise RowLost end.
Definition list_by_owner (owner : Z) (include_deleted : bool) (limit offset : Z) : BM (list proxy_access) :=
  select_proxies (fun rows => take (clamp_limit limit) (drop (clamp_offset offset) (merge_sort proxy_first
    (List.filter (fun a => (px_owner a =? owner) && (include_deleted || negb (proxy_in [ProxyDeleted] a))) rows)))).
Definition find_user_access_by_type_statuses (owner : Z) (type : proxy_type) (statuses : list proxy_status)
    : BM (option proxy_access) :=
  match statuses with
  | [] => ret None
  | _ => select_proxies (List.find (fun a =>
           (px_owner a =? owner) && bool_decide (px_type a = type) && proxy_in statuses a))
  end.
Definition find_by_socks5_login (login : str) : BM (option proxy_access) :=
  select_proxies (fun rows => head (merge_sort proxy_newer (List.filter (fun a =>
    bool_decide (px_type a = SOCKS5) && login_is login a && negb (proxy_in [ProxyDeleted; ProxyInactive] a)) rows))).
Definition find_by_secret_fingerprint (fingerprint : str) : BM (option proxy_access) :=
  select_proxies (fun rows => head (merge_sort proxy_newer (List.filter (fun a =>
    bool_decide (px_type a = MTPROTO) && bool_decide (px_fingerprint a = Some fingerprint)
    && negb (proxy_in [ProxyDeleted; ProxyInactive] a)) rows))).
(** The rows are kept in id order. *)
Definition list_by_type_statuses (type : proxy_type) (statuses : list proxy_status) (limit after_id : Z)
    : BM (list proxy_access) :=
  match statuses with
  | [] => ret []
  | _ => select_proxies (fun rows => take (clamp_limit limit) (List.filter (fun a =>
           bool_decide (px_type a = type) && proxy_in statuses a && (after_id <? px_id a)) rows))
  end.
(** A row in another status is left alone, with a warning. *)
Definition mark_active (id : Z) (now : str) (pl public_pl : option payload) (generation : option Z) : BM unit :=
  transaction env (
    let! current := get_by_id id in
    match current with
    | None => raise RowLost
    | Some _ =>
        let! _ := update_proxies (fun a => has_proxy_id id a && proxy_in [ProxyPendingApply; ProxyApplyFailed] a)
                    (activated now pl public_pl generation) in
        ret tt
    end).
Definition update_payloads (id : Z) (now : str) (pl public_pl : payload) (fingerprint : option str) : BM unit :=
  let! _ := update_proxies (has_proxy_id id) (repaid now pl public_pl fingerprint) in ret tt.
Definition set_status (id : Z) (status : proxy_status) (now : str) (error reason : option str)
    (allowed_from : list proxy_status) : BM unit :=
  match allowed_from with
  | [] => let! _ := update_proxies (has_proxy_id id) (with_proxy_status status now error reason) in ret tt
  | _ =>
      let! n := update_proxies (fun a => has_proxy_id id a && proxy_in allowed_from a)
                  (with_proxy_status status now error reason) in
      if (n =? 0)%nat then raise Concurrent else ret tt
  end.
Definition mark_shown (id : Z) (now : str) : BM unit :=
  let! _ := update_proxies (has_proxy_id id) (shown now) in ret tt.
Definition transition (id : Z) (excluded : list proxy_status) (f : proxy_access -> proxy_access) : BM unit :=
  let! n := update_proxies (fun a => has_proxy_id id a && negb (proxy_in excluded a)) f in
  if (n =? 1)%nat then ret tt else raise ProxyTransition.
Definition mark_revoked (id actor : Z) (now : str) (reason : option str) : BM unit :=
  transition id [ProxyRevoked; ProxyDeleted] (withdrawn ProxyRevoked true actor now reason).
Definition mark_inactive (id actor : Z) (now : str) (reason : option str) : BM unit :=
  transition id [ProxyInactive; ProxyRevoked; ProxyDeleted] (withdrawn ProxyInactive false actor now reason).
Definition mark_deleted (id actor : Z) (now : str) (reason : option str) : BM unit :=
  transition id [ProxyDeleted] (erased actor now reason).
End Rows.
