(* ===== verification/DanteUsers.v ===== *)
(** * The Linux users of the SOCKS5 proxy

    [adapters/dante_users.py]: each SOCKS5 access is a system user whose login bears
    the bot's prefix. The programs that look up and change system users, and the
    privileged helper, are an oracle over the user database; what they are relied
    upon for is the class [LinuxTools]. *)

From S2P Require Import Prelude PyText Json AwgConfig VpnKeys BackendHealth AwgService BotDb.
#[local] Open Scope Z_scope.

(** ** The user database, and what changes it *)

Record linux_user := LinuxUser { lu_password : option str; lu_locked : bool }.
Definition linux_users : Type := gmap str linux_user.
(** Somebody can log in. *)
Definition can_log_in (u : linux_user) : bool := bool_decide (is_Some (lu_password u)) && negb (lu_locked u).

Inductive dante_call :=
  | Getent (login : str) | UserAdd (shell login : str) | ChPasswd (input : str) | PasswdLock (login : str)
  | UserDel (login : str)
  | HelperExists (login : str) | HelperCreate (login : str) | HelperSetPassword (login input : str)
  | HelperLock (login : str) | HelperDelete (login : str).

Record socks_settings := SocksSettings {
  ss_enabled : bool; ss_host : str; ss_port : option Z; ss_prefix : str; ss_shell : str;
  ss_public_name : str; ss_note : str; ss_helper : bool }.
(** [se_run]: the exit code of a command, unless it cannot be started, and what has become
    of the users; [se_text]: the text of an exception; then the two generators. *)
Record socks_env := SocksEnv {
  se_settings : socks_settings; se_run : nat -> dante_call -> linux_users -> option Z * linux_users;
  se_text : bot_error -> str; se_hex : nat -> Z -> str; se_password : nat -> str }.

(** What the proxy services keep outside the database: the system's users, and which
    backends take no changes. *)
Record socks_host := SocksHost { sh_users : linux_users; sh_health : backend_health }.

Definition word_start (c : N) : bool := is_lower c || ((65 <=? c) && (c <=? 90))%N || (c =? 95)%N.
Definition word_char (c : N) : bool := word_start c || is_digit c.
(** [_LOGIN_RE.fullmatch] *)
Definition login_matches (login : str) : bool :=
  match login with c :: r => word_start c && forallb word_char r && (length r <=? 31)%nat | [] => false end.
Definition safe_password_char (c : N) : bool := negb (existsb (N.eqb c) [NEWLINE; 13; 0; COLON]%N).

Section Adapter.
Context {X : Type} `{Part X socks_host} (senv : socks_env).
Abbreviation BM := (M (bot_world X) bot_error) (only parsing).

Definition socks_state : BM socks_host := gets (fun w => part_get (bw_rest w)).
Definition set_host (h : socks_host) : BM unit := modify (fun w =>
  BotWorld (bw_tables w) (bw_keys w) (bw_cleared w) (bw_kicked w) (bw_told w) (part_set h (bw_rest w)) (bw_tick w)).
Definition dante_run (c : dante_call) : BM Z :=
  let! run := ask (se_run senv) in
  let! h := socks_state in
  let '(rc, users) := run c (sh_users h) in
  set_host (SocksHost users (sh_health h)) ;;!
  match rc with Some rc => ret rc | None => raise (Dante NotStarted) end.
Definition pick (direct helper : dante_call) : dante_call := if ss_helper (se_settings senv) then helper else direct.
Definition must_run (c : dante_call) : BM unit :=
  let! rc := dante_run c in if rc =? 0 then ret tt else raise (Dante (ToolFailed rc)).

Definition ensure_managed_login (login : str) : BM unit :=
  if negb (startswith (ss_prefix (se_settings senv)) login) then raise (Dante NotManaged)
  else if login_matches login then ret tt else raise (Dante BadLogin).
Definition ensure_safe_password (password : str) : BM unit :=
  if is_empty password then raise (Dante BadPassword)
  else if forallb safe_password_char password then ret tt else raise (Dante BadPassword).
(** [DanteUserAdapter.exists] *)
Definition user_exists (login : str) : BM bool :=
  ensure_managed_login login ;;!
  let! rc := dante_run (pick (Getent login) (HelperExists login)) in
  if rc =? 0 then ret true else if rc =? 2 then ret false else raise (Dante (ToolFailed rc)).
Definition create_user (login password : str) : BM unit :=
  ensure_managed_login login ;;!
  ensure_safe_password password ;;!
  let! there := user_exists login in
  if there : bool then raise (Dante LoginTaken)
  else
    must_run (pick (UserAdd (ss_shell (se_settings senv)) login) (HelperCreate login)) ;;!
    must_run (pick (ChPasswd (login ++ COLON :: password ++ [NEWLINE])) (HelperSetPassword login (password ++ [NEWLINE]))).
Definition lock_user (login : str) : BM unit :=
  ensure_managed_login login ;;!
  let! there := user_exists login in
  if negb there then raise (Dante DanteUserNotFound)
  else must_run (pick (PasswdLock login) (HelperLock login)).
Definition delete_user (login : str) : BM unit :=
  ensure_managed_login login ;;!
  let! there := user_exists login in
  if negb there then ret tt else must_run (pick (UserDel login) (HelperDelete login)).
End Adapter.

(** ** What the programs are relied upon for *)

(** [chpasswd] reads a [login:password] record per line; an empty line concerns nobody. *)
Definition chpasswd_records (input : str) : list (str * option str) :=
  map (partition_char COLON) (List.filter (fun l => negb (is_empty l)) (split_char NEWLINE input)).
(** The users a command may have changed, however it ended. *)
Definition concerns (c : dante_call) (login : str) : Prop :=
  match c with
  | Getent _ | HelperExists _ => False
  | UserAdd _ l | PasswdLock l | UserDel l | HelperCreate l | HelperSetPassword l _ | HelperLock l | HelperDelete l => login = l
  | ChPasswd input => login ∈ map fst (chpasswd_records input)
  end.
(** The manual pages of [getent], [useradd], [chpasswd], [passwd] and [userdel], and what
    the helper says of its own actions; a command that fails may have done anything
    to the users it concerns. *)
Class LinuxTools (senv : socks_env) : Prop := {
  tools_touch n c users login : ~ concerns c login -> (se_run senv n c users).2 !! login = users !! login;
  tools_found n c users login : c = Getent login \/ c = HelperExists login ->
    match (se_run senv n c users).1 with
    | Some rc => (rc = 0 -> is_Some (users !! login)) /\ (rc = 2 -> users !! login = None)
    | None => True
    end;
  tools_password n login input password users : is_Some (users !! login) ->
    chpasswd_records input = [(login, Some password)] -> (se_run senv n (ChPasswd input) users).1 = Some 0 ->
    (se_run senv n (ChPasswd input) users).2 !! login = Some (LinuxUser (Some password) false);
  tools_helper_password n login password users : is_Some (users !! login) ->
    (se_run senv n (HelperSetPassword login (password ++ [NEWLINE])) users).1 = Some 0 ->
    (se_run senv n (HelperSetPassword login (password ++ [NEWLINE])) users).2 !! login = Some (LinuxUser (Some password) false);
  tools_added n c users login : (exists shell, c = UserAdd shell login) \/ c = HelperCreate login ->
    (se_run senv n c users).1 = Some 0 -> is_Some ((se_run senv n c users).2 !! login);
  tools_locked n c users login : c = PasswdLock login \/ c = HelperLock login -> (se_run senv n c users).1 = Some 0 ->
    forall u, (se_run senv n c users).2 !! login = Some u -> can_log_in u = false;
  tools_deleted n c users login : c = UserDel login \/ c = HelperDelete login -> (se_run senv n c users).1 = Some 0 ->
    (se_run senv n c users).2 !! login = None }.
