(* ===== verification/Socks5.v ===== *)
(** * SOCKS5 proxy access

    [services/socks5.py]: an access is a row of [ProxyRows] and a system user of
    [DanteUsers]; issuing creates the two together or takes the user away again,
    revoking locks it, deleting removes it, and the pass at start-up finishes what a
    crash has left half done. *)

From S2P Require Import Prelude PyText Json IsoTime AwgConfig VpnKeys BackendHealth AwgService BotDb Accounts DanteUsers ProxyRows.
#[local] Open Scope Z_scope.

Definition SOCKS5_STARTUP_RECONCILE_STATUSES : list proxy_status :=
  [ProxyPendingApply; ProxyApplyFailed; ProxyPendingRevoke; ProxyPendingDelete; ProxyDeleteFailed].
(** [str(payload.get("login") or "")] *)
Definition login_of (pl : payload) : str :=
  match dict_get LOGIN pl with
  | Some (PText s) => s
  | Some (PNumber n) => if n =? 0 then [] else show_Z n
  | Some PNull | None => []
  end.
(** [urllib.parse.quote(s, safe='')], of a text without lone surrogates. *)
Definition unreserved (b : N) : bool := word_char b || (b =? 45)%N || (b =? 46)%N || (b =? 126)%N.
Definition hex_upper (d : N) : N := if (d <? 10)%N then (48 + d)%N else (55 + d)%N.
Definition quote (s : str) : str :=
  utf8_encode s ≫= (fun b => if unreserved b then [b] else [37; hex_upper (b / 16); hex_upper (b mod 16)]%N).
Definition redact_value (text value : str) : str :=
  match value with [] => text | _ => replace_from value (py "***") 0 text end.
Definition or_id (a : option Z) (b : Z) : Z := match a with Some n => if n =? 0 then b else n | None => b end.
Record reconcile_summary := ReconcileSummary { rs_checked : Z; rs_recovered : Z; rs_failed : Z }.

Section Socks5.
Context {X : Type} `{Part X socks_host} (env : bot_env) (senv : socks_env).
Abbreviation BM := (M (bot_world X) bot_error) (only parsing).
Abbreviation settings := (se_settings senv) (only parsing).

Definition ensure_enabled : BM unit :=
  if negb (ss_enabled settings) then raise (Refused SocksOff)
  else if is_empty (ss_host settings) || bool_decide (ss_port settings = None) then raise (Refused SocksNotConfigured)
  else ret tt.
Definition require_mutation : BM unit :=
  let! h := socks_state in
  match require_mutation_allowed Socks5 (sh_health h) with Ok _ => ret tt | Err e => raise (Unhealthy e) end.
Definition degrade (reason : str) : BM unit :=
  let! h := socks_state in set_host (SocksHost (sh_users h) (mark_degraded Socks5 reason (sh_health h))).
Definition ensure_can_issue (actor owner : Z) : BM unit :=
  let! a := require_approved_or_admin env actor in
  let! o := require_approved_or_admin env owner in
  if negb (bool_decide (ac_role a = SUPERADMIN)) && negb (actor =? owner) then raise (Denied ProxyForOther)
  else if negb (bool_decide (ac_role o ∈ [SUPERADMIN; APPROVED_USER])) then raise (Denied NoProxyOwnerAccess)
  else ret tt.
Definition get_access (id : Z) : BM proxy_access :=
  let! found := ProxyRows.get_by_id env id in
  match found with Some a => ret a | None => raise (Missing NoProxy) end.
Definition active_access (owner : Z) : BM (option proxy_access) :=
  find_user_access_by_type_statuses env owner SOCKS5 [ProxyActive].
Definition socks_audit (actor : option Z) (action : str) (id : Z) : BM unit :=
  audit_best_effort env actor action (OnProxy id) 0.
Definition mark_access_shown (a : proxy_access) (actor : Z) : BM unit :=
  let! t := now env in
  ProxyRows.mark_shown env (px_id a) t ;;!
  socks_audit (Some actor) (py "socks5_proxy_shown") (px_id a).
Definition port_of : BM Z :=
  match ss_port settings with Some p => ret p | None => raise (Refused PortUnset) end.

(** [_unique_login] *)
Fixpoint try_logins (n : nat) (stem : str) (suffix_bytes : Z) : BM str :=
  match n with
  | O => raise (Refused NoFreeLogin)
  | S n' =>
      let! hex := ask (se_hex senv) in
      let login := stem ++ hex suffix_bytes in
      let! row := find_by_socks5_login env login in
      match row with
      | Some _ => try_logins n' stem suffix_bytes
      | None =>
          let! there := user_exists senv login in
          if there : bool then try_logins n' stem suffix_bytes else ret login
      end
  end.
Definition unique_login (owner : Z) : BM str :=
  let prefix := ss_prefix settings in
  let max_suffix_len := 32 - Z.of_nat (length prefix) - Z.of_nat (length (show_Z owner)) - 1 in
  if max_suffix_len <? 4 then raise (Refused PrefixTooLong)
  else try_logins 10 (prefix ++ show_Z owner ++ [95%N]) (Z.min 4 (max_suffix_len / 2)).
Definition socks_payload (port : Z) (login password : str) : payload :=
  [(py "type", PText (py "socks5")); (py "host", PText (ss_host settings)); (py "port", PNumber port);
   (LOGIN, PText login); (py "password", PText password);
   (py "url", PText (py "socks5://" ++ quote login ++ COLON :: quote password ++ py "@" ++ ss_host settings ++ COLON :: show_Z port));
   (py "public_name", PText (ss_public_name settings)); (py "note", PText (ss_note settings))].
Definition socks_public_payload (port : Z) (login : str) : payload :=
  [(py "type", PText (py "socks5")); (py "host", PText (ss_host settings)); (py "port", PNumber port);
   (LOGIN, PText login); (py "public_name", PText (ss_public_name settings)); (py "note", PText (ss_note settings))].

(** ** Issuing *)

Definition DISABLED_TEXT : str := py "db mark_active failed after server-side apply; server-side SOCKS5 user was disabled".
(** [_compensate_failed_create_after_apply]: deleted, or else locked; when neither works the backend is degraded. *)
Definition compensate (actor id : Z) (login : str) : BM unit :=
  let! deleted := attempt (delete_user senv login) in
  let! disabled := (match deleted with Ok _ => ret true | Err _ => let! locked := attempt (lock_user senv login) in ret (is_ok locked) end) in
  if disabled : bool then
    let! _ := attempt (let! t := now env in ProxyRows.set_status env id ProxyApplyFailed t (Some DISABLED_TEXT) None []) in
    socks_audit (Some actor) (py "socks5_create_compensated_after_db_failure") id
  else
    degrade (py "post-apply mark_active failed and compensation failed") ;;!
    socks_audit (Some actor) (py "socks5_create_compensation_failed") id.
Definition apply_access (actor owner id : Z) (login password : str) : BM unit :=
  catch (ensure_can_issue actor owner ;;! create_user senv login password)
    (fun exc =>
       let text := se_text senv exc in
       let error := redact_value text password in
       let! t := now env in
       ProxyRows.set_status env id ProxyApplyFailed t (Some error) None [] ;;!
       socks_audit (Some actor) (py "socks5_proxy_apply_failed") id ;;!
       if bool_decide (error = text) then raise exc else raise (Refused ApplyRedacted)).
Definition activate_access (actor id : Z) (login : str) (pl public_pl : payload) : BM unit :=
  catch (let! t := now env in ProxyRows.mark_active env id t (Some pl) (Some public_pl) None)
    (fun exc => compensate actor id login ;;! raise exc).
Definition issue_new (actor : Z) (p : profile) : BM proxy_access :=
  require_mutation ;;!
  ensure_can_issue actor (pf_id p) ;;!
  let! login := unique_login (pf_id p) in
  let! password := ask (se_password senv) in
  let! port := port_of in
  let pl := socks_payload port login password in
  let public_pl := socks_public_payload port login in
  let! t := now env in
  let! a := ProxyRows.create env (pf_id p) (pf_username p) SOCKS5 ProxyPendingApply pl public_pl actor t None 0 in
  apply_access actor (pf_id p) (px_id a) login password ;;!
  activate_access actor (px_id a) login pl public_pl ;;!
  socks_audit (Some actor) (py "socks5_proxy_created") (px_id a) ;;!
  let! active := get_access (px_id a) in
  mark_access_shown active actor ;;!
  get_access (px_id a).
Definition issue_socks5_proxy (actor : Z) (p : profile) : BM proxy_access :=
  ensure_enabled ;;!
  require_mutation ;;!
  ensure_can_issue actor (pf_id p) ;;!
  let! existing := active_access (pf_id p) in
  match existing with
  | Some a => mark_access_shown a actor ;;! get_access (px_id a)
  | None => issue_new actor p
  end.
Definition get_socks5_proxy_config (actor : Z) : BM proxy_access :=
  let! _ := require_approved_or_admin env actor in
  let! found := active_access actor in
  match found with
  | None => raise (Missing NoSocks)
  | Some a => mark_access_shown a actor ;;! get_access (px_id a)
  end.
Definition list_user_proxy_accesses (actor : Z) : BM (list proxy_access) :=
  let! _ := require_approved_or_admin env actor in ProxyRows.list_by_owner env actor false 50 0.

(** ** Revoking and deleting *)

Definition require_socks (id : Z) : BM unit :=
  let! a := get_access id in
  if bool_decide (px_type a = SOCKS5) then ret tt else raise (Refused NotSocks).
(** The login of a row, when it has one. *)
Definition with_login (login : str) (m : str -> BM unit) : BM unit := match login with [] => ret tt | _ => m login end.
Definition ignore_not_found (exc : bot_error) : BM unit :=
  match exc with Dante DanteUserNotFound => ret tt | _ => raise exc end.
Definition revoke_socks5 (actor id : Z) (reason : option str) : BM proxy_access :=
  require_socks id ;;!
  let! a := get_access id in
  if proxy_in [ProxyRevoked; ProxyInactive; ProxyDeleted] a then ret a
  else
    require_mutation ;;!
    let previous_status := px_status a in
    let! t := now env in
    ProxyRows.set_status env id ProxyPendingRevoke t None reason [] ;;!
    let login := login_of (px_payload a) in
    catch (catch (with_login login (lock_user senv)) ignore_not_found)
      (fun exc =>
         let! t := now env in
         ProxyRows.set_status env id previous_status t (Some (se_text senv exc)) reason [] ;;!
         socks_audit (Some actor) (py "socks5_proxy_revoke_failed") id ;;!
         raise exc) ;;!
    let! t := now env in
    ProxyRows.mark_revoked env id actor t reason ;;!
    socks_audit (Some actor) (py "socks5_proxy_revoked") id ;;!
    get_access id.
Definition revoke_socks5_proxy (actor id : Z) (reason : option str) : BM proxy_access :=
  let! _ := require_superadmin env actor in revoke_socks5 actor id reason.
Definition revoke_socks5_proxy_system (actor id : Z) (reason : option str) : BM proxy_access :=
  revoke_socks5 actor id reason.
Definition delete_socks5_proxy (actor id : Z) (reason : option str) : BM proxy_access :=
  let! _ := require_superadmin env actor in
  require_socks id ;;!
  let! a := get_access id in
  if proxy_in [ProxyDeleted] a then ret a
  else
    require_mutation ;;!
    let! t := now env in
    ProxyRows.set_status env id ProxyPendingDelete t None reason [] ;;!
    let login := login_of (px_payload a) in
    catch (with_login login (delete_user senv))
      (fun exc =>
         let! t := now env in
         ProxyRows.set_status env id ProxyDeleteFailed t (Some (se_text senv exc)) reason [] ;;!
         socks_audit (Some actor) (py "socks5_proxy_delete_failed") id ;;!
         raise exc) ;;!
    let! t := now env in
    ProxyRows.mark_deleted env id actor t reason ;;!
    socks_audit (Some actor) (py "socks5_proxy_deleted") id ;;!
    get_access id.

(** ** The pass at start-up *)

Definition MISSING_TEXT : str := py "startup reconciliation: Linux user not found".
Definition recover_apply (a : proxy_access) (there : bool) : BM bool :=
  if there then
    let! t := now env in
    ProxyRows.mark_active env (px_id a) t (Some (px_payload a)) (Some (px_public_payload a)) None ;;!
    socks_audit None (py "socks5_startup_apply_recovered") (px_id a) ;;!
    ret true
  else
    (if proxy_in [ProxyApplyFailed] a then ret tt
     else let! t := now env in ProxyRows.set_status env (px_id a) ProxyApplyFailed t (Some MISSING_TEXT) None []) ;;!
    ret (negb (proxy_in [ProxyApplyFailed] a)).
Definition finish_revoke (a : proxy_access) (login : str) (there : bool) : BM bool :=
  (if there then catch (lock_user senv login) ignore_not_found else ret tt) ;;!
  let! t := now env in
  ProxyRows.mark_revoked env (px_id a) (or_id (px_revoked_by a) (px_created_by a)) t (px_reason a) ;;!
  socks_audit None (py "socks5_startup_revoke_completed") (px_id a) ;;!
  ret true.
Definition finish_delete (a : proxy_access) (login : str) (there : bool) : BM bool :=
  (if there then catch (delete_user senv login) ignore_not_found else ret tt) ;;!
  let! t := now env in
  ProxyRows.mark_deleted env (px_id a) (or_id (px_deleted_by a) (or_id (px_revoked_by a) (px_created_by a))) t (px_reason a) ;;!
  socks_audit None (py "socks5_startup_delete_completed") (px_id a) ;;!
  ret true.
(** [_startup_reconcile_access]: whether anything was recovered. *)
Definition startup_reconcile_access (a : proxy_access) : BM bool :=
  let login := login_of (px_payload a) in
  match login with
  | [] => ret false
  | _ =>
      let! there := user_exists senv login in
      if proxy_in [ProxyPendingApply; ProxyApplyFailed] a then recover_apply a there
      else if proxy_in [ProxyPendingRevoke] a then finish_revoke a login there
      else if proxy_in [ProxyPendingDelete; ProxyDeleteFailed] a then finish_delete a login there
      else ret false
  end.
Fixpoint reconcile_accesses (batch : list proxy_access) (s : reconcile_summary) : BM reconcile_summary :=
  match batch with
  | [] => ret s
  | a :: rest =>
      let! outcome := attempt (startup_reconcile_access a) in
      reconcile_accesses rest
        (match outcome with
         | Ok true => ReconcileSummary (rs_checked s + 1) (rs_recovered s + 1) (rs_failed s)
         | Ok false => ReconcileSummary (rs_checked s + 1) (rs_recovered s) (rs_failed s)
         | Err _ => ReconcileSummary (rs_checked s + 1) (rs_recovered s) (rs_failed s + 1)
         end)
  end.
Fixpoint reconcile_from (fuel : nat) (last_id : Z) (s : reconcile_summary) : BM reconcile_summary :=
  match fuel with
  | O => raise Unfinished
  | S fuel' =>
      let! batch := list_by_type_statuses env SOCKS5 SOCKS5_STARTUP_RECONCILE_STATUSES 500 last_id in
      match batch with
      | [] => ret s
      | _ =>
          let! s' := reconcile_accesses batch s in
          reconcile_from fuel' (match last batch with Some a => px_id a | None => last_id end) s'
      end
  end.
(** One turn more than there are rows: each turn but the last goes beyond the id of one more. *)
Definition reconcile_socks5_state : BM reconcile_summary :=
  let! turns := gets (fun w => S (length (sr_rows (bt_proxies (bw_tables w))))) in
  reconcile_from turns 0 (ReconcileSummary 0 0 0).
End Socks5.
