(* ===== verification/ProxySafety.v ===== *)
(** * What the SOCKS5 service promises

    A system user somebody can log in as belongs to a row that says access may exist,
    whatever fails; an access that is handed out works; one that is withdrawn no
    longer does. *)

From S2P Require Import Prelude PyText Json IsoTime Triples AwgConfig VpnKeys BackendHealth AwgService KeyRows BotDb Accounts AccountSafety BlockSafety DanteUsers ProxyRows Socks5.
#[local] Open Scope Z_scope.

(** ** Rows and users *)

Definition row_login (a : proxy_access) : str := login_of (px_payload a).
Definition may_exist (a : proxy_access) : bool := negb (proxy_in [ProxyRevoked; ProxyInactive; ProxyDeleted] a).
Definition proxy_rows {X} (w : bot_world X) : list proxy_access := sr_rows (bt_proxies (bw_tables w)).
Definition system_users {X} `{Part X socks_host} (w : bot_world X) : linux_users := sh_users (part_get (bw_rest w)).
(** A login of the bot's. *)
Definition managed (senv : socks_env) (login : str) : bool :=
  startswith (ss_prefix (se_settings senv)) login && login_matches login.
Definition covers (rows : list proxy_access) (id : Z) (login : str) : Prop :=
  exists a, a ∈ rows /\ px_id a = id /\ px_type a = SOCKS5 /\ row_login a = login /\ may_exist a = true.
Definition shut (users : linux_users) (login : str) : Prop := forall u, users !! login = Some u -> can_log_in u = false.
Definition proxy_ids_ok (t : serial proxy_access) : Prop :=
  StronglySorted Z.lt (map px_id (sr_rows t)) /\ Forall (fun a => px_id a <= sr_seq t) (sr_rows t).
(** Whoever can log in under the bot's prefix has a row; the other users of the system
    are as they were in [before]. *)
Definition accounted {X} `{Part X socks_host} (senv : socks_env) (before : linux_users) (w : bot_world X) : Prop :=
  proxy_ids_ok (bt_proxies (bw_tables w))
  /\ (forall login u, managed senv login = true -> system_users w !! login = Some u -> can_log_in u = true ->
        exists id, covers (proxy_rows w) id login)
  /\ (forall login, managed senv login = false -> system_users w !! login = before !! login).

(** ** The text [chpasswd] is given *)

Lemma word_no c d : word_char c = true -> word_char d = false -> c <> d.
Proof. congruence. Qed.
Lemma login_words login : login_matches login = true -> Forall (fun c => word_char c = true) login.
Proof.
  destruct login as [|c r]; [done|]. cbn. intros H. bool_prop. constructor; [unfold word_char; by rewrite H|].
  apply Forall_elem. intros x Hx%list_elem_of_In. by apply (proj1 (forallb_forall _ _) H1).
Qed.
Lemma words_without l d : Forall (fun c => word_char c = true) l -> word_char d = false -> d ∉ l.
Proof. intros Hl Hd Hin. rewrite Forall_elem in Hl. specialize (Hl _ Hin). congruence. Qed.
Lemma chpasswd_one login password : login_matches login = true -> forallb safe_password_char password = true ->
  chpasswd_records (login ++ COLON :: password ++ [NEWLINE]) = [(login, Some password)].
Proof.
  intros Hl%login_words Hp. unfold chpasswd_records.
  assert (NEWLINE ∉ login ++ COLON :: password) as Hn.
  { rewrite elem_of_app, elem_of_cons. intros [H|[H|H]]; [by apply (words_without _ _ Hl) in H|done|].
    rewrite forallb_forall in Hp. apply list_elem_of_In in H. specialize (Hp _ H). done. }
  assert (login ++ COLON :: password ++ [NEWLINE] = (login ++ COLON :: password) ++ NEWLINE :: []) as ->
    by (rewrite <- app_assoc; done).
  rewrite split_char_app by done. cbn [split_char].
  change (List.filter (fun l => negb (is_empty l)) ((login ++ COLON :: password) :: [[]]))
    with (if negb (is_empty (login ++ COLON :: password)) then [login ++ COLON :: password] else []).
  assert (is_empty (login ++ COLON :: password) = false) as -> by (by destruct login). cbn.
  rewrite partition_char_app; [done|]. by apply (words_without _ _ Hl).
Qed.

Section Service.
Context {X : Type} `{HP : Part X socks_host} (env : bot_env) (senv : socks_env).
Implicit Types w : bot_world X.
Abbreviation BM := (M (bot_world X) bot_error) (only parsing).

(** ** What stays where it is *)

(** The adapter touches no table. *)
Section Tables.
Context (R : bot_world X -> bot_world X -> Prop) `{!PreOrder R} (HR : about_tables R).
Lemma tables_dante c : keeps R (dante_run senv c).
Proof using HR.
  intros w. unfold dante_run, bind, ask, socks_state, gets, set_host, modify, ret, raise. cbn.
  destruct (se_run senv _ c _) as [[rc|] us]; cbn; by apply HR.
Qed.
#[local] Hint Resolve tables_dante : keeps.
Lemma tables_exists login : keeps R (user_exists senv login).
Proof using PreOrder0 HR. unfold user_exists, ensure_managed_login. keeps_tac. Qed.
#[local] Hint Resolve tables_exists : keeps.
Lemma tables_create login password : keeps R (create_user senv login password).
Proof using PreOrder0 HR. unfold create_user, ensure_managed_login, ensure_safe_password, must_run. keeps_tac. Qed.
Lemma tables_lock login : keeps R (lock_user senv login).
Proof using PreOrder0 HR. unfold lock_user, ensure_managed_login, must_run. keeps_tac. Qed.
Lemma tables_delete login : keeps R (delete_user senv login).
Proof using PreOrder0 HR. unfold delete_user, ensure_managed_login, must_run. keeps_tac. Qed.
End Tables.

(** What only reads, and writes the audit, leaves the accesses and the users alone. *)
Definition unmoved w w' : Prop := bt_proxies (bw_tables w') = bt_proxies (bw_tables w) /\ system_users w' = system_users w.
#[export] Instance unmoved_pre : PreOrder unmoved.
Proof. split; [by intros w|]. intros a b c [] []. split; congruence. Qed.
Lemma unmoved_ask {A} (f : nat -> A) : keeps unmoved (ask (X := X) f).
Proof. by intros w. Qed.
Lemma unmoved_get : keeps unmoved (get (S := bot_world X) (E := bot_error)).
Proof. by intros w. Qed.
Lemma unmoved_gets {A} (f : bot_world X -> A) : keeps unmoved (gets (E := bot_error) f).
Proof. by intros w. Qed.
Lemma unmoved_audit_table f : keeps unmoved (set_tables (X := X) (set_audit f)).
Proof. by intros w. Qed.
#[local] Hint Resolve unmoved_ask unmoved_get unmoved_gets unmoved_audit_table : keeps.
Lemma unmoved_sql : keeps unmoved (sql (X := X) env).
Proof. unfold sql. keeps_tac. Qed.
Lemma unmoved_now : keeps unmoved (now (X := X) env).
Proof. apply unmoved_ask. Qed.
#[local] Hint Resolve unmoved_sql unmoved_now : keeps.
Lemma unmoved_select {A} (f : bot_tables -> A) : keeps unmoved (select (X := X) env f).
Proof. unfold select. keeps_tac. Qed.
#[local] Hint Resolve unmoved_select : keeps.
Lemma unmoved_proxies {A} (f : list proxy_access -> A) : keeps unmoved (select_proxies (X := X) env f).
Proof. apply unmoved_select. Qed.
Lemma unmoved_audit a b id : keeps unmoved (socks_audit (X := X) env a b id).
Proof. unfold socks_audit, audit_best_effort, audit, write. keeps_tac. Qed.
Lemma unmoved_user id : keeps unmoved (get_user (X := X) env id).
Proof. unfold get_user, user_by_id. keeps_tac. Qed.
#[local] Hint Resolve unmoved_proxies unmoved_audit unmoved_user : keeps.
Lemma unmoved_approved id : keeps unmoved (require_approved_or_admin (X := X) env id).
Proof. unfold require_approved_or_admin. keeps_tac. Qed.
Lemma unmoved_superadmin id : keeps unmoved (require_superadmin (X := X) env id).
Proof. unfold require_superadmin. keeps_tac. Qed.
#[local] Hint Resolve unmoved_approved unmoved_superadmin : keeps.
Lemma unmoved_can_issue a o : keeps unmoved (ensure_can_issue (X := X) env a o).
Proof. unfold ensure_can_issue. keeps_tac. Qed.
Lemma unmoved_access id : keeps unmoved (get_access (X := X) env id).
Proof. unfold get_access, get_by_id. keeps_tac. Qed.
Lemma unmoved_mutation : keeps unmoved (require_mutation (X := X)).
Proof. unfold require_mutation, socks_state. keeps_tac. Qed.
Lemma unmoved_enabled : keeps unmoved (ensure_enabled (X := X) senv).
Proof. unfold ensure_enabled. keeps_tac. Qed.
Lemma unmoved_active owner : keeps unmoved (active_access (X := X) env owner).
Proof. unfold active_access, find_user_access_by_type_statuses. keeps_tac. Qed.
Lemma unmoved_port : keeps unmoved (port_of (X := X) senv).
Proof. unfold port_of. keeps_tac. Qed.
#[local] Hint Resolve unmoved_can_issue unmoved_access unmoved_mutation unmoved_enabled unmoved_active unmoved_port : keeps.
Lemma unmoved_socks id : keeps unmoved (require_socks (X := X) env id).
Proof. unfold require_socks. keeps_tac. Qed.
#[local] Hint Resolve unmoved_socks : keeps.

Context `{!LinuxTools senv} (before : linux_users).
Abbreviation ok w := (accounted senv before w) (only parsing).
(** With a row that covers a login, whatever is done to the user of that login is
    accounted for. *)
Definition held (id : Z) (login : str) w : Prop := accounted senv before w /\ covers (proxy_rows w) id login.
Lemma ok_unmoved w w' : unmoved w w' -> ok w -> ok w'.
Proof.
  intros [H1 H2] Hw. unfold accounted, proxy_rows in *. rewrite H1, H2. exact Hw.
Qed.
Lemma held_unmoved id login w w' : unmoved w w' -> held id login w -> held id login w'.
Proof. intros H [Hw Hc]. split; [by eapply ok_unmoved|]. unfold proxy_rows in *. by rewrite (proj1 H). Qed.

(** ** The adapter *)

Lemma dante_run_inv c w r w' : dante_run senv c w = (r, w') ->
  bt_proxies (bw_tables w') = bt_proxies (bw_tables w)
  /\ (forall l, ~ concerns c l -> system_users w' !! l = system_users w !! l)
  /\ let run := se_run senv (bw_tick w) c (system_users w) in
     system_users w' = run.2 /\ forall rc, r = Ok rc -> run.1 = Some rc.
Proof using LinuxTools0.
  unfold dante_run, bind, ask, socks_state, gets, set_host, modify, ret, raise, system_users. cbn.
  pose proof (tools_touch (bw_tick w) c (sh_users (part_get (bw_rest w)))) as Ht.
  destruct (se_run senv (bw_tick w) c _) as [[rc|] us] eqn:E; cbn in *; intros [= <- <-]; cbn; rewrite part_get_set; cbn;
    (split; [done|]); (split; [exact Ht|]); (split; [done|]); intros ? [= <-]; done.
Qed.
Definition concerns_only (c : dante_call) (login : str) : Prop := forall l, concerns c l -> l = login.
(** A command that concerns one covered user. *)
Lemma held_dante c id login w r w' : managed senv login = true -> concerns_only c login ->
  dante_run senv c w = (r, w') -> held id login w -> held id login w'.
Proof using LinuxTools0.
  intros Hm Hc (Hp & Ht & _)%dante_run_inv [(Hi & Ha & Hf) Hcov]. unfold held, accounted, proxy_rows in *. rewrite Hp.
  split; [|done]. split; [done|]. split.
  - intros l u Hl Hu Hus. destruct (decide (l = login)) as [->|Hne]; [by exists id|].
    rewrite Ht in Hu by (intros H; by apply Hne, Hc). by eapply Ha.
  - intros l Hl. rewrite Ht; [by apply Hf|]. intros H. apply Hc in H. congruence.
Qed.
Lemma unmoved_dante c : (forall l, ~ concerns c l) -> keeps unmoved (dante_run senv c).
Proof using LinuxTools0.
  intros Hc w. destruct (dante_run senv c w) as [r w'] eqn:E. apply dante_run_inv in E as (Hp & Ht & _).
  split; [done|]. apply map_eq. intros l. by apply Ht.
Qed.
Lemma dante_not_started c w e w' : dante_run senv c w = (Err e, w') -> e = Dante NotStarted.
Proof.
  unfold dante_run, bind, ask, socks_state, gets, set_host, modify, ret, raise. cbn.
  destruct (se_run senv _ c _) as [[|] ?]; cbn; [done|]. by intros [= <-].
Qed.
Lemma managed_run login w : ensure_managed_login senv login w = (if managed senv login then Ok tt else Err (if startswith (ss_prefix (se_settings senv)) login then Dante BadLogin else Dante NotManaged), w).
Proof. unfold ensure_managed_login, managed. destruct (startswith _ _); cbn; [|done]. by destruct (login_matches login). Qed.
Lemma exists_run login w r w' : user_exists senv login w = (r, w') -> unmoved w w'
  /\ match r with
     | Ok true => is_Some (system_users w !! login) /\ managed senv login = true
     | Ok false => system_users w !! login = None /\ managed senv login = true
     | Err e => e <> Dante DanteUserNotFound
     end.
Proof using LinuxTools0.
  unfold user_exists. intros [([] & w1 & H1 & E)|(e & H1 & ->)]%bind_inv; rewrite managed_run in H1; destruct (managed senv login); try done.
  2:{ injection H1 as <- <-. split; [done|]. by case_match. }
  injection H1 as <-. set (c := pick senv (Getent login) (HelperExists login)) in E.
  assert (c = Getent login \/ c = HelperExists login) as Hc by (unfold c, pick; case_match; auto).
  assert (forall l, ~ concerns c l) as Hn by (intros l; destruct Hc as [Hc|Hc]; rewrite Hc; by intros []).
  apply bind_inv in E as [(rc & w1 & H1 & E)|(e & H1 & ->)]; pose proof (unmoved_dante c Hn w) as Hu; rewrite H1 in Hu; cbn in Hu.
  2:{ split; [done|]. by apply dante_not_started in H1 as ->. }
  apply dante_run_inv in H1 as (_ & _ & _ & Hrc). specialize (Hrc _ eq_refl).
  pose proof (tools_found (bw_tick w) c (system_users w) login Hc) as Hf. rewrite Hrc in Hf. destruct Hf as [H0 H2].
  destruct (rc =? 0) eqn:E0; bool_prop; [injection E as <- <-; split; [done|]; auto|].
  destruct (rc =? 2) eqn:E2; bool_prop; injection E as <- <-; split; auto.
Qed.
Lemma unmoved_exists login : keeps unmoved (user_exists senv login).
Proof using LinuxTools0. intros w. destruct (user_exists senv login w) as [r w'] eqn:E. by apply exists_run in E as [? _]. Qed.

(** A command that has to succeed, on the user of a covered login. *)
Lemma must_run_inv c id login w r w' : managed senv login = true -> concerns_only c login -> must_run senv c w = (r, w') ->
  held id login w -> held id login w'
  /\ (r = Ok tt -> (se_run senv (bw_tick w) c (system_users w)).1 = Some 0
                  /\ system_users w' = (se_run senv (bw_tick w) c (system_users w)).2)
  /\ r <> Err (Dante DanteUserNotFound).
Proof using LinuxTools0.
  intros Hm Hc. unfold must_run. intros [(rc & w1 & H1 & E)|(e & H1 & ->)]%bind_inv Hh; pose proof (held_dante _ _ _ _ _ _ Hm Hc H1 Hh) as Hh'.
  - assert (w' = w1) as -> by (by destruct (rc =? 0); injection E as _ <-). split; [done|].
    apply dante_run_inv in H1 as (_ & _ & Hu & Hrc). specialize (Hrc _ eq_refl).
    destruct (rc =? 0) eqn:E0; bool_prop; injection E as <-; [|done]. subst rc. auto.
  - split; [done|]. split; [done|]. by apply dante_not_started in H1 as ->.
Qed.
Lemma lock_run id login w r w' : lock_user senv login w = (r, w') -> held id login w ->
  held id login w' /\ (r = Ok tt \/ r = Err (Dante DanteUserNotFound) -> shut (system_users w') login).
Proof using LinuxTools0.
  unfold lock_user. intros [([] & w1 & H1 & E)|(e & H1 & ->)]%bind_inv Hh; rewrite managed_run in H1; destruct (managed senv login) eqn:Hm; try done.
  2:{ injection H1 as <- <-. split; [done|]. by case_match; intros [|]. }
  injection H1 as <-. apply bind_inv in E as [(b & w1 & [Hu Hb]%exists_run & E)|(e & [Hu He]%exists_run & ->)];
    pose proof (held_unmoved _ _ _ _ Hu Hh) as Hh1.
  2:{ split; [done|]. intros [?|[= ->]]; [done|]. by destruct He. }
  destruct b; cbn in E.
  - set (c := pick senv (PasswdLock login) (HelperLock login)) in E.
    assert (c = PasswdLock login \/ c = HelperLock login) as Hc by (unfold c, pick; case_match; auto).
    apply (must_run_inv _ id login) in E as (Hh' & Hr & He); [|done|destruct Hc as [Hc|Hc]; rewrite Hc; by intros l|done]. split; [done|].
    intros [->|?]; [|done]. destruct (Hr eq_refl) as [Hrc ->]. unfold shut. by apply tools_locked.
  - injection E as <- <-. split; [done|]. intros _ u. rewrite (proj2 Hu). destruct Hb as [-> _]. done.
Qed.
Lemma delete_run id login w r w' : delete_user senv login w = (r, w') -> held id login w ->
  held id login w' /\ (r = Ok tt \/ r = Err (Dante DanteUserNotFound) -> shut (system_users w') login).
Proof using LinuxTools0.
  unfold delete_user. intros [([] & w1 & H1 & E)|(e & H1 & ->)]%bind_inv Hh; rewrite managed_run in H1; destruct (managed senv login) eqn:Hm; try done.
  2:{ injection H1 as <- <-. split; [done|]. by case_match; intros [|]. }
  injection H1 as <-. apply bind_inv in E as [(b & w1 & [Hu Hb]%exists_run & E)|(e & [Hu He]%exists_run & ->)];
    pose proof (held_unmoved _ _ _ _ Hu Hh) as Hh1.
  2:{ split; [done|]. intros [?|[= ->]]; [done|]. by destruct He. }
  destruct b; cbn in E.
  - set (c := pick senv (UserDel login) (HelperDelete login)) in E.
    assert (c = UserDel login \/ c = HelperDelete login) as Hc by (unfold c, pick; case_match; auto).
    apply (must_run_inv _ id login) in E as (Hh' & Hr & He); [|done|destruct Hc as [Hc|Hc]; rewrite Hc; by intros l|done]. split; [done|].
    intros [->|?]; [|done]. destruct (Hr eq_refl) as [Hrc ->]. intros u. by rewrite tools_deleted.
  - injection E as <- <-. split; [done|]. intros _ u. rewrite (proj2 Hu). destruct Hb as [-> _]. done.
Qed.
Lemma create_run id login password w r w' : create_user senv login password w = (r, w') -> held id login w ->
  held id login w' /\ (r = Ok tt -> system_users w !! login = None
     /\ system_users w' !! login = Some (LinuxUser (Some password) false)).
Proof using LinuxTools0.
  unfold create_user. intros [([] & w1 & H1 & E)|(e & H1 & ->)]%bind_inv Hh; rewrite managed_run in H1; destruct (managed senv login) eqn:Hm; try done.
  2:{ by injection H1 as <- <-. }
  injection H1 as <-. apply bind_inv in E as [([] & w1 & H1 & E)|(e & H1 & ->)]; unfold ensure_safe_password in H1;
    (destruct (is_empty password) eqn:He; [try done; by injection H1 as <- <-|]);
    (destruct (forallb safe_password_char password) eqn:Hs; [|try done; by injection H1 as <- <-]); [|done]. injection H1 as <-.
  apply bind_inv in E as [(b & w1 & [Hu Hb]%exists_run & E)|(e & [Hu _]%exists_run & ->)];
    pose proof (held_unmoved _ _ _ _ Hu Hh) as Hh1; [|done].
  destruct b; cbn in E; [by injection E as <- <-|]. destruct Hb as [Hnone _].
  set (c1 := pick senv (UserAdd _ login) (HelperCreate login)) in E.
  assert ((exists shell, c1 = UserAdd shell login) \/ c1 = HelperCreate login) as Hc1 by (unfold c1, pick; case_match; eauto).
  set (c2 := pick senv (ChPasswd _) (HelperSetPassword login _)) in E.
  assert (concerns_only c2 login) as Hc2.
  { unfold c2, pick. case_match; intros l; cbn; [done|]. rewrite chpasswd_one; [|by apply andb_prop in Hm as [_ ?]|done].
    cbn. by intros ?%list_elem_of_singleton. }
  assert (concerns_only c1 login) as Hc1' by (destruct Hc1 as [[? Hc1]|Hc1]; rewrite Hc1; by intros l).
  apply bind_inv in E as [([] & w2 & H2 & E)|(e & H2 & ->)]; (apply (must_run_inv _ id login) in H2 as (Hh2 & Hr & _); [|done..]); [|done].
  destruct (Hr eq_refl) as [Hrc Hus]. clear Hr. apply tools_added with (login := login) in Hrc; [|done]. rewrite <- Hus in Hrc.
  apply (must_run_inv _ id login) in E as (Hh3 & Hr & _); [|done..]. split; [done|]. intros ->. split; [done|].
  destruct (Hr eq_refl) as [Hrc2 ->]. unfold c2, pick in *. case_match; [by apply tools_helper_password|].
  apply tools_password with (login := login); [done| |done]. by apply chpasswd_one; [apply andb_prop in Hm as [_ ?]|].
Qed.

(** ** The rows *)

Lemma store_proxies_run f w r w' : store_proxies (X := X) f w = (r, w') ->
  system_users w' = system_users w
  /\ (bt_proxies (bw_tables w') = bt_proxies (bw_tables w) /\ r = Err UniqueConflict
      \/ bt_proxies (bw_tables w') = f (bt_proxies (bw_tables w)) /\ one_live (proxy_rows w') /\ r = Ok tt).
Proof.
  unfold store_proxies, bind, get. case_bool_decide as Ho; intros [= <- <-]; (split; [done|]); [right|by left]. done.
Qed.
Lemma update_proxies_run p f w r w' : update_proxies (X := X) env p f w = (r, w') ->
  system_users w' = system_users w
  /\ (bt_proxies (bw_tables w') = bt_proxies (bw_tables w) /\ is_ok r = false
      \/ bt_proxies (bw_tables w') = map_rows p f (bt_proxies (bw_tables w))
         /\ r = Ok (length (List.filter p (proxy_rows w)))).
Proof.
  unfold update_proxies. intros [(n & w1 & H1 & E)|(e & H1 & ->)]%bind_inv;
    pose proof (keeps_run _ _ _ _ _ (unmoved_proxies _) H1) as [Hb Hu]; [|by auto].
  apply select_run in H1 as (H1 & _ & Hn). specialize (Hn _ eq_refl). subst n.
  apply bind_inv in E as [([] & w2 & H2 & E)|(e & H2 & ->)]; apply store_proxies_run in H2 as (Hs & [[Hp Hr]|(Hp & _ & Hr)]); try done;
    rewrite Hb in Hp; rewrite Hu in Hs; [|by auto]. injection E as <- <-. split; [exact Hs|]. by right.
Qed.
(** What an update may do to a row: it stays the row of its id, and it may go on covering
    its login. *)
Definition keeps_row (a b : proxy_access) : Prop :=
  px_id b = px_id a /\ px_type b = px_type a /\ row_login b = row_login a.
Lemma map_ids_ok p f t : (forall a, a ∈ sr_rows t -> p a = true -> px_id (f a) = px_id a) -> proxy_ids_ok t -> proxy_ids_ok (map_rows p f t).
Proof.
  intros Hf [Hn Hs]. unfold proxy_ids_ok, map_rows. cbn. split.
  - rewrite map_map. rewrite (map_ext_in _ px_id); [done|]. intros a Ha%list_elem_of_In. destruct (p a) eqn:E; [by apply Hf|done].
  - rewrite Forall_elem in *. intros b (a & -> & Ha)%list_elem_of_fmap. specialize (Hs _ Ha). destruct (p a) eqn:E; [|done]. by rewrite Hf.
Qed.
Lemma map_rows_elem (p : proxy_access -> bool) f rows a : a ∈ rows -> (if p a then f a else a) ∈ map (fun a => if p a then f a else a) rows.
Proof. intros H. apply (list_elem_of_fmap_2 (fun a => if p a : bool then f a else a) _ _ H). Qed.
Lemma covers_map p f rows id login : (forall a, a ∈ rows -> p a = true -> keeps_row a (f a) /\ may_exist (f a) = true) ->
  covers rows id login -> covers (map (fun a => if p a then f a else a) rows) id login.
Proof.
  intros Hf (a & Ha & Hid & Ht & Hl & Hm). exists (if p a then f a else a). split; [by apply map_rows_elem|].
  destruct (p a) eqn:E; [|done]. destruct (Hf a Ha E) as [(H1 & H2 & H3) H4]. by rewrite H1, H2, H3.
Qed.
(** An update that leaves access where it may exist. *)
Lemma held_update p f w r w' : update_proxies (X := X) env p f w = (r, w') ->
  (forall a, a ∈ proxy_rows w -> p a = true -> keeps_row a (f a) /\ may_exist (f a) = true) ->
  ok w -> ok w' /\ forall id login, covers (proxy_rows w) id login -> covers (proxy_rows w') id login.
Proof.
  intros (Hu & [[Hb _]|[Hb _]])%update_proxies_run Hf (Hi & Ha & Hfr).
  - unfold accounted, proxy_rows in *. rewrite Hb, Hu. auto.
  - assert (forall id login, covers (proxy_rows w) id login -> covers (proxy_rows w') id login) as Hc.
    { intros id login. unfold proxy_rows. rewrite Hb. by apply covers_map. }
    split; [|exact Hc]. split; [rewrite Hb; apply map_ids_ok; [|done]; intros a Hin Hp; by destruct (Hf a Hin Hp) as [(? & _) _]|].
    rewrite Hu. split; [|exact Hfr]. intros login u H1 H2 H3. destruct (Ha _ _ H1 H2 H3) as [id Hid]. exists id. by apply Hc.
Qed.
(** One that withdraws the access of a login nobody can use. *)
Lemma ok_withdraw p f login w r w' : update_proxies (X := X) env p f w = (r, w') ->
  (forall a, a ∈ proxy_rows w -> p a = true -> px_id (f a) = px_id a /\ row_login a = login) ->
  (managed senv login = true -> shut (system_users w) login) -> ok w -> ok w'.
Proof.
  intros (Hu & [[Hb _]|[Hb _]])%update_proxies_run Hf Hs (Hi & Ha & Hfr).
  - unfold accounted, proxy_rows in *. rewrite Hb, Hu. auto.
  - split; [rewrite Hb; apply map_ids_ok; [|done]; intros a Hin Hp; by destruct (Hf a Hin Hp)|].
    rewrite Hu. split; [|exact Hfr]. intros l u H1 H2 H3. destruct (Ha _ _ H1 H2 H3) as (id & a & Hin & Hid & Ht & Hl & Hm).
    exists id, (if p a then f a else a). unfold proxy_rows. rewrite Hb. split; [by apply map_rows_elem|].
    destruct (p a) eqn:E; [|done]. destruct (Hf a Hin E) as [_ Hlog]. exfalso. subst l login.
    specialize (Hs H1 u H2). congruence.
Qed.
(** A row's id tells the row. *)
Lemma one_row t a b : proxy_ids_ok t -> a ∈ sr_rows t -> b ∈ sr_rows t -> px_id a = px_id b -> a = b.
Proof. intros [Hn%sorted_distinct _]. by apply map_inj_elem. Qed.

(** A status in which access may exist. *)
Definition open_status (s : proxy_status) : bool := negb (bool_decide (s ∈ [ProxyRevoked; ProxyInactive; ProxyDeleted])).
Lemma bind_ret_run {A B} (m : BM A) (g : A -> B) w r w' : bind m (fun a => ret (g a)) w = (r, w') ->
  exists r0, m w = (r0, w') /\ is_ok r0 = is_ok r.
Proof. intros [(a & w1 & H & [= <- <-])|(e & H & ->)]%bind_inv; eauto. Qed.
Lemma set_status_held id s t0 e0 rs0 w r w' : ProxyRows.set_status (X := X) env id s t0 e0 rs0 [] w = (r, w') ->
  open_status s = true -> ok w -> ok w'
  /\ (forall i login, covers (proxy_rows w) i login -> covers (proxy_rows w') i login)
  /\ (forall a, r = Ok tt -> a ∈ proxy_rows w -> px_id a = id -> px_type a = SOCKS5 -> covers (proxy_rows w') id (row_login a)).
Proof.
  unfold ProxyRows.set_status. intros (r0 & E & Hr)%bind_ret_run Hs Hw.
  destruct (held_update _ _ _ _ _ E) as [Hok Hc]; [|done|]; [by intros a|]. split; [done|]. split; [done|].
  intros a -> Hin Hid Ht. apply update_proxies_run in E as (_ & [[_ Hr0]|[Hb _]]); [by rewrite Hr in Hr0|].
  exists (with_proxy_status s t0 e0 rs0 a). unfold proxy_rows in *. rewrite Hb. cbn. split; [|done].
  pose proof (map_rows_elem (has_proxy_id id) (with_proxy_status s t0 e0 rs0) _ _ Hin) as H. unfold has_proxy_id in H at 1.
  by rewrite Hid, Z.eqb_refl in H.
Qed.
Lemma active_held id t0 pl public_pl w r w' : ProxyRows.mark_active (X := X) env id t0 (Some pl) (Some public_pl) None w = (r, w') ->
  (forall a, a ∈ proxy_rows w -> px_id a = id -> row_login a = login_of pl) -> ok w -> ok w'
  /\ (forall i login, covers (proxy_rows w) i login -> covers (proxy_rows w') i login).
Proof.
  unfold ProxyRows.mark_active, transaction. intros [([] & w1 & H1 & E)|(e & H1 & _)]%bind_inv Hl Hw;
    pose proof (keeps_run _ _ _ _ _ unmoved_sql H1) as Hu; [|split; [by eapply ok_unmoved|intros; unfold proxy_rows; by rewrite (proj1 Hu)]].
  set (m := bind _ _) in E. destruct (m w1) as [[[]|x] w2] eqn:Em; injection E as <- <-.
  - subst m. apply bind_inv in Em as [(o & w3 & H3 & E)|(? & _ & ?)]; [|done].
    pose proof (keeps_run _ _ _ _ _ (unmoved_proxies _) H3) as Hu3. destruct o; [|done].
    apply bind_ret_run in E as (r0 & E & _). assert (unmoved w w3) as Hu' by (by etransitivity).
    destruct (held_update _ _ _ _ _ E) as [Hok Hc]; [|by eapply ok_unmoved|].
    + intros a Hin Hp. bool_prop. unfold proxy_rows in *. rewrite (proj1 Hu') in Hin. split; [|done]. split; [done|]. split; [done|].
      symmetry. apply Hl; [done|]. by apply Z.eqb_eq.
    + split; [done|]. intros i login Hcov. apply Hc. unfold proxy_rows in *. by rewrite (proj1 Hu').
  - assert (system_users w2 = system_users w1) as Hus.
    { subst m. apply bind_inv in Em as [(o & w3 & H3 & E)|(? & H3 & _)]; pose proof (keeps_run _ _ _ _ _ (unmoved_proxies _) H3) as Hu3; [|apply Hu3].
      destruct o; [|injection E as _ <-; apply Hu3]. apply bind_ret_run in E as (r0 & E & _). apply update_proxies_run in E as [E _]. rewrite E. apply Hu3. }
    destruct Hu as [Hu1 Hu2]. unfold accounted, proxy_rows, system_users in *. cbn. rewrite Hu1, Hus, Hu2. auto.
Qed.
Lemma transition_run id excluded f w r w' : transition (X := X) env id excluded f w = (r, w') ->
  exists r0, update_proxies (X := X) env (fun a => has_proxy_id id a && negb (proxy_in excluded a)) f w = (r0, w') /\ (is_ok r = true -> is_ok r0 = true).
Proof.
  unfold transition. intros [(n & w1 & H1 & E)|(e & H1 & ->)]%bind_inv; [|by eexists].
  exists (Ok n). destruct (n =? 1)%nat; by injection E as _ <-.
Qed.
Lemma transition_ok id excluded f login w r w' : transition (X := X) env id excluded f w = (r, w') ->
  (forall a, px_id (f a) = px_id a) -> (forall a, a ∈ proxy_rows w -> px_id a = id -> row_login a = login) ->
  (managed senv login = true -> shut (system_users w) login) -> ok w -> ok w'.
Proof.
  intros (r0 & E & _)%transition_run Hf Hl Hs Hw. apply (ok_withdraw _ _ login _ _ _ E); [|done..].
  intros a Hin Hp. bool_prop. split; [done|]. apply Hl; [done|by apply Z.eqb_eq].
Qed.
Lemma held_login id login a w : held id login w -> a ∈ proxy_rows w -> px_id a = id -> row_login a = login.
Proof.
  intros [(Hi & _) (b & Hb & Hid & _ & Hl & _)] Ha Hida. subst login. f_equal. by apply (one_row _ _ _ Hi); [| |congruence].
Qed.

(** ** What keeps a row covering its login *)

Definition steady {A} (P : bot_world X -> Prop) (m : BM A) : Prop := triple P m (fun _ => P) P.
Lemma steady_bind {A B} P (m : BM A) (k : A -> BM B) : steady P m -> (forall a, steady P (k a)) -> steady P (bind m k).
Proof. intros Hm Hk. by eapply triple_bind. Qed.
Lemma steady_catch {A} P (m : BM A) h : steady P m -> (forall e, steady P (h e)) -> steady P (catch m h).
Proof. intros Hm Hh. by eapply triple_catch. Qed.
Lemma steady_attempt {A} P (m : BM A) : steady P m -> steady P (attempt m).
Proof. intros Hm s Hs. specialize (Hm s Hs). unfold attempt. by destruct (m s) as [[a|e] s1]. Qed.
Lemma steady_ret {A} P (a : A) : steady P (ret a).
Proof. by intros s. Qed.
Lemma steady_raise {A} P e : steady P (raise (A := A) e).
Proof. by intros s. Qed.
Lemma steady_run {A} P (m : BM A) w r w' : steady P m -> m w = (r, w') -> P w -> P w'.
Proof. intros Hm E Hw. specialize (Hm w Hw). rewrite E in Hm. by destruct r. Qed.
Lemma steady_of {A} P (m : BM A) : (forall w r w', m w = (r, w') -> P w -> P w') -> steady P m.
Proof. intros H w Hw. destruct (m w) as [[a|e] w'] eqn:E; by eapply H. Qed.
Lemma steady_unmoved {A} id login (m : BM A) : keeps unmoved m -> steady (held id login) m.
Proof. intros Hm. apply steady_of. intros w r w' E Hw. eapply held_unmoved; [|exact Hw]. by eapply keeps_run. Qed.
Lemma steady_set_status id login s t0 e0 rs0 : open_status s = true -> steady (held id login) (ProxyRows.set_status (X := X) env id s t0 e0 rs0 []).
Proof. intros Hs. apply steady_of. intros w r w' E [Hw Hc]. destruct (set_status_held _ _ _ _ _ _ _ _ E Hs Hw) as (Hok & Hcov & _). split; auto. Qed.
Lemma steady_mark_active id login t0 pl public_pl : login_of pl = login ->
  steady (held id login) (ProxyRows.mark_active (X := X) env id t0 (Some pl) (Some public_pl) None).
Proof.
  intros Hl. apply steady_of. intros w r w' E Hh. pose proof Hh as [Hw Hc].
  destruct (active_held _ _ _ _ _ _ _ E) as [Hok Hcov]; [|done|split; auto]. intros a Ha Hid. rewrite Hl. by eapply held_login.
Qed.
Lemma steady_lock id login : steady (held id login) (lock_user senv login).
Proof. apply steady_of. intros w r w' E Hw. by apply (lock_run id) in E as [? _]. Qed.
Lemma steady_delete id login : steady (held id login) (delete_user senv login).
Proof. apply steady_of. intros w r w' E Hw. by apply (delete_run id) in E as [? _]. Qed.
Lemma steady_create id login password : steady (held id login) (create_user senv login password).
Proof. apply steady_of. intros w r w' E Hw. by apply (create_run id) in E as [? _]. Qed.
Lemma unmoved_degrade reason : keeps unmoved (degrade (X := X) reason).
Proof. intros w. unfold degrade, socks_state, set_host, bind, gets, modify, unmoved, system_users. cbn. by rewrite part_get_set. Qed.
Lemma unmoved_attempt {A} (m : BM A) : keeps unmoved m -> keeps unmoved (attempt m).
Proof. apply keeps_attempt. Qed.
Ltac steady_step :=
  match goal with
  | |- steady _ (bind _ _) => apply steady_bind; [|intros ?]
  | |- steady _ (catch _ _) => apply steady_catch; [|intros ?]
  | |- steady _ (attempt _) => apply steady_attempt
  | |- steady _ (ret _) => apply steady_ret
  | |- steady _ (raise _) => apply steady_raise
  | |- steady _ (match ?x with _ => _ end) => destruct x
  | |- steady _ (if ?b then _ else _) => destruct b
  | |- steady _ (let _ := _ in _) => cbv zeta
  | |- steady _ (ProxyRows.set_status _ _ _ _ _ _ _) => by apply steady_set_status
  | |- steady _ (lock_user _ _) => apply steady_lock
  | |- steady _ (delete_user _ _) => apply steady_delete
  | |- steady _ (create_user _ _ _) => apply steady_create
  | |- steady _ _ => apply steady_unmoved; eauto 2 with keeps nocore
  end.
#[local] Hint Resolve unmoved_degrade : keeps.
Lemma steady_compensate actor id login : steady (held id login) (compensate (X := X) env senv actor id login).
Proof. unfold compensate. repeat steady_step. Qed.
Lemma steady_apply actor owner id login password : steady (held id login) (apply_access (X := X) env senv actor owner id login password).
Proof. unfold apply_access. repeat steady_step. Qed.
Lemma steady_activate actor id login pl public_pl : login_of pl = login ->
  steady (held id login) (activate_access (X := X) env senv actor id login pl public_pl).
Proof.
  intros Hl. unfold activate_access. repeat match goal with
  | |- steady _ (ProxyRows.mark_active _ _ _ _ _ _) => by apply steady_mark_active
  | |- steady _ (compensate _ _ _ _ _) => apply steady_compensate
  | _ => steady_step
  end.
Qed.

(** ** A new row *)

Definition new_access (owner : Z) (username : option str) (pl public_pl : payload) (created_by : Z) (t0 : str) (id : Z) : proxy_access :=
  ProxyAccess id owner username SOCKS5 ProxyPendingApply pl public_pl t0 t0 None None None created_by None None None None
    None 0 None None.
Lemma append_ids_ok (row : Z -> proxy_access) t : (forall id, px_id (row id) = id) -> proxy_ids_ok t -> proxy_ids_ok (append row t).
Proof.
  intros Hr [Hn Hs]. unfold proxy_ids_ok, append. cbn. rewrite map_app. cbn. rewrite Hr. split.
  - apply StronglySorted_app_2; [|done|repeat constructor]. intros x y (a & -> & Ha)%list_elem_of_fmap ->%list_elem_of_singleton.
    rewrite Forall_elem in Hs. specialize (Hs _ Ha). cbn in Hs. lia.
  - apply Forall_app. split; [eapply Forall_impl; [exact Hs|]; cbn; intros a ?; lia|]. constructor; [|done]. cbn. rewrite Hr. lia.
Qed.
Lemma find_appended (row : Z -> proxy_access) t : (forall id, px_id (row id) = id) -> proxy_ids_ok t ->
  List.find (has_proxy_id (sr_seq t + 1)) (sr_rows (append row t)) = Some (row (sr_seq t + 1)).
Proof.
  intros Hr [_ Hs]. unfold append. cbn. induction Hs as [|a l Ha _ IH]; cbn; unfold has_proxy_id in *; [by rewrite Hr, Z.eqb_refl|].
  rewrite (proj2 (Z.eqb_neq (px_id a) _)) by lia. exact IH.
Qed.
(** [ProxyAccessRepository.create], for either protocol. *)
Definition same_rest w w' : Prop := bw_rest w' = bw_rest w.
#[export] Instance same_rest_pre : PreOrder same_rest.
Proof. split; [by intros w|]. intros a b c H1 H2. by transitivity (bw_rest b). Qed.
Lemma rest_select {A} (f : bot_tables -> A) : keeps same_rest (select (X := X) env f).
Proof. intros w. unfold select, sql, bind, ask. by destruct (be_db env (bw_tick w)). Qed.
Lemma rest_store f : keeps same_rest (store_proxies (X := X) f).
Proof. intros w. unfold store_proxies, bind, get. by case_bool_decide. Qed.
Lemma rest_update p f : keeps same_rest (update_proxies (X := X) env p f).
Proof. unfold update_proxies, select_proxies. pose proof rest_store. pose proof @rest_select. keeps_tac. Qed.
Lemma select_fault {A} (f : bot_tables -> A) e w w' : select env f w = (Err e, w') -> e = DbFault.
Proof. unfold select, sql, bind, ask. by destruct (be_db env (bw_tick w)); intros [= <-]. Qed.
Definition stored_access (owner : Z) (username : option str) (t : proxy_type) (s : proxy_status) (pl public_pl : payload) (by_ : Z) (t0 : str)
    (fp : option str) (g : Z) (id : Z) : proxy_access :=
  ProxyAccess id owner username t s pl public_pl t0 t0 None None None by_ None None None None fp g None None.
Lemma create_run_any owner username t s pl ppl by_ t0 fp g w r w' :
  ProxyRows.create (X := X) env owner username t s pl ppl by_ t0 fp g w = (r, w') -> proxy_ids_ok (bt_proxies (bw_tables w)) ->
  same_rest w w'
  /\ (bt_proxies (bw_tables w') = bt_proxies (bw_tables w) /\ is_ok r = false
      \/ bt_proxies (bw_tables w') = append (stored_access owner username t s pl ppl by_ t0 fp g) (bt_proxies (bw_tables w))
         /\ r <> Err UniqueConflict
         /\ forall a, r = Ok a -> a = stored_access owner username t s pl ppl by_ t0 fp g (sr_seq (bt_proxies (bw_tables w)) + 1)).
Proof.
  intros E Hi. split.
  { eapply keeps_run; [|exact E]. unfold ProxyRows.create, get_by_id, select_proxies. pose proof rest_store. pose proof @rest_select.
    assert (keeps same_rest (sql (X := X) env)) by (intros v; unfold sql, bind, ask; by destruct (be_db env (bw_tick v))).
    assert (keeps same_rest (get (S := bot_world X) (E := bot_error))) by done. keeps_tac. }
  revert E. unfold ProxyRows.create. intros [([] & w1 & H1 & E)|(e & H1 & ->)]%bind_inv; pose proof (keeps_run _ _ _ _ _ unmoved_sql H1) as [Hq _]; [|by left].
  apply bind_inv in E as [(v & w2 & H2 & E)|(? & ? & ?)]; [|done]. injection H2 as <- <-.
  apply bind_inv in E as [([] & w2 & H2 & E)|(e & H2 & ->)]; apply store_proxies_run in H2 as (_ & [[Hp2 Hr2]|(Hp2 & _ & Hr2)]); try done.
  2:{ left. split; [congruence|done]. }
  right. rewrite <- Hq in Hi |- *. change (bt_proxies (bw_tables w2) = append (stored_access owner username t s pl ppl by_ t0 fp g) (bt_proxies (bw_tables w1))) in Hp2.
  apply bind_inv in E as [(o & w3 & H3 & E)|(e & H3 & ->)]; pose proof (keeps_run _ _ _ _ _ (unmoved_proxies _) H3) as [Hq3 _].
  2:{ split; [congruence|]. split; [|done]. intros [= ->]. by apply select_fault in H3. }
  split; [destruct o; injection E as _ <-; congruence|]. split; [by destruct o; injection E as <- _|]. intros a ->. apply select_run in H3 as (_ & _ & Ho).
  specialize (Ho _ eq_refl). rewrite Hp2 in Ho. rewrite (find_appended (stored_access owner username t s pl ppl by_ t0 fp g) _ (fun _ => eq_refl) Hi) in Ho.
  subst o. by injection E as <- _.
Qed.
Lemma create_row_run owner username pl public_pl by_ t0 w r w' :
  ProxyRows.create (X := X) env owner username SOCKS5 ProxyPendingApply pl public_pl by_ t0 None 0 w = (r, w') -> ok w ->
  system_users w' = system_users w
  /\ (unmoved w w' /\ is_ok r = false
      \/ bt_proxies (bw_tables w') = append (new_access owner username pl public_pl by_ t0) (bt_proxies (bw_tables w))
         /\ (forall a, r = Ok a -> a = new_access owner username pl public_pl by_ t0 (sr_seq (bt_proxies (bw_tables w)) + 1))).
Proof.
  intros E [Hi _]. apply create_run_any in E as (Hr & H); [|done]. assert (system_users w' = system_users w) as Hu by (unfold system_users; by rewrite Hr).
  split; [done|]. destruct H as [[Hb Hok]|(Hb & _ & Ha)]; [left; by split|by right].
Qed.
Lemma ok_append owner username pl public_pl by_ t0 w w' : ok w -> system_users w' = system_users w ->
  bt_proxies (bw_tables w') = append (new_access owner username pl public_pl by_ t0) (bt_proxies (bw_tables w)) ->
  held (sr_seq (bt_proxies (bw_tables w)) + 1) (login_of pl) w'.
Proof.
  intros (Hi & Ha & Hf) Hu Hb. unfold held, accounted, proxy_rows in *. rewrite Hb, Hu. split; [split; [by apply append_ids_ok|split; [|done]]|].
  - intros l u H1 H2 H3. destruct (Ha _ _ H1 H2 H3) as (id & a & Hin & Hrest). exists id, a. split; [|done]. cbn. apply elem_of_app. by left.
  - eexists. cbn. split; [apply elem_of_app; right; by apply list_elem_of_singleton|]. done.
Qed.

(** ** The operations, one by one *)

Lemma held_then {A} id login (m : BM A) : steady (held id login) m -> triple (held id login) m (fun _ => held id login) (fun w => ok w).
Proof. intros H. eapply triple_weaken; [exact H|done|done|]. by intros w []. Qed.
Lemma ok_keeps {A} (m : BM A) : keeps unmoved m -> steady (fun w => ok w) m.
Proof. intros Hm. apply steady_of. intros w r w' E Hw. eapply ok_unmoved; [|exact Hw]. by eapply keeps_run. Qed.
Lemma try_logins_unmoved n stem bytes : keeps unmoved (try_logins env senv n stem bytes).
Proof.
  induction n as [|n IH]; cbn [try_logins]; [keeps_tac|]. pose proof unmoved_exists. unfold find_by_socks5_login. keeps_tac.
Qed.
Lemma unique_login_unmoved owner : keeps unmoved (unique_login env senv owner).
Proof. unfold unique_login. pose proof try_logins_unmoved. keeps_tac. Qed.
Lemma steady_shown actor a : steady (fun w => ok w) (mark_access_shown (X := X) env a actor).
Proof.
  unfold mark_access_shown. apply steady_bind; [apply ok_keeps, unmoved_now|intros t0]. apply steady_bind; [|intros _; apply ok_keeps, unmoved_audit].
  apply steady_of. unfold ProxyRows.mark_shown. intros w r w' (r0 & E & _)%bind_ret_run (Hi & Ha & Hf).
  apply update_proxies_run in E as (Hu & [[Hb _]|[Hb _]]); unfold accounted, proxy_rows in *; rewrite Hb, Hu; [done|].
  split; [by apply map_ids_ok|]. split; [|done]. intros l u H1 H2 H3. destruct (Ha _ _ H1 H2 H3) as (id & b & Hin & Hid & Ht & Hl & Hm).
  exists id, (if has_proxy_id (px_id a) b then shown t0 b else b). split; [by apply map_rows_elem|]. by destruct (has_proxy_id _ b).
Qed.
Lemma login_payload port login password : login_of (socks_payload senv port login password) = login.
Proof. done. Qed.
Lemma issue_new_ok actor p : steady (fun w => ok w) (issue_new (X := X) env senv actor p).
Proof.
  unfold issue_new. apply steady_bind; [by apply ok_keeps, unmoved_mutation|intros _].
  apply steady_bind; [apply ok_keeps, unmoved_can_issue|intros _]. apply steady_bind; [apply ok_keeps, unique_login_unmoved|intros login].
  apply steady_bind; [apply ok_keeps, unmoved_ask|intros password]. apply steady_bind; [apply ok_keeps, unmoved_port|intros port]. cbv zeta.
  apply steady_bind; [apply ok_keeps, unmoved_now|intros t0]. set (pl := socks_payload _ _ _ _). set (ppl := socks_public_payload _ _ _).
  apply (triple_bind _ _ _ _ (fun a => held (px_id a) login)).
  { intros w Hw. destruct (create env _ _ _ _ _ _ _ _ _ _ w) as [r w'] eqn:E. apply create_row_run in E as (Hu & [[Hun Hr]|[Hb Hr]]); [| |done].
    - destruct r; [done|]. by eapply ok_unmoved.
    - pose proof (ok_append _ _ _ _ _ _ _ _ Hw Hu Hb) as Hh. change (login_of pl) with login in Hh.
      destruct r as [a|]; [|apply Hh]. rewrite (Hr a eq_refl). exact Hh. }
  intros a. apply (triple_bind _ _ _ _ (fun _ => held (px_id a) login)); [apply held_then, steady_apply|intros _].
  apply (triple_bind _ _ _ _ (fun _ => held (px_id a) login)); [by apply held_then, steady_activate|intros _].
  apply (triple_bind _ _ _ _ (fun _ => held (px_id a) login)); [apply held_then, steady_unmoved, unmoved_audit|intros _].
  apply (triple_pre _ (fun w => ok w)); [|by intros w []].
  apply steady_bind; [apply ok_keeps, unmoved_access|intros b]. apply steady_bind; [apply steady_shown|intros _]. apply ok_keeps, unmoved_access.
Qed.
Lemma issue_ok actor p : steady (fun w => ok w) (issue_socks5_proxy (X := X) env senv actor p).
Proof.
  unfold issue_socks5_proxy. apply steady_bind; [apply ok_keeps, unmoved_enabled|intros _].
  apply steady_bind; [apply ok_keeps, unmoved_mutation|intros _]. apply steady_bind; [apply ok_keeps, unmoved_can_issue|intros _].
  apply steady_bind; [apply ok_keeps, unmoved_active|intros [a|]]; [|apply issue_new_ok].
  apply steady_bind; [apply steady_shown|intros _]. apply ok_keeps, unmoved_access.
Qed.
Lemma show_ok actor : steady (fun w => ok w) (get_socks5_proxy_config (X := X) env actor).
Proof.
  unfold get_socks5_proxy_config. apply steady_bind; [apply ok_keeps, unmoved_approved|intros _].
  apply steady_bind; [apply ok_keeps, unmoved_active|intros [a|]]; [|apply steady_raise].
  apply steady_bind; [apply steady_shown|intros _]. apply ok_keeps, unmoved_access.
Qed.

(** What [get_access] returns is the row of the id. *)
Lemma get_access_run id w r w' : get_access (X := X) env id w = (r, w') ->
  unmoved w w' /\ forall a, r = Ok a -> a ∈ proxy_rows w /\ px_id a = id.
Proof.
  intros E. pose proof (keeps_run _ _ _ _ _ (unmoved_access id) E) as Hu. split; [done|]. revert E. unfold get_access.
  intros [(o & w1 & (_ & _ & Ho)%select_run & E)|(e & _ & ->)]%bind_inv; [|by intros]. intros a ->. specialize (Ho _ eq_refl).
  destruct o as [b|]; [|done]. injection E as -> <-. symmetry in Ho. apply find_some in Ho as [Hin Hid].
  split; [by apply list_elem_of_In|by apply Z.eqb_eq].
Qed.
Lemma require_socks_run id w r w' : require_socks (X := X) env id w = (r, w') ->
  unmoved w w' /\ (r = Ok tt -> exists a, a ∈ proxy_rows w /\ px_id a = id /\ px_type a = SOCKS5).
Proof.
  unfold require_socks. intros [(a & w1 & [Hu Ha]%get_access_run & E)|(e & [Hu _]%get_access_run & ->)]%bind_inv; [|split; [done|by intros]].
  specialize (Ha _ eq_refl). revert E. case_bool_decide; intros [= <- <-]; (split; [done|]); [|by intros]. intros _. destruct Ha. by exists a.
Qed.
(** The removal, run on a covered login: what it returns with, the login is shut. *)
Definition shuts (login : str) (remove : str -> BM unit) : Prop := forall id w r w', remove login w = (r, w') -> held id login w ->
  held id login w' /\ (r = Ok tt \/ r = Err (Dante DanteUserNotFound) -> shut (system_users w') login).
Lemma ignore_run login remove id w r w' : shuts login remove -> catch (remove login) ignore_not_found w = (r, w') -> held id login w ->
  held id login w' /\ (r = Ok tt -> shut (system_users w') login).
Proof.
  intros Hs. unfold catch. destruct (remove login w) as [[[]|e] w1] eqn:E1.
  - intros [= <- <-] Hh. destruct (Hs _ _ _ _ E1 Hh) as [H1 H2]. auto.
  - intros E Hh. destruct (Hs _ _ _ _ E1 Hh) as [H1 H2].
    assert (w' = w1 /\ (r = Ok tt -> e = Dante DanteUserNotFound)) as [-> He].
    { destruct e as [| | | | | | | | | | | | | |[]| | |]; by injection E as <- <-. }
    split; [done|]. intros Hr. apply H2. right. by rewrite (He Hr).
Qed.
Lemma with_login_run login remove id w r w' : (forall l, shuts l remove) -> with_login (X := X) login remove w = (r, w') -> held id login w ->
  held id login w' /\ (r = Ok tt \/ r = Err (Dante DanteUserNotFound) -> managed senv login = true -> shut (system_users w') login).
Proof.
  intros Hs. unfold with_login. destruct login as [|c l].
  - intros [= <- <-] Hh. split; [done|]. intros _ Hm. unfold managed in Hm. by rewrite andb_false_r in Hm.
  - intros E Hh. destruct (Hs _ _ _ _ _ E Hh). auto.
Qed.

Lemma with_login_run2 login remove id w r w' : (forall l, shuts l remove) ->
  catch (with_login (X := X) login remove) ignore_not_found w = (r, w') -> held id login w ->
  held id login w' /\ (r = Ok tt -> managed senv login = true -> shut (system_users w') login).
Proof.
  intros Hs. unfold with_login. destruct login as [|c l].
  - unfold catch, ret. intros [= <- <-] Hh. split; [done|]. intros _ Hm. unfold managed in Hm. by rewrite andb_false_r in Hm.
  - intros E Hh. destruct (ignore_run _ _ _ _ _ _ (Hs _) E Hh). auto.
Qed.

(** A transition that returned has closed the row. *)
Lemma transition_closed id excluded f w w' : transition (X := X) env id excluded f w = (Ok tt, w') ->
  (forall a, keeps_row a (f a)) -> (forall a, may_exist (f a) = false) -> (forall a, proxy_in excluded a = true -> may_exist a = false) ->
  forall b, b ∈ proxy_rows w' -> px_id b = id -> may_exist b = false.
Proof.
  intros (r0 & E & Hr)%transition_run Hk Hf Hx b Hb Hid. specialize (Hr eq_refl).
  apply update_proxies_run in E as (_ & [[_ Hr0]|[Hrows _]]); [congruence|]. unfold proxy_rows in Hb. rewrite Hrows in Hb.
  apply list_elem_of_fmap in Hb as (a & -> & Ha). destruct (has_proxy_id id a && _) eqn:E; [apply Hf|]. apply Hx.
  unfold has_proxy_id in E. rewrite Hid, Z.eqb_refl in E. by apply negb_false_iff in E.
Qed.
Lemma not_open_row s a : s ∈ [ProxyRevoked; ProxyInactive; ProxyDeleted] -> px_status a = s -> may_exist a = false.
Proof. intros Hs Ha. unfold may_exist, proxy_in. rewrite Ha. by rewrite bool_decide_eq_true_2. Qed.
Lemma excluded_closed l a : (forall s, s ∈ l -> s ∈ [ProxyRevoked; ProxyInactive; ProxyDeleted]) -> proxy_in l a = true -> may_exist a = false.
Proof. unfold proxy_in. intros Hl H. bool_prop. by eapply not_open_row, eq_refl; apply Hl. Qed.
Lemma shuts_lock login : shuts login (lock_user senv).
Proof. intros id w r w'. apply lock_run. Qed.
Lemma shuts_delete login : shuts login (delete_user senv).
Proof. intros id w r w'. apply delete_run. Qed.
(** The two ends of revoking and of deleting. *)
Lemma failed_removal {A} id login (m : BM unit) h w r w' (k : unit -> BM A) : (forall e, steady (held id login) (h e)) -> (forall e v, is_ok (h e v).1 = false) ->
  (forall r1 w1, m w = (r1, w1) -> held id login w1 /\ (r1 = Ok tt -> managed senv login = true -> shut (system_users w1) login)) ->
  bind (catch m h) k w = (r, w') ->
  (held id login w' /\ is_ok r = false) \/ exists w1, held id login w1 /\ (managed senv login = true -> shut (system_users w1) login) /\ k tt w1 = (r, w').
Proof.
  intros Hh Hraise Hm. unfold bind, catch. destruct (m w) as [[[]|e] w1] eqn:E1; destruct (Hm _ _ eq_refl) as [H1 H2].
  - intros E. right. exists w1. auto.
  - intros E. left. pose proof (Hraise e w1) as Hr. destruct (h e w1) as [[[]|e'] w2] eqn:E2; [done|]. injection E as <- <-.
    split; [by eapply steady_run|done].
Qed.
Lemma raises_last {A B} (m : BM A) e v : is_ok (bind m (fun _ => raise (A := B) e) v).1 = false.
Proof. unfold bind, raise. by destruct (m v) as [[a|x] v']. Qed.
Lemma raises_bind {A B} (m : BM A) (k : A -> BM B) v : (forall a v', is_ok (k a v').1 = false) -> is_ok (bind m k v).1 = false.
Proof. intros Hk. unfold bind. destruct (m v) as [[a|x] v']; [apply Hk|done]. Qed.

(** The beginning, the middle and the end that revoking and deleting share. *)
Lemma socks_row_run {A} id (k : proxy_access -> BM A) w r w' :
  bind (require_socks env id) (fun _ => bind (get_access env id) k) w = (r, w') -> ok w ->
  (ok w' /\ is_ok r = false)
  \/ exists a w1, unmoved w w1 /\ a ∈ proxy_rows w /\ px_id a = id /\ px_type a = SOCKS5 /\ k a w1 = (r, w').
Proof.
  intros [([] & w1 & [Hu Hs]%require_socks_run & E)|(e & [Hu _]%require_socks_run & ->)]%bind_inv Hw; [|left; split; [by eapply ok_unmoved|done]].
  destruct (Hs eq_refl) as (a0 & Ha0 & Hid0 & Ht0). pose proof (ok_unmoved _ _ Hu Hw) as Hw1.
  apply bind_inv in E as [(a & w2 & [Hu2 Ha]%get_access_run & E)|(e & [Hu2 _]%get_access_run & ->)]; [|left; split; [by eapply ok_unmoved|done]].
  right. destruct (Ha _ eq_refl) as [Hin Hid]. exists a, w2. split; [by etransitivity|].
  unfold proxy_rows in Hin. rewrite (proj1 Hu) in Hin.
  assert (a = a0) as -> by (destruct Hw as [Hi _]; eapply (one_row _ _ _ Hi); [done|done|congruence]). auto.
Qed.
Lemma open_run {A} id s reason a (k : BM A) w r w' : open_status s = true ->
  bind require_mutation (fun _ => bind (now env) (fun t0 => bind (ProxyRows.set_status env id s t0 None reason []) (fun _ => k))) w = (r, w') ->
  ok w -> a ∈ proxy_rows w -> px_id a = id -> px_type a = SOCKS5 ->
  (ok w' /\ is_ok r = false) \/ exists w1, held id (row_login a) w1 /\ k w1 = (r, w').
Proof.
  intros Hs E Hw Ha Hid Ht.
  apply bind_inv in E as [([] & w3 & H3 & E)|(e & H3 & ->)]; pose proof (keeps_run _ _ _ _ _ unmoved_mutation H3) as Hu3;
    pose proof (ok_unmoved _ _ Hu3 Hw) as Hw3; [|by left].
  apply bind_inv in E as [(t0 & w4 & H4 & E)|(e & H4 & ->)]; pose proof (keeps_run _ _ _ _ _ unmoved_now H4) as Hu4;
    pose proof (ok_unmoved _ _ Hu4 Hw3) as Hw4; [|by left].
  apply bind_inv in E as [([] & w5 & H5 & E)|(e & H5 & ->)]; destruct (set_status_held _ _ _ _ _ _ _ _ H5 Hs Hw4) as (Hw5 & _ & Hc5); [|by left].
  right. exists w5. split; [|done]. split; [done|]. apply Hc5; [done| |done|done]. unfold proxy_rows. by rewrite (proj1 Hu4), (proj1 Hu3).
Qed.
Definition closed_as (id : Z) (w' : bot_world X) (a : proxy_access) : Prop :=
  px_id a = id /\ a ∈ proxy_rows w' /\ may_exist a = false /\ (managed senv (row_login a) = true -> shut (system_users w') (row_login a)).
Lemma closing_step id excluded f login w r w' : transition (X := X) env id excluded f w = (r, w') -> held id login w ->
  (forall a, keeps_row a (f a)) -> (managed senv login = true -> shut (system_users w) login) ->
  ok w' /\ system_users w' = system_users w /\ forall b, b ∈ proxy_rows w' -> px_id b = id -> row_login b = login.
Proof.
  intros E Hh Hf Hs. split; [eapply transition_ok; [exact E|by intros a; apply Hf|intros b; by apply held_login|exact Hs|apply Hh]|].
  apply transition_run in E as (r0 & (Hu & Hb)%update_proxies_run & _). split; [done|]. intros b Hin Hid. unfold proxy_rows in Hin.
  destruct Hb as [[Hb _]|[Hb _]]; rewrite Hb in Hin; [by eapply held_login|]. apply list_elem_of_fmap in Hin as (b0 & -> & Hb0).
  destruct (has_proxy_id id b0 && _); [|by eapply held_login]. destruct (Hf b0) as (H1 & _ & ->). rewrite H1 in Hid. by eapply held_login.
Qed.
Lemma close_run id excluded f actor action login w r w' :
  bind (now env) (fun t0 => bind (transition env id excluded (f t0)) (fun _ => bind (socks_audit env actor action id) (fun _ => get_access env id))) w = (r, w') ->
  held id login w -> (managed senv login = true -> shut (system_users w) login) ->
  (forall t0 a, keeps_row a (f t0 a) /\ may_exist (f t0 a) = false) -> (forall a, proxy_in excluded a = true -> may_exist a = false) ->
  ok w' /\ forall a, r = Ok a -> closed_as id w' a.
Proof.
  intros E Hh Hs Hf Hx.
  apply bind_inv in E as [(t0 & w1 & H1 & E)|(e & H1 & ->)]; pose proof (keeps_run _ _ _ _ _ unmoved_now H1) as Hu1;
    pose proof (held_unmoved _ _ _ _ Hu1 Hh) as Hh1; [|split; [apply Hh1|by intros]]. rewrite <- (proj2 Hu1) in Hs.
  apply bind_inv in E as [([] & w2 & H2 & E)|(e & H2 & ->)];
    destruct (closing_step _ _ _ _ _ _ _ H2 Hh1 (fun a => proj1 (Hf t0 a)) Hs) as (Hw2 & Hus2 & Hl2); [|split; [done|by intros]].
  apply bind_inv in E as [([] & w3 & H3 & E)|(e & H3 & ->)]; pose proof (keeps_run _ _ _ _ _ (unmoved_audit _ _ _) H3) as Hu3;
    pose proof (ok_unmoved _ _ Hu3 Hw2) as Hw3; [|split; [done|by intros]].
  apply get_access_run in E as [Hu4 Ha]. split; [by eapply ok_unmoved|]. intros a ->. destruct (Ha _ eq_refl) as [Hin Hid].
  unfold proxy_rows in Hin. rewrite (proj1 Hu3) in Hin. split; [done|].
  split; [unfold proxy_rows; by rewrite (proj1 Hu4), (proj1 Hu3)|]. split.
  - eapply (transition_closed _ _ _ _ _ H2); [intros b; apply Hf|intros b; apply Hf|done|done|done].
  - rewrite (Hl2 a Hin Hid), (proj2 Hu4), (proj2 Hu3), Hus2. exact Hs.
Qed.

Lemma revoke_run actor id reason w r w' : revoke_socks5 (X := X) env senv actor id reason w = (r, w') -> ok w ->
  ok w' /\ forall a, r = Ok a -> closed_as id w' a \/ (a ∈ proxy_rows w /\ px_id a = id /\ may_exist a = false).
Proof.
  unfold revoke_socks5. intros E Hw. apply socks_row_run in E as [[Hw' Hr]|(a0 & w1 & Hu & Hin & Hid & Ht & E)]; [split; [done|by intros a ->]| |done].
  pose proof (ok_unmoved _ _ Hu Hw) as Hw1.
  destruct (proxy_in [ProxyRevoked; ProxyInactive; ProxyDeleted] a0) eqn:Hst.
  { injection E as <- <-. split; [done|]. intros a [= <-]. right. unfold may_exist. by rewrite Hst. }
  apply (open_run _ _ _ a0) in E as [[Hw' Hr]|(w2 & Hh & E)]; [split; [done|by intros a ->]| |done|done|unfold proxy_rows; by rewrite (proj1 Hu)|done|done].
  apply (failed_removal id (row_login a0)) in E as [[[Hw' _] Hr]|(w3 & Hh3 & Hshut & E)]; [split; [done|by intros a ->]|..].
  - apply (close_run _ _ (fun t0 => withdrawn ProxyRevoked true actor t0 reason) _ _ _ _ _ _ E Hh3) in Hshut as [Hw' Ha]; [|done|].
    + split; [done|]. intros a Hr. left. by apply Ha.
    + intros b. apply excluded_closed. set_solver.
  - intros e. assert (open_status (px_status a0) = true) as Hop by (unfold open_status; unfold proxy_in in Hst; by rewrite Hst).
    repeat steady_step.
  - intros e v. apply raises_bind. intros t1 v1. apply raises_bind. intros _ v2. apply raises_last.
  - intros r1 w1' H1. eapply with_login_run2; [apply shuts_lock|exact H1|exact Hh].
Qed.
Lemma delete_op_run actor id reason w r w' : delete_socks5_proxy (X := X) env senv actor id reason w = (r, w') -> ok w ->
  ok w' /\ forall a, r = Ok a -> closed_as id w' a \/ (a ∈ proxy_rows w /\ px_id a = id /\ may_exist a = false).
Proof.
  unfold delete_socks5_proxy. intros [(u & w0 & H0 & E)|(e & H0 & ->)]%bind_inv Hw; pose proof (keeps_run _ _ _ _ _ (unmoved_superadmin _) H0) as Hu0;
    pose proof (ok_unmoved _ _ Hu0 Hw) as Hw0; [|split; [done|by intros]].
  apply socks_row_run in E as [[Hw' Hr]|(a0 & w1 & Hu & Hin & Hid & Ht & E)]; [split; [done|by intros a ->]| |done].
  pose proof (ok_unmoved _ _ Hu Hw0) as Hw1. unfold proxy_rows in Hin. rewrite (proj1 Hu0) in Hin.
  destruct (proxy_in [ProxyDeleted] a0) eqn:Hst.
  { injection E as <- <-. split; [done|]. intros a [= <-]. right. split; [done|]. split; [done|]. eapply excluded_closed; [|exact Hst]. set_solver. }
  apply (open_run _ _ _ a0) in E as [[Hw' Hr]|(w2 & Hh & E)]; [split; [done|by intros a ->]| |done|done|unfold proxy_rows; by rewrite (proj1 Hu), (proj1 Hu0)|done|done].
  apply (failed_removal id (row_login a0)) in E as [[[Hw' _] Hr]|(w3 & Hh3 & Hshut & E)]; [split; [done|by intros a ->]|..].
  - apply (close_run _ _ (fun t0 => erased actor t0 reason) _ _ _ _ _ _ E Hh3) in Hshut as [Hw' Ha]; [|done|].
    + split; [done|]. intros a Hr. left. by apply Ha.
    + intros b. apply excluded_closed. set_solver.
  - intros e. repeat steady_step.
  - intros e v. apply raises_bind. intros t1 v1. apply raises_bind. intros _ v2. apply raises_last.
  - intros r1 w1' H1. destruct (with_login_run _ _ _ _ _ _ shuts_delete H1 Hh) as [Hh' Hs]. auto.
Qed.

End Service.
