(* ===== verification/ProxyStartup.v ===== *)
(** * The SOCKS5 service at start-up

    The pass over the accesses a crash has left half done ends, settles every row it
    does not report, and keeps the system users accounted for. *)

From S2P Require Import Prelude PyText Json IsoTime Triples AwgConfig VpnKeys BackendHealth AwgService KeyRows BotDb Accounts AccountSafety BlockSafety RequestSafety DanteUsers ProxyRows Socks5 ProxySafety.
#[local] Open Scope Z_scope.

Section Startup.
Context {X : Type} `{HP : Part X socks_host} (env : bot_env) (senv : socks_env).
Implicit Types w : bot_world X.
Abbreviation BM := (M (bot_world X) bot_error) (only parsing).

(** ** The pass at start-up *)

(** The rows of the other ids stay, and no id comes or goes. *)
Definition others (id : Z) w w' : Prop := map px_id (proxy_rows w') = map px_id (proxy_rows w)
  /\ forall b, px_id b <> id -> b ∈ proxy_rows w' <-> b ∈ proxy_rows w.
#[local] Instance others_pre id : PreOrder (others id).
Proof. split; [by intros w; split|]. intros a b c [H1 H2] [H3 H4]. split; [congruence|]. intros x Hx. by rewrite H4, H2. Qed.
Lemma others_about id : about_tables (others id).
Proof. intros w w' H _. unfold others, proxy_rows. by rewrite H. Qed.
Lemma others_update id p f : (forall a, p a = true -> px_id a = id) -> (forall a, px_id (f a) = px_id a) ->
  keeps (others id) (update_proxies (X := X) env p f).
Proof.
  intros Hp Hf w. destruct (update_proxies env p f w) as [r w'] eqn:E. apply update_proxies_run in E as (_ & [[Hb _]|[Hb _]]); cbn.
  - unfold others, proxy_rows. by rewrite Hb.
  - unfold others, proxy_rows. rewrite Hb. cbn. split; [rewrite map_map; apply map_ext; intros a; by destruct (p a)|]. intros b Hb1. split.
    + intros (a & -> & Ha)%list_elem_of_fmap. destruct (p a) eqn:E; [|done]. rewrite Hf in Hb1. by apply Hp in E.
    + intros Hin. apply (map_rows_elem p f) in Hin. destruct (p b) eqn:E; [by apply Hp in E|done].
Qed.
Lemma others_of_id id (p : proxy_access -> bool) f : (forall a, px_id (f a) = px_id a) ->
  keeps (others id) (update_proxies (X := X) env (fun a => has_proxy_id id a && p a) f).
Proof. intros Hf. apply others_update; [|done]. intros a H. bool_prop. by apply Z.eqb_eq. Qed.
Lemma others_transition id excluded f : (forall a, px_id (f a) = px_id a) -> keeps (others id) (transition (X := X) env id excluded f).
Proof. intros Hf. unfold transition. pose proof (others_of_id id (fun a => negb (proxy_in excluded a)) f Hf). keeps_tac. Qed.
Lemma others_set_status id s t0 e0 rs0 : keeps (others id) (ProxyRows.set_status (X := X) env id s t0 e0 rs0 []).
Proof.
  unfold ProxyRows.set_status. assert (keeps (others id) (update_proxies (X := X) env (has_proxy_id id) (with_proxy_status s t0 e0 rs0))).
  { apply others_update; [|done]. intros a. apply Z.eqb_eq. }
  keeps_tac.
Qed.
Lemma others_select {A} id (f : list proxy_access -> A) : keeps (others id) (select_proxies (X := X) env f).
Proof. apply bot_keeps_select, others_about. Qed.
Lemma others_active id t0 pl ppl : keeps (others id) (ProxyRows.mark_active (X := X) env id t0 pl ppl None).
Proof.
  unfold ProxyRows.mark_active, get_by_id. apply bot_keeps_transaction; [apply _|apply others_about|]. pose proof (fun A => @others_select A id).
  pose proof (others_of_id id (fun a => proxy_in [ProxyPendingApply; ProxyApplyFailed] a) (activated t0 pl ppl None) (fun a => eq_refl)). keeps_tac.
Qed.
Lemma others_audit id a b c : keeps (others id) (socks_audit (X := X) env a b c).
Proof. apply best_effort_same; [apply _|]. apply bot_keeps_audit; [apply _|apply others_about|]. by intros f w. Qed.
Lemma others_access a : keeps (others (px_id a)) (startup_reconcile_access (X := X) env senv a).
Proof.
  pose proof (others_about (px_id a)) as HR. pose proof (tables_exists senv _ HR) as H1. pose proof (tables_lock senv _ HR) as H2. pose proof (tables_delete senv _ HR) as H3.
  pose proof (others_set_status (px_id a)) as H4. pose proof (others_active (px_id a)) as H5. pose proof (others_audit (px_id a)) as H6.
  pose proof (others_transition (px_id a)) as H7. pose proof (bot_keeps_now env _ HR) as H8.
  unfold startup_reconcile_access, recover_apply, finish_revoke, finish_delete, mark_revoked, mark_deleted, ignore_not_found. keeps_tac; by apply H7.
Qed.

Context `{!LinuxTools senv} (before : linux_users).
Abbreviation ok w := (accounted senv before w) (only parsing).

(** A row that the pass leaves alone from now on. *)
Definition UNSETTLED : list proxy_status := [ProxyPendingApply; ProxyPendingRevoke; ProxyPendingDelete; ProxyDeleteFailed].
Definition settled (a : proxy_access) : Prop := row_login a <> [] -> proxy_in UNSETTLED a = false.
(** After an update, the one row of its id. *)
Lemma updated_row p f a w w' n : update_proxies (X := X) env p f w = (Ok n, w') -> ok w -> a ∈ proxy_rows w -> p a = true ->
  (forall b, px_id (f b) = px_id b) -> forall b, b ∈ proxy_rows w' -> px_id b = px_id a -> b = f a.
Proof.
  intros (_ & [[_ ?]|[Hb _]])%update_proxies_run Hw Ha Hp Hf b Hin Hid; [done|]. unfold proxy_rows in Hin. rewrite Hb in Hin.
  apply list_elem_of_fmap in Hin as (b0 & -> & Hb0). destruct Hw as [Hi _].
  assert (b0 = a) as -> by (eapply (one_row _ _ _ Hi); [done|done|]; destruct (p b0); [by rewrite <- Hf|done]). by rewrite Hp.
Qed.
Lemma closed_settled a : may_exist a = false -> settled a.
Proof.
  unfold may_exist, settled, proxy_in. intros H _. revert H. by destruct (px_status a); vm_compute.
Qed.
(** One access: the users stay accounted for, and unless the pass counts it as failed it is
    settled. *)
Definition outcome (a : proxy_access) {A} (r : result bot_error A) w' : Prop :=
  ok w' /\ (is_ok r = true -> forall b, b ∈ proxy_rows w' -> px_id b = px_id a -> settled b).
Lemma finish_audit a actor action r w w' : bind (socks_audit env actor action (px_id a)) (fun _ => ret true) w = (r, w') -> unmoved w w'.
Proof.
  intros [([] & w1 & H1 & E)|(e & H1 & _)]%bind_inv; pose proof (keeps_run _ _ _ _ _ (unmoved_audit env _ _ _) H1); [|done]. by injection E as _ <-.
Qed.
Lemma settled_unmoved id w w' : unmoved w w' -> (forall b, b ∈ proxy_rows w -> px_id b = id -> settled b) ->
  forall b, b ∈ proxy_rows w' -> px_id b = id -> settled b.
Proof. intros [Hb _]. unfold proxy_rows. by rewrite Hb. Qed.
(** Finishing a revocation or a deletion. *)
Lemma finish_run a remove (there : bool) excluded f actor action w r w' : shuts senv before (row_login a) remove ->
  (forall t0 b, keeps_row b (f t0 b) /\ may_exist (f t0 b) = false) -> (forall b, proxy_in excluded b = true -> may_exist b = false) ->
  (there = false -> shut (system_users w) (row_login a)) -> held senv before (px_id a) (row_login a) w ->
  ((if there then catch (remove (row_login a)) ignore_not_found else ret tt) ;;!
   let! t0 := now env in transition env (px_id a) excluded (f t0) ;;! socks_audit env actor action (px_id a) ;;! ret true) w = (r, w') ->
  outcome a r w'.
Proof.
  intros Hs Hf Hx Ht Hh E.
  assert (forall r1 w1, (if there then catch (remove (row_login a)) ignore_not_found else ret tt) w = (r1, w1) ->
    held senv before (px_id a) (row_login a) w1 /\ (r1 = Ok tt -> shut (system_users w1) (row_login a))) as H1.
  { intros r1 w1. destruct there; [intros E1; eapply ignore_run; eauto|]. intros [= <- <-]. auto. }
  apply bind_inv in E as [([] & w1 & E1 & E)|(e & E1 & ->)]; destruct (H1 _ _ E1) as [Hh1 Hs1]; [|split; [apply Hh1|done]].
  specialize (Hs1 eq_refl).
  apply bind_inv in E as [(t0 & w2 & H2 & E)|(e & H2 & ->)]; pose proof (keeps_run _ _ _ _ _ (unmoved_now env) H2) as Hu2;
    pose proof (held_unmoved senv before _ _ _ _ Hu2 Hh1) as Hh2; [|split; [apply Hh2|done]]. rewrite <- (proj2 Hu2) in Hs1.
  apply bind_inv in E as [([] & w3 & H3 & E)|(e & H3 & ->)];
    destruct (closing_step env senv before _ _ _ _ _ _ _ H3 Hh2 (fun b => proj1 (Hf t0 b)) (fun _ => Hs1)) as (Hw3 & _); [|by split].
  pose proof (finish_audit _ _ _ _ _ _ E) as Hu. split; [by eapply ok_unmoved|]. intros _. apply (settled_unmoved _ _ _ Hu).
  intros b Hb Hid. apply closed_settled. eapply (transition_closed env _ _ _ _ _ H3); [intros c; apply Hf|intros c; apply Hf|done|done|done].
Qed.
(** The row [a] after [mark_active], which found it in a status it changes. *)
Lemma active_settled a t0 pl ppl w w' : ok w -> a ∈ proxy_rows w -> proxy_in [ProxyPendingApply; ProxyApplyFailed] a = true ->
  ProxyRows.mark_active (X := X) env (px_id a) t0 pl ppl None w = (Ok tt, w') -> forall b, b ∈ proxy_rows w' -> px_id b = px_id a -> settled b.
Proof.
  intros [Hi _] Ha Hst H b Hb Hid. unfold ProxyRows.mark_active in H. apply transaction_inv in H as (w1 & Ht1 & _ & H).
  apply bind_inv in H as [(o & w2 & H2 & H)|(? & _ & ?)]; [|done]. destruct o; [|done].
  apply bind_inv in H as [(n & w3 & H3 & H)|(? & _ & ?)]; [|done]. injection H as <-. apply select_run in H2 as (Ht2 & _).
  apply update_proxies_run in H3 as (_ & [[_ ?]|[Hb3 _]]); [done|]. unfold proxy_rows in *. rewrite Hb3, Ht2, Ht1 in Hb.
  apply list_elem_of_fmap in Hb as (b0 & -> & Hb0).
  assert (b0 = a) as -> by (eapply (one_row _ _ _ Hi); [done|done|]; by destruct (has_proxy_id (px_id a) b0 && _)).
  unfold has_proxy_id. by rewrite Z.eqb_refl, Hst.
Qed.
Lemma recover_run a there w r w' : held senv before (px_id a) (row_login a) w -> a ∈ proxy_rows w ->
  proxy_in [ProxyPendingApply; ProxyApplyFailed] a = true -> recover_apply (X := X) env a there w = (r, w') -> outcome a r w'.
Proof.
  intros Hh Ha Hst. unfold recover_apply. destruct there.
  - intros [(t0 & w2 & H2 & E)|(e & H2 & ->)]%bind_inv; pose proof (keeps_run _ _ _ _ _ (unmoved_now env) H2) as Hu2;
      pose proof (held_unmoved senv before _ _ _ _ Hu2 Hh) as Hh2; [|split; [apply Hh2|done]].
    apply bind_inv in E as [([] & w3 & H3 & E)|(e & H3 & ->)];
      pose proof (steady_run _ _ _ _ _ (steady_mark_active env senv before (px_id a) (row_login a) t0 _ _ eq_refl) H3 Hh2) as [Hw3 _]; [|by split].
    pose proof (finish_audit _ _ _ _ _ _ E) as Hu. split; [by eapply ok_unmoved|]. intros _. apply (settled_unmoved _ _ _ Hu).
    eapply active_settled; [apply Hh2| |exact Hst|exact H3]. unfold proxy_rows. by rewrite (proj1 Hu2).
  - destruct (proxy_in [ProxyApplyFailed] a) eqn:Hf.
    + intros [= <- <-]. split; [apply Hh|]. intros _ b Hb Hid. destruct Hh as [[Hi _] _].
      assert (b = a) as -> by (by eapply (one_row _ _ _ Hi)). intros _. unfold proxy_in in *. bool_prop.
      apply list_elem_of_singleton in Hf. by rewrite Hf.
    + intros [([] & w1 & E1 & E)|(e & E1 & ->)]%bind_inv; apply bind_inv in E1 as [(t0 & w2 & H2 & H3)|(? & H2 & ?)]; try done;
        pose proof (keeps_run _ _ _ _ _ (unmoved_now env) H2) as Hu2; pose proof (held_unmoved senv before _ _ _ _ Hu2 Hh) as Hh2;
        destruct (set_status_held env senv before _ _ _ _ _ _ _ _ H3 eq_refl (proj1 Hh2)) as (Hw3 & _); [|by split].
      injection E as <- <-. split; [done|]. intros _ b Hb Hid. unfold ProxyRows.set_status in H3.
      apply bind_inv in H3 as [(n & w4 & H4 & H3)|(? & _ & ?)]; [|done]. injection H3 as <-.
      assert (b = with_proxy_status ProxyApplyFailed t0 (Some MISSING_TEXT) None a) as ->; [|done].
      eapply updated_row; [exact H4|apply Hh2|unfold proxy_rows; by rewrite (proj1 Hu2)|unfold has_proxy_id; apply Z.eqb_refl|done|done|done].
Qed.

Lemma access_run a w r w' : startup_reconcile_access (X := X) env senv a w = (r, w') -> ok w -> a ∈ proxy_rows w -> px_type a = SOCKS5 ->
  outcome a r w'.
Proof.
  intros E Hw Ha Ht. unfold startup_reconcile_access in E. change (login_of (px_payload a)) with (row_login a) in E.
  assert (forall v, unmoved w v -> (row_login a = [] \/ proxy_in UNSETTLED a = false) -> outcome a (Ok false) v) as Hskip.
  { intros v Hu Hs. split; [by eapply ok_unmoved|]. intros _. apply (settled_unmoved _ _ _ Hu). intros b Hb Hid.
    destruct Hw as [Hi _]. assert (b = a) as -> by (by eapply (one_row _ _ _ Hi)). intros Hne. by destruct Hs. }
  destruct (row_login a) as [|c l] eqn:El; [injection E as <- <-; apply Hskip; auto; reflexivity|]. rewrite <- El in *. clear c l El.
  apply bind_inv in E as [(there & w1 & [Hu Hex]%(exists_run senv) & E)|(e & [Hu _]%(exists_run senv) & ->)]; [|split; [by eapply ok_unmoved|done]].
  assert (may_exist a = true -> held senv before (px_id a) (row_login a) w1) as Hh.
  { intros Hm. split; [by eapply ok_unmoved|]. exists a. unfold proxy_rows. by rewrite (proj1 Hu). }
  assert (a ∈ proxy_rows w1) as Ha1 by (unfold proxy_rows; by rewrite (proj1 Hu)).
  assert (there = false -> shut (system_users w1) (row_login a)) as Hno.
  { intros ->. destruct Hex as [Hn _]. intros u. rewrite (proj2 Hu), Hn. done. }
  assert (forall l, proxy_in l a = true -> (forall s, s ∈ l -> negb (bool_decide (s ∈ [ProxyRevoked; ProxyInactive; ProxyDeleted])) = true) -> may_exist a = true) as Hopen.
  { intros l Hl Hs. unfold proxy_in in Hl. bool_prop. by apply Hs. }
  destruct (proxy_in [ProxyPendingApply; ProxyApplyFailed] a) eqn:H1.
  { eapply recover_run; [|exact Ha1|exact H1|exact E]. apply Hh, (Hopen _ H1). intros s. by repeat (intros [->|Hs]%elem_of_cons; [done|revert Hs]); intros ?%elem_of_nil. }
  destruct (proxy_in [ProxyPendingRevoke] a) eqn:H2.
  { eapply (finish_run a (lock_user senv) there [ProxyRevoked; ProxyDeleted]
      (fun t0 => withdrawn ProxyRevoked true (or_id (px_revoked_by a) (px_created_by a)) t0 (px_reason a))); [by apply shuts_lock|done| |exact Hno| |exact E].
    - intros b. apply excluded_closed. set_solver.
    - apply Hh, (Hopen _ H2). by intros s ->%list_elem_of_singleton. }
  destruct (proxy_in [ProxyPendingDelete; ProxyDeleteFailed] a) eqn:H3.
  { eapply (finish_run a (delete_user senv) there [ProxyDeleted]
      (fun t0 => erased (or_id (px_deleted_by a) (or_id (px_revoked_by a) (px_created_by a))) t0 (px_reason a))); [by apply shuts_delete|done| |exact Hno| |exact E].
    - intros b. apply excluded_closed. set_solver.
    - apply Hh, (Hopen _ H3). intros s. by repeat (intros [->|Hs]%elem_of_cons; [done|revert Hs]); intros ?%elem_of_nil. }
  injection E as <- <-. apply Hskip; [done|]. right. unfold proxy_in in *. revert H1 H2 H3. by destruct (px_status a); vm_compute.
Qed.

(** ** The loop *)

Definition turn (s : reconcile_summary) (o : result bot_error bool) : reconcile_summary :=
  match o with
  | Ok true => ReconcileSummary (rs_checked s + 1) (rs_recovered s + 1) (rs_failed s)
  | Ok false => ReconcileSummary (rs_checked s + 1) (rs_recovered s) (rs_failed s)
  | Err _ => ReconcileSummary (rs_checked s + 1) (rs_recovered s) (rs_failed s + 1)
  end.
(** A batch: every row of it has its turn, the other rows are as they were. *)
Lemma batch_run batch : forall s w, ok w -> NoDup (map px_id batch) -> (forall a, a ∈ batch -> a ∈ proxy_rows w /\ px_type a = SOCKS5) ->
  exists s' w', reconcile_accesses (X := X) env senv batch s w = (Ok s', w') /\ ok w' /\ rs_failed s <= rs_failed s'
    /\ map px_id (proxy_rows w') = map px_id (proxy_rows w)
    /\ (forall b, px_id b ∉ map px_id batch -> b ∈ proxy_rows w' <-> b ∈ proxy_rows w)
    /\ (rs_failed s' = rs_failed s -> forall b, b ∈ proxy_rows w' -> px_id b ∈ map px_id batch -> settled b).
Proof.
  induction batch as [|a rest IH]; intros s w Hw Hn Hin; cbn [reconcile_accesses].
  { exists s, w. split; [done|]. split; [done|]. split; [lia|]. split; [done|]. split; [done|]. intros _ b _ ?%elem_of_nil. done. }
  apply NoDup_cons in Hn as [Ha Hn]. destruct (Hin a ltac:(by left)) as [Harow Hat].
  unfold bind at 1, attempt. destruct (startup_reconcile_access env senv a w) as [o w1] eqn:E.
  pose proof (others_access a w) as Hoth. rewrite E in Hoth. cbn [snd] in Hoth. destruct Hoth as [Hids Hoth].
  apply access_run in E as [Hw1 Hset]; [|done..].
  destruct (IH (turn s o) w1 Hw1 Hn) as (s' & w' & E' & Hw' & Hle & Hids' & Hoth' & Hset').
  { intros b Hb. destruct (Hin b ltac:(by right)) as [Hbrow Hbt]. split; [|done]. apply Hoth; [|done].
    intros Hid. apply Ha. rewrite <- Hid. by apply list_elem_of_fmap_2. }
  assert (rs_failed s <= rs_failed (turn s o)) as Hle0 by (destruct o as [[]|]; cbn; lia).
  exists s', w'. split; [by destruct o as [[]|]|]. split; [done|]. split; [lia|]. split; [congruence|]. split.
  - intros b [Hb1 Hb2]%not_elem_of_cons. by rewrite Hoth', Hoth.
  - intros Hf b Hb [Hid|Hid]%elem_of_cons; [|apply Hset'; [lia|done|done]].
    apply Hset; [destruct o as [[]|]; cbn in *; try done; lia| |done]. apply Hoth'; [by rewrite Hid|done].
Qed.

(** The accesses the pass still has before it, past an id. *)
Definition pending_after (last : Z) (a : proxy_access) : bool :=
  bool_decide (px_type a = SOCKS5) && proxy_in SOCKS5_STARTUP_RECONCILE_STATUSES a && (last <? px_id a).
Lemma socks_batch_read last w r w' : list_by_type_statuses (X := X) env SOCKS5 SOCKS5_STARTUP_RECONCILE_STATUSES 500 last w = (r, w') ->
  unmoved w w' /\ r <> Err Unfinished /\ forall batch, r = Ok batch -> batch = take 500 (List.filter (pending_after last) (proxy_rows w)).
Proof.
  unfold list_by_type_statuses, SOCKS5_STARTUP_RECONCILE_STATUSES at 1. intros E. split; [by eapply keeps_run; [apply unmoved_proxies|]|].
  split; [intros ->; exact (finishes_select env _ w (f_equal fst E))|]. intros batch ->. apply select_run in E as (_ & _ & H). by rewrite (H _ eq_refl).
Qed.
Lemma last_map {A} (l : list A) (f : A -> Z) d : match last l with Some a => f a | None => d end = List.last (map f l) d.
Proof.
  induction l as [|x l IH]; [done|]. destruct l as [|y l]; [done|]. change (last (x :: y :: l)) with (last (y :: l)). by rewrite IH.
Qed.
(** The whole pass, from an id on: everything up to it is settled. *)
Definition settled_up_to (last : Z) w : Prop := forall a, a ∈ proxy_rows w -> px_type a = SOCKS5 -> px_id a <= last -> settled a.
Definition ids_ahead (last : Z) w : nat := length (List.filter (fun id => last <? id) (map px_id (proxy_rows w))).
(** What the rows of a batch are: in the table, in the order of their ids, past the last one;
    and they are all there is up to the last of them. *)
Lemma batch_rows last w batch : proxy_ids_ok (bt_proxies (bw_tables w)) -> batch = take 500 (List.filter (pending_after last) (proxy_rows w)) ->
  StronglySorted Z.lt (map px_id batch) /\ (forall a, a ∈ batch -> a ∈ proxy_rows w /\ px_type a = SOCKS5 /\ last < px_id a)
  /\ (forall a, a ∈ proxy_rows w -> px_type a = SOCKS5 -> last < px_id a -> ~ settled a -> px_id a <= List.last (map px_id batch) last -> a ∈ batch)
  /\ (batch = [] -> forall a, a ∈ proxy_rows w -> px_type a = SOCKS5 -> last < px_id a -> settled a).
Proof.
  intros [Hs _] ->. set (l := List.filter _ _).
  assert (forall a, a ∈ l <-> a ∈ proxy_rows w /\ pending_after last a = true) as Hl by (intros a; unfold l; by rewrite !list_elem_of_In, filter_In).
  assert (StronglySorted Z.lt (map px_id l)) as Hsl by (eapply sorted_sublist; [apply map_sublist, filter_sublist|exact Hs]).
  assert (forall a, px_type a = SOCKS5 -> last < px_id a -> a ∈ proxy_rows w -> ~ settled a -> a ∈ l) as Hin.
  { intros a Ht Hid Ha Hn. apply Hl. split; [done|]. unfold pending_after. rewrite bool_decide_eq_true_2, (proj2 (Z.ltb_lt _ _) Hid), andb_true_r by done.
    cbn. unfold proxy_in. destruct (bool_decide _) eqn:E; [done|]. exfalso. apply Hn. intros _. revert E. unfold proxy_in. by destruct (px_status a); vm_compute. }
  rewrite <- (take_drop 500 l), map_app in Hsl. apply StronglySorted_app in Hsl as (Hlt & Hst & _). split; [done|]. split; [|split].
  - intros a Ha. apply elem_of_take in Ha as (i & Ha & _). apply list_elem_of_lookup_2, Hl in Ha as [Ha Hp]. unfold pending_after in Hp. bool_prop. auto.
  - intros a Ha Ht Hid Hn Hle. specialize (Hin a Ht Hid Ha Hn). rewrite <- (take_drop 500 l) in Hin. apply elem_of_app in Hin as [Hin|Hin]; [done|].
    exfalso. destruct (take 500 l) as [|b rest] eqn:Eb; [cbn in Hle; lia|].
    assert (List.last (map px_id (b :: rest)) last ∈ map px_id (b :: rest)) as Hlast by apply last_in.
    specialize (Hlt _ (px_id a) Hlast (list_elem_of_fmap_2 px_id _ _ Hin)). lia.
  - intros Hnil a Ha Ht Hid. destruct l as [|b rest]; [|done]. intros Hne. destruct (proxy_in UNSETTLED a) eqn:E; [|done].
    assert (a ∈ []) as []%elem_of_nil. apply Hin; [done..|]. intros Hset. specialize (Hset Hne). congruence.
Qed.

Lemma settled_or_not a : settled a \/ ~ settled a.
Proof.
  unfold settled. destruct (row_login a); [by left|]. destruct (proxy_in UNSETTLED a); [right|by left].
  intros H. by specialize (H ltac:(done)).
Qed.
Lemma pass_run fuel : forall last s w r w', ok w -> (ids_ahead last w < fuel)%nat -> reconcile_from (X := X) env senv fuel last s w = (r, w') ->
  r <> Err Unfinished /\ ok w' /\ forall s', r = Ok s' -> rs_failed s <= rs_failed s'
    /\ (settled_up_to last w -> rs_failed s' = rs_failed s -> forall a, a ∈ proxy_rows w' -> px_type a = SOCKS5 -> settled a).
Proof.
  induction fuel as [|fuel IH]; intros last s w r w' Hw Hfuel; [lia|]. cbn [reconcile_from].
  intros [(batch & w1 & (Hu & _ & Hb)%socks_batch_read & E)|(e & (Hu & Hne & _)%socks_batch_read & ->)]%bind_inv.
  2:{ split; [intros [= ->]; by apply Hne|]. split; [by eapply ok_unmoved|done]. }
  assert (ok w1) as Hw1 by (by eapply ok_unmoved). assert (proxy_rows w1 = proxy_rows w) as Hr1 by (unfold proxy_rows; by rewrite (proj1 Hu)).
  specialize (Hb _ eq_refl). rewrite <- Hr1 in Hb. apply batch_rows in Hb as (Hsort & Hrows & Hall & Hnil); [|apply Hw1].
  destruct batch as [|k rest].
  { injection E as <- <-. split; [done|]. split; [done|]. intros s' [= <-]. split; [lia|]. intros Hset _ a Ha Ht.
    destruct (Z.le_gt_cases (px_id a) last); [apply Hset; [by rewrite <- Hr1|done|lia]|by apply Hnil]. }
  destruct (batch_run (k :: rest) s w1 Hw1 (sorted_distinct _ Hsort)) as (s1 & w2 & E1 & Hw2 & Hle & Hids & Hoth & Hset); [by intros a (H1 & H2 & _)%Hrows|].
  unfold bind in E. rewrite E1 in E. rewrite last_map in E. set (next := List.last _ last) in *.
  assert (next ∈ map px_id (k :: rest)) as Hnext by apply last_in.
  assert (last < next /\ next ∈ map px_id (proxy_rows w)) as [Hlt Hin].
  { pose proof Hnext as (a & -> & Ha)%list_elem_of_fmap. apply Hrows in Ha as (Ha & _ & Hlt). split; [done|]. rewrite <- Hr1. by apply list_elem_of_fmap_2. }
  apply IH in E as (Hne & Hw' & Hend); [|done|].
  2:{ unfold ids_ahead in *. rewrite Hids, Hr1. pose proof (ahead_next last next _ Hlt Hin). lia. }
  split; [done|]. split; [done|]. intros s' Hs'. destruct (Hend s' Hs') as [Hle' Hfin]. split; [lia|]. intros Hup Heq. apply Hfin; [|lia].
  intros a Ha Ht Hid. destruct (decide (px_id a ∈ map px_id (k :: rest))) as [Hb|Hb]; [by apply Hset; [lia| |]|].
  apply Hoth in Ha; [|done]. destruct (Z.le_gt_cases (px_id a) last); [apply Hup; [by rewrite <- Hr1|done|lia]|].
  destruct (settled_or_not a) as [|Hn]; [done|]. exfalso. apply Hb, list_elem_of_fmap_2, Hall; auto.
Qed.

(** C32 The pass at start-up ends, and finishes what it does not report. Whatever fails,
    [reconcile_socks5_state] returns or raises an exception of the code, and leaves
    the system users accounted for; and when it returns having counted no failure,
    no SOCKS5 access that names a login is left waiting to be applied, revoked or deleted. *)
Theorem startup_pass_settles w r w' : ok w -> Forall (fun a => 0 < px_id a) (proxy_rows w) -> reconcile_socks5_state (X := X) env senv w = (r, w') ->
  r <> Err Unfinished /\ ok w'
  /\ forall s, r = Ok s -> rs_failed s = 0 -> forall a, a ∈ proxy_rows w' -> px_type a = SOCKS5 -> row_login a <> [] ->
       px_status a ∉ [ProxyPendingApply; ProxyPendingRevoke; ProxyPendingDelete; ProxyDeleteFailed].
Proof.
  intros Hw Hpos E. unfold reconcile_socks5_state, bind, gets in E. apply pass_run in E as (H1 & H2 & H3); [|done|].
  - split; [done|]. split; [done|]. intros s -> Hf a Ha Ht Hl. destruct (H3 _ eq_refl) as [_ H4]. cbn in H4.
    specialize (H4 ltac:(intros b Hb _ Hle; rewrite Forall_elem in Hpos; specialize (Hpos _ Hb); cbn in Hpos; lia) Hf a Ha Ht Hl).
    unfold proxy_in in H4. by bool_prop.
  - unfold ids_ahead. pose proof (sublist_length _ _ (filter_sublist (fun id => 0 <? id) (map px_id (proxy_rows w)))) as Hlen.
    rewrite length_map in Hlen. unfold proxy_rows in *. lia.
Qed.

End Startup.
