(* ===== verification/ProxyIssue.v ===== *)
(** * A SOCKS5 access that is handed out works

    [issue_socks5_proxy] on the two branches that return: the row of before, shown
    again, and the row that [issue_new] takes through its statuses. *)

From S2P Require Import Prelude PyText Json IsoTime Triples AwgConfig VpnKeys BackendHealth AwgService KeyRows BotDb Accounts AccountSafety BlockSafety RequestSafety HysteriaIssue DanteUsers ProxyRows Socks5 ProxySafety ProxyStartup.
#[local] Open Scope Z_scope.

Section Issue.
Context {X : Type} `{HP : Part X socks_host} (env : bot_env) (senv : socks_env) `{!LinuxTools senv}.
Implicit Types w : bot_world X.
Abbreviation BM := (M (bot_world X) bot_error) (only parsing).

(** ** The row, step by step *)

(** [a] is a row, and its id is nobody else's. *)
Definition row_is (a : proxy_access) w : Prop := proxy_ids_ok (bt_proxies (bw_tables w)) /\ a ∈ proxy_rows w.
Lemma row_unmoved a w w' : unmoved w w' -> row_is a w -> row_is a w'.
Proof. intros [Hb _] [H1 H2]. unfold row_is, proxy_rows in *. by rewrite Hb. Qed.
Lemma row_updated p f a w w' n : update_proxies (X := X) env p f w = (Ok n, w') -> (forall b, px_id (f b) = px_id b) ->
  row_is a w -> row_is (if p a then f a else a) w' /\ system_users w' = system_users w.
Proof.
  intros (Hu & [[_ ?]|[Hb _]])%update_proxies_run Hf [Hi Ha]; [done|]. split; [|done]. unfold row_is, proxy_rows. rewrite Hb.
  split; [by apply map_ids_ok|by apply map_rows_elem].
Qed.
Lemma row_activated a t0 pl ppl w w' : row_is a w -> proxy_in [ProxyPendingApply; ProxyApplyFailed] a = true ->
  ProxyRows.mark_active (X := X) env (px_id a) t0 pl ppl None w = (Ok tt, w') ->
  row_is (ProxyRows.activated t0 pl ppl None a) w' /\ system_users w' = system_users w.
Proof.
  intros Ha Hst H. unfold ProxyRows.mark_active, transaction in H.
  apply bind_inv in H as [([] & w1 & H1 & H)|(e & _ & ?)]; [|done]. pose proof (keeps_run _ _ _ _ _ (unmoved_sql env) H1) as Hu1.
  set (m := bind _ _) in H. destruct (m w1) as [[[]|e] w2] eqn:Em; [|done]. injection H as <-. subst m.
  apply bind_inv in Em as [(o & w3 & H3 & E)|(? & _ & ?)]; [|done]. pose proof (keeps_run _ _ _ _ _ (unmoved_proxies env _) H3) as Hu3.
  destruct o; [|done]. apply bind_inv in E as [(n & w4 & H4 & E)|(? & _ & ?)]; [|done]. injection E as <-.
  eapply row_updated in H4 as [H4 Hus]; [|done|eapply row_unmoved; [exact Hu3|by eapply row_unmoved]].
  unfold has_proxy_id in H4. rewrite Z.eqb_refl, Hst in H4. split; [exact H4|]. by rewrite Hus, (proj2 Hu3), (proj2 Hu1).
Qed.
Lemma row_shown a b actor w w' : row_is a w -> px_id b = px_id a -> mark_access_shown (X := X) env b actor w = (Ok tt, w') ->
  (exists t0, row_is (shown t0 a) w') /\ system_users w' = system_users w.
Proof.
  intros Ha Hid. unfold mark_access_shown. intros [(t0 & w1 & H1 & E)|(e & _ & ?)]%bind_inv; [|done].
  pose proof (keeps_run _ _ _ _ _ (unmoved_now env) H1) as Hu1.
  apply bind_inv in E as [([] & w2 & H2 & E)|(e & _ & ?)]; [|done]. pose proof (keeps_run _ _ _ _ _ (unmoved_audit env _ _ _) E) as Hu2.
  unfold ProxyRows.mark_shown in H2. apply bind_inv in H2 as [(n & w3 & H2 & H3)|(e & _ & ?)]; [|done]. injection H3 as <-.
  eapply row_updated in H2 as [H2 Hus]; [|done|by eapply row_unmoved]. unfold has_proxy_id in H2. rewrite Hid, Z.eqb_refl in H2.
  split; [exists t0; by eapply row_unmoved|]. by rewrite (proj2 Hu2), Hus, (proj2 Hu1).
Qed.
(** What is read back is the row. *)
Lemma row_read a b w w' : row_is a w -> get_access (X := X) env (px_id a) w = (Ok b, w') -> b = a /\ unmoved w w'.
Proof.
  intros [Hi Ha] [Hu Hb]%get_access_run. split; [|done]. destruct (Hb _ eq_refl) as [Hin Hid]. by eapply (one_row _ _ _ Hi).
Qed.

Lemma mutation_same w : (require_mutation (X := X) w).2 = w.
Proof. unfold require_mutation, socks_state, bind, gets. by destruct (require_mutation_allowed _ _). Qed.
Lemma enabled_same w : (ensure_enabled (X := X) senv w).2 = w.
Proof. unfold ensure_enabled. by repeat case_match. Qed.
Lemma can_issue_run actor owner w w' u : ensure_can_issue (X := X) env actor owner w = (Ok u, w') -> may_issue actor owner false w.
Proof.
  unfold ensure_can_issue. intros [(a & w1 & [H1 Ha]%approved_run & E)|(? & _ & ?)]%bind_inv; [|done].
  destruct (Ha _ eq_refl) as [Hua _]. apply bind_inv in E as [(o & w2 & [_ Ho]%approved_run & E)|(? & _ & ?)]; [|done].
  rewrite H1 in Ho. destruct (Ho _ eq_refl) as [Huo Hro]. destruct (negb (bool_decide _) && negb (actor =? owner)) eqn:Hself; [done|].
  case_bool_decide as Hr; [|done]. exists a, o. split; [done|]. split; [done|]. split; [|split; [|by right]].
  - apply andb_false_iff in Hself as [Hs|Hs]; apply negb_false_iff in Hs; bool_prop; auto.
  - destruct Hro as [Hm|[_ Hb]]; [|by right]. left. apply list_elem_of_In in Hm, Hr. cbn in Hm, Hr. intuition congruence.
Qed.

(** ** The two ways [issue_socks5_proxy] returns *)

Definition handed_over (p : profile) (a : proxy_access) w w' : Prop :=
  row_is a w' /\ px_owner a = pf_id p /\ px_type a = SOCKS5 /\ px_status a = ProxyActive.
Lemma apply_run actor owner id login password w w' : apply_access (X := X) env senv actor owner id login password w = (Ok tt, w') ->
  bt_proxies (bw_tables w') = bt_proxies (bw_tables w)
  /\ exists w1, unmoved w w1 /\ create_user senv login password w1 = (Ok tt, w').
Proof.
  unfold apply_access, catch. destruct (bind _ _ w) as [[[]|e] w1] eqn:E1.
  - intros [= <-]. apply bind_inv in E1 as [([] & w2 & H2 & E1)|(? & _ & ?)]; [|done].
    pose proof (keeps_run _ _ _ _ _ (unmoved_can_issue env _ _) H2) as Hu. split; [|by exists w2]. rewrite <- (proj1 Hu).
    assert (keeps (fun v v' => bt_proxies (bw_tables v') = bt_proxies (bw_tables v)) (create_user senv login password)) as Hk.
    { apply tables_create; [split; [by intros v|by intros a b c -> ->]|]. by intros v v' ->. }
    by eapply keeps_run in Hk.
  - cbv zeta. intros [(t0 & w2 & _ & E)|(? & _ & ?)]%bind_inv; [|done]. apply bind_inv in E as [([] & w3 & _ & E)|(? & _ & ?)]; [|done].
    apply bind_inv in E as [([] & w4 & _ & E)|(? & _ & ?)]; [|done]. by case_bool_decide.
Qed.
Lemma socks_activate_run actor id login pl ppl w w' : activate_access (X := X) env senv actor id login pl ppl w = (Ok tt, w') ->
  exists t0 w1, unmoved w w1 /\ ProxyRows.mark_active env id t0 (Some pl) (Some ppl) None w1 = (Ok tt, w').
Proof.
  unfold activate_access, catch. destruct (bind (now env) _ w) as [[[]|e] w1] eqn:E1.
  - intros [= <-]. apply bind_inv in E1 as [(t0 & w2 & H2 & E1)|(? & _ & ?)]; [|done].
    pose proof (keeps_run _ _ _ _ _ (unmoved_now env) H2) as Hu. eauto.
  - intros [([] & w2 & _ & E)|(? & _ & ?)]%bind_inv; done.
Qed.
(** What [issue_new] gives out. *)
Definition fresh_access (p : profile) (a : proxy_access) w w' : Prop := exists port login password,
  px_id a = sr_seq (bt_proxies (bw_tables w)) + 1 /\ px_payload a = socks_payload senv port login password
  /\ system_users w !! login = None /\ system_users w' !! login = Some (LinuxUser (Some password) false).
Lemma fresh_row_run before actor p login password port t0 w r w' : accounted senv before w ->
  (let! a := ProxyRows.create env (pf_id p) (pf_username p) SOCKS5 ProxyPendingApply (socks_payload senv port login password)
               (socks_public_payload senv port login) actor t0 None 0 in
   apply_access env senv actor (pf_id p) (px_id a) login password ;;!
   activate_access env senv actor (px_id a) login (socks_payload senv port login password) (socks_public_payload senv port login) ;;!
   socks_audit env (Some actor) (py "socks5_proxy_created") (px_id a) ;;!
   let! active := get_access env (px_id a) in
   mark_access_shown env active actor ;;!
   get_access env (px_id a)) w = (Ok r, w') ->
  row_is r w' /\ px_owner r = pf_id p /\ px_type r = SOCKS5 /\ px_status r = ProxyActive
  /\ px_id r = sr_seq (bt_proxies (bw_tables w)) + 1 /\ px_payload r = socks_payload senv port login password
  /\ system_users w !! login = None /\ system_users w' !! login = Some (LinuxUser (Some password) false).
Proof.
  intros Hw. set (pl := socks_payload _ _ _ _). set (ppl := socks_public_payload _ _ _).
  intros [(a & w1 & H1 & E)|(? & _ & ?)]%bind_inv; [|done].
  apply (create_row_run env senv before) in H1 as (Hu1 & [[_ ?]|[Hb1 Ha]]); [done| |done]. specialize (Ha _ eq_refl).
  pose proof (ok_append senv before _ _ _ _ _ _ _ _ Hw Hu1 Hb1) as Hh1. change (login_of pl) with login in Hh1.
  set (id := sr_seq _ + 1) in *. assert (row_is a w1) as Hr1.
  { split; [apply Hh1|]. unfold proxy_rows. rewrite Hb1. subst a. cbn. apply elem_of_app. right. by apply list_elem_of_singleton. }
  assert (px_id a = id) as Hid by (by subst a). rewrite Hid in E.
  apply bind_inv in E as [([] & w2 & (Hb2 & w1' & Hu1' & H2)%apply_run & E)|(? & _ & ?)]; [|done].
  assert (row_is a w2) as Hr2 by (unfold row_is, proxy_rows in *; by rewrite Hb2).
  destruct (create_run senv before id login password _ _ _ H2 (held_unmoved senv before _ _ _ _ Hu1' Hh1)) as [_ Hc].
  destruct (Hc eq_refl) as [Hnone Huser]. rewrite (proj2 Hu1'), Hu1 in Hnone. clear Hc.
  apply bind_inv in E as [([] & w3 & (t1 & w2' & Hu2' & H3)%socks_activate_run & E)|(? & _ & ?)]; [|done].
  rewrite <- Hid in H3. apply (row_activated a) in H3 as [Hr3 Hu3]; [|by eapply row_unmoved|by subst a].
  apply bind_inv in E as [([] & w4 & H4 & E)|(? & _ & ?)]; [|done]. pose proof (keeps_run _ _ _ _ _ (unmoved_audit env _ _ _) H4) as Hu4.
  apply bind_inv in E as [(b & w5 & H5 & E)|(? & _ & ?)]; [|done]. rewrite <- Hid in H5.
  apply (row_read (ProxyRows.activated t1 (Some pl) (Some ppl) None a)) in H5 as [-> Hu5]; [|by eapply row_unmoved].
  apply bind_inv in E as [([] & w6 & H6 & E)|(? & _ & ?)]; [|done].
  eapply row_shown in H6 as [[t2 Hr6] Hu6]; [|eapply row_unmoved; [exact Hu5|by eapply row_unmoved]|done].
  rewrite <- Hid in E. apply (row_read _ _ _ _ Hr6) in E as [-> Hu7].
  split; [by eapply row_unmoved|]. subst a. cbn. do 5 (split; [done|]). split; [exact Hnone|].
  by rewrite (proj2 Hu7), Hu6, (proj2 Hu5), (proj2 Hu4), Hu3, (proj2 Hu2').
Qed.
Lemma issue_new_run before actor p w a w' : accounted senv before w -> issue_new (X := X) env senv actor p w = (Ok a, w') ->
  handed_over p a w w' /\ fresh_access p a w w'.
Proof.
  intros Hw. unfold issue_new. intros [([] & w1 & H1 & E)|(? & _ & ?)]%bind_inv; [|done].
  pose proof (keeps_run _ _ _ _ _ (unmoved_mutation env) H1) as Hu.
  apply bind_inv in E as [([] & w2 & H2 & E)|(? & _ & ?)]; [|done].
  pose proof (transitivity Hu (keeps_run _ _ _ _ _ (unmoved_can_issue env _ _) H2)) as Hu2. clear H1 H2 Hu.
  apply bind_inv in E as [(login & w3 & H3 & E)|(? & _ & ?)]; [|done].
  pose proof (transitivity Hu2 (keeps_run _ _ _ _ _ (unique_login_unmoved env senv _) H3)) as Hu3. clear H3 Hu2.
  apply bind_inv in E as [(password & w4 & H4 & E)|(? & _ & ?)]; [|done].
  pose proof (transitivity Hu3 (keeps_run _ _ _ _ _ (unmoved_ask _) H4)) as Hu4. clear H4 Hu3.
  apply bind_inv in E as [(port & w5 & H5 & E)|(? & _ & ?)]; [|done].
  pose proof (transitivity Hu4 (keeps_run _ _ _ _ _ (unmoved_port env senv) H5)) as Hu5. clear H5 Hu4. cbv zeta in E.
  apply bind_inv in E as [(t0 & w6 & H6 & E)|(? & _ & ?)]; [|done].
  pose proof (transitivity Hu5 (keeps_run _ _ _ _ _ (unmoved_now env) H6)) as Hu6. clear H6 Hu5.
  apply (fresh_row_run before) in E as (H1 & H2 & H3 & H4 & H5 & H6 & H7 & H8); [|by eapply ok_unmoved].
  rewrite (proj2 Hu6) in H7. rewrite (proj1 Hu6) in H5. split; [done|]. by exists port, login, password.
Qed.

(** C10 An access that is handed out works. When [issue_socks5_proxy] returns, the owner is not
    blocked, the actor is the owner or a superadmin, and the access is an active
    row of the owner's. Either it was one before, and nobody's system user has changed;
    or it is a new row, whose login was free and now has the password of the
    payload. *)
Theorem issued_proxy_works actor p w a w' : accounted senv (system_users w) w -> issue_socks5_proxy (X := X) env senv actor p w = (Ok a, w') ->
  may_issue actor (pf_id p) false w
  /\ a ∈ proxy_rows w' /\ px_owner a = pf_id p /\ px_type a = SOCKS5 /\ px_status a = ProxyActive
  /\ (fresh_access p a w w'
      \/ system_users w' = system_users w
         /\ exists b, b ∈ proxy_rows w /\ px_id b = px_id a /\ px_status b = ProxyActive /\ px_payload b = px_payload a).
Proof.
  intros Hw. unfold issue_socks5_proxy. intros [([] & w1 & H1 & E)|(? & _ & ?)]%bind_inv; [|done].
  assert (w1 = w) as -> by (pose proof (enabled_same w) as Hs; rewrite H1 in Hs; done). clear H1.
  apply bind_inv in E as [([] & w1 & H1 & E)|(? & _ & ?)]; [|done].
  assert (w1 = w) as -> by (pose proof (mutation_same w) as Hs; rewrite H1 in Hs; done). clear H1.
  apply bind_inv in E as [([] & w2 & H2 & E)|(? & _ & ?)]; [|done]. split; [by eapply can_issue_run|].
  pose proof (keeps_run _ _ _ _ _ (unmoved_can_issue env _ _) H2) as Hu2.
  apply bind_inv in E as [(o & w3 & H3 & E)|(? & _ & ?)]; [|done].
  pose proof (transitivity Hu2 (keeps_run _ _ _ _ _ (unmoved_active env _) H3)) as Hu3.
  destruct o as [b|].
  - unfold active_access, find_user_access_by_type_statuses in H3. apply select_run in H3 as (_ & _ & Hb). specialize (Hb _ eq_refl).
    symmetry in Hb. apply find_some in Hb as [Hin Hb]. apply list_elem_of_In in Hin. bool_prop. unfold proxy_in in *. bool_prop.
    assert (row_is b w3) as Hr3. { destruct Hw as [Hi _]. unfold row_is, proxy_rows. rewrite (proj1 Hu3). by rewrite (proj1 Hu2) in Hin. }
    apply bind_inv in E as [([] & w4 & H4 & E)|(? & _ & ?)]; [|done]. eapply row_shown in H4 as [[t0 Hr4] Hu4]; [|exact Hr3|done].
    eapply (row_read (shown t0 b)) in E as [-> Hu5]; [|exact Hr4]. split; [by eapply row_unmoved|].
    assert (px_status b = ProxyActive) as Hst by (by apply list_elem_of_singleton). cbn.
    split; [done|]. split; [done|]. split; [done|]. right. split; [by rewrite (proj2 Hu5), Hu4, (proj2 Hu3)|].
    exists b. split; [|done]. unfold proxy_rows. by rewrite <- (proj1 Hu2).
  - apply (issue_new_run (system_users w)) in E as [(Hr & Ho & Ht & Hs) Hf]; [|by eapply ok_unmoved].
    split; [apply Hr|]. do 3 (split; [done|]). left. unfold fresh_access in *. by rewrite (proj1 Hu3), (proj2 Hu3) in Hf.
Qed.
End Issue.
