(* ===== verification/ProxyBlock.v ===== *)
(** * SOCKS5 accesses over time, and under a block

    Every sequence of what is asked of the SOCKS5 service leaves the system users
    accounted for; and the block of a user, with that service among the revokers,
    shuts the user's logins or names the accesses that stay. *)

From S2P Require Import Prelude PyText Json IsoTime Triples AwgConfig VpnKeys BackendHealth AwgService KeyRows BotDb Accounts AccountSafety BlockSafety RequestSafety DanteUsers ProxyRows Socks5 ProxySafety ProxyStartup ProxyIssue.
#[local] Open Scope Z_scope.

(** Everything that is asked of the service, by the handlers, by the other services and
    at start-up. *)
Inductive socks_op :=
  | IssueSocks (actor : Z) (p : profile) | ShowSocks (actor : Z) | ListSocks (actor : Z)
  | RevokeSocks (actor id : Z) (reason : option str) | RevokeSocksSystem (actor id : Z) (reason : option str)
  | DeleteSocks (actor id : Z) (reason : option str) | StartUpSocks.

Section Block.
Context {X : Type} `{HP : Part X socks_host} (env : bot_env) (senv : socks_env).
Implicit Types w : bot_world X.
Abbreviation BM := (M (bot_world X) bot_error) (only parsing).
Abbreviation revoker := (Z -> Z -> BM unit) (only parsing).

Definition perform_socks (op : socks_op) : BM unit :=
  match op with
  | IssueSocks a p => discard (issue_socks5_proxy env senv a p)
  | ShowSocks a => discard (get_socks5_proxy_config env a)
  | ListSocks a => discard (list_user_proxy_accesses env a)
  | RevokeSocks a id r => discard (revoke_socks5_proxy env senv a id r)
  | RevokeSocksSystem a id r => discard (revoke_socks5_proxy_system env senv a id r)
  | DeleteSocks a id r => discard (delete_socks5_proxy env senv a id r)
  | StartUpSocks => discard (reconcile_socks5_state env senv)
  end.
Fixpoint socks_run (ops : list socks_op) w : bot_world X :=
  match ops with [] => w | op :: rest => socks_run rest (perform_socks op w).2 end.

(** What [attach_proxy_access_management] is given for SOCKS5, as the block calls it, next
    to the revoker of the other protocol. *)
Definition socks_revoker (actor id : Z) : BM unit :=
  discard (revoke_socks5_proxy_system env senv actor id (Some (py "hard_block"))).
Definition with_socks5 (others : proxy_type -> option revoker) : proxy_type -> option revoker := fun t =>
  match t with SOCKS5 => Some socks_revoker | MTPROTO => others MTPROTO end.

(** ** The service among the revokers *)

(** What a revoker of proxies may do to the rest of the database. *)
Definition proxies_only w w' : Prop := modest w w' /\ kt_rows (bw_keys w') = kt_rows (bw_keys w).
#[local] Instance proxies_only_pre : PreOrder proxies_only.
Proof. split; [by intros w|]. intros a b c [H1 H2] [H3 H4]. split; [by etransitivity|congruence]. Qed.
Lemma proxies_only_about : about_tables proxies_only.
Proof. intros w w' H1 H2. split; [|done]. unfold modest, users_in, ids_in, AccountSafety.proxy_ids_in. by rewrite H1, H2. Qed.
Lemma proxies_only_update p f : (forall a, px_id (f a) = px_id a) -> keeps proxies_only (update_proxies (X := X) env p f).
Proof.
  intros Hf. unfold update_proxies. apply keeps_bind; [apply _|apply bot_keeps_select, proxies_only_about|].
  intros n. apply keeps_bind; [apply _| |intros _; apply keeps_ret, _].
  intros w. unfold store_proxies, bind, get. case_bool_decide; [|done]. split; [|done]. split; [done|]. split; [done|]. split; [done|].
  unfold AccountSafety.proxy_ids_in. cbn.
  rewrite map_map. intros id (a & -> & Ha)%list_elem_of_fmap. apply list_elem_of_fmap. exists a. by destruct (p a).
Qed.
Lemma proxies_only_set_status id s t0 e0 r0 : keeps proxies_only (ProxyRows.set_status (X := X) env id s t0 e0 r0 []).
Proof. unfold ProxyRows.set_status. pose proof (fun p => proxies_only_update p (with_proxy_status s t0 e0 r0) (fun a => eq_refl)). keeps_tac. Qed.
Lemma proxies_only_revoked id actor t0 r0 : keeps proxies_only (ProxyRows.mark_revoked (X := X) env id actor t0 r0).
Proof.
  unfold ProxyRows.mark_revoked, transition. pose proof (fun p => proxies_only_update p (withdrawn ProxyRevoked true actor t0 r0) (fun a => eq_refl)). keeps_tac.
Qed.
Lemma socks_revoker_only actor id : keeps proxies_only (socks_revoker actor id).
Proof.
  pose proof proxies_only_about as HR. pose proof (tables_lock senv _ HR) as H1. pose proof proxies_only_set_status. pose proof proxies_only_revoked.
  assert (forall a b c, keeps proxies_only (socks_audit (X := X) env a b c)).
  { intros a b c. apply best_effort_same; [apply _|]. apply bot_keeps_audit; [apply _|done|]. by intros f w. }
  assert (forall i, keeps proxies_only (get_access (X := X) env i)) as Hget.
  { intros i. unfold get_access, get_by_id, select_proxies. pose proof (fun A f => bot_keeps_select env proxies_only HR (A := A) f). keeps_tac. }
  assert (keeps proxies_only (require_mutation (X := X))) by (intros w; rewrite (mutation_same w); reflexivity).
  pose proof (bot_keeps_now env _ HR).
  unfold socks_revoker, revoke_socks5_proxy_system, revoke_socks5, require_socks, with_login, ignore_not_found, discard. keeps_tac.
Qed.
#[export] Instance with_socks5_modest keys others : ModestRevokers keys others -> ModestRevokers keys (with_socks5 others).
Proof.
  intros [Hk Hp]. split; [exact Hk|]. intros t f actor id. destruct t; cbn; [intros [= <-]; apply socks_revoker_only|apply Hp].
Qed.

(** ** The invariant over time *)

Context `{!LinuxTools senv} (before : linux_users).
Abbreviation ok w := (accounted senv before w) (only parsing).
Lemma revoke_op_ok actor id reason w : ok w -> ok (revoke_socks5 env senv actor id reason w).2.
Proof. intros Hw. destruct (revoke_socks5 env senv actor id reason w) as [r w'] eqn:E. by eapply revoke_run in E as [? _]. Qed.
Lemma revoker_ok actor id w : ok w -> ok (socks_revoker actor id w).2.
Proof. unfold socks_revoker. rewrite discard_run. apply revoke_op_ok. Qed.
Lemma perform_socks_ok op w : ok w -> ok (perform_socks op w).2.
Proof.
  intros Hw. destruct op as [a p|a|a|a id r|a id r|a id r|]; cbn [perform_socks]; rewrite discard_run.
  - exact (steady_run _ _ _ _ _ (issue_ok env senv before a p) (surjective_pairing _) Hw).
  - exact (steady_run _ _ _ _ _ (show_ok env senv before a) (surjective_pairing _) Hw).
  - eapply ok_unmoved; [|exact Hw]. unfold list_user_proxy_accesses, list_by_owner.
    apply keeps_bind; [apply _|apply unmoved_approved|intros _; apply unmoved_proxies].
  - unfold revoke_socks5_proxy, bind. pose proof (unmoved_superadmin env a w) as Hu.
    destruct (require_superadmin env a w) as [[u|e] w1]; cbn in Hu; [apply revoke_op_ok|]; by eapply ok_unmoved.
  - by apply revoke_op_ok.
  - destruct (delete_socks5_proxy env senv a id r w) as [x w'] eqn:E. by eapply delete_op_run in E as [? _].
  - destruct (reconcile_socks5_state env senv w) as [x w'] eqn:E. unfold reconcile_socks5_state, bind, gets in E.
    apply (pass_run env senv before) in E as (_ & ? & _); [done..|]. unfold ids_ahead.
    pose proof (sublist_length _ _ (filter_sublist (fun id => 0 <? id) (map px_id (proxy_rows w)))) as Hlen.
    rewrite length_map in Hlen. unfold proxy_rows in *. lia.
Qed.

Lemma socks_run_ok ops : forall w, ok w -> ok (socks_run ops w).
Proof. induction ops as [|op ops IH]; intros w Hw; [done|]. by apply IH, perform_socks_ok. Qed.

End Block.

(** ** The block of a user *)

(** What the revokers beside a service's promise to the service: what it says still holds. *)
Class Bystanders {X} (P : bot_world X -> Prop) (keys : key_type -> option (Z -> Z -> M (bot_world X) bot_error unit))
    (others : proxy_type -> option (Z -> Z -> M (bot_world X) bot_error unit)) : Prop := {
  key_bystander t f actor id w : keys t = Some f -> P w -> P (f actor id w).2;
  proxy_bystander t f actor id w : others t = Some f -> P w -> P (f actor id w).2 }.

(** The block does nothing to accesses or servers but through its revokers. *)
Section Minds.
Context {X : Type} `{HP : Part X socks_host} (env : bot_env) (P : bot_world X -> Prop).
Implicit Types w : bot_world X.
Abbreviation BM := (M (bot_world X) bot_error) (only parsing).
Definition aside w w' : Prop := bt_proxies (bw_tables w') = bt_proxies (bw_tables w) /\ bw_rest w' = bw_rest w.
#[local] Instance aside_pre : PreOrder aside.
Proof. split; [by intros w|]. intros a b c [] []. split; congruence. Qed.
Context (HP0 : forall w w', aside w w' -> P w -> P w').
Definition minds w w' : Prop := P w -> P w'.
#[local] Instance minds_pre : PreOrder minds.
Proof. split; [by intros w Hw|]. intros a b c H1 H2 H. by apply H2, H1. Qed.
Lemma minds_aside {A} (m : BM A) : keeps aside m -> keeps minds m.
Proof using HP0. intros Hm w Hw. eapply HP0; [apply Hm|exact Hw]. Qed.
Lemma aside_ask {A} (f : nat -> A) : keeps aside (ask (X := X) f).
Proof. by intros w. Qed.
Lemma aside_audit_table f : keeps aside (set_tables (X := X) (set_audit f)).
Proof. by intros w. Qed.
Lemma aside_users f : keeps aside (set_tables (X := X) (set_users f)).
Proof. by intros w. Qed.
Lemma aside_gets {A} (f : bot_world X -> A) : keeps aside (gets (E := bot_error) f).
Proof. by intros w. Qed.
Lemma aside_rows {A} (m : M key_table key_error A) : keeps aside (on_rows (X := X) m).
Proof. intros w. unfold on_rows, embed. by destruct (m _) as [[|] ?]. Qed.
Lemma aside_cleared id : keeps aside (clear_user_state (X := X) id).
Proof. by intros w. Qed.
#[local] Hint Resolve aside_ask aside_audit_table aside_users aside_gets aside_rows aside_cleared : keeps.
Lemma aside_select {A} (f : bot_tables -> A) : keeps aside (select (X := X) env f).
Proof. unfold select, sql. keeps_tac. Qed.
#[local] Hint Resolve aside_select : keeps.
Lemma set_aside_audit a b c d : keeps aside (audit_best_effort (X := X) env a b c d).
Proof. unfold audit_best_effort, audit, now, write, sql. keeps_tac. Qed.
Lemma aside_user id : keeps aside (get_user (X := X) env id).
Proof. unfold get_user, user_by_id. keeps_tac. Qed.
#[local] Hint Resolve set_aside_audit aside_user : keeps.
Context (keys : key_type -> option (Z -> Z -> BM unit)) (revokers : proxy_type -> option (Z -> Z -> BM unit)) `{!Bystanders P keys revokers}.
Lemma minds_everything actor target : keeps minds (revoke_everything env keys revokers actor target).
Proof using HP0 Bystanders0.
  unfold revoke_everything, key_turns, proxy_turns, revoke_all_access_keys, revoke_all_proxy_accesses.
  pose proof (fun A f => minds_aside _ (aside_gets (A := A) f)) as Hg. keeps_tac; apply revoke_all_keeps; try apply _.
  - unfold keys_by_owner_statuses. pose proof (fun A m => minds_aside _ (aside_rows (A := A) m)). keeps_tac.
  - intros k m (f & Hf & ->)%fmap_Some w Hw. by apply (key_bystander (P := P) (others := revokers) (k_type k)).
  - unfold proxies_by_owner_statuses. pose proof (fun A f => minds_aside _ (aside_select (A := A) f)). keeps_tac.
  - intros b m (f & Hf & ->)%fmap_Some w Hw. by apply (proxy_bystander (P := P) (keys := keys) (px_type b)).
Qed.
Lemma minds_block actor target b : keeps minds (block_user env keys revokers actor target b).
Proof using HP0 Bystanders0.
  pose proof minds_everything. pose proof (fun i => minds_aside _ (aside_user i)). pose proof (fun A f => minds_aside _ (aside_ask (A := A) f)).
  pose proof (fun a b c d => minds_aside _ (set_aside_audit a b c d)). pose proof (fun A f => minds_aside _ (aside_select (A := A) f)).
  pose proof (fun f => minds_aside _ (aside_users f)). pose proof (fun i => minds_aside _ (aside_cleared i)).
  unfold block_user, require_moderator_or_admin, store_role, update_user, now. keeps_tac.
Qed.
(** A row of the user's with which access may exist is one that the block goes through. *)
Lemma live_row a w target : a ∈ proxy_rows w -> px_owner a = target -> may_exist a = true -> a ∈ live_proxies w target.
Proof.
  intros Ha Ho Hx. unfold live_proxies. apply list_elem_of_In, filter_In. split; [by apply list_elem_of_In|]. unfold proxy_owned_in.
  rewrite Ho, Z.eqb_refl. unfold may_exist, proxy_in in Hx. revert Hx. by destruct (px_status a); vm_compute.
Qed.
End Minds.

Section Claims.
Context {X : Type} `{HP : Part X socks_host} (env : bot_env) (senv : socks_env) `{!LinuxTools senv}.
Implicit Types w : bot_world X.
(** No SOCKS5 login without a row. Whatever is asked of the service, in whatever order,
    and whichever statement or command fails: a system user under the bot's prefix who
    can log in is the login of a SOCKS5 row that is not revoked, inactive or deleted;
    and the system users that are not the bot's stay as they were. *)
Theorem proxy_access_is_accounted ops w : accounted senv (system_users w) w -> accounted senv (system_users w) (socks_run env senv ops w).
Proof.
  by apply socks_run_ok.
Qed.

(** The SOCKS5 service as a revoker keeps its own promise. *)
#[export] Instance socks5_bystander before keys others : Bystanders (accounted senv before) keys others ->
  Bystanders (accounted senv before) keys (with_socks5 env senv others).
Proof.
  intros [H1 H2]. split; [exact H1|]. intros t f actor id w. destruct t; cbn; [|apply H2]. intros [= <-]. by apply revoker_ok.
Qed.
(** A block shuts the user's SOCKS5 logins, or says which it does not: afterwards, a login
    of the bot's that works belongs to a row of somebody else, or to one that the result
    of the block names among its errors. *)
Theorem block_shuts_socks_logins keys others `{!ModestRevokers keys others} `{!forall before, Bystanders (accounted senv before) keys others}
    actor target w res w' login u :
  block_user env keys (with_socks5 env senv others) actor target true w = (Ok res, w') ->
  accounted senv (system_users w) w -> (length (live_proxies w' target) <= 500)%nat ->
  managed senv login = true -> system_users w' !! login = Some u -> can_log_in u = true ->
  exists a, a ∈ proxy_rows w' /\ px_type a = SOCKS5 /\ row_login a = login
    /\ (px_owner a <> target \/ reported is_proxy (br_errors res) (px_id a)).
Proof.
  intros E Hw Hlen Hm Hu Hc. assert (forall v v', aside v v' -> accounted senv (system_users w) v -> accounted senv (system_users w) v') as Haside.
  { intros v v' [H1 H2]. apply ok_unmoved. split; [done|]. unfold system_users. by rewrite H2. }
  pose proof (keeps_run _ _ _ _ _ (minds_block env _ Haside keys (with_socks5 env senv others) actor target true) E Hw) as (_ & Ha & _).
  destruct (Ha _ _ Hm Hu Hc) as (id & a & Hin & _ & Ht & Hl & Hx). exists a. do 3 (split; [done|]).
  destruct (decide (px_owner a = target)) as [Ho|]; [right|by left].
  apply (block_run env keys (with_socks5 env senv others)) in E as (_ & _ & Hrep). apply Hrep; [done|done|].
  by apply live_row.
Qed.
End Claims.
