(* ===== verification/ProxyBeside.v ===== *)
(** * One proxy service beside the other

    What one service promises is kept by what the other does: a step of the latter
    changes rows of its own type, or nothing that the former looks at. The steps the two
    services share are proved here once, for either. *)

From S2P Require Import Prelude PyText Json IsoTime Triples AwgConfig VpnKeys BackendHealth AwgService KeyRows BotDb Accounts AccountSafety BlockSafety RequestSafety DanteUsers ProxyRows Socks5 ProxySafety.
#[local] Open Scope Z_scope.

(** The promise [Inv] of one service, the type [t] of the other's rows, and the steps [R]
    that leave the rows and what the promise is about alone. *)
Class Beside {X} (t : proxy_type) (R : bot_world X -> bot_world X -> Prop) (Inv : bot_world X -> Prop) : Prop := {
  beside_pre :: PreOrder R;
  beside_rows w w' : R w w' -> bt_proxies (bw_tables w') = bt_proxies (bw_tables w);
  beside_rest w w' : bt_proxies (bw_tables w') = bt_proxies (bw_tables w) -> bw_rest w' = bw_rest w -> R w w';
  beside_inv w w' : R w w' -> Inv w -> Inv w';
  beside_ids w : Inv w -> proxy_ids_ok (bt_proxies (bw_tables w));
  beside_map p f w w' : bt_proxies (bw_tables w') = map_rows p f (bt_proxies (bw_tables w)) -> bw_rest w' = bw_rest w ->
    (forall a, a ∈ proxy_rows w -> p a = true -> px_type a = t /\ px_id (f a) = px_id a /\ px_type (f a) = t) -> Inv w -> Inv w';
  beside_append row w w' : bt_proxies (bw_tables w') = append row (bt_proxies (bw_tables w)) -> bw_rest w' = bw_rest w ->
    (forall id, px_id (row id) = id /\ px_type (row id) = t) -> Inv w -> Inv w' }.

Section Beside.
Context {X : Type} `{HP : Part X socks_host} (env : bot_env) (t : proxy_type) (R : bot_world X -> bot_world X -> Prop) (Inv : bot_world X -> Prop) `{HB : !Beside t R Inv}.
Implicit Types w : bot_world X.
Abbreviation BM := (M (bot_world X) bot_error) (only parsing).

(** The rows of the ids are the other service's. *)
Definition theirs (ids : list Z) w : Prop := Inv w /\ forall b, b ∈ proxy_rows w -> px_id b ∈ ids -> px_type b = t.
Lemma theirs_calm ids w w' : R w w' -> theirs ids w -> theirs ids w'.
Proof. intros H [H1 H2]. split; [by eapply beside_inv|]. unfold proxy_rows in *. by rewrite (beside_rows _ _ H). Qed.
Lemma calm_theirs {A} ids (m : BM A) : keeps R m -> steady (theirs ids) m.
Proof. intros Hm. apply steady_of. intros w r w' E. apply theirs_calm. by eapply keeps_run. Qed.
Lemma calm_inv {A} (m : BM A) : keeps R m -> steady Inv m.
Proof. intros Hm. apply steady_of. intros w r w' E. apply beside_inv. by eapply keeps_run. Qed.
Lemma calm_rest {A} (m : BM A) : keeps same_rest m -> keeps (fun w w' => bt_proxies (bw_tables w') = bt_proxies (bw_tables w)) m -> keeps R m.
Proof. intros H1 H2 w. apply beside_rest; [apply H2|apply H1]. Qed.
Lemma row_theirs a w : Inv w -> a ∈ proxy_rows w -> px_type a = t -> theirs [px_id a] w.
Proof. intros Hw Ha Ht. split; [done|]. intros b Hb Hid%list_elem_of_singleton. by rewrite (one_row _ b a (beside_ids _ Hw) Hb Ha Hid). Qed.
Lemma theirs_update ids p f : (forall a, p a = true -> px_id a ∈ ids) -> (forall a, px_id (f a) = px_id a /\ px_type (f a) = px_type a) ->
  steady (theirs ids) (update_proxies (X := X) env p f).
Proof.
  intros Hp Hf. apply steady_of. intros w r w' E [Hw Hid]. pose proof (keeps_run _ _ _ _ _ (rest_update env p f) E) as Hr. apply update_proxies_run in E.
  destruct E as (_ & [[Hb _]|[Hb _]]); [eapply theirs_calm; [apply beside_rest; [exact Hb|exact Hr]|done]|].
  assert (forall a, a ∈ proxy_rows w -> p a = true -> px_type a = t /\ px_id (f a) = px_id a /\ px_type (f a) = t) as Hall.
  { intros a Ha Hpa. destruct (Hf a) as [H1 H2]. rewrite H2. by rewrite (Hid a Ha (Hp a Hpa)). }
  split; [by eapply beside_map|]. unfold proxy_rows in *. rewrite Hb. cbn. intros b (a & -> & Ha)%list_elem_of_fmap.
  destruct (p a) eqn:E; [|by apply Hid]. destruct (Hf a) as [H1 H2]. rewrite H1, H2. by apply Hid.
Qed.
Lemma theirs_of_id ids id (p : proxy_access -> bool) f : id ∈ ids -> (forall a, px_id (f a) = px_id a /\ px_type (f a) = px_type a) ->
  steady (theirs ids) (update_proxies (X := X) env (fun a => has_proxy_id id a && p a) f).
Proof. intros Hin Hf. apply theirs_update; [|done]. intros a H. bool_prop. by apply Z.eqb_eq in H as ->. Qed.
Lemma theirs_set_status ids id s t0 e0 rs0 : id ∈ ids -> steady (theirs ids) (ProxyRows.set_status (X := X) env id s t0 e0 rs0 []).
Proof. intros Hin. apply steady_bind; [apply theirs_update; [by intros a ->%Z.eqb_eq|done]|intros n; apply steady_ret]. Qed.
Lemma theirs_shown ids id t0 : id ∈ ids -> steady (theirs ids) (ProxyRows.mark_shown (X := X) env id t0).
Proof. intros Hin. apply steady_bind; [apply theirs_update; [by intros a ->%Z.eqb_eq|done]|intros n; apply steady_ret]. Qed.
Lemma theirs_transition ids id excluded f : id ∈ ids -> (forall a, px_id (f a) = px_id a /\ px_type (f a) = px_type a) ->
  steady (theirs ids) (transition (X := X) env id excluded f).
Proof. intros Hin Hf. apply steady_bind; [by apply theirs_of_id|]. intros n. case_match; [apply steady_ret|apply steady_raise]. Qed.
Lemma theirs_revoked ids id actor t0 reason : id ∈ ids -> steady (theirs ids) (mark_revoked (X := X) env id actor t0 reason).
Proof. intros Hin. by apply theirs_transition. Qed.
Lemma theirs_inactive ids id actor t0 reason : id ∈ ids -> steady (theirs ids) (mark_inactive (X := X) env id actor t0 reason).
Proof. intros Hin. by apply theirs_transition. Qed.
Lemma theirs_deleted ids id actor t0 reason : id ∈ ids -> steady (theirs ids) (mark_deleted (X := X) env id actor t0 reason).
Proof. intros Hin. by apply theirs_transition. Qed.
Lemma beside_select {A} (f : bot_tables -> A) : keeps R (select (X := X) env f).
Proof. apply calm_rest; [apply rest_select|]. intros w. destruct (select env f w) as [r w'] eqn:E. apply select_run in E as [H _]. cbn. by rewrite H. Qed.
Lemma theirs_active ids id t0 pl ppl g : id ∈ ids -> steady (theirs ids) (ProxyRows.mark_active (X := X) env id t0 pl ppl g).
Proof.
  intros Hin. apply steady_of. intros w r w' E Hw. unfold ProxyRows.mark_active, transaction in E.
  set (m := bind (ProxyRows.get_by_id env id) _) in E.
  assert (steady (theirs ids) m) as Hm.
  { apply steady_bind; [apply calm_theirs, beside_select|]. intros [a|]; [|apply steady_raise]. apply steady_bind; [by apply theirs_of_id|intros n; apply steady_ret]. }
  assert (keeps same_rest m) as Hrest.
  { subst m. unfold ProxyRows.get_by_id, select_proxies. pose proof @rest_select. pose proof (fun p f => rest_update (X := X) env p f). keeps_tac. }
  assert (keeps R (sql (X := X) env)) as Hsql.
  { apply calm_rest; intros v; unfold sql, bind, ask; by destruct (be_db env (bw_tick v)). }
  apply bind_inv in E as [([] & w1 & H1 & E)|(e & H1 & ->)]; pose proof (theirs_calm ids _ _ (keeps_run _ _ _ _ _ Hsql H1) Hw) as Hw1; [|done].
  destruct (m w1) as [[[]|e] w2] eqn:Em; injection E as <- <-; [by eapply (steady_run _ _ _ _ _ Hm Em)|].
  eapply theirs_calm; [|exact Hw1]. apply beside_rest; [done|]. exact (keeps_run _ _ _ _ _ Hrest Em).
Qed.
(** A new row of theirs. *)
Lemma theirs_create owner username s pl ppl by_ t0 fp g :
  triple Inv (ProxyRows.create (X := X) env owner username t s pl ppl by_ t0 fp g) (fun a w => theirs [px_id a] w) Inv.
Proof.
  intros w Hw. destruct (create _ _ _ _ _ _ _ _ _ _ _ w) as [r w'] eqn:E. apply create_run_any in E as [Hr H]; [|by apply beside_ids].
  assert (Inv w') as Hw'.
  { destruct H as [[Hb _]|(Hb & _)]; [eapply beside_inv; [apply beside_rest; [exact Hb|exact Hr]|done]|eapply beside_append; [exact Hb|exact Hr|done|done]]. }
  destruct r as [a|e]; [|done]. destruct H as [[_ ?]|(Hb & _ & Ha)]; [done|]. specialize (Ha _ eq_refl). apply row_theirs; [done| |by subst a].
  subst a. unfold proxy_rows. rewrite Hb. cbn. apply elem_of_app. right. by apply list_elem_of_singleton.
Qed.
(** A row that has been looked up. *)
Lemma theirs_access ids id : triple (theirs ids) (get_access (X := X) env id) (fun a w => theirs ids w /\ px_id a = id) (theirs ids).
Proof.
  intros w Hw. assert (keeps R (get_access (X := X) env id)) as Hk.
  { unfold get_access, ProxyRows.get_by_id, select_proxies. pose proof @beside_select. keeps_tac. }
  destruct (get_access env id w) as [r w'] eqn:E. pose proof (theirs_calm ids _ _ (keeps_run _ _ _ _ _ Hk E) Hw) as Hw'. destruct r as [a|e]; [|done]. split; [done|].
  unfold get_access in E. apply bind_inv in E as [(o & w1 & H1 & E)|(? & _ & ?)]; [|done]. apply select_run in H1 as (_ & _ & Ho). specialize (Ho _ eq_refl).
  destruct o as [b|]; [|done]. injection E as -> _. symmetry in Ho. apply find_some in Ho as [_ Ho]. by apply Z.eqb_eq.
Qed.
Lemma theirs_found owner statuses : triple Inv (find_user_access_by_type_statuses (X := X) env owner t statuses)
  (fun o w => match o with Some a => theirs [px_id a] w | None => Inv w end) Inv.
Proof.
  intros w Hw. destruct statuses as [|s0 ss]; [done|]. unfold find_user_access_by_type_statuses, select_proxies.
  match goal with |- context [select env ?f w] => pose proof (beside_select f w) as Hk; destruct (select env f w) as [r w'] eqn:E end. cbn [snd] in Hk.
  pose proof (beside_inv _ _ Hk Hw) as Hw'. destruct r as [[a|]|e]; [|done|done]. apply select_run in E as (_ & _ & Ho). specialize (Ho _ eq_refl).
  symmetry in Ho. apply find_some in Ho as [Hin Ho]. bool_prop. apply row_theirs; [done| |done]. unfold proxy_rows. rewrite (beside_rows _ _ Hk). by apply list_elem_of_In.
Qed.
Lemma rows_theirs ids l w : theirs ids w -> (forall a, a ∈ l -> a ∈ proxy_rows w /\ px_type a = t) -> theirs (ids ++ map px_id l) w.
Proof.
  intros [Hw Hi] Hl. split; [done|]. intros b Hb [Hin|Hin]%elem_of_app; [by apply Hi|]. apply list_elem_of_fmap in Hin as (a & Hid & Ha).
  destruct (Hl a Ha) as [Har Ht]. by rewrite (one_row _ b a (beside_ids _ Hw) Hb Har Hid).
Qed.
Lemma theirs_list ids statuses limit after : triple (theirs ids) (list_by_type_statuses (X := X) env t statuses limit after)
  (fun l w => theirs (ids ++ map px_id l) w) (theirs ids).
Proof.
  intros w Hw. destruct statuses as [|s0 ss]; [cbn; by rewrite app_nil_r|]. unfold list_by_type_statuses, select_proxies.
  match goal with |- context [select env ?f w] => pose proof (beside_select f w) as Hk; destruct (select env f w) as [r w'] eqn:E end. cbn [snd] in Hk.
  pose proof (theirs_calm ids _ _ Hk Hw) as Hw'. destruct r as [l|e]; [|done]. apply select_run in E as (_ & _ & Hl). specialize (Hl _ eq_refl).
  apply rows_theirs; [done|]. intros a Ha. rewrite Hl in Ha. apply elem_of_take in Ha as (i & Ha & _). apply list_elem_of_lookup_2, list_elem_of_In, filter_In in Ha as [Ha Hp].
  bool_prop. split; [|done]. unfold proxy_rows. rewrite (beside_rows _ _ Hk). by apply list_elem_of_In.
Qed.
Lemma theirs_inv ids w : theirs ids w -> Inv w.
Proof. by intros [? _]. Qed.
Lemma theirs_none w : Inv w -> theirs [] w.
Proof. intros Hw. split; [done|]. by intros b _ ?%elem_of_nil. Qed.
End Beside.

(** Walk through a method; the leaves are solved from the database. *)
Create HintDb beside discriminated.
#[export] Hint Resolve steady_ret steady_raise : beside.
(** The instance of [Beside] is found first. *)
#[export] Hint Extern 1 (steady _ (ProxyRows.set_status _ _ _ _ _ _ _)) => eapply theirs_set_status; [typeclasses eauto|] : beside.
#[export] Hint Extern 1 (steady _ (ProxyRows.mark_shown _ _ _)) => eapply theirs_shown; [typeclasses eauto|] : beside.
#[export] Hint Extern 1 (steady _ (mark_revoked _ _ _ _ _)) => eapply theirs_revoked; [typeclasses eauto|] : beside.
#[export] Hint Extern 1 (steady _ (mark_inactive _ _ _ _ _)) => eapply theirs_inactive; [typeclasses eauto|] : beside.
#[export] Hint Extern 1 (steady _ (mark_deleted _ _ _ _ _)) => eapply theirs_deleted; [typeclasses eauto|] : beside.
#[export] Hint Extern 1 (steady _ (ProxyRows.mark_active _ _ _ _ _ _)) => eapply theirs_active; [typeclasses eauto|] : beside.
#[export] Hint Extern 2 (steady (theirs _ _ _) _) => eapply calm_theirs; [typeclasses eauto|] : beside.
Ltac beside_step :=
  match goal with
  | |- forall _, _ => intro
  | |- triple ?P ?m (fun _ => ?P) ?P => change (steady P m)
  | |- steady _ (bind _ _) => apply steady_bind
  | |- steady _ (catch _ _) => apply steady_catch
  | |- steady _ (attempt _) => apply steady_attempt
  | |- steady _ (match ?x with _ => _ end) => destruct x
  | |- steady _ (let _ := _ in _) => cbv zeta
  end.
Ltac beside_tac := repeat (solve [eauto 4 with beside keeps nocore] || beside_step).
