(* ===== verification/MtProxy.v ===== *)
(** * The secrets the MTProto proxy serves

    [adapters/mtproxy.py]: in the managed mode the proxy reads the secrets of its users
    from a document of the bot's, next to a file of settings for its wrapper. A set of
    secrets is applied by writing both and restarting the proxy, or by a privileged
    helper; what was there before is put back when that fails. The running proxy is a
    part of the model: it serves the secrets it was started with, whatever the document
    has become since. The document is modelled
    as what its JSON says, with a mark whether its text is the one the adapter writes;
    the polling of the listening port, modes and old backups are not modelled. *)

From S2P Require Import Prelude PyText Json AwgConfig VpnKeys BackendHealth AwgService BotDb.
#[local] Open Scope Z_scope.

(** ** The document *)

Record mt_secret := MtSecret { ms_secret : str; ms_fingerprint : str; ms_owner : option Z; ms_access : option Z }.
#[export] Instance mt_secret_eq_dec : EqDecision mt_secret.
Proof. solve_decision. Defined.
(** An item of [runtime_secrets]: a user's, or what stands in for an empty set. *)
Inductive mt_item := Served (s : mt_secret) | Placeholder (secret : str).
#[export] Instance mt_item_eq_dec : EqDecision mt_item.
Proof. solve_decision. Defined.
Record mt_document := MtDocument { md_generation : Z; md_secrets : list mt_secret; md_runtime : list mt_item }.
#[export] Instance mt_document_eq_dec : EqDecision mt_document.
Proof. solve_decision. Defined.
Inductive mt_store := NoStore | BrokenStore | Store (d : mt_document) (as_written : bool).
Record mt_files := MtFiles { mf_store : mt_store; mf_env : option str }.
Definition no_document : mt_document := MtDocument 0 [] [].
(** The host: [mh_process] is what the running proxy was started with, [None] when it is down. *)
Record mt_host := MtHost { mh_files : mt_files; mh_process : option (list str) }.
(** [deploy/run-mtproxy-managed]: the secrets it starts the proxy with; without a document
    it can read it fails. *)
Definition item_secret (i : mt_item) : str := match i with Served s => ms_secret s | Placeholder secret => secret end.
Definition start_secrets (s : mt_store) : option (list str) :=
  match s with
  | Store d _ =>
      let runtime_items := match md_runtime d with [] => map Served (md_secrets d) | items => items end in
      Some (List.filter (fun secret => negb (is_empty secret)) (map item_secret runtime_items))
  | NoStore | BrokenStore => None
  end.

(** ** Secrets *)

(** [int(secret, 16)] does not raise, for a text in ASCII. *)
Fixpoint hex_groups (s : str) (digit_before : bool) : bool :=
  match s with
  | [] => digit_before
  | c :: r => if (c =? 95)%N then digit_before && hex_groups r false else
              let d := is_digit c || ((97 <=? c) && (c <=? 102))%N || ((65 <=? c) && (c <=? 70))%N in d && hex_groups r true
  end.
Definition hex_body (s : str) : bool :=
  match s with
  | 48%N :: 120%N :: r | 48%N :: 88%N :: r => match r with 95%N :: r' => hex_groups r' false | _ => hex_groups r false end
  | _ => hex_groups s false
  end.
Definition is_hex_int (s : str) : bool :=
  match strip s with 45%N :: r | 43%N :: r => hex_body r | r => hex_body r end.
Definition secret_ok (secret : str) : bool := (length secret =? 32)%nat && is_hex_int secret.
(** [sorted(..., key=(fingerprint, secret))] *)
Definition secret_le (a b : mt_secret) : Prop :=
  str_leb (ms_fingerprint a) (ms_fingerprint b)
  && (negb (bool_decide (ms_fingerprint a = ms_fingerprint b)) || str_leb (ms_secret a) (ms_secret b)) = true.
#[export] Instance secret_le_dec : RelDecision secret_le.
Proof. intros a b. unfold secret_le. apply _. Defined.
Fixpoint first_of_each (seen : list str) (l : list mt_secret) : result mt_error (list mt_secret) :=
  match l with
  | [] => Ok []
  | a :: rest =>
      if secret_ok (ms_secret a) then
        if bool_decide (ms_fingerprint a ∈ seen) then first_of_each seen rest
        else match first_of_each (ms_fingerprint a :: seen) rest with Ok r => Ok (a :: r) | Err e => Err e end
      else Err BadSecret
  end.
Definition normalize_secrets (l : list mt_secret) : result mt_error (list mt_secret) := first_of_each [] (merge_sort secret_le l).
Definition same_secret_set (l r : list mt_secret) : bool := bool_decide (l ⊆ r) && bool_decide (r ⊆ l).
Definition served_items (l : list mt_item) : list mt_secret := omap (fun i => match i with Served s => Some s | Placeholder _ => None end) l.
Definition placeholder_of (l : list mt_item) : option str :=
  head (omap (fun i => match i with Placeholder (c :: r) => Some (c :: r) | _ => None end) l).

(** ** The settings file *)

Definition control_free (v : str) : bool := negb (existsb (fun c => (c =? NEWLINE) || (c =? 13) || (c =? 0))%N v).
Definition env_content (values : list (str * str)) : result mt_error str :=
  if forallb (fun kv => control_free kv.2) values then Ok (values ≫= fun kv => kv.1 ++ EQUALS :: kv.2 ++ [NEWLINE]) else Err ControlCharacters.
(** [mx_values]: the nine settings of [_env_content], in its order; [mx_rollback]:
    [rollback_on_apply_failure]; [mx_helper]: there is a helper. *)
Record mtproxy_settings := MtProxySettings { mx_values : list (str * str); mx_rollback : bool; mx_helper : bool }.

(** [mx_io]: an access to the file system works, [mx_restore] a copy of a backup;
    [mx_torn]: what a failing copy leaves is cut short; [mx_wrapper]: the wrapper is there,
    and can be executed. Then what systemd and the port say, [None] an exception, and
    what becomes of the proxy; and what the helper makes of the host it is given new
    contents for. *)
Record mtproxy_env := MtProxyEnv {
  mx_settings : mtproxy_settings; mx_io : nat -> bool; mx_restore : nat -> bool; mx_torn : nat -> bool; mx_wrapper : nat -> bool * bool;
  mx_restart : nat -> mt_host -> option bool * option (list str); mx_active : nat -> option bool;
  mx_listening : nat -> option (list str) -> option bool;
  mx_placeholder : nat -> str; mx_apply : nat -> mt_document * str -> mt_host -> option Z * mt_host }.

Section Adapter.
Context {X : Type} `{HM : Part X mt_host} (xenv : mtproxy_env).
Abbreviation BM := (M (bot_world X) bot_error) (only parsing).
Abbreviation settings := (mx_settings xenv) (only parsing).

Definition mt_raise {A} (e : mt_error) : BM A := raise (MtProxy e).
Definition mt_lift {A} (r : result mt_error A) : BM A := match r with Ok a => ret a | Err e => mt_raise e end.
Definition mt_host_of : BM mt_host := gets (fun w => part_get (bw_rest w)).
Definition set_mt_host (h : mt_host) : BM unit := modify (fun w =>
  BotWorld (bw_tables w) (bw_keys w) (bw_cleared w) (bw_kicked w) (bw_told w) (part_set h (bw_rest w)) (bw_tick w)).
Definition mt_files_of : BM mt_files := gets (fun w => mh_files (part_get (bw_rest w))).
Definition set_files (f : mt_files) : BM unit := let! h := mt_host_of in set_mt_host (MtHost f (mh_process h)).
Definition set_store (s : mt_store) : BM unit := let! f := mt_files_of in set_files (MtFiles s (mf_env f)).
Definition set_env (e : option str) : BM unit := let! f := mt_files_of in set_files (MtFiles (mf_store f) e).
Definition io : BM unit := let! works := ask (mx_io xenv) in if works : bool then ret tt else mt_raise MtIo.
Definition answer (f : nat -> option bool) : BM bool :=
  let! r := ask f in match r with Some b => ret b | None => mt_raise MtIo end.

Definition read_store_document : BM mt_document :=
  io ;;!
  let! f := mt_files_of in
  match mf_store f with NoStore => ret no_document | BrokenStore => mt_raise BadDocument | Store d _ => ret d end.
Definition read_current_managed_secrets : BM (list mt_secret) :=
  let! d := read_store_document in mt_lift (normalize_secrets (md_secrets d)).
Definition read_runtime_managed_secrets : BM (list mt_secret) :=
  let! d := read_store_document in mt_lift (normalize_secrets (served_items (md_runtime d))).
(** [_store_document], with the placeholder of an empty set. *)
Definition store_document (secrets : list mt_secret) (current : mt_document) (generation : Z) : BM mt_document :=
  let! normalized := mt_lift (normalize_secrets secrets) in
  match normalized with
  | [] =>
      let! fresh := (match placeholder_of (md_runtime current) with Some s => ret s | None => ask (mx_placeholder xenv) end) in
      ret (MtDocument generation [] [Placeholder fresh])
  | _ => ret (MtDocument generation normalized (map Served normalized))
  end.
Definition ensure_managed_permissions : BM unit := io.
Definition ensure_wrapper_ready : BM unit :=
  let! w := ask (mx_wrapper xenv) in
  if w.1 then if w.2 : bool then ret tt else mt_raise NotExecutable else mt_raise NotInitialized.
Definition ensure_managed_runtime_ready : BM unit :=
  io ;;!
  let! f := mt_files_of in
  match mf_store f, mf_env f with
  | NoStore, _ | _, None => mt_raise NotInitialized
  | _, Some _ =>
      ensure_wrapper_ready ;;!
      let! _ := read_store_document in
      ensure_managed_permissions
  end.
(** [_runtime_files_current]: the texts on disk are the ones that would be written. *)
Definition runtime_files_current (d : mt_document) : BM bool :=
  io ;;!
  let! f := mt_files_of in
  match mf_store f, mf_env f with
  | NoStore, _ | _, None => ret false
  | Store d' true, Some e =>
      if bool_decide (d' = d) then let! content := mt_lift (env_content (mx_values settings)) in ret (bool_decide (e = content))
      else ret false
  | _, Some _ => ret false
  end.
(** [_write_runtime_files]: each file is replaced whole, and may be replaced when the call raises. *)
Definition write_runtime_files (d : mt_document) : BM unit :=
  io ;;! set_store (Store d true) ;;! io ;;!
  let! content := mt_lift (env_content (mx_values settings)) in
  io ;;! set_env (Some content) ;;! io ;;!
  ensure_managed_permissions.
Definition restart_mtproxy : BM bool :=
  let! run := ask (mx_restart xenv) in
  let! h := mt_host_of in
  let '(r, process) := run h in
  set_mt_host (MtHost (mh_files h) process) ;;!
  match r with Some b => ret b | None => mt_raise MtIo end.
Definition check_mtproxy_listening : BM bool :=
  let! says := ask (mx_listening xenv) in
  let! h := mt_host_of in
  match says (mh_process h) with Some b => ret b | None => mt_raise MtIo end.
Definition check_runtime : BM unit :=
  let! restarted := restart_mtproxy in
  if negb restarted then mt_raise RestartFailed
  else
    let! active := answer (mx_active xenv) in
    if negb active then mt_raise NotActive
    else
      let! listening := check_mtproxy_listening in
      if listening : bool then ret tt else mt_raise NotListening.
(** A copy onto a file, which may be cut short when it fails. *)
Definition restore_file (put : bool -> BM unit) : BM unit :=
  let! works := ask (mx_restore xenv) in
  if works : bool then put true
  else
    let! torn := ask (mx_torn xenv) in
    (if torn : bool then put false else ret tt) ;;! mt_raise MtIo.
Definition restore_backup (saved : mt_files) : BM unit :=
  restore_file (fun whole => set_store (if whole then mf_store saved else BrokenStore)) ;;!
  restore_file (fun whole => set_env (if whole then mf_env saved else Some [])).
Definition backup_managed_files : BM mt_files := io ;;! mt_files_of.
Definition roll_back (saved : mt_files) : BM unit :=
  restore_backup saved ;;!
  let! _ := restart_mtproxy in
  let! active := answer (mx_active xenv) in
  if active : bool then ret tt else mt_raise RollbackFailed.
Definition apply_document_via_helper (d : mt_document) : BM unit :=
  io ;;!
  let! content := mt_lift (env_content (mx_values settings)) in
  let! run := ask (mx_apply xenv) in
  let! h := mt_host_of in
  let '(rc, h') := run (d, content) h in
  set_mt_host h' ;;!
  if bool_decide (rc = Some 0) then ret tt else mt_raise HelperFailed.
Definition apply_document_directly (d : mt_document) : BM unit :=
  let! saved := backup_managed_files in
  catch (write_runtime_files d ;;! check_runtime)
    (fun exc =>
       if negb (mx_rollback settings) then mt_raise ApplyFailed
       else
         let! undone := attempt (roll_back saved) in
         match undone with Ok _ => mt_raise RolledBack | Err _ => mt_raise RollbackFailed end).
(** [apply_managed_secrets]: the generation. *)
Definition apply_managed_secrets (secrets : list mt_secret) : BM Z :=
  ensure_managed_runtime_ready ;;!
  let! desired := mt_lift (normalize_secrets secrets) in
  let! current_document := read_store_document in
  let! current := mt_lift (normalize_secrets (md_secrets current_document)) in
  let generation := md_generation current_document in
  let! as_it_is := store_document current current_document generation in
  let! same := (if same_secret_set current desired then runtime_files_current as_it_is else ret false) in
  if same : bool then ret generation
  else
    let! d := store_document desired current_document (generation + 1) in
    (if mx_helper settings then catch (apply_document_via_helper d) (fun _ => mt_raise HelperApplyFailed)
     else apply_document_directly d) ;;!
    ret (generation + 1).
(** [init_managed_runtime_baseline], of the deployment. *)
Definition init_managed_runtime_baseline : BM Z :=
  ensure_wrapper_ready ;;!
  let! current := read_store_document in
  let! d := store_document [] current (md_generation current) in
  (if mx_helper settings then apply_document_via_helper d
   else write_runtime_files d ;;! ensure_managed_permissions ;;! check_runtime) ;;!
  ret (md_generation current).
Definition write_managed_secrets_atomically (secrets : list mt_secret) : BM unit :=
  let! current := read_store_document in
  let! d := store_document secrets current (md_generation current) in
  io ;;! set_store (Store d true) ;;! io.
End Adapter.

(** ** What the host is relied upon for *)

(** When the helper says it has applied the files they are the new ones; when it does not, the
    document is the new one, the old one, or cut short. *)
Class MtHelper (xenv : mtproxy_env) : Prop := {
  helper_done n d content h : (mx_apply xenv n (d, content) h).1 = Some 0 ->
    mh_files (mx_apply xenv n (d, content) h).2 = MtFiles (Store d true) (Some content);
  helper_failed n d content h : mf_store (mh_files (mx_apply xenv n (d, content) h).2) ∈ [Store d true; mf_store (mh_files h); BrokenStore] }.

(** The proxy serves what the wrapper reads of the document, or is down. *)
Definition up_to_date (h : mt_host) : Prop := mh_process h = None \/ mh_process h = start_secrets (mf_store (mh_files h)).
(** A restart that succeeds has stopped the proxy and started the wrapper; a port that
    listens is the proxy's; and the helper says it has applied the files when the proxy
    runs with them. *)
Class MtService (xenv : mtproxy_env) : Prop := {
  restarted n h : (mx_restart xenv n h).1 = Some true ->
    up_to_date (MtHost (mh_files h) (mx_restart xenv n h).2);
  listening_up n : mx_listening xenv n None <> Some true;
  helper_up n d content h : (mx_apply xenv n (d, content) h).1 = Some 0 ->
    mh_process (mx_apply xenv n (d, content) h).2 = start_secrets (Store d true) }.
(** That no failure leaves an old proxy beside a new document: a restart that fails has
    stopped the proxy or started it with what is there, a failing apply is rolled back, the
    backup can be copied back, and the helper does the like. *)
Class MtRecovers (xenv : mtproxy_env) : Prop := {
  restart_stops n h : up_to_date (MtHost (mh_files h) (mx_restart xenv n h).2);
  rolls_back : mx_rollback (mx_settings xenv) = true;
  restores n : mx_restore xenv n = true;
  helper_recovers n new h : up_to_date h -> up_to_date (mx_apply xenv n new h).2 }.
