(* ===== verification/MtProto.v ===== *)
(** * MTProto proxy access

    [services/mtproto.py]: in the static mode every access shares one secret, and is a
    row only; in the managed mode each has a secret of its own, which [MtProxy] gives to
    the proxy. Each change applies the secrets of the active rows anew, with the new
    row's or without the old one's; the pass at start-up repairs what differs. *)

From S2P Require Import Prelude PyText Sha256 Json IsoTime AwgConfig VpnKeys BackendHealth AwgService BotDb Accounts DanteUsers ProxyRows Socks5 MtProxy.
#[local] Open Scope Z_scope.

Definition MTPROTO_STARTUP_RECONCILE_STATUSES : list proxy_status :=
  [ProxyPendingApply; ProxyApplyFailed; ProxyPendingRevoke; ProxyRevokeFailed; ProxyPendingDelete; ProxyDeleteFailed].
Definition mtproto_secret_fingerprint (secret : str) : str := take 16 (sha256_hex secret).
(** [mp_managed]: [mtproto_mode]; [mp_adapter]: an adapter was passed in. *)
Record mtproto_settings := MtprotoSettings {
  mp_enabled : bool; mp_managed : bool; mp_adapter : bool; mp_host : str; mp_port : Z; mp_secret : str;
  mp_public_name : str; mp_note : str }.
(** [me_text]: the text of an exception with a secret redacted in it, and whether the
    redaction changed it; [me_hex]: [secrets.token_hex(16)]. *)
Record mtproto_env := MtprotoEnv {
  me_settings : mtproto_settings; me_proxy : mtproxy_env; me_text : bot_error -> str -> str * bool; me_hex : nat -> str }.
Record mt_summary := MtSummary {
  su_checked : Z; su_missing : Z; su_orphaned : Z; su_pending : Z; su_recovered : Z; su_failed : Z; su_fatal : Z }.
Definition no_summary : mt_summary := MtSummary 0 0 0 0 0 0 0.
Definition add_recovered (s : mt_summary) : mt_summary :=
  MtSummary (su_checked s) (su_missing s) (su_orphaned s) (su_pending s) (su_recovered s + 1) (su_failed s) (su_fatal s).
Definition add_fatal (s : mt_summary) : mt_summary :=
  MtSummary (su_checked s) (su_missing s) (su_orphaned s) (su_pending s) (su_recovered s) (su_failed s + 1) (su_fatal s + 1).
Definition any_counted (s : mt_summary) : bool :=
  existsb (fun n => negb (n =? 0)) [su_checked s; su_missing s; su_orphaned s; su_pending s; su_recovered s; su_failed s; su_fatal s].

(** ** What a row says *)

(** [str(payload.get(key) or "")] *)
Definition payload_text (key : str) (pl : payload) : str :=
  match dict_get key pl with
  | Some (PText s) => s
  | Some (PNumber n) => if n =? 0 then [] else show_Z n
  | Some PNull | None => []
  end.
Definition or_text (a b : str) : str := match a with [] => b | _ => a end.
Definition ascii_lower (c : N) : N := if ((65 <=? c) && (c <=? 90))%N then (c + 32)%N else c.
(** [_access_mode(access) == "managed"]; no letter outside ASCII has one of [managed] for its lower case. *)
Definition is_managed (a : proxy_access) : bool :=
  bool_decide (map ascii_lower (or_text (payload_text (py "mode") (px_payload a)) (payload_text (py "mode") (px_public_payload a))) = py "managed").
Definition access_secret (st : mtproto_settings) (a : proxy_access) : result bot_error str :=
  match payload_text (py "secret") (px_payload a) with
  | [] => if is_managed a then Err (Refused MtIncomplete) else Ok (mp_secret st)
  | s => Ok s
  end.
Definition access_secret_optional (st : mtproto_settings) (a : proxy_access) : str :=
  match access_secret st a with Ok s => s | Err _ => [] end.
Definition access_fingerprint (st : mtproto_settings) (a : proxy_access) : result bot_error str :=
  match px_fingerprint a with
  | Some (c :: r) => Ok (c :: r)
  | _ =>
      match or_text (payload_text (py "fingerprint") (px_payload a)) (payload_text (py "fingerprint") (px_public_payload a)) with
      | [] => match access_secret st a with Ok [] => Ok [] | Ok s => Ok (mtproto_secret_fingerprint s) | Err e => Err e end
      | s => Ok s
      end
  end.
Definition mode_text (managed : bool) : str := if managed then py "managed" else py "static".
Definition mt_links (st : mtproto_settings) (secret : str) : str * str :=
  let base := py "https://t.me/proxy?server=" ++ mp_host st ++ py "&port=" ++ show_Z (mp_port st) in
  (base ++ py "&secret=" ++ secret, base ++ py "&secret=dd" ++ secret).
Definition mt_payload (st : mtproto_settings) (secret : str) (managed : bool) : payload :=
  [(py "type", PText (py "mtproto")); (py "mode", PText (mode_text managed)); (py "protocol", PText (py "mtproto"));
   (py "host", PText (mp_host st)); (py "port", PNumber (mp_port st)); (py "secret", PText secret);
   (py "secret_dd", PText (py "dd" ++ secret)); (py "fingerprint", PText (mtproto_secret_fingerprint secret));
   (py "link", PText (mt_links st secret).1); (py "link_dd", PText (mt_links st secret).2);
   (py "public_name", PText (mp_public_name st)); (py "note", PText (mp_note st))].
Definition mt_public_payload (st : mtproto_settings) (managed : bool) (fingerprint : option str) : payload :=
  [(py "type", PText (py "mtproto")); (py "mode", PText (mode_text managed)); (py "protocol", PText (py "mtproto"));
   (py "host", PText (mp_host st)); (py "port", PNumber (mp_port st));
   (py "public_name", PText (mp_public_name st)); (py "note", PText (mp_note st))]
  ++ match given fingerprint with Some f => [(py "fingerprint", PText f)] | None => [] end.
Definition with_payloads (a : proxy_access) (pl public_pl : payload) : proxy_access :=
  ProxyAccess (px_id a) (px_owner a) (px_username a) (px_type a) (px_status a) pl public_pl
    (px_created_at a) (px_updated_at a) (px_last_shown_at a) (px_revoked_at a) (px_deleted_at a) (px_created_by a)
    (px_revoked_by a) (px_deleted_by a) (px_reason a) (px_error a) (px_fingerprint a)
    (px_generation a) (px_activated_at a) (px_last_apply_at a).
Definition with_current_payload (st : mtproto_settings) (a : proxy_access) : result bot_error proxy_access :=
  match access_secret st a with
  | Err e => Err e
  | Ok [] => Ok a
  | Ok s => Ok (with_payloads a (mt_payload st s (is_managed a)) (mt_public_payload st (is_managed a) (Some (mtproto_secret_fingerprint s))))
  end.
(** [_managed_secrets_from_accesses] *)
Fixpoint managed_secrets_from_accesses (st : mtproto_settings) (l : list proxy_access) : result bot_error (list mt_secret) :=
  match l with
  | [] => Ok []
  | a :: rest =>
      if negb (is_managed a) then managed_secrets_from_accesses st rest
      else
        match access_secret st a with
        | Err e => Err e
        | Ok s =>
            match access_fingerprint st a with
            | Err e => Err e
            | Ok f =>
                if negb (bool_decide (f = mtproto_secret_fingerprint s)) then Err (Refused MtMismatch)
                else match managed_secrets_from_accesses st rest with
                     | Ok r => Ok (MtSecret s f (Some (px_owner a)) (Some (px_id a)) :: r)
                     | Err e => Err e
                     end
            end
        end
  end.
Definition EMPTY_PLACEHOLDER : str := py "empty-placeholder".
(** [by_fingerprint.setdefault(...)] over the items, in order. *)
Fixpoint one_per_fingerprint (seen : list str) (l : list mt_secret) : list mt_secret :=
  match l with
  | [] => []
  | s :: rest =>
      if bool_decide (ms_fingerprint s = EMPTY_PLACEHOLDER \/ ms_fingerprint s ∈ seen) then one_per_fingerprint seen rest
      else s :: one_per_fingerprint (ms_fingerprint s :: seen) rest
  end.

Section MtProto.
Context {X : Type} `{HS : Part X socks_host} `{HM : Part X mt_host} (env : bot_env) (menv : mtproto_env).
Abbreviation BM := (M (bot_world X) bot_error) (only parsing).
Abbreviation settings := (me_settings menv) (only parsing).
Abbreviation xenv := (me_proxy menv) (only parsing).

Definition mt_require_mutation : BM unit :=
  let! h := socks_state in
  match require_mutation_allowed MtProto (sh_health h) with Ok _ => ret tt | Err e => raise (Unhealthy e) end.
Definition mt_degrade (reason : str) : BM unit :=
  let! h := socks_state in set_host (SocksHost (sh_users h) (mark_degraded MtProto reason (sh_health h))).
Definition mt_ensure_enabled : BM unit :=
  if negb (mp_enabled settings) then raise (Refused MtOff)
  else if is_empty (mp_host settings) then raise (Refused MtNotConfigured)
  else if negb (mp_managed settings) && is_empty (mp_secret settings) then raise (Refused MtNotConfigured)
  else if mp_managed settings && negb (mp_adapter settings) then raise (Refused MtUnwired)
  else ret tt.
Definition managed_adapter : BM unit := if mp_adapter settings then ret tt else raise (Refused MtUnwired).
Definition mt_active_access (owner : Z) : BM (option proxy_access) :=
  find_user_access_by_type_statuses env owner MTPROTO [ProxyActive].
Definition mt_live_access (owner : Z) : BM (option proxy_access) :=
  find_user_access_by_type_statuses env owner MTPROTO LIVE_STATUSES.
Definition mt_audit (actor : option Z) (action : str) (id : Z) : BM unit := socks_audit env actor action id.
Definition mt_audit_all (action : str) : BM unit := audit_best_effort env None action OnProxies 0.
Definition mt_mark_shown (a : proxy_access) (actor : Z) : BM unit :=
  let! t := now env in
  ProxyRows.mark_shown env (px_id a) t ;;!
  mt_audit (Some actor) (py "mtproto_proxy_shown") (px_id a).
Definition current_payload (a : proxy_access) : BM proxy_access := lift (with_current_payload settings a).
(** [active = _with_current_payload(access)], shown, read again. *)
Definition hand_over (a : proxy_access) (actor : Z) : BM proxy_access :=
  let! active := current_payload a in
  mt_mark_shown active actor ;;!
  let! again := get_access env (px_id a) in
  current_payload again.

(** [_managed_accesses_by_statuses] *)
Fixpoint accesses_from (fuel : nat) (statuses : list proxy_status) (last_id : Z) : BM (list proxy_access) :=
  match fuel with
  | O => raise Unfinished
  | S fuel' =>
      let! batch := list_by_type_statuses env MTPROTO statuses 500 last_id in
      match batch with
      | [] => ret []
      | _ =>
          let! rest := accesses_from fuel' statuses (match last batch with Some a => px_id a | None => last_id end) in
          ret (batch ++ rest)
      end
  end.
Definition managed_accesses_by_statuses (statuses : list proxy_status) : BM (list proxy_access) :=
  let! turns := gets (fun w => S (length (sr_rows (bt_proxies (bw_tables w))))) in
  accesses_from turns statuses 0.
Definition active_managed_accesses : BM (list proxy_access) :=
  let! active := managed_accesses_by_statuses [ProxyActive] in ret (List.filter is_managed active).
Definition desired_managed_secrets (extra : option proxy_access) (exclude : option Z) : BM (list mt_secret) :=
  let! active := active_managed_accesses in
  let all := active ++ match extra with Some a => [a] | None => [] end in
  let wanted := match exclude with Some id => List.filter (fun a => negb (px_id a =? id)) all | None => all end in
  lift (managed_secrets_from_accesses settings wanted).
Definition read_all_runtime_managed_secrets : BM (list mt_secret) :=
  managed_adapter ;;!
  let! config_items := read_current_managed_secrets xenv in
  let! runtime_items := read_runtime_managed_secrets xenv in
  ret (one_per_fingerprint [] (config_items ++ runtime_items)).
Definition apply_desired (secrets : list mt_secret) : BM Z := managed_adapter ;;! apply_managed_secrets xenv secrets.
Fixpoint try_secrets (n : nat) (taken : list str) : BM str :=
  match n with
  | O => raise (Refused NoFreeSecret)
  | S n' =>
      let! secret := ask (me_hex menv) in
      let fingerprint := mtproto_secret_fingerprint secret in
      if bool_decide (fingerprint ∈ taken) then try_secrets n' taken
      else
        let! row := find_by_secret_fingerprint env fingerprint in
        match row with None => ret secret | Some _ => try_secrets n' taken end
  end.
Definition unique_managed_secret : BM str :=
  let! store := read_all_runtime_managed_secrets in try_secrets 20 (map ms_fingerprint store).

(** ** Issuing *)

Definition ROLLED_BACK_TEXT : str := py "db mark_active failed after server-side apply; MTProto secret was removed".
(** [_compensate_failed_managed_create_after_apply] *)
Definition mt_compensate (actor id : Z) : BM unit :=
  let! removed := attempt (let! desired := desired_managed_secrets None (Some id) in apply_desired desired) in
  match removed with
  | Err _ =>
      mt_degrade (py "post-apply mark_active failed and rollback failed") ;;!
      mt_audit (Some actor) (py "mtproto_create_rollback_failed") id
  | Ok _ =>
      let! _ := attempt (let! t := now env in ProxyRows.set_status env id ProxyApplyFailed t (Some ROLLED_BACK_TEXT) None []) in
      mt_audit (Some actor) (py "mtproto_create_rolled_back_after_db_failure") id
  end.
(** Shown again, when there is an active access already. *)
Definition mt_existing (actor owner : Z) (otherwise : BM proxy_access) : BM proxy_access :=
  let! existing := mt_active_access owner in
  match existing with Some a => hand_over a actor | None => otherwise end.
Definition mt_apply_access (actor : Z) (a : proxy_access) (secret : str) : BM Z :=
  catch (let! desired := desired_managed_secrets (Some a) None in apply_desired desired)
    (fun exc =>
       let error := me_text menv exc secret in
       let! t := now env in
       ProxyRows.set_status env (px_id a) ProxyApplyFailed t (Some error.1) None [] ;;!
       mt_audit (Some actor) (py "mtproto_proxy_apply_failed") (px_id a) ;;!
       if error.2 : bool then raise (Refused MtApplyRedacted) else raise exc).
Definition mt_activate (actor id : Z) (pl public_pl : payload) (generation : Z) : BM unit :=
  catch (let! t := now env in ProxyRows.mark_active env id t (Some pl) (Some public_pl) (Some generation))
    (fun exc => mt_compensate actor id ;;! raise exc).
(** What is done when the unique index refuses the row. *)
Definition refused_row (actor owner : Z) : BM proxy_access :=
  let! live := mt_live_access owner in
  match live with
  | Some a => if proxy_in [ProxyActive] a then hand_over a actor else raise (Refused MtBusy)
  | None => raise (Refused MtBusy)
  end.
Definition finish_managed (actor : Z) (secret : str) (a : proxy_access) : BM proxy_access :=
  let pl := mt_payload settings secret true in
  let public_pl := mt_public_payload settings true None in
  let! generation := mt_apply_access actor a secret in
  mt_activate actor (px_id a) pl public_pl generation ;;!
  mt_audit (Some actor) (py "mtproto_proxy_created") (px_id a) ;;!
  let! again := get_access env (px_id a) in
  hand_over again actor.
Definition issue_managed_new (actor : Z) (p : profile) : BM proxy_access :=
  managed_adapter ;;!
  ensure_managed_runtime_ready xenv ;;!
  let! secret := unique_managed_secret in
  let! t := now env in
  let! created := attempt (ProxyRows.create env (pf_id p) (pf_username p) MTPROTO ProxyPendingApply (mt_payload settings secret true)
      (mt_public_payload settings true None) actor t (Some (mtproto_secret_fingerprint secret)) 0) in
  match created with
  | Ok a => finish_managed actor secret a
  | Err UniqueConflict => refused_row actor (pf_id p)
  | Err e => raise e
  end.
Definition issue_managed (actor : Z) (p : profile) : BM proxy_access :=
  managed_adapter ;;!
  ensure_can_issue env actor (pf_id p) ;;!
  mt_existing actor (pf_id p) (
    mt_require_mutation ;;!
    mt_existing actor (pf_id p) (issue_managed_new actor p)).
Definition issue_static (actor : Z) (p : profile) : BM proxy_access :=
  ensure_can_issue env actor (pf_id p) ;;!
  mt_existing actor (pf_id p) (
    let! t := now env in
    let! a := ProxyRows.create env (pf_id p) (pf_username p) MTPROTO ProxyActive (mt_payload settings (mp_secret settings) false)
      (mt_public_payload settings false None) actor t (Some (mtproto_secret_fingerprint (mp_secret settings))) 0 in
    mt_audit (Some actor) (py "mtproto_proxy_created") (px_id a) ;;!
    let! again := get_access env (px_id a) in
    hand_over again actor).
Definition issue_mtproto_proxy (actor : Z) (p : profile) : BM proxy_access :=
  mt_ensure_enabled ;;!
  mt_require_mutation ;;!
  if mp_managed settings then issue_managed actor p else issue_static actor p.
Definition get_mtproto_proxy_config (actor : Z) : BM proxy_access :=
  let! _ := require_approved_or_admin env actor in
  let! found := mt_active_access actor in
  match found with None => raise (Missing NoMtproto) | Some a => hand_over a actor end.
Definition list_user_mtproto_accesses (actor : Z) : BM (list proxy_access) :=
  let! _ := require_approved_or_admin env actor in
  let! all := ProxyRows.list_by_owner env actor false 50 0 in
  ret (List.filter (fun a => bool_decide (px_type a = MTPROTO)) all).
Definition runtime_secret_count : BM (option nat) :=
  if negb (mp_managed settings) || negb (mp_adapter settings) then ret None
  else
    let! read := attempt (read_current_managed_secrets xenv) in
    ret (match read with Ok l => Some (length l) | Err _ => None end).

(** ** Revoking and deleting *)

Definition CLOSED_STATUSES : list proxy_status := [ProxyRevoked; ProxyInactive; ProxyDeleted].
Definition deactivate_static (a : proxy_access) (actor : Z) (reason : option str) : BM proxy_access :=
  let! t := now env in
  ProxyRows.mark_inactive env (px_id a) actor t reason ;;!
  mt_audit (Some actor) (py "mtproto_proxy_deactivated") (px_id a) ;;!
  let! again := get_access env (px_id a) in
  current_payload again.
Definition remove_secret (actor : Z) (reason : option str) (a : proxy_access) : BM Z :=
  catch (let! desired := desired_managed_secrets None (Some (px_id a)) in apply_desired desired)
    (fun exc =>
       let error := me_text menv exc (access_secret_optional settings a) in
       let! t := now env in
       ProxyRows.set_status env (px_id a) ProxyRevokeFailed t (Some error.1) reason [] ;;!
       mt_audit (Some actor) (py "mtproto_proxy_revoke_failed") (px_id a) ;;!
       if error.2 : bool then raise (Refused MtRevokeRedacted) else raise exc).
Definition revoke_managed (found : proxy_access) (actor : Z) (reason : option str) : BM proxy_access :=
  mt_require_mutation ;;!
  let! a := get_access env (px_id found) in
  if proxy_in CLOSED_STATUSES a then current_payload a
  else
    managed_adapter ;;!
    ensure_managed_runtime_ready xenv ;;!
    let! t := now env in
    ProxyRows.set_status env (px_id a) ProxyPendingRevoke t None reason [] ;;!
    let! _ := lift (access_fingerprint settings a) in
    let! _ := remove_secret actor reason a in
    let! t := now env in
    ProxyRows.mark_revoked env (px_id a) actor t reason ;;!
    mt_audit (Some actor) (py "mtproto_proxy_revoked") (px_id a) ;;!
    let! again := get_access env (px_id a) in
    current_payload again.
Definition revoke_mtproto (actor id : Z) (reason : option str) : BM proxy_access :=
  let! a := get_access env id in
  if negb (bool_decide (px_type a = MTPROTO)) then raise (Refused NotMtproto)
  else if proxy_in CLOSED_STATUSES a then current_payload a
  else
    mt_require_mutation ;;!
    if is_managed a then revoke_managed a actor reason else deactivate_static a actor reason.
Definition revoke_mtproto_proxy (actor id : Z) (reason : option str) : BM proxy_access :=
  let! _ := require_superadmin env actor in revoke_mtproto actor id reason.
Definition revoke_mtproto_proxy_system (actor id : Z) (reason : option str) : BM proxy_access :=
  revoke_mtproto actor id reason.
Definition delete_mtproto_proxy (actor id : Z) (reason : option str) : BM proxy_access :=
  let! _ := require_superadmin env actor in
  let! a := revoke_mtproto_proxy actor id reason in
  if proxy_in [ProxyDeleted] a then ret a
  else
    mt_require_mutation ;;!
    let! t := now env in
    ProxyRows.mark_deleted env (px_id a) actor t reason ;;!
    mt_audit (Some actor) (py "mtproto_proxy_deleted") (px_id a) ;;!
    get_access env (px_id a).

(** ** The pass at start-up *)

Definition NOT_FOUND_TEXT : str := py "startup reconciliation did not find applied MTProto secret".
Definition REMOVED_TEXT : str := py "startup mark_active failed; applied MTProto secret was removed".
(** [_compensate_failed_startup_pending_apply] *)
Definition compensate_startup (a : proxy_access) : BM unit :=
  let! removed := attempt (let! desired := desired_managed_secrets None (Some (px_id a)) in apply_desired desired) in
  match removed with
  | Err _ =>
      mt_degrade (py "startup pending_apply mark_active failed and rollback failed") ;;!
      mt_audit None (py "mtproto_startup_pending_apply_compensation_failed") (px_id a)
  | Ok _ =>
      let! noted := attempt (let! t := now env in ProxyRows.set_status env (px_id a) ProxyApplyFailed t (Some REMOVED_TEXT) None []) in
      (match noted with
       | Ok _ => ret tt
       | Err _ => mt_degrade (py "startup pending_apply rollback succeeded but DB status update failed")
       end) ;;!
      mt_audit None (py "mtproto_startup_pending_apply_compensated") (px_id a)
  end.
(** [{item.fingerprint: item for item in store}.get(...)]: the last item of a fingerprint. *)
Definition stored_secret (fingerprint : str) (store : list mt_secret) : option mt_secret :=
  last (List.filter (fun s => bool_decide (ms_fingerprint s = fingerprint)) store).
Definition startup_pending_apply (a : proxy_access) (store : list mt_secret) : BM bool :=
  let! fingerprint := lift (access_fingerprint settings a) in
  match stored_secret fingerprint store with
  | None =>
      let! t := now env in
      ProxyRows.set_status env (px_id a) ProxyApplyFailed t (Some NOT_FOUND_TEXT) None [] ;;!
      mt_audit None (py "mtproto_startup_pending_apply_failed") (px_id a) ;;!
      ret true
  | Some item =>
      if negb (bool_decide (mtproto_secret_fingerprint (ms_secret item) = fingerprint)) then raise (Refused MtMismatch)
      else
        let! marked := attempt (let! t := now env in
          ProxyRows.mark_active env (px_id a) t (Some (mt_payload settings (ms_secret item) true))
            (Some (mt_public_payload settings true (Some fingerprint))) None) in
        match marked with
        | Err _ => compensate_startup a ;;! ret true
        | Ok _ => mt_audit None (py "mtproto_startup_apply_recovered") (px_id a) ;;! ret true
        end
  end.
Definition startup_removal (a : proxy_access) (delete : bool) : BM bool :=
  let! active := active_managed_accesses in
  let! desired := lift (managed_secrets_from_accesses settings active) in
  let! _ := apply_desired desired in
  let actor := or_id (px_deleted_by a) (or_id (px_revoked_by a) (px_created_by a)) in
  (if delete then let! t := now env in ProxyRows.mark_deleted env (px_id a) actor t (px_reason a)
   else let! t := now env in ProxyRows.mark_revoked env (px_id a) actor t (px_reason a)) ;;!
  let! _ := lift (access_fingerprint settings a) in
  mt_audit None (if delete then py "mtproto_startup_delete_completed" else py "mtproto_startup_revoke_completed") (px_id a) ;;!
  ret true.
(** [_startup_reconcile_managed_access] *)
Definition startup_access (a : proxy_access) (store : list mt_secret) : BM bool :=
  if proxy_in [ProxyPendingApply] a then startup_pending_apply a store
  else if proxy_in [ProxyPendingRevoke; ProxyRevokeFailed] a then startup_removal a false
  else if proxy_in [ProxyPendingDelete; ProxyDeleteFailed] a then startup_removal a true
  else ret false.
(** The body of the [try] keeps its counts when it raises: each step hands on the summary
    it was given with the exception. *)
Definition counting {A} (s : mt_summary) (m : BM A) (k : A -> BM (mt_summary * option bot_error)) : BM (mt_summary * option bot_error) :=
  let! o := attempt m in match o with Ok a => k a | Err e => ret (s, Some e) end.
Fixpoint startup_accesses (pending : list proxy_access) (store : list mt_secret) (s : mt_summary)
    (k : list mt_secret -> mt_summary -> BM (mt_summary * option bot_error)) : BM (mt_summary * option bot_error) :=
  match pending with
  | [] => k store s
  | a :: rest =>
      counting s (startup_access a store) (fun changed =>
        if changed : bool then
          counting (add_recovered s) read_all_runtime_managed_secrets (fun store' => startup_accesses rest store' (add_recovered s) k)
        else startup_accesses rest store s k)
  end.
Definition set_difference (l r : list str) : list str := remove_dups (List.filter (fun x => negb (bool_decide (x ∈ r))) l).
(** The secrets of the active rows and the stored ones compared, and the former applied when they differ. *)
Definition repair_drift (store : list mt_secret) (s : mt_summary) : BM (mt_summary * option bot_error) :=
  counting s active_managed_accesses (fun active =>
  counting s (lift (managed_secrets_from_accesses settings active)) (fun desired =>
    let missing := set_difference (map ms_fingerprint desired) (map ms_fingerprint store) in
    let orphaned := set_difference (map ms_fingerprint store) (map ms_fingerprint desired) in
    let s1 := MtSummary (Z.of_nat (length active)) (Z.of_nat (length missing)) (Z.of_nat (length orphaned))
                (su_pending s) (su_recovered s) (su_failed s) (su_fatal s) in
    match missing ++ orphaned with
    | [] => ret (s1, None)
    | _ =>
        counting s1 (apply_desired desired) (fun _ =>
        counting (add_recovered s1) (mt_audit_all (py "mtproto_startup_drift_repaired")) (fun _ => ret (add_recovered s1, None)))
    end)).
Definition startup_body : BM (mt_summary * option bot_error) :=
  counting no_summary (managed_adapter ;;! ensure_managed_runtime_ready xenv) (fun _ =>
  counting no_summary read_all_runtime_managed_secrets (fun store =>
  counting no_summary (managed_accesses_by_statuses MTPROTO_STARTUP_RECONCILE_STATUSES) (fun all =>
    let pending := List.filter is_managed all in
    let failed := List.filter (proxy_in [ProxyApplyFailed; ProxyRevokeFailed; ProxyDeleteFailed]) pending in
    let s := MtSummary 0 0 0 (Z.of_nat (length pending)) 0 (Z.of_nat (length failed)) 0 in
    startup_accesses pending store s repair_drift))).
Definition reconcile_mtproto_state : BM mt_summary :=
  if negb (mp_enabled settings) || negb (mp_managed settings) || negb (mp_adapter settings) then ret no_summary
  else
    let! done := startup_body in
    let! s := (match done.2 with
               | None => ret done.1
               | Some _ =>
                   mt_degrade (py "startup reconciliation failed") ;;!
                   mt_audit_all (py "mtproto_startup_reconcile_failed") ;;!
                   ret (add_fatal done.1)
               end) in
    (if any_counted s then mt_audit_all (py "mtproto_startup_reconcile_checked") else ret tt) ;;!
    ret s.
End MtProto.
