(* ===== verification/MtProxySafety.v ===== *)
(** * What applying a set of secrets leaves

    [MtProxy]: whatever fails, the secrets served afterwards are the old ones or the new
    ones; when the call returns they are the new ones, and when it says that it has
    rolled back, the files are the old ones. *)

From S2P Require Import Prelude PyText Json Triples AwgConfig VpnKeys BackendHealth AwgService BotDb DanteUsers ProxyRows Socks5 ProxySafety MtProxy.
#[local] Open Scope Z_scope.

(** ** Sets of secrets *)

Lemma first_of_each_in l : forall seen r, first_of_each seen l = Ok r -> r ⊆ l.
Proof.
  induction l as [|a l IH]; intros seen r; cbn; [by intros [= <-]|]. destruct (secret_ok _); [|done]. case_bool_decide.
  - intros E. apply IH in E. set_solver.
  - destruct (first_of_each _ l) as [r'|] eqn:E; [|done]. intros [= <-]. apply IH in E. set_solver.
Qed.
Lemma first_of_each_all l : forall seen r s, first_of_each seen l = Ok r -> s ∈ l ->
  ms_fingerprint s ∈ seen \/ exists s', s' ∈ r /\ ms_fingerprint s' = ms_fingerprint s.
Proof.
  induction l as [|a l IH]; intros seen r s; cbn; [by intros _ ?%elem_of_nil|]. destruct (secret_ok _); [|done]. case_bool_decide as Hs.
  - intros E [->|Hin]%elem_of_cons; [by left|by eapply IH].
  - destruct (first_of_each _ l) as [r'|] eqn:E; [|done]. intros [= <-] [->|Hin]%elem_of_cons; [right; exists a; split; [by left|done]|].
    destruct (IH _ _ _ E Hin) as [[->|Hs']%elem_of_cons|(s' & Hs' & Hf)]; [right; exists a; split; [by left|done]|by left|].
    right. exists s'. split; [by right|done].
Qed.
Lemma normalize_in l r : normalize_secrets l = Ok r -> r ⊆ l.
Proof. intros H%first_of_each_in s Hs%H. by rewrite merge_sort_Permutation in Hs. Qed.
Lemma normalize_ok l r : normalize_secrets l = Ok r -> forall s, s ∈ r -> secret_ok (ms_secret s) = true.
Proof.
  unfold normalize_secrets. generalize (merge_sort secret_le l) as l'. intros l'. generalize (@nil str) as seen. revert r.
  induction l' as [|a l' IH]; intros r seen; cbn; [by intros [= <-] s ?%elem_of_nil|]. destruct (secret_ok _) eqn:Hok; [|done].
  case_bool_decide; [apply IH|]. destruct (first_of_each _ l') as [r'|] eqn:E; [|done]. intros [= <-] s [->|Hs]%elem_of_cons; [done|]. by eapply IH.
Qed.
Lemma normalize_all l r s : normalize_secrets l = Ok r -> s ∈ l -> exists s', s' ∈ r /\ ms_fingerprint s' = ms_fingerprint s.
Proof.
  intros H Hs. destruct (first_of_each_all _ _ _ s H) as [?%elem_of_nil|]; [by rewrite merge_sort_Permutation|done|done].
Qed.
Lemma served_map l : served_items (map Served l) = l.
Proof. induction l as [|s l IH]; [done|]. unfold served_items in *. csimpl. by f_equal. Qed.

(** ** The settings file holds one record per setting *)

Lemma env_lines values content : env_content values = Ok content -> Forall (fun kv => NEWLINE ∉ kv.1) values ->
  split_char NEWLINE content = map (fun kv => kv.1 ++ EQUALS :: kv.2) values ++ [[]].
Proof.
  unfold env_content. destruct (forallb _ values) eqn:E; [|done]. intros [= <-] Hk. induction values as [|[k v] l IH]; [done|].
  cbn [forallb] in E. apply andb_true_iff in E as [Hv E]. inversion Hk; subst. cbn [fst snd] in *. csimpl.
  assert ((k ++ EQUALS :: v ++ [NEWLINE]) ++ (l ≫= (fun kv => kv.1 ++ EQUALS :: kv.2 ++ [NEWLINE]))
    = (k ++ EQUALS :: v) ++ NEWLINE :: (l ≫= (fun kv => kv.1 ++ EQUALS :: kv.2 ++ [NEWLINE]))) as ->.
  { rewrite <- !app_assoc. f_equal. cbn. by rewrite <- app_assoc. }
  rewrite split_char_app; [by rewrite IH|]. rewrite elem_of_app, elem_of_cons. intros [?|[?|Hin]]; [done|done|].
  unfold control_free in Hv. apply negb_true_iff in Hv. assert (existsb (fun c => (c =? NEWLINE) || (c =? 13) || (c =? 0))%N v = true); [|congruence].
  apply existsb_exists. exists NEWLINE. split; [by apply list_elem_of_In|done].
Qed.

Section Adapter.
Context {X : Type} `{HM : Part X mt_host} (xenv : mtproxy_env).
Implicit Types w : bot_world X.
Abbreviation BM := (M (bot_world X) bot_error) (only parsing).

Definition files w : mt_files := mh_files (part_get (bw_rest w)).
Definition process w : option (list str) := mh_process (part_get (bw_rest w)).
Definition served_of (s : mt_store) : list mt_secret :=
  match s with Store d _ => md_secrets d ++ served_items (md_runtime d) | _ => [] end.
(** Of these, what the proxy is started with. *)
Definition runtime_of (s : mt_store) : list mt_secret := match s with Store d _ => served_items (md_runtime d) | _ => [] end.
Definition served w : list mt_secret := served_of (mf_store (files w)).

(** The files stand still. *)
Definition same_files w w' : Prop := files w' = files w.
#[export] Instance same_files_pre : PreOrder same_files.
Proof. split; [by intros w|]. intros a b c H1 H2. by transitivity (files b). Qed.
(** The tables stand still, and the document is one of those that are allowed. *)
Definition within (t0 : bot_tables) (allowed : mt_store -> Prop) w : Prop := bw_tables w = t0 /\ allowed (mf_store (files w)).
Lemma within_ask {A} t0 allowed (f : nat -> A) : steady (within t0 allowed) (ask (X := X) f).
Proof. by intros w. Qed.
Lemma within_files t0 allowed : steady (within t0 allowed) (mt_files_of (X := X)).
Proof. by intros w. Qed.
Lemma within_host t0 allowed : steady (within t0 allowed) (mt_host_of (X := X)).
Proof. by intros w. Qed.
Lemma within_set t0 (allowed : mt_store -> Prop) f : allowed (mf_store f) -> steady (within t0 allowed) (set_files (X := X) f).
Proof. intros Hf w [H1 H2]. split; [done|]. unfold files. cbn. by rewrite part_get_set. Qed.
Lemma within_raise {A} t0 allowed e : steady (within t0 allowed) (mt_raise (X := X) (A := A) e).
Proof. apply steady_raise. Qed.
Lemma within_lift {A} t0 allowed (r : result mt_error A) : steady (within t0 allowed) (mt_lift (X := X) r).
Proof. destruct r; [apply steady_ret|apply steady_raise]. Qed.
Lemma within_store t0 (allowed : mt_store -> Prop) s : allowed s -> steady (within t0 allowed) (set_store (X := X) s).
Proof. intros Hs. apply steady_bind; [apply within_files|]. intros f. by apply within_set. Qed.
Lemma within_env t0 allowed e : steady (within t0 allowed) (set_env (X := X) e).
Proof.
  intros w [H1 H2]. unfold set_env, mt_files_of, set_files, bind, gets, modify. cbn. split; [done|]. unfold files in *. cbn. by rewrite part_get_set.
Qed.
End Adapter.
Create HintDb within discriminated.
#[export] Hint Resolve within_ask within_host within_files within_raise within_lift within_env steady_ret steady_raise : within.
Ltac within_step :=
  match goal with
  | |- forall _, _ => intro
  | |- steady _ (bind _ _) => apply steady_bind
  | |- steady _ (catch _ _) => apply steady_catch
  | |- steady _ (attempt _) => apply steady_attempt
  | |- steady _ (match ?x with _ => _ end) => destruct x
  | |- steady _ (let _ := _ in _) => cbv zeta
  end.
Ltac within_tac := repeat (solve [eauto 3 with within nocore] || within_step).

Section Apply.
Context {X : Type} `{HM : Part X mt_host} (xenv : mtproxy_env).
Implicit Types w : bot_world X.
Abbreviation BM := (M (bot_world X) bot_error) (only parsing).
Definition with_host (h : mt_host) w : bot_world X :=
  BotWorld (bw_tables w) (bw_keys w) (bw_cleared w) (bw_kicked w) (bw_told w) (part_set h (bw_rest w)) (S (bw_tick w)).
Lemma restart_eq w : restart_mtproxy xenv w =
  let done := mx_restart xenv (bw_tick w) (part_get (bw_rest w)) in
  (match done.1 with Some b => Ok b | None => Err (MtProxy MtIo) end, with_host (MtHost (files w) done.2) w).
Proof. unfold restart_mtproxy, bind, ask, mt_host_of, gets. cbn. by destruct (mx_restart xenv _ _) as [[b|] p]. Qed.

Section Steps.
Context (t0 : bot_tables) (allowed : mt_store -> Prop).
Abbreviation keep := (steady (within (X := X) t0 allowed)).
Lemma keep_io : keep (io xenv).
Proof. unfold io. within_tac. Qed.
Lemma keep_answer f : keep (answer f).
Proof. unfold answer. within_tac. Qed.
Lemma keep_restart : keep (restart_mtproxy xenv).
Proof.
  apply steady_of. intros w r w'. rewrite restart_eq. intros [= _ <-] [H1 H2]. split; [done|]. unfold files in *. cbn. by rewrite part_get_set.
Qed.
Lemma keep_listening : keep (check_mtproxy_listening xenv).
Proof. unfold check_mtproxy_listening. within_tac. Qed.
#[local] Hint Resolve keep_io keep_answer keep_restart keep_listening : within.
Lemma keep_read : keep (read_store_document xenv).
Proof. unfold read_store_document. within_tac. Qed.
#[local] Hint Resolve keep_read : within.
Lemma keep_ready : keep (ensure_managed_runtime_ready xenv).
Proof. unfold ensure_managed_runtime_ready, ensure_wrapper_ready, ensure_managed_permissions. within_tac. Qed.
Lemma keep_document l d g : keep (store_document xenv l d g).
Proof. unfold store_document. within_tac. Qed.
Lemma keep_current d : keep (runtime_files_current xenv d).
Proof. unfold runtime_files_current. within_tac. Qed.
Lemma keep_check : keep (check_runtime xenv).
Proof. unfold check_runtime. within_tac. Qed.
Lemma keep_write d : allowed (Store d true) -> keep (write_runtime_files xenv d).
Proof. intros Hd. unfold write_runtime_files, ensure_managed_permissions. within_tac; by apply within_store. Qed.
Lemma keep_rollback saved : allowed (mf_store saved) -> allowed BrokenStore -> keep (roll_back xenv saved).
Proof. intros H1 H2. unfold roll_back, restore_backup, restore_file. within_tac; by apply within_store. Qed.
End Steps.

Abbreviation at_store st := (fun s => s = st) (only parsing).
Lemma within_here w : within (bw_tables w) (at_store (mf_store (files w))) w.
Proof. done. Qed.
Lemma steady_of_run {A} P (m : BM A) w r w' : m w = (r, w') -> P w -> steady P m -> P w'.
Proof. intros E Hw Hm. by eapply steady_run. Qed.
Lemma mt_read_run w r w' : read_store_document xenv w = (r, w') ->
  within (bw_tables w) (at_store (mf_store (files w))) w'
  /\ forall d, r = Ok d -> mf_store (files w) = NoStore /\ d = no_document \/ exists b, mf_store (files w) = Store d b.
Proof.
  intros E. split; [eapply steady_of_run; [exact E|apply within_here|apply keep_read]|]. intros d ->. unfold read_store_document in E.
  apply bind_inv in E as [([] & w1 & H1 & E)|(? & _ & ?)]; [|done]. pose proof (steady_of_run _ _ _ _ _ H1 (within_here w) (keep_io _ _)) as [_ Hst].
  apply bind_inv in E as [(f & w2 & H2 & E)|(? & _ & ?)]; [|done]. injection H2 as <- <-. change (mh_files (part_get (bw_rest w1))) with (files w1) in E. rewrite Hst in E.
  destruct (mf_store (files w)) as [| |d' b]; cbv beta iota in E; [|done|]; injection E as Hd _; [by left|right; exists b; congruence].
Qed.
(** A document that is made holds the secrets twice, for the bot and for the proxy. *)
Definition holds (n : list mt_secret) (d : mt_document) : Prop := md_secrets d = n /\ served_items (md_runtime d) = n.
Lemma document_run l c g w r w' : store_document xenv l c g w = (r, w') ->
  within (bw_tables w) (at_store (mf_store (files w))) w'
  /\ forall d, r = Ok d -> exists n, normalize_secrets l = Ok n /\ holds n d /\ md_generation d = g.
Proof.
  intros E. split; [eapply steady_of_run; [exact E|apply within_here|apply keep_document]|]. intros d ->. unfold store_document in E.
  apply bind_inv in E as [(n & w1 & H1 & E)|(? & _ & ?)]; [|done]. destruct (normalize_secrets l) as [n'|]; [|done]. injection H1 as <- _.
  exists n'. split; [done|]. destruct n' as [|a n'].
  - apply bind_inv in E as [(p & w2 & _ & E)|(? & _ & ?)]; [|done]. by injection E as <- _.
  - injection E as <- _. split; [|done]. split; [done|]. apply (served_map (a :: n')).
Qed.
Lemma current_run d w w' : runtime_files_current xenv d w = (Ok true, w') -> mf_store (files w) = Store d true.
Proof.
  unfold runtime_files_current. intros [([] & w1 & H1 & E)|(? & _ & ?)]%bind_inv; [|done].
  pose proof (steady_of_run _ _ _ _ _ H1 (within_here w) (keep_io _ _)) as [_ Hst].
  apply bind_inv in E as [(f & w2 & H2 & E)|(? & _ & ?)]; [|done]. injection H2 as <- <-. change (mh_files (part_get (bw_rest w1))) with (files w1) in E. rewrite Hst in E.
  destruct (mf_store (files w)) as [| |d' [|]]; try done; destruct (mf_env (files w1)) as [e|]; try done. by revert E; case_bool_decide as H; [rewrite H|].
Qed.
Lemma write_run d w w' : write_runtime_files xenv d w = (Ok tt, w') -> within (bw_tables w) (at_store (Store d true)) w'.
Proof.
  unfold write_runtime_files. intros [([] & w1 & H1 & E)|(? & _ & ?)]%bind_inv; [|done].
  pose proof (steady_of_run _ _ _ _ _ H1 (within_here w) (keep_io _ _)) as [Ht _].
  apply bind_inv in E as [([] & w2 & H2 & E)|(? & _ & ?)]; [|done].
  assert (within (bw_tables w) (at_store (Store d true)) w2) as Hw2.
  { revert H2. unfold set_store, mt_files_of, set_files, bind, gets, modify. intros [= <-]. split; [exact Ht|]. unfold files. cbn. by rewrite part_get_set. }
  eapply steady_of_run; [exact E|exact Hw2|]. clear. unfold ensure_managed_permissions. pose proof (keep_io (bw_tables w) (at_store (Store d true))). within_tac.
Qed.
(** What a failing call may leave. *)
Definition in_between (st : mt_store) (d : mt_document) (s : mt_store) : Prop := s = st \/ s = Store d true \/ s = BrokenStore.
Lemma direct_run d w r w' : apply_document_directly xenv d w = (r, w') ->
  within (bw_tables w) (in_between (mf_store (files w)) d) w' /\ (r = Ok tt -> mf_store (files w') = Store d true).
Proof.
  unfold apply_document_directly, backup_managed_files. intros [(saved & w1 & H1 & E)|(e & H1 & ->)]%bind_inv.
  2:{ apply bind_inv in H1 as [(? & w2 & _ & ?)|(? & H1 & _)]; [done|]. split; [|done].
      pose proof (steady_of_run _ _ _ _ _ H1 (within_here w) (keep_io _ _)) as [? ?]. split; [done|by left]. }
  apply bind_inv in H1 as [([] & w2 & H1 & H2)|(? & _ & ?)]; [|done]. pose proof (steady_of_run _ _ _ _ _ H1 (within_here w) (keep_io _ _)) as [Ht Hst].
  injection H2 as <- <-. change (mh_files (part_get (bw_rest w2))) with (files w2) in E. rewrite <- Ht, <- Hst. clear Ht Hst H1.
  assert (forall m : BM unit, steady (within (bw_tables w2) (in_between (mf_store (files w2)) d)) m -> within (bw_tables w2) (in_between (mf_store (files w2)) d) (m w2).2) as Hrun.
  { intros m Hm. apply (steady_run (within (bw_tables w2) (in_between (mf_store (files w2)) d)) m w2 (m w2).1 (m w2).2 Hm); [by destruct (m w2)|split; [done|by left]]. }
  unfold catch in E. set (body := bind (write_runtime_files xenv d) _) in E.
  assert (steady (within (bw_tables w2) (in_between (mf_store (files w2)) d)) body) as Hbody.
  { apply steady_bind; [apply keep_write; by right; left|intros _; apply keep_check]. }
  destruct (body w2) as [[[]|e] w3] eqn:Eb; [injection E as <- <-|].
  - split; [by pose proof (Hrun body Hbody) as H; rewrite Eb in H|]. intros _. subst body. apply bind_inv in Eb as [([] & w4 & H4 & E4)|(? & _ & ?)]; [|done].
    apply write_run in H4. by destruct (steady_of_run _ _ _ _ _ E4 H4 (keep_check _ _)) as [_ ?].
  - pose proof (Hrun body Hbody) as H3. rewrite Eb in H3. cbn in H3. destruct (mx_rollback _); cbn [negb] in E; [|by injection E as <- <-].
    apply bind_inv in E as [(o & w4 & H4 & E)|(? & H4 & _)]; [|unfold attempt in H4; by destruct (roll_back _ _ _)].
    assert (within (bw_tables w2) (in_between (mf_store (files w2)) d) w4) as H5.
    { eapply steady_of_run; [exact H4|exact H3|]. apply steady_attempt, keep_rollback; [by left|by right; right]. }
    destruct o; injection E as <- <-; by split.
Qed.

Context `{!MtHelper xenv}.
Lemma helper_run d w r w' : apply_document_via_helper xenv d w = (r, w') ->
  within (bw_tables w) (in_between (mf_store (files w)) d) w' /\ (r = Ok tt -> mf_store (files w') = Store d true).
Proof using MtHelper0.
  unfold apply_document_via_helper. intros [([] & w1 & H1 & E)|(e & H1 & ->)]%bind_inv;
    destruct (steady_of_run _ _ _ _ _ H1 (within_here w) (keep_io _ _)) as [Ht Hst]; [|split; [split; [done|by left]|done]].
  rewrite <- Ht, <- Hst. clear Ht Hst H1. apply bind_inv in E as [(content & w2 & H2 & E)|(e & H2 & ->)].
  2:{ assert (w' = w1) as -> by (destruct (env_content _); by injection H2 as _ ->). split; [split; [done|by left]|done]. }
  assert (w2 = w1) as -> by (by destruct (env_content _); injection H2 as _ ->). clear H2.
  unfold bind, ask, mt_host_of, gets in E. cbn in E. set (h := part_get (bw_rest w1)) in E.
  pose proof (helper_failed (bw_tick w1) d content h) as Hf. pose proof (helper_done (bw_tick w1) d content h) as Hd.
  destruct (mx_apply xenv _ _ h) as [rc h'] eqn:Ea. cbn in *. unfold set_mt_host, modify in E. cbn in E.
  assert (w' = BotWorld (bw_tables w1) (bw_keys w1) (bw_cleared w1) (bw_kicked w1) (bw_told w1) (part_set h' (bw_rest w1)) (S (bw_tick w1))
    /\ (r = Ok tt -> rc = Some 0)) as [-> Hr] by (revert E; case_bool_decide; intros [= <- <-]; by split).
  unfold within, files. cbn. rewrite part_get_set. split; [split; [done|]|].
  - apply list_elem_of_In in Hf. cbn in Hf. unfold in_between. change (part_get (bw_rest w1)) with h. intuition congruence.
  - intros ->. by rewrite (Hd (Hr eq_refl)).
Qed.

(** The document holds the secrets and no others, and hands them to the proxy. *)
Definition serves (st : mt_store) (secrets : list mt_secret) : Prop :=
  served_of st ⊆ secrets
  /\ forall s, s ∈ secrets -> exists s', s' ∈ runtime_of st /\ ms_fingerprint s' = ms_fingerprint s /\ ms_secret s' <> [].
Lemma runtime_served st s : s ∈ runtime_of st -> s ∈ served_of st.
Proof. destruct st; [done|done|]. cbn. intros H. apply elem_of_app. by right. Qed.
Lemma serves_document secrets n m d b : normalize_secrets secrets = Ok n -> normalize_secrets m = Ok (md_secrets d) ->
  served_items (md_runtime d) = md_secrets d -> m ⊆ n -> n ⊆ m -> serves (Store d b) secrets.
Proof.
  intros Hn Hm Hr H1 H2. unfold serves. cbn. rewrite Hr. pose proof (normalize_in _ _ Hn) as Hin. pose proof (normalize_in _ _ Hm) as Hin2. split; [set_solver|].
  intros s Hs. destruct (normalize_all _ _ _ Hn Hs) as (s1 & Hs1 & Hf1). destruct (normalize_all _ _ s1 Hm) as (s2 & Hs2 & Hf2); [set_solver|].
  assert (s2 ∈ md_secrets d) as Hs2' by done.
  exists s2. split; [exact Hs2'|]. split; [congruence|]. intros Hnil. pose proof (normalize_ok _ _ Hm _ Hs2) as Hok.
  unfold secret_ok in Hok. by rewrite Hnil in Hok.
Qed.
Definition still w w' : Prop := within (bw_tables w) (at_store (mf_store (files w))) w'.
#[local] Instance still_pre : PreOrder still.
Proof. split; [done|]. intros a b c [H1 H2] [H3 H4]. split; congruence. Qed.
Lemma still_run {A} (m : BM A) w r w' : (forall t0 st, steady (within t0 (at_store st)) m) -> m w = (r, w') -> still w w'.
Proof. intros Hm E. eapply steady_of_run; [exact E|apply within_here|apply Hm]. Qed.
Lemma still_lift {A} (x : result mt_error A) w r w' : mt_lift x w = (r, w') -> w' = w /\ forall a, r = Ok a -> x = Ok a.
Proof. destruct x; intros [= <- <-]; split; try done. by intros a' [= ->]. Qed.
Definition write_document (d : mt_document) : BM unit :=
  if mx_helper (mx_settings xenv) then catch (apply_document_via_helper xenv d) (fun _ => mt_raise HelperApplyFailed) else apply_document_directly xenv d.
Lemma write_document_run d w r w' : write_document d w = (r, w') ->
  within (bw_tables w) (in_between (mf_store (files w)) d) w' /\ (r = Ok tt -> mf_store (files w') = Store d true).
Proof using MtHelper0.
  unfold write_document. destruct (mx_helper _); [|apply direct_run]. unfold catch.
  destruct (apply_document_via_helper xenv d w) as [[[]|e] w1] eqn:E; apply helper_run in E as [H1 H2]; intros [= <- <-]; by split.
Qed.
Lemma apply_inv secrets w r w' : apply_managed_secrets xenv secrets w = (r, w') ->
  (still w w' /\ (is_ok r = true -> serves (mf_store (files w)) secrets))
  \/ exists d w1 r0, still w w1 /\ serves (Store d true) secrets /\ write_document d w1 = (r0, w') /\ (is_ok r = true -> r0 = Ok tt).
Proof.
  unfold apply_managed_secrets. intros [([] & w1 & H1%still_run & E)|(e & H1%still_run & ->)]%bind_inv; try (by left); try (intros; apply keep_ready).
  apply bind_inv in E as [(n & w2 & [-> Hn]%still_lift & E)|(e & [-> _]%still_lift & ->)]; [|by left]. specialize (Hn _ eq_refl).
  apply bind_inv in E as [(c & w3 & H3 & E)|(e & H3 & ->)]; apply mt_read_run in H3 as [H3 Hc]; (eassert (still w _) as Hw3 by (etransitivity; [exact H1|exact H3])); [|by left].
  apply bind_inv in E as [(cur & w4 & [-> Hcur]%still_lift & E)|(e & [-> _]%still_lift & ->)]; [|by left]. cbv zeta in E.
  apply bind_inv in E as [(as_it & w4 & H4 & E)|(e & H4 & ->)]; apply document_run in H4 as [H4 Hd]; (eassert (still w _) as Hw4 by (etransitivity; [exact Hw3|exact H4])); [|by left].
  destruct (Hd _ eq_refl) as (m & Hm & [Hm1 Hm2] & _). clear Hd H3 H4.
  assert (forall x v v', (if same_secret_set cur n then runtime_files_current xenv as_it else ret false) v = (x, v') -> still v v') as Hrf.
  { intros x v v' E'. destruct (same_secret_set cur n); [|by injection E' as _ <-]. eapply still_run; [|exact E']. intros. apply keep_current. }
  apply bind_inv in E as [(same & w5 & H5 & E)|(e & H5 & ->)]; (eassert (still w _) as Hw5 by (etransitivity; [exact Hw4|by eapply Hrf])); [|by left].
  destruct same.
  - injection E as <- <-. left. split; [done|]. intros _. destruct (same_secret_set cur n) eqn:Hss; [|done]. apply current_run in H5.
    rewrite (proj2 Hw4) in H5. rewrite H5. unfold same_secret_set in Hss. bool_prop. apply (serves_document _ n cur); [done|by rewrite Hm1|congruence|done|done].
  - apply bind_inv in E as [(d & w6 & H6 & E)|(e & H6 & ->)]; apply document_run in H6 as [H6 Hd]; (eassert (still w _) as Hw6 by (etransitivity; [exact Hw5|exact H6])); [|by left].
    destruct (Hd _ eq_refl) as (k & Hk & [Hk1 Hk2] & _). right. exists d, w6.
    assert (serves (Store d true) secrets) as Hs by (apply (serves_document _ n n); [done|by rewrite Hk1|congruence|done|done]).
    fold (write_document d) in E. apply bind_inv in E as [([] & w7 & H7 & E)|(e & H7 & ->)]; [injection E as <- <-; by exists (Ok tt)|by exists (Err e)].
Qed.
(** What [apply_managed_secrets] leaves. *)
Lemma mt_apply_run secrets w r w' : apply_managed_secrets xenv secrets w = (r, w') ->
  bw_tables w' = bw_tables w /\ (forall s, s ∈ served w' -> s ∈ served w \/ s ∈ secrets) /\ (is_ok r = true -> serves (mf_store (files w')) secrets).
Proof using MtHelper0.
  intros [[[Ht Hst] Hs]|(d & w1 & r0 & [Ht Hst] & Hs & H1 & Hr)]%apply_inv.
  - split; [done|]. unfold served. rewrite Hst. auto.
  - apply write_document_run in H1 as [[Ht1 Hst1] Hd]. split; [congruence|]. split.
    + intros s. unfold served. destruct Hst1 as [->|[->| ->]]; [rewrite Hst; by left|right; by apply Hs|by intros ?%elem_of_nil].
    + intros Hok. by rewrite (Hd (Hr Hok)).
Qed.

(** ** A roll-back *)

(** Only the roll-back says so. *)
Definition not_rolled {A} (m : BM A) : Prop := forall w, (m w).1 <> Err (MtProxy RolledBack).
Lemma not_rolled_bind {A B} (m : BM A) (k : A -> BM B) : not_rolled m -> (forall a, not_rolled (k a)) -> not_rolled (bind m k).
Proof. intros Hm Hk w. specialize (Hm w). unfold bind. destruct (m w) as [[a|e] w1]; [apply Hk|]. intros [= ->]. by apply Hm. Qed.
Lemma not_rolled_ret {A} (a : A) : not_rolled (ret a).
Proof. by intros w. Qed.
Lemma not_rolled_raise {A} e : e <> RolledBack -> not_rolled (mt_raise (A := A) e).
Proof. intros He w [= ->]. by apply He. Qed.
Lemma not_rolled_normalize l : not_rolled (mt_lift (normalize_secrets l)).
Proof.
  unfold normalize_secrets. assert (forall l seen, first_of_each seen l <> Err RolledBack) as H.
  { clear. induction l as [|a l IH]; intros seen; cbn; [done|]. destruct (secret_ok _); [|done]. case_bool_decide; [apply IH|].
    specialize (IH (ms_fingerprint a :: seen)). destruct (first_of_each _ l); [done|]. intros [= ->]. by apply IH. }
  intros w. specialize (H (merge_sort secret_le l) []). destruct (first_of_each _ _); [done|]. cbn. intros [= ->]. by apply H.
Qed.
Lemma not_rolled_content values : not_rolled (mt_lift (env_content values)).
Proof. intros w. unfold env_content. by destruct (forallb _ _). Qed.
Lemma not_rolled_ask {A} (f : nat -> A) : not_rolled (ask f).
Proof. by intros w. Qed.
Lemma not_rolled_files : not_rolled mt_files_of.
Proof. by intros w. Qed.
Definition reads_only {A} (m : BM A) : Prop := keeps same_files m /\ not_rolled m.
Lemma reads_bind {A B} (m : BM A) (k : A -> BM B) : reads_only m -> (forall a, reads_only (k a)) -> reads_only (bind m k).
Proof. intros [H1 H2] Hk. split; [apply keeps_bind; [apply _|done|intros a; apply Hk]|apply not_rolled_bind; [done|intros a; apply Hk]]. Qed.
Lemma reads_ret {A} (a : A) : reads_only (ret a).
Proof. split; [apply keeps_ret, _|apply not_rolled_ret]. Qed.
Lemma reads_raise {A} e : e <> RolledBack -> reads_only (mt_raise (A := A) e).
Proof. intros He. split; [apply keeps_raise, _|by apply not_rolled_raise]. Qed.
Lemma reads_lift {A} (r : result mt_error A) : not_rolled (mt_lift r) -> reads_only (mt_lift r).
Proof. intros Hn. split; [|done]. intros w. by destruct r. Qed.
Lemma reads_ask {A} (f : nat -> A) : reads_only (ask f).
Proof. split; [by intros w|apply not_rolled_ask]. Qed.
Lemma reads_files : reads_only mt_files_of.
Proof. split; [by intros w|apply not_rolled_files]. Qed.
Lemma reads_io : reads_only (io xenv).
Proof. apply reads_bind; [apply reads_ask|intros [|]; [apply reads_ret|by apply reads_raise]]. Qed.
Lemma reads_answer f : reads_only (answer f).
Proof. apply reads_bind; [apply reads_ask|intros [b|]; [apply reads_ret|by apply reads_raise]]. Qed.
Lemma reads_restart : reads_only (restart_mtproxy xenv).
Proof.
  split; intros w; rewrite restart_eq; [|cbn; by case_match]. unfold same_files, files. cbn. by rewrite part_get_set.
Qed.
Lemma reads_document : reads_only (read_store_document xenv).
Proof. apply reads_bind; [apply reads_io|intros u]. apply reads_bind; [apply reads_files|intros f]. case_match; first [apply reads_ret|by apply reads_raise]. Qed.
Lemma reads_ready : reads_only (ensure_managed_runtime_ready xenv).
Proof.
  apply reads_bind; [apply reads_io|intros u]. apply reads_bind; [apply reads_files|intros f].
  repeat case_match; try by apply reads_raise.
  all: apply reads_bind; [|intros u1; apply reads_bind; [apply reads_document|intros d1; apply reads_io]].
  all: apply reads_bind; [apply reads_ask|intros [[|] [|]]; first [apply reads_ret|by apply reads_raise]].
Qed.
Lemma reads_store_document l d g : reads_only (store_document xenv l d g).
Proof.
  apply reads_bind; [apply reads_lift, not_rolled_normalize|intros [|s n]; [|apply reads_ret]].
  apply reads_bind; [case_match; [apply reads_ret|apply reads_ask]|intros p; apply reads_ret].
Qed.
Lemma reads_current d : reads_only (runtime_files_current xenv d).
Proof.
  apply reads_bind; [apply reads_io|intros u]. apply reads_bind; [apply reads_files|intros f].
  repeat case_match; try apply reads_ret. apply reads_bind; [apply reads_lift, not_rolled_content|intros c; apply reads_ret].
Qed.
Lemma reads_run {A} (m : BM A) w r w' : reads_only m -> m w = (r, w') -> files w' = files w /\ r <> Err (MtProxy RolledBack).
Proof. intros [H1 H2] E. specialize (H2 w). rewrite E in H2. split; [exact (keeps_run _ _ _ _ _ H1 E)|done]. Qed.
(** A copy that succeeds has put everything back. *)
Lemma restored_run saved w w' : restore_backup xenv saved w = (Ok tt, w') -> files w' = saved.
Proof.
  unfold restore_backup. intros [([] & w1 & H1 & E)|(? & _ & ?)]%bind_inv; [|done].
  assert (forall put v v', restore_file xenv put v = (Ok tt, v') -> exists v0, files v0 = files v /\ put true v0 = (Ok tt, v')) as Hput.
  { intros put v v' H. unfold restore_file in H. apply bind_inv in H as [(works & v1 & H2 & H)|(? & _ & ?)]; [|done]. injection H2 as <- <-. destruct (mx_restore xenv _); [eexists; split; [|exact H]; done|]. exfalso.
    apply bind_inv in H as [(t & v2 & _ & H)|(? & _ & ?)]; [|done]. apply bind_inv in H as [(u & v3 & _ & H)|(? & _ & ?)]; [discriminate H|done]. }
  apply Hput in H1 as (v1 & Hv1 & H1). apply Hput in E as (v2 & Hv2 & E). unfold set_store, set_env, mt_files_of, set_files, mt_host_of, set_mt_host, bind, gets, modify in *.
  injection H1 as <-. injection E as <-. unfold files in *. cbn in *. rewrite part_get_set in *. cbn. rewrite Hv2. by destruct saved.
Qed.
Lemma rolled_direct d w w' : apply_document_directly xenv d w = (Err (MtProxy RolledBack), w') -> files w' = files w.
Proof.
  unfold apply_document_directly, backup_managed_files. intros [(saved & w1 & H1 & E)|(e & H1 & He)]%bind_inv.
  2:{ apply bind_inv in H1 as [(? & w2 & _ & H)|(? & H1 & [= ->])]; [discriminate H|]. injection He as <-. by apply (reads_run _ _ _ _ reads_io) in H1 as [_ ?]. }
  apply bind_inv in H1 as [([] & w2 & [Hf _]%(reads_run _ _ _ _ reads_io) & H1)|(? & _ & ?)]; [|done]. injection H1 as <- <-.
  unfold catch in E. destruct (bind (write_runtime_files xenv d) _ w2) as [[[]|e] w3]; [done|]. destruct (negb _); [done|].
  apply bind_inv in E as [(o & w4 & H4 & E)|(? & H4 & _)]; [|unfold attempt in H4; by destruct (roll_back _ _ _)]. destruct o as [[]|]; [|discriminate E]. injection E as <-.
  unfold attempt in H4. destruct (roll_back xenv _ w3) as [[[]|] w5] eqn:Er; [|done]. injection H4 as <-. unfold roll_back in Er.
  apply bind_inv in Er as [([] & w6 & H6%restored_run & Er)|(? & _ & ?)]; [|done]. change (mh_files (part_get (bw_rest w2))) with (files w2) in H6.
  assert (reads_only (let! _ := restart_mtproxy xenv in let! active := answer (mx_active xenv) in if active : bool then ret tt else mt_raise RollbackFailed)) as Hr.
  { apply reads_bind; [apply reads_restart|intros b]. apply reads_bind; [apply reads_answer|intros [|]; [apply reads_ret|by apply reads_raise]]. }
  apply (reads_run _ _ _ _ Hr) in Er as [-> _]. congruence.
Qed.

(** C34 A roll-back puts everything back. When [apply_managed_secrets] raises the exception
    that says it has rolled back, the document and the settings file are the ones that
    were there. *)
Theorem rollback_restores_the_files secrets w w' : apply_managed_secrets xenv secrets w = (Err (MtProxy RolledBack), w') ->
  files w' = files w.
Proof.
  intros E. unfold apply_managed_secrets in E.
  assert (forall A (m : BM A) (k : A -> BM Z) v, reads_only m -> bind m k v = (Err (MtProxy RolledBack), w') -> exists (a : A) v', files v' = files v /\ k a v' = (Err (MtProxy RolledBack), w')) as Hstep.
  { intros A m k v Hm [(a & v' & [Hf _]%(reads_run _ _ _ _ Hm) & H)|(e & [_ He]%(reads_run _ _ _ _ Hm) & [= <-])]%bind_inv; [by exists a, v'|done]. }
  apply (Hstep _ _ _ _ reads_ready) in E as (u & w1 & H1 & E).
  apply Hstep in E as (n & w2 & H2 & E); [|apply reads_lift, not_rolled_normalize]. apply Hstep in E as (c & w3 & H3 & E); [|apply reads_document].
  apply Hstep in E as (cur & w4 & H4 & E); [|apply reads_lift, not_rolled_normalize]. cbv zeta in E. apply Hstep in E as (d0 & w5 & H5 & E); [|apply reads_store_document].
  apply Hstep in E as (same & w6 & H6 & E); [|destruct (same_secret_set _ _); [apply reads_current|apply reads_ret]]. destruct same; [done|].
  apply Hstep in E as (d & w7 & H7 & E); [|apply reads_store_document]. rewrite <- H1, <- H2, <- H3, <- H4, <- H5, <- H6, <- H7. clear -E.
  destruct (mx_helper _).
  - exfalso. unfold bind, catch in E. destruct (apply_document_via_helper xenv d w7) as [[?|?] ?]; done.
  - apply bind_inv in E as [([] & w8 & _ & ?)|(e & E & [= <-])]; [done|]. by apply rolled_direct in E.
Qed.
End Apply.
