(* ===== verification/MtProxyProcess.v ===== *)
(** * The running MTProto proxy

    What applying a set of secrets leaves of the process: when the call returns, the
    proxy runs with the new document, unless the document was the right one already;
    and where failures are undone as [MtRecovers] has it, the proxy is never left
    running with secrets of another document. *)

From S2P Require Import Prelude PyText Json Triples AwgConfig VpnKeys BackendHealth AwgService BotDb DanteUsers ProxyRows Socks5 ProxySafety MtProxy MtProxySafety.
#[local] Open Scope Z_scope.

Section Process.
Context {X : Type} `{HM : Part X mt_host} (xenv : mtproxy_env).
Implicit Types w : bot_world X.
Abbreviation BM := (M (bot_world X) bot_error) (only parsing).

(** The proxy is down, or runs with what the document says. *)
Definition fresh w : Prop := up_to_date (part_get (bw_rest w)).
(** It runs, with what the document says. *)
Definition started w : Prop := process w <> None /\ process w = start_secrets (mf_store (files w)).
Lemma started_fresh w : started w -> fresh w.
Proof. intros [_ H]. by right. Qed.
(** The secrets it serves. *)
Definition running w : list str := default [] (process w).

(** ** What only reads *)

Definition same_host w w' : Prop := part_get (bw_rest w') = (part_get (bw_rest w) : mt_host).
#[export] Instance same_host_pre : PreOrder same_host.
Proof. split; [by intros w|]. intros a b c H1 H2. unfold same_host in *. congruence. Qed.
Lemma same_host_fresh w w' : same_host w w' -> fresh w -> fresh w'.
Proof. unfold same_host, fresh. by intros ->. Qed.
Lemma host_ask {A} (f : nat -> A) : keeps same_host (ask (X := X) f).
Proof. by intros w. Qed.
Lemma host_get : keeps same_host (mt_host_of (X := X)).
Proof. by intros w. Qed.
Lemma host_files : keeps same_host (mt_files_of (X := X)).
Proof. by intros w. Qed.
#[local] Hint Resolve host_ask host_get host_files : keeps.
Lemma host_lift {A} (r : result mt_error A) : keeps same_host (mt_lift (X := X) r).
Proof. unfold mt_lift, mt_raise. keeps_tac. Qed.
Lemma host_io : keeps same_host (io (X := X) xenv).
Proof. unfold io, mt_raise. keeps_tac. Qed.
Lemma host_answer f : keeps same_host (answer (X := X) f).
Proof. unfold answer, mt_raise. keeps_tac. Qed.
#[local] Hint Resolve host_lift host_io host_answer : keeps.
Lemma host_listening : keeps same_host (check_mtproxy_listening (X := X) xenv).
Proof. unfold check_mtproxy_listening, mt_raise. keeps_tac. Qed.
Lemma host_document : keeps same_host (read_store_document (X := X) xenv).
Proof. unfold read_store_document, mt_raise. keeps_tac. Qed.
#[local] Hint Resolve host_listening host_document : keeps.
Lemma host_ready : keeps same_host (ensure_managed_runtime_ready (X := X) xenv).
Proof. unfold ensure_managed_runtime_ready, ensure_wrapper_ready, ensure_managed_permissions, mt_raise. keeps_tac. Qed.
Lemma host_store_document l d g : keeps same_host (store_document (X := X) xenv l d g).
Proof. unfold store_document. keeps_tac. Qed.
Lemma host_current d : keeps same_host (runtime_files_current (X := X) xenv d).
Proof. unfold runtime_files_current. keeps_tac. Qed.
#[local] Hint Resolve host_ready host_store_document host_current : keeps.
(** A method that leaves the host alone keeps what is known of it. *)
Lemma host_triple {A} (P Y : bot_world X -> Prop) (m : BM A) : keeps same_host m -> (forall w w', same_host w w' -> P w -> P w') -> (forall w, P w -> Y w) ->
  triple P m (fun _ => P) Y.
Proof. intros Hm HP HY. by eapply triple_keeps. Qed.

(** An apply reads, and then writes unless the document is right. *)
Lemma apply_parts secrets w r w' : apply_managed_secrets xenv secrets w = (r, w') ->
  same_host w w' \/ exists d w1 r0, same_host w w1 /\ write_document xenv d w1 = (r0, w') /\ (is_ok r = true -> r0 = Ok tt).
Proof.
  unfold apply_managed_secrets.
  assert (forall A (m : BM A) (k : A -> BM Z) v, keeps same_host m -> same_host w v -> bind m k v = (r, w') ->
    same_host w w' \/ exists a v', same_host w v' /\ k a v' = (r, w')) as Hstep.
  { intros A m k v Hm Hv [(a & v' & H & E)|(e & H & _)]%bind_inv; apply (keeps_run _ _ _ _ _ Hm) in H; [right; exists a, v'; split; [|exact E]|left];
      by etransitivity. }
  intros E. apply Hstep in E as [E|(u & w1 & H1 & E)]; [by left| |apply host_ready|done].
  apply Hstep in E as [E|(n & w2 & H2 & E)]; [by left| |apply host_lift|done]. apply Hstep in E as [E|(c & w3 & H3 & E)]; [by left| |apply host_document|done].
  apply Hstep in E as [E|(cur & w4 & H4 & E)]; [by left| |apply host_lift|done]. cbv zeta in E.
  apply Hstep in E as [E|(d0 & w5 & H5 & E)]; [by left| |apply host_store_document|done].
  apply Hstep in E as [E|(same & w6 & H6 & E)]; [by left| |keeps_tac|done]. destruct same; [injection E as _ <-; by left|].
  apply Hstep in E as [E|(d & w7 & H7 & E)]; [by left| |apply host_store_document|done]. right. exists d, w7. fold (write_document xenv d) in E.
  apply bind_inv in E as [([] & w8 & H8 & E)|(e & H8 & ->)]; [injection E as <- <-; by exists (Ok tt)|by exists (Err e)].
Qed.

(** ** An apply that returns *)

Lemma started_restart `{!MtService xenv} : triple (fun _ => True) (restart_mtproxy (X := X) xenv)
  (fun b w => b = true -> fresh w) (fun _ => True).
Proof.
  intros w _. rewrite restart_eq. pose proof (restarted (bw_tick w) (part_get (bw_rest w))) as H. destruct (mx_restart xenv _ _) as [[b|] p]; [|done].
  cbn in *. intros ->. unfold fresh, with_host. cbn. rewrite part_get_set. by apply H.
Qed.
Lemma listening_triple `{!MtService xenv} : triple fresh (check_mtproxy_listening (X := X) xenv)
  (fun b w => b = true -> started w) (fun _ => True).
Proof.
  intros w Hw. unfold check_mtproxy_listening, bind, ask, mt_host_of, gets. cbn. pose proof (listening_up (bw_tick w)) as Hl.
  destruct (mx_listening xenv (bw_tick w) (mh_process (part_get (bw_rest w)))) as [b|] eqn:El; [|done]. intros ->.
  assert (mh_process (part_get (bw_rest w)) <> None) as Hp by (intros Hn; by rewrite Hn in El).
  split; [exact Hp|]. destruct Hw as [Hn|H]; [by destruct Hp|exact H].
Qed.
Lemma check_started `{!MtService xenv} : triple (fun _ => True) (check_runtime (X := X) xenv) (fun _ => started) (fun _ => True).
Proof.
  unfold check_runtime. eapply triple_bind; [apply started_restart|]. intros [|]; cbn [negb]; [|by apply triple_raise].
  apply triple_pre with (P' := fresh); [|auto].
  eapply triple_bind; [apply host_triple; [apply host_answer|apply same_host_fresh|done]|]. intros [|]; cbn [negb]; [|by apply triple_raise].
  eapply triple_bind; [apply listening_triple|]. intros [|]; [apply triple_ret; auto|by apply triple_raise].
Qed.
Lemma direct_started `{!MtService xenv} d w w' : apply_document_directly xenv d w = (Ok tt, w') -> started w'.
Proof.
  unfold apply_document_directly. intros [(saved & w1 & _ & E)|(? & _ & ?)]%bind_inv; [|done]. unfold catch in E.
  destruct (bind (write_runtime_files xenv d) _ w1) as [[[]|e] w2] eqn:Eb.
  - injection E as <-. apply bind_inv in Eb as [(u & w3 & _ & Eb)|(? & _ & ?)]; [|done]. exact (triple_run _ _ _ _ _ _ _ check_started I Eb).
  - exfalso. destruct (negb _); [done|]. apply bind_inv in E as [([|] & w3 & _ & E)|(? & _ & ?)]; done.
Qed.
Lemma helper_started `{!MtService xenv} `{!MtHelper xenv} d w w' : apply_document_via_helper xenv d w = (Ok tt, w') -> started w'.
Proof.
  unfold apply_document_via_helper. intros [(u & w1 & _ & E)|(? & _ & ?)]%bind_inv; [|done].
  apply bind_inv in E as [(content & w2 & _ & E)|(? & _ & ?)]; [|done]. unfold bind, ask, mt_host_of, gets in E. cbn in E.
  pose proof (helper_done (bw_tick w2) d content (part_get (bw_rest w2))) as Hd. pose proof (helper_up (bw_tick w2) d content (part_get (bw_rest w2))) as Hu.
  destruct (mx_apply xenv _ _ _) as [rc h']. cbn in *. case_bool_decide as Hrc; [|done]. injection E as <-. specialize (Hd Hrc). specialize (Hu Hrc).
  unfold started, process, files. cbn. by rewrite part_get_set, Hu, Hd.
Qed.
(** The document was right, and stays; or the proxy runs with what it has become. *)
Lemma applied_started `{!MtService xenv} `{!MtHelper xenv} secrets w g w' : apply_managed_secrets xenv secrets w = (Ok g, w') ->
  same_host w w' \/ started w'.
Proof.
  intros [H|(d & w1 & r0 & _ & H & Hr)]%apply_parts; [by left|right]. rewrite (Hr eq_refl) in H. unfold write_document in H.
  destruct (mx_helper _); [|by apply direct_started in H]. unfold catch in H. destruct (apply_document_via_helper xenv d w1) as [[[]|e] w2] eqn:E; [|done].
  injection H as <-. by apply helper_started in E.
Qed.
Lemma applied_fresh `{!MtService xenv} `{!MtHelper xenv} secrets :
  triple fresh (apply_managed_secrets (X := X) xenv secrets) (fun _ => fresh) (fun _ => True).
Proof.
  intros w Hw. destruct (apply_managed_secrets xenv secrets w) as [[g|e] w'] eqn:E; [|done].
  apply applied_started in E as [H|H]; [by eapply same_host_fresh|by apply started_fresh].
Qed.

(** ** An apply that fails *)

Section Recovers.
Context `{!MtRecovers xenv}.
Lemma restart_fresh : triple (fun _ => True) (restart_mtproxy (X := X) xenv) (fun _ => fresh) fresh.
Proof using MtRecovers0.
  intros w _. rewrite restart_eq. pose proof (restart_stops (bw_tick w) (part_get (bw_rest w))) as H. destruct (mx_restart xenv _ _) as [o p]. cbn in *.
  assert (fresh (with_host (MtHost (files w) p) w)) as Hf by (unfold fresh, with_host; cbn; by rewrite part_get_set).
  by destruct o.
Qed.
Lemma restored_whole saved : triple (fun _ => True) (restore_backup (X := X) xenv saved) (fun _ _ => True) (fun _ => False).
Proof using MtRecovers0.
  assert (forall put, (forall b, never_raises (put b)) -> triple (fun _ => True) (restore_file (X := X) xenv put) (fun _ _ => True) (fun _ => False)) as Hf.
  { intros put Hput w _. unfold restore_file, bind, ask. cbn. rewrite (restores (bw_tick w)). specialize (Hput true (BotWorld (bw_tables w) (bw_keys w) (bw_cleared w)
      (bw_kicked w) (bw_told w) (bw_rest w) (S (bw_tick w)))). by destruct (put true _) as [[]]. }
  unfold restore_backup. eapply triple_bind; [by apply Hf|]. intros u. by apply Hf.
Qed.
Lemma rolled_back_fresh saved : triple (fun _ => True) (roll_back (X := X) xenv saved) (fun _ => fresh) fresh.
Proof using MtRecovers0.
  unfold roll_back. eapply triple_bind; [eapply triple_weaken; [apply restored_whole|done|intros u w H; exact H|done]|]. intros u.
  eapply triple_bind; [apply restart_fresh|]. intros b. eapply triple_bind; [apply host_triple; [apply host_answer|apply same_host_fresh|done]|].
  intros [|]; [by apply triple_ret|by apply triple_raise].
Qed.
Lemma direct_fresh d : steady fresh (apply_document_directly (X := X) xenv d).
Proof using MtRecovers0.
  unfold apply_document_directly. apply steady_bind; [unfold backup_managed_files; apply host_triple; [keeps_tac|apply same_host_fresh|done]|]. intros saved.
  apply triple_catch with (Y := fun _ => True).
  - eapply triple_bind with (R := fun _ _ => True); [by intros w _; destruct (write_runtime_files xenv d w) as [[]]|]. intros u. unfold check_runtime.
    eapply triple_bind; [eapply triple_weaken; [apply restart_fresh|done|intros b w H; exact H|done]|]. intros [|]; cbn [negb]; [|by apply triple_raise].
    eapply triple_bind; [apply host_triple; [apply host_answer|apply same_host_fresh|done]|]. intros [|]; cbn [negb]; [|by apply triple_raise].
    eapply triple_bind; [apply host_triple; [apply host_listening|apply same_host_fresh|done]|]. intros [|]; [by apply triple_ret|by apply triple_raise].
  - intros e. rewrite rolls_back. cbn [negb]. eapply triple_bind; [eapply triple_attempt, rolled_back_fresh|]. intros [u|e']; by apply triple_raise.
Qed.
Lemma helper_fresh d : steady fresh (apply_document_via_helper (X := X) xenv d).
Proof using MtRecovers0.
  unfold apply_document_via_helper. apply steady_bind; [apply host_triple; [apply host_io|apply same_host_fresh|done]|]. intros u.
  apply steady_bind; [apply host_triple; [apply host_lift|apply same_host_fresh|done]|]. intros content w Hw.
  unfold bind, ask, mt_host_of, gets. cbn. pose proof (helper_recovers (bw_tick w) (d, content) (part_get (bw_rest w)) Hw) as H.
  destruct (mx_apply xenv _ _ _) as [rc h']. cbn in *. assert (forall v, bw_rest v = part_set h' (bw_rest w) -> fresh v) as Hf.
  { intros v Hv. unfold fresh. by rewrite Hv, part_get_set. }
  case_bool_decide; by apply Hf.
Qed.
(** Whatever fails, the proxy never runs beside another document than its own. *)
Lemma apply_fresh secrets : steady fresh (apply_managed_secrets (X := X) xenv secrets).
Proof using MtRecovers0.
  apply steady_of. intros w r w' E Hw. apply apply_parts in E as [H|(d & w1 & r0 & H & E & _)]; [by eapply same_host_fresh|].
  assert (fresh w1) as H1 by by eapply same_host_fresh. eapply steady_run; [|exact E|exact H1]. unfold write_document.
  destruct (mx_helper _); [|apply direct_fresh]. apply steady_catch; [apply helper_fresh|]. intros e. apply steady_raise.
Qed.
End Recovers.

(** ** What a fresh proxy serves *)

(** The secret that stands in for an empty set. *)
Definition stands_in w (x : str) : Prop := exists d b, mf_store (files w) = Store d b /\ Placeholder x ∈ md_runtime d.
Lemma fresh_running w x : fresh w -> x ∈ running w -> (exists s, s ∈ served w /\ ms_secret s = x) \/ stands_in w x.
Proof.
  unfold fresh, up_to_date, running. fold (process w) (files w). intros [Hp|Hp] Hx; rewrite Hp in Hx; cbn in Hx; [by apply elem_of_nil in Hx|].
  unfold served, stands_in. destruct (mf_store (files w)) as [| |d b]; cbn [start_secrets default] in Hx; [by apply elem_of_nil in Hx..|].
  apply list_elem_of_In, filter_In in Hx as [Hx _]. apply list_elem_of_In, list_elem_of_fmap in Hx as (i & -> & Hi). cbn [served_of].
  assert (i ∈ md_runtime d \/ exists s, s ∈ md_secrets d /\ i = Served s) as [Hr|(s & Hs & ->)].
  { destruct (md_runtime d); [|by left]. right. apply list_elem_of_fmap in Hi as (s & -> & Hs). by exists s. }
  - destruct i as [s|y]; [left|right; by exists d, b]. exists s. split; [|done]. apply elem_of_app. right. unfold served_items. apply list_elem_of_omap. by exists (Served s).
  - left. exists s. split; [|done]. apply elem_of_app. by left.
Qed.
(** The running proxy, where there is one, serves the secrets and no others. *)
Definition serves_now w (secrets : list mt_secret) : Prop :=
  (forall x, x ∈ running w -> (exists s, s ∈ secrets /\ ms_secret s = x) \/ stands_in w x)
  /\ (process w <> None -> forall s, s ∈ secrets -> exists s', s' ∈ secrets /\ ms_fingerprint s' = ms_fingerprint s /\ ms_secret s' ∈ running w).
Lemma fresh_serves w secrets : fresh w -> serves (mf_store (files w)) secrets -> serves_now w secrets.
Proof.
  intros Hf [Hsub Hall]. split.
  - intros x [(s & Hs & Hx)|H]%(fresh_running w x Hf); [left|by right]. exists s. split; [by apply Hsub|done].
  - intros Hp s (s' & Hs' & Hfp & Hne)%Hall. exists s'. split; [by apply Hsub, runtime_served|]. split; [done|].
    destruct Hf as [H|H]; [by destruct Hp|]. fold (process w) (files w) in H. unfold running. rewrite H.
    destruct (mf_store (files w)) as [| |d b]; [by apply elem_of_nil in Hs'..|]. cbn in Hs' |- *. apply list_elem_of_In, filter_In.
    split; [|by destruct (ms_secret s')]. apply list_elem_of_In, list_elem_of_fmap. exists (Served s'). split; [done|].
    unfold served_items in Hs'. apply list_elem_of_omap in Hs' as ([s0|] & Hi & [= ->]). by destruct (md_runtime d); [apply elem_of_nil in Hi|].
Qed.
End Process.
