(* ===== verification/MtProtoSafety.v ===== *)
(** * What the MTProto service promises

    A secret the proxy serves belongs to a row of the managed mode that says access may
    exist, whatever fails; and applying makes the proxy serve exactly the active rows. *)

From S2P Require Import Prelude PyText Sha256 Json IsoTime Triples AwgConfig VpnKeys BackendHealth AwgService KeyRows BotDb Accounts AccountSafety BlockSafety DanteUsers ProxyRows Socks5 ProxySafety ProxyStartup MtProxy MtProto MtProxySafety.
#[local] Open Scope Z_scope.

(** ** Rows and secrets *)

(** The row speaks for the fingerprint. *)
Definition speaks (st : mtproto_settings) (a : proxy_access) (fp : str) : Prop :=
  px_type a = MTPROTO /\ is_managed a = true /\ access_fingerprint st a = Ok fp /\ may_exist a = true.
Definition mt_covers (st : mtproto_settings) (rows : list proxy_access) (id : Z) (fp : str) : Prop :=
  exists a, a ∈ rows /\ px_id a = id /\ speaks st a fp.
Definition mt_accounted {X} `{Part X mt_host} (st : mtproto_settings) (w : bot_world X) : Prop :=
  proxy_ids_ok (bt_proxies (bw_tables w)) /\ forall s, s ∈ served w -> exists id, mt_covers st (proxy_rows w) id (ms_fingerprint s).
(** Without the row of [id], too. *)
Definition mt_accounted_without {X} `{Part X mt_host} (st : mtproto_settings) (id : Z) (w : bot_world X) : Prop :=
  proxy_ids_ok (bt_proxies (bw_tables w)) /\ forall s, s ∈ served w -> exists i, i <> id /\ mt_covers st (proxy_rows w) i (ms_fingerprint s).
Lemma without_accounted {X} `{Part X mt_host} st id (w : bot_world X) : mt_accounted_without st id w -> mt_accounted st w.
Proof. intros [Hi H1]. split; [done|]. intros s Hs. destruct (H1 s Hs) as (i & _ & Hc). by exists i. Qed.

Section Service.
Context {X : Type} `{HS : Part X socks_host} `{HM : Part X mt_host} `{!Apart X socks_host mt_host} (env : bot_env) (menv : mtproto_env).
Implicit Types w : bot_world X.
Abbreviation BM := (M (bot_world X) bot_error) (only parsing).
Abbreviation st := (me_settings menv) (only parsing).
Abbreviation xenv := (me_proxy menv) (only parsing).

(** ** What leaves rows and secrets alone *)

Definition quiet w w' : Prop := bt_proxies (bw_tables w') = bt_proxies (bw_tables w) /\ files w' = files w.
#[export] Instance quiet_pre : PreOrder quiet.
Proof. split; [by intros w|]. intros a b c [] []. split; congruence. Qed.
Lemma quiet_ask {A} (f : nat -> A) : keeps quiet (ask (X := X) f).
Proof. by intros w. Qed.
Lemma quiet_get : keeps quiet (get (S := bot_world X) (E := bot_error)).
Proof. by intros w. Qed.
Lemma quiet_audit_table f : keeps quiet (set_tables (X := X) (set_audit f)).
Proof. by intros w. Qed.
#[local] Hint Resolve quiet_ask quiet_get quiet_audit_table : keeps.
Lemma quiet_sql : keeps quiet (sql (X := X) env).
Proof. unfold sql. keeps_tac. Qed.
Lemma quiet_now : keeps quiet (now (X := X) env).
Proof. apply quiet_ask. Qed.
#[local] Hint Resolve quiet_sql quiet_now : keeps.
Lemma quiet_select {A} (f : bot_tables -> A) : keeps quiet (select (X := X) env f).
Proof. unfold select. keeps_tac. Qed.
#[local] Hint Resolve quiet_select : keeps.
Lemma quiet_proxies {A} (f : list proxy_access -> A) : keeps quiet (select_proxies (X := X) env f).
Proof. apply quiet_select. Qed.
Lemma quiet_audit_all a : keeps quiet (mt_audit_all (X := X) env a).
Proof. unfold mt_audit_all, audit_best_effort, audit, write. keeps_tac. Qed.
Lemma quiet_audit a b id : keeps quiet (mt_audit (X := X) env a b id).
Proof. unfold mt_audit, socks_audit, audit_best_effort, audit, write. keeps_tac. Qed.
Lemma quiet_user id : keeps quiet (get_user (X := X) env id).
Proof. unfold get_user, user_by_id. keeps_tac. Qed.
#[local] Hint Resolve quiet_proxies quiet_audit quiet_audit_all quiet_user : keeps.
Lemma quiet_approved id : keeps quiet (require_approved_or_admin (X := X) env id).
Proof. unfold require_approved_or_admin. keeps_tac. Qed.
Lemma quiet_superadmin id : keeps quiet (require_superadmin (X := X) env id).
Proof. unfold require_superadmin. keeps_tac. Qed.
#[local] Hint Resolve quiet_approved quiet_superadmin : keeps.
Lemma quiet_can_issue a o : keeps quiet (ensure_can_issue (X := X) env a o).
Proof. unfold ensure_can_issue. keeps_tac. Qed.
Lemma quiet_access id : keeps quiet (get_access (X := X) env id).
Proof. unfold get_access, get_by_id. keeps_tac. Qed.
Lemma quiet_mutation : keeps quiet (mt_require_mutation (X := X)).
Proof. clear env. unfold mt_require_mutation, socks_state. keeps_tac. Qed.
Lemma quiet_enabled : keeps quiet (mt_ensure_enabled (X := X) menv).
Proof. clear env. unfold mt_ensure_enabled. keeps_tac. Qed.
Lemma quiet_adapter : keeps quiet (managed_adapter (X := X) menv).
Proof. clear env. unfold managed_adapter. keeps_tac. Qed.
Lemma quiet_active owner : keeps quiet (mt_active_access (X := X) env owner).
Proof. unfold mt_active_access, find_user_access_by_type_statuses. keeps_tac. Qed.
Lemma quiet_live owner : keeps quiet (mt_live_access (X := X) env owner).
Proof. unfold mt_live_access, find_user_access_by_type_statuses, LIVE_STATUSES. keeps_tac. Qed.
Lemma quiet_payload a : keeps quiet (current_payload (X := X) menv a).
Proof. clear env. unfold current_payload. keeps_tac. Qed.
Lemma quiet_degrade reason : keeps quiet (mt_degrade (X := X) reason).
Proof using Apart0. intros w. unfold mt_degrade, socks_state, bind, gets, set_host, modify. split; [done|]. unfold files. cbn. by rewrite apart_get. Qed.
#[local] Hint Resolve quiet_can_issue quiet_access quiet_mutation quiet_enabled quiet_adapter quiet_active quiet_live quiet_payload quiet_degrade : keeps.
(** What only reads the files. *)
Lemma quiet_io : keeps quiet (io (X := X) xenv).
Proof. clear env. unfold io, mt_raise. keeps_tac. Qed.
Lemma quiet_files : keeps quiet (mt_files_of (X := X)).
Proof. by intros w. Qed.
Lemma quiet_lift {A} (r : result mt_error A) : keeps quiet (mt_lift (X := X) r).
Proof. clear env. unfold mt_lift, mt_raise. keeps_tac. Qed.
#[local] Hint Resolve quiet_io quiet_files quiet_lift : keeps.
Lemma quiet_document : keeps quiet (read_store_document (X := X) xenv).
Proof. clear env. unfold read_store_document, mt_raise. keeps_tac. Qed.
#[local] Hint Resolve quiet_document : keeps.
Lemma quiet_ready : keeps quiet (ensure_managed_runtime_ready (X := X) xenv).
Proof. clear env. unfold ensure_managed_runtime_ready, ensure_wrapper_ready, ensure_managed_permissions, mt_raise. keeps_tac. Qed.
Lemma quiet_all : keeps quiet (read_all_runtime_managed_secrets (X := X) menv).
Proof. clear env. unfold read_all_runtime_managed_secrets, read_current_managed_secrets, read_runtime_managed_secrets. keeps_tac. Qed.
#[local] Hint Resolve quiet_ready quiet_all : keeps.
Lemma quiet_tries n : forall taken, keeps quiet (try_secrets (X := X) env menv n taken).
Proof. unfold try_secrets, find_by_secret_fingerprint. induction n as [|n IH]; intros taken; keeps_tac. Qed.
Lemma quiet_unique : keeps quiet (unique_managed_secret (X := X) env menv).
Proof. unfold unique_managed_secret. pose proof quiet_tries. keeps_tac. Qed.
Lemma quiet_batches fuel statuses : forall last_id, keeps quiet (accesses_from (X := X) env fuel statuses last_id).
Proof.
  induction fuel as [|fuel IH]; intros last_id; cbn [accesses_from]; [keeps_tac|]. unfold list_by_type_statuses. keeps_tac.
Qed.
Lemma quiet_managed statuses : keeps quiet (managed_accesses_by_statuses (X := X) env statuses).
Proof. unfold managed_accesses_by_statuses. pose proof quiet_batches. keeps_tac. Qed.
#[local] Hint Resolve quiet_managed : keeps.
Lemma quiet_actives : keeps quiet (active_managed_accesses (X := X) env).
Proof. unfold active_managed_accesses. keeps_tac. Qed.
#[local] Hint Resolve quiet_actives : keeps.
Lemma quiet_desired extra exclude : keeps quiet (desired_managed_secrets (X := X) env menv extra exclude).
Proof. unfold desired_managed_secrets. keeps_tac. Qed.
Lemma quiet_accounted w w' : quiet w w' -> mt_accounted st w -> mt_accounted st w'.
Proof. intros [H1 H2] Hw. unfold mt_accounted, proxy_rows, served in *. by rewrite H1, H2. Qed.
Lemma quiet_without id w w' : quiet w w' -> mt_accounted_without st id w -> mt_accounted_without st id w'.
Proof. intros [H1 H2] Hw. unfold mt_accounted_without, proxy_rows, served in *. by rewrite H1, H2. Qed.

(** ** The rows of a status, read in batches *)

Definition picked (statuses : list proxy_status) (last : Z) (a : proxy_access) : bool :=
  bool_decide (px_type a = MTPROTO) && proxy_in statuses a && (last <? px_id a).
Lemma next_batch statuses last rows b rest : StronglySorted Z.lt (map px_id rows) ->
  take 500 (List.filter (picked statuses last) rows) = b :: rest ->
  let next := List.last (map px_id (b :: rest)) last in
  last < next /\ next ∈ map px_id rows
  /\ List.filter (picked statuses last) rows = (b :: rest) ++ List.filter (picked statuses next) rows.
Proof.
  intros Hs Ht next. set (l := List.filter (picked statuses last) rows) in *.
  assert (forall a, a ∈ l -> a ∈ rows /\ last < px_id a) as Hl.
  { intros a Ha. apply list_elem_of_In, filter_In in Ha as [Ha Hp]. unfold picked in Hp. bool_prop. split; [by apply list_elem_of_In|lia]. }
  assert (StronglySorted Z.lt (map px_id l)) as Hsl by (eapply sorted_sublist; [apply map_sublist, filter_sublist|exact Hs]).
  assert (l = (b :: rest) ++ drop 500 l) as Hsplit by (rewrite <- Ht; symmetry; apply take_drop). rewrite Hsplit, map_app in Hsl.
  apply StronglySorted_app in Hsl as (Hlt & Hst & _). assert (next ∈ map px_id (b :: rest)) as Hnext by (by apply last_in).
  assert (forall a, a ∈ b :: rest -> px_id a <= next) as Hle.
  { intros a Ha. exact (sorted_last _ last (px_id a) Hst (list_elem_of_fmap_2 px_id _ _ Ha)). }
  pose proof Hnext as (a & Hna & Ha)%list_elem_of_fmap. destruct (Hl a) as [Hin Hgt]; [rewrite Hsplit; apply elem_of_app; by left|].
  split; [by rewrite Hna|]. split; [rewrite Hna; by apply list_elem_of_fmap_2|]. rewrite Hsplit at 1. f_equal.
  transitivity (List.filter (fun c => next <? px_id c) l).
  - set (tl := drop 500 l) in *. rewrite Hsplit, List.filter_app. assert (List.filter (fun c => next <? px_id c) (b :: rest) = []) as ->.
    { apply filter_none. intros c Hc. specialize (Hle c Hc). lia. }
    cbn [app]. symmetry. apply filter_all. intros c Hc. apply Z.ltb_lt. apply Hlt; [done|by apply list_elem_of_fmap_2].
  - unfold l, picked. rewrite filter_twice. apply List.filter_ext. intros c. destruct (next <? px_id c) eqn:E; [|by rewrite !andb_false_r].
    assert (last <? px_id c = true) as -> by (rewrite Hna in E; lia). by rewrite !andb_true_r.
Qed.
Lemma batches_run fuel statuses : statuses <> [] -> forall last w r w', StronglySorted Z.lt (map px_id (proxy_rows w)) -> (ids_ahead last w < fuel)%nat ->
  accesses_from (X := X) env fuel statuses last w = (r, w') ->
  quiet w w' /\ r <> Err Unfinished /\ forall l, r = Ok l -> l = List.filter (picked statuses last) (proxy_rows w).
Proof.
  intros Hne. induction fuel as [|fuel IH]; intros last w r w' Hs Hfuel E; [lia|].
  split; [eapply keeps_run; [apply quiet_batches|exact E]|]. cbn [accesses_from] in E. unfold list_by_type_statuses in E. destruct statuses as [|s0 ss]; [done|].
  apply bind_inv in E as [(batch & w1 & H1 & E)|(e & H1 & ->)].
  2:{ split; [|done]. intros [= ->]. exact (finishes_select env _ w (f_equal fst H1)). }
  pose proof (keeps_run _ _ _ _ _ (quiet_proxies _) H1) as [Hr1 _]. apply select_run in H1 as (_ & _ & Hb). specialize (Hb _ eq_refl).
  change (batch = take 500 (List.filter (picked (s0 :: ss) last) (proxy_rows w))) in Hb.
  destruct batch as [|b rest].
  - injection E as <- _. split; [done|]. intros l [= <-]. symmetry in Hb. by destruct (List.filter _ _).
  - symmetry in Hb. destruct (next_batch _ _ _ _ _ Hs Hb) as (Hlt & Hin & Hsplit). rewrite last_map in E. set (next := List.last _ last) in *.
    assert (proxy_rows w1 = proxy_rows w) as Hrows by (unfold proxy_rows; by rewrite Hr1).
    assert (ids_ahead next w1 < fuel)%nat as Hnext.
    { unfold ids_ahead in *. rewrite Hrows. pose proof (ahead_next last next _ Hlt Hin). lia. }
    apply bind_inv in E as [(more & w2 & H2 & E)|(e & H2 & ->)]; apply IH in H2 as (_ & He & Hl); [|by rewrite Hrows|done| |by rewrite Hrows|done].
    + injection E as <- _. split; [done|]. intros l [= <-]. by rewrite Hsplit, (Hl _ eq_refl), Hrows.
    + split; [|done]. intros [= ->]. by apply He.
Qed.
Lemma mt_managed_run statuses w r w' : statuses <> [] -> proxy_ids_ok (bt_proxies (bw_tables w)) ->
  managed_accesses_by_statuses (X := X) env statuses w = (r, w') ->
  quiet w w' /\ r <> Err Unfinished /\ forall l, r = Ok l -> l = List.filter (picked statuses 0) (proxy_rows w).
Proof.
  intros Hne [Hs _] E. unfold managed_accesses_by_statuses, bind, gets in E. eapply batches_run in E; [done|done|done|].
  unfold ids_ahead. pose proof (sublist_length _ _ (filter_sublist (fun id => 0 <? id) (map px_id (proxy_rows w)))) as Hlen.
  rewrite length_map in Hlen. unfold proxy_rows in *. lia.
Qed.

(** ** The secrets that should be served *)

Definition actives w : list proxy_access := List.filter is_managed (List.filter (picked [ProxyActive] 0) (proxy_rows w)).
Definition wanted (extra : option proxy_access) (exclude : option Z) w : list proxy_access :=
  let all := actives w ++ match extra with Some a => [a] | None => [] end in
  match exclude with Some id => List.filter (fun a => negb (px_id a =? id)) all | None => all end.
Lemma actives_run w r w' : proxy_ids_ok (bt_proxies (bw_tables w)) -> active_managed_accesses (X := X) env w = (r, w') ->
  quiet w w' /\ r <> Err Unfinished /\ forall l, r = Ok l -> l = actives w.
Proof.
  intros Hi. unfold active_managed_accesses. intros [(l & w1 & H1 & E)|(e & H1 & ->)]%bind_inv; apply mt_managed_run in H1 as (Hq & He & Hl); try done.
  injection E as <- <-. split; [done|]. split; [done|]. intros l' [= <-]. by rewrite (Hl _ eq_refl).
Qed.
Lemma in_actives a w : a ∈ actives w -> a ∈ proxy_rows w /\ px_type a = MTPROTO /\ px_status a = ProxyActive /\ is_managed a = true.
Proof.
  unfold actives. intros Ha. apply list_elem_of_In, filter_In in Ha as [Ha Hm]. apply filter_In in Ha as [Ha Hp]. unfold picked, proxy_in in Hp. bool_prop.
  split; [by apply list_elem_of_In|]. split; [done|]. split; [|done]. by apply list_elem_of_singleton.
Qed.
Lemma secrets_of_rows l : forall secrets s, managed_secrets_from_accesses st l = Ok secrets -> s ∈ secrets ->
  exists a, a ∈ l /\ is_managed a = true /\ access_secret st a = Ok (ms_secret s) /\ access_fingerprint st a = Ok (ms_fingerprint s)
    /\ ms_fingerprint s = mtproto_secret_fingerprint (ms_secret s) /\ ms_access s = Some (px_id a).
Proof.
  induction l as [|a l IH]; intros secrets s; cbn; [by intros [= <-] ?%elem_of_nil|].
  assert (managed_secrets_from_accesses st l = Ok secrets -> s ∈ secrets -> exists b, b ∈ a :: l /\ is_managed b = true /\ access_secret st b = Ok (ms_secret s)
    /\ access_fingerprint st b = Ok (ms_fingerprint s) /\ ms_fingerprint s = mtproto_secret_fingerprint (ms_secret s) /\ ms_access s = Some (px_id b)) as Hrest.
  { intros E Hs. destruct (IH _ _ E Hs) as (b & Hb & H). exists b. split; [by right|done]. }
  destruct (is_managed a) eqn:Hm; cbn; [|done]. destruct (access_secret st a) as [x|] eqn:Hx; [|done]. destruct (access_fingerprint st a) as [f|] eqn:Hf; [|done].
  case_bool_decide as Hfx; cbn; [|done]. destruct (managed_secrets_from_accesses st l) as [r|] eqn:Er; [|done].
  intros [= <-] [->|Hs]%elem_of_cons; [exists a; split; [by left|done]|]. destruct (IH _ _ eq_refl Hs) as (b & Hb & H). exists b. split; [by right|done].
Qed.
Lemma rows_of_secrets l : forall secrets a, managed_secrets_from_accesses st l = Ok secrets -> a ∈ l -> is_managed a = true ->
  exists s, s ∈ secrets /\ access_secret st a = Ok (ms_secret s) /\ access_fingerprint st a = Ok (ms_fingerprint s).
Proof.
  induction l as [|b l IH]; intros secrets a; cbn; [by intros _ ?%elem_of_nil|]. intros E [->|Ha]%elem_of_cons Hm.
  - rewrite Hm in E. cbn in E. destruct (access_secret st b) as [x|]; [|done]. destruct (access_fingerprint st b) as [f|]; [|done].
    destruct (negb _); [done|]. destruct (managed_secrets_from_accesses st l); [|done]. injection E as <-. eexists. split; [by left|done].
  - destruct (is_managed b); cbn in E; [|by eapply IH]. destruct (access_secret st b) as [x|]; [|done]. destruct (access_fingerprint st b) as [f|]; [|done].
    destruct (negb _); [done|]. destruct (managed_secrets_from_accesses st l) as [r|]; [|done]. injection E as <-.
    destruct (IH _ _ eq_refl Ha Hm) as (s & Hs & H). exists s. split; [by right|done].
Qed.
Lemma desired_run extra exclude w r w' : proxy_ids_ok (bt_proxies (bw_tables w)) -> desired_managed_secrets (X := X) env menv extra exclude w = (r, w') ->
  quiet w w' /\ forall l, r = Ok l -> managed_secrets_from_accesses st (wanted extra exclude w) = Ok l.
Proof.
  intros Hi. unfold desired_managed_secrets. intros [(l & w1 & H1 & E)|(e & H1 & ->)]%bind_inv; apply actives_run in H1 as (Hq & _ & Hl); try done.
  cbv zeta in E. injection E as <- <-. split; [done|]. intros l' Hl'. by rewrite (Hl _ eq_refl) in Hl'.
Qed.

Context `{!MtHelper xenv}.
Lemma apply_desired_run secrets w r w' : apply_desired (X := X) menv secrets w = (r, w') ->
  bw_tables w' = bw_tables w /\ (forall s, s ∈ served w' -> s ∈ served w \/ s ∈ secrets) /\ (is_ok r = true -> serves (mf_store (files w')) secrets).
Proof using MtHelper0.
  unfold apply_desired, managed_adapter. destruct (mp_adapter _); unfold bind, ret, raise; [intros E; by apply (mt_apply_run xenv) in E|].
  intros [= <- <-]. split; [done|]. split; [by left|done].
Qed.
(** The secrets of the rows, with one more or less, applied. *)
Definition apply_rows (extra : option proxy_access) (exclude : option Z) : BM Z :=
  let! desired := desired_managed_secrets env menv extra exclude in apply_desired menv desired.
Lemma in_wanted extra exclude a w : a ∈ wanted extra exclude w ->
  (a ∈ actives w \/ extra = Some a) /\ forall id, exclude = Some id -> px_id a <> id.
Proof.
  unfold wanted. assert (forall a, a ∈ actives w ++ match extra with Some a => [a] | None => [] end -> a ∈ actives w \/ extra = Some a) as Hall.
  { intros b [|Hb]%elem_of_app; [by left|right]. destruct extra; [by apply list_elem_of_singleton in Hb as ->|by apply elem_of_nil in Hb]. }
  destruct exclude as [id|]; [|auto]. intros Ha. apply list_elem_of_In, filter_In in Ha as [Ha Hn]. split; [apply Hall; by apply list_elem_of_In|].
  intros ? [= <-]. bool_prop. lia.
Qed.
(** The row a secret may be added for. *)
Definition may_add (extra : option proxy_access) w : Prop :=
  forall a, extra = Some a -> a ∈ proxy_rows w /\ px_type a = MTPROTO /\ may_exist a = true.
Lemma wanted_covers extra exclude secrets s w : may_add extra w -> managed_secrets_from_accesses st (wanted extra exclude w) = Ok secrets -> s ∈ secrets ->
  exists id, (forall x, exclude = Some x -> id <> x) /\ mt_covers st (proxy_rows w) id (ms_fingerprint s).
Proof.
  intros Hx E Hs. destruct (secrets_of_rows _ _ _ E Hs) as (a & Ha & Hm & _ & Hf & _). apply in_wanted in Ha as [Ha Hn]. exists (px_id a). split; [exact Hn|].
  exists a. destruct Ha as [Ha|Ha]; [apply in_actives in Ha as (H1 & H2 & H3 & _)|apply Hx in Ha as (H1 & H2 & H3)]; repeat (split; [done|]); [|done].
  unfold may_exist, proxy_in. by rewrite H3.
Qed.
Definition mt_outcome (extra : option proxy_access) (exclude : option Z) w (r : result bot_error Z) w' : Prop :=
  bt_proxies (bw_tables w') = bt_proxies (bw_tables w) /\ mt_accounted st w'
  /\ (is_ok r = true -> (forall id, exclude = Some id -> mt_accounted_without st id w')
        /\ exists secrets, managed_secrets_from_accesses st (wanted extra exclude w) = Ok secrets /\ serves (mf_store (files w')) secrets).
Lemma apply_wanted_run extra exclude l w r w' : managed_secrets_from_accesses st (wanted extra exclude w) = Ok l -> apply_desired menv l w = (r, w') ->
  mt_accounted st w -> may_add extra w -> mt_outcome extra exclude w r w'.
Proof using MtHelper0.
  intros Hl E [Hi Hs] Hx. apply apply_desired_run in E as (Ht & Hsub & Hserves).
  assert (bt_proxies (bw_tables w') = bt_proxies (bw_tables w)) as Hb by congruence.
  assert (proxy_rows w' = proxy_rows w) as Hrows by (unfold proxy_rows; by rewrite Hb).
  split; [done|]. split; [split; [by rewrite Hb|]|].
  - intros s Hin. rewrite Hrows. destruct (Hsub _ Hin) as [Hin'|Hin']; [by apply Hs|].
    destruct (wanted_covers _ _ _ _ _ Hx Hl Hin') as (id & _ & Hc). by exists id.
  - intros Hok. specialize (Hserves Hok). split; [|by exists l]. intros id ->. split; [by rewrite Hb|]. intros s Hin. rewrite Hrows.
    destruct (wanted_covers _ _ _ s _ Hx Hl) as (i & Hi' & Hc); [by apply Hserves|]. exists i. split; [by apply Hi'|done].
Qed.
Lemma apply_rows_run extra exclude w r w' : apply_rows extra exclude w = (r, w') -> mt_accounted st w -> may_add extra w -> mt_outcome extra exclude w r w'.
Proof using MtHelper0.
  unfold apply_rows. intros E Hw Hx. apply bind_inv in E as [(l & w1 & H1 & E)|(e & H1 & ->)]; apply desired_run in H1 as [Hq Hl]; try apply Hw.
  2:{ split; [apply Hq|]. split; [|done]. by eapply quiet_accounted. }
  specialize (Hl _ eq_refl). assert (wanted extra exclude w1 = wanted extra exclude w) as Hwd by (unfold wanted, actives, proxy_rows; by rewrite (proj1 Hq)).
  rewrite <- Hwd in Hl. apply (apply_wanted_run extra exclude) in E as (H1 & H2 & H3); [|done|by eapply quiet_accounted|].
  - split; [by rewrite H1, (proj1 Hq)|]. split; [done|]. by rewrite <- Hwd.
  - unfold may_add, proxy_rows in *. by rewrite (proj1 Hq).
Qed.

(** ** The rows *)

Lemma quiet_files_same {A} (m : BM A) : keeps quiet m -> keeps same_files m.
Proof. intros Hm w. apply (Hm w). Qed.
Lemma files_update p f : keeps same_files (update_proxies (X := X) env p f).
Proof. intros w. unfold same_files, files. by rewrite (rest_update env p f w). Qed.
(** What an update may do to a row that it leaves speaking for its secret. *)
Definition carries (a b : proxy_access) : Prop := px_id b = px_id a /\ forall fp, speaks st a fp -> speaks st b fp.
Lemma mt_update_run p f w r w' : update_proxies (X := X) env p f w = (r, w') -> (forall a, a ∈ proxy_rows w -> p a = true -> px_id (f a) = px_id a) ->
  proxy_ids_ok (bt_proxies (bw_tables w)) -> proxy_ids_ok (bt_proxies (bw_tables w')) /\ served w' = served w.
Proof.
  intros E Hf Hi. pose proof (keeps_run _ _ _ _ _ (files_update p f) E) as Hfiles. unfold served. rewrite Hfiles. split; [|done].
  apply update_proxies_run in E as (_ & [[-> _]|[-> _]]); [done|by apply map_ids_ok].
Qed.
Lemma mt_update_covers p f w r w' : update_proxies (X := X) env p f w = (r, w') ->
  forall a, a ∈ proxy_rows w -> (p a = true -> carries a (f a)) -> forall fp, speaks st a fp -> mt_covers st (proxy_rows w') (px_id a) fp.
Proof.
  intros E a Ha Hc fp Hs. apply update_proxies_run in E as (_ & [[Hb _]|[Hb _]]); [exists a; unfold proxy_rows in *; by rewrite Hb|].
  exists (if p a then f a else a). unfold proxy_rows in *. rewrite Hb. split; [by apply map_rows_elem|].
  destruct (p a); [|done]. destruct (Hc eq_refl) as [H1 H2]. split; [done|]. by apply H2.
Qed.
Lemma mt_update p f w r w' : update_proxies (X := X) env p f w = (r, w') -> (forall a, a ∈ proxy_rows w -> p a = true -> carries a (f a)) ->
  mt_accounted st w -> mt_accounted st w'.
Proof.
  intros E Hf [Hi Hs]. destruct (mt_update_run _ _ _ _ _ E) as [Hi' Hserved]; [intros a Ha Hp; apply (Hf a Ha Hp)|done|]. split; [done|].
  rewrite Hserved. intros s (id & a & Ha & <- & Hsp)%Hs. exists (px_id a). apply (mt_update_covers _ _ _ _ _ E); auto.
Qed.
(** Once no secret rests on a row, it may go. *)
Lemma mt_close p f id w r w' : update_proxies (X := X) env p f w = (r, w') ->
  (forall a, p a = true -> px_id a = id) -> (forall a, px_id (f a) = px_id a) -> mt_accounted_without st id w -> mt_accounted st w'.
Proof.
  intros E Hp Hf [Hi Hs]. destruct (mt_update_run _ _ _ _ _ E) as [Hi' Hserved]; [auto|done|]. split; [done|].
  rewrite Hserved. intros s (i & Hne & a & Ha & <- & Hsp)%Hs. exists (px_id a). apply (mt_update_covers _ _ _ _ _ E); [done| |done]. by intros ?%Hp.
Qed.
Lemma closed_without w id : mt_accounted st w ->
  (forall a, a ∈ proxy_rows w -> px_id a = id -> is_managed a = false \/ may_exist a = false) -> mt_accounted_without st id w.
Proof.
  intros [Hi Hs] Hid. split; [done|]. intros s (i & a & Ha & <- & Hsp)%Hs. exists (px_id a). split; [|by exists a].
  intros Heq. destruct Hsp as (_ & H1 & _ & H2). destruct (Hid a Ha Heq); congruence.
Qed.
Lemma carries_status s t0 e0 rs0 a : open_status s = true -> carries a (with_proxy_status s t0 e0 rs0 a).
Proof. intros Hs. split; [done|]. by intros fp (H1 & H2 & H3 & H4). Qed.
Lemma carries_shown t0 a : carries a (shown t0 a).
Proof. split; [done|]. by intros fp (H1 & H2 & H3 & H4). Qed.
Lemma fingerprint_some secret : exists c r, mtproto_secret_fingerprint secret = c :: r.
Proof.
  unfold mtproto_secret_fingerprint. pose proof (sha256_hex_length secret) as H. destruct (sha256_hex secret) as [|c r]; [done|]. by eexists _, _.
Qed.
Lemma carries_activated t0 secret ppl g a :
  (forall fp, access_fingerprint st a = Ok fp -> fp = mtproto_secret_fingerprint secret) ->
  carries a (ProxyRows.activated t0 (Some (mt_payload st secret true)) ppl g a).
Proof.
  intros Hfp. split; [done|]. intros fp (H1 & H2 & H3 & H4). split; [done|]. split; [reflexivity|]. split; [|done].
  pose proof (Hfp _ H3) as ->. clear Hfp. unfold access_fingerprint in *. cbn [px_fingerprint px_payload px_public_payload ProxyRows.activated].
  assert (payload_text (py "fingerprint") (mt_payload st secret true) = mtproto_secret_fingerprint secret) as Hpl by reflexivity.
  destruct (fingerprint_some secret) as (c & r & Hcr). change (default (px_payload a) (Some ?pl)) with pl. rewrite Hpl, Hcr.
  destruct (px_fingerprint a) as [[|c' r']|]; [done|by rewrite <- Hcr|done].
Qed.
End Service.
#[export] Hint Resolve quiet_ask quiet_get quiet_audit_table quiet_sql quiet_now quiet_select quiet_proxies quiet_audit quiet_audit_all quiet_user quiet_approved
  quiet_superadmin quiet_can_issue quiet_access quiet_mutation quiet_enabled quiet_adapter quiet_active quiet_live quiet_payload quiet_degrade
  quiet_io quiet_files quiet_lift quiet_document quiet_ready quiet_all quiet_unique quiet_managed quiet_actives quiet_desired : keeps.
