(* ===== verification/MtProtoAccess.v ===== *)
(** * The operations of the MTProto service

    Issuing, showing, revoking and deleting, each with its error paths: a secret the
    proxy serves keeps a row that speaks for it. *)

From S2P Require Import Prelude PyText Sha256 Json IsoTime Triples AwgConfig VpnKeys BackendHealth AwgService KeyRows BotDb Accounts AccountSafety BlockSafety RequestSafety DanteUsers ProxyRows Socks5 ProxySafety ProxyStartup MtProxy MtProto MtProxySafety MtProtoSafety.
#[local] Open Scope Z_scope.

Section Access.
Context {X : Type} `{HS : Part X socks_host} `{HM : Part X mt_host} `{!Apart X socks_host mt_host} (env : bot_env) (menv : mtproto_env).
Implicit Types w : bot_world X.
Abbreviation BM := (M (bot_world X) bot_error) (only parsing).
Abbreviation st := (me_settings menv) (only parsing).
Abbreviation xenv := (me_proxy menv) (only parsing).
Context `{!MtHelper xenv}.
Abbreviation ok := (mt_accounted st) (only parsing).

(** ** What only reads keeps what is known *)

Definition stable (P : bot_world X -> Prop) : Prop := forall w w', quiet w w' -> P w -> P w'.
Definition closed (id : Z) w : Prop := forall a, a ∈ proxy_rows w -> px_id a = id -> may_exist a = false.
Lemma stable_ok : stable ok.
Proof. intros w w'. apply quiet_accounted. Qed.
Lemma stable_in a : stable (fun w => a ∈ proxy_rows w).
Proof. intros w w' [H _]. unfold proxy_rows. by rewrite H. Qed.
Lemma stable_closed id : stable (closed id).
Proof. intros w w' [H _]. unfold closed, proxy_rows. by rewrite H. Qed.
Lemma stable_and P Q : stable P -> stable Q -> stable (fun w => P w /\ Q w).
Proof. intros HP HQ w w' H [H1 H2]. split; [by eapply HP|by eapply HQ]. Qed.
Lemma stable_pure (F : Prop) : stable (fun _ => F).
Proof. by intros w w' _. Qed.
Lemma quiet_triple {A} P Y (m : BM A) : keeps quiet m -> stable P -> (forall w, P w -> Y w) -> triple P m (fun _ => P) Y.
Proof. intros Hm HP HY. by eapply triple_keeps. Qed.
Lemma quiet_steady {A} P (m : BM A) : keeps quiet m -> stable P -> steady P m.
Proof. intros Hm HP. by apply quiet_triple. Qed.
Lemma quiet_ok {A} (m : BM A) : keeps quiet m -> steady ok m.
Proof. intros Hm. by apply quiet_steady, stable_ok. Qed.
Lemma triple_access P id : stable P -> triple P (get_access (X := X) env id) (fun a w => P w /\ a ∈ proxy_rows w /\ px_id a = id) P.
Proof.
  intros HP w Hw. destruct (get_access env id w) as [[a|e] w'] eqn:E; pose proof (keeps_run _ _ _ _ _ (quiet_access env id) E) as Hq; [|by eapply HP].
  split; [by eapply HP|]. apply get_access_run in E as [_ Ha]. destruct (Ha _ eq_refl) as [Hin Hid]. split; [|done]. by apply (stable_in _ _ _ Hq).
Qed.

(** ** Rows that go on speaking *)

Lemma update_ok p f : (forall a, carries menv a (f a)) -> steady ok (update_proxies (X := X) env p f).
Proof. intros Hf. apply steady_of. intros w r w' E. eapply mt_update; [exact E|]. auto. Qed.
Lemma status_ok id s t0 e0 rs0 : open_status s = true -> steady ok (ProxyRows.set_status (X := X) env id s t0 e0 rs0 []).
Proof. intros Hs. apply steady_bind; [apply update_ok; intros a; by apply carries_status|]. intros _. apply steady_ret. Qed.
Lemma shown_ok a actor : steady ok (mt_mark_shown (X := X) env a actor).
Proof.
  unfold mt_mark_shown. apply steady_bind; [apply quiet_ok, quiet_now|]. intros t0. apply steady_bind; [|intros []; apply quiet_ok, quiet_audit].
  apply steady_bind; [apply update_ok; intros b; apply carries_shown|]. intros _. apply steady_ret.
Qed.
Lemma hand_over_ok a actor : steady ok (hand_over (X := X) env menv a actor).
Proof.
  unfold hand_over. apply steady_bind; [apply quiet_ok, quiet_payload|]. intros b. apply steady_bind; [apply shown_ok|]. intros [].
  apply steady_bind; [apply quiet_ok, quiet_access|]. intros c. apply quiet_ok, quiet_payload.
Qed.
Lemma closing_run id excluded f w r w' : transition (X := X) env id excluded f w = (r, w') -> (forall a, px_id (f a) = px_id a) ->
  mt_accounted_without st id w -> ok w'.
Proof.
  intros (r0 & E & _)%transition_run Hf Hw. eapply mt_close; [exact E| |exact Hf|exact Hw]. intros a H. cbn beta in H. bool_prop. by apply Z.eqb_eq.
Qed.
(** A transition away from the statuses in which access may exist. *)
Lemma closing_triple id excluded f : (forall a, keeps_row a (f a)) -> (forall a, may_exist (f a) = false) ->
  (forall a, proxy_in excluded a = true -> may_exist a = false) ->
  triple (mt_accounted_without st id) (transition (X := X) env id excluded f) (fun _ w => ok w /\ closed id w) ok.
Proof.
  intros Hk Hf Hx w Hw. destruct (transition env id excluded f w) as [[[]|e] w'] eqn:E;
    (eassert (ok w') as Hok by (eapply closing_run; [exact E|intros a; apply Hk|exact Hw])); [|done].
  split; [done|]. intros b Hb Hid. by eapply (transition_closed env _ _ _ _ _ E).
Qed.
Lemma apply_rows_ok extra exclude w : ok w -> may_add extra w -> ok (apply_rows env menv extra exclude w).2.
Proof. intros Hw Hx. destruct (apply_rows env menv extra exclude w) as [r w'] eqn:E. by apply apply_rows_run in E as (_ & ? & _). Qed.
Lemma exclude_triple id : triple ok (apply_rows (X := X) env menv None (Some id)) (fun _ => mt_accounted_without st id) ok.
Proof.
  intros w Hw. destruct (apply_rows env menv None (Some id) w) as [[g|e] w'] eqn:E; apply apply_rows_run in E as (_ & ? & H); try done. by apply H.
Qed.
Lemma none_ok exclude : steady ok (apply_rows (X := X) env menv None exclude).
Proof. apply steady_of. intros w r w' E Hw. by apply apply_rows_run in E as (_ & ? & _). Qed.

(** ** A new row *)

Definition mt_row (owner : Z) (username : option str) (s : proxy_status) (pl public_pl : payload) (by_ : Z) (t0 : str) (fp : option str) (id : Z) : proxy_access :=
  ProxyAccess id owner username MTPROTO s pl public_pl t0 t0 None None None by_ None None None None fp 0 None None.
Lemma mt_create_run owner username s pl ppl by_ t0 fp w r w' :
  ProxyRows.create (X := X) env owner username MTPROTO s pl ppl by_ t0 fp 0 w = (r, w') -> proxy_ids_ok (bt_proxies (bw_tables w)) ->
  files w' = files w
  /\ (bt_proxies (bw_tables w') = bt_proxies (bw_tables w) /\ is_ok r = false
      \/ bt_proxies (bw_tables w') = append (mt_row owner username s pl ppl by_ t0 fp) (bt_proxies (bw_tables w))
         /\ r <> Err UniqueConflict
         /\ forall a, r = Ok a -> a = mt_row owner username s pl ppl by_ t0 fp (sr_seq (bt_proxies (bw_tables w)) + 1)).
Proof. intros E Hi. apply create_run_any in E as [Hr H]; [|done]. split; [unfold files; by rewrite Hr|exact H]. Qed.
Lemma append_ok (row : Z -> proxy_access) w w' : (forall id, px_id (row id) = id) -> files w' = files w ->
  bt_proxies (bw_tables w') = append row (bt_proxies (bw_tables w)) -> ok w -> ok w'.
Proof.
  intros Hr Hf Hb [Hi Hs]. unfold mt_accounted, proxy_rows, served in *. rewrite Hb, Hf. split; [by apply append_ids_ok|].
  intros s (id & a & Ha & H)%Hs. exists id, a. split; [|done]. cbn. apply elem_of_app. by left.
Qed.
Lemma create_triple owner username s pl ppl by_ t0 fp :
  triple ok (ProxyRows.create (X := X) env owner username MTPROTO s pl ppl by_ t0 fp 0)
    (fun a w => ok w /\ a ∈ proxy_rows w /\ exists id, a = mt_row owner username s pl ppl by_ t0 fp id) ok.
Proof.
  intros w Hw. destruct (create _ _ _ _ _ _ _ _ _ _ _ w) as [r w'] eqn:E. apply mt_create_run in E as (Hf & H); [|apply Hw].
  destruct H as [[Hb Hr]|(Hb & _ & Ha)].
  - destruct r; [done|]. apply (quiet_accounted _ w); [by split|done].
  - assert (ok w') as Hok by (eapply append_ok; [|exact Hf|exact Hb|done]; done). destruct r as [a|e]; [|done]. specialize (Ha _ eq_refl). split; [done|].
    split; [|by eexists]. subst a. unfold proxy_rows. rewrite Hb. cbn. apply elem_of_app. right. by apply list_elem_of_singleton.
Qed.

(** ** A row that becomes active *)

(** The secret is the one the row has the fingerprint of. *)
Definition agrees (id : Z) (secret : str) w : Prop := forall b, b ∈ proxy_rows w -> px_id b = id ->
  forall fp, access_fingerprint st b = Ok fp -> fp = mtproto_secret_fingerprint secret.
Lemma stable_agrees id secret : stable (agrees id secret).
Proof. intros w w' [H _]. unfold agrees, proxy_rows. by rewrite H. Qed.
Lemma files_active id t0 pl ppl g : keeps same_files (ProxyRows.mark_active (X := X) env id t0 pl ppl g).
Proof.
  unfold ProxyRows.mark_active, transaction, get_by_id. apply keeps_bind; [apply _|exact (quiet_files_same _ (quiet_sql env))|]. intros [] w.
  set (m := bind _ _). assert (keeps same_files m) as Hm.
  { pose proof (files_update env). pose proof (fun A h => quiet_files_same _ (quiet_proxies (A := A) env h)). subst m. keeps_tac. }
  specialize (Hm w). by destruct (m w) as [[|] ?].
Qed.
Lemma active_ok id t0 secret ppl g :
  triple (fun w => ok w /\ agrees id secret w) (ProxyRows.mark_active (X := X) env id t0 (Some (mt_payload st secret true)) ppl g) (fun _ => ok) ok.
Proof.
  intros w [Hw Ha]. destruct (mark_active _ _ _ _ _ _ w) as [r w'] eqn:E. pose proof (keeps_run _ _ _ _ _ (files_active _ _ _ _ _) E) as Hf.
  unfold ProxyRows.mark_active in E. apply transaction_inv in E. destruct r as [[]|e].
  2:{ apply (quiet_accounted _ w); [|done]. split; [by rewrite E|done]. }
  destruct E as (w1 & Ht1 & _ & E). apply bind_inv in E as [(o & w2 & H2 & E)|(? & _ & ?)]; [|done].
  apply select_run in H2 as (Ht2 & _ & _). destruct o; [|done]. apply bind_inv in E as [(n & w3 & H3 & E)|(? & _ & ?)]; [|done]. injection E as <-.
  assert (bw_tables w2 = bw_tables w) as Ht by congruence. pose proof (keeps_run _ _ _ _ _ (files_update env _ _) H3) as Hf2.
  assert (files w2 = files w) as Hfw by (rewrite <- Hf2; exact Hf).
  eapply mt_update; [exact H3| |]; [|apply (quiet_accounted _ w); [split; [by rewrite Ht|done]|done]].
  intros a Hin Hp. cbn beta in Hp. bool_prop. apply carries_activated. intros fp Hfp. eapply Ha; [|by apply Z.eqb_eq|done].
  unfold proxy_rows in *. by rewrite <- Ht.
Qed.

(** ** Issuing *)

Lemma fingerprint_of_row owner username s pl ppl by_ t0 secret id :
  access_fingerprint st (mt_row owner username s pl ppl by_ t0 (Some (mtproto_secret_fingerprint secret)) id) = Ok (mtproto_secret_fingerprint secret).
Proof. unfold access_fingerprint. cbn [px_fingerprint mt_row]. by destruct (fingerprint_some secret) as (c & r & ->). Qed.
Lemma status_step {A} id s t0 e0 rs0 (k : unit -> BM A) : open_status s = true -> (forall x, steady ok (k x)) ->
  steady ok (bind (ProxyRows.set_status (X := X) env id s t0 e0 rs0 []) k).
Proof. intros Hs Hk. apply steady_bind; [by apply status_ok|exact Hk]. Qed.
Lemma compensate_ok actor id : steady ok (mt_compensate (X := X) env menv actor id).
Proof.
  unfold mt_compensate. pose proof (fun r => quiet_ok _ (quiet_degrade (X := X) r)). pose proof (fun a b i => quiet_ok _ (quiet_audit (X := X) env a b i)).
  apply steady_bind; [apply steady_attempt, none_ok|]. intros [g|e]; (apply steady_bind; [|by intros ?]); [|done].
  apply steady_attempt, steady_bind; [apply quiet_ok, quiet_now|]. intros t0. by apply status_ok.
Qed.
Lemma apply_access_triple actor a secret : px_type a = MTPROTO -> may_exist a = true ->
  triple (fun w => ok w /\ a ∈ proxy_rows w) (mt_apply_access (X := X) env menv actor a secret) (fun _ w => ok w /\ a ∈ proxy_rows w) ok.
Proof.
  intros Ht Hm. unfold mt_apply_access. apply triple_catch with (Y := ok).
  - intros w [Hw Ha]. fold (apply_rows (X := X) env menv (Some a) None). destruct (apply_rows env menv (Some a) None w) as [r w'] eqn:E.
    apply (apply_rows_run env menv) in E as (Hb & Hw' & _); try done; [|by intros b [= <-]]. assert (a ∈ proxy_rows w') by (unfold proxy_rows in *; by rewrite Hb). by destruct r.
  - intros e. cbv zeta. eapply triple_bind; [apply quiet_ok, quiet_now|]. intros t0.
    eapply triple_bind; [by apply status_ok|]. intros []. eapply triple_bind; [apply quiet_ok, quiet_audit|]. intros [].
    case_match; by apply triple_raise.
Qed.
Lemma activate_triple actor id secret ppl g :
  triple (fun w => ok w /\ agrees id secret w) (mt_activate (X := X) env menv actor id (mt_payload st secret true) ppl g) (fun _ => ok) ok.
Proof.
  unfold mt_activate. apply triple_catch with (Y := ok).
  - eapply triple_bind; [apply quiet_triple; [apply quiet_now|apply stable_and; [apply stable_ok|apply stable_agrees]|by intros w []]|]. intros t0. apply active_ok.
  - intros e. eapply triple_bind; [apply compensate_ok|]. intros []. by apply triple_raise.
Qed.
Lemma finish_triple actor secret owner username pl ppl by_ t0 id :
  let a := mt_row owner username ProxyPendingApply pl ppl by_ t0 (Some (mtproto_secret_fingerprint secret)) id in
  triple (fun w => ok w /\ a ∈ proxy_rows w) (finish_managed (X := X) env menv actor secret a) (fun _ => ok) ok.
Proof.
  intros a. unfold finish_managed. cbv zeta. eapply triple_bind; [by apply apply_access_triple|]. intros g.
  eapply triple_bind.
  - eapply triple_pre; [apply activate_triple|]. intros w [Hw Ha]. split; [done|]. intros b Hb Hid fp Hfp.
    assert (b = a) as -> by (by apply (one_row (bt_proxies (bw_tables w))); [apply Hw| | |]). subst a. rewrite fingerprint_of_row in Hfp. by injection Hfp as <-.
  - intros []. apply steady_bind; [apply quiet_ok, quiet_audit|]. intros []. apply steady_bind; [apply quiet_ok, quiet_access|]. intros c. apply hand_over_ok.
Qed.
Lemma refused_ok actor owner : steady ok (refused_row (X := X) env menv actor owner).
Proof.
  unfold refused_row. apply steady_bind; [apply quiet_ok, quiet_live|]. intros [a|]; [|apply steady_raise]. case_match; [apply hand_over_ok|apply steady_raise].
Qed.
Lemma issue_new_triple actor p : steady ok (issue_managed_new (X := X) env menv actor p).
Proof.
  unfold issue_managed_new. apply steady_bind; [apply quiet_ok, quiet_adapter|]. intros []. apply steady_bind; [apply quiet_ok, quiet_ready|]. intros [].
  apply steady_bind; [apply quiet_ok, quiet_unique|]. intros secret. apply steady_bind; [apply quiet_ok, quiet_now|]. intros t0.
  eapply triple_bind; [eapply triple_attempt, create_triple|]. intros [a|e]; cbn beta iota.
  - intros w (Hw & Ha & id & ->). by apply finish_triple.
  - destruct e; try apply steady_raise. apply refused_ok.
Qed.
Lemma existing_ok actor owner m : steady ok m -> steady ok (mt_existing (X := X) env menv actor owner m).
Proof. intros Hm. unfold mt_existing. apply steady_bind; [apply quiet_ok, quiet_active|]. intros [a|]; [apply hand_over_ok|exact Hm]. Qed.
Lemma mt_issue_ok actor p : steady ok (issue_mtproto_proxy (X := X) env menv actor p).
Proof.
  unfold issue_mtproto_proxy. apply steady_bind; [apply quiet_ok, quiet_enabled|]. intros []. apply steady_bind; [apply quiet_ok, quiet_mutation|]. intros [].
  case_match; unfold issue_managed, issue_static.
  - apply steady_bind; [apply quiet_ok, quiet_adapter|]. intros []. apply steady_bind; [apply quiet_ok, quiet_can_issue|]. intros []. apply existing_ok.
    apply steady_bind; [apply quiet_ok, quiet_mutation|]. intros []. apply existing_ok, issue_new_triple.
  - apply steady_bind; [apply quiet_ok, quiet_can_issue|]. intros []. apply existing_ok. apply steady_bind; [apply quiet_ok, quiet_now|]. intros t0.
    apply (triple_bind _ _ _ _ (fun _ => ok)); [eapply triple_weaken; [apply create_triple|done| |done]; by intros a w (Hw & _)|]. intros a.
    apply steady_bind; [apply quiet_ok, quiet_audit|]. intros []. apply steady_bind; [apply quiet_ok, quiet_access|]. intros c. apply hand_over_ok.
Qed.
Lemma mt_show_ok actor : steady ok (get_mtproto_proxy_config (X := X) env menv actor).
Proof.
  unfold get_mtproto_proxy_config. apply steady_bind; [apply quiet_ok, quiet_approved|]. intros _. apply steady_bind; [apply quiet_ok, quiet_active|].
  intros [a|]; [apply hand_over_ok|apply steady_raise].
Qed.
Lemma quiet_list actor : keeps quiet (list_user_mtproto_accesses (X := X) env actor).
Proof. unfold list_user_mtproto_accesses, list_by_owner. keeps_tac. Qed.

(** ** In step with the active rows *)

(** The proxy serves the secrets of the active rows and no others. *)
Definition in_step w : Prop := exists secrets, managed_secrets_from_accesses st (actives w) = Ok secrets /\ serves (mf_store (files w)) secrets.
Definition in_step_without (id : Z) w : Prop :=
  exists secrets, managed_secrets_from_accesses st (wanted None (Some id) w) = Ok secrets /\ serves (mf_store (files w)) secrets.
Definition cleared (id : Z) w : Prop := mt_accounted_without st id w /\ in_step_without id w.
Lemma actives_same w w' : bt_proxies (bw_tables w') = bt_proxies (bw_tables w) -> actives w' = actives w.
Proof. unfold actives, proxy_rows. by intros ->. Qed.
Lemma stable_in_step : stable in_step.
Proof. intros w w' [H1 H2]. unfold in_step. by rewrite (actives_same _ _ H1), H2. Qed.
Lemma stable_cleared id : stable (cleared id).
Proof.
  intros w w' H [H1 H2]. split; [by eapply quiet_without|]. destruct H as [Hb Hf]. unfold in_step_without, wanted in *. by rewrite (actives_same _ _ Hb), Hf.
Qed.
Lemma cleared_triple id : triple ok (apply_rows (X := X) env menv None (Some id)) (fun _ => cleared id) ok.
Proof.
  intros w Hw. destruct (apply_rows env menv None (Some id) w) as [[g|e] w'] eqn:E; apply apply_rows_run in E as (Hb & ? & H); try done.
  destruct (H eq_refl) as [H1 (l & Hl & Hs)]. split; [by apply H1|]. exists l. split; [|done]. rewrite <- Hl. unfold wanted. by rewrite (actives_same _ _ Hb).
Qed.
Lemma transition_actives id excluded f w w' : transition (X := X) env id excluded f w = (Ok tt, w') ->
  (forall a, px_status (f a) <> ProxyActive) -> (forall a, proxy_in excluded a = true -> px_status a <> ProxyActive) ->
  actives w' = List.filter (fun a => negb (px_id a =? id)) (actives w).
Proof.
  intros (r0 & E & Hr)%transition_run Hf Hx. specialize (Hr eq_refl). apply update_proxies_run in E as (_ & [[_ Hr0]|[Hrows _]]); [congruence|].
  assert (forall a, px_status a <> ProxyActive -> picked [ProxyActive] 0 a = false) as Hnot.
  { intros a Ha. unfold picked, proxy_in. rewrite (bool_decide_eq_false_2 (px_status a ∈ _)); [by rewrite andb_false_r|]. by intros ?%list_elem_of_singleton. }
  unfold actives, proxy_rows. rewrite Hrows. cbn. clear -Hf Hx Hnot. generalize (sr_rows (bt_proxies (bw_tables w))) as l. induction l as [|a l IH]; [done|].
  cbn [map List.filter]. change (has_proxy_id id a) with (px_id a =? id). destruct (px_id a =? id) eqn:Hid; cbn [andb].
  - assert (picked [ProxyActive] 0 (if negb (proxy_in excluded a) then f a else a) = false) as ->.
    { apply Hnot. destruct (proxy_in excluded a) eqn:Ha; cbn; auto. }
    rewrite IH. destruct (picked _ _ a); [|done]. cbn [List.filter]. destruct (is_managed a); [|done]. cbn [List.filter]. by rewrite Hid.
  - destruct (picked _ _ a); [|exact IH]. cbn [List.filter]. destruct (is_managed a); [|exact IH]. cbn [List.filter]. rewrite Hid. cbn. by rewrite IH.
Qed.
Lemma files_transition id excluded f : keeps same_files (transition (X := X) env id excluded f).
Proof. unfold transition. pose proof (files_update env). keeps_tac. Qed.
(** The row leaves, once the proxy has. *)
Lemma leave_triple id excluded f : (forall a, keeps_row a (f a)) -> (forall a, may_exist (f a) = false) ->
  (forall a, proxy_in excluded a = true -> may_exist a = false) ->
  triple (cleared id) (transition (X := X) env id excluded f) (fun _ w => (ok w /\ closed id w) /\ in_step w) ok.
Proof.
  intros Hk Hf Hx w [Hw (l & Hl & Hs)]. pose proof (closing_triple id excluded f Hk Hf Hx w Hw) as H.
  destruct (transition env id excluded f w) as [[[]|e] w'] eqn:E; [|done]. split; [done|].
  assert (forall a, may_exist a = false -> px_status a <> ProxyActive) as Hne by (intros a Ha Hst; unfold may_exist, proxy_in in Ha; by rewrite Hst in Ha).
  exists l. rewrite (transition_actives _ _ _ _ _ E); [|intros a; by apply Hne|intros a Ha; by apply Hne, Hx].
  split; [|by rewrite (keeps_run _ _ _ _ _ (files_transition id excluded f) E)].
  rewrite <- Hl. unfold wanted. by rewrite app_nil_r.
Qed.

(** ** Revoking and deleting *)

(** What is known of the row of the id. *)
Definition known (id : Z) (F : proxy_access -> Prop) w : Prop := forall a, a ∈ proxy_rows w -> px_id a = id -> F a.
Lemma stable_known id F : stable (known id F).
Proof. intros w w' [H _]. unfold known, proxy_rows. by rewrite H. Qed.
Lemma triple_payload P a : triple P (current_payload (X := X) menv a) (fun b w => P w /\ px_id b = px_id a) P.
Proof.
  intros w Hw. unfold current_payload, lift. destruct (with_current_payload st a) as [b|e] eqn:E; cbn; [|done]. split; [done|].
  unfold with_current_payload in E. destruct (access_secret st a) as [[|c s]|]; [by injection E as <-|by injection E as <-|done].
Qed.
Lemma remove_triple actor reason a : triple ok (remove_secret (X := X) env menv actor reason a) (fun _ => cleared (px_id a)) ok.
Proof.
  unfold remove_secret. apply triple_catch with (Y := ok); [apply cleared_triple|]. intros e. cbv zeta.
  eapply triple_bind; [apply quiet_ok, quiet_now|]. intros t0. eapply triple_bind; [by apply status_ok|]. intros [].
  eapply triple_bind; [apply quiet_ok, quiet_audit|]. intros []. case_match; by apply triple_raise.
Qed.
(** What a revocation that returns leaves: the row is closed, and if it was open and of
    the managed mode, the proxy is in step. *)
Definition revoked (id : Z) (F : proxy_access -> Prop) w : Prop :=
  (ok w /\ closed id w) /\ ((forall a, F a -> may_exist a = true /\ is_managed a = true) -> in_step w).
Lemma stable_revoked id F : stable (revoked id F).
Proof.
  apply stable_and; [apply stable_and; [apply stable_ok|apply stable_closed]|]. intros w w' H H1 H2. eapply stable_in_step; [exact H|auto].
Qed.
(** The last steps, after the row has left. *)
Lemma row_again P actor action id : stable P -> (forall w, P w -> ok w) ->
  triple P (mt_audit (X := X) env actor action id ;;! let! again := get_access env id in current_payload menv again)
    (fun r w => P w /\ px_id r = id) ok.
Proof.
  intros HP Hok. eapply triple_bind; [by apply quiet_triple; [apply quiet_audit| |]|]. intros [].
  eapply triple_bind; [eapply triple_weaken; [by apply triple_access|done|intros a w H; exact H|exact Hok]|]. intros a.
  intros w (Hw & _ & Hid). pose proof (triple_payload P a w Hw) as H. destruct (current_payload menv a w) as [[b|e] w']; [|by apply Hok].
  destruct H as [H1 H2]. split; [done|congruence].
Qed.
Lemma closed_row w a id : ok w -> a ∈ proxy_rows w -> px_id a = id -> may_exist a = false -> closed id w.
Proof. intros [Hi _] Ha Hid Hc b Hb Hidb. assert (b = a) as -> by (eapply one_row; [exact Hi|done|done|congruence]). done. Qed.
Definition this_row (F : proxy_access -> Prop) (a : proxy_access) w : Prop := (ok w /\ known (px_id a) F w) /\ a ∈ proxy_rows w.
Lemma stable_row F a : stable (this_row F a).
Proof. apply stable_and; [apply stable_and; [apply stable_ok|apply stable_known]|apply stable_in]. Qed.
Lemma row_ok F a w : this_row F a w -> ok w.
Proof. by intros [[? _] _]. Qed.
Lemma closed_payload F a : proxy_in CLOSED_STATUSES a = true ->
  triple (this_row F a) (current_payload (X := X) menv a) (fun r w => revoked (px_id a) F w /\ px_id r = px_id a) ok.
Proof.
  intros Hc. eapply triple_weaken; [apply (triple_payload (this_row F a) a)|done| |apply row_ok]. intros r w [[[Hw Hk] Ha] Hr]. split; [|done].
  assert (may_exist a = false) as Hm by (unfold may_exist; by apply negb_false_iff).
  split; [split; [done|by eapply closed_row]|]. intros HF. destruct (HF a) as [? _]; [by apply Hk|congruence].
Qed.
Lemma deactivate_triple actor reason F a : is_managed a = false ->
  triple (this_row F a) (deactivate_static (X := X) env menv a actor reason) (fun r w => revoked (px_id a) F w /\ px_id r = px_id a) ok.
Proof.
  intros Hm. unfold deactivate_static. eapply triple_bind; [apply quiet_triple; [apply quiet_now|apply stable_row|apply row_ok]|]. intros t0.
  apply (triple_bind _ _ _ _ (fun _ => revoked (px_id a) F)).
  - intros w ((Hw & Hk) & Ha). assert (mt_accounted_without st (px_id a) w) as Hwo.
    { apply closed_without; [done|]. intros b Hb Hidb. left. assert (b = a) as -> by (eapply one_row; [apply Hw|done|done|congruence]). done. }
    pose proof (closing_triple (px_id a) [ProxyInactive; ProxyRevoked; ProxyDeleted] (withdrawn ProxyInactive false actor t0 reason) ltac:(done) ltac:(done)
      ltac:(intros b Hb; eapply excluded_closed, Hb; intros s; set_solver) w Hwo) as H.
    unfold ProxyRows.mark_inactive. destruct (transition _ _ _ _ w) as [[[]|e] w']; [|done]. split; [done|]. intros HF. destruct (HF a (Hk a Ha eq_refl)). congruence.
  - intros []. apply row_again; [apply stable_revoked|by intros w [[? _] _]].
Qed.
Lemma revoke_managed_triple found actor reason F :
  triple (fun w => ok w /\ known (px_id found) F w) (revoke_managed (X := X) env menv found actor reason)
    (fun r w => revoked (px_id found) F w /\ px_id r = px_id found) ok.
Proof.
  assert (stable (fun w => ok w /\ known (px_id found) F w)) as HP by (apply stable_and; [apply stable_ok|apply stable_known]).
  unfold revoke_managed. eapply triple_bind; [apply quiet_triple; [apply quiet_mutation|exact HP|by intros w [? _]]|]. intros [].
  eapply triple_bind; [eapply triple_weaken; [by apply triple_access|done|intros a w H; exact H|by intros w [? _]]|]. intros a.
  intros w ([Hw Hk] & Ha & Hid). rewrite <- Hid in Hk |- *. assert (this_row F a w) as Hrow by done. clear HP Hw Hk Ha. revert w Hrow.
  change (triple (this_row F a) (if proxy_in CLOSED_STATUSES a then current_payload menv a else
    managed_adapter menv ;;! ensure_managed_runtime_ready xenv ;;! let! t := now env in
    ProxyRows.set_status env (px_id a) ProxyPendingRevoke t None reason [] ;;! let! _ := lift (access_fingerprint st a) in
    let! _ := remove_secret env menv actor reason a in let! t := now env in ProxyRows.mark_revoked env (px_id a) actor t reason ;;!
    mt_audit env (Some actor) (py "mtproto_proxy_revoked") (px_id a) ;;! let! again := get_access env (px_id a) in current_payload menv again)
    (fun r w => revoked (px_id a) F w /\ px_id r = px_id a) ok).
  destruct (proxy_in CLOSED_STATUSES a) eqn:Hc; [by apply closed_payload|].
  eapply triple_pre; [|apply row_ok]. eapply triple_bind; [apply quiet_ok, quiet_adapter|]. intros []. eapply triple_bind; [apply quiet_ok, quiet_ready|]. intros [].
  eapply triple_bind; [apply quiet_ok, quiet_now|]. intros t0. eapply triple_bind; [by apply status_ok|]. intros [].
  eapply triple_bind; [apply quiet_ok, keeps_lift, quiet_pre|]. intros fp. eapply triple_bind; [apply remove_triple|]. intros g.
  eapply triple_bind; [apply quiet_triple; [apply quiet_now|apply stable_cleared|intros w [H _]; by eapply without_accounted]|]. intros t1.
  eapply triple_bind; [apply leave_triple; [done|done|intros b Hb; eapply excluded_closed, Hb; intros s; set_solver]|]. intros [].
  eapply triple_pre; [apply (row_again (revoked (px_id a) F)); [apply stable_revoked|by intros w [[? _] _]]|]. intros w [H1 H2]. by split.
Qed.
Lemma revoke_triple actor id reason F :
  triple (fun w => ok w /\ known id F w) (revoke_mtproto (X := X) env menv actor id reason) (fun r w => revoked id F w /\ px_id r = id) ok.
Proof.
  assert (stable (fun w => ok w /\ known id F w)) as HP by (apply stable_and; [apply stable_ok|apply stable_known]).
  unfold revoke_mtproto. eapply triple_bind; [eapply triple_weaken; [by apply triple_access|done|intros a w H; exact H|by intros w [? _]]|]. intros a.
  intros w ([Hw Hk] & Ha & <-). assert (this_row F a w) as Hrow by done. clear HP Hw Hk Ha. revert w Hrow.
  change (triple (this_row F a) (if negb (bool_decide (px_type a = MTPROTO)) then raise (Refused NotMtproto)
    else if proxy_in CLOSED_STATUSES a then current_payload menv a else
    mt_require_mutation ;;! if is_managed a then revoke_managed env menv a actor reason else deactivate_static env menv a actor reason)
    (fun r w => revoked (px_id a) F w /\ px_id r = px_id a) ok).
  destruct (negb _); [apply triple_raise, row_ok|]. destruct (proxy_in CLOSED_STATUSES a) eqn:Hc; [by apply closed_payload|].
  eapply triple_bind; [apply quiet_triple; [apply quiet_mutation|apply stable_row|apply row_ok]|]. intros [].
  destruct (is_managed a) eqn:Hm; [|by apply deactivate_triple]. eapply triple_pre; [apply revoke_managed_triple|]. by intros w [H _].
Qed.
Lemma known_nothing id w : known id (fun _ => True) w.
Proof. done. Qed.
Lemma revoke_any actor id reason : triple ok (revoke_mtproto (X := X) env menv actor id reason) (fun r w => (ok w /\ closed id w) /\ px_id r = id) ok.
Proof.
  eapply triple_weaken; [apply (revoke_triple actor id reason (fun _ => True))| | |done]; [by intros w Hw|]. by intros r w [[H _] Hid].
Qed.
Lemma revoke_op_triple actor id reason : triple ok (revoke_mtproto_proxy (X := X) env menv actor id reason) (fun r w => (ok w /\ closed id w) /\ px_id r = id) ok.
Proof. unfold revoke_mtproto_proxy. eapply triple_bind; [apply quiet_ok, quiet_superadmin|]. intros u. apply revoke_any. Qed.
Lemma mt_revoke_ok actor id reason : steady ok (revoke_mtproto (X := X) env menv actor id reason).
Proof. eapply triple_weaken; [apply revoke_any|done| |done]. by intros r w [[? _] _]. Qed.
Lemma mt_delete_ok actor id reason : steady ok (delete_mtproto_proxy (X := X) env menv actor id reason).
Proof.
  unfold delete_mtproto_proxy. apply steady_bind; [apply quiet_ok, quiet_superadmin|]. intros _. eapply triple_bind; [apply revoke_op_triple|]. intros a.
  intros w ([Hw Hc] & <-). revert w Hw Hc.
  assert (stable (fun w => ok w /\ closed (px_id a) w)) as HP by (apply stable_and; [apply stable_ok|apply stable_closed]).
  enough (triple (fun w => ok w /\ closed (px_id a) w) (if proxy_in [ProxyDeleted] a then ret a else
    mt_require_mutation ;;! let! t := now env in ProxyRows.mark_deleted env (px_id a) actor t reason ;;!
    mt_audit env (Some actor) (py "mtproto_proxy_deleted") (px_id a) ;;! get_access env (px_id a)) (fun _ => ok) ok) as H by (intros w Hw Hc; by apply H).
  destruct (proxy_in _ a); [apply triple_ret; by intros w [? _]|].
  eapply triple_bind; [apply quiet_triple; [apply quiet_mutation|exact HP|by intros w [? _]]|]. intros [].
  eapply triple_bind; [apply quiet_triple; [apply quiet_now|exact HP|by intros w [? _]]|]. intros t0.
  apply (triple_bind _ _ _ _ (fun _ => ok)).
  - intros w [Hw Hc]. unfold ProxyRows.mark_deleted. destruct (transition _ _ _ _ w) as [r w'] eqn:E.
    assert (ok w') as Hok by (eapply closing_run; [exact E|done|apply closed_without; [done|intros b Hb Hid; right; by apply Hc]]). by destruct r.
  - intros []. apply steady_bind; [apply quiet_ok, quiet_audit|]. intros []. apply quiet_ok, quiet_access.
Qed.
End Access.
