(* ===== verification/ProxyServices.v ===== *)
(** * The two proxy services, one beside the other

    What the MTProto service does keeps the system users of [Socks5] accounted for, and
    what the SOCKS5 service does keeps the secrets of [MtProto] accounted for. *)

From S2P Require Import Prelude PyText Json IsoTime Triples AwgConfig VpnKeys BackendHealth AwgService KeyRows BotDb Accounts AccountSafety BlockSafety RequestSafety DanteUsers ProxyRows Socks5 ProxySafety ProxyStartup ProxyBeside MtProxy MtProto MtProxySafety MtProtoSafety MtProtoAccess.
#[local] Open Scope Z_scope.

(** ** What most of the MTProto service leaves alone *)

(** A relation that everything but the statements on the rows keeps. *)
Class Calm {X} `{HS : Part X socks_host} `{HM : Part X mt_host} (R : bot_world X -> bot_world X -> Prop) : Prop := {
  calm_pre :: PreOrder R;
  calm_ask {A} (f : nat -> A) : keeps R (ask (X := X) f);
  calm_audit f : keeps R (set_tables (X := X) (set_audit f));
  calm_degrade reason : keeps R (mt_degrade (X := X) reason) }.
(** One that an apply keeps, too. *)
Class Applies {X} `{HM : Part X mt_host} (xenv : mtproxy_env) (R : bot_world X -> bot_world X -> Prop) : Prop :=
  applies_managed secrets : keeps R (apply_managed_secrets (X := X) xenv secrets).

Section Calm.
Context {X : Type} `{HS : Part X socks_host} `{HM : Part X mt_host} (R : bot_world X -> bot_world X -> Prop) `{HC : !Calm R}.
Abbreviation BM := (M (bot_world X) bot_error) (only parsing).
#[local] Hint Resolve calm_ask calm_audit calm_degrade : keeps.
#[local] Hint Extern 1 (Calm _) => exact HC : keeps.
Section Adapter.
Context (xenv : mtproxy_env).
Lemma still_files : keeps R (mt_files_of (X := X)).
Proof. intros w. reflexivity. Qed.
Lemma still_mt_lift {A} (r : result mt_error A) : keeps R (mt_lift (X := X) r).
Proof. intros w. destruct r; reflexivity. Qed.
Lemma still_mt_raise {A} e : keeps R (mt_raise (X := X) (A := A) e).
Proof. intros w. reflexivity. Qed.
#[local] Hint Resolve still_files still_mt_lift still_mt_raise : keeps.
Lemma still_io : keeps R (io (X := X) xenv).
Proof. unfold io. keeps_tac. Qed.
Lemma still_answer f : keeps R (answer (X := X) f).
Proof. unfold answer. keeps_tac. Qed.
#[local] Hint Resolve still_io still_answer : keeps.
Lemma still_document : keeps R (read_store_document (X := X) xenv).
Proof. unfold read_store_document. keeps_tac. Qed.
#[local] Hint Resolve still_document : keeps.
Lemma still_ready : keeps R (ensure_managed_runtime_ready (X := X) xenv).
Proof. unfold ensure_managed_runtime_ready, ensure_wrapper_ready, ensure_managed_permissions. keeps_tac. Qed.
Lemma still_store_document l d g : keeps R (store_document (X := X) xenv l d g).
Proof. unfold store_document. keeps_tac. Qed.
Lemma still_current d : keeps R (runtime_files_current (X := X) xenv d).
Proof. unfold runtime_files_current. keeps_tac. Qed.
#[local] Hint Resolve still_ready still_store_document still_current : keeps.
(** An apply, when the host may be anything. *)
Lemma any_host_applies : (forall h, keeps R (set_mt_host (X := X) h)) -> Applies xenv R.
Proof.
  intros Hh secrets. assert (keeps R (mt_host_of (X := X))) as Hof by (by intros w).
  unfold apply_managed_secrets, apply_document_directly, apply_document_via_helper, backup_managed_files, write_runtime_files, check_runtime, check_mtproxy_listening,
    roll_back, restart_mtproxy, restore_backup, restore_file, ensure_managed_permissions, set_store, set_env, set_files. keeps_tac.
Qed.
End Adapter.
#[local] Hint Resolve still_files still_mt_lift still_mt_raise still_ready still_document : keeps.
Section Database.
Context (env : bot_env).
Lemma near_sql : keeps R (sql (X := X) env).
Proof. unfold sql. keeps_tac. Qed.
Lemma near_now : keeps R (now (X := X) env).
Proof. apply calm_ask. Qed.
#[local] Hint Resolve near_sql near_now : keeps.
Lemma near_select {A} (f : bot_tables -> A) : keeps R (select (X := X) env f).
Proof. unfold select. keeps_tac. Qed.
#[local] Hint Resolve near_select : keeps.
Lemma near_proxies {A} (f : list proxy_access -> A) : keeps R (select_proxies (X := X) env f).
Proof. apply near_select. Qed.
Lemma near_audit_all a : keeps R (mt_audit_all (X := X) env a).
Proof. unfold mt_audit_all, audit_best_effort, audit, write. keeps_tac. Qed.
Lemma near_audit a b id : keeps R (mt_audit (X := X) env a b id).
Proof. unfold mt_audit, socks_audit, audit_best_effort, audit, write. keeps_tac. Qed.
Lemma near_user id : keeps R (get_user (X := X) env id).
Proof. unfold get_user, user_by_id. keeps_tac. Qed.
#[local] Hint Resolve near_proxies near_audit near_audit_all near_user : keeps.
Lemma near_approved id : keeps R (require_approved_or_admin (X := X) env id).
Proof. unfold require_approved_or_admin. keeps_tac. Qed.
Lemma near_superadmin id : keeps R (require_superadmin (X := X) env id).
Proof. unfold require_superadmin. keeps_tac. Qed.
#[local] Hint Resolve near_approved near_superadmin : keeps.
Lemma near_can_issue a o : keeps R (ensure_can_issue (X := X) env a o).
Proof. unfold ensure_can_issue. keeps_tac. Qed.
Lemma near_access id : keeps R (get_access (X := X) env id).
Proof. unfold get_access, get_by_id. keeps_tac. Qed.
Lemma near_batches fuel statuses : forall last_id, keeps R (accesses_from (X := X) env fuel statuses last_id).
Proof. induction fuel as [|fuel IH]; intros last_id; cbn [accesses_from]; [keeps_tac|]. unfold list_by_type_statuses. keeps_tac. Qed.
#[local] Hint Resolve near_batches : keeps.
Lemma near_actives : keeps R (active_managed_accesses (X := X) env).
Proof. unfold active_managed_accesses, managed_accesses_by_statuses. keeps_tac. Qed.
End Database.
Lemma near_mutation : keeps R (mt_require_mutation (X := X)).
Proof. unfold mt_require_mutation, socks_state. keeps_tac. Qed.
#[local] Hint Resolve near_sql near_now near_select near_proxies near_actives : keeps.
Section Service.
Context (menv : mtproto_env).
Abbreviation xenv := (me_proxy menv) (only parsing).
Lemma still_adapter : keeps R (managed_adapter (X := X) menv).
Proof. unfold managed_adapter. keeps_tac. Qed.
#[local] Hint Resolve still_adapter : keeps.
Lemma still_apply `{HA : !Applies xenv R} secrets : keeps R (apply_desired (X := X) menv secrets).
Proof. unfold apply_desired. pose proof (applies_managed (xenv := xenv) (R := R)). keeps_tac. Qed.
Lemma still_all : keeps R (read_all_runtime_managed_secrets (X := X) menv).
Proof. unfold read_all_runtime_managed_secrets, read_current_managed_secrets, read_runtime_managed_secrets. keeps_tac. Qed.
#[local] Hint Resolve still_all : keeps.
Lemma still_desired env extra exclude : keeps R (desired_managed_secrets (X := X) env menv extra exclude).
Proof. unfold desired_managed_secrets. keeps_tac. Qed.
Lemma still_tries env n : forall taken, keeps R (try_secrets (X := X) env menv n taken).
Proof. induction n as [|n IH]; intros taken; cbn [try_secrets]; unfold find_by_secret_fingerprint; keeps_tac. Qed.
#[local] Hint Resolve still_tries : keeps.
Lemma still_unique env : keeps R (unique_managed_secret (X := X) env menv).
Proof. unfold unique_managed_secret. keeps_tac. Qed.
Lemma still_enabled : keeps R (mt_ensure_enabled (X := X) menv).
Proof. unfold mt_ensure_enabled. keeps_tac. Qed.
Lemma still_payload a : keeps R (current_payload (X := X) menv a).
Proof. unfold current_payload. keeps_tac. Qed.
End Service.
End Calm.
#[export] Hint Resolve calm_ask calm_degrade still_desired still_apply still_all still_unique still_enabled still_adapter still_payload still_ready still_document
  near_sql near_now near_select near_proxies near_audit near_audit_all near_user near_approved near_superadmin near_can_issue near_access near_actives near_mutation : keeps.

(** ** The MTProto service beside the SOCKS5 users *)

#[export] Instance unmoved_calm {X} `{HS : Part X socks_host} `{HM : Part X mt_host} `{!Apart X mt_host socks_host} : Calm (X := X) unmoved.
Proof.
  split; try by intros w.
  - apply _.
  - intros reason w. unfold mt_degrade, socks_state, bind, gets, set_host, modify. split; [done|]. unfold system_users. cbn. by rewrite part_get_set.
Qed.
#[export] Instance unmoved_applies {X} `{HS : Part X socks_host} `{HM : Part X mt_host} `{!Apart X mt_host socks_host} xenv : Applies (X := X) xenv unmoved.
Proof. apply any_host_applies; [apply _|]. intros h w. split; [done|]. unfold system_users, set_mt_host, modify. cbn. by rewrite apart_get. Qed.
#[export] Hint Extern 1 (Calm _) => typeclasses eauto : keeps.
#[export] Hint Extern 1 (Applies _ _) => typeclasses eauto : keeps.
#[export] Hint Extern 1 (keeps _ (lift _)) => (apply keeps_lift; typeclasses eauto) : keeps.

(** Rows of the other type cover no login. *)
#[export] Instance accounted_beside {X} `{HS : Part X socks_host} (senv : socks_env) (before : linux_users) :
  Beside (X := X) MTPROTO unmoved (accounted senv before).
Proof.
  split.
  - apply _.
  - by intros w w' [? _].
  - intros w w' Hb Hr. split; [done|]. unfold system_users. by rewrite Hr.
  - intros w w'. apply ok_unmoved.
  - by intros w [? _].
  - intros p f w w' Hb Hr Hf (Hi & Ha & Hus). assert (system_users w' = system_users w) as Hu by (unfold system_users; by rewrite Hr).
    split; [rewrite Hb; apply map_ids_ok; [|done]; intros a Hin Hp; by destruct (Hf a Hin Hp) as (_ & ? & _)|]. rewrite Hu. split; [|done].
    intros login u H1 H2 H3. destruct (Ha login u H1 H2 H3) as (id & a & Hin & Hid & Ht & Hrest). exists id, a. split; [|done].
    unfold proxy_rows. rewrite Hb. cbn. pose proof (map_rows_elem p f _ _ Hin) as Hm. destruct (p a) eqn:Hp; [|done]. destruct (Hf a Hin Hp). congruence.
  - intros row w w' Hb Hr Hrow (Hi & Ha & Hus). assert (system_users w' = system_users w) as Hu by (unfold system_users; by rewrite Hr).
    split; [rewrite Hb; apply append_ids_ok; [|done]; intros id; apply Hrow|]. rewrite Hu. split; [|done].
    intros login u H1 H2 H3. destruct (Ha login u H1 H2 H3) as (id & a & Hin & Hrest). exists id, a. split; [|done].
    unfold proxy_rows. rewrite Hb. cbn. apply elem_of_app. by left.
Qed.

Section MtOps.
Context {X : Type} `{HS : Part X socks_host} `{HM : Part X mt_host} `{!Apart X mt_host socks_host} (env : bot_env) (menv : mtproto_env).
Implicit Types w : bot_world X.
Abbreviation BM := (M (bot_world X) bot_error) (only parsing).
Abbreviation st := (me_settings menv) (only parsing).
Context (senv : socks_env) (before : linux_users).
Abbreviation ok := (accounted (X := X) senv before) (only parsing).
Abbreviation own := (theirs (X := X) MTPROTO ok) (only parsing).

Lemma still_shown ids a actor : px_id a ∈ ids -> steady (own ids) (mt_mark_shown (X := X) env a actor).
Proof. intros Hin. unfold mt_mark_shown. beside_tac. Qed.
Lemma hand_still ids a actor : px_id a ∈ ids -> steady (own ids) (hand_over (X := X) env menv a actor).
Proof.
  intros Hin. unfold hand_over. eapply triple_bind; [apply triple_payload|]. intros b. apply triple_fact. intros Hid.
  apply steady_bind; [apply still_shown; by rewrite Hid|]. intros u. beside_tac.
Qed.
Lemma found_still owner statuses : triple ok (find_user_access_by_type_statuses (X := X) env owner MTPROTO statuses)
  (fun o w => match o with Some a => own [px_id a] w | None => ok w end) ok.
Proof. eapply theirs_found. apply _. Qed.
Lemma calm_ok {A} (m : BM A) : keeps unmoved m -> steady ok m.
Proof. intros Hm. eapply calm_inv; [apply _|exact Hm]. Qed.
#[local] Hint Extern 2 (steady (accounted _ _) _) => apply calm_ok : beside.
Lemma own_then {A} ids (m : BM A) : steady (own ids) m -> triple (own ids) m (fun _ => ok) ok.
Proof. intros Hm. eapply triple_weaken; [exact Hm|done|intros r w [? _]; done|by intros w [? _]]. Qed.
Lemma existing_still actor owner m : steady ok m -> steady ok (mt_existing (X := X) env menv actor owner m).
Proof.
  intros Hm. unfold mt_existing. eapply triple_bind; [apply found_still|]. intros [a|]; [|exact Hm]. apply own_then, hand_still. by left.
Qed.
Lemma compensate_still ids actor id : id ∈ ids -> steady (own ids) (mt_compensate (X := X) env menv actor id).
Proof. intros Hin. unfold mt_compensate. beside_tac. Qed.
Lemma finish_still actor secret a : steady (own [px_id a]) (finish_managed (X := X) env menv actor secret a).
Proof.
  assert (px_id a ∈ [px_id a]) as Hin by (by left). pose proof (compensate_still _ actor _ Hin). unfold finish_managed, mt_apply_access, mt_activate.
  cbv zeta. apply steady_bind; [beside_tac|]. intros g. apply steady_bind; [beside_tac|]. intros u. apply steady_bind; [beside_tac|]. intros u'.
  eapply triple_bind; [eapply theirs_access; apply _|]. intros b. apply triple_fact. intros Hid. apply hand_still. by rewrite Hid.
Qed.
Lemma mt_still_issue actor p : steady ok (issue_mtproto_proxy (X := X) env menv actor p).
Proof.
  unfold issue_mtproto_proxy, issue_managed, issue_static, issue_managed_new.
  assert (forall m, steady ok m -> steady ok (mt_existing (X := X) env menv actor (pf_id p) m)) as Hex by (intros m; apply existing_still).
  apply steady_bind; [beside_tac|]. intros u. apply steady_bind; [beside_tac|]. intros u1. destruct (mp_managed _).
  - apply steady_bind; [beside_tac|]. intros u2. apply steady_bind; [beside_tac|]. intros u3. apply Hex. apply steady_bind; [beside_tac|]. intros u4. apply Hex.
    do 2 (apply steady_bind; [beside_tac|]; intros ?). apply steady_bind; [beside_tac|]. intros secret. apply steady_bind; [beside_tac|]. intros t0.
    eapply triple_bind; [eapply triple_attempt, theirs_create; apply _|]. intros [c|e]; cbn beta iota.
    + apply own_then, finish_still.
    + destruct e; try apply steady_raise. unfold refused_row. eapply triple_bind; [apply found_still|]. intros [b|]; [|apply steady_raise].
      case_match; [apply own_then, hand_still; by left|eapply triple_pre; [apply steady_raise|by intros w [? _]]].
  - apply steady_bind; [beside_tac|]. intros u2. apply Hex. apply steady_bind; [beside_tac|]. intros t0.
    eapply triple_bind; [eapply theirs_create; apply _|]. intros a. apply own_then. apply steady_bind; [beside_tac|]. intros u3.
    eapply triple_bind; [eapply theirs_access; apply _|]. intros b. apply triple_fact. intros Hid. apply hand_still. rewrite Hid. by left.
Qed.
Lemma still_show actor : steady ok (get_mtproto_proxy_config (X := X) env menv actor).
Proof.
  unfold get_mtproto_proxy_config. apply steady_bind; [beside_tac|]. intros u. eapply triple_bind; [apply found_still|].
  intros [a|]; [apply own_then, hand_still; by left|apply steady_raise].
Qed.
(** The row of an access that is to be revoked, when it is of the service's type. *)
Lemma still_revoke_row ids a actor reason : px_id a ∈ ids -> steady (own ids)
  (if proxy_in CLOSED_STATUSES a then current_payload (X := X) menv a
   else mt_require_mutation ;;! if is_managed a then revoke_managed env menv a actor reason else deactivate_static env menv a actor reason).
Proof.
  intros Hin. destruct (proxy_in _ a); [beside_tac|]. apply steady_bind; [beside_tac|]. intros u. destruct (is_managed a).
  - unfold revoke_managed. apply steady_bind; [beside_tac|]. intros u1. eapply triple_bind; [eapply theirs_access; apply _|]. intros b. apply triple_fact.
    intros Hid. rewrite <- Hid in Hin. unfold remove_secret. beside_tac.
  - unfold deactivate_static. beside_tac.
Qed.
(** What a revocation returns is the row of the id. *)
Lemma last_step {A B} (m : BM A) (k : A -> BM B) w r w' : bind m k w = (Ok r, w') -> exists a v, k a v = (Ok r, w').
Proof. intros [(a & w1 & _ & E)|(? & _ & ?)]%bind_inv; [by exists a, w1|done]. Qed.
Lemma payload_again id w r w' : (let! again := get_access (X := X) env id in current_payload menv again) w = (Ok r, w') -> px_id r = id.
Proof.
  intros [(a & w1 & [_ Ha]%get_access_run & E)|(? & _ & ?)]%bind_inv; [|done]. destruct (Ha _ eq_refl) as [_ <-].
  pose proof (triple_payload menv (fun _ => True) a w1 I) as H. rewrite E in H. apply H.
Qed.
Lemma revoke_row_id a actor reason w r w' : (if proxy_in CLOSED_STATUSES a then current_payload (X := X) menv a
   else mt_require_mutation ;;! if is_managed a then revoke_managed env menv a actor reason else deactivate_static env menv a actor reason) w = (Ok r, w') ->
  px_id r = px_id a.
Proof.
  assert (forall b v v', current_payload (X := X) menv b v = (Ok r, v') -> px_id r = px_id b) as Hp.
  { intros b v v' E. pose proof (triple_payload menv (fun _ => True) b v I) as H. rewrite E in H. apply H. }
  destruct (proxy_in _ a); [apply Hp|]. intros (u & v & E)%last_step. destruct (is_managed a).
  - unfold revoke_managed in E. apply last_step in E as (u1 & v1 & E). apply bind_inv in E as [(b & v2 & [_ Hb]%get_access_run & E)|(? & _ & ?)]; [|done].
    destruct (Hb _ eq_refl) as [_ <-]. destruct (proxy_in _ b); [by eapply Hp|]. do 9 (apply last_step in E as (? & ? & E)). by apply payload_again in E.
  - unfold deactivate_static in E. do 3 (apply last_step in E as (? & ? & E)). by apply payload_again in E.
Qed.
Lemma still_revoke actor id reason : triple ok (revoke_mtproto (X := X) env menv actor id reason) (fun r w => own [px_id r] w) ok.
Proof.
  intros w Hw. destruct (revoke_mtproto env menv actor id reason w) as [r w'] eqn:E. unfold revoke_mtproto in E.
  apply bind_inv in E as [(a & w1 & H1 & E)|(e & [Hu _]%get_access_run & ->)]; [|by eapply ok_unmoved].
  apply get_access_run in H1 as [Hu Ha]. destruct (Ha _ eq_refl) as [Hin _]. pose proof (ok_unmoved senv before _ _ Hu Hw) as Hw1.
  case_bool_decide as Ht; cbn [negb] in E; [|by injection E as <- <-].
  assert (own [px_id a] w1) as Hown by (eapply row_theirs; [apply _|exact Hw1| |exact Ht]; unfold proxy_rows in *; by rewrite (proj1 Hu)).
  pose proof (steady_run _ _ _ _ _ (still_revoke_row [px_id a] a actor reason ltac:(by left)) E Hown) as Hown'.
  destruct r as [r|e]; [|by destruct Hown']. by rewrite (revoke_row_id _ _ _ _ _ _ E).
Qed.
Lemma still_delete actor id reason : steady ok (delete_mtproto_proxy (X := X) env menv actor id reason).
Proof.
  unfold delete_mtproto_proxy, revoke_mtproto_proxy. apply steady_bind; [beside_tac|]. intros u.
  eapply triple_bind; [eapply triple_bind; [apply calm_ok; apply unmoved_superadmin|intros v; apply still_revoke]|]. intros a. apply own_then.
  assert (px_id a ∈ [px_id a]) by (by left). beside_tac.
Qed.
Lemma still_revoke_any actor id reason : steady ok (revoke_mtproto (X := X) env menv actor id reason).
Proof. eapply triple_weaken; [apply still_revoke|done|by intros r w [? _]|done]. Qed.

(** The pass at start-up. *)
Lemma batches_still fuel statuses : forall ids last, triple (own ids) (accesses_from (X := X) env fuel statuses last) (fun l w => own (ids ++ map px_id l) w) (own ids).
Proof.
  induction fuel as [|fuel IH]; intros ids last; cbn [accesses_from]; [by apply triple_raise|].
  eapply triple_bind; [eapply triple_weaken; [eapply theirs_list; apply _|done|intros l w H; exact H|done]|]. intros [|a l].
  - apply triple_ret. intros w Hw. exact Hw.
  - eapply triple_bind; [eapply triple_weaken; [apply IH|done|intros l' w H; exact H|]|].
    + intros w [Hw Hi]. split; [done|]. intros b Hb Hin. apply Hi; [done|]. apply elem_of_app. by left.
    + intros rest. apply triple_ret. intros w Hw. by rewrite map_app, app_assoc.
Qed.
Lemma managed_still statuses : triple ok (managed_accesses_by_statuses (X := X) env statuses) (fun l w => own (map px_id l) w) ok.
Proof.
  unfold managed_accesses_by_statuses, bind, gets. intros w Hw. pose proof (batches_still (S (length (sr_rows (bt_proxies (bw_tables w))))) statuses [] 0 w) as H.
  specialize (H (theirs_none _ _ _ Hw)). destruct (accesses_from _ _ _ _ w) as [[l|e] w']; [exact H|by destruct H].
Qed.
Lemma compensate_start_still ids a : px_id a ∈ ids -> steady (own ids) (compensate_startup (X := X) env menv a).
Proof. intros Hin. unfold compensate_startup. beside_tac. Qed.
Lemma start_access_still ids a store : px_id a ∈ ids -> steady (own ids) (startup_access (X := X) env menv a store).
Proof.
  intros Hin. pose proof (compensate_start_still _ _ Hin). unfold startup_access, startup_pending_apply, startup_removal. beside_tac.
Qed.
Lemma counting_still {A} P s (m : BM A) k : steady P m -> (forall a, steady P (k a)) -> steady P (counting s m k).
Proof. intros Hm Hk. unfold counting. apply steady_bind; [by apply steady_attempt|]. intros [a|e]; [apply Hk|apply steady_ret]. Qed.
Lemma start_accesses_still ids pending : forall store s k, (forall a, a ∈ pending -> px_id a ∈ ids) -> (forall store s, steady (own ids) (k store s)) ->
  steady (own ids) (startup_accesses (X := X) env menv pending store s k).
Proof.
  induction pending as [|a rest IH]; intros store s k Hin Hk; [apply Hk|]. cbn [startup_accesses].
  assert (forall store s, steady (own ids) (startup_accesses env menv rest store s k)) as Hrest by (intros; apply IH; [intros b Hb; apply Hin; by right|exact Hk]).
  apply counting_still; [apply start_access_still, Hin; by left|]. intros [|]; [|apply Hrest]. apply counting_still; [beside_tac|]. intros store'. apply Hrest.
Qed.
Lemma drift_still ids store s : steady (own ids) (repair_drift (X := X) env menv store s).
Proof.
  unfold repair_drift. apply counting_still; [beside_tac|]. intros l. apply counting_still; [beside_tac|]. intros d. cbv zeta.
  case_match; [apply steady_ret|]. apply counting_still; [beside_tac|]. intros g. apply counting_still; [beside_tac|]. intros u. apply steady_ret.
Qed.
Lemma still_startup : steady ok (reconcile_mtproto_state (X := X) env menv).
Proof.
  unfold reconcile_mtproto_state. case_match; [apply steady_ret|]. apply steady_bind; [|beside_tac].
  unfold startup_body. apply counting_still; [beside_tac|]. intros u. apply counting_still; [beside_tac|]. intros store.
  unfold counting. eapply triple_bind; [eapply triple_attempt, managed_still|]. intros [l|e]; cbn beta iota; [|apply steady_ret].
  apply own_then, start_accesses_still; [|intros; apply drift_still].
  intros a Ha. apply list_elem_of_In, filter_In in Ha as [Ha _]. apply list_elem_of_fmap_2. by apply list_elem_of_In.
Qed.
End MtOps.

(** ** The SOCKS5 service beside the MTProto secrets *)

#[export] Instance secrets_beside {X} `{HS : Part X socks_host} `{HM : Part X mt_host} (st : mtproto_settings) :
  Beside (X := X) SOCKS5 quiet (mt_accounted st).
Proof.
  split.
  - apply _.
  - by intros w w' [? _].
  - intros w w' Hb Hr. split; [done|]. unfold files. by rewrite Hr.
  - intros w w' [Hb Hf] Hw. unfold mt_accounted, proxy_rows, served in *. by rewrite Hb, Hf.
  - by intros w [? _].
  - intros p f w w' Hb Hr Hf (Hi & Hs). assert (served w' = served w) as Hu by (unfold served, files; by rewrite Hr).
    split; [rewrite Hb; apply map_ids_ok; [|done]; intros a Hin Hp; by destruct (Hf a Hin Hp) as (_ & ? & _)|]. rewrite Hu.
    intros s (id & a & Hin & Hid & Ht & Hrest)%Hs. exists id, a. split; [|done].
    unfold proxy_rows. rewrite Hb. cbn. pose proof (map_rows_elem p f _ _ Hin) as Hm. destruct (p a) eqn:Hp; [|done]. destruct (Hf a Hin Hp). congruence.
  - intros row w w' Hb Hr Hrow (Hi & Hs). assert (served w' = served w) as Hu by (unfold served, files; by rewrite Hr).
    split; [rewrite Hb; apply append_ids_ok; [|done]; intros id; apply Hrow|]. rewrite Hu.
    intros s (id & a & Hin & Hrest)%Hs. exists id, a. split; [|done]. unfold proxy_rows. rewrite Hb. cbn. apply elem_of_app. by left.
Qed.

Section SocksOps.
Context {X : Type} `{HS : Part X socks_host} `{HM : Part X mt_host} `{!Apart X socks_host mt_host} (env : bot_env) (senv : socks_env).
Implicit Types w : bot_world X.
Abbreviation BM := (M (bot_world X) bot_error) (only parsing).
Context (st : mtproto_settings).
Abbreviation ok := (mt_accounted (X := X) st) (only parsing).
Abbreviation own := (theirs (X := X) SOCKS5 ok) (only parsing).

Lemma quiet_host h : keeps quiet (set_host (X := X) h).
Proof. intros w. split; [done|]. unfold files, set_host, modify. cbn. by rewrite apart_get. Qed.
Lemma quiet_state : keeps quiet (socks_state (X := X)).
Proof. by intros w. Qed.
#[local] Hint Resolve quiet_host quiet_state : keeps.
Lemma quiet_dante c : keeps quiet (dante_run (X := X) senv c).
Proof. unfold dante_run. keeps_tac. Qed.
#[local] Hint Resolve quiet_dante : keeps.
Lemma quiet_exists login : keeps quiet (user_exists (X := X) senv login).
Proof. unfold user_exists, ensure_managed_login. keeps_tac. Qed.
#[local] Hint Resolve quiet_exists : keeps.
Lemma quiet_create login password : keeps quiet (create_user (X := X) senv login password).
Proof. unfold create_user, ensure_managed_login, ensure_safe_password, must_run. keeps_tac. Qed.
Lemma quiet_lock login : keeps quiet (lock_user (X := X) senv login).
Proof. unfold lock_user, ensure_managed_login, must_run. keeps_tac. Qed.
Lemma quiet_delete login : keeps quiet (delete_user (X := X) senv login).
Proof. unfold delete_user, ensure_managed_login, must_run. keeps_tac. Qed.
Lemma quiet_socks_mutation : keeps quiet (require_mutation (X := X)).
Proof. unfold require_mutation. keeps_tac. Qed.
Lemma quiet_socks_degrade reason : keeps quiet (degrade (X := X) reason).
Proof. unfold degrade. keeps_tac. Qed.
Lemma quiet_socks_audit a b id : keeps quiet (socks_audit (X := X) env a b id).
Proof. apply quiet_audit. Qed.
Lemma quiet_socks_enabled : keeps quiet (ensure_enabled (X := X) senv).
Proof. unfold ensure_enabled. keeps_tac. Qed.
Lemma quiet_port : keeps quiet (port_of (X := X) senv).
Proof. unfold port_of. keeps_tac. Qed.
Lemma quiet_logins n stem bytes : keeps quiet (try_logins (X := X) env senv n stem bytes).
Proof. induction n as [|n IH]; cbn [try_logins]; unfold find_by_socks5_login; keeps_tac. Qed.
Lemma quiet_login owner : keeps quiet (unique_login (X := X) env senv owner).
Proof. unfold unique_login. pose proof quiet_logins. keeps_tac. Qed.
#[local] Hint Resolve quiet_create quiet_lock quiet_delete quiet_socks_mutation quiet_socks_degrade quiet_socks_audit quiet_socks_enabled quiet_port quiet_login : keeps.
Lemma quiet_ignore e : keeps quiet (ignore_not_found (X := X) e).
Proof. unfold ignore_not_found. keeps_tac. Qed.
Lemma quiet_with login (m : str -> BM unit) : (forall l, keeps quiet (m l)) -> keeps quiet (with_login login m).
Proof. intros Hm. unfold with_login. keeps_tac. Qed.
#[local] Hint Resolve quiet_ignore quiet_with : keeps.
Lemma calm_secrets {A} (m : BM A) : keeps quiet m -> steady ok m.
Proof. intros Hm. eapply calm_inv; [apply _|exact Hm]. Qed.
#[local] Hint Extern 2 (steady (mt_accounted _) _) => apply calm_secrets : beside.
Lemma own_secrets {A} ids (m : BM A) : steady (own ids) m -> triple (own ids) m (fun _ => ok) ok.
Proof. intros Hm. eapply triple_weaken; [exact Hm|done|intros r w [? _]; done|by intros w [? _]]. Qed.
Lemma access_shown_beside ids a actor : px_id a ∈ ids -> steady (own ids) (mark_access_shown (X := X) env a actor).
Proof. intros Hin. unfold mark_access_shown. beside_tac. Qed.
Lemma found_beside owner : triple ok (active_access (X := X) env owner) (fun o w => match o with Some a => own [px_id a] w | None => ok w end) ok.
Proof. eapply theirs_found. apply _. Qed.
Lemma show_existing a actor : steady (own [px_id a]) (mark_access_shown (X := X) env a actor ;;! get_access env (px_id a)).
Proof. apply steady_bind; [apply access_shown_beside; by left|]. intros u. beside_tac. Qed.
Lemma new_beside actor p : steady ok (issue_new (X := X) env senv actor p).
Proof.
  unfold issue_new. do 5 (apply steady_bind; [beside_tac|]; intros ?). cbv zeta. apply steady_bind; [beside_tac|]. intros t0.
  eapply triple_bind; [eapply theirs_create; apply _|]. intros c. apply own_secrets. assert (px_id c ∈ [px_id c]) as Hin by (by left).
  unfold apply_access, activate_access, compensate. cbv zeta. do 3 (apply steady_bind; [beside_tac|]; intros ?).
  eapply triple_bind; [eapply theirs_access; apply _|]. intros b. apply triple_fact. intros Hid.
  apply steady_bind; [apply access_shown_beside; by rewrite Hid|]. intros u. beside_tac.
Qed.
Lemma socks_issue_beside actor p : steady ok (issue_socks5_proxy (X := X) env senv actor p).
Proof.
  unfold issue_socks5_proxy. do 3 (apply steady_bind; [beside_tac|]; intros ?). eapply triple_bind; [apply found_beside|].
  intros [c|]; [apply own_secrets, show_existing|apply new_beside].
Qed.
Lemma socks_show_beside actor : steady ok (get_socks5_proxy_config (X := X) env actor).
Proof.
  unfold get_socks5_proxy_config. apply steady_bind; [beside_tac|]. intros u. eapply triple_bind; [apply found_beside|].
  intros [a|]; [apply own_secrets, show_existing|apply steady_raise].
Qed.
(** After [require_socks], the row of the id is the service's. *)
Lemma required_beside id : triple ok (require_socks (X := X) env id) (fun _ => own [id]) ok.
Proof.
  intros w Hw. destruct (require_socks env id w) as [r w'] eqn:E. assert (keeps quiet (require_socks (X := X) env id)) as Hk by (unfold require_socks; keeps_tac).
  pose proof (keeps_run _ _ _ _ _ Hk E) as Hq. pose proof (beside_inv (t := SOCKS5) _ _ Hq Hw) as Hw'. destruct r as [[]|e]; [|done].
  apply require_socks_run in E as [_ Ha]. destruct (Ha eq_refl) as (a & Hin & <- & Ht). eapply row_theirs; [apply _|exact Hw'| |exact Ht].
  unfold proxy_rows. by rewrite (proj1 Hq).
Qed.
Lemma socks_revoke_beside actor id reason : steady ok (revoke_socks5 (X := X) env senv actor id reason).
Proof.
  unfold revoke_socks5. eapply triple_bind; [apply required_beside|]. intros u. apply own_secrets. assert (id ∈ [id]) by (by left). beside_tac.
Qed.
Lemma socks_delete_beside actor id reason : steady ok (delete_socks5_proxy (X := X) env senv actor id reason).
Proof.
  unfold delete_socks5_proxy. apply steady_bind; [beside_tac|]. intros u0. eapply triple_bind; [apply required_beside|]. intros u. apply own_secrets.
  assert (id ∈ [id]) by (by left). beside_tac.
Qed.
Lemma socks_list_beside actor : steady ok (list_user_proxy_accesses (X := X) env actor).
Proof. unfold list_user_proxy_accesses, list_by_owner. beside_tac. Qed.
Lemma socks_access_beside ids a : px_id a ∈ ids -> steady (own ids) (startup_reconcile_access (X := X) env senv a).
Proof. intros Hin. unfold startup_reconcile_access, recover_apply, finish_revoke, finish_delete. beside_tac. Qed.
Lemma batch_beside ids batch : forall s, (forall a, a ∈ batch -> px_id a ∈ ids) -> steady (own ids) (reconcile_accesses (X := X) env senv batch s).
Proof.
  induction batch as [|a rest IH]; intros s Hin; [apply steady_ret|]. cbn [reconcile_accesses].
  apply steady_bind; [apply steady_attempt, socks_access_beside, Hin; by left|]. intros o. apply IH. intros b Hb. apply Hin. by right.
Qed.
Lemma pass_beside fuel : forall last s, steady ok (reconcile_from (X := X) env senv fuel last s).
Proof.
  induction fuel as [|fuel IH]; intros last s; cbn [reconcile_from]; [apply steady_raise|].
  eapply triple_bind; [eapply triple_weaken; [eapply theirs_list with (ids := []); apply _|intros w; apply theirs_none|intros l w H; exact H|by intros w [? _]]|].
  intros [|a l]; [apply triple_ret; by intros w [? _]|].
  eapply triple_bind; [apply own_secrets, batch_beside; intros b Hb; by apply list_elem_of_fmap_2|]. intros s'. apply IH.
Qed.
Lemma socks_startup_beside : steady ok (reconcile_socks5_state (X := X) env senv).
Proof. intros w Hw. unfold reconcile_socks5_state, bind, gets. by apply pass_beside. Qed.
End SocksOps.
