(* ===== verification/MtProtoProcess.v ===== *)
(** * The services and the proxy that runs

    Whatever the two services do, a proxy that runs with what the document says, or is
    down, goes on so, where no failure leaves the two apart. *)

From S2P Require Import Prelude PyText Json Triples AwgConfig VpnKeys BackendHealth AwgService BotDb Accounts AccountSafety BlockSafety RequestSafety DanteUsers ProxyRows Socks5 ProxySafety MtProxy MtProto MtProxySafety MtProxyProcess MtProtoSafety MtProtoAccess ProxyServices.
#[local] Open Scope Z_scope.

(** A relation that the rows have no part in, nor the state of the SOCKS5 server. *)
Class Rides {X} `{HS : Part X socks_host} (R : bot_world X -> bot_world X -> Prop) : Prop := {
  rides_pre :: PreOrder R;
  rides_rest w w' : same_rest w w' -> R w w';
  rides_host h : keeps R (set_host (X := X) h) }.
(** As [keeps_tac], with the sequences taken apart first. *)
Ltac ride_tac := repeat (lazymatch goal with |- keeps _ (bind _ _) => apply keeps_bind | |- _ => solve [eauto 3 with keeps nocore] || keeps_step end).

Section Rides.
Context {X : Type} `{HS : Part X socks_host} `{HM : Part X mt_host} (R : bot_world X -> bot_world X -> Prop) `{HR : !Rides R}.
Abbreviation BM := (M (bot_world X) bot_error) (only parsing).
Lemma rides {A} (m : BM A) : keeps same_rest m -> keeps R m.
Proof. intros Hm w. apply rides_rest, Hm. Qed.
#[export] Instance rides_calm : Calm (X := X) R.
Proof.
  split.
  - apply _.
  - intros A f. apply rides. by intros w.
  - intros f. apply rides. by intros w.
  - intros reason. unfold mt_degrade. apply keeps_bind; [apply _|by apply rides|]. intros h. apply rides_host.
Qed.

(** ** The rows *)

Section Rows.
Context (env : bot_env).
Lemma ride_update p f : keeps R (update_proxies (X := X) env p f).
Proof. apply rides, rest_update. Qed.
#[local] Hint Resolve ride_update : keeps.
Lemma ride_status id s t0 e rs from : keeps R (ProxyRows.set_status (X := X) env id s t0 e rs from).
Proof. unfold ProxyRows.set_status. ride_tac. Qed.
Lemma ride_shown id t0 : keeps R (ProxyRows.mark_shown (X := X) env id t0).
Proof. unfold ProxyRows.mark_shown. ride_tac. Qed.
Lemma ride_transition id excluded f : keeps R (transition (X := X) env id excluded f).
Proof. unfold transition. ride_tac. Qed.
Lemma ride_active id t0 pl ppl g : keeps R (ProxyRows.mark_active (X := X) env id t0 pl ppl g).
Proof.
  apply rides. unfold ProxyRows.mark_active, transaction, ProxyRows.get_by_id, select_proxies.
  apply keeps_bind; [apply _|intros v; unfold sql, bind, ask; by destruct (be_db env (bw_tick v))|]. intros [] w.
  set (m := bind _ _). assert (keeps same_rest m) as Hm.
  { pose proof (rest_update (X := X) env). pose proof (fun A h => rest_select (X := X) env (A := A) h). subst m. ride_tac. }
  specialize (Hm w). by destruct (m w) as [[|] ?].
Qed.
Lemma ride_create owner username t s pl ppl by_ t0 fp g : keeps R (ProxyRows.create (X := X) env owner username t s pl ppl by_ t0 fp g).
Proof.
  apply rides. unfold ProxyRows.create, ProxyRows.get_by_id, select_proxies. pose proof (rest_store (X := X)). pose proof (fun A h => rest_select (X := X) env (A := A) h).
  assert (keeps same_rest (sql (X := X) env)) by (intros v; unfold sql, bind, ask; by destruct (be_db env (bw_tick v))).
  assert (keeps same_rest (get (S := bot_world X) (E := bot_error))) by done. ride_tac.
Qed.
End Rows.
#[local] Hint Resolve ride_status ride_shown ride_transition ride_active ride_create : keeps.

(** ** The MTProto service *)

Section MtOps.
Context (env : bot_env) (menv : mtproto_env) `{HA : !Applies (me_proxy menv) R}.
Lemma ride_mt_shown a actor : keeps R (mt_mark_shown (X := X) env a actor).
Proof. unfold mt_mark_shown. ride_tac. Qed.
#[local] Hint Resolve ride_mt_shown : keeps.
Lemma ride_hand_over a actor : keeps R (hand_over (X := X) env menv a actor).
Proof. unfold hand_over. ride_tac. Qed.
#[local] Hint Resolve ride_hand_over : keeps.
Lemma ride_found owner t statuses : keeps R (find_user_access_by_type_statuses (X := X) env owner t statuses).
Proof. unfold find_user_access_by_type_statuses. ride_tac. Qed.
#[local] Hint Resolve ride_found : keeps.
Lemma ride_existing actor owner m : keeps R m -> keeps R (mt_existing (X := X) env menv actor owner m).
Proof. intros Hm. unfold mt_existing, mt_active_access. ride_tac. Qed.
Lemma ride_compensate actor id : keeps R (mt_compensate (X := X) env menv actor id).
Proof. unfold mt_compensate. ride_tac. Qed.
#[local] Hint Resolve ride_compensate : keeps.
Lemma ride_finish actor secret a : keeps R (finish_managed (X := X) env menv actor secret a).
Proof. unfold finish_managed, mt_apply_access, mt_activate. ride_tac. Qed.
#[local] Hint Resolve ride_finish : keeps.
Lemma ride_mt_issue actor p : keeps R (issue_mtproto_proxy (X := X) env menv actor p).
Proof.
  pose proof (fun m => ride_existing actor (pf_id p) m) as He. unfold issue_mtproto_proxy, issue_managed, issue_static.
  assert (keeps R (issue_managed_new (X := X) env menv actor p)) by (unfold issue_managed_new, refused_row, mt_live_access; ride_tac).
  ride_tac; repeat (apply He; ride_tac).
Qed.
Lemma ride_show actor : keeps R (get_mtproto_proxy_config (X := X) env menv actor).
Proof. unfold get_mtproto_proxy_config, mt_active_access. ride_tac. Qed.
Lemma ride_list actor : keeps R (list_user_mtproto_accesses (X := X) env actor).
Proof. unfold list_user_mtproto_accesses, list_by_owner. ride_tac. Qed.
Lemma ride_count : keeps R (runtime_secret_count (X := X) menv).
Proof. unfold runtime_secret_count, read_current_managed_secrets, mt_lift, mt_raise. ride_tac. Qed.
Lemma ride_remove actor reason a : keeps R (remove_secret (X := X) env menv actor reason a).
Proof. unfold remove_secret. ride_tac. Qed.
Lemma ride_static a actor reason : keeps R (deactivate_static (X := X) env menv a actor reason).
Proof. unfold deactivate_static, mark_inactive. ride_tac. Qed.
#[local] Hint Resolve ride_remove ride_static : keeps.
Lemma ride_managed a actor reason : keeps R (revoke_managed (X := X) env menv a actor reason).
Proof. unfold revoke_managed, mark_revoked. ride_tac. Qed.
#[local] Hint Resolve ride_managed : keeps.
Lemma ride_revoke actor id reason : keeps R (revoke_mtproto (X := X) env menv actor id reason).
Proof. unfold revoke_mtproto. ride_tac. Qed.
#[local] Hint Resolve ride_revoke : keeps.
Lemma ride_delete actor id reason : keeps R (delete_mtproto_proxy (X := X) env menv actor id reason).
Proof. unfold delete_mtproto_proxy, revoke_mtproto_proxy, mark_deleted. ride_tac. Qed.
Lemma ride_compensate_start a : keeps R (compensate_startup (X := X) env menv a).
Proof. unfold compensate_startup. ride_tac. Qed.
#[local] Hint Resolve ride_compensate_start : keeps.
Lemma ride_pending a store : keeps R (startup_pending_apply (X := X) env menv a store).
Proof. unfold startup_pending_apply. ride_tac. Qed.
Lemma ride_removal a delete : keeps R (startup_removal (X := X) env menv a delete).
Proof. unfold startup_removal, mark_deleted, mark_revoked. ride_tac. Qed.
#[local] Hint Resolve ride_pending ride_removal : keeps.
Lemma ride_start_access a store : keeps R (startup_access (X := X) env menv a store).
Proof. unfold startup_access. ride_tac. Qed.
#[local] Hint Resolve ride_start_access : keeps.
Lemma ride_counting {A} s (m : BM A) k : keeps R m -> (forall a, keeps R (k a)) -> keeps R (counting s m k).
Proof. intros Hm Hk. unfold counting. ride_tac. Qed.
Lemma ride_drift store s : keeps R (repair_drift (X := X) env menv store s).
Proof. unfold repair_drift, counting. ride_tac. Qed.
Lemma ride_accesses pending : forall store s k, (forall store s, keeps R (k store s)) -> keeps R (startup_accesses (X := X) env menv pending store s k).
Proof.
  induction pending as [|a rest IH]; intros store s k Hk; [apply Hk|]. cbn [startup_accesses].
  apply ride_counting; [ride_tac|]. intros [|]; [|by apply IH]. apply ride_counting; [ride_tac|]. intros store'. by apply IH.
Qed.
Lemma ride_startup : keeps R (reconcile_mtproto_state (X := X) env menv).
Proof.
  assert (keeps R (startup_body (X := X) env menv)) as Hb.
  { unfold startup_body. repeat (apply ride_counting; [|intros ?]); [ride_tac..| |]; [unfold managed_accesses_by_statuses; pose proof (near_batches R env); ride_tac|].
    apply ride_accesses. intros. apply ride_drift. }
  unfold reconcile_mtproto_state. ride_tac.
Qed.
End MtOps.

(** ** The SOCKS5 service *)

Section SocksOps.
Context (env : bot_env) (senv : socks_env).
Lemma ride_dante c : keeps R (dante_run (X := X) senv c).
Proof. pose proof (rides_host (R := R)). unfold dante_run, socks_state. ride_tac. Qed.
#[local] Hint Resolve ride_dante : keeps.
Lemma ride_exists login : keeps R (user_exists (X := X) senv login).
Proof. unfold user_exists, ensure_managed_login. ride_tac. Qed.
#[local] Hint Resolve ride_exists : keeps.
Lemma ride_create_user login password : keeps R (create_user (X := X) senv login password).
Proof. unfold create_user, ensure_managed_login, ensure_safe_password, must_run. ride_tac. Qed.
Lemma ride_lock login : keeps R (lock_user (X := X) senv login).
Proof. unfold lock_user, ensure_managed_login, must_run. ride_tac. Qed.
Lemma ride_delete_user login : keeps R (delete_user (X := X) senv login).
Proof. unfold delete_user, ensure_managed_login, must_run. ride_tac. Qed.
Lemma ride_mutation : keeps R (require_mutation (X := X)).
Proof. unfold require_mutation, socks_state. ride_tac. Qed.
Lemma ride_degrade reason : keeps R (degrade (X := X) reason).
Proof. pose proof (rides_host (R := R)). unfold degrade, socks_state. ride_tac. Qed.
Lemma ride_audit a b id : keeps R (socks_audit (X := X) env a b id).
Proof. exact (near_audit R env a b id). Qed.
#[local] Hint Resolve ride_exists ride_create_user ride_lock ride_delete_user ride_mutation ride_degrade ride_audit ride_found : keeps.
Lemma ride_socks_shown a actor : keeps R (mark_access_shown (X := X) env a actor).
Proof. unfold mark_access_shown. ride_tac. Qed.
#[local] Hint Resolve ride_socks_shown : keeps.
Lemma ride_with login (m : str -> BM unit) : (forall l, keeps R (m l)) -> keeps R (with_login login m).
Proof. intros Hm. unfold with_login. ride_tac. Qed.
Lemma ride_ignore e : keeps R (ignore_not_found (X := X) e).
Proof. unfold ignore_not_found. ride_tac. Qed.
#[local] Hint Resolve ride_with ride_ignore : keeps.
Lemma ride_logins n stem bytes : keeps R (try_logins (X := X) env senv n stem bytes).
Proof. induction n as [|n IH]; cbn [try_logins]; unfold find_by_socks5_login; ride_tac. Qed.
#[local] Hint Resolve ride_logins : keeps.
Lemma ride_socks_compensate actor id login : keeps R (Socks5.compensate (X := X) env senv actor id login).
Proof. unfold Socks5.compensate. ride_tac. Qed.
#[local] Hint Resolve ride_socks_compensate : keeps.
Lemma ride_socks_new actor p : keeps R (issue_new (X := X) env senv actor p).
Proof. unfold issue_new, unique_login, port_of, apply_access, activate_access. ride_tac. Qed.
#[local] Hint Resolve ride_socks_new : keeps.
Lemma ride_socks_issue actor p : keeps R (issue_socks5_proxy (X := X) env senv actor p).
Proof. unfold issue_socks5_proxy, ensure_enabled, active_access. ride_tac. Qed.
Lemma ride_socks_show actor : keeps R (get_socks5_proxy_config (X := X) env actor).
Proof. unfold get_socks5_proxy_config, active_access. ride_tac. Qed.
Lemma ride_socks_list actor : keeps R (list_user_proxy_accesses (X := X) env actor).
Proof. unfold list_user_proxy_accesses, list_by_owner. ride_tac. Qed.
Lemma ride_socks_revoke actor id reason : keeps R (revoke_socks5 (X := X) env senv actor id reason).
Proof. unfold revoke_socks5, require_socks, mark_revoked. ride_tac. Qed.
Lemma ride_socks_delete actor id reason : keeps R (delete_socks5_proxy (X := X) env senv actor id reason).
Proof. unfold delete_socks5_proxy, require_socks, mark_deleted. ride_tac. Qed.
Lemma ride_reconcile a : keeps R (startup_reconcile_access (X := X) env senv a).
Proof. unfold startup_reconcile_access, recover_apply, finish_revoke, finish_delete, mark_deleted, mark_revoked. ride_tac. Qed.
#[local] Hint Resolve ride_reconcile : keeps.
Lemma ride_reconciles batch : forall s, keeps R (reconcile_accesses (X := X) env senv batch s).
Proof. induction batch as [|a rest IH]; intros s; cbn [reconcile_accesses]; ride_tac. Qed.
Lemma ride_from fuel : forall last_id s, keeps R (reconcile_from (X := X) env senv fuel last_id s).
Proof.
  pose proof ride_reconciles. induction fuel as [|fuel IH]; intros last_id s; cbn [reconcile_from]; unfold list_by_type_statuses; ride_tac.
Qed.
Lemma ride_socks_startup : keeps R (reconcile_socks5_state (X := X) env senv).
Proof. pose proof ride_from. unfold reconcile_socks5_state. ride_tac. Qed.
End SocksOps.
End Rides.

(** ** A fresh proxy stays fresh *)

Definition stays_fresh {X} `{HM : Part X mt_host} (w w' : bot_world X) : Prop := fresh w -> fresh w'.
#[export] Instance stays_fresh_pre {X} `{HM : Part X mt_host} : PreOrder (stays_fresh (X := X)).
Proof. split; unfold stays_fresh; [by intros w Hw|by intros a b c H1 H2 Ha%H1%H2]. Qed.
#[export] Instance stays_fresh_rides {X} `{HS : Part X socks_host} `{HM : Part X mt_host} `{!Apart X socks_host mt_host} : Rides (X := X) stays_fresh.
Proof.
  split.
  - apply _.
  - unfold stays_fresh, fresh, same_rest. by intros w w' ->.
  - intros h w. unfold stays_fresh, fresh, set_host, modify. cbn. by rewrite apart_get.
Qed.
(** Where no failure leaves an old proxy beside a new document. *)
#[export] Instance recovers_applies {X} `{HM : Part X mt_host} xenv `{!MtRecovers xenv} : Applies (X := X) xenv stays_fresh.
Proof. intros secrets w Hw. exact (steady_run _ _ _ _ _ (apply_fresh xenv secrets) (surjective_pairing _) Hw). Qed.
#[export] Instance same_host_rides {X} `{HS : Part X socks_host} `{HM : Part X mt_host} `{!Apart X socks_host mt_host} : Rides (X := X) same_host.
Proof.
  split.
  - apply _.
  - unfold same_host, same_rest. by intros w w' ->.
  - intros h w. unfold same_host, set_host, modify. cbn. by rewrite apart_get.
Qed.

(** What a fresh proxy runs with has rows that speak for it, but for the secret of the empty
    set. *)
Definition running_covered {X} `{HM : Part X mt_host} (st : mtproto_settings) (w : bot_world X) : Prop :=
  forall x, x ∈ running w -> stands_in w x \/ exists s id, ms_secret s = x /\ mt_covers st (proxy_rows w) id (ms_fingerprint s).
Lemma fresh_covered {X} `{HM : Part X mt_host} st (w : bot_world X) : fresh w -> mt_accounted st w -> running_covered st w.
Proof. intros Hf [_ Hs] x [(s & (id & Hc)%Hs & Hx)|H]%(fresh_running w x Hf); [right; by exists s, id|by left]. Qed.

(** ** A method that returns leaves a fresh proxy *)

Section Returns.
Context {X : Type} `{HS : Part X socks_host} `{HM : Part X mt_host} `{!Apart X socks_host mt_host} (env : bot_env) (menv : mtproto_env).
Context `{!MtHelper (me_proxy menv)} `{!MtService (me_proxy menv)}.
Abbreviation BM := (M (bot_world X) bot_error) (only parsing).
Definition returns_fresh {A} (m : BM A) : Prop := triple fresh m (fun _ => fresh) (fun _ => True).
Lemma returns_bind {A B} (m : BM A) (k : A -> BM B) : returns_fresh m -> (forall a, returns_fresh (k a)) -> returns_fresh (bind m k).
Proof. intros Hm Hk. eapply triple_bind; [exact Hm|exact Hk]. Qed.
Lemma returns_still {A} (m : BM A) : keeps same_host m -> returns_fresh m.
Proof. intros Hm. apply host_triple; [exact Hm|apply same_host_fresh|done]. Qed.
Lemma returns_apply secrets : returns_fresh (apply_desired (X := X) menv secrets).
Proof.
  unfold apply_desired. apply returns_bind; [apply returns_still; unfold managed_adapter; keeps_tac|]. intros u. by apply applied_fresh.
Qed.
(** What is done about a failure never returns. *)
Lemma returns_catch {A} (m : BM A) h : returns_fresh m -> (forall e, triple (fun _ => True) (h e) (fun _ _ => False) (fun _ => True)) ->
  returns_fresh (catch m h).
Proof.
  intros Hm Hh. eapply triple_catch; [exact Hm|]. intros e. eapply triple_weaken; [apply Hh|done|done|done].
Qed.
#[local] Hint Extern 1 (Rides _) => typeclasses eauto : keeps.
#[local] Hint Resolve ride_status ride_transition : keeps.
Lemma failed_revoke_raises actor reason a e : triple (fun _ => True)
  (let error := me_text menv e (access_secret_optional (me_settings menv) a) in
   let! t := now env in
   ProxyRows.set_status env (px_id a) ProxyRevokeFailed t (Some error.1) reason [] ;;!
   mt_audit env (Some actor) (py "mtproto_proxy_revoke_failed") (px_id a) ;;!
   if error.2 : bool then raise (Refused MtRevokeRedacted) else raise e) (fun (_ : Z) (_ : bot_world X) => False) (fun _ => True).
Proof.
  intros w _. destruct (bind (now env) _ w) as [[g|e'] w'] eqn:E; [|done]. cbv zeta in E.
  do 3 (apply bind_inv in E as [(? & ? & _ & E)|(? & _ & ?)]; [|done]). by destruct (me_text menv e _) as [? []].
Qed.
Lemma returns_revoke actor id reason : returns_fresh (revoke_mtproto (X := X) env menv actor id reason).
Proof.
  assert (forall a, keeps same_host (deactivate_static (X := X) env menv a actor reason)) by (intros a; unfold deactivate_static, mark_inactive; ride_tac).
  assert (forall a, returns_fresh (remove_secret (X := X) env menv actor reason a)) as Hrm.
  { intros a. apply returns_catch; [|apply failed_revoke_raises]. apply returns_bind; [apply returns_still; ride_tac|]. intros l. apply returns_apply. }
  unfold revoke_mtproto. apply returns_bind; [apply returns_still; ride_tac|]. intros a. destruct (negb _); [apply returns_still; ride_tac|].
  destruct (proxy_in _ a); [apply returns_still; ride_tac|]. apply returns_bind; [apply returns_still; ride_tac|]. intros u.
  destruct (is_managed a); [|by apply returns_still]. unfold revoke_managed, mark_revoked.
  apply returns_bind; [apply returns_still; ride_tac|]. intros u1. apply returns_bind; [apply returns_still; ride_tac|]. intros b.
  destruct (proxy_in _ b); [apply returns_still; ride_tac|]. do 5 (apply returns_bind; [apply returns_still; ride_tac|]; intros ?).
  apply returns_bind; [apply Hrm|]. intros g. apply returns_still. ride_tac.
Qed.
End Returns.
