(* ===== verification/MtProtoStartup.v ===== *)
(** * The MTProto service at start-up

    The pass never raises, whatever fails; the secrets served keep rows that speak for
    them; and a pass that counts nothing fatal leaves the proxy serving the active rows. *)

From S2P Require Import Prelude PyText Sha256 Json IsoTime Triples AwgConfig VpnKeys BackendHealth AwgService KeyRows BotDb Accounts AccountSafety BlockSafety RequestSafety DanteUsers ProxyRows Socks5 ProxySafety ProxyStartup MtProxy MtProto MtProxySafety MtProxyProcess MtProtoSafety MtProtoAccess MtProtoProcess.
#[local] Open Scope Z_scope.

Section Startup.
Context {X : Type} `{HS : Part X socks_host} `{HM : Part X mt_host} `{!Apart X socks_host mt_host} (env : bot_env) (menv : mtproto_env).
Implicit Types w : bot_world X.
Abbreviation BM := (M (bot_world X) bot_error) (only parsing).
Abbreviation st := (me_settings menv) (only parsing).
Abbreviation xenv := (me_proxy menv) (only parsing).
Context `{!MtHelper xenv}.
Abbreviation ok := (mt_accounted st) (only parsing).

(** ** What is read of the store *)

(** The fingerprints that are served, but for the one the empty set is marked with. *)
Definition reads (store : list mt_secret) w : Prop := forall fp,
  fp ∈ map ms_fingerprint store <-> fp ∈ map ms_fingerprint (served w) /\ fp <> EMPTY_PLACEHOLDER.
Lemma stable_reads store : stable (reads store).
Proof. intros w w' [_ H]. unfold reads, served. by rewrite H. Qed.
Lemma one_per_all l : forall seen fp, fp ∈ map ms_fingerprint (one_per_fingerprint seen l) <-> fp ∈ map ms_fingerprint l /\ fp <> EMPTY_PLACEHOLDER /\ fp ∉ seen.
Proof.
  induction l as [|s l IH]; intros seen fp; cbn [one_per_fingerprint map].
  { split; [by intros ?%elem_of_nil|by intros [?%elem_of_nil _]]. }
  case_bool_decide as Hs.
  - split; [intros (H & ?)%IH; split; [by right|done]|]. intros ([->|H]%elem_of_cons & H1 & H2); [by destruct Hs|]. by apply IH.
  - cbn [map]. split.
    + intros [->|(H & H1 & H2)%IH]%elem_of_cons; [split; [by left|split; intros ?; apply Hs; auto]|].
      split; [by right|]. split; [done|]. intros ?. apply H2. by right.
    + intros ([->|H]%elem_of_cons & H1 & H2); [by left|]. destruct (decide (fp = ms_fingerprint s)) as [->|Hne]; [by left|].
      right. apply IH. split; [done|]. split; [done|]. by intros [?|?]%elem_of_cons.
Qed.
Lemma normalize_prints l r : normalize_secrets l = Ok r -> forall fp, fp ∈ map ms_fingerprint r <-> fp ∈ map ms_fingerprint l.
Proof.
  intros H fp. split; intros (s & -> & Hs)%list_elem_of_fmap.
  - apply list_elem_of_fmap_2. by apply (normalize_in _ _ H).
  - destruct (normalize_all _ _ _ H Hs) as (s' & Hs' & <-). by apply list_elem_of_fmap_2.
Qed.
Lemma read_all_triple P : stable P -> triple P (read_all_runtime_managed_secrets (X := X) menv) (fun store w => P w /\ reads store w) P.
Proof.
  intros HP w Hw. destruct (read_all_runtime_managed_secrets menv w) as [[store|e] w'] eqn:E; pose proof (keeps_run _ _ _ _ _ (quiet_all menv) E) as Hq; [|by eapply HP].
  split; [by eapply HP|]. apply (stable_reads _ _ _ Hq). unfold read_all_runtime_managed_secrets in E.
  apply bind_inv in E as [([] & w1 & H1 & E)|(? & _ & ?)]; [|done]. pose proof (keeps_run _ _ _ _ _ (quiet_adapter menv) H1) as Hq1.
  apply bind_inv in E as [(c & w2 & H2 & E)|(? & _ & ?)]; [|done]. unfold read_current_managed_secrets in H2.
  apply bind_inv in H2 as [(d & w2' & [[_ Hst] Hd]%mt_read_run & H2)|(? & _ & ?)]; [|done]. specialize (Hd _ eq_refl). apply still_lift in H2 as [-> Hc]. specialize (Hc _ eq_refl).
  apply bind_inv in E as [(r & w3 & H3 & E)|(? & _ & ?)]; [|done]. unfold read_runtime_managed_secrets in H3. injection E as <- _.
  apply bind_inv in H3 as [(d' & w3' & [_ Hd']%mt_read_run & H3)|(? & _ & ?)]; [|done]. specialize (Hd' _ eq_refl). apply still_lift in H3 as [_ Hr]. specialize (Hr _ eq_refl).
  rewrite Hst in Hd'. rewrite (proj2 Hq1) in Hd, Hd'. assert (d' = d) as -> by (destruct Hd as [[H ->]|[b H]], Hd' as [[H' ->]|[b' H']]; congruence).
  assert (served w = md_secrets d ++ served_items (md_runtime d)) as Hserved by (unfold served; by destruct Hd as [[-> ->]|[b ->]]).
  intros fp. rewrite one_per_all, Hserved, !map_app, !elem_of_app, (normalize_prints _ _ Hc), (normalize_prints _ _ Hr).
  pose proof (not_elem_of_nil fp). tauto.
Qed.

(** ** The fingerprints of the active rows *)

Definition prints_match w : Prop := forall fp, fp <> EMPTY_PLACEHOLDER ->
  fp ∈ map ms_fingerprint (served w) <-> exists a, a ∈ actives w /\ access_fingerprint st a = Ok fp.
Lemma stable_match : stable prints_match.
Proof. intros w w' [H1 H2] H. unfold prints_match, served in *. rewrite (actives_same _ _ H1), H2. exact H. Qed.
Lemma not_placeholder secret : mtproto_secret_fingerprint secret <> EMPTY_PLACEHOLDER.
Proof.
  intros H. apply (f_equal length) in H. unfold mtproto_secret_fingerprint in H. rewrite length_take, sha256_hex_length in H. vm_compute in H. lia.
Qed.
Lemma desired_prints l secrets : managed_secrets_from_accesses st l = Ok secrets -> (forall a, a ∈ l -> is_managed a = true) ->
  forall fp, fp ∈ map ms_fingerprint secrets <-> exists a, a ∈ l /\ access_fingerprint st a = Ok fp.
Proof.
  intros E Hm fp. split.
  - intros (s & -> & Hs)%list_elem_of_fmap. destruct (secrets_of_rows _ _ _ _ E Hs) as (a & Ha & _ & _ & Hf & _). by exists a.
  - intros (a & Ha & Hf). destruct (rows_of_secrets _ _ _ _ E Ha (Hm a Ha)) as (s & Hs & _ & Hf'). rewrite Hf in Hf'. injection Hf' as ->. by apply list_elem_of_fmap_2.
Qed.
Lemma actives_managed w a : a ∈ actives w -> is_managed a = true.
Proof. intros (_ & _ & _ & ?)%in_actives. done. Qed.
Lemma in_step_match w : in_step menv w -> prints_match w.
Proof.
  intros (secrets & Hs & [Hsub Hall]) fp _. rewrite <- (desired_prints _ _ Hs (actives_managed w)). split; intros (s & -> & Hin)%list_elem_of_fmap.
  - apply list_elem_of_fmap_2. by apply Hsub.
  - destruct (Hall s Hin) as (s' & Hs'%runtime_served & <- & _). by apply list_elem_of_fmap_2.
Qed.
Lemma difference_nil l r : set_difference l r = [] -> l ⊆ r.
Proof.
  unfold set_difference. intros H x Hx. destruct (decide (x ∈ r)) as [|Hn]; [done|]. exfalso.
  assert (x ∈ remove_dups (List.filter (fun x => negb (bool_decide (x ∈ r))) l)) as Hin; [|by rewrite H in Hin; apply elem_of_nil in Hin].
  apply elem_of_remove_dups, list_elem_of_In, filter_In. split; [by apply list_elem_of_In|]. by rewrite bool_decide_eq_false_2.
Qed.

(** ** The steps of the pass *)

Lemma apply_rows_unfold {A} (k : Z -> BM A) w : (let! active := active_managed_accesses env in
    let! desired := lift (managed_secrets_from_accesses st active) in let! g := apply_desired menv desired in k g) w
  = bind (apply_rows (X := X) env menv None None) k w.
Proof.
  unfold apply_rows, desired_managed_secrets, bind. destruct (active_managed_accesses env w) as [[l|e] w1]; [|done]. rewrite app_nil_r.
  unfold lift. by destruct (managed_secrets_from_accesses st l).
Qed.
Lemma all_triple : triple ok (apply_rows (X := X) env menv None None) (fun _ w => ok w /\ in_step menv w) ok.
Proof.
  intros w Hw. destruct (apply_rows env menv None None w) as [[g|e] w'] eqn:E; apply apply_rows_run in E as (Hb & ? & H); try done.
  split; [done|]. destruct (H eq_refl) as [_ (l & Hl & Hs)]. exists l. split; [|done]. rewrite <- Hl. unfold wanted. by rewrite app_nil_r, (actives_same _ _ Hb).
Qed.
Lemma inactive_cleared a w : ok w -> in_step menv w -> a ∈ proxy_rows w -> px_status a <> ProxyActive -> cleared menv (px_id a) w.
Proof.
  intros [Hi Hs] (secrets & Hl & Hserves) Ha Hst.
  assert (forall b, b ∈ actives w -> px_id b <> px_id a) as Hne.
  { intros b (Hb & _ & Hact & _)%in_actives Hid. apply Hst. assert (b = a) as -> by (by eapply one_row). done. }
  split; [split; [done|]|].
  - intros s Hin. apply Hserves in Hin. destruct (secrets_of_rows _ _ _ _ Hl Hin) as (b & Hb & Hm & _ & Hf & _). exists (px_id b). split; [by apply Hne|].
    exists b. pose proof Hb as (Hb' & Ht & Hact & _)%in_actives. split; [done|]. split; [done|]. split; [done|]. split; [done|]. split; [done|].
    unfold may_exist, proxy_in. by rewrite Hact.
  - exists secrets. split; [|done]. rewrite <- Hl. unfold wanted. rewrite app_nil_r. f_equal. apply filter_all. intros b Hb. apply negb_true_iff, Z.eqb_neq. by apply Hne.
Qed.
Definition present (a : proxy_access) w : Prop := ok w /\ a ∈ proxy_rows w.
Lemma stable_present a : stable (present a).
Proof. apply stable_and; [apply stable_ok|apply stable_in]. Qed.
Lemma removal_triple a delete : px_status a <> ProxyActive ->
  triple (present a) (startup_removal (X := X) env menv a delete) (fun _ => ok) ok.
Proof.
  intros Hst. eapply triple_ext with (m' := bind (apply_rows env menv None None) (fun _ =>
    (if delete then let! t := now env in ProxyRows.mark_deleted env (px_id a) (or_id (px_deleted_by a) (or_id (px_revoked_by a) (px_created_by a))) t (px_reason a)
     else let! t := now env in ProxyRows.mark_revoked env (px_id a) (or_id (px_deleted_by a) (or_id (px_revoked_by a) (px_created_by a))) t (px_reason a)) ;;!
    let! _ := lift (access_fingerprint st a) in
    mt_audit env None (if delete then py "mtproto_startup_delete_completed" else py "mtproto_startup_revoke_completed") (px_id a) ;;! ret true)).
  { intros w. by rewrite <- apply_rows_unfold. }
  apply (triple_bind _ _ _ _ (fun _ => cleared menv (px_id a))).
  - intros w [Hw Ha]. pose proof (all_triple w Hw) as H. destruct (apply_rows env menv None None w) as [[g|e] w'] eqn:E; [|done]. destruct H as [Hw' Hstep].
    apply inactive_cleared; [done|done| |done]. apply (apply_rows_run env menv) in E as (Hb & _); [|done|done]. unfold proxy_rows. by rewrite Hb.
  - intros g. apply (triple_bind _ _ _ _ (fun _ => ok)).
    + destruct delete; (eapply triple_bind; [apply quiet_triple; [apply quiet_now|apply stable_cleared|intros w [H _]; by eapply without_accounted]|]); intros t0;
        (eapply triple_weaken; [apply leave_triple; [done|done|intros b Hb; eapply excluded_closed, Hb; intros s; set_solver]|done|by intros ? ? [[? _] _]|done]).
    + intros []. apply steady_bind; [apply quiet_ok, keeps_lift, quiet_pre|]. intros fp. apply steady_bind; [apply quiet_ok, quiet_audit|]. intros []. apply steady_ret.
Qed.
Lemma compensate_startup_ok a : steady ok (compensate_startup (X := X) env menv a).
Proof.
  unfold compensate_startup. pose proof (fun r => quiet_ok menv _ (quiet_degrade (X := X) r)) as Hd. pose proof (fun a b i => quiet_ok menv _ (quiet_audit (X := X) env a b i)).
  apply steady_bind; [apply steady_attempt, none_ok; apply _|]. intros [g|e]; apply steady_bind; try done; try (by intros ?).
  - apply steady_attempt, steady_bind; [apply quiet_ok, quiet_now|]. intros t0. by apply status_ok.
  - intros o. apply steady_bind; [|by intros ?]. destruct o; [apply steady_ret|apply Hd].
Qed.
Lemma pending_triple a store : triple (present a) (startup_pending_apply (X := X) env menv a store) (fun b w => ok w /\ b = true) ok.
Proof.
  assert (forall m : BM unit, steady ok m -> triple ok (bind m (fun _ => ret true)) (fun b w => ok w /\ b = true) ok) as Hlast.
  { intros m Hm. eapply triple_bind; [exact Hm|]. intros u. by apply triple_ret. }
  unfold startup_pending_apply. intros w [Hw Ha]. unfold bind at 1. unfold lift at 1. destruct (access_fingerprint st a) as [fp|e] eqn:Hfp; [|done].
  destruct (stored_secret fp store) as [item|].
  - case_bool_decide as Hfi; cbn [negb]; [|done].
    assert (agrees menv (px_id a) (ms_secret item) w) as Hag.
    { intros b Hb Hid fp' Hfp'. assert (b = a) as -> by (eapply one_row; [apply Hw|done|done|done]). congruence. }
    assert (triple (fun w => ok w /\ agrees menv (px_id a) (ms_secret item) w) (let! marked := attempt (let! t := now env in
          ProxyRows.mark_active env (px_id a) t (Some (mt_payload st (ms_secret item) true)) (Some (mt_public_payload st true (Some fp))) None) in
        match marked with
        | Err _ => compensate_startup env menv a ;;! ret true
        | Ok _ => mt_audit env None (py "mtproto_startup_apply_recovered") (px_id a) ;;! ret true
        end) (fun b w => ok w /\ b = true) ok) as H; [|by apply H].
    eapply triple_bind; [eapply triple_attempt with (Q := fun _ => ok) (Y := ok), triple_bind|].
    + apply quiet_triple; [apply quiet_now|apply stable_and; [apply stable_ok|apply stable_agrees]|by intros ? [? _]].
    + intros t0. apply active_ok.
    + intros [u|e]; apply Hlast; [apply quiet_ok, quiet_audit|apply compensate_startup_ok].
  - enough (triple ok (let! t := now env in ProxyRows.set_status env (px_id a) ProxyApplyFailed t (Some NOT_FOUND_TEXT) None [] ;;!
      mt_audit env None (py "mtproto_startup_pending_apply_failed") (px_id a) ;;! ret true) (fun b w => ok w /\ b = true) ok) as H by (by apply H).
    eapply triple_bind; [apply quiet_ok, quiet_now|]. intros t0. eapply triple_bind; [by apply status_ok|]. intros []. apply Hlast, quiet_ok, quiet_audit.
Qed.
Lemma access_triple a store :
  triple (fun w => present a w /\ reads store w) (startup_access (X := X) env menv a store) (fun changed w => ok w /\ (changed = false -> reads store w)) ok.
Proof.
  unfold startup_access. destruct (proxy_in [ProxyPendingApply] a).
  { eapply triple_weaken; [apply pending_triple|by intros w [? _]| |done]. by intros b w [Hw ->]. }
  assert (forall d, px_status a <> ProxyActive -> triple (fun w => present a w /\ reads store w) (startup_removal (X := X) env menv a d)
    (fun changed w => ok w /\ (changed = false -> reads store w)) ok) as Hrem.
  { intros d Hst w [Hw _]. pose proof (removal_triple a d Hst w Hw) as H. destruct (startup_removal env menv a d w) as [[b|e] w'] eqn:E; [|done].
    split; [done|]. intros ->. exfalso. unfold startup_removal in E. do 4 (apply bind_inv in E as [(? & ? & _ & E)|(? & _ & ?)]; [|done]).
    apply bind_inv in E as [(? & ? & _ & E)|(? & _ & ?)]; [|done]. apply bind_inv in E as [(? & ? & _ & E)|(? & _ & ?)]; [|done]. done. }
  assert (forall l, proxy_in l a = true -> ProxyActive ∉ l -> px_status a <> ProxyActive) as Hst.
  { unfold proxy_in. intros l H Hn He. bool_prop. by rewrite He in H. }
  destruct (proxy_in [ProxyPendingRevoke; ProxyRevokeFailed] a) eqn:H1; [apply Hrem; by apply (Hst _ H1); set_solver|].
  destruct (proxy_in [ProxyPendingDelete; ProxyDeleteFailed] a) eqn:H2; [apply Hrem; by apply (Hst _ H2); set_solver|].
  apply triple_ret. by intros w [[? _] ?].
Qed.
Lemma others_quiet {A} id (m : BM A) : keeps quiet m -> keeps (others id) m.
Proof. intros Hm w. destruct (Hm w) as [H _]. unfold others, proxy_rows. by rewrite H. Qed.
Lemma others_apply id extra exclude : keeps (others id) (apply_rows (X := X) env menv extra exclude).
Proof.
  unfold apply_rows. apply keeps_bind; [apply others_pre|apply others_quiet, quiet_desired|]. intros l w.
  destruct (apply_desired menv l w) as [r w'] eqn:E. apply apply_desired_run in E as [Ht _]; [|done]. unfold others, proxy_rows. cbn. by rewrite Ht.
Qed.
Lemma others_step a store : keeps (others (px_id a)) (startup_access (X := X) env menv a store).
Proof.
  pose proof (others_pre (X := X) (px_id a)) as Hpre.
  pose proof (fun s t0 e0 r0 => others_set_status (X := X) env (px_id a) s t0 e0 r0) as H1. pose proof (fun t0 pl ppl => others_active (X := X) env (px_id a) t0 pl ppl) as H2.
  pose proof (fun actor action i => others_quiet (px_id a) _ (quiet_audit (X := X) env actor action i)) as H3. pose proof (others_quiet (px_id a) _ (quiet_now (X := X) env)) as H4.
  pose proof (fun r => others_quiet (px_id a) _ (quiet_degrade (X := X) r)) as H5. pose proof (others_apply (px_id a)) as H6.
  assert (keeps (others (px_id a)) (compensate_startup (X := X) env menv a)) as H7.
  { unfold compensate_startup. apply keeps_bind; [done|apply keeps_attempt, H6|]. keeps_tac. }
  assert (forall d, keeps (others (px_id a)) (startup_removal (X := X) env menv a d)) as H8.
  { intros d w. unfold startup_removal. rewrite apply_rows_unfold. revert w. apply keeps_bind; [done|apply H6|]. intros g.
    pose proof (fun e0 f => others_transition (X := X) env (px_id a) e0 f) as H9. unfold mark_deleted, mark_revoked. destruct d; keeps_tac; by apply H9. }
  unfold startup_access, startup_pending_apply. keeps_tac.
Qed.

(** ** The whole pass *)

(** What the pass hands on: it never raises, and without an exception the store has been
    compared with the rows. *)
Definition passed (o : mt_summary * option bot_error) w : Prop := ok w /\ su_fatal o.1 = 0 /\ (o.2 = None -> prints_match w).
Abbreviation never := (fun _ : bot_world X => False) (only parsing).
Lemma counting_triple {A} P R s (m : BM A) k : su_fatal s = 0 -> triple P m R ok -> (forall a, triple (R a) (k a) passed never) ->
  triple P (counting s m k) passed never.
Proof.
  intros Hs Hm Hk w Hw. unfold counting, bind, attempt. specialize (Hm w Hw). destruct (m w) as [[a|e] w1]; [by apply Hk|]. by split.
Qed.
Lemma drift_triple store s : su_fatal s = 0 -> triple (fun w => ok w /\ reads store w) (repair_drift (X := X) env menv store s) passed never.
Proof.
  intros Hs. assert (stable (fun w => ok w /\ reads store w)) as HP by (apply stable_and; [apply stable_ok|apply stable_reads]).
  unfold repair_drift. apply (counting_triple _ (fun l w => (ok w /\ reads store w) /\ actives w = l)); [done| |].
  { intros w Hw. destruct (active_managed_accesses env w) as [r w'] eqn:E. pose proof Hw as [[Hi _] _].
    apply actives_run in E as (Hq & _ & Hl); [|done]. assert (ok w' /\ reads store w') as Hw' by (by eapply HP). destruct r as [l|e]; [|apply Hw'].
    split; [done|]. rewrite (Hl _ eq_refl). apply actives_same, Hq. }
  intros active. apply (counting_triple _ (fun d w => ((ok w /\ reads store w) /\ actives w = active) /\ managed_secrets_from_accesses st active = Ok d)); [done| |].
  { intros w [Hw Ha]. unfold lift. by destruct (managed_secrets_from_accesses st active); [|apply Hw]. }
  intros desired. cbv zeta. set (s1 := MtSummary _ _ _ _ _ _ _). assert (su_fatal s1 = 0) as Hs1 by done.
  destruct (set_difference _ _ ++ set_difference _ _) as [|x xs] eqn:Hd.
  { intros w (((Hw & Hr) & <-) & Hdes). apply app_nil in Hd as [H1%difference_nil H2%difference_nil]. split; [done|]. split; [done|]. intros _ fp Hne.
    rewrite <- (desired_prints _ _ Hdes (actives_managed w)). specialize (Hr fp). split; intros H; [apply H2, Hr; auto|]. apply Hr, H1, H. }
  apply (counting_triple _ (fun _ w => ok w /\ prints_match w)); [done| |].
  { intros w (((Hw & Hr) & <-) & Hdes). destruct (apply_desired menv desired w) as [r w'] eqn:E.
    assert (wanted None None w = actives w) as Hwd by apply app_nil_r. rewrite <- Hwd in Hdes.
    apply (apply_wanted_run menv None None) in E as (Hb & Hw' & H); [|done|done|done]. destruct r as [g|e]; [|done]. split; [done|].
    destruct (H eq_refl) as [_ (l & Hl & Hserves)]. apply in_step_match. exists l. split; [|done]. by rewrite (actives_same _ _ Hb), <- Hwd. }
  intros g. apply (counting_triple _ (fun _ w => ok w /\ prints_match w)); [done| |].
  { apply quiet_triple; [apply quiet_audit_all|apply stable_and; [apply stable_ok|apply stable_match]|by intros w [? _]]. }
  intros u. apply triple_ret. intros w [Hw Hmatch]. by split.
Qed.
Lemma accesses_triple pending k : (forall store s, su_fatal s = 0 -> triple (fun w => ok w /\ reads store w) (k store s) passed never) ->
  NoDup (map px_id pending) -> forall store s, su_fatal s = 0 ->
  triple (fun w => (ok w /\ reads store w) /\ forall a, a ∈ pending -> a ∈ proxy_rows w) (startup_accesses (X := X) env menv pending store s k) passed never.
Proof.
  intros Hk. induction pending as [|a rest IH]; intros Hn store s Hs; [eapply triple_pre; [by apply Hk|by intros w [? _]]|].
  cbn [map] in Hn. apply NoDup_cons in Hn as [Ha Hn]. cbn [startup_accesses].
  apply (counting_triple _ (fun changed w => (ok w /\ (changed = false -> reads store w)) /\ forall b, b ∈ rest -> b ∈ proxy_rows w)); [done| |].
  - intros w [[Hw Hr] Hp]. pose proof (others_step a store w) as [_ Ho]. specialize (access_triple a store w) as H.
    destruct (startup_access env menv a store w) as [[c|e] w']; (specialize (H (conj (conj Hw (Hp a ltac:(by left))) Hr))); [|done].
    split; [done|]. intros b Hb. apply Ho; [|apply Hp; by right]. intros Hid. apply Ha. rewrite <- Hid. by apply list_elem_of_fmap_2.
  - intros [|].
    + apply (counting_triple _ (fun store' w => (ok w /\ reads store' w) /\ forall b, b ∈ rest -> b ∈ proxy_rows w)); [done| |].
      * assert (stable (fun w => ok w /\ forall b, b ∈ rest -> b ∈ proxy_rows w)) as HP.
        { apply stable_and; [apply stable_ok|]. intros v v' [H _]. unfold proxy_rows. by rewrite H. }
        eapply triple_weaken; [apply (read_all_triple _ HP)|by intros w [[? _] ?]|by intros store' w [[? ?] ?]|by intros w [? _]].
      * intros store'. by apply IH.
    + eapply triple_pre; [by apply IH|]. intros w [[Hw Hr] Hp]. auto.
Qed.
Lemma body_triple : triple ok (startup_body (X := X) env menv) passed never.
Proof.
  unfold startup_body. apply (counting_triple _ (fun _ => ok)); [done|apply steady_bind; [apply quiet_ok, quiet_adapter|intros u; apply quiet_ok, quiet_ready]|]. intros u.
  apply (counting_triple _ (fun store w => ok w /\ reads store w)); [done|apply (read_all_triple _ (stable_ok menv))|]. intros store.
  apply (counting_triple _ (fun all w => (ok w /\ reads store w) /\ all = List.filter (picked MTPROTO_STARTUP_RECONCILE_STATUSES 0) (proxy_rows w))); [done| |].
  - intros w [Hw Hr]. destruct (managed_accesses_by_statuses env _ w) as [r w'] eqn:E. apply mt_managed_run in E as (Hq & _ & Hl); [|done|apply Hw].
    assert (ok w') as Hw' by (by eapply quiet_accounted). destruct r as [l|e]; [|done]. split; [split; [done|by apply (stable_reads _ _ _ Hq)]|].
    rewrite (Hl _ eq_refl). unfold proxy_rows. by rewrite (proj1 Hq).
  - intros all w (Hw & ->). set (all := List.filter (picked _ _) _). pose proof Hw as [[[Hs _] _] _].
    assert (NoDup (map px_id (List.filter is_managed all))) as Hn.
    { apply sorted_distinct. eapply sorted_sublist; [apply map_sublist; etransitivity; apply filter_sublist|exact Hs]. }
    cbv zeta. apply (accesses_triple _ _ drift_triple Hn store); [done|]. split; [exact Hw|]. intros a Ha.
    apply list_elem_of_In, filter_In in Ha as [Ha _]. apply filter_In in Ha as [Ha _]. by apply list_elem_of_In.
Qed.

Lemma startup_run w : ok w -> exists s w', reconcile_mtproto_state (X := X) env menv w = (Ok s, w')
  /\ ok w' /\ (mp_enabled st = true -> mp_managed st = true -> mp_adapter st = true -> su_fatal s = 0 -> prints_match w').
Proof.
  intros Hw. unfold reconcile_mtproto_state. destruct (mp_enabled st), (mp_managed st), (mp_adapter st); cbn [negb orb]; try (by exists no_summary, w).
  assert (forall b, never_raises (mt_audit_all (X := X) env b)) as Haudit by (intros b; apply nr_bind; [apply nr_attempt|intros o; apply nr_ret]).
  set (P := fun s v => ok v /\ (su_fatal s = 0 -> prints_match v)).
  assert (forall s, stable (P s)) as HP by (intros s; apply stable_and; [apply stable_ok|]; intros v v' Hq H1 H2; eapply stable_match; [exact Hq|auto]).
  enough (triple ok (let! done := startup_body env menv in
    let! s := (match done.2 with None => ret done.1 | Some _ => mt_degrade (py "startup reconciliation failed") ;;!
                 mt_audit_all env (py "mtproto_startup_reconcile_failed") ;;! ret (add_fatal done.1) end) in
    (if any_counted s then mt_audit_all env (py "mtproto_startup_reconcile_checked") else ret tt) ;;! ret s) P never) as H.
  { specialize (H w Hw). set (run := bind _ _ w) in *. destruct run as [[s|e] w'] eqn:E; [|done]. exists s, w'. split; [done|]. by destruct H. }
  eapply triple_bind; [apply body_triple|]. intros [s0 e0]. apply (triple_bind _ _ _ _ P).
  - destruct e0 as [e|]; cbn [snd fst]; [|apply triple_ret; intros v (Hv & _ & Hm); split; auto]. eapply triple_pre with (P' := fun v => ok v /\ su_fatal s0 = 0); [|by intros v (? & ? & _)].
    assert (stable (fun v => ok v /\ su_fatal s0 = 0)) as HP' by (apply stable_and; [apply stable_ok|apply stable_pure]).
    eapply triple_bind; [by eapply triple_total; [by intros v|apply quiet_degrade|exact HP']|]. intros u.
    eapply triple_bind; [by eapply triple_total; [apply Haudit|apply quiet_audit_all|exact HP']|]. intros u'. apply triple_ret. intros v [Hv Hs]. split; [done|]. cbn. lia.
  - intros s. eapply triple_bind; [|intros u; apply triple_ret; intros v Hv; exact Hv]. destruct (any_counted s); [|by apply triple_ret].
    eapply triple_total; [apply Haudit|apply quiet_audit_all|exact (HP s)].
Qed.

(** C33 The pass over the MTProto accesses at start-up. Whatever fails, [reconcile_mtproto_state]
    returns, and every secret of the proxy's document keeps a row that speaks for it. When
    it counts nothing fatal, in the managed mode, the fingerprints of the document are
    those of the active rows: none is missing, none is left over. Where no failure leaves
    the proxy running beside another document (a restart that fails has stopped it, and
    what fails is rolled back), a proxy that is down or runs with its document before the
    pass does so after it; and then, nothing fatal being counted, each secret it runs with
    is the stand-in of an empty set, or that of an active row. *)
Theorem mtproto_startup_brings_into_step w : mt_accounted st w -> exists s w', reconcile_mtproto_state (X := X) env menv w = (Ok s, w')
  /\ mt_accounted st w'
  /\ (MtRecovers xenv -> fresh w -> fresh w')
  /\ (mp_enabled st = true -> mp_managed st = true -> mp_adapter st = true -> su_fatal s = 0 ->
       (forall fp, fp <> EMPTY_PLACEHOLDER ->
         fp ∈ map ms_fingerprint (served w') <-> exists a, a ∈ actives w' /\ access_fingerprint st a = Ok fp)
       /\ (fresh w' -> forall x, x ∈ running w' -> stands_in w' x \/ exists secret, secret ∈ served w' /\ ms_secret secret = x
            /\ (ms_fingerprint secret <> EMPTY_PLACEHOLDER -> exists a, a ∈ actives w' /\ access_fingerprint st a = Ok (ms_fingerprint secret)))).
Proof.
  intros Hw. destruct (startup_run w Hw) as (s & w' & E & Hw' & Hm). exists s, w'. split; [done|]. split; [done|]. split.
  - intros Hr Hf. exact (keeps_run _ _ _ _ _ (ride_startup stays_fresh env menv) E Hf).
  - intros H1 H2 H3 H4. specialize (Hm H1 H2 H3 H4). split; [exact Hm|]. intros Hf x [(secret & Hs & Hx)|H]%(fresh_running w' x Hf); [right|by left].
    exists secret. split; [done|]. split; [done|]. intros Hne. apply (Hm _ Hne). by apply list_elem_of_fmap_2.
Qed.
End Startup.
