(* ===== verification/MtProtoIssue.v ===== *)
(** * An MTProto access that is handed out works

    [issue_mtproto_proxy] in the managed mode, on the branches that return: the row of
    before, shown again, and the new row, with which the proxy is in step. *)

From S2P Require Import Prelude PyText Sha256 Json IsoTime Triples AwgConfig VpnKeys BackendHealth AwgService KeyRows BotDb Accounts AccountSafety BlockSafety RequestSafety HysteriaIssue DanteUsers ProxyRows Socks5 ProxySafety ProxyStartup ProxyIssue MtProxy MtProto MtProxySafety MtProxyProcess MtProtoSafety MtProtoAccess MtProtoProcess MtProtoStartup.
#[local] Open Scope Z_scope.

Section Issue.
Context {X : Type} `{HS : Part X socks_host} `{HM : Part X mt_host} `{!Apart X socks_host mt_host} (env : bot_env) (menv : mtproto_env).
Implicit Types w : bot_world X.
Abbreviation BM := (M (bot_world X) bot_error) (only parsing).
Abbreviation st := (me_settings menv) (only parsing).
Abbreviation xenv := (me_proxy menv) (only parsing).
Context `{!MtHelper xenv} `{!MtService xenv}.
Abbreviation ok := (mt_accounted st) (only parsing).

(** ** The newest row *)

Definition newest (l : list proxy_access) (a : proxy_access) w : Prop := proxy_ids_ok (bt_proxies (bw_tables w)) /\ proxy_rows w = l ++ [a].
Lemma newest_quiet l a w w' : quiet w w' -> newest l a w -> newest l a w'.
Proof. intros [H _] Hw. unfold newest, proxy_rows in *. by rewrite H. Qed.
Lemma newest_update l a p f w n w' : update_proxies (X := X) env p f w = (Ok n, w') -> (forall b, p b = true -> px_id b = px_id a) ->
  p a = true -> (forall b, px_id (f b) = px_id b) -> newest l a w -> newest l (f a) w' /\ files w' = files w.
Proof.
  intros E Hp Ha Hf [Hi Hr]. pose proof (keeps_run _ _ _ _ _ (files_update env p f) E) as Hfiles. split; [|done].
  apply update_proxies_run in E as (_ & [[_ ?]|[Hb _]]); [done|]. split; [rewrite Hb; by apply map_ids_ok|].
  unfold proxy_rows in *. rewrite Hb. cbn. rewrite Hr, map_app. cbn. rewrite Ha. f_equal. transitivity (map (fun b => b) l); [|apply map_id].
  apply map_ext_in. intros b Hbl%list_elem_of_In. destruct (p b) eqn:E; [|done]. exfalso. apply Hp in E.
  destruct Hi as [Hs _]. rewrite Hr, map_app in Hs. apply StronglySorted_app in Hs as (Hlt & _ & _).
  specialize (Hlt (px_id b) (px_id a) ltac:(by apply list_elem_of_fmap_2) ltac:(by left)). lia.
Qed.
Lemma newest_active l a t0 pl ppl g w w' : proxy_in [ProxyPendingApply; ProxyApplyFailed] a = true ->
  ProxyRows.mark_active (X := X) env (px_id a) t0 pl ppl g w = (Ok tt, w') -> newest l a w ->
  newest l (ProxyRows.activated t0 pl ppl g a) w' /\ files w' = files w.
Proof.
  intros Hst E Ha. pose proof (keeps_run _ _ _ _ _ (files_active env _ _ _ _ _) E) as Hfiles. split; [|done].
  unfold ProxyRows.mark_active in E. apply transaction_inv in E as (w1 & Ht1 & _ & E). apply bind_inv in E as [(o & w2 & H2 & E)|(? & _ & ?)]; [|done].
  apply select_run in H2 as (Ht2 & _ & _). destruct o; [|done]. apply bind_inv in E as [(n & w3 & H3 & E)|(? & _ & ?)]; [|done]. injection E as <-.
  eapply newest_update in H3 as [H3 _]; [exact H3| | |done|].
  - intros b Hb. cbn beta in Hb. bool_prop. by apply Z.eqb_eq.
  - unfold has_proxy_id. by rewrite Z.eqb_refl, Hst.
  - unfold newest, proxy_rows in *. by rewrite Ht2, Ht1.
Qed.
Lemma newest_shown l a b actor w w' : px_id b = px_id a -> mt_mark_shown (X := X) env b actor w = (Ok tt, w') -> newest l a w ->
  (exists t0, newest l (shown t0 a) w') /\ files w' = files w.
Proof.
  intros Hid. unfold mt_mark_shown. intros [(t0 & w1 & H1 & E)|(? & _ & ?)]%bind_inv Ha; [|done]. pose proof (keeps_run _ _ _ _ _ (quiet_now env) H1) as Hq1.
  apply bind_inv in E as [([] & w2 & H2 & E)|(? & _ & ?)]; [|done]. pose proof (keeps_run _ _ _ _ _ (quiet_audit env _ _ _) E) as Hq2.
  unfold ProxyRows.mark_shown in H2. apply bind_inv in H2 as [(n & w3 & H2 & H3)|(? & _ & ?)]; [|done]. injection H3 as <-.
  eapply newest_update in H2 as [H2 Hf]; [| | |done|by eapply newest_quiet].
  - split; [exists t0; by eapply newest_quiet|]. by rewrite (proj2 Hq2), Hf, (proj2 Hq1).
  - intros c Hc. apply Z.eqb_eq in Hc. congruence.
  - unfold has_proxy_id. by rewrite Hid, Z.eqb_refl.
Qed.
Lemma newest_read l a b w w' : get_access (X := X) env (px_id a) w = (Ok b, w') -> newest l a w -> b = a /\ newest l a w' /\ files w' = files w.
Proof.
  intros E Ha. pose proof (keeps_run _ _ _ _ _ (quiet_access env _) E) as Hq. apply get_access_run in E as [_ Hb]. destruct (Hb _ eq_refl) as [Hin Hid].
  split; [|split; [by eapply newest_quiet|apply Hq]]. destruct Ha as [Hi Hr]. eapply one_row; [exact Hi|done| |done].
  change (a ∈ proxy_rows w). rewrite Hr. apply elem_of_app. right. by apply list_elem_of_singleton.
Qed.
(** The secrets do not change when the last row changes in nothing they depend on. *)
Definition same_claim (a b : proxy_access) : Prop :=
  is_managed b = is_managed a /\ access_secret st b = access_secret st a /\ access_fingerprint st b = access_fingerprint st a
  /\ px_owner b = px_owner a /\ px_id b = px_id a.
Lemma same_claim_secrets l a b : same_claim a b -> managed_secrets_from_accesses st (l ++ [b]) = managed_secrets_from_accesses st (l ++ [a]).
Proof.
  intros (H1 & H2 & H3 & H4 & H5). induction l as [|c l IH]; cbn; [by rewrite H1, H2, H3, H4, H5|]. by rewrite IH.
Qed.
Lemma newest_actives l a w : newest l a w -> actives w = List.filter is_managed (List.filter (picked [ProxyActive] 0) l)
  ++ (if picked [ProxyActive] 0 a && is_managed a then [a] else []).
Proof.
  intros [_ Hr]. unfold actives. rewrite Hr, !List.filter_app. f_equal. cbn [List.filter]. destruct (picked _ _ a); [|done]. cbn. by destruct (is_managed a).
Qed.

(** ** What is handed over *)

Lemma payload_row a b w w' : current_payload (X := X) menv a w = (Ok b, w') -> w' = w /\ px_id b = px_id a
  /\ forall c s, access_secret st a = Ok (c :: s) -> payload_text (py "secret") (px_payload b) = c :: s.
Proof.
  unfold current_payload, lift. intros [= E <-]. split; [done|]. unfold with_current_payload in E.
  destruct (access_secret st a) as [[|c s]|]; [injection E as <-; by split|injection E as <-|done]. split; [done|]. intros c' s' [= <- <-]. reflexivity.
Qed.
Lemma handed_run l a actor r w w' : hand_over (X := X) env menv a actor w = (Ok r, w') -> newest l a w ->
  (exists t0, newest l (shown t0 a) w') /\ files w' = files w /\ px_id r = px_id a
  /\ forall c s, access_secret st a = Ok (c :: s) -> payload_text (py "secret") (px_payload r) = c :: s.
Proof.
  unfold hand_over. intros [(b & w1 & (-> & Hid & _)%payload_row & E)|(? & _ & ?)]%bind_inv Ha; [|done].
  apply bind_inv in E as [([] & w2 & H2 & E)|(? & _ & ?)]; [|done]. apply (newest_shown l a) in H2 as [[t0 Ha2] Hf2]; [|done|done].
  apply bind_inv in E as [(c & w3 & H3 & E)|(? & _ & ?)]; [|done]. apply (newest_read l (shown t0 a)) in H3 as (-> & Ha3 & Hf3); [|done].
  apply payload_row in E as (-> & Hid' & Hs). split; [by exists t0|]. split; [congruence|]. split; [exact Hid'|]. exact Hs.
Qed.
(** ** A secret that nothing serves *)

Definition unserved (secret : str) w : Prop := mtproto_secret_fingerprint secret ∉ map ms_fingerprint (served w).
Lemma tried_run n taken : forall w secret w', try_secrets (X := X) env menv n taken w = (Ok secret, w') -> mtproto_secret_fingerprint secret ∉ taken.
Proof.
  induction n as [|n IH]; intros w secret w'; cbn [try_secrets]; [done|]. intros [(x & w1 & _ & E)|(? & _ & ?)]%bind_inv; [|done].
  case_bool_decide as Hx; [by eapply IH|]. apply bind_inv in E as [(row & w2 & _ & E)|(? & _ & ?)]; [|done]. destruct row; [by eapply IH|].
  by injection E as -> _.
Qed.
Lemma unique_run w secret w' : unique_managed_secret (X := X) env menv w = (Ok secret, w') -> ok w -> unserved secret w'.
Proof.
  intros E Hw. pose proof (keeps_run _ _ _ _ _ (quiet_unique env menv) E) as [_ Hq]. unfold unserved, served. rewrite Hq. fold (served w).
  unfold unique_managed_secret in E. apply bind_inv in E as [(store & w1 & H1 & E)|(? & _ & ?)]; [|done].
  pose proof (read_all_triple menv ok (stable_ok menv) w Hw) as H. rewrite H1 in H. destruct H as [_ Hr]. apply tried_run in E. intros Hin. apply E.
  pose proof (keeps_run _ _ _ _ _ (quiet_all menv) H1) as [_ Hf]. apply Hr. unfold served. rewrite Hf. split; [exact Hin|apply not_placeholder].
Qed.
Lemma unserved_files secret w w' : files w' = files w -> unserved secret w -> unserved secret w'.
Proof. unfold unserved, served. by intros ->. Qed.
(** [finish_managed], when it returns. *)
Definition given_out (secret : str) (r : proxy_access) w : Prop :=
  payload_text (py "secret") (px_payload r) = secret /\ started w
  /\ exists x, x ∈ running w /\ mtproto_secret_fingerprint x = mtproto_secret_fingerprint secret.
Lemma given_out_host secret r v w : same_host v w -> given_out secret r v -> given_out secret r w.
Proof. intros H (H1 & H2 & H3). unfold given_out, started, running, process, files in *. by rewrite H. Qed.
Lemma rows_started extra exclude w g w' : apply_rows (X := X) env menv extra exclude w = (Ok g, w') -> same_host w w' \/ started w'.
Proof.
  unfold apply_rows. intros [(l & w1 & H1 & E)|(? & _ & ?)]%bind_inv; [|done].
  assert (same_host w w1) as Hq by (eapply keeps_run; [eapply ProxyServices.still_desired; apply _|exact H1]).
  unfold apply_desired, managed_adapter in E. destruct (mp_adapter _); [|done]. destruct (applied_started xenv _ _ _ _ E) as [H|H]; [left; by transitivity w1|by right].
Qed.
Lemma applied_run actor a secret g w w' l : mt_apply_access (X := X) env menv actor a secret w = (Ok g, w') -> newest l a w -> ok w ->
  px_type a = MTPROTO -> may_exist a = true -> picked [ProxyActive] 0 a = false ->
  newest l a w' /\ (same_host w w' \/ started w') /\ exists secrets, serves (mf_store (files w')) secrets
    /\ managed_secrets_from_accesses st (List.filter is_managed (List.filter (picked [ProxyActive] 0) l) ++ [a]) = Ok secrets.
Proof.
  intros E Ha Hw Ht Hm Hp. unfold mt_apply_access, catch in E. change (bind (desired_managed_secrets env menv (Some a) None) _) with (apply_rows env menv (Some a) None) in E.
  destruct (apply_rows env menv (Some a) None w) as [r w1] eqn:Er. destruct r as [g'|e].
  - injection E as _ <-. pose proof (rows_started _ _ _ _ _ Er) as Hst. apply (apply_rows_run env menv) in Er as (Hb & _ & H); [|done|].
    2:{ intros b [= <-]. destruct Ha as [_ Hr]. split; [|done]. rewrite Hr. apply elem_of_app. right. by apply list_elem_of_singleton. }
    destruct (H eq_refl) as [_ (secrets & Hs & Hserves)]. split; [unfold newest, proxy_rows in *; by rewrite Hb|].
    split; [exact Hst|]. exists secrets. split; [done|].
    rewrite <- Hs. unfold wanted. rewrite (newest_actives _ _ _ Ha), Hp. cbn. by rewrite app_nil_r.
  - exfalso. cbv zeta in E. apply bind_inv in E as [(t0 & w2 & _ & E)|(? & _ & ?)]; [|done]. apply bind_inv in E as [([] & w3 & _ & E)|(? & _ & ?)]; [|done].
    apply bind_inv in E as [([] & w4 & _ & E)|(? & _ & ?)]; [|done]. by destruct (me_text menv e secret) as [? []].
Qed.
Lemma mt_activated_run actor id pl ppl g w w' : mt_activate (X := X) env menv actor id pl ppl g w = (Ok tt, w') ->
  exists t0 w1, quiet w w1 /\ same_host w w1 /\ ProxyRows.mark_active env id t0 (Some pl) (Some ppl) (Some g) w1 = (Ok tt, w').
Proof.
  unfold mt_activate, catch. destruct (bind (now env) _ w) as [[[]|e] w1] eqn:E1.
  - intros [= <-]. apply bind_inv in E1 as [(t0 & w2 & H2 & E1)|(? & _ & ?)]; [|done]. exists t0, w2. split; [by eapply keeps_run; [apply quiet_now|]|]. split; [|done]. injection H2 as _ <-. done.
  - intros [([] & w2 & _ & E)|(? & _ & ?)]%bind_inv; done.
Qed.
(** An apply that has brought a secret in has started the proxy with it. *)
Lemma newly_served secret secrets l a w w' : access_fingerprint st a = Ok (mtproto_secret_fingerprint secret) -> is_managed a = true ->
  managed_secrets_from_accesses st (l ++ [a]) = Ok secrets -> serves (mf_store (files w')) secrets -> unserved secret w ->
  same_host w w' \/ started w' -> started w' /\ exists x, x ∈ running w' /\ mtproto_secret_fingerprint x = mtproto_secret_fingerprint secret.
Proof.
  intros Hfa Hm Hs Hserves Hun Hst. destruct (rows_of_secrets _ _ _ a Hs) as (s & Hin & _ & Hsf); [apply elem_of_app; right; by apply list_elem_of_singleton|done|].
  assert (started w') as Hw'.
  { destruct Hst as [Hh|]; [exfalso|done]. apply Hun. destruct (proj2 Hserves s Hin) as (s' & Hs'%runtime_served & Hf & _). rewrite Hfa in Hsf. injection Hsf as Hsf.
    unfold served. replace (files w) with (files w') by (unfold files; by rewrite Hh). rewrite Hsf, <- Hf. by apply list_elem_of_fmap_2. }
  split; [done|]. destruct (fresh_serves _ _ (started_fresh _ Hw') Hserves) as [_ Hall]. destruct (Hall (proj1 Hw') s Hin) as (s' & Hs' & Hf & Hr).
  exists (ms_secret s'). split; [done|]. destruct (secrets_of_rows _ _ _ _ Hs Hs') as (b & _ & _ & _ & _ & <- & _). congruence.
Qed.
Lemma mt_finish_run actor secret owner username by_ t0 id l w r w' :
  let a := mt_row owner username ProxyPendingApply (mt_payload st secret true) (mt_public_payload st true None) by_ t0 (Some (mtproto_secret_fingerprint secret)) id in
  finish_managed (X := X) env menv actor secret a w = (Ok r, w') -> newest l a w -> ok w -> unserved secret w -> 0 < id ->
  in_step menv w' /\ given_out secret r w' /\ exists b, newest l b w' /\ px_id b = id /\ px_id r = id /\ px_owner b = owner /\ px_type b = MTPROTO /\ px_status b = ProxyActive.
Proof.
  intros a E Ha Hw Hun Hid. unfold finish_managed in E. cbv zeta in E.
  apply bind_inv in E as [(g & w1 & H1 & E)|(? & _ & ?)]; [|done].
  assert (picked [ProxyActive] 0 a = false) as Hp by (unfold picked; by rewrite andb_false_r).
  destruct (applied_run _ _ _ _ _ _ l H1 Ha Hw eq_refl eq_refl Hp) as (Ha1 & Hst & secrets & Hserves & Hs).
  assert (access_fingerprint st a = Ok (mtproto_secret_fingerprint secret)) as Hfa by apply fingerprint_of_row.
  destruct (newly_served secret secrets _ a w w1 Hfa eq_refl Hs Hserves Hun Hst) as [Hstarted Hx].
  apply bind_inv in E as [([] & w2 & (t1 & w1' & Hq & Hh & H2)%mt_activated_run & E)|(? & _ & ?)]; [|done].
  pose proof (transitivity Hh (keeps_run _ _ _ _ _ (ride_active same_host env _ _ _ _ _) H2)) as Hh2.
  eapply newest_active in H2 as [Ha2 Hf2]; [|done|by eapply newest_quiet]. set (b := activated _ _ _ _ a) in Ha2.
  apply bind_inv in E as [([] & w3 & H3 & E)|(? & _ & ?)]; [|done]. pose proof (keeps_run _ _ _ _ _ (quiet_audit env _ _ _) H3) as Hq3.
  pose proof (transitivity Hh2 (keeps_run _ _ _ _ _ (ProxyServices.near_audit same_host env _ _ _) H3)) as Hh3.
  apply bind_inv in E as [(c & w4 & H4 & E)|(? & _ & ?)]; [|done].
  pose proof (transitivity Hh3 (keeps_run _ _ _ _ _ (ProxyServices.near_access same_host env _) H4)) as Hh4.
  apply (newest_read l b) in H4 as (-> & Ha4 & Hf4); [|by eapply newest_quiet].
  pose proof (transitivity Hh4 (keeps_run _ _ _ _ _ (ride_hand_over same_host env menv _ _) E)) as Hh5.
  apply (handed_run l) in E as ([t2 Ha5] & Hf5 & Hidr & Hsec); [|done].
  assert (files w' = files w1) as Hf by (by rewrite Hf5, Hf4, (proj2 Hq3), Hf2, (proj2 Hq)).
  assert (exists s, access_secret st a = Ok (ms_secret s)) as (s & Hsa).
  { destruct (rows_of_secrets _ _ _ a Hs) as (s & _ & Hsa & _); [apply elem_of_app; right; by apply list_elem_of_singleton|done|by exists s]. }
  assert (exists c s, secret = c :: s) as (c & cs & Hsecret) by (destruct secret as [|c cs]; [discriminate Hsa|by eexists _, _]).
  assert (access_secret st a = Ok secret) as Hsa' by (unfold access_secret; cbn; by rewrite Hsecret).
  split; [|split].
  - exists secrets. rewrite Hf. split; [|done]. rewrite (newest_actives _ _ _ Ha5), <- Hs.
    assert (picked [ProxyActive] 0 (shown t2 b) && is_managed (shown t2 b) = true) as ->.
    { unfold picked. cbn. by rewrite (proj2 (Z.ltb_lt 0 id) Hid). }
    apply same_claim_secrets. repeat split.
  - apply (given_out_host _ _ w1); [exact Hh5|]. split; [|by split]. rewrite Hsecret. apply Hsec. rewrite <- Hsecret. exact Hsa'.
  - exists (shown t2 b). split; [exact Ha5|]. done.
Qed.

(** ** The ways [issue_mtproto_proxy] returns *)

Definition active_of (p : profile) (b : proxy_access) : Prop := px_owner b = pf_id p /\ px_type b = MTPROTO /\ px_status b = ProxyActive.
(** The row of before. *)
Definition shown_again (p : profile) (r : proxy_access) w w' : Prop := files w' = files w
  /\ (exists b, b ∈ proxy_rows w /\ px_id b = px_id r /\ active_of p b) /\ exists b, b ∈ proxy_rows w' /\ px_id b = px_id r /\ active_of p b.
(** A new row. *)
Definition newly_given (p : profile) (r : proxy_access) w' : Prop := in_step menv w' /\ given_out (payload_text (py "secret") (px_payload r)) r w'
  /\ exists b, b ∈ proxy_rows w' /\ px_id b = px_id r /\ active_of p b.
Lemma shown_again_quiet p r v w w' : quiet v w -> shown_again p r w w' -> shown_again p r v w'.
Proof. intros [H1 H2] (H3 & H4 & H5). unfold shown_again, proxy_rows in *. rewrite H1, H2 in *. auto. Qed.
Lemma again_run p a actor r w w' : hand_over (X := X) env menv a actor w = (Ok r, w') -> proxy_ids_ok (bt_proxies (bw_tables w)) ->
  a ∈ proxy_rows w -> active_of p a -> shown_again p r w w'.
Proof.
  unfold hand_over. intros [(b & w1 & (-> & Hid & _)%payload_row & E)|(? & _ & ?)]%bind_inv Hi Ha Hp; [|done].
  apply bind_inv in E as [([] & w2 & H2 & E)|(? & _ & ?)]; [|done]. unfold mt_mark_shown in H2.
  apply bind_inv in H2 as [(t0 & w3 & H3 & H2)|(? & _ & ?)]; [|done]. pose proof (keeps_run _ _ _ _ _ (quiet_now env) H3) as Hq3.
  apply bind_inv in H2 as [([] & w4 & H4 & H2)|(? & _ & ?)]; [|done]. pose proof (keeps_run _ _ _ _ _ (quiet_audit env _ _ _) H2) as Hq4.
  unfold ProxyRows.mark_shown in H4. apply bind_inv in H4 as [(n & w5 & H4 & H5)|(? & _ & ?)]; [|done]. injection H5 as <-.
  pose proof (keeps_run _ _ _ _ _ (files_update env _ _) H4) as Hf4.
  apply (row_updated env _ _ a) in H4 as [[_ Hrow] _]; [|done|unfold row_is, proxy_rows in *; by rewrite (proj1 Hq3)].
  unfold has_proxy_id in Hrow. rewrite Hid, Z.eqb_refl in Hrow.
  apply bind_inv in E as [(c & w6 & H6 & E)|(? & _ & ?)]; [|done]. pose proof (keeps_run _ _ _ _ _ (quiet_access env _) H6) as Hq6.
  apply get_access_run in H6 as [_ Hc]. destruct (Hc _ eq_refl) as [_ Hidc]. apply payload_row in E as (-> & Hidr & _).
  split; [by rewrite (proj2 Hq6), (proj2 Hq4), Hf4, (proj2 Hq3)|]. split; [exists a; split; [done|]; split; [congruence|done]|].
  exists (shown t0 a). split; [unfold proxy_rows in *; by rewrite (proj1 Hq6), (proj1 Hq4)|]. split; [by rewrite Hidr|exact Hp].
Qed.
Lemma found_run p statuses w o w' : find_user_access_by_type_statuses (X := X) env (pf_id p) MTPROTO statuses w = (Ok (Some o), w') ->
  quiet w w' /\ o ∈ proxy_rows w /\ px_owner o = pf_id p /\ px_type o = MTPROTO /\ px_status o ∈ statuses.
Proof.
  intros E. unfold find_user_access_by_type_statuses in E. destruct statuses as [|s0 ss]; [done|].
  pose proof (keeps_run _ _ _ _ _ (quiet_proxies env _) E) as Hq. split; [done|].
  apply select_run in E as (_ & _ & Ho). specialize (Ho _ eq_refl). symmetry in Ho. apply find_some in Ho as [Hin Ho]. unfold proxy_in in Ho. bool_prop.
  split; [by apply list_elem_of_In|done].
Qed.
Lemma existing_run p actor m w r w' : mt_existing (X := X) env menv actor (pf_id p) m w = (Ok r, w') -> ok w ->
  shown_again p r w w' \/ exists w1, quiet w w1 /\ m w1 = (Ok r, w').
Proof.
  unfold mt_existing. intros [(o & w1 & H1 & E)|(? & _ & ?)]%bind_inv Hw; [|done]. pose proof (keeps_run _ _ _ _ _ (quiet_active env _) H1) as Hq.
  destruct o as [a|]; [left|right; by exists w1]. unfold mt_active_access in H1.
  apply (found_run p) in H1 as (_ & Ha & Ho & Ht & Hst%list_elem_of_singleton). apply (shown_again_quiet _ _ _ _ _ Hq). apply (again_run p) in E; [done| | |done].
  - by apply (quiet_accounted menv _ _ Hq) in Hw as [? _].
  - unfold proxy_rows in *. by rewrite (proj1 Hq).
Qed.
Lemma refused_run p actor w r w' : refused_row (X := X) env menv actor (pf_id p) w = (Ok r, w') -> ok w -> shown_again p r w w'.
Proof.
  unfold refused_row. intros [(o & w1 & H1 & E)|(? & _ & ?)]%bind_inv Hw; [|done]. pose proof (keeps_run _ _ _ _ _ (quiet_live env _) H1) as Hq.
  destruct o as [a|]; [|done]. destruct (proxy_in [ProxyActive] a) eqn:Hst; [|done]. unfold proxy_in in Hst. bool_prop. apply list_elem_of_singleton in Hst.
  unfold mt_live_access in H1. apply (found_run p) in H1 as (_ & Ha & Ho & Ht & _). apply (shown_again_quiet _ _ _ _ _ Hq). apply (again_run p) in E; [done| | |done].
  - by apply (quiet_accounted menv _ _ Hq) in Hw as [? _].
  - unfold proxy_rows in *. by rewrite (proj1 Hq).
Qed.
Lemma mt_new_run p actor w r w' : issue_managed_new (X := X) env menv actor p w = (Ok r, w') -> ok w -> 0 <= sr_seq (bt_proxies (bw_tables w)) ->
  shown_again p r w w' \/ newly_given p r w'.
Proof.
  unfold issue_managed_new. intros [([] & w1 & H1 & E)|(? & _ & ?)]%bind_inv Hw Hseq; [|done]. pose proof (keeps_run _ _ _ _ _ (quiet_adapter menv) H1) as Hq1.
  apply bind_inv in E as [([] & w2 & H2 & E)|(? & _ & ?)]; [|done]. pose proof (transitivity Hq1 (keeps_run _ _ _ _ _ (quiet_ready menv) H2)) as Hq2.
  apply bind_inv in E as [(secret & w3 & H3 & E)|(? & _ & ?)]; [|done]. pose proof (transitivity Hq2 (keeps_run _ _ _ _ _ (quiet_unique env menv) H3)) as Hq3.
  apply bind_inv in E as [(t0 & w4 & H4 & E)|(? & _ & ?)]; [|done]. pose proof (transitivity Hq3 (keeps_run _ _ _ _ _ (quiet_now env) H4)) as Hq.
  assert (unserved secret w4) as Hun.
  { pose proof (keeps_run _ _ _ _ _ (quiet_now env) H4) as [_ Hf]. eapply unserved_files; [exact Hf|]. eapply unique_run; [exact H3|]. by eapply quiet_accounted. }
  clear H1 H2 H3 H4 Hq1 Hq2 Hq3. pose proof (quiet_accounted menv _ _ Hq Hw) as Hw4. rewrite <- (proj1 Hq) in Hseq.
  apply bind_inv in E as [(o & w5 & H5 & E)|(? & H5 & _)]; [|unfold attempt in H5; by destruct (create _ _ _ _ _ _ _ _ _ _ _ w4)].
  unfold attempt in H5. destruct (create _ _ _ _ _ _ _ _ _ _ _ w4) as [c w5'] eqn:Ec. injection H5 as <- <-.
  apply mt_create_run in Ec as (Hf & Hc); [|apply Hw4]. destruct c as [a|e].
  - right. destruct Hc as [[_ ?]|(Hb & _ & Ha)]; [done|]. specialize (Ha _ eq_refl). subst a.
    assert (ok w5') as Hw5 by (eapply append_ok; [|exact Hf|exact Hb|exact Hw4]; done).
    apply (mt_finish_run _ _ _ _ _ _ _ (proxy_rows w4)) in E as (H1 & [H2 H3] & b & [_ Hb'] & Hid & Hidr & Hp); [|split; [apply Hw5|unfold proxy_rows; by rewrite Hb]|done|by eapply unserved_files|lia].
    split; [done|]. split; [split; [done|by rewrite H2]|]. exists b. split; [rewrite Hb'; apply elem_of_app; right; by apply list_elem_of_singleton|].
    split; [congruence|exact Hp].
  - left. destruct e; try done. apply (shown_again_quiet _ _ _ _ _ Hq). destruct Hc as [[Hb _]|(_ & ? & _)]; [|done].
    assert (quiet w4 w5') as Hq5 by done. apply (shown_again_quiet _ _ _ _ _ Hq5). apply (refused_run p) in E; [done|]. by eapply quiet_accounted.
Qed.
Lemma mt_mutation_same w : (mt_require_mutation (X := X) w).2 = w.
Proof. unfold mt_require_mutation, socks_state, bind, gets. by destruct (require_mutation_allowed _ _). Qed.
Lemma mt_enabled_same w : (mt_ensure_enabled (X := X) menv w).2 = w.
Proof. unfold mt_ensure_enabled. by repeat case_match. Qed.

(** C12 An MTProto access that is handed out works. When [issue_mtproto_proxy] returns in the
    managed mode, the owner is not blocked, the actor is the owner or a superadmin, and
    the access is an active row of the owner's. Either the row was there before, and the
    proxy's files are as they were; or it is new, and the proxy is running, with what its
    document says: a secret with the fingerprint of the link's among them, and in the
    document the secrets of the active rows and no others. That a restart which succeeds
    starts the proxy with the document, and that a port which listens is the proxy's, is
    what is relied upon. *)
Theorem issued_mtproto_proxy_works actor p w r w' : mp_managed st = true -> mt_accounted st w -> 0 <= sr_seq (bt_proxies (bw_tables w)) ->
  issue_mtproto_proxy (X := X) env menv actor p w = (Ok r, w') -> may_issue actor (pf_id p) false w /\ (shown_again p r w w' \/ newly_given p r w').
Proof.
  intros Hm Hw Hseq. unfold issue_mtproto_proxy. rewrite Hm. intros [([] & w1 & H1 & E)|(? & _ & ?)]%bind_inv; [|done].
  assert (w1 = w) as -> by (pose proof (mt_enabled_same w) as Hs; by rewrite H1 in Hs). clear H1.
  apply bind_inv in E as [([] & w1 & H1 & E)|(? & _ & ?)]; [|done].
  assert (w1 = w) as -> by (pose proof (mt_mutation_same w) as Hs; by rewrite H1 in Hs). clear H1. unfold issue_managed, managed_adapter in E.
  destruct (mp_adapter _); [|done]. apply bind_inv in E as [([] & w1 & H1 & E)|(? & _ & ?)]; [|done]. injection H1 as <-.
  apply bind_inv in E as [([] & w1 & H1 & E)|(? & _ & ?)]; [|done]. split; [by eapply can_issue_run|].
  pose proof (keeps_run _ _ _ _ _ (quiet_can_issue env _ _) H1) as Hq. clear H1.
  assert (forall v, quiet w v -> ok v /\ 0 <= sr_seq (bt_proxies (bw_tables v))) as Hok by (intros v Hv; split; [by eapply quiet_accounted|by rewrite (proj1 Hv)]).
  apply existing_run in E as [E|(w2 & Hq2 & E)]; [left; by eapply shown_again_quiet| |by apply Hok]. pose proof (transitivity Hq Hq2) as Hq'. clear Hq Hq2.
  apply bind_inv in E as [([] & w3 & H3 & E)|(? & _ & ?)]; [|done]. pose proof (transitivity Hq' (keeps_run _ _ _ _ _ quiet_mutation H3)) as Hq. clear H3 Hq'.
  apply existing_run in E as [E|(w4 & Hq4 & E)]; [left; by eapply shown_again_quiet| |by apply Hok]. pose proof (transitivity Hq Hq4) as Hq'.
  destruct (Hok _ Hq') as [Hw4 Hseq4]. apply mt_new_run in E as [E|E]; [left; by eapply shown_again_quiet|by right|done|done].
Qed.
End Issue.
