(* ===== verification/MtProtoService.v ===== *)
(** * MTProto accesses over time

    Every sequence of what is asked of the MTProto service leaves each secret that the
    proxy serves with a row that speaks for it; and a secret that is revoked is no longer
    served. *)

From S2P Require Import Prelude PyText Json IsoTime Triples AwgConfig VpnKeys BackendHealth AwgService KeyRows BotDb Accounts AccountSafety BlockSafety DanteUsers ProxyRows Socks5 ProxySafety MtProxy MtProto MtProxySafety MtProxyProcess MtProtoSafety MtProtoAccess MtProtoProcess MtProtoStartup.
#[local] Open Scope Z_scope.

(** ** Everything that is asked of the service *)

Inductive mt_op :=
  | IssueMt (actor : Z) (p : profile) | ShowMt (actor : Z) | ListMt (actor : Z) | CountMt
  | RevokeMt (actor id : Z) (reason : option str) | RevokeMtSystem (actor id : Z) (reason : option str)
  | DeleteMt (actor id : Z) (reason : option str) | StartUpMt.

Section Run.
Context {X : Type} `{HS : Part X socks_host} `{HM : Part X mt_host} (env : bot_env) (menv : mtproto_env).
Abbreviation BM := (M (bot_world X) bot_error) (only parsing).
Definition perform_mt (op : mt_op) : BM unit :=
  match op with
  | IssueMt a p => discard (issue_mtproto_proxy env menv a p)
  | ShowMt a => discard (get_mtproto_proxy_config env menv a)
  | ListMt a => discard (list_user_mtproto_accesses env a)
  | CountMt => discard (runtime_secret_count menv)
  | RevokeMt a id r => discard (revoke_mtproto_proxy env menv a id r)
  | RevokeMtSystem a id r => discard (revoke_mtproto_proxy_system env menv a id r)
  | DeleteMt a id r => discard (delete_mtproto_proxy env menv a id r)
  | StartUpMt => discard (reconcile_mtproto_state env menv)
  end.
Fixpoint mt_run (ops : list mt_op) (w : bot_world X) : bot_world X :=
  match ops with [] => w | op :: rest => mt_run rest (perform_mt op w).2 end.
End Run.

Section Service.
Context {X : Type} `{HS : Part X socks_host} `{HM : Part X mt_host} `{!Apart X socks_host mt_host} (env : bot_env) (menv : mtproto_env).
Implicit Types w : bot_world X.
Abbreviation st := (me_settings menv) (only parsing).
Abbreviation xenv := (me_proxy menv) (only parsing).
Context `{!MtHelper xenv}.
Abbreviation ok := (mt_accounted st) (only parsing).

Lemma quiet_count : keeps quiet (runtime_secret_count (X := X) menv).
Proof. unfold runtime_secret_count, read_current_managed_secrets. keeps_tac. Qed.
Lemma startup_ok : steady ok (reconcile_mtproto_state (X := X) env menv).
Proof.
  unfold reconcile_mtproto_state. case_match; [apply steady_ret|]. apply steady_bind.
  - eapply triple_weaken; [apply (body_triple env menv)|done|by intros o w [? _]|done].
  - intros o. apply steady_bind; [|intros s; apply steady_bind; [|intros u; apply steady_ret]].
    + destruct (o.2); [|apply steady_ret]. apply steady_bind; [apply quiet_ok, quiet_degrade|intros u]. apply steady_bind; [apply quiet_ok, quiet_audit_all|intros u'; apply steady_ret].
    + case_match; [apply quiet_ok, quiet_audit_all|apply steady_ret].
Qed.
Lemma perform_mt_ok op w : ok w -> ok (perform_mt env menv op w).2.
Proof.
  assert (forall A (m : M (bot_world X) bot_error A), steady ok m -> ok w -> ok (discard m w).2) as Hd.
  { intros A m Hm Hw. rewrite discard_run. exact (steady_run _ _ _ _ _ Hm (surjective_pairing _) Hw). }
  intros Hw. destruct op as [a p|a|a| |a id r|a id r|a id r|]; cbn [perform_mt]; apply Hd; try exact Hw.
  - apply mt_issue_ok; apply _.
  - apply mt_show_ok; apply _.
  - apply quiet_ok, quiet_list.
  - apply quiet_ok, quiet_count.
  - apply steady_bind; [apply quiet_ok, quiet_superadmin|]. intros u. apply mt_revoke_ok; apply _.
  - apply mt_revoke_ok; apply _.
  - apply mt_delete_ok; apply _.
  - apply startup_ok.
Qed.

(** No secret without a row. Whatever is asked of the service, in whatever order, and
    whichever statement, write or command fails: a secret the MTProto proxy serves
    has the fingerprint of a managed row that is not revoked, inactive or deleted. *)
Theorem mtproto_secrets_are_accounted ops w : mt_accounted st w -> mt_accounted st (mt_run env menv ops w).
Proof.
  revert w. induction ops as [|op ops IH]; intros w Hw; [done|]. by apply IH, perform_mt_ok.
Qed.

(** C11 A revoked secret is withdrawn. When the revocation of an access of the managed mode
    returns, access could exist before, and the proxy was down or ran with what its
    document says, then the row is closed, the document holds the secrets of the rows
    that are still active, and no others, and so does the running proxy, but for the
    stand-in of an empty set. What is relied upon: a restart that succeeds has stopped the
    old process, a port that listens is the proxy's, and the helper says that it has
    applied the files when the proxy runs with them. *)
Theorem revoked_secret_is_withdrawn `{!MtService xenv} actor id reason w a r w' : mt_accounted st w -> a ∈ proxy_rows w -> px_id a = id ->
  may_exist a = true -> is_managed a = true -> fresh w -> revoke_mtproto_proxy_system env menv actor id reason w = (Ok r, w') ->
  px_id r = id /\ (forall b, b ∈ proxy_rows w' -> px_id b = id -> may_exist b = false) /\ fresh w'
  /\ exists secrets, managed_secrets_from_accesses st (actives w') = Ok secrets /\ serves (mf_store (files w')) secrets /\ serves_now w' secrets.
Proof.
  intros Hw Ha Hid Hx Hm Hf E. pose proof (revoke_triple env menv actor id reason (fun b => b = a) w) as H.
  pose proof (triple_run _ _ _ _ _ _ _ (returns_revoke env menv actor id reason) Hf E) as Hf'.
  unfold revoke_mtproto_proxy_system in E. rewrite E in H. destruct H as [[[_ Hc] Hs] Hr].
  - split; [done|]. intros b Hb Hidb. eapply one_row; [apply Hw|done|done|congruence].
  - split; [done|]. split; [exact Hc|]. split; [exact Hf'|]. destruct Hs as (secrets & Hl & Hserves); [by intros b ->|]. exists secrets.
    split; [done|]. split; [done|]. by apply fresh_serves.
Qed.
End Service.
