(* ===== verification/ProxyTogether.v ===== *)
(** * Both proxy services at once

    [bot/app.py] hands the two services the same table of accesses, and the block of a
    user the revokers of both. Whatever is asked of either, in whatever order, what each
    promises holds; and a block withdraws from both servers what is the user's. *)

From S2P Require Import Prelude PyText Json IsoTime Triples AwgConfig VpnKeys BackendHealth AwgService KeyRows BotDb Accounts AccountSafety BlockSafety RequestSafety DanteUsers ProxyRows Socks5 ProxySafety ProxyStartup ProxyIssue ProxyBlock ProxyBeside MtProxy MtProto MtProxySafety MtProxyProcess MtProtoSafety MtProtoAccess ProxyServices MtProtoProcess MtProtoStartup MtProtoService.
#[local] Open Scope Z_scope.

Inductive proxy_op := SocksOp (op : socks_op) | MtOp (op : mt_op).

Section Together.
Context {X : Type} `{HS : Part X socks_host} `{HM : Part X mt_host} (env : bot_env) (senv : socks_env) (menv : mtproto_env).
Implicit Types w : bot_world X.
Abbreviation BM := (M (bot_world X) bot_error) (only parsing).
Abbreviation revoker := (Z -> Z -> BM unit) (only parsing).
Abbreviation st := (me_settings menv) (only parsing).
Abbreviation xenv := (me_proxy menv) (only parsing).

Definition perform_proxy (op : proxy_op) : BM unit :=
  match op with SocksOp op => perform_socks env senv op | MtOp op => perform_mt env menv op end.
Fixpoint proxies_run (ops : list proxy_op) w : bot_world X :=
  match ops with [] => w | op :: rest => proxies_run rest (perform_proxy op w).2 end.
(** What [attach_proxy_access_management] is given for MTPROTO. *)
Definition mt_revoker (actor id : Z) : BM unit :=
  discard (revoke_mtproto_proxy_system env menv actor id (Some (py "hard_block"))).
Definition attached : proxy_type -> option revoker :=
  with_socks5 env senv (fun t => match t with MTPROTO => Some mt_revoker | SOCKS5 => None end).

Context `{!Apart X socks_host mt_host} `{!Apart X mt_host socks_host}.
(** ** Each service beside the other *)

Lemma mt_op_beside before op w : accounted senv before w -> accounted senv before (perform_mt env menv op w).2.
Proof.
  assert (forall A (m : BM A), steady (accounted senv before) m -> accounted senv before w -> accounted senv before (discard m w).2) as Hd.
  { intros A m Hm Hw. rewrite discard_run. exact (steady_run _ _ _ _ _ Hm (surjective_pairing _) Hw). }
  intros Hw. destruct op as [a p|a|a| |a id r|a id r|a id r|]; cbn [perform_mt]; apply Hd; try exact Hw.
  - apply mt_still_issue; apply _.
  - apply still_show; apply _.
  - apply calm_ok. unfold list_user_mtproto_accesses, list_by_owner. keeps_tac.
  - apply calm_ok. unfold runtime_secret_count, read_current_managed_secrets, mt_lift, mt_raise. keeps_tac.
  - apply steady_bind; [apply calm_ok, unmoved_superadmin|]. intros u. apply still_revoke_any; apply _.
  - apply still_revoke_any; apply _.
  - apply still_delete; apply _.
  - apply still_startup; apply _.
Qed.
Lemma socks_op_beside op w : mt_accounted st w -> mt_accounted st (perform_socks env senv op w).2.
Proof.
  assert (forall A (m : BM A), steady (mt_accounted st) m -> mt_accounted st w -> mt_accounted st (discard m w).2) as Hd.
  { intros A m Hm Hw. rewrite discard_run. exact (steady_run _ _ _ _ _ Hm (surjective_pairing _) Hw). }
  intros Hw. destruct op as [a p|a|a|a id r|a id r|a id r|]; cbn [perform_socks]; apply Hd; try exact Hw.
  - apply socks_issue_beside; apply _.
  - apply socks_show_beside; apply _.
  - apply socks_list_beside; apply _.
  - apply steady_bind; [apply quiet_ok, quiet_superadmin|]. intros u. apply socks_revoke_beside; apply _.
  - apply socks_revoke_beside; apply _.
  - apply socks_delete_beside; apply _.
  - apply socks_startup_beside; apply _.
Qed.

Lemma proxies_run_ok before `{!LinuxTools senv} `{!MtHelper xenv} ops w : accounted senv before w -> mt_accounted st w ->
  accounted senv before (proxies_run ops w) /\ mt_accounted st (proxies_run ops w).
Proof.
  revert w. induction ops as [|op ops IH]; intros w Hs Hm; [done|].
  cbn [proxies_run]. apply IH; destruct op as [op|op]; cbn [perform_proxy].
  - by apply (perform_socks_ok env senv before).
  - by apply mt_op_beside.
  - by apply socks_op_beside.
  - by apply (perform_mt_ok env menv).
Qed.

(** A proxy that is down, or runs with its document, goes on so. *)
Lemma proxy_op_fresh `{!MtRecovers xenv} op w : fresh w -> fresh (perform_proxy op w).2.
Proof.
  assert (forall A (m : BM A), keeps stays_fresh m -> fresh w -> fresh (discard m w).2) as Hd by (intros A m Hm Hw; rewrite discard_run; by apply Hm).
  intros Hw. destruct op as [[a p|a|a|a id r|a id r|a id r|]|[a p|a|a| |a id r|a id r|a id r|]]; cbn [perform_proxy perform_socks perform_mt]; apply Hd; try exact Hw.
  - apply ride_socks_issue; apply _.
  - apply ride_socks_show; apply _.
  - apply ride_socks_list; apply _.
  - apply keeps_bind; [apply _|apply near_superadmin; apply _|intros u; apply ride_socks_revoke; apply _].
  - apply ride_socks_revoke; apply _.
  - apply ride_socks_delete; apply _.
  - apply ride_socks_startup; apply _.
  - apply ride_mt_issue; apply _.
  - apply ride_show; apply _.
  - apply ride_list; apply _.
  - apply ride_count; apply _.
  - apply keeps_bind; [apply _|apply near_superadmin; apply _|intros u; apply ride_revoke; apply _].
  - apply ride_revoke; apply _.
  - apply ride_delete; apply _.
  - apply ride_startup; apply _.
Qed.
Lemma proxies_run_fresh `{!MtRecovers xenv} ops w : fresh w -> fresh (proxies_run ops w).
Proof. revert w. induction ops as [|op ops IH]; intros w Hw; [done|]. by apply IH, proxy_op_fresh. Qed.

(** C8 Access to the proxies is accounted for. Whatever is asked of the two services, in
    whatever order, and whichever statement, write or command fails: a system user
    under the bot's prefix who can log in is the login of a SOCKS5 row that is not
    revoked, inactive or deleted, the other system users stay as they were, and a secret
    of the MTProto proxy's document has the fingerprint of such a row of the managed mode.
    Where no failure leaves the proxy running beside another document (a restart that
    fails has stopped it, a failing apply is rolled back from backups that can be read,
    and the helper does the like), a proxy that was down or ran with its document does so
    ever after, and a secret it runs with has such a row, too, or is the stand-in of an
    empty set. An operation that has begun is taken to come to an end: a bot that is
    killed in the middle of an apply is not spoken of. *)
Theorem proxy_services_stay_accounted `{!LinuxTools senv} `{!MtHelper xenv} ops w :
  accounted senv (system_users w) w -> mt_accounted st w ->
  accounted senv (system_users w) (proxies_run ops w) /\ mt_accounted st (proxies_run ops w)
  /\ (MtRecovers xenv -> fresh w -> fresh (proxies_run ops w) /\ running_covered st (proxies_run ops w)).
Proof.
  intros Hs Hm. destruct (proxies_run_ok (system_users w) ops w Hs Hm) as [Hs' Hm']. split; [exact Hs'|]. split; [exact Hm'|].
  intros Hr Hf. pose proof (proxies_run_fresh ops w Hf) as Hf'. split; [exact Hf'|]. by apply fresh_covered.
Qed.

(** ** The block of a user *)

Lemma mt_revoker_still before actor id w : accounted senv before w -> accounted senv before (mt_revoker actor id w).2.
Proof. apply (mt_op_beside before (RevokeMtSystem actor id (Some (py "hard_block")))). Qed.
Lemma mt_revoker_ok `{!MtHelper xenv} actor id w : mt_accounted st w -> mt_accounted st (mt_revoker actor id w).2.
Proof. by apply (perform_mt_ok env menv (RevokeMtSystem actor id (Some (py "hard_block")))). Qed.
Lemma socks_revoker_beside actor id w : mt_accounted st w -> mt_accounted st (socks_revoker env senv actor id w).2.
Proof. apply (socks_op_beside (RevokeSocksSystem actor id (Some (py "hard_block")))). Qed.
#[local] Instance proxies_only_calm : Calm (X := X) proxies_only.
Proof.
  split; try by intros; apply proxies_only_about.
  - apply proxies_only_pre.
  - intros A f w. by apply proxies_only_about.
  - intros f w. by split.
  - intros reason w. by apply proxies_only_about.
Qed.
#[local] Instance proxies_only_applies : Applies (X := X) xenv proxies_only.
Proof. apply any_host_applies; [apply _|]. intros h w. by apply proxies_only_about. Qed.
Lemma mt_revoker_only actor id : keeps proxies_only (mt_revoker actor id).
Proof.
  pose proof (fun i s t0 e0 r0 => proxies_only_set_status (X := X) env i s t0 e0 r0). pose proof (fun i a t0 r0 => proxies_only_revoked (X := X) env i a t0 r0).
  assert (forall i a t0 r0, keeps proxies_only (mark_inactive (X := X) env i a t0 r0)).
  { intros i a t0 r0. unfold mark_inactive, transition. pose proof (fun p => proxies_only_update (X := X) env p (withdrawn ProxyInactive false a t0 r0) (fun b => eq_refl)). keeps_tac. }
  unfold mt_revoker, revoke_mtproto_proxy_system, revoke_mtproto, revoke_managed, deactivate_static, remove_secret, discard. keeps_tac.
Qed.
Definition nobody : proxy_type -> option revoker := fun _ => None.
Definition mt_only : proxy_type -> option revoker := fun t => match t with MTPROTO => Some mt_revoker | SOCKS5 => None end.
#[local] Instance mt_only_modest keys : ModestRevokers keys nobody -> ModestRevokers keys mt_only.
Proof. intros [Hk _]. split; [exact Hk|]. intros t f actor id. destruct t; [done|]. cbn. intros [= <-]. apply mt_revoker_only. Qed.
#[local] Instance mt_only_still before keys : Bystanders (accounted senv before) keys nobody -> Bystanders (accounted senv before) keys mt_only.
Proof. intros [Hk _]. split; [exact Hk|]. intros t f actor id w. destruct t; [done|]. cbn. intros [= <-]. apply mt_revoker_still. Qed.
#[local] Instance attached_minds `{!MtHelper xenv} keys : Bystanders (mt_accounted st) keys nobody -> Bystanders (mt_accounted st) keys attached.
Proof.
  intros [Hk _]. split; [exact Hk|]. intros t f actor id w. destruct t; cbn; intros [= <-]; [apply socks_revoker_beside|apply mt_revoker_ok].
Qed.

#[local] Instance attached_fresh `{!MtRecovers xenv} keys : Bystanders (fresh (X := X)) keys nobody -> Bystanders (fresh (X := X)) keys attached.
Proof.
  intros [Hk _]. split; [exact Hk|]. intros t f actor id w. destruct t; cbn; intros [= <-].
  - apply (proxy_op_fresh (SocksOp (RevokeSocksSystem actor id (Some (py "hard_block"))))).
  - apply (proxy_op_fresh (MtOp (RevokeMtSystem actor id (Some (py "hard_block"))))).
Qed.
(** The row of a secret, after a block. *)
Definition spared (target : Z) (res : block_result) (fp : str) w' : Prop :=
  exists a, a ∈ proxy_rows w' /\ px_type a = MTPROTO /\ access_fingerprint st a = Ok fp
    /\ (px_owner a <> target \/ reported is_proxy (br_errors res) (px_id a)).

(** C9 A block withdraws the user's access to the proxies, or says which it does not.
    After [block_user] has returned, with the revokers of both services attached and at
    most 500 of the user's accesses left open, a login of the bot's that works, and a
    secret of the MTProto proxy's document, belong to a row of somebody else, or to one
    that the result of the block names among its errors; and so does a secret the proxy
    runs with, but for the stand-in of an empty set, where no failure leaves it running
    beside another document and it was down or ran with its own before. The revokers of
    the keys are taken to leave the tables of users and accesses, the system users, the
    files and the proxy alone. *)
Theorem block_withdraws_the_proxies `{!LinuxTools senv} `{!MtHelper xenv} keys `{!ModestRevokers keys nobody}
    `{!forall before, Bystanders (accounted senv before) keys nobody} `{!Bystanders (mt_accounted st) keys nobody} actor target w res w' :
  block_user env keys attached actor target true w = (Ok res, w') ->
  accounted senv (system_users w) w -> mt_accounted st w -> (length (live_proxies w' target) <= 500)%nat ->
  (forall login u, managed senv login = true -> system_users w' !! login = Some u -> can_log_in u = true ->
     exists a, a ∈ proxy_rows w' /\ px_type a = SOCKS5 /\ row_login a = login
       /\ (px_owner a <> target \/ reported is_proxy (br_errors res) (px_id a)))
  /\ (forall s, s ∈ served w' -> spared target res (ms_fingerprint s) w')
  /\ (MtRecovers xenv -> Bystanders (fresh (X := X)) keys nobody -> fresh w ->
       fresh w' /\ forall x, x ∈ running w' -> stands_in w' x \/ exists s, ms_secret s = x /\ spared target res (ms_fingerprint s) w').
Proof.
  intros E Hs Hm Hlen. split; [intros login u; by apply (block_shuts_socks_logins env senv keys mt_only actor target w res w' login u E)|].
  assert (forall v v', aside v v' -> mt_accounted st v -> mt_accounted st v') as Haside.
  { intros v v' [H1 H2]. apply quiet_accounted. split; [done|]. unfold files. by rewrite H2. }
  assert (forall s, s ∈ served w' -> spared target res (ms_fingerprint s) w') as Hall.
  { pose proof (keeps_run _ _ _ _ _ (minds_block env _ Haside keys attached actor target true) E Hm) as [_ Hw]. intros s Hin.
    destruct (Hw s Hin) as (id & a & Ha & _ & Ht & _ & Hf & Hx). exists a. do 3 (split; [done|]).
    destruct (decide (px_owner a = target)) as [Ho|]; [right|by left].
    apply (block_run env keys attached) in E as (_ & _ & Hrep). apply Hrep; [done|done|].
    by apply live_row. }
  split; [exact Hall|]. intros Hr Hb Hf. assert (forall v v' : bot_world X, aside v v' -> fresh v -> fresh v') as Haside'.
  { intros v v' [_ Haw]. unfold fresh. by rewrite Haw. }
  pose proof (keeps_run _ _ _ _ _ (minds_block env _ Haside' keys attached actor target true) E Hf) as Hf'. split; [exact Hf'|].
  intros x [(s & Hin & Hx)|Hst]%(fresh_running w' x Hf'); [right; exists s; auto|by left].
Qed.
End Together.
