(* ===== verification/BotScenarios.v ===== *)
(** * The bot on small worlds

    The theorems of [AccountSafety], [BlockSafety], [RequestSafety] and of the Hysteria2
    files, applied to concrete databases. *)

From S2P Require Import Prelude PyText Json IsoTime AwgConfig VpnKeys BackendHealth AwgService BotDb Accounts AccountSafety BlockSafety RequestSafety Hysteria HysteriaAccess HysteriaIssue HysteriaStore TrialAccess TrialSafety.
#[local] Open Scope Z_scope.
#[local] Existing Instance plain_iso.

(** A superadmin, a user, somebody who asks for access, and a Hysteria2 key each for
    the first two. *)
Definition example_account (id : Z) (role : user_role) : account := new_account id None None role (py "t").
Definition example_key (id owner : Z) (label secret : string) : vpn_key :=
  VpnKey id owner None HYSTERIA2 ACTIVE None (Some (py label)) None None (hysteria_payload (py secret) (py label))
    (hysteria_public_payload (py label)) (py "t") (py "t") None None None owner None None.
Definition example_tables : bot_tables :=
  BotTables (list_to_map [(1, example_account 1 SUPERADMIN); (2, example_account 2 APPROVED_USER); (3, example_account 3 PENDING_USER)])
    (Serial [AccessRequest 1 3 None RequestPending (py "t") None None] 1) (Serial [] 0) (Serial [] 0) (Serial [] 0).
Definition example_keys : key_table :=
  KeyTable [example_key 1 2 "anna" "one"; example_key 2 1 "root" "two"] 2 [] [] (fun _ => true) 0.
Definition example_world : bot_world unit := BotWorld example_tables example_keys [] [] [] tt 0.
Definition example_env : bot_env := BotEnv (fun _ => true) (fun n => [N.of_nat n]) (fun _ => true) [1].
Definition example_henv : hysteria_env :=
  HysteriaEnv (HysteriaSettings true (py "host") (py "sni") 443 true) (fun _ => Ok true)
    (fun n => py "new") (fun n => py "secret") (fun _ => true).
Definition example_revokers := with_hysteria (X := unit) example_env example_henv (fun _ => None).
Definition example_proxies : proxy_type -> option (Z -> Z -> M (bot_world unit) bot_error unit) := fun _ => None.
#[local] Instance example_modest : ModestRevokers (fun _ => None) example_proxies.
Proof. by split. Qed.
Definition token (s : string) : option json := Some (JObj [(py "auth", JStr (py s))]).

Lemma roles_change_by_authority_witness :
  let op := BlockUser 1 2 true in
  role_in (perform example_env example_revokers example_proxies op example_world).2 2 = Some BLOCKED_USER
  /\ authorised example_env example_world op 2 (Some BLOCKED_USER).
Proof.
  split; [vm_compute; reflexivity|].
  apply (roles_change_by_authority example_env example_revokers example_proxies (BlockUser 1 2 true) example_world 2).
  vm_compute. discriminate.
Defined.

Lemma block_ends_witness : (block_user example_env example_revokers example_proxies 1 2 true example_world).1 <> Err Unfinished.
Proof. apply (block_ends example_env example_revokers example_proxies 1 2 true example_world). Defined.

Abbreviation example_block := (block_user example_env example_revokers example_proxies 1 2 true example_world).
(** Whatever the revoker does, what it leaves is named: here it cannot be reached. *)
Definition deaf_revokers : key_type -> option (Z -> Z -> M (bot_world unit) bot_error unit) :=
  fun t => match t with HYSTERIA2 => Some (fun _ _ => raise NotWired) | _ => None end.
#[local] Instance deaf_modest : ModestRevokers deaf_revokers example_proxies.
Proof. split; [|done]. intros t f actor id. destruct t; intros [= <-] w. reflexivity. Qed.
Abbreviation deaf_block := (block_user example_env deaf_revokers example_proxies 1 2 true example_world).

(** A page is 500 rows. With as many keys that cannot be revoked, the next listing is
    the same page: the key after it is not tried and not reported. *)
Definition crowd_key (n : nat) : vpn_key :=
  VpnKey (Z.of_nat n) 2 None HYSTERIA2 ACTIVE None (Some [N.of_nat n]) None None [] [] (py "t") (py "t") None None None 2 None None.
Definition crowded_world : bot_world unit :=
  BotWorld example_tables
    (KeyTable (map crowd_key (seq 1 501)) 501 [] [] (fun _ => true) 0) [] [] [] tt 0.
Example keys_past_the_page_are_missed :
  match (block_user example_env deaf_revokers example_proxies 1 2 true crowded_world).1 with
  | Ok res => length (br_errors res) = 500%nat /\ existsb (fun e => oe_id e =? 501) (br_errors res) = false
  | Err _ => False
  end.
Proof. vm_compute. split; reflexivity. Qed.

(** Access is asked for, granted, blocked and asked for again. *)
Definition example_ops : list account_op :=
  [RequestAccess (Profile 4 None None); Approve 1 1; BlockUser 1 3 true; UnblockUser 1 3; AccountSafety.Reject 1 2].
Lemma example_tables_ok : tables_ok (bw_tables example_world).
Proof.
  split.
  - intros id a Ha. unfold account_ok. cbn in Ha.
    repeat (apply lookup_insert_Some in Ha as [[<- <-]|[_ Ha]]; [split; [done|]; split; [done|by intros [? ?]]|]). by rewrite lookup_empty in Ha.
  - split; cbn.
    + apply NoDup_singleton.
    + by repeat constructor.
    + apply NoDup_singleton.
    + by repeat constructor.
Qed.
Lemma tables_stay_well_formed_witness :
  let w' := fold_left (fun w op => (perform example_env example_revokers example_proxies op w).2) example_ops example_world in
  map rq_status (sr_rows (bt_requests (bw_tables w'))) = [RequestApproved; RequestRejected] /\ tables_ok (bw_tables w').
Proof.
  split; [vm_compute; reflexivity|].
  apply (tables_stay_well_formed example_env example_revokers example_proxies example_ops example_world). exact example_tables_ok.
Defined.

Lemma approval_is_whole_witness :
  match approve example_env 1 1 example_world with
  | (Ok (q', changed), w') => changed = true /\ role_in w' 3 = Some APPROVED_USER
      /\ exists q, q ∈ sr_rows (bt_requests example_tables) /\ rq_id q = 1 /\ is_pending q = changed
  | _ => False
  end.
Proof.
  assert (role_in (approve example_env 1 1 example_world).2 3 = Some APPROVED_USER) as H1 by (vm_compute; reflexivity).
  assert (match (approve example_env 1 1 example_world).1 with Ok (_, b) => b = true | _ => False end) as H2 by (vm_compute; reflexivity).
  destruct (approve example_env 1 1 example_world) as [[[q' ch]|e] w'] eqn:E; [|exact (False_ind _ H2)].
  split; [exact H2|]. split; [exact H1|].
  pose proof (approval_is_whole example_env 1 1 example_world _ _ example_tables_ok E) as (q & Hq & Hid & Hp & _).
  exists q. exact (conj Hq (conj Hid Hp)).
Defined.

(** ** Hysteria2 *)

(** The texts of a table are what its rows were given. *)
Definition row_texts_ok (k : vpn_key) : bool :=
  match row_secret k with
  | Some (_, secret) => forallb (fun c => (c <? 1114112)%N) secret && negb (existsb surrogate secret)
  | None => true
  end.
Lemma rows_plain rows : forallb row_texts_ok rows = true -> plain_secrets rows /\ texts_of rows.
Proof.
  intros H. rewrite forallb_forall in H.
  assert (plain_secrets rows) as Hp.
  { intros k label secret Hk Hs. apply list_elem_of_In, H in Hk. unfold row_texts_ok in Hk. rewrite Hs in Hk.
    apply andb_true_iff in Hk as [Hc Hsur]. split; [|by apply negb_true_iff].
    rewrite forallb_forall in Hc. apply Forall_elem. intros c Hin%list_elem_of_In%Hc. by apply N.ltb_lt. }
  split; [done|]. intros k label secret Hk Hs. by destruct (Hp k label secret Hk Hs).
Qed.
Definition body_ok (body : option json) : bool :=
  match incoming_of body with Some t => forallb (fun c => (c <? 1114112)%N) t | None => true end.
Lemma body_texts body : body_ok body = true -> forall t, incoming_of body = Some t -> Forall code_point t.
Proof.
  unfold body_ok. intros H t Ht. rewrite Ht in H. rewrite forallb_forall in H. apply Forall_elem.
  intros c Hc%list_elem_of_In%H. by apply N.ltb_lt.
Qed.

Lemma token_accepted_iff_active_witness :
  auth_handler (Ok (kt_rows example_keys)) (token "one") = Accept (py "anna")
  /\ (exists t k, incoming_of (token "one") = Some t /\ k ∈ kt_rows example_keys /\ carries t (py "anna") k)
  /\ (exists label, auth_handler (Ok (kt_rows example_keys)) (token "two") = Accept label)
  /\ auth_handler (Ok (kt_rows example_keys)) (token "three") = Reject.
Proof.
  assert (plain_secrets (kt_rows example_keys) /\ texts_of (kt_rows example_keys)) as [Hp Ht] by (apply rows_plain; vm_compute; reflexivity).
  split; [vm_compute; reflexivity|]. split; [|split; [|vm_compute; reflexivity]].
  - apply (token_accepted_iff_active (kt_rows example_keys) (token "one") Ht); [apply body_texts; vm_compute; reflexivity|vm_compute; reflexivity].
  - destruct (token_accepted_iff_active (kt_rows example_keys) (token "two") Ht) as (_ & H & _); [apply body_texts; vm_compute; reflexivity|].
    apply (H Hp (py "two") (py "root") (example_key 2 1 "root" "two")); [vm_compute; reflexivity|right; left|].
    split; [reflexivity|]. split; [reflexivity|vm_compute; reflexivity].
Defined.

Abbreviation example_revocation := (run_revocation example_env example_henv (BySystem 1 (Some 1) (py "x")) example_world).
Lemma example_ids : NoDup (map k_id (kt_rows (bw_keys example_world))).
Proof. repeat constructor; set_solver. Qed.
Lemma revocation_is_immediate_witness :
  match example_revocation with
  | (Ok _, w') => auth_handler (Ok (kt_rows (bw_keys w'))) (token "one") = Reject
      /\ exists t k, carries t (py "root") k /\ k ∈ kt_rows (bw_keys w') /\ k_id k <> 1
  | _ => False
  end.
Proof.
  assert (forallb row_texts_ok (kt_rows (bw_keys example_revocation.2)) = true) as H1 by (vm_compute; reflexivity).
  assert (auth_handler (Ok (kt_rows (bw_keys example_revocation.2))) (token "one") = Reject) as H2 by (vm_compute; reflexivity).
  assert (auth_handler (Ok (kt_rows (bw_keys example_revocation.2))) (token "two") = Accept (py "root")) as H3 by (vm_compute; reflexivity).
  assert (is_ok example_revocation.1 = true) as H0 by (vm_compute; reflexivity).
  destruct example_revocation as [[u|e] w'] eqn:E; [|discriminate H0]. split; [exact H2|]. 
  apply (revocation_is_immediate example_env example_henv (BySystem 1 (Some 1) (py "x")) example_world w' u (token "two") (py "root"));
    [exact example_ids|exact (proj2 (rows_plain _ H1))|apply body_texts; vm_compute; reflexivity|exact E|exact H3].
Defined.

Definition example_request : hysteria_request := HysteriaRequest 1 2 None None None false.
Abbreviation example_issue := (issue example_env example_henv example_request example_world).

Lemma blocked_users_are_shut_out_witness :
  match example_block with
  | (Ok res, w') => auth_handler (Ok (kt_rows (bw_keys w'))) (token "one") = Reject
      /\ exists t k, carries t (py "root") k /\ k ∈ kt_rows (bw_keys w')
           /\ (k_owner k <> 2 \/ reported is_vpn (br_errors res) (k_id k))
  | _ => False
  end.
Proof.
  assert (forallb row_texts_ok (kt_rows (bw_keys example_block.2)) = true) as H1 by (vm_compute; reflexivity).
  assert (length (live_keys example_block.2 2) <= 500)%nat as H2 by (vm_compute; lia).
  assert (auth_handler (Ok (kt_rows (bw_keys example_block.2))) (token "one") = Reject) as H3 by (vm_compute; reflexivity).
  assert (auth_handler (Ok (kt_rows (bw_keys example_block.2))) (token "two") = Accept (py "root")) as H4 by (vm_compute; reflexivity).
  assert (is_ok example_block.1 = true) as H0 by (vm_compute; reflexivity).
  destruct example_block as [[res|e] w'] eqn:E; [|discriminate H0]. split; [exact H3|]. 
  apply (blocked_users_are_shut_out example_env example_henv (fun _ => None) example_proxies 1 2 example_world res w' (token "two") (py "root"));
    [exact E|exact H2|exact (proj2 (rows_plain _ H1))|apply body_texts; vm_compute; reflexivity|exact H4].
Defined.

(** The file is replaced between two requests: the second is answered from the new one. *)
Definition file_at (n : nat) : Z := if (n <? 2)%nat then 1 else 2.
Definition example_disk : disk :=
  Disk (fun n => Some (file_at n)) (fun n => Some (file_at n))
    (fun _ f => Ok (if f =? 1 then [example_key 1 2 "anna" "one"] else [example_key 2 1 "root" "two"])).
Definition example_store : key_store := KeyStore (Some 1) (Some 1) 0 0.
Abbreviation after_first := (authenticate example_disk (token "one") example_store).
Lemma store_follows_the_file_witness :
  after_first.1 = Ok (Accept (py "anna"))
  /\ exists i reply s', authenticate example_disk (token "two") after_first.2 = (Ok reply, s')
       /\ (2 <= i)%nat /\ reply = auth_handler (answer example_disk i 2) (token "two") /\ reply = Accept (py "root").
Proof.
  split; [vm_compute; reflexivity|].
  assert (steady example_disk 2 (ks_tick after_first.2)) as Hs.
  { intros i Hi. change (2 <= i)%nat in Hi. unfold example_disk, file_at. cbn [d_stat d_open].
    replace (i <? 2)%nat with false by (symmetry; apply Nat.ltb_ge; exact Hi). split; reflexivity. }
  assert (pinned 2 after_first.2) as Hp by (intros H; discriminate H).
  destruct (store_follows_the_file example_disk after_first.2 (token "two")) as (_ & _ & H).
  destruct (H 2 Hs Hp) as (i & reply & s' & E & Hi & Hr & _). exists i, reply, s'. split; [exact E|]. split; [exact Hi|].
  split; [exact Hr|]. rewrite Hr. vm_compute. reflexivity.
Defined.
(** The new file cannot be opened, and the old one is put back. *)
Definition stranding_disk : disk :=
  Disk (fun n => Some (match n with O => 2 | _ => 1 end)) (fun n => match n with S O => None | _ => Some 1 end)
    (fun _ _ => Ok [example_key 1 2 "anna" "one"]).
Example unopened_swap_strands_the_store_witness : reads stranding_disk 20 example_store = repeat false 20.
Proof.
  apply (unopened_swap_strands_the_store stranding_disk example_store 1 2 20); try reflexivity; [discriminate|].
  intros [|[|i]] Hi; [cbn in Hi; lia..|]. split; reflexivity.
Defined.

(** ** Trials *)

(** The third user has asked for a Hysteria2 key. *)
Definition no_services : key_services unit := KeyServices unit (fun _ _ => raise NotWired) (fun _ _ _ => raise NotWired).
#[local] Instance no_services_promise : TrialServices no_services.
Proof. split; try done. all: by intros; intros w. Qed.
Definition asked_tables : bot_tables :=
  BotTables (bt_users example_tables) (bt_requests example_tables)
    (Serial [TrialRequest 1 3 HYSTERIA2 RequestPending None [] None None] 1) (Serial [] 0) (Serial [] 0).
Definition trial_world (key_statements : nat -> bool) : bot_world unit :=
  BotWorld asked_tables (KeyTable (kt_rows example_keys) 2 [] [] key_statements 0) [] [] [] tt 0.
Abbreviation decide_first env world := (approve_trial_request env (with_hysteria_trials env example_henv no_services) None 1 1 world).

Lemma trial_is_granted_whole_witness :
  match decide_first example_env (trial_world (fun _ => true)) with
  | (Ok k, w') => k_id k = 3 /\ map tq_key (sr_rows (bt_trials (bw_tables w'))) = [Some 3]
      /\ exists q t, q ∈ sr_rows (bt_trials asked_tables) /\ tq_id q = 1 /\ granted (trial_world (fun _ => true)) q t k
  | _ => False
  end.
Proof.
  assert (match (decide_first example_env (trial_world (fun _ => true))).1 with Ok k => k_id k = 3 | _ => False end) as H1 by (vm_compute; reflexivity).
  assert (map tq_key (sr_rows (bt_trials (bw_tables (decide_first example_env (trial_world (fun _ => true))).2))) = [Some 3]) as H2 by (vm_compute; reflexivity).
  destruct (decide_first example_env (trial_world (fun _ => true))) as [[k|e] w'] eqn:E; [|exact (False_ind _ H1)].
  split; [exact H1|]. split; [exact H2|].
  assert (NoDup (map tq_id (sr_rows (bt_trials (bw_tables (trial_world (fun _ => true))))))) as Hids by apply NoDup_singleton.
  assert (accounts_ok (users_in (trial_world (fun _ => true)))) as Hacc by exact (proj1 example_tables_ok).
  assert (ids_given (bw_keys (trial_world (fun _ => true)))) as Hgiven by (repeat constructor; discriminate).
  destruct (trial_is_granted_whole example_env (with_hysteria_trials example_env example_henv no_services) None 1 1
    (trial_world (fun _ => true)) (Ok k) w' Hids Hacc Hgiven example_ids E) as [(q & k0 & t & Hq & Hid & _ & _ & Hg & _ & _ & [Hr|Hr])|(Hr & _)];
    [|discriminate Hr|discriminate Hr].
  exists q, t. injection Hr as ->. exact (conj Hq (conj Hid Hg)).
Defined.

(** A statement that fails last, when the new key is read back: the approval raises, the
    request is still pending, and the new key lets its token in. *)
Example read_back_failure_leaves_a_live_trial_key :
  let '(r, w') := decide_first example_env (trial_world (fun n => negb (n =? 5)%nat)) in
  is_ok r = false /\ map tq_status (sr_rows (bt_trials (bw_tables w'))) = [RequestPending]
  /\ auth_handler (Ok (kt_rows (bw_keys w'))) (token "secret") = Accept (py "new").
Proof. vm_compute. repeat split. Qed.
(** The audit row fails: the approval raises although the trial is granted, and nothing
    is sent to the user. *)
Definition audit_fails_env : bot_env :=
  BotEnv (fun n => negb (n =? 19)%nat) (be_now example_env) (fun _ => true) [1].
Example audit_failure_withholds_a_granted_key :
  let '(r, w') := approve_trial_request audit_fails_env (with_hysteria_trials audit_fails_env example_henv no_services)
    (Some (fun _ => true)) 1 1 (trial_world (fun _ => true)) in
  r = Err DbFault /\ map tq_status (sr_rows (bt_trials (bw_tables w'))) = [RequestApproved] /\ bw_told w' = [].
Proof. vm_compute. repeat split. Qed.

Lemma example_clock i j : (i <= j)%nat -> str_le (be_now example_env i) (be_now example_env j).
Proof.
  intros H. unfold str_le. cbn. destruct (N.eq_dec (N.of_nat i) (N.of_nat j)) as [->|Hne]; [by rewrite N.eqb_refl, orb_true_r|].
  by rewrite (proj2 (N.ltb_lt (N.of_nat i) (N.of_nat j))) by lia.
Qed.
Lemma trial_world_ok : trials_ok example_env (trial_world (fun _ => true)).
Proof.
  split; cbn; [apply NoDup_singleton|by repeat constructor|apply NoDup_singleton|by repeat constructor|].
  by intros q1 q2 ->%list_elem_of_singleton ->%list_elem_of_singleton.
Qed.
Definition example_trials : list trial_op :=
  [TRequest 2 HYSTERIA2; TRequest 2 HYSTERIA2; TApprove 1 2; TReject 1 1; TRequest 3 HYSTERIA2; TReset 1 2; TRequest 2 HYSTERIA2].
Lemma one_trial_per_quota_witness :
  let w' := fold_left (fun w op => (trial_perform example_env (with_hysteria_trials example_env example_henv no_services) None op w).2)
    example_trials (trial_world (fun _ => true)) in
  map (fun q => (tq_user q, tq_status q)) (sr_rows (bt_trials (bw_tables w')))
    = [(3, RequestRejected); (2, RequestApproved); (3, RequestPending); (2, RequestPending)]
  /\ trials_ok example_env w'.
Proof.
  split; [vm_compute; reflexivity|].
  apply (one_trial_per_quota example_env (with_hysteria_trials example_env example_henv no_services) None example_clock).
  exact trial_world_ok.
Defined.
(** A request made in the second of the reset is not counted: a second trial is granted. *)
Definition one_second_env : bot_env := BotEnv (fun _ => true) (fun _ => py "9") (fun _ => true) [1].
Example reset_second_is_not_counted :
  let w' := fold_left (fun w op => (trial_perform one_second_env (with_hysteria_trials one_second_env example_henv no_services) None op w).2)
    [TReset 1 2; TRequest 2 HYSTERIA2; TReject 1 1; TApprove 1 2; TRequest 2 HYSTERIA2] (trial_world (fun _ => true)) in
  map (fun q => (tq_user q, tq_status q)) (sr_rows (bt_trials (bw_tables w')))
    = [(3, RequestRejected); (2, RequestApproved); (2, RequestPending)].
Proof. vm_compute. reflexivity. Qed.
