(* ===== verification/ExpiryScenarios.v ===== *)
(** * The expiry job on small worlds

    The theorems of [ExpirySafety], applied to concrete tables, and two runs on which
    the job does less or more than it says. *)

From S2P Require Import Prelude PyText IsoTime AwgConfig VpnKeys BackendHealth AwgService BotDb Accounts AccountSafety HysteriaAccess Hysteria TrialAccess KeyExpiry ExpirySafety BotScenarios.
#[local] Open Scope Z_scope.
#[local] Existing Instance plain_iso.

Lemma expiry_column_round_trip_witness :
  column_of [7; 1] = py "1,7" /\ noted_at (Some (column_of [7; 1])) 1 = true /\ noted_at (Some (column_of [17])) 7 = false
  /\ with_threshold (Some (py "1,7")) 3 = Some (py "1,3,7")
  /\ exists l', with_threshold (Some (column_of [7; 1])) 3 = Some (column_of l') /\ forall x, x ∈ l' <-> x = 3 \/ x ∈ [7; 1].
Proof.
  assert (Forall lead_time [7; 1]) as Hl by (repeat constructor; lia). assert (lead_time 3) as Hd by (split; lia).
  split; [vm_compute; reflexivity|]. split; [vm_compute; reflexivity|]. split; [vm_compute; reflexivity|]. split; [vm_compute; reflexivity|].
  destruct (expiry_column_round_trip [7; 1] 3 Hl Hd) as [_ (l' & H1 & _ & H2)]. exists l'. exact (conj H1 H2).
Defined.

(** Keys of the second user that end at the given instants. *)
Definition ending_key (n : nat) (expires_at : str) : vpn_key :=
  VpnKey (Z.of_nat n) 2 None HYSTERIA2 ACTIVE None (Some [N.of_nat n]) None None [] [] (py "t") (py "t") None (Some expires_at) None 2 None None.
Definition expiry_world (keys : list vpn_key) (key_statements : nat -> bool) : bot_world expiry_state :=
  BotWorld example_tables (KeyTable keys (Z.of_nat (length keys)) [] [] key_statements 0) [] [] []
    (ExpiryState ∅ [] None) 0.
Definition all_sent : option (nat -> bool) := Some (fun _ => true).
Definition soon : str := [100000%N].
Definition soon_world : bot_world expiry_state := expiry_world [ending_key 1 soon; ending_key 2 [300000000000%N]] (fun _ => true).
Abbreviation one_run world := (notify_expiring_keys example_env [3; 1] all_sent world).

Lemma soon_world_ok : notices_ok soon_world.
Proof.
  split; [done| |constructor|].
  - intros id. left. apply lookup_empty.
  - by intros k d ?%elem_of_nil.
Qed.
Lemma reminders_go_out_once_witness :
  es_sent (bw_rest (one_run soon_world).2) = [(1, 1); (2, 3)]
  /\ notices_ok (one_run soon_world).2
  /\ es_sent (bw_rest (one_run (one_run soon_world).2).2) = [(1, 1); (2, 3)].
Proof.
  split; [vm_compute; reflexivity|]. split; [|vm_compute; reflexivity].
  apply (reminders_go_out_once example_env [3; 1] all_sent (fun _ => eq_refl) ltac:(repeat constructor; lia)
    soon_world (one_run soon_world).1 (one_run soon_world).2 soon_world_ok (surjective_pairing _)).
Defined.
(** The statement that marks the first reminder fails: the same run reminds of the same
    key again, at the next lead time. *)
Example unmarked_reminder_is_sent_twice_in_one_run :
  es_sent (bw_rest (one_run (expiry_world [ending_key 1 soon] (fun n => negb (n =? 1)%nat))).2) = [(1, 1); (1, 3)].
Proof. vm_compute. reflexivity. Qed.

(** Revocations: the first key cannot be revoked. *)
Definition no_other_services : key_type -> Z -> M (bot_world expiry_state) bot_error unit := fun _ _ => raise NotWired.
#[local] Instance no_other_services_promise : ExpiryRevokers no_other_services.
Proof. split; [|done]. intros t id w. done. Qed.
Definition past_world : bot_world expiry_state :=
  expiry_world [ending_key 1 []; ending_key 2 soon; ending_key 3 []] (fun _ => true).
Abbreviation one_pass world := (revoke_expired_keys example_env (with_hysteria_expiry example_env example_henv no_other_services) all_sent world).
Lemma past_ids : NoDup (ids_in past_world).
Proof. repeat constructor; set_solver. Qed.
Lemma expired_keys_are_accounted_for_witness :
  (one_pass past_world).1 = Ok 2%nat /\ bw_told (one_pass past_world).2 = [2; 2]
  /\ es_health (bw_rest (one_pass past_world).2) = None
  /\ exists revoked, length revoked = 2%nat /\ forall id, id ∈ revoked -> inactive id (kt_rows (bw_keys (one_pass past_world).2)).
Proof.
  assert ((one_pass past_world).1 = Ok 2%nat) as H1 by (vm_compute; reflexivity).
  split; [exact H1|]. split; [vm_compute; reflexivity|].
  pose proof (expired_keys_are_accounted_for example_env all_sent (with_hysteria_expiry example_env example_henv no_other_services)
    past_world _ _ past_ids (surjective_pairing (one_pass past_world))) as H.
  cbv zeta in H. rewrite H1 in H. destruct H as ((revoked & _ & H2 & H3) & _ & H4 & _). split; [exact H4|].
  exists revoked. split; [exact H2|exact H3].
Defined.

(** A pass takes the 100 keys that expired first. While those cannot be revoked, the next
    one is not reached, in this pass or in any later one. *)
Definition stuck_services (t : key_type) (id : Z) : M (bot_world expiry_state) bot_error unit :=
  if id <=? 100 then raise NotWired else with_hysteria_expiry example_env example_henv no_other_services t id.
Definition crowded_past : bot_world expiry_state :=
  expiry_world (map (fun n => ending_key n (if (n <=? 100)%nat then [] else [0%N])) (seq 1 101)) (fun _ => true).
Abbreviation stuck_pass world := (revoke_expired_keys (BotEnv (fun _ => true) (fun _ => [9%N]) (fun _ => true) [1]) stuck_services all_sent world).
Example later_keys_starve :
  let w' := (stuck_pass (stuck_pass crowded_past).2).2 in
  length (List.filter (status_in [ACTIVE]) (kt_rows (bw_keys w'))) = 101%nat
  /\ is_ok (stuck_services HYSTERIA2 101 crowded_past).1 = true.
Proof. vm_compute. split; reflexivity. Qed.
