(* ===== verification/ProxyScenarios.v ===== *)
(** * The SOCKS5 service on a small host

    The theorems of [ProxyStartup], [ProxyIssue] and [ProxyBlock] on a host whose
    programs do what their manual pages say, unless they are told to fail; and two runs
    after which a row says more than its system user can do. *)

From S2P Require Import Prelude PyText IsoTime AwgConfig VpnKeys BackendHealth AwgService BotDb Accounts AccountSafety BlockSafety DanteUsers ProxyRows Socks5 ProxySafety ProxyStartup ProxyIssue ProxyBlock BotScenarios.
#[local] Open Scope Z_scope.
#[local] Existing Instance plain_iso.

(** ** The host *)

Definition add_user (l : str) (us : linux_users) : option Z * linux_users :=
  match us !! l with Some _ => (Some 9, us) | None => (Some 0, <[l := LinuxUser None false]> us) end.
Definition set_password (l p : str) (us : linux_users) : option Z * linux_users :=
  match us !! l with Some _ => (Some 0, <[l := LinuxUser (Some p) false]> us) | None => (Some 1, us) end.
Definition lock_it (l : str) (us : linux_users) : option Z * linux_users :=
  match us !! l with Some u => (Some 0, <[l := LinuxUser (lu_password u) true]> us) | None => (Some 1, us) end.
Definition found_code (l : str) (us : linux_users) : Z := match us !! l with Some _ => 0 | None => 2 end.
Definition host_run (fails : dante_call -> bool) (n : nat) (c : dante_call) (us : linux_users) : option Z * linux_users :=
  if fails c then (Some 1, us)
  else match c with
       | Getent l | HelperExists l => (Some (found_code l us), us)
       | UserAdd _ l | HelperCreate l => add_user l us
       | ChPasswd input => match chpasswd_records input with [(l, Some p)] => set_password l p us | _ => (Some 1, us) end
       | HelperSetPassword l input => set_password l (removelast input) us
       | PasswdLock l | HelperLock l => lock_it l us
       | UserDel l | HelperDelete l => (Some 0, delete l us)
       end.
Definition host_settings : socks_settings :=
  SocksSettings true (py "proxy.example") (Some 1080) (py "vpn_") (py "/usr/sbin/nologin") (py "Proxy") [] false.
Definition host_env (fails : dante_call -> bool) : socks_env :=
  SocksEnv host_settings (host_run fails) (fun _ => py "failed") (fun n _ => show_Z (10000000 + Z.of_nat n)) (fun _ => py "hunter2").
Definition nothing_fails (c : dante_call) : bool := false.

Lemma add_user_other l l' us : l' <> l -> (add_user l us).2 !! l' = us !! l'.
Proof. intros H. unfold add_user. destruct (us !! l); [done|]. by apply lookup_insert_ne. Qed.
Lemma set_password_other l p l' us : l' <> l -> (set_password l p us).2 !! l' = us !! l'.
Proof. intros H. unfold set_password. destruct (us !! l); [|done]. by apply lookup_insert_ne. Qed.
Lemma lock_it_other l l' us : l' <> l -> (lock_it l us).2 !! l' = us !! l'.
Proof. intros H. unfold lock_it. destruct (us !! l); [|done]. by apply lookup_insert_ne. Qed.
Lemma set_password_done l p us : is_Some (us !! l) -> (set_password l p us).2 !! l = Some (LinuxUser (Some p) false).
Proof. intros [u Hu]. unfold set_password. rewrite Hu. apply lookup_insert_eq. Qed.
#[local] Instance host_tools fails : LinuxTools (host_env fails).
Proof.
  split; cbn [se_run host_env]; unfold host_run.
  - intros n c us l Hc. destruct (fails c); [done|]. destruct c; cbn in *; try done;
      try (by apply add_user_other || by apply lock_it_other || by apply set_password_other || by apply lookup_delete_ne).
    destruct (chpasswd_records _) as [|[l1 [p|]] [|r rest]]; try done. cbn in Hc. apply set_password_other. set_solver.
  - intros n c us l Hc. destruct (fails c); [done|].
    destruct Hc as [-> | ->]; cbn; unfold found_code; destruct (us !! l); cbn; split; try done; by intros _; eexists.
  - intros n l input p us Hl Hi. destruct (fails _); [done|]. rewrite Hi. intros _. by apply set_password_done.
  - intros n l p us Hl. destruct (fails _); [done|]. rewrite removelast_last. intros _. by apply set_password_done.
  - intros n c us l Hc. destruct (fails c); [done|].
    assert (forall r, r = add_user l us -> r.1 = Some 0 -> is_Some (r.2 !! l)) as H.
    { intros r ->. unfold add_user. destruct (us !! l); [done|]. intros _. exists (LinuxUser None false). apply lookup_insert_eq. }
    destruct Hc as [[sh ->]| ->]; by apply H.
  - intros n c us l Hc. destruct (fails c); [done|].
    assert (forall r, r = lock_it l us -> r.1 = Some 0 -> forall u, r.2 !! l = Some u -> can_log_in u = false) as H.
    { intros r ->. unfold lock_it. destruct (us !! l); [|done].
      intros _ u Hu. cbn [snd] in Hu. apply lookup_insert_Some in Hu as [[_ <-]|[[] _]]; [apply andb_false_r|done]. }
    destruct Hc as [-> | ->]; by apply H.
  - intros n c us l Hc. destruct (fails c); [done|]. intros _. destruct Hc as [-> | ->]; apply lookup_delete_eq.
Qed.

(** The world of [BotScenarios], with a system user that is not the bot's. *)
#[local] Instance host_part : Part socks_host socks_host.
Proof. refine {| part_get s := s; part_set t _ := t |}; done. Defined.
Definition start_users : linux_users := {[py "root" := LinuxUser (Some (py "toor")) false]}.
Definition host_world (db : bot_tables) (us : linux_users) (tick : nat) : bot_world socks_host :=
  BotWorld db example_keys [] [] [] (SocksHost us healthy) tick.
Definition start_world : bot_world socks_host := host_world example_tables start_users 0.
Definition LOGIN2 : str := py "vpn_2_10000005".
Lemma start_accounted fails : accounted (host_env fails) (system_users start_world) start_world.
Proof.
  split; [|split; [|done]].
  - split; [constructor|constructor].
  - intros l u Hm Hu. change (({[py "root" := LinuxUser (Some (py "toor")) false]} : gmap str linux_user) !! l = Some u) in Hu.
    apply lookup_singleton_Some in Hu as [<- _]. discriminate Hm.
Qed.
Abbreviation issued := (issue_socks5_proxy example_env (host_env nothing_fails) 2 (Profile 2 None None) start_world).

Example what_is_issued :
  match issued with
  | (Ok a, w') => px_id a = 1 /\ px_status a = ProxyActive /\ row_login a = LOGIN2
      /\ system_users w' !! LOGIN2 = Some (LinuxUser (Some (py "hunter2")) false)
  | _ => False
  end.
Proof. vm_compute. repeat split. Qed.

(** ** The theorems on this host *)

Lemma issued_proxy_works_witness : exists a w', issued = (Ok a, w') /\ px_status a = ProxyActive
  /\ exists login password, system_users w' !! login = Some (LinuxUser (Some password) false).
Proof.
  assert (is_ok issued.1 = true) as H0 by (vm_compute; reflexivity).
  assert (bool_decide (is_Some (system_users issued.2 !! LOGIN2)) = true) as H1 by (vm_compute; reflexivity).
  destruct issued as [[a|e] w'] eqn:E; [|discriminate H0]. exists a, w'. split; [reflexivity|].
  destruct (issued_proxy_works example_env (host_env nothing_fails) 2 (Profile 2 None None) start_world a w' (start_accounted _) E)
    as (_ & _ & _ & _ & Hs & [(port & login & password & _ & _ & _ & Hu)|[Hsame _]]); split; [exact Hs|by exists login, password|exact Hs|].
  cbn [snd] in H1. rewrite Hsame in H1. vm_compute in H1. discriminate H1.
Defined.

(** Issued, shown, issued again, revoked, deleted and started up again. *)
Definition example_socks_ops : list socks_op :=
  [IssueSocks 2 (Profile 2 None None); ShowSocks 2; IssueSocks 1 (Profile 2 None None); ListSocks 2; RevokeSocks 1 1 None; StartUpSocks;
   IssueSocks 2 (Profile 2 None None); RevokeSocksSystem 1 2 None; DeleteSocks 1 1 None; StartUpSocks].
Lemma proxy_access_is_accounted_witness :
  let w' := socks_run example_env (host_env nothing_fails) example_socks_ops start_world in
  map px_status (proxy_rows w') = [ProxyDeleted; ProxyRevoked] /\ accounted (host_env nothing_fails) (system_users start_world) w'.
Proof.
  split; [vm_compute; reflexivity|].
  exact (proxy_access_is_accounted example_env (host_env nothing_fails) example_socks_ops start_world (start_accounted _)).
Defined.

(** A command that fails half way leaves a row for the pass at start-up. *)
Definition passwords_fail (c : dante_call) : bool := match c with ChPasswd _ => true | _ => false end.
Definition removals_fail (c : dante_call) : bool := match c with UserDel _ => true | _ => false end.
Definition locks_fail (c : dante_call) : bool := match c with PasswdLock _ => true | _ => false end.
Abbreviation cut_short := (socks_run example_env (host_env removals_fail) [IssueSocks 2 (Profile 2 None None); DeleteSocks 1 1 None] start_world).
Abbreviation started world := (reconcile_socks5_state example_env (host_env nothing_fails) world).
Lemma startup_pass_settles_witness :
  map px_status (proxy_rows cut_short) = [ProxyDeleteFailed]
  /\ match (started cut_short).1 with Ok s => rs_failed s = 0 | Err _ => False end
  /\ forall a, a ∈ proxy_rows (started cut_short).2 -> px_type a = SOCKS5 -> row_login a <> [] ->
       px_status a ∉ [ProxyPendingApply; ProxyPendingRevoke; ProxyPendingDelete; ProxyDeleteFailed].
Proof.
  split; [vm_compute; reflexivity|].
  assert (match (started cut_short).1 with Ok s => rs_failed s = 0 | Err _ => False end) as H0 by (vm_compute; reflexivity).
  split; [exact H0|].
  assert (Forall (fun a => 0 < px_id a) (proxy_rows cut_short)) as Hpos by (vm_compute; repeat constructor).
  pose proof (socks_run_ok example_env (host_env removals_fail) start_users [IssueSocks 2 (Profile 2 None None); DeleteSocks 1 1 None] start_world
                (start_accounted _)) as Hw.
  destruct (started cut_short) as [[s|e] w'] eqn:E; [|destruct H0].
  destruct (startup_pass_settles example_env (host_env nothing_fails) start_users cut_short (Ok s) w' Hw Hpos E) as (_ & _ & H).
  exact (H s eq_refl H0).
Defined.

(** The user of the login cannot be locked: the block names the access. *)
Abbreviation sold := (socks_run example_env (host_env locks_fail) [IssueSocks 2 (Profile 2 None None)] start_world).
Definition no_keys : key_type -> option (Z -> Z -> M (bot_world socks_host) bot_error unit) := fun _ => None.
Definition no_proxies : proxy_type -> option (Z -> Z -> M (bot_world socks_host) bot_error unit) := fun _ => None.
#[local] Instance nobody_modest : ModestRevokers no_keys no_proxies.
Proof. by split. Qed.
#[local] Instance nobody_near P : Bystanders P no_keys no_proxies.
Proof. by split. Qed.
Abbreviation hard_block := (block_user example_env no_keys (with_socks5 example_env (host_env locks_fail) no_proxies) 1 2 true sold).
Lemma block_shuts_socks_logins_witness :
  match hard_block with
  | (Ok res, w') => option_map can_log_in (system_users w' !! LOGIN2) = Some true
      /\ exists a, a ∈ proxy_rows w' /\ px_type a = SOCKS5 /\ row_login a = LOGIN2
           /\ (px_owner a <> 2 \/ reported is_proxy (br_errors res) (px_id a))
  | _ => False
  end.
Proof.
  assert (is_ok hard_block.1 = true) as H0 by (vm_compute; reflexivity).
  assert (option_map can_log_in (system_users hard_block.2 !! LOGIN2) = Some true) as H1 by (vm_compute; reflexivity).
  assert ((length (live_proxies hard_block.2 2) <= 500)%nat) as H2 by (vm_compute; lia).
  pose proof (socks_run_ok example_env (host_env locks_fail) start_users [IssueSocks 2 (Profile 2 None None)] start_world (start_accounted _)) as Hw.
  destruct Hw as (Hi & Ha & _).
  destruct hard_block as [[res|e] w'] eqn:E; [|discriminate H0]. split; [exact H1|]. cbn [snd] in H1, H2.
  destruct (system_users w' !! LOGIN2) as [u|] eqn:Hu; [|discriminate H1]. injection H1 as H1.
  apply (block_shuts_socks_logins example_env (host_env locks_fail) no_keys no_proxies 1 2 sold res w' LOGIN2 u E); [|exact H2|vm_compute; reflexivity|exact Hu|exact H1].
  split; [exact Hi|]. split; [exact Ha|reflexivity].
Defined.

(** ** Rows that say more than their users can do *)

(** [useradd] succeeds, [chpasswd] does not: the access is not handed out, and its row says
    so. The next start-up finds the system user and marks the row active: from then on
    the owner is shown a password that was never set. *)
Example user_without_password_becomes_active :
  let after := (issue_socks5_proxy example_env (host_env passwords_fail) 2 (Profile 2 None None) start_world).2 in
  map px_status (proxy_rows after) = [ProxyApplyFailed]
  /\ map px_status (proxy_rows (started after).2) = [ProxyActive]
  /\ option_map can_log_in (system_users (started after).2 !! LOGIN2) = Some false.
Proof. vm_compute. repeat split. Qed.
(** The row cannot be marked active and the system user cannot be deleted, so it is
    locked. The next start-up finds it and marks the row active; the user stays locked. *)
Definition one_fault (n : nat) : bot_env := BotEnv (fun k => negb (k =? n)%nat) (fun n => [N.of_nat n]) (fun _ => true) [1].
Example locked_user_becomes_active :
  let after := (issue_socks5_proxy (one_fault 19) (host_env removals_fail) 2 (Profile 2 None None) start_world).2 in
  map px_status (proxy_rows after) = [ProxyApplyFailed]
  /\ map px_status (proxy_rows (started after).2) = [ProxyActive]
  /\ option_map lu_locked (system_users (started after).2 !! LOGIN2) = Some true.
Proof. vm_compute. repeat split. Qed.
