(* ===== verification/MtScenarios.v ===== *)
(** * The MTProto service on a small host

    The theorems of [MtProxySafety], [MtProtoIssue], [MtProtoStartup], [MtProtoService]
    and [ProxyTogether] on the host of [ProxyScenarios], with a proxy whose service
    manager does what it is asked, unless it is told to fail. *)

From S2P Require Import Prelude PyText Sha256 IsoTime AwgConfig VpnKeys BackendHealth AwgService BotDb Accounts AccountSafety BlockSafety DanteUsers ProxyRows Socks5 ProxySafety ProxyStartup ProxyIssue ProxyBlock MtProxy MtProto MtProxySafety MtProxyProcess MtProtoSafety MtProtoAccess MtProtoProcess MtProtoStartup MtProtoIssue MtProtoService ProxyTogether BotScenarios ProxyScenarios.
#[local] Open Scope Z_scope.
#[local] Existing Instance plain_iso.
#[local] Existing Instance host_tools.

(** ** The host *)

Definition both_hosts : Type := socks_host * mt_host.
#[local] Instance socks_part : Part both_hosts socks_host.
Proof. refine {| part_get s := s.1; part_set t s := (t, s.2) |}; try done. by intros []. Defined.
#[local] Instance proxy_part : Part both_hosts mt_host.
Proof. refine {| part_get s := s.2; part_set t s := (s.1, t) |}; try done. by intros []. Defined.
#[local] Instance socks_apart : Apart both_hosts socks_host mt_host.
Proof. by intros a s. Defined.
#[local] Instance proxy_apart : Apart both_hosts mt_host socks_host.
Proof. by intros a s. Defined.
Definition mt_settings : mtproto_settings :=
  MtprotoSettings true true true (py "proxy.example") 8888 [] (py "Proxy") [].
Definition mt_values : list (str * str) := [(py "MTPROXY_PORT", py "8888")].
(** What becomes of a restart: it works, it stops the proxy and cannot start it, or it fails
    and leaves the old process. *)
Inductive restart_outcome := Runs | Stops | Stuck.
Definition restart_as (how : restart_outcome) (h : mt_host) : option bool * option (list str) :=
  match how with Runs => (Some true, start_secrets (mf_store (mh_files h))) | Stops => (Some false, None) | Stuck => (Some false, mh_process h) end.
Definition mt_server (how : restart_outcome) (rollback : bool) : mtproxy_env :=
  MtProxyEnv (MtProxySettings mt_values rollback false) (fun _ => true) (fun _ => true) (fun _ => false) (fun _ => (true, true))
    (fun _ => restart_as how) (fun _ => Some true) (fun _ p => Some (negb (bool_decide (p = None)))) (fun _ => py "00000000000000000000000000000000")
    (fun _ new _ => (Some 0, MtHost (MtFiles (Store new.1 true) (Some new.2)) (start_secrets (Store new.1 true)))).
Definition mt_env (how : restart_outcome) (rollback : bool) : mtproto_env :=
  MtprotoEnv mt_settings (mt_server how rollback) (fun _ _ => (py "failed", false)) (fun n => take 32 (sha256_hex (show_Z (Z.of_nat n)))).
#[local] Instance mt_helper how rollback : MtHelper (me_proxy (mt_env how rollback)).
Proof. split; cbn; [done|]. intros n d content h. by left. Qed.
#[local] Instance mt_service how rollback : MtService (me_proxy (mt_env how rollback)).
Proof. split; cbn; [|done|done]. intros n h. destruct how; cbn; [by right|done|done]. Qed.
(** A restart that works, and one that stops the proxy, leave no old process. *)
Lemma mt_recovers how : how <> Stuck -> MtRecovers (me_proxy (mt_env how true)).
Proof.
  intros Hh. split; cbn; [|done|done|].
  - intros n h. destruct how; cbn; [by right|by left|by destruct Hh].
  - intros n new h _. by right.
Qed.
#[local] Instance mt_recovers_runs : MtRecovers (me_proxy (mt_env Runs true)) := mt_recovers Runs ltac:(discriminate).
Definition empty_secret : str := py "ffffffffffffffffffffffffffffffff".
Definition empty_document : mt_document := MtDocument 0 [] [Placeholder empty_secret].
Definition mt_start : bot_world both_hosts :=
  BotWorld example_tables example_keys [] [] []
    (SocksHost start_users healthy, MtHost (MtFiles (Store empty_document true) (Some [])) (Some [empty_secret])) 0.
Lemma mt_start_fresh : fresh mt_start.
Proof. right. vm_compute. reflexivity. Qed.
Lemma mt_start_accounted : mt_accounted mt_settings mt_start.
Proof. split; [split; constructor|]. intros s Hs. vm_compute in Hs. by apply elem_of_nil in Hs. Qed.
Lemma both_start_accounted fails : accounted (host_env fails) (system_users mt_start) mt_start.
Proof.
  split; [|split; [|done]].
  - split; [constructor|constructor].
  - intros l u Hm Hu. change (({[py "root" := LinuxUser (Some (py "toor")) false]} : gmap str linux_user) !! l = Some u) in Hu.
    apply lookup_singleton_Some in Hu as [<- _]. discriminate Hm.
Qed.
Abbreviation mt_issued := (issue_mtproto_proxy example_env (mt_env Runs true) 2 (Profile 2 None None) mt_start).
Abbreviation mt_asked ops := (mt_run example_env (mt_env Runs true) ops mt_start).

(** ** The theorems on this host *)

Lemma issued_mtproto_proxy_works_witness : exists r w', mt_issued = (Ok r, w')
  /\ in_step (mt_env Runs true) w' /\ MtProxyProcess.started w'
  /\ exists x, x ∈ running w' /\ mtproto_secret_fingerprint x = mtproto_secret_fingerprint (payload_text (py "secret") (px_payload r)).
Proof.
  assert (is_ok mt_issued.1 = true) as H0 by (vm_compute; reflexivity). destruct mt_issued as [[r|e] w'] eqn:E; [|discriminate H0].
  exists r, w'. split; [reflexivity|].
  assert (0 <= sr_seq (bt_proxies (bw_tables mt_start))) as Hseq by (vm_compute; discriminate).
  destruct (issued_mtproto_proxy_works example_env (mt_env Runs true) 2 (Profile 2 None None) mt_start r w' eq_refl mt_start_accounted Hseq E)
    as (_ & [(_ & (b & Hb & _) & _)|(H1 & (_ & H2) & _)]); [destruct (not_elem_of_nil b Hb)|]. split; [exact H1|exact H2].
Defined.

Lemma head_in {A} (l : list A) a : head l = Some a -> a ∈ l.
Proof. destruct l; [done|]. intros [= ->]. by left. Qed.
Abbreviation mt_sold := (mt_asked [IssueMt 2 (Profile 2 None None); IssueMt 1 (Profile 1 None None)]).
Lemma mt_sold_accounted : mt_accounted mt_settings mt_sold.
Proof. apply (mtproto_secrets_are_accounted example_env (mt_env Runs true)), mt_start_accounted. Qed.
Lemma mt_sold_fresh : fresh mt_sold.
Proof. right. vm_compute. reflexivity. Qed.
Abbreviation mt_withdrawn := (revoke_mtproto_proxy_system example_env (mt_env Runs true) 1 1 None mt_sold).
Lemma revoked_secret_is_withdrawn_witness : length (served mt_sold) = 4%nat /\ exists r w', mt_withdrawn = (Ok r, w') /\ length (served w') = 2%nat
  /\ length (running mt_sold) = 2%nat /\ length (running w') = 1%nat
  /\ (forall b, b ∈ proxy_rows w' -> px_id b = 1 -> may_exist b = false)
  /\ exists secrets, managed_secrets_from_accesses mt_settings (actives w') = Ok secrets /\ serves (mf_store (files w')) secrets /\ serves_now w' secrets.
Proof.
  split; [vm_compute; reflexivity|]. assert (is_ok mt_withdrawn.1 = true) as H0 by (vm_compute; reflexivity).
  assert (length (served mt_withdrawn.2) = 2%nat /\ length (running mt_sold) = 2%nat /\ length (running mt_withdrawn.2) = 1%nat) as H1 by (vm_compute; repeat split).
  assert (match head (proxy_rows mt_sold) with Some a => px_id a = 1 /\ may_exist a = true /\ is_managed a = true | None => False end) as H2
    by (vm_compute; repeat split).
  destruct (head (proxy_rows mt_sold)) as [a|] eqn:Ha; [|destruct H2]. destruct H2 as (Hid & Hx & Hm). apply head_in in Ha.
  destruct mt_withdrawn as [[r|e] w'] eqn:E; [|discriminate H0]. exists r, w'. split; [reflexivity|].
  destruct H1 as (H1 & H4 & H5). split; [exact H1|]. split; [exact H4|]. split; [exact H5|].
  destruct (revoked_secret_is_withdrawn example_env (mt_env Runs true) 1 1 None mt_sold a r w' mt_sold_accounted Ha Hid Hx Hm mt_sold_fresh E) as (_ & H2 & _ & H3).
  split; [exact H2|exact H3].
Defined.

(** A restart that fails, and is rolled back. *)
Abbreviation not_restarted rollback := (apply_managed_secrets (mt_server Stops rollback) [MtSecret (py "0123456789abcdef0123456789abcdef") (py "aa") None None] mt_start).
Lemma rollback_restores_the_files_witness : (not_restarted true).1 = Err (MtProxy RolledBack)
  /\ files (not_restarted true).2 = files mt_start.
Proof.
  assert ((not_restarted true).1 = Err (MtProxy RolledBack)) as H0 by (vm_compute; reflexivity). split; [exact H0|].
  apply (rollback_restores_the_files (mt_server Stops true) [MtSecret (py "0123456789abcdef0123456789abcdef") (py "aa") None None]).
  exact (run_fst _ _ H0).
Defined.

(** A restart that fails and is not rolled back leaves a secret of an access that is not
    active: the pass at start-up takes it away. *)
Abbreviation mt_cut_short := (mt_run example_env (mt_env Stops false) [IssueMt 2 (Profile 2 None None)] mt_start).
Lemma mtproto_startup_brings_into_step_witness : length (served mt_cut_short) = 2%nat /\ running mt_cut_short = []
  /\ exists s w', reconcile_mtproto_state example_env (mt_env Runs true) mt_cut_short = (Ok s, w') /\ su_orphaned s = 1 /\ served w' = []
  /\ fresh w' /\ length (running w') = 1%nat
  /\ (forall fp, fp <> EMPTY_PLACEHOLDER -> fp ∈ map ms_fingerprint (served w') <-> exists a, a ∈ actives w' /\ access_fingerprint mt_settings a = Ok fp)
  /\ forall x, x ∈ running w' -> stands_in w' x \/ exists secret, secret ∈ served w' /\ ms_secret secret = x
       /\ (ms_fingerprint secret <> EMPTY_PLACEHOLDER -> exists a, a ∈ actives w' /\ access_fingerprint mt_settings a = Ok (ms_fingerprint secret)).
Proof.
  split; [vm_compute; reflexivity|]. split; [vm_compute; reflexivity|].
  assert (match reconcile_mtproto_state example_env (mt_env Runs true) mt_cut_short with
          | (Ok s, w') => su_orphaned s = 1 /\ su_fatal s = 0 /\ served w' = [] /\ length (running w') = 1%nat | _ => False end) as H0 by (vm_compute; repeat split).
  assert (fresh mt_cut_short) as Hf by (left; vm_compute; reflexivity).
  pose proof (mtproto_secrets_are_accounted example_env (mt_env Stops false) [IssueMt 2 (Profile 2 None None)] mt_start mt_start_accounted) as Hw.
  destruct (mtproto_startup_brings_into_step example_env (mt_env Runs true) mt_cut_short Hw) as (s & w' & E & _ & Hf' & H).
  exists s, w'. rewrite E in H0. destruct H0 as (H1 & H2 & H3 & H4). split; [exact E|]. split; [exact H1|]. split; [exact H3|].
  specialize (Hf' mt_recovers_runs Hf). split; [exact Hf'|]. split; [exact H4|]. destruct (H eq_refl eq_refl eq_refl H2) as [H5 H6].
  split; [exact H5|exact (H6 Hf')].
Defined.

(** A revocation that is tried again after a restart that failed and left the old process,
    with [rollback_on_apply_failure] off: the document is found to be right, nothing is
    restarted, the row is closed, and the proxy goes on with the secret. *)
Abbreviation mt_stuck := (revoke_mtproto_proxy_system example_env (mt_env Stuck false) 1 1 None mt_sold).2.
Abbreviation mt_retried := (revoke_mtproto_proxy_system example_env (mt_env Runs false) 1 1 None mt_stuck).
Example retried_revocation_leaves_the_secret_running :
  is_ok mt_retried.1 = true /\ map px_status (proxy_rows mt_stuck) = [ProxyRevokeFailed; ProxyActive]
  /\ map px_status (proxy_rows mt_retried.2) = [ProxyRevoked; ProxyActive]
  /\ length (served mt_retried.2) = 2%nat /\ running mt_retried.2 = running mt_sold /\ length (running mt_sold) = 2%nat.
Proof. vm_compute. repeat split. Qed.

(** Both services at once. *)
Definition example_proxy_ops : list proxy_op :=
  [SocksOp (IssueSocks 2 (Profile 2 None None)); MtOp (IssueMt 2 (Profile 2 None None)); SocksOp (RevokeSocks 1 1 None); MtOp StartUpMt;
   MtOp (DeleteMt 1 2 None); SocksOp StartUpSocks; SocksOp (IssueSocks 2 (Profile 2 None None)); MtOp (IssueMt 2 (Profile 2 None None))].
Abbreviation both_asked := (proxies_run example_env (host_env nothing_fails) (mt_env Runs true) example_proxy_ops mt_start).
Lemma proxy_services_stay_accounted_witness :
  map px_status (proxy_rows both_asked) = [ProxyRevoked; ProxyDeleted; ProxyActive; ProxyActive] /\ length (served both_asked) = 2%nat
  /\ accounted (host_env nothing_fails) (system_users mt_start) both_asked /\ mt_accounted mt_settings both_asked
  /\ length (running both_asked) = 1%nat /\ fresh both_asked /\ running_covered mt_settings both_asked.
Proof.
  split; [vm_compute; reflexivity|]. split; [vm_compute; reflexivity|].
  destruct (proxy_services_stay_accounted example_env (host_env nothing_fails) (mt_env Runs true) example_proxy_ops mt_start (both_start_accounted _) mt_start_accounted)
    as (H1 & H2 & H3).
  split; [exact H1|]. split; [exact H2|]. split; [vm_compute; reflexivity|]. exact (H3 mt_recovers_runs mt_start_fresh).
Defined.

(** The block of a user whose login cannot be locked: the secret is withdrawn, the login is named. *)
Definition no_key_revokers : key_type -> option (Z -> Z -> M (bot_world both_hosts) bot_error unit) := fun _ => None.
#[local] Instance no_keys_modest : ModestRevokers no_key_revokers nobody.
Proof. by split. Qed.
#[local] Instance no_keys_near P : Bystanders P no_key_revokers nobody.
Proof. by split. Qed.
Abbreviation both_sold := (proxies_run example_env (host_env locks_fail) (mt_env Runs true)
  [SocksOp (IssueSocks 2 (Profile 2 None None)); MtOp (IssueMt 2 (Profile 2 None None)); MtOp (IssueMt 1 (Profile 1 None None))] mt_start).
Abbreviation both_blocked := (block_user example_env no_key_revokers (attached example_env (host_env locks_fail) (mt_env Runs true)) 1 2 true both_sold).
Lemma block_withdraws_the_proxies_witness :
  match both_blocked with
  | (Ok res, w') => map px_status (proxy_rows w') = [ProxyActive; ProxyRevoked; ProxyActive] /\ length (br_errors res) = 2%nat
      /\ length (served both_sold) = 4%nat /\ length (served w') = 2%nat
      /\ length (running both_sold) = 2%nat /\ length (running w') = 1%nat
      /\ (forall s, s ∈ served w' -> spared (mt_env Runs true) 2 res (ms_fingerprint s) w')
      /\ fresh w' /\ forall x, x ∈ running w' -> stands_in w' x \/ exists s, ms_secret s = x /\ spared (mt_env Runs true) 2 res (ms_fingerprint s) w'
  | _ => False
  end.
Proof.
  assert (match both_blocked with
    | (Ok res, w') => map px_status (proxy_rows w') = [ProxyActive; ProxyRevoked; ProxyActive] /\ length (br_errors res) = 2%nat
        /\ length (served both_sold) = 4%nat /\ length (served w') = 2%nat
        /\ length (running both_sold) = 2%nat /\ length (running w') = 1%nat /\ (length (live_proxies w' 2) <= 500)%nat
    | _ => False end) as H0 by (vm_compute; repeat split; lia).
  pose proof (proxies_run_ok example_env (host_env locks_fail) (mt_env Runs true) (system_users mt_start)
    [SocksOp (IssueSocks 2 (Profile 2 None None)); MtOp (IssueMt 2 (Profile 2 None None)); MtOp (IssueMt 1 (Profile 1 None None))]
    mt_start (both_start_accounted _) mt_start_accounted) as [(Hi & Ha & _) Hm].
  destruct both_blocked as [[res|e] w'] eqn:E; [|destruct H0]. destruct H0 as (H1 & H2 & H3 & H4 & H6 & H7 & H5). do 6 (split; [assumption|]).
  assert (fresh both_sold) as Hf by (right; vm_compute; reflexivity).
  destruct (block_withdraws_the_proxies example_env (host_env locks_fail) (mt_env Runs true) no_key_revokers 1 2 both_sold res w' E) as (_ & H8 & H9); [|exact Hm|exact H5|].
  - split; [exact Hi|]. split; [exact Ha|reflexivity].
  - split; [exact H8|]. exact (H9 mt_recovers_runs _ Hf).
Defined.
